(* ===== verification/_CoqProject ===== *)
-Q . S2P
Prelude.v
Crc32.v
Pmm.v
Kheap.v
Vmm.v
Usercopy.v
Mmap.v
Bytes.v
BlockDev.v
Journal.v
SdfsBlock.v
SdfsDir.v
Sdfs.v
Vfs.v
Task.v
TaskRing.v
TaskSched.v
TaskInv.v
TaskStack.v
TaskProc.v
Pipe.v
PipeFifo.v
PipeRefs.v
CString.v
Net.v
Tcp.v
TcpInv.v
TcpBuf.v
NetRx.v
NetTcp.v
Fat.v
FatChain.v
FatAlloc.v
FatRead.v
FatName.v
FatDir.v
FatFind.v
FatFile.v
FatPath.v
FatFmt.v
FatTop.v
Pen.v
Initrd.v
Elf.v
Dns.v
Dhcp.v
Resolver.v
Http.v
Terminal.v
NetIf.v
Keyboard.v
Mouse.v
UsbHid.v
Kern.v
Tty.v
Files.v
FilesSpec.v
SdfsWrite.v
FilesTop.v
Exec.v
ExecMap.v
ExecTop.v
Geom.v
Scene.v
SceneTree.v
SceneInv.v
SceneTop.v
SceneFrame.v
SceneRun.v
EventBus.v
InputManager.v
