(* ===== verification/Prelude.v ===== *)
(** * LiwusOS kernel: a verification library

    LiwusOS is a 64-bit kernel in C ([src/src]).  This library models its core in
    Rocq, as executable definitions translated from the source, and proves what
    makes it correct.  Input drivers and the scene graph of the graphical
    interface are part of it; other drivers, the drawing of pixels, user programs
    and vendored code are outside.

    ** The program

    The kernel allocates physical frames ([mm/pmm.c]) and heap blocks
    ([mm/kheap.c]), maps pages ([mm/vmm.c]) and checks every user pointer
    against the page tables ([mm/usercopy.c]).  Tasks are heap records in a ring
    that the timer interrupt schedules ([sched/task.c]); they talk through pipes
    behind file descriptors ([core/syscall.c]).  Files live in SDFS
    ([fs/sdfs.c]) on a block device, with a metadata journal ([fs/journal.c])
    protected by CRC-32 ([fs/crc32.c]), and are reached through mounts
    ([fs/vfs.c], [fs/devfs.c]).  A USB stick or partition with FAT32
    ([fs/fat32.c]) is mounted by [fs/pen.c]; the initial RAM disk is a tar archive
    ([fs/initrd.c]) whose files are copied to the root file system.  Programs are
    loaded from ELF files ([core/elf.c]).  Frames from the network card go through
    [net/netstack.c] to TCP ([net/tcp.c]) and UDP ([net/udp.c]); DHCP, DNS and
    HTTP ([net/dhcp.c], [net/dns.c], [net/http.c]) are clients of these.  The
    terminal ([kernel/terminal]) splits a typed line and runs the command.
    Scan codes and USB reports ([drivers/keyboard.c], [drivers/mouse.c],
    [drivers/usb_hid.c]) become the characters that [sys_read] delivers through a
    line discipline; [sys_open] to [sys_getdents64] and [sys_execve]
    ([core/syscall.c]) put files and programs behind it.  Windows and widgets are
    a tree of nodes ([gui/scene/node.c]) under a camera ([gui/scene/camera.c]); once
    per frame the input manager ([gui/input/input_manager.c]) posts what the keyboard
    and the mouse did to the event bus ([gui/core/event_bus.c]).

    ** The files, in order

    - [Prelude]: machine integers as [Z] with explicit wrap-around ([u8] ...
      [s64]), bit lemmas, arrays, the state-and-failure monad [M S A] ([None] is
      a stop: a panic, a bad pointer, or fuel used up), tactics.
    - [Crc32]: [crc32.c].
    - [Pmm], [Kheap], [Vmm], [Usercopy]: the files of [mm/].  [Kheap] contains
      the state of [Pmm], [Vmm] that of [Kheap].  Block headers and page-table
      entries are maps by address; payload bytes are the map [kbytes].
    - [Mmap]: [sys_mmap] and [sys_munmap] of [syscall.c] over the page tables.
    - [Bytes]: packed structures as byte lists.  [BlockDev]: the class of block
      devices with the RAM disk and the PIO disk.  [Journal]: [journal.c] over
      that class, with a device that loses power as a further instance.
    - [SdfsBlock] (bitmap and chains), [SdfsDir] (directory entries), [Sdfs]
      (paths, format, mount, files, the VFS callbacks): [sdfs.c].
    - [Vfs]: [vfs.c] over the class [FsNode] of file systems; SDFS and
      [devfs.c] are its instances.
    - [Task]: [task.c] with the timer tick; [TaskRing] (the ring),
      [TaskSched] (the scheduler), [TaskInv] and [TaskProc] (the invariant and
      process calls), [TaskStack] (the first frames and canaries).
    - [Pipe]: the descriptor table and pipes of [syscall.c]; [PipeFifo] (queue
      behaviour), [PipeRefs] (reference counts).
    - [CString]: [lib/string.c] on a byte memory.
    - [Net] ([netstack.c]: checksum, ARP, IPv4 output), [Tcp] ([tcp.c]),
      [TcpInv] (typing of sockets), [TcpBuf] (the receive buffer), [NetRx]
      (input of [netstack.c] and [udp.c]), [NetTcp] (the layers together),
      [NetIf] (the interface list of [net.c]).
    - [Fat] (sectors, the file allocation table), [FatChain] (chains of clusters
      and the invariant of a volume), [FatAlloc] (allocation), [FatRead] (file
      data), [FatName] (8.3 and long names), [FatDir], [FatFind] (directories),
      [FatFile] (write, delete), [FatPath] (paths and the VFS callbacks),
      [FatFmt] (format), [FatTop] (the operations together): [fat32.c], over the
      record of block callbacks [block_io], whose laws are [io_ok].
    - [Pen]: the mount and the song list of [pen.c].  [Initrd]: [initrd.c].
      [Elf]: [elf.c] over the page tables of [Vmm].
    - [Dns], [Dhcp]: the messages of [dns.c] and [dhcp.c]; [Resolver] (their
      waiting loops with the frames that arrive meanwhile); [Http]: URLs,
      requests and responses of [http.c].
    - [Terminal]: line editing, the parser and the dispatcher of the terminal.
    - [Keyboard], [Mouse], [UsbHid]: the input drivers.  [Kern]: the state behind
      the system calls.  [Tty]: descriptors 0 to 2 with the line discipline.
      [Files]: the calls on files and directories, over the class [FsNode];
      [FilesSpec] (the interface [FileSystem] and what the calls promise over it),
      [SdfsWrite] (SDFS implements it), [FilesTop] (both together).
    - [Exec]: loading a program and building its stack; [ExecMap] (the stack
      pages), [ExecTop] ([sys_execve] and [do_execve]).
    - [Geom]: rectangles, transforms and the camera.  [Scene]: the nodes of the
      scene graph, the widgets and the passes of a frame; [SceneTree] (forests),
      [SceneInv] (the invariant), [SceneTop] (when adding a child returns),
      [SceneFrame] and [SceneRun] (positions, drawing order and hit testing).
      [EventBus]: the event bus over any handlers; [InputManager]: the poll of the
      drivers of [Keyboard] and [Mouse] and its events.

    A definition carries the name of the C function it models; a loop is a
    [Fixpoint] named after it ([_loop], [_walk], [_scan]).

    ** What the theorems show

    - Memory: in every run frames and heap blocks are never handed out twice,
      [kmalloc] succeeds exactly while memory lasts, a mapping translates as
      requested, user copies stay in user pages, [mmap] gives fresh zeroed pages.
    - Storage: a metadata write survives a power loss at any block write; a file
      that was written is read back, through SDFS, through FAT32 and through the
      VFS; directory entries and CRCs are exact; FAT32 allocates all clusters or
      none, its batched read equals the read cluster by cluster, and a freshly
      formatted volume can be mounted and written; the files of the RAM disk are
      those of the archive.
    - Programs: after a load the memory holds each segment at its address, zero
      behind its file part, and the entry point is that of the file.
    - Tasks: the task list stays a ring without dangling pointers in every run;
      the scheduler is round robin; [waitpid] reaps the right child.
    - Pipes and TCP: the ring of a pipe and the receive buffer of a socket
      implement byte queues; reference counts are exact; sockets stay well typed;
      a SYN is answered with a SYN-ACK, a ping with its reply, all checksums
      verifying at the receiver.
    - Clients: a name is resolved to the address of the answer and the resolver
      gives up after its rounds; DHCP binds the offered address; a URL splits
      into its parts; a typed line into its quoted arguments.
    - Input and files: typed text reaches the reader of descriptor 0 line by line;
      a descriptor implements a file with a position, on SDFS in particular.
    - [execve]: the new program finds its segments in memory and its arguments on a
      fresh stack.
    - Scene graph: in every run the nodes are a forest in heap blocks of their own;
      a frame draws the visible nodes once each, in painter order, where their
      positions add up, and the mouse hits the topmost; the zoom of the camera
      stays within its bounds, zooming keeps the point under the pivot, and the
      inertia ends.
    - Events: the bus implements a map of listeners and a bounded queue, its sort is
      stable; who follows the events knows the state of keys, buttons and pointer,
      and typed text reaches every subscriber in order.
    - Strings: [memcpy], [memmove], [strcat] and [itoa] meet their usual
      specifications, with the exact exceptions.
    - Several theorems state a defect the model shows: a split large page exposes
      its neighbours, deleting a file hides later ones, the parent of an exiting
      process is stranded, a pipe reader never sees end-of-file, an oversized TCP
      segment leaves its buffer, the heap grows over allocated frames, and others named in the files.

    ** Fuel and bounds

    Loops whose recursion is not structural take fuel, and theorems show that it
    is enough: the free list is walked with the number of block headers, the task
    ring with the number of tasks, the sockets with their number, block chains
    with the number of blocks of the disk, a C string with the size of memory, a
    pipe transfer with the byte count, the checksum fold with two rounds, [itoa]
    with the 32 cells of its buffer.  A chain of FAT clusters is walked with a
    parameter that the theorems require to be at least the length of the chain;
    the RAM disk with one round per 512 bytes, the options of DHCP with 313
    rounds, the labels of a DNS name with the length of the message.  A mapping takes at most four page tables
    of 8200 bytes of heap ([PAGE_ROOM]).  Recursions over the scene graph take the
    number of nodes and one, which a forest never exceeds; its two passes keep the
    1024 stack entries of the code, and the theorems ask for at most that many
    nodes.  Waiting loops of the terminal take the list of what arrives in each
    round, a timed read 10 rounds per unit of [VTIME], a directory listing one
    round per 280 bytes of the buffer.

    ** Not modelled

    Hardware (drivers of disks, sound, USB hosts, network and graphics cards,
    interrupt controllers, context switch, caches), console output, timing
    (waiting loops take the list of what happens meanwhile), the commands of the
    terminal, sockets behind descriptors, the dispatch table of the system calls,
    TLS, the rest of the graphical interface (pixels, the handlers of events, layout, applications
    and its system calls), user programs, and third-party code.  Kernel code that
    runs with the lock held and interrupts off is one atomic step. *)

From Stdlib Require Import ZArith Lia.
From stdpp Require Import base numbers list gmap.

#[global] Open Scope Z_scope.

(** ** Machine integers

    A C integer of width [w] is a [Z]; the wrap-around of unsigned arithmetic
    is written out with [u8] ... [u64], a signed 32-bit reading with [s32]. *)

Definition u8 (z : Z) : Z := z mod 2 ^ 8.
Definition u16 (z : Z) : Z := z mod 2 ^ 16.
Definition u32 (z : Z) : Z := z mod 2 ^ 32.
Definition u64 (z : Z) : Z := z mod 2 ^ 64.
Definition s32 (z : Z) : Z := (z + 2 ^ 31) mod 2 ^ 32 - 2 ^ 31.
Definition s64 (z : Z) : Z := (z + 2 ^ 63) mod 2 ^ 64 - 2 ^ 63.

Definition is_byte (b : Z) : Prop := 0 <= b < 2 ^ 8.
Definition is_u32 (z : Z) : Prop := 0 <= z < 2 ^ 32.
Definition is_u64 (z : Z) : Prop := 0 <= z < 2 ^ 64.

#[global] Instance is_byte_dec b : Decision (is_byte b).
Proof. unfold is_byte. apply _. Defined.
#[global] Instance is_u32_dec z : Decision (is_u32 z).
Proof. unfold is_u32. apply _. Defined.
#[global] Instance is_u64_dec z : Decision (is_u64 z).
Proof. unfold is_u64. apply _. Defined.

(** [x &~ m] of C, on the bits of [x]: [m] is the mask that is cleared. *)
Declare Scope c_scope.
Delimit Scope c_scope with c.
Notation "x &~ m" := (Z.land x (Z.lnot m)) (at level 40, left associativity) : c_scope.
#[global] Open Scope c_scope.

(** ** Automation *)

Create HintDb liwus.

(** Turn the boolean comparisons of the code into propositions. *)
Ltac zbool :=
  repeat match goal with
  | H : (_ && _)%bool = true |- _ => apply andb_true_iff in H as [? ?]
  | H : (_ || _)%bool = false |- _ => apply orb_false_iff in H as [? ?]
  | H : negb _ = true |- _ => apply negb_true_iff in H
  | H : negb _ = false |- _ => apply negb_false_iff in H
  | H : (_ <? _) = true |- _ => apply Z.ltb_lt in H
  | H : (_ <? _) = false |- _ => apply Z.ltb_ge in H
  | H : (_ <=? _) = true |- _ => apply Z.leb_le in H
  | H : (_ <=? _) = false |- _ => apply Z.leb_gt in H
  | H : (_ =? _) = true |- _ => apply Z.eqb_eq in H
  | H : (_ =? _) = false |- _ => apply Z.eqb_neq in H
  | H : Z.geb _ _ = _ |- _ => rewrite Z.geb_leb in H
  | H : Z.gtb _ _ = _ |- _ => rewrite Z.gtb_ltb in H
  end.

(** Case analysis on the tests of a branch, with the facts they give. *)
Ltac ztest :=
  match goal with
  | |- context [if ?b then _ else _] =>
      lazymatch type of b with bool => destruct b eqn:? end
  end; zbool.

(** The same for every comparison of the goal. *)
Ltac zcases :=
  repeat match goal with
  | |- context [?a <=? ?b] => destruct (Z.leb_spec a b)
  | |- context [?a <? ?b] => destruct (Z.ltb_spec a b)
  | |- context [?a =? ?b] => destruct (Z.eqb_spec a b)
  end; cbn [andb orb negb].

(** Linear arithmetic with [/] and [mod] by constants. *)
Ltac zlia := Z.div_mod_to_equations; lia.

(** Equalities of closed terms, by evaluation. *)
Ltac by_vm := match goal with |- ?a = ?b => vm_cast_no_check (@eq_refl _ b) end.

(** A closed decidable fact, by evaluating its decision procedure. *)
Ltac by_compute :=
  match goal with |- ?P => apply (bool_decide_eq_true_1 P) end; vm_compute; reflexivity.

Ltac wrap_unfold := unfold u8, u16, u32, u64, s32, s64, is_byte, is_u32, is_u64 in *.

Lemma u32_small z : 0 <= z < 2 ^ 32 -> u32 z = z.
Proof. apply Z.mod_small. Qed.
Lemma u64_small z : 0 <= z < 2 ^ 64 -> u64 z = z.
Proof. apply Z.mod_small. Qed.
Lemma u8_small z : 0 <= z < 2 ^ 8 -> u8 z = z.
Proof. apply Z.mod_small. Qed.
Lemma u16_small z : 0 <= z < 2 ^ 16 -> u16 z = z.
Proof. apply Z.mod_small. Qed.
Lemma u32_range z : is_u32 (u32 z).
Proof. apply Z.mod_pos_bound; lia. Qed.
Lemma u64_range z : is_u64 (u64 z).
Proof. apply Z.mod_pos_bound; lia. Qed.
Lemma u8_range z : is_byte (u8 z).
Proof. apply Z.mod_pos_bound; lia. Qed.
#[export] Hint Resolve u32_range u64_range u8_range : liwus.

(** ** Bits *)

Lemma testbit_high z n i : 0 <= n -> 0 <= z < 2 ^ n -> n <= i -> Z.testbit z i = false.
Proof.
  intros Hn Hz Hi. exact (proj1 (Z.bounded_iff_bits_nonneg' n z Hn (proj1 Hz)) Hz i Hi).
Qed.

Lemma range_of_bits z n :
  0 <= n -> 0 <= z -> (forall i, n <= i -> Z.testbit z i = false) -> 0 <= z < 2 ^ n.
Proof. intros Hn Hz H. by apply (Z.bounded_iff_bits_nonneg' n z). Qed.

Lemma lxor_range a b n :
  0 <= n -> 0 <= a < 2 ^ n -> 0 <= b < 2 ^ n -> 0 <= Z.lxor a b < 2 ^ n.
Proof.
  intros Hn Ha Hb. apply range_of_bits; [done | |].
  - apply Z.lxor_nonneg. lia.
  - intros i Hi. by rewrite Z.lxor_spec, !(testbit_high _ n i).
Qed.

Lemma lor_range a b n :
  0 <= n -> 0 <= a < 2 ^ n -> 0 <= b < 2 ^ n -> 0 <= Z.lor a b < 2 ^ n.
Proof.
  intros Hn Ha Hb. apply range_of_bits; [done | |].
  - apply Z.lor_nonneg. lia.
  - intros i Hi. by rewrite Z.lor_spec, !(testbit_high _ n i).
Qed.

Lemma land_range a b n :
  0 <= n -> 0 <= a < 2 ^ n -> 0 <= Z.land a b < 2 ^ n.
Proof.
  intros Hn Ha. apply range_of_bits; [done | |].
  - apply Z.land_nonneg. lia.
  - intros i Hi. by rewrite Z.land_spec, (testbit_high _ n i).
Qed.

Lemma shiftr_range a k n m :
  0 <= k -> 0 <= n -> 0 <= a < 2 ^ m -> m <= n + k -> 0 <= Z.shiftr a k < 2 ^ n.
Proof.
  intros Hk Hn Ha Hm. apply (Z.pow_le_mono_r 2) in Hm; [|done].
  rewrite Z.shiftr_div_pow2 by done. rewrite Z.pow_add_r in Hm by done.
  split; [apply Z.div_pos; lia | apply Z.div_lt_upper_bound; lia].
Qed.

(** A value below [2 ^ k] and a multiple of [2 ^ k] do not overlap. *)
Lemma lor_shiftl_add a b k :
  0 <= k -> 0 <= a < 2 ^ k -> Z.lor a (Z.shiftl b k) = a + b * 2 ^ k.
Proof.
  intros Hk Ha. rewrite <- Z.shiftl_mul_pow2 by done.
  symmetry. apply Z.add_nocarry_lor. apply Z.bits_inj'. intros i Hi.
  rewrite Z.land_spec, Z.bits_0. destruct (decide (k <= i)).
  - by rewrite (testbit_high a k i).
  - rewrite Z.shiftl_spec_low by lia. by rewrite andb_false_r.
Qed.

(** The two ways the code flips one bit of a word. *)
Lemma testbit_set_bit w k i :
  0 <= k -> 0 <= i -> Z.testbit (Z.lor w (Z.shiftl 1 k)) i = (Z.testbit w i || (i =? k))%bool.
Proof.
  intros Hk Hi. rewrite Z.lor_spec, Z.shiftl_1_l, Z.pow2_bits_eqb by done.
  by rewrite (Z.eqb_sym k i).
Qed.

Lemma testbit_clear_bit w k i :
  0 <= k -> 0 <= i ->
  Z.testbit (w &~ Z.shiftl 1 k) i = (Z.testbit w i && negb (i =? k))%bool.
Proof.
  intros Hk Hi. rewrite Z.land_spec, Z.lnot_spec, Z.shiftl_1_l, Z.pow2_bits_eqb by done.
  by rewrite (Z.eqb_sym k i).
Qed.

(** [w & (1 << k)] as a truth value. *)
Lemma land_bit_test w k :
  0 <= k -> negb (Z.land w (Z.shiftl 1 k) =? 0) = Z.testbit w k.
Proof.
  intros Hk. rewrite Z.shiftl_1_l. destruct (Z.testbit w k) eqn:E.
  - apply negb_true_iff, Z.eqb_neq. intros H.
    apply (f_equal (fun x => Z.testbit x k)) in H.
    by rewrite Z.land_spec, Z.pow2_bits_true, Z.bits_0, E in H.
  - apply negb_false_iff, Z.eqb_eq. apply Z.bits_inj'. intros i Hi.
    rewrite Z.land_spec, Z.pow2_bits_eqb, Z.bits_0 by done.
    destruct (Z.eqb_spec k i) as [<-|]; [by rewrite E|apply andb_false_r].
Qed.

(** ** Counting

    [count_true f n] is the number of [i] in [0, n) with [f i]. *)

Fixpoint count_true (f : Z -> bool) (n : nat) : Z :=
  match n with
  | O => 0
  | S m => count_true f m + (if f (Z.of_nat m) then 1 else 0)
  end.

Lemma count_true_ext f g n :
  (forall i, 0 <= i < Z.of_nat n -> f i = g i) -> count_true f n = count_true g n.
Proof.
  induction n as [|n IH]; intros H; simpl; [done|].
  rewrite IH by (intros; apply H; lia). by rewrite H by lia.
Qed.

Lemma count_true_range f n : 0 <= count_true f n <= Z.of_nat n.
Proof. induction n as [|n IH]; simpl; [lia|]. destruct (f _); lia. Qed.

Lemma count_true_const f n b :
  (forall i, 0 <= i < Z.of_nat n -> f i = b) ->
  count_true f n = if b then Z.of_nat n else 0.
Proof.
  induction n as [|n IH]; intros H; simpl; [by destruct b|].
  rewrite IH, H by (intros; try apply H; lia). destruct b; lia.
Qed.

(** Changing one position changes the count by the difference there. *)
Lemma count_true_update f g n k :
  0 <= k < Z.of_nat n ->
  (forall i, 0 <= i < Z.of_nat n -> i <> k -> g i = f i) ->
  count_true g n = count_true f n - (if f k then 1 else 0) + (if g k then 1 else 0).
Proof.
  induction n as [|n IH]; intros Hk H; simpl; [lia|].
  destruct (decide (k = Z.of_nat n)) as [->|Hne].
  - rewrite (count_true_ext g f n) by (intros; apply H; lia). lia.
  - rewrite (IH ltac:(lia)) by (intros; apply H; lia).
    rewrite (H (Z.of_nat n)) by lia. lia.
Qed.

(** ** Lists as arrays

    [l .[ i ]] reads and [l .[ i <- x ]] writes the cell [i] of an array.  The
    code never means to leave its arrays, and the theorems state where it does
    not; outside the array the read gives 0 and the write does nothing. *)

Definition nthZ (l : list Z) (i : Z) : Z := default 0 (l !! Z.to_nat i).
Definition updZ (l : list Z) (i x : Z) : list Z := <[Z.to_nat i := x]> l.

Notation "l .[ i ]" := (nthZ l i) (at level 1, left associativity, format "l .[ i ]").
Notation "l .[ i <- x ]" := (updZ l i x)
  (at level 1, left associativity, format "l .[ i  <-  x ]").

Lemma nthZ_updZ (l : list Z) i j x :
  0 <= i < Z.of_nat (length l) -> 0 <= j ->
  l.[i <- x].[j] = if i =? j then x else l.[j].
Proof.
  intros Hi Hj. unfold nthZ, updZ. destruct (Z.eqb_spec i j) as [->|Hne].
  - by rewrite list_lookup_insert_eq by lia.
  - rewrite list_lookup_insert_ne; [done|]. lia.
Qed.

Lemma length_updZ l i x : length l.[i <- x] = length l.
Proof. apply length_insert. Qed.

Lemma nthZ_Forall (P : Z -> Prop) (l : list Z) i : Forall P l -> P 0 -> P l.[i].
Proof.
  intros Hl H0. unfold nthZ. destruct (l !! _) eqn:E; simpl; [|done].
  by eapply Forall_lookup_1.
Qed.

Lemma nthZ_lookup (l : list Z) i x : l !! Z.to_nat i = Some x -> l.[i] = x.
Proof. unfold nthZ. by intros ->. Qed.

(** ** Alignment *)

Lemma clear_low_bits x k : 0 <= k -> x &~ Z.ones k = x / 2 ^ k * 2 ^ k.
Proof.
  intros Hk. rewrite <- Z.ldiff_land, Z.ldiff_ones_r by done.
  by rewrite Z.shiftl_mul_pow2, Z.shiftr_div_pow2.
Qed.

Lemma page_mask x : x &~ 0xFFF = x - x mod 4096.
Proof. change 0xFFF with (Z.ones 12). rewrite clear_low_bits by done. change (2 ^ 12) with 4096. zlia. Qed.

(** ** Stateful code

    A call that changes the state [S] and may stop the machine ([None]).  The
    notation reads like the code: [x <-- f s ;; k]. *)

Definition M (S A : Type) : Type := S -> option (A * S).

Definition mret_ {S A} (a : A) : M S A := fun s => Some (a, s).
Definition mbind_ {S A B} (m : M S A) (k : A -> M S B) : M S B :=
  fun s => match m s with Some (a, s') => k a s' | None => None end.
Definition mstop {S A} : M S A := fun _ => None.
Definition mgets {S A} (f : S -> A) : M S A := fun s => Some (f s, s).
Definition mmodify {S} (f : S -> S) : M S unit := fun s => Some (tt, f s).
Definition mwhen {S} (b : bool) (m : M S unit) : M S unit := if b then m else mret_ tt.

Notation "x <-- m ;; k" := (mbind_ m (fun x => k))
  (at level 100, m at next level, right associativity).
Notation "m ;;; k" := (mbind_ m (fun _ => k)) (at level 100, right associativity).

(** [for (i = 0; i < n; i++) body(i);] *)
Fixpoint mfor {S} (i : Z) (n : nat) (body : Z -> M S unit) : M S unit :=
  match n with
  | O => mret_ tt
  | S n' => body i ;;; mfor (i + 1) n' body
  end.

Lemma mbind_inv {S A B} (m : M S A) (k : A -> M S B) s b s' :
  mbind_ m k s = Some (b, s') -> exists a s1, m s = Some (a, s1) /\ k a s1 = Some (b, s').
Proof. unfold mbind_. destruct (m s) as [[a s1]|] eqn:E; [|done]. intros H. by exists a, s1. Qed.

(** Invert the first call of a run that returns. *)
Tactic Notation "minv" hyp(H) "as" ident(a) ident(s1) ident(E) :=
  apply mbind_inv in H as (a & s1 & E & H).

(** Setting the low [k] bits of a number whose low [k] bits are clear. *)
Lemma lor_low_add a f k :
  0 <= k -> a mod 2 ^ k = 0 -> 0 <= f < 2 ^ k -> Z.lor a f = a + f.
Proof.
  intros Hk Ha Hf. rewrite Z.lor_comm.
  replace a with (Z.shiftl (a / 2 ^ k) k)
    by (rewrite Z.shiftl_mul_pow2 by done; pose proof (Z.div_mod a (2 ^ k)); lia).
  rewrite lor_shiftl_add by done. rewrite Z.shiftl_mul_pow2 by done. lia.
Qed.
