(* ===== verification/Crc32.v ===== *)
(** * CRC-32 ([src/src/fs/crc32.c])

    The table-driven CRC that protects the SDFS superblock and the journal
    entries.  The static table and its "ready" flag are the component's state
    ([crc32_state]); [crc32_update] builds the table on first use exactly as
    the code does.  The theorems relate the table-driven loop to the bit by bit
    polynomial division, give the law that lets a CRC be computed in pieces,
    and show which corruptions of a message the CRC always detects. *)

From Stdlib Require Import ZArith Lia.
From stdpp Require Import base numbers list gmap.
From S2P Require Import Prelude.

(** ** The code *)

Definition crc32_poly : Z := 0xEDB88320.

(** One round of the inner loop of [crc32_build_table]. *)
Definition crc32_shift (crc : Z) : Z :=
  if Z.odd crc then Z.lxor (Z.shiftr crc 1) crc32_poly else Z.shiftr crc 1.

Definition crc32_table_entry (i : Z) : Z := Nat.iter 8 crc32_shift i.

Definition crc32_built_table : list Z := crc32_table_entry <$> seqZ 0 256.

Record crc32_state := {
  crc32_table : list Z;
  crc32_table_ready : bool
}.

(** The state the kernel image starts in: static storage is zero. *)
Definition crc32_state0 : crc32_state :=
  {| crc32_table := replicate 256 0; crc32_table_ready := false |}.

Definition crc32_build_table (s : crc32_state) : crc32_state :=
  {| crc32_table := crc32_built_table; crc32_table_ready := true |}.

(** The loop of [crc32_update] over the bytes of [data]. *)
Fixpoint crc32_loop (table : list Z) (crc : Z) (data : list Z) : Z :=
  match data with
  | [] => crc
  | p :: data' =>
      crc32_loop table
        (Z.lxor (table.[Z.land (Z.lxor crc p) 0xFF]) (Z.shiftr crc 8)) data'
  end.

Definition crc32_update (s : crc32_state) (crc : Z) (data : list Z) : Z * crc32_state :=
  let s := if crc32_table_ready s then s else crc32_build_table s in
  let crc := Z.lxor crc 0xFFFFFFFF in
  let crc := crc32_loop (crc32_table s) crc data in
  (Z.lxor crc 0xFFFFFFFF, s).

(** [crc32_calc(data, length)], from the boot state of the table; by
    [crc32_update_value] every later state gives the same value. *)
Definition crc32_calc (data : list Z) : Z := fst (crc32_update crc32_state0 0 data).

(** ** The reference: polynomial division, one bit at a time *)

Definition crc32_byte (crc b : Z) : Z := Nat.iter 8 crc32_shift (Z.lxor crc b).

Definition crc32_bitwise (crc : Z) (data : list Z) : Z :=
  Z.lxor (foldl crc32_byte (Z.lxor crc 0xFFFFFFFF) data) 0xFFFFFFFF.

(** The table is either not built yet or complete. *)
Definition crc32_inv (s : crc32_state) : Prop :=
  crc32_table_ready s = true -> crc32_table s = crc32_built_table.

(** ** Lemmas *)

Lemma crc32_shift_alt a :
  crc32_shift a = Z.lxor (Z.shiftr a 1) (if Z.testbit a 0 then crc32_poly else 0).
Proof.
  unfold crc32_shift. rewrite Z.bit0_odd. destruct (Z.odd a); [done|]. by rewrite Z.lxor_0_r.
Qed.

(** The shift is linear over exclusive or, the fact every theorem rests on. *)
Lemma crc32_shift_lxor a b :
  crc32_shift (Z.lxor a b) = Z.lxor (crc32_shift a) (crc32_shift b).
Proof.
  rewrite !crc32_shift_alt, Z.shiftr_lxor, Z.lxor_spec.
  apply Z.bits_inj'. intros i Hi. rewrite !Z.lxor_spec.
  destruct (Z.testbit a 0), (Z.testbit b 0); simpl; rewrite ?Z.bits_0;
    repeat match goal with |- context [Z.testbit ?x i] => destruct (Z.testbit x i) end; done.
Qed.

Lemma iter_shift_lxor n a b :
  Nat.iter n crc32_shift (Z.lxor a b)
  = Z.lxor (Nat.iter n crc32_shift a) (Nat.iter n crc32_shift b).
Proof. induction n as [|n IH]; simpl; [done|]. by rewrite IH, crc32_shift_lxor. Qed.

Lemma crc32_shift_double x : crc32_shift (2 * x) = x.
Proof.
  rewrite crc32_shift_alt, Z.testbit_even_0, Z.lxor_0_r.
  rewrite Z.shiftr_div_pow2 by lia. rewrite Z.mul_comm. by apply Z.div_mul.
Qed.

Lemma iter_shift_shiftl n x : Nat.iter n crc32_shift (Z.shiftl x (Z.of_nat n)) = x.
Proof.
  induction n as [|n IH] in x |- *; [apply Z.shiftl_0_r|].
  rewrite Nat.iter_succ_r.
  replace (Z.shiftl x (Z.of_nat (S n))) with (2 * Z.shiftl x (Z.of_nat n)).
  - by rewrite crc32_shift_double.
  - rewrite !Z.shiftl_mul_pow2, Nat2Z.inj_succ, Z.pow_succ_r by lia. ring.
Qed.

Lemma crc32_shift_range a : is_u32 a -> is_u32 (crc32_shift a).
Proof.
  intros Ha. rewrite crc32_shift_alt. apply lxor_range; [done| |].
  - by apply (shiftr_range a 1 32 32).
  - destruct (Z.testbit a 0); done.
Qed.

Lemma iter_shift_range n a : is_u32 a -> is_u32 (Nat.iter n crc32_shift a).
Proof. intros Ha. induction n; simpl; auto using crc32_shift_range. Qed.

(** On 32-bit values the shift loses nothing: the top bit of the result tells
    which branch was taken. *)
Lemma crc32_shift_zero a : is_u32 a -> crc32_shift a = 0 -> a = 0.
Proof.
  intros Ha H. rewrite crc32_shift_alt in H. apply Z.lxor_eq in H.
  assert (Hr : 0 <= Z.shiftr a 1 < 2 ^ 31).
  { by apply (shiftr_range a 1 31 32). }
  destruct (Z.testbit a 0) eqn:E.
  - rewrite H in Hr. unfold crc32_poly in Hr. lia.
  - rewrite Z.bit0_odd in E. rewrite Z.shiftr_div_pow2 in H by lia.
    rewrite (Z.div_mod a (2 ^ 1)) by lia. rewrite H.
    change (2 ^ 1) with 2. rewrite Zmod_odd, E. done.
Qed.

Lemma iter_shift_inj n a b :
  is_u32 a -> is_u32 b ->
  Nat.iter n crc32_shift a = Nat.iter n crc32_shift b -> a = b.
Proof.
  intros Ha Hb. induction n as [|n IH]; simpl; [done|]. intros H. apply IH.
  apply Z.lxor_eq. apply crc32_shift_zero.
  - apply lxor_range; [done| |]; by apply iter_shift_range.
  - rewrite crc32_shift_lxor, H. apply Z.lxor_nilpotent.
Qed.

Lemma crc32_byte_table crc b :
  is_u32 crc -> is_byte b ->
  crc32_byte crc b
  = Z.lxor (crc32_built_table.[Z.land (Z.lxor crc b) 0xFF]) (Z.shiftr crc 8).
Proof.
  intros Hc Hb. unfold crc32_byte.
  set (x := Z.lxor crc b).
  assert (Hx : x = Z.lxor (Z.land x 0xFF) (Z.shiftl (Z.shiftr x 8) 8)).
  { apply Z.bits_inj'. intros i Hi. rewrite Z.lxor_spec, Z.land_spec.
    change 0xFF with (Z.ones 8). destruct (decide (i < 8)).
    - rewrite Z.ones_spec_low, Z.shiftl_spec_low by lia.
      by rewrite andb_true_r, xorb_false_r.
    - rewrite Z.ones_spec_high, Z.shiftl_spec, Z.shiftr_spec by lia.
      rewrite andb_false_r. simpl. f_equal. lia. }
  rewrite Hx at 1. rewrite iter_shift_lxor, (iter_shift_shiftl 8).
  f_equal.
  - unfold crc32_built_table. change 0xFF with (Z.ones 8).
    rewrite Z.land_ones by lia.
    assert (Hm : 0 <= x mod 2 ^ 8 < 256) by (apply Z.mod_pos_bound; lia).
    unfold nthZ. rewrite list_lookup_fmap, lookup_seqZ_lt by lia.
    simpl. rewrite Z2Nat.id by lia. done.
  - unfold x. rewrite Z.shiftr_lxor.
    replace (Z.shiftr b 8) with 0; [by rewrite Z.lxor_0_r|].
    rewrite Z.shiftr_div_pow2 by lia. symmetry. apply Z.div_small. exact Hb.
Qed.

Lemma crc32_byte_range crc b : is_u32 crc -> is_byte b -> is_u32 (crc32_byte crc b).
Proof.
  intros Hc Hb. apply iter_shift_range, lxor_range; [done..|].
  unfold is_byte in Hb. lia.
Qed.

Lemma foldl_crc32_byte_range data crc :
  Forall is_byte data -> is_u32 crc -> is_u32 (foldl crc32_byte crc data).
Proof.
  intros Hd. revert crc. induction Hd as [|b data Hb Hd IH]; intros crc Hc; simpl; [done|].
  auto using crc32_byte_range.
Qed.

Lemma crc32_loop_bitwise data crc :
  Forall is_byte data -> is_u32 crc ->
  crc32_loop crc32_built_table crc data = foldl crc32_byte crc data.
Proof.
  intros Hd. revert crc. induction Hd as [|b data Hb Hd IH]; intros crc Hc; simpl; [done|].
  rewrite <- crc32_byte_table by done. by rewrite IH by auto using crc32_byte_range.
Qed.

Lemma is_u32_mask : is_u32 0xFFFFFFFF.
Proof. done. Qed.
#[export] Hint Resolve is_u32_mask : liwus.

Lemma crc32_inv_state0 : crc32_inv crc32_state0.
Proof. done. Qed.

Lemma crc32_update_table s :
  crc32_inv s ->
  crc32_table (if crc32_table_ready s then s else crc32_build_table s) = crc32_built_table.
Proof. intros H. destruct (crc32_table_ready s) eqn:E; [by apply H|done]. Qed.

Lemma crc32_update_inv s crc data : crc32_inv s -> crc32_inv (snd (crc32_update s crc data)).
Proof. intros H _. simpl. by apply crc32_update_table. Qed.

Lemma crc32_update_value s crc data :
  crc32_inv s -> is_u32 crc -> Forall is_byte data ->
  fst (crc32_update s crc data) = crc32_bitwise crc data.
Proof.
  intros Hs Hc Hd. unfold crc32_update, crc32_bitwise. simpl.
  rewrite crc32_update_table by done.
  rewrite crc32_loop_bitwise by (auto using lxor_range with liwus; apply lxor_range; done).
  done.
Qed.

Lemma crc32_calc_value data : Forall is_byte data -> crc32_calc data = crc32_bitwise 0 data.
Proof. intros. by apply crc32_update_value. Qed.

Lemma crc32_bitwise_range crc data :
  is_u32 crc -> Forall is_byte data -> is_u32 (crc32_bitwise crc data).
Proof.
  intros Hc Hd. apply lxor_range; [done| |done].
  apply foldl_crc32_byte_range; [done|]. by apply lxor_range.
Qed.

Lemma crc32_calc_range data : Forall is_byte data -> is_u32 (crc32_calc data).
Proof. intros Hd. rewrite crc32_calc_value by done. by apply crc32_bitwise_range. Qed.

(** Feeding a short window is one exclusive or with its little-endian value,
    shifted out at once. *)
Lemma foldl_crc32_byte_window w crc :
  Forall is_byte w ->
  foldl crc32_byte crc w
  = Nat.iter (8 * length w) crc32_shift (Z.lxor crc (little_endian_to_Z 8 w)).
Proof.
  induction w as [|b w IH] using rev_ind; intros Hw; [by rewrite Z.lxor_0_r|].
  apply Forall_app in Hw as [Hw _].
  rewrite foldl_app, IH by done. simpl foldl. unfold crc32_byte at 1.
  rewrite length_app. simpl length.
  replace (8 * (length w + 1))%nat with (8 + 8 * length w)%nat by lia.
  rewrite (Nat.iter_add 8 (8 * length w)).
  assert (Hle : little_endian_to_Z 8 (w ++ [b])
    = Z.lxor (little_endian_to_Z 8 w) (Z.shiftl b (Z.of_nat (8 * length w)))).
  { clear IH. induction Hw as [|c w Hc Hw IH]; [by rewrite app_nil_l; simpl; rewrite Z.lor_0_r, !Z.shiftl_0_r|].
    simpl app. simpl little_endian_to_Z at 1. rewrite IH. simpl little_endian_to_Z. simpl length.
    apply Z.bits_inj'. intros i Hi. rewrite !Z.lor_spec, !Z.lxor_spec, !Z.lor_spec.
    destruct (decide (i < 8)).
    - rewrite !Z.shiftl_spec_low by lia. rewrite !orb_false_r. by rewrite xorb_false_r.
    - rewrite (testbit_high c 8 i) by (unfold is_byte in Hc; lia). rewrite !orb_false_l.
      rewrite !Z.shiftl_spec, Z.lxor_spec by lia. f_equal.
      rewrite !Z.shiftl_spec by lia. f_equal. lia. }
  rewrite Hle, <- Z.lxor_assoc, (iter_shift_lxor (8 * length w) (Z.lxor crc _) (Z.shiftl _ _)), iter_shift_shiftl. done.
Qed.

Lemma foldl_crc32_byte_inj data crc1 crc2 :
  Forall is_byte data -> is_u32 crc1 -> is_u32 crc2 ->
  foldl crc32_byte crc1 data = foldl crc32_byte crc2 data -> crc1 = crc2.
Proof.
  intros Hd. revert crc1 crc2. induction Hd as [|b data Hb Hd IH]; intros c1 c2 H1 H2 H; [done|].
  simpl in H. apply IH in H; [|auto using crc32_byte_range..].
  apply iter_shift_inj in H.
  - apply (f_equal (fun x => Z.lxor x b)) in H.
    by rewrite !Z.lxor_assoc, !Z.lxor_nilpotent, !Z.lxor_0_r in H.
  - apply lxor_range; [done..|]. unfold is_byte in Hb; lia.
  - apply lxor_range; [done..|]. unfold is_byte in Hb; lia.
Qed.

Lemma le_window_range w : Forall is_byte w -> (length w <= 4)%nat -> is_u32 (little_endian_to_Z 8 w).
Proof.
  intros Hw Hl. pose proof (little_endian_to_Z_bound 8 w ltac:(lia) Hw) as H.
  unfold is_u32. split; [lia|]. apply (Z.lt_le_trans _ _ _ (proj2 H)).
  apply Z.pow_le_mono_r; lia.
Qed.

Lemma lxor_cancel_l a b c : Z.lxor a b = Z.lxor a c -> b = c.
Proof.
  intros H. apply (f_equal (Z.lxor a)) in H.
  by rewrite <- !Z.lxor_assoc, !Z.lxor_nilpotent, !Z.lxor_0_l in H.
Qed.

Lemma crc32_window_inj crc w1 w2 :
  is_u32 crc -> Forall is_byte w1 -> Forall is_byte w2 ->
  length w1 = length w2 -> (length w1 <= 4)%nat ->
  foldl crc32_byte crc w1 = foldl crc32_byte crc w2 -> w1 = w2.
Proof.
  intros Hc H1 H2 Hlen Hl H. rewrite !foldl_crc32_byte_window, Hlen in H by done.
  apply iter_shift_inj in H.
  - apply lxor_cancel_l in H.
    rewrite <- (Z_to_little_endian_to_Z _ 8 w1 eq_refl) by done.
    rewrite <- (Z_to_little_endian_to_Z _ 8 w2 eq_refl) by done. by rewrite H, Hlen.
  - apply lxor_range; [done..|]. apply le_window_range; [done|lia].
  - apply lxor_range; [done..|]. apply le_window_range; [done|lia].
Qed.

(** ** Properties *)

(** The table-driven [crc32_update] computes the bit-by-bit CRC-32 of its
    input, for any start value and whichever state of the lazily built table it
    is called in, and leaves the table complete. *)
Theorem crc32_update_is_bitwise s crc data :
  crc32_inv s -> is_u32 crc -> Forall is_byte data ->
  fst (crc32_update s crc data) = crc32_bitwise crc data
  /\ crc32_inv (snd (crc32_update s crc data))
  /\ is_u32 (fst (crc32_update s crc data)).
Proof.
  intros Hs Hc Hd. split; [by apply crc32_update_value|]. split; [by apply crc32_update_inv|].
  rewrite crc32_update_value by done. by apply crc32_bitwise_range.
Qed.

Lemma crc32_update_is_bitwise_witness :
  fst (crc32_update crc32_state0 0 [0x31; 0x32; 0x33; 0x34; 0x35; 0x36; 0x37; 0x38; 0x39])
    = crc32_bitwise 0 [0x31; 0x32; 0x33; 0x34; 0x35; 0x36; 0x37; 0x38; 0x39]
  /\ crc32_bitwise 0 [0x31; 0x32; 0x33; 0x34; 0x35; 0x36; 0x37; 0x38; 0x39] = 0xCBF43926.
Proof.
  split; [|vm_compute; reflexivity].
  apply (crc32_update_is_bitwise crc32_state0 0
           [0x31; 0x32; 0x33; 0x34; 0x35; 0x36; 0x37; 0x38; 0x39]).
  - exact crc32_inv_state0.
  - done.
  - by_compute.
Defined.

(** A CRC can be computed in pieces: continuing from the CRC of a prefix
    gives the CRC of the whole message. *)
Theorem crc32_update_app s1 s2 crc a b :
  crc32_inv s1 -> crc32_inv s2 -> is_u32 crc -> Forall is_byte a -> Forall is_byte b ->
  fst (crc32_update s2 (fst (crc32_update s1 crc a)) b) = fst (crc32_update s1 crc (a ++ b)).
Proof.
  intros H1 H2 Hc Ha Hb.
  rewrite (crc32_update_value s1 crc a), (crc32_update_value s1 crc (a ++ b)),
    (crc32_update_value s2) by auto using crc32_bitwise_range, Forall_app_2.
  unfold crc32_bitwise. by rewrite foldl_app, Z.lxor_assoc, Z.lxor_nilpotent, Z.lxor_0_r.
Qed.

Lemma crc32_update_app_witness :
  fst (crc32_update crc32_state0 (fst (crc32_update crc32_state0 0 [1; 2])) [3])
  = fst (crc32_update crc32_state0 0 ([1; 2] ++ [3])).
Proof.
  apply (crc32_update_app crc32_state0 crc32_state0 0 [1; 2] [3]).
  - exact crc32_inv_state0.
  - exact crc32_inv_state0.
  - done.
  - by_compute.
  - by_compute.
Defined.

(** [crc32_detects_burst]: the CRC detects every corruption confined to four consecutive bytes:
    two messages of the same length that differ only inside such a window have
    different CRCs. *)
Theorem crc32_detects_burst pre w1 w2 post :
  Forall is_byte pre -> Forall is_byte w1 -> Forall is_byte w2 -> Forall is_byte post ->
  length w1 = length w2 -> (length w1 <= 4)%nat -> w1 <> w2 ->
  crc32_calc (pre ++ w1 ++ post) <> crc32_calc (pre ++ w2 ++ post).
Proof.
  intros Hpre H1 H2 Hpost Hlen Hl Hne Heq. apply Hne.
  rewrite !crc32_calc_value in Heq by (repeat apply Forall_app_2; done).
  unfold crc32_bitwise in Heq. rewrite !foldl_app in Heq.
  set (c0 := foldl crc32_byte _ pre) in Heq.
  assert (Hc0 : is_u32 c0) by (apply foldl_crc32_byte_range; [done|]; by apply lxor_range).
  rewrite !(Z.lxor_comm _ 0xFFFFFFFF) in Heq. apply lxor_cancel_l in Heq.
  apply foldl_crc32_byte_inj in Heq; [|done|by apply foldl_crc32_byte_range..].
  by apply crc32_window_inj in Heq.
Qed.

Lemma crc32_detects_burst_witness :
  crc32_calc ([7] ++ [1; 2; 3; 4] ++ [9]) <> crc32_calc ([7] ++ [1; 2; 3; 5] ++ [9]).
Proof.
  apply (crc32_detects_burst [7] [1; 2; 3; 4] [1; 2; 3; 5] [9]);
    [by_compute..
    | reflexivity | simpl; lia | discriminate].
Defined.
