(* ===== verification/Pmm.v ===== *)
(** * Physical memory manager ([src/src/kernel/mm/pmm.c])

    One bit per 4 KiB frame: set means in use.  [pmm] is the module's static
    state; the words of [pmm_bitmap] are the memory the bitmap pointer points
    to.  Every operation runs with [pmm_lock] held from its first access to its
    last, so each is one step on the state. *)

From Stdlib Require Import ZArith Lia.
From stdpp Require Import base numbers list gmap.
From S2P Require Import Prelude.

(** ** The code *)

Definition BLOCK_SIZE : Z := 4096.

Record pmm := {
  pmm_bitmap : list Z;
  pmm_max_blocks : Z;
  pmm_used_blocks : Z
}.

Definition bitmap_set (bm : list Z) (bit : Z) : list Z :=
  bm.[bit / 32 <- Z.lor bm.[bit / 32] (Z.shiftl 1 (bit mod 32))].

Definition bitmap_unset (bm : list Z) (bit : Z) : list Z :=
  bm.[bit / 32 <- bm.[bit / 32] &~ Z.shiftl 1 (bit mod 32)].

Definition bitmap_test (bm : list Z) (bit : Z) : bool :=
  negb (Z.land bm.[bit / 32] (Z.shiftl 1 (bit mod 32)) =? 0).

(** [pmm_init]: [ram] is the memory at [start_addr], as 32-bit words. *)
Definition pmm_init (ram : list Z) (size : Z) : pmm :=
  let max := size / BLOCK_SIZE in
  let n := Z.to_nat (max / 32) in
  {| pmm_bitmap := replicate n 0xFFFFFFFF ++ drop n ram;
     pmm_max_blocks := max;
     pmm_used_blocks := max |}.

(** [if (bitmap_test(b)) { bitmap_unset(b); pmm_used_blocks--; }] *)
Definition pmm_release_frame (s : pmm) (b : Z) : pmm :=
  if bitmap_test (pmm_bitmap s) b then
    {| pmm_bitmap := bitmap_unset (pmm_bitmap s) b;
       pmm_max_blocks := pmm_max_blocks s;
       pmm_used_blocks := u64 (pmm_used_blocks s - 1) |}
  else s.

(** [if (!bitmap_test(b)) { bitmap_set(b); pmm_used_blocks++; }] *)
Definition pmm_claim_frame (s : pmm) (b : Z) : pmm :=
  if negb (bitmap_test (pmm_bitmap s) b) then
    {| pmm_bitmap := bitmap_set (pmm_bitmap s) b;
       pmm_max_blocks := pmm_max_blocks s;
       pmm_used_blocks := u64 (pmm_used_blocks s + 1) |}
  else s.

(** The three region loops visit the frames [first, first + count) below
    [pmm_max_blocks] in order. *)
Fixpoint pmm_region_loop (step : pmm -> Z -> pmm) (count : nat) (align : Z) (s : pmm) : pmm :=
  match count with
  | O => s
  | S count' =>
      if align <? pmm_max_blocks s then pmm_region_loop step count' (align + 1) (step s align)
      else s
  end.

Definition pmm_init_region (s : pmm) (base size : Z) : pmm :=
  pmm_region_loop pmm_release_frame (Z.to_nat (size / BLOCK_SIZE)) (base / BLOCK_SIZE) s.

Definition pmm_deinit_region (s : pmm) (base size : Z) : pmm :=
  pmm_region_loop pmm_claim_frame (Z.to_nat (size / BLOCK_SIZE)) (base / BLOCK_SIZE) s.

Definition pmm_reserve_region (s : pmm) (base size : Z) : pmm :=
  let first := base / BLOCK_SIZE in
  let last := u64 (base + size + BLOCK_SIZE - 1) / BLOCK_SIZE in
  pmm_region_loop pmm_claim_frame (Z.to_nat (last - first)) first s.

(** The inner scan of [pmm_alloc_block] over the bits [j], [j+1], ... of a word. *)
Fixpoint pmm_scan_word (w : Z) (fuel : nat) (j : Z) : option Z :=
  match fuel with
  | O => None
  | S fuel' =>
      if Z.land w (Z.shiftl 1 j) =? 0 then Some j else pmm_scan_word w fuel' (j + 1)
  end.

(** The outer scan over the words [i], [i+1], ...: the first free frame. *)
Fixpoint pmm_scan (bm : list Z) (fuel : nat) (i : Z) : option Z :=
  match fuel with
  | O => None
  | S fuel' =>
      let w := bm.[i] in
      if negb (w =? 0xFFFFFFFF) then
        match pmm_scan_word w 32 0 with
        | Some j => Some (i * 32 + j)
        | None => pmm_scan bm fuel' (i + 1)
        end
      else pmm_scan bm fuel' (i + 1)
  end.

(** The result is a physical address; 0 when no frame is free. *)
Definition pmm_alloc_block (s : pmm) : Z * pmm :=
  match pmm_scan (pmm_bitmap s) (Z.to_nat (pmm_max_blocks s / 32)) 0 with
  | Some block =>
      (block * BLOCK_SIZE,
       {| pmm_bitmap := bitmap_set (pmm_bitmap s) block;
          pmm_max_blocks := pmm_max_blocks s;
          pmm_used_blocks := u64 (pmm_used_blocks s + 1) |})
  | None => (0, s)
  end.

Definition pmm_free_block (s : pmm) (addr : Z) : pmm :=
  {| pmm_bitmap := bitmap_unset (pmm_bitmap s) (addr / BLOCK_SIZE);
     pmm_max_blocks := pmm_max_blocks s;
     pmm_used_blocks := u64 (pmm_used_blocks s - 1) |}.

Definition pmm_get_free_memory (s : pmm) : Z :=
  u64 ((pmm_max_blocks s - pmm_used_blocks s) * BLOCK_SIZE).
Definition pmm_get_total_memory (s : pmm) : Z := u64 (pmm_max_blocks s * BLOCK_SIZE).
Definition pmm_get_used_memory (s : pmm) : Z := u64 (pmm_used_blocks s * BLOCK_SIZE).

(** ** Specification

    The abstract state is the set of frames in use, [pmm_used s]. *)

Definition pmm_used (s : pmm) (b : Z) : bool :=
  Z.testbit (pmm_bitmap s).[b / 32] (b mod 32).

Record pmm_wf (s : pmm) : Prop := {
  (** the bitmap has a word for every frame *)
  wf_len : pmm_max_blocks s <= 32 * Z.of_nat (length (pmm_bitmap s));
  wf_words : Forall is_u32 (pmm_bitmap s);
  wf_max : 0 <= pmm_max_blocks s < 2 ^ 52;
  (** the counter counts the frames in use *)
  wf_count : pmm_used_blocks s = count_true (pmm_used s) (Z.to_nat (pmm_max_blocks s))
}.

(** ** Lemmas on single frames *)

Lemma bitmap_test_used s b : 0 <= b -> bitmap_test (pmm_bitmap s) b = pmm_used s b.
Proof. intros Hb. unfold bitmap_test, pmm_used. apply land_bit_test. zlia. Qed.

Lemma bit_index_inj a b : a / 32 = b / 32 -> a mod 32 = b mod 32 -> a = b.
Proof. intros. rewrite (Z.div_mod a 32), (Z.div_mod b 32) by done. congruence. Qed.

(** Both bit updates write one word; [f] is what they do to it. *)
Lemma used_update (bm : list Z) (f : Z -> Z) (g : bool -> bool -> bool) b i :
  0 <= b < 32 * Z.of_nat (length bm) -> 0 <= i ->
  (forall w, Z.testbit (f w) (i mod 32) = g (Z.testbit w (i mod 32)) (i mod 32 =? b mod 32)) ->
  (forall t, g t false = t) ->
  Z.testbit (bm.[b / 32 <- f bm.[b / 32]].[i / 32])
            (i mod 32)
  = g (Z.testbit bm.[i / 32] (i mod 32)) (i =? b).
Proof.
  intros Hb Hi Hf Hg. rewrite nthZ_updZ by zlia.
  destruct (Z.eqb_spec (b / 32) (i / 32)) as [E|E].
  - rewrite E, Hf. f_equal.
    destruct (Z.eqb_spec (i mod 32) (b mod 32)), (Z.eqb_spec i b); try done; subst; try done.
    exfalso. eauto using bit_index_inj.
  - destruct (Z.eqb_spec i b) as [->|]; [done|]. by rewrite Hg.
Qed.

Lemma used_bitmap_set bm m u b i :
  0 <= b < 32 * Z.of_nat (length bm) -> 0 <= i ->
  pmm_used {| pmm_bitmap := bitmap_set bm b; pmm_max_blocks := m; pmm_used_blocks := u |} i
  = (Z.testbit bm.[i / 32] (i mod 32) || (i =? b))%bool.
Proof.
  intros Hb Hi. unfold pmm_used, bitmap_set; simpl.
  apply (used_update bm (fun w => Z.lor w (Z.shiftl 1 (b mod 32))) orb); [done..| |].
  - intros w. apply testbit_set_bit; zlia.
  - apply orb_false_r.
Qed.

Lemma used_bitmap_unset bm m u b i :
  0 <= b < 32 * Z.of_nat (length bm) -> 0 <= i ->
  pmm_used {| pmm_bitmap := bitmap_unset bm b; pmm_max_blocks := m; pmm_used_blocks := u |} i
  = (Z.testbit bm.[i / 32] (i mod 32) && negb (i =? b))%bool.
Proof.
  intros Hb Hi. unfold pmm_used, bitmap_unset; simpl.
  apply (used_update bm (fun w => w &~ Z.shiftl 1 (b mod 32)) (fun x y => x && negb y)%bool);
    [done..| |].
  - intros w. apply testbit_clear_bit; zlia.
  - intros t. apply andb_true_r.
Qed.

Lemma bitmap_set_words bm b : Forall is_u32 bm -> Forall is_u32 (bitmap_set bm b).
Proof.
  intros H. apply Forall_insert; [done|]. apply lor_range; [done| |].
  - by apply nthZ_Forall.
  - rewrite Z.shiftl_1_l. assert (0 <= b mod 32 < 32) by zlia.
    split; [apply Z.pow_nonneg; lia|apply Z.pow_lt_mono_r; lia].
Qed.

Lemma bitmap_unset_words bm b : Forall is_u32 bm -> Forall is_u32 (bitmap_unset bm b).
Proof.
  intros H. apply Forall_insert; [done|]. apply land_range; [done|].
  by apply nthZ_Forall.
Qed.

Lemma length_bitmap_set bm b : length (bitmap_set bm b) = length bm.
Proof. apply length_updZ. Qed.
Lemma length_bitmap_unset bm b : length (bitmap_unset bm b) = length bm.
Proof. apply length_updZ. Qed.

(** Marking a free frame used, with the counter. *)
Lemma wf_mark s b :
  pmm_wf s -> 0 <= b < pmm_max_blocks s -> pmm_used s b = false ->
  let s' := {| pmm_bitmap := bitmap_set (pmm_bitmap s) b;
               pmm_max_blocks := pmm_max_blocks s;
               pmm_used_blocks := u64 (pmm_used_blocks s + 1) |} in
  pmm_wf s' /\ forall i, 0 <= i -> pmm_used s' i = (pmm_used s i || (i =? b))%bool.
Proof.
  intros [Hlen Hw Hm Hc] Hb Hu s'.
  assert (Hused : forall i, 0 <= i -> pmm_used s' i = (pmm_used s i || (i =? b))%bool).
  { intros i Hi. apply used_bitmap_set; lia. }
  split; [|done]. constructor; simpl; [by rewrite length_bitmap_set|by apply bitmap_set_words|done|].
  rewrite (count_true_update (pmm_used s) _ _ b).
  - rewrite Hused, Hu, Z.eqb_refl, orb_true_r by lia.
    rewrite u64_small; [lia|]. rewrite Hc.
    pose proof (count_true_range (pmm_used s) (Z.to_nat (pmm_max_blocks s))). lia.
  - lia.
  - intros i Hi Hne. rewrite Hused by lia. rewrite (proj2 (Z.eqb_neq i b)) by done.
    apply orb_false_r.
Qed.

(** Clearing a used frame, with the counter. *)
Lemma wf_clear s b :
  pmm_wf s -> 0 <= b < pmm_max_blocks s -> pmm_used s b = true ->
  let s' := {| pmm_bitmap := bitmap_unset (pmm_bitmap s) b;
               pmm_max_blocks := pmm_max_blocks s;
               pmm_used_blocks := u64 (pmm_used_blocks s - 1) |} in
  pmm_wf s' /\ forall i, 0 <= i -> pmm_used s' i = (pmm_used s i && negb (i =? b))%bool.
Proof.
  intros [Hlen Hw Hm Hc] Hb Hu s'.
  assert (Hused : forall i, 0 <= i -> pmm_used s' i = (pmm_used s i && negb (i =? b))%bool).
  { intros i Hi. apply used_bitmap_unset; lia. }
  split; [|done].
  constructor; simpl; [by rewrite length_bitmap_unset|by apply bitmap_unset_words|done|].
  assert (Hcnt : count_true (pmm_used s') (Z.to_nat (pmm_max_blocks s))
                 = pmm_used_blocks s - 1).
  { rewrite (count_true_update (pmm_used s) _ _ b).
    - rewrite Hused, Hu, Z.eqb_refl, andb_false_r by lia. lia.
    - lia.
    - intros i Hi Hne. rewrite Hused by lia. rewrite (proj2 (Z.eqb_neq i b)) by done.
      apply andb_true_r. }
  rewrite Hcnt. apply u64_small.
  pose proof (count_true_range (pmm_used s') (Z.to_nat (pmm_max_blocks s))). lia.
Qed.

Lemma wf_claim_frame s b :
  pmm_wf s -> 0 <= b < pmm_max_blocks s ->
  pmm_wf (pmm_claim_frame s b)
  /\ pmm_max_blocks (pmm_claim_frame s b) = pmm_max_blocks s
  /\ forall i, 0 <= i -> pmm_used (pmm_claim_frame s b) i = (pmm_used s i || (i =? b))%bool.
Proof.
  intros Hs Hb. unfold pmm_claim_frame. rewrite bitmap_test_used by lia.
  destruct (pmm_used s b) eqn:Hu; simpl.
  - split_and!; [done..|]. intros i Hi. destruct (Z.eqb_spec i b) as [->|]; [by rewrite Hu|].
    by rewrite orb_false_r.
  - destruct (wf_mark s b Hs Hb Hu) as [? ?]. by split_and!.
Qed.

Lemma wf_release_frame s b :
  pmm_wf s -> 0 <= b < pmm_max_blocks s ->
  pmm_wf (pmm_release_frame s b)
  /\ pmm_max_blocks (pmm_release_frame s b) = pmm_max_blocks s
  /\ forall i, 0 <= i ->
       pmm_used (pmm_release_frame s b) i = (pmm_used s i && negb (i =? b))%bool.
Proof.
  intros Hs Hb. unfold pmm_release_frame. rewrite bitmap_test_used by lia.
  destruct (pmm_used s b) eqn:Hu; simpl.
  - destruct (wf_clear s b Hs Hb Hu) as [? ?]. by split_and!.
  - split_and!; [done..|]. intros i Hi. destruct (Z.eqb_spec i b) as [->|]; [by rewrite Hu|].
    by rewrite andb_true_r.
Qed.

(** ** Lemmas on regions and on the scan *)

Definition in_region (first : Z) (count : nat) (i : Z) : bool :=
  ((first <=? i) && (i <? first + Z.of_nat count))%bool.

Lemma in_region_S first count i :
  in_region first (S count) i = ((i =? first) || in_region (first + 1) count i)%bool.
Proof.
  unfold in_region.
  destruct (Z.eqb_spec i first), (Z.leb_spec first i), (Z.leb_spec (first + 1) i),
    (Z.ltb_spec i (first + Z.of_nat (S count))), (Z.ltb_spec i (first + 1 + Z.of_nat count));
    simpl; lia || done.
Qed.

Lemma wf_region_claim count first s :
  pmm_wf s -> 0 <= first ->
  let s' := pmm_region_loop pmm_claim_frame count first s in
  pmm_wf s' /\ pmm_max_blocks s' = pmm_max_blocks s
  /\ forall i, 0 <= i < pmm_max_blocks s ->
       pmm_used s' i = (pmm_used s i || in_region first count i)%bool.
Proof.
  revert first s. induction count as [|count IH]; intros first s Hs Hf; simpl.
  - split_and!; [done..|]. intros i Hi. unfold in_region.
    replace (first + Z.of_nat 0) with first by lia.
    destruct (Z.leb_spec first i), (Z.ltb_spec i first); simpl; try lia; by rewrite orb_false_r.
  - destruct (Z.ltb_spec first (pmm_max_blocks s)) as [Hlt|Hge].
    + destruct (wf_claim_frame s first Hs ltac:(lia)) as (Hs1 & Hm1 & Hu1).
      destruct (IH (first + 1) _ Hs1 ltac:(lia)) as (Hs2 & Hm2 & Hu2).
      split_and!; [done|congruence|]. intros i Hi.
      rewrite Hu2, Hu1, in_region_S, orb_assoc by lia. done.
    + split_and!; [done..|]. intros i Hi. unfold in_region.
      rewrite (proj2 (Z.leb_gt first i)) by lia. by rewrite orb_false_r.
Qed.

Lemma wf_region_release count first s :
  pmm_wf s -> 0 <= first ->
  let s' := pmm_region_loop pmm_release_frame count first s in
  pmm_wf s' /\ pmm_max_blocks s' = pmm_max_blocks s
  /\ forall i, 0 <= i < pmm_max_blocks s ->
       pmm_used s' i = (pmm_used s i && negb (in_region first count i))%bool.
Proof.
  revert first s. induction count as [|count IH]; intros first s Hs Hf; simpl.
  - split_and!; [done..|]. intros i Hi. unfold in_region.
    replace (first + Z.of_nat 0) with first by lia.
    destruct (Z.leb_spec first i), (Z.ltb_spec i first); simpl; try lia; by rewrite andb_true_r.
  - destruct (Z.ltb_spec first (pmm_max_blocks s)) as [Hlt|Hge].
    + destruct (wf_release_frame s first Hs ltac:(lia)) as (Hs1 & Hm1 & Hu1).
      destruct (IH (first + 1) _ Hs1 ltac:(lia)) as (Hs2 & Hm2 & Hu2).
      split_and!; [done|congruence|]. intros i Hi.
      rewrite Hu2, Hu1, in_region_S, negb_orb, andb_assoc by lia. done.
    + split_and!; [done..|]. intros i Hi. unfold in_region.
      rewrite (proj2 (Z.leb_gt first i)) by lia. by rewrite andb_true_r.
Qed.

(** Frames a byte range touches. *)
Lemma wf_reserve_region s base size :
  pmm_wf s -> 0 <= base -> 0 <= size -> base + size + BLOCK_SIZE - 1 < 2 ^ 64 ->
  let s' := pmm_reserve_region s base size in
  pmm_wf s' /\ pmm_max_blocks s' = pmm_max_blocks s
  /\ forall i, 0 <= i < pmm_max_blocks s ->
       pmm_used s' i
       = (pmm_used s i
          || (base / BLOCK_SIZE <=? i) && (i * BLOCK_SIZE <? base + size))%bool.
Proof.
  intros Hs Hb Hsz Hov s'. unfold BLOCK_SIZE in *.
  destruct (wf_region_claim
    (Z.to_nat (u64 (base + size + 4096 - 1) / 4096 - base / 4096)) (base / 4096) s Hs ltac:(zlia))
    as (Hs' & Hm' & Hu').
  split_and!; [done..|]. intros i Hi. unfold s', pmm_reserve_region, BLOCK_SIZE.
  rewrite (Hu' i Hi). f_equal. unfold in_region. f_equal.
  rewrite (u64_small (base + size + 4096 - 1)) by lia.
  apply eq_bool_prop_intro; split; intros H; apply Is_true_true in H; apply Is_true_true;
    apply Z.ltb_lt in H; apply Z.ltb_lt; zlia.
Qed.

Lemma pmm_scan_word_spec w fuel j :
  0 <= j ->
  match pmm_scan_word w fuel j with
  | Some k => j <= k < j + Z.of_nat fuel /\ Z.testbit w k = false
              /\ forall i, j <= i < k -> Z.testbit w i = true
  | None => forall i, j <= i < j + Z.of_nat fuel -> Z.testbit w i = true
  end.
Proof.
  revert j. induction fuel as [|fuel IH]; intros j Hj; simpl; [intros; lia|].
  pose proof (land_bit_test w j Hj) as Hbit.
  destruct (Z.land w (Z.shiftl 1 j) =? 0) eqn:E; simpl in Hbit.
  - split_and!; [lia..|done|intros; lia].
  - specialize (IH (j + 1) ltac:(lia)). destruct (pmm_scan_word w fuel (j + 1)) as [k|].
    + destruct IH as (Hk & Hf & Ht). split_and!; [lia..|done|].
      intros i Hi. destruct (decide (i = j)) as [->|]; [done|]. apply Ht. lia.
    + intros i Hi. destruct (decide (i = j)) as [->|]; [done|]. apply IH. lia.
Qed.

(** A full word has all its bits set, and a word with all bits set is full. *)
Lemma word_full_bits w i : w = 0xFFFFFFFF -> 0 <= i < 32 -> Z.testbit w i = true.
Proof. intros -> Hi. change 0xFFFFFFFF with (Z.ones 32). by apply Z.ones_spec_low. Qed.

Lemma pmm_scan_spec s fuel n :
  0 <= n ->
  match pmm_scan (pmm_bitmap s) fuel n with
  | Some b => 32 * n <= b < 32 * (n + Z.of_nat fuel) /\ pmm_used s b = false
              /\ forall i, 32 * n <= i < b -> pmm_used s i = true
  | None => forall i, 32 * n <= i < 32 * (n + Z.of_nat fuel) -> pmm_used s i = true
  end.
Proof.
  revert n. induction fuel as [|fuel IH]; intros n Hn; cbn [pmm_scan]; [intros; lia|].
  assert (Hbit : forall i, 32 * n <= i < 32 * n + 32 ->
            pmm_used s i = Z.testbit (pmm_bitmap s).[n] (i - 32 * n)).
  { intros i Hi. unfold pmm_used. replace (i / 32) with n by zlia. f_equal. zlia. }
  assert (Hskip : (forall i, 32 * n <= i < 32 * n + 32 -> pmm_used s i = true) ->
    match pmm_scan (pmm_bitmap s) fuel (n + 1) with
    | Some b => 32 * n <= b < 32 * (n + Z.of_nat (S fuel)) /\ pmm_used s b = false
                /\ forall i, 32 * n <= i < b -> pmm_used s i = true
    | None => forall i, 32 * n <= i < 32 * (n + Z.of_nat (S fuel)) -> pmm_used s i = true
    end).
  { intros Hall. specialize (IH (n + 1) ltac:(lia)).
    destruct (pmm_scan _ fuel (n + 1)) as [b|].
    - destruct IH as (Hb & Hf & Ht). split_and!; [lia..|done|]. intros i Hi.
      destruct (decide (i < 32 * n + 32)); [apply Hall; lia|apply Ht; lia].
    - intros i Hi. destruct (decide (i < 32 * n + 32)); [apply Hall; lia|apply IH; lia]. }
  destruct (Z.eqb_spec (pmm_bitmap s).[n] 0xFFFFFFFF) as [E|E]; cbn [negb].
  - apply Hskip. intros i Hi. rewrite Hbit by lia. apply word_full_bits; [done|lia].
  - pose proof (pmm_scan_word_spec (pmm_bitmap s).[n] 32 0 ltac:(lia)) as Hw.
    destruct (pmm_scan_word _ 32 0) as [k|].
    + destruct Hw as (Hk & Hf & Ht). split_and!; [lia..| |].
      * rewrite Hbit by lia. rewrite <- Hf. f_equal. lia.
      * intros i Hi. rewrite Hbit by lia. apply Ht. lia.
    + apply Hskip. intros i Hi. rewrite Hbit by lia. apply Hw. lia.
Qed.

(** The two outcomes of [pmm_alloc_block]. *)
Lemma pmm_alloc_block_cases s :
  pmm_wf s ->
  (exists b, 0 <= b < 32 * (pmm_max_blocks s / 32) /\ pmm_used s b = false
     /\ (forall i, 0 <= i < b -> pmm_used s i = true)
     /\ fst (pmm_alloc_block s) = b * BLOCK_SIZE
     /\ pmm_wf (snd (pmm_alloc_block s))
     /\ pmm_max_blocks (snd (pmm_alloc_block s)) = pmm_max_blocks s
     /\ forall i, 0 <= i -> pmm_used (snd (pmm_alloc_block s)) i = (pmm_used s i || (i =? b))%bool)
  \/ (pmm_alloc_block s = (0, s)
      /\ forall i, 0 <= i < 32 * (pmm_max_blocks s / 32) -> pmm_used s i = true).
Proof.
  intros Hs. pose proof (wf_max s Hs) as Hm.
  assert (Hq : 0 <= pmm_max_blocks s / 32) by zlia.
  pose proof (pmm_scan_spec s (Z.to_nat (pmm_max_blocks s / 32)) 0 ltac:(lia)) as H.
  unfold pmm_alloc_block. destruct (pmm_scan _ _ 0) as [b|].
  - destruct H as (Hb & Hf & Ht). left. exists b.
    destruct (wf_mark s b Hs ltac:(zlia) Hf) as [Hs' Hu'].
    split_and!; [lia..|done| |done|done|done|done]. intros i Hi. apply Ht. lia.
  - right. split; [done|]. intros i Hi. apply H. lia.
Qed.

Lemma wf_free_block s a :
  pmm_wf s -> 0 <= a / BLOCK_SIZE < pmm_max_blocks s -> pmm_used s (a / BLOCK_SIZE) = true ->
  pmm_wf (pmm_free_block s a)
  /\ pmm_max_blocks (pmm_free_block s a) = pmm_max_blocks s
  /\ forall i, 0 <= i ->
       pmm_used (pmm_free_block s a) i = (pmm_used s i && negb (i =? a / BLOCK_SIZE))%bool.
Proof. intros Hs Ha Hu. destruct (wf_clear s _ Hs Ha Hu) as [? ?]. by split_and!. Qed.

Lemma wf_init ram size :
  Forall is_u32 ram -> 0 <= size < 2 ^ 64 -> (size / BLOCK_SIZE) mod 32 = 0 ->
  size / BLOCK_SIZE <= 32 * Z.of_nat (length ram) ->
  pmm_wf (pmm_init ram size)
  /\ forall b, 0 <= b < size / BLOCK_SIZE -> pmm_used (pmm_init ram size) b = true.
Proof.
  intros Hram Hsz Hmod Hlen. unfold BLOCK_SIZE in *.
  set (n := Z.to_nat (size / 4096 / 32)).
  assert (Hn : (n <= length ram)%nat) by (unfold n; zlia).
  assert (Hused : forall b, 0 <= b < size / 4096 -> pmm_used (pmm_init ram size) b = true).
  { intros b Hb. unfold pmm_used, pmm_init, nthZ, BLOCK_SIZE; simpl. fold n.
    rewrite lookup_app_l by (rewrite length_replicate; unfold n; zlia).
    rewrite lookup_replicate_2 by (unfold n; zlia). simpl. apply word_full_bits; [done|zlia]. }
  split; [|done]. constructor; simpl; fold n.
  - rewrite length_app, length_replicate, length_drop. unfold BLOCK_SIZE. lia.
  - apply Forall_app_2; [by apply Forall_replicate|by apply Forall_drop].
  - unfold BLOCK_SIZE. zlia.
  - rewrite (count_true_const _ _ true); [unfold BLOCK_SIZE; zlia|]. intros i Hi.
    apply Hused. unfold BLOCK_SIZE in Hi. zlia.
Qed.

(** ** Runs of the allocator

    A configuration is the state together with the frames handed out by
    [pmm_alloc_block] and not yet given back.  The client gives back only what
    it holds and [pmm_init_region], which the boot code calls on the usable
    ranges of the memory map, is not called over a held frame. *)

Inductive pmm_step : pmm * list Z -> pmm * list Z -> Prop :=
| step_alloc s s' out addr :
    pmm_alloc_block s = (addr, s') -> addr <> 0 -> pmm_step (s, out) (s', addr :: out)
| step_alloc_none s s' out :
    pmm_alloc_block s = (0, s') -> pmm_step (s, out) (s', out)
| step_free s out1 addr out2 :
    pmm_step (s, out1 ++ addr :: out2) (pmm_free_block s addr, out1 ++ out2)
| step_reserve s out base size :
    0 <= base -> 0 <= size -> base + size + BLOCK_SIZE - 1 < 2 ^ 64 ->
    pmm_step (s, out) (pmm_reserve_region s base size, out)
| step_deinit s out base size :
    0 <= base -> 0 <= size -> pmm_step (s, out) (pmm_deinit_region s base size, out)
| step_init s out base size :
    0 <= base -> 0 <= size ->
    (forall a, a ∈ out ->
       in_region (base / BLOCK_SIZE) (Z.to_nat (size / BLOCK_SIZE)) (a / BLOCK_SIZE) = false) ->
    pmm_step (s, out) (pmm_init_region s base size, out).

Record pmm_run_inv (c : pmm * list Z) : Prop := {
  run_wf : pmm_wf (fst c);
  run_nodup : NoDup (snd c);
  run_held : forall a, a ∈ snd c ->
    a mod BLOCK_SIZE = 0 /\ 0 < a < pmm_max_blocks (fst c) * BLOCK_SIZE
    /\ pmm_used (fst c) (a / BLOCK_SIZE) = true
}.

Lemma held_frame c a :
  pmm_run_inv c -> a ∈ snd c ->
  0 <= a / BLOCK_SIZE < pmm_max_blocks (fst c) /\ a = a / BLOCK_SIZE * BLOCK_SIZE.
Proof. intros H Ha. destruct (run_held c H a Ha) as (? & ? & _). unfold BLOCK_SIZE in *. zlia. Qed.

(** Operations that only add used frames keep the held ones held. *)
Lemma run_inv_grow s out s' :
  pmm_run_inv (s, out) -> pmm_wf s' -> pmm_max_blocks s' = pmm_max_blocks s ->
  (forall i, 0 <= i < pmm_max_blocks s -> pmm_used s i = true -> pmm_used s' i = true) ->
  pmm_run_inv (s', out).
Proof.
  intros H Hwf Hm Hgrow. constructor; simpl; [done|apply H|].
  intros a Ha. pose proof (held_frame _ _ H Ha) as [Hf _]. simpl in Hf.
  destruct (run_held _ H a Ha) as (? & ? & ?). rewrite Hm. auto.
Qed.

Lemma pmm_step_alloc_inv s out s' addr :
  pmm_run_inv (s, out) -> pmm_alloc_block s = (addr, s') ->
  pmm_run_inv (s', out) /\ (addr <> 0 -> pmm_run_inv (s', addr :: out)).
Proof.
  intros H Ha. pose proof (wf_max _ (run_wf _ H)) as Hm.
  destruct (pmm_alloc_block_cases s (run_wf _ H))
    as [(b & Hb & Hf & _ & Hfst & Hwf & Hm' & Hu)|[Heq _]].
  - rewrite Ha in *. simpl in *.
    assert (Hgrow : pmm_run_inv (s', out)).
    { apply (run_inv_grow s); [done..|]. intros i Hi Hi'. by rewrite Hu, Hi' by lia. }
    split; [done|]. intros Hne. subst addr.
    assert (Hdiv : b * BLOCK_SIZE / BLOCK_SIZE = b) by (apply Z.div_mul; done).
    constructor; simpl; [done| |].
    + apply NoDup_cons. split; [|apply H]. intros Hin.
      destruct (run_held _ H _ Hin) as (_ & _ & Hused). simpl in Hused. congruence.
    + intros a [->|Ha']%elem_of_cons; [|by apply Hgrow].
      rewrite Hdiv, Hu, Z.eqb_refl, orb_true_r by lia.
      unfold BLOCK_SIZE in *. split_and!; [apply Z.mod_mul; done|lia|zlia|done].
  - rewrite Heq in Ha. injection Ha as <- <-. split; [done|]. by intros [].
Qed.

Lemma pmm_step_free_inv s out1 addr out2 :
  pmm_run_inv (s, out1 ++ addr :: out2) -> pmm_run_inv (pmm_free_block s addr, out1 ++ out2).
Proof.
  intros H. set (out := out1 ++ addr :: out2) in *.
  assert (Hin : addr ∈ out) by (apply elem_of_app; right; by left).
  assert (Hsub : forall a, a ∈ out1 ++ out2 -> a ∈ out).
  { intros a. unfold out. rewrite !elem_of_app, elem_of_cons. tauto. }
  assert (Hne : NoDup (out1 ++ out2) /\ forall a, a ∈ out1 ++ out2 -> a <> addr).
  { pose proof (run_nodup _ H) as Hnd. simpl in Hnd. unfold out in Hnd.
    rewrite <- Permutation_middle in Hnd. apply NoDup_cons in Hnd as [Hni Hnd].
    split; [done|]. by intros a Ha ->. }
  destruct Hne as [Hnd Hne].
  destruct (held_frame _ _ H Hin) as [Hf Hfa].
  destruct (run_held _ H _ Hin) as (_ & _ & Hu).
  destruct (wf_free_block s addr (run_wf _ H) Hf Hu) as (Hwf & Hm & Hused).
  constructor; simpl; [done..|]. intros a Ha.
  destruct (held_frame _ _ H (Hsub a Ha)) as [Hg Hga].
  destruct (run_held _ H a (Hsub a Ha)) as (? & ? & Hau). simpl in *.
  rewrite Hused, Hau by lia. split_and!; [done|lia..|].
  apply negb_true_iff, Z.eqb_neq. intros Heq. apply (Hne a Ha). congruence.
Qed.

Lemma pmm_step_inv c c' : pmm_run_inv c -> pmm_step c c' -> pmm_run_inv c'.
Proof.
  intros H Hstep. destruct Hstep as [s s' out addr Ha Hne|s s' out Ha|s out1 addr out2
    |s out base size Hb Hsz Hov|s out base size Hb Hsz|s out base size Hb Hsz Hout].
  - by apply (pmm_step_alloc_inv s out s' addr H Ha).
  - by apply (pmm_step_alloc_inv s out s' 0 H Ha).
  - by apply pmm_step_free_inv.
  - destruct (wf_reserve_region s base size (run_wf _ H) Hb Hsz Hov) as (? & ? & Hu).
    apply (run_inv_grow s); [done..|]. intros i Hi Hi'. by rewrite Hu, Hi'.
  - destruct (wf_region_claim (Z.to_nat (size / BLOCK_SIZE)) (base / BLOCK_SIZE) s (run_wf _ H))
      as (? & ? & Hu); [unfold BLOCK_SIZE; zlia|].
    apply (run_inv_grow s); [done..|]. intros i Hi Hi'. unfold pmm_deinit_region. by rewrite Hu, Hi'.
  - destruct (wf_region_release (Z.to_nat (size / BLOCK_SIZE)) (base / BLOCK_SIZE) s (run_wf _ H))
      as (Hwf & Hm & Hu); [unfold BLOCK_SIZE; zlia|].
    constructor; simpl; [done|apply H|]. intros a Ha.
    pose proof (held_frame _ _ H Ha) as [Hf _]. simpl in Hf.
    destruct (run_held _ H a Ha) as (? & ? & Hau). simpl in *. unfold pmm_init_region.
    rewrite Hm, Hu, Hau, (Hout a Ha) by done. done.
Qed.

Lemma pmm_run_inv_reachable c c' : pmm_run_inv c -> rtc pmm_step c c' -> pmm_run_inv c'.
Proof. intros Hc H. induction H; eauto using pmm_step_inv. Qed.

(** ** Properties *)



(** [pmm_alloc_block] hands out the lowest free frame of the bitmap's whole
    words and marks exactly that frame; it reports failure and changes nothing
    only when all of those frames are in use. *)
Theorem pmm_alloc_block_first_free s :
  pmm_wf s ->
  pmm_wf (snd (pmm_alloc_block s))
  /\ ((exists b, 0 <= b < 32 * (pmm_max_blocks s / 32) /\ pmm_used s b = false
        /\ (forall i, 0 <= i < b -> pmm_used s i = true)
        /\ fst (pmm_alloc_block s) = b * BLOCK_SIZE
        /\ forall i, 0 <= i ->
             pmm_used (snd (pmm_alloc_block s)) i = (pmm_used s i || (i =? b))%bool)
      \/ (pmm_alloc_block s = (0, s)
          /\ forall i, 0 <= i < 32 * (pmm_max_blocks s / 32) -> pmm_used s i = true)).
Proof.
  intros Hs. destruct (pmm_alloc_block_cases s Hs)
    as [(b & Hb & Hf & Hlow & Hfst & Hwf & _ & Hu)|[Heq Hfull]].
  - split; [done|]. left. by exists b.
  - rewrite Heq. split; [done|]. by right.
Qed.

Lemma pmm_alloc_block_first_free_witness :
  pmm_wf (snd (pmm_alloc_block (pmm_init [0; 0] (64 * 4096)))).
Proof.
  apply pmm_alloc_block_first_free. apply wf_init.
  - by_compute.
  - lia.
  - reflexivity.
  - by_compute.
Defined.

(** After [pmm_reserve_region(base, size)], which the kernel calls for its
    image, the modules and every heap block, [pmm_alloc_block] never returns a
    frame that shares a byte with the range, also when the range starts or ends
    inside a frame. *)
Theorem pmm_reserve_region_excludes s base size :
  pmm_wf s -> 0 <= base -> 0 <= size -> base + size + BLOCK_SIZE - 1 < 2 ^ 64 ->
  let r := pmm_alloc_block (pmm_reserve_region s base size) in
  pmm_wf (snd r)
  /\ (fst r <> 0 -> fst r + BLOCK_SIZE <= base \/ base + size <= fst r).
Proof.
  intros Hs Hb Hsz Hov. cbv zeta.
  destruct (wf_reserve_region s base size Hs Hb Hsz Hov) as (Hs' & Hm & Hu).
  destruct (pmm_alloc_block_cases _ Hs') as [(b & Hbr & Hf & _ & Hfst & Hwf & _)|[Heq _]].
  - split; [done|]. intros _. rewrite Hfst. rewrite Hm in Hbr.
    rewrite Hu in Hf by zlia. apply orb_false_iff in Hf as [_ Hf].
    apply andb_false_iff in Hf. unfold BLOCK_SIZE in *. destruct Hf; zbool; zlia.
  - rewrite Heq. split; [done|]. by intros [].
Qed.

Lemma pmm_reserve_region_excludes_witness :
  let s := pmm_init_region (pmm_init [0; 0] (64 * 4096)) 0 (64 * 4096) in
  let r := pmm_alloc_block (pmm_reserve_region s 100 5000) in
  fst r = 8192 /\ (fst r + BLOCK_SIZE <= 100 \/ 100 + 5000 <= fst r).
Proof.
  split; [vm_compute; reflexivity|].
  apply (pmm_reserve_region_excludes
           (pmm_init_region (pmm_init [0; 0] (64 * 4096)) 0 (64 * 4096)) 100 5000).
  - apply (wf_region_release (Z.to_nat 64) 0); [|lia]. apply wf_init.
    + by_compute.
    + lia.
    + reflexivity.
    + by_compute.
  - lia.
  - lia.
  - unfold BLOCK_SIZE; lia.
  - vm_compute; discriminate.
Defined.
