(* ===== verification/Kheap.v ===== *)
(** * Kernel heap ([src/src/kernel/mm/kheap.c])

    A bump allocator over identity-mapped RAM with a first-fit free list.  The
    block headers live in memory; [hdr_size] and [hdr_next] are the two fields
    of [free_header_t], indexed by the address of the header, and [kbytes] the
    payload bytes that [krealloc] copies.  [free_list] is the head pointer, 0
    for NULL.

    Each operation runs with interrupts off and [kheap_lock] held.  A call has
    three outcomes: it returns, it stops the machine in [hlt] with interrupts
    off after printing "Out of Memory", or it never returns because the free
    list is cyclic. *)

From Stdlib Require Import ZArith Lia.
From stdpp Require Import base numbers list gmap.
From S2P Require Import Prelude Pmm.

(** ** The code *)

Definition HEADER_SIZE : Z := 8.

Record kheap := {
  kheap_start : Z;
  kheap_current : Z;
  free_list : Z;
  hdr_size : gmap Z Z;
  hdr_next : gmap Z Z;
  kbytes : gmap Z Z;
  kpmm : pmm;
  memory_size : Z;
  (** address of the linker symbol [end] *)
  kernel_end : Z
}.

Inductive kresult (A : Type) :=
| KRet (a : A) (s : kheap)
| KHalted
| KHang.
Arguments KRet {A}. Arguments KHalted {A}. Arguments KHang {A}.

Definition sz (s : kheap) (h : Z) : Z := default 0 (hdr_size s !! h).
Definition nx (s : kheap) (h : Z) : Z := default 0 (hdr_next s !! h).

Definition set_bounds (s : kheap) (start current : Z) : kheap :=
  {| kheap_start := start; kheap_current := current; free_list := free_list s;
     hdr_size := hdr_size s; hdr_next := hdr_next s; kbytes := kbytes s; kpmm := kpmm s;
     memory_size := memory_size s; kernel_end := kernel_end s |}.

Definition set_free_list (s : kheap) (p : Z) : kheap :=
  {| kheap_start := kheap_start s; kheap_current := kheap_current s; free_list := p;
     hdr_size := hdr_size s; hdr_next := hdr_next s; kbytes := kbytes s; kpmm := kpmm s;
     memory_size := memory_size s; kernel_end := kernel_end s |}.

Definition set_size (s : kheap) (h v : Z) : kheap :=
  {| kheap_start := kheap_start s; kheap_current := kheap_current s; free_list := free_list s;
     hdr_size := <[h := v]> (hdr_size s); hdr_next := hdr_next s; kbytes := kbytes s;
     kpmm := kpmm s; memory_size := memory_size s; kernel_end := kernel_end s |}.

Definition set_next (s : kheap) (h v : Z) : kheap :=
  {| kheap_start := kheap_start s; kheap_current := kheap_current s; free_list := free_list s;
     hdr_size := hdr_size s; hdr_next := <[h := v]> (hdr_next s); kbytes := kbytes s;
     kpmm := kpmm s; memory_size := memory_size s; kernel_end := kernel_end s |}.

Definition set_pmm (s : kheap) (m : pmm) : kheap :=
  {| kheap_start := kheap_start s; kheap_current := kheap_current s; free_list := free_list s;
     hdr_size := hdr_size s; hdr_next := hdr_next s; kbytes := kbytes s; kpmm := m;
     memory_size := memory_size s; kernel_end := kernel_end s |}.

Definition set_kbytes (s : kheap) (b : gmap Z Z) : kheap :=
  {| kheap_start := kheap_start s; kheap_current := kheap_current s; free_list := free_list s;
     hdr_size := hdr_size s; hdr_next := hdr_next s; kbytes := b; kpmm := kpmm s;
     memory_size := memory_size s; kernel_end := kernel_end s |}.

Definition page_round_up (a : Z) : Z :=
  if negb (a mod 4096 =? 0) then u64 (a + (4096 - a mod 4096)) else a.

Definition kheap_set_start (s : kheap) (start : Z) : kheap :=
  let start := page_round_up start in
  set_bounds s start start.

(** [if (kheap_start == 0) kheap_set_start((uint64_t)end + 0x1000);] *)
Definition kheap_lazy_start (s : kheap) : kheap :=
  if kheap_start s =? 0 then kheap_set_start s (u64 (kernel_end s + 0x1000)) else s.

(** The [while (curr)] loop: [prev] is [&free_list] ([None]) or the address of
    a header's [next] field. *)
Inductive walk :=
| WFound (prev : option Z) (curr : Z)
| WNone
| WHang.

Fixpoint kheap_walk (s : kheap) (fit : Z -> bool) (fuel : nat) (prev : option Z) (curr : Z)
  : walk :=
  if curr =? 0 then WNone
  else match fuel with
       | O => WHang
       | S fuel' =>
           if fit curr then WFound prev curr
           else kheap_walk s fit fuel' (Some curr) (nx s curr)
       end.

(** A list that ends visits each header at most once, so as many rounds as
    there are [next] fields are enough; a list that needs more is cyclic. *)
Definition kheap_search (s : kheap) (fit : Z -> bool) : walk :=
  kheap_walk s fit (size (hdr_next s)) None (free_list s).

(** [*prev = curr->next;] *)
Definition kheap_unlink (s : kheap) (prev : option Z) (curr : Z) : kheap :=
  match prev with
  | None => set_free_list s (nx s curr)
  | Some h => set_next s h (nx s curr)
  end.

(** Take [total] bytes at [header], which is [kheap_current] or above it, out
    of both allocators. *)
Definition kheap_bump (s : kheap) (header size_field total : Z) : kheap :=
  let s := set_size s header (u32 size_field) in
  let s := set_pmm s (pmm_reserve_region (kpmm s) (kheap_current s) total) in
  set_bounds s (kheap_start s) (u64 (kheap_current s + total)).

Definition kmalloc_total (size : Z) : Z :=
  let size := u64 (size + 3) &~ 3 in
  let total := u32 (size + HEADER_SIZE) in
  if total <? 16 then 16 else total.

Definition kmalloc (s : kheap) (size : Z) : kresult Z :=
  let s := kheap_lazy_start s in
  let total := kmalloc_total size in
  match kheap_search s (fun curr => total <=? sz s curr) with
  | WHang => KHang
  | WFound prev curr =>
      KRet (curr + HEADER_SIZE) (set_size (kheap_unlink s prev curr) curr total)
  | WNone =>
      if memory_size s <=? u64 (kheap_current s + total) then KHalted
      else KRet (kheap_current s + HEADER_SIZE) (kheap_bump s (kheap_current s) total total)
  end.

Definition kmalloc_a (s : kheap) (size : Z) : kresult Z :=
  let s := kheap_lazy_start s in
  let raw := u64 (kheap_current s + HEADER_SIZE) in
  let aligned := page_round_up raw in
  let header_pos := u64 (aligned - HEADER_SIZE) in
  let total := u64 (u64 (aligned - kheap_current s) + size) in
  if memory_size s <=? u64 (kheap_current s + total) then KHalted
  else KRet aligned (kheap_bump s header_pos (size + HEADER_SIZE) total).

(** Returns the pointer and the physical address stored through [phys]. *)
Definition kmalloc_ap (s : kheap) (size : Z) : kresult (Z * Z) :=
  let s := kheap_lazy_start s in
  let s := set_bounds s (kheap_start s) (page_round_up (kheap_current s)) in
  let total := u32 (size + HEADER_SIZE) in
  let total := if total <? 16 then 16 else total in
  match kheap_search s (fun curr => ((total <=? sz s curr) && (curr mod 4096 =? 0))%bool) with
  | WHang => KHang
  | WFound prev curr =>
      KRet (curr + HEADER_SIZE, curr) (set_size (kheap_unlink s prev curr) curr total)
  | WNone =>
      if memory_size s <=? u64 (kheap_current s + total) then KHalted
      else KRet (kheap_current s + HEADER_SIZE, kheap_current s)
                (kheap_bump s (kheap_current s) total total)
  end.

(** The loop of [kfree] that returns whole pages to the physical allocator. *)
Fixpoint kfree_pages (m : pmm) (blk_start : Z) (i : Z) (pages : nat) : pmm :=
  match pages with
  | O => m
  | S pages' =>
      kfree_pages (pmm_free_block m (u64 (blk_start + u32 (i * 4096)))) blk_start (i + 1) pages'
  end.

Definition kfree (s : kheap) (ptr : Z) : kheap :=
  if ptr =? 0 then s
  else
    let header := u64 (ptr - HEADER_SIZE) in
    if header <? kheap_start s then s
    else
      let s :=
        if ((header mod 4096 =? 0) && (4096 <=? sz s header))%bool
        then set_pmm s (kfree_pages (kpmm s) header 0 (Z.to_nat (sz s header / 4096)))
        else s in
      set_free_list (set_next s header (free_list s)) header.

(** [memcpy(np, ptr, old_size)] on payload bytes. *)
Definition kcopy (b : gmap Z Z) (dst src : Z) (n : nat) : gmap Z Z :=
  foldl (fun b' i => <[dst + i := default 0 (b !! (src + i))]> b') b (seqZ 0 (Z.of_nat n)).

(** NULL is 0. *)
Definition krealloc (s : kheap) (ptr new_size : Z) : kresult Z :=
  if ptr =? 0 then kmalloc s new_size
  else if new_size =? 0 then KRet 0 (kfree s ptr)
  else
    let header := u64 (ptr - HEADER_SIZE) in
    if header <? kheap_start s then KRet 0 s
    else
      let old_size := if HEADER_SIZE <? sz s header then sz s header - HEADER_SIZE else 0 in
      if new_size <=? old_size then KRet ptr s
      else match kmalloc s new_size with
           | KRet np s' =>
               if np =? 0 then KRet 0 s'
               else
                 let s' := set_kbytes s' (kcopy (kbytes s') np ptr (Z.to_nat old_size)) in
                 KRet np (kfree s' ptr)
           | KHalted => KHalted
           | KHang => KHang
           end.

(** ** Specification

    [seg nxt p l q]: following [next] from [p] visits the headers [l] and
    arrives at [q]. *)

Fixpoint seg (nxt : gmap Z Z) (p : Z) (l : list Z) (q : Z) : Prop :=
  match l with
  | [] => p = q
  | h :: l' => p = h /\ h <> 0 /\ exists n, nxt !! h = Some n /\ seg nxt n l' q
  end.

Definition disjoint_blocks (s : kheap) (h1 h2 : Z) : Prop :=
  h1 + sz s h1 <= h2 \/ h2 + sz s h2 <= h1.

(** Blocks of at least a header inside the heap, no two sharing a byte. *)
Record blocks_ok (s : kheap) (bs : list Z) : Prop := {
  bo_nodup : NoDup bs;
  bo_in : forall h, h ∈ bs ->
    kheap_start s <= h /\ 16 <= sz s h < 2 ^ 32 /\ h + sz s h <= kheap_current s;
  bo_disj : forall h1 h2, h1 ∈ bs -> h2 ∈ bs -> h1 <> h2 -> disjoint_blocks s h1 h2
}.

(** The heap with free blocks [free] (in list order) and blocks [live] in use,
    both named by their headers.  The abstract state of the allocator is the
    set [live] with its extents. *)
Record heap_inv (s : kheap) (free live : list Z) : Prop := {
  hi_bounds : 0 < kheap_start s <= kheap_current s;
  hi_mem : kheap_current s <= (memory_size s + 4095) / 4096 * 4096 /\ memory_size s < 2 ^ 63;
  hi_chain : seg (hdr_next s) (free_list s) free 0;
  hi_blocks : blocks_ok s (free ++ live)
}.

Lemma hi_current s free live : heap_inv s free live -> 0 < kheap_current s < 2 ^ 63 + 4096.
Proof. intros [Hb Hm _ _]. zlia. Qed.

(** ** Lemmas on the free list *)

Lemma seg_app nxt p l1 l2 q :
  seg nxt p (l1 ++ l2) q <-> exists m, seg nxt p l1 m /\ seg nxt m l2 q.
Proof.
  revert p. induction l1 as [|h l1 IH]; intros p; simpl.
  - split; [intros; by exists p|]. by intros (m & -> & H).
  - split.
    + intros (-> & Hh & n & Hn & H). apply IH in H as (m & H1 & H2).
      exists m. split; [|done]. split; [done|]. split; [done|]. by exists n.
    + intros (m & (-> & Hh & n & Hn & H1) & H2).
      split; [done|]. split; [done|]. exists n. split; [done|]. apply IH. by exists m.
Qed.

Lemma seg_insert nxt p l q h v : h ∉ l -> seg nxt p l q -> seg (<[h := v]> nxt) p l q.
Proof.
  revert p. induction l as [|a l IH]; intros p Hh; simpl; [done|].
  intros (-> & Ha & n & Hn & H). apply not_elem_of_cons in Hh as [Hne Hh].
  split; [done|]. split; [done|]. exists n. rewrite lookup_insert_ne by done. auto.
Qed.

Lemma seg_dom nxt p l q h : seg nxt p l q -> h ∈ l -> is_Some (nxt !! h).
Proof.
  revert p. induction l as [|a l IH]; intros p; simpl.
  { intros _ Hin. by apply not_elem_of_nil in Hin. }
  intros (-> & _ & n & Hn & H) Hin. apply elem_of_cons in Hin as [->|Hin]; eauto.
Qed.

(** A list without repetition is no longer than the map its cells come from. *)
Lemma length_le_size (m : gmap Z Z) (l : list Z) :
  NoDup l -> (forall h, h ∈ l -> is_Some (m !! h)) -> (length l <= size m)%nat.
Proof.
  intros Hnd Hin. rewrite <- size_dom. rewrite <- (size_list_to_set (C := gset Z) l) by done.
  apply subseteq_size. intros h Hh%elem_of_list_to_set. by apply elem_of_dom, Hin.
Qed.

Lemma kheap_walk_spec s fit fuel prev p l :
  seg (hdr_next s) p l 0 -> (length l <= fuel)%nat ->
  match kheap_walk s fit fuel prev p with
  | WFound pr c => exists l1 l2, l = l1 ++ c :: l2 /\ fit c = true
                   /\ Forall (fun h => fit h = false) l1
                   /\ pr = match last l1 with Some h => Some h | None => prev end
  | WNone => Forall (fun h => fit h = false) l
  | WHang => False
  end.
Proof.
  revert prev p l. induction fuel as [|fuel IH]; intros prev p l Hseg Hlen.
  - destruct l as [|h l]; simpl in Hlen; [|lia]. simpl in Hseg. subst p. simpl. done.
  - destruct l as [|h l]; simpl in Hseg; [subst p; simpl; done|].
    destruct Hseg as (-> & Hh & n & Hn & Hseg). cbn [kheap_walk].
    rewrite (proj2 (Z.eqb_neq h 0)) by done.
    destruct (fit h) eqn:Hfit; [by exists [], l|].
    assert (Hnx : nx s h = n) by (unfold nx; by rewrite Hn).
    specialize (IH (Some h) n l Hseg ltac:(simpl in Hlen; lia)). rewrite <- Hnx in IH.
    destruct (kheap_walk s fit fuel (Some h) (nx s h)) as [pr c| |]; [|by constructor|done].
    destruct IH as (l1 & l2 & -> & Hc & Hl1 & Hpr). exists (h :: l1), l2.
    split_and!; [done|done|by constructor|].
    rewrite Hpr. destruct l1 as [|a l1]; [done|]. rewrite last_cons_cons.
    destruct (last (a :: l1)) eqn:E; [done|]. by apply last_None in E.
Qed.

Lemma kheap_search_spec s fit free live :
  heap_inv s free live ->
  match kheap_search s fit with
  | WFound pr c => exists l1 l2, free = l1 ++ c :: l2 /\ fit c = true
                   /\ Forall (fun h => fit h = false) l1 /\ pr = last l1
  | WNone => Forall (fun h => fit h = false) free
  | WHang => False
  end.
Proof.
  intros H.
  assert (Hlen : (length free <= size (hdr_next s))%nat).
  { apply length_le_size; [|intros; eapply seg_dom; [apply H|done]].
    pose proof (bo_nodup _ _ (hi_blocks _ _ _ H)) as Hnd. by apply NoDup_app in Hnd as [? _]. }
  pose proof (kheap_walk_spec s fit _ None _ _ (hi_chain _ _ _ H) Hlen) as Hw.
  unfold kheap_search. destruct (kheap_walk _ _ _ _ _); [|done|done].
  destruct Hw as (l1 & l2 & ? & ? & ? & ->). exists l1, l2. split_and!; try done.
  by destruct (last l1).
Qed.

Lemma unlink_seg s l1 c l2 :
  NoDup (l1 ++ c :: l2) -> seg (hdr_next s) (free_list s) (l1 ++ c :: l2) 0 ->
  seg (hdr_next (kheap_unlink s (last l1) c)) (free_list (kheap_unlink s (last l1) c))
      (l1 ++ l2) 0.
Proof.
  intros Hnd Hseg. apply seg_app in Hseg as (m & H1 & H2). simpl in H2.
  destruct H2 as (-> & _ & n & Hn & H2). assert (Hnx : nx s c = n) by (unfold nx; by rewrite Hn).
  destruct l1 as [|h l1 _] using rev_ind; [simpl in *; by rewrite Hnx|].
  rewrite last_snoc. simpl. rewrite Hnx. apply seg_app in H1 as (m & H1 & H1').
  simpl in H1'. destruct H1' as (-> & Hh & n' & Hn' & ->).
  apply NoDup_app in Hnd as (Hnd1 & Hnd12 & Hnd2).
  apply NoDup_app in Hnd1 as (_ & Hnd1 & _). apply NoDup_cons in Hnd2 as [_ _].
  rewrite <- app_assoc. apply seg_app. exists h. split.
  - apply seg_insert; [|done]. intros Hin. apply (Hnd1 h Hin). by left.
  - simpl. split; [done|]. split; [done|]. exists n. rewrite lookup_insert_eq. split; [done|].
    apply seg_insert; [|done]. intros Hin. apply (Hnd12 h); [|by right].
    apply elem_of_app. right. by left.
Qed.

(** ** Lemmas on blocks *)

Lemma blocks_ok_mono s s' bs bs' :
  blocks_ok s bs -> NoDup bs' -> (forall h, h ∈ bs' -> h ∈ bs) ->
  kheap_start s' = kheap_start s -> kheap_current s <= kheap_current s' ->
  (forall h, h ∈ bs' -> 16 <= sz s' h <= sz s h) ->
  blocks_ok s' bs'.
Proof.
  intros [_ Hin Hd] Hnd Hsub Hst Hcur Hsz. constructor; [done| |].
  - intros h Hh. specialize (Hin h (Hsub h Hh)). specialize (Hsz h Hh). rewrite Hst. lia.
  - intros h1 h2 H1 H2 Hne. specialize (Hd h1 h2 (Hsub _ H1) (Hsub _ H2) Hne).
    pose proof (Hsz _ H1). pose proof (Hsz _ H2). unfold disjoint_blocks in *. lia.
Qed.

(** A block placed at or above [kheap_current]. *)
Lemma blocks_ok_bump s bs header size_field total :
  blocks_ok s bs -> 0 < kheap_start s <= kheap_current s ->
  kheap_current s <= header -> 16 <= size_field < 2 ^ 32 ->
  header + size_field <= kheap_current s + total -> kheap_current s + total < 2 ^ 64 ->
  let s' := kheap_bump s header size_field total in
  blocks_ok s' (header :: bs) /\ sz s' header = size_field
  /\ kheap_start s' = kheap_start s /\ kheap_current s' = kheap_current s + total
  /\ (forall h, h <> header -> sz s' h = sz s h)
  /\ hdr_next s' = hdr_next s /\ free_list s' = free_list s /\ memory_size s' = memory_size s.
Proof.
  intros H Hb Hh Hsf Hfit Hov s'.
  assert (Hcur : kheap_current s' = kheap_current s + total).
  { unfold s', kheap_bump; simpl. apply u64_small. lia. }
  assert (Hszh : sz s' header = size_field).
  { unfold s', kheap_bump, sz; simpl. rewrite lookup_insert_eq. apply u32_small. lia. }
  assert (Hszo : forall h, h <> header -> sz s' h = sz s h).
  { intros h Hne. unfold s', kheap_bump, sz; simpl. by rewrite lookup_insert_ne. }
  assert (Hnew : forall h, h ∈ bs -> h <> header /\ h + sz s h <= header).
  { intros h Hin. destruct (bo_in _ _ H h Hin) as (? & ? & ?). lia. }
  split_and!; try done. constructor.
  - apply NoDup_cons. split; [|apply H]. intros Hin. by destruct (Hnew _ Hin).
  - intros h [->|Hin]%elem_of_cons.
    + rewrite Hszh, Hcur. change (kheap_start s') with (kheap_start s). lia.
    + destruct (Hnew h Hin) as [Hne ?]. rewrite Hszo, Hcur by done.
      change (kheap_start s') with (kheap_start s). destruct (bo_in _ _ H h Hin) as (? & ? & ?). lia.
  - assert (Hlt : forall h, h ∈ bs -> disjoint_blocks s' h header).
    { intros h Hin. destruct (Hnew h Hin). left. by rewrite Hszo. }
    intros h1 h2 [->|H1]%elem_of_cons [->|H2]%elem_of_cons Hne; [done| | |].
    + destruct (Hlt h2 H2); [by right|by left].
    + by apply Hlt.
    + destruct (Hnew h1 H1), (Hnew h2 H2). unfold disjoint_blocks. rewrite !Hszo by done.
      by apply (bo_disj _ _ H).
Qed.

(** ** Lemmas on the operations *)

Lemma kmalloc_total_bounds size :
  0 <= size -> size + 11 < 2 ^ 32 ->
  16 <= kmalloc_total size < 2 ^ 32 /\ size + HEADER_SIZE <= kmalloc_total size.
Proof.
  intros H0 H1. unfold kmalloc_total, HEADER_SIZE. rewrite (u64_small (size + 3)) by lia.
  pose proof (clear_low_bits (size + 3) 2 ltac:(done)) as Hm.
  change (Z.ones 2) with 3 in Hm. change (2 ^ 2) with 4 in Hm. rewrite Hm.
  rewrite u32_small by zlia. ztest; zlia.
Qed.

Lemma lazy_start_id s : 0 < kheap_start s -> kheap_lazy_start s = s.
Proof. intros H. unfold kheap_lazy_start. by rewrite (proj2 (Z.eqb_neq _ 0)) by lia. Qed.

Lemma page_round_up_spec a :
  0 <= a -> a + 4096 < 2 ^ 64 ->
  a <= page_round_up a < a + 4096 /\ page_round_up a mod 4096 = 0.
Proof.
  intros H0 H1. unfold page_round_up. ztest; [|lia].
  assert (0 <= a mod 4096 < 4096) by zlia. rewrite u64_small by lia. zlia.
Qed.

(** Taking the block [c] out of the free list and resizing it. *)
Lemma heap_inv_take s l1 c l2 live total :
  heap_inv s (l1 ++ c :: l2) live -> 16 <= total <= sz s c ->
  let s' := set_size (kheap_unlink s (last l1) c) c total in
  heap_inv s' (l1 ++ l2) (c :: live) /\ sz s' c = total
  /\ (forall h, h <> c -> sz s' h = sz s h) /\ kpmm s' = kpmm s
  /\ kheap_start s' = kheap_start s /\ kheap_current s' = kheap_current s.
Proof.
  intros H Ht s'.
  assert (Hc : sz s' c = total) by (unfold s', sz; simpl; by rewrite lookup_insert_eq).
  assert (Ho : forall h, h <> c -> sz s' h = sz s h).
  { intros h Hne. unfold s', sz; simpl. rewrite lookup_insert_ne by done. by destruct (last l1). }
  assert (Hfld : kpmm s' = kpmm s /\ kheap_start s' = kheap_start s
                 /\ kheap_current s' = kheap_current s /\ memory_size s' = memory_size s)
    by (unfold s'; destruct (last l1); done).
  destruct Hfld as (Hp & Hst & Hcur & Hms).
  assert (Hperm : (l1 ++ c :: l2) ++ live ≡ₚ (l1 ++ l2) ++ c :: live).
  { by rewrite <- (Permutation_middle l1 l2 c), <- (Permutation_middle (l1 ++ l2) live c). }
  pose proof (bo_nodup _ _ (hi_blocks _ _ _ H)) as Hnd.
  split; [|by split_and!]. constructor.
  - rewrite Hst, Hcur. apply H.
  - rewrite Hms, Hcur. apply H.
  - apply NoDup_app in Hnd as [Hnd _].
    pose proof (unlink_seg s l1 c l2 Hnd (hi_chain _ _ _ H)) as Hseg. exact Hseg.
  - apply (blocks_ok_mono s _ _ _ (hi_blocks _ _ _ H)).
    + by rewrite <- Hperm.
    + intros h. by rewrite Hperm.
    + done.
    + lia.
    + intros h Hh. rewrite <- Hperm in Hh. pose proof (bo_in _ _ (hi_blocks _ _ _ H) h Hh).
      destruct (decide (h = c)) as [->|Hne]; [lia|]. rewrite Ho by done. lia.
Qed.

(** Placing a new block at or above [kheap_current]. *)
Lemma heap_inv_bump s free live header size_field total :
  heap_inv s free live -> kheap_current s <= header -> 16 <= size_field < 2 ^ 32 ->
  header + size_field <= kheap_current s + total ->
  kheap_current s + total < memory_size s ->
  let s' := kheap_bump s header size_field total in
  heap_inv s' free (header :: live) /\ sz s' header = size_field
  /\ kheap_current s' = kheap_current s + total
  /\ forall h, h <> header -> sz s' h = sz s h.
Proof.
  intros H Hh Hsf Hfit Hms. cbv zeta. pose proof (hi_bounds _ _ _ H). pose proof (hi_current _ _ _ H). pose proof (proj2 (hi_mem _ _ _ H)).
  destruct (blocks_ok_bump s (free ++ live) header size_field total (hi_blocks _ _ _ H))
    as (Hbo & Hszh & Hst & Hcur & Hszo & Hnx & Hfl & Hms'); [lia..|].
  split_and!; [|done..]. constructor.
  - rewrite Hst, Hcur. lia.
  - rewrite Hms', Hcur. zlia.
  - rewrite Hnx, Hfl. apply H.
  - destruct Hbo as [Hnd Hin Hd]. constructor.
    + by rewrite <- Permutation_middle.
    + intros h. rewrite <- Permutation_middle. apply Hin.
    + intros h1 h2. rewrite <- Permutation_middle. apply Hd.
Qed.

(** The frames under the heap are out of the physical allocator's hands. *)
Record heap_frames (s : kheap) : Prop := {
  hf_wf : pmm_wf (kpmm s);
  hf_used : forall i, 0 <= i < pmm_max_blocks (kpmm s) ->
    kheap_start s / 4096 <= i -> i * 4096 < kheap_current s -> pmm_used (kpmm s) i = true
}.

Lemma heap_frames_bump s free live header size_field total :
  heap_inv s free live -> 0 <= total -> kheap_current s + total < memory_size s ->
  heap_frames s -> heap_frames (kheap_bump s header size_field total).
Proof.
  intros H Ht Hms [Hwf Hu]. pose proof (hi_bounds _ _ _ H). pose proof (hi_current _ _ _ H). pose proof (proj2 (hi_mem _ _ _ H)).
  destruct (wf_reserve_region (kpmm s) (kheap_current s) total Hwf)
    as (Hwf' & Hm' & Hu'); [lia..|unfold BLOCK_SIZE; lia|].
  constructor; simpl; [done|]. intros i Hi Hst. rewrite u64_small by lia. intros Hlt.
  rewrite Hm' in Hi. rewrite Hu' by done. apply orb_true_iff.
  destruct (decide (i * 4096 < kheap_current s)) as [Hl|Hge]; [left; by apply Hu|right].
  unfold BLOCK_SIZE. apply andb_true_iff. split; [apply Z.leb_le|apply Z.ltb_lt]; zlia.
Qed.

Lemma kmalloc_cases s free live size :
  heap_inv s free live -> 0 <= size -> size + 11 < 2 ^ 32 ->
  (exists l1 c l2, free = l1 ++ c :: l2 /\ kmalloc_total size <= sz s c
     /\ Forall (fun h => sz s h < kmalloc_total size) l1
     /\ kmalloc s size = KRet (c + HEADER_SIZE)
          (set_size (kheap_unlink s (last l1) c) c (kmalloc_total size)))
  \/ (Forall (fun h => sz s h < kmalloc_total size) free
      /\ kheap_current s + kmalloc_total size < memory_size s
      /\ kmalloc s size = KRet (kheap_current s + HEADER_SIZE)
           (kheap_bump s (kheap_current s) (kmalloc_total size) (kmalloc_total size)))
  \/ (Forall (fun h => sz s h < kmalloc_total size) free
      /\ memory_size s <= kheap_current s + kmalloc_total size
      /\ kmalloc s size = KHalted).
Proof.
  intros H H0 H1. pose proof (hi_bounds _ _ _ H). pose proof (hi_current _ _ _ H). pose proof (proj2 (hi_mem _ _ _ H)).
  pose proof (kmalloc_total_bounds size H0 H1) as [Ht _].
  unfold kmalloc. rewrite lazy_start_id by lia. cbv zeta.
  set (fit := fun curr => kmalloc_total size <=? sz s curr).
  assert (Hfit : forall l, Forall (fun h => fit h = false) l ->
            Forall (fun h => sz s h < kmalloc_total size) l).
  { intros l Hl. eapply Forall_impl; [exact Hl|]. intros h Hh. unfold fit in Hh. by zbool. }
  pose proof (kheap_search_spec s fit free live H) as Hs.
  destruct (kheap_search s fit) as [pr c| |].
  - destruct Hs as (l1 & l2 & -> & Hc & Hl1 & ->). left. exists l1, c, l2.
    unfold fit in Hc. zbool. auto.
  - right. rewrite u64_small by lia. ztest; [right|left]; auto.
  - done.
Qed.

(** [kmalloc_a] takes at most a page more than the request, and fails only for
    lack of that room. *)
Lemma kmalloc_a_room s free live size :
  heap_inv s free live -> 8 <= size -> size + HEADER_SIZE < 2 ^ 32 ->
  (exists aligned total, aligned mod 4096 = 0 /\ kheap_current s + HEADER_SIZE <= aligned
     /\ aligned + size = kheap_current s + total /\ kheap_current s + total < memory_size s
     /\ total < size + HEADER_SIZE + 4096
     /\ kmalloc_a s size
        = KRet aligned (kheap_bump s (aligned - HEADER_SIZE) (size + HEADER_SIZE) total))
  \/ kmalloc_a s size = KHalted /\ memory_size s < kheap_current s + size + HEADER_SIZE + 4096.
Proof.
  intros H H0 H1. pose proof (hi_bounds _ _ _ H). pose proof (hi_current _ _ _ H).
  pose proof (proj2 (hi_mem _ _ _ H)). unfold HEADER_SIZE in *.
  destruct (page_round_up_spec (kheap_current s + 8)) as [Hr1 Hr2]; [lia..|].
  unfold kmalloc_a, HEADER_SIZE. rewrite lazy_start_id by lia. cbv zeta.
  rewrite (u64_small (kheap_current s + 8)) by lia.
  set (aligned := page_round_up (kheap_current s + 8)) in *.
  rewrite (u64_small (aligned - kheap_current s)) by lia.
  rewrite (u64_small (aligned - kheap_current s + size)) by lia.
  rewrite (u64_small (aligned - 8)) by lia. rewrite u64_small by lia.
  ztest; [right; split; [done|lia]|left]. exists aligned, (aligned - kheap_current s + size).
  split_and!; [lia..|done].
Qed.

Lemma kmalloc_a_cases s free live size :
  heap_inv s free live -> 8 <= size -> size + HEADER_SIZE < 2 ^ 32 ->
  (exists aligned total, aligned mod 4096 = 0 /\ kheap_current s + HEADER_SIZE <= aligned
     /\ aligned + size = kheap_current s + total /\ kheap_current s + total < memory_size s
     /\ kmalloc_a s size
        = KRet aligned (kheap_bump s (aligned - HEADER_SIZE) (size + HEADER_SIZE) total))
  \/ kmalloc_a s size = KHalted.
Proof.
  intros H H0 H1. destruct (kmalloc_a_room s free live size H H0 H1) as [(al & total & ? & ? & ? & ? & _ & ?)|[? _]]; [left|by right].
  by exists al, total.
Qed.

(** [kmalloc_ap] first moves the bump pointer to a page boundary. *)
Lemma heap_inv_round s free live :
  heap_inv s free live ->
  heap_inv (set_bounds s (kheap_start s) (page_round_up (kheap_current s))) free live.
Proof.
  intros H. pose proof (hi_bounds _ _ _ H). pose proof (hi_current _ _ _ H).
  destruct (page_round_up_spec (kheap_current s)) as [Hr1 Hr2]; [lia..|].
  constructor; simpl; [lia| |apply H|].
  - pose proof (hi_mem _ _ _ H). zlia.
  - apply (blocks_ok_mono s _ _ _ (hi_blocks _ _ _ H)); simpl; [apply H|done|done|lia|].
    intros h Hh. pose proof (bo_in _ _ (hi_blocks _ _ _ H) h Hh). change (sz _ h) with (sz s h). lia.
Qed.

Lemma heap_inv_kfree s free l1 h l2 :
  heap_inv s free (l1 ++ h :: l2) ->
  heap_inv (kfree s (h + HEADER_SIZE)) (h :: free) (l1 ++ l2)
  /\ (forall h', sz (kfree s (h + HEADER_SIZE)) h' = sz s h')
  /\ free_list (kfree s (h + HEADER_SIZE)) = h
  /\ memory_size (kfree s (h + HEADER_SIZE)) = memory_size s.
Proof.
  intros H. pose proof (hi_bounds _ _ _ H). pose proof (hi_current _ _ _ H).
  assert (Hin : h ∈ free ++ l1 ++ h :: l2).
  { apply elem_of_app. right. apply elem_of_app. right. by left. }
  destruct (bo_in _ _ (hi_blocks _ _ _ H) h Hin) as (Hst & Hsz & Hcur).
  pose proof (bo_nodup _ _ (hi_blocks _ _ _ H)) as Hnd.
  assert (Hperm : free ++ l1 ++ h :: l2 ≡ₚ (h :: free) ++ l1 ++ l2).
  { simpl. rewrite <- (Permutation_middle l1 l2 h). by rewrite <- (Permutation_middle free). }
  unfold kfree, HEADER_SIZE. rewrite (proj2 (Z.eqb_neq (h + 8) 0)) by lia. cbv zeta.
  replace (h + 8 - 8) with h by lia. rewrite (u64_small h) by lia.
  rewrite (proj2 (Z.ltb_ge h (kheap_start s))) by lia.
  match goal with |- context [if ?c then ?a else s] => set (s1 := if c then a else s) end.
  assert (Hs1 : kheap_start s1 = kheap_start s /\ kheap_current s1 = kheap_current s
    /\ memory_size s1 = memory_size s /\ hdr_size s1 = hdr_size s /\ hdr_next s1 = hdr_next s
    /\ free_list s1 = free_list s).
  { unfold s1. ztest; done. }
  destruct Hs1 as (E1 & E2 & E3 & E4 & E5 & E6).
  assert (Hszs : forall h', sz (set_free_list (set_next s1 h (free_list s1)) h) h' = sz s h').
  { intros h'. unfold sz; simpl. by rewrite E4. }
  split_and!; [|done|done|done]. constructor; simpl.
  - rewrite E1, E2. done.
  - rewrite E2, E3. apply H.
  - split; [done|]. split; [lia|]. exists (free_list s). rewrite E5, E6, lookup_insert_eq.
    split; [done|]. apply seg_insert; [|apply H]. rewrite Hperm in Hnd. simpl in Hnd.
    apply NoDup_cons in Hnd as [Hni _]. intros Hf. apply Hni. apply elem_of_app. by left.
  - apply (blocks_ok_mono s _ _ _ (hi_blocks _ _ _ H)).
    + by rewrite <- Hperm.
    + intros h'. by rewrite Hperm.
    + done.
    + simpl. lia.
    + intros h' Hh'. rewrite Hszs. change (h :: free ++ l1 ++ l2) with ((h :: free) ++ l1 ++ l2) in Hh'.
      rewrite <- Hperm in Hh'. pose proof (bo_in _ _ (hi_blocks _ _ _ H) h' Hh'). lia.
Qed.

Lemma kmalloc_ap_total size :
  0 <= size -> size + HEADER_SIZE < 2 ^ 32 ->
  let total := u32 (size + HEADER_SIZE) in
  let total := if total <? 16 then 16 else total in
  16 <= total < 2 ^ 32 /\ size + HEADER_SIZE <= total.
Proof. intros H0 H1. cbv zeta. unfold HEADER_SIZE in *. rewrite u32_small by lia. ztest; lia. Qed.

Lemma kmalloc_ap_cases s free live size p ph s' :
  heap_inv s free live -> 0 <= size -> size + HEADER_SIZE < 2 ^ 32 ->
  kmalloc_ap s size = KRet (p, ph) s' ->
  exists free', p = ph + HEADER_SIZE /\ ph mod 4096 = 0 /\ heap_inv s' free' (ph :: live)
    /\ size + HEADER_SIZE <= sz s' ph /\ kheap_start s' = kheap_start s.
Proof.
  intros H H0 H1. pose proof (hi_bounds _ _ _ H) as Hb. pose proof (hi_current _ _ _ H) as Hc.
  destruct (kmalloc_ap_total size H0 H1) as [Ht1 Ht2]. pose proof (heap_inv_round s free live H) as Hr.
  destruct (page_round_up_spec (kheap_current s)) as [Hr1 Hr2]; [lia..|].
  unfold kmalloc_ap. rewrite lazy_start_id by lia. cbv zeta in *.
  set (s1 := set_bounds s _ _) in *. set (total := if _ <? 16 then _ else _) in *.
  pose proof (hi_current _ _ _ Hr) as Hc1. pose proof (hi_mem _ _ _ Hr) as Hm1.
  set (fit := fun curr => _). pose proof (kheap_search_spec s1 fit free live Hr) as Hs.
  destruct (kheap_search s1 fit) as [pr c| |]; [| |done].
  - destruct Hs as (l1 & l2 & -> & Hfit & _ & ->). unfold fit in Hfit. zbool.
    intros [= <- <- <-].
    destruct (heap_inv_take s1 l1 c l2 live total Hr) as (Hi & Hsz & _ & _ & Hst & _); [lia|].
    exists (l1 ++ l2). split_and!; [done|done|done|by rewrite Hsz|done].
  - rewrite u64_small by lia. ztest; [done|]. intros [= <- <- <-].
    destruct (heap_inv_bump s1 free live (kheap_current s1) total total Hr) as (Hi & Hsz & _ & _);
      [lia..|].
    rewrite <- Hsz in Ht2. exists free. split_and!; [done|done|done|exact Ht2|done].
Qed.

(** What [kmalloc] promises its caller: a block that is new and big enough. *)
Lemma kmalloc_ret s free live size p s' :
  heap_inv s free live -> 0 <= size -> size + 11 < 2 ^ 32 -> kmalloc s size = KRet p s' ->
  exists free', heap_inv s' free' ((p - HEADER_SIZE) :: live)
    /\ size + HEADER_SIZE <= sz s' (p - HEADER_SIZE)
    /\ (forall h, h ∈ live -> sz s' h = sz s h)
    /\ kheap_start s' = kheap_start s /\ (heap_frames s -> heap_frames s').
Proof.
  intros H H0 H1 E. pose proof (hi_bounds _ _ _ H) as Hb.
  destruct (kmalloc_total_bounds size H0 H1) as [Ht1 Ht2]. unfold HEADER_SIZE in *.
  destruct (kmalloc_cases s free live size H H0 H1)
    as [(l1 & c & l2 & -> & Hfit & _ & Er)|[(_ & Hms & Er)|(_ & _ & Er)]];
    rewrite Er in E; [| |done]; injection E as <- <-.
  - destruct (heap_inv_take s l1 c l2 live (kmalloc_total size) H) as (Hi & Hsz & Ho & Hp & Hst & Hcu);
      [lia|].
    unfold HEADER_SIZE. replace (c + 8 - 8) with c by lia. exists (l1 ++ l2). rewrite Hsz.
    split_and!; [done|done| |done|].
    + intros h Hh. apply Ho. intros ->. pose proof (bo_nodup _ _ (hi_blocks _ _ _ H)) as Hnd.
      apply NoDup_app in Hnd as (_ & Hd & _). apply (Hd c); [|done]. apply elem_of_app. right. by left.
    + intros [Hw Hu]. constructor; rewrite Hp; [done|]. rewrite Hst, Hcu. done.
  - destruct (heap_inv_bump s free live (kheap_current s) (kmalloc_total size) (kmalloc_total size) H)
      as (Hi & Hsz & _ & Ho); [lia..|].
    unfold HEADER_SIZE. replace (kheap_current s + 8 - 8) with (kheap_current s) by lia.
    exists free. rewrite Hsz. split_and!; [done|done| |done|].
    + intros h Hh. apply Ho. intros ->. assert (Hin : kheap_current s ∈ free ++ live)
        by (apply elem_of_app; by right).
      pose proof (bo_in _ _ (hi_blocks _ _ _ H) _ Hin). lia.
    + intros Hf. by apply (heap_frames_bump s free live); [|lia|lia|].
Qed.

Lemma kmalloc_a_ret s free live size p s' :
  heap_inv s free live -> 8 <= size -> size + HEADER_SIZE < 2 ^ 32 -> kmalloc_a s size = KRet p s' ->
  heap_inv s' free ((p - HEADER_SIZE) :: live) /\ p mod 4096 = 0
  /\ size + HEADER_SIZE <= sz s' (p - HEADER_SIZE)
  /\ (heap_frames s -> heap_frames s').
Proof.
  intros H H0 H1 E. pose proof (hi_bounds _ _ _ H) as Hb.
  destruct (kmalloc_a_cases s free live size H H0 H1) as [(al & total & Hal & Hcur & Hsum & Hms & Er)|Er];
    rewrite Er in E; [|done]. injection E as <- <-. unfold HEADER_SIZE in *.
  destruct (heap_inv_bump s free live (al - 8) (size + 8) total H) as (Hi & Hsz & _ & _); [lia..|].
  rewrite Hsz. split_and!; [done|done|done|].
  intros Hf. by apply (heap_frames_bump s free live); [|lia|lia|].
Qed.

Lemma foldl_insert_lookup (b : gmap Z Z) (g : Z -> Z) dst n k :
  foldl (fun b' i => <[dst + i := g i]> b') b (seqZ 0 (Z.of_nat n)) !! (dst + k)
  = if ((0 <=? k) && (k <? Z.of_nat n))%bool then Some (g k) else b !! (dst + k).
Proof.
  induction n as [|n IH]; [simpl; ztest; [lia|done]|].
  rewrite seqZ_S, foldl_snoc, Z.add_0_l.
  destruct (decide (k = Z.of_nat n)) as [->|Hne].
  - rewrite lookup_insert_eq. rewrite (proj2 (Z.leb_le 0 _)), (proj2 (Z.ltb_lt (Z.of_nat n) _)) by lia.
    done.
  - rewrite lookup_insert_ne by lia. rewrite IH.
    replace (k <? Z.of_nat (S n)) with (k <? Z.of_nat n); [done|].
    destruct (Z.ltb_spec k (Z.of_nat n)), (Z.ltb_spec k (Z.of_nat (S n))); lia.
Qed.

(** ** Runs

    One step is a call that returns; [live] lists the headers of the blocks the
    callers hold.  Callers free and resize only blocks they hold, and ask for
    less than 4 GiB. *)

Inductive heap_step : kheap * list Z -> kheap * list Z -> Prop :=
| step_kmalloc s live size p s' :
    0 <= size -> size + 11 < 2 ^ 32 -> kmalloc s size = KRet p s' ->
    heap_step (s, live) (s', (p - HEADER_SIZE) :: live)
| step_kmalloc_a s live size p s' :
    8 <= size -> size + HEADER_SIZE < 2 ^ 32 -> kmalloc_a s size = KRet p s' ->
    heap_step (s, live) (s', (p - HEADER_SIZE) :: live)
| step_kmalloc_ap s live size p ph s' :
    0 <= size -> size + HEADER_SIZE < 2 ^ 32 -> kmalloc_ap s size = KRet (p, ph) s' ->
    heap_step (s, live) (s', (p - HEADER_SIZE) :: live)
| step_kfree s l1 h l2 :
    heap_step (s, l1 ++ h :: l2) (kfree s (h + HEADER_SIZE), l1 ++ l2)
| step_krealloc s l1 h l2 size p s' :
    0 < size -> size + 11 < 2 ^ 32 -> krealloc s (h + HEADER_SIZE) size = KRet p s' ->
    heap_step (s, l1 ++ h :: l2) (s', (p - HEADER_SIZE) :: l1 ++ l2).

Lemma heap_inv_perm s free live live' :
  live ≡ₚ live' -> heap_inv s free live -> heap_inv s free live'.
Proof.
  intros Hp [Hb Hm Hc [Hnd Hin Hd]]. constructor; [done..|]. constructor.
  - by rewrite <- Hp.
  - intros h. rewrite <- Hp. apply Hin.
  - intros h1 h2. rewrite <- Hp. apply Hd.
Qed.

(** The order in which the blocks in use are named is irrelevant. *)
#[export] Instance heap_inv_proper s free : Proper (Permutation ==> iff) (heap_inv s free).
Proof. intros l l' Hl. split; apply heap_inv_perm; [done|by symmetry]. Qed.

Lemma heap_inv_set_kbytes s free live b :
  heap_inv s free live -> heap_inv (set_kbytes s b) free live.
Proof. intros [Hb Hm Hc [Hnd Hin Hd]]. constructor; [done..|]. constructor; done. Qed.

(** The heap's structure does not depend on the frames. *)
Lemma heap_inv_set_pmm s free live m : heap_inv s free live -> heap_inv (set_pmm s m) free live.
Proof. intros [Hb Hm Hc [Hnd Hin Hd]]. constructor; [done..|]. constructor; done. Qed.

(** The two ways [krealloc] of a held block returns. *)
Lemma krealloc_ret s free l1 h l2 size p s' :
  heap_inv s free (l1 ++ h :: l2) -> 0 < size -> size + 11 < 2 ^ 32 ->
  krealloc s (h + HEADER_SIZE) size = KRet p s' ->
  (p = h + HEADER_SIZE /\ s' = s /\ size + HEADER_SIZE <= sz s h)
  \/ (sz s h < size + HEADER_SIZE /\ exists s1, kmalloc s size = KRet p s1
      /\ s' = kfree (set_kbytes s1 (kcopy (kbytes s1) p (h + HEADER_SIZE)
                                    (Z.to_nat (sz s h - HEADER_SIZE)))) (h + HEADER_SIZE)).
Proof.
  intros H H0 H1. pose proof (hi_bounds _ _ _ H) as Hb. pose proof (hi_current _ _ _ H) as Hc.
  assert (Hin : h ∈ free ++ l1 ++ h :: l2).
  { apply elem_of_app. right. apply elem_of_app. right. by left. }
  destruct (bo_in _ _ (hi_blocks _ _ _ H) h Hin) as (Hst & Hsz & Hcur).
  unfold krealloc, HEADER_SIZE. rewrite (proj2 (Z.eqb_neq (h + 8) 0)) by lia.
  rewrite (proj2 (Z.eqb_neq size 0)) by lia. cbv zeta. replace (h + 8 - 8) with h by lia.
  rewrite (u64_small h) by lia. rewrite (proj2 (Z.ltb_ge h (kheap_start s))) by lia.
  rewrite (proj2 (Z.ltb_lt 8 (sz s h))) by lia.
  destruct (Z.leb_spec size (sz s h - 8)).
  - intros [= <- <-]. left. split_and!; [done|done|lia].
  - intros E. right. split; [lia|]. destruct (kmalloc s size) as [np s1| |] eqn:Em; [|done..].
    destruct (kmalloc_ret _ _ _ _ _ _ H (Z.lt_le_incl _ _ H0) H1 Em) as (free' & Hi & _).
    pose proof (bo_in _ _ (hi_blocks _ _ _ Hi) (np - HEADER_SIZE)) as Hnp.
    pose proof (hi_bounds _ _ _ Hi). destruct Hnp as [Hnp _].
    { apply elem_of_app. right. by left. }
    unfold HEADER_SIZE in Hnp. rewrite (proj2 (Z.eqb_neq np 0)) in E by lia.
    injection E as <- <-. by exists s1.
Qed.

Lemma heap_step_inv s live s' live' free :
  heap_inv s free live -> heap_step (s, live) (s', live') -> exists free', heap_inv s' free' live'.
Proof.
  intros H Hs. inversion Hs as [? ? size p ? H0 H1 E|? ? size p ? H0 H1 E|? ? size p ph ? H0 H1 E
    |? l1 h l2|? l1 h l2 size p ? H0 H1 E]; subst.
  - destruct (kmalloc_ret _ _ _ _ _ _ H H0 H1 E) as (free' & Hi & _). by exists free'.
  - destruct (kmalloc_a_ret _ _ _ _ _ _ H H0 H1 E) as (Hi & _). by exists free.
  - destruct (kmalloc_ap_cases _ _ _ _ _ _ _ H H0 H1 E) as (free' & -> & _ & Hi & _). exists free'.
    replace (ph + HEADER_SIZE - HEADER_SIZE) with ph by lia. done.
  - destruct (heap_inv_kfree s free l1 h l2 H) as [Hi _]. by exists (h :: free).
  - destruct (krealloc_ret _ _ _ _ _ _ _ _ H H0 H1 E) as [(-> & -> & _)|(_ & s1 & Em & ->)].
    + exists free. replace (h + HEADER_SIZE - HEADER_SIZE) with h by lia.
      eapply heap_inv_perm; [|exact H]. symmetry. apply Permutation_middle.
    + destruct (kmalloc_ret _ _ _ _ _ _ H (Z.lt_le_incl _ _ H0) H1 Em) as (free' & Hi & _).
      eapply heap_inv_set_kbytes in Hi.
      destruct (heap_inv_kfree _ _ ((p - HEADER_SIZE) :: l1) h l2 Hi) as [Hi' _].
      exists (h :: free'). exact Hi'.
Qed.

Lemma heap_run_inv c c' free :
  heap_inv c.1 free c.2 -> rtc heap_step c c' -> exists free', heap_inv c'.1 free' c'.2.
Proof.
  intros H Hr. revert free H. induction Hr as [c|[s l] [s1 l1] c' Hs _ IH]; intros free H; [by exists free|].
  destruct (heap_step_inv _ _ _ _ _ H Hs) as (free' & H'). exact (IH free' H').
Qed.

(** The heap [kernel_main] sets up: above the kernel image, nothing allocated. *)
Lemma heap_inv_start s start :
  free_list s = 0 -> 0 < start -> start < memory_size s -> memory_size s < 2 ^ 63 ->
  heap_inv (kheap_set_start s start) [] [].
Proof.
  intros Hf H0 H1 H2. destruct (page_round_up_spec start) as [Hr1 Hr2]; [lia..|].
  constructor; simpl; [lia|zlia|done|]. constructor; [constructor| |].
  - intros h Hh. by apply not_elem_of_nil in Hh.
  - intros h1 h2 Hh. by apply not_elem_of_nil in Hh.
Qed.


Definition kheap_demo : kheap :=
  {| kheap_start := 0; kheap_current := 0; free_list := 0; hdr_size := ∅; hdr_next := ∅;
     kbytes := ∅; kpmm := pmm_init (replicate 8 0) (256 * 4096);
     memory_size := 0x100000; kernel_end := 0x8000 |}.

Definition kheap_demo1 : kheap :=
  match kmalloc (kheap_set_start kheap_demo 0x10000) 100 with KRet _ s => s | _ => kheap_demo end.
Definition kheap_demo2 : kheap :=
  match krealloc kheap_demo1 0x10008 300 with KRet _ s => s | _ => kheap_demo end.


(** C31: [kmalloc] of a request below 4 GiB either returns a block that is big
    enough, new (not among the blocks in use) and leaves every block in use
    with its extent, or stops the machine, and it stops only when no free block
    fits and the bump pointer would reach the end of memory.  A heap whose
    frames are all reserved in the physical allocator stays so. *)
Theorem kmalloc_fresh_or_out_of_memory s free live size :
  heap_inv s free live -> 0 <= size -> size + 11 < 2 ^ 32 ->
  match kmalloc s size with
  | KRet p s' =>
      size <= sz s' (p - HEADER_SIZE) - HEADER_SIZE /\ (p - HEADER_SIZE ∉ live)
      /\ (forall h, h ∈ live -> sz s' h = sz s h /\ disjoint_blocks s' h (p - HEADER_SIZE))
      /\ (exists free', heap_inv s' free' ((p - HEADER_SIZE) :: live))
      /\ (heap_frames s -> heap_frames s')
  | KHalted =>
      Forall (fun h => sz s h < kmalloc_total size) free
      /\ memory_size s <= kheap_current s + kmalloc_total size
  | KHang => False
  end.
Proof.
  intros H H0 H1. destruct (kmalloc s size) as [p s'| |] eqn:E.
  - destruct (kmalloc_ret _ _ _ _ _ _ H H0 H1 E) as (free' & Hi & Hsz & Ho & _ & Hf).
    destruct (hi_blocks _ _ _ Hi) as [Hnd _ Hd].
    apply NoDup_app in Hnd as (_ & _ & Hnd). apply NoDup_cons in Hnd as [Hni _].
    split_and!; [lia|done| |by exists free'|done].
    intros h Hh. split; [by apply Ho|]. apply Hd; [| |by intros ->]; apply elem_of_app; right; [by right|by left].
  - destruct (kmalloc_cases s free live size H H0 H1)
      as [(l1 & c & l2 & _ & _ & _ & Er)|[(_ & _ & Er)|(Hf & Hm & _)]]; congruence || done.
  - destruct (kmalloc_cases s free live size H H0 H1)
      as [(l1 & c & l2 & _ & _ & _ & Er)|[(_ & _ & Er)|(_ & _ & Er)]]; congruence.
Qed.

Lemma kmalloc_fresh_or_out_of_memory_witness :
  match kmalloc (kheap_set_start kheap_demo 0x10000) 100 with
  | KRet p s' => 100 <= sz s' (p - HEADER_SIZE) - HEADER_SIZE
  | _ => False
  end.
Proof.
  pose proof (kmalloc_fresh_or_out_of_memory (kheap_set_start kheap_demo 0x10000) [] [] 100
    ltac:(apply heap_inv_start; vm_compute; reflexivity) ltac:(lia) ltac:(lia)) as H.
  vm_compute. vm_compute in H. destruct H as [H _]. exact H.
Defined.

(** [krealloc] of a block in use to a larger size returns a block of that
    size that holds the old block's whole payload, byte for byte. *)
Theorem krealloc_keeps_contents s free l1 h l2 size p s' :
  heap_inv s free (l1 ++ h :: l2) -> sz s h - HEADER_SIZE < size -> size + 11 < 2 ^ 32 ->
  (forall a, h + HEADER_SIZE <= a < h + sz s h -> is_Some (kbytes s !! a)) ->
  krealloc s (h + HEADER_SIZE) size = KRet p s' ->
  size <= sz s' (p - HEADER_SIZE) - HEADER_SIZE
  /\ forall i, 0 <= i < sz s h - HEADER_SIZE -> kbytes s' !! (p + i) = kbytes s !! (h + HEADER_SIZE + i).
Proof.
  intros H H0 H1 Hbytes E. pose proof (hi_bounds _ _ _ H) as Hb.
  assert (Hin : h ∈ free ++ l1 ++ h :: l2).
  { apply elem_of_app. right. apply elem_of_app. right. by left. }
  destruct (bo_in _ _ (hi_blocks _ _ _ H) h Hin) as (_ & Hsz & _). unfold HEADER_SIZE in H0.
  assert (Hpos : 0 < size) by lia. pose proof (Z.lt_le_incl _ _ Hpos) as Hnn.
  destruct (krealloc_ret _ _ _ _ _ _ _ _ H Hpos H1 E) as [(_ & _ & ?)|(_ & s1 & Em & ->)];
    unfold HEADER_SIZE in *; [lia|].
  destruct (kmalloc_ret _ _ _ _ _ _ H Hnn H1 Em) as (free' & Hi & Hs1 & _ & _ & _).
  unfold HEADER_SIZE in *. eapply heap_inv_set_kbytes in Hi.
  destruct (heap_inv_kfree _ _ ((p - 8) :: l1) h l2 Hi) as (_ & Hszk & _). unfold HEADER_SIZE in Hszk.
  split; [rewrite Hszk; unfold sz in *; simpl; lia|]. intros i Hir.
  assert (Hkb : forall t q, kbytes (kfree t q) = kbytes t).
  { intros t q. unfold kfree. ztest; [done|]. cbv zeta. ztest; [done|]. simpl. by ztest. }
  rewrite Hkb. simpl. unfold kcopy.
  rewrite (foldl_insert_lookup (kbytes s1) (fun i => default 0 (kbytes s1 !! (h + 8 + i)))).
  rewrite (proj2 (Z.leb_le 0 i)), (proj2 (Z.ltb_lt i _)) by lia. simpl.
  assert (Hk1 : kbytes s1 = kbytes s).
  { destruct (kmalloc_cases s free _ size H Hnn H1)
      as [(l3 & c & l4 & _ & _ & _ & Er)|[(_ & _ & Er)|(_ & _ & Er)]];
      rewrite Er in Em; [| |done]; injection Em as <- <-; [|done]. by destruct (last l3). }
  rewrite Hk1. destruct (Hbytes (h + 8 + i)) as [b Hb']; [lia|]. by rewrite Hb'.
Qed.

Definition kheap_demo_filled : kheap :=
  set_kbytes kheap_demo1 (list_to_map ((fun i => (0x10008 + i, i)) <$> seqZ 0 100)).

Lemma kheap_demo_filled_inv : heap_inv kheap_demo_filled [] [0x10000].
Proof.
  apply heap_inv_set_kbytes. destruct (kmalloc_ret (kheap_set_start kheap_demo 0x10000) [] [] 100 0x10008 kheap_demo1)
    as (free' & Hi & _); [apply heap_inv_start; vm_compute; reflexivity|lia|lia|vm_compute; reflexivity|].
  destruct free' as [|a f]; [exact Hi|]. destruct (hi_chain _ _ _ Hi) as (Ha & Hn & _).
  exfalso. apply Hn. rewrite <- Ha. vm_compute. reflexivity.
Qed.

Lemma kheap_demo_filled_sz : sz kheap_demo_filled 0x10000 = 108.
Proof. vm_compute. reflexivity. Qed.

Lemma kheap_demo_filled_bytes a :
  0x10000 + HEADER_SIZE <= a < 0x10000 + sz kheap_demo_filled 0x10000 ->
  is_Some (kbytes kheap_demo_filled !! a).
Proof.
  rewrite kheap_demo_filled_sz. unfold HEADER_SIZE. intros Ha.
  assert (H : Forall (fun a => is_Some (kbytes kheap_demo_filled !! a)) (seqZ 0x10008 100))
    by by_compute.
  apply (proj1 (Forall_forall _ _) H). apply elem_of_seqZ. lia.
Qed.

Lemma krealloc_keeps_contents_witness :
  match krealloc kheap_demo_filled 0x10008 300 with
  | KRet p s' => kbytes s' !! (p + 42) = kbytes kheap_demo_filled !! (0x10000 + HEADER_SIZE + 42)
  | _ => False
  end.
Proof.
  destruct (krealloc kheap_demo_filled 0x10008 300) as [p s'| |] eqn:E; [|vm_compute in E; discriminate..].
  refine (proj2 (krealloc_keeps_contents kheap_demo_filled [] [] 0x10000 [] 300 p s'
    kheap_demo_filled_inv _ _ kheap_demo_filled_bytes E) 42 _).
  - rewrite kheap_demo_filled_sz. reflexivity.
  - lia.
  - rewrite kheap_demo_filled_sz. unfold HEADER_SIZE. lia.
Defined.

(** The page loop of [kfree] clears the frames it visits. *)
Lemma kfree_pages_clears n m blk i :
  pmm_wf m -> 0 <= blk -> blk mod 4096 = 0 -> 0 <= i -> (i + Z.of_nat n) * 4096 < 2 ^ 32 ->
  blk + (i + Z.of_nat n) * 4096 <= pmm_max_blocks m * 4096 ->
  (forall k, blk / 4096 + i <= k < blk / 4096 + i + Z.of_nat n -> pmm_used m k = true) ->
  pmm_wf (kfree_pages m blk i n)
  /\ forall k, 0 <= k -> pmm_used (kfree_pages m blk i n) k
       = (pmm_used m k && negb ((blk / 4096 + i <=? k) && (k <? blk / 4096 + i + Z.of_nat n)))%bool.
Proof.
  revert m i. induction n as [|n IH]; intros m i Hm Hb Hal Hi Hov Hmax Hu.
  - split; [done|]. intros k Hk. simpl.
    destruct (blk / 4096 + i <=? k) eqn:?, (k <? blk / 4096 + i + Z.of_nat 0) eqn:?; zbool; simpl;
      rewrite ?andb_true_r; (done || lia).
  - pose proof (wf_max m Hm) as Hmx. cbn [kfree_pages]. rewrite (u32_small (i * 4096)) by lia.
    rewrite u64_small by lia.
    assert (Hq : (blk + i * 4096) / BLOCK_SIZE = blk / 4096 + i) by (unfold BLOCK_SIZE; zlia).
    destruct (wf_free_block m (blk + i * 4096) Hm) as (Hm' & Hmx' & Hu');
      [rewrite Hq; zlia|rewrite Hq; apply Hu; lia|].
    destruct (IH (pmm_free_block m (blk + i * 4096)) (i + 1)) as [Hwf Hused];
      [done|done|done|lia|lia|rewrite Hmx'; lia| |].
    + intros k Hk. rewrite Hu', Hq, Hu by zlia. simpl.
      apply negb_true_iff, Z.eqb_neq. lia.
    + split; [done|]. intros k Hk. rewrite Hused, Hu', Hq by done. rewrite <- andb_assoc. f_equal.
      destruct (Z.eqb_spec k (blk / 4096 + i)), (Z.leb_spec (blk / 4096 + (i + 1)) k),
        (Z.ltb_spec k (blk / 4096 + (i + 1) + Z.of_nat n)), (Z.leb_spec (blk / 4096 + i) k),
        (Z.ltb_spec k (blk / 4096 + i + Z.of_nat (S n))); simpl; lia || done.
Qed.

(** The comment of [kmalloc] says the heap's frames are kept out of the
    physical allocator.  [kfree] of a block whose header is page aligned and
    that spans at least a page breaks this: its frames are free in the physical
    allocator while the block heads the heap's free list, so the next [kmalloc]
    that fits returns it (touching no frame) and [pmm_alloc_block] may hand the
    same frame out. *)
Theorem kfree_page_block_in_both_allocators s free l1 h l2 size :
  heap_inv s free (l1 ++ h :: l2) -> heap_frames s ->
  h mod 4096 = 0 -> 4096 <= sz s h -> h + sz s h <= pmm_max_blocks (kpmm s) * 4096 ->
  0 <= size -> size + 11 < 2 ^ 32 -> kmalloc_total size <= sz s h ->
  let s1 := kfree s (h + HEADER_SIZE) in
  exists s2, kmalloc s1 size = KRet (h + HEADER_SIZE) s2
  /\ pmm_used (kpmm s) (h / 4096) = true
  /\ pmm_used (kpmm s2) (h / 4096) = false.
Proof.
  intros H [Hwf Hfr] Hal Hbig Hmax H0 H1 Hfit s1. pose proof (hi_bounds _ _ _ H) as Hb.
  pose proof (hi_current _ _ _ H) as Hc.
  assert (Hin : h ∈ free ++ l1 ++ h :: l2).
  { apply elem_of_app. right. apply elem_of_app. right. by left. }
  destruct (bo_in _ _ (hi_blocks _ _ _ H) h Hin) as (Hst & Hsz & Hcur).
  pose proof (wf_max _ Hwf) as Hmx. destruct (heap_inv_kfree s free l1 h l2 H) as (Hi & Hszk & Hfl & _).
  assert (Hused : forall k, h / 4096 <= k -> k * 4096 < h + sz s h -> pmm_used (kpmm s) k = true).
  { intros k Hk1 Hk2. apply Hfr; zlia. }
  assert (Hpm : kpmm s1 = kfree_pages (kpmm s) h 0 (Z.to_nat (sz s h / 4096))).
  { unfold s1, kfree, HEADER_SIZE. rewrite (proj2 (Z.eqb_neq (h + 8) 0)) by lia. cbv zeta.
    replace (h + 8 - 8) with h by lia. rewrite (u64_small h) by lia.
    rewrite (proj2 (Z.ltb_ge h (kheap_start s))) by lia.
    rewrite (proj2 (Z.eqb_eq (h mod 4096) 0)), (proj2 (Z.leb_le 4096 _)) by lia. done. }
  destruct (kfree_pages_clears (Z.to_nat (sz s h / 4096)) (kpmm s) h 0) as [_ Hcl];
    [done|lia|done|lia|zlia|zlia|intros k Hk; apply Hused; zlia|].
  destruct (kmalloc_cases s1 (h :: free) _ size Hi H0 H1)
    as [(l3 & c & l4 & E & Hf & Hl3 & Er)|[(Hno & _)|(Hno & _)]].
  - destruct l3 as [|a l3]; simpl in E.
    + injection E as <- <-. eexists. split; [exact Er|]. split; [apply Hused; zlia|].
      simpl. rewrite Hpm, Hcl by zlia. rewrite (proj2 (Z.leb_le _ _)), (proj2 (Z.ltb_lt _ _)) by zlia.
      apply andb_false_r.
    + injection E as <- _. apply Forall_cons in Hl3 as [Hl3 _]. rewrite Hszk in Hl3. lia.
  - apply Forall_cons in Hno as [Hno _]. rewrite Hszk in Hno. lia.
  - apply Forall_cons in Hno as [Hno _]. rewrite Hszk in Hno. lia.
Qed.

Definition kheap_demo_page : kheap :=
  match kmalloc (kheap_set_start kheap_demo 0x10000) 4200 with KRet _ s => s | _ => kheap_demo end.

Lemma kheap_demo_frames : heap_frames (kheap_set_start kheap_demo 0x10000).
Proof.
  constructor; [|intros i Hi Hs Hc; change (kheap_start _) with 0x10000 in Hs;
    change (kheap_current _) with 0x10000 in Hc; zlia].
  apply wf_init; [by_compute|lia|reflexivity|vm_compute; discriminate].
Qed.

Lemma kheap_demo_page_inv : heap_inv kheap_demo_page [] [0x10000] /\ heap_frames kheap_demo_page.
Proof.
  destruct (kmalloc_ret (kheap_set_start kheap_demo 0x10000) [] [] 4200 0x10008 kheap_demo_page)
    as (free' & Hi & _ & _ & _ & Hf);
    [apply heap_inv_start; vm_compute; reflexivity|lia|lia|vm_compute; reflexivity|].
  split; [|by apply Hf, kheap_demo_frames].
  destruct free' as [|a f]; [exact Hi|]. destruct (hi_chain _ _ _ Hi) as (Ha & Hn & _).
  exfalso. apply Hn. rewrite <- Ha. vm_compute. reflexivity.
Qed.

Lemma kfree_page_block_in_both_allocators_witness :
  exists s2, kmalloc (kfree kheap_demo_page 0x10008) 4000 = KRet 0x10008 s2
  /\ pmm_used (kpmm kheap_demo_page) 16 = true /\ pmm_used (kpmm s2) 16 = false.
Proof.
  refine (kfree_page_block_in_both_allocators kheap_demo_page [] [] 0x10000 [] 4000
    (proj1 kheap_demo_page_inv) (proj2 kheap_demo_page_inv) _ _ _ _ _ _);
    try (vm_compute; reflexivity); vm_compute; discriminate.
Defined.

(** The heap grows over the frames behind it without asking whether they are
    free: a frame that [pmm_alloc_block] has handed out becomes part of the next
    block that reaches it. *)
Theorem kmalloc_overruns_allocated_frame s free live f m n :
  heap_inv s free live -> pmm_alloc_block (kpmm s) = (f, m) -> 0 <= n -> n + 11 < 2 ^ 32 ->
  Forall (fun h => sz s h < kmalloc_total n) free -> kheap_current s + kmalloc_total n < memory_size s ->
  kheap_current s <= f -> f + 4096 <= kheap_current s + HEADER_SIZE + n ->
  exists p s', kmalloc (set_pmm s m) n = KRet p s' /\ p - HEADER_SIZE <= f /\ f + 4096 <= p + n.
Proof.
  intros Hi Ha H0 H1 Hfit Hroom Hlo Hhi. pose proof (heap_inv_set_pmm s free live m Hi) as Hi'.
  destruct (kmalloc_cases (set_pmm s m) free live n Hi' H0 H1) as [(l1 & c & l2 & -> & Hc & _)|[(_ & _ & E)|(_ & Hno & _)]].
  - apply Forall_app in Hfit as [_ [Hc' _]%Forall_cons]. change (sz (set_pmm s m) c) with (sz s c) in Hc. lia.
  - eexists _, _. split; [exact E|]. cbn [kheap_current set_pmm]. lia.
  - cbn [kheap_current memory_size set_pmm] in Hno. lia.
Qed.

(** The frame behind the heap of 64 KiB is handed out, then the heap takes it. *)
Lemma kmalloc_overruns_allocated_frame_witness :
  exists s m p s', s = kheap_set_start kheap_demo 0x10000 /\ pmm_alloc_block (pmm_init_region (kpmm s) 0x10000 0x8000) = (0x10000, m)
    /\ kmalloc (set_pmm s m) 5000 = KRet p s' /\ p - HEADER_SIZE <= 0x10000 /\ 0x10000 + 4096 <= p + 5000.
Proof.
  set (s0 := kheap_set_start kheap_demo 0x10000). set (s1 := set_pmm s0 (pmm_init_region (kpmm s0) 0x10000 0x8000)).
  assert (Ha : exists m, pmm_alloc_block (kpmm s1) = (0x10000, m)).
  { eexists. rewrite (surjective_pairing (pmm_alloc_block (kpmm s1))). f_equal. }
  destruct Ha as [m Ha].
  destruct (kmalloc_overruns_allocated_frame s1 [] [] 0x10000 m 5000) as (p & s' & E & Hp); [|exact Ha|lia|lia|constructor|by_compute|by_compute|by_compute|].
  - apply heap_inv_set_pmm. apply heap_inv_start; vm_compute; reflexivity.
  - exists s0, m, p, s'. split; [reflexivity|]. split; [exact Ha|]. split; [exact E|exact Hp].
Defined.
