(* ===== verification/Vmm.v ===== *)
(** * Paging ([src/src/kernel/mm/vmm.c], [src/include/kernel/vmm.h])

    Page tables live in identity-mapped memory: [vmem] holds the 8-byte word at
    each aligned physical address (0 where nothing was written), so a table at
    [t] has its entry [i] at [t + 8 * i].  Tables come from [kmalloc_a], frames
    from the physical allocator inside the heap's state.  [vdirs] holds the
    [page_directory_t] objects by address.

    A call that needs memory when there is none stops the machine ([kmalloc_a]
    halts), which is [None] of the monad.  The TLB is not part of the state:
    the code reloads [cr3] or invalidates the page after each change of an
    entry, so a translation is always a walk of the tables, [translate]. *)

From Stdlib Require Import ZArith Lia.
From stdpp Require Import base numbers list gmap.
From S2P Require Import Prelude Pmm Kheap.

(** ** The code *)

Definition PTE_P : Z := 1.
Definition PTE_W : Z := 2.
Definition PTE_U : Z := 4.
Definition PTE_PWT : Z := 8.
Definition PTE_PS : Z := 128.

Record page_directory := { pml4_virt : Z; pml4_phys : Z }.

Record vm := {
  vmem : gmap Z Z;
  vheap : kheap;
  vdirs : gmap Z page_directory;
  kernel_directory : Z;
  current_directory : Z;
  walk_pt_modified_pml4 : bool;
  cr3 : Z;
  (** the IA32_CR_PAT register *)
  msr_pat : Z
}.

Definition set_vmem (s : vm) (m : gmap Z Z) : vm :=
  {| vmem := m; vheap := vheap s; vdirs := vdirs s; kernel_directory := kernel_directory s;
     current_directory := current_directory s;
     walk_pt_modified_pml4 := walk_pt_modified_pml4 s; cr3 := cr3 s; msr_pat := msr_pat s |}.

Definition set_vheap (s : vm) (h : kheap) : vm :=
  {| vmem := vmem s; vheap := h; vdirs := vdirs s; kernel_directory := kernel_directory s;
     current_directory := current_directory s;
     walk_pt_modified_pml4 := walk_pt_modified_pml4 s; cr3 := cr3 s; msr_pat := msr_pat s |}.

Definition set_vdirs (s : vm) (d : gmap Z page_directory) : vm :=
  {| vmem := vmem s; vheap := vheap s; vdirs := d; kernel_directory := kernel_directory s;
     current_directory := current_directory s;
     walk_pt_modified_pml4 := walk_pt_modified_pml4 s; cr3 := cr3 s; msr_pat := msr_pat s |}.

Definition set_current (s : vm) (d c : Z) : vm :=
  {| vmem := vmem s; vheap := vheap s; vdirs := vdirs s; kernel_directory := kernel_directory s;
     current_directory := d; walk_pt_modified_pml4 := walk_pt_modified_pml4 s; cr3 := c;
     msr_pat := msr_pat s |}.

Definition set_modified (s : vm) (b : bool) : vm :=
  {| vmem := vmem s; vheap := vheap s; vdirs := vdirs s; kernel_directory := kernel_directory s;
     current_directory := current_directory s; walk_pt_modified_pml4 := b; cr3 := cr3 s;
     msr_pat := msr_pat s |}.

Definition vaddr_pml4i (v : Z) : Z := Z.land (Z.shiftr v 39) 0x1FF.
Definition vaddr_pdpi (v : Z) : Z := Z.land (Z.shiftr v 30) 0x1FF.
Definition vaddr_pdi (v : Z) : Z := Z.land (Z.shiftr v 21) 0x1FF.
Definition vaddr_pti (v : Z) : Z := Z.land (Z.shiftr v 12) 0x1FF.

(** A word of memory, and [e & flag] as a truth value. *)
Definition ld (m : gmap Z Z) (a : Z) : Z := default 0 (m !! a).
Definition has (e flag : Z) : bool := negb (Z.land e flag =? 0).
Definition dir_pml4 (s : vm) (d : Z) : Z :=
  match vdirs s !! d with Some p => pml4_virt p | None => 0 end.

(** The words [f 0 .. f (n - 1)] stored from [base] on. *)
Definition fill_words (m : gmap Z Z) (base : Z) (f : Z -> Z) (n : nat) : gmap Z Z :=
  foldl (fun m' j => <[base + 8 * j := f j]> m') m (seqZ 0 (Z.of_nat n)).

Definition load (a : Z) : M vm Z := mgets (fun s => ld (vmem s) a).
Definition store (a v : Z) : M vm unit := mmodify (fun s => set_vmem s (<[a := v]> (vmem s))).
Definition mark_modified : M vm unit := mmodify (fun s => set_modified s true).

Definition call_kmalloc (size : Z) : M vm Z := fun s =>
  match kmalloc (vheap s) size with KRet p h => Some (p, set_vheap s h) | _ => None end.
Definition call_kmalloc_a (size : Z) : M vm Z := fun s =>
  match kmalloc_a (vheap s) size with KRet p h => Some (p, set_vheap s h) | _ => None end.
Definition call_kfree (p : Z) : M vm unit := mmodify (fun s => set_vheap s (kfree (vheap s) p)).
Definition call_pmm_alloc_block : M vm Z := fun s =>
  let '(p, m) := pmm_alloc_block (kpmm (vheap s)) in
  Some (p, set_vheap s (set_pmm (vheap s) m)).
Definition call_pmm_free_block (p : Z) : M vm unit :=
  mmodify (fun s => set_vheap s (set_pmm (vheap s) (pmm_free_block (kpmm (vheap s)) p))).

(** [t = kmalloc_a(4096); memset(t, 0, 4096);] *)
Definition new_table : M vm Z :=
  t <-- call_kmalloc_a 4096 ;;
  mmodify (fun s => set_vmem s (fill_words (vmem s) t (fun _ => 0) 512)) ;;;
  mret_ t.

Definition alloc_flags (flags : Z) : Z :=
  if has flags PTE_U then Z.lor (Z.lor PTE_P PTE_W) PTE_U else Z.lor PTE_P PTE_W.

(** One level of [walk_pt]: make the entry at [slot] present (with a new table)
    and, for a user mapping, user accessible.  [None] is [return 0]. *)
Definition walk_level (slot flags : Z) (modified : M vm unit) : M vm (option Z) :=
  e <-- load slot ;;
  if negb (has e PTE_P) then
    if flags =? 0 then mret_ None
    else
      t <-- new_table ;;
      store slot (Z.lor t (alloc_flags flags)) ;;;
      modified ;;;
      e <-- load slot ;; mret_ (Some (e &~ 0xFFF))
  else
    (if (has flags PTE_U && negb (has e PTE_U))%bool
     then store slot (Z.lor e PTE_U) ;;; modified else mret_ tt) ;;;
    e <-- load slot ;; mret_ (Some (e &~ 0xFFF)).

(** The entries of the table that replaces a 2 MB page. *)
Definition split_flags (e flags : Z) : Z :=
  let large_flags := Z.land e 0x1FF in
  let large_flags := if has flags PTE_U then Z.lor large_flags PTE_U else large_flags in
  let large_flags := if has flags PTE_W then Z.lor large_flags PTE_W else large_flags in
  large_flags &~ PTE_PS.
Definition split_entry (e flags j : Z) : Z :=
  Z.lor (u64 ((e &~ 0x1FFFFF) + j * 4096)) (split_flags e flags).

(** The [if (pd->entries[pd_i] & PTE_PS)] block; [false] is [return 0]. *)
Definition walk_split (slot flags : Z) : M vm bool :=
  e <-- load slot ;;
  if has e PTE_PS then
    if flags =? 0 then mret_ false
    else
      t <-- new_table ;;
      mmodify (fun s => set_vmem s (fill_words (vmem s) t (split_entry e flags) 512)) ;;;
      store slot (Z.lor t (alloc_flags flags)) ;;;
      mret_ true
  else mret_ true.

(** Returns the address of the page's entry; [None] is [return 0]. *)
Definition walk_pt (dir v flags : Z) : M vm (option Z) :=
  pml4 <-- mgets (fun s => dir_pml4 s dir) ;;
  r <-- walk_level (pml4 + 8 * vaddr_pml4i v) flags mark_modified ;;
  match r with None => mret_ None | Some pdp =>
  r <-- walk_level (pdp + 8 * vaddr_pdpi v) flags (mret_ tt) ;;
  match r with None => mret_ None | Some pd =>
  ok <-- walk_split (pd + 8 * vaddr_pdi v) flags ;;
  if negb ok then mret_ None else
  r <-- walk_level (pd + 8 * vaddr_pdi v) flags (mret_ tt) ;;
  match r with None => mret_ None | Some pt =>
  mret_ (Some (pt + 8 * vaddr_pti v)) end end end.

Definition vmm_map_page (p v f : Z) : M vm unit :=
  mmodify (fun s => set_modified s false) ;;;
  dir <-- mgets current_directory ;;
  entry <-- walk_pt dir v f ;;
  match entry with
  | Some a => store a (Z.lor (Z.lor (p &~ 0xFFF) (Z.land f 0xFFF)) PTE_P)
  | None => mret_ tt
  end.

Definition vmm_unmap_page (v : Z) : M vm Z :=
  pml4 <-- mgets (fun s => dir_pml4 s (current_directory s)) ;;
  e4 <-- load (pml4 + 8 * vaddr_pml4i v) ;;
  if negb (has e4 PTE_P) then mret_ (-1) else
  e3 <-- load ((e4 &~ 0xFFF) + 8 * vaddr_pdpi v) ;;
  if negb (has e3 PTE_P) then mret_ (-1) else
  e2 <-- load ((e3 &~ 0xFFF) + 8 * vaddr_pdi v) ;;
  if negb (has e2 PTE_P) then mret_ (-1) else
  if has e2 PTE_PS then mret_ (-1) else
  e1 <-- load ((e2 &~ 0xFFF) + 8 * vaddr_pti v) ;;
  if negb (has e1 PTE_P) then mret_ (-1) else
  call_pmm_free_block (e1 &~ 0xFFF) ;;;
  store ((e2 &~ 0xFFF) + 8 * vaddr_pti v) 0 ;;;
  mret_ 0.

Definition vmm_map_framebuffer (phys_addr size : Z) : M vm unit :=
  mfor 0 (Z.to_nat ((size + 4095) / 4096)) (fun i =>
    vmm_map_page (u64 (phys_addr + i * 4096)) (u64 (phys_addr + i * 4096))
      (Z.lor (Z.lor PTE_P PTE_W) PTE_PWT)).

Definition switch_page_directory (d : Z) : M vm unit :=
  mmodify (fun s => set_current s d
    match vdirs s !! d with Some p => pml4_phys p | None => 0 end).

Definition vmm_init_pat (s : vm) : vm :=
  {| vmem := vmem s; vheap := vheap s; vdirs := vdirs s; kernel_directory := kernel_directory s;
     current_directory := current_directory s;
     walk_pt_modified_pml4 := walk_pt_modified_pml4 s; cr3 := cr3 s;
     msr_pat := Z.lor (msr_pat s &~ Z.shiftl 0xFF 8) (Z.shiftl 1 8) |}.

Definition init_vmm : M vm unit :=
  mmodify vmm_init_pat ;;;
  d <-- call_kmalloc_a 16 ;;
  mmodify (fun s =>
    {| vmem := vmem s; vheap := vheap s;
       vdirs := <[d := {| pml4_virt := cr3 s; pml4_phys := cr3 s |}]> (vdirs s);
       kernel_directory := d; current_directory := d;
       walk_pt_modified_pml4 := walk_pt_modified_pml4 s; cr3 := cr3 s; msr_pat := msr_pat s |}).

Definition vmm_create_directory : M vm Z :=
  dir <-- call_kmalloc 16 ;;
  new_pml4 <-- new_table ;;
  mmodify (fun s =>
    let kernel_pml4 := dir_pml4 s (kernel_directory s) in
    set_vmem s (fill_words (vmem s) new_pml4 (fun i => ld (vmem s) (kernel_pml4 + 8 * i)) 512)) ;;;
  mmodify (fun s =>
    set_vdirs s (<[dir := {| pml4_virt := new_pml4; pml4_phys := new_pml4 |}]> (vdirs s))) ;;;
  mret_ dir.

(** [memcpy(dst, src, 4096)] between frames. *)
Definition copy_frame (dst src : Z) : M vm unit :=
  mmodify (fun s => set_vmem s (fill_words (vmem s) dst (fun j => ld (vmem s) (src + 8 * j)) 512)).

(** The body of the [k] loop of [vmm_copy_directory], a 2 MB page. *)
Definition copy_large (slot e : Z) : M vm unit :=
  new_pt <-- new_table ;;
  store slot (Z.lor new_pt (Z.land e 0xFFF &~ PTE_PS)) ;;;
  mfor 0 512 (fun l =>
    new_phys <-- call_pmm_alloc_block ;;
    mwhen (negb (new_phys =? 0)) (
      copy_frame new_phys (u64 ((e &~ 0x1FFFFF) + l * 4096)) ;;;
      store (new_pt + 8 * l) (Z.lor new_phys (Z.land e 0xFFF)))).

(** ... and a page table. *)
Definition copy_table (slot e : Z) : M vm unit :=
  new_pt <-- new_table ;;
  store slot (Z.lor new_pt (Z.land e 0xFFF)) ;;;
  mfor 0 512 (fun l =>
    pe <-- load ((e &~ 0xFFF) + 8 * l) ;;
    mwhen (has pe PTE_P) (
      dest_phys <-- call_pmm_alloc_block ;;
      store (new_pt + 8 * l) (Z.lor dest_phys (Z.land pe 0xFFF)) ;;;
      pe <-- load ((e &~ 0xFFF) + 8 * l) ;;
      copy_frame dest_phys (pe &~ 0xFFF))).

(** NULL is 0. *)
Definition vmm_copy_directory (src : Z) : M vm Z :=
  if src =? 0 then mret_ 0 else
  dest <-- vmm_create_directory ;;
  src_pml4 <-- mgets (fun s => dir_pml4 s src) ;;
  dest_pml4 <-- mgets (fun s => dir_pml4 s dest) ;;
  mfor 0 512 (fun i =>
    e <-- load (src_pml4 + 8 * i) ;;
    mwhen (has e PTE_P) (
      new_pdp <-- new_table ;;
      store (dest_pml4 + 8 * i) (Z.lor new_pdp (Z.land e 0xFFF)) ;;;
      mfor 0 512 (fun j =>
        e <-- load ((e &~ 0xFFF) + 8 * j) ;;
        mwhen (has e PTE_P) (
          new_pd <-- new_table ;;
          store (new_pdp + 8 * j) (Z.lor new_pd (Z.land e 0xFFF)) ;;;
          mfor 0 512 (fun k =>
            e <-- load ((e &~ 0xFFF) + 8 * k) ;;
            mwhen (has e PTE_P) (
              if has e PTE_PS then copy_large (new_pd + 8 * k) e
              else copy_table (new_pd + 8 * k) e)))))) ;;;
  mret_ dest.

Definition vmm_free_directory (dir : Z) : M vm unit :=
  if dir =? 0 then mret_ tt else
  pml4 <-- mgets (fun s => dir_pml4 s dir) ;;
  if pml4 =? 0 then call_kfree dir else
  mfor 0 512 (fun i =>
    e4 <-- load (pml4 + 8 * i) ;;
    mwhen (has e4 PTE_P) (
      mfor 0 512 (fun j =>
        e3 <-- load ((e4 &~ 0xFFF) + 8 * j) ;;
        mwhen (has e3 PTE_P) (
          mfor 0 512 (fun k =>
            e2 <-- load ((e3 &~ 0xFFF) + 8 * k) ;;
            mwhen (has e2 PTE_P) (
              if has e2 PTE_PS then call_pmm_free_block (e2 &~ 0x1FFFFF)
              else
                mfor 0 512 (fun l =>
                  e1 <-- load ((e2 &~ 0xFFF) + 8 * l) ;;
                  mwhen (has e1 PTE_P) (call_pmm_free_block (e1 &~ 0xFFF))) ;;;
                call_kfree (e2 &~ 0xFFF))) ;;;
          call_kfree (e3 &~ 0xFFF))) ;;;
      call_kfree (e4 &~ 0xFFF))) ;;;
  call_kfree pml4 ;;;
  call_kfree dir.

(** ** Specification

    [translate m pml4 i j k l]: the processor's walk for the page with these
    four indices, giving the physical page and the flags of its entry. *)

(** The table an entry of a level-[n] table points to (3 is the PML4, 1 the
    page directory, whose entries may be 2 MB pages). *)
Definition next (n : nat) (e : Z) : option Z :=
  if (has e PTE_P && negb (bool_decide (n = 1%nat) && has e PTE_PS))%bool
  then Some (e &~ 0xFFF) else None.

Fixpoint tbl (m : gmap Z Z) (n : nat) (t : Z) (path : list Z) {struct path} : option Z :=
  match path, n with
  | [], _ => Some t
  | i :: rest, S n' =>
      match next n (ld m (t + 8 * i)) with
      | Some t' => tbl m n' t' rest
      | None => None
      end
  | _ :: _, O => None
  end.

Definition translate (m : gmap Z Z) (pml4 : Z) (i j k l : Z) : option (Z * Z) :=
  match tbl m 3 pml4 [i; j] with
  | None => None
  | Some pd =>
      let e := ld m (pd + 8 * k) in
      if negb (has e PTE_P) then None
      else if has e PTE_PS then Some ((e &~ 0x1FFFFF) + l * 4096, Z.land e 0xFFF)
      else
        let pe := ld m ((e &~ 0xFFF) + 8 * l) in
        if has pe PTE_P then Some (pe &~ 0xFFF, Z.land pe 0xFFF) else None
  end.

(** The page-directory entry on the walk, 0 when there is no page directory. *)
Definition pde (m : gmap Z Z) (pml4 i j k : Z) : Z :=
  match tbl m 3 pml4 [i; j] with Some pd => ld m (pd + 8 * k) | None => 0 end.

(** The page of an address. *)
Definition translate_addr (m : gmap Z Z) (pml4 v : Z) : option (Z * Z) :=
  translate m pml4 (vaddr_pml4i v) (vaddr_pdpi v) (vaddr_pdi v) (vaddr_pti v).

(** The [memset] of the page at [v] to 0, through the active tables; an
    unmapped page faults. *)
Definition memset_page (v : Z) : M vm unit := fun s =>
  match translate_addr (vmem s) (dir_pml4 s (current_directory s)) v with
  | Some (a, _) => Some (tt, set_vmem s (fill_words (vmem s) a (fun _ => 0) 512))
  | None => None
  end.

(** [current_task] as its heap bounds (start, end), [None] for NULL; the result
    comes with the new [heap_end]. *)
Definition sys_brk (task : option (Z * Z)) (addr : Z) : M vm (Z * Z) :=
  match task with
  | None => mret_ (0, 0)
  | Some (heap_start, heap_end) =>
      if addr =? 0 then mret_ (heap_end, heap_end) else
      let brk_top := if heap_end <? heap_start then heap_start else heap_end in
      if addr <=? brk_top then mret_ (brk_top, heap_end) else
      let start := u64 (brk_top + 0xFFF) &~ 0xFFF in
      let end_ := u64 (addr + 0xFFF) &~ 0xFFF in
      mfor 0 (Z.to_nat ((end_ - start) / 4096)) (fun i =>
        phys <-- call_pmm_alloc_block ;;
        vmm_map_page phys (start + i * 4096) 7 ;;;
        memset_page (start + i * 4096)) ;;;
      mret_ (end_, end_)
  end.

Definition in_table (i : Z) : Prop := 0 <= i < 512.

(** The tables below [pml4] form a tree: tables reached by different index
    paths are different pages, all page aligned and below [hi]. *)
Record pt_tree (m : gmap Z Z) (pml4 hi : Z) : Prop := {
  tree_page : forall p a, Forall in_table p -> tbl m 3 pml4 p = Some a ->
    a mod 4096 = 0 /\ 0 <= a /\ a + 4096 <= hi;
  tree_inj : forall p q a, Forall in_table p -> Forall in_table q ->
    tbl m 3 pml4 p = Some a -> tbl m 3 pml4 q = Some a -> p = q
}.

(** ** Lemmas on words *)

Lemma has_testbit e k : 0 <= k -> has e (2 ^ k) = Z.testbit e k.
Proof. intros Hk. unfold has. rewrite <- (Z.shiftl_1_l k). by apply land_bit_test. Qed.

Lemma has_P e : has e PTE_P = Z.testbit e 0.
Proof. exact (has_testbit e 0 ltac:(lia)). Qed.
Lemma has_W e : has e PTE_W = Z.testbit e 1.
Proof. exact (has_testbit e 1 ltac:(lia)). Qed.
Lemma has_U e : has e PTE_U = Z.testbit e 2.
Proof. exact (has_testbit e 2 ltac:(lia)). Qed.
Lemma has_PS e : has e PTE_PS = Z.testbit e 7.
Proof. exact (has_testbit e 7 ltac:(lia)). Qed.

Lemma testbit_mask e i : 0 <= i -> Z.testbit (e &~ 0xFFF) i = (Z.testbit e i && (12 <=? i))%bool.
Proof.
  intros Hi. change 0xFFF with (Z.ones 12). rewrite Z.land_spec, Z.lnot_spec by done. f_equal.
  destruct (Z.leb_spec 12 i); [by rewrite Z.ones_spec_high by lia|by rewrite Z.ones_spec_low by lia].
Qed.

Lemma testbit_low e i : 0 <= i -> Z.testbit (Z.land e 0xFFF) i = (Z.testbit e i && (i <? 12))%bool.
Proof.
  intros Hi. change 0xFFF with (Z.ones 12). rewrite Z.land_spec. f_equal.
  destruct (Z.ltb_spec i 12); [by rewrite Z.ones_spec_low by lia|by rewrite Z.ones_spec_high by lia].
Qed.

(** A page address carrying flags in its low twelve bits. *)
Lemma page_entry a f :
  a mod 4096 = 0 -> 0 <= f < 4096 ->
  Z.lor a f &~ 0xFFF = a /\ Z.land (Z.lor a f) 0xFFF = f
  /\ forall k, 0 <= k < 12 -> Z.testbit (Z.lor a f) k = Z.testbit f k.
Proof.
  intros Ha Hf.
  assert (Hlow : forall k, 0 <= k < 12 -> Z.testbit a k = false).
  { intros k Hk. replace a with (Z.shiftl (a / 4096) 12) by (rewrite Z.shiftl_mul_pow2 by done; zlia).
    by rewrite Z.shiftl_spec_low by lia. }
  assert (Hhigh : forall k, 12 <= k -> Z.testbit f k = false).
  { intros k Hk. by apply (testbit_high f 12). }
  split_and!.
  - apply Z.bits_inj'. intros k Hk. rewrite testbit_mask, Z.lor_spec by done.
    destruct (Z.leb_spec 12 k).
    + by rewrite Hhigh, orb_false_r, andb_true_r by done.
    + rewrite andb_false_r. by rewrite Hlow by lia.
  - apply Z.bits_inj'. intros k Hk. rewrite testbit_low, Z.lor_spec by done.
    destruct (Z.ltb_spec k 12).
    + by rewrite Hlow, andb_true_r by lia.
    + rewrite andb_false_r. by rewrite Hhigh by lia.
  - intros k Hk. by rewrite Z.lor_spec, Hlow by lia.
Qed.

Lemma alloc_flags_cases f : alloc_flags f = 3 \/ alloc_flags f = 7.
Proof. unfold alloc_flags. ztest; [by right|by left]. Qed.

(** The entry for a new table. *)
Lemma table_entry t f :
  t mod 4096 = 0 ->
  Z.lor t (alloc_flags f) &~ 0xFFF = t /\ has (Z.lor t (alloc_flags f)) PTE_P = true
  /\ has (Z.lor t (alloc_flags f)) PTE_PS = false.
Proof.
  intros Ht. destruct (page_entry t (alloc_flags f) Ht) as (Ha & _ & Hb).
  { destruct (alloc_flags_cases f) as [-> | ->]; lia. }
  rewrite has_P, has_PS, !Hb by lia.
  split; [done|]. destruct (alloc_flags_cases f) as [-> | ->]; split; reflexivity.
Qed.

(** Setting the user bit keeps everything [next] looks at. *)
Lemma user_entry e :
  Z.lor e PTE_U &~ 0xFFF = e &~ 0xFFF /\ has (Z.lor e PTE_U) PTE_P = has e PTE_P
  /\ has (Z.lor e PTE_U) PTE_PS = has e PTE_PS.
Proof.
  assert (Hb : forall k, 0 <= k -> k <> 2 -> Z.testbit (Z.lor e PTE_U) k = Z.testbit e k).
  { intros k Hk Hne. change PTE_U with (Z.shiftl 1 2). rewrite testbit_set_bit by lia.
    rewrite (proj2 (Z.eqb_neq k 2) Hne). apply orb_false_r. }
  rewrite !has_P, !has_PS, !Hb by lia. split_and!; [|done|done].
  apply Z.bits_inj'. intros k Hk. rewrite !testbit_mask by done.
  destruct (decide (k = 2)) as [->|Hne]; [by rewrite !andb_false_r|by rewrite Hb].
Qed.

Lemma ld_insert m a b v : ld (<[a := v]> m) b = if a =? b then v else ld m b.
Proof.
  unfold ld. destruct (Z.eqb_spec a b) as [->|]; [by rewrite lookup_insert_eq|by rewrite lookup_insert_ne].
Qed.

Lemma ld_fill_words m base f n a :
  ld (fill_words m base f n) a
  = if ((base <=? a) && (a <? base + 8 * Z.of_nat n) && ((a - base) mod 8 =? 0))%bool
    then f ((a - base) / 8) else ld m a.
Proof.
  induction n as [|n IH].
  - simpl. rewrite Z.mul_0_r, Z.add_0_r. destruct (Z.leb_spec base a), (Z.ltb_spec a base); simpl; try lia; done.
  - unfold fill_words in *. rewrite seqZ_S, foldl_snoc, Z.add_0_l, ld_insert, IH.
    destruct (Z.eqb_spec (base + 8 * Z.of_nat n) a) as [<-|Hne].
    + replace (base + 8 * Z.of_nat n - base) with (Z.of_nat n * 8) by lia.
      rewrite Z.div_mul, Z.mod_mul by lia.
      rewrite (proj2 (Z.leb_le _ _)), (proj2 (Z.ltb_lt _ _)) by lia. done.
    + destruct (Z.eqb_spec ((a - base) mod 8) 0); [|by rewrite !andb_false_r].
      replace (a <? base + 8 * Z.of_nat (S n)) with (a <? base + 8 * Z.of_nat n); [done|].
      destruct (Z.ltb_spec a (base + 8 * Z.of_nat n)), (Z.ltb_spec a (base + 8 * Z.of_nat (S n))); zlia.
Qed.

(** ** Lemmas on tables *)

Lemma slot_inj t i t' i' :
  t mod 4096 = 0 -> t' mod 4096 = 0 -> in_table i -> in_table i' ->
  t + 8 * i = t' + 8 * i' -> t = t' /\ i = i'.
Proof. unfold in_table. zlia. Qed.

Lemma next_upper n e : n <> 1%nat -> next n e = if has e PTE_P then Some (e &~ 0xFFF) else None.
Proof. intros H. unfold next. rewrite bool_decide_eq_false_2 by done. by rewrite andb_true_r. Qed.

Lemma tbl_length m n t p a : tbl m n t p = Some a -> (length p <= n)%nat.
Proof.
  revert n t. induction p as [|i p IH]; intros [|n] t H; simpl in *; [lia|lia|done|].
  destruct (next _ _); [|done]. apply IH in H. lia.
Qed.

Lemma tbl_snoc m n t p i a :
  tbl m n t (p ++ [i]) = Some a <->
  exists t', tbl m n t p = Some t' /\ (length p < n)%nat
    /\ next (n - length p) (ld m (t' + 8 * i)) = Some a.
Proof.
  revert n t. induction p as [|x p IH]; intros n t; simpl.
  - destruct n as [|n]; simpl.
    + split; [done|]. intros (t' & _ & H & _). lia.
    + destruct (next (S n) (ld m (t + 8 * i))) as [b|] eqn:E.
      * split; [intros [= ->]|intros (t' & [= <-] & _ & H)]; [|congruence].
        exists t. split_and!; [done|lia|done].
      * split; [done|]. intros (t' & [= <-] & _ & H). congruence.
  - destruct n as [|n]; simpl; [split; [done|by intros (? & ? & _)]|].
    destruct (next (S n) (ld m (t + 8 * x))) as [b|]; [|split; [done|by intros (? & ? & _)]].
    rewrite IH. split; intros (t' & H1 & H2 & H3); exists t'; (split_and!; [done|lia|done]).
Qed.

Lemma Forall_snoc_in p i : Forall in_table (p ++ [i]) <-> Forall in_table p /\ in_table i.
Proof. rewrite Forall_app, Forall_singleton. done. Qed.

(** The directory page behind [translate]. *)
Lemma tbl_pt m pml4 i j k pd :
  tbl m 3 pml4 [i; j] = Some pd -> has (ld m (pd + 8 * k)) PTE_P = true ->
  has (ld m (pd + 8 * k)) PTE_PS = false ->
  tbl m 3 pml4 [i; j; k] = Some (ld m (pd + 8 * k) &~ 0xFFF).
Proof.
  intros H HP HS. change [i; j; k] with ([i; j] ++ [k]). apply tbl_snoc. exists pd.
  split_and!; [done|simpl; lia|]. unfold next. by rewrite HP, HS, andb_false_r.
Qed.

(** *** Hanging a new table under an empty entry *)

Section Graft.
Context (m m' : gmap Z Z) (pml4 hi : Z) (p : list Z) (t i T flags : Z) (g : Z -> Z).
Context (Htree : pt_tree m pml4 hi).
Context (Hp : Forall in_table p) (Hi : in_table i) (Ht : tbl m 3 pml4 p = Some t).
Context (Hlen : (length p <= 2)%nat).
Context (Hnone : next (3 - length p) (ld m (t + 8 * i)) = None).
Context (HT : T mod 4096 = 0) (HThi : hi <= T).
Context (Hg : (forall x, in_table x -> g x = 0) \/ length p = 2%nat).
Context (Hslot : ld m' (t + 8 * i) = Z.lor T (alloc_flags flags)).
Context (Hnew : forall x, in_table x -> ld m' (T + 8 * x) = g x).
Context (Hold : forall a, a + 8 <= hi -> a <> t + 8 * i -> ld m' a = ld m a).

(** An entry of a table of the old tree, other than the one that is filled. *)
Lemma graft_ld q a x :
  Forall in_table q -> in_table x -> tbl m 3 pml4 q = Some a -> (q, x) <> (p, i) ->
  ld m' (a + 8 * x) = ld m (a + 8 * x).
Proof.
  intros Hq Hx Ha Hne. destruct (tree_page _ _ _ Htree q a Hq Ha) as (Hal & H0 & Hhi).
  destruct (tree_page _ _ _ Htree p t Hp Ht) as (Hal' & H0' & Hhi').
  apply Hold; [unfold in_table in Hx; lia|]. intros E.
  apply slot_inj in E as [-> ->]; [|done..]. apply Hne. f_equal.
  by apply (tree_inj _ _ _ Htree q p t).
Qed.

Lemma graft_next : next (3 - length p) (ld m' (t + 8 * i)) = Some T.
Proof.
  destruct (table_entry T flags HT) as (E1 & E2 & E3). rewrite Hslot. unfold next.
  by rewrite E1, E2, E3, andb_false_r.
Qed.

Lemma graft_keeps q a : Forall in_table q -> tbl m 3 pml4 q = Some a -> tbl m' 3 pml4 q = Some a.
Proof.
  revert a. induction q as [|x q IH] using rev_ind; intros a Hq; [done|].
  apply Forall_snoc_in in Hq as [Hq Hx]. intros H. apply tbl_snoc in H as (b & Hb & Hl & Hn).
  apply tbl_snoc. exists b. split_and!; [by apply IH|done|]. rewrite (graft_ld q b x); [done..|].
  intros [= -> ->]. rewrite Ht in Hb. injection Hb as <-. by rewrite Hnone in Hn.
Qed.

Lemma graft_only q a :
  Forall in_table q -> tbl m' 3 pml4 q = Some a ->
  tbl m 3 pml4 q = Some a \/ (q = p ++ [i] /\ a = T).
Proof.
  revert a. induction q as [|x q IH] using rev_ind; intros a Hq; [by left|].
  apply Forall_snoc_in in Hq as [Hq Hx]. intros H. apply tbl_snoc in H as (b & Hb & Hl & Hn).
  destruct (IH b Hq Hb) as [Hb'|[-> ->]].
  - destruct (decide ((q, x) = (p, i))) as [[= -> ->]|Hne].
    + rewrite Ht in Hb'. injection Hb' as <-. rewrite graft_next in Hn. right. split; congruence.
    + left. rewrite (graft_ld q b x) in Hn by done. apply tbl_snoc. by exists b.
  - destruct Hg as [Hg'|Hg'].
    + rewrite Hnew, Hg' in Hn by done. done.
    + rewrite length_app in Hl. simpl in Hl. lia.
Qed.

Lemma graft_child : tbl m' 3 pml4 (p ++ [i]) = Some T.
Proof.
  apply tbl_snoc. exists t. split_and!; [by apply graft_keeps|lia|apply graft_next].
Qed.

Lemma graft_tree : 0 <= hi -> pt_tree m' pml4 (T + 4096).
Proof.
  intros H0. constructor.
  - intros q a Hq Ha. destruct (graft_only q a Hq Ha) as [Ha'|[_ ->]]; [|lia].
    destruct (tree_page _ _ _ Htree q a Hq Ha') as (? & ? & ?). lia.
  - intros q r a Hq Hr Ha Hb.
    destruct (graft_only q a Hq Ha) as [Ha'|[-> ->]], (graft_only r _ Hr Hb) as [Hb'|[-> E]]; [| | |done].
    + by apply (tree_inj _ _ _ Htree q r a).
    + subst a. destruct (tree_page _ _ _ Htree q T Hq Ha') as (? & ? & ?). lia.
    + destruct (tree_page _ _ _ Htree r T Hr Hb') as (? & ? & ?). lia.
Qed.

(** Away from the new table every translation is as before. *)
Lemma graft_translate_other i' j' k' l' :
  Forall in_table [i'; j'; k'; l'] -> p ++ [i] <> [i'; j'; k'] ->
  translate m' pml4 i' j' k' l' = translate m pml4 i' j' k' l'.
Proof.
  intros Hall Hne. repeat (apply Forall_cons in Hall as [? Hall]).
  assert (Hij : Forall in_table [i'; j']) by (rewrite !Forall_cons; done).
  assert (Hijk : Forall in_table [i'; j'; k']) by (rewrite !Forall_cons; done).
  unfold translate. destruct (tbl m 3 pml4 [i'; j']) as [pd|] eqn:E.
  - rewrite (graft_keeps _ _ Hij E). cbv zeta.
    rewrite (graft_ld [i'; j'] pd k'); [|done..|by intros [= <- <-]].
    destruct (has (ld m (pd + 8 * k')) PTE_P) eqn:EP; simpl; [|done].
    destruct (has (ld m (pd + 8 * k')) PTE_PS) eqn:ES; [done|].
    pose proof (tbl_pt m pml4 i' j' k' pd E EP ES) as Hpt.
    rewrite (graft_ld [i'; j'; k'] _ l'); [done..|]. intros [= Ep _]. rewrite <- Ep in Hlen. simpl in Hlen. lia.
  - destruct (tbl m' 3 pml4 [i'; j']) as [pd|] eqn:E'; [|done].
    destruct (graft_only _ _ Hij E') as [?|[Ep ->]]; [congruence|]. cbv zeta.
    destruct Hg as [Hg'|Hg'].
    + by rewrite Hnew, Hg'.
    + apply (f_equal length) in Ep. rewrite length_app in Ep. simpl in Ep. lia.
Qed.

(** Below the new table the translation reads the new entries. *)
Lemma graft_translate_below i' j' l' :
  p = [i'; j'] -> in_table l' ->
  translate m' pml4 i' j' i l' =
  if has (g l') PTE_P then Some (g l' &~ 0xFFF, Z.land (g l') 0xFFF) else None.
Proof.
  intros Ep Hl. pose proof (graft_keeps _ _ Hp Ht) as Hk. rewrite Ep in Hk.
  unfold translate. rewrite Hk. cbv zeta.
  destruct (table_entry T flags HT) as (E1 & E2 & E3). rewrite Hslot, E1, E2, E3. simpl.
  by rewrite Hnew.
Qed.

Lemma graft_pde i' j' k' :
  (length p <= 1)%nat -> Forall in_table [i'; j'; k'] -> pde m' pml4 i' j' k' = pde m pml4 i' j' k'.
Proof.
  intros Hl1 Hall. repeat (apply Forall_cons in Hall as [? Hall]). clear Hall.
  assert (Hij : Forall in_table [i'; j']) by (rewrite !Forall_cons; done).
  unfold pde. destruct (tbl m 3 pml4 [i'; j']) as [pd|] eqn:E.
  - rewrite (graft_keeps _ _ Hij E). apply (graft_ld [i'; j']); [done..|]. intros [= Ep _].
    rewrite <- Ep in Hl1. simpl in Hl1. lia.
  - destruct (tbl m' 3 pml4 [i'; j']) as [pd|] eqn:E'; [|done].
    destruct (graft_only _ _ Hij E') as [?|[Ep ->]]; [congruence|].
    rewrite Hnew by done. destruct Hg as [Hg'|Hg']; [by apply Hg'|lia].
Qed.

(** The new tree and what it translates. *)
Record graft : Prop := {
  gr_tree : pt_tree m' pml4 (T + 4096);
  gr_child : tbl m' 3 pml4 (p ++ [i]) = Some T;
  gr_keeps : forall q a, Forall in_table q -> tbl m 3 pml4 q = Some a -> tbl m' 3 pml4 q = Some a;
  gr_other : forall i' j' k' l', Forall in_table [i'; j'; k'; l'] -> p ++ [i] <> [i'; j'; k'] ->
    translate m' pml4 i' j' k' l' = translate m pml4 i' j' k' l';
  gr_pde : forall i' j' k', (length p <= 1)%nat -> Forall in_table [i'; j'; k'] ->
    pde m' pml4 i' j' k' = pde m pml4 i' j' k';
  gr_below : forall i' j' l', p = [i'; j'] -> in_table l' ->
    translate m' pml4 i' j' i l'
    = if has (g l') PTE_P then Some (g l' &~ 0xFFF, Z.land (g l') 0xFFF) else None
}.

Lemma graft_spec : 0 <= hi -> graft.
Proof.
  intros H0. constructor.
  - by apply graft_tree.
  - apply graft_child.
  - apply graft_keeps.
  - apply graft_translate_other.
  - apply graft_pde.
  - apply graft_translate_below.
Qed.
End Graft.

(** *** Changing an entry in place *)

Lemma tbl_agree m m' pml4 :
  (forall q a x, Forall in_table q -> in_table x -> (length q < 3)%nat -> tbl m 3 pml4 q = Some a ->
     next (3 - length q) (ld m' (a + 8 * x)) = next (3 - length q) (ld m (a + 8 * x))) ->
  forall q, Forall in_table q -> tbl m' 3 pml4 q = tbl m 3 pml4 q.
Proof.
  intros H q. induction q as [|x q IH] using rev_ind; intros Hq; [done|].
  apply Forall_snoc_in in Hq as [Hq Hx]. apply option_eq. intros a. rewrite !tbl_snoc.
  split; intros (b & Hb & Hl & Hn); exists b; rewrite (IH Hq) in *;
    (split_and!; [done|done|]); by rewrite (H q b x) in *.
Qed.

Lemma tree_agree m m' pml4 hi :
  pt_tree m pml4 hi -> (forall q, Forall in_table q -> tbl m' 3 pml4 q = tbl m 3 pml4 q) ->
  pt_tree m' pml4 hi.
Proof.
  intros [Hpg Hinj] H. constructor.
  - intros q a Hq. rewrite (H q Hq). by apply Hpg.
  - intros q r a Hq Hr. rewrite (H q Hq), (H r Hr). by apply Hinj.
Qed.

Lemma tree_slot m pml4 hi p q t a i x :
  pt_tree m pml4 hi -> Forall in_table p -> Forall in_table q -> in_table i -> in_table x ->
  tbl m 3 pml4 p = Some t -> tbl m 3 pml4 q = Some a -> t + 8 * i = a + 8 * x ->
  p = q /\ t = a /\ i = x.
Proof.
  intros Htree Hp Hq Hi Hx Ht Ha E.
  destruct (tree_page _ _ _ Htree p t Hp Ht) as (? & _). destruct (tree_page _ _ _ Htree q a Hq Ha) as (? & _).
  apply slot_inj in E as [-> ->]; [|done..]. split_and!; [|done..]. by apply (tree_inj _ _ _ Htree p q a).
Qed.

(** Setting the user bit of an entry above the last level. *)
Lemma user_bit m pml4 hi p t i :
  pt_tree m pml4 hi -> Forall in_table p -> in_table i -> tbl m 3 pml4 p = Some t ->
  (length p <= 2)%nat -> (length p = 2%nat -> has (ld m (t + 8 * i)) PTE_PS = false) ->
  let m' := <[t + 8 * i := Z.lor (ld m (t + 8 * i)) PTE_U]> m in
  (forall q, Forall in_table q -> tbl m' 3 pml4 q = tbl m 3 pml4 q)
  /\ (forall i' j' k' l', Forall in_table [i'; j'; k'; l'] ->
       translate m' pml4 i' j' k' l' = translate m pml4 i' j' k' l')
  /\ forall i' j' k', (length p <= 1)%nat -> Forall in_table [i'; j'; k'] ->
       pde m' pml4 i' j' k' = pde m pml4 i' j' k'.
Proof.
  intros Htree Hp Hi Ht Hlen HPS. cbv zeta. set (m' := <[_ := _]> m).
  destruct (user_entry (ld m (t + 8 * i))) as (U1 & U2 & U3).
  assert (Hld : forall a, ld m' a &~ 0xFFF = ld m a &~ 0xFFF /\ has (ld m' a) PTE_P = has (ld m a) PTE_P
                /\ has (ld m' a) PTE_PS = has (ld m a) PTE_PS).
  { intros a. unfold m'. rewrite ld_insert. destruct (Z.eqb_spec (t + 8 * i) a) as [<-|]; done. }
  assert (Htbl : forall q, Forall in_table q -> tbl m' 3 pml4 q = tbl m 3 pml4 q).
  { apply tbl_agree. intros q a x _ _ _ _. destruct (Hld (a + 8 * x)) as (E1 & E2 & E3).
    unfold next. by rewrite E1, E2, E3. }
  assert (Hne : forall q a x, Forall in_table q -> in_table x -> tbl m 3 pml4 q = Some a -> (q, x) <> (p, i) ->
            ld m' (a + 8 * x) = ld m (a + 8 * x)).
  { intros q a x Hq Hx Ha Hqp. unfold m'. rewrite ld_insert.
    destruct (Z.eqb_spec (t + 8 * i) (a + 8 * x)) as [Eq|]; [|done].
    destruct (tree_slot m pml4 hi p q t a i x) as (-> & _ & ->); done. }
  split_and!; [done| |].
  2: { intros i' j' k' Hl1 Hall. repeat (apply Forall_cons in Hall as [? Hall]).
       assert (Hij : Forall in_table [i'; j']) by (rewrite !Forall_cons; done).
       unfold pde. rewrite (Htbl _ Hij). destruct (tbl m 3 pml4 [i'; j']) as [pd|] eqn:E; [|done].
       apply (Hne [i'; j']); [done..|]. intros [= Ep _]. rewrite <- Ep in Hl1. simpl in Hl1. lia. }
  intros i' j' k' l' Hall. repeat (apply Forall_cons in Hall as [? Hall]).
  assert (Hij : Forall in_table [i'; j']) by (rewrite !Forall_cons; done).
  assert (Hijk : Forall in_table [i'; j'; k']) by (rewrite !Forall_cons; done).
  unfold translate. rewrite (Htbl _ Hij). destruct (tbl m 3 pml4 [i'; j']) as [pd|] eqn:E; [|done].
  cbv zeta. destruct (Hld (pd + 8 * k')) as (E1 & E2 & E3). rewrite E1, E2, E3.
  destruct (has (ld m (pd + 8 * k')) PTE_P) eqn:EP; simpl; [|done].
  destruct (has (ld m (pd + 8 * k')) PTE_PS) eqn:ES.
  - rewrite (Hne [i'; j'] pd k'); [done..|]. intros [= <- <-]. rewrite Ht in E. injection E as <-.
    by rewrite HPS in ES.
  - pose proof (tbl_pt m pml4 i' j' k' pd E EP ES) as Hpt.
    rewrite (Hne [i'; j'; k'] _ l'); [done..|]. intros [= Ep _]. rewrite <- Ep in Hlen. simpl in Hlen. lia.
Qed.

(** Writing the entry of a page. *)
Lemma leaf_store m pml4 hi i j k l pt v :
  pt_tree m pml4 hi -> Forall in_table [i; j; k; l] -> tbl m 3 pml4 [i; j; k] = Some pt ->
  let m' := <[pt + 8 * l := v]> m in
  pt_tree m' pml4 hi
  /\ translate m' pml4 i j k l = (if has v PTE_P then Some (v &~ 0xFFF, Z.land v 0xFFF) else None)
  /\ forall i' j' k' l', Forall in_table [i'; j'; k'; l'] -> [i'; j'; k'; l'] <> [i; j; k; l] ->
       translate m' pml4 i' j' k' l' = translate m pml4 i' j' k' l'.
Proof.
  intros Htree Hall Ht. cbv zeta. set (m' := <[_ := _]> m).
  repeat (apply Forall_cons in Hall as [? Hall]).
  assert (Hijk : Forall in_table [i; j; k]) by (rewrite !Forall_cons; done).
  assert (Hne : forall q a x, Forall in_table q -> in_table x -> tbl m 3 pml4 q = Some a -> (q, x) <> ([i; j; k], l) ->
            ld m' (a + 8 * x) = ld m (a + 8 * x)).
  { intros q a x Hq Hx Ha Hqp. unfold m'. rewrite ld_insert.
    destruct (Z.eqb_spec (pt + 8 * l) (a + 8 * x)) as [Eq|]; [|done].
    destruct (tree_slot m pml4 hi [i; j; k] q pt a l x) as (<- & _ & <-); done. }
  assert (Htbl : forall q, Forall in_table q -> tbl m' 3 pml4 q = tbl m 3 pml4 q).
  { apply tbl_agree. intros q a x Hq Hx Hl Ha. rewrite (Hne q a x); [done..|].
    intros [= -> _]. simpl in Hl. lia. }
  split_and!; [by apply (tree_agree m)| |].
  - assert (Ht' : tbl m 3 pml4 ([i; j] ++ [k]) = Some pt) by exact Ht.
    apply tbl_snoc in Ht' as (pd & Hpd & _ & Hn). unfold translate. rewrite Htbl by (rewrite !Forall_cons; done).
    rewrite Hpd. cbv zeta. rewrite (Hne [i; j] pd k); [|rewrite !Forall_cons; done|done..].
    unfold next in Hn. simpl in Hn. destruct (has (ld m (pd + 8 * k)) PTE_P); [|done].
    destruct (has (ld m (pd + 8 * k)) PTE_PS); [done|]. simpl in Hn. injection Hn as ->. simpl.
    unfold m'. rewrite ld_insert, Z.eqb_refl. done.
  - intros i' j' k' l' Hall' Hdiff. repeat (apply Forall_cons in Hall' as [? Hall']).
    unfold translate. rewrite Htbl by (rewrite !Forall_cons; done).
    destruct (tbl m 3 pml4 [i'; j']) as [pd|] eqn:E; [|done]. cbv zeta.
    rewrite (Hne [i'; j'] pd k'); [|rewrite !Forall_cons; done|done..].
    destruct (has (ld m (pd + 8 * k')) PTE_P) eqn:EP; simpl; [|done].
    destruct (has (ld m (pd + 8 * k')) PTE_PS) eqn:ES; [done|].
    rewrite (Hne [i'; j'; k'] _ l'); [done|rewrite !Forall_cons; done|done|by apply tbl_pt|].
    intros [= -> -> -> ->]. done.
Qed.

(** ** Lemmas on the walk *)

Record vm_inv (s : vm) (pml4 : Z) : Prop := {
  vi_heap : exists free live, heap_inv (vheap s) free live;
  vi_tree : pt_tree (vmem s) pml4 (kheap_current (vheap s));
  vi_words : forall a, is_u64 (ld (vmem s) a)
}.

(** Directories are only changed by the calls that create or switch them. *)
Definition same_dirs (s s' : vm) : Prop :=
  vdirs s' = vdirs s /\ current_directory s' = current_directory s.

Definition same_pages (m m' : gmap Z Z) (pml4 : Z) : Prop :=
  forall i j k l, Forall in_table [i; j; k; l] -> translate m' pml4 i j k l = translate m pml4 i j k l.

Lemma new_table_spec s T s' :
  (exists free live, heap_inv (vheap s) free live) -> new_table s = Some (T, s') ->
  T mod 4096 = 0 /\ 0 <= kheap_current (vheap s) <= T /\ T < 2 ^ 63 + 4096
  /\ kheap_current (vheap s') = T + 4096 /\ (exists free live, heap_inv (vheap s') free live)
  /\ vmem s' = fill_words (vmem s) T (fun _ => 0) 512 /\ same_dirs s s'.
Proof.
  intros (free & live & Hh) E. unfold new_table in E. minv E as T0 s0 E0. minv E as u s1 E1. injection E as <- <-.
  injection E1 as _ <-. unfold call_kmalloc_a in E0.
  destruct (kmalloc_a_cases _ _ _ 4096 Hh) as [(al & total & Hal & Hcur & Hsum & Hms & Er)|Er];
    [lia|unfold HEADER_SIZE; lia| |by rewrite Er in E0].
  rewrite Er in E0. injection E0 as <- <-. simpl in *. unfold HEADER_SIZE in *.
  pose proof (hi_current _ _ _ Hh). pose proof (hi_bounds _ _ _ Hh).
  destruct (heap_inv_bump _ _ _ (al - 8) (4096 + 8) total Hh) as (Hi & _ & Hcu & _); [lia..|].
  pose proof (proj2 (hi_mem _ _ _ Hh)).
  split_and!; [done|lia|lia|lia| |eauto|done|done]. transitivity (kheap_current (vheap s) + total); [exact Hcu|lia].
Qed.

Lemma in_page_ld T x a : T mod 4096 = 0 -> 0 <= x < 512 ->
  ld (fill_words a T (fun _ => 0) 512) (T + 8 * x) = 0.
Proof.
  intros HT Hx. rewrite ld_fill_words. replace (T + 8 * x - T) with (x * 8) by lia.
  rewrite Z.mod_mul by lia. by rewrite (proj2 (Z.leb_le _ _)), (proj2 (Z.ltb_lt _ _)) by lia.
Qed.

Lemma fill_below m T f a hi : hi <= T -> a + 8 <= hi -> ld (fill_words m T f 512) a = ld m a.
Proof.
  intros H1 H2. rewrite ld_fill_words. by rewrite (proj2 (Z.leb_gt T a)) by lia.
Qed.

Lemma words_insert m a v :
  (forall b, is_u64 (ld m b)) -> is_u64 v -> forall b, is_u64 (ld (<[a := v]> m) b).
Proof. intros H Hv b. rewrite ld_insert. by ztest. Qed.

Lemma words_fill m T f n :
  (forall b, is_u64 (ld m b)) -> (forall j, 0 <= j < Z.of_nat n -> is_u64 (f j)) ->
  forall b, is_u64 (ld (fill_words m T f n) b).
Proof. intros H Hf b. rewrite ld_fill_words. ztest; [|done]. apply Hf. zlia. Qed.

Lemma table_entry_u64 T f : T mod 4096 = 0 -> 0 <= T < 2 ^ 63 + 4096 -> is_u64 (Z.lor T (alloc_flags f)).
Proof.
  intros HT Hr. apply lor_range; [lia|lia|]. destruct (alloc_flags_cases f) as [-> | ->]; lia.
Qed.

Lemma user_entry_u64 e : is_u64 e -> is_u64 (Z.lor e PTE_U).
Proof. intros He. apply lor_range; [lia|done|unfold PTE_U; lia]. Qed.

Section WalkLevel.
Context (flags pml4 : Z) (p : list Z) (t i : Z) (md : M vm unit).
Context (Hmd : forall s, exists b, md s = Some (tt, set_modified s b)).
Context (Hf : flags <> 0) (Hp : Forall in_table p) (Hi : in_table i) (Hlen : (length p <= 2)%nat).

Lemma walk_level_spec s r s' :
  vm_inv s pml4 -> tbl (vmem s) 3 pml4 p = Some t ->
  (length p = 2%nat -> has (ld (vmem s) (t + 8 * i)) PTE_PS = false) ->
  walk_level (t + 8 * i) flags md s = Some (r, s') ->
  exists t', r = Some t' /\ tbl (vmem s') 3 pml4 (p ++ [i]) = Some t' /\ vm_inv s' pml4
    /\ same_pages (vmem s) (vmem s') pml4 /\ same_dirs s s'
    /\ (forall i' j' k', (length p <= 1)%nat -> Forall in_table [i'; j'; k'] ->
          pde (vmem s') pml4 i' j' k' = pde (vmem s) pml4 i' j' k').
Proof.
  intros [Hh Htree Hw] Ht HPS E. unfold walk_level in E. minv E as e0 s0 E0. injection E0 as <- <-.
  set (e := ld (vmem s) (t + 8 * i)) in *.
  assert (Hnx : has e PTE_P = true -> next (3 - length p) e = Some (e &~ 0xFFF)).
  { intros HP. unfold next. rewrite HP. destruct (decide (length p = 2%nat)) as [E2|E2].
    - by rewrite (HPS E2), andb_false_r.
    - rewrite bool_decide_eq_false_2 by lia. done. }
  destruct (has e PTE_P) eqn:EP; simpl in E.
  - minv E as u s1 E0. assert (HU : let m' := <[t + 8 * i := Z.lor e PTE_U]> (vmem s) in
      (s1 = s \/ exists b, s1 = set_modified (set_vmem s m') b)).
    { destruct (has flags PTE_U && negb (has e PTE_U))%bool; [|left; by injection E0 as _ <-].
      minv E0 as u1 s2 E1. injection E1 as _ <-. destruct (Hmd (set_vmem s (<[t + 8 * i := Z.lor e PTE_U]> (vmem s)))) as [b Hb].
      simpl in E0. rewrite Hb in E0. injection E0 as _ <-. right. by exists b. }
    clear E0. minv E as e1 s2 E0. injection E0 as <- <-. injection E as <- <-. simpl in HU.
    destruct HU as [->|[b ->]].
    + exists (e &~ 0xFFF). split_and!; [done| |done|done|done|done].
      apply tbl_snoc. exists t. split_and!; [done|lia|by apply Hnx].
    + destruct (user_bit (vmem s) pml4 _ p t i Htree Hp Hi Ht Hlen HPS) as (Htb & Htr & Hpde).
      destruct (user_entry e) as (U1 & _ & _). simpl. rewrite ld_insert, Z.eqb_refl, U1.
      exists (e &~ 0xFFF). split_and!; [done| | |exact Htr|done|exact Hpde].
      * rewrite Htb by (by apply Forall_snoc_in). apply tbl_snoc. exists t.
        split_and!; [done|lia|by apply Hnx].
      * constructor; simpl; [done|by apply (tree_agree (vmem s))|].
        apply words_insert; [done|]. apply user_entry_u64, Hw.
  - rewrite (proj2 (Z.eqb_neq flags 0) Hf) in E. minv E as T s0 E0.
    destruct (new_table_spec _ _ _ Hh E0) as (HT & Hhi & HTu & Hcur & Hh' & Hm & Hd).
    minv E as u1 s1 E1. injection E1 as _ <-. minv E as u2 s1 E1. destruct (Hmd (set_vmem s0 (<[t + 8 * i := Z.lor T (alloc_flags flags)]> (vmem s0)))) as [b Hb].
    simpl in E1. rewrite Hb in E1. injection E1 as _ <-. minv E as e1 s1 E1. injection E1 as <- <-. injection E as <- <-.
    simpl. rewrite ld_insert, Z.eqb_refl. destruct (table_entry T flags HT) as (T1 & T2 & T3). rewrite T1.
    destruct (tree_page _ _ _ Htree p t Hp Ht) as (Hal & Ht0 & Hth).
    assert (Hnone : next (3 - length p) e = None) by (unfold next; by rewrite EP).
    set (m' := <[t + 8 * i := Z.lor T (alloc_flags flags)]> (vmem s0)).
    assert (Hslot : ld m' (t + 8 * i) = Z.lor T (alloc_flags flags)) by (unfold m'; by rewrite ld_insert, Z.eqb_refl).
    assert (Hnew : forall x, in_table x -> ld m' (T + 8 * x) = 0).
    { intros x Hx. unfold m'. rewrite ld_insert, (proj2 (Z.eqb_neq _ _)), Hm by (unfold in_table in *; lia).
      by apply in_page_ld. }
    assert (Hold : forall a, a + 8 <= kheap_current (vheap s) -> a <> t + 8 * i -> ld m' a = ld (vmem s) a).
    { intros a Ha Hne. unfold m'. rewrite ld_insert, (proj2 (Z.eqb_neq _ _)), Hm by lia.
      apply (fill_below _ _ _ _ (kheap_current (vheap s))); lia. }
    destruct (graft_spec (vmem s) m' pml4 (kheap_current (vheap s)) p t i T flags (fun _ => 0))
      as [Htree' Hchild _ Hoth Hpde Hbel]; auto; try lia.
    exists T. split_and!; [done|done| | |done..].
    + constructor; simpl; [done|by rewrite Hcur|].
      unfold m'. rewrite Hm. apply words_insert; [by apply words_fill|]. apply table_entry_u64; [done|lia].
    + intros i' j' k' l' Hall. destruct (decide (p ++ [i] = [i'; j'; k'])) as [Ep|Hne]; [|by apply Hoth].
      assert (Ep' : p ++ [i] = [i'; j'] ++ [k']) by done. apply app_inj_tail in Ep' as [Ep' ->].
      repeat (apply Forall_cons in Hall as [? Hall]). rewrite (Hbel i' j' l') by done.
      unfold translate. rewrite Ep' in Ht. rewrite Ht. cbv zeta. fold e. rewrite EP. done.
Qed.
End WalkLevel.

(** *** Splitting a 2 MB page *)

Lemma split_flags_range e f : 0 <= split_flags e f < 4096.
Proof.
  change 4096 with (2 ^ 12). assert (H : 0 <= Z.land e 0x1FF < 2 ^ 12).
  { rewrite Z.land_comm. by apply land_range. }
  unfold split_flags. apply land_range; [done|]. repeat ztest; try apply lor_range;
    try apply lor_range; unfold PTE_U, PTE_W; lia || done.
Qed.

Lemma split_flags_P e f : Z.testbit (split_flags e f) 0 = Z.testbit e 0.
Proof.
  unfold split_flags. rewrite Z.land_spec. change (Z.testbit (Z.lnot PTE_PS) 0) with true.
  rewrite andb_true_r. repeat ztest; rewrite ?Z.lor_spec, Z.land_spec;
    by rewrite ?orb_false_r, ?andb_true_r.
Qed.

Lemma split_base_mod e : (e &~ 0x1FFFFF) mod 2 ^ 21 = 0.
Proof.
  change 0x1FFFFF with (Z.ones 21). rewrite clear_low_bits by done. by apply Z.mod_mul.
Qed.

Lemma split_base_range e : is_u64 e -> 0 <= (e &~ 0x1FFFFF) <= 2 ^ 64 - 2 ^ 21.
Proof. unfold is_u64. change 0x1FFFFF with (Z.ones 21). rewrite clear_low_bits by done. zlia. Qed.

Lemma split_entry_spec e f j :
  is_u64 e -> in_table j ->
  split_entry e f j &~ 0xFFF = (e &~ 0x1FFFFF) + j * 4096
  /\ Z.land (split_entry e f j) 0xFFF = split_flags e f
  /\ has (split_entry e f j) PTE_P = has e PTE_P /\ is_u64 (split_entry e f j).
Proof.
  intros He Hj. unfold in_table in Hj. pose proof (split_base_range e He) as Hr.
  pose proof (split_base_mod e) as Hm. pose proof (split_flags_range e f) as Hf.
  unfold split_entry. rewrite u64_small by lia.
  destruct (page_entry ((e &~ 0x1FFFFF) + j * 4096) (split_flags e f)) as (E1 & E2 & E3); [zlia|done|].
  rewrite !has_P, E3, split_flags_P by lia. split_and!; try done; apply lor_range; lia.
Qed.

(** The flags a page of a split 2 MB page gets. *)
Definition split_page (flags : Z) (r : option (Z * Z)) (e : Z) : option (Z * Z) :=
  match r with Some (a, _) => Some (a, split_flags e flags) | None => None end.

Lemma walk_split_spec s flags pml4 i j k pd ok s' :
  flags <> 0 -> Forall in_table [i; j; k] -> vm_inv s pml4 -> tbl (vmem s) 3 pml4 [i; j] = Some pd ->
  walk_split (pd + 8 * k) flags s = Some (ok, s') ->
  let e := ld (vmem s) (pd + 8 * k) in
  ok = true /\ vm_inv s' pml4 /\ same_dirs s s' /\ tbl (vmem s') 3 pml4 [i; j] = Some pd
  /\ has (ld (vmem s') (pd + 8 * k)) PTE_PS = false
  /\ (forall i' j' k' l', Forall in_table [i'; j'; k'; l'] ->
        translate (vmem s') pml4 i' j' k' l'
        = if (has e PTE_PS && bool_decide ([i'; j'; k'] = [i; j; k]))%bool
          then split_page flags (translate (vmem s) pml4 i' j' k' l') e
          else translate (vmem s) pml4 i' j' k' l').
Proof.
  intros Hf Hall [Hh Htree Hw] Ht E. cbv zeta. unfold walk_split in E. minv E as e0 s0 E0.
  injection E0 as <- <-. set (e := ld (vmem s) (pd + 8 * k)) in *.
  destruct (has e PTE_PS) eqn:EPS; [|by injection E as <- <-; split_and!].
  rewrite (proj2 (Z.eqb_neq flags 0) Hf) in E. minv E as T s0 E0.
  destruct (new_table_spec _ _ _ Hh E0) as (HT & Hhi & HTu & Hcur & Hh' & Hm & Hd). clear E0.
  minv E as u1 s1 E1. injection E1 as _ <-. minv E as u2 s2 E2. injection E2 as _ <-.
  injection E as <- <-. cbn [vmem vheap set_vmem]. repeat (apply Forall_cons in Hall as [? Hall]).
  assert (Hij : Forall in_table [i; j]) by (rewrite !Forall_cons; done).
  set (m1 := fill_words (vmem s0) T (split_entry e flags) 512).
  set (m' := <[pd + 8 * k := Z.lor T (alloc_flags flags)]> m1).
  destruct (tree_page _ _ _ Htree [i; j] pd Hij Ht) as (Hal & Ht0 & Hth). unfold in_table in *.
  assert (Hnone : next (3 - length [i; j]) e = None).
  { unfold next. rewrite EPS, bool_decide_eq_true_2 by done. by rewrite andb_false_r. }
  assert (Hslot : ld m' (pd + 8 * k) = Z.lor T (alloc_flags flags)) by (unfold m'; by rewrite ld_insert, Z.eqb_refl).
  assert (Hnew : forall x, in_table x -> ld m' (T + 8 * x) = split_entry e flags x).
  { intros x Hx. unfold in_table in Hx. unfold m', m1. rewrite ld_insert, (proj2 (Z.eqb_neq _ _)), ld_fill_words by lia.
    replace (T + 8 * x - T) with (x * 8) by lia. rewrite Z.mod_mul, Z.div_mul by lia.
    by rewrite (proj2 (Z.leb_le _ _)), (proj2 (Z.ltb_lt _ _)) by lia. }
  assert (Hold : forall a, a + 8 <= kheap_current (vheap s) -> a <> pd + 8 * k -> ld m' a = ld (vmem s) a).
  { intros a Ha Hne. unfold m', m1. rewrite ld_insert, (proj2 (Z.eqb_neq _ _)) by lia.
    rewrite (fill_below _ _ _ _ (kheap_current (vheap s))), Hm by lia.
    apply (fill_below _ _ _ _ (kheap_current (vheap s))); lia. }
  destruct (graft_spec (vmem s) m' pml4 (kheap_current (vheap s)) [i; j] pd k T flags (split_entry e flags))
    as [Htree' _ Hkeep Hoth _ Hbel]; auto; try lia.
  split_and!; [done| |done|by apply Hkeep| |].
  - constructor; cbn [vmem vheap set_vmem]; [done|by rewrite Hcur|]. unfold m', m1. rewrite Hm.
    apply words_insert; [|apply table_entry_u64; lia]. apply words_fill; [by apply words_fill|].
    intros x Hx. destruct (split_entry_spec e flags x (Hw _)); [done|]. tauto.
  - rewrite Hslot. by destruct (table_entry T flags HT) as (_ & _ & ->).
  - intros i' j' k' l' Hall'. case_bool_decide as Hd'; simpl; [|by apply Hoth; [done|]; intros E; apply Hd'].
    injection Hd' as -> -> ->. repeat (apply Forall_cons in Hall' as [? Hall']). rewrite (Hbel i j l') by done.
    destruct (split_entry_spec e flags l' (Hw _)) as (S1 & S2 & S3 & _); [done|]. rewrite S1, S2, S3.
    unfold translate. rewrite Ht. cbv zeta. fold e. destruct (has e PTE_P); simpl; [|done]. by rewrite EPS.
Qed.

(** *** The whole walk *)

Lemma index_range v k : in_table (Z.land (Z.shiftr v k) 0x1FF).
Proof. unfold in_table. rewrite Z.land_comm. by apply (land_range 0x1FF _ 9). Qed.

Definition large_at (s : vm) (pml4 v : Z) : bool :=
  has (pde (vmem s) pml4 (vaddr_pml4i v) (vaddr_pdpi v) (vaddr_pdi v)) PTE_PS.

Definition pd_path (v : Z) : list Z := [vaddr_pml4i v; vaddr_pdpi v; vaddr_pdi v].
Definition page_path (v : Z) : list Z := pd_path v ++ [vaddr_pti v].

Lemma pd_path_in v : Forall in_table (pd_path v).
Proof. unfold pd_path. rewrite !Forall_cons. split_and!; try apply index_range. done. Qed.

Lemma page_path_in v : Forall in_table (page_path v).
Proof. apply Forall_app. split; [apply pd_path_in|]. constructor; [apply index_range|done]. Qed.

Lemma walk_pt_spec s dir v flags pml4 r s' :
  flags <> 0 -> vm_inv s pml4 -> dir_pml4 s dir = pml4 -> walk_pt dir v flags s = Some (r, s') ->
  exists pt, r = Some (pt + 8 * vaddr_pti v) /\ tbl (vmem s') 3 pml4 (pd_path v) = Some pt
    /\ vm_inv s' pml4 /\ same_dirs s s'
    /\ forall i' j' k' l', Forall in_table [i'; j'; k'; l'] ->
        translate (vmem s') pml4 i' j' k' l'
        = if (large_at s pml4 v && bool_decide ([i'; j'; k'] = pd_path v))%bool
          then split_page flags (translate (vmem s) pml4 i' j' k' l')
                 (pde (vmem s) pml4 (vaddr_pml4i v) (vaddr_pdpi v) (vaddr_pdi v))
          else translate (vmem s) pml4 i' j' k' l'.
Proof.
  intros Hf Hinv Hd E. unfold walk_pt in E. minv E as p0 s0 E0. injection E0 as <- <-. rewrite Hd in E.
  pose proof (pd_path_in v) as Hall. unfold pd_path in *.
  set (i := vaddr_pml4i v) in *. set (j := vaddr_pdpi v) in *. set (k := vaddr_pdi v) in *.
  assert (Hret : forall t, exists b, @mret_ vm unit tt t = Some (tt, set_modified t b)).
  { intros t. exists (walk_pt_modified_pml4 t). by destruct t. }
  pose proof Hall as Hall'. repeat (apply Forall_cons in Hall' as [? Hall']). clear Hall'.
  minv E as r1 s1 E1.
  destruct (walk_level_spec flags pml4 [] pml4 i mark_modified ltac:(by exists true) Hf ltac:(done) ltac:(done)
    ltac:(simpl; lia) s r1 s1 Hinv eq_refl ltac:(done) E1) as (pdp & -> & Ht1 & Hi1 & Hp1 & Hd1 & He1).
  minv E as r2 s2 E2.
  destruct (walk_level_spec flags pml4 [i] pdp j _ Hret Hf ltac:(by rewrite Forall_cons) ltac:(done)
    ltac:(simpl; lia) s1 r2 s2 Hi1 Ht1 ltac:(done) E2) as (pd & -> & Ht2 & Hi2 & Hp2 & Hd2 & He2).
  minv E as ok s3 E3.
  destruct (walk_split_spec s2 flags pml4 i j k pd ok s3 Hf Hall Hi2 Ht2 E3)
    as (-> & Hi3 & Hd3 & Ht3 & HPS & Hp3). simpl in E.
  minv E as r4 s4 E4.
  destruct (walk_level_spec flags pml4 [i; j] pd k _ Hret Hf ltac:(by rewrite !Forall_cons) ltac:(done)
    ltac:(simpl; lia) s3 r4 s4 Hi3 Ht3 ltac:(done) E4) as (pt & -> & Ht4 & Hi4 & Hp4 & Hd4 & _).
  injection E as <- <-. exists pt. split_and!; [done|done|done| |].
  - unfold same_dirs in *. destruct Hd1, Hd2, Hd3, Hd4. split; congruence.
  - assert (Hpde : ld (vmem s2) (pd + 8 * k) = pde (vmem s) pml4 i j k).
    { rewrite <- He1, <- He2 by (done || simpl; lia). unfold pde. simpl app in Ht2. by rewrite Ht2. }
    intros i' j' k' l' Hx. unfold large_at. fold i j k. rewrite Hp4, Hp3, Hpde by done.
    by rewrite (Hp2 i' j' k' l' Hx), (Hp1 i' j' k' l' Hx).
Qed.

Lemma map_entry p f :
  Z.lor (Z.lor (p &~ 0xFFF) (Z.land f 0xFFF)) PTE_P &~ 0xFFF = p &~ 0xFFF
  /\ Z.land (Z.lor (Z.lor (p &~ 0xFFF) (Z.land f 0xFFF)) PTE_P) 0xFFF = Z.lor (Z.land f 0xFFF) PTE_P
  /\ has (Z.lor (Z.lor (p &~ 0xFFF) (Z.land f 0xFFF)) PTE_P) PTE_P = true.
Proof.
  rewrite <- Z.lor_assoc.
  destruct (page_entry (p &~ 0xFFF) (Z.lor (Z.land f 0xFFF) PTE_P)) as (E1 & E2 & E3).
  - rewrite page_mask. zlia.
  - change 4096 with (2 ^ 12). apply lor_range; [done| |done]. rewrite Z.land_comm. by apply land_range.
  - split_and!; [done|done|]. rewrite has_P, E3, Z.lor_spec by lia. by rewrite orb_true_r.
Qed.

(** The translation of every page after [vmm_map_page]. *)
Lemma vmm_map_page_run s p v f pml4 s' :
  vm_inv s pml4 -> dir_pml4 s (current_directory s) = pml4 -> f <> 0 -> is_u64 p ->
  vmm_map_page p v f s = Some (tt, s') ->
  translate_addr (vmem s') pml4 v = Some (p &~ 0xFFF, Z.lor (Z.land f 0xFFF) PTE_P)
  /\ (forall i j k l, Forall in_table [i; j; k; l] -> [i; j; k; l] <> page_path v ->
        translate (vmem s') pml4 i j k l
        = if (large_at s pml4 v && bool_decide ([i; j; k] = pd_path v))%bool
          then split_page f (translate (vmem s) pml4 i j k l)
                 (pde (vmem s) pml4 (vaddr_pml4i v) (vaddr_pdpi v) (vaddr_pdi v))
          else translate (vmem s) pml4 i j k l)
  /\ vm_inv s' pml4 /\ dir_pml4 s' (current_directory s') = pml4.
Proof.
  intros Hinv Hd Hf Hp E. unfold vmm_map_page in E. minv E as u0 s0 E0. injection E0 as _ <-.
  minv E as d s1 E1. injection E1 as <- <-. minv E as r s2 E2.
  destruct (walk_pt_spec (set_modified s false) (current_directory s) v f pml4 r s2 Hf)
    as (pt & -> & Ht & Hi & Hds & Htr); [by destruct Hinv|done|done|].
  injection E as <-. change (vmem (set_modified s false)) with (vmem s) in Htr.
  set (e := Z.lor _ PTE_P). destruct (map_entry p f) as (M1 & M2 & M3). fold e in M1, M2, M3.
  destruct (leaf_store (vmem s2) pml4 _ _ _ _ (vaddr_pti v) pt e (vi_tree _ _ Hi) (page_path_in v) Ht)
    as (Htree & Hv & Ho).
  cbn [vmem set_vmem]. split_and!.
  - unfold translate_addr. rewrite Hv, M1, M2, M3. done.
  - intros i j k l Hall Hne. rewrite Ho by done. by rewrite Htr by done.
  - constructor; cbn [vmem vheap set_vmem]; [apply Hi|done|]. apply words_insert; [apply Hi|].
    unfold e. rewrite <- Z.lor_assoc. apply lor_range; [lia|apply land_range; [lia|done]|].
    apply lor_range; [lia| |unfold PTE_P; lia]. rewrite Z.land_comm. apply land_range; lia.
  - destruct Hds as [Hds1 Hds2]. unfold dir_pml4 in *. cbn [vdirs current_directory set_vmem].
    by rewrite Hds1, Hds2.
Qed.

(** C9: after [vmm_map_page(phys, virt, flags)] (with some flag set) the page
    of [virt] translates to the page of [phys] with exactly these flags and the
    present bit; every other page keeps its physical address, also when the
    call splits a 2 MB page, and outside that 2 MB page its flags too; the
    tables still form a tree. *)
Theorem vmm_map_page_translates s p v f pml4 s' :
  vm_inv s pml4 -> dir_pml4 s (current_directory s) = pml4 -> f <> 0 -> is_u64 p ->
  vmm_map_page p v f s = Some (tt, s') ->
  translate_addr (vmem s') pml4 v = Some (p &~ 0xFFF, Z.lor (Z.land f 0xFFF) PTE_P)
  /\ (forall i j k l, Forall in_table [i; j; k; l] -> [i; j; k; l] <> page_path v ->
        fst <$> translate (vmem s') pml4 i j k l = fst <$> translate (vmem s) pml4 i j k l
        /\ (large_at s pml4 v = false \/ [i; j; k] <> pd_path v ->
            translate (vmem s') pml4 i j k l = translate (vmem s) pml4 i j k l))
  /\ vm_inv s' pml4 /\ dir_pml4 s' (current_directory s') = pml4.
Proof.
  intros Hinv Hd Hf Hp E. destruct (vmm_map_page_run s p v f pml4 s' Hinv Hd Hf Hp E) as (Hv & Ho & Hi & Hd').
  split_and!; [done| |done|done]. intros i j k l Hall Hne. rewrite Ho by done. split.
  - destruct (large_at s pml4 v && _)%bool; [|done].
    destruct (translate (vmem s) pml4 i j k l) as [[a fl]|]; done.
  - intros Hor. destruct (large_at s pml4 v); [|done]. case_bool_decide as Hb; [|done].
    destruct Hor as [?|Hn]; [done|]. by destruct Hn.
Qed.

(** A boot-like address space: one 2 MB page at address 0. *)
Definition vm_demo_mem : gmap Z Z := list_to_map [(0x8000, 0x9003); (0x9000, 0xA003); (0xA000, 0x83)].
Definition vm_demo : vm :=
  {| vmem := vm_demo_mem; vheap := kheap_set_start kheap_demo 0x10000;
     vdirs := {[ 0x7000 := {| pml4_virt := 0x8000; pml4_phys := 0x8000 |} ]};
     kernel_directory := 0x7000; current_directory := 0x7000;
     walk_pt_modified_pml4 := false; cr3 := 0x8000; msr_pat := 0x0007040600070406 |}.

Lemma vm_demo_ld a :
  ld vm_demo_mem a = if a =? 0x8000 then 0x9003 else if a =? 0x9000 then 0xA003
                     else if a =? 0xA000 then 0x83 else 0.
Proof.
  unfold vm_demo_mem. cbn [list_to_map foldr uncurry fst snd]. rewrite !ld_insert.
  rewrite !(Z.eqb_sym _ a). by destruct (a =? 0x8000), (a =? 0x9000), (a =? 0xA000).
Qed.

Lemma vm_demo_tbl p a :
  Forall in_table p -> tbl vm_demo_mem 3 0x8000 p = Some a ->
  (p = [] /\ a = 0x8000) \/ (p = [0] /\ a = 0x9000) \/ (p = [0; 0] /\ a = 0xA000).
Proof.
  intros Hall H. destruct p as [|i p]; [injection H as <-; auto|]. apply Forall_cons in Hall as [Hi Hall].
  unfold in_table in Hi. cbn [tbl] in H. rewrite vm_demo_ld in H.
  rewrite (proj2 (Z.eqb_neq (0x8000 + 8 * i) 0xA000)) in H by lia.
  destruct (Z.eqb_spec (0x8000 + 8 * i) 0x8000); [|rewrite (proj2 (Z.eqb_neq _ 0x9000)) in H by lia; done].
  assert (i = 0) as -> by lia. change (next 3 0x9003) with (Some 0x9000) in H.
  destruct p as [|j p]; [injection H as <-; auto|]. apply Forall_cons in Hall as [Hj Hall].
  unfold in_table in Hj. cbn [tbl] in H. rewrite vm_demo_ld in H.
  rewrite (proj2 (Z.eqb_neq (0x9000 + 8 * j) 0x8000)), (proj2 (Z.eqb_neq (0x9000 + 8 * j) 0xA000)) in H by lia.
  destruct (Z.eqb_spec (0x9000 + 8 * j) 0x9000); [|done].
  assert (j = 0) as -> by lia. change (next 2 0xA003) with (Some 0xA000) in H.
  destruct p as [|k p]; [injection H as <-; auto|]. apply Forall_cons in Hall as [Hk Hall].
  unfold in_table in Hk. cbn [tbl] in H. rewrite vm_demo_ld in H.
  rewrite (proj2 (Z.eqb_neq (0xA000 + 8 * k) 0x8000)), (proj2 (Z.eqb_neq (0xA000 + 8 * k) 0x9000)) in H by lia.
  destruct (Z.eqb_spec (0xA000 + 8 * k) 0xA000); done.
Qed.

Lemma vm_demo_inv : vm_inv vm_demo 0x8000.
Proof.
  constructor.
  - exists [], []. apply heap_inv_start; vm_compute; reflexivity.
  - change (kheap_current (vheap vm_demo)) with 0x10000. constructor.
    + intros p a Hp Ha. by destruct (vm_demo_tbl p a Hp Ha) as [[_ ->]|[[_ ->]|[_ ->]]].
    + intros p q a Hp Hq Ha Hb.
      destruct (vm_demo_tbl p a Hp Ha) as [[-> ->]|[[-> ->]|[-> ->]]],
        (vm_demo_tbl q _ Hq Hb) as [[-> ?]|[[-> ?]|[-> ?]]]; done.
  - intros a. change (vmem vm_demo) with vm_demo_mem. rewrite vm_demo_ld. unfold is_u64. repeat ztest; lia.
Qed.

Definition vm_demo_mapped : vm :=
  match vmm_map_page 0x30000 0x5000 7 vm_demo with Some (_, s) => s | None => vm_demo end.

Lemma vmm_map_page_translates_witness :
  translate_addr (vmem vm_demo_mapped) 0x8000 0x5000 = Some (0x30000, 7)
  /\ fst <$> translate (vmem vm_demo_mapped) 0x8000 0 0 0 6 = Some 0x6000.
Proof.
  destruct (vmm_map_page_translates vm_demo 0x30000 0x5000 7 0x8000 vm_demo_mapped vm_demo_inv) as (H1 & H2 & _).
  - reflexivity.
  - done.
  - by_compute.
  - vm_compute. reflexivity.
  - split; [exact H1|]. destruct (H2 0 0 0 6) as [H3 _]; [by_compute|by vm_compute|].
    rewrite H3. reflexivity.
Defined.

Lemma split_flags_user e f : has f PTE_U = true -> has (split_flags e f) PTE_U = true.
Proof.
  intros Hf. unfold split_flags. rewrite Hf, !has_U in *. rewrite Z.land_spec.
  change (Z.testbit (Z.lnot PTE_PS) 2) with true. rewrite andb_true_r.
  ztest; rewrite ?Z.lor_spec; change (Z.testbit PTE_U 2) with true; by rewrite ?orb_true_r.
Qed.

Lemma split_flags_write e f : has f PTE_W = true -> has (split_flags e f) PTE_W = true.
Proof.
  intros Hf. unfold split_flags. rewrite Hf, !has_W in *. rewrite Z.land_spec.
  change (Z.testbit (Z.lnot PTE_PS) 1) with true. rewrite andb_true_r.
  rewrite Z.lor_spec. change (Z.testbit PTE_W 1) with true. by rewrite orb_true_r.
Qed.

(** [usercopy.h] relies on kernel pages not having PTE_U.  Mapping one
    user page inside a 2 MB kernel page breaks this for all its neighbours: the
    split gives the user (and write) flag of the request to every present page
    of the 2 MB, which keeps its physical address. *)
Theorem vmm_map_page_exposes_large_page s p v f pml4 s' l a fl :
  vm_inv s pml4 -> dir_pml4 s (current_directory s) = pml4 -> is_u64 p ->
  has f PTE_U = true -> has f PTE_W = true -> large_at s pml4 v = true ->
  vmm_map_page p v f s = Some (tt, s') ->
  in_table l -> l <> vaddr_pti v ->
  translate (vmem s) pml4 (vaddr_pml4i v) (vaddr_pdpi v) (vaddr_pdi v) l = Some (a, fl) ->
  exists fl', translate (vmem s') pml4 (vaddr_pml4i v) (vaddr_pdpi v) (vaddr_pdi v) l = Some (a, fl')
    /\ has fl' PTE_U = true /\ has fl' PTE_W = true.
Proof.
  intros Hinv Hd Hp HU HW Hl E Hin Hne Ht. assert (Hf : f <> 0) by (by intros ->).
  destruct (vmm_map_page_run s p v f pml4 s' Hinv Hd Hf Hp E) as (_ & Ho & _ & _).
  pose proof (pd_path_in v) as Hall. unfold pd_path in Hall.
  rewrite Ho, Hl, bool_decide_eq_true_2; [| |rewrite !Forall_cons in *; tauto|]; [|done|].
  - rewrite Ht. simpl. eexists. split; [done|]. split; [by apply split_flags_user|by apply split_flags_write].
  - unfold page_path, pd_path. simpl. intros [= ?]. done.
Qed.

Lemma vmm_map_page_exposes_large_page_witness :
  exists fl', translate (vmem vm_demo_mapped) 0x8000 0 0 0 0x10 = Some (0x10000, fl')
    /\ has fl' PTE_U = true /\ has fl' PTE_W = true.
Proof.
  apply (vmm_map_page_exposes_large_page vm_demo 0x30000 0x5000 7 0x8000 vm_demo_mapped 0x10 0x10000 0x83 vm_demo_inv);
    try (vm_compute; reflexivity); try (vm_compute; discriminate); by_compute.
Defined.

(** [vmm_unmap_page] either refuses and changes nothing, exactly when the
    page is not mapped or is part of a 2 MB page, or unmaps the page alone and
    gives its frame back to the physical allocator. *)
Theorem vmm_unmap_page_spec s v pml4 :
  vm_inv s pml4 -> dir_pml4 s (current_directory s) = pml4 ->
  (vmm_unmap_page v s = Some (-1, s) /\ (translate_addr (vmem s) pml4 v = None \/ large_at s pml4 v = true))
  \/ exists s' a fl, vmm_unmap_page v s = Some (0, s') /\ translate_addr (vmem s) pml4 v = Some (a, fl)
     /\ translate_addr (vmem s') pml4 v = None
     /\ (forall i j k l, Forall in_table [i; j; k; l] -> [i; j; k; l] <> page_path v ->
           translate (vmem s') pml4 i j k l = translate (vmem s) pml4 i j k l)
     /\ kpmm (vheap s') = pmm_free_block (kpmm (vheap s)) a
     /\ pt_tree (vmem s') pml4 (kheap_current (vheap s')).
Proof.
  intros Hinv Hd. pose proof (page_path_in v) as Hall. unfold page_path, pd_path in *. simpl app in *.
  unfold translate_addr, large_at, translate at 1 2, pde.
  set (i := vaddr_pml4i v) in *. set (j := vaddr_pdpi v) in *. set (k := vaddr_pdi v) in *.
  set (l := vaddr_pti v) in *.
  set (e4 := ld (vmem s) (pml4 + 8 * i)). set (e3 := ld (vmem s) ((e4 &~ 0xFFF) + 8 * j)).
  set (e2 := ld (vmem s) ((e3 &~ 0xFFF) + 8 * k)). set (e1 := ld (vmem s) ((e2 &~ 0xFFF) + 8 * l)).
  assert (HU : vmm_unmap_page v s =
    if negb (has e4 PTE_P) then Some (-1, s) else if negb (has e3 PTE_P) then Some (-1, s) else
    if negb (has e2 PTE_P) then Some (-1, s) else if has e2 PTE_PS then Some (-1, s) else
    if negb (has e1 PTE_P) then Some (-1, s) else
    Some (0, set_vmem (set_vheap s (set_pmm (vheap s) (pmm_free_block (kpmm (vheap s)) (e1 &~ 0xFFF))))
               (<[(e2 &~ 0xFFF) + 8 * l := 0]> (vmem s)))).
  { unfold vmm_unmap_page, mbind_, load, mgets. cbv beta iota. rewrite Hd. fold i j k l e4.
    destruct (has e4 PTE_P); cbv [negb]; [|done]. fold e3.
    destruct (has e3 PTE_P); cbv [negb]; [|done]. fold e2.
    destruct (has e2 PTE_P); cbv [negb]; [|done]. destruct (has e2 PTE_PS); [done|].
    fold e1. by destruct (has e1 PTE_P). }
  assert (Hpd : tbl (vmem s) 3 pml4 [i; j] =
    if has e4 PTE_P then if has e3 PTE_P then Some (e3 &~ 0xFFF) else None else None).
  { cbn [tbl]. rewrite (next_upper 3) by done. fold e4. destruct (has e4 PTE_P); [|done].
    rewrite (next_upper 2) by done. fold e3. by destruct (has e3 PTE_P). }
  rewrite HU, Hpd. destruct (has e4 PTE_P) eqn:E4; simpl negb; [|left; split; [done|by left]].
  destruct (has e3 PTE_P) eqn:E3; simpl negb; [|left; split; [done|by left]]. cbv iota beta zeta. fold e2 e1.
  destruct (has e2 PTE_P) eqn:E2; simpl negb; [|left; split; [done|by left]].
  destruct (has e2 PTE_PS) eqn:E2S; [left; split; [done|by right]|].
  destruct (has e1 PTE_P) eqn:E1; simpl negb; [|left; split; [done|by left]].
  right. pose proof (tbl_pt (vmem s) pml4 i j k _ Hpd E2 E2S) as Hpt.
  destruct (leaf_store (vmem s) pml4 _ i j k l (e2 &~ 0xFFF) 0 (vi_tree _ _ Hinv) Hall Hpt)
    as (Htree & Hv & Ho).
  eexists _, _, _. split_and!; [reflexivity|reflexivity|exact Hv|exact Ho|reflexivity|exact Htree].
Qed.

Lemma vmm_unmap_page_spec_witness :
  vmm_unmap_page 0x5000 vm_demo = Some (-1, vm_demo).
Proof.
  destruct (vmm_unmap_page_spec vm_demo 0x5000 0x8000 vm_demo_inv eq_refl)
    as [[H _]|(s' & a & fl & H & _)]; [exact H|vm_compute in H; discriminate].
Defined.
