(* ===== verification/Usercopy.v ===== *)
(** * Copying across the user/kernel boundary
    ([src/src/kernel/mm/usercopy.c], [src/include/kernel/usercopy.h])

    The checks walk the page tables of [Vmm]; [umem] gives the byte at each
    virtual address of the active address space, kernel buffers are lists of
    bytes.  Error codes are the negative results of the code. *)

From Stdlib Require Import ZArith Lia.
From stdpp Require Import base numbers list gmap.
From S2P Require Import Prelude Pmm Kheap Vmm.

(** ** The code *)

Definition USER_ADDR_MAX : Z := 0xC0000000.
Definition USER_ADDR_MIN : Z := 0x1000.
Definition EFAULT : Z := 14.
Definition EINVAL : Z := 22.

(** [!(e & PTE_P)] or [check_user && !(e & PTE_U)]: the walk gives up. *)
Definition walk_refuses (e : Z) (check_user : bool) : bool :=
  (negb (has e PTE_P) || (check_user && negb (has e PTE_U)))%bool.

(** The address of the entry; [None] is NULL. *)
Definition walk_user_pt (s : vm) (vaddr : Z) (check_user : bool) : option Z :=
  let pml4 := dir_pml4 s (current_directory s) in
  let e4 := ld (vmem s) (pml4 + 8 * vaddr_pml4i vaddr) in
  if walk_refuses e4 check_user then None else
  let pdp := e4 &~ 0xFFF in
  let e3 := ld (vmem s) (pdp + 8 * vaddr_pdpi vaddr) in
  if walk_refuses e3 check_user then None else
  let pd := e3 &~ 0xFFF in
  let e2 := ld (vmem s) (pd + 8 * vaddr_pdi vaddr) in
  if has e2 PTE_PS then
    if walk_refuses e2 check_user then None else Some (pd + 8 * vaddr_pdi vaddr)
  else
  if walk_refuses e2 check_user then None else
  let pt := e2 &~ 0xFFF in
  let e1 := ld (vmem s) (pt + 8 * vaddr_pti vaddr) in
  if walk_refuses e1 check_user then None else Some (pt + 8 * vaddr_pti vaddr).

(** [for (page = page_start; page <= page_end; page += 0x1000)], [n] pages. *)
Fixpoint validate_pages (s : vm) (page : Z) (n : nat) : bool :=
  match n with
  | O => true
  | S n' =>
      match walk_user_pt s page true with
      | None => false
      | Some _ => validate_pages s (page + 0x1000) n'
      end
  end.

Definition validate_user_pointer (s : vm) (ptr size : Z) : Z :=
  if size =? 0 then 0 else
  let start := ptr in
  let end_ := u64 (start + size) in
  if end_ <? start then - EFAULT else
  if ((start <? USER_ADDR_MIN) || (USER_ADDR_MAX <? end_))%bool then - EFAULT else
  let page_start := start &~ 0xFFF in
  let page_end := u64 (end_ - 1) &~ 0xFFF in
  if validate_pages s page_start (Z.to_nat ((page_end - page_start) / 0x1000 + 1)) then 0
  else - EFAULT.

Definition user_bytes (umem : gmap Z Z) (p n : Z) : list Z :=
  (fun i => default 0 (umem !! (p + i))) <$> seqZ 0 n.

(** The bytes [memcpy] writes to [dst]; [None] when nothing is written. *)
Definition copy_from_user (s : vm) (umem : gmap Z Z) (user_src n : Z) : Z * option (list Z) :=
  if n =? 0 then (0, None) else
  if validate_user_pointer s user_src n <? 0 then (- EFAULT, None) else
  (0, Some (user_bytes umem user_src n)).

Definition write_bytes (umem : gmap Z Z) (p : Z) (bs : list Z) : gmap Z Z :=
  foldl (fun u i => <[p + i := bs.[i]]> u) umem (seqZ 0 (Z.of_nat (length bs))).

Definition copy_to_user (s : vm) (umem : gmap Z Z) (user_dst : Z) (src : list Z) : Z * gmap Z Z :=
  if Z.of_nat (length src) =? 0 then (0, umem) else
  if validate_user_pointer s user_dst (Z.of_nat (length src)) <? 0 then (- EFAULT, umem) else
  (0, write_bytes umem user_dst src).

Definition is_user_addr (addr : Z) : bool := ((USER_ADDR_MIN <=? addr) && (addr <? USER_ADDR_MAX))%bool.

(** The loop of [strncpy_from_user] from index [i]; [n] rounds are left.  The
    list is what has been written to [dst] from [i] on. *)
Fixpoint strncpy_loop (s : vm) (umem : gmap Z Z) (src i : Z) (n : nat) : Z * list Z :=
  match n with
  | O => (0, [0])
  | S n' =>
      let addr := u64 (src + i) in
      if USER_ADDR_MAX <=? addr then (- EFAULT, []) else
      if ((Z.land addr 0xFFF =? 0) || (i =? 0))%bool
         && negb (match walk_user_pt s addr true with Some _ => true | None => false end)
      then (- EFAULT, [])
      else
        let c := default 0 (umem !! addr) in
        if c =? 0 then (0, [0])
        else let '(r, rest) := strncpy_loop s umem src (i + 1) n' in (r, c :: rest)
  end.

Definition strncpy_from_user (s : vm) (umem : gmap Z Z) (user_src maxlen : Z) : Z * list Z :=
  if maxlen =? 0 then (- EINVAL, []) else
  if negb (is_user_addr user_src) then (- EFAULT, []) else
  strncpy_loop s umem user_src 0 (Z.to_nat (maxlen - 1)).

(** ** Specification

    The byte at [a] belongs to a page that is present and user accessible. *)

Definition user_byte (s : vm) (a : Z) : Prop :=
  exists phys fl, translate_addr (vmem s) (dir_pml4 s (current_directory s)) a = Some (phys, fl)
    /\ has fl PTE_U = true.

Lemma walk_refuses_false e : walk_refuses e true = false -> has e PTE_P = true /\ has e PTE_U = true.
Proof. unfold walk_refuses. by destruct (has e PTE_P), (has e PTE_U). Qed.

Lemma has_low_user e : has (Z.land e 0xFFF) PTE_U = has e PTE_U.
Proof. rewrite !has_U, testbit_low by done. apply andb_true_r. Qed.

Lemma walk_user_pt_user s a e : walk_user_pt s a true = Some e -> user_byte s a.
Proof.
  unfold walk_user_pt, user_byte, translate_addr, translate. cbv zeta.
  set (pml4 := dir_pml4 s _). cbn [tbl]. rewrite (next_upper 3) by done.
  set (e4 := ld (vmem s) (pml4 + 8 * vaddr_pml4i a)).
  destruct (walk_refuses e4 true) eqn:R4; [done|]. apply walk_refuses_false in R4 as [P4 _]. rewrite P4.
  rewrite (next_upper 2) by done. set (e3 := ld (vmem s) ((e4 &~ 0xFFF) + 8 * vaddr_pdpi a)).
  destruct (walk_refuses e3 true) eqn:R3; [done|]. apply walk_refuses_false in R3 as [P3 _]. rewrite P3.
  set (e2 := ld (vmem s) ((e3 &~ 0xFFF) + 8 * vaddr_pdi a)).
  destruct (has e2 PTE_PS) eqn:PS; destruct (walk_refuses e2 true) eqn:R2; try done;
    apply walk_refuses_false in R2 as [P2 U2]; rewrite P2; simpl negb; cbv iota.
  - intros _. eexists _, _. split; [done|]. by rewrite has_low_user.
  - set (e1 := ld (vmem s) ((e2 &~ 0xFFF) + 8 * vaddr_pti a)).
    destruct (walk_refuses e1 true) eqn:R1; [done|]. apply walk_refuses_false in R1 as [P1 U1].
    rewrite P1. intros _. eexists _, _. split; [done|]. by rewrite has_low_user.
Qed.

(** The walk of an address depends on its page only. *)
Lemma walk_user_pt_page s a b : a / 4096 = b / 4096 -> walk_user_pt s a true = walk_user_pt s b true.
Proof.
  intros H. assert (Hs : forall k, 12 <= k -> Z.shiftr a k = Z.shiftr b k).
  { intros k Hk. replace k with (12 + (k - 12)) by lia. rewrite <- !Z.shiftr_shiftr by lia.
    rewrite !(Z.shiftr_div_pow2 _ 12) by done. change (2 ^ 12) with 4096. by rewrite H. }
  unfold walk_user_pt, vaddr_pml4i, vaddr_pdpi, vaddr_pdi, vaddr_pti. by rewrite !Hs by lia.
Qed.

Lemma validate_pages_spec s page n :
  validate_pages s page n = true <->
  forall i, 0 <= i < Z.of_nat n -> is_Some (walk_user_pt s (page + i * 0x1000) true).
Proof.
  revert page. induction n as [|n IH]; intros page; simpl; [split; [intros _ i; lia|done]|].
  split.
  - destruct (walk_user_pt s page true) as [e|] eqn:E; [|done]. rewrite IH. intros H i Hi.
    destruct (decide (i = 0)) as [->|Hne]; [rewrite Z.mul_0_l, Z.add_0_r; by exists e|].
    specialize (H (i - 1) ltac:(lia)). by replace (page + i * 4096) with (page + 4096 + (i - 1) * 4096) by lia.
  - intros H. destruct (H 0 ltac:(lia)) as [e E]. rewrite Z.mul_0_l, Z.add_0_r in E. rewrite E.
    apply IH. intros i Hi. replace (page + 4096 + i * 4096) with (page + (i + 1) * 4096) by lia. apply H. lia.
Qed.

(** [validate_user_pointer] in terms of the bytes of the range. *)
Lemma validate_spec s ptr size :
  is_u64 ptr -> 0 < size < 2 ^ 64 ->
  (validate_user_pointer s ptr size = 0 /\ USER_ADDR_MIN <= ptr /\ ptr + size <= USER_ADDR_MAX
    /\ forall a, ptr <= a < ptr + size -> is_Some (walk_user_pt s a true))
  \/ (validate_user_pointer s ptr size = - EFAULT
      /\ (ptr < USER_ADDR_MIN \/ USER_ADDR_MAX < ptr + size
          \/ exists a, ptr - 4096 < a < ptr + size + 4096 /\ walk_user_pt s a true = None)).
Proof.
  intros Hp Hs. unfold is_u64 in Hp. unfold validate_user_pointer, USER_ADDR_MIN, USER_ADDR_MAX.
  rewrite (proj2 (Z.eqb_neq size 0)) by lia. cbv zeta.
  destruct (decide (ptr + size < 2 ^ 64)) as [Hov|Hov].
  2: { right. replace (u64 (ptr + size)) with (ptr + size - 2 ^ 64) by (unfold u64; zlia).
       rewrite (proj2 (Z.ltb_lt _ ptr)) by lia. split; [done|]. right. left. lia. }
  rewrite (u64_small (ptr + size)) by lia. rewrite (proj2 (Z.ltb_ge (ptr + size) ptr)) by lia.
  destruct (Z.ltb_spec ptr 0x1000); [right; auto|].
  destruct (Z.ltb_spec 0xC0000000 (ptr + size)); [right; auto|]. simpl orb. cbv iota.
  rewrite u64_small by lia. rewrite !page_mask.
  set (ps := ptr - ptr mod 4096). set (pe := ptr + size - 1 - (ptr + size - 1) mod 4096).
  destruct (validate_pages s ps (Z.to_nat ((pe - ps) / 0x1000 + 1))) eqn:E; [left|right].
  - split_and!; [done|lia|lia|]. intros a Ha. apply validate_pages_spec with (i := (a - ps) / 4096) in E; [|unfold ps, pe; zlia].
    rewrite (walk_user_pt_page s a (ps + (a - ps) / 4096 * 4096)); [done|unfold ps; zlia].
  - split; [done|]. right. right.
    assert (Hn : ~ forall i, 0 <= i < Z.of_nat (Z.to_nat ((pe - ps) / 0x1000 + 1)) ->
                 is_Some (walk_user_pt s (ps + i * 0x1000) true)).
    { rewrite <- validate_pages_spec. by rewrite E. }
    destruct (decide (Forall (fun i => is_Some (walk_user_pt s (ps + i * 0x1000) true))
                (seqZ 0 ((pe - ps) / 0x1000 + 1)))) as [Hd|Hd].
    + exfalso. apply Hn. intros i Hi. rewrite Forall_forall in Hd. apply Hd, elem_of_seqZ. lia.
    + apply not_Forall_Exists in Hd; [|apply _]. apply Exists_exists in Hd as (i & Hi & Hw).
      apply elem_of_seqZ in Hi. exists (ps + i * 0x1000). split; [unfold ps, pe in *; zlia|]. by apply eq_None_not_Some.
Qed.

Lemma lookup_write_bytes umem p bs k :
  write_bytes umem p bs !! (p + k)
  = if ((0 <=? k) && (k <? Z.of_nat (length bs)))%bool then Some bs.[k] else umem !! (p + k).
Proof. unfold write_bytes. apply foldl_insert_lookup. Qed.

(** C26: a kernel copy to user space that succeeds has written only bytes of
    present, user accessible pages inside the user range, and stored the source
    there; a copy that fails has written nothing, and fails only when the range
    leaves user space or touches a page that is not mapped for the user. *)
Theorem copy_to_user_confined s umem dst src :
  is_u64 dst -> 0 < Z.of_nat (length src) < 2 ^ 64 ->
  let n := Z.of_nat (length src) in
  match copy_to_user s umem dst src with
  | (0, umem') =>
      (forall a, dst <= a < dst + n -> USER_ADDR_MIN <= a < USER_ADDR_MAX /\ user_byte s a
                                       /\ umem' !! a = src !! Z.to_nat (a - dst))
      /\ forall a, a < dst \/ dst + n <= a -> umem' !! a = umem !! a
  | (r, umem') =>
      r = - EFAULT /\ umem' = umem
      /\ (dst < USER_ADDR_MIN \/ USER_ADDR_MAX < dst + n
          \/ exists a, dst - 4096 < a < dst + n + 4096 /\ walk_user_pt s a true = None)
  end.
Proof.
  intros Hd Hn n. unfold copy_to_user. rewrite (proj2 (Z.eqb_neq _ 0)) by lia. fold n in Hn |- *.
  destruct (validate_spec s dst n Hd Hn) as [(Hv & Hlo & Hhi & Hw)|[Hv Hbad]]; rewrite Hv; [|done].
  pose proof (lookup_write_bytes umem dst src) as Hwb. fold n in Hwb.
  simpl. split.
  - intros a Ha. destruct (Hw a Ha) as [e He]. split; [unfold USER_ADDR_MIN, USER_ADDR_MAX in *; lia|].
    split; [by eapply walk_user_pt_user|]. replace a with (dst + (a - dst)) at 1 by lia. rewrite Hwb.
    rewrite (proj2 (Z.leb_le 0 _)), (proj2 (Z.ltb_lt _ n)) by lia. simpl. unfold nthZ.
    destruct (lookup_lt_is_Some_2 src (Z.to_nat (a - dst))) as [x ->]; [lia|done].
  - intros a Ha. replace a with (dst + (a - dst)) by lia. rewrite Hwb.
    destruct (Z.leb_spec 0 (a - dst)), (Z.ltb_spec (a - dst) n); simpl; lia || done.
Qed.

Lemma copy_to_user_confined_witness :
  let umem' := snd (copy_to_user vm_demo_mapped ∅ 0x5FFE [7; 8]) in
  umem' !! 0x5FFF = Some 8 /\ user_byte vm_demo_mapped 0x5FFF.
Proof.
  pose proof (copy_to_user_confined vm_demo_mapped ∅ 0x5FFE [7; 8] ltac:(by_compute) ltac:(simpl; lia)) as H.
  assert (E : fst (copy_to_user vm_demo_mapped ∅ 0x5FFE [7; 8]) = 0) by (vm_compute; reflexivity).
  destruct (copy_to_user vm_demo_mapped ∅ 0x5FFE [7; 8]) as [r u]. simpl in E. subst r.
  destruct H as [H _]. destruct (H 0x5FFF) as (_ & Hu & Hl); [simpl; lia|]. split; [exact Hl|exact Hu].
Defined.

Lemma strncpy_loop_spec s umem src i n :
  is_u64 src -> 0 <= i ->
  (0 < i -> src + i <= USER_ADDR_MAX /\ is_Some (walk_user_pt s (src + i - 1) true)) ->
  match strncpy_loop s umem src i n with
  | (0, dst) => exists k, 0 <= k <= Z.of_nat n /\ dst = user_bytes umem (src + i) k ++ [0]
      /\ Forall (fun c => c <> 0) (user_bytes umem (src + i) k)
      /\ (k = Z.of_nat n \/ default 0 (umem !! (src + i + k)) = 0)
      /\ forall a, src + i <= a < src + i + k \/ (a = src + i + k /\ k < Z.of_nat n) ->
           a < USER_ADDR_MAX /\ is_Some (walk_user_pt s a true)
  | (r, _) => r = - EFAULT
  end.
Proof.
  intros Hsrc. unfold is_u64, USER_ADDR_MAX, USER_ADDR_MIN in *. revert i.
  induction n as [|n IH]; intros i Hi Hprev; cbn [strncpy_loop].
  { exists 0. split_and!; [lia|lia|done|constructor|by left|lia]. }
  assert (Hsi : src + i < 2 ^ 64).
  { destruct (decide (i = 0)) as [->|]; [lia|]. destruct Hprev as [? _]; lia. }
  rewrite (u64_small (src + i)) by lia. unfold USER_ADDR_MAX. cbv zeta.
  destruct (Z.leb_spec 0xC0000000 (src + i)) as [|Hmax]; [done|].
  destruct ((((Z.land (src + i) 0xFFF =? 0) || (i =? 0))%bool
             && negb (match walk_user_pt s (src + i) true with Some _ => true | None => false end))) eqn:Ew; [done|].
  assert (Hu : is_Some (walk_user_pt s (src + i) true)).
  { destruct (walk_user_pt s (src + i) true) eqn:E; [done|]. rewrite andb_true_r in Ew. zbool.
    destruct (Hprev ltac:(lia)) as [_ Hp]. rewrite <- E.
    rewrite (walk_user_pt_page s (src + i) (src + i - 1)); [done|].
    change 0xFFF with (Z.ones 12) in *. rewrite Z.land_ones in * by done. change (2 ^ 12) with 4096 in *. zlia. }
  set (c := default 0 (umem !! (src + i))). destruct (Z.eqb_spec c 0) as [Hc|Hc].
  { exists 0. split_and!; [lia|lia|done|constructor|right; by rewrite Z.add_0_r|].
    intros a Ha. assert (a = src + i) as -> by lia. done. }
  specialize (IH (i + 1) ltac:(lia)). replace (src + (i + 1) - 1) with (src + i) in IH by lia.
  specialize (IH ltac:(intros _; split; [lia|done])).
  destruct (strncpy_loop s umem src (i + 1) n) as [r rest]. destruct r as [| |]; [|done..].
  destruct IH as (k & Hk & -> & Hnz & Hend & Hall).
  assert (Hub : user_bytes umem (src + i) (k + 1) = c :: user_bytes umem (src + (i + 1)) k).
  { unfold user_bytes. rewrite (seqZ_cons 0 (k + 1)) by lia. cbn [fmap list_fmap].
    rewrite Z.add_0_r. f_equal. replace (Z.pred (k + 1)) with k by lia.
    change (Z.succ 0) with (1 + 0). rewrite <- (fmap_add_seqZ 1 0 k), <- list_fmap_compose. apply list_fmap_ext.
    intros x y _. simpl. do 2 f_equal. lia. }
  exists (k + 1). rewrite Hub. split_and!; [lia|lia|done|by constructor| |].
  - destruct Hend as [->|He]; [left; lia|right]. by replace (src + i + (k + 1)) with (src + (i + 1) + k) by lia.
  - intros a Ha. destruct (decide (a = src + i)) as [->|]; [done|]. apply Hall. lia.
Qed.


Definition umem_demo : gmap Z Z := list_to_map [(0x5000, 108); (0x5001, 105); (0x5002, 119); (0x5003, 0)].


(** ** Lemmas for callers that copy in pieces *)

Lemma validate_intro s ptr size :
  0 < size -> USER_ADDR_MIN <= ptr -> ptr + size <= USER_ADDR_MAX ->
  (forall a, ptr <= a < ptr + size -> is_Some (walk_user_pt s a true)) -> validate_user_pointer s ptr size = 0.
Proof.
  intros Hs Hmin Hmax Hall. unfold USER_ADDR_MIN, USER_ADDR_MAX, validate_user_pointer in *.
  rewrite (proj2 (Z.eqb_neq size 0)) by lia. cbv zeta. unfold u64. rewrite !Z.mod_small by lia.
  rewrite (proj2 (Z.ltb_ge _ _)), !(proj2 (Z.ltb_ge _ _)) by (unfold USER_ADDR_MIN, USER_ADDR_MAX; lia). cbn [orb].
  rewrite !page_mask. rewrite (proj2 (validate_pages_spec _ _ _)); [done|]. intros i Hi.
  assert (Hn : ptr - ptr mod 4096 + i * 4096 <= ptr + size - 1) by (revert Hi; clear Hall; zlia).
  set (pg := ptr - ptr mod 4096 + i * 4096) in *.
  destruct (Z.le_gt_cases ptr pg) as [Hle|Hgt]; [apply Hall; lia|].
  rewrite (walk_user_pt_page s pg ptr); [apply Hall; lia|]. unfold pg in *. clear Hall. zlia.
Qed.

Lemma user_bytes_app m a n1 n2 :
  0 <= n1 -> 0 <= n2 -> user_bytes m a (n1 + n2) = user_bytes m a n1 ++ user_bytes m (a + n1) n2.
Proof.
  intros H1 H2. unfold user_bytes. rewrite seqZ_app, fmap_app by done. f_equal.
  replace (0 + n1) with (n1 + 0) by lia. rewrite <- (fmap_add_seqZ n1 0 n2). rewrite <- list_fmap_compose.
  apply list_fmap_ext. intros i x _. unfold compose. by rewrite Z.add_assoc.
Qed.

Lemma length_user_bytes m a n : 0 <= n -> length (user_bytes m a n) = Z.to_nat n.
Proof. intros H. unfold user_bytes. by rewrite length_fmap, length_seqZ. Qed.

Lemma write_bytes_app m a l1 l2 :
  write_bytes (write_bytes m a l1) (a + Z.of_nat (length l1)) l2 = write_bytes m a (l1 ++ l2).
Proof.
  apply map_eq. intros k. replace k with (a + Z.of_nat (length l1) + (k - a - Z.of_nat (length l1))) at 1 by lia.
  rewrite lookup_write_bytes. replace (a + Z.of_nat (length l1) + (k - a - Z.of_nat (length l1))) with (a + (k - a)) by lia.
  replace k with (a + (k - a)) at 5 by lia. rewrite !lookup_write_bytes, length_app. unfold nthZ.
  destruct (Z.leb_spec 0 (k - a)), (Z.leb_spec 0 (k - a - Z.of_nat (length l1))),
    (Z.ltb_spec (k - a - Z.of_nat (length l1)) (Z.of_nat (length l2))), (Z.ltb_spec (k - a) (Z.of_nat (length l1))),
    (Z.ltb_spec (k - a) (Z.of_nat (length l1 + length l2))); cbn [andb]; try lia; try done; f_equal.
  - rewrite lookup_app_r by lia. do 2 f_equal. lia.
  - by rewrite lookup_app_l by lia.
Qed.

Lemma write_bytes_nil m a : write_bytes m a [] = m.
Proof. done. Qed.

(** What was written is read back. *)
Lemma user_bytes_write m a l : user_bytes (write_bytes m a l) a (Z.of_nat (length l)) = l.
Proof.
  apply list_eq. intros i. unfold user_bytes. rewrite list_lookup_fmap. destruct (decide (i < length l)%nat) as [Hi|Hi].
  - rewrite lookup_seqZ_lt by lia. cbn [fmap option_fmap option_map]. rewrite lookup_write_bytes. ztest; [|lia].
    cbn [default]. unfold nthZ. destruct (lookup_lt_is_Some_2 l i Hi) as [b Hb].
    replace (Z.to_nat (0 + Z.of_nat i)) with i by lia. by rewrite Hb.
  - rewrite lookup_seqZ_ge, (lookup_ge_None_2 l) by lia. done.
Qed.
