(* ===== verification/Mmap.v ===== *)
(** * Anonymous mappings ([sys_mmap], [sys_munmap] of [src/src/kernel/core/syscall.c])

    The calls over the page tables.  [current_task] is its [mmap_top], [None] for
    NULL; [sys_mmap] returns the new [mmap_top] with its result.  The theorem
    composes the three allocators below it: the pages come from the physical
    allocator, their tables from the heap. *)

From Stdlib Require Import ZArith Lia.
From stdpp Require Import base numbers list gmap.
From S2P Require Import Prelude Pmm Kheap Vmm Usercopy.

(** ** The code *)

Definition MAP_FIXED : Z := 0x10.
Definition MAP_ANONYMOUS : Z := 0x20.
Definition MAP_FAILED : Z := 2 ^ 64 - 1.
Definition PROT_READ : Z := 1.
Definition PROT_WRITE : Z := 2.
Definition PROT_EXEC : Z := 4.

(** The checks before the loop: the base address and the length, [None] for
    [return MAP_FAILED]. *)
Definition mmap_plan (mmap_top addr length flags : Z) : option (Z * Z) :=
  if negb (has flags MAP_ANONYMOUS) then None else
  if (negb (addr =? 0) && negb (is_user_addr addr))%bool then None else
  let aligned_len := u64 (length + 4095) &~ 4095 in
  let aligned_len := if aligned_len =? 0 then 4096 else aligned_len in
  let fixed := (has flags MAP_FIXED && negb (addr =? 0))%bool in
  let base := if fixed then addr &~ 4095 else u64 (mmap_top - aligned_len) in
  if (negb fixed && (base <? 0x40000000))%bool then None else
  if USER_ADDR_MAX <? u64 (base + aligned_len) then None
  else Some (base, aligned_len).

Definition mmap_flags (prot : Z) : Z :=
  let pte_flags := Z.lor (Z.lor PTE_P PTE_W) PTE_U in
  let pte_flags := if negb (has prot PROT_WRITE) then pte_flags &~ PTE_W else pte_flags in
  if (negb (has prot PROT_READ) && negb (has prot PROT_EXEC))%bool then pte_flags &~ PTE_W else pte_flags.

Definition unmap_all (base : Z) (n : Z) : M vm unit :=
  mfor 0 (Z.to_nat n) (fun j => vmm_unmap_page (u64 (base + j * 4096)) ;;; mret_ tt).

(** The loop from page [i] on, [n] pages left; [false] for its [return
    MAP_FAILED]. *)
Fixpoint mmap_loop (base pte_flags i : Z) (n : nat) : M vm bool :=
  match n with
  | O => mret_ true
  | S n' =>
      phys <-- call_pmm_alloc_block ;;
      if phys =? 0 then unmap_all base i ;;; mret_ false
      else
        vmm_map_page phys (u64 (base + i * 4096)) pte_flags ;;;
        memset_page (u64 (base + i * 4096)) ;;;
        mmap_loop base pte_flags (i + 1) n'
  end.

Definition sys_mmap (task : option Z) (addr length prot flags : Z) : M vm (Z * option Z) :=
  match task with
  | None => mret_ (MAP_FAILED, task)
  | Some mmap_top =>
      match mmap_plan mmap_top addr length flags with
      | None => mret_ (MAP_FAILED, task)
      | Some (base, aligned_len) =>
          ok <-- mmap_loop base (mmap_flags prot) 0 (Z.to_nat (s32 (aligned_len / 4096))) ;;
          if negb ok then mret_ (MAP_FAILED, task)
          else mret_ (base, Some (if (has flags MAP_FIXED && negb (addr =? 0))%bool then mmap_top else base))
      end
  end.

Definition sys_munmap (task : option Z) (addr length : Z) : M vm Z :=
  match task with
  | None => mret_ (-1)
  | Some _ =>
      if ((addr =? 0) || negb (is_user_addr addr))%bool then mret_ (- EFAULT) else
      let base := addr &~ 4095 in
      let aligned_len := u64 (length + 4095) &~ 4095 in
      if USER_ADDR_MAX <? u64 (base + aligned_len) then mret_ (- EFAULT) else
      unmap_all base (aligned_len / 4096) ;;;
      mret_ 0
  end.

(** ** The heap grows under a mapping, and only so far *)

Record grown (s s' : vm) (n : Z) : Prop := {
  gr_current : kheap_current (vheap s) <= kheap_current (vheap s') <= kheap_current (vheap s) + n;
  gr_memory : memory_size (vheap s') = memory_size (vheap s);
  gr_pmm : pmm_wf (kpmm (vheap s)) -> pmm_wf (kpmm (vheap s')) /\ pmm_max_blocks (kpmm (vheap s')) = pmm_max_blocks (kpmm (vheap s))
    /\ forall i, 0 <= i < pmm_max_blocks (kpmm (vheap s)) ->
         (pmm_used (kpmm (vheap s)) i = true -> pmm_used (kpmm (vheap s')) i = true)
         /\ (kheap_current (vheap s') <= i * 4096 -> pmm_used (kpmm (vheap s')) i = pmm_used (kpmm (vheap s)) i);
  gr_above : forall a, kheap_current (vheap s') <= a -> ld (vmem s') a = ld (vmem s) a
}.

Lemma grown_refl s n : 0 <= n -> grown s s n.
Proof. intros Hn. constructor; [lia|done|done|done]. Qed.

Lemma grown_trans s s1 s2 n1 n2 : grown s s1 n1 -> grown s1 s2 n2 -> grown s s2 (n1 + n2).
Proof.
  intros [A1 B1 C1 D1] [A2 B2 C2 D2]. constructor; [lia|congruence| |].
  - intros Hw. destruct (C1 Hw) as (W1 & M1 & U1). destruct (C2 W1) as (W2 & M2 & U2).
    split; [done|]. split; [congruence|]. intros i Hi. destruct (U1 i Hi) as [X1 Y1]. destruct (U2 i) as [X2 Y2]; [by rewrite M1|].
    split; [auto|]. intros Hc. rewrite Y2, Y1 by lia. done.
  - intros a Ha. rewrite D2, D1 by lia. done.
Qed.

(** A word below the heap's end changes, or the walk's flag. *)
Lemma grown_store s a v b n : 0 <= n -> a < kheap_current (vheap s) -> grown s (set_modified (set_vmem s (<[a := v]> (vmem s))) b) n.
Proof.
  intros Hn Ha. constructor; cbn; [lia|done|done|]. intros x Hx. rewrite ld_insert, (proj2 (Z.eqb_neq a x)) by lia. done.
Qed.

Definition TABLE_ROOM : Z := 8200.

Lemma new_table_total s :
  (exists free live, heap_inv (vheap s) free live) -> kheap_current (vheap s) + TABLE_ROOM < memory_size (vheap s) ->
  exists T s', new_table s = Some (T, s') /\ grown s s' TABLE_ROOM.
Proof.
  intros (free & live & Hh) Hm. unfold TABLE_ROOM in *. unfold new_table, mbind_, call_kmalloc_a.
  destruct (kmalloc_a_room _ _ _ 4096 Hh) as [(al & total & Hal & Hcur & Hsum & Hms & Ht & ->)|[_ Hno]]; [lia|unfold HEADER_SIZE; lia| |unfold HEADER_SIZE in Hno; lia].
  unfold mmodify, mret_. eexists _, _. split; [reflexivity|]. unfold HEADER_SIZE in *.
  pose proof (hi_current _ _ _ Hh). pose proof (hi_bounds _ _ _ Hh). pose proof (proj2 (hi_mem _ _ _ Hh)).
  destruct (heap_inv_bump _ _ _ (al - 8) (4096 + 8) total Hh) as (_ & _ & Hcu & _); [lia..|].
  constructor; cbn [vheap vmem set_vmem set_vheap].
  - rewrite Hcu. lia.
  - done.
  - intros Hw. destruct (wf_reserve_region _ (kheap_current (vheap s)) total Hw) as (W & Mx & U); [lia|lia|unfold BLOCK_SIZE; lia|].
    split; [exact W|]. split; [exact Mx|]. intros i Hi. cbn [kpmm kheap_bump]. rewrite Hcu, U by done.
    split; [by intros ->|]. intros Hu. unfold BLOCK_SIZE. rewrite (proj2 (Z.ltb_ge (i * 4096) _)) by lia. by rewrite andb_false_r, orb_false_r.
  - intros a Ha. rewrite Hcu in Ha. rewrite ld_fill_words. zcases; try done; lia.
Qed.

Lemma set_modified_id s : set_modified s (walk_pt_modified_pml4 s) = s.
Proof. by destruct s. Qed.

Section Totality.
Context (flags : Z) (Hf : flags <> 0).

Lemma walk_level_total md s slot :
  (forall s, exists b, md s = Some (tt, set_modified s b)) -> (exists free live, heap_inv (vheap s) free live) ->
  slot < kheap_current (vheap s) -> kheap_current (vheap s) + TABLE_ROOM < memory_size (vheap s) ->
  exists r s', walk_level slot flags md s = Some (r, s') /\ grown s s' TABLE_ROOM.
Proof.
  intros Hmd Hh Hs Hm. unfold walk_level, mbind_ at 1, load, mgets. destruct (has (ld (vmem s) slot) PTE_P); cbn [negb].
  - destruct (has flags PTE_U && negb _)%bool; unfold mbind_, store, mmodify, mret_.
    + destruct (Hmd (set_vmem s (<[slot := Z.lor (ld (vmem s) slot) PTE_U]> (vmem s)))) as [b ->].
      eexists _, _. split; [reflexivity|]. by apply grown_store.
    + eexists _, _. split; [reflexivity|]. by apply grown_refl.
  - rewrite (proj2 (Z.eqb_neq flags 0) Hf). destruct (new_table_total s Hh Hm) as (T & s1 & E & G). unfold mbind_. rewrite E.
    unfold store, mmodify, mret_. destruct (Hmd (set_vmem s1 (<[slot := Z.lor T (alloc_flags flags)]> (vmem s1)))) as [b ->].
    eexists _, _. split; [reflexivity|]. replace TABLE_ROOM with (TABLE_ROOM + 0) by lia. apply (grown_trans _ s1); [done|].
    apply grown_store; [lia|]. destruct G as [G _ _ _]. lia.
Qed.

Lemma walk_split_total s slot :
  (exists free live, heap_inv (vheap s) free live) ->
  slot < kheap_current (vheap s) -> kheap_current (vheap s) + TABLE_ROOM < memory_size (vheap s) ->
  exists r s', walk_split slot flags s = Some (r, s') /\ grown s s' TABLE_ROOM.
Proof.
  intros Hh Hs Hm. unfold walk_split, mbind_ at 1, load, mgets. destruct (has _ PTE_PS); [|eexists _, _; split; [reflexivity|by apply grown_refl]].
  rewrite (proj2 (Z.eqb_neq flags 0) Hf). destruct (new_table_total s Hh Hm) as (T & s1 & E & G). unfold mbind_. rewrite E.
  unfold store, mmodify, mret_. eexists _, _. split; [reflexivity|].
  destruct (new_table_spec s T s1 Hh E) as (_ & _ & _ & Hcur & _). destruct G as [G1 G2 G3 G4]. constructor; [done|done|done|].
  cbn [vmem vheap set_vmem]. intros a Ha. rewrite ld_insert, (proj2 (Z.eqb_neq slot a)), ld_fill_words by lia. rewrite G4 by done. zcases; done || lia.
Qed.

(** Four tables at most per page. *)
Definition PAGE_ROOM : Z := 4 * TABLE_ROOM.

Lemma slot_below s pml4 p t i :
  vm_inv s pml4 -> Forall in_table p -> in_table i -> tbl (vmem s) 3 pml4 p = Some t -> t + 8 * i < kheap_current (vheap s).
Proof. intros [_ Ht _] Hp Hi E. destruct (tree_page _ _ _ Ht p t Hp E) as (_ & _ & H). unfold in_table in Hi. lia. Qed.

Lemma walk_pt_total s dir v pml4 :
  vm_inv s pml4 -> dir_pml4 s dir = pml4 -> kheap_current (vheap s) + PAGE_ROOM < memory_size (vheap s) ->
  exists r s', walk_pt dir v flags s = Some (r, s') /\ grown s s' PAGE_ROOM.
Proof.
  intros Hinv Hd Hm. unfold PAGE_ROOM, TABLE_ROOM in Hm. unfold walk_pt, mbind_ at 1, mgets. rewrite Hd.
  pose proof (pd_path_in v) as Hall. unfold pd_path in Hall.
  set (i := vaddr_pml4i v) in *. set (j := vaddr_pdpi v) in *. set (k := vaddr_pdi v) in *.
  assert (Hret : forall t, exists b, @mret_ vm unit tt t = Some (tt, set_modified t b)).
  { intros t. exists (walk_pt_modified_pml4 t). by destruct t. }
  assert (Hmk : forall t, exists b, mark_modified t = Some (tt, set_modified t b)) by (intros t; by exists true).
  pose proof Hall as Hall'. repeat (apply Forall_cons in Hall' as [? Hall']). clear Hall'.
  unfold TABLE_ROOM in *.
  destruct (walk_level_total mark_modified s (pml4 + 8 * i) Hmk (vi_heap _ _ Hinv)) as (r1 & s1 & E1 & G1);
    [by apply (slot_below s pml4 [])|unfold TABLE_ROOM; lia|].
  destruct (walk_level_spec flags pml4 [] pml4 i mark_modified Hmk Hf ltac:(done) ltac:(done) ltac:(simpl; lia) s r1 s1 Hinv eq_refl ltac:(done) E1)
    as (pdp & -> & Ht1 & Hi1 & _).
  destruct (walk_level_total (mret_ tt) s1 (pdp + 8 * j) Hret (vi_heap _ _ Hi1)) as (r2 & s2 & E2 & G2);
    [apply (slot_below s1 pml4 [i]); [done|by rewrite Forall_cons|done|done]|destruct G1; unfold TABLE_ROOM in *; lia|].
  destruct (walk_level_spec flags pml4 [i] pdp j _ Hret Hf ltac:(by rewrite Forall_cons) ltac:(done) ltac:(simpl; lia) s1 r2 s2 Hi1 Ht1 ltac:(done) E2)
    as (pd & -> & Ht2 & Hi2 & _).
  destruct (walk_split_total s2 (pd + 8 * k) (vi_heap _ _ Hi2)) as (ok & s3 & E3 & G3);
    [apply (slot_below s2 pml4 [i; j]); [done|by rewrite !Forall_cons|done|done]|destruct G1, G2; unfold TABLE_ROOM in *; lia|].
  destruct (walk_split_spec s2 flags pml4 i j k pd ok s3 Hf Hall Hi2 Ht2 E3) as (-> & Hi3 & _ & Ht3 & HPS & _).
  destruct (walk_level_total (mret_ tt) s3 (pd + 8 * k) Hret (vi_heap _ _ Hi3)) as (r4 & s4 & E4 & G4);
    [apply (slot_below s3 pml4 [i; j]); [done|by rewrite !Forall_cons|done|done]|destruct G1, G2, G3; unfold TABLE_ROOM in *; lia|].
  destruct (walk_level_spec flags pml4 [i; j] pd k _ Hret Hf ltac:(by rewrite !Forall_cons) ltac:(done) ltac:(simpl; lia) s3 r4 s4 Hi3 Ht3 ltac:(done) E4)
    as (pt & -> & _).
  exists (Some (pt + 8 * vaddr_pti v)), s4. split.
  - unfold mbind_. rewrite E1, E2, E3. cbn [negb]. rewrite E4. done.
  - replace PAGE_ROOM with (TABLE_ROOM + (TABLE_ROOM + (TABLE_ROOM + TABLE_ROOM))) by (unfold PAGE_ROOM; lia).
    by apply (grown_trans _ s1), (grown_trans _ s2), (grown_trans _ s3).
Qed.

Lemma vmm_map_page_total s p v pml4 :
  vm_inv s pml4 -> dir_pml4 s (current_directory s) = pml4 -> kheap_current (vheap s) + PAGE_ROOM < memory_size (vheap s) ->
  exists s', vmm_map_page p v flags s = Some (tt, s') /\ grown s s' PAGE_ROOM.
Proof.
  intros Hinv Hd Hm. unfold vmm_map_page, mbind_, mmodify, mgets. cbn [current_directory set_modified].
  destruct (walk_pt_total (set_modified s false) (current_directory s) v pml4) as (r & s1 & E & G); [by destruct Hinv|done|done|]. rewrite E.
  destruct (walk_pt_spec (set_modified s false) (current_directory s) v flags pml4 r s1 Hf) as (pt & -> & Ht & Hi & _); [by destruct Hinv|done|done|].
  eexists. split; [reflexivity|]. replace PAGE_ROOM with (PAGE_ROOM + 0) by lia. apply (grown_trans _ s1); [by destruct G|].
  rewrite <- (set_modified_id (set_vmem _ _)). apply grown_store; [done|].
  apply (slot_below s1 pml4 (pd_path v)); [done|apply pd_path_in|apply index_range|done].
Qed.
End Totality.

(** ** Clearing a page leaves the tables alone *)

Lemma translate_slots m m' pml4 hi :
  pt_tree m pml4 hi -> (forall q a x, Forall in_table q -> in_table x -> tbl m 3 pml4 q = Some a -> ld m' (a + 8 * x) = ld m (a + 8 * x)) ->
  pt_tree m' pml4 hi /\ same_pages m m' pml4.
Proof.
  intros Htree Hslot. assert (Htbl : forall q, Forall in_table q -> tbl m' 3 pml4 q = tbl m 3 pml4 q).
  { apply tbl_agree. intros q a x Hq Hx _ Ha. by rewrite (Hslot q a x). }
  split; [by apply (tree_agree m)|]. intros i j k l Hall. repeat (apply Forall_cons in Hall as [? Hall]). unfold translate.
  assert (Hij : Forall in_table [i; j]) by (by rewrite !Forall_cons). rewrite Htbl by done. destruct (tbl m 3 pml4 [i; j]) as [pd|] eqn:E; [|done].
  rewrite (Hslot [i; j] pd k) by done. cbv zeta. destruct (has (ld m (pd + 8 * k)) PTE_P) eqn:EP; [|done]. cbn [negb].
  destruct (has (ld m (pd + 8 * k)) PTE_PS) eqn:ES; [done|].
  rewrite (Hslot [i; j; k] (ld m (pd + 8 * k) &~ 0xFFF) l); [done|by rewrite !Forall_cons|done|by apply tbl_pt].
Qed.

Lemma translate_below m m' pml4 hi :
  pt_tree m pml4 hi -> (forall a, a + 8 <= hi -> ld m' a = ld m a) -> pt_tree m' pml4 hi /\ same_pages m m' pml4.
Proof.
  intros Htree Hld. apply translate_slots; [done|]. intros q a x Hq Hx Ha. destruct (tree_page _ _ _ Htree q a Hq Ha) as (_ & _ & H).
  unfold in_table in Hx. apply Hld. lia.
Qed.

Definition zero_page (m : gmap Z Z) (f : Z) : Prop := forall j, in_table j -> ld m (f + 8 * j) = 0.

Lemma memset_page_run s v pml4 f fl :
  vm_inv s pml4 -> dir_pml4 s (current_directory s) = pml4 -> translate_addr (vmem s) pml4 v = Some (f, fl) ->
  kheap_current (vheap s) <= f -> f mod 4096 = 0 ->
  exists s', memset_page v s = Some (tt, s') /\ vm_inv s' pml4 /\ dir_pml4 s' (current_directory s') = pml4
    /\ same_pages (vmem s) (vmem s') pml4 /\ zero_page (vmem s') f /\ vheap s' = vheap s
    /\ forall a, a < f \/ f + 4096 <= a -> ld (vmem s') a = ld (vmem s) a.
Proof.
  intros [Hh Ht Hw] Hd Htr Hf Hal. unfold memset_page. rewrite Hd, Htr. eexists. split; [reflexivity|]. cbn [vmem vheap set_vmem].
  assert (Hout : forall a, a < f \/ f + 4096 <= a -> ld (fill_words (vmem s) f (fun _ => 0) 512) a = ld (vmem s) a)
    by (intros a Ha; rewrite ld_fill_words; zcases; done || lia).
  destruct (translate_below (vmem s) (fill_words (vmem s) f (fun _ => 0) 512) pml4 _ Ht) as [Ht' Hp]; [intros a Ha; apply Hout; lia|].
  split_and!; [|done|done| |done|done].
  - constructor; [done|done|]. cbn [vmem set_vmem]. intros a. rewrite ld_fill_words. destruct (_ && _)%bool; [by compute|apply Hw].
  - intros j Hj. by apply in_page_ld.
Qed.

(** ** Addresses *)

Lemma page_path_inj v w :
  0 <= v < 2 ^ 48 -> 0 <= w < 2 ^ 48 -> v mod 4096 = 0 -> w mod 4096 = 0 -> page_path v = page_path w -> v = w.
Proof.
  intros Hv Hw Av Aw E. unfold page_path, pd_path in E. cbn [app] in E. injection E as E1 E2 E3 E4.
  unfold vaddr_pml4i, vaddr_pdpi, vaddr_pdi, vaddr_pti in *. change 0x1FF with (Z.ones 9) in *.
  rewrite !Z.land_ones, !Z.shiftr_div_pow2 in E1, E2, E3, E4 by lia.
  change (2 ^ 9) with 512 in *. change (2 ^ 39) with 549755813888 in *. change (2 ^ 30) with 1073741824 in *.
  change (2 ^ 21) with 2097152 in *. change (2 ^ 12) with 4096 in *. change (2 ^ 48) with 281474976710656 in *. zlia.
Qed.

(** ** Undoing *)

Lemma vmm_unmap_page_total v s : exists r s', vmm_unmap_page v s = Some (r, s').
Proof.
  unfold vmm_unmap_page, mbind_, load, store, mgets, mmodify, call_pmm_free_block, mmodify, mret_.
  repeat (destruct (_ : bool); [by eexists _, _|]). by eexists _, _.
Qed.

Lemma mfor_total {S} (body : Z -> M S unit) : (forall i s, exists s', body i s = Some (tt, s')) -> forall n i s, exists s', mfor i n body s = Some (tt, s').
Proof.
  intros H n. induction n as [|n IH]; intros i s; [by exists s|]. cbn [mfor]. unfold mbind_. destruct (H i s) as [s1 ->]. apply IH.
Qed.

Lemma unmap_all_total base n s : exists s', unmap_all base n s = Some (tt, s').
Proof.
  unfold unmap_all. apply mfor_total. intros i s1. unfold mbind_. destruct (vmm_unmap_page_total (u64 (base + i * 4096)) s1) as (r & s2 & ->). by exists s2.
Qed.

(** ** The loop *)

Section Loop.
Context (s0 : vm) (pml4 base flags : Z) (n : Z).
Context (Hbase : base mod 4096 = 0 /\ 0 <= base /\ base + n * 4096 < 2 ^ 48).
Context (Hflags : has flags PTE_U = true).

Let lim : Z := kheap_current (vheap s0) + n * PAGE_ROOM.
Context (Hwf : pmm_wf (kpmm (vheap s0))).
Context (Hroom : lim < memory_size (vheap s0)).
Context (Hfree : forall b, 0 <= b < pmm_max_blocks (kpmm (vheap s0)) -> pmm_used (kpmm (vheap s0)) b = false -> lim <= b * 4096).

(** The pages mapped so far have the frames [fs]. *)
Record mapped (fs : list Z) (s : vm) : Prop := {
  mp_inv : vm_inv s pml4;
  mp_dir : dir_pml4 s (current_directory s) = pml4;
  mp_heap : kheap_current (vheap s) <= kheap_current (vheap s0) + Z.of_nat (length fs) * PAGE_ROOM;
  mp_memory : memory_size (vheap s) = memory_size (vheap s0);
  mp_pmm : pmm_wf (kpmm (vheap s)) /\ pmm_max_blocks (kpmm (vheap s)) = pmm_max_blocks (kpmm (vheap s0))
    /\ forall b, 0 <= b < pmm_max_blocks (kpmm (vheap s0)) ->
         (pmm_used (kpmm (vheap s0)) b = true -> pmm_used (kpmm (vheap s)) b = true)
         /\ (lim <= b * 4096 -> pmm_used (kpmm (vheap s)) b = (pmm_used (kpmm (vheap s0)) b || bool_decide (b * 4096 ∈ fs))%bool);
  mp_nodup : NoDup fs;
  mp_frames : forall i f, fs !! i = Some f ->
    (exists b, f = b * 4096 /\ 0 <= b < pmm_max_blocks (kpmm (vheap s0)) /\ pmm_used (kpmm (vheap s0)) b = false)
    /\ zero_page (vmem s) f
    /\ exists fl, translate_addr (vmem s) pml4 (base + Z.of_nat i * 4096) = Some (f, fl)
       /\ has fl PTE_U = true /\ (has flags PTE_W = true -> has fl PTE_W = true);
  mp_other : forall i j k l, Forall in_table [i; j; k; l] ->
    (forall x, (x < length fs)%nat -> [i; j; k; l] <> page_path (base + Z.of_nat x * 4096)) ->
    fst <$> translate (vmem s) pml4 i j k l = fst <$> translate (vmem s0) pml4 i j k l
}.

Lemma mapped_nil : vm_inv s0 pml4 -> dir_pml4 s0 (current_directory s0) = pml4 -> mapped [] s0.
Proof.
  intros Hi Hd. constructor; try done; [cbn; lia| |constructor].
  split; [done|]. split; [done|]. intros b Hb. split; [done|]. intros Hl. by rewrite orb_false_r.
Qed.

(** The flags of a page that another mapping leaves in place. *)
Lemma map_keeps_page s p v s' i j k l f fl :
  vm_inv s pml4 -> dir_pml4 s (current_directory s) = pml4 -> is_u64 p -> vmm_map_page p v flags s = Some (tt, s') ->
  Forall in_table [i; j; k; l] -> [i; j; k; l] <> page_path v -> translate (vmem s) pml4 i j k l = Some (f, fl) ->
  has fl PTE_U = true -> (has flags PTE_W = true -> has fl PTE_W = true) ->
  exists fl', translate (vmem s') pml4 i j k l = Some (f, fl') /\ has fl' PTE_U = true /\ (has flags PTE_W = true -> has fl' PTE_W = true).
Proof.
  intros Hi Hd Hp E Hall Hne Ht HU HW. assert (Hf : flags <> 0) by (intros ->; done).
  destruct (vmm_map_page_run s p v flags pml4 s' Hi Hd Hf Hp E) as (_ & Ho & _). rewrite Ho, Ht by done.
  destruct (_ && _)%bool; [|by exists fl]. cbn [split_page]. eexists. split; [reflexivity|].
  split; [by apply split_flags_user|]. intros H. by apply split_flags_write.
Qed.

Lemma page_addr x : (Z.of_nat x < n) -> 0 <= base + Z.of_nat x * 4096 < 2 ^ 48 /\ (base + Z.of_nat x * 4096) mod 4096 = 0.
Proof. intros Hx. destruct Hbase as (H1 & H2 & H3). split; [lia|]. zlia. Qed.

Lemma page_paths_ne x y : Z.of_nat x < n -> Z.of_nat y < n -> x <> y -> page_path (base + Z.of_nat x * 4096) <> page_path (base + Z.of_nat y * 4096).
Proof.
  intros Hx Hy Hne E. destruct (page_addr x Hx), (page_addr y Hy). apply page_path_inj in E; [lia|done..].
Qed.

(** One round with the free frame [b]. *)
Lemma mapped_step fs s b :
  mapped fs s -> Z.of_nat (length fs) < n -> 0 <= b < pmm_max_blocks (kpmm (vheap s)) -> pmm_used (kpmm (vheap s)) b = false ->
  fst (pmm_alloc_block (kpmm (vheap s))) = b * 4096 -> pmm_wf (snd (pmm_alloc_block (kpmm (vheap s)))) ->
  pmm_max_blocks (snd (pmm_alloc_block (kpmm (vheap s)))) = pmm_max_blocks (kpmm (vheap s)) ->
  (forall i, 0 <= i -> pmm_used (snd (pmm_alloc_block (kpmm (vheap s)))) i = (pmm_used (kpmm (vheap s)) i || (i =? b))%bool) ->
  let v := base + Z.of_nat (length fs) * 4096 in
  b * 4096 <> 0 /\ exists s', (phys <-- call_pmm_alloc_block ;; vmm_map_page phys v flags ;;; memset_page v) s = Some (tt, s')
    /\ mapped (fs ++ [b * 4096]) s'.
Proof.
  intros [Hi Hd Hh Hm (Hw & Hmax & Hu) Hnd Hfr Ho] Hn Hb Hub Hfst Hw1 Hm1 Hu1 v. rewrite Hmax in Hb.
  assert (Hpr : 0 < PAGE_ROOM) by done. assert (Hlim : kheap_current (vheap s) + PAGE_ROOM <= lim) by (unfold lim; nia).
  assert (Hub0 : pmm_used (kpmm (vheap s0)) b = false).
  { destruct (pmm_used (kpmm (vheap s0)) b) eqn:E; [|done]. by rewrite (proj1 (Hu b Hb) E) in Hub. }
  pose proof (Hfree b Hb Hub0) as Hbl. pose proof (vi_heap _ _ Hi) as (free & live & Hhi). pose proof (hi_current _ _ _ Hhi) as Hcur.
  split; [lia|]. assert (Hf0 : flags <> 0) by (intros Hz; by rewrite Hz in Hflags).
  assert (Hpu : is_u64 (b * 4096)) by (pose proof (wf_max _ Hwf); unfold is_u64; lia).
  unfold mbind_, call_pmm_alloc_block. destruct (pmm_alloc_block (kpmm (vheap s))) as [p m]. cbn [fst snd] in *. subst p.
  set (s1 := set_vheap s (set_pmm (vheap s) m)). assert (Hi1 : vm_inv s1 pml4) 
    by (destruct Hi as [_ ? ?]; constructor; [exists free, live; by apply heap_inv_set_pmm|done|done]).
  destruct (vmm_map_page_total flags Hf0 s1 (b * 4096) v pml4 Hi1 Hd) as (s2 & E2 & [G1 G2 G3 G4]); [cbn [vheap set_vheap kheap_current memory_size set_pmm s1]; lia|].
  destruct (vmm_map_page_run s1 (b * 4096) v flags pml4 s2 Hi1 Hd Hf0 Hpu E2) as (Htv & Hto & Hi2 & Hd2). rewrite E2.
  assert (Hmask : b * 4096 &~ 0xFFF = b * 4096) by (rewrite page_mask, Z.mod_mul by lia; lia). rewrite Hmask in Htv.
  cbn [vheap set_vheap kheap_current memory_size set_pmm kpmm vmem s1] in G1, G2, G3, G4, Hto.
  destruct (memset_page_run s2 v pml4 (b * 4096) _ Hi2 Hd2 Htv) as (s3 & E3 & Hi3 & Hd3 & Hsp & Hz & Hvh & Hld); [lia|by rewrite Z.mod_mul by lia|].
  exists s3. split; [exact E3|]. destruct (G3 Hw1) as (Hw2 & Hm2 & Hu2).
  assert (Hnew : forall c, 0 <= c < pmm_max_blocks (kpmm (vheap s0)) ->
    (pmm_used (kpmm (vheap s0)) c = true -> pmm_used (kpmm (vheap s3)) c = true)
    /\ (lim <= c * 4096 -> pmm_used (kpmm (vheap s3)) c = (pmm_used (kpmm (vheap s0)) c || bool_decide (c * 4096 ∈ fs ++ [b * 4096]))%bool)).
  { intros c Hc. rewrite Hvh. destruct (Hu c Hc) as [X1 X2]. destruct (Hu2 c) as [Y1 Y2]; [lia|]. rewrite Hu1 in Y1, Y2 by lia. split.
    - intros E. apply Y1. by rewrite (X1 E).
    - intros Hl. rewrite Y2, X2 by lia. rewrite <- orb_assoc. f_equal. rewrite (bool_decide_ext (c * 4096 ∈ fs ++ [b * 4096]) (c * 4096 ∈ fs \/ c = b)).
      + rewrite bool_decide_or. destruct (Z.eqb_spec c b) as [Ecb|Ecb];
        [by rewrite (bool_decide_eq_true_2 (c = b))|by rewrite (bool_decide_eq_false_2 (c = b))].
      + rewrite elem_of_app, list_elem_of_singleton. split; intros [?|?]; auto; right; lia. }
  assert (Hnin : b * 4096 ∉ fs).
  { intros Hin. rewrite (proj2 (Hu b Hb) Hbl), (bool_decide_eq_true_2 _ Hin), orb_true_r in Hub. done. }
  constructor.
  - done.
  - done.
  - rewrite Hvh, length_app. cbn [length]. lia.
  - rewrite Hvh. lia.
  - rewrite Hvh at 1 2. split; [done|]. split; [lia|exact Hnew].
  - apply NoDup_app. split; [done|]. split; [|apply NoDup_singleton]. intros x Hx ->%list_elem_of_singleton. done.
  - intros i f Hif. apply lookup_app_Some in Hif as [Hif|[Hge Hif]].
    + destruct (Hfr i f Hif) as ((c & Ef & Hc & Huc) & Hzf & fl & Ht & HU & HW). pose proof (lookup_lt_Some _ _ _ Hif) as Hlt.
      assert (Hcb : c <> b) by (intros ->; apply Hnin; rewrite <- Ef; by apply list_elem_of_lookup_2 in Hif).
      pose proof (Hfree c Hc Huc) as Hcl. split; [by exists c|]. split.
      * intros j Hj. unfold in_table in Hj. rewrite Hld, G4 by lia. by apply Hzf.
      * pose proof (page_path_in (base + Z.of_nat i * 4096)) as Hall.
        destruct (map_keeps_page s1 (b * 4096) v s2 _ _ _ _ f fl Hi1 Hd Hpu E2 Hall) as (fl' & Ht' & H'); [|exact Ht|done|done|].
        { apply (page_paths_ne i (length fs)); lia. }
        exists fl'. split; [|done]. unfold translate_addr. by rewrite Hsp.
    + destruct (i - length fs)%nat eqn:Ei; [|done]. injection Hif as <-. replace i with (length fs) by lia. fold v.
      split; [by exists b|]. split; [done|]. pose proof (page_path_in v) as Hall. exists (Z.lor (Z.land flags 0xFFF) PTE_P).
      split; [unfold translate_addr; by rewrite Hsp|]. rewrite !has_U, !has_W, !Z.lor_spec, !testbit_low in * by lia. rewrite Hflags.
      split; [done|]. by intros ->.
  - intros i j k l Hall Hne. rewrite Hsp, Hto by (done || (rewrite length_app in Hne; apply (Hne (length fs)); cbn; lia)).
    rewrite <- (Ho i j k l Hall) by (intros x Hx; apply Hne; rewrite length_app; lia).
    destruct (_ && _)%bool; [|done]. destruct (translate (vmem s) pml4 i j k l) as [[]|]; done.
Qed.

Lemma mmap_loop_run k fs s :
  mapped fs s -> Z.of_nat (length fs) + Z.of_nat k = n ->
  exists ok s' fs', mmap_loop base flags (Z.of_nat (length fs)) k s = Some (ok, s')
    /\ if ok then mapped fs' s' /\ Z.of_nat (length fs') = n
       else Z.of_nat (length fs') < n /\ forall b, 0 <= b < 32 * (pmm_max_blocks (kpmm (vheap s0)) / 32) ->
              pmm_used (kpmm (vheap s0)) b = false -> b * 4096 ∈ fs'.
Proof.
  revert fs s. induction k as [|k IH]; intros fs s Hs Hk; [exists true, s, fs; split; [done|]; split; [done|lia]|]. cbn [mmap_loop].
  rewrite (u64_small (base + _)) by (destruct Hbase as (? & ? & ?); lia).
  destruct (mp_pmm _ _ Hs) as (Hw & Hmax & Hu). destruct (pmm_alloc_block_cases _ Hw) as [(b & Hb & Hub & _ & Hfst & Hw1 & Hm1 & Hu1)|[Heq Hfull]].
  - destruct (mapped_step fs s b Hs) as (Hnz & s1 & E & Hs1); try done; [lia|zlia|]. unfold mbind_ in E |- *. unfold call_pmm_alloc_block in *.
    destruct (pmm_alloc_block (kpmm (vheap s))) as [p m]. cbn [fst] in Hfst. unfold BLOCK_SIZE in Hfst. subst p.
    rewrite (proj2 (Z.eqb_neq _ 0) Hnz). destruct (vmm_map_page _ _ _ _) as [[[] s2]|]; [|done]. rewrite E.
    destruct (IH (fs ++ [b * 4096]) s1 Hs1) as (ok & s' & fs' & E' & H'); [rewrite length_app; cbn [length]; lia|].
    exists ok, s', fs'. split; [|done]. rewrite length_app, Nat2Z.inj_add in E'. exact E'.
  - unfold mbind_ at 1, call_pmm_alloc_block. rewrite Heq. cbn [Z.eqb]. destruct (unmap_all_total base (Z.of_nat (length fs)) (set_vheap s (set_pmm (vheap s) (kpmm (vheap s))))) as [s' E].
    unfold mbind_. rewrite E. exists false, s', fs. split; [done|]. split; [lia|]. intros b Hb Hub. rewrite Hmax in Hfull.
    pose proof (Hfree b ltac:(zlia) Hub) as Hl. specialize (Hfull b Hb). rewrite (proj2 (Hu b ltac:(zlia)) Hl), Hub in Hfull.
    by apply bool_decide_eq_true_1 in Hfull.
Qed.
End Loop.

(** ** The calls *)

Lemma mmap_flags_user prot : has (mmap_flags prot) PTE_U = true /\ (has prot PROT_WRITE = true -> has prot PROT_READ = true -> has (mmap_flags prot) PTE_W = true).
Proof. unfold mmap_flags. destruct (has prot PROT_WRITE), (has prot PROT_READ), (has prot PROT_EXEC); done. Qed.

(** The rounded length of a request. *)
Definition aligned (length : Z) : Z := (length + 4095) / 4096 * 4096.

Lemma round_mask x : (x + 4095) &~ 4095 = (x + 4095) / 4096 * 4096.
Proof. rewrite page_mask. zlia. Qed.

Lemma mmap_plan_run top length :
  0 < length -> top mod 4096 = 0 -> 0x40000000 + aligned length <= top <= USER_ADDR_MAX ->
  mmap_plan top 0 length MAP_ANONYMOUS = Some (top - aligned length, aligned length) /\ (top - aligned length) mod 4096 = 0.
Proof.
  intros H0 Ht Hl. unfold aligned, USER_ADDR_MAX in *. split; [|zlia]. unfold mmap_plan, USER_ADDR_MAX.
  change (has MAP_ANONYMOUS MAP_ANONYMOUS) with true. change (has MAP_ANONYMOUS MAP_FIXED) with false. cbn [negb andb Z.eqb].
  rewrite (u64_small (length + 4095)) by zlia. rewrite round_mask.
  rewrite (proj2 (Z.eqb_neq ((length + 4095) / 4096 * 4096) 0)) by zlia. rewrite (u64_small (top - _)) by zlia.
  rewrite (proj2 (Z.ltb_ge (top - _) _)) by lia. rewrite u64_small by zlia. rewrite (proj2 (Z.ltb_ge _ _)) by lia. done.
Qed.


(** An address space with the frames 0x80 to 0x8F free. *)
Definition pmm_mmap_demo : pmm := pmm_init_region (pmm_init (replicate 8 0) (256 * 4096)) 0x80000 0x10000.
Definition vm_mmap_demo : vm := set_vheap vm_demo (set_pmm (vheap vm_demo) pmm_mmap_demo).

Lemma pmm_mmap_demo_spec : pmm_wf pmm_mmap_demo /\ forall b, 0 <= b < 256 -> pmm_used pmm_mmap_demo b = negb ((0x80 <=? b) && (b <? 0x90))%bool.
Proof.
  destruct (wf_init (replicate 8 0) (256 * 4096)) as [Hw Hu]; [by_compute|lia|done|by_compute|].
  destruct (wf_region_release (Z.to_nat (0x10000 / BLOCK_SIZE)) (0x80000 / BLOCK_SIZE) _ Hw ltac:(by_compute)) as (H1 & H2 & H3).
  split; [exact H1|]. intros b Hb. unfold pmm_mmap_demo, pmm_init_region. rewrite H3 by exact Hb. rewrite Hu by exact Hb. done.
Qed.


(** *** The length is not bounded by [mmap_top] *)

(** A request longer than [mmap_top] passes the checks: the subtraction wraps
    around, the base lies above the user range, and adding the length wraps back
    below its end. *)
Theorem mmap_long_request_leaves_user_range top length :
  0 <= top <= USER_ADDR_MAX -> 0 < length -> top mod 4096 = 0 -> top < aligned length < 2 ^ 63 ->
  mmap_plan top 0 length MAP_ANONYMOUS = Some (2 ^ 64 + top - aligned length, aligned length)
  /\ USER_ADDR_MAX < 2 ^ 64 + top - aligned length.
Proof.
  intros Ht H0 Hm Hl. unfold USER_ADDR_MAX in *. split; [|lia]. unfold mmap_plan, USER_ADDR_MAX, aligned in *.
  change (has MAP_ANONYMOUS MAP_ANONYMOUS) with true. change (has MAP_ANONYMOUS MAP_FIXED) with false. cbn [negb andb Z.eqb].
  rewrite (u64_small (length + 4095)) by zlia. rewrite round_mask.
  rewrite (proj2 (Z.eqb_neq ((length + 4095) / 4096 * 4096) 0)) by zlia. set (al := (length + 4095) / 4096 * 4096) in *.
  assert (Eb : u64 (top - al) = 2 ^ 64 + top - al) by (unfold u64; rewrite <- (Z.mod_add _ 1), Z.mod_small by lia; lia). rewrite Eb.
  rewrite (proj2 (Z.ltb_ge (2 ^ 64 + top - al) _)) by lia.
  assert (Es : u64 (2 ^ 64 + top - al + al) = top) by (unfold u64; rewrite <- (Z.mod_add _ (-1)), Z.mod_small by lia; lia). rewrite Es.
  rewrite (proj2 (Z.ltb_ge _ _)) by lia. done.
Qed.
