(* ===== verification/Bytes.v ===== *)
(** * Byte buffers

    The packed structures of the file system and of the network stack are
    byte buffers that the code reads and writes with [memcpy] at fixed
    offsets.  [sub b off n] reads [n] bytes, [splice b off bs] overwrites them;
    [get16]/[get32] and [put16]/[put32] are the little-endian fields. *)

From Stdlib Require Import ZArith Lia Ascii String.
From stdpp Require Import base numbers list gmap.
From S2P Require Import Prelude.

Definition sub (b : list Z) (off n : nat) : list Z := take n (drop off b).

Definition splice (b : list Z) (off : nat) (bs : list Z) : list Z :=
  take off b ++ bs ++ drop (off + length bs) b.

Definition le_bytes (n : Z) (v : Z) : list Z := Z_to_little_endian n 8 v.
Definition le_value (bs : list Z) : Z := little_endian_to_Z 8 bs.

Definition get16 (b : list Z) (off : nat) : Z := le_value (sub b off 2).
Definition get32 (b : list Z) (off : nat) : Z := le_value (sub b off 4).
Definition put16 (b : list Z) (off : nat) (v : Z) : list Z := splice b off (le_bytes 2 v).
Definition put32 (b : list Z) (off : nat) (v : Z) : list Z := splice b off (le_bytes 4 v).
Definition put8 (b : list Z) (off : nat) (v : Z) : list Z := splice b off [v].
Definition get8 (b : list Z) (off : nat) : Z := b.[Z.of_nat off].

Definition zeros (n : nat) : list Z := replicate n 0.

(** ** C strings

    A string is the list of its bytes up to (not including) its NUL. *)

Fixpoint str (s : string) : list Z :=
  match s with
  | EmptyString => []
  | String a s' => Z.of_nat (nat_of_ascii a) :: str s'
  end.

Fixpoint take_while (f : Z -> bool) (l : list Z) : list Z :=
  match l with
  | [] => []
  | x :: l' => if f x then x :: take_while f l' else []
  end.

(** The string a buffer holds. *)
Definition c_str (b : list Z) : list Z := take_while (fun x => negb (x =? 0)) b.

(** [strcmp(a, b) == 0] *)
Definition strcmp_eq (a b : list Z) : bool := bool_decide (c_str a = c_str b).

Definition no_nul (l : list Z) : Prop := Forall (fun x => x <> 0) l.

Lemma take_while_app f l m : Forall (fun c => f c = true) l -> take_while f (l ++ m) = l ++ take_while f m.
Proof. induction 1 as [|x l Hx _ IH]; simpl; [done|]. by rewrite Hx, IH. Qed.

Lemma take_while_all f l : Forall (fun c => f c = true) l -> take_while f l = l.
Proof. intros H. rewrite <- (app_nil_r l) at 1. rewrite take_while_app by done. apply app_nil_r. Qed.

Lemma take_while_prefix f l rest : Forall (fun c => f c = true) l -> match rest with c :: _ => f c = false | [] => True end ->
  take_while f (l ++ rest) = l.
Proof. intros Hl Hr. rewrite take_while_app by done. destruct rest as [|c rest]; simpl; [|rewrite Hr]; apply app_nil_r. Qed.

Lemma c_str_id l : no_nul l -> c_str l = l.
Proof.
  induction 1 as [|x l Hx _ IH]; [done|]. unfold c_str in *. simpl.
  rewrite (proj2 (Z.eqb_neq x 0) Hx). simpl. by rewrite IH.
Qed.

(** ** Lemmas *)

Lemma length_splice b off bs :
  (off + length bs <= length b)%nat -> length (splice b off bs) = length b.
Proof. intros H. unfold splice. rewrite !length_app, length_take, length_drop. lia. Qed.

Lemma length_sub b off n : (off + n <= length b)%nat -> length (sub b off n) = n.
Proof. intros H. unfold sub. rewrite length_take, length_drop. lia. Qed.

Lemma lookup_splice b off bs i :
  (off + length bs <= length b)%nat ->
  splice b off bs !! i = if decide (off <= i < off + length bs)%nat then bs !! (i - off)%nat else b !! i.
Proof.
  intros H. unfold splice. assert (Hlt : length (take off b) = off) by (rewrite length_take; lia).
  case_decide as Hd.
  - rewrite lookup_app_r by lia. rewrite Hlt, lookup_app_l by lia. done.
  - destruct (decide (i < off)%nat).
    + rewrite lookup_app_l by lia. by rewrite lookup_take_lt by lia.
    + rewrite lookup_app_r by lia. rewrite Hlt, lookup_app_r by lia. rewrite lookup_drop. f_equal. lia.
Qed.

Lemma lookup_sub b off n i : sub b off n !! i = if decide (i < n)%nat then b !! (off + i)%nat else None.
Proof.
  unfold sub. case_decide.
  - rewrite lookup_take_lt by lia. by rewrite lookup_drop.
  - apply lookup_take_ge. lia.
Qed.

Lemma sub_splice_eq b off bs :
  (off + length bs <= length b)%nat -> sub (splice b off bs) off (length bs) = bs.
Proof.
  intros H. apply list_eq. intros i. rewrite lookup_sub. case_decide.
  - rewrite lookup_splice by done. rewrite decide_True by lia. f_equal. lia.
  - symmetry. apply lookup_ge_None_2. lia.
Qed.

Lemma sub_splice_ne b off bs o n :
  (off + length bs <= length b)%nat -> (o + n <= off \/ off + length bs <= o)%nat ->
  sub (splice b off bs) o n = sub b o n.
Proof.
  intros H Hd. apply list_eq. intros i. rewrite !lookup_sub. case_decide; [|done].
  rewrite lookup_splice by done. by rewrite decide_False by lia.
Qed.

Lemma length_le_bytes n v : 0 <= n -> length (le_bytes n v) = Z.to_nat n.
Proof.
  intros H. unfold le_bytes. pose proof (length_Z_to_little_endian n 8 v H). lia.
Qed.

Lemma le_bytes_value n v : 0 <= n -> 0 <= v < 2 ^ (n * 8) -> le_value (le_bytes n v) = v.
Proof.
  intros Hn Hv. unfold le_value, le_bytes. rewrite little_endian_to_Z_to_little_endian by lia.
  apply Z.mod_small. lia.
Qed.

Lemma le_value_bytes bs : Forall is_byte bs -> le_bytes (Z.of_nat (length bs)) (le_value bs) = bs.
Proof. intros H. apply Z_to_little_endian_to_Z; [done|lia|]. exact H. Qed.

Lemma le_value_range bs : Forall is_byte bs -> 0 <= le_value bs < 2 ^ (Z.of_nat (length bs) * 8).
Proof. intros H. apply little_endian_to_Z_bound; [lia|exact H]. Qed.

Lemma le_bytes_bytes n v : 0 <= n -> Forall is_byte (le_bytes n v).
Proof. intros H. apply Z_to_little_endian_bound; lia. Qed.

Lemma Forall_splice (P : Z -> Prop) b off bs : Forall P b -> Forall P bs -> Forall P (splice b off bs).
Proof.
  intros Hb Hbs. unfold splice. rewrite !Forall_app. split_and!; [by apply Forall_take|done|by apply Forall_drop].
Qed.

Lemma Forall_sub (P : Z -> Prop) b off n : Forall P b -> Forall P (sub b off n).
Proof. intros H. by apply Forall_take, Forall_drop. Qed.

Lemma zeros_bytes n : Forall is_byte (zeros n).
Proof. apply Forall_replicate. unfold is_byte. lia. Qed.

(** *** Fields *)

Lemma get32_put32 b off v :
  (off + 4 <= length b)%nat -> is_u32 v -> get32 (put32 b off v) off = v.
Proof.
  intros H Hv. unfold get32, put32. pose proof (length_le_bytes 4 v ltac:(lia)) as Hl.
  replace 4%nat with (length (le_bytes 4 v)) by (rewrite Hl; done).
  rewrite sub_splice_eq by (rewrite Hl; lia). apply le_bytes_value; [lia|exact Hv].
Qed.

Lemma get16_put16 b off v :
  (off + 2 <= length b)%nat -> 0 <= v < 2 ^ 16 -> get16 (put16 b off v) off = v.
Proof.
  intros H Hv. unfold get16, put16. pose proof (length_le_bytes 2 v ltac:(lia)) as Hl.
  replace 2%nat with (length (le_bytes 2 v)) by (rewrite Hl; done).
  rewrite sub_splice_eq by (rewrite Hl; lia). apply le_bytes_value; [lia|exact Hv].
Qed.

Lemma length_put32 b off v : (off + 4 <= length b)%nat -> length (put32 b off v) = length b.
Proof. intros H. apply length_splice. by rewrite length_le_bytes. Qed.
Lemma length_put16 b off v : (off + 2 <= length b)%nat -> length (put16 b off v) = length b.
Proof. intros H. apply length_splice. by rewrite length_le_bytes. Qed.
Lemma length_put8 b off v : (off + 1 <= length b)%nat -> length (put8 b off v) = length b.
Proof. intros H. apply length_splice. simpl. lia. Qed.

Lemma sub_put32_ne b off v o n :
  (off + 4 <= length b)%nat -> (o + n <= off \/ off + 4 <= o)%nat -> sub (put32 b off v) o n = sub b o n.
Proof. intros H Hd. apply sub_splice_ne; rewrite length_le_bytes; lia. Qed.
Lemma sub_put16_ne b off v o n :
  (off + 2 <= length b)%nat -> (o + n <= off \/ off + 2 <= o)%nat -> sub (put16 b off v) o n = sub b o n.
Proof. intros H Hd. apply sub_splice_ne; rewrite length_le_bytes; lia. Qed.

Lemma get32_put32_ne b off v o :
  (off + 4 <= length b)%nat -> (o + 4 <= off \/ off + 4 <= o)%nat -> get32 (put32 b off v) o = get32 b o.
Proof. intros H Hd. unfold get32. by rewrite sub_put32_ne. Qed.

Lemma get8_sub b off : get8 b off = default 0 (sub b off 1 !! 0%nat).
Proof. unfold get8, nthZ. rewrite lookup_sub, decide_True by lia. do 2 f_equal. lia. Qed.

Lemma get8_put8 b off v : (off + 1 <= length b)%nat -> get8 (put8 b off v) off = v.
Proof.
  intros H. rewrite get8_sub. unfold put8. change 1%nat with (length [v]). by rewrite sub_splice_eq.
Qed.
Lemma get8_put8_ne b off v o : (off + 1 <= length b)%nat -> o <> off -> get8 (put8 b off v) o = get8 b o.
Proof. intros H Hne. rewrite !get8_sub. unfold put8. rewrite sub_splice_ne; [done|simpl; lia|simpl; lia]. Qed.
Lemma get8_put32_ne b off v o :
  (off + 4 <= length b)%nat -> (o + 1 <= off \/ off + 4 <= o)%nat -> get8 (put32 b off v) o = get8 b o.
Proof. intros H Hd. rewrite !get8_sub. by rewrite sub_put32_ne. Qed.
Lemma get32_put8_ne b off v o :
  (off + 1 <= length b)%nat -> (o + 4 <= off \/ off + 1 <= o)%nat -> get32 (put8 b off v) o = get32 b o.
Proof. intros H Hd. unfold get32, put8. rewrite sub_splice_ne; [done|simpl; lia|simpl; lia]. Qed.

Lemma get32_range b off : Forall is_byte b -> is_u32 (get32 b off).
Proof.
  intros H. unfold get32. pose proof (Forall_sub is_byte b off 4 H) as Hs.
  pose proof (le_value_range _ Hs) as Hr. assert (Hl : (length (sub b off 4) <= 4)%nat).
  { unfold sub. rewrite length_take. lia. }
  unfold is_u32. assert (2 ^ (Z.of_nat (length (sub b off 4)) * 8) <= 2 ^ 32) by (apply Z.pow_le_mono_r; lia). lia.
Qed.

Lemma Forall_put32 b off v : Forall is_byte b -> Forall is_byte (put32 b off v).
Proof. intros H. apply Forall_splice; [done|by apply le_bytes_bytes]. Qed.
Lemma Forall_put8 b off v : Forall is_byte b -> is_byte v -> Forall is_byte (put8 b off v).
Proof. intros H Hv. apply Forall_splice; [done|by constructor]. Qed.

Create HintDb bytes.
#[export] Hint Resolve Forall_put32 Forall_put8 zeros_bytes : bytes.

(** Lengths of nested field updates. *)
Ltac blen :=
  first [ lia
        | rewrite length_put32; blen | rewrite length_put16; blen | rewrite length_put8; blen
        | rewrite length_splice; blen ].

(** Writing in pieces, and at the end. *)
Lemma splice_twice (d a b : list Z) (off : nat) : (off <= length d)%nat -> splice (splice d off a) (off + length a) b = splice d off (a ++ b).
Proof.
  intros H. unfold splice. rewrite length_app. assert (Hl : length (take off d) = off) by (rewrite length_take; lia).
  rewrite (app_assoc (take off d) a). rewrite take_app_length' by (rewrite length_app; lia).
  rewrite <- !app_assoc. do 3 f_equal. rewrite (app_assoc (take off d) a), drop_app_ge by (rewrite length_app; lia).
  rewrite length_app, Hl, drop_drop. f_equal. lia.
Qed.

Lemma splice_nil (d : list Z) off : splice d off [] = d.
Proof. unfold splice. cbn [length app]. rewrite Nat.add_0_r. apply take_drop. Qed.

Lemma length_splice_grow (d : list Z) off bs : (off <= length d)%nat -> length (splice d off bs) = Nat.max (length d) (off + length bs).
Proof. intros H. unfold splice. rewrite !length_app, length_take, length_drop. lia. Qed.

Lemma sub_splice_grow (d : list Z) off bs : (off <= length d)%nat -> take (length bs) (drop off (splice d off bs)) = bs.
Proof.
  intros H. unfold splice. assert (Hl : length (take off d) = off) by (rewrite length_take; lia).
  rewrite drop_app_length' by done. by rewrite take_app_length.
Qed.

Lemma splice_app_l (a b c : list Z) off : (off + length c <= length a)%nat -> splice (a ++ b) off c = splice a off c ++ b.
Proof.
  intros H. unfold splice. rewrite take_app_le by lia. rewrite drop_app_le by lia. by rewrite <- !app_assoc.
Qed.

Lemma splice_app_r (a b c : list Z) off : splice (a ++ b) (length a + off) c = a ++ splice b off c.
Proof.
  unfold splice. rewrite take_app_ge, drop_app_ge by lia. rewrite <- app_assoc.
  replace (length a + off - length a)%nat with off by lia. by replace (length a + off + length c - length a)%nat with (off + length c)%nat by lia.
Qed.
