(* ===== verification/BlockDev.v ===== *)
(** * Block devices (low-level block I/O of [src/src/fs/sdfs.c])

    The file system and its journal use a device through two calls,
    [sdfs_read_block] and [sdfs_write_block]; [BlockDev] is that interface and
    [BlockDevOk] what its clients rely on.  The two branches of the code are
    two instances: the RAM disk, whose code is in [sdfs.c], and a disk behind a
    sector driver (NVMe, AHCI, ATA), whose driver calls are parameters.  A third
    instance is the RAM disk of a machine that loses power after a given number
    of writes, on which the same code is run to reason about crashes. *)

From Stdlib Require Import ZArith Lia.
From stdpp Require Import base numbers list gmap.
From S2P Require Import Prelude Bytes.

Definition SDFS_BLOCK_SIZE : Z := 4096.
Definition SDFS_SECTOR_SIZE : Z := 512.
Definition SDFS_SECTORS_PER_BLOCK : Z := 8.

Definition is_block (b : list Z) : Prop := length b = 4096%nat /\ Forall is_byte b.

(** [bread d n] is [None] when the call returns -1; [bwrite] returns whether it
    succeeded with the new device state. *)
Class BlockDev (D : Type) := {
  bread : D -> Z -> option (list Z);
  bwrite : D -> Z -> list Z -> bool * D;
  (** the effect of an assignment to [disk_total_blocks], which bounds the RAM
      disk *)
  btotal : D -> Z -> D
}.

(** What clients rely on, for the blocks of [ok]. *)
Class BlockDevOk (D : Type) `{BlockDev D} (ok : D -> Z -> Prop) := {
  bread_ok : forall d n, ok d n -> exists b, bread d n = Some b /\ is_block b;
  bwrite_ok : forall d n b, ok d n -> is_block b ->
    exists d', bwrite d n b = (true, d')
      /\ (forall m, ok d m -> bread d' m = if decide (m = n) then Some b else bread d m)
      /\ (forall m, ok d m -> ok d' m)
}.

(** ** The RAM disk branch *)

Record ramdisk := {
  rd_blocks : gmap Z (list Z);
  (** [disk_total_blocks] *)
  rd_total : Z
}.

Definition rd_get (d : ramdisk) (n : Z) : list Z := default (zeros 4096) (rd_blocks d !! n).

(** [block * SDFS_BLOCK_SIZE] is 32-bit arithmetic: the address wraps at 4 GiB,
    that is, the block number modulo 2^20. *)
Definition rd_index (n : Z) : Z := u32 (n * SDFS_BLOCK_SIZE) / SDFS_BLOCK_SIZE.

Definition rd_read (d : ramdisk) (n : Z) : option (list Z) :=
  if rd_total d <=? n then None else Some (rd_get d (rd_index n)).

Definition rd_write (d : ramdisk) (n : Z) (b : list Z) : bool * ramdisk :=
  if rd_total d <=? n then (false, d)
  else (true, {| rd_blocks := <[rd_index n := b]> (rd_blocks d); rd_total := rd_total d |}).

#[export] Instance ramdisk_dev : BlockDev ramdisk := {
  bread := rd_read;
  bwrite := rd_write;
  btotal d n := {| rd_blocks := rd_blocks d; rd_total := n |}
}.

(** A RAM disk as [sdfs_enable_ramdisk] makes it: at most 4 GiB, whole blocks. *)
Definition rd_ok (d : ramdisk) (n : Z) : Prop :=
  0 <= n < rd_total d /\ rd_total d <= 2 ^ 20 /\ map_Forall (fun _ b => is_block b) (rd_blocks d).

Lemma zeros_block : is_block (zeros 4096).
Proof. split; [apply length_replicate|apply zeros_bytes]. Qed.

Lemma rd_index_id n : 0 <= n < 2 ^ 20 -> rd_index n = n.
Proof. intros H. unfold rd_index, SDFS_BLOCK_SIZE. rewrite u32_small by lia. by apply Z.div_mul. Qed.

Lemma rd_get_block d n : map_Forall (fun _ b => is_block b) (rd_blocks d) -> is_block (rd_get d n).
Proof.
  intros H. unfold rd_get. destruct (rd_blocks d !! n) as [b|] eqn:E; [|apply zeros_block].
  exact (H n b E).
Qed.

#[export] Instance ramdisk_ok : BlockDevOk ramdisk rd_ok.
Proof.
  constructor.
  - intros d n (Hn & Ht & Hb). simpl. unfold rd_read. rewrite (proj2 (Z.leb_gt _ _)) by lia.
    eexists. split; [done|]. by apply rd_get_block.
  - intros d n b (Hn & Ht & Hb) Hblk. simpl. unfold rd_write. rewrite (proj2 (Z.leb_gt _ _)) by lia.
    eexists. split; [done|]. split.
    + intros m (Hm & _ & _). unfold rd_read, rd_get; simpl. rewrite (proj2 (Z.leb_gt _ _)) by lia.
      rewrite !rd_index_id by lia. case_decide as E; [subst m; by rewrite lookup_insert_eq|].
      by rewrite lookup_insert_ne.
    + intros m (Hm & Ht' & Hb'). unfold rd_ok; simpl. split_and!; [lia|lia|done|].
      by apply map_Forall_insert_2.
Qed.

(** ** The driver branch *)

Section Sectors.
(** The state of a disk and its driver calls, by sector number; a transfer of
    several sectors is one call for NVMe, AHCI and bus-master ATA. *)
Context {D : Type}.
Variable sector_read : D -> Z -> option (list Z).
Variable sector_write : D -> Z -> list Z -> bool * D.

Record disk := {
  dk : D;
  (** one command for the whole block (NVMe, AHCI, bus-master ATA) or a PIO
      loop over its sectors *)
  dk_pio : bool;
  dk_read8 : D -> Z -> option (list Z);
  dk_write8 : D -> Z -> list Z -> bool * D
}.

(** The PIO loop: [n] sectors from [lba] on. *)
Fixpoint pio_read (d : D) (lba : Z) (n : nat) : option (list Z) :=
  match n with
  | O => Some []
  | S n' =>
      match sector_read d lba with
      | None => None
      | Some s => match pio_read d (u32 (lba + 1)) n' with None => None | Some r => Some (s ++ r) end
      end
  end.

Fixpoint pio_write (d : D) (lba : Z) (b : list Z) (n : nat) : bool * D :=
  match n with
  | O => (true, d)
  | S n' =>
      match sector_write d lba (take 512 b) with
      | (false, d') => (false, d')
      | (true, d') => pio_write d' (u32 (lba + 1)) (drop 512 b) n'
      end
  end.

Definition disk_read (d : disk) (n : Z) : option (list Z) :=
  let lba := u32 (n * SDFS_SECTORS_PER_BLOCK) in
  if dk_pio d then pio_read (dk d) lba 8 else dk_read8 d (dk d) lba.

Definition disk_write (d : disk) (n : Z) (b : list Z) : bool * disk :=
  let lba := u32 (n * SDFS_SECTORS_PER_BLOCK) in
  let '(ok, k) := if dk_pio d then pio_write (dk d) lba b 8 else dk_write8 d (dk d) lba b in
  (ok, {| dk := k; dk_pio := dk_pio d; dk_read8 := dk_read8 d; dk_write8 := dk_write8 d |}).

#[export] Instance disk_dev : BlockDev disk :=
  { bread := disk_read; bwrite := disk_write; btotal d _ := d }.
End Sectors.

(** ** Losing power

    [cr_budget] writes reach the disk; later ones are lost, and what the
    machine does then no longer matters. *)

Record crashdisk := { cr_disk : ramdisk; cr_budget : nat }.

#[export] Instance crash_dev : BlockDev crashdisk := {
  bread d n := rd_read (cr_disk d) n;
  bwrite d n b :=
    match cr_budget d with
    | O => (true, d)
    | S k => let '(ok, d') := rd_write (cr_disk d) n b in (ok, {| cr_disk := d'; cr_budget := k |})
    end;
  btotal d n := {| cr_disk := btotal (cr_disk d) n; cr_budget := cr_budget d |}
}.
