(* ===== verification/Journal.v ===== *)
(** * The write-ahead journal ([src/src/fs/journal.c], [src/include/fs/journal.h])

    The journal's state is the record [journal]: the area it occupies, whether
    the block functions have been set, and [j_header], the in-memory header
    block ([None] for NULL).  On disk, block [j_start] is the header, and entry
    [i] has its header in block [j_start + 1 + 2 i] and its data in the next.
    The code reaches the disk through [j_read]/[j_write], here any [BlockDev].

    [junk] stands for the contents of a fresh [kmalloc] buffer, which the code
    uses when a read fails; [kmalloc] itself never returns NULL. *)

From Stdlib Require Import ZArith Lia.
From stdpp Require Import base numbers list gmap.
From S2P Require Import Prelude Bytes Crc32 BlockDev.

(** ** The code *)

Definition SDFS_JOURNAL_MAGIC : Z := 0x4A464453.
Definition SDFS_JOURNAL_HDR_MAGIC : Z := 0x48444A53.
Definition JOURNAL_OP_WRITE_BLOCK : Z := 1.
Definition JOURNAL_STATUS_COMMITTED : Z := 1.
Definition JOURNAL_STATUS_REPLAYED : Z := 2.
Definition SDFS_JOURNAL_MAX_ENTRIES : Z := 31.

Record journal := {
  j_start : Z;
  j_blocks : Z;
  j_max_entries : Z;
  (** [j_read] and [j_write] are set *)
  j_fns : bool;
  j_header : option (list Z)
}.

Definition journal0 : journal :=
  {| j_start := 0; j_blocks := 0; j_max_entries := 0; j_fns := false; j_header := None |}.

Definition set_j_header (j : journal) (b : list Z) : journal :=
  {| j_start := j_start j; j_blocks := j_blocks j; j_max_entries := j_max_entries j;
     j_fns := j_fns j; j_header := Some b |}.

(** Fields of [sdfs_journal_header_t]. *)
Definition jh_magic : nat := 0.
Definition jh_dirty : nat := 4.
Definition jh_sequence : nat := 8.
Definition jh_head : nat := 12.
Definition jh_count : nat := 16.
Definition jh_crc : nat := 20.

(** Fields of [sdfs_journal_entry_hdr_t]. *)
Definition je_magic : nat := 0.
Definition je_sequence : nat := 4.
Definition je_op : nat := 8.
Definition je_status : nat := 9.
Definition je_target : nat := 12.
Definition je_crc : nat := 16.

Section Journal.
Context {D : Type} `{BlockDev D}.
Variable junk : list Z.

Definition sdfs_journal_init (j : journal) (journal_start journal_blocks : Z) : journal :=
  let max := if 1 <? journal_blocks then (journal_blocks - 1) / 2 else 0 in
  {| j_start := journal_start; j_blocks := journal_blocks;
     j_max_entries := if SDFS_JOURNAL_MAX_ENTRIES <? max then SDFS_JOURNAL_MAX_ENTRIES else max;
     j_fns := true; j_header := j_header j |}.

Definition journal_load_header (j : journal) (d : D) : journal :=
  let buf := default junk (j_header j) in
  set_j_header j (default buf (bread d (j_start j))).

Definition header_with_crc (b : list Z) : list Z := put32 b jh_crc (crc32_calc (drop 4 b)).

Definition journal_save_header (j : journal) (d : D) : journal * D :=
  match j_header j with
  | None => (j, d)
  | Some b =>
      let b := header_with_crc b in
      (set_j_header j b, snd (bwrite d (j_start j) b))
  end.

Definition sdfs_journal_begin (j : journal) (d : D) : journal * D :=
  let j := journal_load_header j d in
  match j_header j with
  | None => (j, d)
  | Some b =>
      let b :=
        if negb (get32 b jh_magic =? SDFS_JOURNAL_HDR_MAGIC)
        then put32 (zeros 4096) jh_magic SDFS_JOURNAL_HDR_MAGIC else b in
      let b := put32 (put32 b jh_dirty 0) jh_count 0 in
      journal_save_header (set_j_header j b) d
  end.

(** The updates of the header after an entry was written and by
    [sdfs_journal_clean] and [sdfs_journal_replay]. *)
Definition header_pushed (b : list Z) (idx max : Z) : list Z :=
  let b := put32 b jh_head ((idx + 1) mod max) in
  let b := put32 b jh_count (u32 (get32 b jh_count + 1)) in
  let b := put32 b jh_sequence (u32 (get32 b jh_sequence + 1)) in
  put32 b jh_dirty 1.
Definition header_reset (b : list Z) : list Z :=
  put32 (put32 (put32 b jh_dirty 0) jh_count 0) jh_head 0.
Definition header_cleaned (b : list Z) : list Z :=
  let b := header_reset b in
  put32 b jh_sequence (u32 (get32 b jh_sequence + 1)).

Definition entry_hdr_block (j : journal) (idx : Z) : Z := u32 (j_start j + 1 + 2 * idx).
Definition entry_data_block (j : journal) (idx : Z) : Z := u32 (entry_hdr_block j idx + 1).

Definition entry_header (sequence target_block : Z) (data : list Z) : list Z :=
  let b := put32 (zeros 4096) je_magic SDFS_JOURNAL_MAGIC in
  let b := put32 b je_sequence (u32 (sequence + 1)) in
  let b := put8 b je_op JOURNAL_OP_WRITE_BLOCK in
  let b := put8 b je_status JOURNAL_STATUS_COMMITTED in
  let b := put32 b je_target target_block in
  put32 b je_crc (crc32_calc data).

Definition sdfs_journal_write_block (j : journal) (d : D) (target_block : Z) (data : list Z)
  : Z * journal * D :=
  match j_header j with
  | None => (-1, j, d)
  | Some b =>
      if negb (j_fns j) then (-1, j, d) else
      let '(idx, b) :=
        if j_max_entries j <=? get32 b jh_head then (0, put32 b jh_head 0) else (get32 b jh_head, b) in
      let j := set_j_header j b in
      let hdr := entry_header (get32 b jh_sequence) target_block data in
      let '(ok, d) := bwrite d (entry_hdr_block j idx) hdr in
      if negb ok then (-1, j, d) else
      let '(ok, d) := bwrite d (entry_data_block j idx) data in
      if negb ok then (-1, j, d) else
      let '(j, d) := journal_save_header (set_j_header j (header_pushed b idx (j_max_entries j))) d in
      (0, j, d)
  end.

Definition sdfs_journal_commit (j : journal) (d : D) : Z * journal * D :=
  match j_header j with
  | None => (-1, j, d)
  | Some b =>
      let '(j, d) := journal_save_header (set_j_header j (put32 b jh_dirty 1)) d in (0, j, d)
  end.

Definition sdfs_journal_clean (j : journal) (d : D) : journal * D :=
  match j_header j with
  | None => (j, d)
  | Some b =>
      journal_save_header (set_j_header j (header_cleaned b)) d
  end.

Definition sdfs_journal_is_dirty (j : journal) (d : D) : bool * journal :=
  let j := journal_load_header j d in
  match j_header j with
  | None => (false, j)
  | Some b =>
      (((get32 b jh_magic =? SDFS_JOURNAL_HDR_MAGIC)
        && negb (get32 b jh_dirty =? 0) && (0 <? get32 b jh_count))%bool, j)
  end.

(** The header block written over a replayed entry. *)
Definition replayed_block : list Z := put8 (zeros 4096) 0 JOURNAL_STATUS_REPLAYED.

Definition entry_committed (hdr : list Z) : bool :=
  ((get32 hdr je_magic =? SDFS_JOURNAL_MAGIC) && (get8 hdr je_status =? JOURNAL_STATUS_COMMITTED))%bool.

(** The loop from entry [i] on, [n] entries left; [data_buf] keeps its contents
    when a read fails.  Returns the number of entries replayed. *)
Fixpoint replay_loop (j : journal) (d : D) (data_buf : list Z) (replayed i : Z) (n : nat) : Z * D :=
  match n with
  | O => (replayed, d)
  | S n' =>
      let hdr := default junk (bread d (entry_hdr_block j i)) in
      if negb (entry_committed hdr) then replay_loop j d data_buf replayed (i + 1) n' else
      let data_buf := default data_buf (bread d (entry_data_block j i)) in
      if negb (get32 hdr je_crc =? crc32_calc data_buf)
      then replay_loop j d data_buf replayed (i + 1) n'
      else
        let d := snd (bwrite d (get32 hdr je_target) data_buf) in
        let d := snd (bwrite d (entry_hdr_block j i) replayed_block) in
        replay_loop j d data_buf (replayed + 1) (i + 1) n'
  end.

Definition sdfs_journal_replay (j : journal) (d : D) : Z * journal * D :=
  match j_header j with
  | None => (0, j, d)
  | Some _ =>
      if negb (j_fns j) then (0, j, d) else
      let j := journal_load_header j d in
      let b := default junk (j_header j) in
      if negb (get32 b jh_magic =? SDFS_JOURNAL_HDR_MAGIC) then (0, j, d) else
      if ((get32 b jh_dirty =? 0) || (get32 b jh_count =? 0))%bool then (0, j, d) else
      let '(replayed, d) := replay_loop j d junk 0 0 (Z.to_nat (j_max_entries j)) in
      let '(j, d) := journal_save_header (set_j_header j (header_reset b)) d in
      (replayed, j, d)
  end.

(** [sdfs_metadata_write] of [sdfs.c]: journal, write, clean.  The result of
    the journal call is ignored. *)
Definition sdfs_metadata_write (j : journal) (d : D) (block : Z) (buffer : list Z) : Z * journal * D :=
  let '(_, j, d) := sdfs_journal_write_block j d block buffer in
  let '(ok, d) := bwrite d block buffer in
  if ok then let '(j, d) := sdfs_journal_clean j d in (0, j, d)
  else (-1, j, d).
End Journal.

(** ** Lemmas on the RAM disk *)

Definition rdw (d : ramdisk) (w : Z * list Z) : ramdisk := snd (rd_write d (fst w) (snd w)).
Definition apply_writes (d : ramdisk) (ws : list (Z * list Z)) : ramdisk := foldl rdw d ws.

Lemma rdw_total d w : rd_total (rdw d w) = rd_total d.
Proof. unfold rdw, rd_write. by ztest. Qed.

Lemma apply_writes_total d ws : rd_total (apply_writes d ws) = rd_total d.
Proof.
  revert d. induction ws as [|w ws IH]; intros d; [done|]. unfold apply_writes in *. simpl.
  by rewrite IH, rdw_total.
Qed.

Lemma rd_get_rdw d n b m :
  0 <= n < rd_total d -> rd_total d <= 2 ^ 20 ->
  rd_get (rdw d (n, b)) m = if decide (m = n) then b else rd_get d m.
Proof.
  intros Hn Ht. unfold rdw, rd_write; simpl. rewrite (proj2 (Z.leb_gt _ _)) by lia. simpl.
  unfold rd_get; simpl. rewrite rd_index_id by lia.
  case_decide; [subst; by rewrite lookup_insert_eq|by rewrite lookup_insert_ne].
Qed.

Lemma rd_read_get d n : 0 <= n < rd_total d -> rd_total d <= 2 ^ 20 -> rd_read d n = Some (rd_get d n).
Proof.
  intros Hn Ht. unfold rd_read. rewrite (proj2 (Z.leb_gt _ _)) by lia. by rewrite rd_index_id by lia.
Qed.

(** The device after the writes [ws] with power for [k] of them. *)
Definition crash_run (d : ramdisk) (k : nat) (ws : list (Z * list Z)) : crashdisk :=
  {| cr_disk := apply_writes d (take k ws); cr_budget := k - length ws |}.

Lemma crash_write d k ws n b :
  0 <= n < rd_total d -> bwrite (crash_run d k ws) n b = (true, crash_run d k (ws ++ [(n, b)])).
Proof.
  intros Hn. unfold crash_run. simpl. destruct (k - length ws)%nat as [|q] eqn:E.
  - f_equal. f_equal; [|rewrite length_app; simpl; lia]. f_equal. rewrite take_app_le by lia. done.
  - rewrite (take_ge ws) by lia. unfold rd_write. rewrite apply_writes_total, (proj2 (Z.leb_gt _ _)) by lia.
    f_equal. f_equal; [|rewrite length_app; simpl; lia].
    rewrite (take_ge (ws ++ [(n, b)])) by (rewrite length_app; simpl; lia).
    unfold apply_writes. rewrite foldl_snoc. unfold rdw at 2, rd_write; simpl.
    fold (apply_writes d ws). rewrite apply_writes_total, (proj2 (Z.leb_gt _ _)) by lia. done.
Qed.

(** ** Lemmas on headers *)

(** A header block: 4096 bytes (only the first 24 carry fields), the magic, and
    its three counters. *)
Record header_is (b : list Z) (dirty head count : Z) : Prop := {
  hdr_len : length b = 4096%nat;
  hdr_magic : get32 b jh_magic = SDFS_JOURNAL_HDR_MAGIC;
  hdr_dirty : get32 b jh_dirty = dirty;
  hdr_head : get32 b jh_head = head;
  hdr_count : get32 b jh_count = count
}.

Ltac jh_unfold := unfold jh_magic, jh_dirty, jh_sequence, jh_head, jh_count, jh_crc in *.

Lemma header_put b dirty head count o v :
  header_is b dirty head count -> (o + 4 <= 24)%nat -> (4 <= o)%nat -> Nat.divide 4 o -> is_u32 v ->
  header_is (put32 b o v) (if decide (o = jh_dirty) then v else dirty)
    (if decide (o = jh_head) then v else head) (if decide (o = jh_count) then v else count).
Proof.
  intros [Hl Hm Hd Hh Hc] Ho H4 [q Hq] Hv. assert (Hlen : (24 <= length b)%nat) by (rewrite Hl; lia).
  assert (Hcase : o = 4%nat \/ o = 8%nat \/ o = 12%nat \/ o = 16%nat \/ o = 20%nat) by lia. clear Hq q Ho H4.
  jh_unfold. destruct Hcase as [-> | [-> | [-> | [-> | ->]]]]; constructor; jh_unfold; simpl decide; cbv iota;
    first [ by rewrite length_put32 by lia | apply get32_put32; [lia|done]
          | by rewrite get32_put32_ne by lia ].
Qed.

Lemma header_with_crc_is b dirty head count :
  header_is b dirty head count -> Forall is_byte b -> header_is (header_with_crc b) dirty head count.
Proof.
  intros Hb Hbytes. unfold header_with_crc.
  apply (header_put b dirty head count jh_crc); [done|jh_unfold; lia|jh_unfold; lia|by exists 5%nat|].
  by apply crc32_calc_range, Forall_drop.
Qed.

Lemma header_pushed_is b idx max dirty head :
  header_is b dirty head 0 -> 0 < max < 2 ^ 32 ->
  header_is (header_pushed b idx max) 1 ((idx + 1) mod max) 1.
Proof.
  intros Hb Hmax. assert (Hmod : is_u32 ((idx + 1) mod max)).
  { unfold is_u32. pose proof (Z.mod_pos_bound (idx + 1) max). lia. }
  unfold header_pushed. pose proof (header_put _ _ _ _ jh_head ((idx + 1) mod max) Hb) as H1.
  specialize (H1 ltac:(jh_unfold; lia) ltac:(jh_unfold; lia) ltac:(by exists 3%nat) Hmod). simpl in H1.
  rewrite (hdr_count _ _ _ _ H1). change (u32 (0 + 1)) with 1.
  pose proof (header_put _ _ _ _ jh_count 1 H1 ltac:(jh_unfold; lia) ltac:(jh_unfold; lia)
    ltac:(by exists 4%nat) ltac:(by_compute)) as H2. simpl in H2.
  pose proof (header_put _ _ _ _ jh_sequence _ H2 ltac:(jh_unfold; lia) ltac:(jh_unfold; lia)
    ltac:(by exists 2%nat) (u32_range (get32 (put32 (put32 b jh_head ((idx + 1) mod max)) jh_count 1) jh_sequence + 1))) as H3.
  simpl in H3.
  exact (header_put _ _ _ _ jh_dirty 1 H3 ltac:(jh_unfold; lia) ltac:(jh_unfold; lia)
    ltac:(by exists 1%nat) ltac:(by_compute)).
Qed.

Lemma header_reset_is b dirty head count :
  header_is b dirty head count -> header_is (header_reset b) 0 0 0.
Proof.
  intros Hb. unfold header_reset.
  pose proof (header_put _ _ _ _ jh_dirty 0 Hb ltac:(jh_unfold; lia) ltac:(jh_unfold; lia)
    ltac:(by exists 1%nat) ltac:(by_compute)) as H1.
  pose proof (header_put _ _ _ _ jh_count 0 H1 ltac:(jh_unfold; lia) ltac:(jh_unfold; lia)
    ltac:(by exists 4%nat) ltac:(by_compute)) as H2.
  exact (header_put _ _ _ _ jh_head 0 H2 ltac:(jh_unfold; lia) ltac:(jh_unfold; lia)
    ltac:(by exists 3%nat) ltac:(by_compute)).
Qed.

Lemma header_cleaned_is b dirty head count :
  header_is b dirty head count -> header_is (header_cleaned b) 0 0 0.
Proof.
  intros Hb. exact (header_put _ _ _ _ jh_sequence _ (header_reset_is _ _ _ _ Hb) ltac:(jh_unfold; lia)
    ltac:(jh_unfold; lia) ltac:(by exists 2%nat) (u32_range _)).
Qed.

Lemma header_bytes b idx max :
  Forall is_byte b ->
  Forall is_byte (header_pushed b idx max) /\ Forall is_byte (header_reset b)
  /\ Forall is_byte (header_cleaned b) /\ Forall is_byte (header_with_crc b).
Proof.
  intros Hb. unfold header_cleaned, header_pushed, header_reset, header_with_crc. split_and!; auto 10 with bytes.
Qed.

Lemma entry_header_spec seq t data :
  is_u32 t -> Forall is_byte data ->
  entry_committed (entry_header seq t data) = true
  /\ get32 (entry_header seq t data) je_target = t
  /\ get32 (entry_header seq t data) je_crc = crc32_calc data.
Proof.
  intros Ht Hd. pose proof (crc32_calc_range data Hd) as Hc.
  assert (Hz : (20 <= length (zeros 4096))%nat) by (unfold zeros; rewrite length_replicate; lia).
  revert Hz. unfold entry_header. generalize (zeros 4096). intros z Hz.
  unfold je_magic, je_sequence, je_op, je_status, je_target, je_crc. cbv zeta. split_and!.
  - unfold entry_committed, je_magic, je_status.
    rewrite !get32_put32_ne by blen. rewrite !get32_put8_ne by blen. rewrite get32_put32_ne by blen.
    rewrite get32_put32 by (blen || by_compute). rewrite !get8_put32_ne by blen. rewrite get8_put8 by blen. done.
  - rewrite get32_put32_ne by blen. apply get32_put32; [blen|done].
  - apply get32_put32; [blen|done].
Qed.

(** ** The crash-safe protocol *)

(** The state between two metadata writes: a RAM disk that holds the journal
    area, the header loaded and clean in memory and on disk, and no entry but
    (possibly) the first marked committed. *)
Record journal_idle (j : journal) (d : ramdisk) (hb : list Z) : Prop := {
  ji_header : j_header j = Some hb;
  ji_fns : j_fns j = true;
  ji_geom : j_max_entries j = j_max_entries (sdfs_journal_init journal0 (j_start j) (j_blocks j));
  ji_max : 1 <= j_max_entries j;
  ji_start : 0 <= j_start j;
  ji_area : j_start j + 1 + 2 * j_max_entries j <= rd_total d;
  ji_total : rd_total d <= 2 ^ 20;
  ji_bytes : Forall is_byte hb;
  ji_ram : exists dirty, header_is hb dirty 0 0;
  ji_disk : get32 (rd_get d (j_start j)) jh_dirty = 0;
  ji_stale : forall i, 1 <= i < j_max_entries j ->
    entry_committed (rd_get d (j_start j + 1 + 2 * i)) = false
}.

Definition in_area (j : journal) (n : Z) : Prop :=
  j_start j <= n < j_start j + 1 + 2 * j_max_entries j.

(** What a reboot does: a fresh journal over the same area, its header loaded
    by the dirty check, then the replay. *)
Definition journal_recover (junk : list Z) (j : journal) (d : ramdisk) : Z * journal * ramdisk :=
  let j1 := sdfs_journal_init journal0 (j_start j) (j_blocks j) in
  let '(_, j2) := sdfs_journal_is_dirty junk j1 d in
  sdfs_journal_replay junk j2 d.

Section Crash.
Variable junk : list Z.
Context (j : journal) (d : ramdisk) (hb : list Z) (t : Z) (data : list Z).
Context (Hidle : journal_idle j d hb) (Ht : 0 <= t < rd_total d) (Hout : ~ in_area j t) (Hdata : is_block data).
Local Abbreviation js := (j_start j) (only parsing).
Local Abbreviation max := (j_max_entries j) (only parsing).
Let hdr0 := entry_header (get32 hb jh_sequence) t data.
Let dirty_hdr := header_with_crc (header_pushed hb 0 max).
Let clean_hdr := header_with_crc (header_cleaned dirty_hdr).

(** The disk writes of one [sdfs_metadata_write], in order. *)
Definition protocol : list (Z * list Z) :=
  [(js + 1, hdr0); (js + 2, data); (js, dirty_hdr); (t, data); (js, clean_hdr)].

Lemma entry_blocks (j1 : journal) i : j_start j1 = js -> 0 <= i < max ->
  entry_hdr_block j1 i = js + 1 + 2 * i /\ entry_data_block j1 i = js + 2 + 2 * i.
Proof.
  intros Hj Hi. destruct Hidle.
  assert (E : entry_hdr_block j1 i = js + 1 + 2 * i) by (unfold entry_hdr_block; rewrite Hj; apply u32_small; lia).
  split; [done|]. unfold entry_data_block. rewrite E, u32_small; lia.
Qed.

Lemma metadata_write_protocol k :
  exists j', sdfs_metadata_write j {| cr_disk := d; cr_budget := k |} t data = (0, j', crash_run d k protocol)
    /\ j_start j' = js /\ j_blocks j' = j_blocks j /\ j_max_entries j' = max /\ j_fns j' = true
    /\ j_header j' = Some clean_hdr.
Proof.
  destruct Hidle as [Hh Hf Hg Hmax Hs Ha Htot Hb (dirty & Hram) _ _].
  assert (Hcr : {| cr_disk := d; cr_budget := k |} = crash_run d k []).
  { unfold crash_run. rewrite take_nil. simpl. f_equal. lia. }
  unfold sdfs_metadata_write, sdfs_journal_write_block. rewrite Hh, Hf. cbn [negb].
  rewrite (hdr_head _ _ _ _ Hram), (proj2 (Z.leb_gt max 0)) by lia.
  destruct (entry_blocks (set_j_header j hb) 0 eq_refl) as [E1 E2]; [lia|].
  rewrite E1, E2, Hcr, crash_write by lia. cbn [negb]. rewrite crash_write by lia. cbn [negb app].
  unfold journal_save_header. cbn [set_j_header j_header j_start j_max_entries]. fold dirty_hdr.
  rewrite crash_write by lia. cbn [snd app]. rewrite crash_write by lia. cbn [app].
  unfold sdfs_journal_clean, journal_save_header. cbn [set_j_header j_header j_start]. fold clean_hdr.
  rewrite crash_write by lia. cbn [snd app]. eexists. unfold protocol, hdr0.
  rewrite !Z.mul_0_r, !Z.add_0_r. split; [reflexivity|]. done.
Qed.

Lemma dirty_hdr_is : header_is dirty_hdr 1 (1 mod max) 1 /\ Forall is_byte dirty_hdr.
Proof.
  destruct Hidle as [Hh Hf Hg Hmax Hs Ha Htot Hb (dirty & Hram) _ _].
  destruct (header_bytes hb 0 max Hb) as (B1 & _ & _ & _). unfold dirty_hdr. split.
  - apply header_with_crc_is; [|done]. apply (header_pushed_is hb 0 max dirty 0); [done|lia].
  - by apply (header_bytes _ 0 max).
Qed.

Lemma clean_hdr_is : header_is clean_hdr 0 0 0.
Proof.
  destruct dirty_hdr_is as [H1 H2]. unfold clean_hdr. apply header_with_crc_is.
  - by apply header_cleaned_is in H1.
  - by apply (header_bytes _ 0 max).
Qed.

(** Replay of entries that are not committed does nothing. *)
Lemma replay_skip (j1 : journal) d' buf r i n :
  j_start j1 = js -> rd_total d' = rd_total d -> 0 <= i -> i + Z.of_nat n <= max ->
  (forall i', i <= i' < i + Z.of_nat n -> entry_committed (rd_get d' (js + 1 + 2 * i')) = false) ->
  replay_loop junk j1 d' buf r i n = (r, d').
Proof.
  intros Hj1 Htd. destruct Hidle. revert i.
  induction n as [|n IH]; intros i Hi Hn Hc; cbn [replay_loop]; [done|].
  destruct (entry_blocks j1 i Hj1) as [E1 _]; [lia|]. rewrite E1. simpl bread.
  rewrite rd_read_get by lia. simpl default. rewrite Hc by lia. apply IH; [lia..|]. intros i' Hi'. apply Hc. lia.
Qed.

Lemma load_header (j1 : journal) d' :
  j_start j1 = js -> rd_total d' = rd_total d ->
  journal_load_header junk j1 d' = set_j_header j1 (rd_get d' js).
Proof.
  intros Hj Htd. destruct Hidle. unfold journal_load_header. rewrite Hj. simpl bread.
  by rewrite rd_read_get by lia.
Qed.

(** The recovery up to the test of the header. *)
Lemma recover_loaded d' :
  rd_total d' = rd_total d ->
  let j1 := set_j_header (set_j_header (sdfs_journal_init journal0 js (j_blocks j)) (rd_get d' js)) (rd_get d' js) in
  journal_recover junk j d' =
  if negb (get32 (rd_get d' js) jh_magic =? SDFS_JOURNAL_HDR_MAGIC) then (0, j1, d') else
  if ((get32 (rd_get d' js) jh_dirty =? 0) || (get32 (rd_get d' js) jh_count =? 0))%bool then (0, j1, d') else
  let '(replayed, d2) := replay_loop junk j1 d' junk 0 0 (Z.to_nat max) in
  let '(j2, d3) := journal_save_header (set_j_header j1 (header_reset (rd_get d' js))) d2 in
  (replayed, j2, d3).
Proof.
  intros Htd j1. unfold journal_recover, sdfs_journal_is_dirty. rewrite load_header by done.
  cbn [set_j_header j_header]. unfold sdfs_journal_replay. cbn [set_j_header j_header j_fns sdfs_journal_init negb].
  rewrite load_header by done. cbn [set_j_header j_header default from_option id]. fold j1.
  replace (j_max_entries j1) with max; [done|]. symmetry. unfold j1. rewrite (ji_geom _ _ _ Hidle). done.
Qed.

(** Recovery from a disk whose journal header is clean. *)
Lemma recover_clean d' :
  rd_total d' = rd_total d -> get32 (rd_get d' js) jh_dirty = 0 ->
  snd (journal_recover junk j d') = d'.
Proof.
  intros Htd Hcl. rewrite recover_loaded by done. rewrite Hcl. by ztest.
Qed.

(** Recovery from a disk on which the whole entry and the dirty header arrived. *)
Lemma recover_dirty d' :
  rd_total d' = rd_total d -> rd_get d' js = dirty_hdr ->
  rd_get d' (js + 1) = hdr0 -> rd_get d' (js + 2) = data ->
  (forall i, 1 <= i < max -> entry_committed (rd_get d' (js + 1 + 2 * i)) = false) ->
  exists r j' fin, journal_recover junk j d' = (r, j', apply_writes d' [(t, data); (js + 1, replayed_block); (js, fin)])
    /\ r = 1 /\ header_is fin 0 0 0.
Proof.
  intros Htd Hh Hh0 Hd0 Hst. destruct dirty_hdr_is as [Hdh Hdb]. destruct Hidle.
  destruct Hdata as [Hdl Hdby]. assert (Htu : is_u32 t) by (unfold is_u32; lia).
  destruct (entry_header_spec (get32 hb jh_sequence) t data Htu Hdby) as (C1 & C2 & C3). fold hdr0 in C1, C2, C3.
  rewrite recover_loaded by done. cbv zeta. rewrite Hh.
  rewrite (hdr_magic _ _ _ _ Hdh), Z.eqb_refl, (hdr_dirty _ _ _ _ Hdh), (hdr_count _ _ _ _ Hdh).
  cbn [negb Z.eqb orb Pos.eqb]. set (j2 := set_j_header _ dirty_hdr).
  destruct (Z.to_nat max) as [|n] eqn:En; [lia|]. cbn [replay_loop].
  destruct (entry_blocks j2 0 eq_refl) as [E1 E2]; [lia|].
  rewrite E1, E2, Z.mul_0_r, !Z.add_0_r. simpl bread. rewrite !rd_read_get by lia. rewrite Hh0, Hd0.
  cbn [default from_option id]. rewrite C1, C2, C3, Z.eqb_refl. cbn [negb]. simpl bwrite.
  change (snd (rd_write d' t data)) with (rdw d' (t, data)).
  set (d1 := rdw d' (t, data)). assert (Ht1 : rd_total d1 = rd_total d) by (unfold d1; by rewrite rdw_total).
  change (snd (rd_write d1 (js + 1) replayed_block)) with (rdw d1 (js + 1, replayed_block)).
  set (d2 := rdw d1 (js + 1, replayed_block)).
  assert (Ht2 : rd_total d2 = rd_total d) by (unfold d2; by rewrite rdw_total).
  rewrite replay_skip; [|done|done|lia|lia|].
  - eexists _, _, (header_with_crc (header_reset dirty_hdr)). split; [reflexivity|]. split; [done|].
    apply header_with_crc_is; [by apply header_reset_is in Hdh|by apply (header_bytes _ 0 max)].
  - intros i Hi. unfold d2, d1. rewrite !rd_get_rdw by (rewrite ?rdw_total; lia).
    rewrite !decide_False; [apply Hst; lia| |lia]. unfold in_area in Hout. lia.
Qed.

(** The disk after [k] writes of the protocol, block by block. *)
Lemma protocol_get k m :
  0 <= m < rd_total d ->
  rd_get (apply_writes d (take k protocol)) m =
  if decide (m = js) then
    (if decide (5 <= k)%nat then clean_hdr else if decide (3 <= k)%nat then dirty_hdr else rd_get d m)
  else if decide (m = js + 1) then (if decide (1 <= k)%nat then hdr0 else rd_get d m)
  else if decide (m = js + 2) then (if decide (2 <= k)%nat then data else rd_get d m)
  else if decide (m = t) then (if decide (4 <= k)%nat then data else rd_get d m)
  else rd_get d m.
Proof.
  intros Hm. destruct Hidle. unfold in_area in Hout. unfold protocol.
  do 6 (destruct k as [|k]; [cbn [take apply_writes foldl];
    rewrite ?rd_get_rdw by (rewrite ?rdw_total; lia); repeat case_decide; (done || lia)|]).
  cbn [take]. cbn [apply_writes foldl].
  rewrite ?rd_get_rdw by (rewrite ?rdw_total; lia). repeat case_decide; (done || lia).
Qed.

Lemma protocol_stale k i :
  1 <= i < max -> entry_committed (rd_get (apply_writes d (take k protocol)) (js + 1 + 2 * i)) = false.
Proof.
  intros Hi. pose proof (ji_stale _ _ _ Hidle i Hi) as Hs. pose proof (ji_area _ _ _ Hidle).
  pose proof (ji_start _ _ _ Hidle). unfold in_area in Hout.
  rewrite protocol_get by lia. repeat case_decide; (done || lia).
Qed.
End Crash.


(** A 64-block RAM disk whose journal occupies blocks 4 to 19, after
    [sdfs_journal_begin]. *)
Definition rd_demo : ramdisk := {| rd_blocks := ∅; rd_total := 64 |}.
Definition journal_demo : journal * ramdisk :=
  sdfs_journal_begin (zeros 4096) (sdfs_journal_init journal0 4 16) rd_demo.
Definition header_demo : list Z := default [] (j_header (fst journal_demo)).

Lemma journal_demo_idle : journal_idle (fst journal_demo) (snd journal_demo) header_demo.
Proof.
  constructor; try (vm_compute; reflexivity); try (vm_compute; discriminate).
  - by_compute.
  - exists 0. constructor; vm_compute; reflexivity.
  - intros i Hi. change (j_max_entries (fst journal_demo)) with 7 in Hi.
    assert (HF : Forall (fun i => entry_committed (rd_get (snd journal_demo) (j_start (fst journal_demo) + 1 + 2 * i)) = false)
              (seqZ 1 6)) by by_compute.
    rewrite Forall_forall in HF. apply HF, elem_of_seqZ. lia.
Qed.


(** The header of the journal is only loaded by [sdfs_journal_begin] and
    the dirty check, and the mount path calls neither before
    [sdfs_journal_replay].  After [sdfs_journal_init] alone the journal is off:
    the replay touches nothing, whatever the disk holds, each
    [sdfs_journal_write_block] fails, and a metadata write is the bare block
    write. *)
Theorem journal_off_until_header_loaded `{BlockDev D} junk (d : D) start blocks :
  let j := sdfs_journal_init journal0 start blocks in
  sdfs_journal_replay junk j d = (0, j, d)
  /\ forall t data, sdfs_journal_write_block j d t data = (-1, j, d)
     /\ sdfs_metadata_write j d t data
        = (if fst (bwrite d t data) then 0 else -1, j, snd (bwrite d t data)).
Proof.
  cbv zeta. split; [done|]. intros t data. split; [done|].
  unfold sdfs_metadata_write, sdfs_journal_write_block. cbn [sdfs_journal_init j_header journal0].
  by destruct (bwrite d t data) as [[|] d'].
Qed.
