(* ===== verification/SdfsBlock.v ===== *)
(** * SDFS: state, bitmap and block chains (first part of [src/src/fs/sdfs.c])

    [fs] gathers the static variables of [sdfs.c] with the device and the
    journal.  A call is a function of [fs]; a loop over a chain of blocks that
    never ends (the chain is cyclic) is the [None] of the monad.  [junk] is the
    contents of a fresh buffer, seen when a read fails whose result the code
    does not check. *)

From Stdlib Require Import ZArith Lia.
From stdpp Require Import base numbers list gmap.
From S2P Require Import Prelude Bytes Crc32 BlockDev Journal.

Record fs (D : Type) := {
  dev : D;
  jrn : journal;
  sdfs_mounted : bool;
  disk_total_blocks : Z;
  disk_bitmap_block : Z;
  disk_bitmap_blocks : Z;
  disk_root_block : Z;
  disk_journal_start : Z;
  disk_journal_blocks : Z;
  disk_mount_count : Z;
  disk_max_mounts : Z;
  disk_format_version : Z;
  bitmap_cache : option (list Z);
  bitmap_bytes : Z;
  bitmap_dirty_ops : Z;
  (** the tick counter of [timer.c] *)
  timer_ticks : Z
}.
Arguments dev {D}. Arguments jrn {D}. Arguments sdfs_mounted {D}. Arguments disk_total_blocks {D}.
Arguments disk_bitmap_block {D}. Arguments disk_bitmap_blocks {D}. Arguments disk_root_block {D}.
Arguments disk_journal_start {D}. Arguments disk_journal_blocks {D}. Arguments disk_mount_count {D}.
Arguments disk_max_mounts {D}. Arguments disk_format_version {D}. Arguments bitmap_cache {D}.
Arguments bitmap_bytes {D}. Arguments bitmap_dirty_ops {D}. Arguments timer_ticks {D}.

Definition SDFS_BITMAP_FLUSH_OPS : Z := 256.

(** ** Setters *)

Definition set_dev {D} (s : fs D) (j : journal) (d : D) : fs D :=
  {| dev := d; jrn := j; sdfs_mounted := sdfs_mounted s; disk_total_blocks := disk_total_blocks s;
     disk_bitmap_block := disk_bitmap_block s; disk_bitmap_blocks := disk_bitmap_blocks s;
     disk_root_block := disk_root_block s; disk_journal_start := disk_journal_start s;
     disk_journal_blocks := disk_journal_blocks s; disk_mount_count := disk_mount_count s;
     disk_max_mounts := disk_max_mounts s; disk_format_version := disk_format_version s;
     bitmap_cache := bitmap_cache s; bitmap_bytes := bitmap_bytes s;
     bitmap_dirty_ops := bitmap_dirty_ops s; timer_ticks := timer_ticks s |}.

Definition set_bitmap {D} (s : fs D) (c : option (list Z)) (bytes ops : Z) : fs D :=
  {| dev := dev s; jrn := jrn s; sdfs_mounted := sdfs_mounted s; disk_total_blocks := disk_total_blocks s;
     disk_bitmap_block := disk_bitmap_block s; disk_bitmap_blocks := disk_bitmap_blocks s;
     disk_root_block := disk_root_block s; disk_journal_start := disk_journal_start s;
     disk_journal_blocks := disk_journal_blocks s; disk_mount_count := disk_mount_count s;
     disk_max_mounts := disk_max_mounts s; disk_format_version := disk_format_version s;
     bitmap_cache := c; bitmap_bytes := bytes; bitmap_dirty_ops := ops; timer_ticks := timer_ticks s |}.

Definition set_geometry {D} (s : fs D) (d : D) (total bitmap bitmaps root jstart jblocks mounts maxm ver : Z) : fs D :=
  {| dev := d; jrn := jrn s; sdfs_mounted := sdfs_mounted s; disk_total_blocks := total;
     disk_bitmap_block := bitmap; disk_bitmap_blocks := bitmaps; disk_root_block := root;
     disk_journal_start := jstart; disk_journal_blocks := jblocks; disk_mount_count := mounts;
     disk_max_mounts := maxm; disk_format_version := ver; bitmap_cache := bitmap_cache s;
     bitmap_bytes := bitmap_bytes s; bitmap_dirty_ops := bitmap_dirty_ops s; timer_ticks := timer_ticks s |}.

Definition set_mounted {D} (s : fs D) (b : bool) : fs D :=
  {| dev := dev s; jrn := jrn s; sdfs_mounted := b; disk_total_blocks := disk_total_blocks s;
     disk_bitmap_block := disk_bitmap_block s; disk_bitmap_blocks := disk_bitmap_blocks s;
     disk_root_block := disk_root_block s; disk_journal_start := disk_journal_start s;
     disk_journal_blocks := disk_journal_blocks s; disk_mount_count := disk_mount_count s;
     disk_max_mounts := disk_max_mounts s; disk_format_version := disk_format_version s;
     bitmap_cache := bitmap_cache s; bitmap_bytes := bitmap_bytes s;
     bitmap_dirty_ops := bitmap_dirty_ops s; timer_ticks := timer_ticks s |}.

Section Code.
Context {D : Type} `{BlockDev D}.
Variable junk : list Z.

(** ** Block I/O *)

(** [sdfs_read_block]; the buffer is [junk] after a failed read. *)
Definition sdfs_read_block (s : fs D) (block : Z) : bool * list Z :=
  match bread (dev s) block with Some b => (true, b) | None => (false, junk) end.

Definition sdfs_write_block (s : fs D) (block : Z) (buffer : list Z) : bool * fs D :=
  let '(ok, d) := bwrite (dev s) block buffer in (ok, set_dev s (jrn s) d).

(** The unjournaled access that [fsck] tools use. *)
Definition sdfs_read_raw_block (s : fs D) (block : Z) : bool * list Z := sdfs_read_block s block.
Definition sdfs_write_raw_block (s : fs D) (block : Z) (buffer : list Z) : bool * fs D :=
  sdfs_write_block s block buffer.

Definition sdfs_zero_block (s : fs D) (block : Z) : bool * fs D :=
  sdfs_write_block s block (zeros 4096).

(** [sdfs_metadata_write] on this state; [true] is the result 0. *)
Definition metadata_write (s : fs D) (block : Z) (buffer : list Z) : bool * fs D :=
  let '(r, j, d) := sdfs_metadata_write (jrn s) (dev s) block buffer in
  (r =? 0, set_dev s j d).

(** ** Bitmap *)

(** The read loop of [sdfs_load_bitmap]. *)
Fixpoint load_bitmap_loop (s : fs D) (i : Z) (n : nat) : option (list Z) :=
  match n with
  | O => Some []
  | S n' =>
      match sdfs_read_block s (u32 (disk_bitmap_block s + i)) with
      | (false, _) => None
      | (true, b) => match load_bitmap_loop s (i + 1) n' with None => None | Some r => Some (b ++ r) end
      end
  end.

Definition sdfs_load_bitmap (s : fs D) : bool * fs D :=
  let bytes := u32 (disk_bitmap_blocks s * SDFS_BLOCK_SIZE) in
  match load_bitmap_loop s 0 (Z.to_nat (disk_bitmap_blocks s)) with
  | None => (false, set_bitmap s None bytes (bitmap_dirty_ops s))
  | Some c => (true, set_bitmap s (Some c) bytes 0)
  end.

(** The write loop of [sdfs_save_bitmap]. *)
Fixpoint save_bitmap_loop (s : fs D) (c : list Z) (i : Z) (n : nat) : fs D :=
  match n with
  | O => s
  | S n' =>
      let '(_, s) := sdfs_write_block s (u32 (disk_bitmap_block s + i)) (sub c (Z.to_nat (i * 4096)) 4096) in
      save_bitmap_loop s c (i + 1) n'
  end.

Definition sdfs_save_bitmap (s : fs D) : fs D :=
  match bitmap_cache s with
  | None => s
  | Some c =>
      let s := save_bitmap_loop s c 0 (Z.to_nat (disk_bitmap_blocks s)) in
      set_bitmap s (bitmap_cache s) (bitmap_bytes s) 0
  end.

Definition sdfs_flush_bitmap (s : fs D) : fs D :=
  match bitmap_cache s with
  | None => s
  | Some _ => if bitmap_dirty_ops s =? 0 then s else sdfs_save_bitmap s
  end.

Definition sdfs_bitmap_touch (s : fs D) : fs D :=
  let s := set_bitmap s (bitmap_cache s) (bitmap_bytes s) (u32 (bitmap_dirty_ops s + 1)) in
  if SDFS_BITMAP_FLUSH_OPS <=? bitmap_dirty_ops s then sdfs_save_bitmap s else s.

Definition sdfs_bitmap_set (s : fs D) (block : Z) (used : bool) : fs D :=
  match bitmap_cache s with
  | None => s
  | Some c =>
      let byte_index := block / 8 in
      let bit_mask := Z.shiftl 1 (block mod 8) in
      if bitmap_bytes s <=? byte_index then s
      else
        let v := if used then Z.lor c.[byte_index] bit_mask else (c.[byte_index] &~ bit_mask) in
        set_bitmap s (Some c.[byte_index <- v]) (bitmap_bytes s) (bitmap_dirty_ops s)
  end.

Definition sdfs_bitmap_test (s : fs D) (block : Z) : bool :=
  match bitmap_cache s with
  | None => false
  | Some c =>
      let byte_index := block / 8 in
      let bit_mask := Z.shiftl 1 (block mod 8) in
      if bitmap_bytes s <=? byte_index then false
      else negb (Z.land c.[byte_index] bit_mask =? 0)
  end.

Definition sdfs_get_usage (s : fs D) : Z * Z :=
  match bitmap_cache s with
  | Some _ =>
      if sdfs_mounted s
      then (disk_total_blocks s, count_true (sdfs_bitmap_test s) (Z.to_nat (disk_total_blocks s)))
      else (0, 0)
  | None => (0, 0)
  end.

(** The search loop of [sdfs_alloc_block_raw] from block [b] on. *)
Fixpoint alloc_search (s : fs D) (b : Z) (n : nat) : option Z :=
  match n with
  | O => None
  | S n' => if negb (sdfs_bitmap_test s b) then Some b else alloc_search s (b + 1) n'
  end.

(** 0 means no block. *)
Definition sdfs_alloc_block_raw (s : fs D) : Z * fs D :=
  match alloc_search s 0 (Z.to_nat (disk_total_blocks s)) with
  | Some b => (b, sdfs_bitmap_touch (sdfs_bitmap_set s b true))
  | None => (0, s)
  end.

Definition sdfs_alloc_block (s : fs D) : Z * fs D :=
  let '(b, s) := sdfs_alloc_block_raw s in
  if b =? 0 then (0, s) else
  let '(ok, s) := sdfs_zero_block s b in
  if ok then (b, s) else (0, s).

Definition sdfs_free_block (s : fs D) (block : Z) : fs D :=
  if ((block =? 0) || (disk_total_blocks s <=? block))%bool then s
  else sdfs_bitmap_touch (sdfs_bitmap_set s block false).

(** ** Chains *)

Definition sdfs_get_next_block (s : fs D) (block : Z) : Z := get32 (snd (sdfs_read_block s block)) 0.

Definition sdfs_set_next_block (s : fs D) (block next : Z) : fs D :=
  snd (metadata_write s block (put32 (snd (sdfs_read_block s block)) 0 next)).

(** A chain longer than the disk has blocks visits a block twice, and a chain
    that does so never ends: this much fuel tells the two apart. *)
Definition chain_fuel (s : fs D) : nat := S (Z.to_nat (disk_total_blocks s)).

(** The [while (1)] of [sdfs_append_block]: the last block of the chain. *)
Fixpoint chain_last (s : fs D) (cur : Z) (fuel : nat) : option Z :=
  match fuel with
  | O => None
  | S f => let next := sdfs_get_next_block s cur in if next =? 0 then Some cur else chain_last s next f
  end.

Definition sdfs_append_block (chain_start : Z) : M (fs D) Z := fun s =>
  let '(new_block, s) := sdfs_alloc_block s in
  if new_block =? 0 then Some (0, s) else
  match chain_last s chain_start (chain_fuel s) with
  | None => None
  | Some cur => Some (new_block, sdfs_set_next_block s cur new_block)
  end.

Fixpoint free_chain_loop (s : fs D) (cur : Z) (fuel : nat) : option (fs D) :=
  if cur =? 0 then Some s
  else match fuel with
       | O => None
       | S f => let next := sdfs_get_next_block s cur in free_chain_loop (sdfs_free_block s cur) next f
       end.

Definition sdfs_free_chain (start_block : Z) : M (fs D) unit := fun s =>
  match free_chain_loop s start_block (chain_fuel s) with None => None | Some s => Some (tt, s) end.
End Code.

(** ** A mounted file system

    [fs_ready] is the state after a mount: every block of the disk can be read
    and written, the bitmap is loaded and covers the disk, the blocks up to the
    root directory (superblock, bitmap, journal, root) are marked used, and the
    journal is off (see [journal_off_until_header_loaded]). *)

Section Ready.
Context {D : Type} `{BlockDev D} (ok : D -> Z -> Prop) `{!BlockDevOk D ok}.
Variable junk : list Z.

Definition content (s : fs D) (n : Z) : list Z := snd (sdfs_read_block junk s n).
Definition bit (s : fs D) (b : Z) : bool := sdfs_bitmap_test s b.

Record fs_ready (s : fs D) : Prop := {
  fr_dev : forall n, 0 <= n < disk_total_blocks s -> ok (dev s) n;
  fr_journal : j_header (jrn s) = None;
  fr_cache : exists c, bitmap_cache s = Some c /\ Forall is_byte c
    /\ Z.of_nat (length c) = disk_bitmap_blocks s * 4096;
  fr_bytes : bitmap_bytes s = disk_bitmap_blocks s * 4096;
  fr_total : disk_total_blocks s <= 8 * bitmap_bytes s /\ disk_total_blocks s < 2 ^ 32;
  fr_area : 1 <= disk_bitmap_block s /\ 0 < disk_bitmap_blocks s
    /\ disk_bitmap_block s + disk_bitmap_blocks s <= disk_root_block s < disk_total_blocks s;
  fr_reserved : forall b, 0 <= b <= disk_root_block s -> bit s b = true
}.

(** Only the device, the bitmap and its counter changed. *)
Definition same_geo (s s' : fs D) : Prop :=
  jrn s' = jrn s /\ sdfs_mounted s' = sdfs_mounted s /\ disk_total_blocks s' = disk_total_blocks s
  /\ disk_bitmap_block s' = disk_bitmap_block s /\ disk_bitmap_blocks s' = disk_bitmap_blocks s
  /\ disk_root_block s' = disk_root_block s /\ bitmap_bytes s' = bitmap_bytes s
  /\ timer_ticks s' = timer_ticks s.

Definition in_bitmap (s : fs D) (n : Z) : Prop :=
  disk_bitmap_block s <= n < disk_bitmap_block s + disk_bitmap_blocks s.

Lemma same_geo_refl s : same_geo s s.
Proof. done. Qed.
Lemma same_geo_trans s1 s2 s3 : same_geo s1 s2 -> same_geo s2 s3 -> same_geo s1 s3.
Proof. unfold same_geo. intuition congruence. Qed.

Lemma content_block s n : fs_ready s -> 0 <= n < disk_total_blocks s -> is_block (content s n).
Proof.
  intros Hr Hn. destruct (bread_ok (dev s) n (fr_dev s Hr n Hn)) as (b & Hb & Hblk).
  unfold content, sdfs_read_block. by rewrite Hb.
Qed.

Lemma read_block_content s n :
  fs_ready s -> 0 <= n < disk_total_blocks s -> sdfs_read_block junk s n = (true, content s n).
Proof.
  intros Hr Hn. destruct (bread_ok (dev s) n (fr_dev s Hr n Hn)) as (b & Hb & _).
  unfold content, sdfs_read_block. by rewrite Hb.
Qed.

Lemma write_block_spec s n b :
  fs_ready s -> 0 <= n < disk_total_blocks s -> is_block b ->
  exists s', sdfs_write_block s n b = (true, s') /\ fs_ready s' /\ same_geo s s'
    /\ bitmap_cache s' = bitmap_cache s
    /\ forall m, 0 <= m < disk_total_blocks s -> content s' m = if decide (m = n) then b else content s m.
Proof.
  intros Hr Hn Hb. destruct (bwrite_ok (dev s) n b (fr_dev s Hr n Hn) Hb) as (d' & Hw & Hrd & Hok).
  unfold sdfs_write_block. rewrite Hw. eexists. split; [done|]. destruct Hr.
  split_and!; [|done..|].
  - constructor; try done. intros m Hm. apply Hok. by apply fr_dev0.
  - intros m Hm. unfold content, sdfs_read_block. cbn [dev set_dev]. rewrite Hrd by (by apply fr_dev0).
    by case_decide.
Qed.

Lemma metadata_write_spec s n b :
  fs_ready s -> 0 <= n < disk_total_blocks s -> is_block b ->
  exists s', metadata_write s n b = (true, s') /\ fs_ready s' /\ same_geo s s'
    /\ bitmap_cache s' = bitmap_cache s
    /\ forall m, 0 <= m < disk_total_blocks s -> content s' m = if decide (m = n) then b else content s m.
Proof.
  intros Hr Hn Hb. destruct (write_block_spec s n b Hr Hn Hb) as (s' & Hw & Hrest). exists s'. split; [|done].
  unfold metadata_write, sdfs_metadata_write, sdfs_journal_write_block, sdfs_journal_clean.
  rewrite (fr_journal s Hr). unfold sdfs_write_block in Hw.
  destruct (bwrite (dev s) n b) as [o d']. injection Hw as -> <-. by rewrite (fr_journal s Hr).
Qed.

(** *** Bitmap *)

Lemma bit_spec s c b :
  bitmap_cache s = Some c -> 0 <= b < 8 * bitmap_bytes s -> bit s b = Z.testbit c.[b / 8] (b mod 8).
Proof.
  intros Hc Hb. unfold bit, sdfs_bitmap_test. rewrite Hc, (proj2 (Z.leb_gt _ _)) by zlia.
  apply land_bit_test. zlia.
Qed.

Lemma bitmap_set_spec s b used :
  fs_ready s -> disk_root_block s < b < disk_total_blocks s ->
  let s' := sdfs_bitmap_set s b used in
  fs_ready s' /\ same_geo s s' /\ dev s' = dev s
  /\ forall i, 0 <= i < disk_total_blocks s -> bit s' i = if decide (i = b) then used else bit s i.
Proof.
  intros Hr Hb. cbv zeta. destruct (fr_cache s Hr) as (c & Hc & Hcb & Hcl).
  pose proof (fr_bytes s Hr) as Hby. pose proof (fr_total s Hr) as Ht. pose proof (fr_area s Hr) as Ha.
  unfold sdfs_bitmap_set. rewrite Hc, (proj2 (Z.leb_gt _ _)) by zlia.
  set (v := if used then _ else _). set (s' := set_bitmap s _ _ _).
  assert (Hbits : forall i, 0 <= i < disk_total_blocks s -> bit s' i = if decide (i = b) then used else bit s i).
  { intros i Hi. rewrite (bit_spec s' c.[b / 8 <- v] i eq_refl) by (cbn [s' set_bitmap bitmap_bytes]; lia).
    rewrite (bit_spec s c i Hc) by lia. rewrite nthZ_updZ by zlia.
    destruct (Z.eqb_spec (b / 8) (i / 8)) as [Eq|Ne]; [|rewrite decide_False by (intros ->; done); done].
    unfold v. rewrite <- Eq. destruct used.
    - rewrite testbit_set_bit by zlia. case_decide as Hd.
      + subst i. by rewrite Z.eqb_refl, orb_true_r.
      + rewrite (proj2 (Z.eqb_neq _ _)) by zlia. apply orb_false_r.
    - rewrite testbit_clear_bit by zlia. case_decide as Hd.
      + subst i. rewrite Z.eqb_refl. apply andb_false_r.
      + rewrite (proj2 (Z.eqb_neq _ _)) by zlia. apply andb_true_r. }
  assert (Hv : is_byte v).
  { assert (Hcv : 0 <= c.[b / 8] < 2 ^ 8) by (apply (nthZ_Forall is_byte); [done|unfold is_byte; lia]).
    unfold v, is_byte. destruct used; [apply lor_range; [lia|done|]|by apply land_range].
    rewrite Z.shiftl_1_l. split; [apply Z.pow_nonneg; lia|apply Z.pow_lt_mono_r; zlia]. }
  split_and!; [|done|done|done]. destruct Hr. constructor; try done.
  - exists c.[b / 8 <- v]. split_and!; [done| |].
    + unfold updZ. by apply Forall_insert.
    + rewrite length_updZ. done.
  - intros i Hi. rewrite Hbits by (cbn [s' set_bitmap disk_root_block] in Hi; lia).
    rewrite decide_False by (cbn [s' set_bitmap disk_root_block] in Hi; lia).
    apply fr_reserved0. exact Hi.
Qed.

(** Writing the bitmap out changes only the bitmap's blocks on disk. *)
Lemma save_bitmap_loop_spec s c i n :
  fs_ready s -> bitmap_cache s = Some c -> Forall is_byte c -> Z.of_nat (length c) = disk_bitmap_blocks s * 4096 ->
  0 <= i -> i + Z.of_nat n <= disk_bitmap_blocks s ->
  let s' := save_bitmap_loop s c i n in
  fs_ready s' /\ same_geo s s' /\ bitmap_cache s' = bitmap_cache s
  /\ forall m, 0 <= m < disk_total_blocks s -> ~ in_bitmap s m -> content s' m = content s m.
Proof.
  revert s i. induction n as [|n IH]; intros s i Hr Hc Hcb Hcl Hi Hn; cbn [save_bitmap_loop]; [done|].
  pose proof (fr_area s Hr) as Ha. pose proof (fr_total s Hr) as Ht. rewrite u32_small by lia.
  destruct (write_block_spec s (disk_bitmap_block s + i) (sub c (Z.to_nat (i * 4096)) 4096) Hr)
    as (s1 & Hw & Hr1 & Hg1 & Hc1 & Hrd1); [lia| |].
  { split; [apply length_sub; lia|by apply Forall_sub]. }
  rewrite Hw. destruct Hg1 as (G1 & G2 & G3 & G4 & G5 & G6 & G7 & G8).
  destruct (IH s1 (i + 1)) as (Hr2 & Hg2 & Hc2 & Hrd2); [done|congruence|done|congruence|lia|lia|].
  split_and!; [done| |congruence|].
  - eapply same_geo_trans; [|exact Hg2]. by unfold same_geo.
  - intros m Hm Hout. unfold in_bitmap in *. rewrite Hrd2 by (rewrite ?G3, ?G4, ?G5; done).
    rewrite Hrd1 by done. by rewrite decide_False by lia.
Qed.

Lemma bitmap_touch_spec s :
  fs_ready s -> let s' := sdfs_bitmap_touch s in
  fs_ready s' /\ same_geo s s' /\ bitmap_cache s' = bitmap_cache s
  /\ forall m, 0 <= m < disk_total_blocks s -> ~ in_bitmap s m -> content s' m = content s m.
Proof.
  intros Hr. cbv zeta. unfold sdfs_bitmap_touch. set (s1 := set_bitmap s _ _ _).
  assert (Hr1 : fs_ready s1) by (destruct Hr; by constructor).
  ztest; [|done]. unfold sdfs_save_bitmap.
  destruct (fr_cache s1 Hr1) as (c & Hc & Hcb & Hcl). rewrite Hc. pose proof (fr_area s1 Hr1) as Ha.
  destruct (save_bitmap_loop_spec s1 c 0 (Z.to_nat (disk_bitmap_blocks s1)) Hr1 Hc Hcb Hcl)
    as (Hr2 & Hg2 & Hc2 & Hrd2); [lia|lia|].
  cbv zeta. set (s2 := save_bitmap_loop s1 c 0 _) in *. split_and!.
  - destruct Hr2. by constructor.
  - exact Hg2.
  - exact Hc2.
  - exact Hrd2.
Qed.

Lemma bit_cache s s' b : bitmap_cache s' = bitmap_cache s -> bitmap_bytes s' = bitmap_bytes s -> bit s' b = bit s b.
Proof. intros Hc Hb. unfold bit, sdfs_bitmap_test. by rewrite Hc, Hb. Qed.

Lemma alloc_search_spec s b n :
  match alloc_search s b n with
  | Some r => b <= r < b + Z.of_nat n /\ bit s r = false /\ forall i, b <= i < r -> bit s i = true
  | None => forall i, b <= i < b + Z.of_nat n -> bit s i = true
  end.
Proof.
  revert b. induction n as [|n IH]; intros b; cbn [alloc_search]; [intros; lia|].
  fold (bit s b). destruct (bit s b) eqn:E; simpl negb; cbv iota.
  - specialize (IH (b + 1)). destruct (alloc_search s (b + 1) n) as [r|].
    + destruct IH as (H1 & H2 & H3). split_and!; [lia|lia|done|]. intros i Hi.
      destruct (decide (i = b)) as [->|]; [done|]. apply H3. lia.
    + intros i Hi. destruct (decide (i = b)) as [->|]; [done|]. apply IH. lia.
  - split_and!; [lia|lia|done|]. intros; lia.
Qed.

(** Allocation: what it returns and what it leaves alone. *)
Lemma alloc_block_raw_spec s :
  fs_ready s ->
  (sdfs_alloc_block_raw s = (0, s) /\ forall i, 0 <= i < disk_total_blocks s -> bit s i = true)
  \/ exists b s', sdfs_alloc_block_raw s = (b, s') /\ disk_root_block s < b < disk_total_blocks s
     /\ bit s b = false /\ (forall i, 0 <= i < b -> bit s i = true)
     /\ fs_ready s' /\ same_geo s s'
     /\ (forall i, 0 <= i < disk_total_blocks s -> bit s' i = if decide (i = b) then true else bit s i)
     /\ forall m, 0 <= m < disk_total_blocks s -> ~ in_bitmap s m -> content s' m = content s m.
Proof.
  intros Hr. pose proof (fr_area s Hr) as Ha. unfold sdfs_alloc_block_raw.
  pose proof (alloc_search_spec s 0 (Z.to_nat (disk_total_blocks s))) as Hs.
  destruct (alloc_search s 0 (Z.to_nat (disk_total_blocks s))) as [b|].
  - right. destruct Hs as (Hb & Hf & Hlow).
    assert (Hroot : disk_root_block s < b).
    { destruct (decide (disk_root_block s < b)); [done|]. rewrite (fr_reserved s Hr) in Hf by lia. done. }
    destruct (bitmap_set_spec s b true Hr) as (Hr1 & Hg1 & Hd1 & Hb1); [lia|].
    destruct (bitmap_touch_spec _ Hr1) as (Hr2 & Hg2 & Hc2 & Hrd2).
    pose proof Hg1 as (G1 & G2 & G3 & G4 & G5 & G6 & G7 & G8).
    eexists b, _. split; [done|]. split_and!; [lia|lia|done| |done| | |].
    + intros i Hi. apply Hlow. lia.
    + by eapply same_geo_trans.
    + intros i Hi. rewrite <- Hb1 by done. apply bit_cache; [done|]. by destruct Hg2 as (_ & _ & _ & _ & _ & _ & ? & _).
    + intros m Hm Hout. unfold in_bitmap in *. rewrite Hrd2 by (rewrite ?G3, ?G4, ?G5; done).
      unfold content, sdfs_read_block. by rewrite Hd1.
  - left. split; [done|]. intros i Hi. apply Hs. lia.
Qed.
End Ready.
