(* ===== verification/SdfsDir.v ===== *)
(** * SDFS: directories (second part of [src/src/fs/sdfs.c])

    A directory is a chain of blocks; each block has the next block number, an
    entry count and 4090 bytes of packed entries.  An entry in memory is the
    record [entry]: [e_name] is the first [name_len] bytes of its [name]
    buffer.  The scans follow the code's cursor ([off] into the block, bytes
    [remaining], entries left to visit). *)

From Stdlib Require Import ZArith Lia.
From stdpp Require Import base numbers list gmap.
From S2P Require Import Prelude Bytes Crc32 BlockDev Journal SdfsBlock.

Definition SDFS_TYPE_FREE : Z := 0.
Definition SDFS_TYPE_FILE : Z := 1.
Definition SDFS_TYPE_DIR : Z := 2.
Definition SDFS_TYPE_DEL : Z := 3.
Definition SDFS_DEFAULT_PERM : Z := Z.lor (Z.lor (Z.lor 0x100 0x200) 0x010) 0x004.
Definition SDFS_PERM_EXEC : Z := 1.

Record entry := {
  e_type : Z;
  e_name : list Z;
  e_start : Z;
  e_size : Z;
  e_created : Z;
  e_modified : Z;
  e_uid : Z;
  e_gid : Z;
  e_perm : Z;
  (** the block and offset it was read from *)
  e_block : Z;
  e_offset : Z
}.

Definition entry_len (e : entry) : Z := Z.of_nat (length (e_name e)).
Definition is_gone (type : Z) : bool := ((type =? SDFS_TYPE_FREE) || (type =? SDFS_TYPE_DEL))%bool.

(** ** Serialisation *)

(** The bytes of an entry on disk. *)
Definition entry_bytes (e : entry) : list Z :=
  [e_type e; entry_len e] ++ e_name e ++ le_bytes 4 (e_start e) ++ le_bytes 4 (e_size e)
  ++ le_bytes 4 (e_created e) ++ le_bytes 4 (e_modified e)
  ++ le_bytes 2 (e_uid e) ++ le_bytes 2 (e_gid e) ++ le_bytes 2 (e_perm e).

(** Into [buf] at [off], [None] when it returns -1. *)
Definition sdfs_entry_serialize (buf : list Z) (off : nat) (buf_size : Z) (e : entry) : option (list Z) :=
  let needed := 2 + entry_len e + 24 in
  if buf_size <? needed then None else Some (splice buf off (entry_bytes e)).

Inductive parsed :=
| DErr                        (* -1 *)
| DSkip                       (* 1: free or deleted *)
| DEntry (size : Z) (e : entry).

Definition sdfs_entry_deserialize (buf : list Z) (off : nat) (buf_size : Z) : parsed :=
  if buf_size <? 2 then DErr else
  let type := get8 buf off in
  let name_len := get8 buf (off + 1) in
  if is_gone type then DSkip else
  let needed_v2 := 2 + name_len + 24 in
  let needed_v1 := 2 + name_len + 12 in
  let name := sub buf (off + 2) (Z.to_nat name_len) in
  let o := (off + 2 + Z.to_nat name_len)%nat in
  if needed_v2 <=? buf_size then
    if name_len =? 0 then DErr else
    DEntry needed_v2
      {| e_type := type; e_name := name; e_start := get32 buf o; e_size := get32 buf (o + 4);
         e_created := get32 buf (o + 8); e_modified := get32 buf (o + 12);
         e_uid := get16 buf (o + 16); e_gid := get16 buf (o + 18); e_perm := get16 buf (o + 20);
         e_block := 0; e_offset := 0 |}
  else if needed_v1 <=? buf_size then
    if name_len =? 0 then DErr else
    DEntry needed_v1
      {| e_type := type; e_name := name; e_start := get32 buf o; e_size := get32 buf (o + 4);
         e_created := get32 buf (o + 8); e_modified := get32 buf (o + 8);
         e_uid := 0; e_gid := 0; e_perm := SDFS_DEFAULT_PERM; e_block := 0; e_offset := 0 |}
  else DErr.

Definition at_place (e : entry) (block : Z) (off : nat) : entry :=
  {| e_type := e_type e; e_name := e_name e; e_start := e_start e; e_size := e_size e;
     e_created := e_created e; e_modified := e_modified e; e_uid := e_uid e; e_gid := e_gid e;
     e_perm := e_perm e; e_block := block; e_offset := u16 (Z.of_nat off) |}.

(** ** Scans of one block *)

(** [sdfs_dir_block_t]: next block, entry count, data from byte 6. *)
Definition db_next (b : list Z) : Z := get32 b 0.
Definition db_count (b : list Z) : Z := get16 b 4.
Definition DB_DATA : nat := 6.
Definition DB_SIZE : Z := 4090.

(** The [for] loop of [sdfs_dir_count_entries]. *)
Fixpoint count_scan (b : list Z) (off : nat) (remaining : Z) (n : nat) (count : Z) : Z :=
  match n with
  | O => count
  | S n' =>
      if remaining <? 2 then count else
      let type := get8 b off in
      let name_len := get8 b (off + 1) in
      if is_gone type then count_scan b (off + 2) (remaining - 2) n' count else
      let entry_size := 2 + name_len + 24 in
      if remaining <? entry_size then count else
      let count :=
        if (((type =? SDFS_TYPE_FILE) || (type =? SDFS_TYPE_DIR)) && (0 <? name_len))%bool
        then count + 1 else count in
      count_scan b (off + Z.to_nat entry_size) (remaining - entry_size) n' count
  end.

(** The [for] loop of [sdfs_dir_find_entry]. *)
Fixpoint find_scan (b : list Z) (cur : Z) (name : list Z) (off : nat) (remaining : Z) (n : nat)
  : option entry :=
  match n with
  | O => None
  | S n' =>
      if remaining <? 2 then None else
      match sdfs_entry_deserialize b off remaining with
      | DErr => None
      | DSkip => find_scan b cur name (off + 2) (remaining - 2) n'
      | DEntry sz e =>
          if strcmp_eq (e_name e) name then Some (at_place e cur off)
          else find_scan b cur name (off + Z.to_nat sz) (remaining - sz) n'
      end
  end.

(** The [for] loop of [sdfs_dir_find_by_index]: the entry, or the count so far. *)
Fixpoint index_scan (b : list Z) (cur index : Z) (off : nat) (remaining : Z) (n : nat) (count : Z)
  : entry + Z :=
  match n with
  | O => inr count
  | S n' =>
      if remaining <? 2 then inr count else
      match sdfs_entry_deserialize b off remaining with
      | DErr => inr count
      | DSkip => index_scan b cur index (off + 2) (remaining - 2) n' count
      | DEntry sz e =>
          if count =? index then inl (at_place e cur off)
          else index_scan b cur index (off + Z.to_nat sz) (remaining - sz) n' (count + 1)
      end
  end.

(** The [for] loop of [sdfs_dir_add_entry] for an entry of [needed] bytes:
    whether it stopped at a free slot, the cursor and the bytes remaining. *)
Fixpoint add_scan (b : list Z) (needed : Z) (off : nat) (remaining : Z) (n : nat) : bool * nat * Z :=
  match n with
  | O => (false, off, remaining)
  | S n' =>
      if remaining <? 2 then (false, off, remaining) else
      let type := get8 b off in
      let name_len := get8 b (off + 1) in
      let slot_size := if is_gone type then 2 else 2 + name_len + 24 in
      if (is_gone type && (needed <=? slot_size))%bool then (true, off, remaining) else
      if remaining <? slot_size then (false, off, remaining) else
      add_scan b needed (off + Z.to_nat slot_size) (remaining - slot_size) n'
  end.

(** The [for] loop of [sdfs_dir_remove_entry]: where the entry is. *)
Fixpoint remove_scan (b : list Z) (name : list Z) (off : nat) (remaining : Z) (n : nat) : option nat :=
  match n with
  | O => None
  | S n' =>
      if remaining <? 2 then None else
      match sdfs_entry_deserialize b off remaining with
      | DErr => None
      | DSkip => remove_scan b name (off + 2) (remaining - 2) n'
      | DEntry sz e =>
          if strcmp_eq (e_name e) name then Some off
          else remove_scan b name (off + Z.to_nat sz) (remaining - sz) n'
      end
  end.

Section Code.
Context {D : Type} `{BlockDev D}.
Variable junk : list Z.
Local Abbreviation read_block := (sdfs_read_block junk).

(** ** Directory operations

    Each walks the chain of directory blocks; [None] is a chain that never
    ends. *)

(** -1 is the result of a failed read. *)
Fixpoint count_chain (s : fs D) (cur count : Z) (fuel : nat) : option Z :=
  if cur =? 0 then Some count
  else match fuel with
  | O => None
  | S f =>
      let '(ok, b) := read_block s cur in
      if negb ok then Some (-1) else
      if db_count b =? 0 then Some count else
      count_chain s (db_next b) (count_scan b DB_DATA DB_SIZE (Z.to_nat (db_count b)) count) f
  end.

Definition sdfs_dir_count_entries (s : fs D) (dir_block : Z) : option Z :=
  count_chain s dir_block 0 (chain_fuel s).

Fixpoint find_chain (s : fs D) (name : list Z) (cur : Z) (fuel : nat) : option (option entry) :=
  if cur =? 0 then Some None
  else match fuel with
  | O => None
  | S f =>
      let b := snd (read_block s cur) in
      if db_count b =? 0 then Some None else
      match find_scan b cur name DB_DATA DB_SIZE (Z.to_nat (db_count b)) with
      | Some e => Some (Some e)
      | None => find_chain s name (db_next b) f
      end
  end.

Definition sdfs_dir_find_entry (s : fs D) (dir_block : Z) (name : list Z) : option (option entry) :=
  find_chain s name dir_block (chain_fuel s).

Fixpoint index_chain (s : fs D) (index cur count : Z) (fuel : nat) : option (option entry) :=
  if cur =? 0 then Some None
  else match fuel with
  | O => None
  | S f =>
      let b := snd (read_block s cur) in
      if db_count b =? 0 then Some None else
      match index_scan b cur index DB_DATA DB_SIZE (Z.to_nat (db_count b)) count with
      | inl e => Some (Some e)
      | inr count => index_chain s index (db_next b) count f
      end
  end.

Definition sdfs_dir_find_by_index (s : fs D) (dir_block index : Z) : option (option entry) :=
  index_chain s index dir_block 0 (chain_fuel s).

Definition sdfs_dir_name_exists (s : fs D) (dir_block : Z) (name : list Z) : option bool :=
  match sdfs_dir_find_entry s dir_block name with
  | None => None
  | Some r => Some (match r with Some _ => true | None => false end)
  end.

(** The [while (1)] of [sdfs_dir_add_entry]; [true] is the result 0. *)
Fixpoint add_chain (s : fs D) (e : entry) (cur : Z) (fuel : nat) : option (bool * fs D) :=
  match fuel with
  | O => None
  | S f =>
      let b := snd (read_block s cur) in
      let needed := 2 + entry_len e + 24 in
      let '(found_free, off, remaining) := add_scan b needed DB_DATA DB_SIZE (Z.to_nat (db_count b)) in
      if found_free then
        match sdfs_entry_serialize b off remaining e with
        | None => Some (false, s)
        | Some b => Some (metadata_write s cur b)
        end
      else if needed <=? remaining then
        match sdfs_entry_serialize b off remaining e with
        | None => Some (false, s)
        | Some b' => Some (metadata_write s cur (put16 b' 4 (u16 (db_count b + 1))))
        end
      else if db_next b =? 0 then
        let '(new_block, s) := sdfs_alloc_block s in
        if new_block =? 0 then Some (false, s) else
        let '(ok, s) := metadata_write s cur (put32 b 0 new_block) in
        if negb ok then Some (false, s) else add_chain s e new_block f
      else add_chain s e (db_next b) f
  end.

Definition sdfs_dir_add_entry (dir_block : Z) (e : entry) : M (fs D) bool := fun s =>
  add_chain s e dir_block (S (chain_fuel s)).

Fixpoint remove_chain (s : fs D) (name : list Z) (cur : Z) (fuel : nat) : option (bool * fs D) :=
  if cur =? 0 then Some (false, s)
  else match fuel with
  | O => None
  | S f =>
      let '(ok, b) := read_block s cur in
      if negb ok then Some (false, s) else
      if db_count b =? 0 then Some (false, s) else
      match remove_scan b name DB_DATA DB_SIZE (Z.to_nat (db_count b)) with
      | Some off => Some (metadata_write s cur (put8 b off SDFS_TYPE_DEL))
      | None => remove_chain s name (db_next b) f
      end
  end.

Definition sdfs_dir_remove_entry (dir_block : Z) (name : list Z) : M (fs D) bool := fun s =>
  remove_chain s name dir_block (chain_fuel s).
End Code.

(** ** Entries survive the disk *)

Record entry_ok (e : entry) : Prop := {
  eo_type : is_byte (e_type e);
  eo_live : is_gone (e_type e) = false;
  eo_name : (0 < length (e_name e) <= 255)%nat;
  eo_start : is_u32 (e_start e);
  eo_size : is_u32 (e_size e);
  eo_created : is_u32 (e_created e);
  eo_modified : is_u32 (e_modified e);
  eo_uid : 0 <= e_uid e < 2 ^ 16;
  eo_gid : 0 <= e_gid e < 2 ^ 16;
  eo_perm : 0 <= e_perm e < 2 ^ 16
}.

(** The entry without the place it was read from. *)
Definition unplaced (e : entry) : entry :=
  {| e_type := e_type e; e_name := e_name e; e_start := e_start e; e_size := e_size e;
     e_created := e_created e; e_modified := e_modified e; e_uid := e_uid e; e_gid := e_gid e;
     e_perm := e_perm e; e_block := 0; e_offset := 0 |}.

Lemma length_entry_bytes e : length (entry_bytes e) = (length (e_name e) + 24)%nat.
Proof. unfold entry_bytes. rewrite !length_app, !length_le_bytes by lia. simpl. lia. Qed.

(** Reading a field of a buffer that holds [pre ++ field ++ post] at [off]. *)
Lemma sub_app_field b off pre field post n :
  sub b off (length (pre ++ field ++ post)) = pre ++ field ++ post -> n = length field ->
  sub b (off + length pre) n = field.
Proof.
  intros H ->. apply list_eq. intros i. rewrite lookup_sub. case_decide as Hi.
  - apply (f_equal (fun l => l !! (length pre + i)%nat)) in H.
    rewrite lookup_sub, decide_True in H by (rewrite !length_app; lia).
    rewrite lookup_app_r, lookup_app_l in H by lia.
    replace (length pre + i - length pre)%nat with i in H by lia. rewrite <- H. f_equal. lia.
  - symmetry. apply lookup_ge_None_2. lia.
Qed.

Lemma sub_sub_prefix b off n m : (m <= n)%nat -> sub b off m = take m (sub b off n).
Proof. intros H. unfold sub. by rewrite take_take, Nat.min_l. Qed.

(** A buffer holding the bytes of an entry at [off]. *)
Definition holds_entry (b : list Z) (off : nat) (e : entry) : Prop :=
  sub b off (length (entry_bytes e)) = entry_bytes e.

Lemma deserialize_holds b off rem e :
  holds_entry b off e -> entry_ok e -> 2 + entry_len e + 24 <= rem ->
  sdfs_entry_deserialize b off rem = DEntry (2 + entry_len e + 24) (unplaced e).
Proof.
  intros Hb [Ht Hlive Hn Hs Hz Hc Hm Hu Hg Hp] Hrem. unfold holds_entry in Hb.
  set (n := length (e_name e)) in *.
  assert (Hf : forall pre field post k, entry_bytes e = pre ++ field ++ post -> k = length field ->
            sub b (off + length pre) k = field).
  { intros pre field post k E Hk. apply (sub_app_field b off pre field post); [|done]. by rewrite <- E. }
  assert (G8 : get8 b off = e_type e).
  { rewrite get8_sub. pose proof (Hf [] [e_type e] (drop 1 (entry_bytes e)) 1%nat eq_refl eq_refl) as X.
    cbn [length] in X. rewrite Nat.add_0_r in X. by rewrite X. }
  assert (G9 : get8 b (off + 1) = Z.of_nat n).
  { rewrite get8_sub.
    pose proof (Hf [e_type e] [entry_len e] (drop 2 (entry_bytes e)) 1%nat eq_refl eq_refl) as X.
    cbn [length] in X. by rewrite X. }
  assert (GN : sub b (off + 2) n = e_name e).
  { apply (Hf [e_type e; entry_len e] (e_name e) (drop (2 + n) (entry_bytes e))); [|done].
    unfold entry_bytes. simpl. unfold n. by rewrite drop_app_length. }
  assert (GF : forall fl k, (k < 7)%nat ->
    fl = [le_bytes 4 (e_start e); le_bytes 4 (e_size e); le_bytes 4 (e_created e); le_bytes 4 (e_modified e);
          le_bytes 2 (e_uid e); le_bytes 2 (e_gid e); le_bytes 2 (e_perm e)] ->
    forall f, fl !! k = Some f -> sub b (off + 2 + n + length (concat (take k fl))) (length f) = f).
  { intros fl k Hk Hfl f Hlk. rewrite <- Nat.add_assoc, <- Nat.add_assoc.
    replace (2 + (n + length (concat (take k fl))))%nat
      with (length ([e_type e; entry_len e] ++ e_name e ++ concat (take k fl))) by (rewrite !length_app; simpl; lia).
    apply (Hf _ f (concat (drop (S k) fl))); [|done]. unfold entry_bytes.
    rewrite <- !app_assoc. do 2 f_equal. rewrite <- (concat_cons f), <- concat_app.
    rewrite take_drop_middle by done. rewrite Hfl. cbn [concat]. by rewrite app_nil_r. }
  assert (L4 : forall v, length (le_bytes 4 v) = 4%nat) by (intros; by rewrite length_le_bytes).
  assert (L2 : forall v, length (le_bytes 2 v) = 2%nat) by (intros; by rewrite length_le_bytes).
  unfold sdfs_entry_deserialize. rewrite (proj2 (Z.ltb_ge _ _)) by (unfold entry_len in Hrem; lia).
  cbv zeta. rewrite G8, G9, Hlive. fold n in Hrem. unfold entry_len in *. fold n in Hrem |- *.
  rewrite (proj2 (Z.leb_le _ _)) by lia. rewrite (proj2 (Z.eqb_neq (Z.of_nat n) 0)) by lia.
  rewrite Nat2Z.id, GN. unfold unplaced. f_equal.
  pose proof (GF _ 0%nat ltac:(lia) eq_refl _ eq_refl) as F0. pose proof (GF _ 1%nat ltac:(lia) eq_refl _ eq_refl) as F1.
  pose proof (GF _ 2%nat ltac:(lia) eq_refl _ eq_refl) as F2. pose proof (GF _ 3%nat ltac:(lia) eq_refl _ eq_refl) as F3.
  pose proof (GF _ 4%nat ltac:(lia) eq_refl _ eq_refl) as F4. pose proof (GF _ 5%nat ltac:(lia) eq_refl _ eq_refl) as F5.
  pose proof (GF _ 6%nat ltac:(lia) eq_refl _ eq_refl) as F6. clear GF.
  cbn [take concat length] in *. rewrite !length_app, !L4, ?L2 in *. cbn [length Nat.add] in *.
  rewrite Nat.add_0_r in F0. unfold get32, get16.
  rewrite F0, F1, F2, F3, F4, F5, F6. f_equal; by apply le_bytes_value.
Qed.

(** A directory entry written by [sdfs_entry_serialize] is read back by
    [sdfs_entry_deserialize] field for field, with the number of bytes it
    takes, wherever in the buffer it is placed. *)
Theorem entry_roundtrip buf off size e b' rem :
  entry_ok e -> (off + length (entry_bytes e) <= length buf)%nat ->
  sdfs_entry_serialize buf off size e = Some b' -> 2 + entry_len e + 24 <= rem ->
  sdfs_entry_deserialize b' off rem = DEntry (2 + entry_len e + 24) (unplaced e).
Proof.
  intros He Hlen Hs Hrem. apply deserialize_holds; [|done|done].
  unfold sdfs_entry_serialize in Hs. cbv zeta in Hs. destruct (size <? _); [done|]. injection Hs as <-.
  by apply sub_splice_eq.
Qed.

Definition entry_demo : entry :=
  {| e_type := 1; e_name := [104; 105]; e_start := 70000; e_size := 12; e_created := 5; e_modified := 6;
     e_uid := 1000; e_gid := 100; e_perm := SDFS_DEFAULT_PERM; e_block := 9; e_offset := 6 |}.

Lemma entry_demo_ok : entry_ok entry_demo.
Proof. constructor; simpl; try by_compute; try done; lia. Qed.

Lemma entry_roundtrip_witness :
  sdfs_entry_deserialize (default [] (sdfs_entry_serialize (zeros 64) 6 58 entry_demo)) 6 58
  = DEntry 28 (unplaced entry_demo).
Proof.
  apply (entry_roundtrip (zeros 64) 6 58 entry_demo _ 58 entry_demo_ok);
    [vm_compute; lia|reflexivity|vm_compute; discriminate].
Defined.

(** ** A directory block as a list of entries *)

Definition slot_bytes (e : entry) : nat := (26 + length (e_name e))%nat.
Definition dir_bytes (es : list entry) : nat := sum_list (slot_bytes <$> es).

Fixpoint holds_entries (b : list Z) (off : nat) (es : list entry) : Prop :=
  match es with
  | [] => True
  | e :: es' => holds_entry b off e /\ holds_entries b (off + slot_bytes e) es'
  end.

(** The abstract state of a directory block: its live entries, in order. *)
Record dir_block (b : list Z) (es : list entry) : Prop := {
  dbk_len : length b = 4096%nat;
  dbk_count : db_count b = Z.of_nat (length es);
  dbk_ok : Forall entry_ok es;
  dbk_names : Forall (fun e => no_nul (e_name e)) es;
  dbk_fit : (6 + dir_bytes es <= 4096)%nat;
  dbk_holds : holds_entries b 6 es
}.

Definition lookup_name (es : list entry) (name : list Z) : option entry :=
  head (filter (fun e => e_name e = name) es).

Lemma slot_bytes_len e : 2 + entry_len e + 24 = Z.of_nat (slot_bytes e).
Proof. unfold entry_len, slot_bytes. lia. Qed.

Lemma dir_bytes_cons e es : dir_bytes (e :: es) = (slot_bytes e + dir_bytes es)%nat.
Proof. done. Qed.

Lemma dir_bytes_snoc es e : dir_bytes (es ++ [e]) = (dir_bytes es + slot_bytes e)%nat.
Proof.
  induction es as [|x es IH]; [cbn [app]; rewrite dir_bytes_cons; change (dir_bytes []) with 0%nat; lia|].
  cbn [app]. rewrite !dir_bytes_cons, IH. lia.
Qed.
#[global] Opaque slot_bytes dir_bytes.

Lemma holds_entries_app b off es es' :
  holds_entries b off (es ++ es') <-> holds_entries b off es /\ holds_entries b (off + dir_bytes es) es'.
Proof.
  revert off. induction es as [|e es IH]; intros off; cbn [holds_entries app].
  - change (dir_bytes []) with 0%nat. rewrite Nat.add_0_r. tauto.
  - rewrite IH, dir_bytes_cons, Nat.add_assoc. tauto.
Qed.

(** Writing outside the entries keeps them. *)
Lemma holds_entries_splice b off es o bs :
  (o + length bs <= length b)%nat -> (o + length bs <= off \/ off + dir_bytes es <= o)%nat ->
  holds_entries b off es -> holds_entries (splice b o bs) off es.
Proof.
  intros Hl. revert off. induction es as [|e es IH]; intros off Hd; cbn [holds_entries]; [done|].
  intros [H1 H2]. rewrite dir_bytes_cons in Hd. pose proof (length_entry_bytes e) as He.
  pose proof (slot_bytes_len e) as Hsl. unfold entry_len in Hsl. split.
  - unfold holds_entry in *. rewrite sub_splice_ne; [done|done|]. lia.
  - apply IH; [|done]. lia.
Qed.

Lemma at_place_unplaced e cur off : unplaced (at_place (unplaced e) cur off) = unplaced e.
Proof. done. Qed.

Lemma find_scan_spec b cur name es off :
  no_nul name -> Forall entry_ok es -> Forall (fun e => no_nul (e_name e)) es -> holds_entries b off es ->
  forall rem, Z.of_nat (dir_bytes es) <= rem ->
  unplaced <$> find_scan b cur name off rem (length es) = unplaced <$> lookup_name es name.
Proof.
  intros Hn. revert off. induction es as [|e es IH]; intros off Hok Hnm Hh rem Hrem; [done|].
  apply Forall_cons in Hok as [Hok Hoks]. apply Forall_cons in Hnm as [Hnm Hnms]. destruct Hh as [H1 H2].
  pose proof (slot_bytes_len e) as Hsl. rewrite dir_bytes_cons in Hrem.
  cbn [length find_scan]. rewrite (proj2 (Z.ltb_ge rem 2)) by (unfold entry_len in *; lia).
  rewrite (deserialize_holds b off rem e) by (done || lia).
  unfold strcmp_eq. cbn [e_name unplaced]. rewrite !c_str_id by done. unfold lookup_name.
  rewrite filter_cons. case_bool_decide as Hc.
  - by rewrite decide_True by done.
  - rewrite decide_False by done. rewrite Hsl, Nat2Z.id. apply IH; [done|done|done|lia].
Qed.

Lemma add_scan_spec b needed es off :
  Forall entry_ok es -> holds_entries b off es ->
  forall rem, Z.of_nat (dir_bytes es) <= rem ->
  add_scan b needed off rem (length es) = (false, (off + dir_bytes es)%nat, rem - Z.of_nat (dir_bytes es)).
Proof.
  revert off. induction es as [|e es IH]; intros off Hok Hh rem Hrem.
  - cbn [add_scan length]. change (dir_bytes []) with 0%nat. f_equal; [|lia]. f_equal. lia.
  - apply Forall_cons in Hok as [Hok Hoks]. destruct Hh as [H1 H2].
    pose proof (slot_bytes_len e) as Hsl. rewrite dir_bytes_cons in *. cbn [length add_scan].
    rewrite (proj2 (Z.ltb_ge rem 2)) by (unfold entry_len in *; lia).
    assert (G : get8 b off = e_type e /\ get8 b (off + 1) = entry_len e).
    { pose proof (sub_app_field b off [] [e_type e] (drop 1 (entry_bytes e)) 1%nat H1 eq_refl) as X.
      pose proof (sub_app_field b off [e_type e] [entry_len e] (drop 2 (entry_bytes e)) 1%nat H1 eq_refl) as Y.
      cbn [length] in X, Y. rewrite Nat.add_0_r in X. by rewrite !get8_sub, X, Y. }
    destruct G as [-> ->]. rewrite (eo_live _ Hok). simpl andb. cbv iota.
    rewrite (proj2 (Z.ltb_ge rem _)) by lia. rewrite Hsl, Nat2Z.id.
    rewrite IH by (done || lia). f_equal; [|lia]. f_equal. lia.
Qed.

(** Appending an entry to a block with room. *)
Lemma dir_block_append b es e :
  dir_block b es -> entry_ok e -> no_nul (e_name e) -> (6 + dir_bytes es + slot_bytes e <= 4096)%nat ->
  Z.of_nat (length es) + 1 < 2 ^ 16 ->
  dir_block (put16 (splice b (6 + dir_bytes es) (entry_bytes e)) 4 (u16 (db_count b + 1))) (es ++ [e]).
Proof.
  intros [Hl Hc Hok Hnm Hfit Hh] He Hn Hroom Hcnt. pose proof (length_entry_bytes e) as Hle.
  pose proof (slot_bytes_len e) as Hsl. unfold entry_len in Hsl. set (off := (6 + dir_bytes es)%nat) in *.
  assert (Hl1 : length (splice b off (entry_bytes e)) = length b) by (apply length_splice; lia).
  constructor.
  - rewrite length_put16 by lia. congruence.
  - rewrite length_app. unfold db_count. rewrite get16_put16; [|lia|apply Z.mod_pos_bound; lia].
    fold (db_count b). rewrite Hc, u16_small by lia. simpl. lia.
  - apply Forall_app. by split; [|constructor].
  - apply Forall_app. by split; [|constructor].
  - rewrite dir_bytes_snoc. unfold off in Hroom. lia.
  - apply holds_entries_splice; rewrite ?length_le_bytes by lia; [lia|lia|]. apply holds_entries_app. split.
    + apply holds_entries_splice; [lia|lia|done].
    + split; [|done]. unfold holds_entry. apply sub_splice_eq. lia.
Qed.

(** ** Operations on a one-block directory *)

Section Ops.
Context {D : Type} `{BlockDev D} (ok : D -> Z -> Prop) `{!BlockDevOk D ok}.
Variable junk : list Z.
Local Abbreviation ready := (fs_ready ok).
Local Abbreviation content := (content junk).

Lemma put16_next b v : length b = 4096%nat -> db_next (put16 b 4 v) = db_next b.
Proof.
  intros Hl. unfold db_next, get32, put16. rewrite sub_splice_ne; [done| |left; lia].
  rewrite length_le_bytes by lia. rewrite Hl. lia.
Qed.

(** Finding a name in a directory of one block. *)
Lemma dir_find_spec (s : fs D) d es name :
  0 < d < disk_total_blocks s -> dir_block (content s d) es -> db_next (content s d) = 0 -> no_nul name ->
  exists r, sdfs_dir_find_entry junk s d name = Some r /\ unplaced <$> r = unplaced <$> lookup_name es name.
Proof.
  intros Hd Hdb Hnext Hn. unfold sdfs_dir_find_entry, chain_fuel. cbn [find_chain].
  rewrite (proj2 (Z.eqb_neq d 0)) by lia. fold (content s d).
  rewrite (dbk_count _ _ Hdb). destruct (length es =? 0)%nat eqn:El.
  { apply Nat.eqb_eq, length_zero_iff_nil in El. subst es. by exists None. }
  apply Nat.eqb_neq in El. rewrite (proj2 (Z.eqb_neq _ 0)) by lia. rewrite Nat2Z.id.
  assert (Hscan : unplaced <$> find_scan (content s d) d name DB_DATA DB_SIZE (length es)
                  = unplaced <$> lookup_name es name).
  { pose proof (dbk_fit _ _ Hdb). apply find_scan_spec; try apply Hdb; [done|unfold DB_SIZE; lia]. }
  destruct (find_scan _ _ _ _ _ _) as [x|]; [by exists (Some x)|].
  exists None. rewrite Hnext. split; [|done]. by destruct (Z.to_nat _).
Qed.

(** Adding an entry to a block with room. *)
Lemma dir_add_spec (s : fs D) d es e :
  ready s -> 0 <= d < disk_total_blocks s -> dir_block (content s d) es ->
  entry_ok e -> Forall is_byte (e_name e) -> no_nul (e_name e) ->
  (6 + dir_bytes es + slot_bytes e <= 4096)%nat ->
  exists s', sdfs_dir_add_entry junk d e s = Some (true, s') /\ ready s' /\ same_geo s s'
    /\ bitmap_cache s' = bitmap_cache s
    /\ dir_block (content s' d) (es ++ [e]) /\ db_next (content s' d) = db_next (content s d)
    /\ forall m, 0 <= m < disk_total_blocks s -> m <> d -> content s' m = content s m.
Proof.
  intros Hr Hd Hdb He Hnb Hn Hroom. pose proof (dbk_fit _ _ Hdb) as Hfit.
  pose proof (slot_bytes_len e) as Hsl. pose proof (length_entry_bytes e) as Hle.
  unfold sdfs_dir_add_entry. cbn [add_chain]. fold (content s d).
  rewrite (dbk_count _ _ Hdb), Nat2Z.id. unfold DB_DATA, DB_SIZE.
  rewrite (add_scan_spec _ _ es) by (apply Hdb || lia).
  rewrite Hsl, (proj2 (Z.leb_le _ _)) by lia. unfold sdfs_entry_serialize. rewrite Hsl.
  rewrite (proj2 (Z.ltb_ge _ _)) by lia. cbv zeta iota beta.
  assert (Hcnt : Z.of_nat (length es) + 1 < 2 ^ 16).
  { assert (Hmul : (26 * length es <= dir_bytes es)%nat).
    { clear. induction es as [|x es IH]; [change (dir_bytes []) with 0%nat; simpl; lia|].
      rewrite dir_bytes_cons. pose proof (slot_bytes_len x). unfold entry_len in *. simpl length. lia. }
    lia. }
  pose proof (dir_block_append _ _ e Hdb He Hn Hroom Hcnt) as Hnew.
  rewrite (dbk_count _ _ Hdb) in Hnew.
  set (b' := put16 (splice (content s d) (6 + dir_bytes es) (entry_bytes e)) 4 (u16 (Z.of_nat (length es) + 1))) in *.
  assert (Hbb : is_block b').
  { split; [apply Hnew|]. unfold b', put16. apply Forall_splice; [|by apply le_bytes_bytes].
    apply Forall_splice; [by apply (content_block ok junk s d Hr)|]. unfold entry_bytes.
    rewrite !Forall_app. split_and!; try apply le_bytes_bytes; try lia; [|done].
    destruct He. constructor; [done|]. constructor; [|done]. unfold is_byte, entry_len. lia. }
  destruct (metadata_write_spec ok junk s d b' Hr Hd Hbb) as (s' & -> & Hr' & Hg & Hc & Hrd).
  exists s'. split; [done|]. rewrite (Hrd d Hd), decide_True by done. split_and!; [done|done|done|done| |].
  - unfold b'. rewrite put16_next.
    + unfold db_next, get32. unfold splice at 1. rewrite <- (sub_splice_ne (content s d) (6 + dir_bytes es) (entry_bytes e) 0 4);
        [done|rewrite (dbk_len _ _ Hdb); unfold entry_len in Hsl; lia|left; lia].
    + rewrite length_splice; [apply Hdb|]. rewrite (dbk_len _ _ Hdb). unfold entry_len in Hsl. lia.
  - intros m Hm Hne. rewrite Hrd by done. by rewrite decide_False.
Qed.

Lemma lookup_name_snoc es e :
  lookup_name es (e_name e) = None -> lookup_name (es ++ [e]) (e_name e) = Some e.
Proof.
  unfold lookup_name. rewrite filter_app. destruct (filter _ es) as [|x l]; [|done]. intros _. simpl.
  rewrite filter_cons, decide_True by done. done.
Qed.

Lemma lookup_name_other es e name :
  e_name e <> name -> lookup_name (es ++ [e]) name = lookup_name es name.
Proof.
  intros Hne. unfold lookup_name. rewrite filter_app, (filter_cons _ e []), decide_False by done.
  by rewrite filter_nil, app_nil_r.
Qed.
End Ops.
