(* ===== verification/Sdfs.v ===== *)
(** * SDFS: paths, format, mount, the path API and the VFS callbacks (rest of
    [src/src/fs/sdfs.c])

    Paths and names are lists of bytes without their NUL.  [stack] is what an
    uninitialised [sdfs_entry_t] on the stack holds: [sdfs_resolve_full]
    returns -1 without writing its result, and callers that test the result as
    a truth value then read the entry.  A pointer argument is never NULL here;
    the NULL tests of the code are dropped. *)

From Stdlib Require Import ZArith Lia String.
From stdpp Require Import base numbers list gmap.
From S2P Require Import Prelude Bytes Crc32 BlockDev Journal SdfsBlock SdfsDir.

Definition SLASH : Z := 47.
Definition SDFS_FORMAT_VER : Z := 2.
Definition SDFS_DEFAULT_JOURNAL_BLOCKS : Z := 16.
Definition SDFS_DEFAULT_MAX_MOUNTS : Z := 100.
Definition SDFS_MAX_BLOCKS : Z := 4 * 1024 * 1024.
Definition SDFS_MAGIC_V2 : list Z := [83; 68; 70; 83; 48; 48; 50; 48].
Definition SDFS_MAGIC_V1 : list Z := [83; 68; 70; 83; 48; 48; 49; 48].
Definition FILE_DATA : Z := 4092.

(** Fields of [sdfs_super_t] and [sdfs_super_v1_t]. *)
Definition sb_version : nat := 8.
Definition sb_block_size : nat := 12.
Definition sb_total : nat := 16.
Definition sb_bitmap : nat := 20.
Definition sb_bitmaps : nat := 24.
Definition sb_jstart : nat := 28.
Definition sb_jblocks : nat := 32.
Definition sb_root : nat := 36.
Definition sb_mounts : nat := 40.
Definition sb_max_mounts : nat := 44.
Definition sb_created : nat := 48.
Definition sb_crc : nat := 52.

(** What [sdfs_format] and [sdfs_mount] learn from the drivers: whether there
    is a disk, its sector 0 and the number of sectors it reports (0 when it
    reports none). *)
Record disk_probe := {
  dp_present : bool;
  dp_sector0 : option (list Z);
  dp_sectors : Z
}.

(** [fs_node_t], the fields SDFS uses. *)
Definition FS_FILE : Z := 1.
Definition FS_DIRECTORY : Z := 2.
Record node := {
  n_name : list Z;
  n_flags : Z;
  n_inode : Z;
  n_length : Z;
  n_impl : Z;
  n_impl_offset : Z
}.

(** ** Path splitting *)

(** What follows the last slash. *)
Definition path_leaf (p : list Z) : list Z :=
  reverse (take_while (fun c => negb (c =? SLASH)) (reverse p)).

(** The components before the leaf; empty ones are skipped. *)
Fixpoint path_components (p cur : list Z) : list (list Z) :=
  match p with
  | [] => []
  | c :: p' =>
      if c =? SLASH then
        match cur with [] => path_components p' [] | _ => cur :: path_components p' [] end
      else path_components p' (cur ++ [c])
  end.

Section Code.
Context {D : Type} `{BlockDev D}.
Variable junk : list Z.
Variable stack : entry.
Local Abbreviation read_block := (sdfs_read_block junk).
Local Abbreviation next_block := (sdfs_get_next_block junk).

(** ** Path resolution *)

(** The component loop of [sdfs_resolve_parent]; [Some None] is the result -1. *)
Fixpoint resolve_walk (s : fs D) (comps : list (list Z)) (cur : Z) : option (option Z) :=
  match comps with
  | [] => Some (Some cur)
  | c :: comps' =>
      match sdfs_dir_find_entry junk s cur c with
      | None => None
      | Some None => Some None
      | Some (Some e) =>
          if negb (e_type e =? SDFS_TYPE_DIR) then Some None else resolve_walk s comps' (e_start e)
      end
  end.

Definition sdfs_resolve_parent (s : fs D) (path : list Z) : option (option (Z * list Z)) :=
  if negb (path.[0] =? SLASH) then Some None else
  if (length path <=? 1)%nat then Some None else
  if 511 <=? Z.of_nat (length path) then Some None else
  let leaf := path_leaf path in
  if (length leaf =? 0)%nat then Some None else
  match resolve_walk s (path_components (take (length path - length leaf) path) []) (disk_root_block s) with
  | None => None
  | Some None => Some None
  | Some (Some blk) => Some (Some (blk, take 255 leaf))
  end.

(** -1, 0 or 1, with the entry. *)
Definition sdfs_resolve_full (s : fs D) (path : list Z) : option (Z * entry) :=
  match sdfs_resolve_parent s path with
  | None => None
  | Some None => Some (-1, stack)
  | Some (Some (parent, name)) =>
      match sdfs_dir_find_entry junk s parent name with
      | None => None
      | Some None => Some (0, stack)
      | Some (Some e) => Some (1, e)
      end
  end.

(** ** Check, format, mount *)

(** [sdfs_fsck]; its only effect is on the mount counter. *)
Definition sdfs_fsck (s : fs D) : Z * fs D :=
  match bitmap_cache s with
  | None => (-1, s)
  | Some _ =>
      if disk_total_blocks s =? 0 then (-1, s) else
      if ((disk_max_mounts s <? disk_mount_count s) && (0 <? disk_max_mounts s))%bool
      then (0, set_geometry s (dev s) (disk_total_blocks s) (disk_bitmap_block s) (disk_bitmap_blocks s)
                 (disk_root_block s) (disk_journal_start s) (disk_journal_blocks s) 0
                 (disk_max_mounts s) (disk_format_version s))
      else (0, s)
  end.

(** The superblock [sdfs_format] writes. *)
Definition format_superblock (total bitmaps jstart root created : Z) : list Z :=
  let b := splice (zeros 4096) 0 SDFS_MAGIC_V2 in
  let b := put32 b sb_version SDFS_FORMAT_VER in
  let b := put32 b sb_block_size SDFS_BLOCK_SIZE in
  let b := put32 b sb_total total in
  let b := put32 b sb_bitmap 1 in
  let b := put32 b sb_bitmaps bitmaps in
  let b := put32 b sb_jstart jstart in
  let b := put32 b sb_jblocks SDFS_DEFAULT_JOURNAL_BLOCKS in
  let b := put32 b sb_root root in
  let b := put32 b sb_mounts 0 in
  let b := put32 b sb_max_mounts SDFS_DEFAULT_MAX_MOUNTS in
  let b := put32 b sb_created created in
  put32 b sb_crc (crc32_calc (take 52 b)).

(** The size decisions of [sdfs_format]: total blocks, bitmap blocks. *)
Definition format_total (p : disk_probe) (sector0 : list Z) : Z :=
  let part := get32 sector0 458 in
  let part := if part =? 0 then 204800 else part in
  let sectors :=
    if 0 <? dp_sectors p then (if 0xFFFFFFFF <? dp_sectors p then 0xFFFFFFFF else dp_sectors p) else part in
  let total := sectors / SDFS_SECTORS_PER_BLOCK in
  let total := if total <? 10 then 25600 else total in
  if SDFS_MAX_BLOCKS <? total then SDFS_MAX_BLOCKS else total.

Definition format_bitmap_blocks (total : Z) : Z :=
  let bytes := (total + 7) / 8 in
  let blocks := (bytes + SDFS_BLOCK_SIZE - 1) / SDFS_BLOCK_SIZE in
  if blocks <? 1 then 1 else blocks.

(** The loop that marks the reserved blocks. *)
Fixpoint mark_reserved (s : fs D) (b : Z) (n : nat) : fs D :=
  match n with O => s | S n' => mark_reserved (sdfs_bitmap_set s b true) (b + 1) n' end.

Definition sdfs_format (p : disk_probe) (s : fs D) : Z * fs D :=
  if negb (dp_present p) then (-1, s) else
  match dp_sector0 p with
  | None => (-1, s)
  | Some sector0 =>
      let total := format_total p sector0 in
      let bitmaps := format_bitmap_blocks total in
      let jstart := 1 + bitmaps in
      let root := jstart + SDFS_DEFAULT_JOURNAL_BLOCKS in
      let total := if total <=? root + 1 then root + 3 else total in
      let s := set_geometry s (btotal (dev s) total) total 1 bitmaps root jstart SDFS_DEFAULT_JOURNAL_BLOCKS 0
                 SDFS_DEFAULT_MAX_MOUNTS SDFS_FORMAT_VER in
      let s := set_bitmap s (bitmap_cache s) ((total + 7) / 8) (bitmap_dirty_ops s) in
      let '(ok, s) := sdfs_write_block s 0 (format_superblock total bitmaps jstart root (timer_ticks s)) in
      if negb ok then (-1, s) else
      let bytes := bitmaps * SDFS_BLOCK_SIZE in
      let s := set_bitmap s (Some (zeros (Z.to_nat bytes))) bytes (bitmap_dirty_ops s) in
      let s := mark_reserved s 0 (Z.to_nat (root + 1)) in
      let s := sdfs_save_bitmap s in
      let '(ok, s) := sdfs_zero_block s root in
      let s := set_bitmap s None (bitmap_bytes s) (bitmap_dirty_ops s) in
      if negb ok then (-1, s) else (0, s)
  end.

(** The superblock as [sdfs_mount] writes it back. *)
Definition mounted_superblock (b : list Z) : list Z :=
  let b := put32 b sb_mounts (u32 (get32 b sb_mounts + 1)) in
  put32 b sb_crc (crc32_calc (take 52 (put32 b sb_crc 0))).

Definition v2_unusable (b : list Z) : bool :=
  ((get32 b sb_total <? 10) || (SDFS_MAX_BLOCKS <? get32 b sb_total) || (get32 b sb_bitmaps =? 0)
   || (get32 b sb_total <=? get32 b sb_root)
   || (get32 b sb_total <? u32 (get32 b sb_bitmap + get32 b sb_bitmaps)))%bool.

Definition mount_v2 (s : fs D) (b : list Z) : fs D :=
  set_geometry s (btotal (dev s) (get32 b sb_total)) (get32 b sb_total) (get32 b sb_bitmap) (get32 b sb_bitmaps)
    (get32 b sb_root) (get32 b sb_jstart) (get32 b sb_jblocks) (u32 (get32 b sb_mounts + 1))
    (get32 b sb_max_mounts) (get32 b sb_version).

Definition mount_v1 (s : fs D) (b : list Z) : fs D :=
  set_geometry s (btotal (dev s) (get32 b 12)) (get32 b 12) (get32 b 16) (get32 b 20) (get32 b 24) 0 0 0 0 1.

(** The part of [sdfs_mount] after the superblock. *)
Definition mount_rest (s : fs D) : option node * fs D :=
  let '(ok, s) := sdfs_load_bitmap junk s in
  if negb ok then (None, s) else
  let s :=
    if ((0 <? disk_journal_start s) && (2 <=? disk_journal_blocks s))%bool then
      let j := sdfs_journal_init (jrn s) (disk_journal_start s) (disk_journal_blocks s) in
      let '(_, j, d) := sdfs_journal_replay junk j (dev s) in
      set_dev s j d
    else s in
  let '(_, s) := sdfs_fsck s in
  (Some {| n_name := str "sdfs_root"%string; n_flags := FS_DIRECTORY; n_inode := disk_root_block s;
           n_length := 0; n_impl := 0; n_impl_offset := 0 |},
   set_mounted s true).

Definition sdfs_mount (p : disk_probe) (s : fs D) : option node * fs D :=
  if negb (dp_present p) then (None, s) else
  match read_block s 0 with
  | (false, _) => (None, s)
  | (true, b) =>
      if bool_decide (take 8 b = SDFS_MAGIC_V2) then
        let s := mount_v2 s b in
        if v2_unusable b then (None, s) else
        let '(_, s) := sdfs_write_block s 0 (mounted_superblock b) in
        mount_rest s
      else if bool_decide (take 8 b = SDFS_MAGIC_V1) then mount_rest (mount_v1 s b)
      else (None, s)
  end.

Definition sdfs_journal_dirty (s : fs D) : bool * fs D :=
  if disk_journal_start s =? 0 then (false, s) else
  let '(r, j) := sdfs_journal_is_dirty junk (jrn s) (dev s) in (r, set_dev s j (dev s)).

(** ** The path API *)

Definition new_entry (type : Z) (name : list Z) (start size created modified uid gid perm : Z) : entry :=
  {| e_type := type; e_name := name; e_start := start; e_size := size; e_created := created;
     e_modified := modified; e_uid := uid; e_gid := gid; e_perm := perm; e_block := 0; e_offset := 0 |}.

Definition call_alloc_block : M (fs D) Z := fun s => Some (sdfs_alloc_block s).
Definition call_alloc_block_raw : M (fs D) Z := fun s => Some (sdfs_alloc_block_raw s).
Definition call_free_block (b : Z) : M (fs D) unit := mmodify (fun s => sdfs_free_block s b).
Definition call_resolve_parent (path : list Z) : M (fs D) (option (Z * list Z)) := fun s =>
  match sdfs_resolve_parent s path with None => None | Some r => Some (r, s) end.
Definition call_find_entry (blk : Z) (name : list Z) : M (fs D) (option entry) := fun s =>
  match sdfs_dir_find_entry junk s blk name with None => None | Some r => Some (r, s) end.
Definition call_name_exists (blk : Z) (name : list Z) : M (fs D) bool := fun s =>
  match sdfs_dir_name_exists junk s blk name with None => None | Some r => Some (r, s) end.
Definition call_resolve_full (path : list Z) : M (fs D) (Z * entry) := fun s =>
  match sdfs_resolve_full s path with None => None | Some r => Some (r, s) end.

(** [sdfs_create_file] and [sdfs_create_dir], which differ in the entry. *)
Definition create_at (path : list Z) (type perm : Z) : M (fs D) Z :=
  mounted <-- mgets sdfs_mounted ;;
  if (negb mounted || negb (path.[0] =? SLASH))%bool then mret_ (-1) else
  if bool_decide (path = [SLASH]) then mret_ (-1) else
  r <-- call_resolve_parent path ;;
  match r with
  | None => mret_ (-1)
  | Some (parent, name) =>
      ex <-- call_name_exists parent name ;;
      if ex : bool then mret_ (-1) else
      start <-- call_alloc_block ;;
      if start =? 0 then mret_ (-1) else
      now <-- mgets timer_ticks ;;
      ok <-- sdfs_dir_add_entry junk parent (new_entry type name start 0 now now 0 0 perm) ;;
      if negb ok then call_free_block start ;;; mret_ (-1) else mret_ 0
  end.

Definition sdfs_create_file (path : list Z) : M (fs D) Z := create_at path SDFS_TYPE_FILE SDFS_DEFAULT_PERM.
Definition sdfs_create_dir (path : list Z) : M (fs D) Z :=
  create_at path SDFS_TYPE_DIR (Z.lor SDFS_DEFAULT_PERM SDFS_PERM_EXEC).

(** One block of file data: the next block, then the bytes, then zeros. *)
Definition data_block (next : Z) (data : list Z) : list Z :=
  splice (put32 (zeros 4096) 0 next) 4 data.

(** The [while (remaining > 0)] loop of [sdfs_write_file]: [true] when the file
    is written, [false] for its [return 0]. *)
Fixpoint write_blocks (start cur : Z) (src : list Z) (fuel : nat) : M (fs D) bool :=
  match src, fuel with
  | [], _ => mret_ true
  | _ :: _, O => mstop
  | _ :: _, S f =>
      let to_write := take (Z.to_nat FILE_DATA) src in
      let rest := drop (Z.to_nat FILE_DATA) src in
      next <-- (match rest with [] => mret_ (-1) | _ :: _ => call_alloc_block_raw end) ;;
      (* -1: no further block is needed *)
      if next =? 0 then sdfs_free_chain junk start ;;; mret_ false else
      let next := if next =? -1 then 0 else next in
      ok <-- (fun s => Some (sdfs_write_block s cur (data_block next to_write))) ;;
      if negb ok then
        on_disk_next <-- mgets (fun s => next_block s cur) ;;
        sdfs_free_chain junk start ;;;
        mwhen (negb (next =? 0) && negb (on_disk_next =? next)) (call_free_block next) ;;;
        mret_ false
      else write_blocks start next rest f
  end.

(** [buffer] is the [size] bytes the caller passes. *)
Definition sdfs_write_file (path buffer : list Z) : M (fs D) Z :=
  mounted <-- mgets sdfs_mounted ;;
  if negb mounted then mret_ 0 else
  r <-- call_resolve_full path ;;
  let '(exists_, existing) := r in
  let found := negb (exists_ =? 0) in
  if (found && negb (e_type existing =? SDFS_TYPE_FILE))%bool then mret_ 0 else
  (if found then sdfs_free_chain junk (e_start existing) else mret_ tt) ;;;
  r <-- call_resolve_parent path ;;
  match r with
  | None => mret_ 0
  | Some (parent, name) =>
      start <-- (if (length buffer =? 0)%nat then call_alloc_block else call_alloc_block_raw) ;;
      if start =? 0 then mret_ 0 else
      ok <-- write_blocks start start buffer (length buffer) ;;
      if negb ok then mret_ 0 else
      now <-- mgets timer_ticks ;;
      let size := Z.of_nat (length buffer) in
      let e :=
        if found
        then new_entry SDFS_TYPE_FILE name start size (e_created existing) now (e_uid existing)
               (e_gid existing) (e_perm existing)
        else new_entry SDFS_TYPE_FILE name start size now now 0 0 SDFS_DEFAULT_PERM in
      (if found then sdfs_dir_remove_entry junk parent name else mret_ true) ;;;
      ok <-- sdfs_dir_add_entry junk parent e ;;
      if negb ok then sdfs_free_chain junk start ;;; mret_ 0 else mret_ size
  end.

(** The copy loop of [sdfs_read_file]: the bytes copied from [cur] on. *)
Fixpoint read_blocks (s : fs D) (cur remaining : Z) (fuel : nat) : list Z :=
  if ((remaining <=? 0) || (cur =? 0))%bool then []
  else match fuel with
  | O => []
  | S f =>
      let to_copy := if FILE_DATA <? remaining then FILE_DATA else remaining in
      sub (snd (read_block s cur)) 4 (Z.to_nat to_copy)
      ++ read_blocks s (next_block s cur) (remaining - to_copy) f
  end.

(** [Some (size, bytes)] is the buffer returned and [*size_out]; the bytes may
    be fewer than the size when the chain is short.  Each round copies at
    least a byte, so [e_size] rounds are enough. *)
Definition sdfs_read_file (s : fs D) (path : list Z) : option (option (Z * list Z)) :=
  if negb (sdfs_mounted s) then Some None else
  match sdfs_resolve_full s path with
  | None => None
  | Some (r, e) =>
      if r =? 0 then Some None else
      if negb (e_type e =? SDFS_TYPE_FILE) then Some None else
      if e_size e =? 0 then Some (Some (0, [])) else
      Some (Some (e_size e, read_blocks s (e_start e) (e_size e) (Z.to_nat ((e_size e + 4091) / 4092))))
  end.

Definition sdfs_delete (path : list Z) : M (fs D) Z :=
  mounted <-- mgets sdfs_mounted ;;
  if (negb mounted || bool_decide (path = [SLASH]))%bool then mret_ (-1) else
  r <-- call_resolve_parent path ;;
  match r with
  | None => mret_ (-1)
  | Some (parent, name) =>
      r <-- call_find_entry parent name ;;
      match r with
      | None => mret_ (-1)
      | Some e =>
          if e_type e =? SDFS_TYPE_DIR then
            n <-- (fun s => match sdfs_dir_count_entries junk s (e_start e) with
                            | None => None | Some n => Some (n, s) end) ;;
            if 0 <? n then mret_ (-1)
            else call_free_block (e_start e) ;;; sdfs_dir_remove_entry junk parent name ;;; mret_ 0
          else sdfs_free_chain junk (e_start e) ;;; sdfs_dir_remove_entry junk parent name ;;; mret_ 0
      end
  end.

Definition sdfs_rename (old_path new_path : list Z) : M (fs D) Z :=
  mounted <-- mgets sdfs_mounted ;;
  if negb mounted then mret_ (-1) else
  if (bool_decide (old_path = [SLASH]) || bool_decide (new_path = [SLASH]))%bool then mret_ (-1) else
  r <-- call_resolve_parent old_path ;;
  match r with
  | None => mret_ (-1)
  | Some (old_parent, old_name) =>
      r <-- call_find_entry old_parent old_name ;;
      match r with
      | None => mret_ (-1)
      | Some e =>
          r <-- call_resolve_parent new_path ;;
          match r with
          | None => mret_ (-1)
          | Some (new_parent, new_name) =>
              ex <-- call_name_exists new_parent new_name ;;
              if ex : bool then mret_ (-1) else
              sdfs_dir_remove_entry junk old_parent old_name ;;;
              now <-- mgets timer_ticks ;;
              ok <-- sdfs_dir_add_entry junk new_parent
                       (new_entry (e_type e) new_name (e_start e) (e_size e) (e_created e) now
                          (e_uid e) (e_gid e) (e_perm e)) ;;
              if negb ok then
                sdfs_dir_add_entry junk old_parent
                  (new_entry (e_type e) old_name (e_start e) (e_size e) (e_created e) (e_modified e)
                     (e_uid e) (e_gid e) (e_perm e)) ;;;
                mret_ (-1)
              else mret_ 0
          end
      end
  end.

(** The results are (return value, is_dir, size). *)
Definition sdfs_path_info (s : fs D) (path : list Z) : option (Z * bool * Z) :=
  if negb (sdfs_mounted s) then Some (-1, false, 0) else
  if bool_decide (path = [SLASH]) then Some (0, true, 0) else
  match sdfs_resolve_full s path with
  | None => None
  | Some (r, e) =>
      if r =? 0 then Some (-1, false, 0) else Some (0, e_type e =? SDFS_TYPE_DIR, e_size e)
  end.

Definition sdfs_list_dir_entry (s : fs D) (path : list Z) (index : Z) : option (option (list Z * bool * Z)) :=
  if negb (sdfs_mounted s) then Some None else
  match (if bool_decide (path = [SLASH]) then Some (Some (disk_root_block s))
         else match sdfs_resolve_full s path with
              | None => None
              | Some (r, e) =>
                  if ((r =? 0) || negb (e_type e =? SDFS_TYPE_DIR))%bool then Some None
                  else Some (Some (e_start e))
              end) with
  | None => None
  | Some None => Some None
  | Some (Some dir_block) =>
      match sdfs_dir_find_by_index junk s dir_block index with
      | None => None
      | Some None => Some None
      | Some (Some e) => Some (Some (e_name e, e_type e =? SDFS_TYPE_DIR, e_size e))
      end
  end.

Definition sdfs_set_permissions (path : list Z) (perm : Z) : M (fs D) Z :=
  mounted <-- mgets sdfs_mounted ;;
  if negb mounted then mret_ (-1) else
  r <-- call_resolve_parent path ;;
  match r with
  | None => mret_ (-1)
  | Some (parent, name) =>
      r <-- call_find_entry parent name ;;
      match r with
      | None => mret_ (-1)
      | Some e =>
          now <-- mgets timer_ticks ;;
          sdfs_dir_remove_entry junk parent name ;;;
          ok <-- sdfs_dir_add_entry junk parent
                   (new_entry (e_type e) (e_name e) (e_start e) (e_size e) (e_created e) now
                      (e_uid e) (e_gid e) perm) ;;
          mret_ (if ok : bool then 0 else -1)
      end
  end.

Definition sdfs_get_permissions (s : fs D) (path : list Z) : option (Z * Z) :=
  if negb (sdfs_mounted s) then Some (-1, 0) else
  if bool_decide (path = [SLASH]) then Some (0, Z.lor SDFS_DEFAULT_PERM SDFS_PERM_EXEC) else
  match sdfs_resolve_full s path with
  | None => None
  | Some (r, e) => if r =? 0 then Some (-1, 0) else Some (0, e_perm e)
  end.

(** ** The VFS callbacks *)

Definition has_flag (n : node) (f : Z) : bool := negb (Z.land (n_flags n) f =? 0).

(** [for (i = 0; i < block_index; i++) cur = next(cur)], 0 when it ends. *)
Fixpoint skip_blocks (s : fs D) (cur : Z) (n : nat) : Z :=
  match n with
  | O => cur
  | S n' => let next := next_block s cur in if next =? 0 then 0 else skip_blocks s next n'
  end.

(** The copy loop of [sdfs_read]. *)
Fixpoint read_loop (s : fs D) (cur off_in remaining : Z) (fuel : nat) : list Z :=
  if ((remaining <=? 0) || (cur =? 0))%bool then []
  else match fuel with
  | O => []
  | S f =>
      let to_copy := FILE_DATA - off_in in
      let to_copy := if remaining <? to_copy then remaining else to_copy in
      sub (snd (read_block s cur)) (Z.to_nat (4 + off_in)) (Z.to_nat to_copy)
      ++ read_loop s (next_block s cur) 0 (remaining - to_copy) f
  end.

(** The bytes copied; their number is the result.  The loop copies at least one
    byte per round. *)
Definition sdfs_read (s : fs D) (n : node) (offset size : Z) : list Z :=
  if negb (has_flag n FS_FILE) then [] else
  let file_size := n_length n in
  if file_size <=? offset then [] else
  let size := if file_size <? u32 (offset + size) then file_size - offset else size in
  let cur := skip_blocks s (n_inode n) (Z.to_nat (offset / FILE_DATA)) in
  if ((0 <? offset / FILE_DATA) && (cur =? 0))%bool then [] else
  read_loop s cur (offset mod FILE_DATA) size (Z.to_nat (size / FILE_DATA + 2)).

(** The block after [cur], appended to the file when there is none; 0 when the
    disk is full. *)
Definition next_or_append (start cur : Z) : M (fs D) Z :=
  next <-- mgets (fun s => next_block s cur) ;;
  if next =? 0 then sdfs_append_block junk start else mret_ next.

Fixpoint write_skip (start cur : Z) (n : nat) : M (fs D) Z :=
  match n with
  | O => mret_ cur
  | S n' =>
      next <-- next_or_append start cur ;;
      if next =? 0 then mret_ 0 else write_skip start next n'
  end.

(** The write loop of [sdfs_write]; returns the bytes written. *)
Fixpoint write_loop (start cur off_in : Z) (src : list Z) (written : Z) (fuel : nat) : M (fs D) Z :=
  match src, fuel with
  | [], _ => mret_ written
  | _ :: _, O => mstop
  | _ :: _, S f =>
      let room := Z.to_nat (FILE_DATA - off_in) in
      let chunk := take room src in
      let rest := drop room src in
      (fun s => Some (sdfs_write_block s cur
                        (splice (snd (read_block s cur)) (Z.to_nat (4 + off_in)) chunk))) ;;;
      let written := written + Z.of_nat (length chunk) in
      match rest with
      | [] => mret_ written
      | _ :: _ =>
          next <-- next_or_append start cur ;;
          if next =? 0 then mret_ written else write_loop start next 0 rest written f
      end
  end.

Definition with_size (e : entry) (size now : Z) : entry :=
  new_entry (e_type e) (e_name e) (e_start e) size (e_created e) now (e_uid e) (e_gid e) (e_perm e).

(** The directory entry of a node is rewritten in place with a new size. *)
Definition update_entry_size (n : node) (size : Z) : M (fs D) unit :=
  if n_impl n =? 0 then mret_ tt else
  fun s =>
    let b := snd (read_block s (n_impl n)) in
    let off := Z.to_nat (u16 (n_impl_offset n)) in
    let rem := SDFS_BLOCK_SIZE - u16 (n_impl_offset n) in
    match sdfs_entry_deserialize b off rem with
    | DEntry _ e =>
        let b := default b (sdfs_entry_serialize b off rem (with_size e size (timer_ticks s))) in
        Some (tt, snd (metadata_write s (n_impl n) b))
    | _ => Some (tt, s)
    end.

Definition set_length (n : node) (len : Z) : node :=
  {| n_name := n_name n; n_flags := n_flags n; n_inode := n_inode n; n_length := len;
     n_impl := n_impl n; n_impl_offset := n_impl_offset n |}.

(** The bytes written and the node with its new length. *)
Definition sdfs_write (n : node) (offset : Z) (buffer : list Z) : M (fs D) (Z * node) :=
  if negb (has_flag n FS_FILE) then mret_ (0, n) else
  if n_length n <? offset then mret_ (0, n) else
  cur <-- write_skip (n_inode n) (n_inode n) (Z.to_nat (offset / FILE_DATA)) ;;
  if ((0 <? offset / FILE_DATA) && (cur =? 0))%bool then mret_ (0, n) else
  written <-- write_loop (n_inode n) cur (offset mod FILE_DATA) buffer 0 (length buffer) ;;
  if n_length n <? u32 (offset + written) then
    update_entry_size n (u32 (offset + written)) ;;;
    mret_ (written, set_length n (u32 (offset + written)))
  else mret_ (written, n).

(** The name and inode of [struct dirent]. *)
Definition sdfs_readdir (s : fs D) (n : node) (index : Z) : option (option (list Z * Z)) :=
  if negb (has_flag n FS_DIRECTORY) then Some None else
  match sdfs_dir_find_by_index junk s (n_inode n) index with
  | None => None
  | Some None => Some None
  | Some (Some e) => Some (Some (e_name e, e_start e))
  end.

Definition sdfs_truncate (n : node) : M (fs D) node :=
  if negb (has_flag n FS_FILE) then mret_ n else
  next <-- mgets (fun s => next_block s (n_inode n)) ;;
  (if negb (next =? 0)
   then mmodify (fun s => sdfs_set_next_block junk s (n_inode n) 0) ;;; sdfs_free_chain junk next
   else mret_ tt) ;;;
  update_entry_size n 0 ;;;
  mret_ (set_length n 0).

Definition node_of (e : entry) : node :=
  {| n_name := e_name e; n_flags := if e_type e =? SDFS_TYPE_DIR then FS_DIRECTORY else FS_FILE;
     n_inode := e_start e; n_length := e_size e; n_impl := e_block e; n_impl_offset := e_offset e |}.

Definition sdfs_finddir (s : fs D) (n : node) (name : list Z) : option (option node) :=
  if negb (has_flag n FS_DIRECTORY) then Some None else
  match sdfs_dir_find_entry junk s (n_inode n) name with
  | None => None
  | Some None => Some None
  | Some (Some e) => Some (Some (node_of e))
  end.

Definition sdfs_vfs_create (dir : node) (name : list Z) : M (fs D) (option node) :=
  if negb (has_flag dir FS_DIRECTORY) then mret_ None else
  ex <-- call_name_exists (n_inode dir) name ;;
  if ex : bool then mret_ None else
  start <-- call_alloc_block ;;
  if start =? 0 then mret_ None else
  now <-- mgets timer_ticks ;;
  ok <-- sdfs_dir_add_entry junk (n_inode dir)
           (new_entry SDFS_TYPE_FILE (take 255 name) start 0 now now 0 0 SDFS_DEFAULT_PERM) ;;
  if negb ok then call_free_block start ;;; mret_ None
  else fun s => match sdfs_finddir s dir name with None => None | Some r => Some (r, s) end.
End Code.

(** ** Files on disk

    [file_at s blks data]: the chain [blks] holds exactly the bytes [data]. *)

Section Files.
Context {D : Type} `{BlockDev D} (ok : D -> Z -> Prop) `{!BlockDevOk D ok}.
Variable junk : list Z.
Local Abbreviation ready := (fs_ready ok).
Local Abbreviation content := (content junk).
Local Abbreviation CHUNK := (Z.to_nat FILE_DATA).

Fixpoint file_at (s : fs D) (blks data : list Z) : Prop :=
  match blks with
  | [] => data = []
  | b :: rest =>
      disk_root_block s < b < disk_total_blocks s /\ data <> []
      /\ get32 (content s b) 0 = default 0 (head rest)
      /\ sub (content s b) 4 (length (take CHUNK data)) = take CHUNK data
      /\ file_at s rest (drop CHUNK data)
  end.

Lemma chunk_len (data : list Z) : length (take CHUNK data) = Nat.min 4092 (length data).
Proof. by rewrite length_take. Qed.

(** Reading a chain gives the file back. *)
Lemma read_blocks_file s blks data fuel :
  0 <= disk_root_block s -> file_at s blks data -> (length blks <= fuel)%nat ->
  read_blocks junk s (default 0 (head blks)) (Z.of_nat (length data)) fuel = data.
Proof.
  intros H0. revert data fuel. induction blks as [|b blks IH]; intros data fuel Hf Hl; cbn [file_at] in Hf.
  - subst data. by destruct fuel.
  - destruct Hf as (Hb & Hne & Hnx & Hd & Hf). destruct fuel as [|fuel]; [simpl in Hl; lia|].
    assert (Hlen : (0 < length data)%nat) by (destruct data; [done|simpl; lia]).
    cbn [read_blocks head default from_option id].
    rewrite (proj2 (Z.leb_gt _ 0)), (proj2 (Z.eqb_neq b 0)) by lia. cbn [orb].
    assert (Hto : (if FILE_DATA <? Z.of_nat (length data) then FILE_DATA else Z.of_nat (length data))
                  = Z.of_nat (length (take CHUNK data))).
    { rewrite chunk_len. unfold FILE_DATA. ztest; lia. }
    cbv zeta. rewrite Hto, Nat2Z.id. fold (content s b). rewrite Hd.
    unfold sdfs_get_next_block. fold (content s b). rewrite Hnx.
    replace (Z.of_nat (length data) - Z.of_nat (length (take CHUNK data)))
      with (Z.of_nat (length (drop CHUNK data))).
    2: { rewrite chunk_len, length_drop. unfold FILE_DATA. lia. }
    rewrite IH; [apply take_drop|done|simpl in Hl; lia].
Qed.

Lemma file_at_blocks s blks data :
  file_at s blks data -> (length blks <= (length data + 4091) / 4092)%nat.
Proof.
  revert data. induction blks as [|b blks IH]; intros data; cbn [file_at length]; [lia|].
  intros (_ & Hne & _ & _ & Hf). apply IH in Hf. rewrite length_drop in Hf. unfold FILE_DATA in Hf.
  assert (0 < length data)%nat by (destruct data; [done|simpl; lia]).
  change (Z.to_nat 4092) with 4092%nat in Hf.
  destruct (Nat.le_gt_cases (length data) 4092) as [Hle|Hgt].
  - replace (length data - 4092 + 4091)%nat with 4091%nat in Hf by lia.
    change (4091 / 4092)%nat with 0%nat in Hf.
    assert (1 <= (length data + 4091) / 4092)%nat by (apply Nat.div_le_lower_bound; lia). lia.
  - replace (length data + 4091)%nat with (length data - 4092 + 4091 + 1 * 4092)%nat by lia.
    rewrite Nat.div_add by lia. lia.
Qed.

(** A file is untouched by changes to other blocks. *)
Lemma file_at_frame s s' blks data :
  disk_root_block s' = disk_root_block s -> disk_total_blocks s' = disk_total_blocks s ->
  (forall b, b ∈ blks -> content s' b = content s b) -> file_at s blks data -> file_at s' blks data.
Proof.
  intros E1 E2. revert data. induction blks as [|b blks IH]; intros data Hc; cbn [file_at]; [done|].
  intros (Hb & Hne & Hnx & Hd & Hf). rewrite E1, E2, (Hc b) by (by left). split_and!; try done; [lia|lia|].
  apply IH; [|done]. intros x Hx. apply Hc. by right.
Qed.

Lemma data_block_spec next chunk :
  is_u32 next -> (length chunk <= 4092)%nat -> Forall is_byte chunk ->
  is_block (data_block next chunk) /\ get32 (data_block next chunk) 0 = next
  /\ sub (data_block next chunk) 4 (length chunk) = chunk.
Proof.
  intros Hn Hl Hb. unfold data_block.
  assert (Hz : length (put32 (zeros 4096) 0 next) = 4096%nat).
  { rewrite length_put32; unfold zeros; rewrite length_replicate; [done|lia]. }
  split_and!; [split| |].
  - rewrite length_splice by lia. done.
  - apply Forall_splice; [|done]. apply Forall_put32, zeros_bytes.
  - unfold get32. rewrite sub_splice_ne by lia. apply get32_put32; [|done]. unfold zeros. rewrite length_replicate. lia.
  - apply sub_splice_eq. lia.
Qed.

(** What a successful [write_blocks] leaves. *)
Record written (s s' : fs D) (cur : Z) (rest src : list Z) : Prop := {
  wr_file : file_at s' (cur :: rest) src;
  wr_ready : ready s';
  wr_geo : same_geo s s';
  wr_fresh : forall b, b ∈ rest -> disk_root_block s < b < disk_total_blocks s /\ bit s b = false;
  wr_bits : forall i, 0 <= i < disk_total_blocks s -> bit s i = true -> bit s' i = true;
  wr_used : forall b, b ∈ rest -> bit s' b = true;
  wr_frame : forall m, 0 <= m < disk_total_blocks s -> ~ in_bitmap s m -> m ∉ cur :: rest ->
    content s' m = content s m
}.

Lemma in_bitmap_geo (s s' : fs D) m : same_geo s s' -> in_bitmap s' m <-> in_bitmap s m.
Proof. intros (_ & _ & _ & E4 & E5 & _). unfold in_bitmap. by rewrite E4, E5. Qed.

Lemma write_blocks_spec fuel start cur src s s' :
  ready s -> disk_root_block s < cur < disk_total_blocks s -> bit s cur = true ->
  src <> [] -> Forall is_byte src ->
  write_blocks junk start cur src fuel s = Some (true, s') -> exists rest, written s s' cur rest src.
Proof.
  revert cur src s. induction fuel as [|fuel IH]; intros cur src s Hr Hcur Hbit Hne Hby E;
    (destruct src as [|x src0]; [done|]); cbn [write_blocks] in E; [done|].
  set (src := x :: src0) in *. pose proof (fr_area ok s Hr) as Ha. pose proof (fr_total ok s Hr) as Htot.
  assert (Hchunk : (length (take CHUNK src) <= 4092)%nat) by (rewrite chunk_len; lia).
  assert (Hcby : Forall is_byte (take CHUNK src)) by (by apply Forall_take).
  destruct (drop CHUNK src) as [|y rsrc] eqn:Erest.
  - minv E as nx s1 E1. injection E1 as <- <-. cbn [Z.eqb] in E. minv E as o s2 E2.
    destruct (data_block_spec 0 (take CHUNK src)) as (Hdb & Hd0 & Hds); [by_compute|done|done|].
    destruct (write_block_spec ok junk s cur _ Hr ltac:(lia) Hdb) as (s3 & Hw & Hr3 & Hg3 & Hc3 & Hrd3).
    cbn [Z.eqb Pos.eqb] in E2. rewrite Hw in E2. injection E2 as <- <-. cbn [negb] in E. destruct fuel; injection E as <-.
    all: exists []; pose proof Hg3 as (G1 & G2 & G3 & G4 & G5 & G6 & G7 & G8); constructor.
    all: try done.
    all: try (intros b Hb; by apply not_elem_of_nil in Hb).
    all: try (cbn [file_at]; rewrite (Hrd3 cur) by lia; rewrite decide_True by done;
              rewrite G3, G6, Erest; split_and!; try done; lia).
    all: try (intros i Hi Hb; by rewrite (bit_cache s s3)).
    all: intros m Hm Hout Hnin; rewrite Hrd3 by done; rewrite decide_False; [done|];
         intros ->; apply Hnin; by left.
  - minv E as nx s1 E1. unfold call_alloc_block_raw in E1. injection E1 as E1.
    destruct (alloc_block_raw_spec ok junk s Hr) as [[Ea _]|(b & sa & Ea & Hb & Hfree & _ & Hra & Hga & Hbits & Hrda)];
      rewrite Ea in E1; injection E1 as <- <-.
    { cbn [Z.eqb] in E. minv E as u s2 E2. done. }
    rewrite (proj2 (Z.eqb_neq b 0)), (proj2 (Z.eqb_neq b (-1))) in E by lia.
    minv E as o s2 E2. pose proof Hga as (G1 & G2 & G3 & G4 & G5 & G6 & G7 & G8).
    destruct (data_block_spec b (take CHUNK src)) as (Hdb & Hd0 & Hds); [unfold is_u32; lia|done|done|].
    destruct (write_block_spec ok junk sa cur _ Hra ltac:(lia) Hdb) as (s3 & Hw & Hr3 & Hg3 & Hc3 & Hrd3).
    rewrite Hw in E2. injection E2 as <- <-. cbn [negb] in E.
    pose proof Hg3 as (K1 & K2 & K3 & K4 & K5 & K6 & K7 & K8).
    assert (Hbits3 : forall i, 0 <= i < disk_total_blocks s -> bit s3 i = if decide (i = b) then true else bit s i).
    { intros i Hi. rewrite <- Hbits by done. by apply bit_cache. }
    destruct (IH b (y :: rsrc) s3 Hr3) as (rest & [Wf Wr Wg Wfr Wb Wu Wframe]);
      [rewrite K3, K6, G3, G6; lia|rewrite Hbits3 by lia; by rewrite decide_True|done| |exact E|].
    { rewrite <- Erest. by apply Forall_drop. }
    assert (Hcb : cur <> b) by (intros ->; congruence).
    assert (Hcr : cur ∉ b :: rest).
    { intros [->|Hin]%elem_of_cons; [done|]. destruct (Wfr _ Hin) as [_ Hf]. rewrite Hbits3 in Hf by lia.
      rewrite decide_False in Hf by done. congruence. }
    assert (Hbm : forall m, disk_root_block s < m -> ~ in_bitmap s m) by (unfold in_bitmap; lia).
    exists (b :: rest). pose proof Wg as (L1 & L2 & L3 & L4 & L5 & L6 & L7 & L8). constructor.
    + cbn [file_at]. rewrite Erest.
      split; [rewrite L6, K6, G6, L3, K3, G3; lia|split; [done|split; [|split; [|exact Wf]]]].
      * rewrite Wframe; [|rewrite K3, G3; lia| |done].
        -- rewrite Hrd3, decide_True by (done || rewrite G3; lia). done.
        -- rewrite (in_bitmap_geo sa s3) by done. rewrite (in_bitmap_geo s sa) by done. apply Hbm. lia.
      * rewrite Wframe; [|rewrite K3, G3; lia| |done].
        -- rewrite Hrd3, decide_True by (done || rewrite G3; lia). done.
        -- rewrite (in_bitmap_geo sa s3) by done. rewrite (in_bitmap_geo s sa) by done. apply Hbm. lia.
    + done.
    + eapply same_geo_trans; [exact Hga|]. by eapply same_geo_trans.
    + intros c [->|Hin]%elem_of_cons; [done|]. destruct (Wfr c Hin) as [Hc Hf].
      rewrite K3, K6, G3, G6 in Hc. split; [done|]. rewrite Hbits3 in Hf by lia. by case_decide.
    + intros i Hi Hbi. apply Wb; [rewrite K3, G3; done|]. rewrite Hbits3 by done. by case_decide.
    + intros c [->|Hin]%elem_of_cons; [|by apply Wu]. apply Wb; [rewrite K3, G3; lia|].
      rewrite Hbits3 by lia. by rewrite decide_True.
    + intros m Hm Hout Hnin. apply not_elem_of_cons in Hnin as [Hm1 Hm2].
      rewrite Wframe; [|rewrite K3, G3; done| |done].
      * rewrite Hrd3 by (rewrite G3; done). rewrite decide_False by done. by apply Hrda.
      * rewrite (in_bitmap_geo sa s3) by done. by rewrite (in_bitmap_geo s sa) by done.
Qed.

(** *** Reading a slice of a file *)

Lemma file_at_skip s blks data k :
  0 <= disk_root_block s -> file_at s blks data -> (k < length blks)%nat ->
  skip_blocks junk s (default 0 (head blks)) k = default 0 (head (drop k blks))
  /\ file_at s (drop k blks) (drop (k * CHUNK) data).
Proof.
  intros H0. revert blks data. induction k as [|k IH]; intros blks data Hf Hk; [done|].
  destruct blks as [|b blks]; [simpl in Hk; lia|]. cbn [file_at] in Hf.
  destruct Hf as (Hb & Hne & Hnx & Hd & Hf). cbn [skip_blocks head default from_option id drop length] in *.
  unfold sdfs_get_next_block. fold (content s b). rewrite Hnx.
  destruct (IH blks (drop CHUNK data) Hf) as [I1 I2]; [lia|].
  rewrite drop_drop in I2. change (CHUNK + k * CHUNK)%nat with (S k * CHUNK)%nat in I2.
  destruct blks as [|b' blks]; [simpl in Hk; lia|]. cbn [head default from_option id] in *.
  cbn [file_at] in Hf. rewrite (proj2 (Z.eqb_neq b' 0)) by lia. done.
Qed.

Lemma sub_sub_shift b o n m k l : sub b o n = l -> (m + k <= n)%nat -> sub b (o + m) k = take k (drop m l).
Proof.
  intros <- Hmk. apply list_eq. intros i. rewrite lookup_sub. case_decide as Hi.
  - rewrite lookup_take_lt, lookup_drop, lookup_sub, decide_True by lia. f_equal. lia.
  - symmetry. apply lookup_take_ge. lia.
Qed.

Lemma read_loop_file s blks data off_in remaining fuel :
  0 <= disk_root_block s -> file_at s blks data -> (off_in <= 4092)%nat ->
  (off_in + remaining <= length data)%nat -> (off_in < 4092 \/ remaining = 0)%nat -> (off_in + remaining <= fuel * 4092)%nat ->
  read_loop junk s (default 0 (head blks)) (Z.of_nat off_in) (Z.of_nat remaining) fuel
  = take remaining (drop off_in data).
Proof.
  intros H0. revert data off_in remaining fuel. induction blks as [|b blks IH]; intros data off_in remaining fuel Hf Ho Hr Hor Hl.
  - cbn [file_at] in Hf. subst data. simpl in Hr. assert (remaining = 0%nat) as -> by lia. by destruct fuel.
  - cbn [file_at] in Hf. destruct Hf as (Hb & Hne & Hnx & Hd & Hf).
    destruct (decide (remaining = 0%nat)) as [->|Hrem]; [by destruct fuel|].
    destruct fuel as [|fuel]; [lia|]. cbn [read_loop head default from_option id].
    rewrite (proj2 (Z.leb_gt _ 0)), (proj2 (Z.eqb_neq b 0)) by lia. cbn [orb]. cbv zeta.
    set (n := Nat.min (4092 - off_in) remaining).
    assert (Hto : (if Z.of_nat remaining <? FILE_DATA - Z.of_nat off_in then Z.of_nat remaining
                   else FILE_DATA - Z.of_nat off_in) = Z.of_nat n) by (unfold FILE_DATA, n; ztest; lia).
    rewrite Hto, Nat2Z.id. fold (content s b). unfold sdfs_get_next_block. fold (content s b). rewrite Hnx.
    replace (Z.to_nat (4 + Z.of_nat off_in)) with (4 + off_in)%nat by lia.
    assert (HC : CHUNK = 4092%nat) by reflexivity.
    rewrite (sub_sub_shift _ 4 _ off_in n _ Hd) by (rewrite chunk_len; unfold n; lia).
    replace (Z.of_nat remaining - Z.of_nat n) with (Z.of_nat (remaining - n)) by (unfold n; lia).
    pose proof (IH (drop CHUNK data) 0%nat (remaining - n)%nat fuel Hf) as IH'.
    change (Z.of_nat 0) with 0 in IH'. rewrite drop_0 in IH'.
    rewrite IH'; [|lia|rewrite length_drop, HC; unfold n; lia|lia|unfold n; lia]. rewrite HC in *.
    rewrite <- (take_drop n (take remaining (drop off_in data))). f_equal.
    + rewrite take_take, Nat.min_l by (unfold n; lia). apply list_eq. intros i.
      destruct (Nat.lt_ge_cases i n); [|rewrite !lookup_take_ge by lia; done].
      rewrite !lookup_take_lt, !lookup_drop, lookup_take_lt by (unfold n in *; lia). done.
    + apply list_eq. intros i. rewrite lookup_drop.
      destruct (Nat.lt_ge_cases i (remaining - n)).
      * rewrite !lookup_take_lt, !lookup_drop by (unfold n in *; lia). f_equal. unfold n in *. lia.
      * rewrite !lookup_take_ge by lia. done.
Qed.

Lemma file_at_length s blks data : file_at s blks data -> (length data <= length blks * 4092)%nat.
Proof.
  revert data. induction blks as [|b blks IH]; intros data; cbn [file_at length]; [intros ->; simpl; lia|].
  intros (_ & _ & _ & _ & Hf). apply IH in Hf. rewrite length_drop in Hf.
  change CHUNK with 4092%nat in Hf. lia.
Qed.

Lemma sdfs_read_file_slice s n blks data offset size :
  0 <= disk_root_block s -> file_at s blks data -> n_flags n = FS_FILE -> n_inode n = default 0 (head blks) ->
  n_length n = Z.of_nat (length data) -> 0 <= offset -> 0 <= size -> offset + size < 2 ^ 32 ->
  sdfs_read junk s n offset size = take (Z.to_nat size) (drop (Z.to_nat offset) data).
Proof.
  intros H0 Hf Hfl Hin Hlen Ho Hs Hov. unfold sdfs_read, has_flag. rewrite Hfl. cbn [negb Z.land Pos.land Z.eqb].
  rewrite Hin, Hlen. cbv zeta. destruct (Z.leb_spec (Z.of_nat (length data)) offset) as [Hge|Hlt].
  { rewrite drop_ge by lia. by rewrite take_nil. }
  rewrite u32_small by lia. pose proof (file_at_length s blks data Hf) as Hdl. unfold FILE_DATA.
  set (k := Z.to_nat (offset / 4092)).
  assert (Hk : offset = Z.of_nat k * 4092 + offset mod 4092) by (unfold k; zlia).
  assert (Hkl : (k < length blks)%nat) by (assert (0 <= offset mod 4092) by zlia; lia).
  destruct (file_at_skip s blks data k H0 Hf Hkl) as [S1 S2]. rewrite S1.
  assert (Hnz : default 0 (head (drop k blks)) <> 0).
  { destruct (drop k blks) as [|b r] eqn:Ed; [apply (f_equal length) in Ed; rewrite length_drop in Ed; simpl in Ed; lia|].
    cbn [file_at] in S2. simpl. lia. }
  rewrite (proj2 (Z.eqb_neq _ 0) Hnz), andb_false_r.
  set (r := Z.of_nat (Nat.min (Z.to_nat size) (length data - Z.to_nat offset))).
  assert (Hr : (if Z.of_nat (length data) <? offset + size then Z.of_nat (length data) - offset else size) = r)
    by (unfold r; ztest; lia).
  rewrite Hr. change CHUNK with 4092%nat in S2.
  assert (Hmod : 0 <= offset mod 4092 < 4092) by zlia.
  replace (offset mod 4092) with (Z.of_nat (Z.to_nat (offset mod 4092))) by lia. unfold r.
  rewrite (read_loop_file s (drop k blks) (drop (k * 4092) data)); [|done|done|lia|rewrite length_drop; lia|lia|].
  - rewrite drop_drop. replace (k * 4092 + Z.to_nat (offset mod 4092))%nat with (Z.to_nat offset) by lia.
    destruct (Nat.le_gt_cases (Z.to_nat size) (length data - Z.to_nat offset)).
    + by rewrite Nat.min_l.
    + rewrite Nat.min_r by lia. by rewrite !take_ge by (rewrite length_drop; lia).
  - assert (0 <= r) by (unfold r; lia). fold r. zlia.
Qed.

(** *** A file in the root directory *)

Definition file_name (name : list Z) : Prop :=
  (0 < length name <= 255)%nat /\ Forall is_byte name /\ no_nul name /\ Forall (fun c => c <> SLASH) name.

Lemma path_leaf_root name : file_name name -> path_leaf (SLASH :: name) = name.
Proof.
  intros (_ & _ & _ & Hs). unfold path_leaf. rewrite reverse_cons, take_while_prefix; [apply reverse_involutive| |done].
  apply Forall_reverse. eapply Forall_impl; [exact Hs|]. intros c Hc.
  by rewrite (proj2 (Z.eqb_neq c SLASH) Hc).
Qed.

Lemma resolve_parent_root s name :
  file_name name -> sdfs_resolve_parent junk s (SLASH :: name) = Some (Some (disk_root_block s, name)).
Proof.
  intros Hn. pose proof Hn as (Hl & _). unfold sdfs_resolve_parent. rewrite (path_leaf_root name Hn).
  change ((SLASH :: name).[0]) with SLASH. cbn [Z.eqb Pos.eqb SLASH negb].
  rewrite (proj2 (Nat.leb_gt (length (SLASH :: name)) 1)) by (simpl; lia).
  rewrite (proj2 (Z.leb_gt 511 _)) by (simpl; lia).
  rewrite (proj2 (Nat.eqb_neq (length name) 0)) by lia. cbv zeta.
  replace (length (SLASH :: name) - length name)%nat with 1%nat by (simpl; lia).
  cbn [take path_components resolve_walk]. change (SLASH =? SLASH) with true. cbv iota. cbn [resolve_walk].
  rewrite take_0. cbn [path_components resolve_walk]. rewrite (take_ge name 255) by lia. done.
Qed.

(** The root directory is one block holding [es]. *)
Definition root_dir (s : fs D) (es : list entry) : Prop :=
  dir_block (content s (disk_root_block s)) es /\ db_next (content s (disk_root_block s)) = 0.

Lemma resolve_full_root stack s es name :
  ready s -> root_dir s es -> file_name name ->
  exists r, sdfs_resolve_full junk stack s (SLASH :: name)
            = Some (match r with Some e => (1, e) | None => (0, stack) end)
    /\ unplaced <$> r = unplaced <$> lookup_name es name.
Proof.
  intros Hr [Hd Hnx] Hn. pose proof (fr_area ok s Hr) as Ha. pose proof Hn as (_ & _ & Hnul & _).
  destruct (dir_find_spec junk s (disk_root_block s) es name) as (r & Hf & Hl); [lia|done|done|done|].
  exists r. split; [|done]. unfold sdfs_resolve_full. rewrite resolve_parent_root, Hf by done. by destruct r.
Qed.

Lemma new_entry_ok name start size now perm type :
  file_name name -> is_u32 start -> is_u32 size -> is_u32 now -> 0 <= perm < 2 ^ 16 ->
  type = SDFS_TYPE_FILE \/ type = SDFS_TYPE_DIR ->
  entry_ok (new_entry type name start size now now 0 0 perm).
Proof.
  intros (Hl & _) Hs Hz Hn Hp Ht. constructor; simpl; try done; try lia.
  - destruct Ht as [-> | ->]; by_compute.
  - by destruct Ht as [-> | ->].
Qed.

(** [sdfs_write_file] of a new file in the root directory, when it succeeds. *)
Lemma write_file_run stack s es name data r s' :
  ready s -> sdfs_mounted s = true -> root_dir s es -> file_name name -> is_u32 (timer_ticks s) ->
  lookup_name es name = None -> (6 + dir_bytes es + 26 + length name <= 4096)%nat ->
  data <> [] -> Forall is_byte data -> Z.of_nat (length data) < 2 ^ 32 ->
  sdfs_write_file junk stack (SLASH :: name) data s = Some (r, s') -> r <> 0 ->
  r = Z.of_nat (length data)
  /\ exists start rest e, root_dir s' (es ++ [e]) /\ e_name e = name /\ e_type e = SDFS_TYPE_FILE
     /\ e_size e = Z.of_nat (length data) /\ e_start e = start /\ file_at s' (start :: rest) data
     /\ (forall b, b ∈ start :: rest -> bit s b = false)
     /\ ready s' /\ same_geo s s'
     /\ (forall m, 0 <= m < disk_total_blocks s -> ~ in_bitmap s m -> m <> disk_root_block s ->
          m ∉ start :: rest -> content s' m = content s m).
Proof.
  intros Hr Hmt Hroot Hn Hticks Hnew Hroom Hne Hby Hlen E Hr0. pose proof (fr_area ok s Hr) as Ha.
  pose proof (fr_total ok s Hr) as Htot. pose proof Hn as (Hnl & Hnb & Hnul & Hns).
  unfold sdfs_write_file in E. minv E as m s0 E0. injection E0 as <- <-. rewrite Hmt in E. cbn [negb] in E.
  minv E as q s0 E0. unfold call_resolve_full in E0.
  destruct (resolve_full_root stack s es name Hr Hroot Hn) as (ro & Hro & Hlk). rewrite Hro in E0.
  rewrite Hnew in Hlk. destruct ro; [done|]. injection E0 as <- <-. cbn [Z.eqb negb andb] in E.
  minv E as u s0 E0. injection E0 as _ <-. minv E as p s0 E0. unfold call_resolve_parent in E0.
  rewrite (resolve_parent_root s name Hn) in E0. injection E0 as <- <-.
  rewrite (proj2 (Nat.eqb_neq (length data) 0)) in E by (destruct data; [done|simpl; lia]).
  minv E as start s1 E1. unfold call_alloc_block_raw in E1. injection E1 as E1.
  destruct (alloc_block_raw_spec ok junk s Hr) as [[Ea _]|(b & sa & Ea & Hb & Hfree & _ & Hra & Hga & Hbits & Hrda)];
    rewrite Ea in E1; injection E1 as <- <-.
  { cbn [Z.eqb] in E. by injection E as <- <-. }
  rewrite (proj2 (Z.eqb_neq b 0)) in E by lia. pose proof Hga as (G1 & G2 & G3 & G4 & G5 & G6 & G7 & G8).
  minv E as o s2 E2. destruct o; [|by injection E as <- <-]. cbn [negb] in E.
  destruct (write_blocks_spec (length data) b b data sa s2 Hra) as (rest & [Wf Wr Wg Wfr Wb Wu Wframe]);
    [rewrite G3, G6; lia|rewrite Hbits by lia; by rewrite decide_True|done|done|done|].
  pose proof Wg as (L1 & L2 & L3 & L4 & L5 & L6 & L7 & L8).
  minv E as now s3 E3. injection E3 as <- <-. minv E as u3 s3 E3. injection E3 as _ <-. minv E as o4 s4 E4.
  assert (Hnin : forall x, x ∈ b :: rest -> disk_root_block s < x < disk_total_blocks s).
  { intros x [->|Hx]%elem_of_cons; [done|]. destruct (Wfr x Hx) as [Hx' _]. by rewrite G3, G6 in Hx'. }
  assert (Hbm : forall x, disk_root_block s <= x -> ~ in_bitmap s x) by (unfold in_bitmap; lia).
  assert (Hrootc : content s2 (disk_root_block s) = content s (disk_root_block s)).
  { rewrite Wframe; [|rewrite G3; lia|rewrite (in_bitmap_geo s sa) by done; apply Hbm; lia|].
    - apply Hrda; [lia|]. apply Hbm. lia.
    - intros Hx. apply Hnin in Hx. lia. }
  set (e := new_entry SDFS_TYPE_FILE name b (Z.of_nat (length data)) (timer_ticks s2) (timer_ticks s2) 0 0 SDFS_DEFAULT_PERM) in *.
  pose proof (slot_bytes_len e) as Hsl. change (entry_len e) with (Z.of_nat (length name)) in Hsl.
  destruct Hroot as [Hrd Hrn].
  destruct (dir_add_spec ok junk s2 (disk_root_block s) es e Wr) as (s5 & Hadd & Hr5 & Hg5 & Hc5 & Hdb5 & Hn5 & Hf5).
  { rewrite L3, G3. lia. }
  { by rewrite Hrootc. }
  { apply new_entry_ok; [done|unfold is_u32; lia|unfold is_u32; lia|by rewrite L8, G8|by_compute|by left]. }
  { done. }
  { done. }
  { lia. }
  rewrite Hadd in E4. injection E4 as <- <-. cbn [negb] in E. injection E as <- <-. split; [done|].
  pose proof Hg5 as (K1 & K2 & K3 & K4 & K5 & K6 & K7 & K8).
  exists b, rest, e. split_and!; try done.
  - unfold root_dir. rewrite K6, L6, G6. split; [done|]. by rewrite Hn5, Hrootc.
  - apply (file_at_frame s2); [done|done| |done]. intros x Hx. pose proof (Hnin x Hx).
    apply Hf5; [rewrite L3, G3; lia|lia].
  - intros x [->|Hx]%elem_of_cons; [done|]. destruct (Wfr x Hx) as [Hx1 Hx2]. rewrite G3, G6 in Hx1.
    rewrite Hbits in Hx2 by lia. by case_decide.
  - eapply same_geo_trans; [exact Hga|]. by eapply same_geo_trans.
  - intros m Hm Hout Hmr Hmn. rewrite Hf5 by (rewrite ?L3, ?G3; done).
    rewrite Wframe; [by apply Hrda|by rewrite G3|by rewrite (in_bitmap_geo s sa)|done].
Qed.
End Files.


(** ** A formatted and mounted RAM disk of 64 blocks *)

Definition probe_demo : disk_probe :=
  {| dp_present := true; dp_sector0 := Some (put32 (zeros 512) 458 512); dp_sectors := 0 |}.

Definition fs_blank : fs ramdisk :=
  {| dev := {| rd_blocks := ∅; rd_total := 64 |}; jrn := journal0; sdfs_mounted := false;
     disk_total_blocks := 64; disk_bitmap_block := 0; disk_bitmap_blocks := 0; disk_root_block := 0;
     disk_journal_start := 0; disk_journal_blocks := 0; disk_mount_count := 0; disk_max_mounts := 0;
     disk_format_version := 0; bitmap_cache := None; bitmap_bytes := 0; bitmap_dirty_ops := 0;
     timer_ticks := 1000 |}.

Definition stack_demo : entry := new_entry 0 [] 0 0 0 0 0 0 0.
Definition fs_demo : fs ramdisk := snd (sdfs_mount (zeros 4096) probe_demo (snd (sdfs_format probe_demo fs_blank))).

Definition run {A} (m : M (fs ramdisk) A) (s : fs ramdisk) : fs ramdisk :=
  match m s with Some (_, s') => s' | None => s end.

#[export] Instance is_block_dec b : Decision (is_block b).
Proof. unfold is_block. apply _. Defined.

Lemma fs_demo_ready : fs_ready rd_ok fs_demo.
Proof.
  constructor.
  - intros n Hn. change (disk_total_blocks fs_demo) with 64 in Hn. unfold rd_ok.
    split; [exact Hn|]. split; [vm_compute; discriminate|]. by_compute.
  - reflexivity.
  - eexists. split; [vm_compute; reflexivity|]. split; [by_compute|reflexivity].
  - reflexivity.
  - vm_compute. split; [discriminate|reflexivity].
  - vm_compute. split; [discriminate|]. split; [reflexivity|]. split; [discriminate|reflexivity].
  - intros b Hb. change (disk_root_block fs_demo) with 18 in Hb.
    assert (HF : Forall (fun b => bit fs_demo b = true) (seqZ 0 19)) by by_compute.
    rewrite Forall_forall in HF. apply HF, elem_of_seqZ. lia.
Qed.

Lemma fs_demo_root : root_dir (zeros 4096) fs_demo [].
Proof.
  split; [|vm_compute; reflexivity].
  constructor; try (vm_compute; reflexivity); try done. vm_compute. lia.
Qed.


(** [sdfs_read] of a file node returns exactly the bytes
    [offset .. offset+size) of the file, cut at its end, whatever the position
    of the range relative to the 4092-byte blocks of the chain. *)
Theorem sdfs_read_returns_slice `{BlockDev D} junk (s : fs D) n (blks : list Z) data offset size :
  0 <= disk_root_block s -> file_at junk s blks data -> n_flags n = FS_FILE -> n_inode n = default 0 (head blks) ->
  n_length n = Z.of_nat (length data) -> 0 <= offset -> 0 <= size -> offset + size < 2 ^ 32 ->
  sdfs_read junk s n offset size = take (Z.to_nat size) (drop (Z.to_nat offset) data).
Proof. apply sdfs_read_file_slice. Qed.

Definition fs_demo_file : fs ramdisk :=
  run (sdfs_write_file (zeros 4096) stack_demo (SLASH :: [97]) (replicate 4000 7 ++ replicate 1000 9)) fs_demo.
Definition node_demo : node :=
  {| n_name := [97]; n_flags := FS_FILE; n_inode := 19; n_length := 5000; n_impl := 18; n_impl_offset := 6 |}.

Lemma sdfs_read_returns_slice_witness :
  sdfs_read (zeros 4096) fs_demo_file node_demo 3990 200 = replicate 10 7 ++ replicate 190 9.
Proof.
  rewrite (sdfs_read_returns_slice (zeros 4096) fs_demo_file node_demo [19; 20] (replicate 4000 7 ++ replicate 1000 9) 3990 200);
    vm_compute; done.
Defined.

(** [sdfs_dir_remove_entry] overwrites the type byte only, while every scan
    of a directory steps over a deleted entry by two bytes: what follows is
    parsed out of step.  On a fresh disk with the files /a and /b, deleting /a
    succeeds and /b can no longer be found, although its entry and data are
    still on the disk. *)
Theorem sdfs_delete_hides_later_file :
  let J := zeros 4096 in
  let s1 := run (sdfs_write_file J stack_demo (str "/a"%string) [1; 2; 3]) fs_demo in
  let s2 := run (sdfs_write_file J stack_demo (str "/b"%string) [4; 5]) s1 in
  let s3 := run (sdfs_delete J (str "/a"%string)) s2 in
  sdfs_read_file J stack_demo s2 (str "/b"%string) = Some (Some (2, [4; 5]))
  /\ fst <$> sdfs_delete J (str "/a"%string) s2 = Some 0
  /\ sdfs_read_file J stack_demo s3 (str "/b"%string) = Some None
  /\ sdfs_get_usage s3 = (64, 20).
Proof. vm_compute. split_and!; reflexivity. Qed.

(** [sdfs_resolve_full] answers -1 for a path whose parent directory does
    not exist, which its callers take for "found": [sdfs_path_info] then reports
    success for the missing path, with the size and type of an uninitialised
    entry, and [sdfs_read_file] decides from that entry what to read. *)
Theorem sdfs_missing_parent_reported_as_found `{BlockDev D} junk stack (s : fs D) path :
  sdfs_mounted s = true -> path <> [SLASH] -> sdfs_resolve_parent junk s path = Some None ->
  sdfs_path_info junk stack s path = Some (0, e_type stack =? SDFS_TYPE_DIR, e_size stack)
  /\ (e_type stack = SDFS_TYPE_FILE -> e_size stack = 0 ->
      sdfs_read_file junk stack s path = Some (Some (0, []))).
Proof.
  intros Hm Hp Hr. unfold sdfs_path_info, sdfs_read_file, sdfs_resolve_full. rewrite Hm, Hr. cbn [negb].
  rewrite bool_decide_eq_false_2 by done. cbn [Z.eqb]. split; [done|]. intros -> ->. done.
Qed.

Lemma sdfs_missing_parent_reported_as_found_witness :
  sdfs_path_info (zeros 4096) stack_demo fs_demo (str "/no/file"%string) = Some (0, false, 0).
Proof.
  refine (proj1 (sdfs_missing_parent_reported_as_found (zeros 4096) stack_demo fs_demo (str "/no/file"%string) _ _ _)).
  - vm_compute. reflexivity.
  - done.
  - vm_compute. reflexivity.
Defined.
