(* ===== verification/Vfs.v ===== *)
(** * Virtual file system and device files ([src/src/fs/vfs.c],
    [src/src/fs/devfs.c], [src/include/fs/vfs.h])

    The VFS keeps a list of mounts and walks paths through the function
    pointers of [fs_node_t].  [FsNode] is that interface: the flags of a node
    and its callbacks, each [None] when the pointer is NULL; a file system is an
    instance, with its own state [W].  [sdfs_node] is the instance for SDFS.

    A path component longer than the 127 bytes that [part] holds overruns the
    stack; such a call has no result ([None] of the monad). *)

From Stdlib Require Import ZArith Lia String.
From stdpp Require Import base numbers list gmap.
From S2P Require Import Prelude Bytes Crc32 BlockDev Journal SdfsBlock SdfsDir Sdfs.

(** ** The code *)

Class FsNode (W N : Type) := {
  fn_flags : N -> Z;
  fn_finddir : N -> option (list Z -> M W (option N));
  fn_readdir : N -> option (Z -> M W (option (list Z * Z)));
  fn_create : N -> option (list Z -> Z -> M W (option N));
  fn_read : N -> option (Z -> Z -> M W (list Z));
  fn_write : N -> option (Z -> list Z -> M W (Z * N));
  fn_truncate : N -> option (M W N)
}.

(** The directory callbacks SDFS sets; file callbacks are set by
    [sdfs_finddir] on every node it returns. *)
#[export] Instance sdfs_node {D} `{BlockDev D} (junk : list Z) : FsNode (fs D) node := {
  fn_flags := n_flags;
  fn_finddir n := Some (fun name s => match sdfs_finddir junk s n name with None => None | Some r => Some (r, s) end);
  fn_readdir n := Some (fun i s => match sdfs_readdir junk s n i with None => None | Some r => Some (r, s) end);
  fn_create n := Some (fun name _ => sdfs_vfs_create junk n name);
  fn_read n := if has_flag n FS_FILE then Some (fun off size s => Some (sdfs_read junk s n off size, s)) else None;
  fn_write n := if has_flag n FS_FILE then Some (fun off buf => sdfs_write junk n off buf) else None;
  fn_truncate n := if has_flag n FS_FILE then Some (sdfs_truncate junk n) else None
}.

Record vfs (N : Type) := { fs_root : option N; mounts : list (list Z * N) }.
Arguments fs_root {N}. Arguments mounts {N}.

Section Vfs.
Context {W N : Type} `{FsNode W N}.

Definition vfs_init (v : vfs N) : vfs N := {| fs_root := fs_root v; mounts := [] |}.

(** The new mount goes in front. *)
Definition vfs_mount (v : vfs N) (path : list Z) (root : N) : vfs N :=
  {| fs_root := fs_root v; mounts := (path, root) :: mounts v |}.

Definition is_dir (n : N) : bool := negb (Z.land (fn_flags n) FS_DIRECTORY =? 0).

Definition readdir_fs (n : N) (index : Z) : M W (option (list Z * Z)) :=
  match fn_readdir n with
  | Some f => if is_dir n then f index else mret_ None
  | None => mret_ None
  end.

Definition finddir_fs (n : N) (name : list Z) : M W (option N) :=
  match fn_finddir n with
  | Some f => if is_dir n then f name else mret_ None
  | None => mret_ None
  end.

Definition vfs_truncate (n : N) : M W N := match fn_truncate n with Some f => f | None => mret_ n end.

(** [strncmp(path, m, strlen(m)) == 0] *)
Definition is_prefix (m path : list Z) : bool := bool_decide (take (length m) path = m).

(** The search loop, with [max_len] and [best_match] so far. *)
Fixpoint best_loop (path : list Z) (ms : list (list Z * N)) (max_len : Z) (best : option (list Z * N))
  : option (list Z * N) :=
  match ms with
  | [] => best
  | (p, r) :: ms' =>
      let m_len := Z.of_nat (length p) in
      if (is_prefix p path && (max_len <? m_len))%bool then best_loop path ms' m_len (Some (p, r))
      else best_loop path ms' max_len best
  end.

Fixpoint root_loop (ms : list (list Z * N)) : option (list Z * N) :=
  match ms with
  | [] => None
  | (p, r) :: ms' => if bool_decide (p = [SLASH]) then Some (p, r) else root_loop ms'
  end.

Definition best_match (v : vfs N) (path : list Z) : option (list Z * N) :=
  match best_loop path (mounts v) (-1) None with
  | Some m => Some m
  | None => root_loop (mounts v)
  end.

(** The part of the path left to walk below the mount. *)
Definition after_mount (p path : list Z) : list Z :=
  if bool_decide (p = [SLASH]) then
    (if path.[0] =? SLASH then drop 1 path else path)
  else
    let remaining := drop (length p) path in
    if remaining.[0] =? SLASH then drop 1 remaining else remaining.

Definition PART_MAX : nat := 127.
Definition next_part (remaining : list Z) : list Z := take_while (fun c => negb (c =? SLASH)) remaining.

(** The [while ( *remaining )] loop of [vfs_open]. *)
Fixpoint open_walk (cur : N) (remaining : list Z) (fuel : nat) : M W (option N) :=
  match remaining, fuel with
  | [], _ => mret_ (Some cur)
  | _ :: _, O => mstop
  | _ :: _, S f =>
      let part := next_part remaining in
      if (PART_MAX <? length part)%nat then mstop else
      let rest := drop (S (length part)) remaining in
      next_node <-- finddir_fs cur part ;;
      match next_node with
      | None => mret_ None
      | Some n => open_walk n rest f
      end
  end.

Definition vfs_open (v : vfs N) (path : list Z) : M W (option N) :=
  if (length path =? 0)%nat then mret_ (fs_root v) else
  match best_match v path with
  | None => mret_ None
  | Some (p, root) => open_walk root (after_mount p path) (length path)
  end.

(** The loop of [vfs_create]: the last part is created. *)
Fixpoint create_walk (cur : N) (remaining : list Z) (flags : Z) (fuel : nat) : M W (option N) :=
  match remaining, fuel with
  | [], _ => mret_ None
  | _ :: _, O => mstop
  | _ :: _, S f =>
      let part := next_part remaining in
      if (PART_MAX <? length part)%nat then mstop else
      match drop (length part) remaining with
      | _ :: rest =>
          next_node <-- finddir_fs cur part ;;
          match next_node with
          | None => mret_ None
          | Some n => create_walk n rest flags f
          end
      | [] =>
          match fn_create cur with
          | Some c => if is_dir cur then c part flags else mret_ None
          | None => mret_ None
          end
      end
  end.

Definition vfs_create (v : vfs N) (path : list Z) (flags : Z) : M W (option N) :=
  if (length path =? 0)%nat then mret_ None else
  match best_match v path with
  | None => mret_ None
  | Some (p, root) => create_walk root (after_mount p path) flags (length path)
  end.

(** The bytes read; an empty list is the result 0. *)
Definition read_fs (n : N) (offset size : Z) : M W (list Z) :=
  match fn_read n with Some f => f offset size | None => mret_ [] end.

Definition write_fs (n : N) (offset : Z) (buffer : list Z) : M W (Z * N) :=
  match fn_write n with Some f => f offset buffer | None => mret_ (0, n) end.
End Vfs.

(** ** Device files

    [W] is the bytes sent to the serial port.  The directory that
    [devfs_init] returns has no callbacks. *)

Inductive devnode := DevRoot | DevSerial.

Definition devfs_read_serial (offset size : Z) : M (list Z) (list Z) := mret_ [].
Definition devfs_write_serial (buffer : list Z) : M (list Z) (Z * devnode) := fun sent =>
  Some ((Z.of_nat (length buffer), DevSerial), sent ++ buffer).

#[export] Instance devfs_node : FsNode (list Z) devnode := {
  fn_flags n := match n with DevRoot => FS_DIRECTORY | DevSerial => FS_FILE end;
  fn_finddir _ := None;
  fn_readdir _ := None;
  fn_create _ := None;
  fn_read n := match n with DevSerial => Some devfs_read_serial | DevRoot => None end;
  fn_write n := match n with DevSerial => Some (fun _ buf => devfs_write_serial buf) | DevRoot => None end;
  fn_truncate _ := None
}.

Definition devfs_init : devnode := DevRoot.

(** ** Mount selection *)

Section Mounts.
Context {W N : Type} `{FsNode W N}.

(** [(p, r)] is the mount the loop prefers: no matching mount is longer, and
    none as long comes before it. *)
Definition preferred (path : list Z) (ms : list (list Z * N)) (p : list Z) (r : N) : Prop :=
  exists pre post, ms = pre ++ (p, r) :: post /\ is_prefix p path = true
    /\ (forall q x, (q, x) ∈ pre -> is_prefix q path = true -> (length q < length p)%nat)
    /\ (forall q x, (q, x) ∈ post -> is_prefix q path = true -> (length q <= length p)%nat).

Lemma best_loop_spec path ms max_len best :
  (best_loop path ms max_len best = best
   /\ forall q x, (q, x) ∈ ms -> is_prefix q path = true -> Z.of_nat (length q) <= max_len)
  \/ exists p r, best_loop path ms max_len best = Some (p, r) /\ max_len < Z.of_nat (length p)
       /\ preferred path ms p r.
Proof.
  revert max_len best. induction ms as [|[p r] ms IH]; intros max_len best; cbn [best_loop].
  { left. split; [done|]. intros q x Hin. by apply elem_of_nil in Hin. }
  destruct (is_prefix p path) eqn:Ep; cbn [andb]; [destruct (Z.ltb_spec max_len (Z.of_nat (length p))) as [Hlt|Hge]|].
  - destruct (IH (Z.of_nat (length p)) (Some (p, r))) as [[-> Hall]|(p' & r' & -> & Hl & pre & post & -> & Hp & Hpre & Hpost)].
    + right. exists p, r. split; [done|]. split; [done|]. exists [], ms. split_and!; try done.
      * intros q x Hin. by apply elem_of_nil in Hin.
      * intros q x Hin Hq. specialize (Hall q x Hin Hq). lia.
    + right. exists p', r'. split; [done|]. split; [lia|]. exists ((p, r) :: pre), post. split_and!; try done.
      intros q x [[= -> ->]|Hin]%elem_of_cons Hq; [lia|by apply (Hpre q x)].
  - destruct (IH max_len best) as [[-> Hall]|(p' & r' & -> & Hl & pre & post & -> & Hp & Hpre & Hpost)].
    + left. split; [done|]. intros q x [[= -> ->]|Hin]%elem_of_cons Hq; [done|by apply (Hall q x)].
    + right. exists p', r'. split; [done|]. split; [lia|]. exists ((p, r) :: pre), post. split_and!; try done.
      intros q x [[= -> ->]|Hin]%elem_of_cons Hq; [lia|by apply (Hpre q x)].
  - destruct (IH max_len best) as [[-> Hall]|(p' & r' & -> & Hl & pre & post & -> & Hp & Hpre & Hpost)].
    + left. split; [done|]. intros q x [[= -> ->]|Hin]%elem_of_cons Hq; [congruence|by apply (Hall q x)].
    + right. exists p', r'. split; [done|]. split; [lia|]. exists ((p, r) :: pre), post. split_and!; try done.
      intros q x [[= -> ->]|Hin]%elem_of_cons Hq; [congruence|by apply (Hpre q x)].
Qed.

Lemma root_loop_spec (ms : list (list Z * N)) :
  match root_loop ms with
  | Some (p, r) => p = [SLASH] /\ (p, r) ∈ ms
  | None => forall r, ([SLASH], r) ∉ ms
  end.
Proof.
  induction ms as [|[p r] ms IH]; cbn [root_loop]; [intros r; apply not_elem_of_nil|].
  case_bool_decide as Hp; [split; [done|apply list_elem_of_here]|].
  destruct (root_loop ms) as [[q x]|].
  - destruct IH as [Hq Hin]. split; [exact Hq|by apply list_elem_of_further].
  - intros x [Hx|Hin]%elem_of_cons; [congruence|by apply (IH x)].
Qed.

(** ** Walking a path *)

(** The components of what is left of a path: a slash ends a component, and
    nothing follows a final slash. *)
Fixpoint components (acc l : list Z) : list (list Z) :=
  match l with
  | [] => match acc with [] => [] | _ => [acc] end
  | c :: l' => if c =? SLASH then acc :: components [] l' else components (acc ++ [c]) l'
  end.

(** The walk along a list of names. *)
Fixpoint lookup_names (cur : N) (names : list (list Z)) : M W (option N) :=
  match names with
  | [] => mret_ (Some cur)
  | x :: names' =>
      r <-- finddir_fs cur x ;;
      match r with None => mret_ None | Some n => lookup_names n names' end
  end.

Lemma components_next acc l :
  acc <> [] \/ l <> [] ->
  components acc l = (acc ++ next_part l) :: components [] (drop (S (length (next_part l))) l).
Proof.
  revert acc. induction l as [|c l IH]; intros acc Hne; cbn [components next_part take_while].
  - destruct acc; [naive_solver|]. by rewrite app_nil_r.
  - destruct (c =? SLASH) eqn:E; cbn [negb].
    + rewrite app_nil_r. cbn [length drop]. by rewrite drop_0.
    + rewrite IH by (left; destruct acc; discriminate). unfold next_part. rewrite <- app_assoc. done.
Qed.

Lemma open_walk_names cur remaining fuel s :
  (length remaining <= fuel)%nat -> Forall (fun c => (length c <= PART_MAX)%nat) (components [] remaining) ->
  open_walk cur remaining fuel s = lookup_names cur (components [] remaining) s.
Proof.
  revert cur remaining s. induction fuel as [|fuel IH]; intros cur remaining s Hf Hc.
  { destruct remaining; [done|simpl in Hf; lia]. }
  destruct remaining as [|c l]; [done|]. rewrite components_next in * by (by right).
  apply Forall_cons in Hc as [Hc Hcs]. rewrite app_nil_l in *. cbn [open_walk lookup_names].
  rewrite (proj2 (Nat.ltb_ge _ _) Hc). unfold mbind_. destruct (finddir_fs cur _ s) as [[[n|] s1]|]; [|done|done].
  apply IH; [|done]. rewrite length_drop. cbn [length] in *. lia.
Qed.
End Mounts.

(** [vfs_best_match_longest_prefix]: [vfs_open] and [vfs_create] work below the mount whose path is the
    longest textual prefix of the path, the most recent one among equals; when
    no mount is a prefix they fall back to a mount on the root, and give up only
    when there is none. *)
Theorem vfs_best_match_longest_prefix {N} (v : vfs N) path :
  match best_match v path with
  | Some (p, r) =>
      preferred path (mounts v) p r
      \/ (p = [SLASH] /\ (p, r) ∈ mounts v /\ forall q x, (q, x) ∈ mounts v -> is_prefix q path = false)
  | None => forall q x, (q, x) ∈ mounts v -> is_prefix q path = false /\ q <> [SLASH]
  end.
Proof.
  unfold best_match. destruct (best_loop_spec path (mounts v) (-1) None) as [[-> Hall]|(p & r & -> & _ & Hp)]; [|by left].
  assert (Hno : forall q x, (q, x) ∈ mounts v -> is_prefix q path = false).
  { intros q x Hin. destruct (is_prefix q path) eqn:E; [|done]. specialize (Hall q x Hin E). lia. }
  pose proof (root_loop_spec (mounts v)) as Hroot. destruct (root_loop (mounts v)) as [[p r]|].
  - right. naive_solver.
  - intros q x Hin. split; [by apply (Hno q x)|]. intros ->. by apply (Hroot x).
Qed.


(** The mounts of [ensure_disk_ready] ([kernel.c]): the same root twice. *)
Definition disk_mounts (root : node) : vfs node :=
  vfs_mount (vfs_mount (vfs_init {| fs_root := None; mounts := [] |}) (str "/house/localhost"%string) root) [SLASH] root.

(** The root node [sdfs_mount] returns. *)
Definition root_node (inode : Z) : node :=
  {| n_name := str "sdfs_root"%string; n_flags := FS_DIRECTORY; n_inode := inode; n_length := 0; n_impl := 0; n_impl_offset := 0 |}.


Lemma components_single name : name <> [] -> Forall (fun c => c <> SLASH) name -> components [] name = [name].
Proof.
  intros Hne Hs. rewrite components_next by (by right). rewrite app_nil_l.
  assert (Hn : next_part name = name).
  { clear Hne. unfold next_part. induction Hs as [|c l Hc _ IH]; [done|]. simpl.
    rewrite (proj2 (Z.eqb_neq c SLASH) Hc). simpl. by rewrite IH. }
  rewrite Hn, drop_ge by lia. done.
Qed.



(** [devfs_init] builds the node of /dev/serial but never links it to the
    directory it returns, which has no callbacks: whatever the path, opening
    below a devfs mount yields the directory itself or fails, so nothing ever
    reaches the serial port through the VFS. *)
Theorem devfs_serial_unreachable mount_point path sent r sent' :
  vfs_open (vfs_mount {| fs_root := None; mounts := [] |} mount_point devfs_init) path sent = Some (r, sent') ->
  (r = None \/ r = Some devfs_init) /\ sent' = sent
  /\ forall offset buf, write_fs devfs_init offset buf sent = Some ((0, devfs_init), sent).
Proof.
  unfold vfs_open. destruct (_ =? 0)%nat; [intros [= <- <-]; naive_solver|].
  unfold best_match. cbn [mounts vfs_mount best_loop root_loop].
  assert (Hw : forall rem fuel, open_walk devfs_init rem fuel sent = Some (r, sent') ->
            (r = None \/ r = Some devfs_init) /\ sent' = sent).
  { intros [|c rem] [|fuel]; cbn [open_walk]; try (intros [= <- <-]; naive_solver).
    destruct (_ <? _)%nat; [done|]. intros [= <- <-]. naive_solver. }
  destruct (_ && _)%bool; [intros Hr; apply Hw in Hr; naive_solver|].
  case_bool_decide; [|intros [= <- <-]; naive_solver]. intros Hr. apply Hw in Hr. naive_solver.
Qed.

Lemma devfs_serial_unreachable_witness :
  vfs_open (vfs_mount {| fs_root := None; mounts := [] |} (str "/dev"%string) devfs_init) (str "/dev/serial"%string) [] = Some (None, [])
  /\ ((None = None :> option devnode) \/ None = Some devfs_init).
Proof.
  split; [vm_compute; reflexivity|].
  refine (proj1 (devfs_serial_unreachable (str "/dev"%string) (str "/dev/serial"%string) [] None [] _)).
  vm_compute. reflexivity.
Defined.
