(* ===== verification/Task.v ===== *)
(** * Tasks and the scheduler ([src/src/kernel/sched/task.c],
    [src/include/kernel/task.h])

    Tasks live in heap blocks; [tasks] maps the address of each [task_t] to its
    fields, and the circular list of the scheduler is the [next] pointers in
    them, as in the code.  Dereferencing an address that holds no task (NULL, a
    freed block) stops the machine ([None]).  Allocation, page directories and
    the bytes of kernel stacks are those of [Kheap] and [Vmm] ([vmst]).

    One processor is modelled; each critical section of [scheduler_lock] is one
    atomic operation.  Serial output is left out.  In this version
    [irq_handler] returns from the timer interrupt without calling [schedule],
    so [switch_task], which raises that interrupt, only advances the tick
    counter; [schedule] is modelled as the function it is. *)

From Stdlib Require Import ZArith Lia String.
From stdpp Require Import base numbers list gmap.
From S2P Require Import Prelude Pmm Kheap Vmm Usercopy Bytes.

(** ** Data *)

Inductive task_state := TASK_RUNNING | TASK_READY | TASK_SLEEPING | TASK_ZOMBIE.
#[export] Instance task_state_eq_dec : EqDecision task_state.
Proof. solve_decision. Defined.

Definition PIPE_BUF_SIZE : Z := 4096.

Record pipe := {
  p_buffer : list Z;
  p_read_pos : Z;
  p_write_pos : Z;
  p_bytes_avail : Z;
  p_refcount : Z
}.

Record kfile := {
  f_type : Z;
  f_base_addr : Z;
  f_size : Z;
  f_offset : Z;
  f_owned_buffer : Z;
  f_socket_ptr : Z
}.

(** A slot cleared by [memset]. *)
Definition kfile0 : kfile :=
  {| f_type := 0; f_base_addr := 0; f_size := 0; f_offset := 0; f_owned_buffer := 0; f_socket_ptr := 0 |}.

Record task := {
  t_id : Z;
  t_state : task_state;
  t_exit_code : Z;
  t_stack_top : Z;
  t_kernel_stack : Z;
  t_kernel_stack_base : Z;
  t_kernel_stack_size : Z;
  t_stack_canary : Z;
  t_stack_canary_addr : Z;
  t_parent : Z;
  t_next : Z;
  t_page_directory : Z;
  t_fpu_ctx : Z;
  t_heap_start : Z;
  t_heap_end : Z;
  t_mmap_top : Z;
  t_cpu_ticks : Z;
  t_switch_count : Z;
  t_priority : Z;
  t_time_slice : Z;
  t_wake_tick : Z;
  t_user_mode : bool;
  t_name : list Z;
  t_cwd : list Z;
  t_fds : list kfile;
  t_gui : Z
}.

(** Setters of the fields the code assigns. *)

Definition with_state (v : task_state) (t : task) : task :=
  {| t_id := t_id t; t_state := v; t_exit_code := t_exit_code t; t_stack_top := t_stack_top t;
     t_kernel_stack := t_kernel_stack t; t_kernel_stack_base := t_kernel_stack_base t;
     t_kernel_stack_size := t_kernel_stack_size t; t_stack_canary := t_stack_canary t;
     t_stack_canary_addr := t_stack_canary_addr t; t_parent := t_parent t; t_next := t_next t;
     t_page_directory := t_page_directory t; t_fpu_ctx := t_fpu_ctx t; t_heap_start := t_heap_start t;
     t_heap_end := t_heap_end t; t_mmap_top := t_mmap_top t; t_cpu_ticks := t_cpu_ticks t; t_switch_count
     := t_switch_count t; t_priority := t_priority t; t_time_slice := t_time_slice t; t_wake_tick :=
     t_wake_tick t; t_user_mode := t_user_mode t; t_name := t_name t; t_cwd := t_cwd t; t_fds := t_fds t;
     t_gui := t_gui t |}.
Definition with_exit_code (v : Z) (t : task) : task :=
  {| t_id := t_id t; t_state := t_state t; t_exit_code := v; t_stack_top := t_stack_top t; t_kernel_stack
     := t_kernel_stack t; t_kernel_stack_base := t_kernel_stack_base t; t_kernel_stack_size :=
     t_kernel_stack_size t; t_stack_canary := t_stack_canary t; t_stack_canary_addr :=
     t_stack_canary_addr t; t_parent := t_parent t; t_next := t_next t; t_page_directory :=
     t_page_directory t; t_fpu_ctx := t_fpu_ctx t; t_heap_start := t_heap_start t; t_heap_end :=
     t_heap_end t; t_mmap_top := t_mmap_top t; t_cpu_ticks := t_cpu_ticks t; t_switch_count :=
     t_switch_count t; t_priority := t_priority t; t_time_slice := t_time_slice t; t_wake_tick :=
     t_wake_tick t; t_user_mode := t_user_mode t; t_name := t_name t; t_cwd := t_cwd t; t_fds := t_fds t;
     t_gui := t_gui t |}.
Definition with_stack_top (v : Z) (t : task) : task :=
  {| t_id := t_id t; t_state := t_state t; t_exit_code := t_exit_code t; t_stack_top := v; t_kernel_stack
     := t_kernel_stack t; t_kernel_stack_base := t_kernel_stack_base t; t_kernel_stack_size :=
     t_kernel_stack_size t; t_stack_canary := t_stack_canary t; t_stack_canary_addr :=
     t_stack_canary_addr t; t_parent := t_parent t; t_next := t_next t; t_page_directory :=
     t_page_directory t; t_fpu_ctx := t_fpu_ctx t; t_heap_start := t_heap_start t; t_heap_end :=
     t_heap_end t; t_mmap_top := t_mmap_top t; t_cpu_ticks := t_cpu_ticks t; t_switch_count :=
     t_switch_count t; t_priority := t_priority t; t_time_slice := t_time_slice t; t_wake_tick :=
     t_wake_tick t; t_user_mode := t_user_mode t; t_name := t_name t; t_cwd := t_cwd t; t_fds := t_fds t;
     t_gui := t_gui t |}.
Definition with_parent (v : Z) (t : task) : task :=
  {| t_id := t_id t; t_state := t_state t; t_exit_code := t_exit_code t; t_stack_top := t_stack_top t;
     t_kernel_stack := t_kernel_stack t; t_kernel_stack_base := t_kernel_stack_base t;
     t_kernel_stack_size := t_kernel_stack_size t; t_stack_canary := t_stack_canary t;
     t_stack_canary_addr := t_stack_canary_addr t; t_parent := v; t_next := t_next t; t_page_directory :=
     t_page_directory t; t_fpu_ctx := t_fpu_ctx t; t_heap_start := t_heap_start t; t_heap_end :=
     t_heap_end t; t_mmap_top := t_mmap_top t; t_cpu_ticks := t_cpu_ticks t; t_switch_count :=
     t_switch_count t; t_priority := t_priority t; t_time_slice := t_time_slice t; t_wake_tick :=
     t_wake_tick t; t_user_mode := t_user_mode t; t_name := t_name t; t_cwd := t_cwd t; t_fds := t_fds t;
     t_gui := t_gui t |}.
Definition with_next (v : Z) (t : task) : task :=
  {| t_id := t_id t; t_state := t_state t; t_exit_code := t_exit_code t; t_stack_top := t_stack_top t;
     t_kernel_stack := t_kernel_stack t; t_kernel_stack_base := t_kernel_stack_base t;
     t_kernel_stack_size := t_kernel_stack_size t; t_stack_canary := t_stack_canary t;
     t_stack_canary_addr := t_stack_canary_addr t; t_parent := t_parent t; t_next := v; t_page_directory
     := t_page_directory t; t_fpu_ctx := t_fpu_ctx t; t_heap_start := t_heap_start t; t_heap_end :=
     t_heap_end t; t_mmap_top := t_mmap_top t; t_cpu_ticks := t_cpu_ticks t; t_switch_count :=
     t_switch_count t; t_priority := t_priority t; t_time_slice := t_time_slice t; t_wake_tick :=
     t_wake_tick t; t_user_mode := t_user_mode t; t_name := t_name t; t_cwd := t_cwd t; t_fds := t_fds t;
     t_gui := t_gui t |}.
Definition with_fpu_ctx (v : Z) (t : task) : task :=
  {| t_id := t_id t; t_state := t_state t; t_exit_code := t_exit_code t; t_stack_top := t_stack_top t;
     t_kernel_stack := t_kernel_stack t; t_kernel_stack_base := t_kernel_stack_base t;
     t_kernel_stack_size := t_kernel_stack_size t; t_stack_canary := t_stack_canary t;
     t_stack_canary_addr := t_stack_canary_addr t; t_parent := t_parent t; t_next := t_next t;
     t_page_directory := t_page_directory t; t_fpu_ctx := v; t_heap_start := t_heap_start t; t_heap_end
     := t_heap_end t; t_mmap_top := t_mmap_top t; t_cpu_ticks := t_cpu_ticks t; t_switch_count :=
     t_switch_count t; t_priority := t_priority t; t_time_slice := t_time_slice t; t_wake_tick :=
     t_wake_tick t; t_user_mode := t_user_mode t; t_name := t_name t; t_cwd := t_cwd t; t_fds := t_fds t;
     t_gui := t_gui t |}.
Definition with_heap_end (v : Z) (t : task) : task :=
  {| t_id := t_id t; t_state := t_state t; t_exit_code := t_exit_code t; t_stack_top := t_stack_top t;
     t_kernel_stack := t_kernel_stack t; t_kernel_stack_base := t_kernel_stack_base t;
     t_kernel_stack_size := t_kernel_stack_size t; t_stack_canary := t_stack_canary t;
     t_stack_canary_addr := t_stack_canary_addr t; t_parent := t_parent t; t_next := t_next t;
     t_page_directory := t_page_directory t; t_fpu_ctx := t_fpu_ctx t; t_heap_start := t_heap_start t;
     t_heap_end := v; t_mmap_top := t_mmap_top t; t_cpu_ticks := t_cpu_ticks t; t_switch_count :=
     t_switch_count t; t_priority := t_priority t; t_time_slice := t_time_slice t; t_wake_tick :=
     t_wake_tick t; t_user_mode := t_user_mode t; t_name := t_name t; t_cwd := t_cwd t; t_fds := t_fds t;
     t_gui := t_gui t |}.
Definition with_mmap_top (v : Z) (t : task) : task :=
  {| t_id := t_id t; t_state := t_state t; t_exit_code := t_exit_code t; t_stack_top := t_stack_top t;
     t_kernel_stack := t_kernel_stack t; t_kernel_stack_base := t_kernel_stack_base t;
     t_kernel_stack_size := t_kernel_stack_size t; t_stack_canary := t_stack_canary t;
     t_stack_canary_addr := t_stack_canary_addr t; t_parent := t_parent t; t_next := t_next t;
     t_page_directory := t_page_directory t; t_fpu_ctx := t_fpu_ctx t; t_heap_start := t_heap_start t;
     t_heap_end := t_heap_end t; t_mmap_top := v; t_cpu_ticks := t_cpu_ticks t; t_switch_count :=
     t_switch_count t; t_priority := t_priority t; t_time_slice := t_time_slice t; t_wake_tick :=
     t_wake_tick t; t_user_mode := t_user_mode t; t_name := t_name t; t_cwd := t_cwd t; t_fds := t_fds t;
     t_gui := t_gui t |}.
Definition with_cpu_ticks (v : Z) (t : task) : task :=
  {| t_id := t_id t; t_state := t_state t; t_exit_code := t_exit_code t; t_stack_top := t_stack_top t;
     t_kernel_stack := t_kernel_stack t; t_kernel_stack_base := t_kernel_stack_base t;
     t_kernel_stack_size := t_kernel_stack_size t; t_stack_canary := t_stack_canary t;
     t_stack_canary_addr := t_stack_canary_addr t; t_parent := t_parent t; t_next := t_next t;
     t_page_directory := t_page_directory t; t_fpu_ctx := t_fpu_ctx t; t_heap_start := t_heap_start t;
     t_heap_end := t_heap_end t; t_mmap_top := t_mmap_top t; t_cpu_ticks := v; t_switch_count :=
     t_switch_count t; t_priority := t_priority t; t_time_slice := t_time_slice t; t_wake_tick :=
     t_wake_tick t; t_user_mode := t_user_mode t; t_name := t_name t; t_cwd := t_cwd t; t_fds := t_fds t;
     t_gui := t_gui t |}.
Definition with_switch_count (v : Z) (t : task) : task :=
  {| t_id := t_id t; t_state := t_state t; t_exit_code := t_exit_code t; t_stack_top := t_stack_top t;
     t_kernel_stack := t_kernel_stack t; t_kernel_stack_base := t_kernel_stack_base t;
     t_kernel_stack_size := t_kernel_stack_size t; t_stack_canary := t_stack_canary t;
     t_stack_canary_addr := t_stack_canary_addr t; t_parent := t_parent t; t_next := t_next t;
     t_page_directory := t_page_directory t; t_fpu_ctx := t_fpu_ctx t; t_heap_start := t_heap_start t;
     t_heap_end := t_heap_end t; t_mmap_top := t_mmap_top t; t_cpu_ticks := t_cpu_ticks t; t_switch_count
     := v; t_priority := t_priority t; t_time_slice := t_time_slice t; t_wake_tick := t_wake_tick t;
     t_user_mode := t_user_mode t; t_name := t_name t; t_cwd := t_cwd t; t_fds := t_fds t; t_gui := t_gui
     t |}.
Definition with_priority (v : Z) (t : task) : task :=
  {| t_id := t_id t; t_state := t_state t; t_exit_code := t_exit_code t; t_stack_top := t_stack_top t;
     t_kernel_stack := t_kernel_stack t; t_kernel_stack_base := t_kernel_stack_base t;
     t_kernel_stack_size := t_kernel_stack_size t; t_stack_canary := t_stack_canary t;
     t_stack_canary_addr := t_stack_canary_addr t; t_parent := t_parent t; t_next := t_next t;
     t_page_directory := t_page_directory t; t_fpu_ctx := t_fpu_ctx t; t_heap_start := t_heap_start t;
     t_heap_end := t_heap_end t; t_mmap_top := t_mmap_top t; t_cpu_ticks := t_cpu_ticks t; t_switch_count
     := t_switch_count t; t_priority := v; t_time_slice := t_time_slice t; t_wake_tick := t_wake_tick t;
     t_user_mode := t_user_mode t; t_name := t_name t; t_cwd := t_cwd t; t_fds := t_fds t; t_gui := t_gui
     t |}.
Definition with_time_slice (v : Z) (t : task) : task :=
  {| t_id := t_id t; t_state := t_state t; t_exit_code := t_exit_code t; t_stack_top := t_stack_top t;
     t_kernel_stack := t_kernel_stack t; t_kernel_stack_base := t_kernel_stack_base t;
     t_kernel_stack_size := t_kernel_stack_size t; t_stack_canary := t_stack_canary t;
     t_stack_canary_addr := t_stack_canary_addr t; t_parent := t_parent t; t_next := t_next t;
     t_page_directory := t_page_directory t; t_fpu_ctx := t_fpu_ctx t; t_heap_start := t_heap_start t;
     t_heap_end := t_heap_end t; t_mmap_top := t_mmap_top t; t_cpu_ticks := t_cpu_ticks t; t_switch_count
     := t_switch_count t; t_priority := t_priority t; t_time_slice := v; t_wake_tick := t_wake_tick t;
     t_user_mode := t_user_mode t; t_name := t_name t; t_cwd := t_cwd t; t_fds := t_fds t; t_gui := t_gui
     t |}.
Definition with_wake_tick (v : Z) (t : task) : task :=
  {| t_id := t_id t; t_state := t_state t; t_exit_code := t_exit_code t; t_stack_top := t_stack_top t;
     t_kernel_stack := t_kernel_stack t; t_kernel_stack_base := t_kernel_stack_base t;
     t_kernel_stack_size := t_kernel_stack_size t; t_stack_canary := t_stack_canary t;
     t_stack_canary_addr := t_stack_canary_addr t; t_parent := t_parent t; t_next := t_next t;
     t_page_directory := t_page_directory t; t_fpu_ctx := t_fpu_ctx t; t_heap_start := t_heap_start t;
     t_heap_end := t_heap_end t; t_mmap_top := t_mmap_top t; t_cpu_ticks := t_cpu_ticks t; t_switch_count
     := t_switch_count t; t_priority := t_priority t; t_time_slice := t_time_slice t; t_wake_tick := v;
     t_user_mode := t_user_mode t; t_name := t_name t; t_cwd := t_cwd t; t_fds := t_fds t; t_gui := t_gui
     t |}.
Definition with_cwd (v : list Z) (t : task) : task :=
  {| t_id := t_id t; t_state := t_state t; t_exit_code := t_exit_code t; t_stack_top := t_stack_top t;
     t_kernel_stack := t_kernel_stack t; t_kernel_stack_base := t_kernel_stack_base t;
     t_kernel_stack_size := t_kernel_stack_size t; t_stack_canary := t_stack_canary t;
     t_stack_canary_addr := t_stack_canary_addr t; t_parent := t_parent t; t_next := t_next t;
     t_page_directory := t_page_directory t; t_fpu_ctx := t_fpu_ctx t; t_heap_start := t_heap_start t;
     t_heap_end := t_heap_end t; t_mmap_top := t_mmap_top t; t_cpu_ticks := t_cpu_ticks t; t_switch_count
     := t_switch_count t; t_priority := t_priority t; t_time_slice := t_time_slice t; t_wake_tick :=
     t_wake_tick t; t_user_mode := t_user_mode t; t_name := t_name t; t_cwd := v; t_fds := t_fds t; t_gui
     := t_gui t |}.
Definition with_fds (v : list kfile) (t : task) : task :=
  {| t_id := t_id t; t_state := t_state t; t_exit_code := t_exit_code t; t_stack_top := t_stack_top t;
     t_kernel_stack := t_kernel_stack t; t_kernel_stack_base := t_kernel_stack_base t;
     t_kernel_stack_size := t_kernel_stack_size t; t_stack_canary := t_stack_canary t;
     t_stack_canary_addr := t_stack_canary_addr t; t_parent := t_parent t; t_next := t_next t;
     t_page_directory := t_page_directory t; t_fpu_ctx := t_fpu_ctx t; t_heap_start := t_heap_start t;
     t_heap_end := t_heap_end t; t_mmap_top := t_mmap_top t; t_cpu_ticks := t_cpu_ticks t; t_switch_count
     := t_switch_count t; t_priority := t_priority t; t_time_slice := t_time_slice t; t_wake_tick :=
     t_wake_tick t; t_user_mode := t_user_mode t; t_name := t_name t; t_cwd := t_cwd t; t_fds := v; t_gui
     := t_gui t |}.
Definition with_gui (v : Z) (t : task) : task :=
  {| t_id := t_id t; t_state := t_state t; t_exit_code := t_exit_code t; t_stack_top := t_stack_top t;
     t_kernel_stack := t_kernel_stack t; t_kernel_stack_base := t_kernel_stack_base t;
     t_kernel_stack_size := t_kernel_stack_size t; t_stack_canary := t_stack_canary t;
     t_stack_canary_addr := t_stack_canary_addr t; t_parent := t_parent t; t_next := t_next t;
     t_page_directory := t_page_directory t; t_fpu_ctx := t_fpu_ctx t; t_heap_start := t_heap_start t;
     t_heap_end := t_heap_end t; t_mmap_top := t_mmap_top t; t_cpu_ticks := t_cpu_ticks t; t_switch_count
     := t_switch_count t; t_priority := t_priority t; t_time_slice := t_time_slice t; t_wake_tick :=
     t_wake_tick t; t_user_mode := t_user_mode t; t_name := t_name t; t_cwd := t_cwd t; t_fds := t_fds t;
     t_gui := v |}.

(** A task cleared by [memset]. *)
Definition task0 : task :=
  {| t_id := 0; t_state := TASK_RUNNING; t_exit_code := 0; t_stack_top := 0; t_kernel_stack := 0;
     t_kernel_stack_base := 0; t_kernel_stack_size := 0; t_stack_canary := 0; t_stack_canary_addr := 0;
     t_parent := 0; t_next := 0; t_page_directory := 0; t_fpu_ctx := 0; t_heap_start := 0; t_heap_end := 0;
     t_mmap_top := 0; t_cpu_ticks := 0; t_switch_count := 0; t_priority := 0; t_time_slice := 0;
     t_wake_tick := 0; t_user_mode := false; t_name := []; t_cwd := []; t_fds := replicate 32 kfile0;
     t_gui := 0 |}.

(** The globals of [task.c], the keyboard's ctrl-C flag, the tick counter, the
    stack pointer in the TSS and the FPU registers with the areas they are
    saved to. *)
Record sched := {
  vmst : vm;
  tasks : gmap Z task;
  pipes : gmap Z pipe;
  task_list : Z;
  current_task : Z;
  next_pid : Z;
  global_switch_count : Z;
  last_foreground_pid : Z;
  g_resched_force : bool;
  ticks : Z;
  ctrl_c_pending : bool;
  rsp0 : Z;
  fpu_regs : Z;
  fpu_areas : gmap Z Z;
  last_elf_heap_start : Z
}.

Definition set_vmst (v : vm) (s : sched) : sched :=
  {| vmst := v; tasks := tasks s; pipes := pipes s; task_list := task_list s; current_task :=
     current_task s; next_pid := next_pid s; global_switch_count := global_switch_count s;
     last_foreground_pid := last_foreground_pid s; g_resched_force := g_resched_force s; ticks := ticks
     s; ctrl_c_pending := ctrl_c_pending s; rsp0 := rsp0 s; fpu_regs := fpu_regs s; fpu_areas :=
     fpu_areas s; last_elf_heap_start := last_elf_heap_start s |}.
Definition set_tasks (v : gmap Z task) (s : sched) : sched :=
  {| vmst := vmst s; tasks := v; pipes := pipes s; task_list := task_list s; current_task := current_task
     s; next_pid := next_pid s; global_switch_count := global_switch_count s; last_foreground_pid :=
     last_foreground_pid s; g_resched_force := g_resched_force s; ticks := ticks s; ctrl_c_pending :=
     ctrl_c_pending s; rsp0 := rsp0 s; fpu_regs := fpu_regs s; fpu_areas := fpu_areas s;
     last_elf_heap_start := last_elf_heap_start s |}.
Definition set_pipes (v : gmap Z pipe) (s : sched) : sched :=
  {| vmst := vmst s; tasks := tasks s; pipes := v; task_list := task_list s; current_task := current_task
     s; next_pid := next_pid s; global_switch_count := global_switch_count s; last_foreground_pid :=
     last_foreground_pid s; g_resched_force := g_resched_force s; ticks := ticks s; ctrl_c_pending :=
     ctrl_c_pending s; rsp0 := rsp0 s; fpu_regs := fpu_regs s; fpu_areas := fpu_areas s;
     last_elf_heap_start := last_elf_heap_start s |}.
Definition set_task_list (v : Z) (s : sched) : sched :=
  {| vmst := vmst s; tasks := tasks s; pipes := pipes s; task_list := v; current_task := current_task s;
     next_pid := next_pid s; global_switch_count := global_switch_count s; last_foreground_pid :=
     last_foreground_pid s; g_resched_force := g_resched_force s; ticks := ticks s; ctrl_c_pending :=
     ctrl_c_pending s; rsp0 := rsp0 s; fpu_regs := fpu_regs s; fpu_areas := fpu_areas s;
     last_elf_heap_start := last_elf_heap_start s |}.
Definition set_current_task (v : Z) (s : sched) : sched :=
  {| vmst := vmst s; tasks := tasks s; pipes := pipes s; task_list := task_list s; current_task := v;
     next_pid := next_pid s; global_switch_count := global_switch_count s; last_foreground_pid :=
     last_foreground_pid s; g_resched_force := g_resched_force s; ticks := ticks s; ctrl_c_pending :=
     ctrl_c_pending s; rsp0 := rsp0 s; fpu_regs := fpu_regs s; fpu_areas := fpu_areas s;
     last_elf_heap_start := last_elf_heap_start s |}.
Definition set_next_pid (v : Z) (s : sched) : sched :=
  {| vmst := vmst s; tasks := tasks s; pipes := pipes s; task_list := task_list s; current_task :=
     current_task s; next_pid := v; global_switch_count := global_switch_count s; last_foreground_pid :=
     last_foreground_pid s; g_resched_force := g_resched_force s; ticks := ticks s; ctrl_c_pending :=
     ctrl_c_pending s; rsp0 := rsp0 s; fpu_regs := fpu_regs s; fpu_areas := fpu_areas s;
     last_elf_heap_start := last_elf_heap_start s |}.
Definition set_global_switch_count (v : Z) (s : sched) : sched :=
  {| vmst := vmst s; tasks := tasks s; pipes := pipes s; task_list := task_list s; current_task :=
     current_task s; next_pid := next_pid s; global_switch_count := v; last_foreground_pid :=
     last_foreground_pid s; g_resched_force := g_resched_force s; ticks := ticks s; ctrl_c_pending :=
     ctrl_c_pending s; rsp0 := rsp0 s; fpu_regs := fpu_regs s; fpu_areas := fpu_areas s;
     last_elf_heap_start := last_elf_heap_start s |}.
Definition set_last_foreground_pid (v : Z) (s : sched) : sched :=
  {| vmst := vmst s; tasks := tasks s; pipes := pipes s; task_list := task_list s; current_task :=
     current_task s; next_pid := next_pid s; global_switch_count := global_switch_count s;
     last_foreground_pid := v; g_resched_force := g_resched_force s; ticks := ticks s; ctrl_c_pending :=
     ctrl_c_pending s; rsp0 := rsp0 s; fpu_regs := fpu_regs s; fpu_areas := fpu_areas s;
     last_elf_heap_start := last_elf_heap_start s |}.
Definition set_g_resched_force (v : bool) (s : sched) : sched :=
  {| vmst := vmst s; tasks := tasks s; pipes := pipes s; task_list := task_list s; current_task :=
     current_task s; next_pid := next_pid s; global_switch_count := global_switch_count s;
     last_foreground_pid := last_foreground_pid s; g_resched_force := v; ticks := ticks s; ctrl_c_pending
     := ctrl_c_pending s; rsp0 := rsp0 s; fpu_regs := fpu_regs s; fpu_areas := fpu_areas s;
     last_elf_heap_start := last_elf_heap_start s |}.
Definition set_ticks (v : Z) (s : sched) : sched :=
  {| vmst := vmst s; tasks := tasks s; pipes := pipes s; task_list := task_list s; current_task :=
     current_task s; next_pid := next_pid s; global_switch_count := global_switch_count s;
     last_foreground_pid := last_foreground_pid s; g_resched_force := g_resched_force s; ticks := v;
     ctrl_c_pending := ctrl_c_pending s; rsp0 := rsp0 s; fpu_regs := fpu_regs s; fpu_areas := fpu_areas
     s; last_elf_heap_start := last_elf_heap_start s |}.
Definition set_ctrl_c_pending (v : bool) (s : sched) : sched :=
  {| vmst := vmst s; tasks := tasks s; pipes := pipes s; task_list := task_list s; current_task :=
     current_task s; next_pid := next_pid s; global_switch_count := global_switch_count s;
     last_foreground_pid := last_foreground_pid s; g_resched_force := g_resched_force s; ticks := ticks
     s; ctrl_c_pending := v; rsp0 := rsp0 s; fpu_regs := fpu_regs s; fpu_areas := fpu_areas s;
     last_elf_heap_start := last_elf_heap_start s |}.
Definition set_rsp0 (v : Z) (s : sched) : sched :=
  {| vmst := vmst s; tasks := tasks s; pipes := pipes s; task_list := task_list s; current_task :=
     current_task s; next_pid := next_pid s; global_switch_count := global_switch_count s;
     last_foreground_pid := last_foreground_pid s; g_resched_force := g_resched_force s; ticks := ticks
     s; ctrl_c_pending := ctrl_c_pending s; rsp0 := v; fpu_regs := fpu_regs s; fpu_areas := fpu_areas s;
     last_elf_heap_start := last_elf_heap_start s |}.
Definition set_fpu_regs (v : Z) (s : sched) : sched :=
  {| vmst := vmst s; tasks := tasks s; pipes := pipes s; task_list := task_list s; current_task :=
     current_task s; next_pid := next_pid s; global_switch_count := global_switch_count s;
     last_foreground_pid := last_foreground_pid s; g_resched_force := g_resched_force s; ticks := ticks
     s; ctrl_c_pending := ctrl_c_pending s; rsp0 := rsp0 s; fpu_regs := v; fpu_areas := fpu_areas s;
     last_elf_heap_start := last_elf_heap_start s |}.
Definition set_fpu_areas (v : gmap Z Z) (s : sched) : sched :=
  {| vmst := vmst s; tasks := tasks s; pipes := pipes s; task_list := task_list s; current_task :=
     current_task s; next_pid := next_pid s; global_switch_count := global_switch_count s;
     last_foreground_pid := last_foreground_pid s; g_resched_force := g_resched_force s; ticks := ticks
     s; ctrl_c_pending := ctrl_c_pending s; rsp0 := rsp0 s; fpu_regs := fpu_regs s; fpu_areas := v;
     last_elf_heap_start := last_elf_heap_start s |}.

(** ** Access *)

Definition in_vm {A} (m : M vm A) : M sched A := fun s =>
  match m (vmst s) with Some (a, v) => Some (a, set_vmst v s) | None => None end.

Definition deref (p : Z) : M sched task := fun s =>
  match tasks s !! p with Some t => Some (t, s) | None => None end.
Definition upd (p : Z) (f : task -> task) : M sched unit := fun s =>
  match tasks s !! p with Some t => Some (tt, set_tasks (<[p := f t]> (tasks s)) s) | None => None end.

(** The bytes of kernel memory the code writes through pointers. *)
Definition kmem (s : sched) : gmap Z Z := kbytes (vheap (vmst s)).
Definition mem_write (a : Z) (bs : list Z) : M sched unit := mmodify (fun s =>
  set_vmst (set_vheap (vmst s) (set_kbytes (vheap (vmst s)) (write_bytes (kmem s) a bs))) s).
Definition load64 (m : gmap Z Z) (a : Z) : Z := le_value (user_bytes m a 8).

(** Walking the circular list: [do body(t); while ((t = t->next) != task_list)].
    The body answers [inl] to leave the loop and [inr] to go on with its local
    variables. *)
Fixpoint do_ring {A B} (body : Z -> B -> M sched (A + B)) (fuel : nat) (t : Z) (b : B) : M sched (A + B) :=
  match fuel with
  | O => mstop
  | S fuel =>
      r <-- body t b ;;
      match r with
      | inl a => mret_ (inl a)
      | inr b' =>
          tk <-- deref t ;;
          head <-- mgets task_list ;;
          if t_next tk =? head then mret_ (inr b') else do_ring body fuel (t_next tk) b'
      end
  end.

Definition ring_fuel (s : sched) : nat := S (size (tasks s)).
Definition over_ring {A B} (body : Z -> B -> M sched (A + B)) (b : B) : M sched (A + B) := fun s =>
  do_ring body (ring_fuel s) (task_list s) b s.

(** ** Creating tasks *)

Definition TASK_PRIO_DEFAULT : Z := 1.
Definition TASK_PRIO_MAX : Z := 10.
Definition SIZEOF_TASK : Z := 1480.
Definition CANARY : Z := 0xDEADBEEFCAFEBABE.

Definition task_quantum (t : task) : Z :=
  let p := if t_priority t <? 1 then 1 else t_priority t in
  if TASK_PRIO_MAX <? p then TASK_PRIO_MAX else p.

(** The 32-byte name field: 31 bytes of the name, or a default. *)
Definition task_assign_name (name : option (list Z)) (user_mode : bool) : list Z :=
  match name with
  | Some (c :: n) => take 31 (c :: n)
  | _ => if user_mode then str "user" else str "kthread"
  end%string.

(** [registers_t]: 17 zero words, then rip, cs, rflags, rsp, ss. *)
Definition SIZEOF_REGS : Z := 176.
Definition new_frame (rip cs rflags rsp ss : Z) : list Z :=
  zeros 136 ++ le_bytes 8 rip ++ le_bytes 8 cs ++ le_bytes 8 rflags ++ le_bytes 8 rsp ++ le_bytes 8 ss.

Definition take_pid : M sched Z := fun s => Some (next_pid s, set_next_pid (next_pid s + 1) s).

Definition current_cwd : M sched (list Z) := fun s =>
  if current_task s =? 0 then Some (str "/"%string, s)
  else match tasks s !! current_task s with Some t => Some (t_cwd t, s) | None => None end.

(** [new->next = task_list->next; task_list->next = new;] *)
Definition link_task (p : Z) : M sched unit :=
  h <-- mgets task_list ;;
  ht <-- deref h ;;
  upd p (with_next (t_next ht)) ;;;
  upd h (with_next p).

Definition put_task (p : Z) (t : task) : M sched unit := mmodify (fun s => set_tasks (<[p := t]> (tasks s)) s).

Definition init_tasking : M sched unit :=
  mmodify (set_current_task 0) ;;;
  p <-- in_vm (call_kmalloc SIZEOF_TASK) ;;
  dir <-- mgets (fun s => current_directory (vmst s)) ;;
  put_task p
    {| t_id := 0; t_state := TASK_RUNNING; t_exit_code := 0; t_stack_top := 0; t_kernel_stack := 0;
       t_kernel_stack_base := 0; t_kernel_stack_size := 0; t_stack_canary := 0; t_stack_canary_addr := 0;
       t_parent := 0; t_next := p; t_page_directory := dir; t_fpu_ctx := 0; t_heap_start := 0;
       t_heap_end := 0; t_mmap_top := 0; t_cpu_ticks := 0; t_switch_count := 0;
       t_priority := TASK_PRIO_DEFAULT; t_time_slice := TASK_PRIO_DEFAULT; t_wake_tick := 0;
       t_user_mode := false; t_name := task_assign_name (Some (str "kernel"%string)) false;
       t_cwd := str "/house/localhost"%string; t_fds := replicate 32 kfile0; t_gui := 0 |} ;;;
  mmodify (set_task_list p) ;;;
  mmodify (set_current_task p).

Definition create_task_named_stack (entry_point : Z) (name : option (list Z)) (priority stack_size : Z) : M sched Z :=
  p <-- in_vm (call_kmalloc SIZEOF_TASK) ;;
  pid <-- take_pid ;;
  cur <-- mgets current_task ;;
  dir <-- mgets (fun s => current_directory (vmst s)) ;;
  cwd <-- current_cwd ;;
  let prio := if ((1 <=? priority) && (priority <=? TASK_PRIO_MAX))%bool then priority else TASK_PRIO_DEFAULT in
  let stack_size := if stack_size <? 8192 then 8192 else stack_size in
  stack_base <-- in_vm (call_kmalloc stack_size) ;;
  let stack := u64 (stack_base + stack_size) in
  let regs := u64 (stack - SIZEOF_REGS) in
  let rsp := u64 ((stack &~ 0xF) - 8) in
  mem_write regs (new_frame entry_point 0x08 0x202 rsp 0x10) ;;;
  mem_write rsp (le_bytes 8 CANARY) ;;;
  mem_write stack_base (le_bytes 8 CANARY) ;;;
  put_task p
    {| t_id := pid; t_state := TASK_READY; t_exit_code := 0; t_stack_top := regs; t_kernel_stack := stack;
       t_kernel_stack_base := stack_base; t_kernel_stack_size := u32 stack_size; t_stack_canary := CANARY;
       t_stack_canary_addr := rsp; t_parent := cur; t_next := 0; t_page_directory := dir; t_fpu_ctx := 0;
       t_heap_start := 0; t_heap_end := 0; t_mmap_top := 0; t_cpu_ticks := 0; t_switch_count := 0;
       t_priority := prio; t_time_slice := prio; t_wake_tick := 0; t_user_mode := false;
       t_name := task_assign_name name false; t_cwd := cwd; t_fds := replicate 32 kfile0; t_gui := 0 |} ;;;
  link_task p ;;;
  mret_ pid.

Definition create_task_named_prio (entry_point : Z) (name : option (list Z)) (priority : Z) : M sched Z :=
  create_task_named_stack entry_point name priority 65536.
Definition create_task_named (entry_point : Z) (name : option (list Z)) : M sched Z :=
  create_task_named_prio entry_point name TASK_PRIO_DEFAULT.
Definition create_task (entry_point : Z) : M sched Z := create_task_named entry_point None.

(** The common body of the two functions that create user tasks; they differ in
    the selectors and in the start of the heap. *)
Definition create_user_at (cs ss hstart entry_point user_stack : Z) (name : option (list Z)) : M sched Z :=
  p <-- in_vm (call_kmalloc SIZEOF_TASK) ;;
  pid <-- take_pid ;;
  cur <-- mgets current_task ;;
  dir <-- mgets (fun s => current_directory (vmst s)) ;;
  cwd <-- current_cwd ;;
  stack_base <-- in_vm (call_kmalloc 8192) ;;
  let stack := u64 (stack_base + 8192) &~ 0xF in
  let regs := u64 (stack - SIZEOF_REGS) in
  mem_write regs (new_frame entry_point cs 0x202 user_stack ss) ;;;
  put_task p
    {| t_id := pid; t_state := TASK_READY; t_exit_code := 0; t_stack_top := regs; t_kernel_stack := stack;
       t_kernel_stack_base := stack_base; t_kernel_stack_size := 8192; t_stack_canary := 0;
       t_stack_canary_addr := 0; t_parent := cur; t_next := 0; t_page_directory := dir; t_fpu_ctx := 0;
       t_heap_start := hstart; t_heap_end := hstart; t_mmap_top := 0xBFFF0000; t_cpu_ticks := 0;
       t_switch_count := 0; t_priority := TASK_PRIO_DEFAULT; t_time_slice := TASK_PRIO_DEFAULT;
       t_wake_tick := 0; t_user_mode := true; t_name := task_assign_name name true; t_cwd := cwd;
       t_fds := replicate 32 kfile0; t_gui := 0 |} ;;;
  link_task p ;;;
  mret_ pid.

Definition create_user_task_named (entry_point user_stack : Z) (name : option (list Z)) : M sched Z :=
  create_user_at 0x1B 0x23 0x40000000 entry_point user_stack name.
Definition create_user_task (entry_point user_stack : Z) : M sched Z :=
  create_user_task_named entry_point user_stack None.
Definition create_user_task_64_named (entry_point user_stack : Z) (name : option (list Z)) : M sched Z :=
  h <-- mgets last_elf_heap_start ;;
  create_user_at 0x2B 0x33 (if h =? 0 then 0x40000000 else h) entry_point user_stack name.

(** ** The scheduler *)

(** The timer interrupt, which [irq_handler] answers without a task switch. *)
Definition timer_handler : M sched unit := mmodify (fun s => set_ticks (u32 (ticks s + 1)) s).
Definition irq0_handler (rsp : Z) : M sched Z := timer_handler ;;; mret_ rsp.

Definition switch_task : M sched unit :=
  mmodify (set_g_resched_force true) ;;;
  irq0_handler 0 ;;;
  mret_ tt.

Inductive panic := RspOutOfBounds | TopCanary | BaseCanary.

(** The checks of the running task's kernel stack. *)
Definition stack_check (s : sched) (c : task) (rsp : Z) : option panic :=
  if (negb (t_kernel_stack c =? 0) && negb (t_kernel_stack_base c =? 0))%bool then
    if ((rsp <? t_kernel_stack_base c) || (t_kernel_stack c <? rsp))%bool then Some RspOutOfBounds
    else if (negb (t_stack_canary_addr c =? 0) && negb (load64 (kmem s) (t_stack_canary_addr c) =? CANARY))%bool
    then Some TopCanary
    else if negb (load64 (kmem s) (t_kernel_stack_base c) =? CANARY) then Some BaseCanary
    else None
  else None.

Definition is_state (st : task_state) (t : task) : bool := bool_decide (t_state t = st).

(** [t->parent->state = TASK_RUNNING] when there is a parent. *)
Definition wake_parent (t : task) : M sched unit :=
  mwhen (negb (t_parent t =? 0)) (upd (t_parent t) (with_state TASK_RUNNING)).

Definition kill_mark (t : task) : task := with_exit_code (128 + 2) (with_state TASK_ZOMBIE t).

Definition ctrl_c_body (p : Z) (_ : unit) : M sched (unit + unit) :=
  t <-- deref p ;;
  fg <-- mgets last_foreground_pid ;;
  if ((t_id t =? fg) && t_user_mode t)%bool then
    upd p kill_mark ;;;
    mmodify (set_last_foreground_pid (-1)) ;;;
    wake_parent t ;;;
    mret_ (inl tt)
  else mret_ (inr tt).

Definition handle_ctrl_c : M sched unit :=
  pending <-- mgets ctrl_c_pending ;;
  mmodify (set_ctrl_c_pending false) ;;;
  fg <-- mgets last_foreground_pid ;;
  mwhen (pending && (0 <? fg))%bool (over_ring ctrl_c_body tt ;;; mret_ tt).

(** [timer_ticks] has 32 bits and [wake_tick] 64: the difference is taken in 64
    bits and read as signed. *)
Definition wake_due (now : Z) (t : task) : bool :=
  (is_state TASK_SLEEPING t && negb (t_wake_tick t =? 0) && (0 <=? s64 (now - t_wake_tick t)))%bool.
Definition woken (t : task) : task :=
  with_time_slice (task_quantum t) (with_wake_tick 0 (with_state TASK_READY t)).

Definition wake_body (p : Z) (_ : unit) : M sched (unit + unit) :=
  t <-- deref p ;;
  now <-- mgets ticks ;;
  mwhen (wake_due now t) (upd p woken) ;;;
  mret_ (inr tt).

Definition wake_sleepers : M sched unit :=
  h <-- mgets task_list ;;
  mwhen (negb (h =? 0)) (over_ring wake_body tt ;;; mret_ tt).

(** The search for the next READY task, from [next] up to [curr]. *)
Fixpoint pick (curr : Z) (fuel : nat) (next : Z) : M sched Z :=
  match fuel with
  | O => mstop
  | S fuel =>
      t <-- deref next ;;
      if is_state TASK_READY t then mret_ next
      else if next =? curr then mret_ next
      else pick curr fuel (t_next t)
  end.

Definition dispatched (t : task) : task := with_time_slice (task_quantum t) (with_state TASK_RUNNING t).

(** What follows the choice: counters, CR3, TSS and FPU. *)
Definition finish_switch (curr : Z) : M sched Z :=
  new <-- mgets current_task ;;
  upd new (fun t => with_switch_count (u64 (t_switch_count t + 1)) t) ;;;
  mmodify (fun s => set_global_switch_count (u32 (global_switch_count s + 1)) s) ;;;
  nt <-- deref new ;;
  cur_dir <-- mgets (fun s => current_directory (vmst s)) ;;
  mwhen (negb (t_page_directory nt =? cur_dir)) (in_vm (switch_page_directory (t_page_directory nt))) ;;;
  mwhen (negb (t_kernel_stack nt =? 0)) (mmodify (set_rsp0 (t_kernel_stack nt))) ;;;
  mwhen (negb (new =? curr)) (
    ct <-- deref curr ;;
    mwhen (negb (t_fpu_ctx ct =? 0))
      (mmodify (fun s => set_fpu_areas (<[t_fpu_ctx ct := fpu_regs s]> (fpu_areas s)) s)) ;;;
    mwhen (negb (t_fpu_ctx nt =? 0))
      (mmodify (fun s => set_fpu_regs (default 0 (fpu_areas s !! t_fpu_ctx nt)) s))) ;;;
  mret_ (t_stack_top nt).

Definition switch_from (curr : Z) : M sched Z :=
  ct <-- deref curr ;;
  fuel <-- mgets ring_fuel ;;
  next <-- pick curr fuel (t_next ct) ;;
  nt <-- deref next ;;
  (if is_state TASK_READY nt then upd next dispatched ;;; mmodify (set_current_task next)
   else mwhen (is_state TASK_READY ct) (upd curr dispatched)) ;;;
  finish_switch curr.

Definition saved (rsp : Z) (t : task) : task :=
  with_cpu_ticks (u64 (t_cpu_ticks t + 1)) (with_stack_top rsp t).

(** The part of [schedule] under the lock. *)
Definition schedule_locked (current_rsp : Z) : M sched Z :=
  curr <-- mgets current_task ;;
  forced <-- mgets g_resched_force ;;
  mmodify (set_g_resched_force false) ;;;
  handle_ctrl_c ;;;
  wake_sleepers ;;;
  upd curr (saved current_rsp) ;;;
  ct <-- deref curr ;;
  if (negb forced && is_state TASK_RUNNING ct && (1 <? t_time_slice ct))%bool then
    upd curr (with_time_slice (t_time_slice ct - 1)) ;;; mret_ current_rsp
  else
    mwhen (negb forced && is_state TASK_RUNNING ct)%bool (upd curr (with_time_slice 0)) ;;;
    mwhen (is_state TASK_RUNNING ct) (upd curr (with_state TASK_READY)) ;;;
    switch_from curr.

(** [Resume]: the stack pointer to continue with. *)
Inductive outcome := Resume (rsp : Z) (s : sched) | Panic (why : panic) | Stuck.

Definition schedule (current_rsp : Z) (s : sched) : outcome :=
  if current_task s =? 0 then Resume current_rsp s else
  match tasks s !! current_task s with
  | None => Stuck
  | Some c =>
      if ((t_id c =? 0) && (t_next c =? current_task s))%bool then Resume current_rsp s else
      match stack_check s c current_rsp with
      | Some why => Panic why
      | None => match schedule_locked current_rsp s with Some (rsp, s') => Resume rsp s' | None => Stuck end
      end
  end.

(** ** Sleeping, priorities, listing *)

Definition task_sleep_ms (ms : Z) : M sched unit :=
  c <-- mgets current_task ;;
  if c =? 0 then mret_ tt
  else if ms =? 0 then switch_task
  else
    let n := u32 (ms + 9) / 10 in
    let n := if n =? 0 then 1 else n in
    now <-- mgets ticks ;;
    upd c (fun t => with_state TASK_SLEEPING (with_wake_tick (u64 (now + n)) t)) ;;;
    switch_task.

Definition set_priority_body (pid priority p : Z) (_ : unit) : M sched (unit + unit) :=
  t <-- deref p ;;
  if t_id t =? pid then upd p (with_priority priority) ;;; mret_ (inl tt) else mret_ (inr tt).

Definition task_set_priority (pid priority : Z) : M sched unit :=
  let priority := if priority <? 1 then 1 else priority in
  let priority := if TASK_PRIO_MAX <? priority then TASK_PRIO_MAX else priority in
  h <-- mgets task_list ;;
  mwhen (negb (h =? 0)) (over_ring (set_priority_body pid priority) tt ;;; mret_ tt).

Definition get_priority_body (pid p : Z) (_ : unit) : M sched (Z + unit) :=
  t <-- deref p ;;
  if t_id t =? pid then mret_ (inl (t_priority t)) else mret_ (inr tt).

Definition task_get_priority (pid : Z) : M sched Z :=
  h <-- mgets task_list ;;
  if h =? 0 then mret_ (-1) else
  r <-- over_ring (get_priority_body pid) tt ;;
  mret_ (match r with inl p => p | inr _ => -1 end).

(** What [task_snapshot] copies of a task. *)
Record task_info := {
  ti_id : Z;
  ti_parent_id : Z;
  ti_state : task_state;
  ti_heap_start : Z;
  ti_heap_end : Z;
  ti_cpu_ticks : Z;
  ti_switch_count : Z;
  ti_priority : Z;
  ti_user_mode : bool;
  ti_name : list Z
}.

Definition snapshot_body (max_entries p : Z) (out : list task_info) : M sched (list task_info + list task_info) :=
  if max_entries <=? Z.of_nat (length out) then mret_ (inl out) else
  t <-- deref p ;;
  pid <-- (if t_parent t =? 0 then mret_ (-1) else pt <-- deref (t_parent t) ;; mret_ (t_id pt)) ;;
  mret_ (inr (out ++ [
    {| ti_id := t_id t; ti_parent_id := pid; ti_state := t_state t; ti_heap_start := t_heap_start t;
       ti_heap_end := t_heap_end t; ti_cpu_ticks := t_cpu_ticks t; ti_switch_count := t_switch_count t;
       ti_priority := t_priority t; ti_user_mode := t_user_mode t; ti_name := take 31 (t_name t) |}])).

Definition task_snapshot (max_entries : Z) : M sched (list task_info) :=
  h <-- mgets task_list ;;
  if ((h =? 0) || (max_entries <=? 0))%bool then mret_ [] else
  r <-- over_ring (snapshot_body max_entries) [] ;;
  mret_ (match r with inl out | inr out => out end).

Definition task_total_switches (s : sched) : Z := global_switch_count s.

(** [task_set_fpu]: 0x1F80 with [fninit] is the initial state of the FPU. *)
Definition FPU_INIT : Z := 0x1F80.
Definition task_set_fpu (fpu_area : Z) : M sched unit :=
  c <-- mgets current_task ;;
  if c =? 0 then mret_ tt else
  upd c (with_fpu_ctx fpu_area) ;;;
  mwhen (negb (fpu_area =? 0)) (
    mmodify (set_fpu_regs FPU_INIT) ;;;
    mmodify (fun s => set_fpu_areas (<[fpu_area := FPU_INIT]> (fpu_areas s)) s)).

(** ** Processes *)

Definition FD_TYPE_PIPE : Z := 3.
Definition pipe_ref (p : pipe) (n : Z) : pipe :=
  {| p_buffer := p_buffer p; p_read_pos := p_read_pos p; p_write_pos := p_write_pos p;
     p_bytes_avail := p_bytes_avail p; p_refcount := n |}.

(** [if (p) p->refcount++] for a descriptor of a pipe. *)
Definition share_fd (f : kfile) : M sched unit := fun s =>
  if ((f_type f =? FD_TYPE_PIPE) && negb (f_socket_ptr f =? 0))%bool then
    match pipes s !! f_socket_ptr f with
    | Some p => Some (tt, set_pipes (<[f_socket_ptr f := pipe_ref p (p_refcount p + 1)]> (pipes s)) s)
    | None => None
    end
  else Some (tt, s).

Fixpoint share_fds (fs : list kfile) : M sched unit :=
  match fs with
  | [] => mret_ tt
  | f :: fs' => share_fd f ;;; share_fds fs'
  end.

(** [regs] is the 176 bytes of the caller's frame.  The child is not linked into
    the list of tasks. *)
Definition fork_process (regs : list Z) : M sched Z :=
  parent <-- mgets current_task ;;
  p <-- in_vm (call_kmalloc SIZEOF_TASK) ;;
  pid <-- take_pid ;;
  pt <-- deref parent ;;
  dir <-- in_vm (vmm_copy_directory (t_page_directory pt)) ;;
  base <-- in_vm (call_kmalloc 4096) ;;
  let new_stack_ptr := u64 (base + 4096 - SIZEOF_REGS) in
  mem_write new_stack_ptr regs ;;;
  mem_write new_stack_ptr (le_bytes 8 0) ;;;
  share_fds (t_fds pt) ;;;
  put_task p
    {| t_id := pid; t_state := TASK_READY; t_exit_code := 0; t_stack_top := new_stack_ptr;
       t_kernel_stack := u64 (base + 4096); t_kernel_stack_base := base; t_kernel_stack_size := 4096;
       t_stack_canary := 0; t_stack_canary_addr := 0; t_parent := parent; t_next := 0;
       t_page_directory := dir; t_fpu_ctx := 0; t_heap_start := t_heap_start pt;
       t_heap_end := t_heap_end pt; t_mmap_top := t_mmap_top pt; t_cpu_ticks := 0; t_switch_count := 0;
       t_priority := t_priority pt; t_time_slice := task_quantum pt; t_wake_tick := 0;
       t_user_mode := t_user_mode pt; t_name := []; t_cwd := t_cwd pt; t_fds := t_fds pt; t_gui := 0 |} ;;;
  mret_ pid.

(** The scan of [sys_waitpid]: [inl t] is a zombie child to reap; the local
    flags are [found] and [any_child]. *)
Definition wait_body (me pid p : Z) (b : bool * bool) : M sched (Z + bool * bool) :=
  let '(found, any_child) := b in
  t <-- deref p ;;
  if t_parent t =? 0 then mret_ (inr (found, any_child)) else
  par <-- deref (t_parent t) ;;
  if negb (t_id par =? me) then mret_ (inr (found, any_child)) else
  if ((pid =? -1) || (t_id t =? pid))%bool then
    if is_state TASK_ZOMBIE t then mret_ (inl p) else mret_ (inr (true, true))
  else mret_ (inr (found, true)).

Fixpoint find_prev (t : Z) (fuel : nat) (prev : Z) : M sched Z :=
  match fuel with
  | O => mstop
  | S fuel => pt <-- deref prev ;; if t_next pt =? t then mret_ prev else find_prev t fuel (t_next pt)
  end.

Definition reparent_body (t p : Z) (_ : unit) : M sched (unit + unit) :=
  pt <-- deref p ;;
  h <-- mgets task_list ;;
  mwhen (t_parent pt =? t) (upd p (with_parent h)) ;;;
  mret_ (inr tt).

(** Unlink and free a zombie; returns its pid and exit code. *)
Definition reap (t : Z) : M sched (Z * Z) :=
  tk <-- deref t ;;
  fuel <-- mgets ring_fuel ;;
  h <-- mgets task_list ;;
  prev <-- find_prev t fuel h ;;
  upd prev (with_next (t_next tk)) ;;;
  mwhen (negb (t_kernel_stack_base tk =? 0) && negb (t_kernel_stack_size tk =? 0))%bool
    (in_vm (call_kfree (t_kernel_stack_base tk))) ;;;
  over_ring (reparent_body t) tt ;;;
  kd <-- mgets (fun s => kernel_directory (vmst s)) ;;
  mwhen (negb (t_page_directory tk =? 0) && negb (t_page_directory tk =? kd))%bool
    (in_vm (vmm_free_directory (t_page_directory tk))) ;;;
  in_vm (call_kfree t) ;;;
  mmodify (fun s => set_tasks (delete t (tasks s)) s) ;;;
  mret_ (t_id tk, t_exit_code tk).

Inductive waited := Reaped (pid status : Z) | NoChild | Blocked.

(** One round of the loop, up to the call of [switch_task]. *)
Definition wait_round (parent pid : Z) : M sched waited :=
  pt <-- deref parent ;;
  r <-- over_ring (wait_body (t_id pt) pid) (false, false) ;;
  match r with
  | inl t => x <-- reap t ;; mret_ (Reaped (fst x) (snd x))
  | inr (found, any_child) =>
      if (negb any_child || (negb (pid =? -1) && negb found))%bool then mret_ NoChild
      else upd parent (with_state TASK_SLEEPING) ;;; mret_ Blocked
  end.

(** [Some (None, _)]: the loop is still running after [fuel] rounds. *)
Fixpoint wait_loop (parent pid : Z) (fuel : nat) : M sched (option waited) :=
  match fuel with
  | O => mret_ None
  | S fuel =>
      r <-- wait_round parent pid ;;
      match r with
      | Blocked => switch_task ;;; wait_loop parent pid fuel
      | r => mret_ (Some r)
      end
  end.

Definition sys_waitpid (pid : Z) (fuel : nat) : M sched (option waited) :=
  c <-- mgets current_task ;; wait_loop c pid fuel.

Definition kill_body (pid p : Z) (_ : unit) : M sched (unit + unit) :=
  t <-- deref p ;;
  if t_id t =? pid then
    mwhen (t_user_mode t) (upd p kill_mark ;;; wake_parent t) ;;;
    mret_ (inl tt)
  else mret_ (inr tt).

Definition sys_kill_by_pid (pid : Z) : M sched unit :=
  if pid <? 0 then mret_ tt else over_ring (kill_body pid) tt ;;; mret_ tt.

(** [sys_exit_process] up to its final loop of [switch_task] calls.  The GUI
    state of the task is freed; the scene graph is not modelled. *)
Definition sys_exit_process (status : Z) : M sched unit :=
  c <-- mgets current_task ;;
  t <-- deref c ;;
  mwhen (negb (t_gui t =? 0)) (in_vm (call_kfree (t_gui t)) ;;; upd c (with_gui 0)) ;;;
  fg <-- mgets last_foreground_pid ;;
  mwhen (t_id t =? fg) (mmodify (set_last_foreground_pid (-1))) ;;;
  upd c (fun t => with_exit_code status (with_state TASK_ZOMBIE t)) ;;;
  wake_parent t.
