(* ===== verification/TaskRing.v ===== *)
(** * The circular list of tasks

    The representation of the scheduler's list: [ring s l] says that following
    the [next] pointers from [task_list] visits exactly [l] and comes back.  A
    [do ... while] loop over it is a fold over [l] ([over_ring_fold]), so it
    terminates.  [keeps R m] says that whatever [m] does is within the relation
    [R]; it is proved by the structure of the command. *)

From Stdlib Require Import ZArith Lia.
From stdpp Require Import base numbers list gmap.
From S2P Require Import Prelude Pmm Kheap Vmm Usercopy Bytes Task.

(** ** The ring *)

Fixpoint linked (m : gmap Z task) (l : list Z) (last : Z) : Prop :=
  match l with
  | [] => True
  | p :: r => (exists t, m !! p = Some t /\ t_next t = default last (head r)) /\ linked m r last
  end.

Record ring (s : sched) (l : list Z) : Prop := {
  rg_head : head l = Some (task_list s);
  rg_nodup : NoDup l;
  rg_linked : linked (tasks s) l (task_list s)
}.

(** States with the same list: only fields other than [next] differ. *)
Definition same_ring (s s' : sched) : Prop :=
  task_list s' = task_list s /\ forall p, t_next <$> tasks s' !! p = t_next <$> tasks s !! p.

#[export] Instance same_ring_equiv : Equivalence same_ring.
Proof.
  split.
  - by intros s.
  - intros s1 s2 [H1 H2]. split; [done|]. intros p. by rewrite H2.
  - intros s1 s2 s3 [H1 H2] [H3 H4]. split; [congruence|]. intros p. by rewrite H4, H2.
Qed.

Lemma linked_next m m' l e :
  (forall p, p ∈ l -> t_next <$> m' !! p = t_next <$> m !! p) -> linked m l e -> linked m' l e.
Proof.
  induction l as [|p r IH]; intros Hm; [done|]. intros [(t & Ht & Hn) Hr]. split.
  - specialize (Hm p (list_elem_of_here _ _)). rewrite Ht in Hm. simpl in Hm.
    destruct (m' !! p) as [t'|] eqn:E; [|done]. injection Hm as Hm. exists t'. by rewrite Hm.
  - apply IH; [|done]. intros q Hq. apply Hm. by apply list_elem_of_further.
Qed.

Lemma ring_same s s' l : same_ring s s' -> ring s l -> ring s' l.
Proof.
  intros [H1 H2] [Hh Hn Hl]. split; [by rewrite H1|done|]. rewrite H1. eapply linked_next; [|done]. auto.
Qed.

#[export] Instance ring_proper : Proper (same_ring ==> eq ==> iff) ring.
Proof. intros s s' Hs l l' <-. split; apply ring_same; [done|by symmetry]. Qed.

(** The loop body run over a list of tasks. *)
Fixpoint ring_fold {A B} (body : Z -> B -> M sched (A + B)) (l : list Z) (b : B) : M sched (A + B) :=
  match l with
  | [] => mret_ (inr b)
  | p :: r => x <-- body p b ;; match x with inl a => mret_ (inl a) | inr b' => ring_fold body r b' end
  end.

(** What a command does to the state, whenever it returns, is within [R]. *)
Definition keeps (R : relation sched) {A} (m : M sched A) : Prop := forall s a s', m s = Some (a, s') -> R s s'.

Lemma linked_suffix m l1 l2 e : linked m (l1 ++ l2) e -> linked m l2 e.
Proof. induction l1 as [|p l1 IH]; [done|]. intros [_ H]. by apply IH. Qed.

Lemma linked_lookup m l e p : linked m l e -> p ∈ l -> is_Some (m !! p).
Proof.
  induction l as [|q l IH]; intros Hl Hp; [by apply not_elem_of_nil in Hp|]. destruct Hl as [(t & Ht & _) Hl].
  apply elem_of_cons in Hp as [->|Hp]; [by exists t|by apply IH].
Qed.

Lemma do_ring_fold {A B} (body : Z -> B -> M sched (A + B)) fuel p r b s :
  (forall q x, keeps same_ring (body q x)) -> linked (tasks s) (p :: r) (task_list s) -> task_list s ∉ r ->
  (S (length r) <= fuel)%nat -> do_ring body fuel p b s = ring_fold body (p :: r) b s.
Proof.
  intros Hb. revert p r b s. induction fuel as [|fuel IH]; intros p r b s Hl Hh Hf; [lia|].
  cbn [do_ring ring_fold]. unfold mbind_. destruct (body p b s) as [[[a|b'] s1]|] eqn:E; [done| |done].
  destruct (Hb _ _ _ _ _ E) as [H1 H2]. pose proof (linked_next _ (tasks s1) _ _ (fun q _ => H2 q) Hl) as Hl1.
  destruct Hl1 as [(t & Ht & Hn) Hl1]. unfold deref, mgets. rewrite Ht, Hn, H1.
  destruct r as [|q r]; cbn [head default from_option id] in *.
  - by rewrite Z.eqb_refl.
  - apply not_elem_of_cons in Hh as [Hq Hh]. rewrite (proj2 (Z.eqb_neq q (task_list s))) by done.
    apply IH; rewrite ?H1; [done|done|simpl in *; lia].
Qed.

Lemma ring_length s l : ring s l -> (length l <= size (tasks s))%nat.
Proof.
  intros [_ Hn Hl]. rewrite <- (length_map_to_list (tasks s)).
  rewrite <- (length_fmap fst (map_to_list (tasks s))). apply submseteq_length, NoDup_submseteq; [done|].
  intros p Hp. destruct (linked_lookup _ _ _ p Hl Hp) as [t Ht].
  apply list_elem_of_fmap. exists (p, t). split; [done|]. by apply elem_of_map_to_list.
Qed.

Lemma over_ring_fold {A B} (body : Z -> B -> M sched (A + B)) b s l :
  (forall q x, keeps same_ring (body q x)) -> ring s l -> over_ring body b s = ring_fold body l b s.
Proof.
  intros Hb Hr. pose proof (ring_length s l Hr) as Hlen. destruct Hr as [Hh Hn Hl].
  destruct l as [|p r]; [done|]. injection Hh as Hp. subst p. apply NoDup_cons in Hn as [Hp _].
  apply do_ring_fold; [done|done|done|]. unfold ring_fuel. simpl in *. lia.
Qed.

(** ** Commands within a relation *)

Create HintDb keeps.

Section Keeps.
Context (R : relation sched) `{!PreOrder R}.

Lemma keeps_ret {A} (a : A) : keeps R (mret_ a).
Proof. by intros s b s' [= <- <-]. Qed.
Lemma keeps_gets {A} (f : sched -> A) : keeps R (mgets f).
Proof. by intros s b s' [= <- <-]. Qed.
Lemma keeps_stop {A} : keeps R (A := A) mstop.
Proof. done. Qed.
Lemma keeps_deref p : keeps R (deref p).
Proof. intros s t s'. unfold deref. destruct (tasks s !! p); [|done]. by intros [= <- <-]. Qed.
Lemma keeps_modify f : (forall s, R s (f s)) -> keeps R (mmodify f).
Proof. by intros Hf s a s' [= <- <-]. Qed.
Lemma keeps_bind {A B} (m : M sched A) (k : A -> M sched B) :
  keeps R m -> (forall a, keeps R (k a)) -> keeps R (mbind_ m k).
Proof. intros Hm Hk s b s' E. minv E as a s1 E1. transitivity s1; [by eapply Hm|by eapply Hk]. Qed.
Lemma keeps_when b m : keeps R m -> keeps R (mwhen b m).
Proof. destruct b; [done|]. intros _. apply keeps_ret. Qed.
Lemma keeps_upd p f :
  (forall s t, tasks s !! p = Some t -> R s (set_tasks (<[p := f t]> (tasks s)) s)) -> keeps R (upd p f).
Proof.
  intros Hf s a s'. unfold upd. destruct (tasks s !! p) as [t|] eqn:E; [|done]. intros [= <- <-]. by apply Hf.
Qed.
Lemma keeps_if {A} (b : bool) (m1 m2 : M sched A) : keeps R m1 -> keeps R m2 -> keeps R (if b then m1 else m2).
Proof. by destruct b. Qed.
Lemma keeps_fold {A B} (body : Z -> B -> M sched (A + B)) l b :
  (forall q x, keeps R (body q x)) -> keeps R (ring_fold body l b).
Proof.
  intros Hb. revert b. induction l as [|p l IH]; intros b; cbn [ring_fold]; [apply keeps_ret|].
  apply keeps_bind; [apply Hb|]. intros [a|b']; [apply keeps_ret|apply IH].
Qed.
Lemma keeps_do_ring {A B} (body : Z -> B -> M sched (A + B)) fuel t b :
  (forall q x, keeps R (body q x)) -> keeps R (do_ring body fuel t b).
Proof.
  intros Hb. revert t b. induction fuel as [|fuel IH]; intros t b; cbn [do_ring]; [apply keeps_stop|].
  apply keeps_bind; [apply Hb|]. intros [a|b']; [apply keeps_ret|].
  apply keeps_bind; [apply keeps_deref|intros tk]. apply keeps_bind; [apply keeps_gets|intros h].
  apply keeps_if; [apply keeps_ret|apply IH].
Qed.
Lemma keeps_over_ring {A B} (body : Z -> B -> M sched (A + B)) b :
  (forall q x, keeps R (body q x)) -> keeps R (over_ring body b).
Proof. intros Hb s r s' E. by apply keeps_do_ring in E. Qed.
End Keeps.

Lemma keeps_weaken (R R' : relation sched) {A} (m : M sched A) :
  (forall s s', R s s' -> R' s s') -> keeps R m -> keeps R' m.
Proof. intros HR Hm s a s' E. eapply HR, Hm, E. Qed.

(** Prove [keeps] by the structure of the command; [leaf] deals with
    assignments. *)
Tactic Notation "keeps_with" tactic3(leaf) :=
  intros; repeat first
    [ solve [eauto 2 with keeps] | apply keeps_bind; [apply _| |intros ?] | apply keeps_when; [apply _|] | apply keeps_if
    | apply keeps_ret; apply _ | apply keeps_gets; apply _ | apply keeps_deref; apply _ | apply keeps_stop
    | apply keeps_over_ring; [apply _|intros ? ?] | solve [leaf] ].

(** ** Operations that leave the list, the parents, the pids and the heap alone *)

Definition shape (t : task) : Z * Z * Z * Z * Z :=
  (t_next t, t_parent t, t_id t, t_kernel_stack_base t, t_page_directory t).

Definition same_shape (s s' : sched) : Prop :=
  task_list s' = task_list s /\ next_pid s' = next_pid s /\ vheap (vmst s') = vheap (vmst s)
  /\ kernel_directory (vmst s') = kernel_directory (vmst s)
  /\ forall p, shape <$> tasks s' !! p = shape <$> tasks s !! p.

#[export] Instance same_shape_preorder : PreOrder same_shape.
Proof.
  split; [by intros s|]. intros s1 s2 s3 (A1 & A2 & A3 & A4 & A5) (B1 & B2 & B3 & B4 & B5).
  split_and!; congruence.
Qed.

Lemma same_shape_ring s s' : same_shape s s' -> same_ring s s'.
Proof.
  intros (H1 & _ & _ & _ & H5). split; [done|]. intros p. specialize (H5 p).
  destruct (tasks s' !! p), (tasks s !! p); simpl in *; try done. unfold shape in H5. congruence.
Qed.

Lemma shape_upd p f : (forall t, shape (f t) = shape t) -> keeps same_shape (upd p f).
Proof.
  intros Hf. apply keeps_upd. intros s t Ht. split_and!; try done. intros q. cbn [tasks set_tasks].
  rewrite lookup_insert. case_decide as Hq; [|done]. subst q. rewrite Ht. simpl. by rewrite Hf.
Qed.
Lemma shape_switch_dir d : keeps same_shape (in_vm (switch_page_directory d)).
Proof. by intros s a s' [= <- <-]. Qed.
#[export] Hint Resolve shape_switch_dir : keeps.

Ltac shape_leaf :=
  first [ apply shape_upd; by intros [] | apply keeps_modify; by intros [] ].
Ltac keeps_shape := keeps_with shape_leaf.

Lemma shape_wake_parent t : keeps same_shape (wake_parent t).
Proof. unfold wake_parent. keeps_shape. Qed.
#[export] Hint Resolve shape_wake_parent : keeps.
Lemma shape_ctrl_c_body p x : keeps same_shape (ctrl_c_body p x).
Proof. unfold ctrl_c_body. keeps_shape. Qed.
Lemma shape_wake_body p x : keeps same_shape (wake_body p x).
Proof. unfold wake_body. keeps_shape. Qed.
Lemma shape_set_priority_body pid pr p x : keeps same_shape (set_priority_body pid pr p x).
Proof. unfold set_priority_body. keeps_shape. Qed.
Lemma shape_kill_body pid p x : keeps same_shape (kill_body pid p x).
Proof. unfold kill_body. keeps_shape. Qed.
Lemma shape_wait_body me pid p x : keeps same_shape (wait_body me pid p x).
Proof. unfold wait_body. destruct x as [f a]. keeps_shape. Qed.
#[export] Hint Resolve shape_ctrl_c_body shape_wake_body shape_set_priority_body shape_kill_body shape_wait_body : keeps.
Lemma shape_pick c fuel n : keeps same_shape (pick c fuel n).
Proof. revert n. induction fuel as [|fuel IH]; intros n; cbn [pick]; keeps_shape. Qed.
Lemma shape_finish c : keeps same_shape (finish_switch c).
Proof. unfold finish_switch. keeps_shape. Qed.
#[export] Hint Resolve shape_pick shape_finish : keeps.
Lemma shape_switch_from c : keeps same_shape (switch_from c).
Proof. unfold switch_from. keeps_shape. Qed.
Lemma shape_handle_ctrl_c : keeps same_shape handle_ctrl_c.
Proof. unfold handle_ctrl_c. keeps_shape. Qed.
Lemma shape_wake_sleepers : keeps same_shape wake_sleepers.
Proof. unfold wake_sleepers. keeps_shape. Qed.
#[export] Hint Resolve shape_switch_from shape_handle_ctrl_c shape_wake_sleepers : keeps.
Lemma shape_schedule_locked rsp : keeps same_shape (schedule_locked rsp).
Proof. unfold schedule_locked. keeps_shape. Qed.
Lemma shape_switch_task : keeps same_shape switch_task.
Proof. unfold switch_task, irq0_handler, timer_handler. keeps_shape. Qed.
#[export] Hint Resolve shape_schedule_locked shape_switch_task : keeps.
Lemma shape_sleep ms : keeps same_shape (task_sleep_ms ms).
Proof. unfold task_sleep_ms. keeps_shape. Qed.
Lemma shape_set_priority pid pr : keeps same_shape (task_set_priority pid pr).
Proof. unfold task_set_priority. keeps_shape. Qed.
Lemma shape_kill pid : keeps same_shape (sys_kill_by_pid pid).
Proof. unfold sys_kill_by_pid. keeps_shape. Qed.
#[export] Hint Resolve shape_sleep shape_set_priority shape_kill : keeps.

Lemma keeps_shape_ring {A} (m : M sched A) : keeps same_shape m -> keeps same_ring m.
Proof. apply keeps_weaken, same_shape_ring. Qed.
#[export] Hint Resolve keeps_shape_ring : keeps.

(** A loop whose body rewrites each task by [g]. *)
Lemma ring_fold_map (g : task -> task) (body : Z -> unit -> M sched (unit + unit)) s l m :
  (forall m p t, m !! p = Some t -> body p tt (set_tasks m s) = Some (inr tt, set_tasks (<[p := g t]> m) s)) ->
  NoDup l -> (forall p, p ∈ l -> is_Some (m !! p)) ->
  exists m', ring_fold body l tt (set_tasks m s) = Some (inr tt, set_tasks m' s)
    /\ forall p, m' !! p = if decide (p ∈ l) then g <$> m !! p else m !! p.
Proof.
  intros Hb. revert m. induction l as [|q l IH]; intros m Hn Hd.
  - exists m. split; [done|]. intros p. by rewrite decide_False by apply not_elem_of_nil.
  - apply NoDup_cons in Hn as [Hq Hn]. destruct (Hd q (list_elem_of_here _ _)) as [t Ht].
    destruct (IH (<[q := g t]> m)) as (m' & Hm & Hlook); [done| |].
    { intros p Hp. apply lookup_insert_is_Some'. right. apply Hd. by right. }
    exists m'. cbn [ring_fold]. unfold mbind_. rewrite (Hb _ _ _ Ht). split; [exact Hm|]. intros p. rewrite Hlook.
    rewrite lookup_insert. destruct (decide (q = p)) as [->|Hp].
    + rewrite decide_False by done. rewrite decide_True by apply list_elem_of_here. by rewrite Ht.
    + destruct (decide (p ∈ l)) as [Hin|Hin].
      * rewrite decide_True by (by right). done.
      * rewrite decide_False; [done|]. by intros [->|?]%elem_of_cons.
Qed.

(** ** Inserting and removing *)

Lemma linked_app m l1 c l2 e : linked m (l1 ++ c :: l2) e <-> linked m l1 c /\ linked m (c :: l2) e.
Proof.
  induction l1 as [|p l1 IH]; [by simpl; tauto|]. cbn [app linked].
  assert (Hh : default e (head (l1 ++ c :: l2)) = default c (head l1)) by (by destruct l1).
  rewrite Hh, IH. cbn [linked]. tauto.
Qed.

(** [link_task] puts the new task behind the head. *)
Lemma ring_link s h r p t s' :
  ring s (h :: r) -> p ∉ h :: r -> tasks s !! p = Some t -> link_task p s = Some (tt, s') ->
  exists ht, tasks s !! h = Some ht
    /\ s' = set_tasks (<[h := with_next p ht]> (<[p := with_next (t_next ht) t]> (tasks s))) s
    /\ ring s' (h :: p :: r).
Proof.
  intros [Hh Hn Hl] Hp Ht E. injection Hh as Hh. apply not_elem_of_cons in Hp as [Hph Hpr].
  unfold link_task in E. minv E as h' s1 E1. injection E1 as <- <-. rewrite <- Hh in E.
  destruct Hl as [(ht & Hht & Hnx) Hl]. minv E as ht' s2 E2. unfold deref in E2. rewrite Hht in E2. injection E2 as <- <-.
  minv E as u s3 E3. unfold upd in E3. rewrite Ht in E3. injection E3 as _ <-.
  unfold upd in E. cbn [tasks set_tasks] in E. rewrite lookup_insert_ne, Hht in E by done. injection E as <-.
  exists ht. split; [done|]. split; [done|]. apply NoDup_cons in Hn as [Hhr Hnr]. split.
  - cbn. by rewrite <- Hh.
  - apply NoDup_cons. split; [by intros [?|?]%elem_of_cons|]. by apply NoDup_cons.
  - cbn [tasks set_tasks task_list]. change (task_list _) with (task_list s). cbn [linked head default from_option id].
    split; [|split].
    + eexists. rewrite lookup_insert_eq. split; [reflexivity|done].
    + eexists. rewrite lookup_insert_ne, lookup_insert_eq by done. split; [reflexivity|]. cbn. rewrite Hnx. done.
    + eapply linked_next; [|exact Hl]. intros q Hq. rewrite !lookup_insert_ne; [done| |]; by intros ->.
Qed.

Lemma find_prev_spec s l1 prev t l2 fuel :
  linked (tasks s) (l1 ++ prev :: t :: l2) (task_list s) -> NoDup (l1 ++ prev :: t :: l2) ->
  (length l1 < fuel)%nat ->
  find_prev t fuel (default prev (head l1)) s = Some (prev, s).
Proof.
  revert fuel. induction l1 as [|q l1 IH]; intros fuel Hl Hn Hf; (destruct fuel as [|fuel]; [lia|]); cbn [find_prev];
    unfold mbind_, deref; cbn [head default from_option id].
  - destruct Hl as [(pt & Hpt & Hnx) _]. rewrite Hpt, Hnx. cbn. by rewrite Z.eqb_refl.
  - destruct Hl as [(pt & Hpt & Hnx) Hl]. apply NoDup_cons in Hn as [Hq Hn]. rewrite Hpt, Hnx.
    assert (Hh : default (task_list s) (head (l1 ++ prev :: t :: l2)) = default prev (head l1)) by (by destruct l1).
    rewrite Hh. rewrite (proj2 (Z.eqb_neq _ t)); [apply IH; [done|done|simpl in Hf; lia]|].
    apply NoDup_app in Hn as (Hn1 & Hd & Hn2). apply NoDup_cons in Hn2 as [Hpt' _].
    destruct l1 as [|x l1]; cbn.
    + intros ->. apply Hpt', list_elem_of_here.
    + intros ->. apply (Hd t); [apply list_elem_of_here|]. right. apply list_elem_of_here.
Qed.

Lemma ring_unlink s l1 prev t l2 pt tk :
  ring s (l1 ++ prev :: t :: l2) -> tasks s !! prev = Some pt -> tasks s !! t = Some tk ->
  ring (set_tasks (<[prev := with_next (t_next tk) pt]> (tasks s)) s) (l1 ++ prev :: l2).
Proof.
  intros [Hh Hn Hl] Hpt Htk. assert (Hn' : NoDup (l1 ++ prev :: l2)).
  { apply NoDup_app in Hn as (H1 & H2 & H3). apply NoDup_cons in H3 as [H4 H5]. apply NoDup_cons in H5 as [H6 H7].
    apply NoDup_app. split; [done|]. split.
    - intros x Hx [->|Hin]%elem_of_cons; apply (H2 _ Hx); [left|right; right; exact Hin].
    - apply NoDup_cons. split; [|done]. intros Hin. apply H4. by right. }
  split; [by destruct l1|done|]. cbn [tasks set_tasks]. change (task_list _) with (task_list s).
  apply linked_app in Hl as [Hl1 Hl2]. destruct Hl2 as [_ Hl2]. destruct Hl2 as [(tk' & Htk' & Hnx) Hl2].
  assert (tk' = tk) as -> by congruence. apply NoDup_app in Hn' as (_ & Hd & Hp). apply NoDup_cons in Hp as [Hp _].
  apply linked_app. split; [|cbn [linked]; split].
  - eapply linked_next; [|exact Hl1]. intros q Hq. rewrite lookup_insert_ne; [done|]. intros ->.
    apply (Hd q Hq), list_elem_of_here.
  - eexists. rewrite lookup_insert_eq. split; [reflexivity|]. cbn. exact Hnx.
  - eapply linked_next; [|exact Hl2]. intros q Hq. rewrite lookup_insert_ne; [done|]. by intros ->.
Qed.
