(* ===== verification/TaskSched.v ===== *)
(** * The scheduler's decisions

    What [schedule] does to a well-formed list of tasks. *)

From Stdlib Require Import ZArith Lia.
From stdpp Require Import base numbers list gmap.
From S2P Require Import Prelude Pmm Kheap Vmm Usercopy Bytes Task TaskRing.

(** ** The choice of the next task *)

(** Following [next] from [p] visits [l]. *)
Fixpoint path (m : gmap Z task) (p : Z) (l : list Z) : Prop :=
  match l with
  | [] => True
  | q :: r => t_next <$> m !! p = Some q /\ path m q r
  end.

Lemma path_app m p l1 q l2 : path m p (l1 ++ [q]) -> path m q l2 -> path m p (l1 ++ q :: l2).
Proof.
  revert p. induction l1 as [|x l1 IH]; intros p; simpl; [by intros [? _]|].
  intros [Hx Hl] H2. split; [done|]. by apply IH.
Qed.

Lemma linked_path m p l e : linked m (p :: l) e -> path m p (l ++ [e]).
Proof.
  revert p. induction l as [|q l IH]; intros p [(t & Ht & Hn) Hl]; simpl in *.
  - rewrite Ht. simpl. by rewrite Hn.
  - rewrite Ht. simpl. rewrite Hn. split; [done|]. by apply IH.
Qed.

Lemma linked_prefix m l1 c l2 e : linked m (l1 ++ c :: l2) e -> linked m l1 c.
Proof.
  induction l1 as [|p l1 IH]; [done|]. intros [(t & Ht & Hn) Hl]. split; [|by apply IH].
  exists t. split; [done|]. rewrite Hn. by destruct l1.
Qed.

Lemma ring_path s pre c post : ring s (pre ++ c :: post) -> path (tasks s) c (post ++ pre ++ [c]).
Proof.
  intros [Hh _ Hl]. pose proof (linked_path _ _ _ _ (linked_suffix _ _ _ _ Hl)) as H1.
  destruct pre as [|h pre]; simpl in *.
  - injection Hh as ->. done.
  - injection Hh as ->. apply path_app; [done|]. apply linked_path. exact (linked_prefix _ (_ :: pre) _ _ _ Hl).
Qed.

Definition ready_in (m : gmap Z task) (p : Z) : bool :=
  match m !! p with Some t => is_state TASK_READY t | None => false end.

Lemma pick_spec s c l q fuel L :
  q :: l = L ++ [c] -> c ∉ L -> path (tasks s) q l -> is_Some (tasks s !! c) -> (length l < fuel)%nat ->
  pick c fuel q s = Some (default c (List.find (ready_in (tasks s)) (q :: l)), s).
Proof.
  revert q L fuel. induction l as [|x l IH]; intros q L fuel HL Hc Hp [tc Htc] Hf;
    (destruct fuel as [|fuel]; [lia|]); cbn [pick]; unfold mbind_, deref.
  - destruct L as [|y L]; [|destruct L; done]. injection HL as ->. rewrite Htc. cbn [List.find].
    unfold ready_in. rewrite Htc. destruct (is_state _ _); [done|]. by rewrite Z.eqb_refl.
  - destruct L as [|y L]; [done|]. injection HL as -> HL. destruct Hp as [Hn Hp].
    apply not_elem_of_cons in Hc as [Hcy Hc].
    destruct (tasks s !! y) as [t|] eqn:Ht; [|done]. injection Hn as Hn. cbn [List.find]. unfold ready_in at 1.
    rewrite Ht. destruct (is_state _ _); [done|]. rewrite (proj2 (Z.eqb_neq y c)) by done. rewrite Hn.
    apply (IH x L); [done|done|done|by exists tc|simpl in Hf; lia].
Qed.

(** *** Waking sleepers *)

Definition wake_one (now : Z) (t : task) : task := if wake_due now t then woken t else t.

Lemma wake_body_map s m p t :
  m !! p = Some t ->
  wake_body p tt (set_tasks m s) = Some (inr tt, set_tasks (<[p := wake_one (ticks s) t]> m) s).
Proof.
  intros Ht. unfold wake_body, mbind_, deref, mgets, mwhen, mret_, upd, wake_one. cbn [tasks set_tasks].
  rewrite Ht. change (ticks (set_tasks m s)) with (ticks s). destruct (wake_due (ticks s) t); [cbn [tasks set_tasks]; by rewrite Ht|].
  by rewrite insert_id by done.
Qed.

(** *** One call of the scheduler *)

Definition ctrl_c_idle (s : sched) : Prop := (ctrl_c_pending s && (0 <? last_foreground_pid s))%bool = false.

(** Tasks the scheduler may choose at this tick. *)
Definition runnable (s : sched) (p : Z) : bool :=
  match tasks s !! p with
  | Some t => (is_state TASK_READY t || wake_due (ticks s) t || ((p =? current_task s) && is_state TASK_RUNNING t))%bool
  | None => false
  end.

(** The quantum keeps the running task. *)
Definition in_quantum (s : sched) (ct : task) : bool :=
  (negb (g_resched_force s) && is_state TASK_RUNNING ct && (1 <? t_time_slice ct))%bool.

Lemma wake_sleepers_spec s l :
  ring s l -> task_list s <> 0 ->
  exists m, wake_sleepers s = Some (tt, set_tasks m s)
    /\ forall p, m !! p = if decide (p ∈ l) then wake_one (ticks s) <$> tasks s !! p else tasks s !! p.
Proof.
  intros Hr H0. pose proof Hr as [_ Hn Hl].
  destruct (ring_fold_map (wake_one (ticks s)) wake_body s l (tasks s) (wake_body_map s) Hn
              (fun p Hp => linked_lookup _ _ _ p Hl Hp)) as (m & Hm & Hlook).
  replace (set_tasks (tasks s) s) with s in Hm by (by destruct s).
  exists m. split; [|done]. unfold wake_sleepers, mbind_, mgets, mwhen.
  rewrite (proj2 (Z.eqb_neq _ 0) H0). cbn [negb].
  rewrite (over_ring_fold wake_body tt s l) by (done || (intros; apply keeps_shape_ring, shape_wake_body)). by rewrite Hm.
Qed.

Lemma finish_spec s c nt :
  tasks s !! current_task s = Some nt -> is_Some (tasks s !! c) ->
  exists s', finish_switch c s = Some (t_stack_top nt, s')
    /\ tasks s' = <[current_task s := with_switch_count (u64 (t_switch_count nt + 1)) nt]> (tasks s)
    /\ current_task s' = current_task s /\ ticks s' = ticks s.
Proof.
  intros Hn [ct Hc]. unfold finish_switch, mbind_, mgets, upd, mmodify, deref, mwhen, in_vm, switch_page_directory, mret_.
  rewrite Hn. cbn [tasks set_tasks set_global_switch_count vmst]. rewrite lookup_insert_eq.
  cbn [t_page_directory t_kernel_stack t_fpu_ctx t_stack_top with_switch_count].
  set (nt' := with_switch_count _ nt).
  destruct (negb (t_page_directory nt =? _)); destruct (negb (t_kernel_stack nt =? 0));
    destruct (Z.eqb_spec (current_task s) c) as [Hcc|Hcc]; cbn [negb tasks set_tasks set_vmst set_rsp0 set_global_switch_count];
    try (eexists; split; [reflexivity|]; split; [reflexivity|]; split; reflexivity);
    unfold mmodify, mgets, deref; cbn [tasks set_tasks set_vmst set_rsp0 set_global_switch_count];
    rewrite lookup_insert_ne by done; rewrite Hc;
    destruct (negb (t_fpu_ctx ct =? 0)); destruct (negb (t_fpu_ctx nt =? 0));
    (eexists; split; [reflexivity|]; split; [reflexivity|]; split; reflexivity).
Qed.

Lemma find_ext {A} (f g : A -> bool) l : (forall x, x ∈ l -> f x = g x) -> List.find f l = List.find g l.
Proof.
  induction l as [|x l IH]; intros H; [done|]. simpl. rewrite (H x) by apply list_elem_of_here.
  rewrite IH; [done|]. intros y Hy. apply H. by right.
Qed.

(** The tasks when the choice is made: sleepers woken, the running one saved
    and made READY. *)
Definition before_pick (s : sched) (rsp : Z) (m : gmap Z task) (ct : task) : gmap Z task :=
  let t := saved rsp (wake_one (ticks s) ct) in
  let t := if (negb (g_resched_force s) && is_state TASK_RUNNING t)%bool then with_time_slice 0 t else t in
  <[current_task s := if is_state TASK_RUNNING t then with_state TASK_READY t else t]> m.

Lemma wake_one_running now t : is_state TASK_RUNNING (wake_one now t) = is_state TASK_RUNNING t.
Proof. unfold wake_one, wake_due, is_state, woken. destruct t as [? st]; destruct st; simpl; repeat case_match; done. Qed.

Lemma wake_one_slice now t : is_state TASK_RUNNING t = true -> t_time_slice (wake_one now t) = t_time_slice t.
Proof. unfold wake_one, wake_due, is_state. destruct t as [? st]; destruct st; simpl; done. Qed.

Lemma before_pick_ready s l rsp m ct p :
  ring s l -> current_task s ∈ l -> tasks s !! current_task s = Some ct ->
  (forall p, m !! p = if decide (p ∈ l) then wake_one (ticks s) <$> tasks s !! p else tasks s !! p) ->
  p ∈ l -> ready_in (before_pick s rsp m ct) p = runnable s p.
Proof.
  intros Hr Hc Hct Hm Hp. unfold before_pick, ready_in, runnable. cbv zeta. rewrite lookup_insert.
  destruct (decide (current_task s = p)) as [<-|Hne].
  - rewrite Hct, Z.eqb_refl. unfold wake_one, woken, wake_due, is_state, saved.
    destruct ct as [? st]; destruct st; destruct (g_resched_force s); simpl; repeat case_match; simpl in *; try done; congruence.
  - rewrite Hm, decide_True by done. rewrite (proj2 (Z.eqb_neq p (current_task s))) by done.
    destruct (tasks s !! p) as [t|]; [|done]. simpl. unfold wake_one, woken, wake_due, is_state.
    destruct t as [? st]; destruct st; simpl; repeat case_match; simpl in *; try done; congruence.
Qed.

(** The locked part up to the decision on the quantum. *)
Lemma schedule_locked_unfold s l rsp ct :
  ring s l -> 0 ∉ l -> current_task s ∈ l -> tasks s !! current_task s = Some ct -> ctrl_c_idle s ->
  exists m, (forall p, m !! p = if decide (p ∈ l) then wake_one (ticks s) <$> tasks s !! p else tasks s !! p)
    /\ schedule_locked rsp s
       = let s1 := set_ctrl_c_pending false (set_g_resched_force false s) in
         let t := saved rsp (wake_one (ticks s) ct) in
         if in_quantum s ct
         then Some (rsp, set_tasks (<[current_task s := with_time_slice (t_time_slice t - 1) t]> m) s1)
         else switch_from (current_task s) (set_tasks (before_pick s rsp m ct) s1).
Proof.
  intros Hr H0 Hc Hct Hidle. set (c := current_task s) in *.
  set (s1 := set_ctrl_c_pending false (set_g_resched_force false s)).
  assert (Hr1 : ring s1 l) by (by apply (ring_same s)).
  assert (Hh : task_list s1 <> 0).
  { intros E. apply H0. destruct Hr as [Hh _ _]. destruct l as [|x l]; [done|]. injection Hh as Hh.
    change (task_list s1) with (task_list s) in E. apply elem_of_cons. left. congruence. }
  destruct (wake_sleepers_spec s1 l Hr1 Hh) as (m & Hw & Hm). exists m. split; [exact Hm|].
  unfold schedule_locked, mbind_, mgets, mmodify. fold c.
  assert (Hcc : handle_ctrl_c (set_g_resched_force false s) = Some (tt, s1)).
  { unfold handle_ctrl_c, mbind_, mgets, mmodify, mwhen. unfold ctrl_c_idle in Hidle.
    cbn [ctrl_c_pending set_g_resched_force set_ctrl_c_pending last_foreground_pid]. by rewrite Hidle. }
  rewrite Hcc, Hw. cbv zeta. unfold upd at 1. cbn [tasks set_tasks].
  assert (Hmc : m !! c = Some (wake_one (ticks s) ct)).
  { rewrite Hm, decide_True by done. change (tasks s1) with (tasks s). by rewrite Hct. }
  rewrite Hmc. unfold deref at 1. cbn [tasks set_tasks]. rewrite lookup_insert_eq.
  set (t := saved rsp (wake_one (ticks s) ct)).
  assert (Hrun : is_state TASK_RUNNING t = is_state TASK_RUNNING ct) by apply (wake_one_running (ticks s) ct).
  unfold in_quantum. rewrite Hrun. destruct (is_state TASK_RUNNING ct) eqn:Est.
  - assert (Hsl : t_time_slice t = t_time_slice ct) by (apply (wake_one_slice (ticks s) ct); done).
    rewrite Hsl. unfold before_pick. fold t. rewrite Hrun. fold c.
    destruct (g_resched_force s); cbn [negb andb]; [|destruct (1 <? t_time_slice ct)];
      unfold upd, mwhen, mret_; repeat (cbn [tasks set_tasks]; rewrite ?lookup_insert_eq, ?insert_insert_eq); try done.
    + by rewrite Hrun.
    + unfold mmodify. cbn [tasks set_tasks]. change (is_state TASK_RUNNING (with_time_slice 0 t)) with (is_state TASK_RUNNING t).
      by rewrite Hrun.
  - rewrite !andb_false_r. cbn [andb]. unfold mwhen, mret_, before_pick. fold t. fold c. rewrite Hrun, andb_false_r, Hrun. done.
Qed.

Lemma switch_from_spec s pre c post ct :
  ring s (pre ++ c :: post) -> current_task s = c -> tasks s !! c = Some ct ->
  let next := default c (List.find (ready_in (tasks s)) (post ++ pre ++ [c])) in
  exists nt s', tasks s !! next = Some nt /\ switch_from c s = Some (t_stack_top nt, s')
    /\ current_task s' = next /\ ticks s' = ticks s
    /\ tasks s' = <[next := let nt' := if is_state TASK_READY nt then dispatched nt else nt in
                            with_switch_count (u64 (t_switch_count nt' + 1)) nt']> (tasks s).
Proof.
  intros Hr Hcur Hct next. pose proof (ring_path _ _ _ _ Hr) as Hp. pose proof (ring_length _ _ Hr) as Hlen.
  pose proof Hr as [_ Hnd Hl]. apply NoDup_app in Hnd as (Hnp & Hdisj & Hnc). apply NoDup_cons in Hnc as [Hcp Hnpost].
  assert (HcL : c ∉ post ++ pre).
  { intros [?|Hin]%elem_of_app; [done|]. apply (Hdisj c Hin), list_elem_of_here. }
  subst next. assert (Eq : post ++ pre ++ [c] = (post ++ pre) ++ [c]) by apply app_assoc.
  destruct (post ++ pre ++ [c]) as [|q rest]; [by destruct (post ++ pre)|].
  destruct Hp as [Hn Hp]. rewrite Hct in Hn. injection Hn as Hn.
  assert (Hpick : pick c (ring_fuel s) q s = Some (default c (List.find (ready_in (tasks s)) (q :: rest)), s)).
  { apply (pick_spec s c rest q (ring_fuel s) (post ++ pre)); [done|done|done|by exists ct|].
    unfold ring_fuel. apply (f_equal length) in Eq. rewrite !length_app in Eq, Hlen.
    rewrite length_app in Eq. cbn [length] in Eq, Hlen. lia. }
  set (next := default c _) in *.
  assert (Hnext : next = c /\ List.find (ready_in (tasks s)) (q :: rest) = None \/ ready_in (tasks s) next = true).
  { unfold next. destruct (List.find _ _) as [x|] eqn:Ef; [|by left]. right. apply List.find_some in Ef as [_ Ef]. exact Ef. }
  assert (Hex : exists nt, tasks s !! next = Some nt).
  { destruct Hnext as [[-> _]|Hrdy]; [by exists ct|]. unfold ready_in in Hrdy. destruct (tasks s !! next); [by eexists|done]. }
  destruct Hex as [nt Hnt]. exists nt. unfold switch_from, mbind_, mgets. unfold deref at 1. rewrite Hct, Hn, Hpick.
  unfold deref at 1. rewrite Hnt. destruct (is_state TASK_READY nt) eqn:Erdy.
  - unfold mbind_, upd, mmodify. rewrite Hnt.
    set (s1 := set_current_task next (set_tasks (<[next := dispatched nt]> (tasks s)) s)).
    destruct (finish_spec s1 c (dispatched nt)) as (s' & Hf & Ht & Hc' & Htk).
    + unfold s1. cbn [tasks current_task set_current_task set_tasks]. apply lookup_insert_eq.
    + unfold s1. cbn [tasks set_current_task set_tasks]. apply lookup_insert_is_Some'. right. by exists ct.
    + exists s'. split; [done|]. split; [exact Hf|]. split; [exact Hc'|]. split; [exact Htk|]. cbv zeta.
      rewrite Ht. unfold s1. cbn [tasks current_task set_current_task set_tasks]. by rewrite insert_insert_eq.
  - assert (next = c) as Hnc.
    { destruct Hnext as [[? _]|Hrdy]; [done|]. unfold ready_in in Hrdy. rewrite Hnt in Hrdy. congruence. }
    rewrite Hnc in *. assert (nt = ct) as -> by congruence. rewrite Erdy. unfold mwhen, mret_.
    destruct (finish_spec s c ct) as (s' & Hf & Ht & Hc' & Htk); [by rewrite Hcur|by exists ct|].
    exists s'. rewrite Hcur in *. done.
Qed.

Lemma find_in {A} (f : A -> bool) l x : List.find f l = Some x -> x ∈ l.
Proof. intros [Hin _]%List.find_some. by apply list_elem_of_In. Qed.

Lemma rotate_in (pre post : list Z) c x : x ∈ post ++ pre ++ [c] <-> x ∈ pre ++ c :: post.
Proof. rewrite !elem_of_app, !elem_of_cons. pose proof (not_elem_of_nil x). tauto. Qed.

(** With another task in the list, a healthy stack and the lock, [schedule] is
    its locked part. *)
Lemma schedule_locked_run s pre c post ct rsp :
  ring s (pre ++ c :: post) -> c <> 0 -> pre ++ post <> [] -> current_task s = c ->
  tasks s !! c = Some ct -> stack_check s ct rsp = None ->
  schedule rsp s = match schedule_locked rsp s with Some (r, s') => Resume r s' | None => Stuck end.
Proof.
  intros Hr Hc0 Hother Hcur Hct Hchk. unfold schedule. rewrite Hcur, Hct, Hchk, (proj2 (Z.eqb_neq c 0)) by done.
  rewrite (proj2 (Z.eqb_neq (t_next ct) c)), andb_false_r; [done|]. intros Hn.
  pose proof (ring_path _ _ _ _ Hr) as Hp. pose proof Hr as [_ Hnd _].
  apply NoDup_app in Hnd as (_ & Hd & Hnc). apply NoDup_cons in Hnc as [Hnc _].
  destruct post as [|y post]; [destruct pre as [|y pre]; [done|]|]; destruct Hp as [Hp _]; rewrite Hct in Hp; injection Hp as Hp.
  - apply (Hd y); [apply list_elem_of_here|]. rewrite Hn in Hp. subst y. apply list_elem_of_here.
  - apply Hnc. rewrite Hn in Hp. subst y. apply list_elem_of_here.
Qed.

Lemma wake_one_next now t : t_next (wake_one now t) = t_next t.
Proof. unfold wake_one. by case_match. Qed.
Lemma wake_one_stack now t : t_stack_top (wake_one now t) = t_stack_top t.
Proof. unfold wake_one. by case_match. Qed.

Lemma before_pick_same s (l : list Z) rsp m ct :
  current_task s ∈ l -> tasks s !! current_task s = Some ct ->
  (forall p, m !! p = if decide (p ∈ l) then wake_one (ticks s) <$> tasks s !! p else tasks s !! p) ->
  same_ring s (set_tasks (before_pick s rsp m ct) (set_ctrl_c_pending false (set_g_resched_force false s))).
Proof.
  intros Hc Hct Hm. split; [done|]. intros p. cbn [tasks set_tasks]. unfold before_pick. cbv zeta.
  rewrite lookup_insert. case_decide as Hp.
  - subst p. rewrite Hct. simpl. f_equal. repeat case_match; apply wake_one_next.
  - rewrite Hm. case_decide; [|done]. destruct (tasks s !! p); [|done]. simpl. by rewrite wake_one_next.
Qed.

Lemma quantum_bounds t : 1 <= task_quantum t <= TASK_PRIO_MAX.
Proof. unfold task_quantum, TASK_PRIO_MAX. cbv zeta. repeat case_match; zbool; lia. Qed.

(** The branch of [schedule_locked] that gives the CPU away. *)
Lemma schedule_switch s pre c post ct rsp m :
  ring s (pre ++ c :: post) -> current_task s = c -> tasks s !! c = Some ct ->
  (forall p, m !! p = if decide (p ∈ pre ++ c :: post) then wake_one (ticks s) <$> tasks s !! p else tasks s !! p) ->
  let next := default c (List.find (runnable s) (post ++ pre ++ [c])) in
  exists s', switch_from c (set_tasks (before_pick s rsp m ct) (set_ctrl_c_pending false (set_g_resched_force false s)))
      = Some (if next =? c then rsp else default 0 (t_stack_top <$> tasks s !! next), s')
    /\ current_task s' = next
    /\ (runnable s next = true -> exists t', tasks s' !! next = Some t' /\ t_state t' = TASK_RUNNING
          /\ t_time_slice t' = task_quantum t' /\ 1 <= t_time_slice t' <= TASK_PRIO_MAX)
    /\ t_stack_top <$> tasks s' !! c = Some rsp
    /\ (next <> c -> t_state ct = TASK_RUNNING -> t_state <$> tasks s' !! c = Some TASK_READY).
Proof.
  intros Hr Hcur Hct Hm next. set (l := pre ++ c :: post) in *.
  assert (Hcl : c ∈ l) by (apply elem_of_app; right; apply list_elem_of_here).
  set (s2 := set_tasks _ _). rewrite <- Hcur in Hct, Hcl.
  pose proof (ring_same _ _ _ (before_pick_same s l rsp m ct Hcl Hct Hm) Hr) as Hr2. fold s2 in Hr2.
  assert (Hrdy : forall p, p ∈ l -> ready_in (tasks s2) p = runnable s p)
    by (intros p Hp; by apply (before_pick_ready s l rsp m ct)).
  assert (Hfind : List.find (ready_in (tasks s2)) (post ++ pre ++ [c]) = List.find (runnable s) (post ++ pre ++ [c])).
  { apply find_ext. intros p Hp. apply Hrdy. by apply rotate_in. }
  assert (Hnl : next ∈ l).
  { unfold next. destruct (List.find _ _) as [x|] eqn:E; [|rewrite <- Hcur; done].
    apply find_in in E. by apply rotate_in in E. }
  assert (Hc2 : exists ct', tasks s2 !! c = Some ct' /\ t_stack_top ct' = rsp
                 /\ (t_state ct = TASK_RUNNING -> t_state ct' = TASK_READY)).
  { unfold s2. cbn [tasks set_tasks]. unfold before_pick. cbv zeta. rewrite Hcur, lookup_insert_eq.
    eexists. split; [reflexivity|]. split; [by repeat case_match|]. intros Hst.
    assert (Hrun : is_state TASK_RUNNING (saved rsp (wake_one (ticks s) ct)) = true).
    { change (is_state TASK_RUNNING (wake_one (ticks s) ct) = true). rewrite wake_one_running. by apply bool_decide_eq_true_2. }
    rewrite Hrun. by destruct (g_resched_force s); simpl; rewrite ?Hrun; [|change (is_state TASK_RUNNING (with_time_slice 0 (saved rsp (wake_one (ticks s) ct)))) with (is_state TASK_RUNNING (saved rsp (wake_one (ticks s) ct))); rewrite Hrun]. }
  destruct Hc2 as (ct' & Hct' & Htop & Hst').
  destruct (switch_from_spec s2 pre c post ct' Hr2 Hcur Hct') as (nt & s' & Hnt & Hsw & Hc' & _ & Ht').
  rewrite Hfind in *. fold next in Hnt, Hsw, Hc', Ht'. exists s'. rewrite Hsw, Ht'. split_and!; [|done| | |].
  - do 2 f_equal. destruct (Z.eqb_spec next c) as [->|Hne]; [congruence|]. revert Hnt. unfold s2. cbn [tasks set_tasks].
    unfold before_pick. cbv zeta. rewrite Hcur, lookup_insert_ne, Hm, decide_True by done.
    destruct (tasks s !! next) as [t|]; [|done]. intros [= <-]. simpl. by rewrite wake_one_stack.
  - intros Hrun. rewrite <- Hrdy in Hrun by done. unfold ready_in in Hrun. rewrite Hnt in Hrun.
    rewrite lookup_insert_eq, Hrun. eexists. split; [reflexivity|]. split; [done|]. split; [done|]. apply quantum_bounds.
  - rewrite lookup_insert. case_decide as Hnc; [|by rewrite Hct'; simpl; rewrite Htop].
    rewrite Hnc in Hnt. assert (nt = ct') as -> by congruence. simpl. rewrite <- Htop. by repeat case_match.
  - intros Hne Hst. rewrite lookup_insert_ne by done. rewrite Hct'. simpl. by rewrite Hst'.
Qed.

(** C21: the scheduler is a weighted round robin.  While the running task has
    quantum left and no yield was asked for, it goes on with one tick less.
    Otherwise [schedule] returns, and the CPU goes to the first runnable task
    after the current one in the circular list (READY, due to wake, or the
    running task itself last of all), which continues from its saved stack
    pointer, in state RUNNING and with a full quantum of at most ten ticks; the
    list is unchanged, the old task keeps its stack pointer for its next turn,
    and when no task is runnable the current one continues. *)
Theorem schedule_round_robin s pre c post ct rsp :
  ring s (pre ++ c :: post) -> 0 ∉ pre ++ c :: post -> pre ++ post <> [] -> current_task s = c ->
  tasks s !! c = Some ct -> stack_check s ct rsp = None -> ctrl_c_idle s ->
  exists s', ring s' (pre ++ c :: post)
    /\ if in_quantum s ct then
         schedule rsp s = Resume rsp s' /\ current_task s' = c
         /\ t_time_slice <$> tasks s' !! c = Some (t_time_slice ct - 1)
       else
         let next := default c (List.find (runnable s) (post ++ pre ++ [c])) in
         current_task s' = next
         /\ schedule rsp s = Resume (if next =? c then rsp else default 0 (t_stack_top <$> tasks s !! next)) s'
         /\ (runnable s next = true -> exists t', tasks s' !! next = Some t' /\ t_state t' = TASK_RUNNING
               /\ t_time_slice t' = task_quantum t' /\ 1 <= t_time_slice t' <= TASK_PRIO_MAX)
         /\ t_stack_top <$> tasks s' !! c = Some rsp
         /\ (next <> c -> t_state ct = TASK_RUNNING -> t_state <$> tasks s' !! c = Some TASK_READY).
Proof.
  intros Hr H0 Hother Hcur Hct Hchk Hidle.
  assert (Hcl : c ∈ pre ++ c :: post) by (apply elem_of_app; right; apply list_elem_of_here).
  assert (Hc0 : c <> 0) by (by intros ->).
  rewrite (schedule_locked_run s pre c post ct rsp Hr Hc0 Hother Hcur Hct Hchk).
  destruct (schedule_locked_unfold s _ rsp ct Hr H0) as (m & Hm & Hlock); [by rewrite Hcur|by rewrite Hcur|done|].
  assert (Hkeep : forall r s', schedule_locked rsp s = Some (r, s') -> ring s' (pre ++ c :: post)).
  { intros r s' E. apply (ring_same s); [|done]. eapply keeps_shape_ring; [apply shape_schedule_locked|exact E]. }
  rewrite Hlock in *. cbv zeta in *. rewrite Hcur in *. destruct (in_quantum s ct) eqn:Eq.
  - eexists. split; [by eapply Hkeep|]. split; [reflexivity|]. split; [exact Hcur|].
    cbn [tasks set_tasks]. rewrite lookup_insert_eq. cbn. rewrite wake_one_slice; [done|].
    unfold in_quantum in Eq. by apply andb_true_iff in Eq as [[_ ?]%andb_true_iff _].
  - destruct (schedule_switch s pre c post ct rsp m Hr Hcur Hct Hm) as (s' & Hsw & Hc' & Hrest).
    exists s'. split; [by eapply Hkeep|]. split; [done|]. by rewrite Hsw.
Qed.

(** ** A parent woken by [exit] or [kill] *)

(** [p] is off the CPU in a state the scheduler never chooses. *)
Definition benched (p : Z) (s : sched) : Prop :=
  current_task s <> p
  /\ exists t, tasks s !! p = Some t /\ (t_state t = TASK_RUNNING \/ t_state t = TASK_ZOMBIE).

Definition stays_benched (p : Z) (s s' : sched) : Prop := benched p s -> benched p s'.
#[export] Instance stays_benched_preorder p : PreOrder (stays_benched p).
Proof. split; [by intros s H|]. intros s1 s2 s3 H1 H2 H. by apply H2, H1. Qed.

Lemma benched_upd p q f :
  q <> p \/ (forall t, t_state (f t) = t_state t) \/ (forall t, t_state (f t) = TASK_RUNNING)
  \/ (forall t, t_state (f t) = TASK_ZOMBIE) ->
  keeps (stays_benched p) (upd q f).
Proof.
  intros Hf. apply keeps_upd. intros s t Ht (Hc & tp & Htp & Hst). split; [done|]. cbn [tasks set_tasks].
  rewrite lookup_insert. case_decide as Hq; [|by exists tp]. subst q. rewrite Ht in Htp. injection Htp as ->.
  exists (f tp). split; [done|]. destruct Hf as [?|[Hf|[Hf|Hf]]]; [done|..]; rewrite Hf; auto.
Qed.

Lemma benched_modify p f :
  (forall s, tasks (f s) = tasks s /\ current_task (f s) = current_task s) -> keeps (stays_benched p) (mmodify f).
Proof. intros Hf. apply keeps_modify. intros s. unfold stays_benched, benched. by destruct (Hf s) as [-> ->]. Qed.

Lemma benched_in_vm {A} p (m : M vm A) : keeps (stays_benched p) (in_vm m).
Proof. intros s a s'. unfold in_vm. destruct (m (vmst s)) as [[x v]|]; [|done]. intros [= <- <-] H. exact H. Qed.

Ltac benched_leaf :=
  first [ apply benched_in_vm | apply benched_modify; by intros []
        | apply benched_upd; right; first [left; by intros [] | right; left; by intros [] | right; right; by intros []] ].
Ltac keeps_benched := keeps_with benched_leaf.

Lemma benched_ctrl_c p : keeps (stays_benched p) handle_ctrl_c.
Proof. unfold handle_ctrl_c, ctrl_c_body, wake_parent. keeps_benched. Qed.

Lemma benched_wake_body p q x : keeps (stays_benched p) (wake_body q x).
Proof.
  intros s a s' E. unfold wake_body in E. minv E as t s1 E1. unfold deref in E1.
  destruct (tasks s !! q) as [t'|] eqn:Ht; [|done]. injection E1 as -> ->. minv E as now s2 E2. injection E2 as <- <-.
  minv E as u s3 E3. injection E as <- <-. destruct (wake_due (ticks s1) t) eqn:Ed; [|by injection E3 as <- <-].
  intros (Hc & tp & Htp & Hst). destruct (decide (q = p)) as [->|Hq].
  - rewrite Ht in Htp. injection Htp as ->. unfold wake_due, is_state in Ed.
    destruct Hst as [Hst|Hst]; rewrite Hst in Ed; simpl in Ed; done.
  - eapply (benched_upd p q woken); [by left|exact E3|]. split; [done|by exists tp].
Qed.
#[export] Hint Resolve benched_ctrl_c benched_wake_body benched_in_vm : keeps.

Lemma benched_wake_sleepers p : keeps (stays_benched p) wake_sleepers.
Proof. unfold wake_sleepers. keeps_benched. Qed.
Lemma benched_finish p c : keeps (stays_benched p) (finish_switch c).
Proof. unfold finish_switch. keeps_benched. Qed.
#[export] Hint Resolve benched_wake_sleepers benched_finish : keeps.

Lemma pick_same c fuel n s r s' : pick c fuel n s = Some (r, s') -> s' = s.
Proof.
  revert n. induction fuel as [|fuel IH]; intros n E; [done|]. cbn [pick] in E. minv E as t s1 E1.
  unfold deref in E1. destruct (tasks s !! n); [|done]. injection E1 as <- <-.
  destruct (is_state _ _); [by injection E as _ <-|]. destruct (n =? c); [by injection E as _ <-|by apply IH in E].
Qed.

Lemma benched_switch_from p c : keeps (stays_benched p) (switch_from c).
Proof.
  intros s a s' E Hp. pose proof Hp as (Hc & tp & Htp & Hst). unfold switch_from in E.
  minv E as ct s1 E1. unfold deref in E1. destruct (tasks s !! c) as [ct'|] eqn:Hct; [|done]. injection E1 as -> ->.
  minv E as fuel s2 E2. injection E2 as <- <-. minv E as next s3 E3. apply pick_same in E3 as ->.
  minv E as nt s4 E4. unfold deref in E4. destruct (tasks s1 !! next) as [nt'|] eqn:Hnt; [|done]. injection E4 as -> ->.
  minv E as u s5 E5. apply (benched_finish p c) in E. apply E. destruct (is_state TASK_READY nt) eqn:Hr.
  - minv E5 as u' s6 E6. injection E5 as _ <-.
    assert (Hnp : next <> p).
    { intros ->. rewrite Hnt in Htp. injection Htp as ->. unfold is_state in Hr.
      destruct Hst as [Hst|Hst]; rewrite Hst in Hr; done. }
    apply (benched_upd p next dispatched) in E6; [|by left]. destruct (E6 Hp) as (_ & Hrest). by split.
  - revert Hp. eapply (keeps_when (stays_benched p)); [|exact E5]. apply benched_upd. auto.
Qed.

#[export] Hint Resolve benched_switch_from : keeps.

Lemma benched_locked p rsp s r s' : schedule_locked rsp s = Some (r, s') -> benched p s -> benched p s'.
Proof.
  intros E Hp. pose proof Hp as [Hc _]. unfold schedule_locked in E. minv E as curr s2 E2. injection E2 as <- <-.
  refine ((_ : keeps (stays_benched p) _) s _ _ E Hp).
  keeps_with (first [apply benched_upd; left; exact Hc | benched_leaf]).
Qed.

Lemma benched_schedule p rsp s r s' : schedule rsp s = Resume r s' -> benched p s -> benched p s'.
Proof.
  unfold schedule. destruct (current_task s =? 0); [by intros [= _ <-]|].
  destruct (tasks s !! current_task s) as [c|] eqn:Hcur; [|done]. destruct (_ && _)%bool; [by intros [= _ <-]|].
  destruct (stack_check _ _ _); [done|]. destruct (schedule_locked rsp s) as [[r' s1]|] eqn:E; [|done].
  intros [= _ <-]. by eapply benched_locked.
Qed.

(** Timer interrupts and calls of the scheduler, in any order. *)
Inductive sched_step : sched -> sched -> Prop :=
| step_tick rsp s r s' : irq0_handler rsp s = Some (r, s') -> sched_step s s'
| step_schedule rsp s r s' : schedule rsp s = Resume r s' -> sched_step s s'.

Lemma benched_steps p s s' : rtc sched_step s s' -> benched p s -> benched p s'.
Proof.
  induction 1 as [|s s1 s' Hs _ IH]; [done|]. intros Hp. apply IH. destruct Hs as [rsp s r s1 E|rsp s r s1 E].
  - injection E as _ <-. exact Hp.
  - by eapply benched_schedule.
Qed.

(** [sys_exit_process] wakes the parent by setting its state to
    TASK_RUNNING, but the scheduler only ever chooses READY tasks and returns
    only the task on the CPU from RUNNING to READY.  So a parent that was waiting
    for the task that exits is never given the CPU again, whatever number of
    timer interrupts and calls of the scheduler follow. *)
Theorem exit_strands_parent s ct status s1 s2 :
  tasks s !! current_task s = Some ct -> t_parent ct <> 0 -> t_parent ct <> current_task s ->
  sys_exit_process status s = Some (tt, s1) -> rtc sched_step s1 s2 ->
  current_task s2 <> t_parent ct /\ t_state <$> tasks s2 !! t_parent ct <> Some TASK_READY.
Proof.
  intros Hct Hp0 Hpc E Hs. assert (Hb : benched (t_parent ct) s1).
  { unfold sys_exit_process in E. minv E as c s3 E3. injection E3 as <- <-. minv E as t s4 E4. unfold deref in E4.
    rewrite Hct in E4. injection E4 as <- <-.
    minv E as u5 s5 E5. minv E as fg s6 E6. injection E6 as <- <-. minv E as u7 s7 E7. minv E as u8 s8 E8.
    assert (H5 : current_task s5 = current_task s).
    { destruct (negb (t_gui ct =? 0)); [|by injection E5 as _ <-]. minv E5 as u9 s9 E9. unfold in_vm in E9. cbn in E9.
      injection E9 as _ <-. unfold upd in E5. destruct (_ !! _); [|done]. by injection E5 as _ <-. }
    assert (H7 : current_task s7 = current_task s) by (unfold mwhen in E7; destruct (t_id ct =? _); inversion E7; subst; exact H5).
    assert (H8 : current_task s8 = current_task s) by (unfold upd in E8; destruct (tasks s7 !! _); [|done]; inversion E8; subst; exact H7).
    unfold wake_parent in E. rewrite (proj2 (Z.eqb_neq _ 0) Hp0) in E. cbn [negb mwhen] in E. unfold upd in E.
    destruct (tasks s8 !! t_parent ct) as [pt|]; [|done]. injection E as <-. split; [cbn; congruence|].
    eexists. cbn [tasks set_tasks]. rewrite lookup_insert_eq. split; [done|]. by left. }
  destruct (benched_steps _ _ _ Hs Hb) as (Hc & t & -> & Hst). split; [done|]. simpl. destruct Hst as [-> | ->]; done.
Qed.

(** ** A machine with the kernel task and two threads *)

Definition run {A} (m : M sched A) (s : sched) : sched := match m s with Some (_, s') => s' | None => s end.
Definition resume (rsp : Z) (s : sched) : sched := match schedule rsp s with Resume _ s' => s' | _ => s end.

(** A run is known from the value it returns. *)
Lemma run_spec {A} (m : M sched A) s a : fst <$> m s = Some a -> m s = Some (a, run m s).
Proof. unfold run. destruct (m s) as [[b s']|]; [|done]. by intros [= ->]. Qed.

Lemma resume_spec rsp s r :
  match schedule rsp s with Resume r' _ => Some r' | _ => None end = Some r -> schedule rsp s = Resume r (resume rsp s).
Proof. unfold resume. destruct (schedule rsp s) as [r' s'| |]; try done. by intros [= ->]. Qed.

Lemma lookup_spec (m : gmap Z task) p i : t_id <$> m !! p = Some i -> m !! p = Some (default task0 (m !! p)).
Proof. by destruct (m !! p). Qed.

Definition sched_boot : sched :=
  {| vmst := {| vmem := ∅; vheap := kheap_set_start kheap_demo 0x10000; vdirs := ∅; kernel_directory := 0x9000;
                current_directory := 0x9000; walk_pt_modified_pml4 := false; cr3 := 0; msr_pat := 0 |};
     tasks := ∅; pipes := ∅; task_list := 0; current_task := 0; next_pid := 1; global_switch_count := 0;
     last_foreground_pid := -1; g_resched_force := false; ticks := 100; ctrl_c_pending := false; rsp0 := 0;
     fpu_regs := 0; fpu_areas := ∅; last_elf_heap_start := 0 |}.
Definition sched_init : sched := run init_tasking sched_boot.
Definition sched_demo : sched :=
  run (create_task_named_prio 0x2000 None 3) (run (create_task_named_stack 0x1000 None 2 8192) sched_init).
Definition list_demo : list Z := [65544; 76720; 67032].

Lemma ring_demo : ring sched_demo list_demo.
Proof.
  split; [vm_compute; reflexivity|by_compute|].
  cbn [linked list_demo head]. split_and!; try done; eexists; (split; [vm_compute; reflexivity|vm_compute; reflexivity]).
Qed.

Definition ct_demo : task := default task0 (tasks sched_demo !! 65544).

Lemma schedule_round_robin_witness :
  runnable sched_demo 76720 = true
  /\ exists s', schedule 0x7000 sched_demo = Resume 143568 s' /\ current_task s' = 76720.
Proof.
  split; [vm_compute; reflexivity|].
  destruct (schedule_round_robin sched_demo [] 65544 [76720; 67032] ct_demo 0x7000) as (s' & _ & Hs');
    [exact ring_demo|by_compute|done|vm_compute; reflexivity|vm_compute; reflexivity|vm_compute; reflexivity
    |vm_compute; reflexivity|].
  assert (Hq : in_quantum sched_demo ct_demo = false) by (vm_compute; reflexivity). rewrite Hq in Hs'.
  assert (Hn : default 65544 (List.find (runnable sched_demo) ([76720; 67032] ++ [] ++ [65544])) = 76720)
    by (vm_compute; reflexivity).
  cbv zeta in Hs'. rewrite Hn in Hs'. destruct Hs' as (Hcur & Hsch & _). exists s'. split; [|exact Hcur].
  rewrite Hsch. f_equal.
Defined.

(** The first thread runs and exits. *)
Definition sched_child : sched := resume 0x7000 sched_demo.
Definition sched_exited : sched := run (sys_exit_process 7) sched_child.
Definition sched_after : sched := resume 100000 sched_exited.
Definition sched_later : sched := run (irq0_handler 0) sched_after.

Lemma exit_strands_parent_witness :
  t_state <$> tasks sched_exited !! 65544 = Some TASK_RUNNING /\ current_task sched_later = 67032
  /\ current_task sched_later <> 65544.
Proof.
  split; [vm_compute; reflexivity|]. split; [vm_compute; reflexivity|].
  refine (proj1 (exit_strands_parent sched_child (default task0 (tasks sched_child !! current_task sched_child)) 7
    sched_exited sched_later _ _ _ _ _)).
  - exact (lookup_spec (tasks sched_child) (current_task sched_child) 2 ltac:(by_vm)).
  - vm_compute. discriminate.
  - vm_compute. discriminate.
  - exact (run_spec (sys_exit_process 7) sched_child tt ltac:(by_vm)).
  - apply (rtc_l _ _ sched_after); [|apply rtc_once].
    + exact (step_schedule 100000 _ _ _ (resume_spec 100000 sched_exited 76536 ltac:(by_vm))).
    + exact (step_tick 0 _ _ _ (run_spec (irq0_handler 0) sched_after 0 ltac:(by_vm))).
Defined.
