(* ===== verification/TaskInv.v ===== *)
(** * Well-formed task lists, from boot on

    [sched_inv s l] is the invariant of the task list: the [next] pointers form
    a ring over [l], the running task is in it, pids are distinct, a parent
    pointer is NULL or points to another listed task (never to a freed one), and
    every listed task and its kernel stack occupy blocks of their own in the
    kernel heap.  It is kept by creating, scheduling, killing, exiting and
    reaping. *)

From Stdlib Require Import ZArith Lia.
From stdpp Require Import base numbers list gmap.
From S2P Require Import Prelude Pmm Kheap Vmm Usercopy Bytes Task TaskRing TaskSched.

(** ** The heap below the tasks *)

Definition heap (s : sched) : kheap := vheap (vmst s).

Lemma kmalloc_kbytes h n p h' : kmalloc h n = KRet p h' -> kbytes h' = kbytes h.
Proof.
  unfold kmalloc, kheap_lazy_start, kheap_unlink, kheap_bump.
  destruct (kheap_start h =? 0); (destruct (kheap_search _ _) as [prev c| |]; [| |done]);
    try (destruct prev); try (destruct (_ <=? _); [done|]); by intros [= _ <-].
Qed.

(** A [kmalloc] of the scheduler: a block of its own, below 2^63, whose bytes
    are what memory held. *)
Record allocated (s : sched) (live : list Z) (size p : Z) (s' : sched) : Prop := {
  al_state : exists h', s' = set_vmst (set_vheap (vmst s) h') s;
  al_heap : exists free, heap_inv (heap s') free ((p - HEADER_SIZE) :: live);
  al_bytes : kmem s' = kmem s;
  al_addr : HEADER_SIZE < p /\ p + size < 2 ^ 63 + 4096;
  al_fresh : p - HEADER_SIZE ∉ live
}.

Lemma task_kmalloc s free live size p s' :
  heap_inv (heap s) free live -> 0 <= size -> size + 11 < 2 ^ 32 ->
  in_vm (call_kmalloc size) s = Some (p, s') -> allocated s live size p s'.
Proof.
  intros Hi H0 H1 E. unfold in_vm, call_kmalloc in E. destruct (kmalloc (vheap (vmst s)) size) as [q h| |] eqn:Ek; [|done|done].
  injection E as <- <-. destruct (kmalloc_ret _ _ _ _ _ _ Hi H0 H1 Ek) as (free' & Hi' & Hsz & _).
  pose proof (hi_current _ _ _ Hi') as Hc. destruct (hi_blocks _ _ _ Hi') as [Hnd Hin _].
  destruct (Hin (q - HEADER_SIZE)) as (Hb1 & Hb2 & Hb3); [apply elem_of_app; right; apply list_elem_of_here|].
  pose proof (hi_bounds _ _ _ Hi') as Hb. unfold HEADER_SIZE in *. constructor.
  - by exists h.
  - by exists free'.
  - unfold kmem. cbn. by eapply kmalloc_kbytes.
  - unfold HEADER_SIZE. lia.
  - apply NoDup_app in Hnd as (_ & _ & Hnd). by apply NoDup_cons in Hnd as [Hnd _].
Qed.

Lemma task_kfree s free l1 h l2 s' u :
  heap_inv (heap s) free (l1 ++ h :: l2) -> in_vm (call_kfree (h + HEADER_SIZE)) s = Some (u, s') ->
  (exists free', heap_inv (heap s') free' (l1 ++ l2)) /\ s' = set_vmst (vmst s') s
  /\ kernel_directory (vmst s') = kernel_directory (vmst s).
Proof.
  intros Hi E. injection E as _ <-. split; [|done]. exists (h :: free). cbn. by apply (heap_inv_kfree _ _ l1 h l2).
Qed.

(** ** The invariant *)

(** The heap blocks of a task: its [task_t] and its kernel stack. *)
Definition task_blocks (m : gmap Z task) (p : Z) : list Z :=
  match m !! p with
  | Some t => (p - HEADER_SIZE) :: (if t_kernel_stack_base t =? 0 then [] else [t_kernel_stack_base t - HEADER_SIZE])
  | None => []
  end.
Definition blocks (m : gmap Z task) (l : list Z) : list Z := flat_map (task_blocks m) l.

Record sched_inv (s : sched) (l : list Z) : Prop := {
  si_ring : ring s l;
  si_null : 0 ∉ l;
  si_current : current_task s ∈ l;
  si_root : t_parent <$> tasks s !! task_list s = Some 0;
  si_parent : forall p t, p ∈ l -> tasks s !! p = Some t -> t_parent t = 0 \/ (t_parent t ∈ l /\ t_parent t <> p);
  si_pid : forall p q t u, p ∈ l -> q ∈ l -> tasks s !! p = Some t -> tasks s !! q = Some u -> t_id t = t_id u -> p = q;
  si_pid_next : forall p t, p ∈ l -> tasks s !! p = Some t -> 0 <= t_id t < next_pid s;
  si_heap : exists free rest, heap_inv (heap s) free (blocks (tasks s) l ++ rest)
}.

Lemma blocks_ext m m' l :
  (forall p, p ∈ l -> t_kernel_stack_base <$> m' !! p = t_kernel_stack_base <$> m !! p) -> blocks m' l = blocks m l.
Proof.
  intros H. unfold blocks. induction l as [|p l IH]; [done|]. cbn [flat_map]. rewrite IH; [|intros q Hq; apply H; by right].
  f_equal. unfold task_blocks. specialize (H p (list_elem_of_here _ _)).
  destruct (m' !! p), (m !! p); simpl in H; try done. injection H as H. by rewrite H.
Qed.

Lemma shape_some s s' p t' : same_shape s s' -> tasks s' !! p = Some t' ->
  exists t, tasks s !! p = Some t /\ shape t' = shape t.
Proof.
  intros (_ & _ & _ & _ & H) E. specialize (H p). rewrite E in H.
  destruct (tasks s !! p) as [t|]; [|done]. exists t. split; [done|]. simpl in H. congruence.
Qed.

(** What the scheduler's own operations do keeps the invariant, as long as the
    running task stays listed. *)
Lemma inv_shape s s' l : same_shape s s' -> current_task s' ∈ l -> sched_inv s l -> sched_inv s' l.
Proof.
  intros Hsh Hc [Hr H0 _ Hroot Hpar Hpid Hnext (free & rest & Hh)].
  pose proof Hsh as (E1 & E2 & E3 & E4 & E5). constructor; try done.
  - eapply ring_same; [by apply same_shape_ring|done].
  - rewrite E1. specialize (E5 (task_list s)). destruct (tasks s !! task_list s), (tasks s' !! task_list s); try done.
    simpl in *. unfold shape in E5. congruence.
  - intros p t Hp Ht. destruct (shape_some _ _ _ _ Hsh Ht) as (t0 & Ht0 & Hs). unfold shape in Hs.
    replace (t_parent t) with (t_parent t0) by congruence. by eapply Hpar.
  - intros p q t u Hp Hq Ht Hu Hid. destruct (shape_some _ _ _ _ Hsh Ht) as (t0 & Ht0 & Hs).
    destruct (shape_some _ _ _ _ Hsh Hu) as (u0 & Hu0 & Hs'). unfold shape in Hs, Hs'. apply (Hpid p q t0 u0); congruence || done.
  - intros p t Hp Ht. destruct (shape_some _ _ _ _ Hsh Ht) as (t0 & Ht0 & Hs). unfold shape in Hs.
    replace (t_id t) with (t_id t0) by congruence. rewrite E2. by eapply Hnext.
  - exists free, rest. unfold heap. rewrite E3, (blocks_ext (tasks s)); [done|]. intros p _. specialize (E5 p).
    destruct (tasks s !! p), (tasks s' !! p); try done. simpl in *. unfold shape in E5. congruence.
Qed.

(** ** The running task stays listed *)

Definition listed (l : list Z) (s s' : sched) : Prop :=
  ring s l /\ current_task s ∈ l -> ring s' l /\ current_task s' ∈ l.
#[export] Instance listed_preorder l : PreOrder (listed l).
Proof. split; [by intros s H|]. intros s1 s2 s3 H1 H2 H. by apply H2, H1. Qed.

Lemma listed_upd l q f : (forall t, t_next (f t) = t_next t) -> keeps (listed l) (upd q f).
Proof.
  intros Hf. apply keeps_upd. intros s t Ht [Hr Hc]. split; [|done]. eapply ring_same; [|exact Hr].
  split; [done|]. intros p. cbn [tasks set_tasks]. rewrite lookup_insert. case_decide as Hq; [|done]. subst q.
  rewrite Ht. simpl. by rewrite Hf.
Qed.
Lemma listed_modify l f :
  (forall s, tasks (f s) = tasks s /\ current_task (f s) = current_task s /\ task_list (f s) = task_list s) ->
  keeps (listed l) (mmodify f).
Proof.
  intros Hf. apply keeps_modify. intros s [Hr Hc]. destruct (Hf s) as (E1 & E2 & E3). split; [|by rewrite E2].
  eapply ring_same; [|exact Hr]. split; [done|]. by rewrite E1.
Qed.
Lemma listed_in_vm {A} l (m : M vm A) : keeps (listed l) (in_vm m).
Proof. intros s a s'. unfold in_vm. destruct (m (vmst s)) as [[x v]|]; [|done]. intros [= <- <-] [H Hc].
  split; [by apply (ring_same s)|done].
Qed.

Ltac listed_leaf := first [ apply listed_in_vm | apply listed_upd; by intros [] | apply listed_modify; by intros [] ].
Ltac keeps_listed := keeps_with listed_leaf.

Lemma next_listed s l p t : ring s l -> p ∈ l -> tasks s !! p = Some t -> t_next t ∈ l.
Proof.
  intros Hr Hp Ht. apply list_elem_of_split in Hp as (pre & post & ->).
  pose proof (ring_path _ _ _ _ Hr) as Hpath. destruct (post ++ pre ++ [p]) as [|q r] eqn:E; [by destruct post, pre|].
  destruct Hpath as [Hn _]. rewrite Ht in Hn. injection Hn as ->. apply rotate_in. rewrite E. apply list_elem_of_here.
Qed.

Lemma pick_listed s l c fuel n r s' : ring s l -> n ∈ l -> pick c fuel n s = Some (r, s') -> r ∈ l.
Proof.
  intros Hr. revert n. induction fuel as [|fuel IH]; intros n Hn E; [done|]. cbn [pick] in E. minv E as t s1 E1.
  unfold deref in E1. destruct (tasks s !! n) as [t'|] eqn:Ht; [|done]. injection E1 as <- <-.
  destruct (is_state _ _); [by injection E as <- _|]. destruct (n =? c); [by injection E as <- _|].
  apply (IH (t_next t')); [|done]. exact (next_listed _ _ _ _ Hr Hn Ht).
Qed.

Lemma listed_finish l c : keeps (listed l) (finish_switch c).
Proof. unfold finish_switch. keeps_listed. Qed.

Lemma listed_switch_from l c s r s' :
  switch_from c s = Some (r, s') -> c ∈ l -> ring s l -> current_task s ∈ l -> current_task s' ∈ l.
Proof.
  intros E Hc Hr Hcur. unfold switch_from in E. minv E as ct s1 E1. unfold deref in E1.
  destruct (tasks s !! c) as [ct'|] eqn:Hct; [|done]. injection E1 as -> ->.
  minv E as fuel s2 E2. injection E2 as <- <-. minv E as next s3 E3. pose proof (pick_same _ _ _ _ _ _ E3) as ->.
  apply (pick_listed s1 l) in E3; [|done|exact (next_listed _ _ _ _ Hr Hc Hct)].
  minv E as nt s4 E4. unfold deref in E4. destruct (tasks s1 !! next) as [nt'|]; [|done]. injection E4 as -> ->.
  minv E as u s5 E5. apply (listed_finish l c) in E. apply E. destruct (is_state TASK_READY nt).
  - minv E5 as u' s6 E6. injection E5 as _ <-. eapply (listed_upd l next dispatched) in E6; [|by intros []].
    destruct (E6 (conj Hr Hcur)) as [Hr6 _]. split; [by apply (ring_same s6)|done].
  - eapply (keeps_when (listed l)) in E5; [by apply E5|apply listed_upd; by intros []].
Qed.

Lemma listed_schedule l rsp s r s' :
  schedule rsp s = Resume r s' -> ring s l -> current_task s ∈ l -> current_task s' ∈ l /\ same_shape s s'.
Proof.
  unfold schedule. destruct (current_task s =? 0); [intros [= _ <-] ? ?; split; [done|reflexivity]|].
  destruct (tasks s !! current_task s) as [c|] eqn:Hcur; [|done]. destruct (_ && _)%bool; [intros [= _ <-] ? ?; split; [done|reflexivity]|].
  destruct (stack_check _ _ _); [done|]. destruct (schedule_locked rsp s) as [[r' s1]|] eqn:E; [|done].
  intros [= _ <-] Hr Hc. split; [|by eapply shape_schedule_locked]. unfold schedule_locked in E.
  minv E as curr s2 E2. injection E2 as <- <-.
  assert (Hg : keeps (fun s s' => ring s l /\ current_task s ∈ l -> current_task s' ∈ l) (switch_from (current_task s))).
  { intros a b d Hab [H1 H2]. by eapply listed_switch_from. }
  minv E as forced s3 E3. injection E3 as <- <-. minv E as u4 s4 E4. minv E as u5 s5 E5. minv E as u6 s6 E6. minv E as u7 s7 E7.
  assert (H7 : ring s7 l /\ current_task s7 ∈ l).
  { assert (K1 : keeps (listed l) handle_ctrl_c) by (unfold handle_ctrl_c, ctrl_c_body, wake_parent; keeps_listed).
    assert (K2 : keeps (listed l) wake_sleepers) by (unfold wake_sleepers, wake_body; keeps_listed).
    eapply (listed_upd l _ (saved rsp)); [by intros []|exact E7|]. eapply K2; [exact E6|]. eapply K1; [exact E5|].
    injection E4 as _ <-. split; [by apply (ring_same s)|done]. }
  minv E as ct s8 E8. assert (s8 = s7) as -> by (unfold deref in E8; destruct (tasks s7 !! _); [by injection E8|done]).
  destruct (_ && _)%bool.
  - minv E as u9 s9 E9. injection E as _ <-. eapply (listed_upd l) in E9; [by apply E9|by intros []].
  - minv E as u9 s9 E9. minv E as u10 s10 E10. eapply Hg; [exact E|].
    assert (K : forall b f, (forall t, t_next (f t) = t_next t) -> keeps (listed l) (mwhen b (upd (current_task s) f)))
      by (intros b f Hf; by apply (keeps_when (listed l)), listed_upd).
    eapply K; [|exact E10|]; [by intros []|]. eapply K; [|exact E9|done]. by intros [].
Qed.

(** ** Creating a task *)

Lemma in_blocks m l p t : p ∈ l -> m !! p = Some t -> p - HEADER_SIZE ∈ blocks m l.
Proof.
  intros Hp Ht. apply list_elem_of_In, in_flat_map. exists p. split; [by apply list_elem_of_In|].
  unfold task_blocks. rewrite Ht. by left.
Qed.

Lemma heap_live_nodup h free live : heap_inv h free live -> NoDup live.
Proof. intros Hi. destruct (hi_blocks _ _ _ Hi) as [Hnd _ _]. by apply NoDup_app in Hnd as (_ & _ & Hnd). Qed.

(** The list with [p] behind the head [h], and the records found in it. *)
Section Linked.
Context (m : gmap Z task) (h p : Z) (r : list Z) (ht t : task).
Hypothesis Hhp : h <> p.
Hypothesis Hpr : p ∉ r.
Hypothesis Hhr : h ∉ r.
Hypothesis Hht : m !! h = Some ht.
Local Abbreviation m' := (<[h := with_next p ht]> (<[p := with_next (t_next ht) t]> (<[p := t]> m))).

Lemma linked_records q u :
  q ∈ h :: p :: r -> m' !! q = Some u ->
  (q = p /\ u = with_next (t_next ht) t) \/ (q ∈ h :: r /\ exists u0 nx, m !! q = Some u0 /\ u = with_next nx u0).
Proof.
  intros Hq. rewrite !lookup_insert. repeat case_decide; subst.
  - intros [= <-]. right. split; [apply list_elem_of_here|]. by exists ht, p.
  - intros [= <-]. by left.
  - intros Hu. right. split.
    + apply elem_of_cons in Hq as [->|Hq]; [done|]. apply elem_of_cons in Hq as [->|Hq]; [done|by right].
    + exists u, (t_next u). split; [done|]. by destruct u.
Qed.

Lemma linked_blocks :
  t_kernel_stack_base t <> 0 ->
  (t_kernel_stack_base t - HEADER_SIZE) :: (p - HEADER_SIZE) :: blocks m (h :: r) ≡ₚ blocks m' (h :: p :: r).
Proof.
  intros Hb. unfold blocks. cbn [flat_map]. fold (blocks m r) (blocks m' r).
  assert (Hr : blocks m' r = blocks m r).
  { apply blocks_ext. intros q Hq. rewrite !lookup_insert_ne; [done|..]; intros <-; done. }
  assert (Hh : task_blocks m' h = task_blocks m h) by (unfold task_blocks; by rewrite lookup_insert_eq, Hht).
  assert (Hp : task_blocks m' p = [p - HEADER_SIZE; t_kernel_stack_base t - HEADER_SIZE]).
  { unfold task_blocks. rewrite lookup_insert_ne, lookup_insert_eq by done. cbn.
    by rewrite (proj2 (Z.eqb_neq _ 0) Hb). }
  rewrite Hr, Hh, Hp. rewrite Permutation_app_swap_app. cbn [app]. apply perm_swap.
Qed.
End Linked.

(** A new task record [t] at [p], with its own blocks, linked behind the head. *)
Lemma inv_link s0 s l p t s' free rest :
  sched_inv s0 l -> tasks s = <[p := t]> (tasks s0) -> task_list s = task_list s0 -> current_task s = current_task s0 ->
  next_pid s = next_pid s0 + 1 -> t_id t = next_pid s0 -> t_parent t = current_task s0 ->
  t_kernel_stack_base t <> 0 -> p <> 0 ->
  heap_inv (heap s) free ((t_kernel_stack_base t - HEADER_SIZE) :: (p - HEADER_SIZE) :: blocks (tasks s0) l ++ rest) ->
  link_task p s = Some (tt, s') ->
  exists h r nx, l = h :: r /\ sched_inv s' (h :: p :: r) /\ tasks s' !! p = Some (with_next nx t).
Proof.
  intros [Hr H0 Hc Hroot Hpar Hpid Hnext _] Et El Ec En Hid Hp Hb Hp0 Hh E.
  assert (Hpl : p ∉ l).
  { intros Hin. destruct (linked_lookup _ _ _ p (rg_linked _ _ Hr) Hin) as [u Hu].
    pose proof (heap_live_nodup _ _ _ Hh) as Hn. apply NoDup_cons in Hn as [_ Hn]. apply NoDup_cons in Hn as [Hn _].
    apply Hn, elem_of_app. left. by eapply in_blocks. }
  destruct l as [|h r]; [by apply not_elem_of_nil in Hc|]. apply not_elem_of_cons in Hpl as [Hph Hpr].
  assert (Hr1 : ring s (h :: r)).
  { destruct Hr as [A B C]. split; [by rewrite El|done|]. rewrite El, Et. eapply linked_next; [|exact C].
    intros q Hq. rewrite lookup_insert_ne; [done|]. intros <-. by apply elem_of_cons in Hq as [?|?]. }
  destruct (ring_link s h r p t s' Hr1) as (ht & Hht & Es' & Hr2);
    [by apply not_elem_of_cons|by rewrite Et, lookup_insert_eq|done|].
  rewrite Et, lookup_insert_ne in Hht by done. rewrite Et in Es'.
  pose proof (rg_nodup _ _ Hr) as Hn. apply NoDup_cons in Hn as [Hhr _].
  assert (Hlook := linked_records (tasks s0) h p r ht t ltac:(done) Hpr Hhr Hht).
  assert (Hmono : forall q, q ∈ h :: r -> q ∈ h :: p :: r) by (intros q [->|?]%elem_of_cons; [left|right; by right]).
  exists h, r, (t_next ht). split; [done|]. rewrite Es'.
  split; [|cbn [tasks set_tasks]; by rewrite lookup_insert_ne, lookup_insert_eq by done].
  rewrite <- Es'. assert (Etk : tasks s' = <[h := with_next p ht]> (<[p := with_next (t_next ht) t]> (<[p := t]> (tasks s0)))) by (by rewrite Es').
  constructor; [exact Hr2| |rewrite Es'; cbn; rewrite Ec; by apply Hmono| | | | |]; rewrite ?Etk.
  - apply not_elem_of_cons in H0 as [H1 H2]. rewrite !not_elem_of_cons. auto.
  - rewrite Es'. change (task_list _) with (task_list s). rewrite El.
    destruct Hr as [A _ _]. injection A as A. rewrite <- A in *. rewrite lookup_insert_eq. by rewrite Hht in Hroot.
  - intros q u Hq Hu. destruct (Hlook q u Hq Hu) as [[-> ->]|(Hq' & u0 & nx & Hu0 & ->)].
    + right. cbn. rewrite Hp. split; [by apply Hmono|]. intros Hcp. rewrite Hcp in Hc. by apply elem_of_cons in Hc as [?|?].
    + destruct (Hpar q u0 Hq' Hu0) as [?|[? ?]]; [by left|right]. cbn. auto.
  - intros q1 q2 u1 u2 Hq1 Hq2 Hu1 Hu2 Hids.
    destruct (Hlook _ _ Hq1 Hu1) as [[-> ->]|(Hq1' & v1 & n1 & Hv1 & ->)], (Hlook _ _ Hq2 Hu2) as [[-> ->]|(Hq2' & v2 & n2 & Hv2 & ->)];
      cbn in Hids; [done| | |by eapply Hpid].
    + pose proof (Hnext _ _ Hq2' Hv2). lia.
    + pose proof (Hnext _ _ Hq1' Hv1). lia.
  - intros q u Hq Hu. replace (next_pid s') with (next_pid s0 + 1) by (by rewrite Es').
    pose proof (Hnext h ht ltac:(apply list_elem_of_here) Hht).
    destruct (Hlook q u Hq Hu) as [[-> ->]|(Hq' & u0 & nx & Hu0 & ->)]; cbn; [lia|]. pose proof (Hnext _ _ Hq' Hu0). lia.
  - exists free, rest. replace (heap s') with (heap s) by (by rewrite Es'). eapply heap_inv_perm; [|exact Hh].
    rewrite <- (linked_blocks (tasks s0) h p r ht t) by done. done.
Qed.

(** The two allocations every creation starts with: the record at [p] and a
    stack of [size] bytes at [base]. *)
Lemma create_blocks s l size p s1 base s3 (f : sched -> sched) :
  sched_inv s l -> 0 <= size -> size + 11 < 2 ^ 32 -> (forall s, vmst (f s) = vmst s) ->
  in_vm (call_kmalloc SIZEOF_TASK) s = Some (p, s1) -> in_vm (call_kmalloc size) (f s1) = Some (base, s3) ->
  (exists h3, s3 = set_vmst (set_vheap (vmst s) h3) (f s1)) /\ (exists h1, s1 = set_vmst (set_vheap (vmst s) h1) s)
  /\ kmem s3 = kmem s /\ HEADER_SIZE < p /\ HEADER_SIZE < base /\ base + size < 2 ^ 63 + 4096
  /\ exists free rest, heap_inv (heap s3) free ((base - HEADER_SIZE) :: (p - HEADER_SIZE) :: blocks (tasks s) l ++ rest).
Proof.
  intros Hinv H0 H1 Hf E1 E2. destruct (si_heap _ _ Hinv) as (free & rest & Hh).
  destruct (task_kmalloc s free _ SIZEOF_TASK p s1 Hh ltac:(done) ltac:(done) E1) as [(h1 & ->) (free1 & Hh1) Hk1 Ha1 _].
  assert (Hh1' : heap_inv (heap (f (set_vmst (set_vheap (vmst s) h1) s))) free1 ((p - HEADER_SIZE) :: blocks (tasks s) l ++ rest)).
  { unfold heap. rewrite Hf. exact Hh1. }
  destruct (task_kmalloc _ _ _ _ _ _ Hh1' H0 H1 E2) as [(h3 & ->) (free3 & Hh3) Hk3 Ha3 _].
  split; [|split; [by exists h1|]].
  - exists h3. by rewrite Hf.
  - split; [|split; [lia|split; [lia|split; [lia|by exists free3, rest]]]].
    rewrite Hk3. unfold kmem in *. by rewrite Hf.
Qed.

Lemma current_cwd_same s c s' : current_cwd s = Some (c, s') -> s' = s.
Proof.
  unfold current_cwd. destruct (_ =? 0); [by intros [= _ <-]|]. destruct (_ !! _); [by intros [= _ <-]|done].
Qed.

(** A created task: listed behind the head, READY, child of the running task. *)
Record created (s s' : sched) (l : list Z) (pid p : Z) (t : task) : Prop := {
  cr_inv : exists h r, l = h :: r /\ sched_inv s' (h :: p :: r);
  cr_task : tasks s' !! p = Some t;
  cr_pid : pid = next_pid s /\ t_id t = pid;
  cr_state : t_state t = TASK_READY /\ t_parent t = current_task s /\ 1 <= t_time_slice t <= TASK_PRIO_MAX;
  cr_stack : HEADER_SIZE < t_kernel_stack_base t
    /\ t_kernel_stack_base t + 8192 - 16 < t_kernel_stack t <= t_kernel_stack_base t + t_kernel_stack_size t
    /\ t_kernel_stack_base t + t_kernel_stack_size t < 2 ^ 63 + 4096
    /\ t_stack_top t = t_kernel_stack t - SIZEOF_REGS
}.

Definition stack_bytes (size : Z) : Z := if size <? 8192 then 8192 else size.

Lemma clear16 x : x &~ 0xF = x - x mod 16.
Proof. change 0xF with (Z.ones 4). rewrite clear_low_bits by done. change (2 ^ 4) with 16. zlia. Qed.

Lemma link_vmst p s u s' : link_task p s = Some (u, s') -> vmst s' = vmst s.
Proof.
  intros E. unfold link_task in E. minv E as h s1 E1. injection E1 as <- <-. minv E as ht s2 E2. unfold deref in E2.
  destruct (_ !! _); [|done]. injection E2 as _ <-. minv E as v s3 E3. unfold upd in *.
  destruct (tasks s !! p); [|done]. injection E3 as _ <-. destruct (_ !! _); [|done]. by injection E as _ <-.
Qed.

Lemma created_link s sm l p t s' free rest :
  sched_inv s l -> tasks sm = tasks s -> task_list sm = task_list s -> current_task sm = current_task s ->
  next_pid sm = next_pid s + 1 -> t_id t = next_pid s -> t_state t = TASK_READY -> t_parent t = current_task s ->
  1 <= t_time_slice t <= TASK_PRIO_MAX -> HEADER_SIZE < p -> HEADER_SIZE < t_kernel_stack_base t ->
  t_kernel_stack_base t + 8192 - 16 < t_kernel_stack t <= t_kernel_stack_base t + t_kernel_stack_size t ->
  t_kernel_stack_base t + t_kernel_stack_size t < 2 ^ 63 + 4096 -> t_stack_top t = t_kernel_stack t - SIZEOF_REGS ->
  heap_inv (heap sm) free ((t_kernel_stack_base t - HEADER_SIZE) :: (p - HEADER_SIZE) :: blocks (tasks s) l ++ rest) ->
  link_task p (set_tasks (<[p := t]> (tasks sm)) sm) = Some (tt, s') ->
  exists nx, created s s' l (next_pid s) p (with_next nx t) /\ kmem s' = kmem sm.
Proof.
  intros Hinv M1 M2 M3 M4 Hid Hst Hpar Hsl Hp Hb Hk1 Hk2 Hk3 Hh E. unfold HEADER_SIZE in Hp, Hb.
  destruct (inv_link s (set_tasks (<[p := t]> (tasks sm)) sm) l p t s' free rest) as (h & r & nx & El & Hi & Ht);
    try done; [cbn; by rewrite M1|lia|lia|].
  exists nx. split; [|unfold kmem; by rewrite (link_vmst _ _ _ _ E)]. constructor; [by exists h, r|done|done|done|].
  unfold HEADER_SIZE. done.
Qed.

Lemma create_kernel_task s l entry name prio size pid s' :
  sched_inv s l -> 0 <= size -> size + 11 < 2 ^ 32 ->
  create_task_named_stack entry name prio size s = Some (pid, s') ->
  exists p t, created s s' l pid p t
    /\ let base := t_kernel_stack_base t in
       let stack := base + stack_bytes size in
       let rsp := stack - stack mod 16 - 8 in
       t_kernel_stack t = stack /\ t_stack_canary_addr t = rsp
       /\ kmem s' = write_bytes (write_bytes (write_bytes (kmem s) (stack - SIZEOF_REGS) (new_frame entry 0x08 0x202 rsp 0x10))
                                   rsp (le_bytes 8 CANARY)) base (le_bytes 8 CANARY).
Proof.
  intros Hinv H0 H1 E. unfold create_task_named_stack in E. minv E as p s1 E1. minv E as pd s2 E2. injection E2 as <- <-.
  minv E as cur s3 E3. injection E3 as <- <-. minv E as dir s4 E4. injection E4 as <- <-.
  minv E as cwd s5 E5. apply current_cwd_same in E5 as ->. cbv zeta in E. fold (stack_bytes size) in E.
  minv E as base s6 E6. assert (Hsz : 8192 <= stack_bytes size /\ stack_bytes size + 11 < 2 ^ 32)
    by (unfold stack_bytes; ztest; lia).
  destruct (create_blocks s l (stack_bytes size) p s1 base s6 (fun s => set_next_pid (next_pid s + 1) s) Hinv
              ltac:(lia) ltac:(lia) ltac:(done) E1 E6) as ((h3 & Es6) & (h1 & Es1) & Hk & Hp & Hb & Htop & free & rest & Hh).
  unfold HEADER_SIZE in *. set (sz := stack_bytes size) in *. set (stack := u64 (base + sz)) in *.
  assert (Hstack : stack = base + sz) by (apply Z.mod_small; lia).
  assert (Hrsp : u64 ((stack &~ 0xF) - 8) = stack - stack mod 16 - 8).
  { rewrite clear16. apply Z.mod_small. rewrite Hstack. assert (0 <= (base + sz) mod 16 < 16) by zlia. lia. }
  assert (Hregs : u64 (stack - SIZEOF_REGS) = stack - SIZEOF_REGS).
  { apply Z.mod_small. unfold SIZEOF_REGS. rewrite Hstack. lia. }
  rewrite Hrsp, Hregs in E. minv E as u7 s7 E7. injection E7 as _ <-. minv E as u8 s8 E8. injection E8 as _ <-.
  minv E as u9 s9 E9. injection E9 as _ <-. minv E as u10 s10 E10. injection E10 as _ <-. minv E as u11 s11 E11. injection E as <- <-.
  destruct u11.
  match type of E11 with link_task _ (set_tasks (<[_ := ?tt]> _) ?ss) = _ => set (t := tt) in *; set (sm := ss) in * end.
  assert (Esm : tasks sm = tasks s /\ task_list sm = task_list s /\ current_task sm = current_task s
                /\ next_pid sm = next_pid s + 1 /\ next_pid s1 = next_pid s /\ current_task s1 = current_task s).
  { unfold sm. rewrite Es6, Es1. done. }
  destruct Esm as (M1 & M2 & M3 & M4 & M5 & M6).
  assert (Hhm : heap_inv (heap sm) free ((base - 8) :: (p - 8) :: blocks (tasks s) l ++ rest)).
  { unfold sm, heap, mem_write. cbn [vmst set_vmst vheap set_vheap]. by repeat apply heap_inv_set_kbytes. }
  assert (Hprio : 1 <= t_time_slice t <= TASK_PRIO_MAX).
  { unfold t, TASK_PRIO_MAX, TASK_PRIO_DEFAULT. cbn. ztest; lia. }
  assert (Hsz32 : u32 sz = sz) by (apply u32_small; lia).
  destruct (created_link s sm l p t s11 free rest) as (nx & Hcr & Hkm); try done;
    [unfold t; cbn; unfold HEADER_SIZE, SIZEOF_REGS; rewrite ?Hsz32, ?Hstack; first [lia|done]..|].
  exists p, (with_next nx t). replace (next_pid s1) with (next_pid s) by done. split; [exact Hcr|].
  change (t_kernel_stack_base (with_next nx t)) with base. cbv zeta. rewrite <- Hstack.
  split; [done|]. split; [done|]. rewrite Hkm. unfold sm, mem_write, kmem.
  cbn [vmst set_vmst vheap set_vheap kbytes set_kbytes]. fold (kmem s6). by rewrite Hk.
Qed.

Lemma create_user_task_at s l cs ss hstart entry ustack name pid s' :
  sched_inv s l -> create_user_at cs ss hstart entry ustack name s = Some (pid, s') ->
  exists p t, created s s' l pid p t
    /\ let base := t_kernel_stack_base t in
       let stack := base + 8192 - (base + 8192) mod 16 in
       t_kernel_stack t = stack /\ t_stack_canary_addr t = 0 /\ t_user_mode t = true
       /\ kmem s' = write_bytes (kmem s) (stack - SIZEOF_REGS) (new_frame entry cs 0x202 ustack ss).
Proof.
  intros Hinv E. unfold create_user_at in E. minv E as p s1 E1. minv E as pd s2 E2. injection E2 as <- <-.
  minv E as cur s3 E3. injection E3 as <- <-. minv E as dir s4 E4. injection E4 as <- <-.
  minv E as cwd s5 E5. apply current_cwd_same in E5 as ->. minv E as base s6 E6.
  destruct (create_blocks s l 8192 p s1 base s6 (fun s => set_next_pid (next_pid s + 1) s) Hinv
              ltac:(lia) ltac:(done) ltac:(done) E1 E6) as ((h3 & Es6) & (h1 & Es1) & Hk & Hp & Hb & Htop & free & rest & Hh).
  unfold HEADER_SIZE in *. cbv zeta in E. set (stack := u64 (base + 8192) &~ 0xF) in *.
  assert (Hstack : stack = base + 8192 - (base + 8192) mod 16).
  { unfold stack. rewrite clear16. unfold u64. rewrite (Z.mod_small (base + 8192)) by lia. done. }
  assert (Hmod : 0 <= (base + 8192) mod 16 < 16) by zlia.
  assert (Hregs : u64 (stack - SIZEOF_REGS) = stack - SIZEOF_REGS).
  { apply Z.mod_small. unfold SIZEOF_REGS. rewrite Hstack. lia. }
  rewrite Hregs in E. minv E as u7 s7 E7. injection E7 as _ <-.
  minv E as u10 s10 E10. injection E10 as _ <-. minv E as u11 s11 E11. injection E as <- <-. destruct u11.
  match type of E11 with link_task _ (set_tasks (<[_ := ?tt]> _) ?ss) = _ => set (t := tt) in *; set (sm := ss) in * end.
  assert (Esm : tasks sm = tasks s /\ task_list sm = task_list s /\ current_task sm = current_task s
                /\ next_pid sm = next_pid s + 1 /\ next_pid s1 = next_pid s /\ current_task s1 = current_task s).
  { unfold sm. rewrite Es6, Es1. done. }
  destruct Esm as (M1 & M2 & M3 & M4 & M5 & M6).
  assert (Hhm : heap_inv (heap sm) free ((base - 8) :: (p - 8) :: blocks (tasks s) l ++ rest)).
  { unfold sm, heap. cbn [vmst set_vmst vheap set_vheap]. by apply heap_inv_set_kbytes. }
  destruct (created_link s sm l p t s11 free rest) as (nx & Hcr & Hkm); try done;
    [unfold t; cbn; unfold HEADER_SIZE, SIZEOF_REGS; rewrite ?Hstack; first [lia|done]..|].
  exists p, (with_next nx t). replace (next_pid s1) with (next_pid s) by done. split; [exact Hcr|].
  change (t_kernel_stack_base (with_next nx t)) with base. cbv zeta. rewrite <- Hstack.
  split; [done|]. split; [done|]. split; [done|]. rewrite Hkm. unfold sm, kmem.
  cbn [vmst set_vmst vheap set_vheap kbytes set_kbytes]. fold (kmem s6). by rewrite Hk.
Qed.
