(* ===== verification/TaskStack.v ===== *)
(** * Kernel stacks of new tasks

    The first frame and the canaries that [task.c] writes on the stack of a new
    task, byte for byte. *)

From Stdlib Require Import ZArith Lia.
From stdpp Require Import base numbers list gmap.
From S2P Require Import Prelude Pmm Kheap Vmm Usercopy Bytes Task TaskRing TaskSched TaskInv.

(** ** Bytes in memory *)

Lemma write_in m p bs a b :
  p <= a -> bs !! Z.to_nat (a - p) = Some b -> write_bytes m p bs !! a = Some b.
Proof.
  intros Hp Hb. pose proof (lookup_lt_Some _ _ _ Hb) as Hl. unfold write_bytes.
  replace a with (p + (a - p)) at 1 by lia. rewrite foldl_insert_lookup.
  rewrite (proj2 (Z.leb_le 0 _)), (proj2 (Z.ltb_lt _ _)) by lia. simpl. f_equal. by apply nthZ_lookup.
Qed.

Lemma write_out m p bs a :
  a < p \/ p + Z.of_nat (length bs) <= a -> write_bytes m p bs !! a = m !! a.
Proof.
  intros H. unfold write_bytes. replace a with (p + (a - p)) by lia. rewrite foldl_insert_lookup.
  destruct (Z.leb_spec 0 (a - p)), (Z.ltb_spec (a - p) (Z.of_nat (length bs))); simpl; lia || done.
Qed.

Lemma load64_ext m m' a : (forall x, a <= x < a + 8 -> m' !! x = m !! x) -> load64 m' a = load64 m a.
Proof.
  intros H. unfold load64, user_bytes. f_equal. apply list_fmap_ext. intros i x Hx.
  apply list_elem_of_lookup_2, elem_of_seqZ in Hx. rewrite H by lia. done.
Qed.

Lemma load64_low m a b : m !! a = Some b -> is_byte b -> load64 m a mod 256 = b.
Proof.
  intros Hm Hb. unfold load64, user_bytes, le_value. change (seqZ 0 8) with (0 :: seqZ 1 7). cbn [fmap list_fmap little_endian_to_Z].
  rewrite Z.add_0_r, Hm. cbn [default from_option id]. change 256 with (2 ^ 8). unfold is_byte in Hb.
  rewrite <- Z.land_ones by lia. rewrite Z.land_lor_distr_l, Z.land_ones by lia. rewrite (Z.mod_small b) by lia.
  rewrite Z.land_ones, Z.shiftl_mul_pow2, Z.mod_mul by lia. apply Z.lor_0_r.
Qed.

Lemma load64_empty a : load64 ∅ a = 0.
Proof.
  unfold load64, user_bytes. change (seqZ 0 8) with [0; 1; 2; 3; 4; 5; 6; 7]. cbn [fmap list_fmap].
  rewrite !lookup_empty. reflexivity.
Qed.

Lemma canary_byte i :
  0 <= i < 8 -> exists b, le_bytes 8 CANARY !! Z.to_nat i = Some b /\ is_byte b /\ b <> 16 /\ b mod 16 <> 8.
Proof.
  intros Hi. assert (H : Forall (fun b => is_byte b /\ b <> 16 /\ b mod 16 <> 8) (le_bytes 8 CANARY)) by by_compute.
  destruct (lookup_lt_is_Some_2 (le_bytes 8 CANARY) (Z.to_nat i)) as [b Hb]; [change (length (le_bytes 8 CANARY)) with 8%nat; lia|].
  exists b. split; [done|]. by eapply Forall_lookup_1 in H.
Qed.

Lemma length_frame rip cs rflags rsp ss : length (new_frame rip cs rflags rsp ss) = Z.to_nat SIZEOF_REGS.
Proof. unfold new_frame. rewrite !length_app, !length_le_bytes by lia. unfold zeros. by rewrite length_replicate. Qed.

(** The words of a task's saved frame, and the word at the base of its stack. *)
Definition saved_rsp (s : sched) (t : task) : Z := load64 (kmem s) (t_stack_top t + 160).
Definition saved_ss (s : sched) (t : task) : Z := load64 (kmem s) (t_stack_top t + 168).
Definition base_word (s : sched) (t : task) : Z := load64 (kmem s) (t_kernel_stack_base t).

(** ** The top canary *)

(** [create_task_named_stack] stores the canary at the address it has just
    put in the frame as the initial stack pointer; that address lies inside the
    frame, over the saved [rsp] or [ss].  Whatever the alignment of the stack,
    the frame the thread starts from does not hold the stack pointer and stack
    segment the code set. *)
Theorem create_task_canary_overwrites_frame s l entry name prio size pid s' :
  sched_inv s l -> 0 <= size -> size + 11 < 2 ^ 32 ->
  create_task_named_stack entry name prio size s = Some (pid, s') ->
  exists p t, tasks s' !! p = Some t /\ t_id t = pid
    /\ ~ (saved_rsp s' t = t_stack_canary_addr t /\ saved_ss s' t = 0x10).
Proof.
  unfold saved_rsp, saved_ss. intros Hinv H0 H1 E. destruct (create_kernel_task _ _ _ _ _ _ _ _ Hinv H0 H1 E) as (p & t & Hcr & Hk & Hca & Hm).
  exists p, t. destruct Hcr as [_ Ht [_ Hid] _ (Hb & _ & _ & Htop)]. split; [done|]. split; [done|].
  rewrite Hk in Htop. set (base := t_kernel_stack_base t) in *. assert (Hsz : 8192 <= stack_bytes size) by (unfold stack_bytes; ztest; lia).
  set (stack := base + stack_bytes size) in *. set (r := stack mod 16) in *. assert (Hr : 0 <= r < 16) by (unfold r; zlia).
  unfold SIZEOF_REGS in *. rewrite Htop, Hca, Hm. set (m0 := write_bytes (kmem s) _ _).
  assert (Hbyte : forall i a, 0 <= i < 8 -> a = stack - r - 8 + i ->
            write_bytes (write_bytes m0 (stack - r - 8) (le_bytes 8 CANARY)) base (le_bytes 8 CANARY) !! a
            = le_bytes 8 CANARY !! Z.to_nat i).
  { intros i a Hi ->. rewrite write_out by (change (Z.of_nat (length (le_bytes 8 CANARY))) with 8; unfold stack; lia).
    destruct (canary_byte i Hi) as (b & Hb' & _). rewrite Hb'. apply write_in; [lia|].
    replace (stack - r - 8 + i - (stack - r - 8)) with i by lia. done. }
  set (mem := write_bytes (write_bytes m0 _ _) _ _) in *.
  intros [Hrsp Hss]. destruct (Z.lt_ge_cases r 8) as [Hlt|Hge].
  - destruct (canary_byte r) as (b & Hb' & Hby & H16 & _); [lia|]. apply H16.
    pose proof (load64_low mem (stack - 176 + 168) b ltac:(rewrite (Hbyte r) by lia; done) Hby) as Hl. by rewrite Hss in Hl.
  - destruct (canary_byte (r - 8)) as (b & Hb' & Hby & _ & H8); [lia|]. apply H8.
    pose proof (load64_low mem (stack - 176 + 160) b ltac:(rewrite (Hbyte (r - 8)) by lia; done) Hby) as Hl.
    rewrite Hrsp in Hl. unfold r in *. zlia.
Qed.

Lemma sched_init_inv : sched_inv sched_init [65544].
Proof.
  constructor.
  - split; [vm_compute; reflexivity|by_compute|]. cbn [linked]. split; [|done].
    eexists. split; [vm_compute; reflexivity|vm_compute; reflexivity].
  - by_compute.
  - by_compute.
  - vm_compute. reflexivity.
  - intros p t ->%list_elem_of_singleton Ht. left. vm_compute in Ht. injection Ht as <-. reflexivity.
  - by intros p q t u ->%list_elem_of_singleton ->%list_elem_of_singleton.
  - intros p t ->%list_elem_of_singleton Ht. vm_compute in Ht. injection Ht as <-. vm_compute. split; [discriminate|reflexivity].
  - pose proof (heap_inv_start kheap_demo 0x10000 ltac:(done) ltac:(done) ltac:(done) ltac:(done)) as Hh.
    assert (Ek : kmalloc (kheap_set_start kheap_demo 0x10000) SIZEOF_TASK = KRet 65544 (heap sched_init)) by by_vm.
    destruct (kmalloc_ret _ _ _ SIZEOF_TASK _ _ Hh ltac:(done) ltac:(done) Ek) as (free & Hi & _). exists free, [].
    replace (blocks (tasks sched_init) [65544] ++ []) with [65544 - HEADER_SIZE] by by_vm. done.
Qed.

Lemma create_task_canary_overwrites_frame_witness :
  let s' := run (create_task_named_stack 0x1000 None 2 8192) sched_init in
  exists p t, tasks s' !! p = Some t /\ t_id t = 1 /\ ~ (saved_rsp s' t = t_stack_canary_addr t /\ saved_ss s' t = 0x10).
Proof.
  apply (create_task_canary_overwrites_frame sched_init [65544] 0x1000 None 2 8192 1); [exact sched_init_inv|lia|lia|].
  exact (run_spec (create_task_named_stack 0x1000 None 2 8192) sched_init 1 ltac:(by_vm)).
Defined.

(** ** The base canary *)

(** [schedule] panics when the word at the base of the running task's
    kernel stack is not the canary, but the functions that create user tasks
    never store one there: the word keeps whatever the heap block held.  So the
    first time the scheduler is entered from a user task it panics, unless the
    block happened to contain the canary. *)
Theorem user_task_base_canary_never_set s l entry ustack name pid s' :
  sched_inv s l -> create_user_task_64_named entry ustack name s = Some (pid, s') ->
  exists p t, tasks s' !! p = Some t /\ t_id t = pid /\ t_user_mode t = true
    /\ t_kernel_stack_base t <= t_stack_top t <= t_kernel_stack t
    /\ base_word s' t = base_word s t
    /\ forall s2 rsp, current_task s2 = p -> tasks s2 !! p = Some t -> base_word s2 t <> CANARY ->
         t_kernel_stack_base t <= rsp <= t_kernel_stack t -> schedule rsp s2 = Panic BaseCanary.
Proof.
  unfold base_word. intros Hinv E. unfold create_user_task_64_named in E. minv E as hs s0 E0. injection E0 as <- <-.
  destruct (create_user_task_at _ _ _ _ _ _ _ _ _ _ Hinv E) as (p & t & Hcr & Hk & Hca & Hum & Hm).
  exists p, t. destruct Hcr as [(h & r & El & Hi) Ht [Hpid Hid] _ (Hb & Hk1 & _ & Htop)]. unfold SIZEOF_REGS in *. split_and!; try done; [lia|lia|..].
  - rewrite Hm. apply load64_ext. intros x Hx. apply write_out. rewrite length_frame. left.
    unfold HEADER_SIZE in *. assert (0 <= (t_kernel_stack_base t + 8192) mod 16 < 16) by zlia. lia.
  - intros s2 rsp Hcur Ht2 Hne Hrsp. assert (Hp0 : p <> 0).
    { intros ->. apply (si_null _ _ Hi). right. apply list_elem_of_here. }
    assert (Hid0 : t_id t <> 0).
    { rewrite Hid, Hpid. destruct (linked_lookup _ _ _ h (rg_linked _ _ (si_ring _ _ Hinv))) as [ht Hht];
        [rewrite El; apply list_elem_of_here|].
      pose proof (si_pid_next _ _ Hinv h ht ltac:(rewrite El; apply list_elem_of_here) Hht). lia. }
    unfold schedule. rewrite Hcur, Ht2, (proj2 (Z.eqb_neq p 0) Hp0), (proj2 (Z.eqb_neq _ 0) Hid0). cbn [andb].
    unfold stack_check, HEADER_SIZE in *. rewrite Hca.
    rewrite (proj2 (Z.eqb_neq (t_kernel_stack t) 0)), (proj2 (Z.eqb_neq (t_kernel_stack_base t) 0)) by lia. cbn [negb andb].
    rewrite (proj2 (Z.ltb_ge _ _)), (proj2 (Z.ltb_ge _ _)) by lia. cbn [orb Z.eqb negb andb].
    by rewrite (proj2 (Z.eqb_neq _ _) Hne).
Qed.

Lemma user_task_base_canary_never_set_witness :
  exists p t, tasks (run (create_user_task_64_named 0x400000 0xBFFF0000 None) sched_init) !! p = Some t /\ t_id t = 1
    /\ schedule (t_stack_top t)
         (set_current_task p (run (create_user_task_64_named 0x400000 0xBFFF0000 None) sched_init)) = Panic BaseCanary.
Proof.
  destruct (user_task_base_canary_never_set sched_init [65544] 0x400000 0xBFFF0000 None 1
    (run (create_user_task_64_named 0x400000 0xBFFF0000 None) sched_init)) as (p & t & Ht & Hid & _ & Htop & Hmem & Hall);
    [exact sched_init_inv|exact (run_spec (create_user_task_64_named 0x400000 0xBFFF0000 None) sched_init 1 ltac:(by_vm))|].
  exists p, t. split; [done|]. split; [done|]. apply Hall; [done|done| |].
  - intros Hcan. assert (Hc : base_word sched_init t = CANARY) by (rewrite <- Hmem; exact Hcan).
    revert Hc. unfold base_word. replace (kmem sched_init) with (∅ : gmap Z Z) by by_vm.
    by rewrite load64_empty.
  - lia.
Defined.
