(* ===== verification/TaskProc.v ===== *)
(** * Reaping children, and runs of the task list

    [sys_waitpid] unlinks and frees a zombie child; together with creating,
    scheduling, killing and exiting this makes the steps of a run. *)

From Stdlib Require Import ZArith Lia.
From stdpp Require Import base numbers list gmap.
From S2P Require Import Prelude Pmm Kheap Vmm Usercopy Bytes Task TaskRing TaskSched TaskInv TaskStack.

(** ** Removing a task from the list *)

Definition adopt (t h : Z) (u : task) : task := if t_parent u =? t then with_parent h u else u.

Lemma reparent_body_map s t m p u :
  m !! p = Some u ->
  reparent_body t p tt (set_tasks m s) = Some (inr tt, set_tasks (<[p := adopt t (task_list s) u]> m) s).
Proof.
  intros Hu. unfold reparent_body, mbind_, deref, mgets, mwhen, mret_, upd, adopt. cbn [tasks set_tasks]. rewrite Hu.
  change (task_list (set_tasks m s)) with (task_list s). destruct (t_parent u =? t); [cbn [tasks set_tasks]; by rewrite Hu|].
  by rewrite insert_id by done.
Qed.

Lemma ring_reparent_body t q x : keeps same_ring (reparent_body t q x).
Proof.
  unfold reparent_body. keeps_with (first [
    apply keeps_upd; intros s u Hu; split; [done|]; intros p; cbn [tasks set_tasks]; rewrite lookup_insert;
    case_decide as Hp; [subst; by rewrite Hu|done] | apply keeps_modify; by intros []]).
Qed.

Lemma blocks_app m l1 l2 : blocks m (l1 ++ l2) = blocks m l1 ++ blocks m l2.
Proof. apply flat_map_app. Qed.

Lemma blocks_remove m l1 t l2 tk :
  m !! t = Some tk ->
  blocks m (l1 ++ t :: l2) ≡ₚ (t - HEADER_SIZE)
    :: (if t_kernel_stack_base tk =? 0 then [] else [t_kernel_stack_base tk - HEADER_SIZE]) ++ blocks m (l1 ++ l2).
Proof.
  intros Ht. rewrite !blocks_app. change (blocks m (t :: l2)) with (task_blocks m t ++ blocks m l2).
  unfold task_blocks. rewrite Ht. rewrite Permutation_app_swap_app. done.
Qed.

(** The records after [t] is gone: links, parents and nothing else changed. *)
Definition without (s s' : sched) (t : Z) (l : list Z) : Prop :=
  task_list s' = task_list s /\ current_task s' = current_task s /\ next_pid s' = next_pid s
  /\ tasks s' !! t = None
  /\ forall q u, q ∈ l -> tasks s' !! q = Some u ->
       exists u0 nx, tasks s !! q = Some u0
         /\ u = with_parent (if t_parent u0 =? t then task_list s else t_parent u0) (with_next nx u0).

Lemma inv_without s s' l1 t l2 :
  sched_inv s (l1 ++ t :: l2) -> t <> task_list s -> t <> current_task s -> without s s' t (l1 ++ l2) ->
  ring s' (l1 ++ l2) -> (exists free rest, heap_inv (heap s') free (blocks (tasks s) (l1 ++ l2) ++ rest)) ->
  sched_inv s' (l1 ++ l2).
Proof.
  intros [Hr H0 Hc Hroot Hpar Hpid Hnext _] Hth Htc (E1 & E2 & E3 & E4 & Hlook) Hr' (free & rest & Hh).
  assert (Hsub : forall q, q ∈ l1 ++ l2 -> q ∈ l1 ++ t :: l2).
  { intros q [?|?]%elem_of_app; apply elem_of_app; [by left|right; by right]. }
  assert (Hin : forall q, q ∈ l1 ++ t :: l2 -> q <> t -> q ∈ l1 ++ l2).
  { intros q [?|[->|?]%elem_of_cons]%elem_of_app Hq; apply elem_of_app; [by left|done|by right]. }
  assert (Hh0 : task_list s ∈ l1 ++ l2).
  { apply Hin; [|done]. destruct Hr as [A _ _]. destruct (l1 ++ t :: l2); [done|]. injection A as ->. apply list_elem_of_here. }
  assert (Ht0 : t <> 0) by (intros ->; apply H0, elem_of_app; right; apply list_elem_of_here).
  constructor; [done|by intros H; apply H0, Hsub|rewrite E2; by apply Hin| | | | |].
  - rewrite E1. destruct (linked_lookup _ _ _ (task_list s) (rg_linked _ _ Hr') Hh0) as [u Hu].
    destruct (Hlook _ _ Hh0 Hu) as (u0 & nx & Hu0 & ->). rewrite Hu. rewrite Hu0 in Hroot. simpl in *.
    injection Hroot as Hroot. rewrite Hroot, (proj2 (Z.eqb_neq 0 t)) by done. done.
  - intros q u Hq Hu. destruct (Hlook q u Hq Hu) as (u0 & nx & Hu0 & ->). cbn.
    destruct (Z.eqb_spec (t_parent u0) t) as [Hpt|Hpt].
    + right. split; [done|]. intros <-. rewrite Hu0 in Hroot. injection Hroot as Hroot. congruence.
    + destruct (Hpar q u0 (Hsub q Hq) Hu0) as [?|[? ?]]; [by left|]. right. split; [by apply Hin|done].
  - intros q1 q2 u1 u2 Hq1 Hq2 Hu1 Hu2 Hids. destruct (Hlook _ _ Hq1 Hu1) as (v1 & n1 & Hv1 & ->).
    destruct (Hlook _ _ Hq2 Hu2) as (v2 & n2 & Hv2 & ->). cbn in Hids. by apply (Hpid q1 q2 v1 v2); auto.
  - intros q u Hq Hu. destruct (Hlook _ _ Hq Hu) as (v & n & Hv & ->). rewrite E3. cbn. by apply (Hnext q); auto.
  - exists free, rest. rewrite (blocks_ext (tasks s) (tasks s')); [done|]. intros q Hq.
    destruct (linked_lookup _ _ _ q (rg_linked _ _ Hr') Hq) as [u Hu]. destruct (Hlook _ _ Hq Hu) as (v & n & Hv & ->).
    by rewrite Hu, Hv.
Qed.

Definition shared_directory (s : sched) (tk : task) : Prop :=
  t_page_directory tk = 0 \/ t_page_directory tk = kernel_directory (vmst s).

(** Freeing the stack and the record of [t]. *)
Lemma free_blocks s free rest t tk l (b : bool) :
  heap_inv (heap s) free ((t - HEADER_SIZE)
    :: (if t_kernel_stack_base tk =? 0 then [] else [t_kernel_stack_base tk - HEADER_SIZE]) ++ blocks (tasks s) l ++ rest) ->
  (b = true -> t_kernel_stack_base tk <> 0) ->
  let h1 := if b then kfree (heap s) (t_kernel_stack_base tk) else heap s in
  exists free' rest', heap_inv (kfree h1 t) free' (blocks (tasks s) l ++ rest').
Proof.
  intros Hh Hb h1.
  assert (Hh1 : exists free1 rest1, heap_inv h1 free1 ((t - HEADER_SIZE) :: blocks (tasks s) l ++ rest1)).
  { destruct b; unfold h1.
    - rewrite (proj2 (Z.eqb_neq _ 0) (Hb eq_refl)) in Hh. exists (t_kernel_stack_base tk - HEADER_SIZE :: free), rest.
      pose proof (heap_inv_kfree (heap s) free [t - HEADER_SIZE] (t_kernel_stack_base tk - HEADER_SIZE) (blocks (tasks s) l ++ rest) Hh) as [Hk _].
      replace (t_kernel_stack_base tk - HEADER_SIZE + HEADER_SIZE) with (t_kernel_stack_base tk) in Hk by lia. exact Hk.
    - destruct (t_kernel_stack_base tk =? 0); [by exists free, rest|]. cbn [app] in Hh.
      exists free, ((t_kernel_stack_base tk - HEADER_SIZE) :: rest). eapply heap_inv_perm; [|exact Hh].
      apply perm_skip, Permutation_middle. }
  destruct Hh1 as (free1 & rest1 & Hh1). exists (t - HEADER_SIZE :: free1), rest1.
  pose proof (heap_inv_kfree h1 free1 [] (t - HEADER_SIZE) (blocks (tasks s) l ++ rest1) Hh1) as [Hk _].
  replace (t - HEADER_SIZE + HEADER_SIZE) with t in Hk by lia. exact Hk.
Qed.

(** The heap after the kernel stack has been freed. *)
Definition stack_freed (s : sched) (tk : task) : kheap :=
  if (negb (t_kernel_stack_base tk =? 0) && negb (t_kernel_stack_size tk =? 0))%bool
  then kfree (heap s) (t_kernel_stack_base tk) else heap s.

Lemma reap_run s l1 prev t l2 tk pt :
  let l := l1 ++ prev :: t :: l2 in
  ring s l -> tasks s !! t = Some tk -> tasks s !! prev = Some pt -> shared_directory s tk ->
  exists m, reap t s = Some ((t_id tk, t_exit_code tk),
                         set_tasks (delete t m) (set_vmst (set_vheap (vmst s) (kfree (stack_freed s tk) t)) s))
    /\ ring (set_tasks (<[prev := with_next (t_next tk) pt]> (tasks s)) s) (l1 ++ prev :: l2)
    /\ forall p, m !! p = let x := (<[prev := with_next (t_next tk) pt]> (tasks s)) !! p in
                  if decide (p ∈ l1 ++ prev :: l2) then adopt t (task_list s) <$> x else x.
Proof.
  intros l Hr Htk Hpt Hdir.
  pose proof (ring_length _ _ Hr) as Hlen. unfold l in Hlen. rewrite length_app in Hlen. cbn [length] in Hlen.
  assert (Hhd : default prev (head l1) = task_list s) by (destruct Hr as [A _ _]; unfold l in A; destruct l1; by injection A).
  assert (Hnd := rg_nodup _ _ Hr). unfold l in Hnd.
  assert (Hfp := find_prev_spec s l1 prev t l2 (ring_fuel s) (rg_linked _ _ Hr) Hnd ltac:(unfold ring_fuel; lia)).
  assert (Hr1 := ring_unlink s l1 prev t l2 pt tk Hr Hpt Htk).
  set (m1 := <[prev := with_next (t_next tk) pt]> (tasks s)) in *.
  set (h1 := stack_freed s tk). set (s2 := set_vmst (set_vheap (vmst s) h1) s).
  assert (Hr2 : ring (set_tasks m1 s2) (l1 ++ prev :: l2)) by (apply (ring_same (set_tasks m1 s)); done).
  destruct (ring_fold_map (adopt t (task_list s)) (reparent_body t) s2 (l1 ++ prev :: l2) m1) as (m3 & Hm3 & Hl3);
    [intros m p u Hu; by apply (reparent_body_map s2)|apply (rg_nodup _ _ Hr2)|intros p; apply (linked_lookup _ _ _ p (rg_linked _ _ Hr2))|].
  rewrite <- (over_ring_fold (reparent_body t) tt (set_tasks m1 s2)) in Hm3 by (done || apply ring_reparent_body).
  exists m3. split; [|done].
  unfold reap, mbind_, mgets. unfold deref at 1. rewrite Htk. rewrite <- Hhd, Hfp. unfold upd at 1. rewrite Hpt. fold m1.
  set (b := (negb (t_kernel_stack_base tk =? 0) && negb (t_kernel_stack_size tk =? 0))%bool).
  assert (Hstep : mwhen b (in_vm (call_kfree (t_kernel_stack_base tk))) (set_tasks m1 s) = Some (tt, set_tasks m1 s2)).
  { unfold s2, h1, stack_freed, mwhen, heap. fold b. destruct b; [done|]. destruct s as [[]]. done. }
  rewrite Hstep, Hm3. change (kernel_directory (vmst (set_tasks m3 s2))) with (kernel_directory (vmst s)).
  assert (Hpd : (negb (t_page_directory tk =? 0) && negb (t_page_directory tk =? kernel_directory (vmst s)))%bool = false).
  { destruct Hdir as [-> | ->]; [done|]. by rewrite Z.eqb_refl, andb_false_r. }
  rewrite Hpd. done.
Qed.

Lemma reap_spec s l1 prev t l2 tk :
  let l := l1 ++ prev :: t :: l2 in
  sched_inv s l -> tasks s !! t = Some tk -> t <> current_task s -> shared_directory s tk ->
  exists s', reap t s = Some ((t_id tk, t_exit_code tk), s')
    /\ without s s' t (l1 ++ prev :: l2) /\ sched_inv s' (l1 ++ prev :: l2).
Proof.
  intros l Hinv Htk Htc Hdir. pose proof Hinv as [Hr _ _ _ _ _ _ (free & rest & Hh)].
  assert (Hnd := rg_nodup _ _ Hr). unfold l in Hnd.
  destruct (linked_lookup _ _ _ prev (rg_linked _ _ Hr)) as [pt Hpt]; [unfold l; apply elem_of_app; right; apply list_elem_of_here|].
  destruct (reap_run s l1 prev t l2 tk pt Hr Htk Hpt Hdir) as (m & Hrun & Hr1 & Hm). eexists. split; [exact Hrun|].
  set (s' := set_tasks (delete t m) _). set (l' := l1 ++ prev :: l2) in *.
  assert (Hlin : l = (l1 ++ [prev]) ++ t :: l2) by (unfold l; by rewrite <- app_assoc).
  assert (Hlin' : l' = (l1 ++ [prev]) ++ l2) by (unfold l'; by rewrite <- app_assoc).
  assert (Htl : t ∉ l').
  { fold l in Hnd. rewrite Hlin in Hnd. rewrite Hlin'. apply NoDup_app in Hnd as (_ & Hd & Hn2). apply NoDup_cons in Hn2 as [Hn2 _].
    intros [Hin|?]%elem_of_app; [|done]. apply (Hd _ Hin), list_elem_of_here. }
  assert (Hthead : t <> task_list s).
  { intros ->. apply Htl. destruct Hr1 as [A _ _]. fold l' in A. destruct l'; [done|]. injection A as ->. apply list_elem_of_here. }
  assert (Hw : without s s' t l').
  { split; [done|]. split; [done|]. split; [done|]. split; [apply lookup_delete_eq|]. intros q u Hq Hu.
    unfold s' in Hu. cbn [tasks set_tasks] in Hu. rewrite lookup_delete_ne in Hu by (intros ->; done).
    rewrite Hm in Hu. cbv zeta in Hu. rewrite decide_True, lookup_insert in Hu by done. unfold adopt in Hu.
    case_decide as Hpq; [subst q; injection Hu as <-; exists pt, (t_next tk)|
      destruct (tasks s !! q) as [v|]; [|done]; injection Hu as <-; exists v, (t_next v)];
      (split; [done|]); cbn; destruct (_ =? t); try done; first [by destruct pt|by destruct v]. }
  split; [exact Hw|]. rewrite Hlin'. apply (inv_without s s' (l1 ++ [prev]) t l2); rewrite <- ?Hlin, <- ?Hlin'; try done.
  - destruct Hr1 as [A B C]. split; [done|done|]. eapply linked_next; [|exact C]. intros q Hq. unfold s'. cbn [tasks set_tasks].
    rewrite lookup_delete_ne by (intros ->; done). rewrite Hm. cbv zeta. rewrite decide_True by done.
    destruct (_ !! q) as [u|]; [|done]. cbn. unfold adopt. by destruct (_ =? t).
  - rewrite Hlin in Hh. rewrite (blocks_remove _ _ _ _ tk Htk) in Hh. cbn [app] in Hh. rewrite <- app_assoc in Hh. rewrite <- Hlin' in Hh.
    apply (free_blocks s free rest t tk l' _ Hh). intros Hb. apply andb_true_iff in Hb as [Hb _]. by apply negb_true_iff, Z.eqb_neq in Hb.
Qed.

(** ** The scan of [sys_waitpid] *)

Definition is_child (s : sched) (me p : Z) : bool :=
  match tasks s !! p with
  | Some t => negb (t_parent t =? 0) && match tasks s !! t_parent t with Some u => t_id u =? me | None => false end
  | None => false
  end.
Definition wanted (s : sched) (me pid p : Z) : bool :=
  is_child s me p && ((pid =? -1) || match tasks s !! p with Some t => t_id t =? pid | None => false end).
Definition zombie (s : sched) (p : Z) : bool :=
  match tasks s !! p with Some t => is_state TASK_ZOMBIE t | None => false end.

Lemma wait_fold s me pid l found any :
  (forall p, p ∈ l -> exists t, tasks s !! p = Some t /\ (t_parent t = 0 \/ is_Some (tasks s !! t_parent t))) ->
  ring_fold (wait_body me pid) l (found, any) s
  = Some (match List.find (fun p => wanted s me pid p && zombie s p) l with
          | Some t => inl t
          | None => inr (found || existsb (wanted s me pid) l, any || existsb (is_child s me) l)
          end, s).
Proof.
  revert found any. induction l as [|p l IH]; intros found any Hl; [by simpl; rewrite !orb_false_r|].
  destruct (Hl p (list_elem_of_here _ _)) as (t & Ht & Hpar).
  assert (IH' := fun f a => IH f a (fun q Hq => Hl q (list_elem_of_further _ _ _ Hq))). clear IH Hl.
  assert (Ew : wanted s me pid p = is_child s me p && ((pid =? -1) || (t_id t =? pid))) by (unfold wanted; by rewrite Ht).
  assert (Ez : zombie s p = is_state TASK_ZOMBIE t) by (unfold zombie; by rewrite Ht).
  assert (Eb : wait_body me pid p (found, any) s
               = Some (if wanted s me pid p && zombie s p then inl p
                       else inr (found || wanted s me pid p, any || is_child s me p), s)).
  { rewrite Ew, Ez. unfold is_child, wait_body, mbind_. unfold deref at 1. rewrite Ht.
    destruct (Z.eqb_spec (t_parent t) 0) as [Hz|Hz]; cbn [negb andb]; [by rewrite !orb_false_r|].
    destruct Hpar as [?|[u Hu]]; [done|]. unfold deref. rewrite Hu.
    destruct (t_id u =? me); cbn [negb andb]; [|by rewrite !orb_false_r].
    destruct ((pid =? -1) || (t_id t =? pid))%bool; cbn [andb];
      [destruct (is_state TASK_ZOMBIE t); [done|]|]; by rewrite ?orb_true_r, ?orb_false_r. }
  cbn [ring_fold List.find existsb]. unfold mbind_ at 1. rewrite Eb.
  destruct (wanted s me pid p && zombie s p)%bool; [done|]. rewrite IH'. destruct (List.find _ _); [done|]. by rewrite !orb_assoc.
Qed.

Section Inv.
Context (s : sched) (l : list Z).
Hypothesis Hinv : sched_inv s l.

Lemma inv_lookup p : p ∈ l -> exists t, tasks s !! p = Some t /\ (t_parent t = 0 \/ is_Some (tasks s !! t_parent t)).
Proof.
  intros Hp. destruct (linked_lookup _ _ _ p (rg_linked _ _ (si_ring _ _ Hinv)) Hp) as [t Ht]. exists t. split; [done|].
  destruct (si_parent _ _ Hinv p t Hp Ht) as [?|[Hq _]]; [by left|right].
  by apply (linked_lookup _ _ _ _ (rg_linked _ _ (si_ring _ _ Hinv))).
Qed.

(** A child of the running task is another task and not the head. *)
Lemma child_other ct p :
  tasks s !! current_task s = Some ct -> p ∈ l -> is_child s (t_id ct) p = true ->
  p <> current_task s /\ p <> task_list s.
Proof.
  intros Hct Hp Hch. unfold is_child in Hch. destruct (tasks s !! p) as [t|] eqn:Ht; [|done].
  apply andb_true_iff in Hch as [Hz Hch]. apply negb_true_iff, Z.eqb_neq in Hz.
  destruct (tasks s !! t_parent t) as [u|] eqn:Hu; [|done]. apply Z.eqb_eq in Hch.
  destruct (si_parent _ _ Hinv p t Hp Ht) as [?|[Hq Hne]]; [done|]. split.
  - intros ->. apply Hne. apply (si_pid _ _ Hinv _ _ u ct Hq (si_current _ _ Hinv) Hu Hct Hch).
  - intros ->. pose proof (si_root _ _ Hinv) as Hroot. rewrite Ht in Hroot. by injection Hroot as ?.
Qed.
End Inv.

(** One round of [sys_waitpid]. *)
Lemma waitpid_round_reaps_lemma s l ct pid :
  sched_inv s l -> tasks s !! current_task s = Some ct ->
  (forall p t, p ∈ l -> tasks s !! p = Some t -> shared_directory s t) ->
  match List.find (fun p => wanted s (t_id ct) pid p && zombie s p) l with
  | Some t => exists tk s' l1 l2, tasks s !! t = Some tk /\ l = l1 ++ t :: l2
      /\ wait_round (current_task s) pid s = Some (Reaped (t_id tk) (t_exit_code tk), s')
      /\ without s s' t (l1 ++ l2) /\ sched_inv s' (l1 ++ l2)
  | None =>
      wait_round (current_task s) pid s
      = Some (if existsb (wanted s (t_id ct) pid) l
              then (Blocked, set_tasks (<[current_task s := with_state TASK_SLEEPING ct]> (tasks s)) s)
              else (NoChild, s))
  end.
Proof.
  intros Hinv Hct Hdir.
  assert (Hscan : over_ring (wait_body (t_id ct) pid) (false, false) s
                  = Some (match List.find (fun p => wanted s (t_id ct) pid p && zombie s p) l with
                          | Some t => inl t
                          | None => inr (existsb (wanted s (t_id ct) pid) l, existsb (is_child s (t_id ct)) l) end, s)).
  { rewrite (over_ring_fold _ _ _ l); [|intros; apply keeps_shape_ring, shape_wait_body|apply Hinv].
    rewrite wait_fold; [done|]. by apply inv_lookup. }
  destruct (List.find _ l) as [t|] eqn:Ef; unfold wait_round, mbind_; unfold deref at 1; rewrite Hct, Hscan.
  - pose proof (find_in _ _ _ Ef) as Hin. apply List.find_some in Ef as [_ Ef]. apply andb_true_iff in Ef as [Hw _].
    apply andb_true_iff in Hw as [Hch _]. destruct (child_other s l Hinv ct t Hct Hin Hch) as [Htc Hth].
    destruct (inv_lookup s l Hinv t Hin) as (tk & Htk & _).
    apply list_elem_of_split in Hin as (l1 & l2 & ->). destruct l1 as [|prev l1 _] using rev_ind.
    { pose proof (rg_head _ _ (si_ring _ _ Hinv)) as A. injection A as A. congruence. }
    rewrite <- app_assoc in Hinv. cbn [app] in Hinv.
    destruct (reap_spec s l1 prev t l2 tk Hinv Htk Htc) as (s' & Hrun & Hwo & Hinv').
    { apply (Hdir t tk); [apply elem_of_app; right; apply list_elem_of_here|done]. }
    exists tk, s', (l1 ++ [prev]), l2. rewrite Hrun, <- !app_assoc. done.
  - assert (Hcond : (negb (existsb (is_child s (t_id ct)) l) || (negb (pid =? -1) && negb (existsb (wanted s (t_id ct) pid) l)))%bool
                    = negb (existsb (wanted s (t_id ct) pid) l)).
    { unfold wanted. destruct (pid =? -1).
      - cbn [orb negb andb]. rewrite orb_false_r. f_equal. clear. induction l as [|x l IH]; [done|]. simpl. by rewrite IH, andb_true_r.
      - cbn [orb negb andb]. clear. induction l as [|x l IH]; [done|]. simpl.
        destruct (is_child s (t_id ct) x); simpl; [|done]. by destruct (match tasks s !! x with _ => _ end). }
    cbv beta iota. rewrite Hcond. destruct (existsb (wanted s (t_id ct) pid) l); cbn [negb]; [|done]. unfold upd. by rewrite Hct.
Qed.

(** ** Runs *)

(** The operations of the task list, in any order: creating kernel and user
    tasks, timer interrupts, the scheduler, sleeping, priorities, killing,
    exiting (of a task without GUI state) and rounds of [sys_waitpid]. *)
Inductive task_step : sched -> sched -> Prop :=
| step_create entry name prio size s pid s' :
    0 <= size -> size + 11 < 2 ^ 32 -> create_task_named_stack entry name prio size s = Some (pid, s') -> task_step s s'
| step_create_user entry ustack name s pid s' :
    create_user_task_named entry ustack name s = Some (pid, s') -> task_step s s'
| step_create_user_64 entry ustack name s pid s' :
    create_user_task_64_named entry ustack name s = Some (pid, s') -> task_step s s'
| step_run_schedule rsp s r s' : schedule rsp s = Resume r s' -> task_step s s'
| step_switch s u s' : switch_task s = Some (u, s') -> task_step s s'
| step_sleep ms s u s' : task_sleep_ms ms s = Some (u, s') -> task_step s s'
| step_priority pid prio s u s' : task_set_priority pid prio s = Some (u, s') -> task_step s s'
| step_kill pid s u s' : sys_kill_by_pid pid s = Some (u, s') -> task_step s s'
| step_exit status s ct u s' :
    tasks s !! current_task s = Some ct -> t_gui ct = 0 -> sys_exit_process status s = Some (u, s') -> task_step s s'
| step_wait pid s r s' :
    (forall p t, tasks s !! p = Some t -> shared_directory s t) ->
    wait_round (current_task s) pid s = Some (r, s') -> task_step s s'.

Lemma inv_keeps {A} (m : M sched A) s l a s' :
  keeps same_shape m -> keeps (listed l) m -> sched_inv s l -> m s = Some (a, s') -> sched_inv s' l.
Proof.
  intros Hs Hl Hinv E. eapply inv_shape; [by eapply Hs| |exact Hinv]. eapply Hl; [exact E|]. split; apply Hinv.
Qed.

Lemma inv_exit s l ct status u s' :
  sched_inv s l -> tasks s !! current_task s = Some ct -> t_gui ct = 0 -> sys_exit_process status s = Some (u, s') ->
  sched_inv s' l.
Proof.
  intros Hinv Hct Hg E. unfold sys_exit_process in E. minv E as c s1 E1. injection E1 as <- <-.
  minv E as t s2 E2. unfold deref in E2. rewrite Hct in E2. injection E2 as <- <-. rewrite Hg in E. cbn [Z.eqb negb mwhen] in E.
  minv E as u1 s3 E3. injection E3 as _ <-. revert E.
  apply inv_keeps; [unfold wake_parent; keeps_shape|unfold wake_parent; keeps_listed|exact Hinv].
Qed.

Lemma task_step_inv s l s' : sched_inv s l -> task_step s s' -> exists l', sched_inv s' l'.
Proof.
  intros Hinv Hs. destruct Hs as [entry name prio size s pid s' H0 H1 E|entry ust name s pid s' E|entry ust name s pid s' E
    |rsp s r s' E|s u s' E|ms s u s' E|pid prio s u s' E|pid s u s' E|status s ct u s' Hct Hg E|pid s r s' Hdir E].
  - destruct (create_kernel_task _ _ _ _ _ _ _ _ Hinv H0 H1 E) as (p & t & [(h & r & _ & Hi) _ _ _ _] & _). by eexists.
  - destruct (create_user_task_at _ _ _ _ _ _ _ _ _ _ Hinv E) as (p & t & [(h & r & _ & Hi) _ _ _ _] & _). by eexists.
  - unfold create_user_task_64_named in E. minv E as hs s0 E0. injection E0 as <- <-.
    destruct (create_user_task_at _ _ _ _ _ _ _ _ _ _ Hinv E) as (p & t & [(h & r & _ & Hi) _ _ _ _] & _). by eexists.
  - exists l. destruct (listed_schedule l rsp s r s' E) as [Hc Hsh]; [apply Hinv..|]. by eapply inv_shape.
  - exists l. eapply inv_keeps; [apply shape_switch_task| |exact Hinv|exact E].
    unfold switch_task, irq0_handler, timer_handler. keeps_listed.
  - exists l. eapply inv_keeps; [apply shape_sleep| |exact Hinv|exact E].
    unfold task_sleep_ms, switch_task, irq0_handler, timer_handler. keeps_listed.
  - exists l. eapply inv_keeps; [apply shape_set_priority| |exact Hinv|exact E].
    unfold task_set_priority, set_priority_body. keeps_listed.
  - exists l. eapply inv_keeps; [apply shape_kill| |exact Hinv|exact E].
    unfold sys_kill_by_pid, kill_body, wake_parent. keeps_listed.
  - exists l. by eapply inv_exit.
  - destruct (inv_lookup s l Hinv (current_task s) (si_current _ _ Hinv)) as (ct & Hct & _).
    pose proof (waitpid_round_reaps_lemma s l ct pid Hinv Hct (fun p t _ => Hdir p t)) as Hw.
    destruct (List.find _ l) as [t|].
    + destruct Hw as (tk & s1 & l1 & l2 & _ & _ & Hrun & _ & Hi). rewrite Hrun in E. injection E as _ <-. by eexists.
    + rewrite Hw in E. exists l. destruct (existsb _ l); injection E as _ <-; [|done].
      apply (inv_keeps (upd (current_task s) (with_state TASK_SLEEPING)) s l tt);
        [apply shape_upd; by intros []|apply listed_upd; by intros []|exact Hinv|unfold upd; by rewrite Hct].
Qed.

Lemma schedule_never_stuck s l rsp : sched_inv s l -> ctrl_c_idle s -> schedule rsp s <> Stuck.
Proof.
  intros Hinv Hidle. pose proof Hinv as [Hr H0 Hc _ _ _ _ _]. destruct (inv_lookup s l Hinv _ Hc) as (ct & Hct & _).
  unfold schedule. destruct (current_task s =? 0); [done|]. rewrite Hct. destruct (_ && _)%bool; [done|].
  destruct (stack_check s ct rsp); [done|]. destruct (schedule_locked_unfold s l rsp ct Hr H0 Hc Hct Hidle) as (m & Hm & ->).
  cbv zeta. destruct (in_quantum s ct); [done|]. apply list_elem_of_split in Hc as (pre & post & ->).
  destruct (schedule_switch s pre (current_task s) post ct rsp m Hr eq_refl Hct Hm) as (s' & -> & _). done.
Qed.

(** One round of [sys_waitpid] on a well-formed list (of tasks on the
    kernel's page directory) always completes.  If some listed child of the
    caller that matches [pid] is a zombie, the first of them in list order is
    unlinked, its pid and exit code are returned, its record is gone, its own
    children are handed to the first task, and the list stays well formed.
    Otherwise the caller gets -1 exactly when no child matches, with nothing
    changed, and else goes to sleep. *)
Theorem waitpid_round_reaps s l ct pid :
  sched_inv s l -> tasks s !! current_task s = Some ct ->
  (forall p t, p ∈ l -> tasks s !! p = Some t -> shared_directory s t) ->
  match List.find (fun p => wanted s (t_id ct) pid p && zombie s p) l with
  | Some t => exists tk s' l1 l2, tasks s !! t = Some tk /\ l = l1 ++ t :: l2
      /\ wait_round (current_task s) pid s = Some (Reaped (t_id tk) (t_exit_code tk), s')
      /\ without s s' t (l1 ++ l2) /\ sched_inv s' (l1 ++ l2)
  | None =>
      wait_round (current_task s) pid s
      = Some (if existsb (wanted s (t_id ct) pid) l
              then (Blocked, set_tasks (<[current_task s := with_state TASK_SLEEPING ct]> (tasks s)) s)
              else (NoChild, s))
  end.
Proof. apply waitpid_round_reaps_lemma. Qed.

(** A user task, killed while its parent, the kernel task, runs. *)
Definition sched_user : sched := run (create_user_task_named 0x400000 0xBFFF0000 None) sched_init.
Definition sched_killed : sched := run (sys_kill_by_pid 1) sched_user.

Lemma sched_killed_inv : sched_inv sched_killed [65544; 67032].
Proof.
  assert (E : create_user_task_named 0x400000 0xBFFF0000 None sched_init = Some (1, sched_user))
    by exact (run_spec (create_user_task_named 0x400000 0xBFFF0000 None) sched_init 1 ltac:(by_vm)).
  destruct (create_user_task_at _ _ _ _ _ _ _ _ _ _ sched_init_inv E) as (p & t & [(h & r & El & Hi) Ht [_ Hid] _ _] & _).
  injection El as <- <-. assert (p = 67032) as ->.
  { apply elem_of_map_to_list, (list_elem_of_fmap_2 (fun x => (x.1, t_id x.2))) in Ht. cbn [fst snd] in Ht. rewrite Hid in Ht.
    replace (_ <$> map_to_list (tasks sched_user)) with [(67032, 1); (65544, 0)] in Ht by by_vm.
    clear -Ht. apply elem_of_cons in Ht as [Ht|Ht]; [by injection Ht|].
    apply elem_of_cons in Ht as [Ht|Ht]; [discriminate Ht|by apply not_elem_of_nil in Ht]. }
  clear E.
  eapply (inv_keeps (sys_kill_by_pid 1) sched_user _ tt); [apply shape_kill| |exact Hi|exact (run_spec (sys_kill_by_pid 1) sched_user tt ltac:(by_vm))].
  unfold sys_kill_by_pid, kill_body, wake_parent. keeps_listed.
Qed.

Lemma waitpid_round_reaps_witness :
  exists s', wait_round (current_task sched_killed) (-1) sched_killed = Some (Reaped 1 130, s')
    /\ tasks s' !! 67032 = None /\ sched_inv s' [65544].
Proof.
  pose proof (waitpid_round_reaps sched_killed [65544; 67032] (default task0 (tasks sched_killed !! 65544)) (-1)
    sched_killed_inv (lookup_spec (tasks sched_killed) 65544 0 ltac:(by_vm))) as H.
  replace (List.find _ _) with (Some 67032) in H by by_vm.
  destruct H as (tk & s' & l1 & l2 & Htk & El & Hrun & Hw & Hi).
  { intros p t Hp Ht. right. change (kernel_directory (vmst sched_killed)) with 0x9000.
    assert (Hd : Forall (fun p => t_page_directory <$> tasks sched_killed !! p = Some 0x9000) [65544; 67032]) by by_compute.
    rewrite Forall_forall in Hd. specialize (Hd p Hp). rewrite Ht in Hd. by injection Hd. }
  assert (Hl : l1 ++ l2 = [65544]).
  { clear -El. destruct l1 as [|a [|b l1]]; [done| |by destruct l1]. by injection El as <- <-. }
  rewrite Hl in *. exists s'. split; [|split; [apply Hw|exact Hi]]. rewrite Hrun.
  assert (Hv : t_id <$> tasks sched_killed !! 67032 = Some 1 /\ t_exit_code <$> tasks sched_killed !! 67032 = Some 130)
    by (split; by_vm).
  rewrite Htk in Hv. destruct Hv as [Hv1 Hv2]. injection Hv1 as ->. injection Hv2 as ->. reflexivity.
Defined.

Lemma init_inv s free live s1 :
  heap_inv (heap s) free live -> 1 <= next_pid s -> init_tasking s = Some (tt, s1) -> exists p, sched_inv s1 [p].
Proof.
  intros Hh Hn E. unfold init_tasking in E. minv E as u0 s0 E0. injection E0 as _ <-. minv E as p s2 E2.
  destruct (task_kmalloc (set_current_task 0 s) free live SIZEOF_TASK p s2 Hh ltac:(done) ltac:(done) E2) as [(h & ->) (free2 & Hh2) _ Ha _].
  minv E as dir s3 E3. injection E3 as _ <-. minv E as u4 s4 E4. injection E4 as _ <-. minv E as u5 s5 E5. injection E5 as _ <-.
  injection E as <-. exists p. unfold HEADER_SIZE in *.
  match goal with |- sched_inv ?s [p] => set (s' := s) end.
  assert (Ht : exists t, tasks s' !! p = Some t /\ t_next t = p /\ t_parent t = 0 /\ t_id t = 0 /\ t_kernel_stack_base t = 0).
  { eexists. split; [apply lookup_insert_eq|done]. }
  destruct Ht as (t & Ht & T1 & T2 & T3 & T4).
  constructor.
  - split; [done|apply NoDup_singleton|]. cbn [linked head default from_option id]. split; [|done]. by exists t.
  - intros H0%list_elem_of_singleton. lia.
  - apply list_elem_of_here.
  - change (task_list s') with p. rewrite Ht. simpl. by rewrite T2.
  - intros q u ->%list_elem_of_singleton Hu. left. congruence.
  - by intros q1 q2 u1 u2 ->%list_elem_of_singleton ->%list_elem_of_singleton.
  - intros q u ->%list_elem_of_singleton Hu. assert (u = t) as -> by congruence. change (next_pid s') with (next_pid s). lia.
  - exists free2, live. unfold blocks, flat_map, task_blocks. rewrite Ht, T4. cbn [Z.eqb app]. exact Hh2.
Qed.


