(* ===== verification/Pipe.v ===== *)
(** * File descriptors and pipes ([src/src/kernel/core/syscall.c])

    The descriptor table of the running task, the calls that manage it
    ([sys_dup], [sys_dup2], [sys_close], [sys_lseek]) and pipes: a 4096-byte ring
    buffer in a heap block, shared by reference count.  [sys_read] and
    [sys_write] are modelled here on pipe descriptors; their other branches are in
    [Tty] and [Files].

    User memory is the map [umem] of [Usercopy]; a pipe block that has been
    freed is no longer in [pipes], and dereferencing it stops the machine. *)

From Stdlib Require Import ZArith Lia.
From stdpp Require Import base numbers list gmap.
From S2P Require Import Prelude Pmm Kheap Vmm Usercopy Bytes Task TaskRing TaskSched TaskInv TaskStack.

(** ** State *)

Record sys := {
  ks : sched;
  (** the static [fd_table], used when there is no current task *)
  fd_static : list kfile;
  umem : gmap Z Z
}.

Definition set_ks (v : sched) (s : sys) : sys := {| ks := v; fd_static := fd_static s; umem := umem s |}.
Definition set_fd_static (v : list kfile) (s : sys) : sys := {| ks := ks s; fd_static := v; umem := umem s |}.
Definition set_umem (v : gmap Z Z) (s : sys) : sys := {| ks := ks s; fd_static := fd_static s; umem := v |}.

Definition in_sched {A} (m : M sched A) : M sys A := fun s =>
  match m (ks s) with Some (a, k) => Some (a, set_ks k s) | None => None end.

Definition FD_TYPE_FREE : Z := 0.
Definition FD_TYPE_FILE : Z := 1.
Definition SIZEOF_PIPE : Z := 4112.

Definition with_type (v : Z) (f : kfile) : kfile :=
  {| f_type := v; f_base_addr := f_base_addr f; f_size := f_size f; f_offset := f_offset f;
     f_owned_buffer := f_owned_buffer f; f_socket_ptr := f_socket_ptr f |}.
Definition with_offset (v : Z) (f : kfile) : kfile :=
  {| f_type := f_type f; f_base_addr := f_base_addr f; f_size := f_size f; f_offset := v;
     f_owned_buffer := f_owned_buffer f; f_socket_ptr := f_socket_ptr f |}.
(** The fields [sys_pipe] sets. *)
Definition pipe_end (base p : Z) (f : kfile) : kfile :=
  {| f_type := FD_TYPE_PIPE; f_base_addr := base; f_size := 0; f_offset := 0;
     f_owned_buffer := f_owned_buffer f; f_socket_ptr := p |}.

(** ** The descriptor table *)

Definition get_fd_table : M sys (list kfile) := fun s =>
  if current_task (ks s) =? 0 then Some (fd_static s, s)
  else match tasks (ks s) !! current_task (ks s) with Some t => Some (t_fds t, s) | None => None end.

(** Assign to the table [get_fd_table] points to. *)
Definition set_fd_table (tbl : list kfile) : M sys unit := fun s =>
  if current_task (ks s) =? 0 then Some (tt, set_fd_static tbl s)
  else in_sched (upd (current_task (ks s)) (with_fds tbl)) s.

Definition fd_ok (fd : Z) : bool := (0 <=? fd) && (fd <? 32).
(** [fd_table[fd]]; reads past the table do not occur. *)
Definition fd_at (tbl : list kfile) (fd : Z) : kfile := default kfile0 (tbl !! Z.to_nat fd).
Definition fd_set (tbl : list kfile) (fd : Z) (f : kfile) : list kfile := <[Z.to_nat fd := f]> tbl.

(** [for (i = from; i < 32; i++) if (fd_table[i].type == FD_TYPE_FREE) ...], [n]
    slots; -1 when there is none. *)
Fixpoint first_free (tbl : list kfile) (from : Z) (n : nat) : Z :=
  match n with
  | O => -1
  | S n' => if f_type (fd_at tbl from) =? FD_TYPE_FREE then from else first_free tbl (from + 1) n'
  end.
Definition free_fd (tbl : list kfile) (from : Z) : Z := first_free tbl from (Z.to_nat (32 - from)).

Definition pipe_at (p : Z) : M sys pipe := fun s =>
  match pipes (ks s) !! p with Some x => Some (x, s) | None => None end.
Definition put_pipe (p : Z) (x : pipe) : M sys unit :=
  mmodify (fun s => set_ks (set_pipes (<[p := x]> (pipes (ks s))) (ks s)) s).
(** [kfree(p)] of a pipe. *)
Definition free_pipe (p : Z) : M sys unit :=
  in_sched (in_vm (call_kfree p)) ;;;
  mmodify (fun s => set_ks (set_pipes (delete p (pipes (ks s))) (ks s)) s).

Definition pipe_add_ref (fd : Z) : M sys unit :=
  tbl <-- get_fd_table ;;
  mwhen (fd_ok fd && (f_type (fd_at tbl fd) =? FD_TYPE_PIPE))%bool (
    let p := f_socket_ptr (fd_at tbl fd) in
    mwhen (negb (p =? 0)) (x <-- pipe_at p ;; put_pipe p (pipe_ref x (p_refcount x + 1)))).

Definition sys_close (fd : Z) : M sys Z :=
  tbl <-- get_fd_table ;;
  if negb (fd_ok fd) then mret_ (-1) else
  let f := fd_at tbl fd in
  mwhen (f_type f =? FD_TYPE_PIPE) (
    let p := f_socket_ptr f in
    mwhen (negb (p =? 0)) (
      x <-- pipe_at p ;;
      put_pipe p (pipe_ref x (p_refcount x - 1)) ;;;
      mwhen (p_refcount x - 1 <=? 0) (free_pipe p))) ;;;
  set_fd_table (fd_set tbl fd (with_type FD_TYPE_FREE f)) ;;;
  mret_ 0.

Definition sys_dup (oldfd : Z) : M sys Z :=
  tbl <-- get_fd_table ;;
  if (negb (fd_ok oldfd) || (f_type (fd_at tbl oldfd) =? FD_TYPE_FREE))%bool then mret_ (-1) else
  let i := free_fd tbl 3 in
  if i =? -1 then mret_ (-1) else
  set_fd_table (fd_set tbl i (fd_at tbl oldfd)) ;;;
  pipe_add_ref i ;;;
  mret_ i.

Definition sys_dup2 (oldfd newfd : Z) : M sys Z :=
  tbl <-- get_fd_table ;;
  if (negb (fd_ok oldfd) || negb (fd_ok newfd))%bool then mret_ (-1) else
  if f_type (fd_at tbl oldfd) =? FD_TYPE_FREE then mret_ (-1) else
  if newfd =? oldfd then mret_ newfd else
  mwhen (negb (f_type (fd_at tbl newfd) =? FD_TYPE_FREE)) (sys_close newfd ;;; mret_ tt) ;;;
  tbl <-- get_fd_table ;;
  set_fd_table (fd_set tbl newfd (fd_at tbl oldfd)) ;;;
  pipe_add_ref newfd ;;;
  mret_ newfd.

Definition user_vm (s : sys) : vm := vmst (ks s).

Definition to_user (dst : Z) (bs : list Z) : M sys Z := fun s =>
  let '(r, u) := copy_to_user (user_vm s) (umem s) dst bs in Some (r, set_umem u s).
(** The bytes are [None] when nothing was copied. *)
Definition from_user (src n : Z) : M sys (option (list Z)) := fun s =>
  let '(r, bs) := copy_from_user (user_vm s) (umem s) src n in
  Some (if r <? 0 then None else Some (default [] bs), s).

Definition new_pipe : pipe :=
  {| p_buffer := zeros 4096; p_read_pos := 0; p_write_pos := 0; p_bytes_avail := 0; p_refcount := 2 |}.

Definition sys_pipe (pipefd : Z) : M sys Z :=
  if pipefd =? 0 then mret_ (- EFAULT) else
  v <-- mgets user_vm ;;
  if validate_user_pointer v pipefd 8 <? 0 then mret_ (- EFAULT) else
  tbl <-- get_fd_table ;;
  p <-- in_sched (in_vm (call_kmalloc SIZEOF_PIPE)) ;;
  put_pipe p new_pipe ;;;
  let rfd := free_fd tbl 3 in
  let wfd := if rfd =? -1 then -1 else free_fd tbl (rfd + 1) in
  if ((rfd =? -1) || (wfd =? -1))%bool then free_pipe p ;;; mret_ (-1) else
  let tbl1 := fd_set tbl rfd (pipe_end 1 p (fd_at tbl rfd)) in
  let tbl2 := fd_set tbl1 wfd (pipe_end 2 p (fd_at tbl1 wfd)) in
  set_fd_table tbl2 ;;;
  r <-- to_user pipefd (le_bytes 4 rfd ++ le_bytes 4 wfd) ;;
  if r <? 0 then
    let tbl3 := fd_set tbl2 rfd (with_type FD_TYPE_FREE (fd_at tbl2 rfd)) in
    set_fd_table (fd_set tbl3 wfd (with_type FD_TYPE_FREE (fd_at tbl3 wfd))) ;;;
    free_pipe p ;;;
    mret_ (- EFAULT)
  else mret_ 0.

Definition sys_lseek (fd offset whence : Z) : M sys Z :=
  tbl <-- get_fd_table ;;
  if (negb (fd_ok fd) || negb (f_type (fd_at tbl fd) =? FD_TYPE_FILE))%bool then mret_ (-1) else
  let f := fd_at tbl fd in
  if ((whence <? 0) || (2 <? whence))%bool then mret_ (-1) else
  let new_offset :=
    if whence =? 0 then offset
    else if whence =? 1 then s32 (s32 (f_offset f) + offset)
    else s32 (s32 (f_size f) + offset) in
  if new_offset <? 0 then mret_ (-1) else
  let new_offset := if f_size f <? u32 new_offset then s32 (f_size f) else new_offset in
  set_fd_table (fd_set tbl fd (with_offset (u32 new_offset) f)) ;;;
  mret_ (s32 (u32 new_offset)).

(** ** The ring buffer *)

Inductive pipe_wait_result := PipeReady | PipeEof | PipeWaiting.

(** [while (p->bytes_avail == 0) { if (p->refcount <= 0) return 0;
    switch_task(); }]: [PipeWaiting] when it still loops after [fuel] rounds. *)
Fixpoint pipe_wait (p : Z) (fuel : nat) : M sys pipe_wait_result :=
  x <-- pipe_at p ;;
  if negb (p_bytes_avail x =? 0) then mret_ PipeReady
  else if p_refcount x <=? 0 then mret_ PipeEof
  else match fuel with
       | O => mret_ PipeWaiting
       | S fuel => in_sched switch_task ;;; pipe_wait p fuel
       end.

Definition after_read (x : pipe) (chunk : Z) : pipe :=
  {| p_buffer := p_buffer x; p_read_pos := (p_read_pos x + chunk) mod PIPE_BUF_SIZE; p_write_pos := p_write_pos x;
     p_bytes_avail := p_bytes_avail x - chunk; p_refcount := p_refcount x |}.

Fixpoint pipe_read_loop (p buf got to_read : Z) (fuel : nat) : M sys Z :=
  if to_read <=? got then mret_ got else
  match fuel with
  | O => mstop
  | S fuel =>
      x <-- pipe_at p ;;
      let chunk := to_read - got in
      let first := PIPE_BUF_SIZE - p_read_pos x in
      let chunk := if first <? chunk then first else chunk in
      r <-- to_user (u64 (buf + got)) (sub (p_buffer x) (Z.to_nat (p_read_pos x)) (Z.to_nat chunk)) ;;
      if r <? 0 then mret_ (- EFAULT) else
      put_pipe p (after_read x chunk) ;;;
      pipe_read_loop p buf (got + chunk) to_read fuel
  end.

(** [sys_read] on a pipe; [None]: still waiting for data. *)
Definition sys_read_pipe (fd buf count : Z) (fuel : nat) : M sys (option Z) :=
  v <-- mgets user_vm ;;
  if (negb (count =? 0) && (validate_user_pointer v buf count <? 0))%bool then mret_ (Some (- EFAULT)) else
  tbl <-- get_fd_table ;;
  if (negb (fd_ok fd) || negb (f_type (fd_at tbl fd) =? FD_TYPE_PIPE))%bool then mstop else
  let p := f_socket_ptr (fd_at tbl fd) in
  if p =? 0 then mret_ (Some (-1)) else
  w <-- pipe_wait p fuel ;;
  match w with
  | PipeEof => mret_ (Some 0)
  | PipeWaiting => mret_ None
  | PipeReady =>
      x <-- pipe_at p ;;
      let to_read := if count <? p_bytes_avail x then count else p_bytes_avail x in
      r <-- pipe_read_loop p buf 0 to_read (Z.to_nat to_read) ;;
      mret_ (Some r)
  end.

(** The inner loop of [sys_write]: [buffer[write_pos] = tmp[i]; write_pos =
    (write_pos + 1) % PIPE_BUF_SIZE;] *)
Fixpoint put_bytes (x : pipe) (tmp : list Z) : pipe :=
  match tmp with
  | [] => x
  | b :: tmp' =>
      put_bytes
        {| p_buffer := (p_buffer x).[p_write_pos x <- b]; p_read_pos := p_read_pos x;
           p_write_pos := (p_write_pos x + 1) mod PIPE_BUF_SIZE; p_bytes_avail := p_bytes_avail x;
           p_refcount := p_refcount x |} tmp'
  end.
Definition add_avail (x : pipe) (n : Z) : pipe :=
  {| p_buffer := p_buffer x; p_read_pos := p_read_pos x; p_write_pos := p_write_pos x;
     p_bytes_avail := p_bytes_avail x + n; p_refcount := p_refcount x |}.

(** [char tmp[64]] *)
Definition TMP_SIZE : Z := 64.

Fixpoint pipe_write_loop (p buf done count : Z) (fuel : nat) : M sys Z :=
  if count <=? done then mret_ done else
  match fuel with
  | O => mstop
  | S fuel =>
      let chunk := if count - done <? TMP_SIZE then count - done else TMP_SIZE in
      tmp <-- from_user (u64 (buf + done)) chunk ;;
      match tmp with
      | None => mret_ (- EFAULT)
      | Some tmp =>
          x <-- pipe_at p ;;
          put_pipe p (add_avail (put_bytes x tmp) chunk) ;;;
          pipe_write_loop p buf (done + chunk) count fuel
      end
  end.

(** [sys_write] on a pipe (descriptors 1 and 2 always write to the terminal). *)
Definition sys_write_pipe (fd buf count : Z) : M sys Z :=
  v <-- mgets user_vm ;;
  if (negb (count =? 0) && (validate_user_pointer v buf count <? 0))%bool then mret_ (- EFAULT) else
  if ((fd =? 1) || (fd =? 2))%bool then mstop else
  tbl <-- get_fd_table ;;
  if negb (fd_ok fd) then mret_ (-1) else
  if negb (f_type (fd_at tbl fd) =? FD_TYPE_PIPE) then mstop else
  let p := f_socket_ptr (fd_at tbl fd) in
  if p =? 0 then mret_ (-1) else
  x <-- pipe_at p ;;
  let space := PIPE_BUF_SIZE - p_bytes_avail x in
  if space =? 0 then mret_ 0 else
  let count := if space <? count then space else count in
  pipe_write_loop p buf 0 count (Z.to_nat count).
