(* ===== verification/PipeFifo.v ===== *)
(** * Pipes are bounded queues

    The abstract state of a pipe is the list [q] of the bytes in it.
    [pipe_holds x q] relates it to the ring buffer; writing appends what fits,
    reading takes from the front. *)

From Stdlib Require Import ZArith Lia.
From stdpp Require Import base numbers list gmap.
From S2P Require Import Prelude Pmm Kheap Vmm Usercopy Bytes Task TaskRing TaskSched TaskInv TaskStack Pipe.

(** ** The representation *)

Definition slot (x : pipe) (i : Z) : Z := (p_read_pos x + i) mod PIPE_BUF_SIZE.

(** The bytes [q] lie in the buffer from the read position on. *)
Record ring_holds (x : pipe) (q : list Z) : Prop := {
  rh_buffer : length (p_buffer x) = Z.to_nat PIPE_BUF_SIZE;
  rh_read : 0 <= p_read_pos x < PIPE_BUF_SIZE;
  rh_room : Z.of_nat (length q) <= PIPE_BUF_SIZE;
  rh_write : p_write_pos x = slot x (Z.of_nat (length q));
  rh_data : forall i b, q !! i = Some b -> p_buffer x !! Z.to_nat (slot x (Z.of_nat i)) = Some b
}.

Definition pipe_holds (x : pipe) (q : list Z) : Prop := ring_holds x q /\ p_bytes_avail x = Z.of_nat (length q).

Lemma slot_range x i : 0 <= slot x i < PIPE_BUF_SIZE.
Proof. unfold slot. apply Z.mod_pos_bound. done. Qed.

Lemma ring_slot_inj x i j : 0 <= i < PIPE_BUF_SIZE -> 0 <= j < PIPE_BUF_SIZE -> slot x i = slot x j -> i = j.
Proof. unfold slot, PIPE_BUF_SIZE. zlia. Qed.

(** *** One byte in *)
Lemma put_byte x q b :
  ring_holds x q -> Z.of_nat (length q) < PIPE_BUF_SIZE ->
  ring_holds {| p_buffer := (p_buffer x).[p_write_pos x <- b]; p_read_pos := p_read_pos x;
                p_write_pos := (p_write_pos x + 1) mod PIPE_BUF_SIZE; p_bytes_avail := p_bytes_avail x;
                p_refcount := p_refcount x |} (q ++ [b]).
Proof.
  intros [Hb Hr _ Hw Hd] Hlt. pose proof (slot_range x (Z.of_nat (length q))) as Hs. unfold PIPE_BUF_SIZE in *.
  constructor; cbn [p_buffer p_read_pos p_write_pos]; [by rewrite length_updZ|done|rewrite length_app; simpl; unfold PIPE_BUF_SIZE; lia| |].
  - rewrite Hw, length_app. unfold slot. cbn [p_read_pos length]. unfold PIPE_BUF_SIZE. rewrite Nat2Z.inj_add. zlia.
  - intros i y Hi. change (slot {| p_buffer := _ |} (Z.of_nat i)) with (slot x (Z.of_nat i)). unfold updZ.
    pose proof (slot_range x (Z.of_nat i)) as Hsi. unfold PIPE_BUF_SIZE in Hsi.
    destruct (decide (i = length q)) as [->|Hne].
    + rewrite list_lookup_middle in Hi by done. injection Hi as <-. rewrite Hw.
      rewrite list_lookup_insert_eq; [done|]. rewrite Hb. lia.
    + assert (Hil : (i < length q)%nat).
      { apply lookup_lt_Some in Hi. rewrite length_app in Hi. simpl in Hi. lia. }
      rewrite lookup_app_l in Hi by done. rewrite list_lookup_insert_ne; [by apply Hd|]. rewrite Hw. intros Heq.
      apply Hne. apply (f_equal Z.of_nat) in Heq. rewrite !Z2Nat.id in Heq by lia.
      apply ring_slot_inj in Heq; unfold PIPE_BUF_SIZE; lia.
Qed.

Lemma put_bytes_holds x q tmp :
  ring_holds x q -> Z.of_nat (length q + length tmp) <= PIPE_BUF_SIZE ->
  ring_holds (put_bytes x tmp) (q ++ tmp) /\ p_bytes_avail (put_bytes x tmp) = p_bytes_avail x
  /\ p_refcount (put_bytes x tmp) = p_refcount x.
Proof.
  revert x q. induction tmp as [|b tmp IH]; intros x q Hx Hl; cbn [put_bytes]; [by rewrite app_nil_r|].
  cbn [length] in Hl. pose proof (put_byte x q b Hx ltac:(lia)) as Hb.
  destruct (IH _ _ Hb) as (H1 & H2 & H3); [rewrite length_app; simpl; lia|]. rewrite <- app_assoc in H1. done.
Qed.

(** *** Bytes out *)
Lemma read_chunk x q n :
  ring_holds x q -> 0 <= n <= Z.of_nat (length q) -> p_read_pos x + n <= PIPE_BUF_SIZE ->
  sub (p_buffer x) (Z.to_nat (p_read_pos x)) (Z.to_nat n) = take (Z.to_nat n) q
  /\ ring_holds (after_read x n) (drop (Z.to_nat n) q).
Proof.
  intros [Hb Hr Hrm Hw Hd] Hn Hend. unfold PIPE_BUF_SIZE in *.
  assert (Hslot : forall i, 0 <= i -> slot (after_read x n) i = slot x (n + i)).
  { intros i Hi. unfold slot, after_read. cbn [p_read_pos]. unfold PIPE_BUF_SIZE. zlia. }
  split.
  - apply list_eq. intros i. rewrite lookup_sub. case_decide as Hi.
    + rewrite lookup_take_lt by lia. destruct (lookup_lt_is_Some_2 q i) as [b Hqb]; [lia|]. rewrite Hqb, <- (Hd i b Hqb).
      f_equal. unfold slot, PIPE_BUF_SIZE. rewrite Z.mod_small by lia. lia.
    + rewrite lookup_take_ge by lia. done.
  - constructor; cbn [p_buffer p_read_pos p_write_pos after_read]; [done|unfold PIPE_BUF_SIZE; zlia| | |].
    + rewrite length_drop. unfold PIPE_BUF_SIZE. lia.
    + rewrite Hslot, length_drop, Hw by lia. f_equal. lia.
    + intros i b Hi. rewrite lookup_drop in Hi. rewrite Hslot by lia.
      rewrite <- (Hd _ _ Hi). by replace (Z.of_nat (Z.to_nat n + i)) with (n + Z.of_nat i) by lia.
Qed.

(** ** Copies within a validated range *)

Definition mapped (s : sys) (buf n : Z) : Prop :=
  USER_ADDR_MIN <= buf /\ buf + n <= USER_ADDR_MAX
  /\ forall a, buf <= a < buf + n -> is_Some (walk_user_pt (user_vm s) a true).

Lemma mapped_validate s buf n :
  is_u64 buf -> 0 < n < 2 ^ 64 -> validate_user_pointer (user_vm s) buf n = 0 -> mapped s buf n.
Proof.
  intros Hb Hn Hv. destruct (validate_spec (user_vm s) buf n Hb Hn) as [(_ & H1 & H2 & H3)|[He _]]; [done|].
  rewrite He in Hv. done.
Qed.

Lemma mapped_sub s buf n o m :
  mapped s buf n -> 0 <= o -> 0 < m -> o + m <= n -> u64 (buf + o) = buf + o
  /\ validate_user_pointer (user_vm s) (buf + o) m = 0.
Proof.
  intros (H1 & H2 & H3) Ho Hm Hn. unfold USER_ADDR_MIN, USER_ADDR_MAX in *. split; [apply Z.mod_small; lia|].
  apply validate_intro; unfold USER_ADDR_MIN, USER_ADDR_MAX; try lia. intros a Ha. apply H3. lia.
Qed.

Lemma from_user_mapped s buf n o m :
  mapped s buf n -> 0 <= o -> 0 < m -> o + m <= n ->
  from_user (u64 (buf + o)) m s = Some (Some (user_bytes (umem s) (buf + o) m), s).
Proof.
  intros Hm Ho Hm0 Hn. destruct (mapped_sub s buf n o m Hm Ho Hm0 Hn) as [-> Hv].
  unfold from_user, copy_from_user. by rewrite (proj2 (Z.eqb_neq m 0)), Hv by lia.
Qed.

Lemma to_user_mapped s buf n o bs :
  mapped s buf n -> 0 <= o -> bs <> [] -> o + Z.of_nat (length bs) <= n ->
  to_user (u64 (buf + o)) bs s = Some (0, set_umem (write_bytes (umem s) (buf + o) bs) s).
Proof.
  intros Hm Ho Hbs Hn. assert (0 < Z.of_nat (length bs)) by (destruct bs; [done|simpl; lia]).
  destruct (mapped_sub s buf n o (Z.of_nat (length bs)) Hm Ho) as [-> Hv]; [done|lia|].
  unfold to_user, copy_to_user. by rewrite (proj2 (Z.eqb_neq _ 0)), Hv by lia.
Qed.

(** ** Writing *)

Definition with_pipe (s : sys) (p : Z) (x : pipe) : sys := set_ks (set_pipes (<[p := x]> (pipes (ks s))) (ks s)) s.

Lemma with_pipe_id s p x : pipes (ks s) !! p = Some x -> with_pipe s p x = s.
Proof. intros H. unfold with_pipe. rewrite insert_id by done. destruct s as [[] ? ?]. done. Qed.
Lemma with_pipe_twice s p x y : with_pipe (with_pipe s p x) p y = with_pipe s p y.
Proof. unfold with_pipe. cbn. by rewrite insert_insert_eq. Qed.

Lemma user_bytes_0 m a : user_bytes m a 0 = [].
Proof. done. Qed.

Lemma write_loop_appends s p x q buf dn count fuel :
  pipes (ks s) !! p = Some x -> pipe_holds x q -> mapped s buf count -> 0 <= dn <= count ->
  Z.of_nat (length q) + (count - dn) <= PIPE_BUF_SIZE -> count - dn <= Z.of_nat fuel ->
  exists x', pipe_write_loop p buf dn count fuel s = Some (count, with_pipe s p x')
    /\ pipe_holds x' (q ++ user_bytes (umem s) (buf + dn) (count - dn)) /\ p_refcount x' = p_refcount x.
Proof.
  assert (Hend : forall s x q, pipes (ks s) !! p = Some x -> pipe_holds x q ->
    exists x', mret_ count s = Some (count, with_pipe s p x')
      /\ pipe_holds x' (q ++ user_bytes (umem s) (buf + count) (count - count)) /\ p_refcount x' = p_refcount x).
  { intros s0 y r Hy Hr. exists y. rewrite with_pipe_id by done. rewrite Z.sub_diag, user_bytes_0, app_nil_r. done. }
  revert s x q dn. induction fuel as [|fuel IH]; intros s x q dn Hx Hq Hm Hd Hroom Hf; cbn [pipe_write_loop];
    (destruct (Z.leb_spec count dn) as [Hle|Hlt]; [assert (dn = count) as -> by lia; by apply Hend|]); [lia|].
  set (n := if count - dn <? TMP_SIZE then count - dn else TMP_SIZE).
  assert (Hn : 0 < n <= count - dn) by (unfold n, TMP_SIZE; ztest; lia).
  unfold mbind_. rewrite (from_user_mapped s buf count dn n) by (done || lia). unfold pipe_at at 1. rewrite Hx.
  set (tmp := user_bytes (umem s) (buf + dn) n). assert (Htl : Z.of_nat (length tmp) = n) by (unfold tmp; rewrite length_user_bytes; lia).
  destruct Hq as [Hq Ha]. destruct (put_bytes_holds x q tmp Hq) as (H1 & H2 & H3); [lia|].
  assert (Hq' : pipe_holds (add_avail (put_bytes x tmp) n) (q ++ tmp)).
  { destruct H1 as [B1 B2 B3 B4 B5]. split; [constructor; done|]. cbn. rewrite H2, Ha, length_app. lia. }
  destruct (IH (with_pipe s p (add_avail (put_bytes x tmp) n)) _ _ (dn + n) (lookup_insert_eq _ _ _) Hq') as (x' & Hrun & Hx' & Hrc);
    [done|lia|rewrite length_app; lia|lia|].
  exists x'. rewrite with_pipe_twice in Hrun. split; [exact Hrun|]. split; [|by rewrite Hrc].
  rewrite <- app_assoc in Hx'. cbn [umem with_pipe set_ks] in Hx'. unfold tmp in Hx'.
  rewrite Z.add_assoc, <- user_bytes_app in Hx' by lia. by replace (n + (count - (dn + n))) with (count - dn) in Hx' by lia.
Qed.

(** An open descriptor of a pipe. *)
Record pipe_fd (s : sys) (fd p : Z) (x : pipe) (tbl : list kfile) : Prop := {
  pf_table : get_fd_table s = Some (tbl, s);
  pf_ok : fd_ok fd = true;
  pf_type : f_type (fd_at tbl fd) = FD_TYPE_PIPE;
  pf_ptr : f_socket_ptr (fd_at tbl fd) = p;
  pf_null : p <> 0;
  pf_pipe : pipes (ks s) !! p = Some x
}.

Lemma write_pipe_spec s fd buf count p x q tbl :
  pipe_fd s fd p x tbl -> pipe_holds x q -> fd <> 1 -> fd <> 2 -> is_u64 buf -> 0 < count < 2 ^ 32 ->
  validate_user_pointer (user_vm s) buf count = 0 ->
  let n := Z.min count (PIPE_BUF_SIZE - Z.of_nat (length q)) in
  exists x', sys_write_pipe fd buf count s = Some (n, with_pipe s p x')
    /\ pipe_holds x' (q ++ take (Z.to_nat n) (user_bytes (umem s) buf count)) /\ p_refcount x' = p_refcount x.
Proof.
  intros [Ht Hok Hty Hp H0 Hx] Hq H1 H2 Hb Hc Hv n. pose proof Hq as [[_ _ Hroom _ _] Ha].
  pose proof (mapped_validate s buf count Hb ltac:(lia) Hv) as Hm.
  unfold sys_write_pipe, mbind_, mgets. rewrite Hv, andb_false_r.
  rewrite (proj2 (Z.eqb_neq fd 1) H1), (proj2 (Z.eqb_neq fd 2) H2). cbn [orb].
  rewrite Ht, Hok, Hty, Hp, (proj2 (Z.eqb_neq p 0) H0), Z.eqb_refl. cbn [negb]. unfold pipe_at at 1. rewrite Hx. cbv zeta.
  assert (Hn0 : 0 <= n <= count) by (unfold n; lia).
  assert (Htake : user_bytes (umem s) buf n = take (Z.to_nat n) (user_bytes (umem s) buf count)).
  { replace count with (n + (count - n)) by lia. rewrite user_bytes_app by lia.
    rewrite take_app_le, take_ge by (rewrite length_user_bytes; lia). done. }
  rewrite <- Htake. destruct (Z.eqb_spec (PIPE_BUF_SIZE - p_bytes_avail x) 0) as [Hz|Hz].
  { assert (n = 0) as -> by (unfold n; lia). exists x. rewrite with_pipe_id by done. rewrite user_bytes_0, app_nil_r. done. }
  assert (Hcnt : (if PIPE_BUF_SIZE - p_bytes_avail x <? count then PIPE_BUF_SIZE - p_bytes_avail x else count) = n).
  { unfold n. rewrite Ha. ztest; lia. }
  rewrite Hcnt. destruct (write_loop_appends s p x q buf 0 n (Z.to_nat n)) as (x' & Hrun & Hx' & Hrc); try done; try lia.
  - destruct Hm as (M1 & M2 & M3). unfold USER_ADDR_MAX in *. split; [done|]. split; [unfold USER_ADDR_MAX; lia|].
    intros a Ha'. apply M3. lia.
  - exists x'. split; [done|]. rewrite Z.add_0_r, Z.sub_0_r in Hx'. done.
Qed.

(** C23: a write to a pipe whose buffer is in user space appends the first bytes
    of the buffer, as many as there is room for, to the queue, and reports their
    number; it returns 0 only when the pipe is full.  Nothing but that pipe
    changes. *)
Theorem sys_write_pipe_appends s fd buf count p x q tbl :
  pipe_fd s fd p x tbl -> pipe_holds x q -> fd <> 1 -> fd <> 2 -> is_u64 buf -> 0 < count < 2 ^ 32 ->
  validate_user_pointer (user_vm s) buf count = 0 ->
  let n := Z.min count (PIPE_BUF_SIZE - Z.of_nat (length q)) in
  exists x', sys_write_pipe fd buf count s = Some (n, with_pipe s p x')
    /\ pipe_holds x' (q ++ take (Z.to_nat n) (user_bytes (umem s) buf count)) /\ p_refcount x' = p_refcount x.
Proof. apply write_pipe_spec. Qed.

(** ** Reading *)

Lemma mapped_shrink s buf n m : mapped s buf n -> m <= n -> mapped s buf m.
Proof.
  intros (H1 & H2 & H3) Hm. unfold USER_ADDR_MAX in *. split; [done|]. split; [unfold USER_ADDR_MAX; lia|].
  intros a Ha. apply H3. lia.
Qed.

Lemma read_loop_takes s p x q buf got n fuel :
  pipes (ks s) !! p = Some x -> pipe_holds x q -> mapped s buf n -> 0 <= got <= n ->
  n - got <= Z.of_nat (length q) -> n - got <= Z.of_nat fuel ->
  exists x', pipe_read_loop p buf got n fuel s
      = Some (n, set_umem (write_bytes (umem s) (buf + got) (take (Z.to_nat (n - got)) q)) (with_pipe s p x'))
    /\ pipe_holds x' (drop (Z.to_nat (n - got)) q) /\ p_refcount x' = p_refcount x.
Proof.
  assert (Hend : forall s x q, pipes (ks s) !! p = Some x -> pipe_holds x q ->
    exists x', mret_ n s = Some (n, set_umem (write_bytes (umem s) (buf + n) (take (Z.to_nat (n - n)) q)) (with_pipe s p x'))
      /\ pipe_holds x' (drop (Z.to_nat (n - n)) q) /\ p_refcount x' = p_refcount x).
  { intros s0 y r Hy Hr. exists y. rewrite with_pipe_id by done. rewrite Z.sub_diag. split; [|done].
    cbn [Z.to_nat take]. rewrite write_bytes_nil. by destruct s0. }
  revert s x q got. induction fuel as [|fuel IH]; intros s x q got Hx Hq Hm Hg Hl Hf; cbn [pipe_read_loop];
    (destruct (Z.leb_spec n got) as [Hle|Hlt]; [assert (got = n) as -> by lia; by apply Hend|]); [lia|].
  destruct Hq as [Hq Ha]. pose proof (rh_read _ _ Hq) as Hr.
  unfold mbind_ at 1. unfold pipe_at at 1. rewrite Hx. cbv zeta.
  set (c := if PIPE_BUF_SIZE - p_read_pos x <? n - got then PIPE_BUF_SIZE - p_read_pos x else n - got).
  assert (Hc : 0 < c <= n - got /\ p_read_pos x + c <= PIPE_BUF_SIZE) by (unfold c; ztest; lia).
  destruct (read_chunk x q c Hq) as [-> Hq']; [lia|lia|].
  assert (Htl : length (take (Z.to_nat c) q) = Z.to_nat c) by (rewrite length_take; lia).
  unfold mbind_ at 1. rewrite (to_user_mapped s buf n got); [|done|lia|intros E; rewrite E in Htl; simpl in Htl; lia|lia].
  change (0 <? 0) with false. cbv iota. unfold mbind_, put_pipe, mmodify.
  set (s1 := set_umem _ s).
  destruct (IH (with_pipe s1 p (after_read x c)) (after_read x c) (drop (Z.to_nat c) q) (got + c))
    as (x' & Hrun & Hx' & Hrc); [apply lookup_insert_eq| |done|lia|rewrite length_drop; lia|lia|].
  { split; [done|]. cbn. rewrite length_drop. lia. }
  assert (Hmem : write_bytes (umem s1) (buf + (got + c)) (take (Z.to_nat (n - (got + c))) (drop (Z.to_nat c) q))
                 = write_bytes (umem s) (buf + got) (take (Z.to_nat (n - got)) q)).
  { replace (buf + (got + c)) with (buf + got + Z.of_nat (length (take (Z.to_nat c) q))) by lia.
    cbn [umem set_umem s1]. rewrite write_bytes_app. f_equal. rewrite <- (take_drop (Z.to_nat c) (take (Z.to_nat (n - got)) q)).
    rewrite take_take, Nat.min_l, skipn_firstn_comm by lia. do 2 f_equal. lia. }
  exists x'. cbn [umem with_pipe set_ks] in Hrun. rewrite Hmem, with_pipe_twice in Hrun. rewrite drop_drop in Hx'.
  replace (Z.to_nat c + Z.to_nat (n - (got + c)))%nat with (Z.to_nat (n - got)) in Hx' by lia.
  split; [exact Hrun|by rewrite Hrc].
Qed.

(** [sys_read] on an open pipe, past its checks. *)
Lemma sys_read_pipe_open s fd buf count fuel p x tbl :
  pipe_fd s fd p x tbl -> (negb (count =? 0) && (validate_user_pointer (user_vm s) buf count <? 0))%bool = false ->
  sys_read_pipe fd buf count fuel s
  = (w <-- pipe_wait p fuel ;;
     match w with
     | PipeEof => mret_ (Some 0)
     | PipeWaiting => mret_ None
     | PipeReady =>
         x <-- pipe_at p ;;
         let to_read := if count <? p_bytes_avail x then count else p_bytes_avail x in
         r <-- pipe_read_loop p buf 0 to_read (Z.to_nat to_read) ;; mret_ (Some r)
     end) s.
Proof.
  intros [Ht Hok Hty Hp H0 Hx] Hv. unfold sys_read_pipe at 1. unfold mbind_ at 1, mgets. rewrite Hv.
  unfold mbind_ at 1. rewrite Ht, Hok, Hty, Hp, (proj2 (Z.eqb_neq p 0) H0), Z.eqb_refl. done.
Qed.

Lemma pipe_wait_ready s p x fuel :
  pipes (ks s) !! p = Some x -> p_bytes_avail x <> 0 -> pipe_wait p fuel s = Some (PipeReady, s).
Proof.
  intros Hx Ha. destruct fuel; cbn [pipe_wait]; unfold mbind_, pipe_at; rewrite Hx, (proj2 (Z.eqb_neq _ 0) Ha); done.
Qed.

Lemma read_pipe_spec s fd buf count p x q tbl fuel :
  pipe_fd s fd p x tbl -> pipe_holds x q -> q <> [] -> is_u64 buf -> 0 < count < 2 ^ 32 ->
  validate_user_pointer (user_vm s) buf count = 0 ->
  let n := Z.min count (Z.of_nat (length q)) in
  exists x', sys_read_pipe fd buf count fuel s
      = Some (Some n, set_umem (write_bytes (umem s) buf (take (Z.to_nat n) q)) (with_pipe s p x'))
    /\ pipe_holds x' (drop (Z.to_nat n) q) /\ p_refcount x' = p_refcount x.
Proof.
  intros Hfd Hq Hne Hb Hc Hv n. pose proof Hq as [_ Ha]. pose proof (pf_pipe _ _ _ _ _ Hfd) as Hx.
  assert (Hq0 : 0 < Z.of_nat (length q)) by (destruct q; [done|simpl; lia]).
  pose proof (mapped_shrink s buf count n (mapped_validate s buf count Hb ltac:(lia) Hv) ltac:(unfold n; lia)) as Hm.
  rewrite (sys_read_pipe_open s fd buf count fuel p x tbl Hfd) by (rewrite Hv; apply andb_false_r).
  unfold mbind_. rewrite (pipe_wait_ready s p x) by (done || lia). unfold pipe_at at 1. rewrite Hx. cbv zeta.
  assert (Hcnt : (if count <? p_bytes_avail x then count else p_bytes_avail x) = n) by (unfold n; ztest; lia).
  rewrite Hcnt. destruct (read_loop_takes s p x q buf 0 n (Z.to_nat n) Hx Hq Hm) as (x' & Hrun & Hx' & Hrc); try lia.
  exists x'. rewrite Hrun. rewrite Z.add_0_r, Z.sub_0_r in *. done.
Qed.

(** C24: reading from a pipe that holds bytes takes them from the front of the
    queue, as many as asked for and available, stores them in the user's buffer
    in order and reports their number.  Nothing but that buffer and the pipe
    changes. *)
Theorem sys_read_pipe_takes s fd buf count p x q tbl fuel :
  pipe_fd s fd p x tbl -> pipe_holds x q -> q <> [] -> is_u64 buf -> 0 < count < 2 ^ 32 ->
  validate_user_pointer (user_vm s) buf count = 0 ->
  let n := Z.min count (Z.of_nat (length q)) in
  exists x', sys_read_pipe fd buf count fuel s
      = Some (Some n, set_umem (write_bytes (umem s) buf (take (Z.to_nat n) q)) (with_pipe s p x'))
    /\ pipe_holds x' (drop (Z.to_nat n) q) /\ p_refcount x' = p_refcount x.
Proof. apply read_pipe_spec. Qed.

(** ** A pipe next to its end, and a page of user memory *)

Definition pipe_demo : pipe :=
  {| p_buffer := zeros 4096; p_read_pos := 4094; p_write_pos := 4094; p_bytes_avail := 0; p_refcount := 2 |}.
Definition fds_demo : list kfile :=
  <[4%nat := pipe_end 2 0x2000 kfile0]> (<[3%nat := pipe_end 1 0x2000 kfile0]> (replicate 32 kfile0)).
Definition sys_demo (x : pipe) : sys :=
  {| ks := set_pipes {[ 0x2000 := x ]} (set_vmst vm_demo_mapped sched_boot); fd_static := fds_demo;
     umem := list_to_map [(0x5000, 11); (0x5001, 22); (0x5002, 33)] |}.

Lemma sys_demo_fd x fd : fd = 3 \/ fd = 4 -> pipe_fd (sys_demo x) fd 0x2000 x fds_demo.
Proof. intros [-> | ->]; constructor; done. Qed.

Lemma pipe_demo_holds : pipe_holds pipe_demo [].
Proof. split; [|done]. constructor; try done. Qed.

Lemma sys_write_pipe_appends_witness :
  exists x', sys_write_pipe 4 0x5000 3 (sys_demo pipe_demo) = Some (3, with_pipe (sys_demo pipe_demo) 0x2000 x')
    /\ pipe_holds x' [11; 22; 33].
Proof.
  destruct (sys_write_pipe_appends (sys_demo pipe_demo) 4 0x5000 3 0x2000 pipe_demo [] fds_demo) as (x' & H1 & H2 & _).
  - apply sys_demo_fd. by right.
  - exact pipe_demo_holds.
  - lia.
  - lia.
  - by_compute.
  - lia.
  - vm_compute. reflexivity.
  - exists x'. split; [exact H1|]. revert H2. vm_compute user_bytes. done.
Defined.

Definition pipe_full_demo : pipe := add_avail (put_bytes pipe_demo [11; 22; 33]) 3.

Lemma pipe_full_demo_holds : pipe_holds pipe_full_demo [11; 22; 33].
Proof.
  destruct (put_bytes_holds pipe_demo [] [11; 22; 33] (proj1 pipe_demo_holds)) as ([B1 B2 B3 B4 B5] & _); [done|].
  split; [constructor; done|]. done.
Qed.

Lemma sys_read_pipe_takes_witness :
  exists x', sys_read_pipe 3 0x5100 2 0 (sys_demo pipe_full_demo)
      = Some (Some 2, set_umem (write_bytes (umem (sys_demo pipe_demo)) 0x5100 [11; 22]) (with_pipe (sys_demo pipe_full_demo) 0x2000 x'))
    /\ pipe_holds x' [33].
Proof.
  destruct (sys_read_pipe_takes (sys_demo pipe_full_demo) 3 0x5100 2 0x2000 pipe_full_demo [11; 22; 33] fds_demo 0)
    as (x' & H1 & H2 & _).
  - apply sys_demo_fd. by left.
  - exact pipe_full_demo_holds.
  - discriminate.
  - by_compute.
  - lia.
  - vm_compute. reflexivity.
  - exists x'. split; [exact H1|exact H2].
Defined.
