(* ===== verification/PipeRefs.v ===== *)
(** * Pipe descriptors and their reference counts

    A pipe is freed when its last descriptor is closed, and only then: the
    count in the pipe is the number of descriptors, in all tables, that point to
    it.  The invariant also carries the queue representation of [PipeFifo] and
    the heap, from which a new pipe takes a block of its own. *)

From Stdlib Require Import ZArith Lia.
From stdpp Require Import base numbers list gmap relations.
From S2P Require Import Prelude Pmm Kheap Vmm Usercopy Bytes Task TaskRing TaskSched TaskInv TaskStack Pipe PipeFifo.

(** ** Counting references *)

Definition points_to (p : Z) (f : kfile) : bool := ((f_type f =? FD_TYPE_PIPE) && (f_socket_ptr f =? p))%bool.

Fixpoint refs_in (p : Z) (tbl : list kfile) : Z :=
  match tbl with [] => 0 | f :: tbl' => Z.b2z (points_to p f) + refs_in p tbl' end.

Definition task_refs (p : Z) (m : gmap Z task) : Z := map_fold (fun _ t n => refs_in p (t_fds t) + n) 0 m.

(** The descriptors of all tasks, and of the kernel, that point to [p]. *)
Definition refs (p : Z) (s : sys) : Z := refs_in p (fd_static s) + task_refs p (tasks (ks s)).

Lemma b2z_range b : 0 <= Z.b2z b <= 1.
Proof. destruct b; simpl; lia. Qed.

Lemma refs_in_nonneg p tbl : 0 <= refs_in p tbl.
Proof. induction tbl as [|f tbl IH]; simpl; [done|]. pose proof (b2z_range (points_to p f)). lia. Qed.

Lemma refs_in_set p tbl fd f :
  0 <= fd < Z.of_nat (length tbl) ->
  refs_in p (fd_set tbl fd f) = refs_in p tbl - Z.b2z (points_to p (fd_at tbl fd)) + Z.b2z (points_to p f).
Proof.
  intros Hfd. unfold fd_set, fd_at. assert (Hlt : (Z.to_nat fd < length tbl)%nat) by lia. clear Hfd.
  revert Hlt. generalize (Z.to_nat fd) as i. induction tbl as [|g tbl IH]; intros i Hi; [simpl in Hi; lia|].
  destruct i as [|i]; simpl; [lia|]. simpl in Hi. rewrite IH by lia. lia.
Qed.

Lemma refs_in_at p tbl fd : 0 <= fd < Z.of_nat (length tbl) -> points_to p (fd_at tbl fd) = true -> 0 < refs_in p tbl.
Proof.
  unfold fd_at. intros Hfd. assert (Hlt : (Z.to_nat fd < length tbl)%nat) by lia. revert Hlt. clear Hfd.
  generalize (Z.to_nat fd) as i. induction tbl as [|g tbl IH]; intros i Hi Hp; [simpl in Hi; lia|].
  pose proof (refs_in_nonneg p tbl). pose proof (b2z_range (points_to p g)). destruct i as [|i]; simpl in *.
  - rewrite Hp. simpl. lia.
  - specialize (IH i ltac:(lia) Hp). lia.
Qed.

Lemma task_refs_delete p m c t :
  m !! c = Some t -> task_refs p m = refs_in p (t_fds t) + task_refs p (delete c m).
Proof. intros H. unfold task_refs. rewrite (map_fold_delete_L _ _ c t m); [done| |done]. intros. lia. Qed.

Lemma task_refs_insert p m c t t' :
  m !! c = Some t -> task_refs p (<[c := t']> m) = task_refs p m - refs_in p (t_fds t) + refs_in p (t_fds t').
Proof.
  intros H. rewrite (task_refs_delete p m c t) by done.
  rewrite (task_refs_delete p (<[c := t']> m) c t'), delete_insert_eq by apply lookup_insert_eq. lia.
Qed.

Lemma task_refs_nonneg p m : 0 <= task_refs p m.
Proof.
  unfold task_refs. apply (map_fold_weak_ind (fun r _ => 0 <= r)); [done|]. intros c t m' r _ Hr.
  pose proof (refs_in_nonneg p (t_fds t)). lia.
Qed.

(** ** The table of the running task *)

Definition table_of (s : sys) : list kfile :=
  if current_task (ks s) =? 0 then fd_static s
  else match tasks (ks s) !! current_task (ks s) with Some t => t_fds t | None => [] end.

Definition has_table (s : sys) : Prop := current_task (ks s) = 0 \/ is_Some (tasks (ks s) !! current_task (ks s)).

Definition with_table (tbl : list kfile) (s : sys) : sys :=
  if current_task (ks s) =? 0 then set_fd_static tbl s
  else match tasks (ks s) !! current_task (ks s) with
       | Some t => set_ks (set_tasks (<[current_task (ks s) := with_fds tbl t]> (tasks (ks s))) (ks s)) s
       | None => s
       end.

Lemma get_fd_table_run s : has_table s -> get_fd_table s = Some (table_of s, s).
Proof.
  unfold has_table, get_fd_table, table_of. intros [->|[t Ht]]; [done|]. destruct (_ =? 0); [done|]. by rewrite Ht.
Qed.

Lemma set_fd_table_run s tbl : has_table s -> set_fd_table tbl s = Some (tt, with_table tbl s).
Proof.
  unfold has_table, set_fd_table, with_table. intros [->|[t Ht]]; [done|]. destruct (_ =? 0); [done|].
  unfold in_sched, upd. by rewrite Ht.
Qed.

(** Only the descriptors change. *)
Lemma with_table_rest s tbl :
  pipes (ks (with_table tbl s)) = pipes (ks s) /\ vmst (ks (with_table tbl s)) = vmst (ks s)
  /\ current_task (ks (with_table tbl s)) = current_task (ks s) /\ umem (with_table tbl s) = umem s.
Proof. unfold with_table. destruct (_ =? 0); [done|]. by destruct (tasks _ !! _). Qed.

Lemma has_table_with s tbl : has_table s -> has_table (with_table tbl s).
Proof.
  intros H. unfold has_table. destruct (with_table_rest s tbl) as (_ & _ & -> & _). destruct H as [H|[t Ht]]; [by left|].
  right. unfold with_table. destruct (_ =? 0); [by exists t|]. rewrite Ht. cbn. rewrite lookup_insert_eq. by eexists.
Qed.

Lemma table_of_with s tbl : has_table s -> table_of (with_table tbl s) = tbl.
Proof.
  intros H. unfold table_of. destruct (with_table_rest s tbl) as (_ & _ & -> & _). unfold with_table.
  destruct (Z.eqb_spec (current_task (ks s)) 0) as [E|E]; [done|]. destruct H as [H|[t Ht]]; [done|].
  rewrite Ht. cbn. by rewrite lookup_insert_eq.
Qed.

Lemma refs_with p s tbl : has_table s -> refs p (with_table tbl s) = refs p s - refs_in p (table_of s) + refs_in p tbl.
Proof.
  unfold refs, table_of, with_table, has_table. intros H.
  destruct (Z.eqb_spec (current_task (ks s)) 0) as [E|E]; [cbn; lia|]. destruct H as [H|[t Ht]]; [done|].
  rewrite Ht. cbn. rewrite (task_refs_insert p _ _ t) by done. cbn. lia.
Qed.

Lemma refs_table p s : has_table s -> refs_in p (table_of s) <= refs p s.
Proof.
  unfold refs, table_of, has_table. intros H. pose proof (task_refs_nonneg p (tasks (ks s))).
  pose proof (refs_in_nonneg p (fd_static s)). destruct (Z.eqb_spec (current_task (ks s)) 0) as [E|E]; [lia|].
  destruct H as [H'|[t Ht]]; [done|]. rewrite Ht. rewrite (task_refs_delete p _ _ t Ht).
  pose proof (task_refs_nonneg p (delete (current_task (ks s)) (tasks (ks s)))). lia.
Qed.

(** ** The invariant *)

(** [n] descriptors point to [p]. *)
Definition pipe_ok (o : option pipe) (n : Z) : Prop :=
  match o with
  | Some x => p_refcount x = n /\ 0 < n /\ exists q, pipe_holds x q
  | None => n = 0
  end.

Definition pipes_in_heap (k : sched) : Prop :=
  exists free live, heap_inv (heap k) free live /\ forall p, is_Some (pipes k !! p) -> p - HEADER_SIZE ∈ live.

Record pipes_inv (s : sys) : Prop := {
  pi_table : has_table s;
  pi_len : length (table_of s) = 32%nat;
  pi_pipe : forall p, pipe_ok (pipes (ks s) !! p) (refs p s);
  pi_heap : pipes_in_heap (ks s)
}.

Definition same_fds (s s1 : sys) : Prop :=
  fd_static s1 = fd_static s /\ tasks (ks s1) = tasks (ks s) /\ current_task (ks s1) = current_task (ks s).

Lemma same_fds_facts s s1 :
  same_fds s s1 -> table_of s1 = table_of s /\ (forall p, refs p s1 = refs p s) /\ (has_table s -> has_table s1).
Proof. intros (H1 & H2 & H3). unfold table_of, refs, has_table. by rewrite H1, H2, H3. Qed.

(** A change of pipes and heap, then of the table. *)
Lemma inv_change s s1 tbl :
  pipes_inv s -> same_fds s s1 -> length tbl = 32%nat ->
  (forall p, pipe_ok (pipes (ks s1) !! p) (refs p s - refs_in p (table_of s) + refs_in p tbl)) ->
  pipes_in_heap (ks s1) -> pipes_inv (with_table tbl s1).
Proof.
  intros [Ht Hl Hp Hh] Hf Hl' Hp' Hh'. destruct (same_fds_facts s s1 Hf) as (Htb & Hr & Ht1). specialize (Ht1 Ht).
  destruct (with_table_rest s1 tbl) as (E1 & E2 & _ & _). constructor.
  - by apply has_table_with.
  - by rewrite table_of_with.
  - intros p. rewrite E1, refs_with, Htb, Hr by done. apply Hp'.
  - unfold pipes_in_heap, heap. rewrite E1, E2. exact Hh'.
Qed.

(** A change of pipes, heap or user memory only. *)
Lemma inv_pipes s s1 :
  pipes_inv s -> same_fds s s1 -> (forall p, pipe_ok (pipes (ks s1) !! p) (refs p s)) -> pipes_in_heap (ks s1) ->
  pipes_inv s1.
Proof.
  intros [Ht Hl Hp Hh] Hf Hp' Hh'. destruct (same_fds_facts s s1 Hf) as (Htb & Hr & Ht1).
  constructor; [by apply Ht1|by rewrite Htb| |done]. intros p. rewrite Hr. apply Hp'.
Qed.

Lemma fd_ok_range s fd : pipes_inv s -> fd_ok fd = true -> 0 <= fd < Z.of_nat (length (table_of s)).
Proof. intros H Hfd. rewrite (pi_len _ H). unfold fd_ok in Hfd. zbool. lia. Qed.

Lemma null_not_pipe s : pipes_inv s -> pipes (ks s) !! 0 = None.
Proof.
  intros [_ _ _ (free & live & Hh & Hl)]. apply eq_None_not_Some. intros H0. specialize (Hl 0 H0).
  destruct (bo_in _ _ (hi_blocks _ _ _ Hh) (0 - HEADER_SIZE)) as [Hb _]; [apply elem_of_app; by right|].
  pose proof (hi_bounds _ _ _ Hh). unfold HEADER_SIZE in *. lia.
Qed.

(** An open pipe descriptor points to a live pipe, which counts it. *)
Lemma open_pipe s fd :
  pipes_inv s -> fd_ok fd = true -> f_type (fd_at (table_of s) fd) = FD_TYPE_PIPE ->
  let p := f_socket_ptr (fd_at (table_of s) fd) in
  p <> 0 /\ exists x, pipes (ks s) !! p = Some x /\ p_refcount x = refs p s /\ 0 < refs p s /\ exists q, pipe_holds x q.
Proof.
  intros H Hfd Hty p. assert (Hp : points_to p (fd_at (table_of s) fd) = true).
  { unfold points_to. by rewrite Hty, !Z.eqb_refl. }
  pose proof (refs_in_at p _ fd (fd_ok_range s fd H Hfd) Hp). pose proof (refs_table p s (pi_table _ H)).
  pose proof (pi_pipe _ H p) as Hx. destruct (pipes (ks s) !! p) as [x|] eqn:E; simpl in Hx; [|lia].
  split; [|by exists x]. intros ->. by rewrite (null_not_pipe s H) in E.
Qed.

(** ** Closing *)

Lemma points_to_free p f : points_to p (with_type FD_TYPE_FREE f) = false.
Proof. done. Qed.

Lemma points_to_other p f : f_type f <> FD_TYPE_PIPE -> points_to p f = false.
Proof. intros H. unfold points_to. by rewrite (proj2 (Z.eqb_neq _ _) H). Qed.

Lemma points_to_ne p f : f_socket_ptr f <> p -> points_to p f = false.
Proof. intros H. unfold points_to. by rewrite (proj2 (Z.eqb_neq _ _) H), andb_false_r. Qed.

Lemma points_to_self f : f_type f = FD_TYPE_PIPE -> points_to (f_socket_ptr f) f = true.
Proof. intros H. unfold points_to. by rewrite H, !Z.eqb_refl. Qed.

Definition with_ref (s : sys) (p n : Z) : sys :=
  match pipes (ks s) !! p with Some x => with_pipe s p (pipe_ref x n) | None => s end.

Definition freed_pipe (s : sys) (p : Z) : sys :=
  set_ks (set_pipes (delete p (pipes (ks s))) (set_vmst (set_vheap (vmst (ks s)) (kfree (heap (ks s)) p)) (ks s))) s.

Lemma pipe_holds_ref x q n : pipe_holds x q -> pipe_holds (pipe_ref x n) q.
Proof. intros [[] ?]. split; [constructor|]; done. Qed.

Lemma heap_with_pipe s p x y : pipes (ks s) !! p = Some y -> pipes_in_heap (ks s) -> pipes_in_heap (ks (with_pipe s p x)).
Proof.
  intros Hp (free & live & Hh & Hl). exists free, live. split; [exact Hh|]. intros p' Hp'. apply Hl. cbn in Hp'.
  destruct (decide (p' = p)) as [->|Hne]; [by rewrite Hp|]. by rewrite lookup_insert_ne in Hp' by done.
Qed.

Lemma heap_freed_pipe s p : is_Some (pipes (ks s) !! p) -> pipes_in_heap (ks s) -> pipes_in_heap (ks (freed_pipe s p)).
Proof.
  intros Hp (free & live & Hh & Hl). destruct (list_elem_of_split _ _ (Hl p Hp)) as (l1 & l2 & ->).
  destruct (heap_inv_kfree _ free l1 (p - HEADER_SIZE) l2 Hh) as [Hh' _].
  replace (p - HEADER_SIZE + HEADER_SIZE) with p in Hh' by lia. exists (p - HEADER_SIZE :: free), (l1 ++ l2).
  split; [exact Hh'|]. intros p' Hp'. cbn in Hp'. rewrite lookup_delete_is_Some in Hp'. destruct Hp' as [Hne Hp'].
  specialize (Hl p' Hp'). rewrite elem_of_app, elem_of_cons in Hl. rewrite elem_of_app.
  destruct Hl as [Hl|[Hl|Hl]]; [by left| |by right]. exfalso. apply Hne. lia.
Qed.

(** What [sys_close] leaves of the pipe [p], one of whose descriptors goes. *)
Definition dropped (s : sys) (p : Z) : sys :=
  if refs p s - 1 <=? 0 then freed_pipe s p else with_ref s p (refs p s - 1).

Lemma sys_close_run s fd :
  pipes_inv s -> fd_ok fd = true ->
  let f := fd_at (table_of s) fd in
  sys_close fd s = Some (0, with_table (fd_set (table_of s) fd (with_type FD_TYPE_FREE f))
                              (if f_type f =? FD_TYPE_PIPE then dropped s (f_socket_ptr f) else s)).
Proof.
  intros H Hfd f. unfold sys_close, mbind_ at 1. rewrite get_fd_table_run by apply H. rewrite Hfd. cbn [negb]. fold f. cbv zeta.
  destruct (Z.eqb_spec (f_type f) FD_TYPE_PIPE) as [Hty|Hty]; cbn [mwhen].
  - destruct (open_pipe s fd H Hfd Hty) as (H0 & x & Hx & Hr & Hpos & _). fold f in H0, Hx, Hr, Hpos.
    rewrite (proj2 (Z.eqb_neq _ 0) H0). cbn [negb mwhen]. unfold dropped, with_ref.
    assert (Hpa : pipe_at (f_socket_ptr f) s = Some (x, s)) by (unfold pipe_at; by rewrite Hx).
    unfold mbind_. rewrite Hpa, Hx, Hr. unfold put_pipe, mmodify. cbv beta iota.
    destruct (refs (f_socket_ptr f) s - 1 <=? 0); cbn [mwhen].
    + unfold free_pipe, in_sched, in_vm, call_kfree, mbind_, mmodify. cbn [ks set_ks vmst set_pipes pipes set_vmst].
      rewrite set_fd_table_run; [|destruct (pi_table _ H); [by left|by right]]. rewrite delete_insert_eq. done.
    + unfold mret_. rewrite set_fd_table_run; [done|]. destruct (pi_table _ H); [by left|by right].
  - unfold mbind_, mret_. rewrite set_fd_table_run by apply H. done.
Qed.

Lemma sys_close_inv s fd :
  pipes_inv s -> fd_ok fd = true ->
  let f := fd_at (table_of s) fd in
  pipes_inv (with_table (fd_set (table_of s) fd (with_type FD_TYPE_FREE f))
               (if f_type f =? FD_TYPE_PIPE then dropped s (f_socket_ptr f) else s)).
Proof.
  intros H Hfd f. pose proof (fd_ok_range s fd H Hfd) as Hrg. pose proof (pi_len _ H) as Hlen.
  assert (Hl : length (fd_set (table_of s) fd (with_type FD_TYPE_FREE f)) = 32%nat)
    by (unfold fd_set; by rewrite length_insert).
  destruct (Z.eqb_spec (f_type f) FD_TYPE_PIPE) as [Hty|Hty].
  - destruct (open_pipe s fd H Hfd Hty) as (H0 & x & Hx & Hr & Hpos & q & Hq). fold f in H0, Hx, Hr, Hpos.
    set (p := f_socket_ptr f) in *. unfold dropped, with_ref. rewrite Hx.
    assert (Hrefs : forall p', refs p' s - refs_in p' (table_of s) + refs_in p' (fd_set (table_of s) fd (with_type FD_TYPE_FREE f))
                              = refs p' s - Z.b2z (points_to p' f)).
    { intros p'. rewrite refs_in_set, points_to_free by done. fold f. simpl Z.b2z. lia. }
    apply (inv_change s); [done| |done| |].
    + by destruct (_ <=? 0).
    + intros p'. rewrite Hrefs. destruct (decide (p' = p)) as [->|Hne].
      * unfold p. rewrite points_to_self by done. fold p. simpl Z.b2z. destruct (Z.leb_spec (refs p s - 1) 0); cbn.
        -- rewrite lookup_delete_eq. cbn. lia.
        -- rewrite lookup_insert_eq. cbn. split_and!; [done|lia|]. exists q. by apply pipe_holds_ref.
      * rewrite points_to_ne by (unfold p in Hne; congruence). simpl Z.b2z. rewrite Z.sub_0_r. pose proof (pi_pipe _ H p').
        destruct (_ <=? 0); cbn; by rewrite ?lookup_delete_ne, ?lookup_insert_ne by done.
    + destruct (_ <=? 0); [apply heap_freed_pipe|eapply heap_with_pipe]; eauto; apply H.
  - apply (inv_change s); [done|done|done| |apply H]. intros p'. rewrite refs_in_set, points_to_free by done. fold f.
    rewrite points_to_other by done. simpl Z.b2z. pose proof (pi_pipe _ H p') as Hp.
    by replace (refs p' s - refs_in p' (table_of s) + (refs_in p' (table_of s) - 0 + 0)) with (refs p' s) by lia.
Qed.

(** ** Duplicating *)

Lemma with_table_pipe s tbl p x : with_pipe (with_table tbl s) p x = with_table tbl (with_pipe s p x).
Proof. unfold with_table, with_pipe. cbn. destruct (_ =? 0); [done|]. by destruct (tasks _ !! _). Qed.

Lemma fd_at_set tbl fd f : 0 <= fd < Z.of_nat (length tbl) -> fd_at (fd_set tbl fd f) fd = f.
Proof. intros H. unfold fd_at, fd_set. by rewrite list_lookup_insert_eq by lia. Qed.

Lemma fd_at_set_ne tbl fd fd' f : 0 <= fd -> 0 <= fd' -> fd <> fd' -> fd_at (fd_set tbl fd f) fd' = fd_at tbl fd'.
Proof. intros H H' Hne. unfold fd_at, fd_set. by rewrite list_lookup_insert_ne by lia. Qed.

(** A copy of the descriptor [g] in a slot that holds no pipe. *)
Lemma install_run s i old :
  pipes_inv s -> fd_ok i = true -> fd_ok old = true -> f_type (fd_at (table_of s) i) <> FD_TYPE_PIPE ->
  exists s', (set_fd_table (fd_set (table_of s) i (fd_at (table_of s) old)) ;;; pipe_add_ref i) s = Some (tt, s') /\ pipes_inv s'.
Proof.
  intros H Hi Ho Hty. set (g := fd_at (table_of s) old). set (tbl := fd_set (table_of s) i g).
  pose proof (fd_ok_range s i H Hi) as Hrg. pose proof (pi_len _ H) as Hlen.
  assert (Hl : length tbl = 32%nat) by (unfold tbl, fd_set; by rewrite length_insert).
  assert (Hrefs : forall p, refs p s - refs_in p (table_of s) + refs_in p tbl = refs p s + Z.b2z (points_to p g)).
  { intros p. unfold tbl. rewrite refs_in_set, (points_to_other p (fd_at _ i)) by done. simpl (Z.b2z false). lia. }
  unfold mbind_. rewrite set_fd_table_run by apply H. unfold pipe_add_ref, mbind_.
  rewrite get_fd_table_run by (apply has_table_with, H). rewrite table_of_with by apply H.
  assert (Hat : fd_at tbl i = g) by (by apply fd_at_set). rewrite Hi, Hat. cbn [andb]. destruct (Z.eqb_spec (f_type g) FD_TYPE_PIPE) as [Hg|Hg]; cbn [mwhen].
  - destruct (open_pipe s old H Ho Hg) as (H0 & x & Hx & Hr & Hpos & q & Hq). fold g in H0, Hx, Hr, Hpos.
    set (p := f_socket_ptr g) in *. rewrite (proj2 (Z.eqb_neq p 0) H0). cbn [negb mwhen].
    unfold pipe_at. destruct (with_table_rest s tbl) as (E1 & _). rewrite E1, Hx. unfold put_pipe, mmodify. rewrite E1.
    eexists. split; [reflexivity|]. replace (set_ks _ _) with (with_pipe (with_table tbl s) p (pipe_ref x (p_refcount x + 1)))
      by (unfold with_pipe; by rewrite E1).
    rewrite with_table_pipe. apply (inv_change s); [done|done|done| |by eapply heap_with_pipe; [|apply H]].
    intros p'. rewrite Hrefs. cbn. destruct (decide (p' = p)) as [->|Hne].
    + unfold p. rewrite points_to_self by done. fold p. simpl Z.b2z. rewrite lookup_insert_eq. cbn. split_and!; [lia|lia|].
      exists q. by apply pipe_holds_ref.
    + rewrite points_to_ne by (unfold p in Hne; congruence). simpl Z.b2z. rewrite Z.add_0_r, lookup_insert_ne by done. apply H.
  - eexists. split; [reflexivity|]. apply (inv_change s); [done|done|done| |apply H]. intros p'. rewrite Hrefs, points_to_other by done.
    simpl Z.b2z. rewrite Z.add_0_r. apply H.
Qed.

Lemma first_free_spec tbl from n :
  0 <= from ->
  first_free tbl from n = -1
  \/ (from <= first_free tbl from n < from + Z.of_nat n /\ f_type (fd_at tbl (first_free tbl from n)) = FD_TYPE_FREE).
Proof.
  revert from. induction n as [|n IH]; intros from Hf; cbn [first_free]; [by left|].
  destruct (Z.eqb_spec (f_type (fd_at tbl from)) FD_TYPE_FREE) as [E|E]; [right; split; [lia|done]|].
  destruct (IH (from + 1)) as [->|[H1 H2]]; [lia|by left|]. right. split; [lia|done].
Qed.

Lemma free_fd_spec tbl from :
  0 <= from <= 32 ->
  free_fd tbl from = -1
  \/ (from <= free_fd tbl from < 32 /\ fd_ok (free_fd tbl from) = true /\ f_type (fd_at tbl (free_fd tbl from)) = FD_TYPE_FREE).
Proof.
  intros Hf. unfold free_fd. destruct (first_free_spec tbl from (Z.to_nat (32 - from))) as [H|[H1 H2]]; [lia|by left|].
  right. split; [lia|]. split; [|done]. unfold fd_ok. apply andb_true_iff. split; [apply Z.leb_le|apply Z.ltb_lt]; lia.
Qed.

Lemma sys_dup_inv s old : pipes_inv s -> exists r s', sys_dup old s = Some (r, s') /\ pipes_inv s'.
Proof.
  intros H. unfold sys_dup, mbind_ at 1. rewrite get_fd_table_run by apply H.
  destruct (negb (fd_ok old) || (f_type (fd_at (table_of s) old) =? FD_TYPE_FREE))%bool eqn:E; [by eexists _, s|].
  apply orb_false_iff in E as [E _]. apply negb_false_iff in E. cbv zeta.
  destruct (free_fd_spec (table_of s) 3) as [->|(H1 & H2 & H3)]; [lia|by eexists _, s|].
  rewrite (proj2 (Z.eqb_neq _ (-1))) by lia.
  destruct (install_run s (free_fd (table_of s) 3) old H H2 E) as (s' & Hrun & Hs'); [by rewrite H3|].
  exists (free_fd (table_of s) 3), s'. split; [|done]. revert Hrun. unfold mbind_.
  destruct (set_fd_table _ s) as [[[] s1]|]; [|done]. intros ->. done.
Qed.

Lemma sys_close_any s fd : pipes_inv s -> exists r s', sys_close fd s = Some (r, s') /\ pipes_inv s'.
Proof.
  intros H. destruct (fd_ok fd) eqn:Hfd.
  - rewrite (sys_close_run s fd H Hfd). eexists _, _. split; [reflexivity|by apply sys_close_inv].
  - unfold sys_close, mbind_. rewrite get_fd_table_run by apply H. rewrite Hfd. by eexists _, s.
Qed.

Lemma table_closed s fd :
  pipes_inv s -> fd_ok fd = true ->
  let f := fd_at (table_of s) fd in
  table_of (with_table (fd_set (table_of s) fd (with_type FD_TYPE_FREE f))
              (if f_type f =? FD_TYPE_PIPE then dropped s (f_socket_ptr f) else s))
  = fd_set (table_of s) fd (with_type FD_TYPE_FREE f).
Proof.
  intros H Hfd f. apply table_of_with. destruct (pi_table _ H) as [H'|H']; unfold has_table, dropped, with_ref.
  - left. destruct (_ =? _); [|done]. destruct (_ <=? _); [done|]. by destruct (pipes _ !! _).
  - right. destruct (_ =? _); [|done]. destruct (_ <=? _); [done|]. by destruct (pipes _ !! _).
Qed.

Lemma sys_dup2_inv s old new : pipes_inv s -> exists r s', sys_dup2 old new s = Some (r, s') /\ pipes_inv s'.
Proof.
  intros H. unfold sys_dup2, mbind_ at 1. rewrite get_fd_table_run by apply H.
  destruct (fd_ok old) eqn:Ho; [|by eexists _, s]. destruct (fd_ok new) eqn:Hn; [|by eexists _, s]. cbn [negb orb].
  destruct (_ =? FD_TYPE_FREE); [by eexists _, s|]. destruct (Z.eqb_spec new old) as [Heq|Hne]; [by eexists _, s|].
  set (s1 := if f_type (fd_at (table_of s) new) =? FD_TYPE_FREE then s else
             with_table (fd_set (table_of s) new (with_type FD_TYPE_FREE (fd_at (table_of s) new)))
              (if f_type (fd_at (table_of s) new) =? FD_TYPE_PIPE then dropped s (f_socket_ptr (fd_at (table_of s) new)) else s)).
  assert (H1 : mwhen (negb (f_type (fd_at (table_of s) new) =? FD_TYPE_FREE)) (sys_close new ;;; mret_ tt) s = Some (tt, s1)
    /\ pipes_inv s1 /\ f_type (fd_at (table_of s1) new) = FD_TYPE_FREE).
  { unfold s1. destruct (Z.eqb_spec (f_type (fd_at (table_of s) new)) FD_TYPE_FREE) as [E|E]; cbn [negb mwhen]; [done|].
    unfold mbind_. rewrite (sys_close_run s new H Hn). split; [done|]. split; [by apply sys_close_inv|].
    rewrite table_closed by done. by rewrite fd_at_set by (by apply fd_ok_range). }
  destruct H1 as (E1 & H1 & H2). destruct (install_run s1 new old H1 Hn Ho) as (s' & Hrun & Hs'); [by rewrite H2|].
  exists new, s'. split; [|done]. revert Hrun. unfold mbind_ in E1 |- *. rewrite E1, get_fd_table_run by apply H1.
  destruct (set_fd_table _ s1) as [[[] s2]|]; [|done]. intros ->. done.
Qed.

(** ** Creating *)

Lemma validate_heap v h ptr n : validate_user_pointer (set_vheap v h) ptr n = validate_user_pointer v ptr n.
Proof.
  assert (Hp : forall k page, validate_pages (set_vheap v h) page k = validate_pages v page k).
  { induction k as [|k IH]; intros page; cbn [validate_pages]; [done|]. rewrite IH. done. }
  unfold validate_user_pointer. rewrite Hp. done.
Qed.

Lemma with_table_umem s tbl u : set_umem u (with_table tbl s) = with_table tbl (set_umem u s).
Proof. unfold with_table. cbn. destruct (_ =? 0); [done|]. by destruct (tasks _ !! _). Qed.

Lemma new_pipe_holds : pipe_holds new_pipe [].
Proof. split; [|done]. by constructor. Qed.

(** The state after [kmalloc] and the initialisation of the block. *)
Lemma fresh_pipe s p k :
  pipes_inv s -> in_vm (call_kmalloc SIZEOF_PIPE) (ks s) = Some (p, k) ->
  let s1 := with_pipe (set_ks k s) p new_pipe in
  refs p s = 0 /\ pipes (ks s) !! p = None /\ same_fds s s1 /\ pipes (ks s1) = <[p := new_pipe]> (pipes (ks s))
  /\ pipes_in_heap (ks s1) /\ exists h, user_vm s1 = set_vheap (user_vm s) h.
Proof.
  intros H E s1. destruct (pi_heap _ H) as (free & live & Hh & Hl).
  destruct (task_kmalloc (ks s) free live SIZEOF_PIPE p k Hh ltac:(done) ltac:(done) E) as [(h & ->) (free' & Hh') _ _ Hfr].
  assert (Hnone : pipes (ks s) !! p = None) by (apply eq_None_not_Some; intros Hs; by apply Hfr, Hl).
  pose proof (pi_pipe _ H p) as Hp. rewrite Hnone in Hp. split_and!; [exact Hp|done|done|done| |by exists h].
  exists free', ((p - HEADER_SIZE) :: live). split; [exact Hh'|]. intros p' Hp'. cbn in Hp'.
  destruct (decide (p' = p)) as [->|Hne]; [apply list_elem_of_here|]. rewrite lookup_insert_ne in Hp' by done.
  apply list_elem_of_further. by apply Hl.
Qed.

(** The table with the two ends of [p] in the slots [rfd] and [wfd]. *)
Definition two_ends (tbl : list kfile) (rfd wfd p : Z) : list kfile :=
  let tbl1 := fd_set tbl rfd (pipe_end 1 p (fd_at tbl rfd)) in
  fd_set tbl1 wfd (pipe_end 2 p (fd_at tbl1 wfd)).

Lemma two_ends_inv s s1 rfd wfd p :
  pipes_inv s -> same_fds s s1 -> pipes (ks s1) = <[p := new_pipe]> (pipes (ks s)) -> refs p s = 0 -> pipes_in_heap (ks s1) ->
  0 <= rfd -> rfd < wfd < 32 -> f_type (fd_at (table_of s) rfd) = FD_TYPE_FREE ->
  f_type (fd_at (table_of s) wfd) = FD_TYPE_FREE -> pipes_inv (with_table (two_ends (table_of s) rfd wfd p) s1).
Proof.
  intros H Hf Hpp H0 Hh Hr Hw R3 W3. pose proof (pi_len _ H) as Hlen. set (tbl := table_of s) in *.
  assert (Hl1 : length (fd_set tbl rfd (pipe_end 1 p (fd_at tbl rfd))) = 32%nat) by (unfold fd_set; by rewrite length_insert).
  apply (inv_change s); [done|exact Hf|unfold two_ends, fd_set at 1; by rewrite length_insert| |exact Hh].
  intros p'. rewrite Hpp. fold tbl. unfold two_ends. rewrite refs_in_set, refs_in_set, fd_at_set_ne by lia.
  rewrite !(points_to_other p' (fd_at tbl _)) by (by rewrite ?R3, ?W3). simpl (Z.b2z false).
  destruct (decide (p' = p)) as [->|Hne].
  - assert (Hpt : forall b f, points_to p (pipe_end b p f) = true) by (intros; unfold points_to; cbn; by rewrite Z.eqb_refl).
    rewrite lookup_insert_eq, !Hpt. simpl (Z.b2z true). rewrite H0. cbn. split_and!; [lia|lia|]. exists []. exact new_pipe_holds.
  - rewrite lookup_insert_ne by done. rewrite !points_to_ne by (cbn; congruence). simpl (Z.b2z false).
    replace (refs p' s - refs_in p' tbl + _) with (refs p' s) by lia. apply H.
Qed.

Lemma copy_fds s1 v h tbl a rfd wfd :
  user_vm s1 = set_vheap v h -> (validate_user_pointer v a 8 <? 0) = false ->
  to_user a (le_bytes 4 rfd ++ le_bytes 4 wfd) (with_table tbl s1)
  = Some (0, with_table tbl (set_umem (write_bytes (umem s1) a (le_bytes 4 rfd ++ le_bytes 4 wfd)) s1)).
Proof.
  intros Hvm Ev. destruct (with_table_rest s1 tbl) as (_ & Ev2 & _ & Eu2). unfold to_user, copy_to_user.
  rewrite length_app, !length_le_bytes by lia. change (Z.of_nat (Z.to_nat 4 + Z.to_nat 4)) with 8. cbn [Z.eqb].
  replace (user_vm (with_table tbl s1)) with (user_vm s1) by (unfold user_vm; by rewrite Ev2).
  rewrite Hvm, validate_heap, Ev, Eu2. by rewrite with_table_umem.
Qed.

Lemma sys_pipe_inv s a r s' : pipes_inv s -> sys_pipe a s = Some (r, s') -> pipes_inv s'.
Proof.
  intros H. unfold sys_pipe. destruct (a =? 0); [by intros [= _ <-]|]. unfold mbind_ at 1, mgets.
  destruct (validate_user_pointer (user_vm s) a 8 <? 0) eqn:Ev; [by intros [= _ <-]|].
  unfold mbind_ at 1. rewrite get_fd_table_run by apply H. unfold mbind_ at 1. unfold in_sched at 1.
  destruct (in_vm (call_kmalloc SIZEOF_PIPE) (ks s)) as [[p k]|] eqn:Ek; [|done].
  destruct (fresh_pipe s p k H Ek) as (H0 & Hnone & Hf & Hpp & Hh & h & Hvm). unfold mbind_ at 1, put_pipe, mmodify.
  change (set_ks _ (set_ks k s)) with (with_pipe (set_ks k s) p new_pipe). set (s1 := with_pipe (set_ks k s) p new_pipe) in *. cbv zeta.
  assert (Hfail : pipes_inv (freed_pipe s1 p)).
  { apply (inv_pipes s); [done|exact Hf| |apply heap_freed_pipe; [rewrite Hpp, lookup_insert_eq; by eexists|done]].
    intros p'. cbn [freed_pipe ks set_ks pipes set_pipes]. rewrite Hpp, delete_insert_id by done. apply H. }
  set (tbl := table_of s) in *. set (rfd := free_fd tbl 3). set (wfd := if rfd =? -1 then -1 else free_fd tbl (rfd + 1)).
  destruct (Z.eqb_spec rfd (-1)) as [Er|Er]; [intros [= _ <-]; exact Hfail|].
  destruct (Z.eqb_spec wfd (-1)) as [Ew|Ew]; [intros [= _ <-]; exact Hfail|]. cbn [orb].
  destruct (free_fd_spec tbl 3) as [E|(R1 & _ & R3)]; [lia|by fold rfd in E|]. fold rfd in R1, R3.
  assert (Hw : wfd = free_fd tbl (rfd + 1)) by done.
  destruct (free_fd_spec tbl (rfd + 1)) as [E|(W1 & _ & W3)]; [lia|congruence|]. rewrite <- Hw in W1, W3.
  fold (two_ends tbl rfd wfd p). unfold mbind_ at 1. rewrite set_fd_table_run by (apply (same_fds_facts s s1 Hf), H).
  unfold mbind_ at 1. rewrite (copy_fds s1 (user_vm s) h) by done. intros [= _ <-]. by apply two_ends_inv; try lia.
Qed.

(** ** Seeking, reading and writing *)

Lemma sys_lseek_inv s fd off wh r s' : pipes_inv s -> sys_lseek fd off wh s = Some (r, s') -> pipes_inv s'.
Proof.
  intros H. unfold sys_lseek, mbind_ at 1. rewrite get_fd_table_run by apply H.
  destruct (fd_ok fd) eqn:Hfd; [|by intros [= _ <-]]. cbn [negb orb]. cbv zeta.
  destruct (negb (_ =? FD_TYPE_FILE)); [by intros [= _ <-]|]. destruct ((wh <? 0) || (2 <? wh))%bool; [by intros [= _ <-]|].
  destruct (_ <? 0); [by intros [= _ <-]|]. unfold mbind_. rewrite set_fd_table_run by apply H. intros [= _ <-].
  pose proof (pi_len _ H). apply (inv_change s); [done|done|unfold fd_set; by rewrite length_insert| |apply H].
  intros p. rewrite refs_in_set by (by apply fd_ok_range). unfold points_to at 2. cbn [f_type f_socket_ptr with_offset].
  fold (points_to p (fd_at (table_of s) fd)).
  replace (refs p s - refs_in p (table_of s) + _) with (refs p s) by lia. apply H.
Qed.

Lemma with_pipe_inv s p x x' q u :
  pipes_inv s -> pipes (ks s) !! p = Some x -> p_refcount x' = p_refcount x -> pipe_holds x' q ->
  pipes_inv (set_umem u (with_pipe s p x')).
Proof.
  intros H Hx Hr Hq. apply (inv_pipes s); [done|done| |by eapply (heap_with_pipe s); [|apply H]].
  intros p'. cbn. destruct (decide (p' = p)) as [->|Hne].
  - rewrite lookup_insert_eq. pose proof (pi_pipe _ H p) as Hp. rewrite Hx in Hp. destruct Hp as (H1 & H2 & _).
    split_and!; [congruence|done|]. by exists q.
  - rewrite lookup_insert_ne by done. apply H.
Qed.

Lemma open_pipe_fd s fd x :
  pipes_inv s -> fd_ok fd = true -> f_type (fd_at (table_of s) fd) = FD_TYPE_PIPE ->
  pipes (ks s) !! f_socket_ptr (fd_at (table_of s) fd) = Some x ->
  pipe_fd s fd (f_socket_ptr (fd_at (table_of s) fd)) x (table_of s).
Proof.
  intros H Hfd Hty Hx. constructor; [by apply get_fd_table_run, H|done|done|done| |done].
  apply (open_pipe s fd H Hfd Hty).
Qed.

(** Waiting on an empty pipe whose reader is counted never ends. *)
Lemma pipe_wait_empty s p x fuel :
  pipes (ks s) !! p = Some x -> p_bytes_avail x = 0 -> 0 < p_refcount x ->
  exists k, pipe_wait p fuel s = Some (PipeWaiting, set_ks k s) /\ same_fds s (set_ks k s)
    /\ pipes k = pipes (ks s) /\ vmst k = vmst (ks s).
Proof.
  revert s. induction fuel as [|fuel IH]; intros s Hx Ha Hr; cbn [pipe_wait]; unfold mbind_ at 1, pipe_at;
    rewrite Hx, Ha, (proj2 (Z.leb_gt _ _) Hr); cbn [Z.eqb negb].
  - exists (ks s). by destruct s.
  - unfold mbind_, in_sched, switch_task, irq0_handler, timer_handler, mbind_, mmodify, mret_. set (k := set_ticks _ _).
    destruct (IH (set_ks k s)) as (k' & E & Hf & Hp & Hv); [exact Hx|done|done|]. exists k'. done.
Qed.

Lemma sys_read_pipe_inv s fd buf count fuel r s' :
  is_u64 buf -> 0 <= count < 2 ^ 32 -> pipes_inv s -> sys_read_pipe fd buf count fuel s = Some (r, s') -> pipes_inv s'.
Proof.
  intros Hb Hc H E. destruct (decide (fd_ok fd = true /\ f_type (fd_at (table_of s) fd) = FD_TYPE_PIPE)) as [[Hfd Hty]|Hno].
  2:{ revert E. unfold sys_read_pipe, mbind_, mgets. destruct (_ && _)%bool; [by intros [= _ <-]|].
      rewrite get_fd_table_run by apply H. destruct (fd_ok fd); [|done].
      destruct (Z.eqb_spec (f_type (fd_at (table_of s) fd)) FD_TYPE_PIPE) as [Hty|Hty]; [|done]. by destruct Hno. }
  destruct (open_pipe s fd H Hfd Hty) as (H0 & x & Hx & Hr & Hpos & q & Hq).
  destruct (negb (count =? 0) && (validate_user_pointer (user_vm s) buf count <? 0))%bool eqn:Ev.
  { revert E. unfold sys_read_pipe, mbind_, mgets. rewrite Ev. by intros [= _ <-]. }
  pose proof (open_pipe_fd s fd x H Hfd Hty Hx) as Hpf. destruct (decide (q = [])) as [->|Hne].
  - destruct (pipe_wait_empty s _ x fuel Hx (proj2 Hq) ltac:(lia)) as (k & Ew & Hf & Hp & Hv).
    rewrite (sys_read_pipe_open _ _ _ _ _ _ _ _ Hpf Ev) in E. unfold mbind_ in E. rewrite Ew in E. injection E as _ <-.
    apply (inv_pipes s); [done|done| |unfold pipes_in_heap, heap; cbn; rewrite Hp, Hv; apply H]. intros p. cbn. rewrite Hp. apply H.
  - assert (Hq0 : 0 < p_bytes_avail x) by (destruct Hq as [_ ->]; destruct q; [done|simpl; lia]).
    destruct (decide (count = 0)) as [->|Hc0].
    + rewrite (sys_read_pipe_open _ _ _ _ _ _ _ _ Hpf Ev) in E. unfold mbind_ in E.
      rewrite (pipe_wait_ready s _ x) in E by (done || lia). unfold pipe_at in E. rewrite Hx, (proj2 (Z.ltb_lt _ _) Hq0) in E.
      by injection E as _ <-.
    + assert (Hv : validate_user_pointer (user_vm s) buf count = 0).
      { destruct (validate_spec (user_vm s) buf count Hb ltac:(lia)) as [(Hv & _)|[Hv _]]; [done|].
        rewrite (proj2 (Z.eqb_neq count 0) Hc0), Hv in Ev. done. }
      destruct (read_pipe_spec s fd buf count _ x q _ fuel Hpf Hq Hne Hb ltac:(lia) Hv)
        as (x' & E' & Hq' & Hr'). rewrite E' in E. injection E as _ <-. by eapply with_pipe_inv.
Qed.

Lemma sys_write_pipe_inv s fd buf count r s' :
  is_u64 buf -> 0 <= count < 2 ^ 32 -> pipes_inv s -> sys_write_pipe fd buf count s = Some (r, s') -> pipes_inv s'.
Proof.
  intros Hb Hc H E. destruct (negb (count =? 0) && (validate_user_pointer (user_vm s) buf count <? 0))%bool eqn:Ev.
  { revert E. unfold sys_write_pipe, mbind_, mgets. rewrite Ev. by intros [= _ <-]. }
  destruct ((fd =? 1) || (fd =? 2))%bool eqn:E12.
  { revert E. unfold sys_write_pipe, mbind_, mgets. by rewrite Ev, E12. }
  destruct (fd_ok fd) eqn:Hfd.
  2:{ revert E. unfold sys_write_pipe, mbind_, mgets. rewrite Ev, E12, get_fd_table_run by apply H. rewrite Hfd. by intros [= _ <-]. }
  destruct (Z.eqb_spec (f_type (fd_at (table_of s) fd)) FD_TYPE_PIPE) as [Hty|Hty].
  2:{ revert E. unfold sys_write_pipe, mbind_, mgets. rewrite Ev, E12, get_fd_table_run by apply H.
      by rewrite Hfd, (proj2 (Z.eqb_neq _ _) Hty). }
  destruct (open_pipe s fd H Hfd Hty) as (H0 & x & Hx & Hr & Hpos & q & Hq). destruct (decide (count = 0)) as [->|Hc0].
  - revert E. unfold sys_write_pipe, mbind_, mgets. rewrite Ev, E12, get_fd_table_run by apply H.
    rewrite Hfd, Hty, (proj2 (Z.eqb_neq _ 0) H0). unfold pipe_at. cbn [negb orb Z.eqb FD_TYPE_PIPE Pos.eqb]. rewrite Hx. cbv zeta.
    destruct (PIPE_BUF_SIZE - p_bytes_avail x =? 0); [by intros [= _ <-]|]. pose proof Hq as [[_ _ Hroom _ _] Ha].
    destruct (Z.ltb_spec (PIPE_BUF_SIZE - p_bytes_avail x) 0); [lia|]. by intros [= _ <-].
  - assert (Hv : validate_user_pointer (user_vm s) buf count = 0).
    { destruct (validate_spec (user_vm s) buf count Hb ltac:(lia)) as [(Hv & _)|[Hv _]]; [done|].
      rewrite (proj2 (Z.eqb_neq count 0) Hc0), Hv in Ev. done. }
    apply orb_false_iff in E12 as [E1 E2]. apply Z.eqb_neq in E1, E2.
    destruct (write_pipe_spec s fd buf count _ x q _ (open_pipe_fd s fd x H Hfd Hty Hx) Hq E1 E2 Hb ltac:(lia) Hv)
      as (x' & E' & Hq' & Hr'). rewrite E' in E. injection E as _ <-.
    pose proof (with_pipe_inv s _ x x' _ (umem s) H Hx Hr' Hq') as Hinv.
    exact Hinv.
Qed.

(** ** Runs *)

Inductive fd_step : sys -> sys -> Prop :=
| fd_pipe a s r s' : sys_pipe a s = Some (r, s') -> fd_step s s'
| fd_close fd s r s' : sys_close fd s = Some (r, s') -> fd_step s s'
| fd_dup old s r s' : sys_dup old s = Some (r, s') -> fd_step s s'
| fd_dup2 old new s r s' : sys_dup2 old new s = Some (r, s') -> fd_step s s'
| fd_seek fd off wh s r s' : sys_lseek fd off wh s = Some (r, s') -> fd_step s s'
| fd_read fd buf count fuel s r s' :
    is_u64 buf -> 0 <= count < 2 ^ 32 -> sys_read_pipe fd buf count fuel s = Some (r, s') -> fd_step s s'
| fd_write fd buf count s r s' :
    is_u64 buf -> 0 <= count < 2 ^ 32 -> sys_write_pipe fd buf count s = Some (r, s') -> fd_step s s'.

Lemma fd_step_inv s s' : pipes_inv s -> fd_step s s' -> pipes_inv s'.
Proof.
  intros H Hs. destruct Hs as [a s r s' E|fd s r s' E|old s r s' E|old new s r s' E|fd off wh s r s' E
    |fd buf count fuel s r s' Hb Hc E|fd buf count s r s' Hb Hc E].
  - by eapply sys_pipe_inv.
  - destruct (sys_close_any s fd H) as (r' & s1 & E1 & H1). congruence.
  - destruct (sys_dup_inv s old H) as (r' & s1 & E1 & H1). congruence.
  - destruct (sys_dup2_inv s old new H) as (r' & s1 & E1 & H1). congruence.
  - by eapply sys_lseek_inv.
  - by eapply sys_read_pipe_inv.
  - by eapply sys_write_pipe_inv.
Qed.

Lemma fd_run_inv s s' : pipes_inv s -> rtc fd_step s s' -> pipes_inv s'.
Proof. intros H Hs. induction Hs as [|s s1 s' H1 _ IH]; [done|]. apply IH. by eapply fd_step_inv. Qed.

(** No pipe, and no descriptor of one. *)
Lemma no_pipes_inv s free live :
  has_table s -> length (table_of s) = 32%nat -> pipes (ks s) = ∅ -> (forall p, refs p s = 0) ->
  heap_inv (heap (ks s)) free live -> pipes_inv s.
Proof.
  intros Ht Hl Hp Hr Hh. constructor; [done|done| |].
  - intros p. rewrite Hp, lookup_empty. apply Hr.
  - exists free, live. split; [done|]. intros p [x Hx]. by rewrite Hp, lookup_empty in Hx.
Qed.

(** C11: from a state without pipes, in every run of [sys_pipe], [sys_close],
    [sys_dup], [sys_dup2], [sys_lseek] and reads and writes of pipes, the
    reference count of a pipe is exactly the number of descriptors that point to
    it and its ring buffer is well formed; every open pipe descriptor points to a
    live pipe.  So no call ever follows a pointer to a freed pipe: closing and
    duplicating return, whatever their arguments. *)
Theorem pipe_refcounts_exact_in_every_run s0 s free live :
  has_table s0 -> length (table_of s0) = 32%nat -> pipes (ks s0) = ∅ -> (forall p, refs p s0 = 0) ->
  heap_inv (heap (ks s0)) free live -> rtc fd_step s0 s ->
  (forall p x, pipes (ks s) !! p = Some x -> p_refcount x = refs p s /\ 0 < refs p s /\ exists q, pipe_holds x q)
  /\ (forall p, 0 < refs p s -> is_Some (pipes (ks s) !! p))
  /\ (forall fd, is_Some (sys_close fd s)) /\ (forall fd, is_Some (sys_dup fd s)) /\ forall a b, is_Some (sys_dup2 a b s).
Proof.
  intros Ht Hl Hp Hr Hh Hs. pose proof (fd_run_inv s0 s (no_pipes_inv s0 free live Ht Hl Hp Hr Hh) Hs) as H.
  split_and!.
  - intros p x Hx. pose proof (pi_pipe _ H p) as Hok. by rewrite Hx in Hok.
  - intros p Hpos. pose proof (pi_pipe _ H p) as Hok. destruct (pipes (ks s) !! p); [by eexists|]. simpl in Hok. lia.
  - intros fd. destruct (sys_close_any s fd H) as (r & s' & -> & _). by eexists.
  - intros fd. destruct (sys_dup_inv s fd H) as (r & s' & -> & _). by eexists.
  - intros a b. destruct (sys_dup2_inv s a b H) as (r & s' & -> & _). by eexists.
Qed.

(** A read from an empty pipe never reports the end of the file, even when
    no other descriptor of the pipe is left: the descriptor the read uses is
    itself counted, so the test [refcount <= 0] of the wait loop never holds and
    the loop goes on for any number of rounds. *)
Theorem pipe_reader_never_sees_eof s fd buf count p x tbl fuel :
  pipes_inv s -> pipe_fd s fd p x tbl -> p_bytes_avail x = 0 -> validate_user_pointer (user_vm s) buf count = 0 ->
  exists s', sys_read_pipe fd buf count fuel s = Some (None, s') /\ pipes (ks s') !! p = Some x.
Proof.
  intros H Hpf Ha Hv. pose proof (pf_pipe _ _ _ _ _ Hpf) as Hx.
  pose proof (pi_pipe _ H p) as Hok. rewrite Hx in Hok. destruct Hok as (Hr & Hpos & _).
  destruct (pipe_wait_empty s p x fuel Hx Ha ltac:(lia)) as (k & Ew & _ & Hp & _). exists (set_ks k s).
  rewrite (sys_read_pipe_open _ _ _ _ _ _ _ _ Hpf) by (rewrite Hv; apply andb_false_r). unfold mbind_. rewrite Ew.
  split; [done|]. cbn. by rewrite Hp.
Qed.

(** ** A kernel task that opens a pipe *)

Definition sys_boot : sys :=
  {| ks := set_vmst vm_demo_mapped sched_boot; fd_static := replicate 32 kfile0; umem := ∅ |}.

Definition run_sys {A} (m : M sys A) (s : sys) : sys := match m s with Some (_, s') => s' | None => s end.

Lemma run_sys_spec {A} (m : M sys A) s a : fst <$> m s = Some a -> m s = Some (a, run_sys m s).
Proof. unfold run_sys. destruct (m s) as [[b s']|]; [|done]. by intros [= ->]. Qed.

Definition sys_piped : sys := run_sys (sys_pipe 0x5000) sys_boot.
(** Only the read end is left open. *)
Definition sys_reader : sys := run_sys (sys_close 4) sys_piped.

Lemma sys_boot_refs p : refs p sys_boot = 0.
Proof. unfold refs. cbn. unfold task_refs. by rewrite map_fold_empty. Qed.

Lemma sys_boot_heap : exists free live, heap_inv (heap (ks sys_boot)) free live.
Proof.
  assert (E : vmm_map_page 0x30000 0x5000 7 vm_demo = Some (tt, vm_demo_mapped)).
  { assert (Hr : fst <$> vmm_map_page 0x30000 0x5000 7 vm_demo = Some tt) by by_vm. unfold vm_demo_mapped.
    destruct (vmm_map_page 0x30000 0x5000 7 vm_demo) as [[[] s]|]; done. }
  destruct (vmm_map_page_run vm_demo 0x30000 0x5000 7 0x8000 vm_demo_mapped vm_demo_inv) as (_ & _ & [Hh _ _] & _);
    [reflexivity|done|by_compute|exact E|exact Hh].
Qed.

Lemma sys_boot_run : rtc fd_step sys_boot sys_reader.
Proof.
  apply (rtc_l _ _ sys_piped).
  - exact (fd_pipe 0x5000 _ _ _ (run_sys_spec (sys_pipe 0x5000) sys_boot 0 ltac:(by_vm))).
  - apply rtc_once. exact (fd_close 4 _ _ _ (run_sys_spec (sys_close 4) sys_piped 0 ltac:(by_vm))).
Qed.

Lemma sys_boot_inv : pipes_inv sys_boot.
Proof.
  destruct sys_boot_heap as (free & live & Hh). apply (no_pipes_inv sys_boot free live); [by left|done|done|exact sys_boot_refs|done].
Qed.

Definition pipe_reader_demo : pipe := default new_pipe (pipes (ks sys_reader) !! 73736).

Lemma sys_reader_pipe : pipes (ks sys_reader) !! 73736 = Some pipe_reader_demo.
Proof.
  unfold pipe_reader_demo. assert (Hr : p_refcount <$> pipes (ks sys_reader) !! 73736 = Some 1) by by_vm.
  by destruct (pipes (ks sys_reader) !! 73736).
Qed.

Lemma pipe_refcounts_exact_in_every_run_witness : refs 73736 sys_reader = 1.
Proof.
  destruct sys_boot_heap as (free & live & Hh).
  destruct (pipe_refcounts_exact_in_every_run sys_boot sys_reader free live) as (H & _).
  - by left.
  - reflexivity.
  - reflexivity.
  - exact sys_boot_refs.
  - exact Hh.
  - exact sys_boot_run.
  - destruct (H 73736 pipe_reader_demo sys_reader_pipe) as (Hr & _). rewrite <- Hr. by_vm.
Defined.

Lemma pipe_reader_never_sees_eof_witness :
  exists s', sys_read_pipe 3 0x5000 1 100 sys_reader = Some (None, s') /\ pipes (ks s') !! 73736 = Some pipe_reader_demo.
Proof.
  apply (pipe_reader_never_sees_eof sys_reader 3 0x5000 1 73736 pipe_reader_demo (table_of sys_reader)).
  - exact (fd_run_inv _ _ sys_boot_inv sys_boot_run).
  - constructor; [apply get_fd_table_run; left; by_vm|done|by_vm|by_vm|lia|exact sys_reader_pipe].
  - by_vm.
  - by_vm.
Defined.
