(* ===== verification/CString.v ===== *)
(** * The kernel's string library ([src/src/kernel/lib/string.c])

    Memory is a map from addresses to bytes; an address without a byte reads as
    0.  A pointer is an address and is assumed not to wrap around.  The loops
    that end at a NUL take fuel ([None] when it is used up): one round per byte
    of memory that is not empty is enough for a string that is not overwritten
    while it is read. *)

From Stdlib Require Import ZArith Lia String.
From stdpp Require Import base numbers list gmap.
From S2P Require Import Prelude Pmm Vmm Usercopy Bytes.

(** ** Memory *)

Abbreviation mem := (gmap Z Z).
Definition peek (m : mem) (a : Z) : Z := default 0 (m !! a).
Definition poke (m : mem) (a v : Z) : mem := <[a := v]> m.

Definition str_fuel (m : mem) : nat := S (size m).

(** ** Strings *)

Fixpoint strlen_loop (fuel : nat) (m : mem) (s len : Z) : option Z :=
  match fuel with
  | O => None
  | S fuel' => if peek m (s + len) =? 0 then Some len else strlen_loop fuel' m s (len + 1)
  end.
Definition strlen (m : mem) (s : Z) : option Z := strlen_loop (str_fuel m) m s 0.

(** [while (( *d++ = *src++));] *)
Fixpoint strcpy_loop (fuel : nat) (m : mem) (d src : Z) : option mem :=
  match fuel with
  | O => None
  | S fuel' =>
      let c := peek m src in
      let m' := poke m d c in
      if c =? 0 then Some m' else strcpy_loop fuel' m' (d + 1) (src + 1)
  end.
Definition strcpy (m : mem) (dest src : Z) : option mem := strcpy_loop (str_fuel m) m dest src.

(** The copy up to [n] bytes or the NUL: the number of bytes copied. *)
Fixpoint copy_n (n : nat) (m : mem) (dest src i : Z) : mem * Z :=
  match n with
  | O => (m, i)
  | S n' => if peek m (src + i) =? 0 then (m, i) else copy_n n' (poke m (dest + i) (peek m (src + i))) dest src (i + 1)
  end.
Fixpoint memset_loop (n : nat) (m : mem) (ptr v : Z) : mem :=
  match n with
  | O => m
  | S n' => memset_loop n' (poke m ptr v) (ptr + 1) v
  end.
Definition strncpy (m : mem) (dest src n : Z) : mem :=
  let '(m, i) := copy_n (Z.to_nat n) m dest src 0 in
  memset_loop (Z.to_nat (n - i)) m (dest + i) 0.

Definition strcat (m : mem) (dest src : Z) : option mem :=
  match strlen m dest with
  | Some len => strcpy_loop (str_fuel m) m (dest + len) src
  | None => None
  end.

Definition strncat (m : mem) (dest src n : Z) : option mem :=
  match strlen m dest with
  | Some dest_len => let '(m, i) := copy_n (Z.to_nat n) m (dest + dest_len) src 0 in Some (poke m (dest + dest_len + i) 0)
  | None => None
  end.

Fixpoint strcmp_loop (fuel : nat) (m : mem) (s1 s2 : Z) : option Z :=
  match fuel with
  | O => None
  | S fuel' =>
      if (negb (peek m s1 =? 0) && (peek m s1 =? peek m s2))%bool then strcmp_loop fuel' m (s1 + 1) (s2 + 1)
      else Some (peek m s1 - peek m s2)
  end.
Definition strcmp (m : mem) (s1 s2 : Z) : option Z := strcmp_loop (str_fuel m) m s1 s2.

Fixpoint strncmp_loop (n : nat) (m : mem) (s1 s2 : Z) : Z :=
  match n with
  | O => 0
  | S n' =>
      if (negb (peek m s1 =? 0) && (peek m s1 =? peek m s2))%bool then strncmp_loop n' m (s1 + 1) (s2 + 1)
      else peek m s1 - peek m s2
  end.
Definition strncmp (m : mem) (s1 s2 n : Z) : Z := strncmp_loop (Z.to_nat n) m s1 s2.

(** The result 0 is [NULL]. *)
Fixpoint strchr_loop (fuel : nat) (m : mem) (s c : Z) : option Z :=
  match fuel with
  | O => None
  | S fuel' =>
      if peek m s =? 0 then Some (if c =? 0 then s else 0)
      else if peek m s =? u8 c then Some s else strchr_loop fuel' m (s + 1) c
  end.
Definition strchr (m : mem) (s c : Z) : option Z := strchr_loop (str_fuel m) m s c.

Fixpoint strrchr_loop (fuel : nat) (m : mem) (s c last : Z) : option Z :=
  match fuel with
  | O => None
  | S fuel' =>
      let last' := if peek m s =? u8 c then s else last in
      if peek m s =? 0 then Some last' else strrchr_loop fuel' m (s + 1) c last'
  end.
Definition strrchr (m : mem) (s c : Z) : option Z := strrchr_loop (str_fuel m) m s c 0.

(** [while ( *h && *n && *h == *n) h++, n++;]: where [n] stops. *)
Fixpoint match_at (fuel : nat) (m : mem) (h n : Z) : option Z :=
  match fuel with
  | O => None
  | S fuel' =>
      if (negb (peek m h =? 0) && negb (peek m n =? 0) && (peek m h =? peek m n))%bool then match_at fuel' m (h + 1) (n + 1) else Some n
  end.
Fixpoint strstr_loop (fuel : nat) (m : mem) (haystack needle : Z) : option Z :=
  match fuel with
  | O => None
  | S fuel' =>
      if peek m haystack =? 0 then Some 0
      else if negb (peek m haystack =? peek m needle) then strstr_loop fuel' m (haystack + 1) needle
      else match match_at (str_fuel m) m haystack needle with
           | None => None
           | Some n => if peek m n =? 0 then Some haystack else strstr_loop fuel' m (haystack + 1) needle
           end
  end.
Definition strstr (m : mem) (haystack needle : Z) : option Z :=
  if peek m needle =? 0 then Some haystack else strstr_loop (str_fuel m) m haystack needle.

(** ** Memory blocks *)

Definition memset (m : mem) (dest val len : Z) : mem := memset_loop (Z.to_nat len) m dest (u8 val).

Fixpoint memset32_loop (n : nat) (m : mem) (ptr val : Z) : mem :=
  match n with
  | O => m
  | S n' => memset32_loop n' (write_bytes m ptr (le_bytes 4 val)) (ptr + 4) val
  end.
Definition memset32 (m : mem) (dest val len : Z) : mem := memset32_loop (Z.to_nat len) m dest val.

(** [while (n--) *d++ = *s++;] for cells of [w] bytes: a cell is loaded whole
    before it is stored. *)
Fixpoint copy_up (w : Z) (n : nat) (m : mem) (d s : Z) : mem :=
  match n with
  | O => m
  | S n' => copy_up w n' (write_bytes m d (user_bytes m s w)) (d + w) (s + w)
  end.

Definition memcpy (m : mem) (dest src len : Z) : mem :=
  if ((dest mod 4 =? 0) && (src mod 4 =? 0))%bool then
    let dwords := Z.shiftr len 2 in
    let bytes := Z.land len 3 in
    let m := copy_up 4 (Z.to_nat dwords) m dest src in
    copy_up 1 (Z.to_nat bytes) m (dest + 4 * dwords) (src + 4 * dwords)
  else copy_up 1 (Z.to_nat len) m dest src.

(** [while (len--) *lastd-- = *lasts--;] *)
Fixpoint copy_down (n : nat) (m : mem) (lastd lasts : Z) : mem :=
  match n with
  | O => m
  | S n' => copy_down n' (poke m lastd (peek m lasts)) (lastd - 1) (lasts - 1)
  end.

Definition memmove (m : mem) (dest src len : Z) : mem :=
  if dest <? src then copy_up 1 (Z.to_nat len) m dest src
  else copy_down (Z.to_nat len) m (dest + (len - 1)) (src + (len - 1)).

Fixpoint memcmp_loop (n : nat) (m : mem) (p1 p2 : Z) : Z :=
  match n with
  | O => 0
  | S n' => if peek m p1 =? peek m p2 then memcmp_loop n' m (p1 + 1) (p2 + 1) else peek m p1 - peek m p2
  end.
Definition memcmp (m : mem) (s1 s2 n : Z) : Z := memcmp_loop (Z.to_nat n) m s1 s2.

(** ** Numbers *)

Definition digits : list Z := str "0123456789ABCDEF" ++ [0].

(** [digits[i]]; [None] outside the array. *)
Definition digit (i : Z) : option Z := if i <? 0 then None else digits !! Z.to_nat i.

(** [do buf[i++] = digits[n % base]; while ((n /= base) > 0);] gives [buf]; the
    fuel is its 32 cells. *)
Fixpoint itoa_loop (fuel : nat) (n base : Z) : option (list Z) :=
  match fuel with
  | O => None
  | S fuel' =>
      match digit (Z.rem n base) with
      | None => None
      | Some c =>
          let n' := Z.quot n base in
          if 0 <? n' then match itoa_loop fuel' n' base with Some b => Some (c :: b) | None => None end
          else Some [c]
      end
  end.

(** The string that is stored, without its NUL; [None] when the code reads or
    writes outside an array.  [-n] is computed in 32 bits. *)
Definition itoa (n base : Z) : option (list Z) :=
  let neg := ((n <? 0) && (base =? 10))%bool in
  match itoa_loop 32 (if neg then s32 (- n) else n) base with
  | None => None
  | Some buf =>
      let buf := if neg then buf ++ [45] else buf in
      if (length buf <=? 32)%nat then Some (reverse buf) else None
  end.

Definition int_to_str (n : Z) : option (list Z) := itoa (s32 n) 10.

Definition hex_to_str (n : Z) : list Z := [digits.[Z.land (Z.shiftr n 4) 0xF]; digits.[Z.land n 0xF]].

(** ** Lemmas on memory *)

Lemma peek_poke m a v b : peek (poke m a v) b = if a =? b then v else peek m b.
Proof.
  unfold peek, poke. destruct (Z.eqb_spec a b) as [->|Hne]; [by rewrite lookup_insert_eq|by rewrite lookup_insert_ne].
Qed.

Lemma peek_write_bytes m p bs a :
  peek (write_bytes m p bs) a = if ((p <=? a) && (a <? p + Z.of_nat (length bs)))%bool then bs.[a - p] else peek m a.
Proof.
  unfold peek. replace a with (p + (a - p)) at 1 by lia. rewrite lookup_write_bytes.
  replace (p + (a - p)) with a by lia. zcases; done || lia.
Qed.

Lemma nthZ_user_bytes m s w i : 0 <= i < w -> (user_bytes m s w).[i] = peek m (s + i).
Proof.
  intros Hi. unfold nthZ, user_bytes. rewrite list_lookup_fmap, lookup_seqZ_lt by lia. cbn. unfold peek. do 3 f_equal. lia.
Qed.

(** [m'] is [m] with the [n] bytes at [s] copied to [d]. *)
Definition copied (m : mem) (d s n : Z) (m' : mem) : Prop :=
  forall a, peek m' a = if ((d <=? a) && (a <? d + n))%bool then peek m (s + (a - d)) else peek m a.

Lemma copied_cell m d s w : 0 <= w -> copied m d s w (write_bytes m d (user_bytes m s w)).
Proof.
  intros Hw a. rewrite peek_write_bytes, length_user_bytes, Z2Nat.id by lia. zcases; try done. apply nthZ_user_bytes. lia.
Qed.

Lemma copied_nil m d s : copied m d s 0 m.
Proof. intros a. zcases; done || lia. Qed.

(** Copying in two parts; the first must not overwrite the source of the second. *)
Lemma copied_app m d s n1 n2 m1 m2 :
  0 <= n1 -> 0 <= n2 -> (d <= s \/ s + n1 + n2 <= d) ->
  copied m d s n1 m1 -> copied m1 (d + n1) (s + n1) n2 m2 -> copied m d s (n1 + n2) m2.
Proof.
  intros H1 H2 Hd C1 C2 a. rewrite C2. rewrite C1. rewrite C1.
  zcases; try lia; try done; f_equal; lia.
Qed.

Lemma copy_up_copied w n m d s :
  0 < w -> (d + w <= s \/ d = s \/ s + w * Z.of_nat n <= d) -> copied m d s (w * Z.of_nat n) (copy_up w n m d s).
Proof.
  intros Hw. revert m d s. induction n as [|n IH]; intros m d s Hd; cbn [copy_up].
  - rewrite Z.mul_0_r. apply copied_nil.
  - rewrite Nat2Z.inj_succ in *. replace (w * Z.succ (Z.of_nat n)) with (w + w * Z.of_nat n) by lia.
    apply (copied_app _ _ _ _ _ (write_bytes m d (user_bytes m s w))); [lia|lia|lia|apply copied_cell; lia|]. apply IH. lia.
Qed.

Lemma copy_down_copied n m d s :
  s <= d -> copied m d s (Z.of_nat n) (copy_down n m (d + (Z.of_nat n - 1)) (s + (Z.of_nat n - 1))).
Proof.
  intros Hd. revert m. induction n as [|n IH]; intros m; [apply copied_nil|]. cbn [copy_down]. rewrite Nat2Z.inj_succ.
  replace (d + (Z.succ (Z.of_nat n) - 1) - 1) with (d + (Z.of_nat n - 1)) by lia.
  replace (s + (Z.succ (Z.of_nat n) - 1) - 1) with (s + (Z.of_nat n - 1)) by lia.
  intros a. rewrite IH, !peek_poke. zcases; try lia; try done; f_equal; lia.
Qed.

(** [memcpy] copies: with its 32-bit loop for aligned pointers and its byte
    loop otherwise, the result is the plain copy of the bytes, whenever the
    regions do not overlap or the destination lies below the source; nothing else
    changes. *)
Theorem memcpy_copies m dest src len :
  0 <= len -> (dest <= src \/ src + len <= dest) -> copied m dest src len (memcpy m dest src len).
Proof.
  intros Hl Hd. unfold memcpy. destruct (_ && _)%bool eqn:Ha.
  - apply andb_true_iff in Ha as [Ha1 Ha2]. zbool. rewrite Z.shiftr_div_pow2 by lia. change 3 with (Z.ones 2). rewrite Z.land_ones by lia.
    change (2 ^ 2) with 4. assert (Hq : len = 4 * (len / 4) + len mod 4) by (apply Z.div_mod; lia).
    pose proof (Z.mod_pos_bound len 4 ltac:(lia)) as Hr. assert (0 <= len / 4) by (apply Z.div_pos; lia).
    set (q := len / 4) in *. set (r := len mod 4) in *. clearbody q r. subst len.
    apply (copied_app _ _ _ _ _ (copy_up 4 (Z.to_nat q) m dest src)); [lia|lia|lia| |].
    + pose proof (copy_up_copied 4 (Z.to_nat q) m dest src) as C. rewrite Z2Nat.id in C by lia. apply C; zlia.
    + pose proof (copy_up_copied 1 (Z.to_nat r) (copy_up 4 (Z.to_nat q) m dest src) (dest + 4 * q) (src + 4 * q)) as C.
      rewrite Z2Nat.id, Z.mul_1_l in C by lia. apply C; lia.
  - pose proof (copy_up_copied 1 (Z.to_nat len) m dest src) as C. rewrite Z2Nat.id, Z.mul_1_l in C by lia. apply C; lia.
Qed.

(** [memmove] copies between any two regions, however they overlap. *)
Theorem memmove_copies m dest src len : 0 <= len -> copied m dest src len (memmove m dest src len).
Proof.
  intros Hl. unfold memmove. destruct (Z.ltb_spec dest src).
  - pose proof (copy_up_copied 1 (Z.to_nat len) m dest src) as C. rewrite Z2Nat.id, Z.mul_1_l in C by lia. apply C; lia.
  - pose proof (copy_down_copied (Z.to_nat len) m dest src) as C. rewrite Z2Nat.id in C by lia. apply C. lia.
Qed.

Definition mem_demo : mem := write_bytes ∅ 100 (str "abcdefgh").

Lemma memcpy_copies_witness : peek (memcpy mem_demo 200 100 7) 206 = 103 /\ peek (memcpy mem_demo 200 100 7) 207 = 0.
Proof. rewrite !(memcpy_copies mem_demo 200 100 7) by lia. done. Defined.

Lemma memmove_copies_witness : user_bytes (memmove mem_demo 102 100 6) 100 8 = str "ababcdef".
Proof.
  assert (H : user_bytes (memmove mem_demo 102 100 6) 100 8 = peek (memmove mem_demo 102 100 6) <$> seqZ 100 8) by done.
  rewrite H. apply list_eq. intros i. rewrite list_lookup_fmap. destruct (decide (i < 8)%nat) as [Hi|Hi].
  - rewrite lookup_seqZ_lt by lia. cbn [fmap option_fmap option_map]. rewrite (memmove_copies mem_demo 102 100 6) by lia.
    do 8 (destruct i as [|i]; [done|]). lia.
  - rewrite lookup_seqZ_ge by lia. symmetry. by apply lookup_ge_None_2; cbn; lia.
Defined.

(** ** Decimal numbers *)

(** The number a string of decimal digits denotes. *)
Definition dec_value (l : list Z) : Z := foldl (fun v c => 10 * v + (c - 48)) 0 l.
Definition is_digit (c : Z) : Prop := 48 <= c <= 57.

(** The number a string with an optional minus sign denotes. *)
Definition int_value (l : list Z) : Z := match l with 45 :: l' => - dec_value l' | _ => dec_value l end.

Lemma digit_dec i : 0 <= i < 10 -> digit i = Some (48 + i).
Proof.
  intros Hi. assert (i = 0 \/ i = 1 \/ i = 2 \/ i = 3 \/ i = 4 \/ i = 5 \/ i = 6 \/ i = 7 \/ i = 8 \/ i = 9) as H by lia.
  destruct H as [->|[->|[->|[->|[->|[->|[->|[->|[->| ->]]]]]]]]]; done.
Qed.

Lemma itoa_loop_dec fuel n :
  0 <= n < 10 ^ Z.of_nat fuel -> (0 < fuel)%nat ->
  exists buf, itoa_loop fuel n 10 = Some buf /\ (0 < length buf <= fuel)%nat /\ Forall is_digit buf /\ dec_value (reverse buf) = n.
Proof.
  revert n. induction fuel as [|fuel IH]; intros n Hn Hf; [lia|]. cbn [itoa_loop].
  rewrite Z.rem_mod_nonneg, Z.quot_div_nonneg by lia. rewrite digit_dec by zlia. rewrite Nat2Z.inj_succ, Z.pow_succ_r in Hn by lia.
  assert (Hd : is_digit (48 + n mod 10)) by (unfold is_digit; zlia).
  destruct (Z.ltb_spec 0 (n / 10)) as [Hq|Hq].
  - destruct (IH (n / 10)) as (buf & -> & Hl & Hb & Hv); [zlia|destruct fuel; [cbn in Hn; zlia|lia]|].
    eexists. split; [reflexivity|]. cbn [length]. split; [lia|]. split; [by constructor|].
    rewrite reverse_cons. unfold dec_value in *. rewrite foldl_app. cbn [foldl]. rewrite Hv. zlia.
  - eexists. split; [reflexivity|]. cbn [length]. split; [lia|]. split; [by constructor|]. cbn. zlia.
Qed.

Lemma itoa_loop_more fuel k n base buf : itoa_loop fuel n base = Some buf -> itoa_loop (fuel + k) n base = Some buf.
Proof.
  revert n buf. induction fuel as [|fuel IH]; intros n buf; [done|]. cbn [itoa_loop Nat.add]. destruct (digit _); [|done].
  destruct (0 <? _); [|done]. destruct (itoa_loop fuel _ _) as [b|] eqn:E; [|done]. by rewrite (IH _ _ E).
Qed.

Lemma int_value_digits l : Forall is_digit l -> int_value l = dec_value l.
Proof. intros [|c l' Hc _]; [done|]. unfold is_digit in Hc. cbn. repeat case_match; try done; lia. Qed.

(** The magnitude of a number prints as at most ten digits. *)
Lemma itoa_magnitude n :
  0 <= n < 2 ^ 31 -> exists buf, itoa_loop 32 n 10 = Some buf /\ (0 < length buf <= 10)%nat /\ Forall is_digit buf /\ dec_value (reverse buf) = n.
Proof.
  intros Hn. destruct (itoa_loop_dec 10 n) as (buf & E & H); [cbn; lia|lia|]. exists buf. split; [|done].
  exact (itoa_loop_more 10 22 n 10 buf E).
Qed.

Lemma itoa_nat n :
  0 <= n < 2 ^ 31 -> exists l, itoa n 10 = Some l /\ Forall is_digit l /\ dec_value l = n /\ (0 < length l <= 10)%nat.
Proof.
  intros Hn. unfold itoa. rewrite (proj2 (Z.ltb_ge n 0)) by lia. cbn [andb]. destruct (itoa_magnitude n Hn) as (buf & -> & Hl & Hb & Hv).
  rewrite (proj2 (Nat.leb_le _ _)) by lia. exists (reverse buf). rewrite length_reverse. split_and!; [done|by apply Forall_reverse|done|lia|lia].
Qed.

(** [itoa] in base 10 prints every 32-bit number except the smallest: it
    stays inside its arrays, the text has at most 11 characters and denotes the
    number.  For [INT_MIN] the negation overflows and the digit table is read
    outside its bounds. *)
Theorem itoa_decimal_roundtrip n :
  - 2 ^ 31 <= n < 2 ^ 31 ->
  if n =? - 2 ^ 31 then itoa n 10 = None
  else exists l, itoa n 10 = Some l /\ int_value l = n /\ (0 < length l <= 11)%nat.
Proof.
  intros Hn. destruct (Z.eqb_spec n (- 2 ^ 31)) as [->|Hmin]; [done|]. destruct (Z.ltb_spec n 0) as [Hneg|Hpos].
  - unfold itoa. rewrite (proj2 (Z.ltb_lt n 0)) by lia. cbn [andb Z.eqb Pos.eqb].
    replace (s32 (- n)) with (- n) by (unfold s32; rewrite Z.mod_small; lia).
    destruct (itoa_magnitude (- n)) as (buf & -> & Hl & Hb & Hv); [lia|]. rewrite length_app. cbn [length].
    rewrite (proj2 (Nat.leb_le _ _)) by lia. eexists. split; [reflexivity|]. rewrite reverse_app. cbn [reverse rev_append app int_value length].
    rewrite length_reverse, Hv. lia.
  - destruct (itoa_nat n) as (l & E & Hd & Hv & Hl); [lia|]. exists l. rewrite int_value_digits by done. split; [done|]. split; [done|lia].
Qed.

Lemma itoa_decimal_roundtrip_witness : exists l, itoa (-2147483647) 10 = Some l /\ int_value l = -2147483647.
Proof.
  destruct (itoa_decimal_roundtrip (-2147483647) ltac:(lia)) as (l & H1 & H2 & _). exists l. split; [exact H1|exact H2].
Defined.

(** In another base a negative number indexes the digit table with a negative
    remainder. *)
Lemma itoa_negative_hex n : - 2 ^ 31 <= n < 0 -> n mod 16 <> 0 -> itoa n 16 = None.
Proof.
  intros Hn Hm. unfold itoa. rewrite andb_false_r. cbn [itoa_loop]. unfold digit.
  assert (Hr : Z.rem n 16 < 0).
  { pose proof (Z.rem_nonpos n 16 ltac:(lia) ltac:(lia)). pose proof (Z.rem_divide n 16 ltac:(lia)) as Hdv.
    pose proof (Z.mod_divide n 16 ltac:(lia)) as Hmd. destruct (Z.eq_dec (Z.rem n 16) 0) as [E|E]; [|lia]. tauto. }
  by rewrite (proj2 (Z.ltb_lt _ 0) Hr).
Qed.

(** ** C strings in memory *)

(** The string [l] is stored at [s]. *)
Definition string_at (m : mem) (s : Z) (l : list Z) : Prop := no_nul l /\ user_bytes m s (Z.of_nat (length l)) = l /\ peek m (s + Z.of_nat (length l)) = 0.

Lemma string_cons m s c l :
  string_at m s (c :: l) <-> c <> 0 /\ peek m s = c /\ string_at m (s + 1) l.
Proof.
  unfold string_at, no_nul. cbn [length]. rewrite Forall_cons, Nat2Z.inj_succ, <- Z.add_1_l, user_bytes_app by lia.
  replace (s + (1 + Z.of_nat (length l))) with (s + 1 + Z.of_nat (length l)) by lia.
  assert (E : user_bytes m s 1 = [peek m s]) by (unfold peek; rewrite <- (Z.add_0_r s) at 2; done).
  rewrite E. cbn [app]. split.
  - intros ((H1 & H2) & [= H3 H4] & H5). by rewrite H4.
  - intros (H1 & H2 & H3 & H4 & H5). by rewrite H2, H4.
Qed.

Lemma string_nil m s : string_at m s [] <-> peek m s = 0.
Proof. unfold string_at. cbn [length]. change (Z.of_nat 0) with 0. rewrite Z.add_0_r.
  split; [by intros (_ & _ & H)|]. intros H. split; [constructor|done]. Qed.

(** A string is no longer than the memory has bytes. *)
Lemma string_fits m s l : string_at m s l -> (length l < str_fuel m)%nat.
Proof.
  intros H. unfold str_fuel. enough (length l <= size m)%nat by lia. revert s m H.
  induction l as [|c l IH]; intros s m H; [cbn; lia|]. apply string_cons in H as (Hc & Hp & Hl). cbn [length].
  assert (Hm : m !! s = Some c) by (unfold peek in Hp; destruct (m !! s); cbn in Hp; [by subst|by subst]).
  rewrite <- (insert_delete_id m s c Hm), map_size_insert_None by apply lookup_delete_eq. apply le_n_S. apply (IH (s + 1)).
  destruct Hl as (H1 & H2 & H3). assert (Hpk : forall a, s < a -> peek (delete s m) a = peek m a)
    by (intros a Ha; unfold peek; rewrite lookup_delete_ne by lia; done).
  split; [done|]. split; [|by rewrite Hpk by lia]. rewrite <- H2 at 2. unfold user_bytes.
  apply list_fmap_ext. intros i x Hx. apply list_elem_of_lookup_2, elem_of_seqZ in Hx. apply Hpk. lia.
Qed.

Lemma strlen_loop_spec fuel m s l i :
  string_at m (s + i) l -> (length l < fuel)%nat -> strlen_loop fuel m s i = Some (i + Z.of_nat (length l)).
Proof.
  revert l i. induction fuel as [|fuel IH]; intros l i Hl Hf; [lia|]. cbn [strlen_loop]. destruct l as [|c l].
  - apply string_nil in Hl. rewrite Hl. cbn. f_equal. lia.
  - apply string_cons in Hl as (Hc & -> & Hl). rewrite (proj2 (Z.eqb_neq c 0) Hc).
    rewrite (IH l); [cbn [length]; f_equal; lia|by rewrite Z.add_assoc|cbn [length] in Hf; lia].
Qed.

Lemma strlen_spec m s l : string_at m s l -> strlen m s = Some (Z.of_nat (length l)).
Proof. intros H. apply (strlen_loop_spec _ m s l 0); [by rewrite Z.add_0_r|by apply (string_fits m s)]. Qed.

Lemma string_at_ext m m' s l :
  (forall a, s <= a <= s + Z.of_nat (length l) -> peek m' a = peek m a) -> string_at m s l -> string_at m' s l.
Proof.
  intros He (H1 & H2 & H3). split; [done|]. split; [|by rewrite He by lia]. rewrite <- H2 at 2. unfold user_bytes.
  apply list_fmap_ext. intros i x Hx. apply list_elem_of_lookup_2, elem_of_seqZ in Hx. apply He. lia.
Qed.

Lemma copied_poke m d s : copied m d s 1 (poke m d (peek m s)).
Proof. intros a. rewrite peek_poke. zcases; try lia; [|done..]. f_equal. lia. Qed.

Lemma strcpy_loop_spec fuel m d s l :
  string_at m s l -> (d < s \/ s + Z.of_nat (length l) < d) -> (length l < fuel)%nat ->
  exists m', strcpy_loop fuel m d s = Some m' /\ copied m d s (Z.of_nat (length l) + 1) m'.
Proof.
  revert m d s l. induction fuel as [|fuel IH]; intros m d s l Hl Hd Hf; [lia|]. cbn [strcpy_loop]. destruct l as [|c l].
  - apply string_nil in Hl. rewrite Hl. eexists. split; [reflexivity|]. rewrite <- Hl. apply copied_poke.
  - pose proof Hl as (Hc & Hp & Hl')%string_cons. rewrite Hp, (proj2 (Z.eqb_neq c 0) Hc). cbn [length] in *.
    destruct (IH (poke m d c) (d + 1) (s + 1) l) as (m' & E & C); [|lia|lia|].
    + apply (string_at_ext m); [|done]. intros a Ha. rewrite peek_poke. zcases; [lia|done].
    + exists m'. split; [done|]. rewrite Nat2Z.inj_succ. replace (Z.succ (Z.of_nat (length l)) + 1) with (1 + (Z.of_nat (length l) + 1)) by lia.
      apply (copied_app _ _ _ _ _ (poke m d c)); [lia|lia|lia|rewrite <- Hp; apply copied_poke|done].
Qed.

Lemma strcpy_spec m d s l :
  string_at m s l -> (d < s \/ s + Z.of_nat (length l) < d) ->
  exists m', strcpy m d s = Some m' /\ copied m d s (Z.of_nat (length l) + 1) m'.
Proof. intros Hl Hd. apply strcpy_loop_spec; [done|done|by apply (string_fits m s)]. Qed.

Lemma string_at_copied m d s l m' : string_at m s l -> copied m d s (Z.of_nat (length l) + 1) m' -> string_at m' d l.
Proof.
  intros (H1 & H2 & H3) C. split; [done|]. split.
  - rewrite <- H2 at 2. unfold user_bytes. apply list_fmap_ext. intros i x Hx. apply list_elem_of_lookup_2, elem_of_seqZ in Hx.
    change (peek m' (d + x) = peek m (s + x)). rewrite C. zcases; try lia. f_equal. lia.
  - rewrite C. zcases; try lia. rewrite <- H3. f_equal. lia.
Qed.

(** [strcat] of two C strings in separate places, the destination with room
    for both, returns and leaves their concatenation at the destination; it
    writes the bytes of the second string and the final NUL, nothing else. *)
Theorem strcat_concatenates m d s l1 l2 :
  string_at m d l1 -> string_at m s l2 ->
  (d + Z.of_nat (length l1 + length l2) < s \/ s + Z.of_nat (length l2) < d) ->
  exists m', strcat m d s = Some m' /\ string_at m' d (l1 ++ l2) /\ string_at m' s l2
    /\ forall a, ~ d + Z.of_nat (length l1) <= a <= d + Z.of_nat (length l1 + length l2) -> peek m' a = peek m a.
Proof.
  intros H1 H2 Hd. unfold strcat. rewrite (strlen_spec m d l1 H1).
  destruct (strcpy_spec m (d + Z.of_nat (length l1)) s l2 H2) as (m' & E & C); [lia|]. unfold strcpy in E. rewrite E. exists m'. split; [done|].
  assert (Ho : forall a, ~ d + Z.of_nat (length l1) <= a <= d + Z.of_nat (length l1 + length l2) -> peek m' a = peek m a)
    by (intros a Ha; rewrite C; zcases; try done; lia).
  split; [|split; [|done]].
  - destruct (string_at_copied m _ s l2 m' H2 C) as (N2 & B2 & Z2). destruct H1 as (N1 & B1 & Z1). split; [by apply Forall_app|].
    rewrite length_app, Nat2Z.inj_add, Z.add_assoc. split; [|done]. rewrite user_bytes_app, B2 by lia. f_equal. rewrite <- B1 at 2.
    unfold user_bytes. apply list_fmap_ext. intros i x Hx. apply list_elem_of_lookup_2, elem_of_seqZ in Hx. apply Ho. lia.
  - apply (string_at_ext m); [|done]. intros a Ha. apply Ho. lia.
Qed.

Lemma strcat_concatenates_witness :
  exists m', strcat (write_bytes mem_demo 200 (str "xy")) 100 200 = Some m' /\ string_at m' 100 (str "abcdefghxy").
Proof.
  destruct (strcat_concatenates (write_bytes mem_demo 200 (str "xy")) 100 200 (str "abcdefgh") (str "xy")) as (m' & H1 & H2 & _).
  - split; [by repeat constructor|]. split; by_vm.
  - split; [by repeat constructor|]. split; by_vm.
  - left. by_compute.
  - exists m'. split; [exact H1|exact H2].
Defined.

(** [strcmp] compares the strings. *)
Lemma strcmp_loop_spec fuel m s1 s2 l1 l2 :
  string_at m s1 l1 -> string_at m s2 l2 -> (length l1 < fuel)%nat ->
  exists r, strcmp_loop fuel m s1 s2 = Some r /\ (r = 0 <-> l1 = l2).
Proof.
  revert s1 s2 l1 l2. induction fuel as [|fuel IH]; intros s1 s2 l1 l2 H1 H2 Hf; [lia|]. cbn [strcmp_loop]. destruct l1 as [|c1 l1].
  - apply string_nil in H1. rewrite H1. cbn. eexists. split; [reflexivity|]. destruct l2 as [|c2 l2].
    + apply string_nil in H2. rewrite H2. done.
    + apply string_cons in H2 as (Hc & -> & _). split; [lia|done].
  - apply string_cons in H1 as (Hc1 & -> & H1). rewrite (proj2 (Z.eqb_neq c1 0) Hc1). cbn [negb andb]. destruct l2 as [|c2 l2].
    + apply string_nil in H2. rewrite H2, (proj2 (Z.eqb_neq c1 0) Hc1). eexists. split; [reflexivity|]. split; [lia|done].
    + apply string_cons in H2 as (Hc2 & -> & H2). destruct (Z.eqb_spec c1 c2) as [->|Hne].
      * destruct (IH (s1 + 1) (s2 + 1) l1 l2) as (r & E & Hr); [done|done|cbn [length] in Hf; lia|]. exists r. split; [done|]. rewrite Hr. split; congruence.
      * eexists. split; [reflexivity|]. split; [lia|congruence].
Qed.

Lemma strcmp_spec m s1 s2 l1 l2 :
  string_at m s1 l1 -> string_at m s2 l2 -> exists r, strcmp m s1 s2 = Some r /\ (r = 0 <-> l1 = l2).
Proof. intros H1 H2. apply strcmp_loop_spec; [done|done|by apply (string_fits m s1)]. Qed.
