(* ===== verification/Net.v ===== *)
(** * The network layer ([src/src/net/netstack.c], [net.c])

    Byte order, the Internet checksum, the neighbour cache, address resolution
    and the construction of IPv4 frames.  A packet is a list of bytes; the frames
    handed to the interface's [send_packet] are collected in [tx], oldest first.
    The interface, the interrupts that arrive while [netstack_resolve_mac] waits
    and logging are outside: the waiting loop takes the list of what they do to
    the state ([wakes]), one element per wake-up before the time is over. *)

From Stdlib Require Import ZArith Lia.
From stdpp Require Import base numbers list gmap.
From S2P Require Import Prelude Bytes.

(** ** Byte order *)

Definition htons (n : Z) : Z := Z.lor (Z.shiftl (Z.land n 0xFF) 8) (Z.shiftr (Z.land n 0xFF00) 8).
Definition htonl (n : Z) : Z :=
  Z.lor (Z.lor (Z.lor (Z.shiftl (Z.land n 0xFF) 24) (Z.shiftl (Z.land n 0xFF00) 8))
    (Z.shiftr (Z.land n 0xFF0000) 8)) (Z.shiftr (Z.land n 0xFF000000) 24).

(** ** The Internet checksum *)

(** [sum += (uint16_t)((ptr[0] << 8) | ptr[1])], and the odd last byte. *)
Fixpoint sum_words (sum : Z) (data : list Z) : Z :=
  match data with
  | [] => sum
  | [a] => u32 (sum + u16 (Z.shiftl a 8))
  | a :: b :: data' => sum_words (u32 (sum + u16 (Z.lor (Z.shiftl a 8) b))) data'
  end.

(** [while (sum >> 16) sum = (sum & 0xFFFF) + (sum >> 16);] [None] when it still
    runs after [fuel] rounds. *)
Fixpoint fold_carries (fuel : nat) (sum : Z) : option Z :=
  if Z.shiftr sum 16 =? 0 then Some sum
  else match fuel with
       | O => None
       | S fuel' => fold_carries fuel' (Z.land sum 0xFFFF + Z.shiftr sum 16)
       end.

(** Two rounds are enough ([fold_carries_total]). *)
Definition FOLD_FUEL : nat := 2.
Definition folded (sum : Z) : Z := default 0 (fold_carries FOLD_FUEL sum).

Definition net_checksum (data : list Z) : Z := u16 (Z.lnot (u16 (folded (sum_words 0 data)))).

(** ** State *)

(** The globals of [netstack.c]; [netif] is the hardware address of the first
    interface, if there is one. *)
Record net := {
  my_ip : Z;
  gateway_ip : Z;
  netmask_ip : Z;
  ping_received : bool;
  last_ping_ip : Z;
  arp_received : bool;
  last_arp_ip : Z;
  last_arp_mac : list Z;
  arp_cache : list (Z * list Z);
  netif : option (list Z);
  g_in_irq : bool;
  tx : list (list Z)
}.

Definition set_arp_cache (v : list (Z * list Z)) (s : net) : net :=
  {| my_ip := my_ip s; gateway_ip := gateway_ip s; netmask_ip := netmask_ip s; ping_received := ping_received s;
     last_ping_ip := last_ping_ip s; arp_received := arp_received s; last_arp_ip := last_arp_ip s;
     last_arp_mac := last_arp_mac s; arp_cache := v; netif := netif s; g_in_irq := g_in_irq s; tx := tx s |}.
Definition set_tx (v : list (list Z)) (s : net) : net :=
  {| my_ip := my_ip s; gateway_ip := gateway_ip s; netmask_ip := netmask_ip s; ping_received := ping_received s;
     last_ping_ip := last_ping_ip s; arp_received := arp_received s; last_arp_ip := last_arp_ip s;
     last_arp_mac := last_arp_mac s; arp_cache := arp_cache s; netif := netif s; g_in_irq := g_in_irq s; tx := v |}.
Definition set_ping (r : bool) (ip : Z) (s : net) : net :=
  {| my_ip := my_ip s; gateway_ip := gateway_ip s; netmask_ip := netmask_ip s; ping_received := r;
     last_ping_ip := ip; arp_received := arp_received s; last_arp_ip := last_arp_ip s;
     last_arp_mac := last_arp_mac s; arp_cache := arp_cache s; netif := netif s; g_in_irq := g_in_irq s; tx := tx s |}.
Definition set_arp (r : bool) (ip : Z) (mac : list Z) (s : net) : net :=
  {| my_ip := my_ip s; gateway_ip := gateway_ip s; netmask_ip := netmask_ip s; ping_received := ping_received s;
     last_ping_ip := last_ping_ip s; arp_received := r; last_arp_ip := ip;
     last_arp_mac := mac; arp_cache := arp_cache s; netif := netif s; g_in_irq := g_in_irq s; tx := tx s |}.
Definition set_config (ip gw mask : Z) (s : net) : net :=
  {| my_ip := ip; gateway_ip := gw; netmask_ip := mask; ping_received := ping_received s;
     last_ping_ip := last_ping_ip s; arp_received := arp_received s; last_arp_ip := last_arp_ip s;
     last_arp_mac := last_arp_mac s; arp_cache := arp_cache s; netif := netif s; g_in_irq := g_in_irq s; tx := tx s |}.

Definition netstack_set_my_ip (ip : Z) (s : net) : net := set_config ip (gateway_ip s) (netmask_ip s) s.
Definition netstack_set_gateway (ip : Z) (s : net) : net := set_config (my_ip s) ip (netmask_ip s) s.
Definition netstack_set_netmask (mask : Z) (s : net) : net := set_config (my_ip s) (gateway_ip s) mask s.

Definition send_packet (frame : list Z) : M net unit := mmodify (fun s => set_tx (tx s ++ [frame]) s).

(** ** The neighbour cache *)

Definition ARP_CACHE_MAX : nat := 64.

(** The entry of [ip] gets the new address; [false] when there is none. *)
Fixpoint arp_update (cache : list (Z * list Z)) (ip : Z) (mac : list Z) : list (Z * list Z) * bool :=
  match cache with
  | [] => ([], false)
  | (i, m) :: c => if i =? ip then ((i, mac) :: c, true)
                   else let '(c', found) := arp_update c ip mac in ((i, m) :: c', found)
  end.

Definition arp_record (cache : list (Z * list Z)) (ip : Z) (mac : list Z) : list (Z * list Z) :=
  if ((ip =? 0) || (ip =? 0xFFFFFFFF))%bool then cache else
  let '(c, found) := arp_update cache ip mac in
  if found then c else if (length cache <? ARP_CACHE_MAX)%nat then cache ++ [(ip, mac)] else cache.

Definition arp_cache_record (ip : Z) (mac : list Z) : M net unit :=
  mmodify (fun s => set_arp_cache (arp_record (arp_cache s) ip mac) s).

Definition netstack_arp_cache_clear : M net unit := mmodify (set_arp_cache []).
Definition netstack_arp_cache_count (s : net) : Z := Z.of_nat (length (arp_cache s)).
Definition netstack_arp_cache_get (idx : Z) (s : net) : option (Z * list Z) :=
  if ((idx <? 0) || (netstack_arp_cache_count s <=? idx))%bool then None else arp_cache s !! Z.to_nat idx.

Fixpoint arp_lookup (cache : list (Z * list Z)) (ip : Z) : option (list Z) :=
  match cache with
  | [] => None
  | (i, m) :: c => if i =? ip then Some m else arp_lookup c ip
  end.

(** ** Address resolution *)

Definition netstack_next_hop (dest_ip : Z) (s : net) : Z :=
  if Z.land dest_ip 0x00FFFFFF =? Z.land (my_ip s) 0x00FFFFFF then dest_ip else gateway_ip s.

Definition ETH_SIZE : nat := 14.
Definition IPV4_SIZE : nat := 20.

Definition eth_header (dest src : list Z) (type : Z) : list Z := dest ++ src ++ le_bytes 2 (htons type).

Definition netstack_send_arp_request (dest_ip : Z) : M net unit := fun s =>
  match netif s with
  | None => Some (tt, s)
  | Some mac =>
      send_packet (eth_header (replicate 6 0xFF) mac 0x0806
        ++ le_bytes 2 (htons 1) ++ le_bytes 2 (htons 0x0800) ++ [6; 4] ++ le_bytes 2 (htons 1)
        ++ mac ++ le_bytes 4 (my_ip s) ++ zeros 6 ++ le_bytes 4 dest_ip) s
  end.

Fixpoint arp_wait (target : Z) (wakes : list (net -> net)) : M net (option (list Z)) :=
  s <-- mgets id ;;
  if (arp_received s && (last_arp_ip s =? target))%bool then
    mmodify (fun s => set_arp false (last_arp_ip s) (last_arp_mac s) s) ;;;
    mret_ (Some (last_arp_mac s))
  else match wakes with
       | [] => mret_ None
       | w :: wakes' => mmodify w ;;; arp_wait target wakes'
       end.

(** The address for [dest_ip]; [None] is the result -1. *)
Definition netstack_resolve_mac (wakes : list (net -> net)) (dest_ip : Z) : M net (option (list Z)) :=
  s <-- mgets id ;;
  let target_ip := netstack_next_hop dest_ip s in
  if dest_ip =? 0xFFFFFFFF then mret_ (Some (replicate 6 0xFF)) else
  match arp_lookup (arp_cache s) target_ip with
  | Some mac => mret_ (Some mac)
  | None =>
      if last_arp_ip s =? target_ip then mret_ (Some (last_arp_mac s)) else
      if g_in_irq s then mret_ None else
      mmodify (fun s => set_arp false 0 (last_arp_mac s) s) ;;;
      netstack_send_arp_request target_ip ;;;
      arp_wait target_ip wakes
  end.

(** ** IPv4 *)

(** The header with its checksum field zero, and with the checksum stored. *)
Definition ipv4_header0 (s : net) (dest_ip proto len : Z) : list Z :=
  [0x45; 0] ++ le_bytes 2 (htons (u16 (20 + len))) ++ le_bytes 2 0 ++ le_bytes 2 0 ++ [64; proto]
  ++ le_bytes 2 0 ++ le_bytes 4 (my_ip s) ++ le_bytes 4 dest_ip.
Definition put_checksum (off : nat) (pkt : list Z) (c : Z) : list Z := put16 pkt off (htons c).
Definition ipv4_header (s : net) (dest_ip proto len : Z) : list Z :=
  put_checksum 10 (ipv4_header0 s dest_ip proto len) (net_checksum (ipv4_header0 s dest_ip proto len)).

(** [len] is 16 bits wide; callers with longer data pass it cut. *)
Definition netstack_send_ipv4 (wakes : list (net -> net)) (dest_ip proto : Z) (data : list Z) (len : Z) : M net unit :=
  if 1480 <? len then mret_ tt else
  s <-- mgets id ;;
  match netif s with
  | None => mret_ tt
  | Some mac =>
      r <-- netstack_resolve_mac wakes dest_ip ;;
      match r with
      | None => mret_ tt
      | Some dest_mac =>
          s <-- mgets id ;;
          send_packet (eth_header dest_mac mac 0x0800 ++ ipv4_header s dest_ip proto len ++ take (Z.to_nat len) data)
      end
  end.

(** ** The checksum: lemmas *)

(** The sum of the big-endian words, without wrap-around. *)
Fixpoint word_sum (data : list Z) : Z :=
  match data with
  | [] => 0
  | [a] => a * 256
  | a :: b :: data' => a * 256 + b + word_sum data'
  end.

(** Induction two bytes at a time. *)
Lemma pair_ind (P : list Z -> Prop) :
  P [] -> (forall a, P [a]) -> (forall a b l, P l -> P (a :: b :: l)) -> forall l, P l.
Proof.
  intros H0 H1 H2. fix IH 1. intros [|a [|b l]]; [exact H0|apply H1|apply H2, IH].
Qed.

Lemma word_sum_bounds data : Forall is_byte data -> 0 <= word_sum data <= 0xFFFF * ((Z.of_nat (length data) + 1) / 2).
Proof.
  induction data as [|a|a b l IH] using pair_ind; intros Hb; simpl word_sum; [done| |].
  - apply Forall_cons in Hb as [Ha _]. unfold is_byte in Ha. cbn [length]. change ((Z.of_nat 1 + 1) / 2) with 1. lia.
  - apply Forall_cons in Hb as [Ha [Hb Hl]%Forall_cons]. specialize (IH Hl). unfold is_byte in Ha, Hb. cbn [length].
    rewrite !Nat2Z.inj_succ. replace (Z.succ (Z.succ (Z.of_nat (length l))) + 1) with (Z.of_nat (length l) + 1 + 1 * 2) by lia.
    rewrite Z.div_add by lia. lia.
Qed.

Lemma byte_pair a b : is_byte a -> is_byte b -> u16 (Z.lor (Z.shiftl a 8) b) = a * 256 + b.
Proof.
  unfold is_byte. intros Ha Hb. rewrite Z.lor_comm, lor_shiftl_add by lia. unfold u16. rewrite Z.mod_small; lia.
Qed.

Lemma byte_high a : is_byte a -> u16 (Z.shiftl a 8) = a * 256.
Proof. unfold is_byte. intros Ha. rewrite Z.shiftl_mul_pow2 by lia. unfold u16. rewrite Z.mod_small; lia. Qed.

Lemma sum_words_spec data sum :
  Forall is_byte data -> 0 <= sum -> sum + 0xFFFF * ((Z.of_nat (length data) + 1) / 2) < 2 ^ 32 ->
  sum_words sum data = sum + word_sum data.
Proof.
  revert sum. induction data as [|a|a b l IH] using pair_ind; intros sum Hb H0 Hs; cbn [sum_words word_sum]; [lia| |].
  - apply Forall_cons in Hb as [Ha _]. rewrite byte_high by done. unfold is_byte in Ha. apply u32_small. cbn [length] in Hs. change ((Z.of_nat 1 + 1) / 2) with 1 in Hs. lia.
  - apply Forall_cons in Hb as [Ha [Hb Hl]%Forall_cons]. rewrite byte_pair by done. unfold is_byte in Ha, Hb.
    cbn [length] in Hs. rewrite !Nat2Z.inj_succ in Hs.
    replace (Z.succ (Z.succ (Z.of_nat (length l))) + 1) with (Z.of_nat (length l) + 1 + 1 * 2) in Hs by lia.
    rewrite Z.div_add in Hs by lia. assert (0 <= (Z.of_nat (length l) + 1) / 2) by (apply Z.div_pos; lia).
    rewrite u32_small by lia. rewrite IH; [lia|done|lia|lia].
Qed.

Lemma fold_step sum : 0 <= sum -> Z.land sum 0xFFFF + Z.shiftr sum 16 = sum - 65535 * (sum / 65536).
Proof.
  intros H. rewrite (Z.land_ones sum 16 ltac:(lia) : Z.land sum 0xFFFF = _), Z.shiftr_div_pow2 by lia.
  change (2 ^ 16) with 65536. zlia.
Qed.

Lemma fold_carries_eq fuel sum :
  0 <= sum -> fold_carries fuel sum
  = if sum <? 65536 then Some sum
    else match fuel with O => None | S fuel' => fold_carries fuel' (sum - 65535 * (sum / 65536)) end.
Proof.
  intros H. assert (E : (Z.shiftr sum 16 =? 0) = (sum <? 65536)).
  { rewrite Z.shiftr_div_pow2 by lia. change (2 ^ 16) with 65536.
    destruct (Z.eqb_spec (sum / 65536) 0), (Z.ltb_spec sum 65536); done || zlia. }
  destruct fuel; cbn [fold_carries]; rewrite E; [done|]. by rewrite fold_step.
Qed.

Lemma fold_carries_spec fuel sum r :
  0 <= sum -> fold_carries fuel sum = Some r -> 0 <= r < 65536 /\ r mod 65535 = sum mod 65535 /\ (r = 0 <-> sum = 0).
Proof.
  revert sum. induction fuel as [|fuel IH]; intros sum H0; rewrite fold_carries_eq by done;
    (destruct (Z.ltb_spec sum 65536) as [E|E]; [intros [= <-]; lia|]); [done|].
  intros Hr. destruct (IH (sum - 65535 * (sum / 65536))) as (H1 & H2 & H3); [zlia|done|]. split; [done|]. split.
  - rewrite H2. replace (sum - 65535 * (sum / 65536)) with (sum + (- (sum / 65536)) * 65535) by lia. apply Z.mod_add. lia.
  - rewrite H3. zlia.
Qed.

Lemma fold_carries_total sum : is_u32 sum -> exists r, fold_carries FOLD_FUEL sum = Some r.
Proof.
  intros [H0 H1]. unfold FOLD_FUEL. rewrite fold_carries_eq by done. destruct (Z.ltb_spec sum 65536); [by eexists|].
  set (s1 := sum - 65535 * (sum / 65536)). assert (Hs1 : 65536 <= s1 + 65535 /\ s1 < 131071) by (unfold s1; zlia).
  rewrite fold_carries_eq by lia. destruct (Z.ltb_spec s1 65536); [by eexists|].
  rewrite fold_carries_eq by zlia. rewrite (proj2 (Z.ltb_lt _ _)); [by eexists|zlia].
Qed.

Lemma folded_spec sum : is_u32 sum -> 0 <= folded sum < 65536 /\ (folded sum) mod 65535 = sum mod 65535 /\ (folded sum = 0 <-> sum = 0).
Proof.
  intros H. destruct (fold_carries_total sum H) as [r Hr]. unfold folded. rewrite Hr. cbn [default].
  destruct H. by apply (fold_carries_spec FOLD_FUEL).
Qed.

Lemma lnot16 r : 0 <= r < 65536 -> u16 (Z.lnot r) = 65535 - r.
Proof. intros H. unfold u16, Z.lnot. change (2 ^ 16) with 65536. zlia. Qed.

(** ** Storing a checksum *)

Lemma htons_spec c : 0 <= c < 65536 -> htons c = (c mod 256) * 256 + c / 256.
Proof.
  intros Hc. unfold htons. rewrite (Z.land_ones c 8 ltac:(lia) : Z.land c 0xFF = _).
  assert (Hh : Z.shiftr (Z.land c 0xFF00) 8 = c / 256).
  { rewrite Z.shiftr_land. change (Z.shiftr 0xFF00 8) with (Z.ones 8). rewrite Z.land_ones, Z.shiftr_div_pow2 by lia.
    change (2 ^ 8) with 256. apply Z.mod_small. zlia. }
  rewrite Hh. rewrite Z.lor_comm, lor_shiftl_add by zlia. change (2 ^ 8) with 256. lia.
Qed.

Lemma htons_range c : 0 <= c < 65536 -> 0 <= htons c < 65536.
Proof. intros Hc. rewrite htons_spec by done. zlia. Qed.

Lemma htons_htons c : 0 <= c < 65536 -> htons (htons c) = c.
Proof. intros Hc. rewrite (htons_spec (htons c)) by (by apply htons_range). rewrite htons_spec by done. zlia. Qed.

Lemma le_bytes_2 v : 0 <= v < 65536 -> le_bytes 2 v = [v mod 256; v / 256].
Proof.
  intros Hv. unfold le_bytes. change 2 with (Z.succ (Z.succ 0)). rewrite !Z_to_little_endian_succ by lia.
  cbn [Z_to_little_endian]. rewrite !Z.land_ones, Z.shiftr_div_pow2 by lia. change (2 ^ 8) with 256.
  f_equal. f_equal. apply Z.mod_small. zlia.
Qed.

(** In memory a stored [htons c] is the big-endian [c]. *)
Lemma be_bytes c : 0 <= c < 65536 -> le_bytes 2 (htons c) = [c / 256; c mod 256].
Proof.
  intros Hc. rewrite le_bytes_2 by (by apply htons_range). rewrite htons_spec by done. f_equal; [zlia|]. f_equal. zlia.
Qed.

Lemma word_sum_app l1 l2 : Nat.even (length l1) = true -> word_sum (l1 ++ l2) = word_sum l1 + word_sum l2.
Proof.
  induction l1 as [|a|a b l IH] using pair_ind; intros He; [done|done|]. cbn [app word_sum]. rewrite IH by exact He. lia.
Qed.

Lemma word_sum_put pkt off c :
  0 <= c < 65536 -> Nat.even off = true -> (off + 2 <= length pkt)%nat -> sub pkt off 2 = [0; 0] ->
  word_sum (put_checksum off pkt c) = word_sum pkt + c.
Proof.
  intros Hc He Hl Hz. unfold put_checksum, put16, splice. rewrite be_bytes by done. cbn [length].
  assert (Hlen : Nat.even (length (take off pkt)) = true) by (rewrite length_take, Nat.min_l by lia; done).
  rewrite word_sum_app by done. rewrite <- (take_drop off pkt) at 3. rewrite word_sum_app by done.
  assert (Hd : drop off pkt = [0; 0] ++ drop (off + 2) pkt).
  { rewrite <- Hz. unfold sub. rewrite <- drop_drop. by rewrite take_drop. }
  rewrite (word_sum_app (take off pkt)) by done. rewrite Hd. cbn [app word_sum]. zlia.
Qed.

Lemma length_put_checksum pkt off c : (off + 2 <= length pkt)%nat -> length (put_checksum off pkt c) = length pkt.
Proof. apply length_put16. Qed.

Lemma put_checksum_bytes pkt off c : 0 <= c < 65536 -> Forall is_byte pkt -> Forall is_byte (put_checksum off pkt c).
Proof.
  intros Hc Hp. unfold put_checksum, put16. apply Forall_splice; [done|]. apply le_bytes_bytes. lia.
Qed.

(** Packets fit the 32-bit sum. *)
Lemma sum_fits pkt : Forall is_byte pkt -> Z.of_nat (length pkt) < 65536 ->
  sum_words 0 pkt = word_sum pkt /\ is_u32 (word_sum pkt).
Proof.
  intros Hp Hl. pose proof (word_sum_bounds pkt Hp). assert ((Z.of_nat (length pkt) + 1) / 2 <= 32768) by zlia.
  split; [|split; lia]. rewrite sum_words_spec; [lia|done|lia|lia].
Qed.

Lemma net_checksum_spec pkt : Forall is_byte pkt -> Z.of_nat (length pkt) < 65536 ->
  net_checksum pkt = 65535 - folded (word_sum pkt) /\ 0 <= net_checksum pkt < 65536.
Proof.
  intros Hp Hl. destruct (sum_fits pkt Hp Hl) as [E Hr]. destruct (folded_spec _ Hr) as (Hf & _).
  unfold net_checksum. rewrite E, (u16_small (folded _)), lnot16 by lia. lia.
Qed.

(** The receiver's check of a packet in which the sender stored the checksum. *)
Lemma checksum_verifies pkt off :
  Forall is_byte pkt -> Z.of_nat (length pkt) < 65536 -> Nat.even off = true -> (off + 2 <= length pkt)%nat ->
  sub pkt off 2 = [0; 0] -> net_checksum (put_checksum off pkt (net_checksum pkt)) = 0.
Proof.
  intros Hp Hl He Ho Hz. destruct (net_checksum_spec pkt Hp Hl) as [Hc Hcr]. destruct (sum_fits pkt Hp Hl) as [_ Hr].
  set (pkt' := put_checksum off pkt (net_checksum pkt)).
  assert (Hp' : Forall is_byte pkt') by (by apply put_checksum_bytes).
  assert (Hl' : Z.of_nat (length pkt') < 65536) by (unfold pkt'; by rewrite length_put_checksum).
  destruct (net_checksum_spec pkt' Hp' Hl') as [-> _]. destruct (sum_fits pkt' Hp' Hl') as [_ Hr'].
  assert (Hw : word_sum pkt' = word_sum pkt + net_checksum pkt) by (by apply word_sum_put).
  destruct (folded_spec _ Hr) as (F1 & F2 & F3). destruct (folded_spec _ Hr') as (G1 & G2 & G3).
  rewrite Hw, Hc in G1, G2, G3 |- *. set (r := folded (word_sum pkt)) in *.
  set (g := folded (word_sum pkt + (65535 - r))) in *. unfold is_u32 in Hr.
  assert (Hg : g mod 65535 = 0).
  { rewrite G2. replace (word_sum pkt + (65535 - r)) with (word_sum pkt - r + 1 * 65535) by lia. rewrite Z.mod_add by lia.
    rewrite Zminus_mod, F2, Z.sub_diag. done. }
  assert (Hg0 : g <> 0) by lia. clearbody g. clear - Hg G1 Hg0. zlia.
Qed.

(** ** Properties *)

(** [checksum_fold_terminates]: the loop that folds the carries of a checksum ends after at most two
    rounds for every 32-bit sum, with a 16-bit result that is congruent to the
    sum modulo 65535. *)
Theorem checksum_fold_terminates sum :
  is_u32 sum ->
  exists r, fold_carries FOLD_FUEL sum = Some r /\ 0 <= r < 65536 /\ r mod 65535 = sum mod 65535 /\ (r = 0 <-> sum = 0).
Proof.
  intros H. destruct (fold_carries_total sum H) as [r Hr]. exists r. split; [done|]. destruct H.
  by apply (fold_carries_spec FOLD_FUEL).
Qed.

Lemma checksum_fold_terminates_witness :
  exists r, fold_carries FOLD_FUEL 0xFFFFFFFF = Some r /\ r mod 65535 = 0.
Proof.
  destruct (checksum_fold_terminates 0xFFFFFFFF ltac:(by_compute)) as (r & Hr & _ & Hm & _). exists r. done.
Defined.

Lemma ipv4_header0_bytes s dest proto len :
  is_byte proto -> Forall is_byte (ipv4_header0 s dest proto len).
Proof.
  intros Hp. unfold ipv4_header0. rewrite !Forall_app. split_and!;
    try (apply le_bytes_bytes; lia); repeat apply Forall_cons_2; try done; constructor.
Qed.

Lemma ipv4_header0_fields s dest proto len :
  ipv4_header0 s dest proto len
  = [0x45; 0] ++ le_bytes 2 (htons (u16 (20 + len))) ++ [0; 0; 0; 0; 64; proto; 0; 0] ++ le_bytes 4 (my_ip s) ++ le_bytes 4 dest.
Proof. done. Qed.

Lemma length_ipv4_header0 s dest proto len : length (ipv4_header0 s dest proto len) = 20%nat.
Proof. rewrite ipv4_header0_fields, !length_app, !length_le_bytes by lia. done. Qed.

(** The header that is sent: its fields, and the check the receiver makes. *)
Lemma ipv4_header_spec s dest proto len :
  is_byte proto -> 0 <= len <= 1480 ->
  let h := ipv4_header s dest proto len in
  length h = 20%nat /\ net_checksum h = 0 /\ sub h 0 4 = [0x45; 0; (20 + len) / 256; (20 + len) mod 256]
  /\ get8 h 9 = proto /\ sub h 12 4 = le_bytes 4 (my_ip s) /\ sub h 16 4 = le_bytes 4 dest.
Proof.
  intros Hp Hl h. pose proof (ipv4_header0_bytes s dest proto len Hp) as Hb. pose proof (length_ipv4_header0 s dest proto len) as Hlen.
  assert (H2 : le_bytes 2 (htons (u16 (20 + len))) = [(20 + len) / 256; (20 + len) mod 256])
    by (rewrite u16_small by lia; apply be_bytes; lia).
  pose proof (length_le_bytes 4 (my_ip s) ltac:(lia)) as L1. pose proof (length_le_bytes 4 dest ltac:(lia)) as L2.
  destruct (net_checksum_spec (ipv4_header0 s dest proto len) Hb ltac:(rewrite Hlen; lia)) as [_ Hc].
  assert (Hh : h = [0x45; 0; (20 + len) / 256; (20 + len) mod 256; 0; 0; 0; 0; 64; proto]
    ++ le_bytes 2 (htons (net_checksum (ipv4_header0 s dest proto len))) ++ le_bytes 4 (my_ip s) ++ le_bytes 4 dest).
  { unfold h, ipv4_header, put_checksum, put16, splice. rewrite ipv4_header0_fields at 1 3. rewrite H2, length_le_bytes by lia. done. }
  split_and!.
  - unfold h, ipv4_header. by rewrite length_put_checksum by lia.
  - apply checksum_verifies; [done|rewrite Hlen; lia|done|rewrite Hlen; lia|by rewrite ipv4_header0_fields, H2].
  - by rewrite Hh.
  - by rewrite Hh.
  - rewrite Hh. rewrite be_bytes by done. unfold sub. cbn [app drop]. rewrite drop_0. by rewrite take_app_le, take_ge by lia.
  - rewrite Hh. rewrite be_bytes by done. unfold sub. cbn [app drop].
    rewrite drop_app_length' by (by rewrite L1). by rewrite take_ge by (rewrite L2; lia).
Qed.

Lemma send_ipv4_spec s wakes dest proto data len mac dmac :
  netif s = Some mac -> is_byte proto -> 0 <= len < 65536 ->
  (dest = 0xFFFFFFFF /\ dmac = replicate 6 0xFF
   \/ dest <> 0xFFFFFFFF /\ arp_lookup (arp_cache s) (netstack_next_hop dest s) = Some dmac) ->
  exists s', netstack_send_ipv4 wakes dest proto data len s = Some (tt, s')
    /\ if 1480 <? len then s' = s
       else exists h, s' = set_tx (tx s ++ [dmac ++ mac ++ [8; 0] ++ h ++ take (Z.to_nat len) data]) s
         /\ length h = 20%nat /\ net_checksum h = 0
         /\ sub h 0 4 = [0x45; 0; (20 + len) / 256; (20 + len) mod 256]
         /\ get8 h 9 = proto /\ sub h 12 4 = le_bytes 4 (my_ip s) /\ sub h 16 4 = le_bytes 4 dest.
Proof.
  intros Hif Hp Hl Hr. unfold netstack_send_ipv4. destruct (Z.ltb_spec 1480 len) as [Hlt|Hle]; [by exists s|].
  unfold mbind_, mgets, id. rewrite Hif. assert (Hres : netstack_resolve_mac wakes dest s = Some (Some dmac, s)).
  { unfold netstack_resolve_mac, mbind_, mgets, id. destruct Hr as [[-> ->]|[Hne Hc]]; [done|].
    by rewrite (proj2 (Z.eqb_neq _ _) Hne), Hc. }
  rewrite Hres. eexists. split; [reflexivity|]. exists (ipv4_header s dest proto len).
  split; [|apply ipv4_header_spec; [done|lia]]. unfold eth_header. rewrite <- !app_assoc. done.
Qed.

(** [netstack_send_ipv4] of at most 1480 bytes to a resolved neighbour hands
    one frame to the interface and changes nothing else: the Ethernet header, an
    IPv4 header with the right length, protocol and addresses whose checksum
    verifies at the receiver, and the data.  Longer data is dropped. *)
Theorem netstack_send_ipv4_frame s wakes dest proto data len mac dmac :
  netif s = Some mac -> is_byte proto -> 0 <= len < 65536 ->
  (dest = 0xFFFFFFFF /\ dmac = replicate 6 0xFF
   \/ dest <> 0xFFFFFFFF /\ arp_lookup (arp_cache s) (netstack_next_hop dest s) = Some dmac) ->
  exists s', netstack_send_ipv4 wakes dest proto data len s = Some (tt, s')
    /\ if 1480 <? len then s' = s
       else exists h, s' = set_tx (tx s ++ [dmac ++ mac ++ [8; 0] ++ h ++ take (Z.to_nat len) data]) s
         /\ length h = 20%nat /\ net_checksum h = 0
         /\ sub h 0 4 = [0x45; 0; (20 + len) / 256; (20 + len) mod 256]
         /\ get8 h 9 = proto /\ sub h 12 4 = le_bytes 4 (my_ip s) /\ sub h 16 4 = le_bytes 4 dest.
Proof. apply send_ipv4_spec. Qed.

Definition net_demo : net :=
  {| my_ip := 0x0F02000A; gateway_ip := 0x0202000A; netmask_ip := 0x00FFFFFF; ping_received := false; last_ping_ip := 0;
     arp_received := false; last_arp_ip := 0; last_arp_mac := zeros 6; arp_cache := [(0x0202000A, [82; 85; 10; 0; 2; 2])];
     netif := Some [82; 84; 0; 18; 52; 86]; g_in_irq := true; tx := [] |}.

Lemma netstack_send_ipv4_frame_witness :
  exists s', netstack_send_ipv4 [] 0x08080808 17 [1; 2; 3] 3 net_demo = Some (tt, s') /\ length (tx s') = 1%nat.
Proof.
  destruct (netstack_send_ipv4_frame net_demo [] 0x08080808 17 [1; 2; 3] 3 [82; 84; 0; 18; 52; 86] [82; 85; 10; 0; 2; 2])
    as (s' & H1 & H2).
  - reflexivity.
  - by_compute.
  - lia.
  - right. split; [discriminate|vm_compute; reflexivity].
  - exists s'. split; [exact H1|]. destruct H2 as (h & -> & _). reflexivity.
Defined.
