(* ===== verification/Tcp.v ===== *)
(** * TCP ([src/src/net/tcp.c], [tcp.h])

    The connection state machine.  Sockets are heap blocks in a linked list;
    [recv_buffer] is a heap block whose bytes are those of [kbytes], so a copy
    that leaves the buffer overwrites the memory behind it.  [ip_out] collects
    the segments handed to [netstack_send_ipv4], with their destination, oldest
    first.  Logging is left out; a segment under construction is a list of bytes,
    and its heap block is allocated and freed around it.

    [tcp_connect] waits in a loop that other code interrupts: it takes the list
    [events] of what happens at each [switch_task]. *)

From Stdlib Require Import ZArith Lia.
From stdpp Require Import base numbers list gmap.
From S2P Require Import Prelude Pmm Kheap Vmm Usercopy Bytes Net.

(** ** Data *)

Definition TCP_FIN : Z := 0x01.
Definition TCP_SYN : Z := 0x02.
Definition TCP_RST : Z := 0x04.
Definition TCP_PSH : Z := 0x08.
Definition TCP_ACK : Z := 0x10.

Inductive tcp_state :=
  TCP_CLOSED | TCP_LISTEN | TCP_SYN_SENT | TCP_SYN_RECEIVED | TCP_ESTABLISHED | TCP_FIN_WAIT_1 | TCP_FIN_WAIT_2
| TCP_CLOSE_WAIT | TCP_CLOSING | TCP_LAST_ACK | TCP_TIME_WAIT.
#[export] Instance tcp_state_eq_dec : EqDecision tcp_state.
Proof. solve_decision. Defined.

Record tcp_socket := {
  local_port : Z;
  remote_port : Z;
  remote_ip : Z;
  local_ip : Z;
  seq_num : Z;
  ack_num : Z;
  ack_received : Z;
  state : tcp_state;
  recv_buffer : Z;
  recv_buffer_size : Z;
  recv_write_ptr : Z;
  recv_read_ptr : Z;
  next : Z
}.

Definition SIZEOF_SOCKET : Z := 64.
Definition RECV_SIZE : Z := 32768.

Definition with_st (v : tcp_state) (k : tcp_socket) : tcp_socket :=
  {| local_port := local_port k; remote_port := remote_port k; remote_ip := remote_ip k; local_ip := local_ip k;
     seq_num := seq_num k; ack_num := ack_num k; ack_received := ack_received k; state := v;
     recv_buffer := recv_buffer k; recv_buffer_size := recv_buffer_size k; recv_write_ptr := recv_write_ptr k;
     recv_read_ptr := recv_read_ptr k; next := next k |}.
Definition with_seq (v : Z) (k : tcp_socket) : tcp_socket :=
  {| local_port := local_port k; remote_port := remote_port k; remote_ip := remote_ip k; local_ip := local_ip k;
     seq_num := v; ack_num := ack_num k; ack_received := ack_received k; state := state k;
     recv_buffer := recv_buffer k; recv_buffer_size := recv_buffer_size k; recv_write_ptr := recv_write_ptr k;
     recv_read_ptr := recv_read_ptr k; next := next k |}.
Definition with_ack (v : Z) (k : tcp_socket) : tcp_socket :=
  {| local_port := local_port k; remote_port := remote_port k; remote_ip := remote_ip k; local_ip := local_ip k;
     seq_num := seq_num k; ack_num := v; ack_received := ack_received k; state := state k;
     recv_buffer := recv_buffer k; recv_buffer_size := recv_buffer_size k; recv_write_ptr := recv_write_ptr k;
     recv_read_ptr := recv_read_ptr k; next := next k |}.
Definition with_acked (v : Z) (k : tcp_socket) : tcp_socket :=
  {| local_port := local_port k; remote_port := remote_port k; remote_ip := remote_ip k; local_ip := local_ip k;
     seq_num := seq_num k; ack_num := ack_num k; ack_received := v; state := state k;
     recv_buffer := recv_buffer k; recv_buffer_size := recv_buffer_size k; recv_write_ptr := recv_write_ptr k;
     recv_read_ptr := recv_read_ptr k; next := next k |}.
Definition with_ptrs (r w : Z) (k : tcp_socket) : tcp_socket :=
  {| local_port := local_port k; remote_port := remote_port k; remote_ip := remote_ip k; local_ip := local_ip k;
     seq_num := seq_num k; ack_num := ack_num k; ack_received := ack_received k; state := state k;
     recv_buffer := recv_buffer k; recv_buffer_size := recv_buffer_size k; recv_write_ptr := w;
     recv_read_ptr := r; next := next k |}.
Definition with_next_sock (v : Z) (k : tcp_socket) : tcp_socket :=
  {| local_port := local_port k; remote_port := remote_port k; remote_ip := remote_ip k; local_ip := local_ip k;
     seq_num := seq_num k; ack_num := ack_num k; ack_received := ack_received k; state := state k;
     recv_buffer := recv_buffer k; recv_buffer_size := recv_buffer_size k; recv_write_ptr := recv_write_ptr k;
     recv_read_ptr := recv_read_ptr k; next := v |}.

Record tcp := {
  th : kheap;
  socks : gmap Z tcp_socket;
  sockets : Z;
  ephemeral_port : Z;
  tcp_ticks : Z;
  ip_out : list (Z * list Z)
}.

Definition set_th (v : kheap) (s : tcp) : tcp :=
  {| th := v; socks := socks s; sockets := sockets s; ephemeral_port := ephemeral_port s; tcp_ticks := tcp_ticks s; ip_out := ip_out s |}.
Definition set_socks (v : gmap Z tcp_socket) (s : tcp) : tcp :=
  {| th := th s; socks := v; sockets := sockets s; ephemeral_port := ephemeral_port s; tcp_ticks := tcp_ticks s; ip_out := ip_out s |}.
Definition set_sockets (v : Z) (s : tcp) : tcp :=
  {| th := th s; socks := socks s; sockets := v; ephemeral_port := ephemeral_port s; tcp_ticks := tcp_ticks s; ip_out := ip_out s |}.
Definition set_port (v : Z) (s : tcp) : tcp :=
  {| th := th s; socks := socks s; sockets := sockets s; ephemeral_port := v; tcp_ticks := tcp_ticks s; ip_out := ip_out s |}.
Definition set_out (v : list (Z * list Z)) (s : tcp) : tcp :=
  {| th := th s; socks := socks s; sockets := sockets s; ephemeral_port := ephemeral_port s; tcp_ticks := tcp_ticks s; ip_out := v |}.

Definition tcp_init : M tcp unit := mmodify (set_sockets 0).

(** [p->field] and [p->field = ...] *)
Definition sock_at (p : Z) : M tcp tcp_socket := fun s =>
  match socks s !! p with Some k => Some (k, s) | None => None end.
Definition upd_sock (p : Z) (f : tcp_socket -> tcp_socket) : M tcp unit := fun s =>
  match socks s !! p with Some k => Some (tt, set_socks (<[p := f k]> (socks s)) s) | None => None end.
Definition put_sock (p : Z) (k : tcp_socket) : M tcp unit := mmodify (fun s => set_socks (<[p := k]> (socks s)) s).

Definition tcp_kmalloc (size : Z) : M tcp Z := fun s =>
  match kmalloc (th s) size with KRet p h => Some (p, set_th h s) | _ => None end.
Definition tcp_kfree (p : Z) : M tcp unit := mmodify (fun s => set_th (kfree (th s) p) s).
Definition tcp_memcpy (dst : Z) (src : list Z) : M tcp unit :=
  mmodify (fun s => set_th (set_kbytes (th s) (write_bytes (kbytes (th s)) dst src)) s).

(** ** Segments *)

Definition pseudo_header (src_ip dest_ip len : Z) : list Z :=
  le_bytes 4 src_ip ++ le_bytes 4 dest_ip ++ [0; 6; Z.land (Z.shiftr len 8) 0xFF; Z.land len 0xFF].

(** The value [tcp_checksum] passes to [htons]; [len] is 16 bits wide. *)
Definition tcp_checksum (packet : list Z) (len src_ip dest_ip : Z) : Z :=
  u16 (Z.lnot (u16 (folded (sum_words (sum_words 0 (pseudo_header src_ip dest_ip len)) (take (Z.to_nat len) packet))))).

Definition TCP_HDR : Z := 20.

Definition tcp_segment0 (k : tcp_socket) (flags : Z) (payload : list Z) (seq : Z) : list Z :=
  le_bytes 2 (htons (local_port k)) ++ le_bytes 2 (htons (remote_port k)) ++ le_bytes 4 (htonl seq) ++ le_bytes 4 (htonl (ack_num k))
  ++ [0x50; flags] ++ le_bytes 2 (htons 8192) ++ [0; 0; 0; 0] ++ payload.

Definition send_tcp_packet (p flags : Z) (payload : list Z) (seq : Z) : M tcp unit :=
  let packet_len := u32 (TCP_HDR + Z.of_nat (length payload)) in
  packet <-- tcp_kmalloc packet_len ;;
  k <-- sock_at p ;;
  let seg := tcp_segment0 k flags payload seq in
  let seg := put_checksum 16 seg (tcp_checksum seg (u16 packet_len) (local_ip k) (remote_ip k)) in
  mmodify (fun s => set_out (ip_out s ++ [(remote_ip k, take (Z.to_nat (u16 packet_len)) seg)]) s) ;;;
  tcp_kfree packet.

(** ** Connecting, sending, closing *)

(** A socket cleared by [memset] with the fields its creators set. *)
Definition new_socket (lport rport rip lip seq : Z) (st : tcp_state) (buf nxt : Z) : tcp_socket :=
  {| local_port := lport; remote_port := rport; remote_ip := rip; local_ip := lip; seq_num := seq; ack_num := 0; ack_received := 0;
     state := st; recv_buffer := buf; recv_buffer_size := RECV_SIZE; recv_write_ptr := 0; recv_read_ptr := 0; next := nxt |}.

(** The wait loop of [tcp_connect]: [true] when it ended, [false] when it still
    waits after the given events. *)
Fixpoint connect_wait (sock start last_retrans : Z) (events : list (M tcp unit)) : M tcp bool :=
  k <-- sock_at sock ;;
  now <-- mgets tcp_ticks ;;
  let elapsed := u32 (now - start) in
  if (bool_decide (state k = TCP_ESTABLISHED) || (9000 <=? elapsed))%bool then mret_ true else
  if bool_decide (state k = TCP_CLOSED) then mret_ true else
  let retrans := (bool_decide (state k = TCP_SYN_SENT) && (500 <=? s32 elapsed - last_retrans))%bool in
  mwhen retrans (send_tcp_packet sock TCP_SYN [] (u32 (seq_num k - 1))) ;;;
  match events with
  | [] => mret_ false
  | e :: events' => e ;;; connect_wait sock start (if retrans then s32 elapsed else last_retrans) events'
  end.

(** [while ( *pp && *pp != sock) pp = &( *pp)->next; if ( *pp) *pp = sock->next;]
    from the link [pp] of the socket [prev] ([None]: the list head). *)
Fixpoint unlink_socket (sock nxt : Z) (prev : option Z) (p : Z) (fuel : nat) : M tcp unit :=
  if p =? 0 then mret_ tt
  else if p =? sock then
    match prev with
    | None => mmodify (set_sockets nxt)
    | Some q => upd_sock q (with_next_sock nxt)
    end
  else match fuel with
       | O => mstop
       | S fuel' => k <-- sock_at p ;; unlink_socket sock nxt (Some p) (next k) fuel'
       end.

(** [None]: still waiting; [Some 0]: failed. *)
Definition tcp_connect (my_ip dest_ip dest_port : Z) (events : list (M tcp unit)) : M tcp (option Z) :=
  sock <-- tcp_kmalloc SIZEOF_SOCKET ;;
  lport <-- mgets ephemeral_port ;;
  let eph := u16 (lport + 1) in
  mmodify (set_port eph) ;;;
  now <-- mgets tcp_ticks ;;
  let seq := u32 (now * 1000 + Z.land eph 0xFFF) in
  buf <-- tcp_kmalloc RECV_SIZE ;;
  head <-- mgets sockets ;;
  put_sock sock (new_socket lport dest_port dest_ip my_ip seq TCP_CLOSED buf head) ;;;
  mmodify (set_sockets sock) ;;;
  upd_sock sock (with_seq (u32 (seq + 1))) ;;;
  send_tcp_packet sock TCP_SYN [] seq ;;;
  upd_sock sock (with_st TCP_SYN_SENT) ;;;
  start <-- mgets tcp_ticks ;;
  ended <-- connect_wait sock start (-99999) events ;;
  if negb ended then mret_ None else
  k <-- sock_at sock ;;
  if bool_decide (state k = TCP_ESTABLISHED) then mret_ (Some sock) else
  s <-- mgets id ;;
  unlink_socket sock (next k) None (sockets s) (size (socks s)) ;;;
  mwhen (negb (recv_buffer k =? 0)) (tcp_kfree (recv_buffer k)) ;;;
  tcp_kfree sock ;;;
  mmodify (fun s => set_socks (delete sock (socks s)) s) ;;;
  mret_ (Some 0).

Definition tcp_send (sock : Z) (data : list Z) : M tcp Z :=
  k <-- sock_at sock ;;
  if negb (bool_decide (state k = TCP_ESTABLISHED)) then mret_ 0 else
  let seq := seq_num k in
  upd_sock sock (with_seq (u32 (seq + Z.of_nat (length data)))) ;;;
  send_tcp_packet sock (Z.lor TCP_PSH TCP_ACK) data seq ;;;
  mret_ seq.

Definition tcp_resend (sock seq : Z) (data : list Z) : M tcp unit :=
  k <-- sock_at sock ;;
  if (negb (bool_decide (state k = TCP_ESTABLISHED)) && negb (bool_decide (state k = TCP_FIN_WAIT_1)))%bool then mret_ tt
  else send_tcp_packet sock (Z.lor TCP_PSH TCP_ACK) data seq.

Definition tcp_close (sock : Z) : M tcp unit :=
  if sock =? 0 then mret_ tt else
  k <-- sock_at sock ;;
  upd_sock sock (with_seq (u32 (seq_num k + 1))) ;;;
  send_tcp_packet sock (Z.lor TCP_FIN TCP_ACK) [] (seq_num k) ;;;
  upd_sock sock (with_st TCP_FIN_WAIT_1).

(** ** Receiving *)

(** The result and the bytes copied to the caller's buffer. *)
Definition tcp_receive (sock len : Z) : M tcp (Z * list Z) :=
  if sock =? 0 then mret_ (-1, []) else
  k <-- sock_at sock ;;
  let empty := recv_read_ptr k =? recv_write_ptr k in
  if (bool_decide (state k = TCP_CLOSED) && empty)%bool then mret_ (-1, []) else
  if empty then mret_ (0, []) else
  let available := u32 (recv_write_ptr k - recv_read_ptr k) in
  let to_read := if len <? available then len else available in
  s <-- mgets id ;;
  let bytes := user_bytes (kbytes (th s)) (recv_buffer k + recv_read_ptr k) to_read in
  let r := u32 (recv_read_ptr k + to_read) in
  upd_sock sock (if r =? recv_write_ptr k then with_ptrs 0 0 else with_ptrs r (recv_write_ptr k)) ;;;
  mret_ (to_read, bytes).

Definition tcp_listen (port : Z) : M tcp Z :=
  sock <-- tcp_kmalloc SIZEOF_SOCKET ;;
  buf <-- tcp_kmalloc RECV_SIZE ;;
  head <-- mgets sockets ;;
  put_sock sock (new_socket port 0 0 0 0 TCP_LISTEN buf head) ;;;
  mmodify (set_sockets sock) ;;;
  mret_ sock.

Fixpoint accept_loop (port p : Z) (fuel : nat) : M tcp Z :=
  if p =? 0 then mret_ 0 else
  match fuel with
  | O => mstop
  | S fuel' =>
      k <-- sock_at p ;;
      if ((local_port k =? port) && bool_decide (state k = TCP_ESTABLISHED) && negb (remote_ip k =? 0))%bool then mret_ p
      else accept_loop port (next k) fuel'
  end.
Definition tcp_accept (port : Z) : M tcp Z :=
  s <-- mgets id ;; accept_loop port (sockets s) (size (socks s)).

(** ** Incoming segments *)

(** The search for the socket of a segment: the exact match and the listener, 0
    for none. *)
Fixpoint find_socket (lport rip rport p listen : Z) (fuel : nat) : M tcp (Z * Z) :=
  if p =? 0 then mret_ (0, listen) else
  match fuel with
  | O => mstop
  | S fuel' =>
      k <-- sock_at p ;;
      if local_port k =? lport then
        if bool_decide (state k = TCP_LISTEN) then find_socket lport rip rport (next k) p fuel'
        else if ((remote_ip k =? rip) && (remote_port k =? rport))%bool then mret_ (p, listen)
        else find_socket lport rip rport (next k) listen fuel'
      else find_socket lport rip rport (next k) listen fuel'
  end.

Definition has_flag (flags f : Z) : bool := negb (Z.land flags f =? 0).

(** The child of a listener. *)
Definition spawn_child (lport rport rip lip : Z) : M tcp Z :=
  child <-- tcp_kmalloc SIZEOF_SOCKET ;;
  buf <-- tcp_kmalloc RECV_SIZE ;;
  head <-- mgets sockets ;;
  put_sock child (new_socket lport rport rip lip 1000 TCP_LISTEN buf head) ;;;
  mmodify (set_sockets child) ;;;
  mret_ child.

(** Payload of a segment for an established connection. *)
Definition recv_data (sock : Z) (payload : list Z) (payload_len : Z) : M tcp unit :=
  k <-- sock_at sock ;;
  let current_usage := u32 (recv_write_ptr k - recv_read_ptr k) in
  let space := u32 (recv_buffer_size k - recv_write_ptr k) in
  if payload_len <=? space then
    tcp_memcpy (recv_buffer k + recv_write_ptr k) payload ;;;
    upd_sock sock (fun k' => with_ack (u32 (ack_num k' + payload_len))
                               (with_ptrs (recv_read_ptr k) (u32 (recv_write_ptr k + payload_len)) k')) ;;;
    send_tcp_packet sock TCP_ACK [] (seq_num k)
  else if current_usage =? 0 then
    tcp_memcpy (recv_buffer k) payload ;;;
    upd_sock sock (fun k => with_ack (u32 (ack_num k + payload_len)) (with_ptrs 0 payload_len k)) ;;;
    send_tcp_packet sock TCP_ACK [] (seq_num k)
  else mret_ tt.

(** [ack_num++; send ACK; state = st;] *)
Definition ack_fin (sock : Z) (st : tcp_state) : M tcp unit :=
  upd_sock sock (fun k => with_ack (u32 (ack_num k + 1)) k) ;;;
  k <-- sock_at sock ;;
  send_tcp_packet sock TCP_ACK [] (seq_num k) ;;;
  upd_sock sock (with_st st).

Definition on_ack (ack : Z) (k : tcp_socket) : tcp_socket :=
  let k := if seq_num k <? ack then with_seq ack k else k in
  if ack_received k <? ack then with_acked ack k else k.

(** The state machine; [payload_len] is the value of the variable, [payload] the
    bytes a copy of that length reads. *)
Definition tcp_segment (sock flags seq ack : Z) (payload : list Z) (payload_len : Z) : M tcp unit :=
  k <-- sock_at sock ;;
  match state k with
  | TCP_LISTEN =>
      mwhen (has_flag flags TCP_SYN) (
        upd_sock sock (fun k => with_seq (u32 (seq_num k + 1)) (with_st TCP_SYN_RECEIVED (with_ack (u32 (seq + 1)) k))) ;;;
        send_tcp_packet sock (Z.lor TCP_SYN TCP_ACK) [] (seq_num k))
  | TCP_SYN_RECEIVED =>
      mwhen (has_flag flags TCP_ACK) (upd_sock sock (fun k => with_seq ack (with_st TCP_ESTABLISHED k)))
  | TCP_SYN_SENT =>
      if (has_flag flags TCP_SYN && has_flag flags TCP_ACK)%bool then
        upd_sock sock (fun k => with_st TCP_ESTABLISHED (with_seq ack (with_ack (u32 (seq + 1)) k))) ;;;
        send_tcp_packet sock TCP_ACK [] ack
      else mwhen (has_flag flags TCP_RST) (upd_sock sock (with_st TCP_CLOSED))
  | TCP_ESTABLISHED =>
      mwhen (has_flag flags TCP_ACK) (upd_sock sock (on_ack ack)) ;;;
      mwhen (0 <? payload_len) (recv_data sock payload payload_len) ;;;
      mwhen (has_flag flags TCP_FIN) (ack_fin sock TCP_CLOSE_WAIT)
  | TCP_FIN_WAIT_1 =>
      if (has_flag flags TCP_FIN && has_flag flags TCP_ACK)%bool then ack_fin sock TCP_TIME_WAIT
      else if has_flag flags TCP_FIN then ack_fin sock TCP_TIME_WAIT
      else mwhen (has_flag flags TCP_ACK) (upd_sock sock (with_st TCP_FIN_WAIT_2))
  | TCP_FIN_WAIT_2 => mwhen (has_flag flags TCP_FIN) (ack_fin sock TCP_TIME_WAIT)
  | TCP_LAST_ACK => mwhen (has_flag flags TCP_ACK) (upd_sock sock (with_st TCP_CLOSED))
  | TCP_CLOSED | TCP_CLOSE_WAIT | TCP_CLOSING | TCP_TIME_WAIT => mret_ tt
  end.

(** [packet] is the memory from the segment on (the driver's buffer may go on
    behind the [len] bytes the IP header announces). *)
Definition tcp_handle_packet (packet : list Z) (len src_ip dest_ip : Z) : M tcp unit :=
  let data_offset := Z.shiftr (get8 packet 12) 4 * 4 in
  let payload_len := u32 (len - data_offset) in
  let dest_port := htons (get16 packet 2) in
  let src_port := htons (get16 packet 0) in
  let flags := get8 packet 13 in
  let payload := take (Z.to_nat payload_len) (drop (Z.to_nat data_offset) packet) in
  s <-- mgets id ;;
  r <-- find_socket dest_port src_ip src_port (sockets s) 0 (size (socks s)) ;;
  sock <-- (if ((fst r =? 0) && negb (snd r =? 0) && has_flag flags TCP_SYN)%bool
            then spawn_child dest_port src_port src_ip dest_ip else mret_ (fst r)) ;;
  if sock =? 0 then mret_ tt
  else tcp_segment sock flags (htonl (get32 packet 4)) (htonl (get32 packet 8)) payload payload_len.
