(* ===== verification/TcpInv.v ===== *)
(** * The sockets of TCP stay well formed

    [sock_wf] is the typing of a socket: every field within its width, and the
    two pointers of the receive buffer in order and inside the buffer.  [ensures
    I m Q] says that [m] keeps the invariant [I] and returns values that satisfy
    [Q]. *)

From Stdlib Require Import ZArith Lia.
From stdpp Require Import base numbers list gmap relations.
From S2P Require Import Prelude Pmm Kheap Vmm Usercopy Bytes Net Tcp.

(** ** Triples *)

Definition ensures {S A} (I : S -> Prop) (m : M S A) (Q : A -> Prop) : Prop :=
  forall s a s', I s -> m s = Some (a, s') -> I s' /\ Q a.

Section Ensures.
Context {S : Type} (I : S -> Prop).

Lemma ens_ret {A} (a : A) (Q : A -> Prop) : Q a -> ensures I (mret_ a) Q.
Proof. intros HQ s b s' Hi [= <- <-]. done. Qed.
Lemma ens_stop {A} (Q : A -> Prop) : ensures I (A := A) mstop Q.
Proof. by intros s a s' Hi H. Qed.
Lemma ens_bind {A B} (m : M S A) (k : A -> M S B) (Q : A -> Prop) (R : B -> Prop) :
  ensures I m Q -> (forall a, Q a -> ensures I (k a) R) -> ensures I (mbind_ m k) R.
Proof.
  intros Hm Hk s b s' Hi H. minv H as a s1 E. destruct (Hm _ _ _ Hi E) as [Hi1 Ha]. exact (Hk a Ha _ _ _ Hi1 H).
Qed.
Lemma ens_gets {A} (f : S -> A) (Q : A -> Prop) : (forall s, I s -> Q (f s)) -> ensures I (mgets f) Q.
Proof. intros HQ s a s' Hi [= <- <-]. auto. Qed.
Lemma ens_modify f : (forall s, I s -> I (f s)) -> ensures I (mmodify f) (fun _ => True).
Proof. intros Hf s a s' Hi [= _ <-]. auto. Qed.
Lemma ens_when (b : bool) m : (b = true -> ensures I m (fun _ => True)) -> ensures I (mwhen b m) (fun _ => True).
Proof. destruct b; [auto|]. intros _. by apply ens_ret. Qed.
Lemma ens_if {A} (b : bool) (m1 m2 : M S A) (Q : A -> Prop) :
  (b = true -> ensures I m1 Q) -> (b = false -> ensures I m2 Q) -> ensures I (if b then m1 else m2) Q.
Proof. destruct b; auto. Qed.
Lemma ens_weaken {A} (m : M S A) (Q R : A -> Prop) : (forall a, Q a -> R a) -> ensures I m Q -> ensures I m R.
Proof. intros HQ Hm s a s' Hi E. destruct (Hm _ _ _ Hi E). auto. Qed.
End Ensures.

(** ** Well-formed sockets *)

Definition is_u16 (z : Z) : Prop := 0 <= z < 2 ^ 16.

Record sock_wf (k : tcp_socket) : Prop := {
  kw_lport : is_u16 (local_port k);
  kw_rport : is_u16 (remote_port k);
  kw_rip : is_u32 (remote_ip k);
  kw_lip : is_u32 (local_ip k);
  kw_seq : is_u32 (seq_num k);
  kw_ack : is_u32 (ack_num k);
  kw_acked : is_u32 (ack_received k);
  kw_size : recv_buffer_size k = RECV_SIZE;
  kw_ptrs : 0 <= recv_read_ptr k <= recv_write_ptr k /\ recv_write_ptr k <= RECV_SIZE
}.

Record tcp_wf (s : tcp) : Prop := {
  tw_socks : map_Forall (fun _ k => sock_wf k) (socks s);
  tw_port : is_u16 (ephemeral_port s)
}.

Abbreviation keeps_wf m := (ensures tcp_wf m (fun _ => True)).

Lemma wf_seq v k : is_u32 v -> sock_wf k -> sock_wf (with_seq v k).
Proof. intros Hv []. by constructor. Qed.
Lemma wf_ack v k : is_u32 v -> sock_wf k -> sock_wf (with_ack v k).
Proof. intros Hv []. by constructor. Qed.
Lemma wf_acked v k : is_u32 v -> sock_wf k -> sock_wf (with_acked v k).
Proof. intros Hv []. by constructor. Qed.
Lemma wf_st v k : sock_wf k -> sock_wf (with_st v k).
Proof. intros []. by constructor. Qed.
Lemma wf_next v k : sock_wf k -> sock_wf (with_next_sock v k).
Proof. intros []. by constructor. Qed.
Lemma wf_ptrs r w k : 0 <= r <= w -> w <= RECV_SIZE -> sock_wf k -> sock_wf (with_ptrs r w k).
Proof. intros Hr Hw []. by constructor. Qed.
Lemma wf_new lp rp rip lip seq st buf nxt :
  is_u16 lp -> is_u16 rp -> is_u32 rip -> is_u32 lip -> is_u32 seq -> sock_wf (new_socket lp rp rip lip seq st buf nxt).
Proof. by constructor. Qed.
Create HintDb sockwf.
#[export] Hint Resolve wf_seq wf_ack wf_acked wf_st wf_next wf_new u32_range : sockwf.

Lemma wf_sock_at p : ensures tcp_wf (sock_at p) sock_wf.
Proof.
  intros s k s' Hi. unfold sock_at. destruct (socks s !! p) as [k'|] eqn:E; [|done]. intros [= <- <-].
  split; [done|]. exact (tw_socks _ Hi p k' E).
Qed.

Lemma wf_upd p f : (forall k, sock_wf k -> sock_wf (f k)) -> keeps_wf (upd_sock p f).
Proof.
  intros Hf s a s' Hi. unfold upd_sock. destruct (socks s !! p) as [k|] eqn:E; [|done]. intros [= _ <-]. split; [|done].
  destruct Hi as [Hs Hp]. constructor; [|done]. cbn. apply map_Forall_insert_2; [|done]. apply Hf. exact (Hs p k E).
Qed.

Lemma wf_put p k : sock_wf k -> keeps_wf (put_sock p k).
Proof. intros Hk. apply ens_modify. intros s [Hs Hp]. constructor; [|done]. cbn. by apply map_Forall_insert_2. Qed.

Lemma wf_kmalloc n : keeps_wf (tcp_kmalloc n).
Proof. intros s p s' [Hs Hp]. unfold tcp_kmalloc. destruct (kmalloc (th s) n); [|done|done]. intros [= _ <-]. by split. Qed.
Lemma wf_kfree p : keeps_wf (tcp_kfree p).
Proof. apply ens_modify. by intros s []. Qed.
Lemma wf_memcpy d l : keeps_wf (tcp_memcpy d l).
Proof. apply ens_modify. by intros s []. Qed.
Lemma wf_set_sockets v : keeps_wf (mmodify (set_sockets v)).
Proof. apply ens_modify. by intros s []. Qed.

(** Follow the structure of a command; the leaves are the lemmas above. *)
Create HintDb tcpwf.
Ltac wf_step :=
  first
  [ solve [eauto 2 with tcpwf] | apply ens_ret; done | apply ens_stop | apply wf_kmalloc | apply wf_kfree | apply wf_memcpy | apply wf_set_sockets
  | apply wf_upd; intros ? ?; auto 6 with sockwf | apply wf_put; auto 6 with sockwf
  | eapply ens_bind; [apply wf_sock_at|intros ? ?] | apply ens_when; intros ? | apply ens_if; intros ?
  | eapply ens_bind; [apply (ens_gets tcp_wf _ (fun _ => True)); done|intros ? _]
  | apply (ens_bind tcp_wf _ _ (fun _ => True)); [|intros ? _] ].
Ltac wf_go := repeat wf_step.

Lemma wf_send p flags payload seq : keeps_wf (send_tcp_packet p flags payload seq).
Proof. unfold send_tcp_packet. cbv zeta. wf_go. apply ens_modify. by intros s []. Qed.

#[export] Hint Resolve wf_send : tcpwf.

Lemma wf_tcp_send p data : ensures tcp_wf (tcp_send p data) (fun _ => True).
Proof. unfold tcp_send. cbv zeta. wf_go. Qed.

Lemma wf_tcp_resend p seq data : keeps_wf (tcp_resend p seq data).
Proof. unfold tcp_resend. wf_go. Qed.

Lemma wf_tcp_close p : keeps_wf (tcp_close p).
Proof. unfold tcp_close. wf_go. Qed.

Lemma wf_tcp_listen port : is_u16 port -> keeps_wf (tcp_listen port).
Proof. intros Hp. unfold tcp_listen. wf_go. by apply wf_new. Qed.

Lemma wf_tcp_receive p len : 0 <= len -> keeps_wf (tcp_receive p len).
Proof.
  intros Hl. unfold tcp_receive. cbv zeta. apply ens_if; intros _; [wf_go|]. eapply ens_bind; [apply wf_sock_at|intros k Hk].
  pose proof (kw_ptrs _ Hk) as Hp. unfold RECV_SIZE in Hp. wf_go. rewrite (u32_small (recv_write_ptr k - _)) by lia.
  rewrite u32_small by (ztest; lia). ztest; [by apply wf_ptrs|]. apply wf_ptrs; [ztest; lia|unfold RECV_SIZE; lia|done].
Qed.

Lemma wf_recv_data p payload n : 0 < n <= RECV_SIZE -> keeps_wf (recv_data p payload n).
Proof.
  intros Hn. unfold recv_data. cbv zeta. unfold RECV_SIZE in *. eapply ens_bind; [apply wf_sock_at|intros k Hk].
  pose proof (kw_ptrs _ Hk) as Hp. pose proof (kw_size _ Hk) as Hs. unfold RECV_SIZE in *. wf_go; zbool.
  - match goal with H : n <= u32 _ |- _ => rewrite Hs, u32_small in H by lia end.
    apply wf_ack; [apply u32_range|]. rewrite u32_small by lia.
    apply wf_ptrs; [lia|unfold RECV_SIZE; lia|done].
  - apply wf_ack; [apply u32_range|]. apply wf_ptrs; [lia|unfold RECV_SIZE; lia|done].
Qed.
Lemma wf_when_data p payload n : 0 <= n <= RECV_SIZE -> keeps_wf (mwhen (0 <? n) (recv_data p payload n)).
Proof. intros Hn. apply ens_when. intros H. zbool. apply wf_recv_data. lia. Qed.
#[export] Hint Resolve wf_when_data : tcpwf.

Lemma wf_ack_fin p st : keeps_wf (ack_fin p st).
Proof. unfold ack_fin. wf_go. Qed.
#[export] Hint Resolve wf_ack_fin : tcpwf.

Lemma wf_on_ack ack k : is_u32 ack -> sock_wf k -> sock_wf (on_ack ack k).
Proof. intros Ha Hk. unfold on_ack. destruct (seq_num k <? ack); destruct (_ <? ack); auto with sockwf. Qed.
#[export] Hint Resolve wf_on_ack : sockwf.

Lemma wf_tcp_segment p flags seq ack payload n :
  is_u32 ack -> 0 <= n <= RECV_SIZE -> keeps_wf (tcp_segment p flags seq ack payload n).
Proof.
  intros Ha Hn. unfold tcp_segment. eapply ens_bind; [apply wf_sock_at|intros k Hk]. destruct (state k); wf_go.
Qed.

Lemma wf_find lp rip rp p l fuel : keeps_wf (find_socket lp rip rp p l fuel).
Proof. revert p l. induction fuel as [|fuel IH]; intros p l; cbn [find_socket]; wf_go; apply IH. Qed.

Lemma wf_spawn lp rp rip lip : is_u16 lp -> is_u16 rp -> is_u32 rip -> is_u32 lip -> keeps_wf (spawn_child lp rp rip lip).
Proof. intros H1 H2 H3 H4. unfold spawn_child. wf_go. by apply wf_new. Qed.

(** ** Incoming segments *)

Lemma get16_range b off : Forall is_byte b -> is_u16 (get16 b off).
Proof.
  intros Hb. unfold get16. pose proof (le_value_range (sub b off 2) (Forall_sub _ _ _ _ Hb)) as H.
  assert (Hl : (length (sub b off 2) <= 2)%nat) by (unfold sub; rewrite length_take; lia).
  unfold is_u16. split; [lia|]. eapply Z.lt_le_trans; [apply H|]. apply Z.pow_le_mono_r; lia.
Qed.

Lemma htonl_range n : is_u32 (htonl n).
Proof.
  assert (Hb : forall m k, 0 <= k -> 0 <= m < 2 ^ k -> 0 <= Z.land n m < 2 ^ k)
    by (intros m k Hk Hm; rewrite Z.land_comm; by apply land_range).
  pose proof (Hb 0xFF 8 ltac:(lia) ltac:(lia)). pose proof (Hb 0xFF00 16 ltac:(lia) ltac:(lia)).
  pose proof (Hb 0xFF0000 24 ltac:(lia) ltac:(lia)). pose proof (Hb 0xFF000000 32 ltac:(lia) ltac:(lia)).
  unfold htonl, is_u32. repeat (apply lor_range; [done| |]).
  - rewrite Z.shiftl_mul_pow2 by lia. lia.
  - rewrite Z.shiftl_mul_pow2 by lia. lia.
  - apply (shiftr_range _ 8 32 24); lia.
  - apply (shiftr_range _ 24 32 32); lia.
Qed.

Definition data_offset (packet : list Z) : Z := Z.shiftr (get8 packet 12) 4 * 4.

(** A segment whose header fits the length the IP header announces, and whose
    payload fits a receive buffer. *)
Record seg_ok (packet : list Z) (len : Z) : Prop := {
  so_bytes : Forall is_byte packet;
  so_offset : data_offset packet <= len;
  so_payload : len - data_offset packet <= RECV_SIZE
}.

Lemma data_offset_range packet : Forall is_byte packet -> 0 <= data_offset packet <= 60.
Proof.
  intros Hb. unfold data_offset. assert (H : is_byte (get8 packet 12)) by (unfold get8; by apply nthZ_Forall).
  unfold is_byte in H. rewrite Z.shiftr_div_pow2 by lia. change (2 ^ 4) with 16. zlia.
Qed.

Lemma wf_handle_packet packet len src dst :
  seg_ok packet len -> is_u32 src -> is_u32 dst -> keeps_wf (tcp_handle_packet packet len src dst).
Proof.
  intros [Hb Ho Hp] Hs Hd. pose proof (data_offset_range packet Hb) as Hr. unfold tcp_handle_packet. cbv zeta.
  fold (data_offset packet). unfold RECV_SIZE in Hp. rewrite (u32_small (len - _)) by lia.
  eapply ens_bind; [by apply (ens_gets tcp_wf _ (fun _ => True))|intros s _].
  eapply ens_bind; [apply wf_find|intros r _]. eapply ens_bind; [|intros sock _; apply ens_if; intros _; [by apply ens_ret|]].
  - apply ens_if; intros _; [|by apply (ens_ret tcp_wf _ (fun _ => True))].
    apply wf_spawn; try done; apply htons_range; by apply get16_range.
  - apply wf_tcp_segment; [apply htonl_range|unfold RECV_SIZE; lia].
Qed.

(** ** Connecting *)

(** What can happen while [tcp_connect] waits. *)
Inductive tcp_event := Segment (packet : list Z) (len src dst : Z) | Tick.
Definition run_event (e : tcp_event) : M tcp unit :=
  match e with
  | Segment packet len src dst => tcp_handle_packet packet len src dst
  | Tick => mmodify (fun s => {| th := th s; socks := socks s; sockets := sockets s; ephemeral_port := ephemeral_port s;
                                 tcp_ticks := u32 (tcp_ticks s + 1); ip_out := ip_out s |})
  end.
Definition event_ok (e : tcp_event) : Prop :=
  match e with Segment packet len src dst => seg_ok packet len /\ is_u32 src /\ is_u32 dst | Tick => True end.

Lemma wf_event e : event_ok e -> keeps_wf (run_event e).
Proof.
  destruct e as [packet len src dst|]; cbn; [intros (H1 & H2 & H3); by apply wf_handle_packet|]. intros _.
  apply ens_modify. by intros s [].
Qed.

Lemma wf_connect_wait sock start last evs :
  Forall event_ok evs -> keeps_wf (connect_wait sock start last (run_event <$> evs)).
Proof.
  intros Hev. revert last. induction Hev as [|e evs He _ IH]; intros last; cbn [fmap list_fmap connect_wait]; cbv zeta; wf_go.
  by apply wf_event.
Qed.

Lemma wf_unlink sock nxt prev p fuel : keeps_wf (unlink_socket sock nxt prev p fuel).
Proof.
  revert prev p. induction fuel as [|fuel IH]; intros prev p; cbn [unlink_socket]; wf_go; try (destruct prev; wf_go).
Qed.

Lemma wf_tcp_connect ip dest port evs :
  is_u32 ip -> is_u32 dest -> is_u16 port -> Forall event_ok evs -> keeps_wf (tcp_connect ip dest port (run_event <$> evs)).
Proof.
  intros Hi Hd Hp Hev. unfold tcp_connect. cbv zeta. eapply ens_bind; [apply wf_kmalloc|intros sock _].
  eapply (ens_bind tcp_wf _ _ is_u16); [apply ens_gets; by intros s []|intros lp Hlp].
  eapply ens_bind; [apply ens_modify; intros s []; constructor; [done|]; apply Z.mod_pos_bound; lia|intros ? _].
  wf_go; first [by apply wf_connect_wait | apply wf_unlink | apply wf_new; try done; apply u32_range
    | apply ens_modify; intros s []; constructor; [|done]; cbn; by apply map_Forall_delete].
Qed.

(** ** Runs *)

Inductive tcp_step : tcp -> tcp -> Prop :=
| tcp_step_listen port s r s' : is_u16 port -> tcp_listen port s = Some (r, s') -> tcp_step s s'
| tcp_step_connect ip dest port evs s r s' :
    is_u32 ip -> is_u32 dest -> is_u16 port -> Forall event_ok evs ->
    tcp_connect ip dest port (run_event <$> evs) s = Some (r, s') -> tcp_step s s'
| tcp_step_send sock data s r s' : tcp_send sock data s = Some (r, s') -> tcp_step s s'
| tcp_step_resend sock seq data s r s' : tcp_resend sock seq data s = Some (r, s') -> tcp_step s s'
| tcp_step_close sock s r s' : tcp_close sock s = Some (r, s') -> tcp_step s s'
| tcp_step_receive sock len s r s' : is_u32 len -> tcp_receive sock len s = Some (r, s') -> tcp_step s s'
| tcp_step_event e s r s' : event_ok e -> run_event e s = Some (r, s') -> tcp_step s s'.

Lemma tcp_step_wf s s' : tcp_step s s' -> tcp_wf s -> tcp_wf s'.
Proof.
  assert (Hkeep : forall A (m : M tcp A) s a s', keeps_wf m -> m s = Some (a, s') -> tcp_wf s -> tcp_wf s')
    by (intros A m s0 a s0' Hm E Hw; by destruct (Hm s0 a s0' Hw E)).
  destruct 1 as [port s r s' Hp E|ip dest port evs s r s' H1 H2 H3 H4 E|sock data s r s' E|sock seq data s r s' E|sock s r s' E
    |sock len s r s' [Hl _] E|e s r s' He E].
  - exact (Hkeep _ _ _ _ _ (wf_tcp_listen port Hp) E).
  - exact (Hkeep _ _ _ _ _ (wf_tcp_connect ip dest port evs H1 H2 H3 H4) E).
  - exact (Hkeep _ _ _ _ _ (wf_tcp_send sock data) E).
  - exact (Hkeep _ _ _ _ _ (wf_tcp_resend sock seq data) E).
  - exact (Hkeep _ _ _ _ _ (wf_tcp_close sock) E).
  - exact (Hkeep _ _ _ _ _ (wf_tcp_receive sock len Hl) E).
  - exact (Hkeep _ _ _ _ _ (wf_event e He) E).
Qed.


(** ** A connection to port 80 *)

Definition tcp_demo : tcp :=
  {| th := kheap_set_start kheap_demo 0x10000; socks := ∅; sockets := 0; ephemeral_port := 49152; tcp_ticks := 0; ip_out := [] |}.
Definition run_tcp {A} (m : M tcp A) (s : tcp) : tcp := match m s with Some (_, s') => s' | None => s end.
Lemma run_tcp_spec {A} (m : M tcp A) s a : fst <$> m s = Some a -> m s = Some (a, run_tcp m s).
Proof. unfold run_tcp. destruct (m s) as [[b s']|]; [|done]. by intros [= ->]. Qed.

(** A segment from port 5000 to port 80. *)
Definition seg_demo (flags : Z) (payload : list Z) : list Z :=
  [0x13; 0x88; 0; 80; 0; 0; 0; 9; 0; 0; 0; 0; 0x50; flags; 0; 0; 0; 0; 0; 0] ++ payload.
Definition tcp_listening : tcp := run_tcp (tcp_listen 80) tcp_demo.
Definition tcp_syn : tcp := run_tcp (tcp_handle_packet (seg_demo 2 []) 20 7 8) tcp_listening.
Definition tcp_open : tcp := run_tcp (tcp_handle_packet (seg_demo 16 []) 20 7 8) tcp_syn.

Lemma seg_demo_ok flags payload :
  is_byte flags -> Forall is_byte payload -> Z.of_nat (length payload) <= RECV_SIZE ->
  seg_ok (seg_demo flags payload) (20 + Z.of_nat (length payload)).
Proof.
  intros Hf Hp Hl. assert (Ho : data_offset (seg_demo flags payload) = 20) by done. constructor.
  - unfold seg_demo. rewrite Forall_app. split; [|done]. repeat (constructor; [done|]). constructor.
  - rewrite Ho. lia.
  - rewrite Ho. lia.
Qed.

Lemma tcp_demo_wf : tcp_wf tcp_demo.
Proof. constructor; [apply map_Forall_empty|by_compute]. Qed.

