(* ===== verification/TcpBuf.v ===== *)
(** * The receive buffer of a TCP socket

    Between its two pointers the buffer holds a queue of bytes: an incoming
    segment appends its payload or is dropped, [tcp_receive] takes from the
    front.  The payload that does not fit the buffer at all is written behind
    it. *)

From Stdlib Require Import ZArith Lia.
From stdpp Require Import base numbers list gmap relations.
From S2P Require Import Prelude Pmm Kheap Vmm Usercopy Bytes Task TaskRing TaskSched TaskInv Net Tcp TcpInv.

(** ** The heap operations leave the bytes alone *)

Lemma kfree_kbytes h p : kbytes (kfree h p) = kbytes h.
Proof. unfold kfree. repeat (destruct (_ : bool)); done. Qed.

Lemma walk_kbytes h b fit fuel prev p : kheap_walk (set_kbytes h b) fit fuel prev p = kheap_walk h fit fuel prev p.
Proof. revert prev p. induction fuel as [|fuel IH]; intros prev p; cbn [kheap_walk]; [done|]. rewrite IH. done. Qed.

Lemma kmalloc_set_kbytes h b n q h' : kmalloc h n = KRet q h' -> kmalloc (set_kbytes h b) n = KRet q (set_kbytes h' b).
Proof.
  assert (Hl : kheap_lazy_start (set_kbytes h b) = set_kbytes (kheap_lazy_start h) b)
    by (unfold kheap_lazy_start; cbn; by destruct (kheap_start h =? 0)).
  unfold kmalloc. rewrite Hl. set (h0 := kheap_lazy_start h). unfold kheap_search. rewrite walk_kbytes.
  change (sz (set_kbytes h0 b)) with (sz h0). change (hdr_next (set_kbytes h0 b)) with (hdr_next h0).
  change (free_list (set_kbytes h0 b)) with (free_list h0). destruct (kheap_walk h0 _ _ _ _) as [prev c| |]; [|..|done].
  - intros [= <- <-]. by destruct prev.
  - cbn [memory_size set_kbytes kheap_current]. destruct (_ <=? _); [done|]. by intros [= <- <-].
Qed.

(** ** Sending *)

(** The segment [send_tcp_packet] hands to the IP layer, when it is short. *)
Definition sent_segment (k : tcp_socket) (flags seq : Z) : list Z :=
  put_checksum 16 (tcp_segment0 k flags [] seq) (tcp_checksum (tcp_segment0 k flags [] seq) 20 (local_ip k) (remote_ip k)).

Lemma length_segment0 k flags seq : length (tcp_segment0 k flags [] seq) = 20%nat.
Proof. unfold tcp_segment0. rewrite !length_app, !length_le_bytes by lia. done. Qed.

Lemma send_empty s p k flags seq q h :
  socks s !! p = Some k -> kmalloc (th s) 20 = KRet q h ->
  send_tcp_packet p flags [] seq s
  = Some (tt, set_th (kfree h q) (set_out (ip_out s ++ [(remote_ip k, sent_segment k flags seq)]) s)).
Proof.
  intros Hk Hm. unfold send_tcp_packet. change (u32 (TCP_HDR + Z.of_nat (length []))) with 20. change (u16 20) with 20.
  cbv zeta. unfold mbind_, tcp_kmalloc. rewrite Hm. unfold sock_at. cbn [socks set_th]. rewrite Hk. unfold mmodify, tcp_kfree, mmodify.
  cbn [ip_out set_th]. fold (sent_segment k flags seq).
  rewrite take_ge; [done|]. unfold sent_segment. rewrite length_put_checksum, length_segment0 by (rewrite length_segment0; lia).
  done.
Qed.

Lemma sent_flags k flags seq : get8 (sent_segment k flags seq) 13 = flags.
Proof. reflexivity. Qed.

(** ** The queue *)

Definition stream (s : tcp) (k : tcp_socket) : list Z :=
  user_bytes (kbytes (th s)) (recv_buffer k + recv_read_ptr k) (recv_write_ptr k - recv_read_ptr k).

(** The segment belongs to the socket [p]. *)
Definition delivers (s : tcp) (packet : list Z) (src p : Z) : Prop :=
  p <> 0 /\ exists l, find_socket (htons (get16 packet 2)) src (htons (get16 packet 0)) (sockets s) 0 (size (socks s)) s = Some ((p, l), s).

Definition seg_payload (packet : list Z) (n : Z) : list Z := take (Z.to_nat n) (drop (Z.to_nat (data_offset packet)) packet).

Lemma handle_packet_run s packet len src dst p :
  delivers s packet src p ->
  let n := u32 (len - data_offset packet) in
  tcp_handle_packet packet len src dst s
  = tcp_segment p (get8 packet 13) (htonl (get32 packet 4)) (htonl (get32 packet 8)) (seg_payload packet n) n s.
Proof.
  intros (Hp & l & Hf) n. unfold tcp_handle_packet. cbv zeta. unfold mbind_ at 1, mgets, id. unfold mbind_ at 1. rewrite Hf. cbn [fst snd].
  rewrite (proj2 (Z.eqb_neq p 0) Hp). cbn [andb]. unfold mbind_ at 1, mret_. by rewrite (proj2 (Z.eqb_neq p 0) Hp).
Qed.

Lemma on_ack_fields ack k :
  recv_buffer (on_ack ack k) = recv_buffer k /\ recv_buffer_size (on_ack ack k) = recv_buffer_size k
  /\ recv_read_ptr (on_ack ack k) = recv_read_ptr k /\ recv_write_ptr (on_ack ack k) = recv_write_ptr k
  /\ ack_num (on_ack ack k) = ack_num k /\ remote_ip (on_ack ack k) = remote_ip k.
Proof. unfold on_ack. destruct (seq_num k <? ack); destruct (_ <? ack); done. Qed.

(** The socket when its payload is looked at. *)
Definition acked (flags ack : Z) (k : tcp_socket) : tcp_socket := if has_flag flags TCP_ACK then on_ack ack k else k.

Lemma acked_fields flags ack k :
  recv_buffer (acked flags ack k) = recv_buffer k /\ recv_buffer_size (acked flags ack k) = recv_buffer_size k
  /\ recv_read_ptr (acked flags ack k) = recv_read_ptr k /\ recv_write_ptr (acked flags ack k) = recv_write_ptr k
  /\ ack_num (acked flags ack k) = ack_num k /\ remote_ip (acked flags ack k) = remote_ip k.
Proof. unfold acked. destruct (has_flag flags TCP_ACK); [apply on_ack_fields|done]. Qed.

(** The part of [tcp_segment] on payload, for an established connection. *)
Lemma segment_established s p k flags seq ack payload n :
  socks s !! p = Some k -> state k = TCP_ESTABLISHED -> has_flag flags TCP_FIN = false -> 0 < n ->
  tcp_segment p flags seq ack payload n s
  = recv_data p payload n (set_socks (<[p := acked flags ack k]> (socks s)) s).
Proof.
  intros Hk Hst Hfin Hn. unfold tcp_segment, mbind_ at 1, sock_at. rewrite Hk, Hst, Hfin, (proj2 (Z.ltb_lt 0 n) Hn).
  assert (Hw : mwhen (has_flag flags TCP_ACK) (upd_sock p (on_ack ack)) s = Some (tt, set_socks (<[p := acked flags ack k]> (socks s)) s)).
  { unfold acked. destruct (has_flag flags TCP_ACK); cbn [mwhen]; [unfold upd_sock; by rewrite Hk|].
    rewrite insert_id by done. by destruct s. }
  unfold mbind_. rewrite Hw. cbn [mwhen]. destruct (recv_data p payload n _) as [[[] s']|]; done.
Qed.

(** What a payload does to the socket [k] and its buffer; [at_] is where it goes. *)
Record received (s : tcp) (p : Z) (k : tcp_socket) (payload : list Z) (n at_ r : Z) (s' : tcp) : Prop := {
  rc_bytes : kbytes (th s') = write_bytes (kbytes (th s)) (recv_buffer k + at_) payload;
  rc_sock : socks s' !! p = Some (with_ack (u32 (ack_num k + n)) (with_ptrs r (at_ + n) k));
  rc_out : exists seg, ip_out s' = ip_out s ++ [(remote_ip k, seg)] /\ get8 seg 13 = TCP_ACK
}.

Lemma store_and_ack s p k payload n at_ r q h f :
  socks s !! p = Some k -> kmalloc (th s) 20 = KRet q h -> f k = with_ack (u32 (ack_num k + n)) (with_ptrs r (at_ + n) k) ->
  exists s', (tcp_memcpy (recv_buffer k + at_) payload ;;; upd_sock p f ;;; send_tcp_packet p TCP_ACK [] (seq_num k)) s = Some (tt, s')
    /\ received s p k payload n at_ r s'.
Proof.
  intros Hk Hm Hf. unfold mbind_, tcp_memcpy, mmodify. set (b := write_bytes (kbytes (th s)) (recv_buffer k + at_) payload).
  unfold upd_sock. cbn [socks set_th]. rewrite Hk, Hf. set (k' := with_ack _ _).
  set (s1 := set_socks (<[p := k']> (socks s)) (set_th (set_kbytes (th s) b) s)).
  rewrite (send_empty s1 p k' TCP_ACK (seq_num k) q (set_kbytes h b)); [|apply lookup_insert_eq|exact (kmalloc_set_kbytes _ b _ _ _ Hm)].
  eexists. split; [reflexivity|]. constructor.
  - cbn [th set_th]. by rewrite kfree_kbytes.
  - cbn [socks set_th set_out set_socks s1]. apply lookup_insert_eq.
  - cbn [ip_out set_th set_out set_socks s1]. eexists. split; [reflexivity|]. apply sent_flags.
Qed.

Lemma recv_data_run s p k payload n q h :
  socks s !! p = Some k -> recv_buffer_size k = RECV_SIZE -> 0 <= recv_read_ptr k <= recv_write_ptr k -> recv_write_ptr k <= RECV_SIZE ->
  0 < n < 2 ^ 32 -> kmalloc (th s) 20 = KRet q h ->
  exists s', recv_data p payload n s = Some (tt, s')
    /\ if n <=? RECV_SIZE - recv_write_ptr k then received s p k payload n (recv_write_ptr k) (recv_read_ptr k) s'
       else if recv_read_ptr k =? recv_write_ptr k then received s p k payload n 0 0 s'
       else s' = s.
Proof.
  intros Hk Hs Hr Hw Hn Hm. unfold RECV_SIZE in *. unfold recv_data, mbind_ at 1, sock_at. rewrite Hk. cbv zeta.
  rewrite Hs, (u32_small (32768 - _)), (u32_small (recv_write_ptr k - _)) by lia.
  destruct (Z.leb_spec n (32768 - recv_write_ptr k)) as [Hfit|Hno].
  - apply (store_and_ack s p k payload n _ _ q h); [done|done|]. by rewrite (u32_small (recv_write_ptr k + n)) by lia.
  - destruct (Z.eqb_spec (recv_write_ptr k - recv_read_ptr k) 0) as [E|E], (Z.eqb_spec (recv_read_ptr k) (recv_write_ptr k)) as [E'|E'];
      try lia; [|by exists s].
    destruct (store_and_ack s p k payload n 0 0 q h (fun k0 => with_ack (u32 (ack_num k0 + n)) (with_ptrs 0 n k0))) as (s' & H1 & H2);
      [done|done|done|]. rewrite Z.add_0_r in H1. by exists s'.
Qed.

(** The bytes of the queue after a payload was appended. *)
Lemma user_bytes_ext m m' a n : (forall i, 0 <= i < n -> m' !! (a + i) = m !! (a + i)) -> user_bytes m' a n = user_bytes m a n.
Proof.
  intros H. unfold user_bytes. apply list_fmap_ext. intros i x Hx. apply list_elem_of_lookup_2, elem_of_seqZ in Hx. by rewrite H by lia.
Qed.

Lemma user_bytes_append m a n l :
  0 <= n -> user_bytes (write_bytes m (a + n) l) a (n + Z.of_nat (length l)) = user_bytes m a n ++ l.
Proof.
  intros Hn. rewrite user_bytes_app by lia. f_equal; [|apply user_bytes_write]. apply user_bytes_ext. intros i Hi.
  replace (a + i) with (a + n + (i - n)) by lia. rewrite lookup_write_bytes. destruct (Z.leb_spec 0 (i - n)); [lia|done].
Qed.

Lemma user_bytes_split m a n j : 0 <= j <= n -> user_bytes m a n = user_bytes m a j ++ user_bytes m (a + j) (n - j).
Proof. intros H. rewrite <- user_bytes_app by lia. f_equal. lia. Qed.
Lemma take_user_bytes m a n j : 0 <= j <= n -> take (Z.to_nat j) (user_bytes m a n) = user_bytes m a j.
Proof. intros H. rewrite (user_bytes_split m a n j), take_app_length' by (rewrite ?length_user_bytes; lia). done. Qed.
Lemma drop_user_bytes m a n j : 0 <= j <= n -> drop (Z.to_nat j) (user_bytes m a n) = user_bytes m (a + j) (n - j).
Proof. intros H. rewrite (user_bytes_split m a n j), drop_app_length' by (rewrite ?length_user_bytes; lia). done. Qed.

(** *** The abstract buffer: its bytes, and the room behind them *)

Record byte_queue := { q_data : list Z; q_room : Z }.
#[export] Instance byte_queue_eq_dec : EqDecision byte_queue.
Proof. solve_decision. Defined.

(** A payload goes behind the data, to the front when there is no data, or nowhere. *)
Definition q_push (l : list Z) (q : byte_queue) : byte_queue :=
  let n := Z.of_nat (length l) in
  if n <=? q_room q then {| q_data := q_data q ++ l; q_room := q_room q - n |}
  else match q_data q with [] => {| q_data := l; q_room := RECV_SIZE - n |} | _ => q end.

(** Taking the last byte makes the whole buffer available again. *)
Definition q_pop (m : nat) (q : byte_queue) : byte_queue :=
  match q_data q, drop m (q_data q) with
  | [], _ => q
  | _, [] => {| q_data := []; q_room := RECV_SIZE |}
  | _, l => {| q_data := l; q_room := q_room q |}
  end.

Definition buf_abs (s : tcp) (k : tcp_socket) : byte_queue := {| q_data := stream s k; q_room := RECV_SIZE - recv_write_ptr k |}.

Lemma stream_length s k : sock_wf k -> Z.of_nat (length (stream s k)) = recv_write_ptr k - recv_read_ptr k.
Proof. intros [_ _ _ _ _ _ _ _ Hp]. unfold stream. rewrite length_user_bytes by lia. lia. Qed.

Lemma stream_nil s k : sock_wf k -> stream s k = [] <-> recv_read_ptr k = recv_write_ptr k.
Proof.
  intros Hw. pose proof (stream_length s k Hw). split; intros E; [rewrite E in *; cbn in *; lia|].
  apply nil_length_inv. lia.
Qed.

(** The socket behind a [received] state holds the old bytes and the payload. *)
Lemma received_abs s p k payload n at_ r s' :
  received s p k payload n at_ r s' -> n = Z.of_nat (length payload) -> 0 <= r <= at_ ->
  exists k', socks s' !! p = Some k' /\ ack_num k' = u32 (ack_num k + n) /\ state k' = state k
    /\ buf_abs s' k' = {| q_data := user_bytes (kbytes (th s)) (recv_buffer k + r) (at_ - r) ++ payload; q_room := RECV_SIZE - (at_ + n) |}.
Proof.
  intros [Hb Hs Ho] Hn Hr. eexists. split; [exact Hs|]. split; [done|]. split; [done|]. unfold buf_abs, stream.
  cbn [recv_buffer recv_read_ptr recv_write_ptr with_ack with_ptrs]. rewrite Hb. f_equal.
  replace (recv_buffer k + at_) with (recv_buffer k + r + (at_ - r)) by lia. replace (at_ + n - r) with (at_ - r + n) by lia.
  subst n. apply user_bytes_append. lia.
Qed.

(** One step of the machine: an incoming payload is a [q_push]; it is
    acknowledged exactly when it was stored. *)
Lemma recv_data_push s p k payload n q h :
  socks s !! p = Some k -> sock_wf k -> n = Z.of_nat (length payload) -> 0 < n < 2 ^ 32 -> kmalloc (th s) 20 = KRet q h ->
  exists s' k', recv_data p payload n s = Some (tt, s') /\ socks s' !! p = Some k' /\ state k' = state k
    /\ buf_abs s' k' = q_push payload (buf_abs s k)
    /\ ack_num k' = (if bool_decide (q_push payload (buf_abs s k) = buf_abs s k) then ack_num k else u32 (ack_num k + n)).
Proof.
  intros Hk Hw Hn Hr Hm. pose proof (kw_ptrs _ Hw) as Hp.
  destruct (recv_data_run s p k payload n q h Hk (kw_size _ Hw) (proj1 Hp) (proj2 Hp) Hr Hm) as (s' & E & Hrec). exists s'.
  assert (Hlen : forall d c, Z.of_nat (length d) = Z.of_nat (length (stream s k)) + n -> {| q_data := d; q_room := c |} <> buf_abs s k).
  { intros d c Hd [= E1 _]. rewrite E1 in Hd. lia. }
  unfold q_push. rewrite <- Hn. cbn [q_room q_data buf_abs]. destruct (n <=? RECV_SIZE - recv_write_ptr k) eqn:Hfit.
  - destruct (received_abs _ _ _ _ _ _ _ _ Hrec Hn (proj1 Hp)) as (k' & H1 & H2 & H3 & H4). exists k'.
    assert (HE : buf_abs s' k' = {| q_data := stream s k ++ payload; q_room := RECV_SIZE - recv_write_ptr k - n |}).
    { rewrite H4. unfold stream. f_equal. lia. }
    rewrite HE, bool_decide_eq_false_2; [done|]. apply Hlen. rewrite length_app. lia.
  - destruct (Z.eqb_spec (recv_read_ptr k) (recv_write_ptr k)) as [He|He].
    + rewrite (proj2 (stream_nil s k Hw) He).
      destruct (received_abs _ _ _ _ _ _ _ _ Hrec Hn ltac:(lia)) as (k' & H1 & H2 & H3 & H4). exists k'.
      rewrite H4, bool_decide_eq_false_2; [done|]. apply Hlen. rewrite (proj2 (stream_nil s k Hw) He). cbn. lia.
    + subst s'. exists k. destruct (stream s k) eqn:Es; [by apply stream_nil in Es|]. rewrite bool_decide_eq_true_2; done.
Qed.

Lemma receive_pop s p k len :
  p <> 0 -> socks s !! p = Some k -> sock_wf k -> state k = TCP_ESTABLISHED -> is_u32 len ->
  let got := take (Z.to_nat len) (stream s k) in
  exists s' k', tcp_receive p len s = Some ((Z.of_nat (length got), got), s') /\ socks s' !! p = Some k' /\ state k' = state k
    /\ buf_abs s' k' = q_pop (Z.to_nat len) (buf_abs s k).
Proof.
  intros Hp Hk Hw Hst [Hl _] got. pose proof (kw_ptrs _ Hw) as Hr. unfold RECV_SIZE in Hr. pose proof (stream_length s k Hw) as Hlen.
  unfold tcp_receive. rewrite (proj2 (Z.eqb_neq p 0) Hp). cbv zeta. unfold mbind_ at 1, sock_at. rewrite Hk, Hst. cbn [bool_decide].
  rewrite bool_decide_eq_false_2 by done. cbn [andb]. unfold q_pop. cbn [q_data buf_abs].
  destruct (Z.eqb_spec (recv_read_ptr k) (recv_write_ptr k)) as [He|He].
  { apply (stream_nil s k Hw) in He. unfold got. rewrite He, take_nil. by exists s, k. }
  rewrite (u32_small (recv_write_ptr k - _)) by lia. set (n := if len <? _ then _ else _).
  assert (Hn : 0 <= n <= recv_write_ptr k - recv_read_ptr k /\ Z.to_nat n = length got).
  { subst n got. rewrite length_take. ztest; lia. }
  assert (Hcut : take (Z.to_nat len) (stream s k) = take (Z.to_nat n) (stream s k) /\ drop (Z.to_nat len) (stream s k) = drop (Z.to_nat n) (stream s k)).
  { subst n. destruct (len <? _) eqn:E; [done|]. zbool. rewrite !take_ge, !drop_ge by lia. done. }
  destruct Hcut as [Hg Hd]. unfold stream in Hg at 2, Hd at 2. rewrite take_user_bytes in Hg by lia. rewrite drop_user_bytes in Hd by lia.
  fold got in Hg. rewrite Hd. rewrite u32_small by lia. unfold mbind_, mgets, id, upd_sock. rewrite Hk.
  eexists _, _. split; [unfold mret_; rewrite Hg, length_user_bytes, Z2Nat.id by lia; done|].
  split; [apply lookup_insert_eq|]. destruct (stream s k) eqn:Es; [by apply stream_nil in Es|].
  destruct (Z.eqb_spec (recv_read_ptr k + n) (recv_write_ptr k)) as [E|E]; (split; [done|]).
  - replace (recv_write_ptr k - recv_read_ptr k - n) with 0 by lia. unfold buf_abs, stream. cbn. by rewrite Z.sub_0_r.
  - destruct (user_bytes _ (_ + n) _) eqn:Eu; [apply (f_equal length) in Eu; rewrite length_user_bytes in Eu; cbn in Eu; lia|].
    unfold buf_abs, stream. cbn. rewrite <- Eu. f_equal. f_equal; lia.
Qed.

(** A segment that carries data and no FIN for the established socket [p]. *)
Record data_segment (s : tcp) (p : Z) (packet : list Z) (len src : Z) : Prop := {
  ds_delivers : delivers s packet src p;
  ds_ok : seg_ok packet len;
  ds_fin : has_flag (get8 packet 13) TCP_FIN = false;
  ds_data : data_offset packet < len <= Z.of_nat (length packet)
}.

Lemma length_seg_payload packet n :
  0 <= data_offset packet -> 0 <= n -> data_offset packet + n <= Z.of_nat (length packet) -> Z.of_nat (length (seg_payload packet n)) = n.
Proof. intros H0 H1 H2. unfold seg_payload. rewrite length_take, length_drop. lia. Qed.

Lemma acked_wf flags ack k : is_u32 ack -> sock_wf k -> sock_wf (acked flags ack k).
Proof. intros Ha Hk. unfold acked. destruct (has_flag flags TCP_ACK); auto with sockwf. Qed.

Lemma acked_state flags ack k : state (acked flags ack k) = state k.
Proof. unfold acked, on_ack. repeat destruct (_ : bool); done. Qed.

Lemma acked_abs m s flags ack k : buf_abs (set_socks m s) (acked flags ack k) = buf_abs s k.
Proof.
  destruct (acked_fields flags ack k) as (H1 & _ & H2 & H3 & _). unfold buf_abs, stream. by rewrite H1, H2, H3.
Qed.

Lemma handle_packet_push s p k packet len src dst q h :
  socks s !! p = Some k -> sock_wf k -> state k = TCP_ESTABLISHED -> data_segment s p packet len src -> kmalloc (th s) 20 = KRet q h ->
  let payload := seg_payload packet (len - data_offset packet) in
  exists s' k', tcp_handle_packet packet len src dst s = Some (tt, s') /\ socks s' !! p = Some k' /\ state k' = TCP_ESTABLISHED
    /\ buf_abs s' k' = q_push payload (buf_abs s k)
    /\ ack_num k' = (if bool_decide (q_push payload (buf_abs s k) = buf_abs s k) then ack_num k
                     else u32 (ack_num k + (len - data_offset packet))).
Proof.
  intros Hk Hw Hst [Hd [Hb Ho Hp] Hfin Hdata] Hm payload. pose proof (data_offset_range packet Hb) as Hr. unfold RECV_SIZE in Hp.
  rewrite (handle_packet_run s packet len src dst p Hd). rewrite (u32_small (len - _)) by lia.
  rewrite (segment_established s p k) by (done || lia). set (k1 := acked _ _ _). set (s1 := set_socks _ s).
  destruct (recv_data_push s1 p k1 payload (len - data_offset packet) q h) as (s' & k' & H1 & H2 & H3 & H4 & H5).
  - apply lookup_insert_eq.
  - apply acked_wf; [apply htonl_range|done].
  - unfold payload. rewrite length_seg_payload by lia. done.
  - lia.
  - done.
  - unfold s1, k1 in H3, H4, H5. rewrite acked_state in H3. rewrite acked_abs in H4, H5.
    destruct (acked_fields (get8 packet 13) (htonl (get32 packet 8)) k) as (_ & _ & _ & _ & E & _). rewrite E in H5.
    exists s', k'. rewrite <- Hst. done.
Qed.

(** C10: the receive buffer of an established connection implements the abstract
    byte queue: a segment with data for the socket acts as [q_push] on the
    queue the buffer holds, and it raises the acknowledged sequence number by the
    payload's length exactly when the payload was stored; [tcp_receive] returns
    the first bytes of the queue and acts as [q_pop]. *)
Theorem tcp_receive_buffer_is_queue s p k q h :
  p <> 0 -> socks s !! p = Some k -> sock_wf k -> state k = TCP_ESTABLISHED -> kmalloc (th s) 20 = KRet q h ->
  (forall packet len src dst, data_segment s p packet len src ->
    let payload := seg_payload packet (len - data_offset packet) in
    exists s' k', tcp_handle_packet packet len src dst s = Some (tt, s') /\ socks s' !! p = Some k' /\ state k' = TCP_ESTABLISHED
      /\ buf_abs s' k' = q_push payload (buf_abs s k)
      /\ ack_num k' = (if bool_decide (q_push payload (buf_abs s k) = buf_abs s k) then ack_num k
                       else u32 (ack_num k + (len - data_offset packet))))
  /\ (forall len, is_u32 len ->
    let got := take (Z.to_nat len) (q_data (buf_abs s k)) in
    exists s' k', tcp_receive p len s = Some ((Z.of_nat (length got), got), s') /\ socks s' !! p = Some k'
      /\ state k' = TCP_ESTABLISHED /\ buf_abs s' k' = q_pop (Z.to_nat len) (buf_abs s k)).
Proof.
  intros Hp Hk Hw Hst Hm. split.
  - intros packet len src dst Hd. by apply (handle_packet_push s p k packet len src dst q h).
  - intros len Hl. rewrite <- Hst. by apply receive_pop.
Qed.

(** When the receive buffer is empty and the length the segment claims for
    its payload exceeds the buffer (the announced length is too large, or the
    header is longer than it and the difference wraps around), the payload is
    stored all the same: every byte behind the buffer up to the claimed length is
    overwritten with bytes of the packet. *)
Theorem tcp_large_segment_overflows_buffer s p k packet len src dst q h :
  socks s !! p = Some k -> sock_wf k -> state k = TCP_ESTABLISHED -> recv_read_ptr k = recv_write_ptr k ->
  delivers s packet src p -> has_flag (get8 packet 13) TCP_FIN = false -> 0 <= data_offset packet -> kmalloc (th s) 20 = KRet q h ->
  let n := u32 (len - data_offset packet) in
  RECV_SIZE < n -> data_offset packet + n <= Z.of_nat (length packet) ->
  exists s', tcp_handle_packet packet len src dst s = Some (tt, s')
    /\ forall j, RECV_SIZE <= j < n -> kbytes (th s') !! (recv_buffer k + j) = packet !! Z.to_nat (data_offset packet + j).
Proof.
  intros Hk Hw Hst He Hd Hfin Ho Hm n Hn Hlen. pose proof (kw_ptrs _ Hw) as Hp. unfold RECV_SIZE in *.
  rewrite (handle_packet_run s packet len src dst p Hd). fold n. rewrite (segment_established s p k) by (done || lia).
  set (k1 := acked _ _ _). set (s1 := set_socks _ s).
  destruct (acked_fields (get8 packet 13) (htonl (get32 packet 8)) k) as (E1 & E2 & E3 & E4 & _). fold k1 in E1, E2, E3, E4.
  destruct (recv_data_run s1 p k1 (seg_payload packet n) n q h) as (s' & H1 & H2);
    [apply lookup_insert_eq|rewrite E2; apply Hw|rewrite E3, E4; lia|rewrite E4; unfold RECV_SIZE; lia
    |pose proof (u32_range (len - data_offset packet)) as Hu; unfold is_u32 in Hu; fold n in Hu; lia|done|].
  exists s'. split; [done|]. intros j Hj. unfold RECV_SIZE in H2. rewrite E3, E4 in H2.
  rewrite (proj2 (Z.leb_gt n _)), (proj2 (Z.eqb_eq _ _) He) in H2 by lia. destruct H2 as [Hb _ _].
  rewrite Hb, Z.add_0_r, E1, lookup_write_bytes. rewrite (proj2 (Z.leb_le 0 j)), length_seg_payload, (proj2 (Z.ltb_lt j n)) by lia.
  cbn [andb]. unfold nthZ, seg_payload. rewrite lookup_take_lt, lookup_drop, <- Z2Nat.inj_add by lia.
  destruct (lookup_lt_is_Some_2 packet (Z.to_nat (data_offset packet + j)) ltac:(lia)) as [b ->]. done.
Qed.

(** ** The connection to port 80, established *)

Lemma find_socket_state lp rip rp p l fuel s r s' : find_socket lp rip rp p l fuel s = Some (r, s') -> s' = s.
Proof.
  revert p l. induction fuel as [|fuel IH]; intros p l; cbn [find_socket]; (destruct (p =? 0); [by intros [= _ <-]|]); [done|].
  unfold mbind_, sock_at. destruct (socks s !! p) as [k|]; [|done]. repeat (destruct (_ : bool); [try apply IH|]); try apply IH.
  by intros [= _ <-].
Qed.

Lemma find_socket_run lp rip rp p l fuel s r :
  fst <$> find_socket lp rip rp p l fuel s = Some r -> find_socket lp rip rp p l fuel s = Some (r, s).
Proof.
  destruct (find_socket lp rip rp p l fuel s) as [[r' s']|] eqn:E; [|done]. intros [= ->]. by rewrite (find_socket_state _ _ _ _ _ _ _ _ _ E).
Qed.

Definition open_sock : Z := 98392.
Definition open_socket : tcp_socket :=
  {| local_port := 80; remote_port := 5000; remote_ip := 7; local_ip := 8; seq_num := 0; ack_num := 10; ack_received := 0;
     state := TCP_ESTABLISHED; recv_buffer := 98464; recv_buffer_size := 32768; recv_write_ptr := 0; recv_read_ptr := 0; next := 65544 |}.

Lemma open_socket_there : socks tcp_open !! open_sock = Some open_socket.
Proof. by_vm. Qed.
Lemma open_socket_wf : sock_wf open_socket.
Proof. constructor; by_compute. Qed.
Lemma open_kmalloc : exists h, kmalloc (th tcp_open) 20 = KRet 131240 h.
Proof.
  assert (H : match kmalloc (th tcp_open) 20 with KRet q _ => q | _ => 0 end = 131240) by by_vm.
  destruct (kmalloc (th tcp_open) 20) as [q h| |]; [|done|done]. subst q. by exists h.
Qed.

Lemma delivers_demo flags payload : delivers tcp_open (seg_demo flags payload) 7 open_sock.
Proof.
  split; [done|]. exists 0. change (htons (get16 (seg_demo flags payload) 2)) with 80.
  change (htons (get16 (seg_demo flags payload) 0)) with 5000.
  exact (find_socket_run 80 7 5000 (sockets tcp_open) 0 (size (socks tcp_open)) tcp_open (open_sock, 0) ltac:(by_vm)).
Qed.

(** Two bytes arrive on the open connection, one is read. *)
Lemma tcp_receive_buffer_is_queue_witness :
  (exists s' k', tcp_handle_packet (seg_demo 16 [104; 105]) 22 7 8 tcp_open = Some (tt, s') /\ socks s' !! open_sock = Some k'
    /\ q_data (buf_abs s' k') = [104; 105] /\ ack_num k' = 12)
  /\ (exists s', tcp_receive open_sock 1 tcp_open = Some ((0, []), s')).
Proof.
  destruct open_kmalloc as [h Hm].
  destruct (tcp_receive_buffer_is_queue tcp_open open_sock open_socket 131240 h) as [Hpush Hpop];
    [done|exact open_socket_there|exact open_socket_wf|done|exact Hm|]. split.
  - destruct (Hpush (seg_demo 16 [104; 105]) 22 7 8) as (s' & k' & H1 & H2 & H3 & H4 & H5).
    + constructor; [apply delivers_demo|apply (seg_demo_ok 16 [104; 105]); [by_compute|by repeat constructor|done]|done|by_compute].
    + exists s', k'. split; [done|]. split; [done|]. rewrite H4. split; [done|]. rewrite H5. done.
  - destruct (Hpop 1 ltac:(by_compute)) as (s' & k' & H1 & _). by exists s'.
Defined.

(** A segment that announces 32770 bytes of payload: the two bytes behind the
    buffer, the header of the next heap block, are overwritten. *)
Lemma tcp_large_segment_overflows_buffer_witness :
  exists s', tcp_handle_packet (seg_demo 16 (replicate (Z.to_nat 32770) 65)) 32790 7 8 tcp_open = Some (tt, s')
    /\ kbytes (th s') !! (98464 + 32768) = Some 65 /\ kbytes (th s') !! (98464 + 32769) = Some 65.
Proof.
  destruct open_kmalloc as [h Hm].
  assert (Hl : Z.of_nat (length (replicate (Z.to_nat 32770) 65)) = 32770) by (rewrite length_replicate; lia).
  assert (Hb : forall i, 0 <= i < 32770 -> replicate (Z.to_nat 32770) 65 !! Z.to_nat i = Some 65)
    by (intros i Hi; apply lookup_replicate_2; lia).
  revert Hl Hb. generalize (replicate (Z.to_nat 32770) 65). intros payload Hl Hb.
  destruct (tcp_large_segment_overflows_buffer tcp_open open_sock open_socket (seg_demo 16 payload) 32790 7 8 131240 h) as (s' & H1 & H2).
  - exact open_socket_there.
  - exact open_socket_wf.
  - reflexivity.
  - reflexivity.
  - apply delivers_demo.
  - reflexivity.
  - by_compute.
  - exact Hm.
  - by_compute.
  - change (u32 (32790 - data_offset (seg_demo 16 payload))) with 32770. change (data_offset (seg_demo 16 payload)) with 20.
    unfold seg_demo. rewrite length_app. cbn [length]. lia.
  - exists s'. split; [exact H1|]. change (u32 (32790 - data_offset (seg_demo 16 payload))) with 32770 in H2.
    change (data_offset (seg_demo 16 payload)) with 20 in H2. change (recv_buffer open_socket) with 98464 in H2.
    assert (Hj : forall j, 0 <= j < 32770 -> seg_demo 16 payload !! Z.to_nat (20 + j) = Some 65).
    { intros j Hj. unfold seg_demo. rewrite lookup_app_r by (cbn [length]; lia). cbn [length].
      replace (Z.to_nat (20 + j) - 20)%nat with (Z.to_nat j) by lia. by apply Hb. }
    unfold RECV_SIZE in H2. rewrite !H2, !Hj by lia. split; reflexivity.
Defined.
