(* ===== verification/NetRx.v ===== *)
(** * Incoming frames ([src/src/net/netstack.c], [udp.c])

    [netstack_handle_packet] answers ARP requests and pings in place and hands
    TCP segments and UDP datagrams on; it joins the network layer, TCP and UDP
    in one state [inet].  [frame] is the driver's buffer from the frame on, [len]
    the length of the frame; the callbacks of UDP are code outside this file, so
    the calls are recorded.  The segments that TCP emits while it handles a
    segment are sent in their order when it returns: TCP reads nothing that
    sending changes. *)

From Stdlib Require Import ZArith Lia.
From stdpp Require Import base numbers list gmap.
From S2P Require Import Prelude Pmm Kheap Vmm Usercopy Bytes CString Net Tcp TcpInv TcpBuf.

(** ** State *)

Record udp_call := { uc_callback : Z; uc_ip : Z; uc_port : Z; uc_data : list Z; uc_len : Z }.

Record inet := {
  nw : net;
  tp : tcp;
  registrations : list (Z * Z);
  udp_calls : list udp_call
}.

Definition set_nw (v : net) (s : inet) : inet :=
  {| nw := v; tp := tp s; registrations := registrations s; udp_calls := udp_calls s |}.
Definition set_tp (v : tcp) (s : inet) : inet :=
  {| nw := nw s; tp := v; registrations := registrations s; udp_calls := udp_calls s |}.
Definition set_registrations (v : list (Z * Z)) (s : inet) : inet :=
  {| nw := nw s; tp := tp s; registrations := v; udp_calls := udp_calls s |}.
Definition set_calls (v : list udp_call) (s : inet) : inet :=
  {| nw := nw s; tp := tp s; registrations := registrations s; udp_calls := v |}.

(** A command of one layer in the whole state. *)
Definition on_net {A} (m : M net A) : M inet A := fun s =>
  match m (nw s) with Some (a, n) => Some (a, set_nw n s) | None => None end.
Definition on_tcp {A} (m : M tcp A) : M inet A := fun s =>
  match m (tp s) with Some (a, t) => Some (a, set_tp t s) | None => None end.

(** ** UDP *)

Definition MAX_UDP_CALLBACKS : nat := 16.
Definition UDP_HDR : Z := 8.

Definition udp_init : M inet unit := mmodify (set_registrations []).

Definition udp_register_callback (port callback : Z) : M inet unit :=
  mmodify (fun s => if (length (registrations s) <? MAX_UDP_CALLBACKS)%nat
                    then set_registrations (registrations s ++ [(port, callback)]) s else s).

Definition udp_packet (src_port dest_port : Z) (data : list Z) (packet_len : Z) : list Z :=
  le_bytes 2 (htons src_port) ++ le_bytes 2 (htons dest_port) ++ le_bytes 2 (htons packet_len) ++ le_bytes 2 0 ++ data.

(** [len], the length of [data], is 16 bits wide. *)
Definition udp_send (wakes : list (net -> net)) (dest_ip src_port dest_port : Z) (data : list Z) : M inet unit :=
  let packet_len := u16 (UDP_HDR + Z.of_nat (length data)) in
  packet <-- on_tcp (tcp_kmalloc packet_len) ;;
  on_net (netstack_send_ipv4 wakes dest_ip 17 (udp_packet src_port dest_port data packet_len) packet_len) ;;;
  on_tcp (tcp_kfree packet).

Fixpoint find_callback (regs : list (Z * Z)) (port : Z) : option Z :=
  match regs with
  | [] => None
  | (p, cb) :: regs' => if p =? port then Some cb else find_callback regs' port
  end.

Definition udp_handle_packet (packet : list Z) (len src_ip dest_ip : Z) : M inet unit :=
  let dest_port := htons (get16 packet 2) in
  let src_port := htons (get16 packet 0) in
  let data_len := u16 (htons (get16 packet 4) - UDP_HDR) in
  s <-- mgets id ;;
  match find_callback (registrations s) dest_port with
  | Some cb => mmodify (fun s => set_calls (udp_calls s ++
      [{| uc_callback := cb; uc_ip := src_ip; uc_port := src_port; uc_data := take (Z.to_nat data_len) (drop 8 packet); uc_len := data_len |}]) s)
  | None => mret_ tt
  end.

(** ** ARP *)

(** The request turned into its reply in place. *)
Definition arp_reply (mac : list Z) (ip : Z) (frame : list Z) : list Z :=
  let f := put16 frame 20 (htons 2) in
  let f := splice f 32 (sub f 22 6) in
  let f := put32 f 38 (get32 f 28) in
  let f := splice f 22 mac in
  let f := put32 f 28 ip in
  let f := splice f 0 (sub f 6 6) in
  splice f 6 mac.

Definition handle_arp (frame : list Z) (len : Z) : M net unit :=
  mmodify (set_arp true (get32 frame 28) (sub frame 22 6)) ;;;
  arp_cache_record (get32 frame 28) (sub frame 22 6) ;;;
  s <-- mgets id ;;
  mwhen ((htons (get16 frame 20) =? 1) && (get32 frame 38 =? my_ip s))%bool
    match netif s with
    | None => mstop
    | Some mac => send_packet (take (Z.to_nat len) (arp_reply mac (my_ip s) frame))
    end.

(** ** ICMP *)

(** The echo request turned into its reply in place. *)
Definition echo_reply (mac frame : list Z) (len : Z) : list Z :=
  let f := put8 frame 34 0 in
  let f := put16 f 36 0 in
  let f := put_checksum 36 f (net_checksum (sub f 34 (Z.to_nat (len - 34)))) in
  let tmp_ip := get32 f 26 in
  let f := put32 f 26 (get32 f 30) in
  let f := put32 f 30 tmp_ip in
  let f := put16 f 24 0 in
  let f := put_checksum 24 f (net_checksum (sub f 14 20)) in
  let f := splice f 0 (sub f 6 6) in
  splice f 6 mac.

Definition handle_icmp (frame : list Z) (len : Z) : M net unit :=
  let type := get8 frame 34 in
  if type =? 8 then
    s <-- mgets id ;;
    match netif s with
    | None => mstop
    | Some mac => send_packet (take (Z.to_nat len) (echo_reply mac frame len))
    end
  else mwhen (type =? 0)
    (mmodify (set_ping true (get32 frame 26)) ;;; arp_cache_record (get32 frame 26) (sub frame 6 6)).

(** ** The dispatcher *)

(** The segments that TCP added to its output. *)
Fixpoint send_segments (wakes : list (net -> net)) (out : list (Z * list Z)) : M net unit :=
  match out with
  | [] => mret_ tt
  | (dest, seg) :: out' => netstack_send_ipv4 wakes dest 6 seg (Z.of_nat (length seg)) ;;; send_segments wakes out'
  end.

Definition handle_tcp (wakes : list (net -> net)) (segment : list Z) (len src_ip dest_ip : Z) : M inet unit :=
  before <-- mgets (fun s => length (ip_out (tp s))) ;;
  on_tcp (tcp_handle_packet segment len src_ip dest_ip) ;;;
  out <-- mgets (fun s => drop before (ip_out (tp s))) ;;
  on_net (send_segments wakes out).

Definition netstack_handle_packet (wakes : list (net -> net)) (frame : list Z) (len : Z) : M inet unit :=
  let type := htons (get16 frame 12) in
  if type =? 0x0806 then on_net (handle_arp frame len)
  else mwhen (type =? 0x0800) (
    let ip_len := htons (get16 frame 16) in
    let proto := get8 frame 23 in
    let src_ip := get32 frame 26 in
    let dest_ip := get32 frame 30 in
    on_net (arp_cache_record src_ip (sub frame 6 6)) ;;;
    if proto =? 1 then on_net (handle_icmp frame len)
    else if proto =? 6 then handle_tcp wakes (drop 34 frame) (u16 (ip_len - 20)) src_ip dest_ip
    else mwhen (proto =? 17) (udp_handle_packet (drop 34 frame) (u16 (ip_len - 20)) src_ip dest_ip)).

(** ** Ping *)

Definition icmp_request : list Z := put_checksum 2 [8; 0; 0; 0; 0; 0; 0; 0] (net_checksum [8; 0; 0; 0; 0; 0; 0; 0]).

Definition netstack_send_ping (wakes : list (net -> net)) (dest_ip : Z) : M net unit :=
  s <-- mgets id ;;
  match netif s with
  | None => mret_ tt
  | Some mac =>
      r <-- netstack_resolve_mac wakes dest_ip ;;
      match r with
      | None => mret_ tt
      | Some dest_mac =>
          s <-- mgets id ;;
          send_packet (eth_header dest_mac mac 0x0800 ++ ipv4_header s dest_ip 1 8 ++ icmp_request)
      end
  end.

(** Each wake-up before the timeout: the ticks since the start and what happened
    to the state; [None] is the result -1. *)
Fixpoint ping_wait (dest_ip elapsed : Z) (wakes : list (Z * (net -> net))) : M net (option Z) :=
  s <-- mgets id ;;
  if (ping_received s && (last_ping_ip s =? dest_ip))%bool then
    mmodify (set_ping false (last_ping_ip s)) ;;; mret_ (Some elapsed)
  else match wakes with
       | [] => mret_ None
       | (t, w) :: wakes' => mmodify w ;;; ping_wait dest_ip t wakes'
       end.

Definition netstack_ping (dest_ip : Z) (arp_wakes : list (net -> net)) (elapsed : Z) (wakes : list (Z * (net -> net))) : M net (option Z) :=
  mmodify (set_ping false 0) ;;;
  netstack_send_ping arp_wakes dest_ip ;;;
  ping_wait dest_ip elapsed wakes.

(** ** Scanning the subnet *)

Definition netstack_arp_probe : Z -> M net unit := netstack_send_arp_request.

(** The addresses [netstack_scan_net] probes, in order. *)
Definition scan_targets (ip : Z) : list Z :=
  filter (fun t => t <> ip) ((fun host => Z.lor (Z.land ip 0xFFFFFF00) host) <$> seqZ 1 253).

(** The probes with what arrives in between ([wakes], one per probe), and after
    the last one ([late]). *)
Fixpoint scan_loop (targets : list Z) (wakes : list (net -> net)) : M net unit :=
  match targets with
  | [] => mret_ tt
  | t :: targets' =>
      netstack_arp_probe t ;;;
      mmodify (default id (head wakes)) ;;;
      scan_loop targets' (tail wakes)
  end.

Definition netstack_scan_net (wakes : list (net -> net)) (late : net -> net) : M net Z :=
  ip <-- mgets my_ip ;;
  scan_loop (scan_targets ip) wakes ;;;
  mmodify late ;;;
  mgets netstack_arp_cache_count.

(** ** Host names *)

(** The numeric branch of [net_resolve_host]; [octet << (shift * 8)] is an [int]
    shift, defined for [shift < 4].  The result is 32 bits wide. *)
Fixpoint parse_ip (host : list Z) (ip shift octet : Z) : Z * Z * Z :=
  match host with
  | [] => (ip, shift, octet)
  | c :: host' =>
      if c =? 0 then (ip, shift, octet)
      else if ((c =? 46) || (c =? 58))%bool then
        let ip' := u32 (Z.lor ip (Z.shiftl octet (shift * 8))) in
        if c =? 58 then (ip', shift + 1, 0) else parse_ip host' ip' (shift + 1) 0
      else if ((48 <=? c) && (c <=? 57))%bool then parse_ip host' ip shift (octet * 10 + (c - 48))
      else parse_ip host' ip shift octet
  end.

(** [None]: not a number, [dns_resolve] is asked. *)
Definition net_resolve_host (host : list Z) : option Z :=
  let c := host.[0] in
  if ((48 <=? c) && (c <=? 57))%bool then
    let '(ip, shift, octet) := parse_ip host 0 0 0 in
    Some (if shift <? 4 then u32 (Z.lor ip (Z.shiftl octet (shift * 8))) else ip)
  else None.

(** What [net_log_ip] prints; [None] when a number cannot be printed. *)
Definition net_log_ip (ip : Z) : option (list Z) :=
  match itoa (Z.land ip 0xFF) 10, itoa (Z.land (Z.shiftr ip 8) 0xFF) 10,
        itoa (Z.land (Z.shiftr ip 16) 0xFF) 10, itoa (Z.land (Z.shiftr ip 24) 0xFF) 10 with
  | Some a, Some b, Some c, Some d => Some (a ++ [46] ++ b ++ [46] ++ c ++ [46] ++ d)
  | _, _, _, _ => None
  end.

(** ** Addresses as text *)

Lemma parse_digits l rest ip shift v :
  Forall is_digit l -> parse_ip (l ++ rest) ip shift v = parse_ip rest ip shift (foldl (fun v c => 10 * v + (c - 48)) v l).
Proof.
  intros H. revert v. induction H as [|c l Hc _ IH]; intros v; [done|]. unfold is_digit in Hc. cbn [app parse_ip foldl].
  rewrite (proj2 (Z.eqb_neq c 0)), (proj2 (Z.eqb_neq c 46)), (proj2 (Z.eqb_neq c 58)) by lia. cbn [orb].
  rewrite (proj2 (Z.leb_le 48 c)), (proj2 (Z.leb_le c 57)) by lia. cbn [andb]. by rewrite IH, (Z.mul_comm v 10).
Qed.

Lemma octet_shift ip k : is_u32 ip -> 0 <= k -> Z.land (Z.shiftr ip k) 0xFF = ip / 2 ^ k mod 256.
Proof. intros Hi Hk. rewrite (Z.land_ones _ 8 ltac:(lia) : Z.land _ 0xFF = _), Z.shiftr_div_pow2 by lia. done. Qed.

(** Putting the octets together again. *)
Lemma octets_join ip :
  is_u32 ip ->
  u32 (Z.lor (u32 (Z.lor (u32 (Z.lor (u32 (Z.lor 0 (Z.shiftl (ip mod 256) 0))) (Z.shiftl (ip / 2 ^ 8 mod 256) 8)))
    (Z.shiftl (ip / 2 ^ 16 mod 256) 16))) (Z.shiftl (ip / 2 ^ 24 mod 256) 24)) = ip.
Proof.
  intros [H0 H1]. change (2 ^ 8) with 256. change (2 ^ 16) with 65536. change (2 ^ 24) with 16777216.
  assert (E : ip = ip mod 256 + ip / 256 mod 256 * 256 + ip / 65536 mod 256 * 65536 + ip / 16777216 mod 256 * 16777216) by zlia.
  assert (R : forall x, 0 <= x mod 256 < 256) by (intros x; apply Z.mod_pos_bound; lia).
  pose proof (R ip). pose proof (R (ip / 256)). pose proof (R (ip / 65536)). pose proof (R (ip / 16777216)). rewrite E at 5.
  set (a := ip mod 256) in *. set (b := ip / 256 mod 256) in *. set (c := ip / 65536 mod 256) in *. set (d := ip / 16777216 mod 256) in *.
  clearbody a b c d. rewrite Z.shiftl_0_r, Z.lor_0_l, (u32_small a) by lia.
  rewrite (lor_shiftl_add a b 8) by lia. rewrite (u32_small (a + _)) by lia.
  rewrite (lor_shiftl_add _ c 16) by lia. rewrite (u32_small (a + _ + _)) by lia.
  rewrite (lor_shiftl_add _ d 24) by lia. rewrite u32_small by lia. lia.
Qed.

(** An address that [net_log_ip] prints is read back by [net_resolve_host]:
    the four octets, in network order, for every 32-bit address. *)
Theorem net_resolve_host_reads_printed ip :
  is_u32 ip -> exists text, net_log_ip ip = Some text /\ net_resolve_host text = Some ip.
Proof.
  intros Hip. pose proof Hip as [H0 H1]. unfold net_log_ip. rewrite !octet_shift by (done || lia).
  replace (Z.land ip 0xFF) with (ip mod 256) by (symmetry; apply (Z.land_ones ip 8); lia).
  destruct (itoa_nat (ip mod 256)) as (a & -> & Da & Va & La); [zlia|].
  destruct (itoa_nat (ip / 2 ^ 8 mod 256)) as (b & -> & Db & Vb & Lb); [zlia|].
  destruct (itoa_nat (ip / 2 ^ 16 mod 256)) as (c & -> & Dc & Vc & Lc); [zlia|].
  destruct (itoa_nat (ip / 2 ^ 24 mod 256)) as (d & -> & Dd & Vd & Ld); [zlia|].
  eexists. split; [reflexivity|]. unfold net_resolve_host.
  assert (Hfirst : forall r, is_digit (a ++ r).[0]) by (intros r; destruct Da; [cbn in La; lia|done]).
  specialize (Hfirst ([46] ++ b ++ [46] ++ c ++ [46] ++ d)). unfold is_digit in Hfirst.
  rewrite (proj2 (Z.leb_le 48 _)), (proj2 (Z.leb_le _ 57)) by lia. cbn [andb].
  rewrite parse_digits by done. fold (dec_value a). rewrite Va. cbn [app parse_ip Z.eqb Pos.eqb orb].
  rewrite parse_digits by done. fold (dec_value b). rewrite Vb. cbn [app parse_ip Z.eqb Pos.eqb orb].
  rewrite parse_digits by done. fold (dec_value c). rewrite Vc. cbn [app parse_ip Z.eqb Pos.eqb orb].
  rewrite <- (app_nil_r d), parse_digits by done. fold (dec_value d). rewrite Vd. cbn [parse_ip].
  f_equal. exact (octets_join ip Hip).
Qed.

Lemma net_resolve_host_reads_printed_witness : exists text, net_log_ip 0xFE02000A = Some text /\ net_resolve_host text = Some 0xFE02000A.
Proof. apply (net_resolve_host_reads_printed 0xFE02000A). by_compute. Defined.

(** ** Frames edited in place *)

Lemma sub_splice_in b o n i bs :
  (i + length bs <= n)%nat -> (o + n <= length b)%nat -> sub (splice b (o + i) bs) o n = splice (sub b o n) i bs.
Proof.
  intros Hi Hn. apply list_eq. intros j. rewrite lookup_sub, (lookup_splice (sub b o n)) by (rewrite length_sub; lia).
  rewrite lookup_sub. destruct (decide (j < n)%nat) as [Hj|Hj].
  - rewrite lookup_splice by lia. destruct (decide (i <= j < i + length bs)%nat).
    + rewrite decide_True by lia. f_equal. lia.
    + by rewrite decide_False by lia.
  - by rewrite decide_False by lia.
Qed.

Lemma take_splice b n off bs : (off + length bs <= n)%nat -> (n <= length b)%nat -> take n (splice b off bs) = splice (take n b) off bs.
Proof. intros H1 H2. by apply (sub_splice_in b 0 n off bs). Qed.

(** Replacing the checksum field and storing the checksum of the result makes
    the region [o, o + n) verify. *)
Lemma region_checksum f o n i :
  Forall is_byte f -> (o + n <= length f)%nat -> Z.of_nat n < 65536 -> Nat.even i = true -> (i + 2 <= n)%nat ->
  let g := put16 f (o + i) 0 in
  net_checksum (sub (put_checksum (o + i) g (net_checksum (sub g o n))) o n) = 0.
Proof.
  intros Hb Hl Hn He Hi g. assert (Hg : length g = length f) by (apply length_put16; lia).
  assert (Hgb : Forall is_byte (sub g o n)) by (apply Forall_sub, Forall_splice; [done|by apply le_bytes_bytes]).
  unfold put_checksum, put16 at 1. rewrite sub_splice_in by (rewrite ?length_le_bytes; lia).
  change (net_checksum (put_checksum i (sub g o n) (net_checksum (sub g o n))) = 0).
  apply checksum_verifies; [done|rewrite length_sub; lia|done|rewrite length_sub; lia|].
  unfold g, put16. rewrite sub_splice_in by (rewrite ?length_le_bytes; lia).
  apply (sub_splice_eq _ i (le_bytes 2 0)). rewrite length_sub, length_le_bytes by lia. done.
Qed.

(** What [splice] changes, with the length it keeps. *)
Lemma edit f off bs : (off + length bs <= length f)%nat ->
  length (splice f off bs) = length f /\ sub (splice f off bs) off (length bs) = bs
  /\ forall o n, (o + n <= off \/ off + length bs <= o)%nat -> sub (splice f off bs) o n = sub f o n.
Proof. intros H. split; [by apply length_splice|]. split; [by apply sub_splice_eq|]. intros o n Hn. by apply sub_splice_ne. Qed.

Lemma edit16 f off v : (off + 2 <= length f)%nat ->
  length (put16 f off v) = length f /\ forall o n, (o + n <= off \/ off + 2 <= o)%nat -> sub (put16 f off v) o n = sub f o n.
Proof. intros H. split; [by apply length_put16|]. intros o n Hn. by apply sub_put16_ne. Qed.

Lemma edit32 f off v : (off + 4 <= length f)%nat ->
  length (put32 f off v) = length f /\ sub (put32 f off v) off 4 = le_bytes 4 v
  /\ forall o n, (o + n <= off \/ off + 4 <= o)%nat -> sub (put32 f off v) o n = sub f o n.
Proof.
  intros H. assert (Hl := length_le_bytes 4 v ltac:(lia)). destruct (edit f off (le_bytes 4 v)) as (H1 & H2 & H3); [rewrite Hl; lia|].
  rewrite Hl in H2, H3. done.
Qed.

Lemma le_value_sub f off : (off + 4 <= length f)%nat -> Forall is_byte f -> le_bytes 4 (get32 f off) = sub f off 4.
Proof.
  intros H Hb. unfold get32. change 4 with (Z.of_nat 4). rewrite <- (length_sub f off 4 H) at 1. apply le_value_bytes. by apply Forall_sub.
Qed.

Lemma echo_reply_spec mac frame len :
  Forall is_byte frame -> length mac = 6%nat -> 42 <= len < 65536 -> len <= Z.of_nat (length frame) ->
  let r := echo_reply mac frame len in
  let n := Z.to_nat (len - 34) in
  length r = length frame /\ sub r 0 6 = sub frame 6 6 /\ sub r 6 6 = mac /\ sub r 12 12 = sub frame 12 12
  /\ sub r 26 4 = sub frame 30 4 /\ sub r 30 4 = sub frame 26 4 /\ sub r 34 1 = [0]
  /\ (forall k, sub r 38 k = sub frame 38 k) /\ net_checksum (sub r 34 n) = 0 /\ net_checksum (sub r 14 20) = 0.
Proof.
  intros Hb Hm Hl Hlen r n. unfold r, echo_reply. cbv zeta. fold n.
  set (f1 := put8 frame 34 0). destruct (edit frame 34 [0]) as (L1 & E1 & N1); [cbn; lia|]. fold (put8 frame 34 0) f1 in L1, E1, N1.
  cbn [length] in E1, N1.
  assert (B1 : Forall is_byte f1) by (apply Forall_put8; [done|by compute]).
  set (f2 := put16 f1 36 0). destruct (edit16 f1 36 0) as (L2 & N2); [lia|]. fold f2 in L2, N2.
  set (f3 := put_checksum 36 f2 (net_checksum (sub f2 34 n))). destruct (edit16 f2 36 (htons (net_checksum (sub f2 34 n)))) as (L3 & N3); [lia|].
  fold (put_checksum 36 f2 (net_checksum (sub f2 34 n))) f3 in L3, N3.
  assert (C3 : net_checksum (sub f3 34 n) = 0) by (apply (region_checksum f1 34 n 2); done || lia).
  assert (B3 : Forall is_byte f3) by (apply Forall_splice; [apply Forall_splice; [done|]|]; by apply le_bytes_bytes).
  set (f4 := put32 f3 26 (get32 f3 30)). destruct (edit32 f3 26 (get32 f3 30)) as (L4 & E4 & N4); [lia|]. fold f4 in L4, E4, N4.
  set (f5 := put32 f4 30 (get32 f3 26)). destruct (edit32 f4 30 (get32 f3 26)) as (L5 & E5 & N5); [lia|]. fold f5 in L5, E5, N5.
  assert (B5 : Forall is_byte f5) by (by apply Forall_put32, Forall_put32).
  set (f6 := put16 f5 24 0). destruct (edit16 f5 24 0) as (L6 & N6); [lia|]. fold f6 in L6, N6.
  set (f7 := put_checksum 24 f6 (net_checksum (sub f6 14 20))). destruct (edit16 f6 24 (htons (net_checksum (sub f6 14 20)))) as (L7 & N7); [lia|].
  fold (put_checksum 24 f6 (net_checksum (sub f6 14 20))) f7 in L7, N7.
  assert (C7 : net_checksum (sub f7 14 20) = 0) by (apply (region_checksum f5 14 20 10); done || lia).
  set (f8 := splice f7 0 (sub f7 6 6)). destruct (edit f7 0 (sub f7 6 6)) as (L8 & E8 & N8); [rewrite length_sub; lia|].
  rewrite length_sub in E8, N8 by lia. fold f8 in L8, E8, N8.
  destruct (edit f8 6 mac) as (L9 & E9 & N9); [lia|]. rewrite Hm in E9, N9.
  assert (K3 : forall o k, (o + k <= 34 \/ 38 <= o)%nat -> sub f3 o k = sub frame o k) by (intros o k Hk; rewrite N3, N2, N1 by lia; done).
  assert (K5 : forall o k, (o + k <= 26 \/ 34 <= o)%nat -> sub f5 o k = sub f3 o k) by (intros o k Hk; rewrite N5, N4 by lia; done).
  assert (K7 : forall o k, (o + k <= 24 \/ 26 <= o)%nat -> sub f7 o k = sub f5 o k) by (intros o k Hk; rewrite N7, N6 by lia; done).
  assert (K9 : forall o k, (12 <= o)%nat -> sub (splice f8 6 mac) o k = sub f7 o k) by (intros o k Hk; rewrite N9, N8 by lia; done).
  split_and!.
  - lia.
  - rewrite N9, E8, K7, K5, K3 by lia. done.
  - exact E9.
  - rewrite K9, K7, K5, K3 by lia. done.
  - rewrite K9, K7, N5, E4, le_value_sub, K3 by (done || lia). done.
  - rewrite K9, K7, E5, le_value_sub, K3 by (done || lia). done.
  - rewrite K9, K7, K5, N3, N2 by lia. exact E1.
  - intros k. rewrite K9, K7, K5, K3 by lia. done.
  - rewrite K9, K7, K5 by lia. exact C3.
  - rewrite K9 by lia. exact C7.
Qed.

Lemma sub_take b m o n : (o + n <= m)%nat -> sub (take m b) o n = sub b o n.
Proof. intros H. unfold sub. rewrite skipn_firstn_comm, take_take. f_equal. lia. Qed.

Lemma drop_as_sub b o m : drop o (take m b) = sub b o (m - o).
Proof. unfold sub. by rewrite skipn_firstn_comm. Qed.

(** C36: an ICMP echo request is answered with exactly one frame of the same
    length: sent to the requester, with the IP addresses swapped, the type set to
    echo reply, identifier, sequence number and data unchanged, and both the IP
    and the ICMP checksum verifying at the receiver. *)
Theorem netstack_answers_ping wakes s frame len mac :
  netif (nw s) = Some mac -> length mac = 6%nat -> Forall is_byte frame -> 42 <= len < 65536 -> len <= Z.of_nat (length frame) ->
  htons (get16 frame 12) = 0x0800 -> get8 frame 23 = 1 -> get8 frame 34 = 8 ->
  exists s' rep, netstack_handle_packet wakes frame len s = Some (tt, s') /\ tx (nw s') = tx (nw s) ++ [rep] /\ tp s' = tp s
    /\ Z.of_nat (length rep) = len
    /\ sub rep 0 6 = sub frame 6 6 /\ sub rep 6 6 = mac /\ sub rep 12 12 = sub frame 12 12
    /\ sub rep 26 4 = sub frame 30 4 /\ sub rep 30 4 = sub frame 26 4 /\ sub rep 34 1 = [0]
    /\ drop 38 rep = drop 38 (take (Z.to_nat len) frame)
    /\ net_checksum (sub rep 14 20) = 0 /\ net_checksum (drop 34 rep) = 0.
Proof.
  intros Hif Hm Hb Hl Hlen Ht Hp Hi. destruct (echo_reply_spec mac frame len Hb Hm Hl Hlen) as (R0 & R1 & R2 & R3 & R4 & R5 & R6 & R7 & R8 & R9).
  unfold netstack_handle_packet. rewrite Ht, Hp. cbn [Z.eqb Pos.eqb mwhen]. unfold mbind_ at 1, on_net at 1, arp_cache_record, mmodify.
  unfold on_net, handle_icmp. rewrite Hi. cbn [Z.eqb Pos.eqb nw set_nw]. unfold mbind_, mgets, id. cbn [netif set_arp_cache]. rewrite Hif.
  eexists _, (take (Z.to_nat len) (echo_reply mac frame len)). split; [reflexivity|]. split; [done|]. split; [done|].
  rewrite !drop_as_sub, !sub_take, R1, R2, R3, R4, R5, R6, R7, R9 by lia. rewrite length_take, R0. split; [lia|].
  split_and!; try done. replace (Z.to_nat len - 34)%nat with (Z.to_nat (len - 34)) by lia. exact R8.
Qed.

Definition inet_demo : inet := {| nw := net_demo; tp := tcp_demo; registrations := []; udp_calls := [] |}.

(** A ping from 10.0.2.2. *)
Definition ping_demo : list Z :=
  [82; 84; 0; 18; 52; 86; 82; 85; 10; 0; 2; 2; 8; 0] ++ [0x45; 0; 0; 28; 0; 0; 0; 0; 64; 1; 0; 0; 10; 0; 2; 2; 10; 0; 2; 15]
  ++ [8; 0; 0xF7; 0xFA; 0; 1; 0; 4].

Lemma netstack_answers_ping_witness :
  exists s' rep, netstack_handle_packet [] ping_demo 42 inet_demo = Some (tt, s') /\ tx (nw s') = [rep]
    /\ sub rep 30 4 = [10; 0; 2; 2] /\ drop 38 rep = [0; 1; 0; 4].
Proof.
  destruct (netstack_answers_ping [] inet_demo ping_demo 42 [82; 84; 0; 18; 52; 86])
    as (s' & rep & H1 & H2 & _ & _ & _ & _ & _ & _ & H3 & _ & H4 & _).
  - reflexivity.
  - reflexivity.
  - repeat (constructor; [done|]). constructor.
  - lia.
  - by_compute.
  - by_vm.
  - by_vm.
  - by_vm.
  - exists s', rep. split; [exact H1|]. split; [exact H2|]. rewrite H3, H4. split; reflexivity.
Defined.

(** ** What does not work *)

Lemma low_bits_eq a b n i : Z.land a (Z.ones n) = Z.land b (Z.ones n) -> 0 <= i < n -> Z.testbit a i = Z.testbit b i.
Proof.
  intros E Hi. apply (f_equal (fun z => Z.testbit z i)) in E. rewrite !Z.land_spec, Z.ones_spec_low, !andb_true_r in E by lia. done.
Qed.

(** The scan varies the first octet of the own address instead of the last: no
    address it probes is in the local network. *)
Theorem scan_leaves_local_network s t :
  is_u32 (my_ip s) -> t ∈ scan_targets (my_ip s) -> netstack_next_hop t s = gateway_ip s.
Proof.
  intros Hip Ht. unfold netstack_next_hop. destruct (Z.eqb_spec (Z.land t 0xFFFFFF) (Z.land (my_ip s) 0xFFFFFF)) as [E|E]; [|done].
  exfalso. unfold scan_targets in Ht. apply list_elem_of_filter in Ht as [Hne Ht]. apply list_elem_of_fmap in Ht as (host & -> & Hh).
  apply elem_of_seqZ in Hh. apply Hne. apply Z.bits_inj'. intros i Hi. destruct (decide (i < 24)).
  - apply (low_bits_eq _ _ 24); [exact E|lia].
  - rewrite Z.lor_spec, Z.land_spec, (testbit_high host 8 i), orb_false_r by lia. destruct (decide (i < 32)).
    + assert (Hm : Z.testbit 0xFFFFFF00 i = true).
      { change 0xFFFFFF00 with (Z.shiftl (Z.ones 24) 8). rewrite Z.shiftl_spec, Z.ones_spec_low by lia. done. }
      by rewrite Hm, andb_true_r.
    + destruct Hip. rewrite (testbit_high (my_ip s) 32 i) by lia. done.
Qed.

(** In an interrupt nothing is sent to a host behind the gateway before the
    gateway itself was heard: the sender of a frame is recorded under its own IP
    address, not under the gateway's. *)
Theorem irq_answer_needs_gateway wakes s frame proto data len mac :
  let src := get32 frame 26 in
  netif s = Some mac -> g_in_irq s = true -> 0 <= len <= 1480 -> src <> 0xFFFFFFFF ->
  Z.land src 0x00FFFFFF <> Z.land (my_ip s) 0x00FFFFFF -> src <> gateway_ip s -> last_arp_ip s <> gateway_ip s ->
  arp_lookup (arp_cache s) (gateway_ip s) = None ->
  exists s', (arp_cache_record src (sub frame 6 6) ;;; netstack_send_ipv4 wakes src proto data len) s = Some (tt, s') /\ tx s' = tx s.
Proof.
  intros src Hif Hirq Hl Hb Hloc Hgw Hlast Hc. unfold mbind_ at 1, arp_cache_record, mmodify. set (s1 := set_arp_cache _ s).
  assert (Hnone : arp_lookup (arp_cache s1) (gateway_ip s) = None).
  { unfold s1. cbn [arp_cache set_arp_cache]. unfold arp_record. destruct (_ || _)%bool; [done|].
    assert (Hu : arp_lookup (fst (arp_update (arp_cache s) src (sub frame 6 6))) (gateway_ip s) = None).
    { clear -Hc Hgw. induction (arp_cache s) as [|[i m] c IH]; [done|]. cbn in Hc |- *. destruct (Z.eqb_spec i (gateway_ip s)) as [|Hi]; [done|].
      destruct (Z.eqb_spec i src) as [->|]; cbn; [by rewrite (proj2 (Z.eqb_neq _ _) Hi)|].
      specialize (IH Hc). destruct (arp_update c src _) as [c' f]. cbn in *. by rewrite (proj2 (Z.eqb_neq _ _) Hi). }
    destruct (arp_update _ _ _) as [c f]. destruct f; [done|]. destruct (_ <? _)%nat; [|done].
    clear -Hc Hgw. induction (arp_cache s) as [|[i m] c IH]; cbn in *; [by rewrite (proj2 (Z.eqb_neq _ _) Hgw)|]. destruct (i =? _); [done|auto]. }
  exists s1. split; [|done]. unfold netstack_send_ipv4. rewrite (proj2 (Z.ltb_ge 1480 len)) by lia. unfold mbind_ at 1, mgets, id.
  change (netif s1) with (netif s). rewrite Hif. unfold mbind_ at 1, netstack_resolve_mac, mbind_ at 1, mgets, id.
  rewrite (proj2 (Z.eqb_neq _ _) Hb). unfold netstack_next_hop. change (my_ip s1) with (my_ip s). change (gateway_ip s1) with (gateway_ip s).
  rewrite (proj2 (Z.eqb_neq _ _) Hloc), Hnone. change (last_arp_ip s1) with (last_arp_ip s). change (g_in_irq s1) with (g_in_irq s).
  rewrite (proj2 (Z.eqb_neq _ _) Hlast), Hirq. done.
Qed.
