(* ===== verification/NetTcp.v ===== *)
(** * Opening a connection, from the wire to the wire

    The layers together: a SYN frame for a listening port is answered with a
    SYN-ACK frame whose checksums verify. *)

From Stdlib Require Import ZArith Lia.
From stdpp Require Import base numbers list gmap.
From S2P Require Import Prelude Pmm Kheap Vmm Usercopy Bytes Net Tcp TcpInv TcpBuf CString NetRx.

(** ** The TCP checksum *)

Lemma sum_words_app l1 l2 sum : Nat.even (length l1) = true -> sum_words sum (l1 ++ l2) = sum_words (sum_words sum l1) l2.
Proof.
  revert sum. induction l1 as [|a|a b l IH] using pair_ind; intros sum He; [done|done|]. cbn [app sum_words]. by apply IH.
Qed.

Lemma length_pseudo src dst len : length (pseudo_header src dst len) = 12%nat.
Proof. unfold pseudo_header. rewrite !length_app, !length_le_bytes by lia. done. Qed.

Lemma pseudo_bytes src dst len : Forall is_byte (pseudo_header src dst len).
Proof.
  assert (H : forall x, is_byte (Z.land x 0xFF))
    by (intros x; unfold is_byte; rewrite (Z.land_ones _ 8 ltac:(lia) : Z.land x 0xFF = _); apply Z.mod_pos_bound; lia).
  unfold pseudo_header. rewrite !Forall_app. split_and!; try (apply le_bytes_bytes; lia). repeat (constructor; [done|]). constructor.
Qed.

Lemma tcp_checksum_net pkt len src dst :
  tcp_checksum pkt len src dst = net_checksum (pseudo_header src dst len ++ take (Z.to_nat len) pkt).
Proof. unfold tcp_checksum, net_checksum. by rewrite sum_words_app by (by rewrite length_pseudo). Qed.

Lemma put_checksum_app l pkt off c :
  (off + 2 <= length pkt)%nat -> put_checksum (length l + off) (l ++ pkt) c = l ++ put_checksum off pkt c.
Proof.
  intros H. unfold put_checksum, put16, splice. rewrite length_le_bytes by lia. change (Z.to_nat 2) with 2%nat.
  rewrite take_app_add, <- Nat.add_assoc, drop_app_add, <- app_assoc. done.
Qed.

(** The receiver's check of a segment in which the sender stored the checksum. *)
Lemma tcp_checksum_verifies pkt len src dst :
  Forall is_byte pkt -> len = Z.of_nat (length pkt) -> 18 <= len < 65524 -> sub pkt 16 2 = [0; 0] ->
  tcp_checksum (put_checksum 16 pkt (tcp_checksum pkt len src dst)) len src dst = 0.
Proof.
  intros Hb Hl Hr Hz. rewrite !tcp_checksum_net. rewrite (take_ge pkt), take_ge by (rewrite ?length_put_checksum; lia).
  set (ph := pseudo_header src dst len). assert (Hph : length ph = 12%nat) by apply length_pseudo.
  rewrite <- put_checksum_app by lia. rewrite Hph. change (12 + 16)%nat with 28%nat. apply checksum_verifies.
  - apply Forall_app. split; [apply pseudo_bytes|done].
  - rewrite length_app, Hph. lia.
  - done.
  - rewrite length_app, Hph. lia.
  - unfold sub in *. change 28%nat with (12 + 16)%nat. by rewrite <- Hph, drop_app_add.
Qed.

(** ** The answer to a SYN *)

(** The socket [spawn_child] makes, after the SYN with sequence number [seq]. *)
Definition syn_child (lport rport rip lip seq buf nxt : Z) : tcp_socket :=
  with_seq 1001 (with_st TCP_SYN_RECEIVED (with_ack (u32 (seq + 1)) (new_socket lport rport rip lip 1000 TCP_LISTEN buf nxt))).

Lemma handle_syn s packet len src dst l c b q h1 h2 h3 :
  let lport := htons (get16 packet 2) in
  let rport := htons (get16 packet 0) in
  let k := syn_child lport rport src dst (htonl (get32 packet 4)) b (sockets s) in
  find_socket lport src rport (sockets s) 0 (size (socks s)) s = Some ((0, l), s) -> l <> 0 ->
  has_flag (get8 packet 13) TCP_SYN = true ->
  kmalloc (th s) SIZEOF_SOCKET = KRet c h1 -> c <> 0 -> kmalloc h1 RECV_SIZE = KRet b h2 -> kmalloc h2 20 = KRet q h3 ->
  exists s', tcp_handle_packet packet len src dst s = Some (tt, s') /\ socks s' !! c = Some k /\ sockets s' = c
    /\ ip_out s' = ip_out s ++ [(src, sent_segment k (Z.lor TCP_SYN TCP_ACK) 1000)].
Proof.
  intros lport rport k Hf Hl Hsyn Hm1 Hc Hm2 Hm3. unfold tcp_handle_packet. cbv zeta. fold lport rport.
  unfold mbind_ at 1, mgets, id. unfold mbind_ at 1. rewrite Hf. cbn [fst snd]. rewrite Hsyn, (proj2 (Z.eqb_neq l 0) Hl). cbn [Z.eqb negb andb].
  unfold mbind_ at 1. unfold spawn_child at 1, mbind_ at 1, tcp_kmalloc at 1. rewrite Hm1. unfold mbind_ at 1, tcp_kmalloc. cbn [th set_th]. rewrite Hm2.
  unfold mbind_ at 1 2 3, mgets, put_sock, mmodify, mret_. rewrite (proj2 (Z.eqb_neq c 0) Hc).
  cbn [set_th sockets socks set_socks set_sockets]. unfold tcp_segment, mbind_ at 1, sock_at. cbn [socks set_socks set_sockets]. rewrite lookup_insert_eq.
  cbn [state new_socket]. rewrite Hsyn. cbn [mwhen]. unfold mbind_ at 1, upd_sock. cbn [socks set_socks set_sockets]. rewrite lookup_insert_eq.
  cbn [seq_num new_socket with_ack with_st]. change (u32 (1000 + 1)) with 1001. fold k.
  erewrite (send_empty _ c k (Z.lor TCP_SYN TCP_ACK) 1000 q h3); [|cbn; apply lookup_insert_eq|exact Hm3].
  eexists. split; [reflexivity|]. split; [cbn; apply lookup_insert_eq|]. done.
Qed.

(** ** The neighbour cache *)

Lemma arp_update_spec cache ip mac :
  let '(c, found) := arp_update cache ip mac in
  (found = true -> arp_lookup c ip = Some mac) /\ (found = false -> c = cache /\ arp_lookup cache ip = None).
Proof.
  induction cache as [|[i m] c IH]; cbn [arp_update]; [done|]. destruct (i =? ip) eqn:E.
  - cbn [arp_lookup]. rewrite E. done.
  - destruct (arp_update c ip mac) as [c' found]. destruct IH as [H1 H2]. cbn [arp_lookup]. rewrite E.
    split; [done|]. intros Hf. destruct (H2 Hf) as [-> H3]. done.
Qed.

Lemma arp_lookup_app c1 c2 ip : arp_lookup c1 ip = None -> arp_lookup (c1 ++ c2) ip = arp_lookup c2 ip.
Proof. induction c1 as [|[i m] c IH]; cbn; [done|]. destruct (i =? ip); [done|]. exact IH. Qed.

(** A neighbour that was recorded is found, when the cache has room. *)
Lemma arp_record_lookup cache ip mac :
  ip <> 0 -> ip <> 0xFFFFFFFF -> (length cache < ARP_CACHE_MAX)%nat -> arp_lookup (arp_record cache ip mac) ip = Some mac.
Proof.
  intros H0 H1 Hl. unfold arp_record. rewrite (proj2 (Z.eqb_neq ip 0) H0), (proj2 (Z.eqb_neq ip _) H1). cbn [orb].
  pose proof (arp_update_spec cache ip mac) as H. destruct (arp_update cache ip mac) as [c []]; [by apply H|].
  rewrite (proj2 (Nat.ltb_lt _ _) Hl). destruct H as [_ H]. destruct (H eq_refl) as [_ Hn]. rewrite arp_lookup_app by done. cbn.
  by rewrite Z.eqb_refl.
Qed.

(** A frame with a SYN from a host [src] of the local network to a port that a
    socket listens on and the host has no connection to. *)
Record syn_frame (s : inet) (frame : list Z) (l : Z) : Prop := {
  sf_bytes : Forall is_byte frame;
  sf_type : htons (get16 frame 12) = 0x0800;
  sf_proto : get8 frame 23 = 6;
  sf_length : (34 <= length frame)%nat;
  sf_source : get32 frame 26 <> 0 /\ get32 frame 26 <> 0xFFFFFFFF;
  sf_local : Z.land (get32 frame 26) 0x00FFFFFF = Z.land (my_ip (nw s)) 0x00FFFFFF;
  sf_syn : has_flag (get8 (drop 34 frame) 13) TCP_SYN = true;
  sf_listener : l <> 0 /\ find_socket (htons (get16 (drop 34 frame) 2)) (get32 frame 26) (htons (get16 (drop 34 frame) 0))
                            (sockets (tp s)) 0 (size (socks (tp s))) (tp s) = Some ((0, l), tp s)
}.

Lemma sent_segment_bytes k flags seq : is_byte flags -> Forall is_byte (tcp_segment0 k flags [] seq).
Proof.
  intros Hf. unfold tcp_segment0. rewrite !Forall_app.
  split_and!; try (apply le_bytes_bytes; lia); repeat (constructor; [done|]); constructor.
Qed.

Lemma sent_segment_spec k flags seq :
  is_byte flags ->
  let sg := sent_segment k flags seq in
  length sg = 20%nat /\ tcp_checksum sg 20 (local_ip k) (remote_ip k) = 0 /\ get8 sg 13 = flags
  /\ sub sg 0 12 = le_bytes 2 (htons (local_port k)) ++ le_bytes 2 (htons (remote_port k)) ++ le_bytes 4 (htonl seq) ++ le_bytes 4 (htonl (ack_num k)).
Proof.
  intros Hf sg. pose proof (length_segment0 k flags seq) as Hl. split_and!.
  - unfold sg, sent_segment. by rewrite length_put_checksum by lia.
  - unfold sg, sent_segment. apply tcp_checksum_verifies; [by apply sent_segment_bytes|by rewrite Hl|lia|done].
  - apply sent_flags.
  - unfold sg, sent_segment, put_checksum. by rewrite sub_put16_ne by lia.
Qed.

(** The way of a TCP frame through the layers, when one segment is answered. *)
Lemma handle_tcp_frame wakes s frame len t dest sg n :
  let n1 := set_arp_cache (arp_record (arp_cache (nw s)) (get32 frame 26) (sub frame 6 6)) (nw s) in
  htons (get16 frame 12) = 0x0800 -> get8 frame 23 = 6 ->
  tcp_handle_packet (drop 34 frame) (u16 (htons (get16 frame 16) - 20)) (get32 frame 26) (get32 frame 30) (tp s) = Some (tt, t) ->
  ip_out t = ip_out (tp s) ++ [(dest, sg)] -> length sg = 20%nat -> netstack_send_ipv4 wakes dest 6 sg 20 n1 = Some (tt, n) ->
  netstack_handle_packet wakes frame len s = Some (tt, set_nw n (set_tp t s)).
Proof.
  intros n1 Ht Hp E Ho L E2. unfold netstack_handle_packet. rewrite Ht, Hp. cbn [Z.eqb Pos.eqb mwhen].
  unfold mbind_ at 1, on_net at 1, arp_cache_record, mmodify. fold n1. unfold handle_tcp, mbind_ at 1, mgets. unfold mbind_ at 1, on_tcp.
  cbn [tp set_nw]. rewrite E. unfold mbind_ at 1. cbn [tp set_tp]. rewrite Ho, drop_app_length. unfold on_net.
  cbn [send_segments nw set_nw set_tp]. unfold mbind_. rewrite L. change (Z.of_nat 20) with 20. rewrite E2. done.
Qed.


(** A host of the local network connects to port 80. *)
Definition inet_listening : inet := {| nw := net_demo; tp := tcp_listening; registrations := []; udp_calls := [] |}.
Definition syn_demo : list Z :=
  [82; 84; 0; 18; 52; 86; 82; 85; 10; 0; 2; 9; 8; 0] ++ [0x45; 0; 0; 40; 0; 0; 0; 0; 64; 6; 0; 0; 10; 0; 2; 9; 10; 0; 2; 15] ++ seg_demo 2 [].

Definition heap_after (h : kheap) (n : Z) : kheap := match kmalloc h n with KRet _ h' => h' | _ => h end.
Lemma kmalloc_runs h n q : match kmalloc h n with KRet p _ => p | _ => 0 end = q -> q <> 0 -> kmalloc h n = KRet q (heap_after h n).
Proof. intros E Hq. unfold heap_after. destruct (kmalloc h n) as [p h'| |]; [by subst p|congruence..]. Qed.

Lemma syn_demo_frame : syn_frame inet_listening syn_demo 65544.
Proof.
  constructor; [repeat (constructor; [done|]); constructor|by_vm|by_vm|by_compute|by_compute|by_vm|by_vm|]. split; [done|].
  exact (find_socket_run 80 0x0902000A 5000 (sockets tcp_listening) 0 (size (socks tcp_listening)) tcp_listening (0, 65544) ltac:(by_vm)).
Qed.

