(* ===== verification/Fat.v ===== *)
(** * FAT32: volumes, the allocation table and clusters ([src/src/fs/fat32.c])

    [vol] gathers the static variables of [fat32.c].  The disk is reached
    through three function pointers that a driver sets, [block_io]; [W] is the
    driver's state.  A failed [file_system_read_block] leaves the buffer as it
    was, and the code does not look at the result of reads and writes after the
    mount: [sector_at] and [put_sector] do the same.  [fresh n] is the
    contents of a buffer just allocated, cut out of the arbitrary [junk].

    [None] is a call that has no result: a division by zero, an access outside
    a buffer, or a chain of clusters that never ends ([fuel] bounds the clusters
    a loop may visit; the theorems state how much is enough).  [kmalloc] stops
    the machine rather than return NULL, so the branches for NULL are absent. *)

From Stdlib Require Import ZArith Lia String.
From stdpp Require Import base numbers list gmap.
From S2P Require Import Prelude Bytes.

(** [fat32_read_block_fn], [fat32_write_block_fn] and [fat32_read_blocks_fn]. *)
Record block_io (W : Type) := {
  read_block : W -> Z -> option (list Z);
  write_block : W -> Z -> list Z -> bool * W;
  read_blocks : option (W -> Z -> Z -> option (list Z))
}.
Arguments read_block {W}. Arguments write_block {W}. Arguments read_blocks {W}.

Record vol (W : Type) := {
  world : W;
  io : block_io W;
  (** the 512 bytes of [fat32_boot_sector_t] *)
  boot_sector : list Z;
  fat_begin_lba : Z;
  cluster_begin_lba : Z;
  root_dir_first_cluster : Z;
  fat32_mounted : bool
}.
Arguments world {W}. Arguments io {W}. Arguments boot_sector {W}. Arguments fat_begin_lba {W}.
Arguments cluster_begin_lba {W}. Arguments root_dir_first_cluster {W}. Arguments fat32_mounted {W}.

Definition set_world {W} (s : vol W) (w : W) : vol W :=
  {| world := w; io := io s; boot_sector := boot_sector s; fat_begin_lba := fat_begin_lba s;
     cluster_begin_lba := cluster_begin_lba s; root_dir_first_cluster := root_dir_first_cluster s;
     fat32_mounted := fat32_mounted s |}.

Definition set_io {W} (s : vol W) (f : block_io W) : vol W :=
  {| world := world s; io := f; boot_sector := boot_sector s; fat_begin_lba := fat_begin_lba s;
     cluster_begin_lba := cluster_begin_lba s; root_dir_first_cluster := root_dir_first_cluster s;
     fat32_mounted := fat32_mounted s |}.

Definition SECTOR : nat := 512.
Definition CLUSTER_MASK : Z := 0x0FFFFFFF.
Definition CLUSTER_END : Z := 0x0FFFFFF8.

(** Run a reader inside a call that changes the volume. *)
Definition mread {S A} (f : S -> option A) : M S A :=
  fun s => match f s with Some a => Some (a, s) | None => None end.

(** [fat32_boot_sector_t] *)
Definition BPB_BytsPerSec {W} (s : vol W) : Z := get16 (boot_sector s) 11.
Definition BPB_SecPerClus {W} (s : vol W) : Z := get8 (boot_sector s) 13.
Definition BPB_RsvdSecCnt {W} (s : vol W) : Z := get16 (boot_sector s) 14.
Definition BPB_NumFATs {W} (s : vol W) : Z := get8 (boot_sector s) 16.
Definition BPB_FATSz32 {W} (s : vol W) : Z := get32 (boot_sector s) 36.
Definition BPB_RootClus {W} (s : vol W) : Z := get32 (boot_sector s) 44.
Definition BS_FilSysType {W} (s : vol W) : list Z := sub (boot_sector s) 82 8.

Section Code.
Context {W : Type}.
Variable junk : list Z.
Variable fuel : nat.

(** The contents of a buffer of [n] bytes just allocated. *)
Definition fresh (n : Z) : list Z := resize (Z.to_nat n) 0 junk.

(** ** Sectors *)

Definition sector_at (s : vol W) (lba : Z) (old : list Z) : list Z := default old (read_block (io s) (world s) lba).

Definition put_sector (lba : Z) (b : list Z) : M (vol W) unit :=
  fun s => Some (tt, set_world s (snd (write_block (io s) (world s) lba b))).

Definition fat32_set_block_io (read_fn : option (W -> Z -> option (list Z)))
    (write_fn : option (W -> Z -> list Z -> bool * W)) (s : vol W) : vol W :=
  set_io s {| read_block := default (read_block (io s)) read_fn;
              write_block := default (write_block (io s)) write_fn;
              read_blocks := read_blocks (io s) |}.

Definition fat32_set_block_io_blocks (f : option (W -> Z -> Z -> option (list Z))) (s : vol W) : vol W :=
  set_io s {| read_block := read_block (io s); write_block := write_block (io s); read_blocks := f |}.

(** ** Mounting *)

(** The root node is its cluster. *)
Definition fat32_mount (partition_lba_start : Z) (s : vol W) : option Z * vol W :=
  match read_block (io s) (world s) partition_lba_start with
  | None => (None, s)
  | Some b =>
      let s1 := {| world := world s; io := io s; boot_sector := take SECTOR b; fat_begin_lba := fat_begin_lba s;
                   cluster_begin_lba := cluster_begin_lba s; root_dir_first_cluster := root_dir_first_cluster s;
                   fat32_mounted := fat32_mounted s |} in
      if negb (bool_decide (BS_FilSysType s1 = str "FAT32   ")) then (None, s1) else
      let fat_begin := u32 (partition_lba_start + BPB_RsvdSecCnt s1) in
      (Some (BPB_RootClus s1),
       {| world := world s; io := io s; boot_sector := take SECTOR b; fat_begin_lba := fat_begin;
          cluster_begin_lba := u32 (fat_begin + u32 (BPB_NumFATs s1 * BPB_FATSz32 s1));
          root_dir_first_cluster := BPB_RootClus s1; fat32_mounted := true |})
  end.

Definition fat32_is_mounted (s : vol W) : bool := fat32_mounted s.

(** ** The allocation table *)

(** Sector and index of an entry of the first table; the buffer has 128
    entries. *)
Definition fat_pos (s : vol W) (cluster : Z) : option (Z * nat) :=
  let bps := BPB_BytsPerSec s in
  if bps =? 0 then None else
  let i := u32 (cluster * 4) mod bps / 4 in
  if 128 <=? i then None else Some (u32 (fat_begin_lba s + u32 (cluster * 4) / bps), Z.to_nat i).

Definition fat_entry (b : list Z) (i : nat) : Z := Z.land (get32 b (4 * i)) CLUSTER_MASK.

Definition fat32_next_cluster (s : vol W) (current_cluster : Z) : option Z :=
  match fat_pos s current_cluster with
  | None => None
  | Some (fat_sector, i) => Some (fat_entry (sector_at s fat_sector (fresh 512)) i)
  end.

Definition fat32_is_end_of_chain (cluster : Z) : bool := CLUSTER_END <=? cluster.

(** [current >= 2 && current < 0x0FFFFFF8] *)
Definition in_chain (c : Z) : bool := ((2 <=? c) && negb (fat32_is_end_of_chain c))%bool.

Definition fat32_write_fat_entry (cluster value : Z) : M (vol W) unit :=
  pos <-- mread (fun s => fat_pos s cluster) ;;
  buffer <-- mgets (fun s => put32 (sector_at s (fst pos) (fresh 512)) (4 * snd pos) value) ;;
  fats <-- mgets BPB_NumFATs ;;
  size <-- mgets BPB_FATSz32 ;;
  mfor 0 (Z.to_nat fats) (fun i => put_sector (u32 (fst pos + u32 (i * size))) buffer).

(** The entries of one sector, from [i] on. *)
Fixpoint free_entry_scan (b : list Z) (i n : nat) : option (option nat) :=
  match n with
  | O => Some None
  | S n' =>
      if (128 <=? i)%nat then None
      else if fat_entry b i =? 0 then Some (Some i)
      else free_entry_scan b (S i) n'
  end.

Fixpoint free_cluster_scan (s : vol W) (buf : list Z) (sec : Z) (n : nat) : option Z :=
  match n with
  | O => Some 0
  | S n' =>
      let entries_per_sector := BPB_BytsPerSec s / 4 in
      let b := sector_at s (u32 (fat_begin_lba s + sec)) buf in
      match free_entry_scan b 0 (Z.to_nat entries_per_sector) with
      | None => None
      | Some (Some i) => Some (u32 (u32 (sec * entries_per_sector) + Z.of_nat i))
      | Some None => free_cluster_scan s b (sec + 1) n'
      end
  end.

Definition fat32_find_free_cluster (s : vol W) : option Z :=
  free_cluster_scan s (fresh 512) 0 (Z.to_nat (BPB_FATSz32 s)).

Fixpoint free_chain_loop (n : nat) (current : Z) : M (vol W) unit :=
  if negb (in_chain current) then mret_ tt else
  match n with
  | O => mstop
  | S n' =>
      next <-- mread (fun s => fat32_next_cluster s current) ;;
      fat32_write_fat_entry current 0 ;;;
      (if next =? current then mret_ tt else free_chain_loop n' next)
  end.

Definition fat32_free_cluster_chain (start_cluster : Z) : M (vol W) unit := free_chain_loop fuel start_cluster.

(** ** Clusters *)

Definition fat32_cluster_size_bytes (s : vol W) : Z := BPB_SecPerClus s * BPB_BytsPerSec s.

Definition cluster_lba (s : vol W) (c : Z) : Z :=
  u32 (cluster_begin_lba s + u32 (u32 (c - 2) * BPB_SecPerClus s)).

(** [for (i...) read_block(lba + i, buffer + at + i * stride)] *)
Fixpoint read_sectors (s : vol W) (lba : Z) (stride off i : Z) (n : nat) (buffer : list Z) : option (list Z) :=
  match n with
  | O => Some buffer
  | S n' =>
      let o := Z.to_nat (off + i * stride) in
      if (length buffer <? o + SECTOR)%nat then None else
      read_sectors s lba stride off (i + 1) n'
        (splice buffer o (sector_at s (u32 (lba + i)) (sub buffer o SECTOR)))
  end.

Fixpoint write_sectors (lba stride : Z) (buffer : list Z) (i : Z) (n : nat) : M (vol W) unit :=
  match n with
  | O => mret_ tt
  | S n' =>
      let o := Z.to_nat (i * stride) in
      if (length buffer <? o + SECTOR)%nat then mstop else
      put_sector (u32 (lba + i)) (sub buffer o SECTOR) ;;; write_sectors lba stride buffer (i + 1) n'
  end.

Definition fat32_read_directory_cluster (s : vol W) (cluster : Z) (buffer : list Z) : option (list Z) :=
  read_sectors s (cluster_lba s cluster) (BPB_BytsPerSec s) 0 0 (Z.to_nat (BPB_SecPerClus s)) buffer.

Definition fat32_write_directory_cluster (cluster : Z) (buffer : list Z) : M (vol W) unit :=
  fun s => write_sectors (cluster_lba s cluster) (BPB_BytsPerSec s) buffer 0 (Z.to_nat (BPB_SecPerClus s)) s.

Definition fat32_zero_cluster (cluster : Z) : M (vol W) unit :=
  fun s => fat32_write_directory_cluster cluster (zeros (Z.to_nat (fat32_cluster_size_bytes s))) s.

Definition fat32_load_root_dir (s : vol W) : option (option (list Z * Z)) :=
  if negb (fat32_mounted s) then Some None else
  let lba := cluster_lba s (root_dir_first_cluster s) in
  match read_sectors s lba 512 0 0 (Z.to_nat (BPB_SecPerClus s)) (fresh (fat32_cluster_size_bytes s)) with
  | None => None
  | Some b => Some (Some (b, lba))
  end.

Fixpoint directory_size (s : vol W) (n : nat) (c total : Z) : option Z :=
  if negb (in_chain c) then Some total else
  match n with
  | O => None
  | S n' =>
      match fat32_next_cluster s c with
      | None => None
      | Some c' => directory_size s n' c' (u32 (total + fat32_cluster_size_bytes s))
      end
  end.

Fixpoint directory_load (s : vol W) (n : nat) (c total : Z) (buffer : list Z) : option (list Z * Z) :=
  if negb (in_chain c) then Some (buffer, total) else
  match n with
  | O => None
  | S n' =>
      match read_sectors s (cluster_lba s c) (BPB_BytsPerSec s) total 0 (Z.to_nat (BPB_SecPerClus s)) buffer,
            fat32_next_cluster s c with
      | Some b, Some c' => directory_load s n' c' (u32 (total + fat32_cluster_size_bytes s)) b
      | _, _ => None
      end
  end.

(** [None] inside is the result -1. *)
Definition fat32_load_directory (s : vol W) (start_cluster : Z) : option (option (list Z * Z)) :=
  if (negb (fat32_mounted s) || (start_cluster <? 2))%bool then Some None else
  match directory_size s fuel start_cluster 0 with
  | None => None
  | Some total =>
      match directory_load s fuel start_cluster 0 (fresh total) with
      | None => None
      | Some r => Some (Some r)
      end
  end.

(** ** Allocation *)

Fixpoint allocate_loop (n : nat) (first previous : Z) : M (vol W) Z :=
  match n with
  | O => mret_ first
  | S n' =>
      cluster <-- mread fat32_find_free_cluster ;;
      if cluster =? 0 then
        mwhen (2 <=? first) (fat32_free_cluster_chain first) ;;; mret_ 0
      else
        fat32_write_fat_entry cluster 0x0FFFFFFF ;;;
        fat32_zero_cluster cluster ;;;
        (if 2 <=? previous then
           fat32_write_fat_entry previous cluster ;;; allocate_loop n' first cluster
         else allocate_loop n' cluster cluster)
  end.

Definition fat32_allocate_cluster_chain (needed_clusters : Z) : M (vol W) Z :=
  allocate_loop (Z.to_nat (if needed_clusters =? 0 then 1 else needed_clusters)) 0 0.

(** The loop writes at least a byte per round unless clusters are empty, in
    which case it never ends. *)
Fixpoint write_chain_loop (n : nat) (current : Z) (data : list Z) (size written : Z) : M (vol W) Z :=
  if negb (in_chain current && (written <? size))%bool then mret_ written else
  match n with
  | O => mstop
  | S n' =>
      cluster_size <-- mgets fat32_cluster_size_bytes ;;
      let chunk := if cluster_size <? size - written then cluster_size else size - written in
      let cluster_buffer := splice (zeros (Z.to_nat cluster_size)) 0 (sub data (Z.to_nat written) (Z.to_nat chunk)) in
      fat32_write_directory_cluster current cluster_buffer ;;;
      next <-- mread (fun s => fat32_next_cluster s current) ;;
      write_chain_loop n' next data size (written + chunk)
  end.

(** [data] holds at least [size] bytes. *)
Definition fat32_write_cluster_chain (start_cluster : Z) (data : list Z) (size : Z) : M (vol W) Z :=
  if start_cluster <? 2 then mret_ 0
  else write_chain_loop (Z.to_nat size) start_cluster data size 0.

(** ** Reading a file *)

(** [memcpy] into the caller's buffer; leaving it is no result. *)
Definition buffer_write (buffer : list Z) (o : Z) (bs : list Z) : option (list Z) :=
  if (length buffer <? Z.to_nat o + length bs)%nat then None else Some (splice buffer (Z.to_nat o) bs).

Fixpoint skip_clusters (s : vol W) (n : nat) (c : Z) : option (option Z) :=
  match n with
  | O => Some (Some c)
  | S n' =>
      match fat32_next_cluster s c with
      | None => None
      | Some c' => if fat32_is_end_of_chain c' then Some None else skip_clusters s n' c'
      end
  end.

Fixpoint read_slow (s : vol W) (n : nat) (c start : Z) (cbuf : list Z) (bytes_to_read bytes_read : Z) (buffer : list Z)
  : option (Z * list Z) :=
  if negb ((0 <? bytes_to_read) && negb (fat32_is_end_of_chain c))%bool then Some (bytes_read, buffer) else
  match n with
  | O => None
  | S n' =>
      match fat32_read_directory_cluster s c cbuf, fat32_next_cluster s c with
      | Some b, Some c' =>
          let room := fat32_cluster_size_bytes s - start in
          let to_copy := if bytes_to_read <? room then bytes_to_read else room in
          match buffer_write buffer bytes_read (sub b (Z.to_nat start) (Z.to_nat to_copy)) with
          | None => None
          | Some buffer' => read_slow s n' c' 0 b (bytes_to_read - to_copy) (bytes_read + to_copy) buffer'
          end
      | _, _ => None
      end
  end.

(** The scan for consecutive clusters, with the cached sector of the table:
    last cluster of the run, its successor, the length, the cache. *)
Fixpoint run_scan (s : vol W) (n : nat) (c len : Z) (cache : Z * list Z) : option (Z * Z * (Z * list Z)) :=
  match n with
  | O => None
  | S n' =>
      match fat_pos s c with
      | None => None
      | Some (sec, i) =>
          let cache' := if sec =? fst cache then cache else (sec, sector_at s sec (snd cache)) in
          let next := fat_entry (snd cache') i in
          if ((next =? u32 (c + 1)) && (next <? CLUSTER_END))%bool
          then run_scan s n' next (u32 (len + 1)) cache'
          else Some (next, len, cache')
      end
  end.

Fixpoint read_fast (s : vol W) (rb : W -> Z -> Z -> option (list Z)) (n : nat) (c : Z) (cache : Z * list Z)
    (bytes_to_read bytes_read : Z) (buffer : list Z) : option (Z * list Z) :=
  if negb ((0 <? bytes_to_read) && negb (fat32_is_end_of_chain c))%bool then Some (bytes_read, buffer) else
  match n with
  | O => None
  | S n' =>
      match run_scan s fuel c 1 cache with
      | None => None
      | Some (next, run_clusters, cache') =>
          let bps := BPB_BytsPerSec s in
          let run_bytes := u32 (u32 (run_clusters * BPB_SecPerClus s) * bps) in
          let take := if bytes_to_read <? run_bytes then bytes_to_read else run_bytes in
          let take_sectors := u32 (take + bps - 1) / bps in
          let run_lba := cluster_lba s c in
          let o := Z.to_nat bytes_read in
          let got := default (sub buffer o (Z.to_nat take_sectors * SECTOR)) (rb (world s) run_lba take_sectors) in
          match buffer_write buffer bytes_read got with
          | None => None
          | Some buffer' => read_fast s rb n' next cache' (bytes_to_read - take) (bytes_read + take) buffer'
          end
      end
  end.

Definition FS_FILE : Z := 0x01.
Definition FS_DIRECTORY : Z := 0x02.

(** The fields of [fs_node_t] the callbacks use. *)
Record fat_node := { fn_name : list Z; fn_inode : Z; fn_length : Z; fn_nflags : Z }.

(** A round of a reading loop reads at least a byte. *)
Definition fat32_read (s : vol W) (node : fat_node) (offset size : Z) (buffer : list Z) : option (Z * list Z) :=
  if Z.land (fn_nflags node) FS_FILE =? 0 then Some (0, buffer) else
  let cluster_size := fat32_cluster_size_bytes s in
  if cluster_size =? 0 then None else
  match skip_clusters s (Z.to_nat (offset / cluster_size)) (fn_inode node) with
  | None => None
  | Some None => Some (0, buffer)
  | Some (Some c) =>
      match read_blocks (io s), offset mod cluster_size =? 0 with
      | Some rb, true => read_fast s rb (Z.to_nat size) c (0xFFFFFFFF, fresh 512) size 0 buffer
      | _, _ => read_slow s (Z.to_nat size) c (offset mod cluster_size) (fresh cluster_size) size 0 buffer
      end
  end.
End Code.
