(* ===== verification/FatChain.v ===== *)
(** * FAT32: cluster chains

    The abstract view of a volume: [fat s] is the table as a function from
    clusters to entries, [clus s] the contents of the clusters.  The lemmas give
    every low-level operation of [Fat] as a [step] of that view: the new table,
    the new contents, and that all copies of the table stay identical
    ([mirror]). *)

From Stdlib Require Import ZArith Lia.
From stdpp Require Import base numbers list gmap sorting.
From S2P Require Import Prelude Bytes Fat.

(** What the file system relies on: the sectors of [ok] can be read and
    written, and a transfer of several sectors is the sequence of single ones
    ([include/fs/fat32.h]). *)
Record io_ok {W} (f : block_io W) (ok : W -> Z -> Prop) : Prop := {
  io_read : forall w n, ok w n -> exists b, read_block f w n = Some b /\ length b = SECTOR;
  io_write : forall w n b, ok w n -> length b = SECTOR ->
    exists w', write_block f w n b = (true, w')
      /\ forall m, ok w m -> ok w' m /\ read_block f w' m = if decide (m = n) then Some b else read_block f w m;
  io_blocks : forall rb w n k, read_blocks f = Some rb -> (0 < k)%nat -> (forall i, 0 <= i < Z.of_nat k -> ok w (n + i)) ->
    rb w n (Z.of_nat k) = Some (concat (map (fun i => default [] (read_block f w i)) (seqZ n (Z.of_nat k))))
}.

(** ** The view *)

Section View.
Context {W : Type}.
Implicit Types s : vol W.

Definition sec s (n : Z) : list Z := default [] (read_block (io s) (world s) n).

(** Number of entries of a table. *)
Definition entries s : Z := 128 * BPB_FATSz32 s.

Definition fat s (c : Z) : Z := fat_entry (sec s (fat_begin_lba s + c / 128)) (Z.to_nat (c mod 128)).

(** First sector of a cluster. *)
Definition clus_at s (c : Z) : Z := cluster_begin_lba s + (c - 2) * BPB_SecPerClus s.

Definition clus s (c : Z) : list Z := concat (map (sec s) (seqZ (clus_at s c) (BPB_SecPerClus s))).

(** Every copy of the table holds what the first one holds. *)
Definition mirror s : Prop :=
  forall k j, 0 <= k < BPB_NumFATs s -> 0 <= j < BPB_FATSz32 s ->
  sec s (fat_begin_lba s + k * BPB_FATSz32 s + j) = sec s (fat_begin_lba s + j).

(** The contents of a chain. *)
Definition content (C : Z -> list Z) (l : list Z) : list Z := concat (map C l).

(** [l] is the chain of [c] in the table [F]. *)
Fixpoint is_chain (F : Z -> Z) (c : Z) (l : list Z) : Prop :=
  match l with
  | [] => False
  | [x] => x = c /\ CLUSTER_END <= F x
  | x :: (y :: _) as t => x = c /\ F x = y /\ is_chain F y t
  end.

(** The table with the clusters of [l] linked in order. *)
Fixpoint link (l : list Z) (F : Z -> Z) (c : Z) : Z :=
  match l with
  | [] => F c
  | x :: t => if decide (c = x) then match t with [] => 0x0FFFFFFF | y :: _ => y end else link t F c
  end.

Definition free_list s : list Z := filter (fun c => fat s c = 0) (seqZ 0 (entries s)).

Variable okw : W -> Z -> Prop.

Record geo_ok s : Prop := {
  g_io : io_ok (io s) okw;
  g_bps : BPB_BytsPerSec s = 512;
  g_spc : 1 <= BPB_SecPerClus s <= 255;
  g_fats : 1 <= BPB_NumFATs s;
  g_fatsz : 1 <= BPB_FATSz32 s;
  g_entries : entries s <= CLUSTER_END;
  g_begin : 0 <= fat_begin_lba s;
  g_data : cluster_begin_lba s = fat_begin_lba s + BPB_NumFATs s * BPB_FATSz32 s;
  g_data_small : cluster_begin_lba s < 2 ^ 32;
  g_fat_ok : forall n, fat_begin_lba s <= n < cluster_begin_lba s -> okw (world s) n
}.

(** A cluster number of the table whose sectors the disk has. *)
Definition clus_ok s (c : Z) : Prop :=
  2 <= c < entries s /\ cluster_begin_lba s + (c - 1) * BPB_SecPerClus s <= 2 ^ 32
  /\ forall i, 0 <= i < BPB_SecPerClus s -> okw (world s) (clus_at s c + i).

(** The free entries of the table are clusters of the disk. *)
Definition vol_ok s : Prop := geo_ok s /\ Forall (clus_ok s) (free_list s).

(** From [s] to [s'], with the table [F] and the contents [C] at the end. *)
Definition step s s' (F : Z -> Z) (C : Z -> list Z) : Prop :=
  s' = set_world s (world s')
  /\ (forall m, okw (world s) m -> okw (world s') m)
  /\ (mirror s -> mirror s')
  /\ (forall c, 0 <= c < entries s -> fat s' c = F c)
  /\ (forall c, clus_ok s c -> clus s' c = C c).
End View.
Arguments step {W} okw s s' F C.

(** Entries of a modified table. *)
Definition fupd {A} (F : Z -> A) (c : Z) (v : A) : Z -> A := fun d => if decide (d = c) then v else F d.

(** ** Chains *)

Lemma is_chain_head F c l : is_chain F c l -> exists t, l = c :: t.
Proof. destruct l as [|x [|y t]]; simpl; [done| |]; intros [-> _]; eauto. Qed.

Lemma is_chain_cons F c x y t : is_chain F c (x :: y :: t) <-> x = c /\ F x = y /\ is_chain F y (y :: t).
Proof. done. Qed.

Lemma is_chain_ext F G c l : (forall x, x ∈ l -> F x = G x) -> is_chain F c l -> is_chain G c l.
Proof.
  revert c. induction l as [|x [|y t] IH]; intros c H; [done| |].
  - simpl. rewrite H by set_solver. done.
  - rewrite !is_chain_cons, (H x) by set_solver. intros (-> & E & Ht). split_and!; [done|done|]. apply IH; [|done]. intros z Hz. apply H. by right.
Qed.

(** A table has at most one chain from a cluster, and it visits no cluster
    twice; entries of a chain are clusters, so below the end mark. *)
Lemma is_chain_det F c l1 l2 :
  Forall (fun x => x < CLUSTER_END) l1 -> Forall (fun x => x < CLUSTER_END) l2 ->
  is_chain F c l1 -> is_chain F c l2 -> l1 = l2.
Proof.
  revert c l2. induction l1 as [|x [|y t] IH]; intros c l2 B1 B2 H1 H2; [done| |].
  - destruct l2 as [|x' [|y' t']]; [done| |].
    + destruct H1 as [-> _], H2 as [-> _]. done.
    + destruct H1 as [-> H1], H2 as (-> & H2 & _). rewrite !Forall_cons in B2. lia.
  - destruct l2 as [|x' [|y' t']]; [done| |].
    + destruct H1 as (-> & H1 & _), H2 as (-> & H2). rewrite !Forall_cons in B1. lia.
    + rewrite is_chain_cons in H1, H2. destruct H1 as (-> & E1 & H1), H2 as (-> & E2 & H2). f_equal.
      assert (y' = y) as -> by congruence. rewrite Forall_cons in B1, B2. by apply (IH y); [apply B1|apply B2|..].
Qed.

Lemma is_chain_suffix F c l a x b : l = a ++ x :: b -> is_chain F c l -> is_chain F x (x :: b).
Proof.
  revert c l. induction a as [|y a IH]; intros c l -> H.
  - destruct (is_chain_head _ _ _ H) as [t [= -> ->]]. done.
  - simpl in H. destruct (a ++ x :: b) as [|z t] eqn:E; [by destruct a|].
    destruct H as (_ & _ & H). exact (IH z (z :: t) eq_refl H).
Qed.

Lemma is_chain_NoDup F c l : Forall (fun x => x < CLUSTER_END) l -> is_chain F c l -> NoDup l.
Proof.
  revert c. induction l as [|x t IH]; intros c B H; [done|]. rewrite Forall_cons in B. destruct B as [Bx B].
  destruct (is_chain_head _ _ _ H) as [t' [= -> <-]]. constructor.
  - intros Hin. apply list_elem_of_split in Hin as (a & b & E).
    assert (Hb : is_chain F c (c :: b)).
    { apply (is_chain_suffix F c (c :: t) (c :: a)); [by rewrite E|done]. }
    assert (Bb : Forall (fun x => x < CLUSTER_END) b).
    { rewrite E in B. rewrite Forall_app, Forall_cons in B. apply B. }
    pose proof (is_chain_det F c (c :: t) (c :: b) ltac:(by constructor) ltac:(by constructor) H Hb) as [= E2].
    apply (f_equal length) in E. rewrite length_app in E. simpl in E. apply (f_equal length) in E2. lia.
  - destruct t as [|y t]; [constructor|]. destruct H as (_ & _ & H). by apply (IH y).
Qed.

Lemma link_out l F c : c ∉ l -> link l F c = F c.
Proof.
  induction l as [|x t IH]; intros H; simpl; [done|]. rewrite not_elem_of_cons in H. destruct H.
  rewrite decide_False by done. by apply IH.
Qed.

Lemma link_in l F G c : c ∈ l -> link l F c = link l G c.
Proof.
  induction l as [|x t IH]; intros H; simpl; [by apply not_elem_of_nil in H|]. case_decide; [done|].
  apply IH. apply elem_of_cons in H. tauto.
Qed.

Lemma link_chain l F c t : l = c :: t -> NoDup l -> is_chain (link l F) c l.
Proof.
  revert c t. induction l as [|x l IH]; intros c t [= -> ->] Hn; destruct t as [|y t].
  - simpl. rewrite decide_True by done. unfold CLUSTER_END. split; [done|lia].
  - rewrite is_chain_cons. rewrite NoDup_cons in Hn. destruct Hn as [Hx Hn]. split_and!; [done| |].
    + simpl. by rewrite decide_True.
    + apply (is_chain_ext (link (y :: t) F)); [|by apply (IH y t)].
      intros z Hz. cbn [link]. rewrite (decide_False (P := z = c)) by (intros ->; done). done.
Qed.

(** ** Generic list facts *)

Lemma concat_length_const {A} (f : Z -> list A) (l : list Z) n :
  (forall x, x ∈ l -> length (f x) = n) -> length (concat (map f l)) = (length l * n)%nat.
Proof.
  induction l as [|x l IH]; intros H; simpl; [done|]. rewrite length_app, IH by set_solver. rewrite (H x) by set_solver. lia.
Qed.

Lemma map_ext_elem {A} (f g : Z -> A) (l : list Z) : (forall x, x ∈ l -> f x = g x) -> map f l = map g l.
Proof. induction l as [|x l IH]; intros H; simpl; [done|]. rewrite H by set_solver. f_equal. apply IH. set_solver. Qed.

Lemma filter_ext_elem (P Q : Z -> Prop) `{!forall x, Decision (P x), !forall x, Decision (Q x)} (l : list Z) :
  (forall x, x ∈ l -> P x <-> Q x) -> filter P l = filter Q l.
Proof.
  induction l as [|x l IH]; intros Hl; [done|]. rewrite !filter_cons, IH by (intros; apply Hl; by right).
  specialize (Hl x ltac:(by left)). destruct (decide (P x)), (decide (Q x)); tauto.
Qed.

Lemma filter_remove_head (P Q : Z -> Prop) `{!forall x, Decision (P x), !forall x, Decision (Q x)} (l : list Z) c t :
  NoDup l -> filter P l = c :: t -> (forall x, x ∈ l -> Q x <-> P x /\ x <> c) -> filter Q l = t.
Proof.
  intros Hn E HQ. assert (Hn' : NoDup (c :: t)) by (rewrite <- E; by apply NoDup_filter).
  assert (E2 : filter Q l = filter (fun x => x <> c) (filter P l)).
  { rewrite list_filter_filter. apply filter_ext_elem. intros x Hx. rewrite (HQ x Hx). tauto. }
  rewrite E2, E, filter_cons, decide_False by tauto. rewrite NoDup_cons in Hn'. destruct Hn' as [Hc _].
  clear -Hc. induction t as [|y t IH]; [done|]. rewrite filter_cons, decide_True by set_solver. f_equal. apply IH. set_solver.
Qed.

(** ** Writes of sectors *)

Section Ops.
Context {W : Type}.
Variable junk : list Z.
Variable okw : W -> Z -> Prop.
Implicit Types s : vol W.

(** After the call the sectors of the disk read as [f]. *)
Definition upd s s' (f : Z -> list Z) : Prop :=
  s' = set_world s (world s') /\ forall m, okw (world s) m -> okw (world s') m /\ sec s' m = f m.

Lemma upd_refl s : upd s s (sec s).
Proof. split; [by destruct s|done]. Qed.

Lemma upd_trans s s1 s2 f g : upd s s1 f -> upd s1 s2 g -> upd s s2 g.
Proof.
  intros [E1 H1] [E2 H2]. split.
  - rewrite E2. rewrite E1 at 1. done.
  - intros m Hm. destruct (H1 m Hm) as [Hm1 _]. apply H2. done.
Qed.

Lemma upd_ext s s' f g : upd s s' f -> (forall m, okw (world s) m -> f m = g m) -> upd s s' g.
Proof. intros [E H] Hfg. split; [done|]. intros m Hm. destruct (H m Hm) as [? ->]. auto. Qed.

Lemma put_sector_upd s n b :
  io_ok (io s) okw -> okw (world s) n -> length b = SECTOR ->
  exists s', put_sector n b s = Some (tt, s') /\ upd s s' (fupd (sec s) n b).
Proof.
  intros Hio Hn Hb. destruct (io_write _ _ Hio _ _ _ Hn Hb) as (w' & E & H). unfold put_sector. rewrite E. simpl.
  eexists. split; [done|]. split; [done|]. intros m Hm. destruct (H m Hm) as [? E2]. split; [done|].
  unfold sec, fupd; simpl. rewrite E2. by case_decide.
Qed.

Lemma sector_at_sec s n old : io_ok (io s) okw -> okw (world s) n -> sector_at s n old = sec s n.
Proof. intros Hio Hn. destruct (io_read _ _ Hio _ _ Hn) as (b & E & _). unfold sector_at, sec. by rewrite E. Qed.

Lemma length_sec s n : io_ok (io s) okw -> okw (world s) n -> length (sec s n) = SECTOR.
Proof. intros Hio Hn. destruct (io_read _ _ Hio _ _ Hn) as (b & E & ?). unfold sec. by rewrite E. Qed.

Lemma upd_io s s' f : upd s s' f -> io s' = io s.
Proof. by intros [-> _]. Qed.

Lemma length_fresh n : 0 <= n -> length (fresh junk n) = Z.to_nat n.
Proof. intros H. unfold fresh. by rewrite length_resize. Qed.

(** The two loops over the sectors of a cluster. *)
Lemma write_sectors_upd n s lba b i :
  io_ok (io s) okw -> 0 <= lba -> 0 <= i -> lba + i + Z.of_nat n <= 2 ^ 32 ->
  (forall k, i <= k < i + Z.of_nat n -> okw (world s) (lba + k)) ->
  (Z.to_nat (i + Z.of_nat n) * SECTOR <= length b)%nat ->
  exists s', write_sectors lba 512 b i n s = Some (tt, s')
    /\ upd s s' (fun m => if decide (lba + i <= m < lba + i + Z.of_nat n)
                          then sub b (Z.to_nat (m - lba) * SECTOR) SECTOR else sec s m).
Proof.
  revert s i. induction n as [|n IH]; intros s i Hio Hl Hi Hw Hok Hb.
  - eexists. split; [done|]. apply (upd_ext _ _ _ _ (upd_refl s)). intros m _. by rewrite decide_False by lia.
  - cbn [write_sectors]. replace (Z.to_nat (i * 512)) with (Z.to_nat i * SECTOR)%nat by (unfold SECTOR; lia).
    rewrite (proj2 (Nat.ltb_ge _ _)) by (unfold SECTOR in *; lia).
    rewrite u32_small by lia. unfold mbind_ at 1.
    destruct (put_sector_upd s (lba + i) (sub b (Z.to_nat i * SECTOR) SECTOR) Hio) as (s1 & -> & U1).
    { apply Hok. lia. } { apply length_sub. unfold SECTOR in *. lia. }
    destruct (IH s1 (i + 1)) as (s' & -> & U2); [by rewrite (upd_io _ _ _ U1)|done|lia|lia| |unfold SECTOR in *; lia|].
    { intros k Hk. apply U1. apply Hok. lia. }
    exists s'. split; [done|]. apply (upd_ext _ _ _ _ (upd_trans _ _ _ _ _ U1 U2)).
    intros m Hm. destruct U1 as [_ U1]. rewrite (proj2 (U1 m Hm)). unfold fupd.
    destruct (decide (m = lba + i)) as [->|].
    + rewrite decide_False, decide_True by lia. do 2 f_equal. lia.
    + destruct (decide (lba + i <= m < lba + i + Z.of_nat (S n))).
      * by rewrite decide_True by lia.
      * by rewrite decide_False by lia.
Qed.

Lemma read_sectors_sec n s lba off i b :
  io_ok (io s) okw -> 0 <= lba -> 0 <= i -> 0 <= off -> lba + i + Z.of_nat n <= 2 ^ 32 ->
  (forall k, i <= k < i + Z.of_nat n -> okw (world s) (lba + k)) ->
  (Z.to_nat (off + i * 512) + n * SECTOR <= length b)%nat ->
  read_sectors s lba 512 off i n b
    = Some (splice b (Z.to_nat (off + i * 512)) (concat (map (sec s) (seqZ (lba + i) (Z.of_nat n))))).
Proof.
  revert i b. induction n as [|n IH]; intros i b Hio Hl Hi Ho Hw Hok Hb.
  - simpl. unfold splice; simpl. by rewrite Nat.add_0_r, take_drop.
  - cbn [read_sectors]. rewrite (proj2 (Nat.ltb_ge _ _)) by (unfold SECTOR in *; lia).
    rewrite u32_small by lia. rewrite sector_at_sec by (try apply Hok; done || lia).
    assert (Hs : length (sec s (lba + i)) = SECTOR) by (apply length_sec; [done|apply Hok; lia]).
    rewrite IH; [|done|done|lia|done|lia|intros; apply Hok; lia|rewrite length_splice; unfold SECTOR in *; lia].
    f_equal. rewrite (seqZ_cons (lba + i)) by lia. cbn [map concat].
    replace (Z.pred (Z.of_nat (S n))) with (Z.of_nat n) by lia. replace (Z.succ (lba + i)) with (lba + (i + 1)) by lia.
    set (c := concat _). assert (Hc : length c = (n * SECTOR)%nat).
    { unfold c. rewrite (concat_length_const _ _ SECTOR).
      - rewrite length_seqZ. lia.
      - intros x Hx. apply elem_of_seqZ in Hx. apply length_sec; [done|]. replace x with (lba + (x - lba)) by lia. apply Hok. lia. }
    clearbody c. apply list_eq. intros j.
    rewrite lookup_splice by (rewrite Hc, length_splice; unfold SECTOR in *; lia).
    rewrite !lookup_splice by (rewrite ?length_app; unfold SECTOR in *; lia). rewrite length_app.
    repeat case_decide; unfold SECTOR in *; try lia; try done.
    + rewrite lookup_app_r by lia. f_equal. lia.
    + by rewrite lookup_app_l by lia.
Qed.

(** ** The operations as steps *)

Lemma upd_geo s s' f : upd s s' f -> geo_ok okw s -> geo_ok okw s'.
Proof.
  intros [E H] [? ? ? ? ? ? ? ? ? Hf]. rewrite E. constructor; try done.
  intros n Hn. exact (proj1 (H n (Hf n Hn))).
Qed.

Lemma step_refl s : step okw s s (fat s) (clus s).
Proof. split_and!; try done. by destruct s. Qed.

Lemma step_geo s s' F C : step okw s s' F C -> geo_ok okw s -> geo_ok okw s'.
Proof.
  intros (E & H & _) [? ? ? ? ? ? ? ? ? Hf]. rewrite E. constructor; try done.
  intros n Hn. exact (H n (Hf n Hn)).
Qed.

Lemma step_clus_ok s s' F C c : step okw s s' F C -> clus_ok okw s c -> clus_ok okw s' c.
Proof. intros (E & H & _) (? & ? & Hc). rewrite E. split; [done|]. split; [done|]. intros i Hi. exact (H _ (Hc i Hi)). Qed.

Lemma step_entries s s' F C : step okw s s' F C -> entries s' = entries s.
Proof. by intros [-> _]. Qed.

Lemma step_cluster_size s s' F C : step okw s s' F C -> fat32_cluster_size_bytes s' = fat32_cluster_size_bytes s.
Proof. by intros [-> _]. Qed.

Lemma step_trans s s1 s2 F1 C1 F2 C2 : step okw s s1 F1 C1 -> step okw s1 s2 F2 C2 -> step okw s s2 F2 C2.
Proof.
  intros S1 S2. pose proof (fun c => step_clus_ok s s1 F1 C1 c S1) as Hc. pose proof (step_entries _ _ _ _ S1) as He.
  destruct S1 as (E1 & H1 & M1 & _ & _), S2 as (E2 & H2 & M2 & Hf & Hd). rewrite He in Hf. split_and!; auto.
  rewrite E2. rewrite E1 at 1. done.
Qed.

Lemma step_ext s s' F C G D :
  step okw s s' F C -> (forall c, 0 <= c < entries s -> F c = G c) -> (forall c, clus_ok okw s c -> C c = D c) ->
  step okw s s' G D.
Proof.
  intros (? & ? & ? & HF & HC) HG HD. split_and!; try done.
  - intros c Hc. rewrite HF by done. auto.
  - intros c Hc. rewrite HC by done. auto.
Qed.

(** In sequence, with the second step given in terms of the state between. *)
Lemma step_seq s s1 s2 F1 C1 F2 C2 G D :
  step okw s s1 F1 C1 -> step okw s1 s2 F2 C2 ->
  (forall c, 0 <= c < entries s -> fat s1 c = F1 c -> F2 c = G c) ->
  (forall c, clus_ok okw s c -> clus s1 c = C1 c -> C2 c = D c) -> step okw s s2 G D.
Proof.
  intros S1 S2 HG HD. apply (step_ext _ _ _ _ _ _ (step_trans _ _ _ _ _ _ _ S1 S2)); destruct S1 as (_ & _ & _ & HF & HC); auto.
Qed.

Lemma fat_pos_ok s c :
  geo_ok okw s -> 0 <= c < entries s -> fat_pos s c = Some (fat_begin_lba s + c / 128, Z.to_nat (c mod 128)).
Proof.
  intros G Hc. unfold fat_pos. rewrite (g_bps _ _ G). simpl.
  pose proof (g_entries _ _ G). pose proof (g_data _ _ G). pose proof (g_data_small _ _ G). pose proof (g_begin _ _ G).
  pose proof (g_fats _ _ G). pose proof (g_fatsz _ _ G). unfold entries, CLUSTER_END in *.
  rewrite u32_small by lia. replace (c * 4 mod 512 / 4) with (c mod 128) by zlia. replace (c * 4 / 512) with (c / 128) by zlia.
  rewrite (proj2 (Z.leb_gt _ _)) by (pose proof (Z.mod_pos_bound c 128); lia).
  rewrite u32_small; [done|]. assert (c / 128 < BPB_FATSz32 s) by (apply Z.div_lt_upper_bound; lia).
  assert (0 <= c / 128) by (apply Z.div_pos; lia). nia.
Qed.

(** The sector of an entry is a sector of the disk. *)
Lemma fat_sector_ok s c : geo_ok okw s -> 0 <= c < entries s -> okw (world s) (fat_begin_lba s + c / 128).
Proof.
  intros G Hc. apply (g_fat_ok _ _ G). rewrite (g_data _ _ G). unfold entries in Hc.
  assert (c / 128 < BPB_FATSz32 s) by (apply Z.div_lt_upper_bound; lia).
  assert (0 <= c / 128) by (apply Z.div_pos; lia). pose proof (g_fats _ _ G). nia.
Qed.

Lemma next_cluster_fat s c : geo_ok okw s -> 0 <= c < entries s -> fat32_next_cluster junk s c = Some (fat s c).
Proof.
  intros G Hc. unfold fat32_next_cluster. rewrite fat_pos_ok by done.
  rewrite sector_at_sec by (try apply (g_io _ _ G); by apply fat_sector_ok). done.
Qed.

Lemma put_copies n s p size b i :
  io_ok (io s) okw -> 0 <= p -> 0 <= size -> 0 <= i ->
  (forall k, i <= k < i + Z.of_nat n -> okw (world s) (p + k * size) /\ p + k * size < 2 ^ 32) -> length b = SECTOR ->
  exists s', mfor i n (fun k => put_sector (u32 (p + u32 (k * size))) b) s = Some (tt, s')
    /\ upd s s' (fun m => if decide (m ∈ (fun k => p + k * size) <$> seqZ i (Z.of_nat n)) then b else sec s m).
Proof.
  revert s i. induction n as [|n IH]; intros s i Hio Hp Hs Hi Hok Hb.
  - eexists. split; [done|]. apply (upd_ext _ _ _ _ (upd_refl s)). intros m _. by rewrite decide_False by apply not_elem_of_nil.
  - cbn [mfor]. unfold mbind_ at 1. destruct (Hok i ltac:(lia)) as [Hok1 Hlt].
    rewrite (u32_small (i * size)) by nia. rewrite u32_small by nia.
    destruct (put_sector_upd s (p + i * size) b Hio Hok1 Hb) as (s1 & -> & U1).
    destruct (IH s1 (i + 1)) as (s' & -> & U2); [by rewrite (upd_io _ _ _ U1)|done|done|lia| |done|].
    { intros k Hk. destruct (Hok k ltac:(lia)). split; [|done]. by apply U1. }
    exists s'. split; [done|]. apply (upd_ext _ _ _ _ (upd_trans _ _ _ _ _ U1 U2)). intros m Hm.
    rewrite (seqZ_cons i) by lia. rewrite fmap_cons. replace (Z.pred (Z.of_nat (S n))) with (Z.of_nat n) by lia.
    replace (Z.succ i) with (i + 1) by lia. destruct U1 as [_ U1]. rewrite (proj2 (U1 m Hm)). unfold fupd.
    destruct (decide (m ∈ (fun k => p + k * size) <$> seqZ (i + 1) (Z.of_nat n))) as [Hin|Hin].
    + rewrite decide_True by (by right). done.
    + destruct (decide (m = p + i * size)) as [->|Hne].
      * rewrite decide_True by (by left). done.
      * rewrite decide_False by (rewrite elem_of_cons; tauto). done.
Qed.

(** The sectors that hold sector [j] of the table, one per copy. *)
Definition fat_copies s (j : Z) : list Z :=
  (fun k => fat_begin_lba s + j + k * BPB_FATSz32 s) <$> seqZ 0 (BPB_NumFATs s).

Lemma fat_copies_in s k i j :
  0 <= k < BPB_NumFATs s -> 0 <= i < BPB_FATSz32 s -> 0 <= j < BPB_FATSz32 s ->
  fat_begin_lba s + k * BPB_FATSz32 s + i ∈ fat_copies s j <-> i = j.
Proof.
  intros Hk Hi Hj. unfold fat_copies. rewrite list_elem_of_fmap. split.
  - intros (q & Hq & Hq'). apply elem_of_seqZ in Hq'. assert (k < q \/ k = q \/ q < k) as [|[->|]] by lia; nia.
  - intros ->. exists k. split; [lia|]. apply elem_of_seqZ. lia.
Qed.

Lemma fat_copies_out s x j :
  geo_ok okw s -> 0 <= j < BPB_FATSz32 s -> cluster_begin_lba s <= x -> x ∉ fat_copies s j.
Proof.
  intros G Hj Hx Hin. rewrite (g_data _ _ G) in Hx. apply list_elem_of_fmap in Hin as (q & Hq & Hq').
  apply elem_of_seqZ in Hq'. nia.
Qed.

Lemma fat_index s c : 0 <= c < entries s -> 0 <= c / 128 < BPB_FATSz32 s.
Proof. unfold entries. intros Hc. split; [apply Z.div_pos; lia|apply Z.div_lt_upper_bound; lia]. Qed.

(** The sector of [c] with the new entry. *)
Definition fat_sector s (c v : Z) : list Z :=
  put32 (sec s (fat_begin_lba s + c / 128)) (4 * Z.to_nat (c mod 128)) v.

Lemma write_fat_entry_upd s c v :
  geo_ok okw s -> 0 <= c < entries s ->
  exists s', fat32_write_fat_entry junk c v s = Some (tt, s')
    /\ upd s s' (fun m => if decide (m ∈ fat_copies s (c / 128)) then fat_sector s c v else sec s m).
Proof.
  intros G Hc. unfold fat32_write_fat_entry, mread, mgets. unfold mbind_ at 1. rewrite fat_pos_ok by done. unfold mbind_. simpl.
  pose proof (g_fats _ _ G) as Hn. pose proof (g_begin _ _ G) as Hb. pose proof (g_data _ _ G) as Hd. pose proof (g_data_small _ _ G) as Hds.
  pose proof (fat_index s c Hc) as Hj. pose proof (Z.mod_pos_bound c 128 ltac:(lia)).
  rewrite sector_at_sec by (try apply (g_io _ _ G); by apply fat_sector_ok).
  assert (Hl : length (sec s (fat_begin_lba s + c / 128)) = SECTOR) by (apply length_sec; [apply (g_io _ _ G)|by apply fat_sector_ok]).
  destruct (put_copies (Z.to_nat (BPB_NumFATs s)) s (fat_begin_lba s + c / 128) (BPB_FATSz32 s) (fat_sector s c v) 0)
    as (s' & E & U); try lia; [apply (g_io _ _ G)| | |].
  { intros k Hk. split; [apply (g_fat_ok _ _ G)|]; rewrite ?Hd; nia. }
  { unfold fat_sector. rewrite length_put32; unfold SECTOR in *; lia. }
  exists s'. split; [exact E|]. by rewrite Z2Nat.id in U by lia.
Qed.

Lemma fat_sector_entry s c v d :
  geo_ok okw s -> 0 <= c < entries s -> is_u32 v -> d / 128 = c / 128 ->
  fat_entry (fat_sector s c v) (Z.to_nat (d mod 128)) = fupd (fat s) c (Z.land v CLUSTER_MASK) d.
Proof.
  intros G Hc Hv Ej. assert (Hl : length (sec s (fat_begin_lba s + c / 128)) = SECTOR).
  { apply length_sec; [apply (g_io _ _ G)|by apply fat_sector_ok]. }
  pose proof (Z.mod_pos_bound d 128 ltac:(lia)). pose proof (Z.mod_pos_bound c 128 ltac:(lia)).
  pose proof (Z.div_mod c 128 ltac:(lia)). pose proof (Z.div_mod d 128 ltac:(lia)).
  unfold fat_entry, fat_sector, fupd, fat, SECTOR in *. case_decide as Hdc.
  - subst d. rewrite get32_put32; [done|lia|done].
  - rewrite get32_put32_ne by lia. by rewrite Ej.
Qed.

Lemma write_fat_entry_step s c v :
  geo_ok okw s -> 0 <= c < entries s -> is_u32 v ->
  exists s', fat32_write_fat_entry junk c v s = Some (tt, s')
    /\ step okw s s' (fupd (fat s) c (Z.land v CLUSTER_MASK)) (clus s).
Proof.
  intros G Hc Hv. destruct (write_fat_entry_upd s c v G Hc) as (s' & E & Es & U). exists s'. split; [exact E|].
  pose proof (fat_index s c Hc) as Hj. pose proof (g_fats _ _ G).
  assert (Hf : forall k i, 0 <= k < BPB_NumFATs s -> 0 <= i < BPB_FATSz32 s ->
     sec s' (fat_begin_lba s + k * BPB_FATSz32 s + i)
     = if decide (i = c / 128) then fat_sector s c v else sec s (fat_begin_lba s + k * BPB_FATSz32 s + i)).
  { intros k i Hk Hi. destruct (U (fat_begin_lba s + k * BPB_FATSz32 s + i)) as [_ ->].
    - apply (g_fat_ok _ _ G). rewrite (g_data _ _ G). nia.
    - apply decide_ext, fat_copies_in; done. }
  assert (H0 : forall i, 0 <= i < BPB_FATSz32 s -> sec s' (fat_begin_lba s + i)
     = if decide (i = c / 128) then fat_sector s c v else sec s (fat_begin_lba s + i)).
  { intros i Hi. pose proof (Hf 0 i ltac:(lia) Hi) as H1. by rewrite Z.mul_0_l, Z.add_0_r in H1. }
  split_and!.
  - done.
  - intros m Hm. by apply U.
  - intros Hm k i. replace (BPB_NumFATs s') with (BPB_NumFATs s) by (by rewrite Es).
    replace (BPB_FATSz32 s') with (BPB_FATSz32 s) by (by rewrite Es).
    replace (fat_begin_lba s') with (fat_begin_lba s) by (by rewrite Es). intros Hk Hi.
    rewrite Hf, H0 by done. case_decide; [done|]. by apply Hm.
  - intros d Hd. unfold fat at 1. replace (fat_begin_lba s') with (fat_begin_lba s) by (by rewrite Es).
    rewrite H0 by (by apply fat_index). case_decide as Ej; [by apply fat_sector_entry|].
    unfold fupd. rewrite decide_False; [done|]. by intros ->.
  - intros d (Hd1 & Hd2 & Hok). unfold clus. replace (BPB_SecPerClus s') with (BPB_SecPerClus s) by (by rewrite Es).
    replace (clus_at s' d) with (clus_at s d) by (by rewrite Es). f_equal. apply map_ext_elem. intros x Hx. apply elem_of_seqZ in Hx.
    destruct (U x) as [_ ->]; [replace x with (clus_at s d + (x - clus_at s d)) by lia; apply Hok; lia|].
    rewrite decide_False; [done|]. apply fat_copies_out; [done|done|]. unfold clus_at in Hx. pose proof (g_spc _ _ G). nia.
Qed.

Lemma cluster_lba_at s c : geo_ok okw s -> clus_ok okw s c -> cluster_lba s c = clus_at s c.
Proof.
  intros G (Hc & Hs & _). pose proof (g_spc _ _ G). pose proof (g_begin _ _ G). pose proof (g_data _ _ G).
  pose proof (g_fats _ _ G). pose proof (g_fatsz _ _ G). pose proof (g_entries _ _ G). unfold CLUSTER_END in *.
  unfold cluster_lba, clus_at. rewrite (u32_small (c - 2)) by lia. rewrite (u32_small ((c - 2) * _)) by nia.
  apply u32_small. nia.
Qed.

Lemma clus_at_range s c : geo_ok okw s -> clus_ok okw s c ->
  cluster_begin_lba s <= clus_at s c /\ 0 <= clus_at s c /\ clus_at s c + BPB_SecPerClus s <= 2 ^ 32.
Proof.
  intros G (Hc & Hs & _). pose proof (g_spc _ _ G). pose proof (g_begin _ _ G). pose proof (g_data _ _ G).
  pose proof (g_fats _ _ G). pose proof (g_fatsz _ _ G). unfold clus_at. nia.
Qed.

Lemma cluster_size_eq s : geo_ok okw s -> fat32_cluster_size_bytes s = BPB_SecPerClus s * 512.
Proof. intros G. unfold fat32_cluster_size_bytes. by rewrite (g_bps _ _ G). Qed.

Lemma clus_sector_ok s c x :
  clus_ok okw s c -> clus_at s c <= x < clus_at s c + BPB_SecPerClus s -> okw (world s) x.
Proof. intros (_ & _ & H) Hx. replace x with (clus_at s c + (x - clus_at s c)) by lia. apply H. lia. Qed.

Lemma length_clus s c :
  geo_ok okw s -> clus_ok okw s c -> length (clus s c) = Z.to_nat (fat32_cluster_size_bytes s).
Proof.
  intros G Hc. rewrite cluster_size_eq by done. unfold clus. pose proof (g_spc _ _ G). rewrite (concat_length_const _ _ SECTOR).
  - rewrite length_seqZ. unfold SECTOR. lia.
  - intros x Hx. apply elem_of_seqZ in Hx. apply length_sec; [apply (g_io _ _ G)|]. by apply (clus_sector_ok s c).
Qed.

Lemma read_cluster_clus s c b :
  geo_ok okw s -> clus_ok okw s c -> length b = Z.to_nat (fat32_cluster_size_bytes s) ->
  fat32_read_directory_cluster s c b = Some (clus s c).
Proof.
  intros G Hc Hb. pose proof (length_clus s c G Hc) as Hl. rewrite cluster_size_eq in Hb, Hl by done.
  pose proof (g_spc _ _ G). destruct (clus_at_range s c G Hc) as (? & ? & ?).
  unfold fat32_read_directory_cluster. rewrite cluster_lba_at, (g_bps _ _ G) by done.
  rewrite read_sectors_sec; [|apply (g_io _ _ G)|lia|lia|lia|lia| |unfold SECTOR; lia].
  2: { intros k Hk. apply (clus_sector_ok s c); [done|lia]. }
  rewrite Z2Nat.id by lia. rewrite (Z.add_0_r (clus_at s c)). change (Z.to_nat (0 + 0 * 512)) with 0%nat. unfold clus, splice in *.
  rewrite drop_ge by lia. by rewrite take_0, app_nil_r.
Qed.

Lemma concat_subs n lba i b :
  length b = (Z.to_nat i * SECTOR + n * SECTOR)%nat -> 0 <= i ->
  concat (map (fun m => sub b (Z.to_nat (m - lba) * SECTOR) SECTOR) (seqZ (lba + i) (Z.of_nat n))) = drop (Z.to_nat i * SECTOR) b.
Proof.
  revert i. induction n as [|n IH]; intros i Hb Hi.
  - rewrite drop_ge by lia. done.
  - rewrite seqZ_cons by lia. cbn [map concat]. replace (Z.succ (lba + i)) with (lba + (i + 1)) by lia.
    replace (Z.pred (Z.of_nat (S n))) with (Z.of_nat n) by lia. rewrite IH by lia.
    replace (lba + i - lba) with i by lia. unfold sub. replace (Z.to_nat (i + 1) * SECTOR)%nat with (Z.to_nat i * SECTOR + SECTOR)%nat by lia.
    rewrite <- drop_drop. by rewrite take_drop.
Qed.

Lemma write_cluster_step s c b :
  geo_ok okw s -> clus_ok okw s c -> length b = Z.to_nat (fat32_cluster_size_bytes s) ->
  exists s', fat32_write_directory_cluster c b s = Some (tt, s') /\ step okw s s' (fat s) (fupd (clus s) c b).
Proof.
  intros G Hc Hb. rewrite cluster_size_eq in Hb by done. pose proof (g_spc _ _ G). destruct (clus_at_range s c G Hc) as (? & ? & ?).
  unfold fat32_write_directory_cluster. rewrite cluster_lba_at, (g_bps _ _ G) by done.
  destruct (write_sectors_upd (Z.to_nat (BPB_SecPerClus s)) s (clus_at s c) b 0 (g_io _ _ G)) as (s' & E & Es & U); try lia.
  { intros k Hk. apply (clus_sector_ok s c); [done|lia]. } { unfold SECTOR. lia. }
  exists s'. split; [exact E|]. rewrite Z2Nat.id in U by lia. rewrite Z.add_0_r in U. unfold upd in U.
  assert (Hfat : forall m, fat_begin_lba s <= m < cluster_begin_lba s -> sec s' m = sec s m).
  { intros m Hm. destruct (U m (g_fat_ok _ _ G m Hm)) as [_ ->]. by rewrite decide_False by lia. }
  split_and!.
  - done.
  - intros m Hm. by apply U.
  - intros Hm k i. replace (BPB_NumFATs s') with (BPB_NumFATs s) by (by rewrite Es).
    replace (BPB_FATSz32 s') with (BPB_FATSz32 s) by (by rewrite Es).
    replace (fat_begin_lba s') with (fat_begin_lba s) by (by rewrite Es). intros Hk Hi.
    rewrite !Hfat by (rewrite (g_data _ _ G); nia). by apply Hm.
  - intros d Hd. unfold fat. replace (fat_begin_lba s') with (fat_begin_lba s) by (by rewrite Es).
    pose proof (fat_index s d Hd). rewrite Hfat; [done|]. rewrite (g_data _ _ G). pose proof (g_fats _ _ G). nia.
  - intros d Hd. unfold clus at 1. replace (BPB_SecPerClus s') with (BPB_SecPerClus s) by (by rewrite Es).
    replace (clus_at s' d) with (clus_at s d) by (by rewrite Es). unfold fupd. case_decide as Hdc.
    + subst d. erewrite map_ext_elem.
      * rewrite <- (drop_0 b) at 1. pose proof (concat_subs (Z.to_nat (BPB_SecPerClus s)) (clus_at s c) 0 b) as Hcs.
        rewrite Z.add_0_r, Z2Nat.id in Hcs by lia. rewrite drop_0. etransitivity; [apply Hcs; unfold SECTOR; lia|]. by rewrite drop_0.
      * intros x Hx. apply elem_of_seqZ in Hx. destruct (U x) as [_ ->]; [by apply (clus_sector_ok s c)|]. by rewrite decide_True by lia.
    + unfold clus. f_equal. apply map_ext_elem. intros x Hx. apply elem_of_seqZ in Hx.
      destruct (U x) as [_ ->]; [by apply (clus_sector_ok s d)|]. rewrite decide_False; [done|]. unfold clus_at in *.
      assert (d < c \/ c < d) as [|] by lia; nia.
Qed.

Lemma zero_cluster_step s c :
  geo_ok okw s -> clus_ok okw s c ->
  exists s', fat32_zero_cluster c s = Some (tt, s')
    /\ step okw s s' (fat s) (fupd (clus s) c (zeros (Z.to_nat (fat32_cluster_size_bytes s)))).
Proof. intros G Hc. apply write_cluster_step; [done|done|]. apply length_replicate. Qed.
End Ops.
Arguments upd {W} okw s s' f.
