(* ===== verification/FatAlloc.v ===== *)
(** * FAT32: allocating, freeing and writing cluster chains

    [fat32_find_free_cluster] finds the first free entry of the table, so that
    [fat32_allocate_cluster_chain] takes the free clusters in order: a chain of
    [n] clusters is made of the first [n] members of [free_list], or the table
    is left as it was. *)

From Stdlib Require Import ZArith Lia.
From stdpp Require Import base numbers list gmap.
From S2P Require Import Prelude Bytes Fat FatChain.

Section Alloc.
Context {W : Type}.
Variable junk : list Z.
Variable fuel : nat.
Variable okw : W -> Z -> Prop.
Implicit Types s : vol W.

(** ** The search for a free cluster *)

Abbreviation freeP s := (fun c => fat s c = 0).

Lemma free_entry_scan_spec s k n i :
  (i + n <= 128)%nat -> 0 <= k ->
  exists r, free_entry_scan (sec s (fat_begin_lba s + k)) i n = Some r
    /\ head (filter (freeP s) (seqZ (128 * k + Z.of_nat i) (Z.of_nat n)))
       = match r with Some j => Some (128 * k + Z.of_nat j) | None => None end
    /\ match r with Some j => (j < 128)%nat | None => True end.
Proof.
  revert i. induction n as [|n IH]; intros i Hi Hk; [by exists None|].
  cbn [free_entry_scan]. rewrite (proj2 (Nat.leb_gt _ _)) by lia.
  rewrite (seqZ_cons (128 * k + Z.of_nat i)) by lia. rewrite filter_cons. replace (Z.pred (Z.of_nat (S n))) with (Z.of_nat n) by lia.
  assert (E : fat s (128 * k + Z.of_nat i) = fat_entry (sec s (fat_begin_lba s + k)) i).
  { unfold fat. replace ((128 * k + Z.of_nat i) / 128) with k by (apply (Z.div_unique_pos _ _ _ (Z.of_nat i)); lia).
    replace ((128 * k + Z.of_nat i) mod 128) with (Z.of_nat i) by (apply (Z.mod_unique_pos _ _ k); lia). by rewrite Nat2Z.id. }
  rewrite E. destruct (Z.eqb_spec (fat_entry (sec s (fat_begin_lba s + k)) i) 0) as [E0|E0].
  - rewrite decide_True by done. exists (Some i). split_and!; [done|done|lia].
  - rewrite decide_False by done. replace (Z.succ (128 * k + Z.of_nat i)) with (128 * k + Z.of_nat (S i)) by lia.
    apply IH; lia.
Qed.

Lemma free_cluster_scan_spec n s buf k :
  geo_ok okw s -> 0 <= k -> k + Z.of_nat n <= BPB_FATSz32 s ->
  free_cluster_scan s buf k n = Some (default 0 (head (filter (freeP s) (seqZ (128 * k) (128 * Z.of_nat n))))).
Proof.
  revert buf k. induction n as [|n IH]; intros buf k G Hk Hn; [done|].
  pose proof (g_entries _ _ G). pose proof (g_begin _ _ G). pose proof (g_data _ _ G). pose proof (g_data_small _ _ G).
  pose proof (g_fats _ _ G). unfold entries, CLUSTER_END in *.
  cbn [free_cluster_scan]. rewrite (g_bps _ _ G). change (512 / 4) with 128. change (Z.to_nat 128) with 128%nat.
  rewrite (u32_small (fat_begin_lba s + k)) by nia.
  rewrite (sector_at_sec okw) by (try apply (g_io _ _ G); apply (g_fat_ok _ _ G); nia).
  destruct (free_entry_scan_spec s k 128 0 ltac:(lia) Hk) as (r & -> & Hr & Hb).
  replace (128 * Z.of_nat (S n)) with (128 + 128 * Z.of_nat n) by lia. rewrite seqZ_app by lia. rewrite filter_app.
  change (Z.of_nat 128) with 128 in Hr. rewrite Z.add_0_r in Hr.
  destruct (filter (freeP s) (seqZ (128 * k) 128)) as [|x l]; simpl in Hr; destruct r as [j|]; simplify_eq/=.
  - rewrite IH by (done || lia). replace (128 * (k + 1)) with (128 * k + 128) by lia. done.
  - rewrite u32_small; [f_equal; rewrite u32_small; lia|]. rewrite u32_small; lia.
Qed.

Lemma find_free_cluster_head s :
  geo_ok okw s -> fat32_find_free_cluster junk s = Some (default 0 (head (free_list s))).
Proof.
  intros G. pose proof (g_fatsz _ _ G). unfold fat32_find_free_cluster, free_list, entries.
  rewrite free_cluster_scan_spec by (done || lia). by rewrite Z2Nat.id by lia.
Qed.

Lemma free_list_elem s c : c ∈ free_list s <-> fat s c = 0 /\ 0 <= c < entries s.
Proof. unfold free_list. rewrite list_elem_of_filter, elem_of_seqZ. split; intros [? ?]; split; (done || lia). Qed.

Lemma free_list_NoDup s : NoDup (free_list s).
Proof. apply NoDup_filter, NoDup_seqZ. Qed.

Lemma free_list_ext s s' F C :
  step okw s s' F C -> (forall c, 0 <= c < entries s -> F c = 0 <-> fat s c = 0) -> free_list s' = free_list s.
Proof.
  intros S H. unfold free_list. rewrite (step_entries _ _ _ _ _ S). destruct S as (_ & _ & _ & HF & _).
  apply filter_ext_elem. intros c Hc. apply elem_of_seqZ in Hc. rewrite HF by lia. apply H. lia.
Qed.

(** Taking the first free cluster. *)
Lemma free_list_take s s' F C c t :
  step okw s s' F C -> free_list s = c :: t -> F c <> 0 ->
  (forall x, 0 <= x < entries s -> x <> c -> F x = 0 <-> fat s x = 0) -> free_list s' = t.
Proof.
  intros S E Hc HF. unfold free_list. rewrite (step_entries _ _ _ _ _ S). apply (filter_remove_head (freeP s) _ _ c t); [apply NoDup_seqZ|exact E|].
  intros x Hx. apply elem_of_seqZ in Hx. destruct S as (_ & _ & _ & HF' & _). rewrite HF' by lia.
  destruct (decide (x = c)) as [->|Hne]; [tauto|]. rewrite HF by (done || lia). tauto.
Qed.

(** ** Freeing a chain *)

Lemma in_chain_ok s c : geo_ok okw s -> 2 <= c < entries s -> in_chain c = true.
Proof.
  intros G Hc. pose proof (g_entries _ _ G). unfold in_chain, fat32_is_end_of_chain.
  rewrite (proj2 (Z.leb_le _ _)), (proj2 (Z.leb_gt _ _)) by lia. done.
Qed.

Lemma in_chain_end c : CLUSTER_END <= c -> in_chain c = false.
Proof. intros Hc. unfold in_chain, fat32_is_end_of_chain. rewrite (proj2 (Z.leb_le CLUSTER_END c)) by done. by rewrite andb_false_r. Qed.

Lemma free_chain_loop_end n c s : CLUSTER_END <= c -> free_chain_loop junk n c s = Some (tt, s).
Proof. intros Hc. destruct n; simpl; by rewrite in_chain_end. Qed.

Definition cleared (F : Z -> Z) (l : list Z) (d : Z) : Z := if decide (d ∈ l) then 0 else F d.

(** Table entries of [l] are clusters. *)
Abbreviation in_table s l := (Forall (fun x => 2 <= x < entries s) l).

Lemma in_table_below s l : geo_ok okw s -> in_table s l -> Forall (fun x => x < CLUSTER_END) l.
Proof. intros G Ht. pose proof (g_entries _ _ G). eapply Forall_impl; [exact Ht|]. simpl. lia. Qed.

Lemma free_chain_loop_spec n s c l :
  geo_ok okw s -> is_chain (fat s) c l -> in_table s l -> (length l <= n)%nat ->
  exists s', free_chain_loop junk n c s = Some (tt, s') /\ step okw s s' (cleared (fat s) l) (clus s).
Proof.
  revert n s c. induction l as [|x l IH]; intros n s c G Hch Ht Hn; [done|].
  pose proof (is_chain_NoDup _ _ _ (in_table_below _ _ G Ht) Hch) as Hnd.
  destruct (is_chain_head _ _ _ Hch) as [t [= -> <-]]. destruct n as [|n]; simpl in Hn; [lia|].
  rewrite Forall_cons in Ht. destruct Ht as [Hc Ht]. cbn [free_chain_loop].
  rewrite (in_chain_ok s) by done. simpl. unfold mread. unfold mbind_ at 1. rewrite (next_cluster_fat _ okw) by (done || lia).
  unfold mbind_. destruct (write_fat_entry_step junk okw s c 0) as (s1 & -> & S1); [done|lia|unfold is_u32; lia|].
  change (Z.land 0 CLUSTER_MASK) with 0 in S1. rewrite NoDup_cons in Hnd. destruct Hnd as [Hx Hnd].
  pose proof (step_geo _ _ _ _ _ S1 G) as G1. pose proof (g_entries _ _ G).
  destruct l as [|y l].
  - destruct Hch as [_ Hend]. rewrite (proj2 (Z.eqb_neq _ _)) by lia.
    rewrite free_chain_loop_end by done. exists s1. split; [done|].
    apply (step_ext _ _ _ _ _ _ _ S1); [|done]. intros d Hd. unfold fupd, cleared.
    destruct (decide (d = c)) as [->|]; [by rewrite decide_True by (by left)|].
    rewrite decide_False; [done|]. rewrite list_elem_of_singleton. done.
  - rewrite is_chain_cons in Hch. destruct Hch as (_ & Ey & Hch). rewrite Ey.
    rewrite (proj2 (Z.eqb_neq y c)) by (intros ->; apply Hx; by left).
    destruct (IH n s1 y) as (s' & E & S2); [done| | |simpl in *; lia|].
    + apply (is_chain_ext (fat s)); [|done]. intros z Hz. destruct S1 as (_ & _ & _ & HF & _).
      rewrite Forall_forall in Ht. rewrite HF by (specialize (Ht z Hz); lia). unfold fupd. rewrite decide_False; [done|].
      by intros ->.
    + by rewrite (step_entries _ _ _ _ _ S1).
    + exists s'. split; [exact E|]. apply (step_seq _ _ _ _ _ _ _ _ _ _ S1 S2); [|by intros; congruence].
      intros d Hd E1. unfold cleared, fupd in *. rewrite E1.
      destruct (decide (d ∈ y :: l)) as [Hin|Hin]; [by rewrite decide_True by (by right)|].
      destruct (decide (d = c)) as [->|]; [by rewrite decide_True by (by left)|].
      rewrite decide_False; [done|]. rewrite elem_of_cons. tauto.
Qed.

(** ** Allocating a chain *)

Lemma vol_ok_step s s' F C :
  step okw s s' F C -> geo_ok okw s -> (forall c, 0 <= c < entries s -> F c = 0 -> clus_ok okw s c) -> vol_ok okw s'.
Proof.
  intros S G H. split; [by apply (step_geo _ _ _ _ _ S)|]. apply Forall_forall. intros c Hc.
  apply free_list_elem in Hc as [Hz Hc]. rewrite (step_entries _ _ _ _ _ S) in Hc. apply (step_clus_ok _ _ _ _ _ _ S).
  apply H; [done|]. destruct S as (_ & _ & _ & HF & _). by rewrite <- HF.
Qed.

Lemma vol_ok_free s c : vol_ok okw s -> 0 <= c < entries s -> fat s c = 0 -> clus_ok okw s c.
Proof. intros [_ H] Hc Hz. rewrite Forall_forall in H. apply H, free_list_elem. done. Qed.

Abbreviation zero_clus s := (zeros (Z.to_nat (fat32_cluster_size_bytes s))).

(** Marking the first free cluster as a chain of its own and zeroing it. *)
Lemma alloc_one s c t :
  vol_ok okw s -> free_list s = c :: t ->
  exists s', mbind_ (fat32_write_fat_entry junk c 0x0FFFFFFF) (fun _ => fat32_zero_cluster c) s = Some (tt, s')
    /\ step okw s s' (fupd (fat s) c 0x0FFFFFFF) (fupd (clus s) c (zero_clus s)) /\ free_list s' = t /\ vol_ok okw s'.
Proof.
  intros V E. destruct V as [G Hf]. pose proof Hf as Hf'. rewrite E, Forall_cons in Hf'. destruct Hf' as [Hc _].
  pose proof (proj1 Hc) as Hr. unfold mbind_.
  destruct (write_fat_entry_step junk okw s c 0x0FFFFFFF) as (s1 & -> & S1); [done|lia|unfold is_u32; lia|].
  destruct (zero_cluster_step okw s1 c) as (s2 & -> & S2); [by apply (step_geo _ _ _ _ _ S1)|by apply (step_clus_ok _ _ _ _ _ _ S1)|].
  assert (S : step okw s s2 (fupd (fat s) c 0x0FFFFFFF) (fupd (clus s) c (zero_clus s))).
  { apply (step_seq _ _ _ _ _ _ _ _ _ _ S1 S2); [by intros d _ ->|]. intros d _ Ed. unfold fupd.
    rewrite (step_cluster_size _ _ _ _ _ S1). by rewrite Ed. }
  exists s2. split_and!; [done|exact S| |].
  - apply (free_list_take _ _ _ _ _ _ S E); unfold fupd; [by rewrite decide_True|]. intros x _ Hx. by rewrite decide_False.
  - apply (vol_ok_step _ _ _ _ S); [done|]. intros x Hx. unfold fupd. case_decide; [done|]. by apply vol_ok_free.
Qed.

Definition zeroed (s : vol W) (l : list Z) (d : Z) : list Z := if decide (d ∈ l) then zero_clus s else clus s d.

Lemma land_mask_small c : 0 <= c < CLUSTER_END -> Z.land c CLUSTER_MASK = c.
Proof. intros Hc. change CLUSTER_MASK with (Z.ones 28). rewrite Z.land_ones by lia. apply Z.mod_small. unfold CLUSTER_END in Hc. lia. Qed.

Lemma free_list_head s c t : vol_ok okw s -> free_list s = c :: t -> clus_ok okw s c /\ fat s c = 0.
Proof.
  intros [_ V] E. rewrite E, Forall_cons in V. split; [apply V|]. apply (free_list_elem s c). rewrite E. by left.
Qed.

(** The same with the end [prev] of the chain so far linked to it. *)
Lemma alloc_link s prev c t :
  vol_ok okw s -> free_list s = c :: t -> 2 <= prev < entries s -> fat s prev = 0x0FFFFFFF ->
  exists s', (fat32_write_fat_entry junk c 0x0FFFFFFF ;;; fat32_zero_cluster c ;;; fat32_write_fat_entry junk prev c) s = Some (tt, s')
    /\ step okw s s' (fupd (fupd (fat s) c 0x0FFFFFFF) prev c) (fupd (clus s) c (zero_clus s))
    /\ free_list s' = t /\ vol_ok okw s' /\ fat s' c = 0x0FFFFFFF.
Proof.
  intros V E Hp Ep. destruct (free_list_head s c t V E) as [Hc Hfc]. pose proof (proj1 Hc) as Hr. pose proof (g_entries _ _ (proj1 V)).
  assert (Hpc : prev <> c) by (intros ->; rewrite Hfc in Ep; lia).
  destruct (alloc_one s c t V E) as (s1 & E1 & S1 & F1 & V1). apply mbind_inv in E1 as ([] & s0 & E0 & E1).
  unfold mbind_ at 1. rewrite E0. unfold mbind_ at 1. rewrite E1.
  destruct (write_fat_entry_step junk okw s1 prev c) as (s2 & E2 & S2);
    [apply V1|by rewrite (step_entries _ _ _ _ _ S1); lia|unfold is_u32, CLUSTER_END in *; lia|].
  rewrite land_mask_small in S2 by lia.
  assert (S : step okw s s2 (fupd (fupd (fat s) c 0x0FFFFFFF) prev c) (fupd (clus s) c (zero_clus s))).
  { apply (step_seq _ _ _ _ _ _ _ _ _ _ S1 S2); [|done]. intros d _ Ed. unfold fupd in *. by rewrite Ed. }
  exists s2. split_and!; [exact E2|exact S| | |].
  - apply (free_list_take _ _ _ _ _ _ S E); unfold fupd; [by rewrite decide_False, decide_True by done|].
    intros x _ Hx. rewrite (decide_False (P := x = c)) by done. case_decide as Hxp; [rewrite Hxp, Ep; lia|done].
  - apply (vol_ok_step _ _ _ _ S); [apply V|]. intros x Hx. unfold fupd. case_decide; [lia|]. case_decide; [done|]. by apply vol_ok_free.
  - destruct S as (_ & _ & _ & HF & _). rewrite HF by lia. unfold fupd. by rewrite decide_False, decide_True.
Qed.

(** The rounds after the first. *)
Lemma allocate_rounds k m s first prev :
  vol_ok okw s -> 2 <= prev < entries s -> fat s prev = 0x0FFFFFFF -> (k <= length (free_list s))%nat ->
  exists s' prev', allocate_loop junk fuel (k + m) first prev s = allocate_loop junk fuel m first prev' s'
    /\ step okw s s' (link (prev :: take k (free_list s)) (fat s)) (zeroed s (take k (free_list s)))
    /\ free_list s' = drop k (free_list s) /\ vol_ok okw s'.
Proof.
  revert s prev. induction k as [|k IH]; intros s prev V Hp Ep Hk.
  - exists s, prev. split_and!; [done| |done|exact V].
    apply (step_ext _ _ _ _ _ _ _ (step_refl okw s)); [|done]. intros d _. simpl. by case_decide as Hd; [rewrite Hd|].
  - destruct (free_list s) as [|c t] eqn:E; simpl in Hk; [lia|]. cbn [Nat.add allocate_loop]. unfold mread. unfold mbind_ at 1.
    rewrite find_free_cluster_head, E by apply V. simpl. destruct (free_list_head s c t V E) as [[Hr _] _].
    rewrite (proj2 (Z.eqb_neq c 0)) by lia. rewrite (proj2 (Z.leb_le 2 prev)) by lia.
    destruct (alloc_link s prev c t V E Hp Ep) as (s2 & E2 & S & F2 & V2 & Ec).
    apply mbind_inv in E2 as ([] & s0 & E0 & E2). apply mbind_inv in E2 as ([] & s1 & E1 & E2).
    unfold mbind_ at 1. rewrite E0. unfold mbind_ at 1. rewrite E1. unfold mbind_ at 1. rewrite E2.
    destruct (IH s2 c) as (s' & prev' & E' & S' & F' & V'); [done|by rewrite (step_entries _ _ _ _ _ S)|done|by rewrite F2; lia|].
    rewrite F2 in *. exists s', prev'. split_and!; [exact E'| |exact F'|exact V'].
    apply (step_seq _ _ _ _ _ _ _ _ _ _ S S').
    + intros d Hd Ed. cbn [link] in *. unfold fupd in Ed. destruct (decide (d = prev)) as [->|]; [|].
      * assert (Hin : prev ∉ c :: take k t).
        { intros Hin. assert (Hin' : prev ∈ free_list s).
          { rewrite E. rewrite <- (take_drop k t). apply (elem_of_app (c :: take k t)). by left. }
          apply free_list_elem in Hin'. lia. }
        rewrite not_elem_of_cons in Hin. rewrite decide_False by apply Hin. by rewrite link_out by apply Hin.
      * destruct (decide (d = c)); [done|]. destruct (decide (d ∈ take k t)); [by apply link_in|by rewrite !link_out].
    + intros d Hd Ed. unfold zeroed. rewrite (step_cluster_size _ _ _ _ _ S). rewrite Ed. unfold fupd.
      destruct (decide (d ∈ take k t)) as [Hin|Hin]; [by rewrite decide_True by (by right)|].
      destruct (decide (d = c)) as [->|]; [by rewrite decide_True by (by left)|]. rewrite decide_False; [done|]. rewrite elem_of_cons. tauto.
Qed.

Lemma free_list_in_table s : vol_ok okw s -> in_table s (free_list s).
Proof. intros [_ V]. eapply Forall_impl; [exact V|]. by intros x [H _]. Qed.

(** The first round, and those after it. *)
Lemma allocate_first k m s c t :
  vol_ok okw s -> free_list s = c :: t -> (k <= length t)%nat ->
  exists s' prev', allocate_loop junk fuel (S k + m) 0 0 s = allocate_loop junk fuel m c prev' s'
    /\ step okw s s' (link (c :: take k t) (fat s)) (zeroed s (c :: take k t))
    /\ free_list s' = drop k t /\ vol_ok okw s'.
Proof.
  intros V E Hk. destruct (free_list_head s c t V E) as [[Hr _] _]. cbn [Nat.add allocate_loop]. unfold mread. unfold mbind_ at 1.
  rewrite find_free_cluster_head, E by apply V. cbn [head default from_option id]. rewrite (proj2 (Z.eqb_neq c 0)) by lia.
  destruct (alloc_one s c t V E) as (s1 & E1 & S1 & F1 & V1). apply mbind_inv in E1 as ([] & s0 & E0 & E1).
  unfold mbind_ at 1. rewrite E0. unfold mbind_ at 1. rewrite E1.
  destruct (allocate_rounds k m s1 c c) as (s' & prev' & E' & S' & F' & V'); [done|by rewrite (step_entries _ _ _ _ _ S1)| |by rewrite F1|].
  { destruct S1 as (_ & _ & _ & HF & _). rewrite HF by lia. unfold fupd. by rewrite decide_True. }
  rewrite F1 in *. exists s', prev'. split_and!; [exact E'| |exact F'|exact V'].
  apply (step_seq _ _ _ _ _ _ _ _ _ _ S1 S').
  - intros d Hd Ed. destruct (decide (d ∈ c :: take k t)) as [Hin|Hin]; [by apply link_in|]. rewrite !link_out by done. rewrite Ed.
    unfold fupd. rewrite decide_False; [done|]. intros ->. apply Hin. by left.
  - intros d Hd Ed. unfold zeroed. rewrite (step_cluster_size _ _ _ _ _ S1), Ed. unfold fupd.
    destruct (decide (d ∈ take k t)) as [Hin|Hin]; [by rewrite decide_True by (by right)|].
    destruct (decide (d = c)) as [->|]; [by rewrite decide_True by (by left)|]. rewrite decide_False; [done|]. rewrite elem_of_cons. tauto.
Qed.

Lemma allocate_chain_ok s n :
  vol_ok okw s -> (0 < n <= length (free_list s))%nat ->
  exists c s', fat32_allocate_cluster_chain junk fuel (Z.of_nat n) s = Some (c, s')
    /\ head (free_list s) = Some c
    /\ step okw s s' (link (take n (free_list s)) (fat s)) (zeroed s (take n (free_list s)))
    /\ free_list s' = drop n (free_list s) /\ vol_ok okw s'.
Proof.
  intros V Hn. unfold fat32_allocate_cluster_chain. rewrite (proj2 (Z.eqb_neq _ 0)) by lia. rewrite Nat2Z.id.
  destruct n as [|k]; [lia|]. destruct (free_list s) as [|c t] eqn:E; simpl in Hn; [lia|].
  destruct (allocate_first k 0 s c t V E) as (s' & prev' & E' & S' & F' & V'); [lia|].
  rewrite Nat.add_0_r in E'. rewrite E'. exists c, s'. done.
Qed.

Lemma allocate_chain_full s n :
  vol_ok okw s -> (length (free_list s) < n)%nat -> (length (free_list s) <= fuel)%nat ->
  exists s', fat32_allocate_cluster_chain junk fuel (Z.of_nat n) s = Some (0, s')
    /\ step okw s s' (fat s) (zeroed s (free_list s)).
Proof.
  intros V Hn Hfuel. unfold fat32_allocate_cluster_chain. rewrite (proj2 (Z.eqb_neq _ 0)) by lia. rewrite Nat2Z.id.
  destruct (free_list s) as [|c t] eqn:E.
  - destruct n as [|k]; [simpl in Hn; lia|]. cbn [allocate_loop]. unfold mread. unfold mbind_ at 1.
    rewrite find_free_cluster_head, E by apply V. simpl. exists s. split; [done|]. apply (step_ext _ _ _ _ _ _ _ (step_refl okw s)); [done|].
    intros d _. unfold zeroed. by rewrite decide_False by apply not_elem_of_nil.
  - simpl in Hn. pose proof (free_list_in_table s V) as Ht. pose proof (free_list_NoDup s) as Hnd. rewrite E in Ht, Hnd.
    destruct (allocate_first (length t) (S (n - 2 - length t)) s c t V E) as (s1 & prev & E1 & S1 & F1 & V1); [lia|].
    replace n with (S (length t) + S (n - 2 - length t))%nat by lia. rewrite E1. rewrite firstn_all in S1. rewrite drop_all in F1.
    cbn [allocate_loop]. unfold mread. unfold mbind_ at 1. rewrite find_free_cluster_head, F1 by apply V1. simpl.
    rewrite Forall_cons in Ht. rewrite (proj2 (Z.leb_le 2 c)) by lia. unfold mwhen.
    destruct (free_chain_loop_spec fuel s1 c (c :: t)) as (s' & E' & S'); [apply V1| | |done|].
    + apply (is_chain_ext (link (c :: t) (fat s))); [|by apply (link_chain _ _ _ t)]. intros x Hx. destruct S1 as (_ & _ & _ & HF & _).
      rewrite HF; [done|]. destruct Ht as [Hc Ht]. rewrite Forall_forall in Ht. apply elem_of_cons in Hx as [->|Hx]; [lia|]. specialize (Ht x Hx). lia.
    + rewrite (step_entries _ _ _ _ _ S1). by apply Forall_cons.
    + exists s'. unfold mbind_, fat32_free_cluster_chain. rewrite E'. split; [done|].
      apply (step_seq _ _ _ _ _ _ _ _ _ _ S1 S'); [|by intros d _ ->].
      intros d Hd Ed. unfold cleared. case_decide as Hin; [|by rewrite Ed, link_out].
      symmetry. apply (free_list_elem s d). by rewrite E.
Qed.

(** ** Writing a chain *)

Lemma write_chain_loop_done n c data size s : write_chain_loop junk n c data size size s = Some (size, s).
Proof. destruct n; cbn [write_chain_loop]; rewrite Z.ltb_irrefl, andb_false_r; done. Qed.

Lemma content_cons C c l : content C (c :: l) = C c ++ content C l.
Proof. done. Qed.

Lemma content_ext C D l : (forall c, c ∈ l -> C c = D c) -> content C l = content D l.
Proof. intros H. unfold content. f_equal. by apply map_ext_elem. Qed.

(** The buffer of one cluster: data, then zeros. *)
Lemma chunk_buffer data w chunk cs :
  0 <= w -> 0 <= chunk <= cs -> w + chunk <= Z.of_nat (length data) ->
  let b := splice (zeros (Z.to_nat cs)) 0 (sub data (Z.to_nat w) (Z.to_nat chunk)) in
  length b = Z.to_nat cs /\ take (Z.to_nat chunk) b = sub data (Z.to_nat w) (Z.to_nat chunk).
Proof.
  intros Hw Hc Hd b. assert (Hs : length (sub data (Z.to_nat w) (Z.to_nat chunk)) = Z.to_nat chunk) by (apply length_sub; lia).
  unfold b. split; [rewrite length_splice; unfold zeros; rewrite length_replicate; lia|].
  unfold splice. rewrite take_0. simpl. by rewrite take_app_le, firstn_all2 by lia.
Qed.

Lemma chain_in_table s l : Forall (clus_ok okw s) l -> in_table s l.
Proof. intros H. eapply Forall_impl; [exact H|]. by intros x [Hx _]. Qed.

Lemma write_chain_loop_spec n s c l data size written :
  geo_ok okw s -> is_chain (fat s) c l -> Forall (clus_ok okw s) l -> 0 <= written <= size ->
  size <= Z.of_nat (length data) -> size - written <= Z.of_nat (length l) * fat32_cluster_size_bytes s -> size - written <= Z.of_nat n ->
  exists s' C, write_chain_loop junk n c data size written s = Some (size, s') /\ step okw s s' (fat s) C
    /\ (forall d, clus_ok okw s d -> d ∉ l -> C d = clus s d)
    /\ take (Z.to_nat (size - written)) (content C l) = sub data (Z.to_nat written) (Z.to_nat (size - written)).
Proof.
  revert n s c written. induction l as [|x l IH]; intros n s c written G Hch Hok Hw Hd Hl Hn; [done|].
  pose proof (is_chain_NoDup _ _ _ (in_table_below _ _ G (chain_in_table _ _ Hok)) Hch) as Hnd. rewrite NoDup_cons in Hnd. destruct Hnd as [Hcl _].
  destruct (is_chain_head _ _ _ Hch) as [t [= -> <-]]. pose proof (g_spc _ _ G). pose proof (cluster_size_eq okw s G).
  destruct (decide (written = size)) as [->|Hne].
  { rewrite write_chain_loop_done. exists s, (clus s). split_and!; [done|apply step_refl|done|]. rewrite Z.sub_diag. unfold sub. by rewrite !take_0. }
  destruct n as [|n]; [lia|]. rewrite Forall_cons in Hok. destruct Hok as [Hc Hok]. cbn [write_chain_loop].
  rewrite (in_chain_ok s) by (done || apply Hc). rewrite (proj2 (Z.ltb_lt written size)) by lia. cbn [andb negb].
  unfold mgets. unfold mbind_ at 1. set (cs := fat32_cluster_size_bytes s) in *.
  set (chunk := if cs <? size - written then cs else size - written).
  assert (Hchunk : 0 < chunk <= cs /\ chunk <= size - written /\ (chunk = cs \/ chunk = size - written)) by (unfold chunk; ztest; lia).
  clearbody chunk. destruct (chunk_buffer data written chunk cs) as [Hb Hbt]; [lia|lia|lia|].
  cbv zeta. set (b := splice _ _ _) in *. destruct (write_cluster_step okw s c b G Hc Hb) as (s1 & E1 & S1). unfold mbind_ at 1. rewrite E1.
  pose proof (step_geo _ _ _ _ _ S1 G) as G1. assert (Hr : 0 <= c < entries s) by (destruct Hc; lia).
  assert (HF : forall d, 0 <= d < entries s -> fat s1 d = fat s d) by apply S1.
  unfold mread. unfold mbind_ at 1. rewrite (next_cluster_fat _ okw), HF by (done || by rewrite (step_entries _ _ _ _ _ S1)).
  destruct (decide (written + chunk = size)) as [Ew|Ew].
  - rewrite Ew, write_chain_loop_done. exists s1, (fupd (clus s) c b). split_and!; [done|done| |].
    + intros d _ Hd'. rewrite not_elem_of_cons in Hd'. unfold fupd. by rewrite decide_False by apply Hd'.
    + replace (size - written) with chunk by lia. rewrite content_cons. unfold fupd at 1. rewrite decide_True by done.
      by rewrite take_app_le by lia.
  - assert (chunk = cs) as -> by lia. destruct l as [|y l]; [simpl in Hl; lia|].
    rewrite is_chain_cons in Hch. destruct Hch as (_ & Ey & Hch). rewrite Ey.
    destruct (IH n s1 y (written + cs)) as (s' & C & E' & S' & HC & HT); [done| | |lia|done| |lia|].
    + apply (is_chain_ext (fat s)); [|done]. intros z Hz. symmetry. apply HF.
      pose proof (chain_in_table _ _ Hok) as Ht. rewrite Forall_forall in Ht. specialize (Ht z Hz). lia.
    + eapply Forall_impl; [exact Hok|]. intros z. apply (step_clus_ok _ _ _ _ _ _ S1).
    + rewrite (step_cluster_size _ _ _ _ _ S1). fold cs. cbn [length] in Hl |- *. lia.
    + exists s', (fupd C c b). split_and!; [exact E'| | |].
      * apply (step_seq _ _ _ _ _ _ _ _ _ _ S1 S'); [intros d Hd' _; by apply HF|]. intros d Hd' Ed. unfold fupd. case_decide as Hdc; [|done].
        subst d. rewrite (HC c (step_clus_ok _ _ _ _ _ _ S1 Hd') Hcl), Ed. unfold fupd. by rewrite decide_True.
      * intros d Hok' Hd'. rewrite not_elem_of_cons in Hd'. unfold fupd. rewrite decide_False by apply Hd'.
        rewrite HC by (apply Hd' || by apply (step_clus_ok _ _ _ _ _ _ S1)). destruct S1 as (_ & _ & _ & _ & HD). rewrite HD by done.
        unfold fupd. by rewrite decide_False by apply Hd'.
      * rewrite content_cons. unfold fupd at 1. rewrite decide_True by done. rewrite take_app_ge by lia. rewrite Hb. rewrite (content_ext _ C).
        2: { intros d Hd'. unfold fupd. rewrite decide_False; [done|]. by intros ->. }
        replace (Z.to_nat (size - written) - Z.to_nat cs)%nat with (Z.to_nat (size - (written + cs))) by lia. rewrite HT.
        rewrite firstn_all2 in Hbt by lia. rewrite Hbt. unfold sub.
        replace (Z.to_nat (written + cs)) with (Z.to_nat written + Z.to_nat cs)%nat by lia. rewrite <- drop_drop, take_take_drop. f_equal. lia.
Qed.
End Alloc.
