(* ===== verification/FatRead.v ===== *)
(** * FAT32: reading a file

    [fat32_read] has two ways to read a chain: cluster by cluster through a
    buffer, and, when the driver offers transfers of several sectors, run by run
    of consecutive clusters.  Both return the same bytes of the chain; the second
    fetches whole sectors and so writes up to 511 bytes past the last one it
    reports. *)

From Stdlib Require Import ZArith Lia.
From stdpp Require Import base numbers list gmap.
From S2P Require Import Prelude Bytes Fat FatChain FatAlloc.

(** ** Lists *)

Lemma splice_splice (b : list Z) o x y :
  (o + length x + length y <= length b)%nat -> splice (splice b o x) (o + length x) y = splice b o (x ++ y).
Proof.
  intros H. apply list_eq. intros i. rewrite !lookup_splice by (rewrite ?length_splice, ?length_app; lia).
  rewrite length_app. repeat case_decide; try lia; [|by rewrite lookup_app_l by lia|done].
  rewrite lookup_app_r by lia. f_equal. lia.
Qed.

Lemma take_splice_end (b : list Z) o x k :
  (o + length x <= length b)%nat -> (k <= length x)%nat -> take (o + k) (splice b o x) = take o b ++ take k x.
Proof.
  intros H Hk. unfold splice. rewrite take_app. rewrite length_take, Nat.min_l by lia. rewrite take_take, Nat.min_r by lia.
  f_equal. rewrite take_app. replace (o + k - o)%nat with k by lia. replace (k - length x)%nat with 0%nat by lia.
  by rewrite take_0, app_nil_r.
Qed.

Section Read.
Context {W : Type}.
Variable junk : list Z.
Variable fuel : nat.
Variable okw : W -> Z -> Prop.
Implicit Types s : vol W.

Lemma length_content s l :
  geo_ok okw s -> Forall (clus_ok okw s) l ->
  Z.of_nat (length (content (clus s) l)) = Z.of_nat (length l) * fat32_cluster_size_bytes s.
Proof.
  intros G Hok. unfold content. rewrite (concat_length_const _ _ (Z.to_nat (fat32_cluster_size_bytes s))).
  - pose proof (g_spc _ _ G). rewrite (cluster_size_eq okw) by done. lia.
  - intros c Hc. rewrite Forall_forall in Hok. apply (length_clus okw); auto.
Qed.

(** Walking to the cluster of the offset. *)
Lemma skip_clusters_spec k s c l :
  geo_ok okw s -> is_chain (fat s) c l -> Forall (clus_ok okw s) l ->
  if (k <? length l)%nat
  then exists c', skip_clusters junk s k c = Some (Some c') /\ is_chain (fat s) c' (drop k l)
  else skip_clusters junk s k c = Some None.
Proof.
  revert c l. induction k as [|k IH]; intros c l G Hch Hok.
  - destruct l; [done|]. simpl. by exists c.
  - destruct l as [|x l]; [done|]. destruct (is_chain_head _ _ _ Hch) as [t [= -> <-]].
    rewrite Forall_cons in Hok. destruct Hok as [Hc Hok]. cbn [skip_clusters]. pose proof (proj1 Hc).
    rewrite (next_cluster_fat _ okw) by (done || lia). destruct l as [|y l].
    + simpl. destruct Hch as [_ Hend]. unfold fat32_is_end_of_chain. by rewrite (proj2 (Z.leb_le _ _)) by done.
    + rewrite is_chain_cons in Hch. destruct Hch as (_ & -> & Hch). pose proof Hok as Hok2. rewrite Forall_cons in Hok2.
      destruct Hok2 as [[Hy _] _]. pose proof (g_entries _ _ G). unfold fat32_is_end_of_chain. rewrite (proj2 (Z.leb_gt _ _)) by lia.
      exact (IH y (y :: l) G Hch Hok).
Qed.

(** ** Cluster by cluster *)

Lemma read_slow_end n s c start cbuf size got buffer :
  (CLUSTER_END <= c \/ size = 0) -> read_slow junk s n c start cbuf size got buffer = Some (got, buffer).
Proof.
  intros H. assert (E : ((0 <? size) && negb (fat32_is_end_of_chain c))%bool = false).
  { unfold fat32_is_end_of_chain. destruct H as [H| ->]; [rewrite (proj2 (Z.leb_le _ _)) by done; by rewrite andb_false_r|done]. }
  destruct n; cbn [read_slow]; by rewrite E.
Qed.

Lemma read_slow_spec n s c l start cbuf size got buffer :
  geo_ok okw s -> is_chain (fat s) c l -> Forall (clus_ok okw s) l ->
  0 <= start < fat32_cluster_size_bytes s -> length cbuf = Z.to_nat (fat32_cluster_size_bytes s) ->
  0 <= size <= Z.of_nat n -> 0 <= got ->
  let m := Z.min size (Z.of_nat (length l) * fat32_cluster_size_bytes s - start) in
  (Z.to_nat got + Z.to_nat m <= length buffer)%nat ->
  read_slow junk s n c start cbuf size got buffer
    = Some (got + m, splice buffer (Z.to_nat got) (sub (content (clus s) l) (Z.to_nat start) (Z.to_nat m))).
Proof.
  revert n c start cbuf size got buffer. induction l as [|x l IH]; intros n c start cbuf size got buffer G Hch Hok Hst Hcb Hsz Hgot m Hbuf; [done|].
  destruct (is_chain_head _ _ _ Hch) as [t [= -> <-]]. rewrite Forall_cons in Hok. destruct Hok as [Hc Hok].
  set (cs := fat32_cluster_size_bytes s) in *. pose proof (length_clus okw s c G Hc) as Hlc. fold cs in Hlc. cbn [length] in *.
  destruct (decide (size = 0)) as [->|Hsz0].
  { rewrite read_slow_end by (by right). replace m with 0 by (unfold m; lia). rewrite Z.add_0_r. unfold sub. by rewrite take_0, splice_nil. }
  destruct n as [|n]; [lia|]. cbn [read_slow]. pose proof (proj1 Hc). pose proof (g_entries _ _ G).
  unfold fat32_is_end_of_chain. rewrite (proj2 (Z.ltb_lt 0 size)), (proj2 (Z.leb_gt _ _)) by lia. cbn [andb negb].
  rewrite (read_cluster_clus okw), (next_cluster_fat _ okw) by (done || lia). fold cs. cbv zeta.
  set (k := if size <? cs - start then size else cs - start).
  assert (Hk : 0 < k <= cs - start /\ k <= size /\ (k = size \/ k = cs - start)) by (unfold k; ztest; lia). clearbody k.
  assert (Hsub : length (sub (clus s c) (Z.to_nat start) (Z.to_nat k)) = Z.to_nat k) by (apply length_sub; lia).
  unfold buffer_write. rewrite Hsub. rewrite (proj2 (Nat.ltb_ge _ _)) by (unfold m in Hbuf; lia).
  rewrite content_cons. destruct (decide (k = size)) as [->|Hks].
  - rewrite Z.sub_diag, read_slow_end by (by right). replace m with size by (unfold m; lia). f_equal. f_equal. f_equal.
    unfold sub. rewrite drop_app_le by lia. rewrite take_app_le by (rewrite length_drop; lia). done.
  - assert (Hkc : k = cs - start) by lia. destruct l as [|y l].
    + destruct Hch as [_ Hend]. rewrite read_slow_end by (by left). replace m with k by (unfold m; simpl; lia).
      f_equal. f_equal. f_equal. cbn [content map concat]. by rewrite app_nil_r.
    + rewrite is_chain_cons in Hch. destruct Hch as (_ & -> & Hch). set (m' := Z.min (size - k) (Z.of_nat (length (y :: l)) * cs - 0)).
      assert (Hm : m = k + m' /\ 0 <= m') by (unfold m, m'; cbn [length]; lia). destruct Hm as [Hm Hm'].
      assert (Hlen : length (sub (content (clus s) (y :: l)) 0 (Z.to_nat m')) = Z.to_nat m').
      { apply length_sub. pose proof (length_content s (y :: l) G Hok) as Hlc'. fold cs in Hlc'. unfold m'. lia. }
      rewrite (IH n y 0) by (done || lia || (rewrite length_splice; unfold m' in *; lia)). fold m'. fold cs. fold m'.
      f_equal. f_equal; [lia|]. replace (Z.to_nat (got + k)) with (Z.to_nat got + length (sub (clus s c) (Z.to_nat start) (Z.to_nat k)))%nat by lia.
      change (Z.to_nat 0) with 0%nat. rewrite splice_splice by lia. f_equal. unfold sub. rewrite drop_0.
      rewrite drop_app_le by lia. rewrite (firstn_all2 (n := Z.to_nat k)) by (rewrite length_drop; lia).
      rewrite take_app_ge by (rewrite length_drop; lia). do 2 f_equal. rewrite length_drop. lia.
Qed.

(** ** Run by run *)

(** The cached sector is up to date, or is the mark for none. *)
Definition cache_ok s (cache : Z * list Z) : Prop := fst cache = 0xFFFFFFFF \/ snd cache = sec s (fst cache).

Lemma run_scan_spec n s c l len cache :
  geo_ok okw s -> is_chain (fat s) c l -> Forall (clus_ok okw s) l -> cache_ok s cache ->
  (length l <= n)%nat -> 0 <= len -> len + Z.of_nat (length l) < 2 ^ 32 ->
  exists k next cache', run_scan s n c len cache = Some (next, len + Z.of_nat k, cache') /\ cache_ok s cache'
    /\ (k < length l)%nat /\ take (S k) l = seqZ c (Z.of_nat (S k))
    /\ match drop (S k) l with [] => CLUSTER_END <= next | _ => is_chain (fat s) next (drop (S k) l) end.
Proof.
  revert n c len cache. induction l as [|x l IH]; intros n c len cache G Hch Hok Hca Hn Hlen Hsm; [done|].
  destruct (is_chain_head _ _ _ Hch) as [t [= -> <-]]. rewrite Forall_cons in Hok. destruct Hok as [Hc Hok].
  destruct n as [|n]; simpl in Hn; [lia|]. cbn [run_scan]. pose proof (proj1 Hc) as Hr.
  rewrite (fat_pos_ok okw) by (done || lia). cbv zeta.
  set (cache' := if _ =? _ then _ else _). assert (Hca' : cache_ok s cache' /\ snd cache' = sec s (fat_begin_lba s + c / 128)).
  { unfold cache'. pose proof (fat_sector_ok okw s c G ltac:(lia)) as Hok'. destruct (Z.eqb_spec (fat_begin_lba s + c / 128) (fst cache)) as [E|E].
    - split; [done|]. destruct Hca as [H|H]; [|by rewrite E]. exfalso. pose proof (fat_index s c ltac:(lia)).
      pose proof (g_data _ _ G). pose proof (g_data_small _ _ G). pose proof (g_fats _ _ G). nia.
    - simpl. rewrite (sector_at_sec okw) by (done || apply G). split; [by right|done]. }
  clearbody cache'. destruct Hca' as [Hca' Esec]. rewrite Esec. change (fat_entry _ _) with (fat s c).
  pose proof (g_entries _ _ G). unfold CLUSTER_END in *. rewrite (u32_small (c + 1)) by lia.
  destruct ((fat s c =? c + 1) && (fat s c <? 268435448))%bool eqn:E; zbool.
  - destruct l as [|y l]; [destruct Hch as [_ Hend]; unfold CLUSTER_END in Hend; lia|].
    rewrite is_chain_cons in Hch. destruct Hch as (_ & Ey & Hch). rewrite Ey in *. cbn [length] in *.
    rewrite (u32_small (len + 1)) by lia.
    destruct (IH n y (len + 1) cache') as (k & next & cache'' & E1 & E2 & E3 & E4 & E5); try done; try lia.
    exists (S k), next, cache''. split_and!; [rewrite E1; do 3 f_equal; lia|done|lia| |exact E5].
    rewrite (seqZ_cons c) by lia. cbn [take]. f_equal. cbn [take] in E4. rewrite E4. f_equal; lia.
  - exists 0%nat, (fat s c), cache'. split_and!; [do 3 f_equal; lia|done|simpl; lia|done|].
    destruct l as [|y l]; [apply Hch|]. rewrite is_chain_cons in Hch. destruct Hch as (_ & -> & Hch). exact Hch.
Qed.

(** Consecutive clusters are consecutive sectors. *)
Lemma content_run s k c :
  geo_ok okw s -> content (clus s) (seqZ c (Z.of_nat k)) = concat (map (sec s) (seqZ (clus_at s c) (Z.of_nat k * BPB_SecPerClus s))).
Proof.
  intros G. pose proof (g_spc _ _ G). revert c. induction k as [|k IH]; intros c; [done|].
  rewrite (seqZ_cons c) by lia. rewrite content_cons. replace (Z.pred (Z.of_nat (S k))) with (Z.of_nat k) by lia. rewrite IH.
  replace (Z.of_nat (S k) * BPB_SecPerClus s) with (BPB_SecPerClus s + Z.of_nat k * BPB_SecPerClus s) by lia.
  rewrite seqZ_app by nia. rewrite map_app, concat_app. unfold clus. do 4 f_equal. unfold clus_at. lia.
Qed.

Lemma concat_take_sectors s a k n :
  (forall i, 0 <= i < Z.of_nat n -> length (sec s (a + i)) = SECTOR) -> (k <= n)%nat ->
  concat (map (sec s) (seqZ a (Z.of_nat k))) = take (k * SECTOR) (concat (map (sec s) (seqZ a (Z.of_nat n)))).
Proof.
  intros H Hk. replace (Z.of_nat n) with (Z.of_nat k + Z.of_nat (n - k)) by lia. rewrite seqZ_app by lia.
  rewrite map_app, concat_app. rewrite take_app_length'; [done|]. rewrite (concat_length_const _ _ SECTOR).
  - rewrite length_seqZ. lia.
  - intros x Hx. apply elem_of_seqZ in Hx. replace x with (a + (x - a)) by lia. apply H. lia.
Qed.

(** What one transfer brings: [k] sectors of the run. *)
Lemma run_transfer s rb c l r k :
  geo_ok okw s -> read_blocks (io s) = Some rb -> Forall (clus_ok okw s) l -> take r l = seqZ c (Z.of_nat r) -> (0 < r <= length l)%nat ->
  (0 < k <= r * Z.to_nat (BPB_SecPerClus s))%nat ->
  rb (world s) (cluster_lba s c) (Z.of_nat k) = Some (take (k * SECTOR) (content (clus s) (take r l)))
  /\ length (content (clus s) (take r l)) = (r * Z.to_nat (BPB_SecPerClus s) * SECTOR)%nat.
Proof.
  intros G Hrb Hok Hrun Hr Hk. pose proof (g_spc _ _ G).
  assert (Hokr : forall i, 0 <= i < Z.of_nat r -> clus_ok okw s (c + i)).
  { intros i Hi. rewrite Forall_forall in Hok. apply Hok. rewrite <- (take_drop r l), elem_of_app. left. rewrite Hrun. apply elem_of_seqZ. lia. }
  assert (Hs : forall i, 0 <= i < Z.of_nat r * BPB_SecPerClus s -> okw (world s) (clus_at s c + i)).
  { intros i Hi. pose proof (Z.div_mod i (BPB_SecPerClus s) ltac:(lia)). pose proof (Z.mod_pos_bound i (BPB_SecPerClus s) ltac:(lia)).
    assert (0 <= i / BPB_SecPerClus s < Z.of_nat r) by (split; [apply Z.div_pos; lia|apply Z.div_lt_upper_bound; lia]).
    apply (clus_sector_ok okw s (c + i / BPB_SecPerClus s)); [by apply Hokr|]. unfold clus_at. nia. }
  assert (Hc0 : clus_ok okw s c) by (rewrite <- (Z.add_0_r c); apply Hokr; lia).
  rewrite (cluster_lba_at okw) by done. rewrite Hrun, content_run by done.
  replace (Z.of_nat r * BPB_SecPerClus s) with (Z.of_nat (r * Z.to_nat (BPB_SecPerClus s))) in * by lia. split.
  - rewrite (io_blocks _ _ (g_io _ _ G) _ _ _ _ Hrb) by (lia || (intros; apply Hs; lia)). f_equal.
    apply (concat_take_sectors s); [|lia]. intros i Hi. apply (length_sec okw); [apply G|by apply Hs].
  - rewrite (concat_length_const _ _ SECTOR); [rewrite length_seqZ; lia|]. intros x Hx. apply elem_of_seqZ in Hx.
    apply (length_sec okw); [apply G|]. replace x with (clus_at s c + (x - clus_at s c)) by lia. apply Hs. lia.
Qed.

Lemma read_fast_end s rb n c cache size got buffer :
  (CLUSTER_END <= c \/ size = 0) -> read_fast fuel s rb n c cache size got buffer = Some (got, buffer).
Proof.
  intros H. assert (E : ((0 <? size) && negb (fat32_is_end_of_chain c))%bool = false).
  { unfold fat32_is_end_of_chain. destruct H as [H| ->]; [rewrite (proj2 (Z.leb_le _ _)) by done; by rewrite andb_false_r|done]. }
  destruct n; cbn [read_fast]; by rewrite E.
Qed.

Lemma content_split s r l : content (clus s) l = content (clus s) (take r l) ++ content (clus s) (drop r l).
Proof. unfold content. rewrite <- concat_app, <- map_app. by rewrite take_drop. Qed.

(** One round: a run of [r] clusters, of which [k] bytes are kept. *)
Lemma read_fast_round s rb n c l cache size got buffer :
  geo_ok okw s -> read_blocks (io s) = Some rb -> is_chain (fat s) c l -> Forall (clus_ok okw s) l -> cache_ok s cache ->
  (length l <= fuel)%nat -> Z.of_nat (length l) * fat32_cluster_size_bytes s < 2 ^ 32 - 512 -> 0 < size -> 0 <= got ->
  (Z.to_nat got + Z.to_nat (Z.min size (Z.of_nat (length l) * fat32_cluster_size_bytes s)) + 511 <= length buffer)%nat ->
  exists r k next cache' buffer',
    read_fast fuel s rb (S n) c cache size got buffer = read_fast fuel s rb n next cache' (size - k) (got + k) buffer'
    /\ cache_ok s cache' /\ (0 < r <= length l)%nat /\ k = Z.min size (Z.of_nat r * fat32_cluster_size_bytes s)
    /\ match drop r l with [] => CLUSTER_END <= next | _ => is_chain (fat s) next (drop r l) end
    /\ length buffer' = length buffer
    /\ take (Z.to_nat (got + k)) buffer' = take (Z.to_nat got) buffer ++ take (Z.to_nat k) (content (clus s) (take r l)).
Proof.
  intros G Hrb Hch Hok Hca Hf Hsm Hsz Hgot Hbuf. cbn [read_fast].
  destruct (is_chain_head _ _ _ Hch) as [t Et]. assert (Hc : clus_ok okw s c) by (rewrite Et, Forall_cons in Hok; apply Hok).
  pose proof (proj1 Hc). pose proof (g_entries _ _ G). pose proof (g_spc _ _ G). pose proof (cluster_size_eq okw s G) as Hcs.
  set (cs := fat32_cluster_size_bytes s) in *.
  unfold fat32_is_end_of_chain. rewrite (proj2 (Z.ltb_lt 0 size)), (proj2 (Z.leb_gt _ _)) by lia. cbn [andb negb].
  destruct (run_scan_spec fuel s c l 1 cache) as (k0 & next & cache' & -> & Hca' & Hk0 & Hrun & Hnext); try done; try lia; try nia.
  cbv zeta. set (r := S k0) in *. rewrite (g_bps _ _ G).
  replace (1 + Z.of_nat k0) with (Z.of_nat r) by lia.
  assert (Hrl : Z.of_nat r <= Z.of_nat (length l)) by lia. assert (Hr0 : (0 < r)%nat) by lia. clearbody r.
  assert (Hrs : Z.of_nat r * cs <= Z.of_nat (length l) * cs) by nia.
  assert (Hrb' : u32 (u32 (Z.of_nat r * BPB_SecPerClus s) * 512) = Z.of_nat r * cs).
  { rewrite (u32_small (Z.of_nat r * _)) by nia. rewrite u32_small; nia. }
  rewrite Hrb'. set (k := if size <? Z.of_nat r * cs then size else Z.of_nat r * cs).
  assert (Hk : k = Z.min size (Z.of_nat r * cs)) by (unfold k; ztest; lia). clearbody k.
  rewrite (u32_small (k + 512 - 1)) by lia. set (ks := Z.to_nat ((k + 512 - 1) / 512)).
  assert (Hks : (k + 512 - 1) / 512 = Z.of_nat ks /\ k <= Z.of_nat ks * 512 <= k + 511) by (unfold ks; zlia). clearbody ks. destruct Hks as [-> Hks].
  assert (Hkr : (0 < ks <= r * Z.to_nat (BPB_SecPerClus s))%nat) by (assert (0 < k) by nia; nia).
  destruct (run_transfer s rb c l r ks G Hrb Hok Hrun ltac:(lia) Hkr) as [Hgot' Hlen]. rewrite Hgot'. simpl.
  assert (Hl : length (take (ks * SECTOR) (content (clus s) (take r l))) = (ks * SECTOR)%nat).
  { rewrite length_take, Hlen. unfold SECTOR. nia. }
  unfold buffer_write. rewrite Hl. rewrite (proj2 (Nat.ltb_ge _ _)) by (unfold SECTOR; lia).
  exists r, k, next, cache', (splice buffer (Z.to_nat got) (take (ks * SECTOR) (content (clus s) (take r l)))).
  split_and!; try done; try lia.
  - rewrite length_splice; [done|]. rewrite Hl. unfold SECTOR. lia.
  - replace (Z.to_nat (got + k)) with (Z.to_nat got + Z.to_nat k)%nat by lia.
    rewrite take_splice_end by (rewrite Hl; unfold SECTOR; lia). f_equal. rewrite take_take. f_equal. unfold SECTOR. lia.
Qed.

Lemma read_fast_spec n s rb c l cache size got buffer :
  geo_ok okw s -> read_blocks (io s) = Some rb -> is_chain (fat s) c l -> Forall (clus_ok okw s) l -> cache_ok s cache ->
  (length l <= fuel)%nat -> Z.of_nat (length l) * fat32_cluster_size_bytes s < 2 ^ 32 - 512 -> 0 <= size <= Z.of_nat n -> 0 <= got ->
  let m := Z.min size (Z.of_nat (length l) * fat32_cluster_size_bytes s) in
  (Z.to_nat got + Z.to_nat m + 511 <= length buffer)%nat ->
  exists buffer', read_fast fuel s rb n c cache size got buffer = Some (got + m, buffer') /\ length buffer' = length buffer
    /\ take (Z.to_nat (got + m)) buffer' = take (Z.to_nat got) buffer ++ take (Z.to_nat m) (content (clus s) l).
Proof.
  revert c l cache size got buffer. induction n as [|n IH]; intros c l cache size got buffer G Hrb Hch Hok Hca Hf Hsm Hsz Hgot m Hbuf.
  all: pose proof (cluster_size_eq okw s G) as Hcs; pose proof (g_spc _ _ G); destruct (decide (size = 0)) as [->|Hs0].
  1, 3: rewrite read_fast_end by (by right); exists buffer; replace m with 0 by (unfold m; lia);
    split_and!; [do 2 f_equal; lia|done|by rewrite Z.add_0_r, take_0, app_nil_r].
  { lia. }
  destruct (read_fast_round s rb n c l cache size got buffer)
    as (r & k & next & cache' & buffer1 & -> & Hca' & Hr & Hk & Hnext & Hl1 & Ht1); [done|done|done|done|done|done|done|lia|done|done|].
  set (cs := fat32_cluster_size_bytes s) in *. assert (Hdl : length (drop r l) = (length l - r)%nat) by apply length_drop.
  assert (Hcl : length (content (clus s) (take r l)) = Z.to_nat (Z.of_nat r * cs)).
  { pose proof (length_content s (take r l) G ltac:(by apply Forall_take)) as H0. rewrite length_take, Nat.min_l in H0 by lia. fold cs in H0. lia. }
  rewrite (content_split s r). destruct (decide (k = size)) as [->|Hks].
  - rewrite Z.sub_diag, read_fast_end by (by right). exists buffer1. replace m with size by (unfold m; nia). split_and!; [done|done|].
    rewrite Ht1. by rewrite take_app_le by lia.
  - assert (Ek : k = Z.of_nat r * cs) by lia. destruct (drop r l) as [|y l'] eqn:El.
    + rewrite read_fast_end by (by left). exists buffer1. simpl in Hdl. replace m with k by (unfold m; nia). split_and!; [done|done|].
      rewrite Ht1. cbn [content map concat]. by rewrite app_nil_r.
    + rewrite <- El in *. assert (Hsm' : Z.of_nat (length (drop r l)) * cs <= Z.of_nat (length l) * cs - k) by (rewrite Hdl; nia).
      destruct (IH next (drop r l) cache' (size - k) (got + k) buffer1) as (buffer2 & E2 & Hl2 & Ht2);
        [done|done|rewrite El in Hnext |- *; done|by apply Forall_drop|done|lia|fold cs; lia|lia|lia|fold cs; unfold m in Hbuf; lia|].
      fold cs in E2, Ht2. set (m2 := Z.min (size - k) (Z.of_nat (length (drop r l)) * cs)) in *.
      assert (Hm : m = k + m2 /\ 0 <= m2) by (unfold m, m2; rewrite Hdl; nia). destruct Hm as [Hm Hm2].
      exists buffer2. split_and!; [rewrite E2; do 2 f_equal; lia|lia|].
      replace (got + m) with (got + k + m2) by lia. rewrite Ht2, Ht1, <- app_assoc. f_equal.
      rewrite (firstn_all2 (n := Z.to_nat k)) by lia. rewrite take_app_ge by lia. do 2 f_equal. lia.
Qed.

(** ** Both ways *)

Lemma read_slow_all n s c l start cbuf size buffer :
  geo_ok okw s -> is_chain (fat s) c l -> Forall (clus_ok okw s) l -> 0 <= start < fat32_cluster_size_bytes s ->
  length cbuf = Z.to_nat (fat32_cluster_size_bytes s) -> 0 <= size <= Z.of_nat n ->
  let m := Z.min size (Z.of_nat (length l) * fat32_cluster_size_bytes s - start) in
  (Z.to_nat m <= length buffer)%nat ->
  exists buffer', read_slow junk s n c start cbuf size 0 buffer = Some (m, buffer') /\ length buffer' = length buffer
    /\ take (Z.to_nat m) buffer' = sub (content (clus s) l) (Z.to_nat start) (Z.to_nat m).
Proof.
  intros G Hch Hok Hst Hcb Hsz m Hbuf. destruct (is_chain_head _ _ _ Hch) as [t Et]. assert (0 < length l)%nat by (rewrite Et; simpl; lia).
  rewrite (read_slow_spec _ s c l) by (done || lia). fold m. eexists. split; [done|].
  assert (Hl : length (sub (content (clus s) l) (Z.to_nat start) (Z.to_nat m)) = Z.to_nat m).
  { apply length_sub. pose proof (length_content s l G Hok). unfold m. nia. }
  change (Z.to_nat 0) with 0%nat. split; [apply length_splice; lia|]. unfold splice. rewrite take_0. simpl.
  rewrite take_app_le by lia. by rewrite firstn_all2 by lia.
Qed.

Definition readable s (size offset : Z) (l : list Z) : Z :=
  Z.max 0 (Z.min size (Z.of_nat (length l) * fat32_cluster_size_bytes s - offset)).

Lemma fat32_read_chain s node offset size buffer l :
  geo_ok okw s -> Z.land (fn_nflags node) FS_FILE <> 0 -> is_chain (fat s) (fn_inode node) l -> Forall (clus_ok okw s) l ->
  (length l <= fuel)%nat -> Z.of_nat (length l) * fat32_cluster_size_bytes s < 2 ^ 32 - 512 -> 0 <= offset -> 0 <= size ->
  let m := readable s size offset l in
  (Z.to_nat m + 511 <= length buffer)%nat ->
  exists buffer', fat32_read junk fuel s node offset size buffer = Some (m, buffer') /\ length buffer' = length buffer
    /\ take (Z.to_nat m) buffer' = sub (content (clus s) l) (Z.to_nat offset) (Z.to_nat m).
Proof.
  intros G Hfl Hch Hok Hf Hsm Ho Hs m Hbuf. unfold fat32_read. rewrite (proj2 (Z.eqb_neq _ _)) by done. cbv zeta.
  pose proof (cluster_size_eq okw s G) as Hcs. pose proof (g_spc _ _ G). set (cs := fat32_cluster_size_bytes s) in *.
  rewrite (proj2 (Z.eqb_neq cs 0)) by lia. pose proof (Z.div_mod offset cs ltac:(lia)) as Hdm. pose proof (Z.mod_pos_bound offset cs ltac:(lia)) as Hmb.
  assert (Hq : 0 <= offset / cs) by (apply Z.div_pos; lia). set (q := Z.to_nat (offset / cs)). replace (offset / cs) with (Z.of_nat q) in * by lia. clearbody q.
  pose proof (skip_clusters_spec q s (fn_inode node) l G Hch Hok) as Hskip. destruct (Nat.ltb_spec q (length l)) as [Hql|Hql].
  2: { rewrite Hskip. exists buffer. replace m with 0 by (unfold m, readable; fold cs; nia). split_and!; [done|done|]. unfold sub. by rewrite !take_0. }
  destruct Hskip as (c & -> & Hc). pose proof (Forall_drop _ q _ Hok) as Hokd. pose proof (length_drop l q) as Hld.
  assert (Hm : m = Z.min size (Z.of_nat (length (drop q l)) * cs - offset mod cs)) by (unfold m, readable; fold cs; rewrite Hld; nia).
  assert (Hql' : length (content (clus s) (take q l)) = Z.to_nat (Z.of_nat q * cs)).
  { pose proof (length_content s (take q l) G ltac:(by apply Forall_take)) as H0. rewrite length_take, Nat.min_l in H0 by lia. fold cs in H0. lia. }
  assert (Hsub : forall k, sub (content (clus s) l) (Z.to_nat offset) k = sub (content (clus s) (drop q l)) (Z.to_nat (offset mod cs)) k).
  { intros k. rewrite (content_split s q l). unfold sub. rewrite drop_app_ge by lia. do 2 f_equal. lia. }
  rewrite Hsub. destruct (read_blocks (io s)) as [rb|] eqn:Erb; [destruct (Z.eqb_spec (offset mod cs) 0) as [E0|E0]|].
  - assert (Em : Z.min size (Z.of_nat (length (drop q l)) * cs) = m) by (rewrite Hm, E0; lia).
    assert (Hsm' : Z.of_nat (length (drop q l)) * cs <= Z.of_nat (length l) * cs) by (rewrite Hld; nia).
    destruct (read_fast_spec (Z.to_nat size) s rb c (drop q l) (0xFFFFFFFF, fresh junk 512) size 0 buffer) as (buffer' & E & Hl & Ht);
      [done|done|done|done|by left|lia|fold cs; lia|lia|lia|fold cs; rewrite Em; lia|].
    fold cs in E, Ht. rewrite Em in E, Ht. exists buffer'. split_and!; [exact E|done|].
    rewrite E0. unfold sub. rewrite drop_0. exact Ht.
  - rewrite Hm. apply read_slow_all; [done|done|done|done|apply length_fresh; lia|lia|lia].
  - rewrite Hm. apply read_slow_all; [done|done|done|done|apply length_fresh; lia|lia|lia].
Qed.
End Read.
