(* ===== verification/FatName.v ===== *)
(** * FAT32: file names and paths ([src/src/fs/fat32.c])

    Strings are lists of bytes without their NUL.  Short names are the 11
    bytes of [DIR_Name]; long names are rebuilt from the entries in front of the
    short one. *)

From Stdlib Require Import ZArith Lia String.
From stdpp Require Import base numbers list gmap.
From S2P Require Import Prelude Bytes Fat.

Definition DOT : Z := 46.
Definition SPACE : Z := 32.
Definition PATHSEP : Z := 47.

(** [(ch >= 'a' && ch <= 'z') ? ch - 32 : ch] *)
Definition upper (ch : Z) : Z := if ((97 <=? ch) && (ch <=? 122))%bool then ch - 32 else ch.

(** ** Directory entries: [fat32_directory_entry_t], 32 bytes *)

Definition DIR_ENTRY : nat := 32.
Definition DIR_Name (e : list Z) : list Z := sub e 0 11.
Definition DIR_Attr (e : list Z) : Z := get8 e 11.
Definition DIR_FstClusHI (e : list Z) : Z := get16 e 20.
Definition DIR_FstClusLO (e : list Z) : Z := get16 e 26.
Definition DIR_FileSize (e : list Z) : Z := get32 e 28.
(** [dirent[i]] *)
Definition dirent (buffer : list Z) (i : nat) : list Z := sub buffer (DIR_ENTRY * i) DIR_ENTRY.

Definition fat32_entry_start_cluster (e : list Z) : Z := Z.lor (Z.shiftl (DIR_FstClusHI e) 16) (DIR_FstClusLO e).

Definition fat32_set_entry_start_cluster (e : list Z) (cluster : Z) : list Z :=
  put16 (put16 e 20 (Z.land (Z.shiftr cluster 16) 0xFFFF)) 26 (Z.land cluster 0xFFFF).

Definition dirent_is_long (e : list Z) : bool := DIR_Attr e =? 0x0F.

(** ** Short names *)

Definition pad (n : nat) (l : list Z) : list Z := l ++ replicate (n - length l) SPACE.

Definition fat32_make_dos_name (name : list Z) : list Z :=
  let part := take_while (fun c => negb (c =? DOT)) name in
  pad 8 (map upper (take 8 part)) ++ pad 3 (map upper (take 3 (drop (S (length part)) name))).

Definition fat32_entry_name_to_string (e : list Z) (out_size : Z) : list Z :=
  if out_size =? 0 then [] else
  let room := Z.to_nat (out_size - 1) in
  let part := take room (take_while (fun c => negb (c =? SPACE)) (sub e 0 8)) in
  let need_dot := existsb (fun c => negb (c =? SPACE)) (sub e 8 3) in
  c_str (if (need_dot && (length part <? room)%nat)%bool
         then part ++ [DOT] ++ take (room - length part - 1) (take_while (fun c => negb (c =? SPACE)) (sub e 8 3))
         else part).

(** ** Long names *)

Definition fat32_utf16_to_utf8 (code : Z) (out : list Z) (cap : Z) : list Z :=
  let pos := Z.of_nat (length out) in
  if ((code =? 0) || (code =? 0xFFFF))%bool then out
  else if code <? 0x80 then (if pos <? cap then out ++ [code] else out)
  else if code <? 0x800 then
    (if pos + 1 <? cap then out ++ [Z.lor 0xC0 (Z.shiftr code 6); Z.lor 0x80 (Z.land code 0x3F)] else out)
  else
    (if pos + 2 <? cap
     then out ++ [Z.lor 0xE0 (Z.shiftr code 12); Z.lor 0x80 (Z.land (Z.shiftr code 6) 0x3F); Z.lor 0x80 (Z.land code 0x3F)]
     else out).

(** The offsets of the 13 characters of a long entry. *)
Definition lfn_offsets : list nat := [1; 3; 5; 7; 9; 14; 16; 18; 20; 22; 24; 28; 30]%nat.

Fixpoint lfn_units (l : list Z) (offs : list nat) (out : list Z) : list Z :=
  match offs with
  | [] => out
  | o :: offs' =>
      let u := get16 l o in
      if ((u =? 0) || (u =? 0xFFFF))%bool then out
      else lfn_units l offs' (fat32_utf16_to_utf8 u out 767)
  end.

(** The first of the long entries in front of [i]. *)
Fixpoint lfn_start (buffer : list Z) (i : nat) : nat :=
  match i with
  | O => O
  | S i' => if dirent_is_long (dirent buffer i') then lfn_start buffer i' else i
  end.

(** [for (i = entry_index; i-- > start;)] *)
Fixpoint lfn_collect (buffer : list Z) (n i : nat) (out : list Z) : list Z :=
  match n, i with
  | S n', S i' => lfn_collect buffer n' i' (lfn_units (dirent buffer i') lfn_offsets out)
  | _, _ => out
  end.

Definition fat32_get_long_name (buffer : list Z) (directory_size : Z) (entry_index : nat) (out_size : Z) : option (list Z) :=
  if ((out_size =? 0) || (entry_index =? 0)%nat)%bool then None
  else if (directory_size / 32 <=? Z.of_nat entry_index) then None else
  let start := lfn_start buffer entry_index in
  if (start =? entry_index)%nat then None else
  let buf := lfn_collect buffer (entry_index - start) entry_index [] in
  if (length buf =? 0)%nat then None else Some (take (Z.to_nat (out_size - 1)) buf).

Fixpoint fat32_ascii_iequals (a b : list Z) : bool :=
  match a, b with
  | [], [] => true
  | x :: a', y :: b' => if upper x =? upper y then fat32_ascii_iequals a' b' else false
  | _, _ => false
  end.

(** ** Validity of a new name *)

Definition name_char (ch : Z) : bool :=
  (((97 <=? ch) && (ch <=? 122)) || ((65 <=? ch) && (ch <=? 90)) || ((48 <=? ch) && (ch <=? 57)) || (ch =? 95) || (ch =? 45))%bool.

(** [None] is [return 0] inside the loop; otherwise [part_len] and [ext_len]. *)
Fixpoint valid_loop (name : list Z) (len i dot_count part_len ext_len : Z) (in_ext : bool) : option (Z * Z) :=
  match name with
  | [] => Some (part_len, ext_len)
  | ch :: rest =>
      if ((ch =? PATHSEP) || (ch =? 92))%bool then None
      else if ch =? DOT then
        (if ((1 <? dot_count + 1) || (i =? 0) || (i =? len - 1))%bool then None
         else valid_loop rest len (i + 1) (dot_count + 1) part_len ext_len true)
      else if name_char ch then
        (if in_ext then valid_loop rest len (i + 1) dot_count part_len (ext_len + 1) in_ext
         else valid_loop rest len (i + 1) dot_count (part_len + 1) ext_len in_ext)
      else None
  end.

Definition fat32_is_valid_name (name : list Z) : bool :=
  let len := Z.of_nat (length name) in
  if len =? 0 then false else if 12 <? len then false else
  match valid_loop name len 0 0 0 0 false with
  | None => false
  | Some (part_len, ext_len) => negb ((part_len =? 0) || (8 <? part_len) || (3 <? ext_len))
  end.

(** ** Paths *)

(** [last_sep] after the loop, -1 when there is none. *)
Fixpoint last_sep (path : list Z) (i found : Z) : Z :=
  match path with
  | [] => found
  | c :: rest => last_sep rest (i + 1) (if c =? PATHSEP then i else found)
  end.

Definition fat32_path_parent (path : list Z) (parent_size leaf_size : Z) : list Z * list Z :=
  match path with
  | [] => ([], [])
  | c :: rest =>
      let leaf b := take (Z.to_nat (leaf_size - 1)) b in
      let sep := last_sep path 0 (-1) in
      if sep <=? 0 then ([PATHSEP], leaf (if c =? PATHSEP then rest else path))
      else
        let sep := if parent_size <=? sep then parent_size - 1 else sep in
        (take (Z.to_nat sep) path, leaf (drop (Z.to_nat sep + 1) path))
  end.

(** [None]: [out[strlen(out) - 1]] of an empty string, or a [strcat] that fills
    the buffer to its last byte and writes its NUL behind it. *)
Definition fat32_join_path (base name : list Z) (out_size : Z) : option (list Z) :=
  if out_size =? 0 then Some [] else
  let append out :=
    let len := Z.of_nat (length out) in
    if len <? out_size - 1 then out ++ take (Z.to_nat (out_size - len - 1)) name else out in
  if bool_decide (base = [PATHSEP]) then Some (append [PATHSEP]) else
  let out := take (Z.to_nat (out_size - 1)) base in
  match last out with
  | None => None
  | Some c =>
      if c =? PATHSEP then Some (append out)
      else if out_size <=? Z.of_nat (length out) + 1 then None
      else Some (append (out ++ [PATHSEP]))
  end.

(** ** Theorems *)

Lemma upper_idem c : upper (upper c) = upper c.
Proof.
  unfold upper at 2 3. destruct ((97 <=? c) && (c <=? 122))%bool eqn:E; zbool; unfold upper.
  - rewrite (proj2 (Z.leb_gt 97 (c - 32))) by lia. done.
  - by rewrite E.
Qed.

Lemma upper_not c d : (c < 65 \/ 122 < c) -> (upper d =? c) = (d =? c).
Proof.
  intros H. unfold upper. destruct ((97 <=? d) && (d <=? 122))%bool eqn:E; zbool; [|done]. zcases; lia.
Qed.

Lemma iequals_upper a b : fat32_ascii_iequals a b = bool_decide (map upper a = map upper b).
Proof.
  revert b. induction a as [|x a IH]; intros [|y b]; simpl; [done|done|done|].
  destruct (Z.eqb_spec (upper x) (upper y)) as [E|E].
  - rewrite IH, E. apply bool_decide_ext. split; [by intros ->|by intros [=]].
  - rewrite bool_decide_false; [done|]. by intros [=].
Qed.

(** A name the code accepts: a part and, after a dot, a non-empty extension. *)
Definition name_parts (name part ext : list Z) : Prop :=
  Forall (fun c => name_char c = true) part /\ Forall (fun c => name_char c = true) ext
  /\ name = part ++ match ext with [] => [] | _ => DOT :: ext end.

Lemma valid_loop_ext rest len i part ext r :
  valid_loop rest len i 1 part ext true = Some r ->
  Forall (fun c => name_char c = true) rest /\ r = (part, ext + Z.of_nat (length rest)).
Proof.
  revert i ext. induction rest as [|c rest IH]; intros i ext H; simpl in H.
  - simplify_eq. split; [done|]. f_equal. simpl. lia.
  - destruct ((c =? PATHSEP) || (c =? 92))%bool; [done|]. destruct (c =? DOT); [done|].
    destruct (name_char c) eqn:E; [|done]. apply IH in H as [H ->]. split; [by constructor|]. f_equal. simpl. lia.
Qed.

Lemma valid_loop_part rest len i part ext r :
  0 <= i -> len = i + Z.of_nat (length rest) ->
  valid_loop rest len i 0 part ext false = Some r ->
  exists a b, name_parts rest a b /\ r = (part + Z.of_nat (length a), ext + Z.of_nat (length b)).
Proof.
  revert i part. induction rest as [|c rest IH]; intros i part Hi Hl H; simpl in H.
  - simplify_eq. exists [], []. split; [done|]. f_equal; simpl; lia.
  - simpl length in Hl. destruct ((c =? PATHSEP) || (c =? 92))%bool; [done|]. destruct (Z.eqb_spec c DOT) as [->|Hc].
    + destruct (Z.eqb_spec i 0); [done|]. destruct (Z.eqb_spec i (len - 1)); [done|]. simpl in H. apply valid_loop_ext in H as [H ->].
      exists [], rest. split; [|f_equal; simpl; lia]. split_and!; [done|done|]. destruct rest; [simpl in *; lia|done].
    + destruct (name_char c) eqn:E; [|done]. apply IH in H as (a & b & (Ha & Hb & ->) & ->); [|lia|lia].
      exists (c :: a), b. split; [|f_equal; simpl; lia]. split_and!; [by constructor|done|done].
Qed.

Lemma valid_name_parts name :
  fat32_is_valid_name name = true ->
  exists a b, name_parts name a b /\ (0 < length a <= 8)%nat /\ (length b <= 3)%nat.
Proof.
  unfold fat32_is_valid_name. destruct (Z.eqb_spec (Z.of_nat (length name)) 0); [done|]. destruct (12 <? _); [done|].
  destruct (valid_loop name _ 0 0 0 0 false) as [[p e]|] eqn:E; [|done].
  apply valid_loop_part in E as (a & b & Hp & [= -> ->]); [|lia|lia]. intros H. zbool. exists a, b. split; [done|lia].
Qed.

Lemma name_char_not c : name_char c = true -> c <> DOT /\ c <> SPACE /\ c <> 0 /\ upper c <> SPACE /\ upper c <> 0 /\ c <> PATHSEP.
Proof.
  unfold name_char, upper, DOT, SPACE, PATHSEP. intros H. destruct ((97 <=? c) && (c <=? 122))%bool eqn:E; zbool.
  - lia.
  - zcases; simpl in H; destruct (Z.leb_spec 65 c), (Z.leb_spec c 90), (Z.leb_spec 48 c), (Z.leb_spec c 57), (Z.eqb_spec c 95), (Z.eqb_spec c 45); simpl in H; try done; lia.
Qed.

Lemma take_while_spaces n : take_while (fun c => negb (c =? SPACE)) (replicate n SPACE) = [].
Proof. by destruct n. Qed.

Lemma length_pad n l : (length l <= n)%nat -> length (pad n l) = n.
Proof. intros H. unfold pad. rewrite length_app, length_replicate. lia. Qed.

Lemma length_dos_name name : length (fat32_make_dos_name name) = 11%nat.
Proof.
  unfold fat32_make_dos_name. cbv zeta. rewrite length_app, !length_pad; [done| |]; rewrite length_map, length_take; lia.
Qed.

Lemma dos_name_parts a b :
  Forall (fun c => name_char c = true) a -> (length a <= 8)%nat -> (length b <= 3)%nat ->
  fat32_make_dos_name (a ++ match b with [] => [] | _ => DOT :: b end) = pad 8 (map upper a) ++ pad 3 (map upper b).
Proof.
  intros Ha Hla Hlb. unfold fat32_make_dos_name.
  assert (Hf : Forall (fun c => negb (c =? DOT) = true) a).
  { eapply Forall_impl; [exact Ha|]. intros c Hc. apply negb_true_iff, Z.eqb_neq, name_char_not, Hc. }
  assert (E : take_while (fun c => negb (c =? DOT)) (a ++ match b with [] => [] | _ => DOT :: b end) = a).
  { destruct b as [|y b]; [rewrite app_nil_r; by apply take_while_all|]. rewrite take_while_app by done. simpl. by rewrite app_nil_r. }
  rewrite E. rewrite (firstn_all2 a) by done. do 3 f_equal. destruct b as [|y b].
  - rewrite app_nil_r, drop_ge by lia. done.
  - rewrite drop_app_ge by lia. replace (S (length a) - length a)%nat with 1%nat by lia. cbn [drop]. by rewrite firstn_all2.
Qed.

Definition visible (l : list Z) : Prop := Forall (fun c => negb (c =? SPACE) = true) l.

Lemma take_while_pad n l : visible l -> take_while (fun c => negb (c =? SPACE)) (pad n l) = l.
Proof. intros H. unfold pad. rewrite take_while_app by done. by rewrite take_while_spaces, app_nil_r. Qed.

Lemma name_chars_visible l : Forall (fun c => name_char c = true) l -> visible (map upper l).
Proof.
  intros H. apply Forall_map. eapply Forall_impl; [exact H|]. intros c Hc. apply negb_true_iff, Z.eqb_neq, name_char_not, Hc.
Qed.

Lemma existsb_spaces n : existsb (fun c => negb (c =? SPACE)) (replicate n SPACE) = false.
Proof. induction n; simpl; [done|exact IHn]. Qed.

(** The directory name of a valid name, read back, is the name in capitals. *)
Lemma dos_name_to_string e name :
  fat32_is_valid_name name = true -> DIR_Name e = fat32_make_dos_name name ->
  fat32_entry_name_to_string e 32 = map upper name.
Proof.
  intros Hv He. apply valid_name_parts in Hv as (a & b & (Ha & Hb & ->) & Hla & Hlb). rewrite dos_name_parts in He by (done || lia).
  assert (H1 : sub e 0 8 = pad 8 (map upper a)).
  { apply (f_equal (take 8)) in He. unfold DIR_Name, sub in *. rewrite take_take in He. simpl (8 `min` 11)%nat in He. rewrite He.
    rewrite take_app_length'; [done|]. rewrite length_pad; [done|]. rewrite length_map. lia. }
  assert (H2 : sub e 8 3 = pad 3 (map upper b)).
  { apply (f_equal (drop 8)) in He. unfold DIR_Name, sub in *. rewrite drop_0, skipn_firstn_comm in He. simpl (11 - 8)%nat in He. rewrite He.
    rewrite drop_app_length'; [done|]. rewrite length_pad; [done|]. rewrite length_map. lia. }
  unfold fat32_entry_name_to_string. change (32 =? 0) with false. change (Z.to_nat (32 - 1)) with 31%nat. cbv zeta.
  rewrite H1, H2, !take_while_pad by (by apply name_chars_visible). rewrite (firstn_all2 (n := 31)) by (rewrite length_map; lia).
  rewrite length_map. rewrite (proj2 (Nat.ltb_lt _ _)) by lia. rewrite andb_true_r.
  assert (Hn : no_nul (map upper (a ++ match b with [] => [] | _ => DOT :: b end))).
  { apply Forall_map, Forall_app. split; [|destruct b; constructor; [done|]].
    all: eapply Forall_impl; [eassumption|]; intros c Hc; by apply name_char_not. }
  destruct b as [|y b].
  - unfold pad. simpl map. change (existsb _ _) with false. cbv iota. rewrite app_nil_r in *. by apply c_str_id.
  - assert (Hy : upper y <> SPACE) by (rewrite Forall_cons in Hb; destruct (name_char_not y (proj1 Hb)) as (? & ? & ? & ? & ? & ?); done). unfold pad. cbn [map app existsb].
    rewrite (proj2 (Z.eqb_neq _ _) Hy). cbn [negb orb]. rewrite firstn_all2 by (cbn [length] in *; rewrite length_map; lia).
    rewrite map_app in Hn |- *. cbn [map] in *. apply c_str_id. exact Hn.
Qed.

Lemma map_upper_take_while name :
  take_while (fun c => negb (c =? DOT)) (map upper name) = map upper (take_while (fun c => negb (c =? DOT)) name).
Proof.
  induction name as [|c name IH]; simpl; [done|]. rewrite upper_not by (unfold DOT; lia). destruct (c =? DOT); simpl; [done|]. by rewrite IH.
Qed.

Lemma dos_name_upper name : fat32_make_dos_name (map upper name) = fat32_make_dos_name name.
Proof.
  assert (Hi : forall l, map upper (map upper l) = map upper l).
  { intros l. rewrite map_map. apply map_ext. apply upper_idem. }
  unfold fat32_make_dos_name. rewrite map_upper_take_while, length_map. cbv zeta.
  by rewrite skipn_map, !firstn_map, !Hi.
Qed.

(** C37: For every name [fat32_is_valid_name] accepts, the 8.3 name that
    [fat32_make_dos_name] stores is read back by [fat32_entry_name_to_string] as
    the name in capitals, and two accepted names get the same 8.3 name exactly
    when they are equal up to case. *)
Theorem fat32_short_name_roundtrip a b e :
  fat32_is_valid_name a = true -> fat32_is_valid_name b = true -> DIR_Name e = fat32_make_dos_name a ->
  fat32_entry_name_to_string e 32 = map upper a
  /\ (fat32_make_dos_name a = fat32_make_dos_name b <-> fat32_ascii_iequals a b = true).
Proof.
  intros Ha Hb He. split; [by apply dos_name_to_string|]. rewrite iequals_upper, bool_decide_eq_true. split; intros E.
  - rewrite <- (dos_name_to_string e a Ha He). rewrite E in He. exact (dos_name_to_string e b Hb He).
  - by rewrite <- (dos_name_upper a), E, dos_name_upper.
Qed.

Definition entry_demo : list Z := str "READ_ME TXT" ++ zeros 21.

Lemma fat32_short_name_roundtrip_witness :
  fat32_entry_name_to_string entry_demo 32 = str "READ_ME.TXT"
  /\ (fat32_make_dos_name (str "read_me.txt") = fat32_make_dos_name (str "Read_Me.TXT") <-> fat32_ascii_iequals (str "read_me.txt") (str "Read_Me.TXT") = true).
Proof.
  apply (fat32_short_name_roundtrip (str "read_me.txt") (str "Read_Me.TXT") entry_demo); reflexivity.
Defined.
