(* ===== verification/FatDir.v ===== *)
(** * FAT32: directories and files by path ([src/src/fs/fat32.c])

    The operations on directory entries and the path interface, over the
    clusters of [Fat] and the names of [FatName].  Results of type [int] are
    integers as in the code; pointers are [option]s. *)

From Stdlib Require Import ZArith Lia String.
From stdpp Require Import base numbers list gmap.
From S2P Require Import Prelude Bytes Fat FatName.

(** [fat32_lookup_result_t] *)
Record lookup_result := {
  dir_cluster : Z;
  entry_cluster : Z;
  entry_index : nat;
  entry : list Z;
  found : bool
}.

Definition NAME_FREE : Z := 0xE5.
Definition ATTR_DIRECTORY : Z := 0x10.

Definition is_directory (e : list Z) : bool := negb (Z.land (DIR_Attr e) ATTR_DIRECTORY =? 0).

(** [DIR_Name[0] == 0xE5 || DIR_Attr == 0x0F || (DIR_Attr & 0x08)] *)
Definition skipped (e : list Z) : bool :=
  ((get8 e 0 =? NAME_FREE) || (DIR_Attr e =? 0x0F) || negb (Z.land (DIR_Attr e) 0x08 =? 0))%bool.

(** [strncmp(a, b, n) == 0] of the library *)
Fixpoint strncmp_eq (n : nat) (a b : list Z) : bool :=
  match n with
  | O => true
  | S n' =>
      if ((a.[0] =? b.[0]) && negb (a.[0] =? 0))%bool then strncmp_eq n' (tail a) (tail b)
      else a.[0] =? b.[0]
  end.

Section Dir.
Context {W : Type}.
Variable junk : list Z.
Variable fuel : nat.

(** ** Looking up a name *)

Definition matches (buffer : list Z) (size : Z) (dos_name name : list Z) (i : nat) : bool :=
  (strncmp_eq 11 (DIR_Name (dirent buffer i)) dos_name
   || match fat32_get_long_name buffer size i 255 with Some l => fat32_ascii_iequals l name | None => false end)%bool.

(** The loop over the entries of a cluster: the end mark, a match, or neither. *)
Inductive scan := ScanEnd | ScanFound (i : nat) | ScanMore.

Fixpoint scan_entries (buffer : list Z) (size : Z) (dos_name name : list Z) (i n : nat) : scan :=
  match n with
  | O => ScanMore
  | S n' =>
      let e := dirent buffer i in
      if get8 e 0 =? 0 then ScanEnd
      else if skipped e then scan_entries buffer size dos_name name (S i) n'
      else if matches buffer size dos_name name i then ScanFound i
      else scan_entries buffer size dos_name name (S i) n'
  end.

Definition not_found (dir : Z) : lookup_result :=
  {| dir_cluster := dir; entry_cluster := dir; entry_index := 0; entry := zeros DIR_ENTRY; found := false |}.

Fixpoint find_loop (s : vol W) (n : nat) (dir c : Z) (buffer dos_name name : list Z) : option (Z * lookup_result) :=
  if negb (in_chain c) then Some (0, not_found dir) else
  match n with
  | O => None
  | S n' =>
      let size := fat32_cluster_size_bytes s in
      match fat32_read_directory_cluster s c buffer with
      | None => None
      | Some b =>
          match scan_entries b size dos_name name 0 (Z.to_nat (size / 32)) with
          | ScanEnd => Some (0, not_found dir)
          | ScanFound i =>
              Some (1, {| dir_cluster := dir; entry_cluster := c; entry_index := i; entry := dirent b i; found := true |})
          | ScanMore =>
              match fat32_next_cluster junk s c with
              | None => None
              | Some c' => find_loop s n' dir c' b dos_name name
              end
          end
      end
  end.

Definition fat32_find_entry_in_dir (s : vol W) (dir : Z) (name : list Z) : option (Z * lookup_result) :=
  find_loop s fuel dir dir (fresh junk (fat32_cluster_size_bytes s)) (fat32_make_dos_name name) name.

(** ** Resolving paths *)

(** The loop over the characters of [path] from [i] on ([path[len]] is the NUL);
    [None] inside is the result -1.  The test of the code is
    [!fat32_find_entry_in_dir(...) <= 0], that is, [(!r) <= 0]. *)
Fixpoint resolve_loop (s : vol W) (path : list Z) (n : nat) (i start : Z) (c : Z) : option (option Z) :=
  match n with
  | O => Some (Some c)
  | S n' =>
      let ch := path.[i] in
      if negb ((ch =? PATHSEP) || (ch =? 0))%bool then resolve_loop s path n' (i + 1) start c else
      let part_len := i - start in
      if part_len <=? 0 then resolve_loop s path n' (i + 1) (i + 1) c
      else if 32 <=? part_len then Some None else
      match fat32_find_entry_in_dir s c (sub path (Z.to_nat start) (Z.to_nat part_len)) with
      | None => None
      | Some (r, lk) =>
          if (if r =? 0 then 1 else 0) <=? 0 then Some None
          else if negb (is_directory (entry lk)) then Some None
          else
            let c' := fat32_entry_start_cluster (entry lk) in
            if c' <? 2 then Some None else resolve_loop s path n' (i + 1) (i + 1) c'
      end
  end.

Definition fat32_resolve_directory (s : vol W) (path : list Z) : option (option Z) :=
  if (negb (fat32_mounted s) || (length path =? 0)%nat)%bool then Some None
  else if bool_decide (path = [PATHSEP]) then Some (Some (root_dir_first_cluster s))
  else
    let start := if path.[0] =? PATHSEP then 1 else 0 in
    resolve_loop s path (Z.to_nat (Z.of_nat (length path) + 1 - start)) start start (root_dir_first_cluster s).

Definition or_root (parent : list Z) : list Z := match parent with [] => [PATHSEP] | _ => parent end.

(** A status below 1 comes with no lookup the callers use. *)
Definition fat32_resolve_path (s : vol W) (path : list Z) : option (Z * lookup_result) :=
  if ((length path =? 0)%nat || bool_decide (path = [PATHSEP]))%bool then Some (-1, not_found 0) else
  let '(parent, leaf) := fat32_path_parent path 128 32 in
  match leaf with
  | [] => Some (-1, not_found 0)
  | _ =>
      match fat32_resolve_directory s (or_root parent) with
      | None => None
      | Some None => Some (-1, not_found 0)
      | Some (Some parent_cluster) => fat32_find_entry_in_dir s parent_cluster leaf
      end
  end.

(** ** Changing directories *)

Fixpoint slot_scan (buffer : list Z) (i n : nat) : option nat :=
  match n with
  | O => None
  | S n' =>
      let b := get8 (dirent buffer i) 0 in
      if ((b =? 0) || (b =? NAME_FREE))%bool then Some i else slot_scan buffer (S i) n'
  end.

(** [None] is the result -1. *)
Fixpoint slot_loop (n : nat) (c : Z) (buffer : list Z) : M (vol W) (option (Z * nat)) :=
  if negb (in_chain c) then mret_ None else
  match n with
  | O => mstop
  | S n' =>
      size <-- mgets fat32_cluster_size_bytes ;;
      b <-- mread (fun s => fat32_read_directory_cluster s c buffer) ;;
      match slot_scan b 0 (Z.to_nat (size / 32)) with
      | Some i => mret_ (Some (c, i))
      | None =>
          next <-- mread (fun s => fat32_next_cluster junk s c) ;;
          if fat32_is_end_of_chain next then
            new_cluster <-- mread (fat32_find_free_cluster junk) ;;
            if new_cluster =? 0 then mret_ None else
            fat32_write_fat_entry junk c new_cluster ;;;
            fat32_write_fat_entry junk new_cluster 0x0FFFFFFF ;;;
            fat32_zero_cluster new_cluster ;;;
            mret_ (Some (new_cluster, O))
          else slot_loop n' next b
      end
  end.

Definition fat32_find_free_dir_slot (dir : Z) : M (vol W) (option (Z * nat)) :=
  fun s => slot_loop fuel dir (fresh junk (fat32_cluster_size_bytes s)) s.

(** Rewriting the cluster with its entry [i] changed by [f]. *)
Definition edit_entry (dir : Z) (i : nat) (f : list Z -> list Z) : M (vol W) Z :=
  if dir <? 2 then mret_ (-1) else
  b <-- mread (fun s => fat32_read_directory_cluster s dir (fresh junk (fat32_cluster_size_bytes s))) ;;
  (if (length b <? DIR_ENTRY * i + DIR_ENTRY)%nat then mstop else
   fat32_write_directory_cluster dir (splice b (DIR_ENTRY * i) (f (dirent b i)))) ;;;
  mret_ 0.

Definition fat32_write_directory_entry (dir : Z) (i : nat) (e : list Z) : M (vol W) Z := edit_entry dir i (fun _ => e).

Definition fat32_mark_directory_entry_deleted (dir : Z) (i : nat) : M (vol W) Z :=
  edit_entry dir i (fun e => put8 e 0 NAME_FREE).

(** The entry loop of [fat32_is_directory_empty]. *)
Fixpoint empty_scan (buffer : list Z) (i n : nat) : bool :=
  match n with
  | O => true
  | S n' =>
      let e := dirent buffer i in
      if get8 e 0 =? 0 then true
      else if skipped e then empty_scan buffer (S i) n'
      else
        let name := fat32_entry_name_to_string e 32 in
        if negb (bool_decide (name = str ".") || bool_decide (name = str "..")) then false
        else empty_scan buffer (S i) n'
  end.

Definition fat32_is_directory_empty (s : vol W) (dir : Z) : option bool :=
  match fat32_load_directory junk fuel s dir with
  | None => None
  | Some None => Some false
  | Some (Some (b, size)) => Some (empty_scan b 0 (Z.to_nat (size / 32)))
  end.

(** The entry [fat32_create_dir_entry] writes. *)
Definition new_entry (dos_name : list Z) (attr start_cluster : Z) : list Z :=
  fat32_set_entry_start_cluster (put8 (splice (zeros DIR_ENTRY) 0 dos_name) 11 attr) start_cluster.

Definition fat32_create_dir_entry (parent_cluster : Z) (name : list Z) (attr start_cluster : Z) : M (vol W) Z :=
  if negb (fat32_is_valid_name name) then mret_ (-1) else
  existing <-- mread (fun s => fat32_find_entry_in_dir s parent_cluster name) ;;
  if 0 <? fst existing then mret_ (-1) else
  slot <-- fat32_find_free_dir_slot parent_cluster ;;
  match slot with
  | None => mret_ (-1)
  | Some (target_cluster, target_index) =>
      fat32_write_directory_entry target_cluster target_index (new_entry (fat32_make_dos_name name) attr start_cluster)
  end.

(** ** The path interface *)

(** [Some (name, is_dir, size)] is the result 1. *)
Fixpoint list_scan (buffer : list Z) (size index current : Z) (i n : nat) (out_size : Z) : option (list Z * nat) :=
  match n with
  | O => None
  | S n' =>
      let e := dirent buffer i in
      if get8 e 0 =? 0 then None
      else if skipped e then list_scan buffer size index current (S i) n' out_size
      else if current =? index then
        Some (match fat32_get_long_name buffer size i out_size with
              | Some l => l
              | None => fat32_entry_name_to_string e out_size
              end, i)
      else list_scan buffer size index (current + 1) (S i) n' out_size
  end.

Definition fat32_list_dir_entry (s : vol W) (path : list Z) (index : Z) : option (option (list Z * bool * Z)) :=
  if (negb (fat32_mounted s) || (index <? 0))%bool then Some None else
  match fat32_resolve_directory s path with
  | None => None
  | Some None => Some None
  | Some (Some dir) =>
      match fat32_load_directory junk fuel s dir with
      | None => None
      | Some None => Some None
      | Some (Some (b, size)) =>
          Some (match list_scan b size index 0 0 (Z.to_nat (size / 32)) 32 with
                | None => None
                | Some (name, i) => Some (name, is_directory (dirent b i), DIR_FileSize (dirent b i))
                end)
      end
  end.

(** The node callbacks. *)
Definition fat32_readdir (s : vol W) (node : fat_node) (index : Z) : option (option (list Z * Z)) :=
  if (negb (fat32_mounted s) || (Z.land (fn_nflags node) FS_DIRECTORY =? 0))%bool then Some None else
  match fat32_load_directory junk fuel s (fn_inode node) with
  | None => None
  | Some None => Some None
  | Some (Some (b, size)) =>
      Some (match list_scan b size (s32 index) 0 0 (Z.to_nat (size / 32)) 128 with
            | None => None
            | Some (name, i) => Some (name, fat32_entry_start_cluster (dirent b i))
            end)
  end.

(** The name is copied into the 128 bytes of the node. *)
Definition fat32_finddir (s : vol W) (node : fat_node) (name : list Z) : option (option fat_node) :=
  match fat32_find_entry_in_dir s (fn_inode node) name with
  | None => None
  | Some (r, lk) =>
      if r <=? 0 then Some None
      else if (128 <=? length name)%nat then None else
      Some (Some {| fn_name := name; fn_inode := fat32_entry_start_cluster (entry lk); fn_length := DIR_FileSize (entry lk);
                    fn_nflags := if is_directory (entry lk) then FS_DIRECTORY else FS_FILE |})
  end.

(** The buffer and [*size_out]; [None] inside is NULL. *)
Definition fat32_read_file_path (s : vol W) (path : list Z) : option (option (list Z * Z)) :=
  if negb (fat32_mounted s) then Some None else
  match fat32_resolve_path s path with
  | None => None
  | Some (r, lk) =>
      if r <=? 0 then Some None
      else if is_directory (entry lk) then Some None else
      let file_size := DIR_FileSize (entry lk) in
      let start_cluster := fat32_entry_start_cluster (entry lk) in
      let buffer := zeros (Z.to_nat (u32 (file_size + 1 + 512))) in
      if ((0 <? file_size) && (2 <=? start_cluster))%bool then
        match fat32_read junk fuel s {| fn_name := []; fn_inode := start_cluster; fn_length := file_size; fn_nflags := FS_FILE |}
                0 file_size buffer with
        | None => None
        | Some (_, b) => Some (Some (b, file_size))
        end
      else Some (Some (buffer, file_size))
  end.

Definition fat32_create_file_path (path : list Z) : M (vol W) Z :=
  fun s =>
  if (negb (fat32_mounted s) || bool_decide (path = [PATHSEP]))%bool then Some (-1, s) else
  let '(parent, leaf) := fat32_path_parent path 128 32 in
  if negb (fat32_is_valid_name leaf) then Some (-1, s) else
  (dir <-- mread (fun s => fat32_resolve_directory s (or_root parent)) ;;
   match dir with
   | None => mret_ (-1)
   | Some parent_cluster =>
       file_cluster <-- fat32_allocate_cluster_chain junk fuel 1 ;;
       if file_cluster =? 0 then mret_ (-1) else
       r <-- fat32_create_dir_entry parent_cluster leaf 0x20 file_cluster ;;
       if negb (r =? 0) then fat32_free_cluster_chain junk fuel file_cluster ;;; mret_ (-1)
       else mret_ 0
   end) s.

(** From the lookup of an existing file on. *)
Definition write_found (lk : lookup_result) (data : list Z) (size : Z) : M (vol W) Z :=
  if is_directory (entry lk) then mret_ 0 else
  cluster_size <-- mgets fat32_cluster_size_bytes ;;
  if cluster_size =? 0 then mstop else
  let needed := u32 (size + cluster_size - 1) / cluster_size in
  new_start <-- fat32_allocate_cluster_chain junk fuel (if needed =? 0 then 1 else needed) ;;
  if new_start =? 0 then mret_ 0 else
  written <-- (if 0 <? size then fat32_write_cluster_chain junk new_start data size else mret_ size) ;;
  if negb (written =? size) then fat32_free_cluster_chain junk fuel new_start ;;; mret_ 0 else
  mwhen (2 <=? fat32_entry_start_cluster (entry lk))
    (fat32_free_cluster_chain junk fuel (fat32_entry_start_cluster (entry lk))) ;;;
  r <-- fat32_write_directory_entry (entry_cluster lk) (entry_index lk)
          (put32 (fat32_set_entry_start_cluster (entry lk) new_start) 28 size) ;;
  if negb (r =? 0) then fat32_free_cluster_chain junk fuel new_start ;;; mret_ 0
  else mret_ size.

(** [data] holds [size] bytes. *)
Definition fat32_write_file_path (path data : list Z) (size : Z) : M (vol W) Z :=
  mounted <-- mgets fat32_mounted ;;
  if negb mounted then mret_ 0 else
  l1 <-- mread (fun s => fat32_resolve_path s path) ;;
  if fst l1 <=? 0 then
    r <-- fat32_create_file_path path ;;
    if negb (r =? 0) then mret_ 0 else
    l2 <-- mread (fun s => fat32_resolve_path s path) ;;
    if fst l2 <=? 0 then mret_ 0 else write_found (snd l2) data size
  else write_found (snd l1) data size.

Definition fat32_delete_path (path : list Z) : M (vol W) Z :=
  mounted <-- mgets fat32_mounted ;;
  if (negb mounted || bool_decide (path = [PATHSEP]))%bool then mret_ (-1) else
  l <-- mread (fun s => fat32_resolve_path s path) ;;
  if fst l <=? 0 then mret_ (-1) else
  let start_cluster := fat32_entry_start_cluster (entry (snd l)) in
  refuse <-- (if is_directory (entry (snd l))
              then mread (fun s => match fat32_is_directory_empty s start_cluster with None => None | Some b => Some (negb b) end)
              else mret_ false) ;;
  if (refuse : bool) then mret_ (-1) else
  mwhen (2 <=? start_cluster) (fat32_free_cluster_chain junk fuel start_cluster) ;;;
  fat32_mark_directory_entry_deleted (entry_cluster (snd l)) (entry_index (snd l)).

Definition fat32_rename_path (old_path new_path : list Z) : M (vol W) Z :=
  mounted <-- mgets fat32_mounted ;;
  if (negb mounted || bool_decide (old_path = [PATHSEP]) || bool_decide (new_path = [PATHSEP]))%bool then mret_ (-1) else
  let '(old_parent, _) := fat32_path_parent old_path 128 32 in
  let '(new_parent, new_leaf) := fat32_path_parent new_path 128 32 in
  if negb (bool_decide (or_root old_parent = or_root new_parent)) then mret_ (-1)
  else if negb (fat32_is_valid_name new_leaf) then mret_ (-1) else
  l <-- mread (fun s => fat32_resolve_path s old_path) ;;
  if fst l <=? 0 then mret_ (-1) else
  clash <-- mread (fun s => fat32_find_entry_in_dir s (dir_cluster (snd l)) new_leaf) ;;
  if 0 <? fst clash then mret_ (-1) else
  l2 <-- mread (fun s => fat32_resolve_path s old_path) ;;
  if fst l2 <=? 0 then mret_ (-1) else
  fat32_write_directory_entry (entry_cluster (snd l2)) (entry_index (snd l2))
    (splice (entry (snd l2)) 0 (fat32_make_dos_name new_leaf)).

(** The first cluster of a new directory. *)
Definition dot_entries (size new_cluster parent_cluster : Z) : list Z :=
  splice (splice (zeros (Z.to_nat size)) 0 (new_entry (pad 11 (str ".")) ATTR_DIRECTORY new_cluster))
         DIR_ENTRY (new_entry (pad 11 (str "..")) ATTR_DIRECTORY parent_cluster).

Definition fat32_create_dir (path : list Z) : M (vol W) Z :=
  mounted <-- mgets fat32_mounted ;;
  if (negb mounted || bool_decide (path = [PATHSEP]))%bool then mret_ (-1) else
  let '(parent, leaf) := fat32_path_parent path 128 32 in
  if negb (fat32_is_valid_name leaf) then mret_ (-1) else
  dir <-- mread (fun s => fat32_resolve_directory s (or_root parent)) ;;
  match dir with
  | None => mret_ (-1)
  | Some parent_cluster =>
      l <-- mread (fun s => fat32_find_entry_in_dir s parent_cluster leaf) ;;
      if 0 <? fst l then mret_ (-1) else
      new_cluster <-- fat32_allocate_cluster_chain junk fuel 1 ;;
      if new_cluster =? 0 then mret_ (-1) else
      size <-- mgets fat32_cluster_size_bytes ;;
      fat32_write_directory_cluster new_cluster (dot_entries size new_cluster parent_cluster) ;;;
      r <-- fat32_create_dir_entry parent_cluster leaf ATTR_DIRECTORY new_cluster ;;
      if negb (r =? 0) then fat32_free_cluster_chain junk fuel new_cluster ;;; mret_ (-1)
      else mret_ 0
  end.

(** [Some (is_dir, size)] is the result 1. *)
Definition fat32_path_info (s : vol W) (path : list Z) : option (option (bool * Z)) :=
  if negb (fat32_mounted s) then Some None
  else if bool_decide (path = [PATHSEP]) then Some (Some (true, 0)) else
  match fat32_resolve_path s path with
  | None => None
  | Some (r, lk) => Some (if r <=? 0 then None else Some (is_directory (entry lk), DIR_FileSize (entry lk)))
  end.

(** ** The interface by name *)

Definition fat32_create_file (name : list Z) : M (vol W) Z := fat32_create_file_path name.

Definition fat32_write_file (name data : list Z) (size : Z) : M (vol W) Z := fat32_write_file_path name data size.

Definition fat32_root_list_entry (s : vol W) (index : Z) : option (option (list Z * bool * Z)) :=
  fat32_list_dir_entry s [PATHSEP] index.

Definition fat32_read_file (s : vol W) (name : list Z) : option (option (list Z * Z)) :=
  match fat32_join_path [PATHSEP] name 128 with None => None | Some path => fat32_read_file_path s path end.

Definition fat32_delete_file (name : list Z) : M (vol W) Z :=
  match fat32_join_path [PATHSEP] name 128 with None => mstop | Some path => fat32_delete_path path end.

Definition fat32_rename_file (old_name new_name : list Z) : M (vol W) Z :=
  match fat32_join_path [PATHSEP] old_name 128, fat32_join_path [PATHSEP] new_name 128 with
  | Some old_path, Some new_path => fat32_rename_path old_path new_path
  | _, _ => mstop
  end.
End Dir.
