(* ===== verification/FatFind.v ===== *)
(** * FAT32: finding and adding directory entries

    A lookup is a search through the contents of the chain of a directory
    ([dir_find]).  Its result depends only on the entries up to the match, so
    that an entry put into the first free slot is the one a lookup of its name
    finds, and rewriting an entry under its name keeps it found. *)

From Stdlib Require Import ZArith Lia String.
From stdpp Require Import base numbers list gmap.
From S2P Require Import Prelude Bytes Fat FatChain FatAlloc FatRead FatName FatDir.

(** ** Entries of a buffer *)

Lemma dirent_splice_eq b i e :
  length e = DIR_ENTRY -> (DIR_ENTRY * i + DIR_ENTRY <= length b)%nat -> dirent (splice b (DIR_ENTRY * i) e) i = e.
Proof. intros He Hb. unfold dirent. rewrite <- He at 3. apply sub_splice_eq. by rewrite He. Qed.

Lemma dirent_splice_ne b i e j :
  length e = DIR_ENTRY -> (DIR_ENTRY * i + DIR_ENTRY <= length b)%nat -> j <> i -> dirent (splice b (DIR_ENTRY * i) e) j = dirent b j.
Proof. intros He Hb Hj. unfold dirent. apply sub_splice_ne; rewrite He; unfold DIR_ENTRY in *; lia. Qed.

Lemma strncmp_eq_refl n a : strncmp_eq n a a = true.
Proof. revert a. induction n as [|n IH]; intros a; simpl; [done|]. rewrite Z.eqb_refl. destruct (a.[0] =? 0); simpl; [done|apply IH]. Qed.

(** ** What a match depends on *)

Lemma lfn_start_ext b b' i : (forall j, (j < i)%nat -> dirent b' j = dirent b j) -> lfn_start b' i = lfn_start b i.
Proof.
  induction i as [|i IH]; intros H; [done|]. simpl. rewrite H by lia. destruct (dirent_is_long _); [|done]. apply IH. intros; apply H; lia.
Qed.

Lemma lfn_collect_ext b b' n i out :
  (forall j, (j < i)%nat -> dirent b' j = dirent b j) -> lfn_collect b' n i out = lfn_collect b n i out.
Proof.
  revert i out. induction n as [|n IH]; intros [|i] out H; simpl; [done|done|done|]. rewrite H by lia. apply IH. intros; apply H; lia.
Qed.

Lemma matches_ext b b' size dos name i :
  (forall j, (j < i)%nat -> dirent b' j = dirent b j) -> DIR_Name (dirent b' i) = DIR_Name (dirent b i) ->
  matches b' size dos name i = matches b size dos name i.
Proof.
  intros H Hi. unfold matches, fat32_get_long_name. rewrite Hi, (lfn_start_ext b b') by done.
  by rewrite (lfn_collect_ext b b') by done.
Qed.

Lemma scan_ext b b' size dos name n i :
  (forall j, (j < i + n)%nat -> dirent b' j = dirent b j) ->
  scan_entries b' size dos name i n = scan_entries b size dos name i n.
Proof.
  revert i. induction n as [|n IH]; intros i H; [done|]. simpl. rewrite H by lia.
  rewrite (matches_ext b b') by (intros; rewrite H; done || lia). rewrite IH by (intros; apply H; lia). done.
Qed.

Lemma scan_split b size dos name k n i :
  scan_entries b size dos name i (k + n)
    = match scan_entries b size dos name i k with ScanMore => scan_entries b size dos name (i + k) n | r => r end.
Proof.
  revert i. induction k as [|k IH]; intros i; simpl; [by rewrite Nat.add_0_r|].
  rewrite IH. replace (S i + k)%nat with (i + S k)%nat by lia.
  destruct (get8 (dirent b i) 0 =? 0); [done|]. destruct (skipped _); [done|]. by destruct (matches _ _ _ _ _).
Qed.

Lemma scan_found b size dos name i n j :
  scan_entries b size dos name i n = ScanFound j ->
  (i <= j < i + n)%nat /\ scan_entries b size dos name i (j - i) = ScanMore
  /\ (get8 (dirent b j) 0 =? 0) = false /\ skipped (dirent b j) = false /\ matches b size dos name j = true.
Proof.
  revert i. induction n as [|n IH]; intros i H; simpl in H; [done|].
  destruct (get8 (dirent b i) 0 =? 0) eqn:E0; [done|]. destruct (skipped (dirent b i)) eqn:E1.
  - apply IH in H as (H1 & H2 & H3). split; [lia|]. replace (j - i)%nat with (S (j - S i)) by lia. simpl. by rewrite E0, E1.
  - destruct (matches b size dos name i) eqn:E2.
    + simplify_eq. rewrite Nat.sub_diag. split_and!; (done || lia).
    + apply IH in H as (H1 & H2 & H3). split; [lia|]. replace (j - i)%nat with (S (j - S i)) by lia. simpl. by rewrite E0, E1, E2.
Qed.

(** The slot is the first free entry. *)
Lemma slot_scan_some b i n j :
  slot_scan b i n = Some j ->
  (i <= j < i + n)%nat /\ (forall k, (i <= k < j)%nat -> get8 (dirent b k) 0 <> 0) /\ slot_scan b i (j - i) = None.
Proof.
  revert i. induction n as [|n IH]; intros i H; simpl in H; [done|].
  destruct ((get8 (dirent b i) 0 =? 0) || (get8 (dirent b i) 0 =? NAME_FREE))%bool eqn:E.
  - simplify_eq. rewrite Nat.sub_diag. split_and!; [lia|lia|intros; lia|done].
  - apply IH in H as (H1 & H2 & H3). zbool. split_and!; [lia|lia| |].
    + intros k Hk. destruct (decide (k = i)) as [->|]; [done|]. apply H2. lia.
    + replace (j - i)%nat with (S (j - S i)) by lia. simpl. rewrite (proj2 (Z.eqb_neq _ _)) by done. by rewrite (proj2 (Z.eqb_neq _ _)) by done.
Qed.

Lemma slot_scan_none b i n :
  slot_scan b i n = None -> forall k, (i <= k < i + n)%nat -> get8 (dirent b k) 0 <> 0.
Proof.
  revert i. induction n as [|n IH]; intros i H k Hk; [lia|]. simpl in H.
  destruct ((get8 (dirent b i) 0 =? 0) || (get8 (dirent b i) 0 =? NAME_FREE))%bool eqn:E; [done|]. zbool.
  destruct (decide (k = i)) as [->|]; [done|]. apply (IH (S i) H). lia.
Qed.

(** Without an end mark a search goes on, unless it finds the name. *)
Lemma scan_used b size dos name n i :
  (forall k, (i <= k < i + n)%nat -> get8 (dirent b k) 0 <> 0) -> scan_entries b size dos name i n <> ScanEnd.
Proof.
  revert i. induction n as [|n IH]; intros i H; simpl; [done|]. rewrite (proj2 (Z.eqb_neq _ _)) by (apply H; lia).
  destruct (skipped _); [apply IH; intros; apply H; lia|]. destruct (matches _ _ _ _ _); [done|]. apply IH. intros; apply H; lia.
Qed.

(** ** The search through a directory *)

Fixpoint dir_find (C : Z -> list Z) (size : Z) (dos name : list Z) (l : list Z) : option (Z * nat) :=
  match l with
  | [] => None
  | c :: l' =>
      match scan_entries (C c) size dos name 0 (Z.to_nat (size / 32)) with
      | ScanEnd => None
      | ScanFound i => Some (c, i)
      | ScanMore => dir_find C size dos name l'
      end
  end.

(** Adding [e] at entry [i] of [c], which was the first free slot. *)
Fixpoint dir_slot (C : Z -> list Z) (size : Z) (l : list Z) : option (Z * nat) :=
  match l with
  | [] => None
  | c :: l' =>
      match slot_scan (C c) 0 (Z.to_nat (size / 32)) with
      | Some i => Some (c, i)
      | None => dir_slot C size l'
      end
  end.

Lemma dir_find_some C size dos name l c i :
  dir_find C size dos name l = Some (c, i) -> c ∈ l /\ (i < Z.to_nat (size / 32))%nat.
Proof.
  induction l as [|x l IH]; simpl; [done|]. destruct (scan_entries _ _ _ _ _ _) eqn:E; [done| |].
  - intros [= -> ->]. apply scan_found in E as [? _]. split; [by left|lia].
  - intros H. apply IH in H as [? ?]. split; [by right|done].
Qed.

Lemma dir_find_ext C D size dos name l : (forall x, x ∈ l -> C x = D x) -> dir_find C size dos name l = dir_find D size dos name l.
Proof.
  induction l as [|x l IH]; intros H; [done|]. simpl. rewrite (H x) by (by left). rewrite IH; [done|]. intros y Hy. apply H. by right.
Qed.

Lemma dir_slot_some C size l c i :
  dir_slot C size l = Some (c, i) -> c ∈ l /\ (i < Z.to_nat (size / 32))%nat.
Proof.
  induction l as [|x l IH]; simpl; [done|]. destruct (slot_scan _ _ _) eqn:E.
  - intros [= -> ->]. apply slot_scan_some in E as [? _]. split; [by left|lia].
  - intros H. apply IH in H as [? ?]. split; [by right|done].
Qed.

(** Names and attributes up to the match unchanged: still found there. *)
Lemma dir_find_same C D size dos name l c i :
  dir_find C size dos name l = Some (c, i) ->
  (forall x, x ∈ l -> x <> c -> D x = C x) ->
  (forall j, (j < i)%nat -> dirent (D c) j = dirent (C c) j) ->
  DIR_Name (dirent (D c) i) = DIR_Name (dirent (C c) i) -> DIR_Attr (dirent (D c) i) = DIR_Attr (dirent (C c) i) ->
  get8 (dirent (D c) i) 0 = get8 (dirent (C c) i) 0 ->
  dir_find D size dos name l = Some (c, i).
Proof.
  intros H Hx Hj Hn Ha H0. revert H. induction l as [|x l IH]; simpl; [done|].
  destruct (scan_entries (C x) _ _ _ _ _) as [|k|] eqn:E; [done| |].
  - intros [= -> ->]. apply scan_found in E as (E1 & E2 & E3 & E4 & E5). rewrite Nat.sub_0_r in E2.
    replace (Z.to_nat (size / 32)) with (i + S (Z.to_nat (size / 32) - S i))%nat by lia. rewrite scan_split.
    rewrite (scan_ext (C c) (D c)), E2 by (intros; apply Hj; lia). simpl. rewrite H0, E3. unfold skipped in *. rewrite H0, Ha, E4.
    by rewrite (matches_ext (C c) (D c)), E5.
  - intros H. destruct (decide (x = c)) as [->|Hne].
    + (* the same cluster again: it would have been found at the first visit *)
      exfalso. clear -H E. induction l as [|y l IH]; simpl in H; [done|].
      destruct (scan_entries (C y) _ _ _ _ _) eqn:Ey; [done| |by apply IH].
      simplify_eq. congruence.
    + rewrite (Hx x) by (done || by left). rewrite E. apply IH; [|done]. intros y Hy. apply Hx. by right.
Qed.

Lemma scan_added b size dos name e i n :
  (forall j, scan_entries b size dos name 0 n <> ScanFound j) -> slot_scan b 0 n = Some i ->
  length e = DIR_ENTRY -> (DIR_ENTRY * n <= length b)%nat -> get8 e 0 <> 0 -> skipped e = false -> DIR_Name e = dos ->
  scan_entries (splice b (DIR_ENTRY * i) e) size dos name 0 n = ScanFound i.
Proof.
  intros Hnf Hs He Hb H0 Hsk Hn. apply slot_scan_some in Hs as (Hi & Hu & _).
  replace n with (i + S (n - S i))%nat in * by lia. rewrite scan_split. rewrite scan_split in Hnf.
  rewrite (scan_ext b) by (intros j Hj; apply dirent_splice_ne; unfold DIR_ENTRY in *; lia).
  pose proof (scan_used b size dos name i 0) as Hue. destruct (scan_entries b size dos name 0 i) as [|j|].
  - exfalso. apply Hue; [|done]. intros k Hk. apply Hu. lia.
  - exfalso. exact (Hnf j eq_refl).
  - cbn [scan_entries]. change (0 + i)%nat with i. rewrite dirent_splice_eq by (unfold DIR_ENTRY in *; lia). rewrite (proj2 (Z.eqb_neq _ _) H0), Hsk.
    unfold matches. rewrite dirent_splice_eq by (unfold DIR_ENTRY in *; lia). by rewrite Hn, strncmp_eq_refl.
Qed.

Lemma dir_find_added C D size dos name l c i e :
  dir_find C size dos name l = None -> dir_slot C size l = Some (c, i) ->
  (forall x, x ∈ l -> D x = if decide (x = c) then splice (C c) (DIR_ENTRY * i) e else C x) ->
  length e = DIR_ENTRY -> (DIR_ENTRY * Z.to_nat (size / 32) <= length (C c))%nat -> get8 e 0 <> 0 -> skipped e = false -> DIR_Name e = dos ->
  dir_find D size dos name l = Some (c, i).
Proof.
  intros Hf Hs HD He Hb H0 Hsk Hn. revert Hf Hs. induction l as [|x l IH]; simpl; [done|].
  destruct (slot_scan (C x) 0 _) as [j|] eqn:Es.
  - intros Hf [= -> ->]. rewrite HD by (by left). rewrite decide_True by done.
    rewrite scan_added; [done| |done|done|done|done|done|done]. intros j Hj. by rewrite Hj in Hf.
  - pose proof (scan_used (C x) size dos name _ 0 (slot_scan_none _ _ _ Es)) as Hu.
    destruct (scan_entries (C x) _ _ _ _ _) eqn:E; [done|done|]. intros Hf Hs. rewrite HD by (by left).
    rewrite decide_False. { rewrite E. apply IH; [|done|done]. intros y Hy. apply HD. by right. }
    intros ->. clear -Hs Es. induction l as [|y l IH]; simpl in Hs; [done|].
    destruct (slot_scan (C y) 0 _) eqn:Ey; [|by apply IH]. simplify_eq.
Qed.

(** A full directory, extended. *)
Lemma dir_find_extended C D size dos name l l' :
  dir_find C size dos name l = None -> dir_slot C size l = None -> (forall x, x ∈ l -> D x = C x) ->
  dir_find D size dos name (l ++ l') = dir_find D size dos name l'.
Proof.
  intros Hf Hs HD. revert Hf Hs. induction l as [|x l IH]; simpl; [done|]. rewrite (HD x) by (by left).
  destruct (slot_scan (C x) 0 _) eqn:Es; [done|]. pose proof (scan_used (C x) size dos name _ 0 (slot_scan_none _ _ _ Es)) as Hu.
  destruct (scan_entries (C x) _ _ _ _ _) eqn:E; [done|done|]. intros Hf Hs. apply IH; [|done|done]. intros y Hy. apply HD. by right.
Qed.

(** ** The code *)

Section Find.
Context {W : Type}.
Variable junk : list Z.
Variable fuel : nat.
Variable okw : W -> Z -> Prop.
Implicit Types s : vol W.

(** The result of a search. *)
Definition lookup_of (C : Z -> list Z) (dir : Z) (r : option (Z * nat)) : Z * lookup_result :=
  match r with
  | None => (0, not_found dir)
  | Some (c, i) => (1, {| dir_cluster := dir; entry_cluster := c; entry_index := i; entry := dirent (C c) i; found := true |})
  end.

Lemma find_loop_spec n s dir c buffer dos name l :
  geo_ok okw s -> is_chain (fat s) c l -> Forall (clus_ok okw s) l -> (length l <= n)%nat ->
  length buffer = Z.to_nat (fat32_cluster_size_bytes s) ->
  find_loop junk s n dir c buffer dos name = Some (lookup_of (clus s) dir (dir_find (clus s) (fat32_cluster_size_bytes s) dos name l)).
Proof.
  revert n c buffer. induction l as [|x l IH]; intros n c buffer G Hch Hok Hn Hb; [done|].
  destruct (is_chain_head _ _ _ Hch) as [t [= -> <-]]. rewrite Forall_cons in Hok. destruct Hok as [Hc Hok].
  destruct n as [|n]; simpl in Hn; [lia|]. cbn [find_loop dir_find]. pose proof (proj1 Hc).
  rewrite (in_chain_ok okw s) by done. cbn [negb]. rewrite (read_cluster_clus okw) by done. cbv zeta.
  destruct (scan_entries _ _ _ _ _ _); [done|done|]. rewrite (next_cluster_fat _ okw) by (done || lia). destruct l as [|y l].
  - destruct Hch as [_ Hend]. destruct n; cbn [find_loop]; by rewrite in_chain_end.
  - rewrite is_chain_cons in Hch. destruct Hch as (_ & -> & Hch). apply IH; try done; [lia|]. by apply (length_clus okw).
Qed.

Lemma find_entry_spec s dir name l :
  geo_ok okw s -> is_chain (fat s) dir l -> Forall (clus_ok okw s) l -> (length l <= fuel)%nat ->
  fat32_find_entry_in_dir junk fuel s dir name
    = Some (lookup_of (clus s) dir (dir_find (clus s) (fat32_cluster_size_bytes s) (fat32_make_dos_name name) name l)).
Proof.
  intros G Hch Hok Hl. unfold fat32_find_entry_in_dir. apply find_loop_spec; try done. apply length_fresh.
  rewrite (cluster_size_eq okw) by done. pose proof (g_spc _ _ G). lia.
Qed.

Lemma edit_entry_step s c i f :
  geo_ok okw s -> clus_ok okw s c -> (i < Z.to_nat (fat32_cluster_size_bytes s / 32))%nat ->
  length (f (dirent (clus s c) i)) = DIR_ENTRY ->
  exists s', edit_entry junk c i f s = Some (0, s')
    /\ step okw s s' (fat s) (fupd (clus s) c (splice (clus s c) (DIR_ENTRY * i) (f (dirent (clus s c) i)))).
Proof.
  intros G Hc Hi Hf. pose proof (length_clus okw s c G Hc) as Hl. pose proof (g_spc _ _ G). pose proof (cluster_size_eq okw s G).
  unfold edit_entry. rewrite (proj2 (Z.ltb_ge c 2)) by (destruct Hc; lia). unfold mread. unfold mbind_ at 1.
  rewrite (read_cluster_clus okw) by (try done; apply length_fresh; lia).
  assert (Hle : (DIR_ENTRY * i + DIR_ENTRY <= length (clus s c))%nat) by (rewrite Hl; unfold DIR_ENTRY; zlia).
  rewrite (proj2 (Nat.ltb_ge _ _)) by done. unfold mbind_.
  destruct (write_cluster_step okw s c (splice (clus s c) (DIR_ENTRY * i) (f (dirent (clus s c) i)))) as (s' & -> & S); [done|done| |].
  { rewrite length_splice; [done|]. by rewrite Hf. }
  by exists s'.
Qed.

(** The first free slot, when the directory has one. *)
Lemma slot_loop_found n s c l buffer r :
  geo_ok okw s -> is_chain (fat s) c l -> Forall (clus_ok okw s) l -> (length l <= n)%nat ->
  length buffer = Z.to_nat (fat32_cluster_size_bytes s) -> dir_slot (clus s) (fat32_cluster_size_bytes s) l = Some r ->
  slot_loop junk n c buffer s = Some (Some r, s).
Proof.
  revert n c buffer. induction l as [|x l IH]; intros n c buffer G Hch Hok Hn Hb Hs; [done|].
  destruct (is_chain_head _ _ _ Hch) as [t [= -> <-]]. rewrite Forall_cons in Hok. destruct Hok as [Hc Hok].
  destruct n as [|n]; simpl in Hn; [lia|]. cbn [slot_loop]. pose proof (proj1 Hc). cbn [dir_slot] in Hs.
  rewrite (in_chain_ok okw s) by done. cbn [negb]. unfold mgets, mread. unfold mbind_ at 1. unfold mbind_ at 1.
  rewrite (read_cluster_clus okw) by done. destruct (slot_scan _ _ _) as [i|] eqn:E; [by simplify_eq|].
  unfold mbind_ at 1. rewrite (next_cluster_fat _ okw) by (done || lia). destruct l as [|y l]; [done|].
  rewrite is_chain_cons in Hch. destruct Hch as (_ & -> & Hch). pose proof (g_entries _ _ G). pose proof Hok as Hok2.
  rewrite Forall_cons in Hok2. destruct Hok2 as [[Hy _] _]. unfold fat32_is_end_of_chain. rewrite (proj2 (Z.leb_gt _ _)) by lia.
  apply IH; try done; [lia|]. by apply (length_clus okw).
Qed.

(** A full directory gets one more cluster. *)
Lemma slot_loop_extends n s c l buffer m t :
  vol_ok okw s -> is_chain (fat s) c l -> Forall (clus_ok okw s) l -> (length l <= n)%nat ->
  length buffer = Z.to_nat (fat32_cluster_size_bytes s) -> dir_slot (clus s) (fat32_cluster_size_bytes s) l = None ->
  free_list s = m :: t ->
  exists s' z, slot_loop junk n c buffer s = Some (Some (m, O), s') /\ last l = Some z
    /\ step okw s s' (fupd (fupd (fat s) z m) m 0x0FFFFFFF) (fupd (clus s) m (zeros (Z.to_nat (fat32_cluster_size_bytes s)))).
Proof.
  revert n c buffer. induction l as [|x l IH]; intros n c buffer V Hch Hok Hn Hb Hs Hf; [done|].
  pose proof V as [G _]. destruct (free_list_head okw s m t V Hf) as [Hm Hfm]. pose proof (proj1 Hm) as Hmr.
  destruct (is_chain_head _ _ _ Hch) as [t' [= -> <-]]. rewrite Forall_cons in Hok. destruct Hok as [Hc Hok]. pose proof (proj1 Hc) as Hcr.
  destruct n as [|n]; simpl in Hn; [lia|]. cbn [slot_loop]. cbn [dir_slot] in Hs. pose proof (g_entries _ _ G).
  rewrite (in_chain_ok okw s) by done. cbn [negb]. unfold mgets, mread. unfold mbind_ at 1. unfold mbind_ at 1.
  rewrite (read_cluster_clus okw) by done. destruct (slot_scan _ _ _) as [i|] eqn:E; [done|].
  unfold mbind_ at 1. rewrite (next_cluster_fat _ okw) by (done || lia). destruct l as [|y l].
  - destruct Hch as [_ Hend]. unfold fat32_is_end_of_chain. rewrite (proj2 (Z.leb_le _ _)) by done. unfold mbind_ at 1.
    rewrite (find_free_cluster_head _ okw), Hf by done. cbn [head default from_option id]. rewrite (proj2 (Z.eqb_neq m 0)) by lia.
    destruct (write_fat_entry_step junk okw s c m) as (s1 & E1 & S1); [done|lia|unfold is_u32, CLUSTER_END in *; lia|].
    rewrite land_mask_small in S1 by lia. unfold mbind_ at 1. rewrite E1. pose proof (step_geo _ _ _ _ _ S1 G) as G1.
    destruct (write_fat_entry_step junk okw s1 m 0x0FFFFFFF) as (s2 & E2 & S2); [done|rewrite (step_entries _ _ _ _ _ S1); lia|unfold is_u32; lia|].
    unfold mbind_ at 1. rewrite E2. pose proof (step_trans _ _ _ _ _ _ _ _ S1 S2) as S12.
    destruct (zero_cluster_step okw s2 m) as (s3 & E3 & S3); [by apply (step_geo _ _ _ _ _ S12)|by apply (step_clus_ok _ _ _ _ _ _ S12)|].
    unfold mbind_. rewrite E3. exists s3, c. split_and!; [done|done|].
    apply (step_seq _ _ _ _ _ _ _ _ _ _ S12 S3).
    + intros d Hd ->. change (Z.land 0x0FFFFFFF CLUSTER_MASK) with 0x0FFFFFFF. unfold fupd. case_decide; [done|].
      destruct S1 as (_ & _ & _ & HF & _). rewrite HF by done. done.
    + intros d Hd Ed. unfold fupd. rewrite (step_cluster_size _ _ _ _ _ S12), Ed. case_decide; [done|]. destruct S1 as (_ & _ & _ & _ & HC). by rewrite HC.
  - rewrite is_chain_cons in Hch. destruct Hch as (_ & -> & Hch). pose proof Hok as Hok2.
    rewrite Forall_cons in Hok2. destruct Hok2 as [[Hy _] _]. unfold fat32_is_end_of_chain. rewrite (proj2 (Z.leb_gt _ _)) by lia.
    destruct (IH n y (clus s c) V Hch Hok ltac:(lia) ltac:(by apply (length_clus okw)) Hs Hf) as (s' & z & E' & Hz & S'). by exists s', z.
Qed.
End Find.
