(* ===== verification/FatFile.v ===== *)
(** * FAT32: files by path

    The whole of [fat32_write_file_path] and [fat32_read_file_path] over the
    view of [FatChain]: a file that is written is read back, whether it is new
    or replaces an old one, and everything else on the volume is as before. *)

From Stdlib Require Import ZArith Lia String.
From stdpp Require Import base numbers list gmap.
From S2P Require Import Prelude Bytes Fat FatChain FatAlloc FatRead FatName FatDir FatFind.

(** ** Fields of an entry *)

Lemma get16_put16_ne b off v o :
  (off + 2 <= length b)%nat -> (o + 2 <= off \/ off + 2 <= o)%nat -> get16 (put16 b off v) o = get16 b o.
Proof. intros H Hd. unfold get16. by rewrite sub_put16_ne. Qed.

Lemma length_set_start e c : length e = DIR_ENTRY -> length (fat32_set_entry_start_cluster e c) = DIR_ENTRY.
Proof. intros H. unfold fat32_set_entry_start_cluster, DIR_ENTRY in *. rewrite !length_put16; try lia. rewrite length_put16; lia. Qed.

Lemma entry_start_set e c :
  length e = DIR_ENTRY -> is_u32 c -> fat32_entry_start_cluster (fat32_set_entry_start_cluster e c) = c.
Proof.
  intros He Hc. unfold fat32_entry_start_cluster, fat32_set_entry_start_cluster, DIR_FstClusHI, DIR_FstClusLO, DIR_ENTRY, is_u32 in *.
  change 0xFFFF with (Z.ones 16). rewrite !Z.land_ones, Z.shiftr_div_pow2 by lia.
  assert (H1 : 0 <= c mod 2 ^ 16 < 2 ^ 16) by (apply Z.mod_pos_bound; lia).
  assert (H2 : 0 <= (c / 2 ^ 16) mod 2 ^ 16 < 2 ^ 16) by (apply Z.mod_pos_bound; lia).
  rewrite get16_put16_ne, !get16_put16 by (rewrite ?length_put16; lia). rewrite Z.lor_comm, lor_shiftl_add by lia.
  change (2 ^ 16) with 65536 in *. change (2 ^ 32) with 4294967296 in Hc. zlia.
Qed.

Lemma sub_set_start e c : length e = DIR_ENTRY -> sub (fat32_set_entry_start_cluster e c) 0 20 = sub e 0 20.
Proof.
  intros He. unfold fat32_set_entry_start_cluster, DIR_ENTRY in *. by rewrite !sub_put16_ne by (rewrite ?length_put16; lia).
Qed.

Lemma size_set_start e c : length e = DIR_ENTRY -> DIR_FileSize (fat32_set_entry_start_cluster e c) = DIR_FileSize e.
Proof.
  intros He. unfold DIR_FileSize, get32, fat32_set_entry_start_cluster, DIR_ENTRY in *. by rewrite !sub_put16_ne by (rewrite ?length_put16; lia).
Qed.

(** The first 20 bytes decide the name and the attributes. *)
Lemma sub_of_sub e o n k : (o + n <= k)%nat -> sub e o n = sub (sub e 0 k) o n.
Proof. intros H. unfold sub. rewrite drop_0, skipn_firstn_comm, take_take. f_equal. lia. Qed.

Lemma entry_head e e' :
  sub e' 0 20 = sub e 0 20 -> DIR_Name e' = DIR_Name e /\ DIR_Attr e' = DIR_Attr e /\ get8 e' 0 = get8 e 0 /\ is_directory e' = is_directory e.
Proof.
  intros H. assert (Hs : forall o n, (o + n <= 20)%nat -> sub e' o n = sub e o n).
  { intros o n Hn. rewrite (sub_of_sub e' o n 20), (sub_of_sub e o n 20) by lia. by rewrite H. }
  assert (Ha : DIR_Attr e' = DIR_Attr e) by (unfold DIR_Attr; rewrite !get8_sub, Hs by lia; done).
  split_and!; [unfold DIR_Name; apply Hs; lia|done|by rewrite !get8_sub, Hs by lia|]. unfold is_directory. by rewrite Ha.
Qed.

(** The entry after a write: start cluster and size. *)
Definition updated (e : list Z) (start size : Z) : list Z := put32 (fat32_set_entry_start_cluster e start) 28 size.

Lemma updated_fields e start size :
  length e = DIR_ENTRY -> is_u32 start -> is_u32 size ->
  length (updated e start size) = DIR_ENTRY /\ sub (updated e start size) 0 20 = sub e 0 20
  /\ fat32_entry_start_cluster (updated e start size) = start /\ DIR_FileSize (updated e start size) = size.
Proof.
  intros He Hs Hz. pose proof (length_set_start e start He) as Hl. unfold updated, DIR_ENTRY in *. split_and!.
  - rewrite length_put32; lia.
  - rewrite sub_put32_ne by lia. by apply sub_set_start.
  - rewrite <- (entry_start_set e start He Hs) at 2. unfold fat32_entry_start_cluster, DIR_FstClusHI, DIR_FstClusLO, get16.
    by rewrite !sub_put32_ne by lia.
  - unfold DIR_FileSize. rewrite get32_put32; [done|lia|done].
Qed.

Lemma length_dirent b i : (DIR_ENTRY * i + DIR_ENTRY <= length b)%nat -> length (dirent b i) = DIR_ENTRY.
Proof. intros H. unfold dirent. by apply length_sub. Qed.

Section File.
Context {W : Type}.
Variable junk : list Z.
Variable fuel : nat.
Variable okw : W -> Z -> Prop.
Implicit Types s : vol W.

(** Clusters for a file of [size] bytes. *)
Definition needed s (size : Z) : Z := Z.max 1 ((size + fat32_cluster_size_bytes s - 1) / fat32_cluster_size_bytes s).

Lemma needed_room s size :
  geo_ok okw s -> 0 <= size -> size <= needed s size * fat32_cluster_size_bytes s /\ needed s size * fat32_cluster_size_bytes s <= size + fat32_cluster_size_bytes s
  /\ 1 <= needed s size.
Proof.
  intros G Hs. pose proof (cluster_size_eq okw s G). pose proof (g_spc _ _ G). unfold needed. set (cs := fat32_cluster_size_bytes s) in *.
  pose proof (Z.div_mod (size + cs - 1) cs ltac:(lia)). pose proof (Z.mod_pos_bound (size + cs - 1) cs ltac:(lia)).
  assert (0 <= (size + cs - 1) / cs) by (apply Z.div_pos; lia). split_and!; nia.
Qed.

Lemma taken_ok s n : vol_ok okw s -> Forall (clus_ok okw s) (take n (free_list s)).
Proof. intros [_ V]. by apply Forall_take. Qed.

Lemma taken_free s n c : c ∈ take n (free_list s) -> fat s c = 0.
Proof.
  intros H. apply (free_list_elem s c). rewrite <- (take_drop n (free_list s)), elem_of_app. by left.
Qed.

(** Allocating a chain and writing the data into it. *)
Lemma write_new_chain s data n :
  vol_ok okw s -> (0 < n <= length (free_list s))%nat ->
  Z.of_nat (length data) <= Z.of_nat n * fat32_cluster_size_bytes s ->
  let l := take n (free_list s) in
  exists c s1 s2 C, fat32_allocate_cluster_chain junk fuel (Z.of_nat n) s = Some (c, s1) /\ 2 <= c < entries s
    /\ (if 0 <? Z.of_nat (length data) then fat32_write_cluster_chain junk c data (Z.of_nat (length data)) else mret_ (Z.of_nat (length data))) s1
       = Some (Z.of_nat (length data), s2)
    /\ step okw s s2 (link l (fat s)) C /\ is_chain (link l (fat s)) c l
    /\ (forall d, clus_ok okw s d -> d ∉ l -> C d = clus s d) /\ take (length data) (content C l) = data.
Proof.
  intros V Hn Hd l. destruct (allocate_chain_ok junk fuel okw s n V Hn) as (c & s1 & E1 & Hc & S1 & F1 & V1).
  pose proof (taken_ok s n V) as Hok. fold l in Hok, S1. pose proof (proj1 V) as G.
  assert (Hl : exists t, l = c :: t).
  { unfold l. destruct (free_list s) as [|x t']; [done|]. destruct n as [|n]; [lia|]. simplify_eq/=. by eexists. }
  destruct Hl as [t Hl]. assert (Hch : is_chain (link l (fat s)) c l).
  { apply (link_chain l (fat s) c t Hl). unfold l. eapply sublist_NoDup; [apply (free_list_NoDup s)|apply sublist_take]. }
  assert (Hc2 : 2 <= c < entries s) by (rewrite Hl, Forall_cons in Hok; destruct Hok as [[? _] _]; lia).
  exists c, s1. destruct (Z.ltb_spec 0 (Z.of_nat (length data))) as [Hpos|Hpos].
  - destruct (write_chain_loop_spec junk okw (Z.to_nat (Z.of_nat (length data))) s1 c l data (Z.of_nat (length data)) 0)
      as (s2 & C & E2 & S2 & HC & HT); try lia; [apply V1| | | |].
    + apply (is_chain_ext (link l (fat s))); [|done]. intros x Hx. destruct S1 as (_ & _ & _ & HF & _). symmetry. apply HF.
      rewrite Forall_forall in Hok. destruct (Hok x Hx) as [? _]. lia.
    + eapply Forall_impl; [exact Hok|]. intros x. apply (step_clus_ok _ _ _ _ _ _ S1).
    + rewrite (step_cluster_size _ _ _ _ _ S1). unfold l. rewrite length_take, Nat.min_l by lia. lia.
    + exists s2, C. split_and!; [done|lia|lia| | |done| |].
      * unfold fat32_write_cluster_chain. by rewrite (proj2 (Z.ltb_ge c 2)) by lia.
      * apply (step_seq _ _ _ _ _ _ _ _ _ _ S1 S2); [by intros d _ ->|done].
      * intros d Hd' Hin. rewrite HC by (done || by apply (step_clus_ok _ _ _ _ _ _ S1)). destruct S1 as (_ & _ & _ & _ & HD).
        rewrite HD by done. unfold zeroed. by rewrite decide_False.
      * rewrite Z.sub_0_r, Nat2Z.id in HT. rewrite HT. unfold sub. rewrite drop_0. by rewrite firstn_all.
  - exists s1, (zeroed s l). split_and!; [done|lia|lia|done|done|done| |].
    + intros d _ Hin. unfold zeroed. by rewrite decide_False.
    + destruct data; [done|simpl in Hpos; lia].
Qed.

(** The clusters of the file that is replaced. *)
Definition old_chain s (start : Z) (os : list Z) : Prop :=
  (start < 2 /\ os = []) \/ (2 <= start /\ is_chain (fat s) start os /\ Forall (clus_ok okw s) os).

Lemma chain_nonfree s c l x : geo_ok okw s -> is_chain (fat s) c l -> Forall (clus_ok okw s) l -> x ∈ l -> fat s x <> 0.
Proof.
  intros G. revert c. induction l as [|y l IH]; intros c Hch Hok Hx; [by apply not_elem_of_nil in Hx|].
  rewrite Forall_cons in Hok. destruct Hok as [_ Hok]. destruct l as [|z l].
  - apply list_elem_of_singleton in Hx as ->. destruct Hch as [_ Hend]. unfold CLUSTER_END in Hend. lia.
  - destruct Hch as (_ & E & Hch). apply elem_of_cons in Hx as [->|Hx]; [|by apply (IH z)].
    rewrite E. rewrite Forall_cons in Hok. destruct Hok as [[Hz _] _]. lia.
Qed.

Lemma free_old_chain s start os :
  geo_ok okw s -> old_chain s start os -> (length os <= fuel)%nat ->
  exists s', mwhen (2 <=? start) (fat32_free_cluster_chain junk fuel start) s = Some (tt, s') /\ step okw s s' (cleared (fat s) os) (clus s).
Proof.
  intros G [[Hs ->]|(Hs & Hch & Hok)] Hf; unfold mwhen.
  - rewrite (proj2 (Z.leb_gt _ _)) by lia. exists s. split; [done|]. apply (step_ext _ _ _ _ _ _ _ (step_refl okw s)); [|done].
    intros c _. unfold cleared. by rewrite decide_False by apply not_elem_of_nil.
  - rewrite (proj2 (Z.leb_le _ _)) by lia. apply free_chain_loop_spec; [done|done|by apply (chain_in_table okw)|done].
Qed.

(** What a write of [data] to the entry [i] of [dc] leaves. *)
Record written s s' (dc : Z) (i : nat) (data : list Z) (os : list Z) (c : Z) (l : list Z) : Prop := {
  w_ok : vol_ok okw s';
  w_same : s' = set_world s (world s');
  w_mirror : mirror s -> mirror s';
  w_start : 2 <= c < entries s;
  w_chain : is_chain (fat s') c l;
  w_clus : Forall (clus_ok okw s') l;
  w_len : Z.of_nat (length l) = needed s (Z.of_nat (length data));
  w_data : take (length data) (content (clus s') l) = data;
  w_entry : clus s' dc = splice (clus s dc) (DIR_ENTRY * i) (updated (dirent (clus s dc) i) c (Z.of_nat (length data)));
  w_fat : forall d, clus_ok okw s d -> fat s d <> 0 -> d ∉ os -> fat s' d = fat s d;
  w_rest : forall d, clus_ok okw s d -> fat s d <> 0 -> d ∉ os -> d <> dc -> clus s' d = clus s d;
  w_clus_ok : forall d, clus_ok okw s d -> clus_ok okw s' d
}.

(** The four steps of the write: the new chain [l] with its contents [C], the
    old chain freed, the entry rewritten. *)
Lemma write_found_steps s lk data os :
  let dc := entry_cluster lk in let i := entry_index lk in let size := Z.of_nat (length data) in
  let l := take (Z.to_nat (needed s size)) (free_list s) in
  vol_ok okw s -> clus_ok okw s dc -> fat s dc <> 0 -> (i < Z.to_nat (fat32_cluster_size_bytes s / 32))%nat ->
  entry lk = dirent (clus s dc) i -> is_directory (entry lk) = false ->
  old_chain s (fat32_entry_start_cluster (entry lk)) os -> (length os <= fuel)%nat ->
  size + fat32_cluster_size_bytes s < 2 ^ 32 -> needed s size <= Z.of_nat (length (free_list s)) ->
  exists s' c C, write_found junk fuel lk data size s = Some (size, s') /\ 2 <= c < entries s
    /\ step okw s s' (cleared (link l (fat s)) os) (fupd C dc (splice (clus s dc) (DIR_ENTRY * i) (updated (entry lk) c size)))
    /\ is_chain (link l (fat s)) c l
    /\ (forall d, clus_ok okw s d -> d ∉ l -> C d = clus s d) /\ take (length data) (content C l) = data.
Proof.
  intros dc i size l V Hdc Hnz Hi He Hnd Hold Hfu Hsz Hfree. pose proof (proj1 V) as G.
  destruct (needed_room s size G ltac:(lia)) as (Hr1 & Hr2 & Hr3). pose proof (cluster_size_eq okw s G). pose proof (g_spc _ _ G).
  destruct (write_new_chain s data (Z.to_nat (needed s size)) V ltac:(lia)) as (c & s1 & s2 & C & E1 & Hc & E2 & S2 & Hch & HC & HT); [lia|].
  fold l in S2, Hch, HC, HT. fold size in E2. rewrite Z2Nat.id in E1 by lia.
  assert (Hout : forall x, fat s x <> 0 -> x ∉ l) by (intros x Hx Hin; apply Hx; by apply taken_free in Hin).
  assert (Hold2 : old_chain s2 (fat32_entry_start_cluster (entry lk)) os).
  { destruct Hold as [?|(Hs0 & Ho & Hok)]; [by left|right].
    split_and!; [done| |eapply Forall_impl; [exact Hok|]; intros x; apply (step_clus_ok _ _ _ _ _ _ S2)].
    apply (is_chain_ext (fat s)); [|done]. intros x Hx. pose proof (chain_nonfree s _ os x G Ho Hok Hx) as Hx0.
    rewrite Forall_forall in Hok. destruct (Hok x Hx) as [? _]. destruct S2 as (_ & _ & _ & -> & _); [|lia]. by rewrite link_out by auto. }
  destruct (free_old_chain s2 _ os (step_geo _ _ _ _ _ S2 G) Hold2 Hfu) as (s3 & E3 & S3).
  assert (S03 : step okw s s3 (cleared (link l (fat s)) os) C).
  { apply (step_seq _ _ _ _ _ _ _ _ _ _ S2 S3); [|by intros d _ ->]. intros d _ Ed. unfold cleared. case_decide; done. }
  assert (Ecd : clus s3 dc = clus s dc) by (destruct S03 as (_ & _ & _ & _ & ->); [by apply HC; [done|apply Hout]|done]).
  destruct (updated_fields (entry lk) c size) as (Hul & _);
    [rewrite He; apply length_dirent|pose proof (g_entries _ _ G); unfold is_u32, CLUSTER_END in *; lia|unfold is_u32; lia|].
  { rewrite (length_clus okw) by done. fold i in Hi. unfold DIR_ENTRY. zlia. }
  destruct (edit_entry_step junk okw s3 dc i (fun _ => updated (entry lk) c size)) as (s4 & E4 & S4);
    [by apply (step_geo _ _ _ _ _ S03)|by apply (step_clus_ok _ _ _ _ _ _ S03)|by rewrite (step_cluster_size _ _ _ _ _ S03)|done|].
  rewrite Ecd in S4. exists s4, c, C. split_and!; [|lia|lia| |done|done|done].
  - unfold write_found. rewrite Hnd. unfold mgets. unfold mbind_ at 1. rewrite (proj2 (Z.eqb_neq _ 0)) by lia. cbv zeta.
    rewrite u32_small by lia. replace (if _ =? 0 then 1 else _) with (needed s size).
    2: { unfold needed. assert (0 <= (size + fat32_cluster_size_bytes s - 1) / fat32_cluster_size_bytes s) by (apply Z.div_pos; lia). zcases; lia. }
    unfold mbind_ at 1. rewrite E1. rewrite (proj2 (Z.eqb_neq c 0)) by lia.
    unfold mbind_ at 1. rewrite E2. rewrite Z.eqb_refl. cbn [negb]. unfold mbind_ at 1. rewrite E3. unfold mbind_ at 1.
    unfold fat32_write_directory_entry. fold dc i. change (put32 _ 28 size) with (updated (entry lk) c size). rewrite E4. done.
  - apply (step_seq _ _ _ _ _ _ _ _ _ _ S03 S4); [by intros d _ ->|]. intros d _ Ed. unfold fupd. case_decide; done.
Qed.

Lemma write_found_spec s lk data os :
  let dc := entry_cluster lk in let i := entry_index lk in let size := Z.of_nat (length data) in
  vol_ok okw s -> clus_ok okw s dc -> fat s dc <> 0 -> (i < Z.to_nat (fat32_cluster_size_bytes s / 32))%nat ->
  entry lk = dirent (clus s dc) i -> is_directory (entry lk) = false ->
  old_chain s (fat32_entry_start_cluster (entry lk)) os -> dc ∉ os -> (length os <= fuel)%nat ->
  size + fat32_cluster_size_bytes s < 2 ^ 32 -> needed s size <= Z.of_nat (length (free_list s)) ->
  exists s' c l, write_found junk fuel lk data size s = Some (size, s') /\ written s s' dc i data os c l.
Proof.
  intros dc i size V Hdc Hnz Hi He Hnd Hold Hdo Hfu Hsz Hfree. pose proof (proj1 V) as G.
  destruct (needed_room s size G ltac:(lia)) as (_ & _ & Hr3).
  destruct (write_found_steps s lk data os) as (s' & c & C & E & Hc & S & Hch & HC & HT); try done.
  fold dc i size in E, S, Hch, HC, HT. set (l := take (Z.to_nat (needed s size)) (free_list s)) in *.
  assert (Hlok : Forall (clus_ok okw s) l) by by apply taken_ok.
  assert (Hlz : forall x, x ∈ l -> fat s x = 0) by (intros x Hx; by apply taken_free in Hx).
  assert (Hosok : Forall (clus_ok okw s) os) by (destruct Hold as [[_ ->]|(_ & _ & ?)]; done).
  assert (Hlos : forall x, x ∈ l -> x ∉ os).
  { intros x Hx Ho. destruct Hold as [[_ ->]|(_ & Hoc & _)]; [by apply not_elem_of_nil in Ho|].
    exact (chain_nonfree s _ os x G Hoc Hosok Ho (Hlz x Hx)). }
  assert (Hdl : dc ∉ l) by (intros Hx; apply Hnz, Hlz, Hx).
  pose proof (fun d => step_clus_ok okw s s' _ _ d S) as Hcok.
  destruct S as (Es & Sok & Sm & SF & SC) eqn:ES. clear ES. rewrite Forall_forall in Hlok, Hosok.
  assert (HFl : forall x, x ∈ l -> fat s' x = link l (fat s) x).
  { intros x Hx. rewrite SF by (destruct (Hlok x Hx); lia). unfold cleared. by rewrite decide_False by auto. }
  assert (HCl : forall x, x ∈ l -> clus s' x = C x).
  { intros x Hx. rewrite SC by auto. unfold fupd. rewrite decide_False; [done|]. by intros ->. }
  exists s', c, l. split; [done|]. constructor; try done.
  - apply (vol_ok_step okw s s' _ _ (conj Es (conj Sok (conj Sm (conj SF SC))))); [done|]. intros x Hx Hz. unfold cleared in Hz.
    case_decide; [by apply Hosok|]. destruct (decide (x ∈ l)); [by apply Hlok|]. rewrite link_out in Hz by done. by apply vol_ok_free.
  - apply (is_chain_ext (link l (fat s))); [|done]. intros x Hx. symmetry. by apply HFl.
  - apply Forall_forall. intros x Hx. by apply Hcok, Hlok.
  - fold size. unfold l. rewrite length_take, Nat.min_l by lia. lia.
  - rewrite (content_ext _ C) by done. done.
  - rewrite SC by done. unfold fupd. rewrite decide_True by done. by rewrite He.
  - intros d Hd Hdz Hdo'. rewrite SF by (destruct Hd; lia). unfold cleared. rewrite decide_False by done. apply link_out.
    intros Hx. by apply Hdz, Hlz.
  - intros d Hd Hdz Hdo' Hne. rewrite SC by done. unfold fupd. rewrite decide_False by done. apply HC; [done|]. intros Hx. by apply Hdz, Hlz.
Qed.

(** ** Adding an entry *)

Lemma valid_name_first name :
  fat32_is_valid_name name = true -> get8 (fat32_make_dos_name name) 0 <> 0 /\ get8 (fat32_make_dos_name name) 0 <> NAME_FREE.
Proof.
  intros H. apply valid_name_parts in H as (a & b & (Ha & _ & ->) & Hla & Hlb). rewrite dos_name_parts by (done || lia).
  destruct a as [|c a]; [simpl in Hla; lia|]. rewrite Forall_cons in Ha. destruct Ha as [Hc _].
  assert (Hg : get8 (pad 8 (map upper (c :: a)) ++ pad 3 (map upper b)) 0 = upper c) by done. rewrite Hg. split; [by destruct (name_char_not c Hc) as (_ & _ & _ & _ & ? & _)|].
  assert (Hle : c <= 122).
  { destruct (Z.le_gt_cases c 122) as [|Hgt]; [done|]. unfold name_char in Hc.
    rewrite !(proj2 (Z.leb_gt c _)), !(proj2 (Z.eqb_neq c _)) in Hc by lia. by rewrite !andb_false_r in Hc. }
  unfold upper, NAME_FREE. ztest; lia.
Qed.

Lemma new_entry_fields dos attr start :
  length dos = 11%nat -> is_byte attr -> is_u32 start ->
  length (new_entry dos attr start) = DIR_ENTRY /\ DIR_Name (new_entry dos attr start) = dos /\ DIR_Attr (new_entry dos attr start) = attr
  /\ get8 (new_entry dos attr start) 0 = get8 dos 0 /\ fat32_entry_start_cluster (new_entry dos attr start) = start.
Proof.
  intros Hd Ha Hs. unfold new_entry. set (e0 := splice (zeros DIR_ENTRY) 0 dos).
  assert (Hz : length (zeros DIR_ENTRY) = 32%nat) by apply length_replicate.
  assert (H0 : length e0 = 32%nat) by (unfold e0; rewrite length_splice; lia).
  set (e1 := put8 e0 11 attr). assert (H1 : length e1 = DIR_ENTRY) by (unfold e1; rewrite length_put8; [done|lia]).
  destruct (entry_head e1 (fat32_set_entry_start_cluster e1 start) (sub_set_start e1 start H1)) as (-> & -> & -> & _).
  assert (Hn : sub e0 0 11 = dos) by (unfold e0; rewrite <- Hd; apply sub_splice_eq; lia).
  assert (Hn1 : DIR_Name e1 = dos) by (unfold DIR_Name, e1, put8; rewrite sub_splice_ne; simpl; [done|lia|lia]).
  split_and!; [by apply length_set_start|done| | |by apply entry_start_set].
  - unfold DIR_Attr, e1. apply get8_put8. lia.
  - rewrite <- Hn1. unfold get8, nthZ, DIR_Name, sub. rewrite drop_0. by rewrite lookup_take_lt by (simpl; lia).
Qed.

Lemma is_chain_snoc F c l z m :
  NoDup l -> m ∉ l -> is_chain F c l -> last l = Some z -> is_chain (fupd (fupd F z m) m 0x0FFFFFFF) c (l ++ [m]).
Proof.
  revert c. induction l as [|x l IH]; intros c Hnd Hm Hch Hz; [done|]. rewrite NoDup_cons in Hnd. destruct Hnd as [Hx Hnd].
  rewrite not_elem_of_cons in Hm. destruct Hm as [Hmx Hm]. destruct l as [|y l].
  - simplify_eq/=. destruct Hch as [-> _]. unfold fupd, CLUSTER_END. rewrite decide_False, !decide_True by done. split_and!; (done || lia).
  - rewrite is_chain_cons in Hch. destruct Hch as (-> & E & Hch). specialize (IH y Hnd Hm Hch Hz).
    change ((c :: y :: l) ++ [m]) with (c :: y :: (l ++ [m])). rewrite is_chain_cons. split_and!; [done| |exact IH].
    unfold fupd. rewrite decide_False by done. rewrite decide_False; [done|]. intros ->. apply Hx.
    rewrite last_cons_cons in Hz. by apply last_Some_elem_of in Hz.
Qed.

(** What adding an entry leaves: directory chain [ds'], the entry at [i] of
    [dc]. *)
Record added s s' (dir : Z) (name e : list Z) (ds ds' : list Z) (dc : Z) (i : nat) : Prop := {
  a_ok : vol_ok okw s';
  a_same : s' = set_world s (world s');
  a_mirror : mirror s -> mirror s';
  a_chain : is_chain (fat s') dir ds';
  a_clus : Forall (clus_ok okw s') ds';
  a_len : (length ds' <= length ds + 1)%nat;
  a_find : dir_find (clus s') (fat32_cluster_size_bytes s') (fat32_make_dos_name name) name ds' = Some (dc, i);
  a_entry : dirent (clus s' dc) i = e;
  a_new : forall d, d ∈ ds' -> d ∈ ds \/ fat s d = 0;
  a_fat : forall d, clus_ok okw s d -> fat s d <> 0 -> d ∉ ds -> fat s' d = fat s d;
  a_rest : forall d, clus_ok okw s d -> fat s d <> 0 -> d ∉ ds -> clus s' d = clus s d;
  a_free : (length (free_list s) <= length (free_list s') + 1)%nat;
  a_clus_ok : forall d, clus_ok okw s d -> clus_ok okw s' d
}.

Section Add.
Variables (s : vol W) (dir : Z) (name : list Z) (ds : list Z) (e : list Z).
Hypothesis (V : vol_ok okw s) (Hch : is_chain (fat s) dir ds) (Hok : Forall (clus_ok okw s) ds).
Hypothesis (Hnf : dir_find (clus s) (fat32_cluster_size_bytes s) (fat32_make_dos_name name) name ds = None).
Hypothesis (He : length e = DIR_ENTRY) (He0 : get8 e 0 <> 0) (Hesk : skipped e = false) (Hen : DIR_Name e = fat32_make_dos_name name).

Lemma entries_fit c : clus_ok okw s c -> (DIR_ENTRY * Z.to_nat (fat32_cluster_size_bytes s / 32) <= length (clus s c))%nat.
Proof.
  intros Hc. rewrite (length_clus okw) by (apply V || done). pose proof (cluster_size_eq okw s (proj1 V)). pose proof (g_spc _ _ (proj1 V)).
  unfold DIR_ENTRY. zlia.
Qed.

(** Into a free slot of the directory. *)
Lemma add_in_slot s' dc i :
  dir_slot (clus s) (fat32_cluster_size_bytes s) ds = Some (dc, i) ->
  step okw s s' (fat s) (fupd (clus s) dc (splice (clus s dc) (DIR_ENTRY * i) e)) ->
  added s s' dir name e ds ds dc i.
Proof.
  intros Hs S. destruct (dir_slot_some _ _ _ _ _ Hs) as [Hin Hi]. pose proof Hok as Hok'. rewrite Forall_forall in Hok'.
  pose proof (entries_fit dc (Hok' dc Hin)) as Hfit. pose proof (fun d => step_clus_ok _ _ _ _ _ d S) as Hcok.
  pose proof (step_cluster_size _ _ _ _ _ S) as Hcs.
  assert (Hfl : free_list s' = free_list s) by (by apply (free_list_ext okw s s' _ _ S)).
  assert (Vs' : vol_ok okw s') by (apply (vol_ok_step _ _ _ _ _ S); [apply V|]; intros x Hx; by apply vol_ok_free).
  destruct S as (Es & Sok & Sm & SF & SC).
  assert (HCe : clus s' dc = splice (clus s dc) (DIR_ENTRY * i) e) by (rewrite SC by auto; unfold fupd; by rewrite decide_True).
  constructor; try done.
  - apply (is_chain_ext (fat s)); [|done]. intros x Hx. symmetry. apply SF. destruct (Hok' x Hx). lia.
  - eapply Forall_impl; [exact Hok|exact Hcok].
  - lia.
  - rewrite Hcs. apply (dir_find_added (clus s) _ _ _ _ _ _ _ e); try done. intros x Hx. rewrite SC by auto. done.
  - rewrite HCe. apply dirent_splice_eq; [done|]. unfold DIR_ENTRY in *. lia.
  - intros d Hd. by left.
  - intros d Hd _ _. apply SF. destruct Hd. lia.
  - intros d Hd _ Hdn. rewrite SC by done. unfold fupd. rewrite decide_False; [done|]. by intros ->.
  - rewrite Hfl. lia.
Qed.

(** Into a new cluster [m] at the end of the directory. *)
Lemma add_in_new_cluster s' m t z :
  dir_slot (clus s) (fat32_cluster_size_bytes s) ds = None -> free_list s = m :: t -> last ds = Some z ->
  step okw s s' (fupd (fupd (fat s) z m) m 0x0FFFFFFF)
    (fupd (clus s) m (splice (zeros (Z.to_nat (fat32_cluster_size_bytes s))) (DIR_ENTRY * 0) e)) ->
  added s s' dir name e ds (ds ++ [m]) m 0.
Proof.
  intros Hs Hf Hz S. pose proof (proj1 V) as G. destruct (free_list_head okw s m t V Hf) as [Hm Hfm].
  assert (Hmz : forall x, x ∈ ds -> x <> m) by (intros x Hx ->; by apply (chain_nonfree s dir ds m)).
  pose proof Hok as Hok'. rewrite Forall_forall in Hok'. apply last_Some_elem_of in Hz as Hzin.
  pose proof (fun d => step_clus_ok _ _ _ _ _ d S) as Hcok. pose proof (step_cluster_size _ _ _ _ _ S) as Hcs.
  assert (Hzn : fat s z <> 0) by by apply (chain_nonfree s dir ds z).
  assert (Hfl : free_list s' = t).
  { apply (free_list_take okw s s' _ _ _ _ S Hf); unfold fupd; [by rewrite decide_True|]. intros x Hx Hxm. rewrite decide_False by done.
    case_decide as Hxz; [|done]. subst x. destruct Hm; lia. }
  assert (Vs' : vol_ok okw s').
  { apply (vol_ok_step _ _ _ _ _ S); [done|]. intros x Hx. unfold fupd. case_decide; [lia|]. case_decide; [destruct Hm; lia|]. by apply vol_ok_free. }
  destruct S as (Es & Sok & Sm & SF & SC).
  assert (HCe : clus s' m = splice (zeros (Z.to_nat (fat32_cluster_size_bytes s))) (DIR_ENTRY * 0) e).
  { rewrite SC by auto; unfold fupd; by rewrite decide_True. }
  assert (Hsz : 512 <= fat32_cluster_size_bytes s) by (rewrite (cluster_size_eq okw) by done; pose proof (g_spc _ _ G); lia).
  assert (Hlz : length (zeros (Z.to_nat (fat32_cluster_size_bytes s))) = Z.to_nat (fat32_cluster_size_bytes s)) by apply length_replicate.
  constructor; try done.
  - apply (is_chain_ext (fupd (fupd (fat s) z m) m 0x0FFFFFFF)).
    + intros x Hx. symmetry. apply SF. apply elem_of_app in Hx as [Hx|Hx]; [destruct (Hok' x Hx); lia|].
      apply list_elem_of_singleton in Hx as ->. destruct Hm; lia.
    + apply is_chain_snoc; [|by intros Hx; apply (Hmz m)|done|done].
      apply (is_chain_NoDup (fat s) dir); [|done]. eapply in_table_below; [done|by apply (chain_in_table okw)].
  - apply Forall_app. split; [eapply Forall_impl; [exact Hok|exact Hcok]|]. constructor; [by apply Hcok|constructor].
  - rewrite length_app. simpl. lia.
  - rewrite Hcs. rewrite (dir_find_extended (clus s)); [|done|done|].
    2: { intros x Hx. rewrite SC by auto. unfold fupd. by rewrite decide_False by auto. }
    apply (dir_find_added (fun _ => zeros (Z.to_nat (fat32_cluster_size_bytes s))) _ _ _ _ _ _ _ e); try done.
    + simpl. destruct (Z.to_nat (fat32_cluster_size_bytes s / 32)) eqn:En; [zlia|]. simpl.
      unfold dirent. by destruct (Z.to_nat (fat32_cluster_size_bytes s)).
    + simpl. destruct (Z.to_nat (fat32_cluster_size_bytes s / 32)) eqn:En; [zlia|]. simpl.
      unfold dirent. by destruct (Z.to_nat (fat32_cluster_size_bytes s)).
    + intros x Hx. apply list_elem_of_singleton in Hx as ->. by rewrite decide_True.
    + rewrite Hlz. unfold DIR_ENTRY. zlia.
  - rewrite HCe. apply dirent_splice_eq; [done|]. rewrite Hlz. unfold DIR_ENTRY. lia.
  - intros d Hd. apply elem_of_app in Hd as [Hd|Hd]; [by left|]. apply list_elem_of_singleton in Hd as ->. by right.
  - intros d Hd Hdz Hdn. rewrite SF by (destruct Hd; lia). unfold fupd. rewrite decide_False by (by intros ->). rewrite decide_False; [done|]. by intros ->.
  - intros d Hd Hdz Hdn. rewrite SC by done. unfold fupd. rewrite decide_False; [done|]. by intros ->.
  - rewrite Hfl, Hf. simpl. lia.
Qed.
End Add.
End File.
