(* ===== verification/FatPath.v ===== *)
(** * FAT32: the path interface

    Which paths resolve, creating a file, and the round trip of
    [fat32_write_file_path] and [fat32_read_file_path]. *)

From Stdlib Require Import ZArith Lia String.
From stdpp Require Import base numbers list gmap.
From S2P Require Import Prelude Bytes Fat FatChain FatAlloc FatRead FatName FatDir FatFind FatFile.

Definition slashes (l : list Z) : Prop := Forall (fun c => c = PATHSEP) l.

Section Paths.
Context {W : Type}.
Variable junk : list Z.
Variable fuel : nat.
Implicit Types s : vol W.

(** ** Resolving directories *)

Lemma find_loop_status s n dir c buffer dos name r lk :
  find_loop junk s n dir c buffer dos name = Some (r, lk) -> (r = 0 /\ lk = not_found dir) \/ r = 1.
Proof.
  revert c buffer. induction n as [|n IH]; intros c buffer H; cbn [find_loop] in H; destruct (negb (in_chain c)).
  - left. by simplify_eq.
  - done.
  - left. by simplify_eq.
  - destruct (fat32_read_directory_cluster s c buffer) as [b|]; [|done]. cbv zeta in H.
    destruct (scan_entries _ _ _ _ _ _); [left; by simplify_eq|right; by simplify_eq|].
    destruct (fat32_next_cluster junk s c); [|done]. by eapply IH.
Qed.

(** A component of a path never resolves: a name that is found is taken for an
    error by the test on the result, and one that is not found is no
    directory. *)
Lemma resolve_loop_root s path n i start c c' :
  0 <= i -> i + Z.of_nat n = Z.of_nat (length path) + 1 -> start <= i -> no_nul path ->
  resolve_loop junk fuel s path n i start c = Some (Some c') -> (0 < n)%nat ->
  start = i /\ c' = c /\ forall j, i <= j < Z.of_nat (length path) -> path.[j] = PATHSEP.
Proof.
  revert i start. induction n as [|n IH]; intros i start Hi Hn Hs Hnul H Hpos; [lia|]. cbn [resolve_loop] in H. cbv zeta in H.
  destruct ((path.[i] =? PATHSEP) || (path.[i] =? 0))%bool eqn:Ec; cbn [negb] in H.
  - destruct (Z.leb_spec (i - start) 0) as [Hle|Hgt].
    + assert (start = i) as -> by lia. split; [done|]. destruct n as [|n].
      * simplify_eq/=. split; [done|]. intros j Hj. lia.
      * apply IH in H as (_ & -> & Hj); [|lia|lia|lia|done|lia]. split; [done|]. intros j Hj'.
        destruct (decide (j = i)) as [->|]; [|apply Hj; lia]. apply orb_true_iff in Ec as [Ec|Ec]; zbool; [done|]. exfalso.
        unfold nthZ in Ec. destruct (path !! Z.to_nat i) as [v|] eqn:Ev; [|apply lookup_ge_None in Ev; lia].
        simpl in Ec. subst v. eapply Forall_lookup_1 in Hnul; [|exact Ev]. done.
    + destruct (32 <=? i - start); [done|].
      destruct (fat32_find_entry_in_dir junk fuel s c _) as [[r lk]|] eqn:Ef; [|done].
      apply find_loop_status in Ef as [[-> ->]| ->]; done.
  - assert (Hil : i < Z.of_nat (length path)).
    { destruct (Z.lt_ge_cases i (Z.of_nat (length path))); [done|]. exfalso. apply orb_false_iff in Ec as [_ Ec]. zbool. apply Ec.
      unfold nthZ. rewrite lookup_ge_None_2 by lia. done. }
    apply IH in H as (-> & _); [lia|lia|lia|lia|done|lia].
Qed.

Lemma resolve_loop_slashes s path n i c :
  0 <= i -> (forall j, i <= j < i + Z.of_nat n -> path.[j] = PATHSEP \/ path.[j] = 0) ->
  resolve_loop junk fuel s path n i i c = Some (Some c).
Proof.
  revert i. induction n as [|n IH]; intros i Hi H; [done|]. cbn [resolve_loop]. cbv zeta.
  assert (E : ((path.[i] =? PATHSEP) || (path.[i] =? 0))%bool = true).
  { destruct (H i ltac:(lia)) as [-> | ->]; done. }
  rewrite E, Z.sub_diag. cbn [negb]. change (0 <=? 0) with true. apply IH; [lia|]. intros j Hj. apply H. lia.
Qed.

Lemma slashes_nth path j : slashes path -> path.[j] = PATHSEP \/ path.[j] = 0.
Proof.
  intros H. unfold nthZ. destruct (path !! Z.to_nat j) as [v|] eqn:E; [left|by right]. eapply Forall_lookup_1 in H; [|exact E]. done.
Qed.

Lemma resolve_directory_iff s path c :
  no_nul path ->
  fat32_resolve_directory junk fuel s path = Some (Some c)
  <-> fat32_mounted s = true /\ path <> [] /\ slashes path /\ c = root_dir_first_cluster s.
Proof.
  intros Hnul. unfold fat32_resolve_directory. destruct (fat32_mounted s); [|split; [done|by intros [? _]]]. cbn [negb orb].
  destruct path as [|ch path]; [split; [done|by intros (_ & ? & _)]|]. cbn [length]. rewrite (proj2 (Nat.eqb_neq _ 0)) by lia.
  case_bool_decide as Eq.
  { rewrite Eq. split; [intros [= <-]|by intros (_ & _ & _ & ->)]. split_and!; [done|done|by constructor|done]. }
  set (p := ch :: path) in *. change p.[0] with ch. set (start := if ch =? PATHSEP then 1 else 0). split.
  - intros H. apply resolve_loop_root in H as (_ & -> & Hj); [|unfold start; ztest; lia| |lia|done|].
    + split_and!; [done|done| |done]. apply Forall_lookup. intros i x Hx. destruct (decide (Z.of_nat i < start)) as [Hlt|].
      * unfold start in Hlt. destruct (Z.eqb_spec ch PATHSEP); [|lia]. assert (i = O) as -> by lia. by simplify_eq/=.
      * specialize (Hj (Z.of_nat i)). unfold nthZ in Hj. rewrite Nat2Z.id, Hx in Hj. apply Hj. apply lookup_lt_Some in Hx. lia.
    + unfold start, p; cbn [length]; ztest; lia.
    + unfold start, p; cbn [length]; ztest; lia.
  - intros (_ & _ & Hsl & ->). apply resolve_loop_slashes; [unfold start; ztest; lia|]. intros j _. by apply slashes_nth.
Qed.

(** The paths of files in the root directory. *)
Definition root_path (path leaf : list Z) : Prop :=
  path <> [] /\ path <> [PATHSEP] /\ leaf <> [] /\ slashes (or_root (fst (fat32_path_parent path 128 32)))
  /\ snd (fat32_path_parent path 128 32) = leaf.

Lemma resolve_root_parent s path leaf :
  fat32_mounted s = true -> root_path path leaf ->
  fat32_resolve_directory junk fuel s (or_root (fst (fat32_path_parent path 128 32))) = Some (Some (root_dir_first_cluster s)).
Proof.
  intros Hm (_ & _ & _ & Hsl & _). apply resolve_directory_iff.
  - eapply Forall_impl; [exact Hsl|]. by intros c ->.
  - split_and!; [done| |done|done]. unfold or_root. by destruct (fst _).
Qed.

Lemma resolve_root_path s path leaf :
  fat32_mounted s = true -> root_path path leaf ->
  fat32_resolve_path junk fuel s path = fat32_find_entry_in_dir junk fuel s (root_dir_first_cluster s) leaf.
Proof.
  intros Hm Hp. pose proof (resolve_root_parent s path leaf Hm Hp) as Hr. destruct Hp as (H1 & H2 & H3 & Hsl & H4).
  unfold fat32_resolve_path. rewrite bool_decide_false by done. destruct path as [|c path]; [done|]. cbn [length Nat.eqb orb].
  destruct (fat32_path_parent (c :: path) 128 32) as [parent lf]. simpl in *. subst lf. destruct leaf; [done|]. by rewrite Hr.
Qed.

(** ** Creating a file *)

Variable okw : W -> Z -> Prop.

Lemma create_dir_entry_spec s dir name attr start ds :
  vol_ok okw s -> is_chain (fat s) dir ds -> Forall (clus_ok okw s) ds -> (length ds <= fuel)%nat -> fat32_is_valid_name name = true ->
  dir_find (clus s) (fat32_cluster_size_bytes s) (fat32_make_dos_name name) name ds = None -> free_list s <> [] ->
  is_byte attr -> attr <> 0x0F -> Z.land attr 0x08 = 0 -> is_u32 start ->
  exists s' ds' dc i, fat32_create_dir_entry junk fuel dir name attr start s = Some (0, s')
    /\ added okw s s' dir name (new_entry (fat32_make_dos_name name) attr start) ds ds' dc i.
Proof.
  intros V Hch Hok Hf Hv Hnf Hfr Hab Ha1 Ha2 Hst. pose proof (proj1 V) as G. unfold fat32_create_dir_entry. rewrite Hv. cbn [negb].
  unfold mread. unfold mbind_ at 1. rewrite (find_entry_spec _ _ okw s dir name ds), Hnf by done. cbn [lookup_of fst]. change (0 <? 0) with false. cbv iota.
  set (e := new_entry (fat32_make_dos_name name) attr start).
  destruct (new_entry_fields (fat32_make_dos_name name) attr start (length_dos_name name) Hab Hst) as (He & Hen & Hea & He0 & _).
  destruct (valid_name_first name Hv) as [Hz Hnfree]. rewrite <- He0 in Hz, Hnfree. fold e in He, Hen, Hea, Hz, Hnfree.
  assert (Hsk : skipped e = false).
  { unfold skipped. by rewrite (proj2 (Z.eqb_neq _ _) Hnfree), Hea, (proj2 (Z.eqb_neq _ _) Ha1), Ha2. }
  assert (Hb : length (fresh junk (fat32_cluster_size_bytes s)) = Z.to_nat (fat32_cluster_size_bytes s)).
  { apply length_fresh. rewrite (cluster_size_eq okw) by done. pose proof (g_spc _ _ G). lia. }
  unfold mbind_ at 1. unfold fat32_find_free_dir_slot. destruct (dir_slot (clus s) (fat32_cluster_size_bytes s) ds) as [[dc i]|] eqn:Es.
  - rewrite (slot_loop_found _ okw fuel s dir ds _ (dc, i)) by done. destruct (dir_slot_some _ _ _ _ _ Es) as [Hin Hi].
    rewrite Forall_forall in Hok. destruct (edit_entry_step junk okw s dc i (fun _ => e) G (Hok dc Hin) Hi He) as (s' & E' & S').
    exists s', ds, dc, i. split; [exact E'|]. rewrite <- Forall_forall in Hok. by apply add_in_slot.
  - destruct (free_list s) as [|m t] eqn:Efl; [done|].
    destruct (slot_loop_extends junk okw fuel s dir ds (fresh junk (fat32_cluster_size_bytes s)) m t) as (s1 & z & E1 & Hz' & S1); try done.
    rewrite E1. destruct (free_list_head okw s m t V Efl) as [Hm _].
    assert (Hm1 : clus s1 m = zeros (Z.to_nat (fat32_cluster_size_bytes s))).
    { destruct S1 as (_ & _ & _ & _ & ->); [|done]. unfold fupd. by rewrite decide_True. }
    destruct (edit_entry_step junk okw s1 m 0 (fun _ => e)) as (s' & E' & S'); [by apply (step_geo _ _ _ _ _ S1)|by apply (step_clus_ok _ _ _ _ _ _ S1)| |done|].
    { rewrite (step_cluster_size _ _ _ _ _ S1), (cluster_size_eq okw) by done. pose proof (g_spc _ _ G). zlia. }
    exists s', (ds ++ [m]), m, 0%nat. split; [exact E'|]. rewrite Hm1 in S'.
    apply (add_in_new_cluster _ s dir name ds e V Hch Hok Hnf He Hz Hsk Hen s' m t z); try done.
    apply (step_seq _ _ _ _ _ _ _ _ _ _ S1 S'); [by intros d _ ->|]. intros d _ Ed. unfold fupd in *. case_decide; done.
Qed.

(** What creating the file leaves. *)
Record created s s' (leaf : list Z) (ds ds' : list Z) (dc : Z) (i : nat) (c : Z) : Prop := {
  c_ok : vol_ok okw s';
  c_same : s' = set_world s (world s');
  c_mirror : mirror s -> mirror s';
  c_chain : is_chain (fat s') (root_dir_first_cluster s) ds';
  c_clus : Forall (clus_ok okw s') ds';
  c_len : (length ds' <= length ds + 1)%nat;
  c_find : dir_find (clus s') (fat32_cluster_size_bytes s') (fat32_make_dos_name leaf) leaf ds' = Some (dc, i);
  c_entry : dirent (clus s' dc) i = new_entry (fat32_make_dos_name leaf) 0x20 c;
  c_file : 2 <= c < entries s /\ is_chain (fat s') c [c] /\ clus_ok okw s' c /\ (c ∉ ds') /\ fat s c = 0;
  c_new : forall d, d ∈ ds' -> d ∈ ds \/ fat s d = 0;
  c_fat : forall d, clus_ok okw s d -> fat s d <> 0 -> d ∉ ds -> fat s' d = fat s d;
  c_rest : forall d, clus_ok okw s d -> fat s d <> 0 -> d ∉ ds -> clus s' d = clus s d;
  c_free : (length (free_list s) <= length (free_list s') + 2)%nat;
  c_clus_ok : forall d, clus_ok okw s d -> clus_ok okw s' d
}.

Lemma create_file_spec s path leaf ds :
  vol_ok okw s -> fat32_mounted s = true -> root_path path leaf -> fat32_is_valid_name leaf = true ->
  is_chain (fat s) (root_dir_first_cluster s) ds -> Forall (clus_ok okw s) ds -> (length ds <= fuel)%nat ->
  dir_find (clus s) (fat32_cluster_size_bytes s) (fat32_make_dos_name leaf) leaf ds = None -> (2 <= length (free_list s))%nat ->
  exists s' ds' dc i c, fat32_create_file_path junk fuel path s = Some (0, s') /\ created s s' leaf ds ds' dc i c.
Proof.
  intros V Hm Hp Hv Hch Hok Hf Hnf Hfr. pose proof (proj1 V) as G. unfold fat32_create_file_path. rewrite Hm. cbn [negb orb].
  pose proof (resolve_root_parent s path leaf Hm Hp) as Hr. destruct Hp as (_ & Hp2 & _ & _ & Hleaf). rewrite bool_decide_false by done.
  destruct (fat32_path_parent path 128 32) as [parent lf]. cbn [fst snd] in Hr, Hleaf. subst lf. rewrite Hv. cbn [negb].
  unfold mread at 1. unfold mbind_ at 1. rewrite Hr.
  destruct (allocate_chain_ok junk fuel okw s 1 V ltac:(lia)) as (c & s1 & E1 & Hc & S1 & F1 & V1).
  destruct (free_list s) as [|c' t] eqn:Efl; [done|]. cbn [head] in Hc. simplify_eq. change (Z.of_nat 1) with 1 in E1.
  destruct (free_list_head okw s c t V Efl) as [Hcok Hcz]. cbn [take drop] in S1, F1. change (drop 0 t) with t in F1. change (take 0 t) with (@nil Z) in S1. pose proof (proj1 Hcok) as Hcr.
  assert (HF1 : forall d, 0 <= d < entries s -> d <> c -> fat s1 d = fat s d).
  { intros d Hd Hne. destruct S1 as (_ & _ & _ & -> & _); [|done]. simpl. by rewrite decide_False. }
  assert (HC1 : forall d, clus_ok okw s d -> d <> c -> clus s1 d = clus s d).
  { intros d Hd Hne. destruct S1 as (_ & _ & _ & _ & ->); [|done]. unfold zeroed. rewrite decide_False; [done|]. by rewrite list_elem_of_singleton. }
  assert (Hfc : fat s1 c = 0x0FFFFFFF) by (destruct S1 as (_ & _ & _ & -> & _); [simpl; by rewrite decide_True|lia]).
  assert (Hdsc : forall x, x ∈ ds -> x <> c) by (intros x Hx ->; by apply (chain_nonfree okw s (root_dir_first_cluster s) ds c)). pose proof Hok as Hok'. rewrite Forall_forall in Hok'.
  pose proof (fun d => step_clus_ok okw s s1 _ _ d S1) as Hcok1.
  destruct (create_dir_entry_spec s1 (root_dir_first_cluster s) leaf 0x20 c ds) as (s2 & ds' & dc & i & E2 & A); try done.
  { apply (is_chain_ext (fat s)); [|done]. intros x Hx. symmetry. apply HF1; [destruct (Hok' x Hx); lia|auto]. }
  { eapply Forall_impl; [exact Hok|exact Hcok1]. }
  { rewrite (step_cluster_size _ _ _ _ _ S1). rewrite <- Hnf. apply dir_find_ext. intros x Hx. apply HC1; auto. }
  { rewrite F1. destruct t; [simpl in Hfr; lia|done]. }
  { pose proof (g_entries _ _ G). unfold is_u32, CLUSTER_END in *. lia. }
  destruct A as [A1 A2 A3 A4 A5 A6 A7 A8 A9 A10 A11 A12 A13]. exists s2, ds', dc, i, c. split.
  { unfold mbind_ at 1. rewrite E1. rewrite (proj2 (Z.eqb_neq c 0)) by lia. unfold mbind_ at 1. rewrite E2. done. }
  pose proof (proj1 S1) as Es1. assert (Hcn : c ∉ ds) by (intros Hx; by apply (Hdsc c)).
  constructor; try done.
  - rewrite A2, Es1. done.
  - intros Hmi. apply A3. by apply S1.
  - split_and!; [lia|lia| |by apply A13, Hcok1| |done].
    + simpl. split; [done|]. rewrite A10, Hfc by (auto || by rewrite Hfc). unfold CLUSTER_END. lia.
    + intros Hin. destruct (A9 c Hin) as [?|H0]; [done|]. rewrite Hfc in H0. lia.
  - intros d Hd. destruct (A9 d Hd) as [?|H0]; [by left|right]. destruct (decide (d = c)) as [->|Hne]; [done|].
    destruct (decide (0 <= d < entries s)) as [Hdr|Hdr]; [by rewrite <- HF1|]. exfalso. rewrite Forall_forall in A5. destruct (A5 d Hd) as [Hd2 _].
    rewrite A2 in Hd2. change (entries _) with (entries s1) in Hd2. rewrite (step_entries _ _ _ _ _ S1) in Hd2. lia.
  - intros d Hd Hdz Hdn. assert (Hne : d <> c) by (intros ->; done). rewrite <- (HF1 d) in * by (destruct Hd; (done || lia)). by apply A10; auto.
  - intros d Hd Hdz Hdn. assert (Hne : d <> c) by (intros ->; done). rewrite A11; auto. rewrite HF1; [done|destruct Hd; lia|done].
  - rewrite F1 in A12. rewrite Efl. simpl. lia.
  - intros d Hd. by apply A13, Hcok1.
Qed.

(** ** Writing and reading back *)

Lemma same_fields s s' : s' = set_world s (world s') ->
  fat32_mounted s' = fat32_mounted s /\ root_dir_first_cluster s' = root_dir_first_cluster s
  /\ fat32_cluster_size_bytes s' = fat32_cluster_size_bytes s /\ entries s' = entries s.
Proof. by intros ->. Qed.

(** Clusters of a directory survive the write of a file that shares none. *)
Lemma written_dir s s' dc i data os c l dir ds :
  written okw s s' dc i data os c l -> geo_ok okw s -> is_chain (fat s) dir ds -> Forall (clus_ok okw s) ds ->
  (forall x, x ∈ os -> x ∉ ds) ->
  is_chain (fat s') dir ds /\ Forall (clus_ok okw s') ds /\ forall x, x ∈ ds -> x <> dc -> clus s' x = clus s x.
Proof.
  intros Hw G Hch Hok Hdis. pose proof Hok as Hok'. rewrite Forall_forall in Hok'. split_and!.
  - apply (is_chain_ext (fat s)); [|done]. intros x Hx. symmetry.
    apply (w_fat _ _ _ _ _ _ _ _ _ Hw); [auto|by apply (chain_nonfree okw s dir ds)|]. intros Ho. by apply (Hdis x).
  - eapply Forall_impl; [exact Hok|]. apply (w_clus_ok _ _ _ _ _ _ _ _ _ Hw).
  - intros x Hx Hne. apply (w_rest _ _ _ _ _ _ _ _ _ Hw); [auto|by apply (chain_nonfree okw s dir ds)| |done]. intros Ho. by apply (Hdis x).
Qed.

Lemma read_back s s' path leaf ds dc i data os c l :
  written okw s s' dc i data os c l -> geo_ok okw s -> fat32_mounted s = true -> root_path path leaf ->
  is_chain (fat s) (root_dir_first_cluster s) ds -> Forall (clus_ok okw s) ds -> (length ds <= fuel)%nat -> (forall x, x ∈ os -> x ∉ ds) ->
  dir_find (clus s) (fat32_cluster_size_bytes s) (fat32_make_dos_name leaf) leaf ds = Some (dc, i) ->
  is_directory (dirent (clus s dc) i) = false -> needed s (Z.of_nat (length data)) <= Z.of_nat fuel ->
  Z.of_nat (length data) + fat32_cluster_size_bytes s < 2 ^ 32 - 512 ->
  exists b, fat32_read_file_path junk fuel s' path = Some (Some (b, Z.of_nat (length data))) /\ take (length data) b = data.
Proof.
  intros Hw G Hm Hp Hch Hok Hf Hdis Hfind Hnd Hfu Hsz. destruct (dir_find_some _ _ _ _ _ _ _ Hfind) as [Hin Hi].
  destruct (same_fields s s' (w_same _ _ _ _ _ _ _ _ _ Hw)) as (Em & Er & Ecs & Een).
  destruct (written_dir s s' dc i data os c l _ ds Hw G Hch Hok Hdis) as (Hch' & Hok' & Hrest).
  assert (Hdc : clus_ok okw s dc) by (rewrite Forall_forall in Hok; auto). pose proof (w_ok _ _ _ _ _ _ _ _ _ Hw) as V'.
  pose proof (cluster_size_eq okw s G) as Hcs. pose proof (g_spc _ _ G).
  assert (Hfit : (DIR_ENTRY * i + DIR_ENTRY <= length (clus s dc))%nat).
  { rewrite (length_clus okw) by done. unfold DIR_ENTRY. zlia. }
  destruct (updated_fields (dirent (clus s dc) i) c (Z.of_nat (length data))) as (Hul & Huh & Hus & Huz);
    [by apply length_dirent|pose proof (w_start _ _ _ _ _ _ _ _ _ Hw); pose proof (g_entries _ _ G); unfold is_u32, CLUSTER_END in *; lia|unfold is_u32; lia|].
  set (e := updated _ _ _) in *. pose proof (w_entry _ _ _ _ _ _ _ _ _ Hw) as Hce. fold e in Hce.
  assert (Hde : dirent (clus s' dc) i = e) by (rewrite Hce; by apply dirent_splice_eq).
  destruct (entry_head _ _ Huh) as (Hn & Ha & H0 & Hd).
  assert (Hfind' : dir_find (clus s') (fat32_cluster_size_bytes s') (fat32_make_dos_name leaf) leaf ds = Some (dc, i)).
  { rewrite Ecs. apply (dir_find_same (clus s)); try done; [|by rewrite Hde|by rewrite Hde|by rewrite Hde].
    intros j Hj. rewrite Hce. apply dirent_splice_ne; [done|done|lia]. }
  unfold fat32_read_file_path. rewrite Em, Hm. cbn [negb]. rewrite (resolve_root_path s' path leaf) by (done || congruence).
  rewrite Er, (find_entry_spec _ _ okw s' _ leaf ds), Hfind' by (done || apply V'). cbn [lookup_of entry]. rewrite Hde. change (1 <=? 0) with false. cbv iota.
  rewrite Hd, Hnd. cbv zeta. rewrite Huz, Hus. rewrite u32_small by lia.
  pose proof (w_start _ _ _ _ _ _ _ _ _ Hw). rewrite (proj2 (Z.leb_le 2 c)) by lia. rewrite andb_true_r.
  destruct (Z.ltb_spec 0 (Z.of_nat (length data))) as [Hpos|Hpos]; [|eexists; split; [done|]; destruct data; [done|simpl in Hpos; lia]].
  pose proof (w_len _ _ _ _ _ _ _ _ _ Hw) as Hlen. destruct (needed_room okw s (Z.of_nat (length data)) G ltac:(lia)) as (Hr1 & Hr2 & _).
  set (node := Build_fat_node [] c (Z.of_nat (length data)) FS_FILE).
  destruct (fat32_read_chain junk fuel okw s' node 0 (Z.of_nat (length data)) (zeros (Z.to_nat (Z.of_nat (length data) + 1 + 512))) l) as (b & E & Hl & Ht).
  { apply V'. } { done. } { apply (w_chain _ _ _ _ _ _ _ _ _ Hw). } { apply (w_clus _ _ _ _ _ _ _ _ _ Hw). }
  { lia. } { rewrite Ecs, Hlen. lia. } { lia. } { lia. }
  { unfold readable, zeros. rewrite length_replicate. lia. }
  rewrite E. exists b. split; [done|].
  assert (Hm' : readable s' (Z.of_nat (length data)) 0 l = Z.of_nat (length data)) by (unfold readable; rewrite Ecs, Hlen; lia).
  rewrite Hm', Nat2Z.id in Ht. rewrite Ht. unfold sub. rewrite drop_0. apply (w_data _ _ _ _ _ _ _ _ _ Hw).
Qed.

(** The clusters of the root directory. *)
Definition root_dir s (ds : list Z) : Prop :=
  is_chain (fat s) (root_dir_first_cluster s) ds /\ Forall (clus_ok okw s) ds /\ (length ds < fuel)%nat.

(** [os] are the clusters of the file of that name, if there is one; they are
    its own. *)
Definition old_file s (ds : list Z) (leaf : list Z) (os : list Z) : Prop :=
  match dir_find (clus s) (fat32_cluster_size_bytes s) (fat32_make_dos_name leaf) leaf ds with
  | None => os = []
  | Some (dc, i) =>
      is_directory (dirent (clus s dc) i) = false
      /\ old_chain okw s (fat32_entry_start_cluster (dirent (clus s dc) i)) os
      /\ (forall x, x ∈ os -> x ∉ ds) /\ (length os <= fuel)%nat
  end.

Lemma write_existing s path leaf ds os dc i data :
  vol_ok okw s -> fat32_mounted s = true -> root_path path leaf -> is_chain (fat s) (root_dir_first_cluster s) ds -> Forall (clus_ok okw s) ds ->
  (length ds <= fuel)%nat ->
  dir_find (clus s) (fat32_cluster_size_bytes s) (fat32_make_dos_name leaf) leaf ds = Some (dc, i) ->
  is_directory (dirent (clus s dc) i) = false -> old_chain okw s (fat32_entry_start_cluster (dirent (clus s dc) i)) os ->
  (forall x, x ∈ os -> x ∉ ds) -> (length os <= fuel)%nat ->
  Z.of_nat (length data) + fat32_cluster_size_bytes s < 2 ^ 32 - 512 ->
  needed s (Z.of_nat (length data)) <= Z.of_nat (length (free_list s)) -> needed s (Z.of_nat (length data)) <= Z.of_nat fuel ->
  exists lk s' c l b, fat32_resolve_path junk fuel s path = Some (1, lk)
    /\ write_found junk fuel lk data (Z.of_nat (length data)) s = Some (Z.of_nat (length data), s')
    /\ written okw s s' dc i data os c l
    /\ fat32_read_file_path junk fuel s' path = Some (Some (b, Z.of_nat (length data))) /\ take (length data) b = data.
Proof.
  intros V Hm Hp Hch Hok Hf Hfind Hnd Hold Hdis Hfo Hsz Hfree Hfu. pose proof (proj1 V) as G. destruct (dir_find_some _ _ _ _ _ _ _ Hfind) as [Hin Hi].
  assert (Hdc : clus_ok okw s dc) by (rewrite Forall_forall in Hok; auto).
  set (lk := {| dir_cluster := root_dir_first_cluster s; entry_cluster := dc; entry_index := i; entry := dirent (clus s dc) i; found := true |}).
  destruct (write_found_spec junk fuel okw s lk data os) as (s' & c & l & E & Hw); try done; [by apply (chain_nonfree okw s (root_dir_first_cluster s) ds)| |lia|].
  { intros Ho. by apply (Hdis dc). }
  destruct (read_back s s' path leaf ds dc i data os c l) as (b & Eb & Hb); try done.
  exists lk, s', c, l, b. split_and!; try done. rewrite (resolve_root_path s path leaf) by done.
  rewrite (find_entry_spec _ _ okw s _ leaf ds), Hfind by done. done.
Qed.

(** The round trip, and what the write leaves alone. *)
Lemma write_read_back s path leaf ds os data :
  vol_ok okw s -> fat32_mounted s = true -> root_path path leaf -> fat32_is_valid_name leaf = true ->
  root_dir s ds -> old_file s ds leaf os ->
  Z.of_nat (length data) + fat32_cluster_size_bytes s < 2 ^ 32 - 512 ->
  needed s (Z.of_nat (length data)) + 2 <= Z.of_nat (length (free_list s)) -> needed s (Z.of_nat (length data)) <= Z.of_nat fuel ->
  exists s' b, fat32_write_file_path junk fuel path data (Z.of_nat (length data)) s = Some (Z.of_nat (length data), s')
    /\ fat32_read_file_path junk fuel s' path = Some (Some (b, Z.of_nat (length data))) /\ take (length data) b = data
    /\ (mirror s -> mirror s')
    /\ forall d, clus_ok okw s d -> fat s d <> 0 -> d ∉ ds -> d ∉ os -> fat s' d = fat s d /\ clus s' d = clus s d.
Proof.
  intros V Hm Hp Hv (Hch & Hok & Hf) Hold Hsz Hfree Hfu. unfold fat32_write_file_path, mgets. unfold mbind_ at 1. rewrite Hm. cbn [negb].
  unfold old_file in Hold. destruct (dir_find (clus s) _ _ _ ds) as [[dc i]|] eqn:Hfind.
  - destruct Hold as (Hnd & Hoc & Hdis & Hfo).
    destruct (write_existing s path leaf ds os dc i data) as (lk & s' & c & l & b & El & Ew & Hw & Er & Hb); try done; try lia.
    unfold mread at 1. unfold mbind_ at 1. rewrite El. cbn [fst snd]. change (1 <=? 0) with false. cbv iota. exists s', b.
    split_and!; [done|done|done|apply (w_mirror _ _ _ _ _ _ _ _ _ Hw)|]. intros d Hd Hdz Hds Hdo.
    split; [by apply (w_fat _ _ _ _ _ _ _ _ _ Hw)|]. apply (w_rest _ _ _ _ _ _ _ _ _ Hw); try done. intros ->. apply Hds.
    by apply (dir_find_some _ _ _ _ _ _ _ Hfind).
  - subst os. destruct (create_file_spec s path leaf ds) as (s1 & ds' & dc & i & c0 & Ec & [A1 A2 A3 A4 A5 A6 A7 A8 A9 A10 A11 A12 A13 A14]); try done; try lia.
    { destruct (needed_room okw s (Z.of_nat (length data)) (proj1 V) ltac:(lia)) as (_ & _ & ?). lia. }
    destruct (same_fields s s1 A2) as (Em & Er1 & Ecs & Een). assert (En : needed s1 (Z.of_nat (length data)) = needed s (Z.of_nat (length data))) by (by rewrite A2).
    destruct (new_entry_fields (fat32_make_dos_name leaf) 0x20 c0 (length_dos_name leaf)) as (_ & _ & Hattr & _ & Hstart); [unfold is_byte; lia| |].
    { pose proof (g_entries _ _ (proj1 V)). unfold is_u32, CLUSTER_END in *. lia. }
    destruct A9 as (Hc0 & Hc0c & Hc0k & Hc0d & Hc0z).
    destruct (write_existing s1 path leaf ds' [c0] dc i data) as (lk & s' & c & l & b & El & Ew & Hw & Er & Hb); try done; try lia.
    { congruence. } { by rewrite Er1. } { rewrite A8. unfold is_directory. by rewrite Hattr. }
    { rewrite A8, Hstart. right. split_and!; [lia|done|by constructor]. }
    { intros x Hx. by apply list_elem_of_singleton in Hx as ->. } { simpl. lia. } 
    unfold mread at 1. unfold mbind_ at 1. rewrite (resolve_root_path s path leaf), (find_entry_spec _ _ okw s _ leaf ds), Hfind by (done || apply V || lia).
    cbn [lookup_of fst snd]. change (0 <=? 0) with true. cbv iota. unfold mbind_ at 1. rewrite Ec. change (negb (0 =? 0)) with false. cbv iota.
    unfold mread at 1. unfold mbind_ at 1. rewrite El. cbn [fst snd]. change (1 <=? 0) with false. cbv iota. exists s', b.
    split_and!; [done|done|done|intros Hmi; apply (w_mirror _ _ _ _ _ _ _ _ _ Hw); auto|]. intros d Hd Hdz Hds _.
    assert (Hd1 : fat s1 d <> 0) by (by rewrite A11). assert (Hdc0 : d ∉ [c0]) by (intros Hx; apply list_elem_of_singleton in Hx as ->; done).
    split; [rewrite (w_fat _ _ _ _ _ _ _ _ _ Hw) by auto; auto|]. rewrite (w_rest _ _ _ _ _ _ _ _ _ Hw); auto.
    intros ->. destruct (A10 dc) as [?|?]; [by apply (dir_find_some _ _ _ _ _ _ _ A7)|done|done].
Qed.
End Paths.
