(* ===== verification/FatFmt.v ===== *)
(** * FAT32: formatting ([fat32_format])

    The sectors [fat32_format] writes, in order; the progress counter of the
    user interface and the yields between writes are left out.  The result,
    mounted, is an empty volume that satisfies [vol_ok], provided the disk has
    all the clusters the table has entries for. *)

From Stdlib Require Import ZArith Lia String.
From stdpp Require Import base numbers list gmap.
From S2P Require Import Prelude Bytes Fat FatChain FatAlloc FatRead FatName FatDir FatFind FatFile FatPath.

Definition total_sectors : Z := 204800.
Definition sector_size : Z := 512.
Definition reserved_sectors : Z := 32.
Definition sectors_per_cluster : Z := 8.
Definition num_fats : Z := 2.
Definition root_cluster : Z := 2.
Definition fsinfo_sector : Z := 1.
Definition backup_boot_sector : Z := 6.
Definition total_clusters : Z := (total_sectors - reserved_sectors) / sectors_per_cluster.
Definition fat_sz32 : Z := (total_clusters * 4 + (sector_size - 1)) / sector_size.

(** The boot sector. *)
Definition bpb : list Z :=
  let b := zeros SECTOR in
  let b := splice b 3 (str "LIWUSOS ") in
  let b := splice b 0 [0xEB; 0x58; 0x90] in
  let b := put16 b 11 sector_size in
  let b := put8 b 13 8 in
  let b := put16 b 14 32 in
  let b := put8 b 16 2 in
  let b := put8 b 21 0xF8 in
  let b := put32 b 32 total_sectors in
  let b := put32 b 36 fat_sz32 in
  let b := put32 b 44 2 in
  let b := put16 b 48 1 in
  let b := put16 b 50 6 in
  let b := put8 b 64 0x80 in
  let b := put8 b 66 0x29 in
  let b := put32 b 67 0xDEADC0DE in
  let b := splice b 71 (str "LIWUSOSHD  ") in
  let b := splice b 82 (str "FAT32   ") in
  put16 b 510 0xAA55.

Definition fsinfo : list Z :=
  let b := zeros SECTOR in
  let b := put32 b 0 0x41615252 in
  let b := put32 b 484 0x61417272 in
  let b := put32 b 488 (total_clusters - 1) in
  let b := put32 b 492 3 in
  put32 b 508 0xAA550000.

(** The first sector of a table. *)
Definition fat_table : list Z := put32 (put32 (put32 (zeros SECTOR) 0 0x0FFFFFF8) 4 0xFFFFFFFF) 8 0x0FFFFFFF.

Section Format.
Context {W : Type}.

Definition fat32_format : M (vol W) Z :=
  let zero := zeros SECTOR in
  mfor 0 33 (fun i => put_sector i zero) ;;;
  put_sector 0 bpb ;;;
  put_sector backup_boot_sector bpb ;;;
  put_sector fsinfo_sector fsinfo ;;;
  put_sector (backup_boot_sector + 1) fsinfo ;;;
  put_sector reserved_sectors fat_table ;;;
  put_sector (reserved_sectors + fat_sz32) fat_table ;;;
  mfor 1 (Z.to_nat (fat_sz32 - 1)) (fun i =>
    put_sector (reserved_sectors + i) zero ;;; put_sector (reserved_sectors + fat_sz32 + i) zero) ;;;
  (let data_area_start := reserved_sectors + num_fats * fat_sz32 in
   let root_dir_lba := data_area_start + (root_cluster - 2) * sectors_per_cluster in
   mfor 0 (Z.to_nat sectors_per_cluster) (fun i => put_sector (root_dir_lba + i) zero)) ;;;
  mret_ 0.

Variable okw : W -> Z -> Prop.
Implicit Types s : vol W.

(** ** The sectors written *)

(** The clusters of all entries of the table, and what comes before them. *)
Definition disk_end : Z := 432 + (128 * 200 - 2) * 8.

(** Since [s] the disk was only written, and reads as [f]. *)
Definition wrote s s' (f : Z -> list Z) : Prop :=
  s' = set_world s (world s') /\ forall n, 0 <= n < disk_end -> okw (world s') n /\ sec s' n = f n.

Lemma wrote_put s s1 f n b :
  io_ok (io s) okw -> wrote s s1 f -> 0 <= n < disk_end -> length b = SECTOR ->
  exists s2, put_sector n b s1 = Some (tt, s2) /\ wrote s s2 (fupd f n b).
Proof.
  intros Hio [E H] Hn Hb. destruct (put_sector_upd okw s1 n b) as (s2 & E2 & U2 & H2); [by rewrite E|by apply H|done|].
  exists s2. split; [done|]. split; [rewrite U2; rewrite E at 1; done|]. intros m Hm. destruct (H m Hm) as [Hok Hf].
  destruct (H2 m Hok) as [? ->]. split; [done|]. unfold fupd. case_decide; done.
Qed.

(** A loop that clears the sectors [at1 + k] and [at2 + k]. *)
Lemma wrote_clear s s1 f n i at1 at2 body :
  io_ok (io s) okw -> wrote s s1 f ->
  (forall k, body k = (put_sector (at1 + k) (zeros SECTOR) ;;; put_sector (at2 + k) (zeros SECTOR))) ->
  0 <= at1 + i -> 0 <= at2 + i -> at1 + i + Z.of_nat n <= disk_end -> at2 + i + Z.of_nat n <= disk_end ->
  exists s2, mfor i n body s1 = Some (tt, s2)
    /\ wrote s s2 (fun m => if decide (at1 + i <= m < at1 + i + Z.of_nat n \/ at2 + i <= m < at2 + i + Z.of_nat n) then zeros SECTOR else f m).
Proof.
  intros Hio H Hb. revert s1 f i H. induction n as [|n IH]; intros s1 f i [E H] H1 H2 H3 H4.
  - exists s1. split; [done|]. split; [done|]. intros m Hm. rewrite decide_False by lia. by apply H.
  - cbn [mfor]. rewrite Hb. unfold mbind_ at 1. unfold mbind_ at 1.
    destruct (wrote_put s s1 f (at1 + i) (zeros SECTOR) Hio (conj E H)) as (s2 & -> & W2); [lia|done|].
    destruct (wrote_put s s2 _ (at2 + i) (zeros SECTOR) Hio W2) as (s3 & -> & W3); [lia|done|].
    destruct (IH s3 _ (i + 1) W3) as (s4 & -> & W4); [lia|lia|lia|lia|]. exists s4. split; [done|]. destruct W4 as [E4 W4]. split; [done|].
    intros m Hm. destruct (W4 m Hm) as [? ->]. split; [done|]. unfold fupd. repeat case_decide; try done; lia.
Qed.

(** The same for one sector per round. *)
Lemma wrote_clear1 s s1 f n i at1 body :
  io_ok (io s) okw -> wrote s s1 f -> (forall k, body k = put_sector (at1 + k) (zeros SECTOR)) -> 0 <= at1 + i -> at1 + i + Z.of_nat n <= disk_end ->
  exists s2, mfor i n body s1 = Some (tt, s2)
    /\ wrote s s2 (fun m => if decide (at1 + i <= m < at1 + i + Z.of_nat n) then zeros SECTOR else f m).
Proof.
  intros Hio H Hb. revert s1 f i H. induction n as [|n IH]; intros s1 f i [E H] H1 H3.
  - exists s1. split; [done|]. split; [done|]. intros m Hm. rewrite decide_False by lia. by apply H.
  - cbn [mfor]. rewrite Hb. unfold mbind_ at 1.
    destruct (wrote_put s s1 f (at1 + i) (zeros SECTOR) Hio (conj E H)) as (s2 & -> & W2); [lia|done|].
    destruct (IH s2 _ (i + 1) W2) as (s4 & -> & W4); [lia|lia|]. exists s4. split; [done|]. destruct W4 as [E4 W4]. split; [done|].
    intros m Hm. destruct (W4 m Hm) as [? ->]. split; [done|]. unfold fupd. repeat case_decide; try done; lia.
Qed.

(** The disk after formatting, from the boot sector to the root directory. *)
Definition formatted s : Prop :=
  (forall n, 0 <= n < disk_end -> okw (world s) n) /\ sec s 0 = bpb /\ sec s 32 = fat_table /\ sec s 232 = fat_table
  /\ (forall n, 33 <= n < 232 \/ 233 <= n < 440 -> sec s n = zeros SECTOR).

Lemma format_sectors s :
  io_ok (io s) okw -> (forall n, 0 <= n < disk_end -> okw (world s) n) ->
  exists s', fat32_format s = Some (0, s') /\ s' = set_world s (world s') /\ formatted s'.
Proof.
  intros Hio Hd. assert (H0 : wrote s s (sec s)) by (split; [by destruct s|auto]).
  assert (Hde : disk_end = 205216) by done. assert (Hfz : fat_sz32 = 200) by (vm_compute; reflexivity).
  unfold fat32_format. cbv zeta. rewrite Hfz.
  destruct (wrote_clear1 s s _ 33 0 0 (fun i => put_sector i (zeros SECTOR)) Hio H0) as (s1 & E1 & W1); [done|lia|lia|].
  unfold mbind_ at 1. rewrite E1.
  destruct (wrote_put s s1 _ 0 bpb Hio W1) as (s2 & E2 & W2); [lia|vm_compute; reflexivity|]. unfold mbind_ at 1. rewrite E2.
  destruct (wrote_put s s2 _ backup_boot_sector bpb Hio W2) as (s3 & E3 & W3); [done|vm_compute; reflexivity|]. unfold mbind_ at 1. rewrite E3.
  destruct (wrote_put s s3 _ fsinfo_sector fsinfo Hio W3) as (s4 & E4 & W4); [done|vm_compute; reflexivity|]. unfold mbind_ at 1. rewrite E4.
  destruct (wrote_put s s4 _ (backup_boot_sector + 1) fsinfo Hio W4) as (s5 & E5 & W5); [done|vm_compute; reflexivity|]. unfold mbind_ at 1. rewrite E5.
  destruct (wrote_put s s5 _ reserved_sectors fat_table Hio W5) as (s6 & E6 & W6); [done|vm_compute; reflexivity|]. unfold mbind_ at 1. rewrite E6.
  destruct (wrote_put s s6 _ (reserved_sectors + 200) fat_table Hio W6) as (s7 & E7 & W7); [done|vm_compute; reflexivity|]. unfold mbind_ at 1. rewrite E7.
  destruct (wrote_clear s s7 _ (Z.to_nat (200 - 1)) 1 reserved_sectors (reserved_sectors + 200) _ Hio W7 (fun k => eq_refl)) as (s8 & E8 & W8);
    [done|done|done|done|]. unfold mbind_ at 1. rewrite E8.
  destruct (wrote_clear1 s s8 _ (Z.to_nat sectors_per_cluster) 0 (reserved_sectors + num_fats * 200 + (root_cluster - 2) * sectors_per_cluster) _ Hio W8 (fun k => eq_refl))
    as (s9 & E9 & W9); [done|done|]. unfold mbind_. rewrite E9. exists s9. split_and!; [done|apply W9|].
  destruct W9 as [_ W9]. change (reserved_sectors + num_fats * 200 + (root_cluster - 2) * sectors_per_cluster) with 432 in W9.
  change (Z.of_nat (Z.to_nat sectors_per_cluster)) with 8 in W9. change reserved_sectors with 32 in W9. change (Z.of_nat (Z.to_nat (200 - 1))) with 199 in W9.
  change (32 + 200) with 232 in W9. change (backup_boot_sector + 1) with 7 in W9. change backup_boot_sector with 6 in W9. change fsinfo_sector with 1 in W9.
  unfold fupd in W9. assert (HW : forall n, 0 <= n < disk_end -> sec s9 n = _) by (intros n Hn; exact (proj2 (W9 n Hn))).
  split_and!.
  - intros n Hn. by apply W9.
  - rewrite HW by lia. done.
  - rewrite HW by lia. done.
  - rewrite HW by lia. done.
  - intros n Hn. rewrite HW by lia. repeat case_decide; try done; lia.
Qed.

(** ** Mounting it *)

(** The volume with the geometry [fat32_format] writes. *)
Definition mounted_vol s : vol W :=
  {| world := world s; io := io s; boot_sector := bpb; fat_begin_lba := 32; cluster_begin_lba := 432; root_dir_first_cluster := 2;
     fat32_mounted := true |}.

Lemma mount_formatted s :
  io_ok (io s) okw -> formatted s -> fat32_mount 0 s = (Some 2, mounted_vol s).
Proof.
  intros Hio (Hok & H0 & _). destruct (io_read _ _ Hio (world s) 0 (Hok 0 ltac:(done))) as (b & Eb & Hb).
  unfold sec in H0. rewrite Eb in H0. simpl in H0. subst b. unfold fat32_mount. rewrite Eb.
  assert (Et : take SECTOR bpb = bpb) by (vm_compute; reflexivity). rewrite !Et. cbv zeta.
  rewrite bool_decide_true by (vm_compute; reflexivity). cbn [negb]. reflexivity.
Qed.

Lemma fat_table_entry (i : Z) : 0 <= i < 128 -> fat_entry fat_table (Z.to_nat i) = if decide (i < 3) then (if decide (i = 0) then 0x0FFFFFF8 else 0x0FFFFFFF) else 0.
Proof.
  intros Hi. unfold fat_entry, fat_table. assert (Hz : length (zeros SECTOR) = 512%nat) by apply length_replicate.
  assert (Hg : forall o, (o + 4 <= 512)%nat -> get32 (zeros SECTOR) o = 0).
  { intros o Ho. unfold get32, sub, zeros. rewrite drop_replicate, take_replicate. replace (4 `min` (SECTOR - o))%nat with 4%nat by (unfold SECTOR; lia). done. }
  destruct (decide (i = 0)) as [->|]; [vm_compute; reflexivity|]. destruct (decide (i = 1)) as [->|]; [vm_compute; reflexivity|].
  destruct (decide (i = 2)) as [->|]; [vm_compute; reflexivity|]. rewrite decide_False by lia.
  rewrite !get32_put32_ne by blen. by rewrite Hg by lia.
Qed.

Lemma formatted_fat s c :
  formatted s -> 0 <= c < 25600 -> fat (mounted_vol s) c = if decide (c < 3) then (if decide (c = 0) then 0x0FFFFFF8 else 0x0FFFFFFF) else 0.
Proof.
  intros (_ & _ & H32 & _ & Hz) Hc. unfold fat. change (fat_begin_lba (mounted_vol s)) with 32. change (sec (mounted_vol s)) with (sec s).
  pose proof (Z.div_mod c 128 ltac:(lia)). pose proof (Z.mod_pos_bound c 128 ltac:(lia)).
  destruct (decide (c / 128 = 0)) as [E|E].
  - rewrite E. change (32 + 0) with 32. rewrite H32, fat_table_entry by lia. replace (c mod 128) with c by lia. done.
  - assert (0 < c / 128 < 200) by (split; [pose proof (Z.div_pos c 128); lia|apply Z.div_lt_upper_bound; lia]).
    rewrite Hz by lia. rewrite (decide_False (P := c < 3)) by lia. unfold fat_entry, get32, sub, zeros.
    rewrite drop_replicate, take_replicate. replace (4 `min` (SECTOR - 4 * Z.to_nat (c mod 128)))%nat with 4%nat by (unfold SECTOR; lia). done.
Qed.

Lemma filter_all_true (P : Z -> Prop) `{!forall x, Decision (P x)} l : Forall P l -> filter P l = l.
Proof. induction 1 as [|x l Hx _ IH]; [done|]. rewrite filter_cons, decide_True, IH by done. done. Qed.

Lemma formatted_free s : formatted s -> free_list (mounted_vol s) = seqZ 3 25597.
Proof.
  intros H. unfold free_list. assert (E : entries (mounted_vol s) = 3 + 25597) by (vm_compute; reflexivity). rewrite E.
  rewrite seqZ_app, filter_app by lia. rewrite (filter_all_true _ (seqZ (0 + 3) 25597)).
  - change (seqZ 0 3) with [0; 1; 2]. rewrite !filter_cons, !formatted_fat by (done || lia). done.
  - apply Forall_forall. intros c Hc. apply elem_of_seqZ in Hc. rewrite formatted_fat by (done || lia). by rewrite decide_False by lia.
Qed.

Lemma formatted_clus_ok s c : formatted s -> 2 <= c < 25600 -> clus_ok okw (mounted_vol s) c.
Proof.
  intros (Hok & _) Hc. assert (E : entries (mounted_vol s) = 25600) by (vm_compute; reflexivity).
  assert (Es : BPB_SecPerClus (mounted_vol s) = 8) by (vm_compute; reflexivity). unfold clus_ok, clus_at. rewrite E, Es.
  change (cluster_begin_lba (mounted_vol s)) with 432. split_and!; [lia|lia|lia|]. intros i Hi. apply Hok. change disk_end with 205216. lia.
Qed.

Lemma formatted_geo s : io_ok (io s) okw -> formatted s -> geo_ok okw (mounted_vol s).
Proof.
  intros Hio (Hok & _). constructor; try done.
  intros n Hn. apply Hok. change disk_end with 205216. change (fat_begin_lba (mounted_vol s)) with 32 in Hn.
  change (cluster_begin_lba (mounted_vol s)) with 432 in Hn. lia.
Qed.

Lemma formatted_volume s :
  io_ok (io s) okw -> formatted s ->
  vol_ok okw (mounted_vol s) /\ mirror (mounted_vol s) /\ is_chain (fat (mounted_vol s)) 2 [2]
  /\ clus (mounted_vol s) 2 = zeros (Z.to_nat (fat32_cluster_size_bytes (mounted_vol s))).
Proof.
  intros Hio Hf. split_and!.
  - split; [by apply formatted_geo|]. rewrite formatted_free by done. apply Forall_forall. intros c Hc. apply elem_of_seqZ in Hc.
    apply formatted_clus_ok; [done|lia].
  - destruct Hf as (_ & _ & H32 & H232 & Hz). intros k j Hk Hj. change (BPB_NumFATs (mounted_vol s)) with 2 in Hk.
    change (BPB_FATSz32 (mounted_vol s)) with 200 in *. change (fat_begin_lba (mounted_vol s)) with 32. change (sec (mounted_vol s)) with (sec s).
    destruct (decide (k = 0)) as [->|]; [f_equal; lia|]. assert (k = 1) as -> by lia.
    destruct (decide (j = 0)) as [->|]; [change (32 + 1 * 200 + 0) with 232; change (32 + 0) with 32; congruence|]. rewrite !Hz by lia. done.
  - split; [done|]. rewrite formatted_fat by done. unfold CLUSTER_END. done.
  - destruct Hf as (_ & _ & _ & _ & Hz). unfold clus. change (clus_at (mounted_vol s) 2) with 432. change (BPB_SecPerClus (mounted_vol s)) with 8.
    change (sec (mounted_vol s)) with (sec s). rewrite (map_ext_elem _ (fun _ => zeros SECTOR)).
    + vm_compute. reflexivity.
    + intros x Hx. apply elem_of_seqZ in Hx. apply Hz. lia.
Qed.

Lemma dir_find_zeros n size dos name c : size = Z.of_nat n -> (32 <= n)%nat -> dir_find (fun _ => zeros n) size dos name [c] = None.
Proof.
  intros -> Hn. simpl. destruct (Z.to_nat (Z.of_nat n / 32)) eqn:En; [zlia|]. simpl. unfold dirent. by destruct n.
Qed.
End Format.
