(* ===== verification/FatTop.v ===== *)
(** * FAT32: the theorems, on a disk in memory

    The properties of the file system, each with a use of it on a small volume
    held in memory ([ram_io]), and runs of the code that show what it gets
    wrong. *)

From Stdlib Require Import ZArith Lia String.
From stdpp Require Import base numbers list gmap.
From S2P Require Import Prelude Bytes Fat FatChain FatAlloc FatRead FatName FatDir FatFind FatFile FatPath FatFmt.

(** ** A disk in memory *)

Abbreviation ram := (gmap Z (list Z)).

Definition ram_get (w : ram) (n : Z) : list Z := default (zeros SECTOR) (w !! n).

Definition ram_read (total : Z) (w : ram) (n : Z) : option (list Z) :=
  if ((0 <=? n) && (n <? total))%bool then Some (ram_get w n) else None.

Definition ram_write (total : Z) (w : ram) (n : Z) (b : list Z) : bool * ram :=
  if ((0 <=? n) && (n <? total))%bool then (true, <[n := b]> w) else (false, w).

Definition ram_read_blocks (total : Z) (w : ram) (n k : Z) : option (list Z) :=
  if ((0 <=? n) && (n + k <=? total))%bool then Some (concat (map (ram_get w) (seqZ n k))) else None.

Definition ram_io (total : Z) (batched : bool) : block_io ram :=
  {| read_block := ram_read total; write_block := ram_write total;
     read_blocks := if batched then Some (ram_read_blocks total) else None |}.

Definition ram_ok (total : Z) (w : ram) (n : Z) : Prop := 0 <= n < total /\ map_Forall (fun _ b => length b = SECTOR) w.

Lemma ram_io_ok total batched : io_ok (ram_io total batched) (ram_ok total).
Proof.
  assert (Hg : forall (w : ram) n, map_Forall (fun _ b => length b = SECTOR) w -> length (ram_get w n) = SECTOR).
  { intros w n H. unfold ram_get. destruct (w !! n) as [b|] eqn:E; [exact (H n b E)|]. apply length_replicate. }
  assert (Hb : forall n, 0 <= n < total -> ((0 <=? n) && (n <? total))%bool = true).
  { intros n Hn. by rewrite (proj2 (Z.leb_le _ _)), (proj2 (Z.ltb_lt _ _)) by lia. }
  constructor; simpl.
  - intros w n [Hn Hw]. unfold ram_read. rewrite Hb by done. eauto.
  - intros w n b [Hn Hw] Hl. unfold ram_write, ram_read. rewrite Hb by done. eexists. split; [done|]. intros m [Hm _]. split.
    + split; [done|]. by apply map_Forall_insert_2.
    + rewrite Hb by done. unfold ram_get. case_decide as E; [subst m; by rewrite lookup_insert_eq|]. by rewrite lookup_insert_ne.
  - intros rb w n k E Hk H. destruct batched; [|done]. simplify_eq. unfold ram_read_blocks.
    destruct (H 0 ltac:(lia)) as [H0 Hw]. destruct (H (Z.of_nat k - 1) ltac:(lia)) as [H1 _].
    rewrite (proj2 (Z.leb_le _ _)), (proj2 (Z.leb_le _ _)) by lia. cbn [andb]. f_equal. f_equal. apply map_ext_elem. intros x Hx.
    apply elem_of_seqZ in Hx. unfold ram_read. by rewrite Hb by lia.
Qed.

(** ** A small volume

    One table sector (128 entries), one sector per cluster, the root directory
    in cluster 2 with the file OLD.TXT of cluster 3. *)

Definition demo_boot : list Z :=
  put32 (put32 (put8 (put8 (put16 (zeros SECTOR) 11 512) 13 1) 16 2) 36 1) 44 2.

Definition demo_fat : list Z := put32 (put32 (put32 (put32 (zeros SECTOR) 0 0x0FFFFFF8) 4 0x0FFFFFFF) 8 0x0FFFFFFF) 12 0x0FFFFFFF.

Definition demo_dir : list Z :=
  splice (zeros SECTOR) 0 (put32 (new_entry (fat32_make_dos_name (str "OLD.TXT")) 0x20 3) 28 5).

Definition demo_disk : ram := <[1 := demo_fat]> (<[2 := demo_fat]> (<[3 := demo_dir]> {[4 := splice (zeros SECTOR) 0 (str "hello")]})).

Definition demo (batched : bool) : vol ram :=
  {| world := demo_disk; io := ram_io 129 batched; boot_sector := demo_boot; fat_begin_lba := 1; cluster_begin_lba := 3;
     root_dir_first_cluster := 2; fat32_mounted := true |}.

Lemma demo_fields batched :
  BPB_BytsPerSec (demo batched) = 512 /\ BPB_SecPerClus (demo batched) = 1 /\ BPB_NumFATs (demo batched) = 2 /\ BPB_FATSz32 (demo batched) = 1.
Proof. vm_compute. done. Qed.

Lemma demo_sectors n : 0 <= n < 129 -> ram_ok 129 demo_disk n.
Proof.
  intros Hn. split; [done|]. unfold demo_disk. repeat apply map_Forall_insert_2; [vm_compute; done..|apply map_Forall_empty].
Qed.

Lemma demo_geo batched : geo_ok (ram_ok 129) (demo batched).
Proof.
  destruct (demo_fields batched) as (H1 & H2 & H3 & H4). constructor; unfold entries; rewrite ?H1, ?H2, ?H3, ?H4; try done.
  - apply ram_io_ok.
  - intros n Hn. simpl in Hn. apply demo_sectors. lia.
Qed.

Lemma demo_clus batched c : 2 <= c < 128 -> clus_ok (ram_ok 129) (demo batched) c.
Proof.
  intros Hc. destruct (demo_fields batched) as (H1 & H2 & H3 & H4). unfold clus_ok, clus_at, entries. rewrite H2, H4. simpl.
  split_and!; [lia|lia|lia|]. intros i Hi. apply demo_sectors. lia.
Qed.

Lemma demo_ok batched : vol_ok (ram_ok 129) (demo batched).
Proof.
  split; [apply demo_geo|]. apply Forall_forall. intros c Hc. apply free_list_elem in Hc as [Hz Hc]. apply demo_clus.
  unfold entries in Hc. destruct (demo_fields batched) as (_ & _ & _ & H4). rewrite H4 in Hc. split; [|lia].
  destruct (decide (c = 0)) as [->|]; [destruct batched; vm_compute in Hz; done|].
  destruct (decide (c = 1)) as [->|]; [destruct batched; vm_compute in Hz; done|]. lia.
Qed.

Lemma demo_free batched : length (free_list (demo batched)) = 124%nat.
Proof. destruct batched; by_vm. Qed.

Lemma demo_chain batched c : (c = 2 \/ c = 3) -> is_chain (fat (demo batched)) c [c].
Proof. intros [-> | ->]; (split; [done|]); destruct batched; vm_compute; discriminate. Qed.

(** ** Properties *)

Section Properties.
Context {W : Type}.
Variable junk : list Z.
Variable fuel : nat.
Variable okw : W -> Z -> Prop.
Implicit Types s : vol W.

(** C5: A file written with [fat32_write_file_path] in the root directory is
    read back byte for byte by [fat32_read_file_path], whether it replaces a
    file or is new (then it gets a directory slot, in a new cluster if the
    directory is full); the copies of the allocation table stay identical, and
    every cluster in use outside the directory and the replaced file keeps its
    table entry and its contents. *)
Theorem fat32_write_read_back s path leaf ds os data :
  vol_ok okw s -> fat32_mounted s = true -> root_path path leaf -> fat32_is_valid_name leaf = true ->
  root_dir fuel okw s ds -> old_file fuel okw s ds leaf os ->
  Z.of_nat (length data) + fat32_cluster_size_bytes s < 2 ^ 32 - 512 ->
  needed s (Z.of_nat (length data)) + 2 <= Z.of_nat (length (free_list s)) -> needed s (Z.of_nat (length data)) <= Z.of_nat fuel ->
  exists s' b, fat32_write_file_path junk fuel path data (Z.of_nat (length data)) s = Some (Z.of_nat (length data), s')
    /\ fat32_read_file_path junk fuel s' path = Some (Some (b, Z.of_nat (length data))) /\ take (length data) b = data
    /\ (mirror s -> mirror s')
    /\ forall d, clus_ok okw s d -> fat s d <> 0 -> d ∉ ds -> d ∉ os -> fat s' d = fat s d /\ clus s' d = clus s d.
Proof. apply write_read_back. Qed.

(** [fat32_allocate_cluster_chain] either returns a chain of the requested
    number of clusters, the first free ones, zeroed and linked in order, and
    changes nothing else; or, when there are not enough, returns 0 and leaves the
    table as it was, having freed what it took. *)
Theorem fat32_allocate_all_or_nothing s n :
  vol_ok okw s -> (0 < n)%nat -> (length (free_list s) <= fuel)%nat ->
  let l := take n (free_list s) in
  exists c s', fat32_allocate_cluster_chain junk fuel (Z.of_nat n) s = Some (c, s') /\ (mirror s -> mirror s')
    /\ if (n <=? length (free_list s))%nat
       then is_chain (fat s') c l /\ length l = n /\ NoDup l
            /\ (forall d, d ∈ l -> clus s' d = zeros (Z.to_nat (fat32_cluster_size_bytes s)))
            /\ (forall d, 0 <= d < entries s -> d ∉ l -> fat s' d = fat s d)
            /\ (forall d, clus_ok okw s d -> d ∉ l -> clus s' d = clus s d)
       else c = 0 /\ (forall d, 0 <= d < entries s -> fat s' d = fat s d)
            /\ (forall d, clus_ok okw s d -> fat s d <> 0 -> clus s' d = clus s d).
Proof.
  intros V Hn Hf l. pose proof (free_list_in_table okw s V) as Ht. destruct (Nat.leb_spec n (length (free_list s))) as [Hle|Hgt].
  - destruct (allocate_chain_ok junk fuel okw s n V ltac:(lia)) as (c & s' & E & Hc & (_ & _ & Sm & SF & SC) & _ & _). fold l in SF, SC.
    assert (Hl : exists t, l = c :: t).
    { unfold l. destruct (free_list s) as [|x t']; [done|]. destruct n; [lia|]. simplify_eq/=. by eexists. }
    destruct Hl as [t Hl]. assert (Hnd : NoDup l) by (eapply sublist_NoDup; [apply (free_list_NoDup s)|apply sublist_take]).
    pose proof (taken_ok okw s n V) as Hok. fold l in Hok. rewrite Forall_forall in Hok.
    exists c, s'. split_and!; [done|done| |unfold l; rewrite length_take; lia|done| | |].
    + apply (is_chain_ext (link l (fat s))); [|by apply (link_chain l (fat s) c t)]. intros x Hx. symmetry. apply SF. destruct (Hok x Hx). lia.
    + intros d Hd. rewrite SC by auto. unfold zeroed. by rewrite decide_True.
    + intros d Hd Hdl. rewrite SF by done. by apply link_out.
    + intros d Hd Hdl. rewrite SC by done. unfold zeroed. by rewrite decide_False.
  - destruct (allocate_chain_full junk fuel okw s n V Hgt Hf) as (s' & E & (_ & _ & Sm & SF & SC)). exists 0, s'. split_and!; try done.
    intros d Hd Hdz. rewrite SC by done. unfold zeroed. rewrite decide_False; [done|]. intros Hin. apply free_list_elem in Hin. lia.
Qed.


(** C38: [fat32_resolve_directory] accepts exactly the paths that consist of
    slashes only, and gives the root directory: no path with a component below
    the root ever resolves, because the result of the lookup is negated before
    it is compared. *)
Theorem fat32_only_root_resolves s path c :
  no_nul path ->
  fat32_resolve_directory junk fuel s path = Some (Some c)
  <-> fat32_mounted s = true /\ path <> [] /\ slashes path /\ c = root_dir_first_cluster s.
Proof. apply resolve_directory_iff. Qed.

End Properties.

(** ** On the small volume *)

Lemma demo_root batched : root_dir 200 (ram_ok 129) (demo batched) [2].
Proof.
  split_and!; [apply demo_chain; by left|constructor; [by apply demo_clus|constructor]|simpl; lia].
Qed.

Lemma demo_find : dir_find (clus (demo true)) (fat32_cluster_size_bytes (demo true)) (fat32_make_dos_name (str "old.txt")) (str "old.txt") [2] = Some (2, 0%nat).
Proof. by_vm. Qed.

Lemma demo_old : old_file 200 (ram_ok 129) (demo true) [2] (str "old.txt") [3].
Proof.
  unfold old_file. rewrite demo_find. assert (E : fat32_entry_start_cluster (dirent (clus (demo true) 2) 0) = 3) by by_vm. rewrite E. split_and!.
  - by_vm.
  - right. split_and!; [lia|apply demo_chain; by right|constructor; [by apply demo_clus|constructor]].
  - intros x Hx. apply list_elem_of_singleton in Hx as ->. rewrite list_elem_of_singleton. lia.
  - simpl. lia.
Qed.

Lemma demo_path leaf : leaf = str "old.txt" -> root_path (str "/old.txt") leaf.
Proof. intros ->. split_and!; try done. apply Forall_singleton. done. Qed.

Lemma fat32_write_read_back_witness :
  exists s' b, fat32_write_file_path [] 200 (str "/old.txt") (str "new text") 8 (demo true) = Some (8, s')
    /\ fat32_read_file_path [] 200 s' (str "/old.txt") = Some (Some (b, 8)) /\ take 8 b = str "new text".
Proof.
  destruct (fat32_write_read_back [] 200 (ram_ok 129) (demo true) (str "/old.txt") (str "old.txt") [2] [3] (str "new text"))
    as (s' & b & H1 & H2 & H3 & _).
  - apply demo_ok.
  - reflexivity.
  - by apply demo_path.
  - reflexivity.
  - apply demo_root.
  - apply demo_old.
  - reflexivity.
  - rewrite demo_free. vm_compute. discriminate.
  - vm_compute. discriminate.
  - exists s', b. split; [exact H1|]. split; [exact H2|exact H3].
Defined.

Lemma fat32_allocate_all_or_nothing_witness :
  exists c s', fat32_allocate_cluster_chain [] 200 3 (demo true) = Some (c, s').
Proof.
  destruct (fat32_allocate_all_or_nothing [] 200 (ram_ok 129) (demo true) 3) as (c & s' & H & _).
  - apply demo_ok.
  - lia.
  - rewrite demo_free. lia.
  - exists c, s'. exact H.
Defined.


Lemma fat32_only_root_resolves_witness :
  fat32_resolve_directory [] 200 (demo true) (str "/docs") = Some (Some 2)
  <-> fat32_mounted (demo true) = true /\ str "/docs" <> [] /\ slashes (str "/docs") /\ 2 = root_dir_first_cluster (demo true).
Proof. apply (fat32_only_root_resolves [] 200 (demo true) (str "/docs") 2). repeat constructor; discriminate. Defined.

Definition blank : vol ram :=
  {| world := ∅; io := ram_io disk_end true; boot_sector := []; fat_begin_lba := 0; cluster_begin_lba := 0;
     root_dir_first_cluster := 0; fat32_mounted := false |}.


(** ** What the code gets wrong *)

(** A batched read writes whole sectors: with a buffer of exactly the size
    asked for, as the node callback gets it, it writes past its end. *)
Theorem fat32_read_overruns_buffer :
  fat32_read [] 200 (demo true) (Build_fat_node [] 3 5 FS_FILE) 0 5 (zeros 5) = None
  /\ fat32_read [] 200 (demo false) (Build_fat_node [] 3 5 FS_FILE) 0 5 (zeros 5) = Some (5, str "hello").
Proof. split; by_vm. Qed.

(** On a disk that refuses every write, as the pen drive does, a write is
    reported as complete. *)
Definition read_only (f : block_io ram) : block_io ram :=
  {| read_block := read_block f; write_block := fun w _ _ => (false, w); read_blocks := read_blocks f |}.

Theorem fat32_write_reports_success_read_only :
  match fat32_write_file_path [] 200 (str "/old.txt") (str "new text") 8 (set_io (demo true) (read_only (ram_io 129 true))) with
  | Some (r, s') => Some (r, match fat32_read_file_path [] 200 s' (str "/old.txt") with Some (Some (b, n)) => take 5 b | _ => [] end)
  | None => None
  end = Some (8, str "hello").
Proof. by_vm. Qed.

(** The entries of a table of [fat32_format] go beyond the volume: cluster
    25548 starts at the sector the boot sector gives as the end, and the
    allocator hands it out once the clusters before it are taken. *)
Theorem fat32_allocates_past_volume {W} junk (okw : W -> Z -> Prop) (s : vol W) :
  geo_ok okw s -> boot_sector s = bpb -> cluster_begin_lba s = 432 ->
  (forall c, 0 <= c < 25548 -> fat s c <> 0) -> fat s 25548 = 0 ->
  fat32_find_free_cluster junk s = Some 25548 /\ cluster_lba s 25548 = total_sectors /\ get32 (boot_sector s) 32 = total_sectors.
Proof.
  intros G Hb Hc Hu Hf. assert (He : entries s = 25548 + 52) by (unfold entries, BPB_FATSz32; rewrite Hb; vm_compute; reflexivity).
  split_and!.
  - rewrite (find_free_cluster_head junk okw) by done. unfold free_list. rewrite He, seqZ_app, filter_app by lia.
    rewrite (filter_ext_elem (fun c => fat s c = 0) (fun _ => False) (seqZ 0 25548)).
    + assert (E : forall l : list Z, filter (fun _ => False) l = []) by (induction l as [|x l IH]; [done|]; rewrite filter_cons, decide_False by tauto; done).
      rewrite E. rewrite seqZ_cons by lia. rewrite filter_cons, decide_True by (by rewrite Z.add_0_l). done.
    + intros c Hc'. apply elem_of_seqZ in Hc'. split; [|done]. apply Hu. lia.
  - unfold cluster_lba. rewrite Hc. unfold BPB_SecPerClus. rewrite Hb. vm_compute. reflexivity.
  - rewrite Hb. vm_compute. reflexivity.
Qed.

(** A long entry with up to 13 characters. *)
Fixpoint put_units (e : list Z) (offs : list nat) (name : list Z) : list Z :=
  match offs, name with
  | o :: offs', c :: name' => put_units (put16 e o c) offs' name'
  | _, _ => e
  end.

Definition lfn_entry (name : list Z) : list Z := put_units (put8 (put8 (zeros DIR_ENTRY) 0 0x41) 11 0x0F) lfn_offsets name.

(** The small volume with the file [My song.mp3], short name MYSONG~1.MP3. *)
Definition demo_song : vol ram :=
  set_world (demo true)
    (<[3 := splice (zeros SECTOR) 0 (lfn_entry (str "My song.mp3") ++ put32 (new_entry (str "MYSONG~1MP3") 0x20 3) 28 5)]> demo_disk).

(** Deleting a file leaves its long entries; the next file created takes the
    slot behind them, and with it the long name. *)
Theorem fat32_slot_inherits_long_name :
  match (r1 <-- fat32_delete_path [] 200 (str "/my SONG.mp3") ;; r2 <-- fat32_create_file_path [] 200 (str "/B.TXT") ;; mret_ (r1, r2)) demo_song with
  | Some (r, s') =>
      Some (r, match fat32_resolve_path [] 200 s' (str "/My song.mp3") with Some (f, lk) => (f, DIR_Name (entry lk)) | None => (0, []) end)
  | None => None
  end = Some ((0, 0), (1, str "B       TXT")).
Proof. by_vm. Qed.
