(* ===== verification/Pen.v ===== *)
(** * The pen drive ([src/src/fs/pen.c])

    The songs on a FAT32 pen drive.  The SCSI layer is a parameter: reading
    [count] blocks from [lba] on, and whether a medium is present, on its state
    [D].  The state of [fat32.c] is part of [pen]; [s_volume_lba] is in its
    [world], since the block callbacks read it on every call. *)

From Stdlib Require Import ZArith Lia String.
From stdpp Require Import base numbers list gmap.
From S2P Require Import Prelude Bytes Fat FatName FatDir FatChain FatAlloc FatTop.

Definition PEN_MAX_SONGS : Z := 32.
Definition PEN_NAME_MAX : Z := 64.

Record pen_world (D : Type) := { scsi : D; s_volume_lba : Z }.
Arguments scsi {D}. Arguments s_volume_lba {D}.

Record pen (D : Type) := {
  p_vol : vol (pen_world D);
  s_mounted : bool;
  s_gen : Z;
  (** [s_names] and [s_sizes], [s_count] of them *)
  s_songs : list (list Z * Z)
}.
Arguments p_vol {D}. Arguments s_mounted {D}. Arguments s_gen {D}. Arguments s_songs {D}.

Definition s_count {D} (p : pen D) : Z := Z.of_nat (length (s_songs p)).

Definition pen_is_mp3 (name : list Z) : bool :=
  let len := length name in
  if (len <? 5)%nat then false else
  let p i := name.[Z.of_nat len - 4 + i] in
  ((p 0 =? DOT) && ((p 1 =? 109) || (p 1 =? 77)) && ((p 2 =? 112) || (p 2 =? 80)) && (p 3 =? 51))%bool.

(** [(ch >= 'A' && ch <= 'Z') ? ch + ('a' - 'A') : ch] *)
Definition lower (ch : Z) : Z := if ((65 <=? ch) && (ch <=? 90))%bool then ch + 32 else ch.

Fixpoint pen_same_name (a b : list Z) : bool :=
  match a, b with
  | [], [] => true
  | x :: a', y :: b' => if lower x =? lower y then pen_same_name a' b' else false
  | _, _ => false
  end.

Section Pen.
Context {D : Type}.
Variable scsi_read_blocks : D -> Z -> Z -> option (list Z).
Variable scsi_present : D -> bool.
Variable junk : list Z.
Variable fuel : nat.

Definition pen_block_read (w : pen_world D) (lba : Z) : option (list Z) :=
  scsi_read_blocks (scsi w) (u32 (s_volume_lba w + lba)) 1.

Definition pen_block_read_blocks (w : pen_world D) (lba count : Z) : option (list Z) :=
  scsi_read_blocks (scsi w) (u32 (s_volume_lba w + lba)) count.

Definition pen_block_write (w : pen_world D) (_ : Z) (_ : list Z) : bool * pen_world D := (false, w).

Definition set_vol (p : pen D) (v : vol (pen_world D)) : pen D :=
  {| p_vol := v; s_mounted := s_mounted p; s_gen := s_gen p; s_songs := s_songs p |}.

Definition set_lba (v : vol (pen_world D)) (lba : Z) : vol (pen_world D) :=
  set_world v {| scsi := scsi (world v); s_volume_lba := lba |}.

(** The scan of the root directory; [songs] so far. *)
Fixpoint rescan_loop (v : vol (pen_world D)) (i : Z) (n : nat) (songs : list (list Z * Z)) : option (list (list Z * Z)) :=
  match n with
  | O => Some songs
  | S n' =>
      match fat32_root_list_entry junk fuel v i with
      | None => None
      | Some None => Some songs
      | Some (Some (name, is_dir, size)) =>
          if (is_dir || negb (pen_is_mp3 name))%bool then rescan_loop v (i + 1) n' songs
          else if existsb (fun s => pen_same_name (fst s) name) songs then rescan_loop v (i + 1) n' songs
          else
            let songs' := songs ++ [(take (Z.to_nat (PEN_NAME_MAX - 1)) name, size)] in
            if PEN_MAX_SONGS <=? Z.of_nat (length songs') then Some songs' else rescan_loop v (i + 1) n' songs'
      end
  end.

Definition rescan_upto (n : nat) : M (pen D) unit := fun p =>
  match rescan_loop (p_vol p) 0 n [] with
  | None => None
  | Some songs => Some (tt, {| p_vol := p_vol p; s_mounted := s_mounted p; s_gen := u32 (s_gen p + 1); s_songs := songs |})
  end.

Definition pen_rescan_root : M (pen D) unit := rescan_upto 128.

Definition pen_detach (p : pen D) : pen D :=
  {| p_vol := set_lba (p_vol p) 0; s_mounted := false; s_gen := u32 (s_gen p + 1); s_songs := [] |}.

(** The partition of a master boot record, or 0. *)
Definition partition_start (sector0 : list Z) : Z :=
  let signature := get16 sector0 510 in
  let partition_type := get8 sector0 450 in
  if ((signature =? 0xAA55) && ((partition_type =? 0x0B) || (partition_type =? 0x0C)))%bool then get32 sector0 454 else 0.

Definition pen_attach : M (pen D) Z := fun p =>
  match scsi_read_blocks (scsi (world (p_vol p))) 0 1 with
  | None => Some (-1, p)
  | Some sector0 =>
      let lba := partition_start sector0 in
      let v := fat32_set_block_io_blocks (Some pen_block_read_blocks)
                 (fat32_set_block_io (Some pen_block_read) (Some pen_block_write) (set_lba (p_vol p) lba)) in
      match fat32_mount lba v with
      | (None, v') => Some (-1, set_vol p v')
      | (Some _, v') =>
          (pen_rescan_root ;;; mret_ 0) {| p_vol := v'; s_mounted := true; s_gen := s_gen p; s_songs := s_songs p |}
      end
  end.

Definition pen_init : M (pen D) unit := fun p =>
  if scsi_present (scsi (world (p_vol p))) then (pen_attach ;;; mret_ tt) p else Some (tt, p).

(** One round of [pen_task]; what the SCSI layer does meanwhile is [d]. *)
Definition pen_round (d : D) : M (pen D) unit := fun p =>
  let p := set_vol p (set_world (p_vol p) {| scsi := d; s_volume_lba := s_volume_lba (world (p_vol p)) |}) in
  let present := scsi_present d in
  if (present && negb (s_mounted p))%bool then (pen_attach ;;; mret_ tt) p
  else if (negb present && s_mounted p)%bool then Some (tt, pen_detach p)
  else Some (tt, p).

Definition pen_song_count (p : pen D) : Z := s_count p.

Definition pen_song_name (p : pen D) (index : Z) : option (list Z) :=
  if s_count p <=? index then None else fst <$> s_songs p !! Z.to_nat index.

Definition pen_read_song (p : pen D) (name : list Z) : option (option (list Z * Z)) :=
  if negb (s_mounted p) then Some None
  else fat32_read_file_path junk fuel (p_vol p) ([PATHSEP] ++ take (Z.to_nat (PEN_NAME_MAX - 1)) name).

Definition pen_song_gen (p : pen D) : Z := s_gen p.
Definition pen_is_connected (p : pen D) : bool := s_mounted p.

(** ** The song list *)

(** The songs fit the arrays, are MP3 files, and no two have the same name up
    to case; without a medium there are none. *)
Definition songs_ok (l : list (list Z * Z)) : Prop :=
  Z.of_nat (length l) <= PEN_MAX_SONGS
  /\ Forall (fun s => pen_is_mp3 (fst s) = true /\ Z.of_nat (length (fst s)) < PEN_NAME_MAX) l
  /\ ForallOrdPairs (fun a b => pen_same_name (fst a) (fst b) = false) l.

Definition pen_ok (p : pen D) : Prop := songs_ok (s_songs p) /\ (s_mounted p = false -> s_songs p = []).

Lemma ForallOrdPairs_snoc {A} (R : A -> A -> Prop) l x :
  ForallOrdPairs R l -> Forall (fun a => R a x) l -> ForallOrdPairs R (l ++ [x]).
Proof.
  induction 1 as [|a l Ha _ IH]; intros Hx; simpl; [repeat constructor|]. inversion Hx; subst. constructor; [|by apply IH].
  apply Forall_app. by repeat constructor.
Qed.

(** Names of a directory listing have at most 31 bytes. *)
Lemma take_while_length f l : (length (take_while f l) <= length l)%nat.
Proof. induction l as [|x l IH]; simpl; [lia|]. destruct (f x); simpl; lia. Qed.

Lemma entry_name_length e : (length (fat32_entry_name_to_string e 32) <= 31)%nat.
Proof.
  unfold fat32_entry_name_to_string. change (32 =? 0) with false. cbv iota zeta. change (Z.to_nat (32 - 1)) with 31%nat.
  set (part := take 31 _). assert (Hp : (length part <= 31)%nat) by (unfold part; rewrite length_take; lia).
  unfold c_str. etransitivity; [apply take_while_length|]. destruct (_ && _)%bool eqn:E; [|done]. rewrite !length_app, length_take.
  apply andb_true_iff in E as [_ E]. apply Nat.ltb_lt in E. simpl length. lia.
Qed.

Lemma list_scan_length buffer size index current i n name k :
  list_scan buffer size index current i n 32 = Some (name, k) -> (length name <= 31)%nat.
Proof.
  revert current i. induction n as [|n IH]; intros current i H; cbn [list_scan] in H; [done|]. cbv zeta in H.
  destruct (get8 _ 0 =? 0); [done|]. destruct (skipped _); [by eapply IH|]. destruct (current =? index); [|by eapply IH].
  simplify_eq. destruct (fat32_get_long_name buffer size _ 32) as [l|] eqn:E; [|apply entry_name_length].
  unfold fat32_get_long_name in E. destruct (_ || _)%bool; [done|]. destruct (_ <=? _); [done|]. cbv zeta in E.
  destruct (_ =? _)%nat; [done|]. destruct (_ =? _)%nat; [done|]. simplify_eq. rewrite length_take. lia.
Qed.

Lemma root_list_length (v : vol (pen_world D)) i name is_dir size :
  fat32_root_list_entry junk fuel v i = Some (Some (name, is_dir, size)) -> (length name <= 31)%nat.
Proof.
  unfold fat32_root_list_entry, fat32_list_dir_entry. destruct (_ || _)%bool; [done|].
  destruct (fat32_resolve_directory junk fuel v _) as [[dir|]|]; [|done|done].
  destruct (fat32_load_directory junk fuel v dir) as [[[b sz]|]|]; [|done|done].
  destruct (list_scan b sz i 0 0 _ 32) as [[nm k]|] eqn:E; [|done]. intros H. simplify_eq. by apply list_scan_length in E.
Qed.

Lemma rescan_loop_ok v n i songs r :
  songs_ok songs -> Z.of_nat (length songs) < PEN_MAX_SONGS -> rescan_loop v i n songs = Some r -> songs_ok r.
Proof.
  revert i songs. induction n as [|n IH]; intros i songs Hs Hl H; cbn [rescan_loop] in H; [by simplify_eq|].
  destruct (fat32_root_list_entry junk fuel v i) as [[[[name is_dir] size]|]|] eqn:El; [|by simplify_eq|done].
  apply root_list_length in El. destruct (is_dir || negb (pen_is_mp3 name))%bool eqn:Em; [by apply IH in H|]. apply orb_false_iff in Em as [_ Em].
  apply negb_false_iff in Em. destruct (existsb _ songs) eqn:Ed; [by apply IH in H|]. cbv zeta in H.
  change (Z.to_nat (PEN_NAME_MAX - 1)) with 63%nat in H. rewrite firstn_all2 in H by lia.
  assert (Hs' : songs_ok (songs ++ [(name, size)])).
  { destruct Hs as (H1 & H2 & H3). split_and!.
    - rewrite length_app. simpl length. lia.
    - apply Forall_app. split; [done|]. constructor; [|constructor]. split; [done|]. simpl. unfold PEN_NAME_MAX. lia.
    - apply ForallOrdPairs_snoc; [done|]. apply Forall_forall. intros s Hin. simpl. apply not_true_is_false. intros E.
      apply not_true_iff_false in Ed. apply Ed, existsb_exists. exists s. split; [by apply list_elem_of_In|done]. }
  destruct (Z.leb_spec PEN_MAX_SONGS (Z.of_nat (length (songs ++ [(name, size)])))); [by simplify_eq|].
  apply IH in H; [done|done|]. lia.
Qed.

(** The scan is unfolded only by the lemma above. *)
Opaque rescan_loop.

Lemma no_songs_ok : songs_ok [].
Proof. split_and!; [done|constructor|constructor]. Qed.

Lemma rescan_upto_ok n p p' : rescan_upto n p = Some (tt, p') -> s_mounted p = true -> pen_ok p'.
Proof.
  intros H Hm. unfold rescan_upto in H. destruct (rescan_loop (p_vol p) 0 n []) as [songs|] eqn:E; [|discriminate H].
  injection H as <-. split; [|intros H; simpl in H; congruence]. simpl. eapply rescan_loop_ok; [exact no_songs_ok|reflexivity|exact E].
Qed.

Lemma pen_rescan_ok p p' : s_mounted p = true -> pen_rescan_root p = Some (tt, p') -> pen_ok p'.
Proof. intros Hm H. exact (rescan_upto_ok 128 p p' H Hm). Qed.

Lemma pen_attach_ok p r p' : pen_ok p -> pen_attach p = Some (r, p') -> pen_ok p'.
Proof.
  intros Hp H. unfold pen_attach in H. destruct (scsi_read_blocks _ 0 1) as [s0|]; [|injection H as <- <-; exact Hp]. cbv zeta in H.
  destruct (fat32_mount _ _) as [[c|] v']; [|injection H as <- <-; exact Hp].
  apply mbind_inv in H as ([] & p1 & H1 & H). injection H as <- <-. eapply pen_rescan_ok; [|exact H1]. reflexivity.
Qed.

Lemma pen_round_ok d p p' : pen_ok p -> pen_round d p = Some (tt, p') -> pen_ok p'.
Proof.
  intros Hp H. unfold pen_round in H. cbv zeta in H. set (p0 := set_vol p _) in H. assert (H0 : pen_ok p0) by exact Hp.
  destruct (scsi_present d && _)%bool.
  - apply mbind_inv in H as (r & p1 & H1 & H). injection H as <-. exact (pen_attach_ok p0 r p1 H0 H1).
  - destruct (negb _ && _)%bool; injection H as <-; [|exact H0]. split; [exact no_songs_ok|reflexivity].
Qed.

Lemma pen_init_ok p p' : pen_ok p -> pen_init p = Some (tt, p') -> pen_ok p'.
Proof.
  intros Hp H. unfold pen_init in H. destruct (scsi_present _); [|injection H as <-; exact Hp].
  apply mbind_inv in H as (r & p1 & H1 & H). injection H as <-. exact (pen_attach_ok p r p1 Hp H1).
Qed.

(** Runs of the pen drive task, with the media that come and go. *)
Inductive pen_reach (p0 : pen D) : pen D -> Prop :=
| pen_start : pen_reach p0 p0
| pen_step p p' d : pen_reach p0 p -> pen_round d p = Some (tt, p') -> pen_reach p0 p'
| pen_boot p p' : pen_reach p0 p -> pen_init p = Some (tt, p') -> pen_reach p0 p'.

(** In every run of the pen drive task, whatever media come and go and whatever
    they contain, the song list fits its arrays, holds only MP3 names of at most
    63 bytes, no name twice up to case, and is empty when no medium is mounted. *)
Theorem pen_songs_ok_in_every_run p0 p : pen_ok p0 -> pen_reach p0 p -> pen_ok p.
Proof.
  intros H0. induction 1 as [|p p' d _ IH E|p p' _ IH E]; [exact H0|by eapply pen_round_ok|by eapply pen_init_ok].
Qed.

(** The boot sector of a partition is looked for at twice its offset: the
    callback adds the partition start to the sector that already contains it. *)
Theorem pen_attach_reads_wrong_sector p sector0 lba :
  scsi_read_blocks (scsi (world (p_vol p))) 0 1 = Some sector0 -> partition_start sector0 = lba ->
  scsi_read_blocks (scsi (world (p_vol p))) (u32 (lba + lba)) 1 = None ->
  exists p', pen_attach p = Some (-1, p').
Proof.
  intros E0 E1 E2. unfold pen_attach. rewrite E0, E1. cbv zeta.
  assert (E : forall v : vol (pen_world D), read_block (io v) (world v) lba = None -> fat32_mount lba v = (None, v)) by (intros v Ev; unfold fat32_mount; by rewrite Ev).
  rewrite E; [by eexists|]. exact E2.
Qed.
End Pen.

(** ** On a medium in memory *)

Definition pen_boot_sector : list Z := splice (put16 demo_boot 14 1) 82 (str "FAT32   ").

(** A pen drive without a partition table, with the given root directory. *)
Definition stick (dir : list Z) : ram := <[0 := pen_boot_sector]> (<[3 := splice (zeros SECTOR) 0 dir]> demo_disk).

Definition stick_read (w : ram) (lba count : Z) : option (list Z) := ram_read_blocks 129 w lba count.

Definition no_io : block_io (pen_world ram) := {| read_block _ _ := None; write_block w _ _ := (false, w); read_blocks := None |}.

Definition pen0 (w : ram) : pen ram :=
  {| p_vol := {| world := {| scsi := w; s_volume_lba := 0 |}; io := no_io; boot_sector := []; fat_begin_lba := 0; cluster_begin_lba := 0;
                 root_dir_first_cluster := 0; fat32_mounted := false |};
     s_mounted := false; s_gen := 0; s_songs := [] |}.

Definition song_dir : list Z :=
  put32 (new_entry (str "SONG    MP3") 0x20 3) 28 5 ++ new_entry (str "NOTES   TXT") 0x20 0 ++ put32 (new_entry (str "song    MP3") 0x20 3) 28 5.

Definition attached (p : pen ram) : option (Z * list (list Z * Z) * option (list Z * Z)) :=
  match pen_attach stick_read [] 10 p with
  | Some (r, p') =>
      Some (r, s_songs p', match pen_read_song [] 10 p' (str "song.mp3") with Some (Some (b, n)) => Some (take 5 b, n) | _ => None end)
  | None => None
  end.

(** Attaching lists each song once, and a song can be read. *)
Example pen_attach_lists_songs : attached (pen0 (stick song_dir)) = Some (0, [(str "SONG.MP3", 5)], Some (str "hello", 5)).
Proof. by_vm. Qed.

Lemma pen_songs_ok_in_every_run_witness :
  exists p, pen_init stick_read (fun _ => true) [] 10 (pen0 (stick song_dir)) = Some (tt, p) /\ pen_ok p.
Proof.
  assert (R : match pen_init stick_read (fun _ => true) [] 10 (pen0 (stick song_dir)) with Some _ => true | None => false end = true) by by_vm.
  destruct (pen_init stick_read (fun _ => true) [] 10 (pen0 (stick song_dir))) as [[[] p]|] eqn:E; [|discriminate R].
  exists p. split; [reflexivity|].
  apply (pen_songs_ok_in_every_run stick_read (fun _ => true) [] 10 (pen0 (stick song_dir)) p).
  - split; [|reflexivity]. split; [vm_compute; discriminate|]. split; constructor.
  - eapply pen_boot; [apply pen_start|exact E].
Defined.

(** The same volume behind a partition table, at sector 8, is not found. *)
Definition partitioned : ram :=
  <[0 := put32 (put16 (put8 (zeros SECTOR) 450 0x0C) 510 0xAA55) 454 8]>
    (<[8 := pen_boot_sector]> (<[9 := demo_fat]> (<[10 := demo_fat]> {[11 := splice (zeros SECTOR) 0 song_dir]}))).

Example pen_partition_not_mounted : attached (pen0 partitioned) = Some (-1, [], None).
Proof. by_vm. Qed.

(** A song whose long name has more than 31 bytes loses its extension in the
    listing and is never shown. *)
Definition long_name : list Z := str "a very long name of a nice song.mp3".

Definition long_song_dir : list Z :=
  lfn_entry (sub long_name 26 13) ++ lfn_entry (sub long_name 13 13) ++ lfn_entry (sub long_name 0 13)
  ++ put32 (new_entry (str "AVERYL~1MP3") 0x20 3) 28 5.

Example pen_long_song_not_listed :
  attached (pen0 (stick long_song_dir)) = Some (0, [], None)
  /\ match fat32_find_entry_in_dir [] 10 (set_world (demo true) (stick long_song_dir)) 2 long_name with Some (r, _) => r | None => 0 end = 1.
Proof. split; by_vm. Qed.
