(* ===== verification/Initrd.v ===== *)
(** * The initial RAM disk ([src/src/fs/initrd.c], [src/include/fs/initrd.h])

    The boot archive is a tar file that [init_initrd] copies to the heap.  Every
    lookup walks over the headers from the first on.  [mem] is the memory from
    [initrd_location] on, an address is its distance from there modulo 2^32;
    reading behind [mem] is [None].  The walk has no bound of its own: it takes
    one round per 512 bytes of memory, which is enough for every archive
    ([find_archive]). *)

From Stdlib Require Import ZArith Lia String.
From stdpp Require Import base numbers list gmap.
From S2P Require Import Prelude Bytes Crc32 BlockDev Journal SdfsBlock SdfsDir Sdfs Vfs.

#[local] Open Scope Z_scope.

(** ** Names and sizes *)

Definition normalize_initrd_name (name : list Z) : list Z :=
  match name with
  | 46 :: 47 :: n => n
  | 47 :: n => n
  | _ => name
  end.

Definition initrd_name_equals (a b : list Z) : bool := bool_decide (normalize_initrd_name a = normalize_initrd_name b).

Fixpoint skip_spaces (p : list Z) : list Z :=
  match p with
  | ch :: p' => if ch =? 32 then skip_spaces p' else p
  | [] => []
  end.

Fixpoint octal (n : nat) (p : list Z) (size : Z) : option Z :=
  match n with
  | O => Some size
  | S n' => match p with
            | [] => None
            | ch :: p' => if ((ch <? 48) || (55 <? ch))%bool then Some size else octal n' p' (u32 (size * 8 + (ch - 48)))
            end
  end.

(** [in_] is the memory from the field on. *)
Definition get_size (in_ : list Z) : option Z := octal 11 (skip_spaces in_) 0.

(** ** The walk *)

Definition HEADER : nat := 512.
Definition O_SIZE : nat := 124.
Definition O_TYPEFLAG : nat := 156.

(** The memory from the header at [address] on. *)
Definition header_at (mem : list Z) (address : Z) : option (list Z) :=
  if Z.of_nat (length mem) <? address + 512 then None else Some (drop (Z.to_nat address) mem).

Definition next_address (address filesize : Z) : Z := u32 (address + 512 + Z.land (u32 (filesize + 511)) (Z.lnot 511)).

(** One entry: the memory from its header on and its size; [Some None] behind
    the last one. *)
Definition entry_at (mem : list Z) (address : Z) : option (option (list Z * Z)) :=
  match header_at mem address with
  | None => None
  | Some h =>
      if h.[0] =? 0 then Some None else
      match get_size (drop O_SIZE h) with None => None | Some filesize => Some (Some (h, filesize)) end
  end.

Fixpoint find_file (n : nat) (mem : list Z) (address : Z) (name : list Z) : option (option (Z * Z)) :=
  match n with
  | O => None
  | S n' =>
      match entry_at mem address with
      | None => None
      | Some None => Some None
      | Some (Some (h, filesize)) =>
          if initrd_name_equals (c_str h) name then Some (Some (u32 (address + 512), filesize))
          else find_file n' mem (next_address address filesize) name
      end
  end.

Definition walk_fuel (mem : list Z) : nat := S (length mem / 512).

(** The address and the size of the file. *)
Definition initrd_get_file (mem : list Z) (name : list Z) : option (option (Z * Z)) := find_file (walk_fuel mem) mem 0 name.

(** The entry number [index], or the number of entries. *)
Fixpoint nth_entry (n : nat) (mem : list Z) (address i index : Z) : option (Z * option (list Z)) :=
  match n with
  | O => None
  | S n' =>
      match header_at mem address with
      | None => None
      | Some h =>
          if h.[0] =? 0 then Some (i, None) else
          if i =? index then Some (i, Some (c_str h)) else
          match get_size (drop O_SIZE h) with
          | None => None
          | Some filesize => nth_entry n' mem (next_address address filesize) (u32 (i + 1)) index
          end
      end
  end.

Definition initrd_list_files (mem : list Z) (index : Z) : option (option (list Z)) :=
  match nth_entry (walk_fuel mem) mem 0 0 index with None => None | Some (_, r) => Some r end.

(** ** Nodes *)

(** Which [readdir] a node has. *)
Inductive lister := ReaddirArchive | ReaddirEmpty | ReaddirNone.

Record inode := { in_name : list Z; in_length : Z; in_flags : Z; in_lister : lister }.

Definition dir_node (name : list Z) (l : lister) : inode :=
  {| in_name := name; in_length := 0; in_flags := FS_DIRECTORY; in_lister := l |}.

Definition init_initrd : inode := dir_node (str "initrd") ReaddirArchive.

Definition in_is_dir (n : inode) : bool := negb (Z.land (in_flags n) FS_DIRECTORY =? 0).

Definition initrd_readdir_empty (n : inode) (index : Z) : option (list Z * Z) := None.

Definition initrd_readdir (mem : list Z) (n : inode) (index : Z) : option (option (list Z * Z)) :=
  if negb (in_is_dir n) then Some None else
  match nth_entry (walk_fuel mem) mem 0 0 index with
  | None => None
  | Some (i, Some name) => Some (Some (normalize_initrd_name name, i))
  | Some (i, None) => Some (if ((index =? i) && bool_decide (in_name n = str "initrd"))%bool then Some (str "house", i) else None)
  end.

Definition initrd_finddir (mem : list Z) (n : inode) (name : list Z) : option (option inode) :=
  if negb (in_is_dir n) then Some None else
  if (bool_decide (name = str "house") && bool_decide (in_name n = str "initrd"))%bool then Some (Some (dir_node (str "house") ReaddirArchive)) else
  if (bool_decide (name = str "localhost") && bool_decide (in_name n = str "house"))%bool then Some (Some (dir_node (str "localhost") ReaddirEmpty)) else
  match initrd_get_file mem name with
  | None => None
  | Some None => Some None
  | Some (Some (_, size)) => Some (Some {| in_name := name; in_length := size; in_flags := FS_FILE; in_lister := ReaddirNone |})
  end.

(** [offset + size] is an addition of 32-bit integers; the bytes copied must lie
    in memory. *)
Definition initrd_read (mem : list Z) (n : inode) (offset size : Z) : option (list Z) :=
  match initrd_get_file mem (in_name n) with
  | None => None
  | Some None => Some []
  | Some (Some (address, file_size)) =>
      if file_size <? offset then Some [] else
      let size := if file_size <? u32 (offset + size) then file_size - offset else size in
      if Z.of_nat (length mem) <? address + offset + size then None
      else Some (sub mem (Z.to_nat (address + offset)) (Z.to_nat size))
  end.

(** The RAM disk as a file system of the VFS; its state, the memory, never
    changes. *)
#[export] Instance initrd_node : FsNode (list Z) inode := {
  fn_flags := in_flags;
  fn_finddir n := if in_is_dir n then Some (fun name mem => match initrd_finddir mem n name with None => None | Some r => Some (r, mem) end) else None;
  fn_readdir n := match in_lister n with
    | ReaddirArchive => Some (fun i mem => match initrd_readdir mem n i with None => None | Some r => Some (r, mem) end)
    | ReaddirEmpty => Some (fun i mem => Some (initrd_readdir_empty n i, mem))
    | ReaddirNone => None
    end;
  fn_create n := None;
  fn_read n := if in_is_dir n then None else Some (fun off size mem => match initrd_read mem n off size with None => None | Some r => Some (r, mem) end);
  fn_write n := None;
  fn_truncate n := None
}.

(** ** Installing the archive on SDFS *)

(** An entry counts when it is not a directory and its name is not empty. *)
Definition installs (h : list Z) : bool :=
  (negb (get8 h O_TYPEFLAG =? 53) && negb (bool_decide (normalize_initrd_name (c_str h) = [])))%bool.

Fixpoint count_files (n : nat) (mem : list Z) (address : Z) (total : Z) : option Z :=
  match n with
  | O => None
  | S n' =>
      match entry_at mem address with
      | None => None
      | Some None => Some total
      | Some (Some (h, filesize)) =>
          count_files n' mem (next_address address filesize) (if installs h then total + 1 else total)
      end
  end.

(** [strncpy(sdfs_path + 1, name, 254)] *)
Definition sdfs_path (name : list Z) : list Z := SLASH :: take 254 name.

(** The prefixes of the path that end before a slash behind its first byte:
    [done_] is the part of the path before [p]. *)
Fixpoint parents (done_ p : list Z) : list (list Z) :=
  match p with
  | [] => []
  | ch :: p' => if ch =? SLASH then done_ :: parents (done_ ++ [ch]) p' else parents (done_ ++ [ch]) p'
  end.
Definition parent_dirs (path : list Z) : list (list Z) := parents (take 1 path) (drop 1 path).

Section Copy.
Context {D : Type} `{BlockDev D}.
Variable junk : list Z.
Variable stk : entry.

Fixpoint create_dirs (l : list (list Z)) : M (fs D) unit :=
  match l with
  | [] => mret_ tt
  | p :: l' => sdfs_create_dir junk p ;;; create_dirs l'
  end.

(** One file; the result is what is added to [copied]. *)
Definition install_file (path data : list Z) : M (fs D) Z :=
  create_dirs (parent_dirs path) ;;;
  if (0 <? length data)%nat then
    r <-- sdfs_write_file junk stk path data ;; mret_ (if 0 <? r then 1 else 0)
  else
    r <-- sdfs_create_file junk path ;; mret_ (if r =? 0 then 1 else 0).

(** The second pass; [cb] says whether there is a callback, and the result is
    the list of its calls. *)
Fixpoint copy_files (n : nat) (mem : list Z) (address total copied : Z) (cb : bool) : M (fs D) (list (Z * list Z)) :=
  match n with
  | O => mstop
  | S n' =>
      match entry_at mem address with
      | None => mstop
      | Some None => mret_ []
      | Some (Some (h, filesize)) =>
          if negb (installs h) then copy_files n' mem (next_address address filesize) total copied cb else
          if Z.of_nat (length mem) <? u32 (address + 512) + filesize then mstop else
          let path := sdfs_path (normalize_initrd_name (c_str h)) in
          r <-- install_file path (sub mem (Z.to_nat (u32 (address + 512))) (Z.to_nat filesize)) ;;
          let copied := copied + r in
          calls <-- copy_files n' mem (next_address address filesize) total copied cb ;;
          mret_ (if (cb && (0 <? total))%bool then (Z.quot (copied * 100) total, path) :: calls else calls)
      end
  end.

Definition initrd_copy_to_sdfs (mem : list Z) (cb : bool) : M (fs D) (list (Z * list Z)) :=
  match count_files (walk_fuel mem) mem 0 0 with
  | None => mstop
  | Some total =>
      calls <-- copy_files (walk_fuel mem) mem 0 total 0 cb ;;
      mmodify sdfs_flush_bitmap ;;;
      mret_ (if cb then calls ++ [(100, [])] else calls)
  end.
End Copy.

(** ** Specification: archives *)

Record tfile := { t_name : list Z; t_type : Z; t_data : list Z }.

(** [n] octal digits of [v]. *)
Fixpoint octal_digits (n : nat) (v : Z) : list Z :=
  match n with O => [] | S n' => octal_digits n' (v / 8) ++ [48 + v mod 8] end.

Definition t_len (f : tfile) : Z := Z.of_nat (length (t_data f)).

(** A header of [f]: the fields the kernel reads; the others are free. *)
Record header_of (h : list Z) (f : tfile) : Prop := {
  ho_length : length h = HEADER;
  ho_name : c_str h = t_name f /\ t_name f <> [] /\ (length (t_name f) < 100)%nat;
  ho_size : sub h O_SIZE 11 = octal_digits 11 (t_len f);
  ho_type : get8 h O_TYPEFLAG = t_type f
}.

(** Headers and contents, these filled up to whole blocks; then a block that
    starts with a zero, and anything. *)
Inductive archive : list Z -> list tfile -> Prop :=
| archive_end m : (HEADER <= length m)%nat -> m.[0] = 0 -> archive m []
| archive_file h f pad m fs :
    header_of h f -> Z.of_nat (length pad) = (- t_len f) mod 512 -> archive m fs -> archive (h ++ t_data f ++ pad ++ m) (f :: fs).

(** ** Lemmas *)

Lemma octal_foldl l rest : Forall (fun ch => 48 <= ch <= 55) l -> forall acc,
  octal (length l) (l ++ rest) acc = Some (foldl (fun a ch => u32 (a * 8 + (ch - 48))) acc l).
Proof.
  induction 1 as [|ch l Hc _ IH]; intros acc; [done|]. cbn [length app octal foldl].
  rewrite (proj2 (Z.ltb_ge ch 48)), (proj2 (Z.ltb_ge 55 ch)) by lia. apply IH.
Qed.

Lemma octal_digits_spec n v : Forall (fun ch => 48 <= ch <= 55) (octal_digits n v) /\ length (octal_digits n v) = n.
Proof.
  revert v. induction n as [|n IH]; intros v; [by split|]. cbn [octal_digits]. destruct (IH (v / 8)) as [H1 H2]. split.
  - apply Forall_app; split; [done|]. constructor; [|constructor]. pose proof (Z.mod_pos_bound v 8). lia.
  - rewrite length_app, H2. simpl. lia.
Qed.

Lemma octal_digits_value n v : 0 <= v < 8 ^ Z.of_nat n -> v < 2 ^ 32 ->
  foldl (fun a ch => u32 (a * 8 + (ch - 48))) 0 (octal_digits n v) = v.
Proof.
  revert v. induction n as [|n IH]; intros v Hv H32; [simpl in *; lia|]. cbn [octal_digits]. rewrite foldl_app, IH.
  - cbn [foldl]. rewrite u32_small; zlia.
  - rewrite Nat2Z.inj_succ, Z.pow_succ_r in Hv by lia. zlia.
  - zlia.
Qed.

(** [get_size] reads back what a tar program writes. *)
Lemma get_size_octal v rest : is_u32 v -> get_size (octal_digits 11 v ++ rest) = Some v.
Proof.
  intros Hv. unfold get_size. destruct (octal_digits_spec 11 v) as [Hf Hl]. pose proof (octal_foldl _ rest Hf 0) as E. rewrite Hl in E.
  rewrite octal_digits_value in E by (wrap_unfold; simpl; lia).
  destruct (octal_digits 11 v) as [|ch l]; [discriminate Hl|]. apply Forall_cons in Hf as [Hc _]. cbn [app skip_spaces].
  rewrite (proj2 (Z.eqb_neq ch 32)) by lia. exact E.
Qed.

Lemma c_str_app h rest : (length (c_str h) < length h)%nat -> c_str (h ++ rest) = c_str h.
Proof.
  induction h as [|x h IH]; [simpl; lia|]. unfold c_str in *. cbn [app take_while]. destruct (negb (x =? 0)); [|done].
  cbn [length]. intros H. by rewrite IH by lia.
Qed.

Lemma round_up x : 0 <= x -> Z.land x (Z.lnot 511) = 512 * (x / 512).
Proof. intros H. rewrite <- Z.ldiff_land. change 511 with (Z.ones 9). rewrite Z.ldiff_ones_r, Z.shiftl_mul_pow2, Z.shiftr_div_pow2 by lia. change (2 ^ 9) with 512. lia. Qed.

Lemma next_address_spec a n pad : 0 <= a -> 0 <= n -> 0 <= pad -> pad = (- n) mod 512 -> a + 512 + n + pad < 2 ^ 32 -> next_address a n = a + 512 + n + pad.
Proof.
  intros Ha Hn Hp Ep Hs. unfold next_address. rewrite (u32_small (n + 511)), round_up by zlia. rewrite u32_small; zlia.
Qed.

Lemma header_entry pre h f rest : header_of h f -> is_u32 (t_len f) ->
  entry_at (pre ++ h ++ rest) (Z.of_nat (length pre)) = Some (Some (h ++ rest, t_len f)).
Proof.
  intros [Hl (Hn & Hne & Hs) Hz _] Hu. unfold entry_at, header_at. unfold HEADER in Hl.
  rewrite (proj2 (Z.ltb_ge _ _)) by (rewrite !length_app; lia). rewrite Nat2Z.id, drop_app_length.
  assert (H0 : ((h ++ rest).[0] =? 0) = false).
  { destruct h as [|x h]; [discriminate Hl|]. unfold c_str in Hn. cbn [take_while] in Hn. destruct (x =? 0) eqn:E; [by rewrite <- Hn in Hne|exact E]. }
  rewrite H0. assert (Hd : drop O_SIZE (h ++ rest) = octal_digits 11 (t_len f) ++ (drop 135 h ++ rest)).
  { rewrite drop_app_le by (rewrite Hl; unfold O_SIZE; lia). rewrite <- Hz, (assoc_L (++)). f_equal. unfold sub, O_SIZE.
    rewrite <- (take_drop 11 (drop 124 h)) at 1. by rewrite drop_drop. }
  rewrite Hd, get_size_octal by done. done.
Qed.

Lemma header_c_str h f rest : header_of h f -> c_str (h ++ rest) = t_name f.
Proof. intros [Hl (Hn & _ & Hs) _ _]. rewrite c_str_app; [done|]. rewrite Hn, Hl. unfold HEADER. lia. Qed.

Lemma header_type h f rest : header_of h f -> get8 (h ++ rest) O_TYPEFLAG = t_type f.
Proof. intros [Hl _ _ <-]. unfold get8, nthZ. rewrite lookup_app_l; [done|]. rewrite Hl. unfold O_TYPEFLAG, HEADER. lia. Qed.

Lemma archive_blocks m fs : archive m fs -> (512 * (length fs + 1) <= length m)%nat.
Proof. induction 1 as [m Hm _|h f pad m fs [Hl _ _ _] _ _ IH]; unfold HEADER in *; [simpl; lia|]. rewrite !length_app, Hl. simpl. lia. Qed.

Lemma archive_stop pre m : (HEADER <= length m)%nat -> m.[0] = 0 -> entry_at (pre ++ m) (Z.of_nat (length pre)) = Some None.
Proof.
  intros Hm H0. unfold entry_at, header_at. unfold HEADER in Hm. rewrite (proj2 (Z.ltb_ge _ _)) by (rewrite length_app; lia).
  by rewrite Nat2Z.id, drop_app_length, H0.
Qed.

(** The walk is at the first of [fs]. *)
Definition walks (mem : list Z) (a : Z) (fs : list tfile) : Prop :=
  exists pre m, mem = pre ++ m /\ a = Z.of_nat (length pre) /\ archive m fs.

Lemma walks_start mem fs : archive mem fs -> walks mem 0 fs.
Proof. by exists [], mem. Qed.

Lemma walks_end mem a : walks mem a [] -> entry_at mem a = Some None.
Proof. intros (pre & m & -> & -> & Ha). inversion Ha; subst. by apply archive_stop. Qed.

Record step_to (mem : list Z) (a : Z) (f : tfile) (fs : list tfile) (h : list Z) : Prop := {
  st_entry : entry_at mem a = Some (Some (h, t_len f));
  st_name : c_str h = t_name f;
  st_type : get8 h O_TYPEFLAG = t_type f;
  st_addr : u32 (a + 512) = a + 512 /\ 0 <= a /\ a + 512 + t_len f <= Z.of_nat (length mem);
  st_data : sub mem (Z.to_nat (a + 512)) (Z.to_nat (t_len f)) = t_data f;
  st_next : walks mem (next_address a (t_len f)) fs
}.

Lemma walks_step mem a f fs : walks mem a (f :: fs) -> Z.of_nat (length mem) < 2 ^ 32 -> exists h, step_to mem a f fs h.
Proof.
  intros (pre & m & -> & -> & Ha) Hlen. inversion Ha as [|h f' pad m' fs' Hh Hp Hm]; subst. exists (h ++ t_data f ++ pad ++ m').
  pose proof (ho_length _ _ Hh) as Hl. unfold HEADER in Hl. rewrite !length_app in Hlen. pose proof (archive_blocks _ _ Hm) as Hb.
  assert (Hu : is_u32 (t_len f)) by (unfold is_u32, t_len; lia).
  assert (Hdata : pre ++ h ++ t_data f ++ pad ++ m' = (pre ++ h) ++ t_data f ++ pad ++ m') by (by rewrite (assoc_L (++))).
  constructor.
  - by apply header_entry.
  - by apply header_c_str.
  - by apply header_type.
  - rewrite u32_small by lia. rewrite !length_app. unfold t_len. lia.
  - rewrite Hdata. unfold sub. replace (Z.to_nat (Z.of_nat (length pre) + 512)) with (length (pre ++ h)) by (rewrite length_app; lia).
    rewrite drop_app_length. unfold t_len. by rewrite Nat2Z.id, take_app_length.
  - exists (pre ++ h ++ t_data f ++ pad), m'. split; [by rewrite <- !(assoc_L (++))|]. split; [|done].
    rewrite (next_address_spec _ _ (Z.of_nat (length pad))); unfold t_len in *; [rewrite !length_app; lia|lia..].
Qed.

Lemma entry_header mem a h size : entry_at mem a = Some (Some (h, size)) ->
  header_at mem a = Some h /\ (h.[0] =? 0) = false /\ get_size (drop O_SIZE h) = Some size.
Proof.
  unfold entry_at. destruct (header_at mem a) as [h'|]; [|done]. destruct (h'.[0] =? 0) eqn:E; [done|].
  destruct (get_size _) as [z|] eqn:G; [|done]. intros [= -> ->]. done.
Qed.

Lemma entry_end mem a : entry_at mem a = Some None -> exists h, header_at mem a = Some h /\ (h.[0] =? 0) = true.
Proof.
  unfold entry_at. destruct (header_at mem a) as [h'|]; [|done]. destruct (h'.[0] =? 0) eqn:E; [by exists h'|]. by destruct (get_size _).
Qed.

(** ** Lookups *)

Definition first_file (name : list Z) (fs : list tfile) : option tfile := List.find (fun f => initrd_name_equals (t_name f) name) fs.

(** The place of a file in memory. *)
Definition placed (mem : list Z) (a : Z) (f : tfile) : Prop :=
  0 <= a /\ a + t_len f <= Z.of_nat (length mem) /\ sub mem (Z.to_nat a) (Z.to_nat (t_len f)) = t_data f.

Lemma find_walks mem name : Z.of_nat (length mem) < 2 ^ 32 -> forall fs n a, walks mem a fs -> (length fs < n)%nat ->
  match first_file name fs with
  | None => find_file n mem a name = Some None
  | Some f => exists b, find_file n mem a name = Some (Some (b, t_len f)) /\ placed mem b f
  end.
Proof.
  intros Hm. induction fs as [|f fs IH]; intros n a Hw Hn; (destruct n as [|n]; [simpl in Hn; lia|]); cbn [find_file].
  - by rewrite walks_end.
  - destruct (walks_step mem a f fs Hw Hm) as (h & [He Hc _ (Ha & Ha0 & Hs) Hd Hx]). rewrite He, Hc. unfold first_file. cbn [List.find].
    destruct (initrd_name_equals (t_name f) name).
    + exists (u32 (a + 512)). split; [done|]. rewrite Ha. unfold placed. split; [lia|]. split; [lia|done].
    + apply IH; [done|simpl in Hn; lia].
Qed.

Lemma archive_fuel mem fs : archive mem fs -> (length fs < walk_fuel mem)%nat.
Proof. intros H. apply archive_blocks in H. unfold walk_fuel. pose proof (Nat.div_le_lower_bound (length mem) 512 (length fs) ltac:(lia) ltac:(lia)). lia. Qed.

Lemma find_archive mem fs name : archive mem fs -> Z.of_nat (length mem) < 2 ^ 32 ->
  match first_file name fs with
  | None => initrd_get_file mem name = Some None
  | Some f => exists a, initrd_get_file mem name = Some (Some (a, t_len f)) /\ placed mem a f
  end.
Proof. intros Ha Hm. apply find_walks; [done|by apply walks_start|by apply archive_fuel]. Qed.

Lemma nth_walks mem : Z.of_nat (length mem) < 2 ^ 32 -> forall fs n a i index, walks mem a fs -> (length fs < n)%nat ->
  0 <= i -> i + Z.of_nat (length fs) < 2 ^ 32 -> i <= index ->
  nth_entry n mem a i index = Some (match fs !! Z.to_nat (index - i) with
                                    | Some f => (index, Some (t_name f))
                                    | None => (i + Z.of_nat (length fs), None)
                                    end).
Proof.
  intros Hm. induction fs as [|f fs IH]; intros n a i index Hw Hn Hi Hb Hx; (destruct n as [|n]; [simpl in Hn; lia|]); cbn [nth_entry].
  - destruct (entry_end mem a (walks_end mem a Hw)) as (h & -> & ->). simpl. by rewrite Z.add_0_r.
  - destruct (walks_step mem a f fs Hw Hm) as (h & [He Hc _ _ _ Hnx]). destruct (entry_header _ _ _ _ He) as (-> & -> & ->).
    cbn [length] in Hn, Hb. destruct (Z.eqb_spec i index) as [->|Hne].
    + rewrite Z.sub_diag. simpl. by rewrite Hc.
    + rewrite u32_small by lia. rewrite IH by (done || lia). replace (Z.to_nat (index - i)) with (S (Z.to_nat (index - (i + 1)))) by lia.
      cbn [lookup list_lookup length]. destruct (fs !! _); [done|]. do 2 f_equal. lia.
Qed.

Lemma read_placed mem fs n f offset size :
  archive mem fs -> Z.of_nat (length mem) < 2 ^ 32 -> first_file (in_name n) fs = Some f ->
  0 <= offset -> 0 <= size -> offset + size < 2 ^ 32 ->
  initrd_read mem n offset size = Some (take (Z.to_nat size) (drop (Z.to_nat offset) (t_data f))).
Proof.
  intros Ha Hm Hf Ho Hs Hos. pose proof (find_archive mem fs (in_name n) Ha Hm) as HF. rewrite Hf in HF.
  destruct HF as (a & E & H0 & Hend & Hd). unfold initrd_read. rewrite E. pose proof (u32_small (offset + size) ltac:(lia)) as ->.
  rewrite <- Hd. unfold sub. rewrite skipn_firstn_comm, drop_drop. unfold t_len in *.
  destruct (Z.ltb_spec (Z.of_nat (length (t_data f))) offset) as [Hlt|Hge].
  { replace (Z.to_nat (Z.of_nat (length (t_data f))) - Z.to_nat offset)%nat with 0%nat by lia.
    by rewrite firstn_nil. }
  rewrite take_take. replace (Z.to_nat a + Z.to_nat offset)%nat with (Z.to_nat (a + offset)) by lia.
  destruct (Z.ltb_spec (Z.of_nat (length (t_data f))) (offset + size)) as [Hlt|Hge'].
  - rewrite (proj2 (Z.ltb_ge _ _)) by lia. do 2 f_equal. lia.
  - rewrite (proj2 (Z.ltb_ge _ _)) by lia. do 2 f_equal. lia.
Qed.

(** Through the VFS interface a file of the boot archive is found by its
    name, with a leading "./" or "/" ignored and the first of equal names taken,
    and [read_fs] on its node returns exactly the requested slice of its contents;
    a name that is not in the archive is not found. *)
Theorem initrd_open_read mem fs name :
  archive mem fs -> Z.of_nat (length mem) < 2 ^ 32 -> name <> str "house" ->
  match first_file name fs with
  | None => finddir_fs init_initrd name mem = Some (None, mem)
  | Some f => exists n, finddir_fs init_initrd name mem = Some (Some n, mem) /\ in_length n = t_len f
      /\ forall offset size, 0 <= offset -> 0 <= size -> offset + size < 2 ^ 32 ->
         read_fs n offset size mem = Some (take (Z.to_nat size) (drop (Z.to_nat offset) (t_data f)), mem)
  end.
Proof.
  intros Ha Hm Hho. assert (Hfind : finddir_fs init_initrd name mem = match initrd_finddir mem init_initrd name with Some r => Some (r, mem) | None => None end) by done.
  rewrite Hfind. unfold initrd_finddir. change (in_is_dir init_initrd) with true. rewrite (bool_decide_false (name = str "house")) by done.
  rewrite (bool_decide_false (in_name init_initrd = str "house")) by done. rewrite andb_false_r. cbn [negb andb].
  pose proof (find_archive mem fs name Ha Hm) as HF. destruct (first_file name fs) as [f|] eqn:Ef; [|by rewrite HF].
  destruct HF as (a & E & _). rewrite E. eexists. split; [reflexivity|]. split; [done|].
  intros offset size Ho Hs Hos. unfold read_fs. cbn [fn_read initrd_node]. change (in_is_dir _) with false. cbv beta iota.
  by rewrite (read_placed mem fs _ f offset size Ha Hm).
Qed.

(** [initrd_list_files] enumerates the archive, and [readdir] of its root too,
    with the mount point "house" behind the files. *)
Theorem initrd_lists_archive mem fs index :
  archive mem fs -> Z.of_nat (length mem) < 2 ^ 32 -> 0 <= index ->
  initrd_list_files mem index = Some (t_name <$> fs !! Z.to_nat index)
  /\ initrd_readdir mem init_initrd index =
     Some (match fs !! Z.to_nat index with
           | Some f => Some (normalize_initrd_name (t_name f), index)
           | None => if index =? Z.of_nat (length fs) then Some (str "house", index) else None
           end).
Proof.
  intros Ha Hm Hi. assert (Hl : Z.of_nat (length fs) < 2 ^ 32) by (apply archive_blocks in Ha; lia).
  pose proof (nth_walks mem Hm fs (walk_fuel mem) 0 0 index (walks_start _ _ Ha) (archive_fuel _ _ Ha) ltac:(lia) Hl Hi) as E.
  rewrite Z.sub_0_r, Z.add_0_l in E. unfold initrd_list_files, initrd_readdir. change (in_is_dir init_initrd) with true. cbn [negb].
  rewrite E. destruct (fs !! Z.to_nat index) as [f|]; [done|]. rewrite bool_decide_true by done. rewrite andb_true_r.
  split; [done|]. destruct (Z.eqb_spec index (Z.of_nat (length fs))) as [->|]; done.
Qed.

(** ** Installation *)

Definition selected (f : tfile) : bool :=
  (negb (t_type f =? 53) && negb (bool_decide (normalize_initrd_name (t_name f) = [])))%bool.
Definition selection (fs : list tfile) : list tfile := List.filter selected fs.

Section Install.
Context {D : Type} `{BlockDev D}.
Variable junk : list Z.
Variable stk : entry.

(** The files one after the other. *)
Fixpoint install_files (l : list tfile) (total copied : Z) (cb : bool) : M (fs D) (list (Z * list Z)) :=
  match l with
  | [] => mret_ []
  | f :: l' =>
      let path := sdfs_path (normalize_initrd_name (t_name f)) in
      r <-- install_file junk stk path (t_data f) ;;
      calls <-- install_files l' total (copied + r) cb ;;
      mret_ (if (cb && (0 <? total))%bool then (Z.quot ((copied + r) * 100) total, path) :: calls else calls)
  end.

Lemma installs_header h f : c_str h = t_name f -> get8 h O_TYPEFLAG = t_type f -> installs h = selected f.
Proof. unfold installs, selected. by intros -> ->. Qed.

Lemma count_walks mem : Z.of_nat (length mem) < 2 ^ 32 -> forall fs n a total, walks mem a fs -> (length fs < n)%nat ->
  count_files n mem a total = Some (total + Z.of_nat (length (selection fs))).
Proof.
  intros Hm. induction fs as [|f fs IH]; intros n a total Hw Hn; (destruct n as [|n]; [simpl in Hn; lia|]); cbn [count_files].
  - rewrite walks_end by done. simpl. by rewrite Z.add_0_r.
  - destruct (walks_step mem a f fs Hw Hm) as (h & [He Hc Ht _ _ Hx]). rewrite He, (installs_header h f Hc Ht).
    unfold selection. cbn [List.filter]. rewrite IH by (done || simpl in Hn; lia). unfold selection. destruct (selected f); [|done].
    f_equal. simpl. lia.
Qed.

Lemma copy_walks mem cb total : Z.of_nat (length mem) < 2 ^ 32 -> forall fs n a copied s, walks mem a fs -> (length fs < n)%nat ->
  copy_files junk stk n mem a total copied cb s = install_files (selection fs) total copied cb s.
Proof.
  intros Hm. induction fs as [|f fs IH]; intros n a copied s Hw Hn; (destruct n as [|n]; [simpl in Hn; lia|]); cbn [copy_files].
  - by rewrite walks_end.
  - destruct (walks_step mem a f fs Hw Hm) as (h & [He Hc Ht (Ha & Ha0 & Hend) Hd Hx]). rewrite He, (installs_header h f Hc Ht).
    unfold selection. cbn [List.filter]. fold (selection fs). cbn [length] in Hn. destruct (selected f); cbn [negb]; [|by apply IH; [|lia]].
    rewrite Ha, (proj2 (Z.ltb_ge _ _)), Hd, Hc by lia. cbn [install_files]. unfold mbind_.
    destruct (install_file _ _ _ _ s) as [[r s1]|]; [|done]. rewrite IH by (done || lia). done.
Qed.

Lemma install_count path data s r s' : install_file junk stk path data s = Some (r, s') -> r = 0 \/ r = 1.
Proof.
  unfold install_file, mbind_. destruct (create_dirs _ _ s) as [[[] s1]|]; [|done]. destruct (0 <? length data)%nat.
  - destruct (sdfs_write_file _ _ _ _ s1) as [[z s2]|]; [|done]. intros [= <- _]. destruct (0 <? z); auto.
  - destruct (sdfs_create_file _ _ s1) as [[z s2]|]; [|done]. intros [= <- _]. destruct (z =? 0); auto.
Qed.

Lemma install_progress l total copied cb s calls s' :
  0 <= copied -> copied + Z.of_nat (length l) <= total -> install_files l total copied cb s = Some (calls, s') ->
  Forall (fun c => 0 <= c.1 <= 100) calls.
Proof.
  revert copied s calls s'. induction l as [|f l IH]; intros copied s calls s' Hc Ht; cbn [install_files]; [by intros [= <- _]|].
  unfold mbind_. destruct (install_file _ _ _ _ s) as [[r s1]|] eqn:E1; [|done]. apply install_count in E1. cbn [length] in Ht.
  destruct (install_files l total (copied + r) cb s1) as [[cs s2]|] eqn:E2; [|done]. apply IH in E2; [|lia..].
  intros [= <- _]. destruct (cb && (0 <? total))%bool eqn:Eb; [|done]. zbool. constructor; [|done]. cbn [fst].
  rewrite Z.quot_div_nonneg by lia. split; [apply Z.div_pos; lia|]. apply Z.div_le_upper_bound; lia.
Qed.
End Install.


(** ** Witnesses *)

Definition tar_header_demo (name : list Z) (type size : Z) : list Z :=
  splice (splice (splice (zeros 512) 0 name) 124 (octal_digits 11 size)) 156 [type].

Definition tar_files : list tfile :=
  [{| t_name := str "./etc/"; t_type := 53; t_data := [] |}; {| t_name := str "./motd"; t_type := 48; t_data := str "hello" |};
   {| t_name := str "./etc/rc"; t_type := 48; t_data := str "run" |}].

Definition tar_demo : list Z :=
  tar_header_demo (str "./etc/") 53 0 ++ [] ++ [] ++
  tar_header_demo (str "./motd") 48 5 ++ str "hello" ++ zeros 507 ++
  tar_header_demo (str "./etc/rc") 48 3 ++ str "run" ++ zeros 509 ++ zeros 512.

Ltac tar_header := constructor; [by_vm|split; [by_vm|split; [discriminate|by_compute]]|by_vm|by_vm].

Lemma tar_demo_archive : archive tar_demo tar_files.
Proof.
  unfold tar_demo, tar_files. refine (archive_file (tar_header_demo (str "./etc/") 53 0) {| t_name := str "./etc/"; t_type := 53; t_data := [] |} [] _ _ _ _ _); [tar_header|reflexivity|].
  refine (archive_file (tar_header_demo (str "./motd") 48 5) {| t_name := str "./motd"; t_type := 48; t_data := str "hello" |} (zeros 507) _ _ _ _ _); [tar_header|reflexivity|].
  refine (archive_file (tar_header_demo (str "./etc/rc") 48 3) {| t_name := str "./etc/rc"; t_type := 48; t_data := str "run" |} (zeros 509) _ _ _ _ _); [tar_header|reflexivity|].
  apply archive_end; [by_compute|reflexivity].
Qed.

Lemma initrd_open_read_witness :
  exists n, finddir_fs init_initrd (str "motd") tar_demo = Some (Some n, tar_demo) /\ read_fs n 1 3 tar_demo = Some (str "ell", tar_demo).
Proof.
  destruct (initrd_open_read tar_demo tar_files (str "motd") tar_demo_archive ltac:(by_compute) ltac:(discriminate)) as (n & H1 & _ & H2).
  exists n. split; [exact H1|]. exact (H2 1 3 ltac:(lia) ltac:(lia) ltac:(lia)).
Defined.


(** It can be read back, directory included. *)
Example tar_demo_installed :
  option_map (fun r => (r.1, sdfs_read_file (zeros 4096) stack_demo r.2 (str "/etc/rc"), sdfs_read_file (zeros 4096) stack_demo r.2 (str "/motd")))
    (initrd_copy_to_sdfs (zeros 4096) stack_demo tar_demo true fs_demo)
  = Some ([(50, str "/motd"); (100, str "/etc/rc"); (100, [])], Some (Some (3, str "run")), Some (Some (5, str "hello"))).
Proof. by_vm. Qed.

(** ** What the walk does not check *)

(** The 32-bit sum of offset and size wraps around: a read of almost 4 GB from
    offset 1 is not cut at the end of the file. *)
Theorem initrd_read_wraps mem fs n f :
  archive mem fs -> Z.of_nat (length mem) < 2 ^ 32 -> first_file (in_name n) fs = Some f -> 1 <= t_len f ->
  initrd_read mem n 1 (2 ^ 32 - 1) = None.
Proof.
  intros Ha Hm Hf Hl. pose proof (find_archive mem fs (in_name n) Ha Hm) as HF. rewrite Hf in HF. destruct HF as (a & E & H0 & Hend & _).
  unfold initrd_read. rewrite E, (proj2 (Z.ltb_ge (t_len f) 1)) by lia. change (u32 (1 + (2 ^ 32 - 1))) with 0.
  rewrite (proj2 (Z.ltb_ge (t_len f) 0)) by lia. cbv zeta. by rewrite (proj2 (Z.ltb_lt _ _)) by lia.
Qed.

(** A header with the size 2^32 - 512 leads back to itself: a search for
    another name never ends. *)
Definition looping : list Z := tar_header_demo (str "a") 48 (2 ^ 32 - 512).

Theorem initrd_walk_loops rest name n : initrd_name_equals (str "a") name = false -> find_file n (looping ++ rest) 0 name = None.
Proof.
  intros Hn. assert (E : entry_at (looping ++ rest) 0 = Some (Some (looping ++ rest, 2 ^ 32 - 512))).
  { unfold entry_at, header_at. rewrite (proj2 (Z.ltb_ge _ _)) by (rewrite length_app; change (length looping) with 512%nat; lia). reflexivity. }
  assert (Ec : c_str (looping ++ rest) = str "a") by reflexivity.
  induction n as [|n IH]; [done|]. cbn [find_file]. rewrite E, Ec, Hn. change (next_address 0 (2 ^ 32 - 512)) with 0. exact IH.
Qed.
