(* ===== verification/Elf.v ===== *)
(** * The ELF loader ([src/src/kernel/core/elf.c], [src/include/uapi/elf.h])

    [elf32_load_file] and [elf64_load_file] map fresh pages for every PT_LOAD
    segment and copy it there.  [file] is the buffer the file was read to; reading
    behind it is [None].  The bytes of the address space being loaded are [umem],
    by virtual address, as in [Usercopy]; a store to a page that is not mapped
    faults ([None]).  The debug output at the end of [elf64_load_file] is left
    out. *)

From Stdlib Require Import ZArith Lia.
From stdpp Require Import base numbers list gmap.
From S2P Require Import Prelude Bytes Pmm Kheap Vmm Usercopy Mmap.

#[local] Open Scope Z_scope.

(** ** Headers *)

Definition EI_CLASS : nat := 4.
Definition ELFCLASS32 : Z := 1.
Definition ELFCLASS64 : Z := 2.
Definition EM_386 : Z := 3.
Definition EM_X86_64 : Z := 62.
Definition PT_LOAD : Z := 1.

Definition get64 (b : list Z) (off : nat) : Z := le_value (sub b off 8).

Definition elf_class (file : option (list Z)) : Z :=
  match file with
  | None => -1
  | Some b =>
      if negb ((get8 b 0 =? 0x7F) && (get8 b 1 =? 69) && (get8 b 2 =? 76) && (get8 b 3 =? 70))%bool then -1 else
      if (negb (get8 b EI_CLASS =? ELFCLASS32) && negb (get8 b EI_CLASS =? ELFCLASS64))%bool then -1
      else get8 b EI_CLASS
  end.

Record phdr := { p_type : Z; p_offset : Z; p_vaddr : Z; p_filesz : Z; p_memsz : Z }.

Definition e_machine (b : list Z) : Z := get16 b 18.
Definition e_entry32 (b : list Z) : Z := get32 b 24.
Definition e_phoff32 (b : list Z) : Z := get32 b 28.
Definition e_phnum32 (b : list Z) : Z := get16 b 44.
Definition e_entry64 (b : list Z) : Z := get64 b 24.
Definition e_phoff64 (b : list Z) : Z := get64 b 32.
Definition e_phnum64 (b : list Z) : Z := get16 b 56.

Definition PHDR32 : Z := 32.
Definition PHDR64 : Z := 56.

Definition phdr32 (b : list Z) (i : Z) : option phdr :=
  let o := e_phoff32 b + PHDR32 * i in
  if Z.of_nat (length b) <? o + PHDR32 then None else
  let o := Z.to_nat o in
  Some {| p_type := get32 b o; p_offset := get32 b (o + 4); p_vaddr := get32 b (o + 8); p_filesz := get32 b (o + 16); p_memsz := get32 b (o + 20) |}.

Definition phdr64 (b : list Z) (i : Z) : option phdr :=
  let o := e_phoff64 b + PHDR64 * i in
  if Z.of_nat (length b) <? o + PHDR64 then None else
  let o := Z.to_nat o in
  Some {| p_type := get32 b o; p_offset := get64 b (o + 8); p_vaddr := get64 b (o + 16); p_filesz := get64 b (o + 32); p_memsz := get64 b (o + 40) |}.

(** ** State *)

Record loader := { lvm : vm; umem : gmap Z Z; last_elf_heap_start : Z }.

Definition set_lvm (v : vm) (s : loader) : loader := {| lvm := v; umem := umem s; last_elf_heap_start := last_elf_heap_start s |}.
Definition set_umem (m : gmap Z Z) (s : loader) : loader := {| lvm := lvm s; umem := m; last_elf_heap_start := last_elf_heap_start s |}.
Definition set_heap_start (h : Z) (s : loader) : loader := {| lvm := lvm s; umem := umem s; last_elf_heap_start := h |}.

Definition on_vm {A} (m : M vm A) : M loader A := fun s =>
  match m (lvm s) with Some (a, v) => Some (a, set_lvm v s) | None => None end.

(** A store of the bytes at a virtual address: every page they touch must be
    mapped. *)
Definition page_mapped (v : vm) (a : Z) : bool :=
  match translate_addr (vmem v) (dir_pml4 v (current_directory v)) a with Some _ => true | None => false end.

Definition pages_of (a n : Z) : list Z := (fun i => (a &~ 0xFFF) + i * 4096) <$> seqZ 0 (((a + n + 0xFFF) &~ 0xFFF) / 4096 - (a &~ 0xFFF) / 4096).

Definition put_bytes (a : Z) (bs : list Z) : M loader unit := fun s =>
  if forallb (page_mapped (lvm s)) (pages_of a (Z.of_nat (length bs))) then Some (tt, set_umem (write_bytes (umem s) a bs) s) else None.

(** ** Segments *)

(** The [memset] of the page to 0, on the bytes. *)
Definition zero_page_at (m : gmap Z Z) (p : Z) : gmap Z Z := write_bytes m p (zeros 4096).

(** [for (p = start_page; p < end_page; p += 4096)], [n] pages from [p] on. *)
Fixpoint map_pages (p : Z) (n : nat) : M loader unit :=
  match n with
  | O => mret_ tt
  | S n' =>
      phys <-- on_vm call_pmm_alloc_block ;;
      on_vm (vmm_map_page phys p 7) ;;;
      on_vm (memset_page p) ;;;
      mmodify (fun s => set_umem (zero_page_at (umem s) p) s) ;;;
      map_pages (u64 (p + 4096)) n'
  end.

Definition start_page (h : phdr) : Z := p_vaddr h &~ 0xFFF.
Definition end_page (h : phdr) : Z := u64 (p_vaddr h + p_memsz h + 0xFFF) &~ 0xFFF.

Definition load_segment (file : list Z) (h : phdr) : M loader unit :=
  map_pages (start_page h) (Z.to_nat ((end_page h - start_page h + 4095) / 4096)) ;;;
  (if Z.of_nat (length file) <? p_offset h + u32 (p_filesz h) then mstop
   else put_bytes (p_vaddr h) (sub file (Z.to_nat (p_offset h)) (Z.to_nat (u32 (p_filesz h))))) ;;;
  mwhen (p_filesz h <? p_memsz h) (put_bytes (u64 (p_vaddr h + p_filesz h)) (zeros (Z.to_nat (p_memsz h - p_filesz h)))).

(** The loop over the program headers from [i] on; the result is [max_end]. *)
Fixpoint load_loop (header : Z -> option phdr) (file : list Z) (i : Z) (n : nat) (max_end : Z) : M loader Z :=
  match n with
  | O => mret_ max_end
  | S n' =>
      match header i with
      | None => mstop
      | Some h =>
          if p_type h =? PT_LOAD then
            load_segment file h ;;;
            load_loop header file (i + 1) n' (if max_end <? end_page h then end_page h else max_end)
          else load_loop header file (i + 1) n' max_end
      end
  end.

Definition elf32_load_file (file : list Z) : M loader Z :=
  if Z.of_nat (length file) <? 52 then mstop else
  if negb (e_machine file =? EM_386) then mret_ 0 else
  load_loop (phdr32 file) file 0 (Z.to_nat (e_phnum32 file)) 0 ;;;
  mret_ (e_entry32 file).

Definition elf64_load_file (file : list Z) : M loader Z :=
  if Z.of_nat (length file) <? 64 then mstop else
  if negb (e_machine file =? EM_X86_64) then mret_ 0 else
  max_end <-- load_loop (phdr64 file) file 0 (Z.to_nat (e_phnum64 file)) 0 ;;
  mmodify (set_heap_start max_end) ;;;
  mret_ (e_entry64 file).

(** ** Lemmas on memory *)

Lemma lookup_zeros n i : 0 <= i < Z.of_nat n -> (zeros n).[i] = 0.
Proof. intros H. unfold nthZ, zeros. by rewrite lookup_replicate_2 by lia. Qed.

Lemma lookup_write m p bs a :
  write_bytes m p bs !! a = if ((p <=? a) && (a <? p + Z.of_nat (length bs)))%bool then Some bs.[a - p] else m !! a.
Proof.
  replace a with (p + (a - p)) at 1 by lia. rewrite lookup_write_bytes. replace (p + (a - p)) with a by lia. zcases; try done; lia.
Qed.

Lemma lookup_write_zeros m p n a : write_bytes m p (zeros n) !! a = if ((p <=? a) && (a <? p + Z.of_nat n))%bool then Some 0 else m !! a.
Proof.
  rewrite lookup_write. unfold zeros at 1. rewrite length_replicate. destruct ((p <=? a) && (a <? p + Z.of_nat n))%bool eqn:E; [|done].
  zbool. by rewrite lookup_zeros by lia.
Qed.

Lemma lookup_zero_page m p a : zero_page_at m p !! a = if ((p <=? a) && (a <? p + 4096))%bool then Some 0 else m !! a.
Proof. unfold zero_page_at. rewrite lookup_write_zeros. done. Qed.

(** The bytes after [k] pages from [p] on were cleared. *)
Lemma map_pages_runs base : forall k i s v', 0 <= base -> 0 <= i -> base + (i + Z.of_nat k) * 4096 < 2 ^ 48 ->
  mmap_loop base 7 i k (lvm s) = Some (true, v') ->
  exists m, map_pages (base + i * 4096) k s = Some (tt, set_umem m (set_lvm v' s))
    /\ forall a, m !! a = if ((base + i * 4096 <=? a) && (a <? base + (i + Z.of_nat k) * 4096))%bool then Some 0 else umem s !! a.
Proof.
  induction k as [|k IH]; intros i s v' Hb Hi Hk; cbn [mmap_loop map_pages].
  - intros [= <-]. exists (umem s). split; [by destruct s|]. intros a. zcases; try done; lia.
  - unfold mbind_ at 1. unfold call_pmm_alloc_block at 1. destruct (pmm_alloc_block (kpmm (vheap (lvm s)))) as [phys m1] eqn:Ea.
    destruct (phys =? 0); [unfold mbind_; destruct (unmap_all _ _ _) as [[[] ?]|]; [intros [=]|done]|].
    rewrite (u64_small (base + i * 4096)) by lia. set (v1 := set_vheap (lvm s) (set_pmm (vheap (lvm s)) m1)). unfold mbind_ at 1 2.
    destruct (vmm_map_page phys (base + i * 4096) 7 v1) as [[[] v2]|] eqn:E2; [|done].
    destruct (memset_page (base + i * 4096) v2) as [[[] v3]|] eqn:E3; [|done]. intros Hrest.
    destruct (IH (i + 1) (set_umem (zero_page_at (umem s) (base + i * 4096)) (set_lvm v3 s)) v') as (m & E & Hm); [lia|lia|lia|exact Hrest|].
    exists m. split.
    + unfold mbind_, on_vm, call_pmm_alloc_block. rewrite Ea. cbn [lvm set_lvm]. fold v1. rewrite E2. cbn [lvm set_lvm]. rewrite E3.
      unfold mmodify. rewrite u64_small by lia. replace (base + i * 4096 + 4096) with (base + (i + 1) * 4096) by lia.
      exact E.
    + intros a. rewrite Hm. cbn [umem set_umem]. rewrite lookup_zero_page. zcases; try done; lia.
Qed.

(** ** Enough memory *)

(** The tables are sound and there is room for [n] more pages: heap for their
    tables, and [n] free frames above the heap's reach. *)
Record ready (pml4 : Z) (v : vm) (n : Z) : Prop := {
  rd_inv : vm_inv v pml4;
  rd_dir : dir_pml4 v (current_directory v) = pml4;
  rd_wf : pmm_wf (kpmm (vheap v));
  rd_room : kheap_current (vheap v) + n * PAGE_ROOM < memory_size (vheap v);
  rd_free : forall b, 0 <= b < pmm_max_blocks (kpmm (vheap v)) -> pmm_used (kpmm (vheap v)) b = false ->
    kheap_current (vheap v) + n * PAGE_ROOM <= b * 4096;
  rd_frames : exists F, NoDup F /\ n <= Z.of_nat (length F)
    /\ forall b, b ∈ F -> 0 <= b < 32 * (pmm_max_blocks (kpmm (vheap v)) / 32) /\ pmm_used (kpmm (vheap v)) b = false
}.

Lemma length_without (F fs : list Z) : NoDup F -> (length F <= length (filter (fun b : Z => (b * 4096)%Z ∉ fs) F) + length fs)%nat.
Proof.
  intros HF. set (G := filter (fun b : Z => (b * 4096)%Z ∉ fs) F).
  assert (H : (fun b => b * 4096) <$> F ⊆+ ((fun b => b * 4096) <$> G) ++ fs).
  { apply NoDup_submseteq.
    - apply NoDup_fmap_2; [|done]. intros x y. lia.
    - intros x (b & -> & Hb)%list_elem_of_fmap. apply elem_of_app. destruct (decide (b * 4096 ∈ fs)) as [|Hn]; [by right|left].
      apply list_elem_of_fmap. exists b. split; [done|]. apply list_elem_of_filter. done. }
  apply submseteq_length in H. rewrite length_app, !length_fmap in H. lia.
Qed.

Lemma ready_maps pml4 v N base n :
  ready pml4 v N -> base mod 4096 = 0 -> 0 <= base -> 0 <= n <= N -> base + n * 4096 < 2 ^ 48 ->
  exists v' fs, mmap_loop base 7 0 (Z.to_nat n) v = Some (true, v') /\ ready pml4 v' (N - n)
    /\ mapped v pml4 base 7 n fs v' /\ Z.of_nat (length fs) = n.
Proof.
  intros [Hi Hd Hw Hroom Hfree (F & HF & HN & HFf)] Hb Hb0 Hn Hlim. assert (Hpr : 0 < PAGE_ROOM) by done.
  destruct (mmap_loop_run v pml4 base 7 n) with (k := Z.to_nat n) (fs := @nil Z) (s := v) as (ok & v' & fs & E & H);
    [done|done|done|nia| |by apply mapped_nil|cbn; lia|].
  { intros b Hbb Hu. pose proof (Hfree b Hbb Hu). nia. }
  change (Z.of_nat (length [])) with 0 in E. destruct ok.
  2: { exfalso. destruct H as [Hl Hall]. assert (Hsub : (fun b => b * 4096) <$> F ⊆+ fs).
    { apply NoDup_submseteq; [apply NoDup_fmap_2; [intros x y; lia|done]|].
      intros x (b & -> & Hbf)%list_elem_of_fmap. destruct (HFf b Hbf). by apply Hall. }
    apply submseteq_length in Hsub. rewrite length_fmap in Hsub. lia. }
  destruct H as [Hm Hlen]. exists v', fs. split; [done|]. split; [|done]. destruct Hm as [M1 M2 M3 M4 (M5 & M6 & M7) M8 M9 M10].
  constructor; [done|done|done|rewrite M4; nia| |].
  - intros b Hbb Hu. rewrite M6 in Hbb. assert (Hu0 : pmm_used (kpmm (vheap v)) b = false).
    { destruct (pmm_used (kpmm (vheap v)) b) eqn:E0; [|done]. by rewrite (proj1 (M7 b Hbb) E0) in Hu. }
    pose proof (Hfree b Hbb Hu0). nia.
  - exists (filter (fun b : Z => (b * 4096)%Z ∉ fs) F). split; [by apply NoDup_filter|]. pose proof (length_without F fs HF). split; [lia|].
    intros b [Hnb Hbf]%list_elem_of_filter. destruct (HFf b Hbf) as [Hr Hu]. rewrite M6. split; [done|].
    assert (Hbb : 0 <= b < pmm_max_blocks (kpmm (vheap v))) by zlia. pose proof (Hfree b Hbb Hu).
    rewrite (proj2 (M7 b Hbb)) by nia. by rewrite Hu, bool_decide_false.
Qed.

(** ** One segment *)

Record seg_ok (file : list Z) (h : phdr) : Prop := {
  sg_file : 0 <= p_offset h /\ p_offset h + p_filesz h <= Z.of_nat (length file);
  sg_size : 0 <= p_filesz h <= p_memsz h /\ p_filesz h < 2 ^ 32;
  sg_addr : 0 <= p_vaddr h /\ p_vaddr h + p_memsz h + 4096 < 2 ^ 48
}.

Definition seg_pages (h : phdr) : Z := (end_page h - start_page h) / 4096.

(** What a segment leaves at the address [a]: the file's byte, a zero on the
    rest of its pages, nothing elsewhere. *)
Definition seg_byte (file : list Z) (h : phdr) (a : Z) : option Z :=
  if ((p_vaddr h <=? a) && (a <? p_vaddr h + p_filesz h))%bool then Some file.[p_offset h + (a - p_vaddr h)]
  else if ((start_page h <=? a) && (a <? end_page h))%bool then Some 0
  else None.

Lemma seg_bounds file h : seg_ok file h ->
  start_page h = 4096 * (p_vaddr h / 4096) /\ end_page h = 4096 * ((p_vaddr h + p_memsz h + 4095) / 4096)
  /\ start_page h mod 4096 = 0 /\ 0 <= start_page h <= end_page h /\ end_page h < 2 ^ 48 /\ p_vaddr h + p_memsz h <= end_page h
  /\ start_page h + seg_pages h * 4096 = end_page h /\ 0 <= seg_pages h.
Proof.
  intros [_ [Hs _] [Ha Hb]]. assert (E1 : start_page h = 4096 * (p_vaddr h / 4096)) by (unfold start_page; rewrite page_mask; zlia).
  assert (E2 : end_page h = 4096 * ((p_vaddr h + p_memsz h + 4095) / 4096)) by (unfold end_page; rewrite u64_small, page_mask by lia; zlia).
  split; [done|]. split; [done|]. assert (H1 : start_page h mod 4096 = 0) by (rewrite E1; zlia). split; [done|].
  assert (H2 : 0 <= start_page h <= end_page h) by zlia. split; [done|]. split; [zlia|]. split; [zlia|].
  assert (H3 : end_page h - start_page h = 4096 * ((p_vaddr h + p_memsz h + 4095) / 4096 - p_vaddr h / 4096)) by lia.
  unfold seg_pages. rewrite H3, (Z.mul_comm 4096), Z.div_mul by lia. lia.
Qed.

Lemma pages_of_mapped v v' pml4 base n fs a len :
  mapped v pml4 base 7 n fs v' -> Z.of_nat (length fs) = n -> base mod 4096 = 0 -> base <= a -> 0 <= len -> a + len <= base + n * 4096 ->
  forallb (page_mapped v') (pages_of a len) = true.
Proof.
  intros Hm Hl Hb Ha H0 Hlen. apply Is_true_true, forallb_True, Forall_forall. intros p (i & -> & Hi%elem_of_seqZ)%list_elem_of_fmap.
  rewrite !page_mask in *. set (x := (a - a mod 4096 + i * 4096 - base) / 4096).
  assert (Hx : a - a mod 4096 + i * 4096 = base + Z.of_nat (Z.to_nat x) * 4096 /\ 0 <= x < n) by (unfold x; zlia).
  destruct Hx as [Ex Hx]. destruct (lookup_lt_is_Some_2 fs (Z.to_nat x)) as [f Hf]; [lia|].
  destruct (mp_frames _ _ _ _ _ _ _ Hm _ f Hf) as (_ & _ & fl & Htr & _). unfold page_mapped. rewrite (mp_dir _ _ _ _ _ _ _ Hm), Ex, Htr. done.
Qed.

Lemma sub_byte file o n i : 0 <= o -> 0 <= i < n -> o + n <= Z.of_nat (length file) -> (sub file (Z.to_nat o) (Z.to_nat n)).[i] = file.[o + i].
Proof.
  intros Ho Hi Hl. unfold nthZ. rewrite lookup_sub. rewrite decide_True by lia. by replace (Z.to_nat o + Z.to_nat i)%nat with (Z.to_nat (o + i)) by lia.
Qed.

Lemma put_bytes_runs a bs s : forallb (page_mapped (lvm s)) (pages_of a (Z.of_nat (length bs))) = true ->
  put_bytes a bs s = Some (tt, set_umem (write_bytes (umem s) a bs) s).
Proof. intros H. unfold put_bytes. by rewrite H. Qed.

(** The pages of a segment are mapped, and the others stay where they are. *)
Definition seg_mapped (pml4 : Z) (h : phdr) (v v' : vm) : Prop :=
  (forall a, start_page h <= a < end_page h -> a mod 4096 = 0 -> exists f fl, translate_addr (vmem v') pml4 a = Some (f, fl) /\ has fl PTE_U = true)
  /\ forall i j k l, Forall in_table [i; j; k; l] ->
     (forall a, start_page h <= a < end_page h -> a mod 4096 = 0 -> [i; j; k; l] <> page_path a) ->
     fst <$> translate (vmem v') pml4 i j k l = fst <$> translate (vmem v) pml4 i j k l.

Lemma mapped_seg pml4 file h v v' fs : seg_ok file h ->
  mapped v pml4 (start_page h) 7 (seg_pages h) fs v' -> Z.of_nat (length fs) = seg_pages h -> seg_mapped pml4 h v v'.
Proof.
  intros Hok Hm Hl. destruct (seg_bounds file h Hok) as (_ & _ & Hmod & Hse & _ & _ & Hend & _). split.
  - intros a Ha Ham. set (x := (a - start_page h) / 4096). assert (Ex : a = start_page h + Z.of_nat (Z.to_nat x) * 4096 /\ 0 <= x < seg_pages h) by (unfold x; zlia).
    destruct Ex as [Ex Hx]. destruct (lookup_lt_is_Some_2 fs (Z.to_nat x)) as [f Hf]; [lia|].
    destruct (mp_frames _ _ _ _ _ _ _ Hm _ f Hf) as (_ & _ & fl & Htr & HU & _). exists f, fl. by rewrite Ex.
  - intros i j k l Hall Hne. apply (mp_other _ _ _ _ _ _ _ Hm); [done|]. intros x Hx. apply Hne; [lia|]. zlia.
Qed.

Lemma load_segment_runs pml4 file h s N :
  seg_ok file h -> ready pml4 (lvm s) N -> seg_pages h <= N ->
  exists s', load_segment file h s = Some (tt, s') /\ ready pml4 (lvm s') (N - seg_pages h) /\ seg_mapped pml4 h (lvm s) (lvm s')
    /\ (forall a, umem s' !! a = match seg_byte file h a with Some b => Some b | None => umem s !! a end)
    /\ last_elf_heap_start s' = last_elf_heap_start s.
Proof.
  intros Hok Hr HN. destruct (seg_bounds file h Hok) as (_ & _ & Hmod & Hse & H48 & Hend & Hpg & Hp0). pose proof Hok as [(Ho & Hfl) (Hsz & H32) (Hv & Hv48)].
  assert (Hsv : start_page h <= p_vaddr h) by (unfold start_page; rewrite page_mask; zlia).
  destruct (ready_maps pml4 (lvm s) N (start_page h) (seg_pages h) Hr Hmod ltac:(lia) ltac:(lia) ltac:(lia)) as (v' & fs & E & Hr' & Hm & Hl).
  destruct (map_pages_runs (start_page h) (Z.to_nat (seg_pages h)) 0 s v' ltac:(lia) ltac:(lia) ltac:(lia) E) as (m & Em & Hmm).
  rewrite Z.mul_0_l, Z.add_0_r, Z.add_0_l in *. rewrite Z2Nat.id, Hpg in Hmm by lia.
  assert (Hn : (end_page h - start_page h + 4095) / 4096 = seg_pages h) by zlia.
  set (data := sub file (Z.to_nat (p_offset h)) (Z.to_nat (p_filesz h))).
  assert (Ld : Z.of_nat (length data) = p_filesz h) by (unfold data; rewrite length_sub; lia).
  unfold load_segment, mbind_ at 1. rewrite Hn, Em, u32_small by lia. rewrite (proj2 (Z.ltb_ge _ _)) by lia. fold data. unfold mbind_.
  assert (Hpm : forall a len, start_page h <= a -> 0 <= len -> a + len <= end_page h -> forallb (page_mapped v') (pages_of a len) = true).
  { intros a len Ha H0 Hlen. apply (pages_of_mapped (lvm s) v' pml4 (start_page h) (seg_pages h) fs); [done|done|done|done|done|lia]. }
  rewrite put_bytes_runs by (cbn [lvm set_umem set_lvm]; apply Hpm; lia). cbn [umem set_umem].
  destruct (Z.ltb_spec (p_filesz h) (p_memsz h)) as [Hlt|Hge]; unfold mwhen.
  - set (z := zeros (Z.to_nat (p_memsz h - p_filesz h))). assert (Lz : Z.of_nat (length z) = p_memsz h - p_filesz h) by (unfold z, zeros; rewrite length_replicate; lia).
    rewrite u64_small by lia. rewrite put_bytes_runs by (cbn [lvm set_umem set_lvm]; apply Hpm; lia).
    eexists. split; [reflexivity|]. cbn [lvm umem set_umem set_lvm last_elf_heap_start]. split; [done|]. split; [by apply (mapped_seg pml4 file h _ _ fs)|]. split; [|done].
    intros a. unfold z. rewrite lookup_write_zeros, lookup_write, Hmm, Ld. unfold seg_byte.
    destruct ((p_vaddr h <=? a) && (a <? p_vaddr h + p_filesz h))%bool eqn:Ein.
    + zbool. rewrite (proj2 (Z.leb_gt _ a)) by lia. cbn [andb]. unfold data. by rewrite sub_byte by lia.
    + zcases; try done; lia.
  - eexists. split; [reflexivity|]. cbn [lvm umem set_umem set_lvm last_elf_heap_start]. split; [done|]. split; [by apply (mapped_seg pml4 file h _ _ fs)|]. split; [|done].
    intros a. rewrite lookup_write, Hmm, Ld. unfold seg_byte. destruct ((p_vaddr h <=? a) && (a <? p_vaddr h + p_filesz h))%bool eqn:Ein; [|by destruct ((start_page h <=? a) && (a <? end_page h))%bool].
    zbool. unfold data. by rewrite sub_byte by lia.
Qed.

(** ** All segments *)

Definition loads (hs : list phdr) : list phdr := List.filter (fun h => p_type h =? PT_LOAD) hs.
Definition total_pages (l : list phdr) : Z := foldr (fun h n => seg_pages h + n) 0 l.
Definition last_page (l : list phdr) (m : Z) : Z := foldl (fun m h => if m <? end_page h then end_page h else m) m l.

(** What the segments leave at [a], the last one that covers it first. *)
Definition image (file : list Z) (l : list phdr) (a : Z) (old : option Z) : option Z :=
  foldl (fun acc h => match seg_byte file h a with Some b => Some b | None => acc end) old l.

(** The page of [a] is mapped. *)
Definition present (pml4 : Z) (v : vm) (a : Z) : Prop := is_Some (translate_addr (vmem v) pml4 a).

Lemma seg_keeps pml4 file h v v' a : seg_ok file h -> seg_mapped pml4 h v v' -> 0 <= a < 2 ^ 48 -> a mod 4096 = 0 -> present pml4 v a -> present pml4 v' a.
Proof.
  intros Hok [Hin Hout] Ha Ham [[f fl] Hp]. destruct (seg_bounds file h Hok) as (_ & _ & _ & Hse & H48 & _). unfold present.
  destruct (decide (start_page h <= a < end_page h)) as [Hr|Hr].
  - destruct (Hin a Hr Ham) as (f' & fl' & -> & _). done.
  - assert (E : fst <$> translate_addr (vmem v') pml4 a = fst <$> translate_addr (vmem v) pml4 a).
    { unfold translate_addr. apply Hout; [apply page_path_in|]. intros b Hb Hbm E. apply Hr. assert (a = b) as ->; [|done].
      apply page_path_inj; [done|lia|done|done|exact E]. }
    rewrite Hp in E. destruct (translate_addr (vmem v') pml4 a); done.
Qed.

Lemma load_loop_runs pml4 header file : forall hs i s N max_end,
  (forall j h, hs !! j = Some h -> header (i + Z.of_nat j) = Some h) -> Forall (seg_ok file) (loads hs) ->
  ready pml4 (lvm s) N -> total_pages (loads hs) <= N ->
  exists s', load_loop header file i (length hs) max_end s = Some (last_page (loads hs) max_end, s')
    /\ ready pml4 (lvm s') (N - total_pages (loads hs))
    /\ (forall a, umem s' !! a = image file (loads hs) a (umem s !! a))
    /\ (forall a, 0 <= a < 2 ^ 48 -> a mod 4096 = 0 ->
          present pml4 (lvm s) a \/ Exists (fun h => start_page h <= a < end_page h) (loads hs) -> present pml4 (lvm s') a)
    /\ last_elf_heap_start s' = last_elf_heap_start s.
Proof.
  induction hs as [|h hs IH]; intros i s N max_end Hh Hok Hr HN; cbn [length load_loop].
  - exists s. split; [done|]. split; [by rewrite Z.sub_0_r|]. split; [done|]. split; [|done]. intros a _ _ [H|H]; [done|]. by apply Exists_nil in H.
  - pose proof (Hh 0%nat h eq_refl) as H0. rewrite Z.add_0_r in H0. rewrite H0.
    assert (Hh' : forall j h', hs !! j = Some h' -> header (i + 1 + Z.of_nat j) = Some h').
    { intros j h' Hj. replace (i + 1 + Z.of_nat j) with (i + Z.of_nat (S j)) by lia. by apply Hh. }
    unfold loads in Hok, HN |- *. cbn [List.filter] in Hok, HN |- *. fold (loads hs) in *.
    destruct (p_type h =? PT_LOAD); [|by apply IH].
    apply Forall_cons in Hok as [Hok Hoks]. change (total_pages (h :: loads hs)) with (seg_pages h + total_pages (loads hs)) in *.
    assert (Ht : 0 <= total_pages (loads hs)).
    { clear -Hoks. induction Hoks as [|h' l Hk _ IH]; [done|]. destruct (seg_bounds file h' Hk) as (_ & _ & _ & _ & _ & _ & _ & ?). change (0 <= seg_pages h' + total_pages l). lia. }
    destruct (load_segment_runs pml4 file h s N Hok Hr ltac:(lia)) as (s1 & E1 & Hr1 & Hm1 & Hu1 & Hl1).
    destruct (IH (i + 1) s1 (N - seg_pages h) (if max_end <? end_page h then end_page h else max_end) Hh' Hoks Hr1 ltac:(lia))
      as (s2 & E2 & Hr2 & Hu2 & Hp2 & Hl2).
    exists s2. unfold mbind_. rewrite E1, E2. split; [done|]. split; [by replace (N - (seg_pages h + total_pages (loads hs))) with (N - seg_pages h - total_pages (loads hs)) by lia|].
    split; [intros a; by rewrite Hu2, Hu1|]. split; [|congruence].
    intros a Ha Ham Hpa. apply Hp2; [done|done|]. destruct Hpa as [Hpa|Hpa].
    + left. by apply (seg_keeps pml4 file h (lvm s)).
    + apply Exists_cons in Hpa as [Hpa|Hpa]; [|by right]. left. destruct Hm1 as [Hin _]. destruct (Hin a Hpa Ham) as (f & fl & E & _).
      unfold present. by rewrite E.
Qed.

Lemma image_later file l a old : Forall (fun h => seg_byte file h a = None) l -> image file l a old = old.
Proof. intros H. unfold image. revert old. induction H as [|h l E _ IH]; intros old; [done|]. cbn [foldl]. rewrite E. apply IH. Qed.

Lemma seg_byte_outside file h a : seg_ok file h -> a < start_page h \/ end_page h <= a -> seg_byte file h a = None.
Proof.
  intros Hok Ha. destruct (seg_bounds file h Hok) as (E1 & _ & _ & _ & _ & He & _). destruct Hok as [_ (Hs & _) _].
  unfold seg_byte. zcases; try done; zlia.
Qed.

Lemma seg_byte_inside file h a : start_page h <= a < end_page h -> exists b, seg_byte file h a = Some b.
Proof. intros Ha. unfold seg_byte. zcases; try (by eexists); lia. Qed.

(** The segments of [l] are in the address space: each one whose pages no later
    segment shares has its bytes of the file, then zeros, on pages that are
    mapped; bytes outside all of them are what they were. *)
Definition loaded (pml4 : Z) (file : list Z) (l : list phdr) (s s' : loader) : Prop :=
  (forall l1 h l2, l = l1 ++ h :: l2 -> Forall (fun h' => end_page h' <= start_page h \/ end_page h <= start_page h') l2 ->
     forall a, start_page h <= a < end_page h -> umem s' !! a = seg_byte file h a)
  /\ (forall h a, h ∈ l -> start_page h <= a < end_page h -> a mod 4096 = 0 -> present pml4 (lvm s') a)
  /\ (forall a, Forall (fun h => a < start_page h \/ end_page h <= a) l -> umem s' !! a = umem s !! a).

Lemma load_loop_loaded pml4 header file hs s N :
  (forall j h, hs !! j = Some h -> header (Z.of_nat j) = Some h) -> Forall (seg_ok file) (loads hs) ->
  ready pml4 (lvm s) N -> total_pages (loads hs) <= N ->
  exists s', load_loop header file 0 (length hs) 0 s = Some (last_page (loads hs) 0, s') /\ loaded pml4 file (loads hs) s s'
    /\ last_elf_heap_start s' = last_elf_heap_start s.
Proof.
  intros Hh Hok Hr HN. destruct (load_loop_runs pml4 header file hs 0 s N 0 Hh Hok Hr HN) as (s' & E & _ & Hu & Hp & Hl).
  exists s'. split; [done|]. split; [|done]. split; [|split].
  - intros l1 h l2 El Hdis a Ha. rewrite El in Hok. apply Forall_app in Hok as [_ Hok]. apply Forall_cons in Hok as [Hokh Hok2].
    rewrite Hu, El. unfold image. rewrite foldl_app. cbn [foldl]. destruct (seg_byte_inside file h a Ha) as [b Eb]. rewrite Eb.
    apply image_later. apply Forall_forall. intros h' Hin. rewrite Forall_forall in Hdis, Hok2. apply seg_byte_outside; [by apply Hok2|].
    destruct (Hdis h' Hin); lia.
  - intros h a Hin Ha Ham. rewrite Forall_forall in Hok. destruct (seg_bounds file h (Hok h Hin)) as (_ & _ & _ & ? & ? & _).
    apply Hp; [lia|done|]. right. apply Exists_exists. by exists h.
  - intros a Hout. rewrite Hu. apply image_later. rewrite Forall_forall in Hok, Hout. apply Forall_forall. intros h Hin.
    apply seg_byte_outside; [by apply Hok|by apply Hout].
Qed.


(** The 32-bit loader does the same and leaves the start of the heap as the
    last 64-bit program set it. *)
Theorem elf32_load_file_loads pml4 file hs s N :
  52 <= Z.of_nat (length file) -> e_machine file = EM_386 -> e_phnum32 file = Z.of_nat (length hs) ->
  (forall j h, hs !! j = Some h -> phdr32 file (Z.of_nat j) = Some h) -> Forall (seg_ok file) (loads hs) ->
  ready pml4 (lvm s) N -> total_pages (loads hs) <= N ->
  exists s', elf32_load_file file s = Some (e_entry32 file, s') /\ loaded pml4 file (loads hs) s s'
    /\ last_elf_heap_start s' = last_elf_heap_start s.
Proof.
  intros Hl Hm Hn Hh Hok Hr HN. destruct (load_loop_loaded pml4 (phdr32 file) file hs s N Hh Hok Hr HN) as (s' & E & Hld & Hs).
  unfold elf32_load_file. rewrite (proj2 (Z.ltb_ge _ _) Hl), Hm, Z.eqb_refl, Hn, Nat2Z.id. cbn [negb]. unfold mbind_. rewrite E. by exists s'.
Qed.

(** Two segments that share a page: mapping the second one takes a new frame for
    the page, and the bytes of the first in it are lost. *)
Theorem elf_shared_page_lost pml4 header file h1 h2 s a :
  header 0 = Some h1 -> header 1 = Some h2 -> p_type h1 = PT_LOAD -> p_type h2 = PT_LOAD -> seg_ok file h1 -> seg_ok file h2 ->
  ready pml4 (lvm s) (seg_pages h1 + seg_pages h2) ->
  p_vaddr h1 <= a < p_vaddr h1 + p_filesz h1 -> start_page h2 <= a < p_vaddr h2 ->
  exists m s', load_loop header file 0 2 0 s = Some (m, s') /\ umem s' !! a = Some 0.
Proof.
  intros H1 H2 T1 T2 O1 O2 Hr Ha1 Ha2.
  assert (El : loads [h1; h2] = [h1; h2]) by (unfold loads; cbn [List.filter]; by rewrite T1, T2).
  destruct (load_loop_runs pml4 header file [h1; h2] 0 s (seg_pages h1 + seg_pages h2) 0) as (s' & E & _ & Hu & _).
  - intros [|[|j]] h Hj; [by injection Hj as <-|by injection Hj as <-|done].
  - rewrite El. by constructor; [|constructor].
  - done.
  - rewrite El. cbn. lia.
  - eexists _, s'. split; [exact E|]. rewrite Hu, El. unfold image. cbn [foldl].
    destruct (seg_bounds file h2 O2) as (_ & _ & _ & _ & _ & He & _). pose proof (sg_size _ _ O2) as [Hs _].
    unfold seg_byte at 1. rewrite (proj2 (Z.leb_gt (p_vaddr h2) a)), (proj2 (Z.leb_le (start_page h2) a)), (proj2 (Z.ltb_lt a (end_page h2))) by lia. done.
Qed.

(** When no frame is left the loader does not notice: the allocator's NULL is
    mapped like a frame, so the page is the physical page 0, user writable. *)
Theorem elf_maps_frame_zero v pml4 p :
  vm_inv v pml4 -> dir_pml4 v (current_directory v) = pml4 -> kheap_current (vheap v) + PAGE_ROOM < memory_size (vheap v) ->
  pmm_alloc_block (kpmm (vheap v)) = (0, kpmm (vheap v)) ->
  exists v', (phys <-- call_pmm_alloc_block ;; vmm_map_page phys p 7) v = Some (tt, v') /\ translate_addr (vmem v') pml4 p = Some (0, 7).
Proof.
  intros Hi Hd Hroom Ha. unfold mbind_, call_pmm_alloc_block. rewrite Ha.
  set (v1 := set_vheap v (set_pmm (vheap v) (kpmm (vheap v)))). assert (Hi1 : vm_inv v1 pml4)
    by (destruct Hi as [(free & live & Hh) ? ?]; constructor; [exists free, live; by apply heap_inv_set_pmm|done|done]).
  destruct (vmm_map_page_total 7 ltac:(done) v1 0 p pml4 Hi1 Hd Hroom) as (v2 & E & _). exists v2. split; [exact E|].
  destruct (vmm_map_page_run v1 0 p 7 pml4 v2 Hi1 Hd ltac:(done) ltac:(by_compute) E) as (Ht & _). exact Ht.
Qed.

(** ** Witness *)

Definition phdr_bytes (h : phdr) : list Z :=
  le_bytes 4 (p_type h) ++ le_bytes 4 7 ++ le_bytes 8 (p_offset h) ++ le_bytes 8 (p_vaddr h) ++ le_bytes 8 0
  ++ le_bytes 8 (p_filesz h) ++ le_bytes 8 (p_memsz h) ++ le_bytes 8 4096.

Definition elf_demo_headers : list phdr :=
  [{| p_type := 1; p_offset := 176; p_vaddr := 0x400000; p_filesz := 4; p_memsz := 4 |};
   {| p_type := 1; p_offset := 180; p_vaddr := 0x401010; p_filesz := 2; p_memsz := 8 |}].

Definition elf_demo : list Z :=
  ([0x7F; 69; 76; 70; 2; 1; 1] ++ zeros 9 ++ le_bytes 2 2 ++ le_bytes 2 62 ++ le_bytes 4 1 ++ le_bytes 8 0x400000 ++ le_bytes 8 64 ++ le_bytes 8 0
   ++ le_bytes 4 0 ++ le_bytes 2 64 ++ le_bytes 2 56 ++ le_bytes 2 2 ++ zeros 6)
  ++ concat (map phdr_bytes elf_demo_headers) ++ [0x90; 0x90; 0xEB; 0xFE; 5; 6].

Definition loader_demo : loader := {| lvm := vm_mmap_demo; umem := ∅; last_elf_heap_start := 0 |}.

Lemma loader_demo_ready : ready 0x8000 (lvm loader_demo) 2.
Proof.
  destruct pmm_mmap_demo_spec as [Hw Hu]. constructor.
  - destruct vm_demo_inv as [(free & live & Hh) Ht Hwd]. constructor; [|exact Ht|exact Hwd]. exists free, live. by apply heap_inv_set_pmm.
  - reflexivity.
  - exact Hw.
  - by_compute.
  - intros b Hb Hub. change (kpmm (vheap (lvm loader_demo))) with pmm_mmap_demo in *. rewrite Hu in Hub by exact Hb.
    change (kheap_current (vheap (lvm loader_demo)) + 2 * PAGE_ROOM) with 131136. revert Hub. zcases; try done; lia.
  - exists [0x80; 0x81]. split; [by_compute|]. split; [done|]. change (kpmm (vheap (lvm loader_demo))) with pmm_mmap_demo.
    intros b Hb. assert (Hb' : b = 0x80 \/ b = 0x81) by (apply elem_of_cons in Hb as [-> | ->%list_elem_of_singleton]; auto).
    split; [change (32 * (pmm_max_blocks pmm_mmap_demo / 32)) with 256; lia|]. rewrite Hu by lia. by destruct Hb' as [-> | ->].
Qed.

