(* ===== verification/Dns.v ===== *)
(** * The DNS client: names, queries and answers ([src/src/net/dns.c])

    [dns_format_name] writes a host name as length-prefixed labels,
    [dns_resolve] puts it into a query, and [dns_callback] walks over the
    question of a reply to its first answer.  The callback gets a pointer and
    ignores the length of the datagram: its argument here is the memory from the
    datagram on, and reading behind the end of it is [None].  The waiting loop of
    [dns_resolve] is in [Resolver]. *)

From Stdlib Require Import ZArith Lia String.
From stdpp Require Import base numbers list gmap.
From S2P Require Import Prelude Bytes Net.

#[local] Open Scope Z_scope.

(** ** State *)

Definition DNS_SERVER_IP : Z := 0x0302000A.
Definition DNS_PORT : Z := 53.
Definition DNS_LOCAL_PORT : Z := 49153.
Definition DNS_ATTEMPTS : nat := 2.
Definition dns_fallback_servers : list Z := [0x01010101; 0x08080808; 0x09090909].

Record dns := {
  resolved_ip : Z;
  last_dns_id : Z;
  dns_ready : bool;
  static_ip : Z;
  dns_server_ip : Z;
  cache_host : list Z;
  cache_ip : Z
}.

Definition dns0 : dns :=
  {| resolved_ip := 0; last_dns_id := 0; dns_ready := false; static_ip := 0; dns_server_ip := DNS_SERVER_IP; cache_host := []; cache_ip := 0 |}.

Definition set_answer (ip : Z) (ready : bool) (d : dns) : dns :=
  {| resolved_ip := ip; last_dns_id := last_dns_id d; dns_ready := ready; static_ip := static_ip d;
     dns_server_ip := dns_server_ip d; cache_host := cache_host d; cache_ip := cache_ip d |}.
Definition set_static (ip : Z) (d : dns) : dns :=
  {| resolved_ip := resolved_ip d; last_dns_id := last_dns_id d; dns_ready := dns_ready d; static_ip := ip;
     dns_server_ip := dns_server_ip d; cache_host := cache_host d; cache_ip := cache_ip d |}.
Definition set_cache (host : list Z) (ip : Z) (d : dns) : dns :=
  {| resolved_ip := resolved_ip d; last_dns_id := last_dns_id d; dns_ready := dns_ready d; static_ip := static_ip d;
     dns_server_ip := dns_server_ip d; cache_host := host; cache_ip := ip |}.
Definition next_id (d : dns) : dns :=
  {| resolved_ip := resolved_ip d; last_dns_id := u16 (last_dns_id d + 1); dns_ready := dns_ready d; static_ip := static_ip d;
     dns_server_ip := dns_server_ip d; cache_host := cache_host d; cache_ip := cache_ip d |}.

Definition dns_set_server (ip : Z) (d : dns) : dns :=
  {| resolved_ip := resolved_ip d; last_dns_id := last_dns_id d; dns_ready := dns_ready d; static_ip := static_ip d;
     dns_server_ip := ip; cache_host := cache_host d; cache_ip := cache_ip d |}.

(** ** Static hosts *)

Definition dns_static_hosts : list (list Z * Z) :=
  [(str "example.com", 0xF39342AC); (str "10.0.2.2", 0x0202000A); (str "tls.test", 0x0202000A)].

Fixpoint static_lookup (hosts : list (list Z * Z)) (hostname : list Z) : Z :=
  match hosts with
  | [] => 0
  | (name, ip) :: hosts' => if bool_decide (name = hostname) then ip else static_lookup hosts' hostname
  end.

Definition dns_static_lookup (hostname : list Z) : Z := static_lookup dns_static_hosts hostname.

(** ** Names *)

Definition DOT : Z := 46.

(** The loop over [name]: [label] holds [name[lock .. i)]. *)
Fixpoint format_loop (label name : list Z) : list Z :=
  match name with
  | [] => []
  | ch :: name' => if ch =? DOT then u8 (Z.of_nat (length label)) :: label ++ format_loop [] name'
                   else format_loop (label ++ [ch]) name'
  end.

(** [char name[128]] takes the host name, a dot and a NUL; [None] is an overflow
    of that array. *)
Definition dns_format_name (hostname : list Z) : option (list Z) :=
  if (length hostname + 2 <=? 128)%nat then Some (format_loop [] (hostname ++ [DOT]) ++ [0]) else None.

(** ** The query *)

(** The packet of [dns_resolve] before its identifier is set, with its length:
    [q_info] is behind the first NUL of the formatted name. *)
Definition dns_query (hostname : list Z) : option (list Z) :=
  match dns_format_name hostname with
  | None => None
  | Some q_name =>
      let packet := put16 (put16 (zeros 512) 2 (htons 0x0100)) 4 (htons 1) in
      let packet := splice packet 12 q_name in
      let q_info := (12 + length (c_str q_name) + 1)%nat in
      let packet := put16 packet q_info (htons 1) in
      let packet := put16 packet (q_info + 2) (htons 1) in
      Some (take (q_info + 4) packet)
  end.

Definition set_id (id : Z) (packet : list Z) : list Z := put16 packet 0 (htons id).

(** ** The reply *)

(** [while ( *ptr) ptr += *ptr + 1;]: the memory from the NUL on.  Every round
    passes at least two bytes, so the length of the memory bounds the rounds. *)
Fixpoint skip_labels (n : nat) (m : list Z) : option (list Z) :=
  match m with
  | [] => None
  | l :: m' => if l =? 0 then Some m else
               match n with
               | O => None
               | S n' => skip_labels n' (drop (Z.to_nat l) m')
               end
  end.

Definition skip_name (m : list Z) : option (list Z) :=
  match skip_labels (length m) m with Some m' => Some (drop 1 m') | None => None end.

(** The first answer behind its name: type, class, TTL, length and data. *)
Definition answer_of (m : list Z) : option (option Z) :=
  if (length m <? 10)%nat then None else
  let type := htons (get16 m 0) in
  let rd_len := htons (get16 m 8) in
  if ((type =? 1) && (rd_len =? 4))%bool then
    if (length m <? 14)%nat then None else Some (Some (get32 m 10))
  else Some None.

Definition first_answer (m : list Z) : option (option Z) :=
  match skip_name m with
  | None => None
  | Some m =>
      match drop 4 m with
      | [] => None
      | b :: m' =>
          if Z.land b 0xC0 =? 0xC0 then answer_of (drop 1 m')
          else match skip_name (b :: m') with Some m'' => answer_of m'' | None => None end
      end
  end.

Definition dns_callback (data : list Z) : M dns unit := fun d =>
  if (length data <? 12)%nat then None else
  if negb (htons (get16 data 0) =? last_dns_id d) then Some (tt, d) else
  if htons (get16 data 6) =? 0 then Some (tt, d) else
  match first_answer (drop 12 data) with
  | None => None
  | Some None => Some (tt, d)
  | Some (Some ip) => Some (tt, set_answer ip true d)
  end.

(** ** Specification: a name is a sequence of labels *)

Definition name_of (ls : list (list Z)) : list Z := concat (map (fun l => l ++ [DOT]) ls).
Definition encode (ls : list (list Z)) : list Z := concat (map (fun l => Z.of_nat (length l) :: l) ls).

Definition label_ok (l : list Z) : Prop := l <> [] /\ Forall (fun c => c <> DOT /\ c <> 0) l.

(** The labels of a host name that fits the array of [dns_format_name]. *)
Definition host_labels (hostname : list Z) (ls : list (list Z)) : Prop :=
  hostname ++ [DOT] = name_of ls /\ Forall label_ok ls /\ (length hostname <= 126)%nat.

Lemma format_label acc l name :
  Forall (fun c => c <> DOT /\ c <> 0) l ->
  format_loop acc (l ++ DOT :: name) = u8 (Z.of_nat (length (acc ++ l))) :: (acc ++ l) ++ format_loop [] name.
Proof.
  intros H. revert acc. induction H as [|c l [Hc _] _ IH]; intros acc; simpl.
  - by rewrite app_nil_r.
  - rewrite (proj2 (Z.eqb_neq c DOT) Hc), IH, <- (assoc_L (++)). done.
Qed.

Lemma label_short l ls n : l ∈ ls -> (length (name_of ls) <= n)%nat -> (length l < n)%nat.
Proof.
  intros Hl. unfold name_of. induction Hl as [l ls|l m ls _ IH]; simpl; rewrite !length_app; simpl; intros; [lia|].
  specialize (IH ltac:(lia)). lia.
Qed.

Lemma format_labels ls : Forall label_ok ls -> (length (name_of ls) <= 127)%nat -> format_loop [] (name_of ls) = encode ls.
Proof.
  unfold name_of, encode. induction 1 as [|l ls [_ Hl] _ IH]; intros Hn; [done|]. simpl in *. rewrite !length_app in Hn. simpl in Hn.
  rewrite <- (assoc_L (++)). simpl. rewrite format_label by done. simpl. rewrite u8_small by lia. by rewrite IH by lia.
Qed.

Lemma encode_no_nul ls : Forall label_ok ls -> no_nul (encode ls).
Proof.
  unfold encode, no_nul. induction 1 as [|l ls [Hl Hf] _ IH]; simpl; [constructor|].
  constructor; [destruct l; [done|simpl; lia]|]. apply Forall_app; split; [|done]. eapply Forall_impl; [exact Hf|]. by intros c [_ ?].
Qed.

Lemma c_str_nul l rest : no_nul l -> c_str (l ++ 0 :: rest) = l.
Proof. induction 1 as [|x l Hx _ IH]; [done|]. unfold c_str in *. simpl. rewrite (proj2 (Z.eqb_neq x 0) Hx). simpl. by rewrite IH. Qed.

Lemma length_encode ls : length (encode ls) = length (name_of ls).
Proof. unfold encode, name_of. induction ls as [|l ls IH]; [done|]. simpl. rewrite !length_app, IH. simpl. lia. Qed.

Lemma format_name_spec hostname ls : host_labels hostname ls -> dns_format_name hostname = Some (encode ls ++ [0]).
Proof.
  intros (He & Hl & Hn). unfold dns_format_name. rewrite (proj2 (Nat.leb_le _ _)) by lia. rewrite He, format_labels; [done|done|].
  rewrite <- He, length_app. simpl. lia.
Qed.

Lemma splice_app a x b c : length x = length b -> splice (a ++ x ++ c) (length a) b = a ++ b ++ c.
Proof.
  intros H. unfold splice. rewrite take_app_length, <- H, drop_app_add', drop_app_length by done. done.
Qed.

(** The bytes of the query: header, labels, type A, class IN. *)
Lemma query_spec hostname ls : host_labels hostname ls ->
  dns_query hostname = Some ([0; 0; 1; 0; 0; 1; 0; 0; 0; 0; 0; 0] ++ encode ls ++ [0; 0; 1; 0; 1]).
Proof.
  intros H. pose proof (format_name_spec _ _ H) as Hf. destruct H as (He & Hl & Hn). unfold dns_query. rewrite Hf.
  rewrite c_str_nul by (by apply encode_no_nul).
  assert (Hlen : (length (encode ls) <= 127)%nat) by (rewrite length_encode, <- He, length_app; simpl; lia).
  set (h := [0; 0; 1; 0; 0; 1; 0; 0; 0; 0; 0; 0]). set (L := length (encode ls)) in *.
  assert (E0 : put16 (put16 (zeros 512) 2 (htons 0x0100)) 4 (htons 1)
               = h ++ zeros (L + 1) ++ zeros 2 ++ zeros 2 ++ zeros (495 - L)).
  { unfold zeros. rewrite <- !replicate_add. replace (L + 1 + (2 + (2 + (495 - L))))%nat with 500%nat by lia. reflexivity. }
  rewrite E0. clear E0. generalize (zeros (495 - L)). intros z. change 12%nat with (length h). rewrite splice_app by (unfold zeros; rewrite length_replicate, length_app; simpl; lia).
  set (a := h ++ encode ls ++ [0]). replace (h ++ (encode ls ++ [0]) ++ zeros 2 ++ zeros 2 ++ z)
    with (a ++ zeros 2 ++ zeros 2 ++ z) by (unfold a; by rewrite <- !(assoc_L (++))).
  assert (Ha : (length h + L + 1)%nat = length a) by (unfold a; rewrite !length_app; simpl; lia).
  f_equal. cbv zeta. rewrite Ha. unfold put16.
  rewrite (splice_app a (zeros 2) (le_bytes 2 (htons 1))) by done.
  rewrite (assoc_L (++) a), <- (length_app a (le_bytes 2 (htons 1)) : _ = (length a + 2)%nat).
  rewrite splice_app by done. rewrite (assoc_L (++) (a ++ _)). rewrite take_app_length' by (rewrite !length_app; simpl; lia).
  unfold a. rewrite <- !(assoc_L (++)). reflexivity.
Qed.

(** ** Replies *)

Lemma skip_labels_encode ls rest n : Forall label_ok ls -> (length (encode ls) <= n)%nat -> skip_labels n (encode ls ++ 0 :: rest) = Some (0 :: rest).
Proof.
  intros H. revert n. induction H as [|l ls [Hl _] _ IH]; intros n Hn; [by destruct n|].
  change (encode (l :: ls)) with (Z.of_nat (length l) :: l ++ encode ls) in *. simpl in Hn. rewrite length_app in Hn.
  destruct n as [|n]; [lia|]. cbn [skip_labels app].
  rewrite (proj2 (Z.eqb_neq _ 0)) by (destruct l; [done|simpl; lia]).
  rewrite Nat2Z.id, <- (assoc_L (++)), drop_app_length. apply IH. lia.
Qed.

Lemma skip_name_encode ls rest : Forall label_ok ls -> skip_name (encode ls ++ 0 :: rest) = Some rest.
Proof. intros H. unfold skip_name. rewrite skip_labels_encode; [done|done|]. rewrite length_app. lia. Qed.

(** The name of an answer: a compression pointer, or labels of at most 63 bytes
    in full. *)
Inductive answer_name : list Z -> Prop :=
| name_pointer p q : Z.land p 0xC0 = 0xC0 -> answer_name [p; q]
| name_labels ls : Forall label_ok ls -> Forall (fun l => (length l <= 63)%nat) ls -> answer_name (encode ls ++ [0]).

(** [data] is a reply with identifier [id] to the query [q] whose first answer
    is the address [ip]; anything may follow. *)
Record answers (q : list Z) (id ip : Z) (data : list Z) : Prop := {
  ans_len : (12 <= length data)%nat;
  ans_id : htons (get16 data 0) = id;
  ans_some : htons (get16 data 6) <> 0;
  ans_ip : is_u32 ip;
  ans_body : exists name class ttl rest, answer_name name /\ length class = 2%nat /\ length ttl = 4%nat
    /\ drop 12 data = drop 12 q ++ name ++ [0; 1] ++ class ++ ttl ++ [0; 4] ++ le_bytes 4 ip ++ rest
}.

Lemma answer_of_a class ttl ip rest :
  length class = 2%nat -> length ttl = 4%nat -> is_u32 ip ->
  answer_of ([0; 1] ++ class ++ ttl ++ [0; 4] ++ le_bytes 4 ip ++ rest) = Some (Some ip).
Proof.
  intros Hc Ht Hi. destruct class as [|c1 [|c2 [|]]]; try discriminate Hc.
  destruct ttl as [|t1 [|t2 [|t3 [|t4 [|]]]]]; try discriminate Ht.
  pose proof (length_le_bytes 4 ip ltac:(lia)) as HL. pose proof (le_bytes_value 4 ip ltac:(lia) Hi) as HV. revert HL HV.
  generalize (le_bytes 4 ip). intros [|i1 [|i2 [|i3 [|i4 [|]]]]]; try discriminate. intros _ <-. reflexivity.
Qed.

Lemma label_not_pointer ls rest : Forall (fun l => (length l <= 63)%nat) ls ->
  exists b m, encode ls ++ 0 :: rest = b :: m /\ (Z.land b 0xC0 =? 0xC0) = false.
Proof.
  intros H. destruct H as [|l ls Hl _]; [by exists 0, rest|]. unfold encode. simpl. eexists _, _. split; [reflexivity|].
  apply Z.eqb_neq. intros E. assert (Hb : Z.testbit (Z.land (Z.of_nat (length l)) 0xC0) 7 = true) by (by rewrite E).
  rewrite Z.land_spec, (testbit_high _ 6 7) in Hb by lia. discriminate Hb.
Qed.

Lemma first_answer_at ls name t : Forall label_ok ls -> answer_name name ->
  first_answer ((encode ls ++ [0; 0; 1; 0; 1]) ++ name ++ t) = answer_of t.
Proof.
  intros Hl Hn. unfold first_answer.
  replace ((encode ls ++ [0; 0; 1; 0; 1]) ++ name ++ t) with (encode ls ++ 0 :: ([0; 1; 0; 1] ++ name ++ t)) by (by rewrite <- (assoc_L (++))).
  rewrite skip_name_encode by done. change (drop 4 ([0; 1; 0; 1] ++ ?x)) with x.
  destruct Hn as [p q Hp|ls' Hok Hs].
  - change ([p; q] ++ t) with (p :: q :: t). cbv beta iota. by rewrite Hp.
  - rewrite <- (assoc_L (++) (encode ls')). change ([0] ++ t) with (0 :: t).
    destruct (label_not_pointer ls' t Hs) as (b & m & E & Hb). rewrite E. cbv beta iota. rewrite Hb, <- E.
    by rewrite skip_name_encode.
Qed.

Lemma callback_answer hostname ls q ip data d :
  host_labels hostname ls -> dns_query hostname = Some q -> answers q (last_dns_id d) ip data ->
  dns_callback data d = Some (tt, set_answer ip true d).
Proof.
  intros Hh Hq [H12 Hid Hc Hip (name & class & ttl & rest & Hn & Hcl & Ht & Hb)]. unfold dns_callback.
  assert (Hd : drop 12 q = encode ls ++ [0; 0; 1; 0; 1]) by (rewrite (query_spec _ _ Hh) in Hq; by injection Hq as <-). rewrite Hd in Hb.
  rewrite (proj2 (Nat.ltb_ge _ _)) by done. rewrite Hid, Z.eqb_refl. simpl negb. cbv iota. rewrite (proj2 (Z.eqb_neq _ _) Hc), Hb.
  rewrite first_answer_at, answer_of_a; [done..|by destruct Hh as (_ & ? & _)|done].
Qed.

(** A reply with another identifier, and one without answers, change nothing. *)
Lemma callback_ignores data d : (12 <= length data)%nat ->
  htons (get16 data 0) <> last_dns_id d \/ htons (get16 data 6) = 0 -> dns_callback data d = Some (tt, d).
Proof.
  intros H [Hi|Hc]; unfold dns_callback; rewrite (proj2 (Nat.ltb_ge _ _)) by done.
  - by rewrite (proj2 (Z.eqb_neq _ _) Hi).
  - rewrite Hc. by destruct (negb _).
Qed.
