(* ===== verification/Dhcp.v ===== *)
(** * The DHCP client ([src/src/net/dhcp.c])

    [dhcp_callback] reads the options of a reply and configures the network
    layer and the resolver as it goes; [dhcp_discover] broadcasts a request.
    Like [Dns.dns_callback], the callback ignores the length of the datagram: it
    gets the memory from the datagram on, and reading behind it is [None]. *)

From Stdlib Require Import ZArith Lia.
From stdpp Require Import base numbers list gmap.
From S2P Require Import Prelude Bytes Kheap Net Tcp NetRx Dns.

#[local] Open Scope Z_scope.

(** ** State

    The network stack with the state of its two clients above UDP. *)

Record client := { stack : inet; resolver : dns; dhcp_bound : bool }.

Definition set_stack (v : inet) (c : client) : client := {| stack := v; resolver := resolver c; dhcp_bound := dhcp_bound c |}.
Definition set_resolver (v : dns) (c : client) : client := {| stack := stack c; resolver := v; dhcp_bound := dhcp_bound c |}.
Definition set_bound (v : bool) (c : client) : client := {| stack := stack c; resolver := resolver c; dhcp_bound := v |}.

Definition on_stack {A} (m : M inet A) : M client A := fun c =>
  match m (stack c) with Some (a, s) => Some (a, set_stack s c) | None => None end.
Definition on_resolver {A} (m : M dns A) : M client A := fun c =>
  match m (resolver c) with Some (a, d) => Some (a, set_resolver d c) | None => None end.

(** The layers a client configures. *)
Definition upd_net (f : net -> net) (c : client) : client := set_stack (set_nw (f (nw (stack c))) (stack c)) c.
Definition upd_dns (f : dns -> dns) (c : client) : client := set_resolver (f (resolver c)) c.

(** ** Packets *)

Definition DHCP_BOOTREQUEST : Z := 1.
Definition DHCP_BOOTREPLY : Z := 2.
Definition DHCP_MAGIC : Z := 0x63825363.
Definition dhcp_xid : Z := 0x12345678.

(** Offsets in the packed [dhcp_packet_t]. *)
Definition O_XID : nat := 4.
Definition O_YIADDR : nat := 16.
Definition O_CHADDR : nat := 28.
Definition O_MAGIC : nat := 236.
Definition O_OPTIONS : nat := 240.
Definition OPTIONS_SIZE : nat := 312.
Definition DHCP_SIZE : nat := 552.

(** ** Options of a reply *)

Definition rd32 (m : list Z) (off : nat) : option Z := if (off + 4 <=? length m)%nat then Some (get32 m off) else None.

(** Subnet mask, router and DNS server. *)
Definition configure (code v : Z) (c : client) : client :=
  if code =? 1 then upd_net (netstack_set_netmask v) c
  else if code =? 3 then upd_net (netstack_set_gateway v) c
  else upd_dns (dns_set_server v) c.

(** One option; the result is [msg_type] and [server_id]. *)
Definition option_step (code : Z) (m : list Z) (opt : nat) (msg_type server_id : Z) : M client (Z * Z) :=
  if code =? 53 then match m !! opt with Some t => mret_ (t, server_id) | None => mstop end
  else if code =? 54 then match rd32 m opt with Some v => mret_ (msg_type, v) | None => mstop end
  else if ((code =? 1) || (code =? 3) || (code =? 6))%bool then
    match rd32 m opt with
    | Some v => mmodify (configure code v) ;;; mret_ (msg_type, server_id)
    | None => mstop
    end
  else mret_ (msg_type, server_id).

(** The loop over the options; [m] is the memory from [options] on, [pos] the
    index of [opt]. *)
Fixpoint options_loop (n : nat) (m : list Z) (pos : nat) (msg_type server_id : Z) : M client (Z * Z) :=
  match n with
  | O => mstop
  | S n' =>
      if (OPTIONS_SIZE <=? pos)%nat then mret_ (msg_type, server_id) else
      match m !! pos with
      | None => mstop
      | Some code =>
          if code =? 0xFF then mret_ (msg_type, server_id) else
          if code =? 0 then options_loop n' m (pos + 1) msg_type server_id else
          match m !! (pos + 1)%nat with
          | None => mstop
          | Some l =>
              r <-- option_step code m (pos + 2) msg_type server_id ;;
              options_loop n' m (pos + 2 + Z.to_nat l) r.1 r.2
          end
      end
  end.

(** Each round moves [opt] by at least one: 313 rounds are enough
    ([options_total]). *)
Definition OPTIONS_FUEL : nat := 313.

Definition dhcp_callback (data : list Z) : M client unit :=
  if (length data <? O_OPTIONS)%nat then mstop else
  if negb (get8 data 0 =? DHCP_BOOTREPLY) then mret_ tt else
  if negb (get32 data O_XID =? htonl dhcp_xid) then mret_ tt else
  r <-- options_loop OPTIONS_FUEL (drop O_OPTIONS data) 0 0 0 ;;
  mwhen ((r.1 =? 2) || (r.1 =? 5))%bool
    (mmodify (upd_net (netstack_set_my_ip (get32 data O_YIADDR))) ;;; mmodify (set_bound true)).

(** ** Requests *)

Definition discover_packet (mac : option (list Z)) : list Z :=
  let pkt := splice (zeros DHCP_SIZE) 0 [DHCP_BOOTREQUEST; 1; 6] in
  let pkt := put32 pkt O_XID (htonl dhcp_xid) in
  let pkt := put32 pkt O_MAGIC (htonl DHCP_MAGIC) in
  let pkt := match mac with Some m => splice pkt O_CHADDR (take 6 m) | None => pkt end in
  splice pkt O_OPTIONS [53; 1; 1; 255].

Definition dhcp_discover : M client unit :=
  mmodify (set_bound false) ;;;
  pkt <-- on_stack (on_tcp (tcp_kmalloc (Z.of_nat DHCP_SIZE))) ;;
  mac <-- mgets (fun c => netif (nw (stack c))) ;;
  on_stack (udp_send [] 0xFFFFFFFF 68 67 (discover_packet mac)) ;;;
  on_stack (on_tcp (tcp_kfree pkt)).

Definition dhcp_has_bound (c : client) : bool := dhcp_bound c.

(** ** Specification: a list of options *)

Inductive item := Pad | Opt (code : Z) (value : list Z).

Definition item_bytes (i : item) : list Z :=
  match i with Pad => [0] | Opt code value => code :: Z.of_nat (length value) :: value end.
Definition items_bytes (l : list item) : list Z := concat (map item_bytes l).

(** A value is at least as long as what the client reads of it. *)
Definition item_ok (i : item) : Prop :=
  match i with
  | Pad => True
  | Opt code value =>
      0 < code < 255 /\ Z.of_nat (length value) <= 255 /\ (code = 53 -> value <> [])
      /\ (code = 54 \/ code = 1 \/ code = 3 \/ code = 6 -> (4 <= length value)%nat)
  end.

(** What an option gives for the option [code], and the last one of a list. *)
Definition word_of (code : Z) (i : item) : option Z :=
  match i with Opt c v => if c =? code then Some (get32 v 0) else None | Pad => None end.
Definition type_of (i : item) : option Z :=
  match i with Opt c v => if c =? 53 then Some (get8 v 0) else None | Pad => None end.
Definition last_of {A} (f : item -> option A) (l : list item) (a : A) : A :=
  foldl (fun acc i => default acc (f i)) a l.

Definition configured (l : list item) (c : client) : client :=
  upd_net (fun n => set_config (my_ip n) (last_of (word_of 3) l (gateway_ip n)) (last_of (word_of 1) l (netmask_ip n)) n)
    (upd_dns (fun d => dns_set_server (last_of (word_of 6) l (dns_server_ip d)) d) c).

Lemma configured_cons i l c : configured (i :: l) c = configured l (configured [i] c).
Proof. reflexivity. Qed.

Lemma configured_same l c :
  last_of (word_of 1) l (netmask_ip (nw (stack c))) = netmask_ip (nw (stack c)) ->
  last_of (word_of 3) l (gateway_ip (nw (stack c))) = gateway_ip (nw (stack c)) ->
  last_of (word_of 6) l (dns_server_ip (resolver c)) = dns_server_ip (resolver c) -> configured l c = c.
Proof. destruct c as [[[] ? ? ?] [] ?]. unfold configured, upd_net, upd_dns. cbn. by intros -> -> ->. Qed.

Lemma rd32_at pre v tail : (4 <= length v)%nat -> rd32 (pre ++ v ++ tail) (length pre) = Some (get32 v 0).
Proof.
  intros H. unfold rd32. rewrite !length_app, (proj2 (Nat.leb_le _ _)) by lia. unfold get32, sub.
  rewrite drop_app_length, drop_0, take_app_le by lia. done.
Qed.

Lemma option_step_spec code value pre tail mt sid c : item_ok (Opt code value) ->
  option_step code (pre ++ value ++ tail) (length pre) mt sid c
  = Some ((last_of type_of [Opt code value] mt, last_of (word_of 54) [Opt code value] sid), configured [Opt code value] c).
Proof.
  intros (Hc & _ & H53 & H4). unfold option_step, last_of. cbn [foldl type_of word_of].
  destruct (Z.eqb_spec code 53) as [->|N53].
  { rewrite lookup_app_r, Nat.sub_diag by lia. destruct value as [|t v]; [by destruct (H53 eq_refl)|]. cbn.
    unfold mret_. by rewrite configured_same. }
  destruct (Z.eqb_spec code 54) as [->|N54].
  { rewrite rd32_at by auto. unfold mret_. by rewrite configured_same. }
  destruct (Z.eqb_spec code 1) as [->|N1]; [rewrite rd32_at by auto; by destruct c as [[[] ? ? ?] [] ?]|].
  destruct (Z.eqb_spec code 3) as [->|N3]; [rewrite rd32_at by auto; by destruct c as [[[] ? ? ?] [] ?]|].
  destruct (Z.eqb_spec code 6) as [->|N6]; [rewrite rd32_at by auto; by destruct c as [[[] ? ? ?] [] ?]|].
  cbn [orb default]. unfold mret_. rewrite configured_same; [done|..]; unfold last_of; cbn [foldl word_of].
  - by rewrite (proj2 (Z.eqb_neq _ _) N1).
  - by rewrite (proj2 (Z.eqb_neq _ _) N3).
  - by rewrite (proj2 (Z.eqb_neq _ _) N6).
Qed.

(** The loop on a list of options that ends inside the array. *)
Lemma options_items l : Forall item_ok l -> forall n pre rest mt sid c,
  (length (items_bytes l) < n)%nat -> (length pre + length (items_bytes l) < OPTIONS_SIZE)%nat ->
  options_loop n (pre ++ items_bytes l ++ 255 :: rest) (length pre) mt sid c
  = Some ((last_of type_of l mt, last_of (word_of 54) l sid), configured l c).
Proof.
  induction 1 as [|i l Hi _ IH]; intros n pre rest mt sid c Hn Hp.
  - destruct n as [|n]; [simpl in Hn; lia|]. cbn [options_loop]. rewrite (proj2 (Nat.leb_gt _ _)) by (simpl in Hp; lia).
    rewrite lookup_app_r, Nat.sub_diag by lia. cbn. unfold mret_. by rewrite configured_same.
  - change (items_bytes (i :: l)) with (item_bytes i ++ items_bytes l) in *. rewrite length_app in Hn, Hp.
    destruct n as [|n]; [lia|]. cbn [options_loop].
    rewrite (proj2 (Nat.leb_gt _ _)) by (destruct i; simpl in Hp; lia). rewrite lookup_app_r, Nat.sub_diag by lia.
    destruct i as [|code value].
    + cbn [item_bytes app lookup list_lookup]. change (0 =? 255) with false. change (0 =? 0) with true. cbv iota. cbn [item_bytes length] in *.
      replace (pre ++ 0 :: items_bytes l ++ 255 :: rest) with ((pre ++ [0]) ++ items_bytes l ++ 255 :: rest) by (by rewrite <- (assoc_L (++))).
      replace (length pre + 1)%nat with (length (pre ++ [0])) by (by rewrite length_app).
      rewrite IH; [by rewrite configured_cons, (configured_same [Pad])|simpl in *; lia|rewrite length_app; simpl in *; lia].
    + destruct Hi as (Hc & Hi). cbn [item_bytes app lookup list_lookup]. rewrite (proj2 (Z.eqb_neq code 0xFF)), (proj2 (Z.eqb_neq code 0)) by lia.
      rewrite lookup_app_r by lia. replace (length pre + 1 - length pre)%nat with 1%nat by lia. cbn [lookup list_lookup].
      replace (pre ++ code :: Z.of_nat (length value) :: (value ++ items_bytes l) ++ 255 :: rest)
        with ((pre ++ [code; Z.of_nat (length value)]) ++ value ++ items_bytes l ++ 255 :: rest) by (by rewrite <- !(assoc_L (++))).
      replace (length pre + 2)%nat with (length (pre ++ [code; Z.of_nat (length value)])) by (by rewrite length_app).
      unfold mbind_. rewrite option_step_spec by done. rewrite Nat2Z.id, <- (length_app _ value), (assoc_L (++) _ value).
      cbn [fst snd]. cbn [item_bytes length] in Hn, Hp. rewrite IH; [done|lia|]. rewrite !length_app. simpl. lia.
Qed.

(** Whatever the bytes are, the loop ends and reads at most five bytes behind
    the options. *)
Lemma options_total n m pos mt sid c :
  (OPTIONS_SIZE - pos < n)%nat -> (317 <= length m)%nat -> exists r c', options_loop n m pos mt sid c = Some (r, c').
Proof.
  intros Hn Hm. revert pos mt sid c Hn. induction n as [|n IH]; intros pos mt sid c Hn; [lia|]. cbn [options_loop].
  destruct (Nat.leb_spec OPTIONS_SIZE pos) as [Hp|Hp]; [by eexists _, _|]. unfold OPTIONS_SIZE in *.
  destruct (lookup_lt_is_Some_2 m pos) as [code ->]; [lia|]. destruct (code =? 0xFF); [by eexists _, _|].
  destruct (code =? 0); [apply IH; lia|]. destruct (lookup_lt_is_Some_2 m (pos + 1)) as [l ->]; [lia|].
  assert (Hs : exists r c', option_step code m (pos + 2) mt sid c = Some (r, c')).
  { unfold option_step, rd32. rewrite (proj2 (Nat.leb_le _ _)) by lia. destruct (lookup_lt_is_Some_2 m (pos + 2)) as [t ->]; [lia|].
    by repeat case_match; eexists _, _. }
  destruct Hs as (r & c' & E). unfold mbind_. rewrite E. apply IH. lia.
Qed.

Lemma callback_reply h l rest c :
  length h = O_OPTIONS -> get8 h 0 = DHCP_BOOTREPLY -> get32 h O_XID = htonl dhcp_xid ->
  Forall item_ok l -> (length (items_bytes l) < OPTIONS_SIZE)%nat ->
  let t := last_of type_of l 0 in
  dhcp_callback (h ++ items_bytes l ++ 255 :: rest) c
  = Some (tt, if ((t =? 2) || (t =? 5))%bool then set_bound true (upd_net (netstack_set_my_ip (get32 h O_YIADDR)) (configured l c))
              else configured l c).
Proof.
  intros Hh Hop Hx Hl Hlen t. unfold dhcp_callback.
  assert (H32 : forall o, (o + 4 <= O_OPTIONS)%nat -> get32 (h ++ items_bytes l ++ 255 :: rest) o = get32 h o).
  { intros o Ho. unfold get32, sub. rewrite drop_app_le, take_app_le; [done|rewrite length_drop; lia|lia]. }
  rewrite length_app, (proj2 (Nat.ltb_ge _ _)) by lia. rewrite !H32 by (unfold O_OPTIONS, O_XID, O_YIADDR; lia).
  assert (E8 : get8 (h ++ items_bytes l ++ 255 :: rest) 0 = get8 h 0).
  { unfold get8, nthZ. rewrite lookup_app_l; [done|]. rewrite Hh. unfold O_OPTIONS. lia. }
  rewrite E8, Hop, Hx, !Z.eqb_refl. cbn [negb]. rewrite <- Hh, drop_app_length. unfold mbind_.
  change (items_bytes l ++ 255 :: rest) with ([] ++ items_bytes l ++ 255 :: rest).
  change 0%nat with (length (@nil Z)) at 1. rewrite options_items by (simpl; unfold OPTIONS_SIZE, OPTIONS_FUEL in *; lia || done).
  cbn [fst snd]. fold t. by destruct ((t =? 2) || (t =? 5))%bool.
Qed.

(** A BOOTREPLY to this client with any list of well-formed options configures
    exactly what the options say, the last of each kind: mask, router, DNS
    server, and the address when the message is an OFFER or an ACK.  No frame is
    sent. *)
Theorem dhcp_reply_configures h l rest c :
  length h = O_OPTIONS -> get8 h 0 = DHCP_BOOTREPLY -> get32 h O_XID = htonl dhcp_xid ->
  Forall item_ok l -> (length (items_bytes l) < OPTIONS_SIZE)%nat ->
  let t := last_of type_of l 0 in
  let n := nw (stack c) in
  exists c', dhcp_callback (h ++ items_bytes l ++ 255 :: rest) c = Some (tt, c')
    /\ netmask_ip (nw (stack c')) = last_of (word_of 1) l (netmask_ip n)
    /\ gateway_ip (nw (stack c')) = last_of (word_of 3) l (gateway_ip n)
    /\ dns_server_ip (resolver c') = last_of (word_of 6) l (dns_server_ip (resolver c))
    /\ (if decide (t = 2 \/ t = 5) then my_ip (nw (stack c')) = get32 h O_YIADDR /\ dhcp_has_bound c' = true
        else my_ip (nw (stack c')) = my_ip n /\ dhcp_has_bound c' = dhcp_has_bound c)
    /\ tx (nw (stack c')) = tx n.
Proof.
  intros Hh Hop Hx Hl Hlen t n. eexists. split; [by apply callback_reply|]. fold t. cbv zeta.
  destruct (Z.eqb_spec t 2) as [E2|N2]; [|destruct (Z.eqb_spec t 5) as [E5|N5]]; cbn [orb].
  - by rewrite decide_True by (by left).
  - by rewrite decide_True by (by right).
  - rewrite decide_False by tauto. done.
Qed.

(** On any bytes the callback returns, and reads at most five bytes behind the
    structure: 557 bytes of memory are enough. *)
Theorem dhcp_callback_returns data c : (DHCP_SIZE + 5 <= length data)%nat -> exists c', dhcp_callback data c = Some (tt, c').
Proof.
  intros H. unfold DHCP_SIZE in H. unfold dhcp_callback. rewrite (proj2 (Nat.ltb_ge _ _)) by (unfold O_OPTIONS; lia).
  destruct (negb _); [by eexists|]. destruct (negb _); [by eexists|]. unfold mbind_.
  destruct (options_total OPTIONS_FUEL (drop O_OPTIONS data) 0 0 0 c) as (r & c' & E);
    [unfold OPTIONS_SIZE, OPTIONS_FUEL; lia|rewrite length_drop; unfold O_OPTIONS; lia|].
  rewrite E. unfold mwhen. destruct (_ || _)%bool; by eexists.
Qed.
