(* ===== verification/Resolver.v ===== *)
(** * Clients above UDP: receiving, resolving, binding
    ([src/src/net/dns.c], [dhcp.c])

    A received frame runs through [netstack_handle_packet]; UDP then calls the
    registered callback, with a pointer to the bytes behind the UDP header in the
    driver's buffer.  The waiting loops of [dns_resolve] and of the DHCP task take
    what arrives as an argument: for each attempt what happens while the address
    of the server is looked up, and for each wake-up the frames that came since
    the last one.  The attempts of [dns_resolve] are numbered from 0. *)

From Stdlib Require Import ZArith Lia String.
From stdpp Require Import base numbers list gmap.
From S2P Require Import Prelude Pmm Kheap Bytes Net Tcp TcpBuf NetRx NetTcp Dns Dhcp.

#[local] Open Scope Z_scope.

(** ** Callbacks *)

(** The addresses of the two callbacks. *)
Definition DNS_CALLBACK : Z := 1.
Definition DHCP_CALLBACK : Z := 2.

Definition dns_init : M client unit := on_stack (udp_register_callback DNS_LOCAL_PORT DNS_CALLBACK).
Definition dhcp_init : M client unit := on_stack (udp_register_callback 68 DHCP_CALLBACK).

(** UDP data starts behind 14 bytes Ethernet, 20 bytes IP and 8 bytes UDP header. *)
Definition UDP_DATA : nat := 42.

Fixpoint run_calls (data : list Z) (calls : list udp_call) : M client unit :=
  match calls with
  | [] => mret_ tt
  | u :: calls' =>
      (if uc_callback u =? DNS_CALLBACK then on_resolver (dns_callback data)
       else mwhen (uc_callback u =? DHCP_CALLBACK) (dhcp_callback data)) ;;;
      run_calls data calls'
  end.

(** [frame] is the driver's buffer from the frame on, [len] the frame's length. *)
Definition receive (frame : list Z) (len : Z) : M client unit :=
  before <-- mgets (fun c => length (udp_calls (stack c))) ;;
  on_stack (netstack_handle_packet [] frame len) ;;;
  calls <-- mgets (fun c => drop before (udp_calls (stack c))) ;;
  run_calls (drop UDP_DATA frame) calls.

Fixpoint receive_all (frames : list (list Z * Z)) : M client unit :=
  match frames with
  | [] => mret_ tt
  | (frame, len) :: frames' => receive frame len ;;; receive_all frames'
  end.

(** ** Resolving a name *)

Definition round : Type := list (net -> net) * list (list (list Z * Z)).

Fixpoint dns_wait (wakes : list (list (list Z * Z))) : M client unit :=
  ready <-- mgets (fun c => dns_ready (resolver c)) ;;
  if (ready : bool) then mret_ tt else
  match wakes with
  | [] => mret_ tt
  | frames :: wakes' => receive_all frames ;;; dns_wait wakes'
  end.

(** The attempts at one server, from number [k] on. *)
Fixpoint attempt_loop (n k : nat) (server : Z) (packet : list Z) (env : nat -> round) : M client unit :=
  match n with
  | O => mret_ tt
  | S n' =>
      ready <-- mgets (fun c => dns_ready (resolver c)) ;;
      if (ready : bool) then mret_ tt else
      mmodify (upd_dns next_id) ;;;
      id <-- mgets (fun c => last_dns_id (resolver c)) ;;
      on_stack (udp_send (env k).1 server DNS_LOCAL_PORT DNS_PORT (set_id id packet)) ;;;
      dns_wait (env k).2 ;;;
      attempt_loop n' (S k) server packet env
  end.

Fixpoint server_loop (servers : list Z) (k : nat) (packet : list Z) (env : nat -> round) : M client unit :=
  match servers with
  | [] => mret_ tt
  | server :: servers' =>
      ready <-- mgets (fun c => dns_ready (resolver c)) ;;
      if (ready : bool) then mret_ tt else
      attempt_loop DNS_ATTEMPTS k server packet env ;;;
      server_loop servers' (DNS_ATTEMPTS + k) packet env
  end.

Definition server_list (d : dns) : list Z := dns_server_ip d :: dns_fallback_servers.

Definition dns_resolve (hostname : list Z) (env : nat -> round) : M client Z :=
  d <-- mgets resolver ;;
  if (negb (cache_ip d =? 0) && bool_decide (cache_host d = hostname))%bool then mret_ (cache_ip d) else
  let static_ip := dns_static_lookup hostname in
  mmodify (upd_dns (set_static static_ip)) ;;;
  if negb (static_ip =? 0) then mmodify (upd_dns (fun d => set_answer static_ip (dns_ready d) d)) ;;; mret_ static_ip else
  mmodify (upd_dns (set_answer 0 false)) ;;;
  match dns_query hostname with
  | None => mstop
  | Some packet =>
      server_loop (server_list d) 0 packet env ;;;
      d <-- mgets resolver ;;
      if dns_ready d then mmodify (upd_dns (set_cache hostname (resolved_ip d))) ;;; mret_ (resolved_ip d)
      else mret_ 0
  end.

(** ** The DHCP task *)

(** [for (i = 0; i < 50 && !dhcp_has_bound(); i++) task_sleep_ms(100);] *)
Fixpoint bind_wait (n : nat) (sleeps : nat -> list (list Z * Z)) : M client unit :=
  match n with
  | O => mret_ tt
  | S n' =>
      bound <-- mgets dhcp_has_bound ;;
      if (bound : bool) then mret_ tt else
      receive_all (sleeps 0%nat) ;;; bind_wait n' (fun i => sleeps (S i))
  end.

Fixpoint bind_loop (n : nat) (env : nat -> nat -> list (list Z * Z)) : M client unit :=
  match n with
  | O => mret_ tt
  | S n' =>
      bound <-- mgets dhcp_has_bound ;;
      if (bound : bool) then mret_ tt else
      dhcp_discover ;;; bind_wait 50 (env 0%nat) ;;; bind_loop n' (fun a => env (S a))
  end.

Definition dhcp_task_entry (env : nat -> nat -> list (list Z * Z)) : M client bool :=
  bind_loop 6 env ;;; mgets dhcp_has_bound.

(** ** Sending *)

Lemma arp_wait_total target wakes s : exists r s', arp_wait target wakes s = Some (r, s').
Proof.
  revert s. induction wakes as [|w wakes IH]; intros s; cbn [arp_wait]; unfold mbind_, mgets, id; destruct (_ && _)%bool; try (by eexists _, _).
  apply IH.
Qed.

Lemma resolve_mac_total wakes dest s : exists r s', netstack_resolve_mac wakes dest s = Some (r, s').
Proof.
  unfold netstack_resolve_mac, mbind_, mgets, mmodify, id. destruct (dest =? _); [by eexists _, _|].
  destruct (arp_lookup _ _); [by eexists _, _|]. destruct (last_arp_ip s =? _); [by eexists _, _|].
  destruct (g_in_irq s); [by eexists _, _|]. unfold netstack_send_arp_request. destruct (netif _); apply arp_wait_total.
Qed.

Lemma send_ipv4_total wakes dest proto data len s : exists s', netstack_send_ipv4 wakes dest proto data len s = Some (tt, s').
Proof.
  unfold netstack_send_ipv4. destruct (1480 <? len); [by eexists|]. unfold mbind_, mgets, id. destruct (netif s) as [mac|]; [|by eexists].
  destruct (resolve_mac_total wakes dest s) as (r & s' & ->). destruct r; by eexists.
Qed.

(** The stack after a datagram was built in the heap, sent and released. *)
Definition after_send (n : net) (h : kheap) (s : inet) : inet := set_nw n (set_tp (set_th h (tp s)) s).

Lemma udp_send_runs wakes dest sp dp data s p h :
  let len := u16 (UDP_HDR + Z.of_nat (length data)) in
  kmalloc (th (tp s)) len = KRet p h ->
  exists n, udp_send wakes dest sp dp data s = Some (tt, after_send n (kfree h p) s)
    /\ netstack_send_ipv4 wakes dest 17 (udp_packet sp dp data len) len (nw s) = Some (tt, n).
Proof.
  intros len Hk. destruct (send_ipv4_total wakes dest 17 (udp_packet sp dp data len) len (nw s)) as [n Hn].
  exists n. split; [|done]. unfold udp_send, mbind_, on_tcp, on_net, tcp_kmalloc, tcp_kfree, mmodify. fold len. rewrite Hk. cbn [nw set_tp tp].
  rewrite Hn. done.
Qed.

(** The heap can build [k] datagrams of [n] bytes one after the other. *)
Fixpoint serves (k : nat) (n : Z) (h : kheap) : bool :=
  match k with
  | O => true
  | S k' => match kmalloc h n with KRet p h' => serves k' n (kfree h' p) | _ => false end
  end.

(** ** The attempts as one list *)

Definition one_attempt (k : nat) (server : Z) (packet : list Z) (env : nat -> round) : M client unit :=
  mmodify (upd_dns next_id) ;;;
  id <-- mgets (fun c => last_dns_id (resolver c)) ;;
  on_stack (udp_send (env k).1 server DNS_LOCAL_PORT DNS_PORT (set_id id packet)) ;;;
  dns_wait (env k).2.

Fixpoint run_attempts (ts : list Z) (k : nat) (packet : list Z) (env : nat -> round) : M client unit := fun c =>
  match ts with
  | [] => Some (tt, c)
  | t :: ts' => if dns_ready (resolver c) then Some (tt, c) else
                match one_attempt k t packet env c with
                | Some (_, c') => run_attempts ts' (S k) packet env c'
                | None => None
                end
  end.

Lemma run_ready ts k packet env c : dns_ready (resolver c) = true -> run_attempts ts k packet env c = Some (tt, c).
Proof. intros H. destruct ts; cbn [run_attempts]; [done|]. by rewrite H. Qed.

Lemma attempts_run n k server packet env c :
  attempt_loop n k server packet env c = run_attempts (replicate n server) k packet env c.
Proof.
  revert k c. induction n as [|n IH]; intros k c; [done|]. cbn [attempt_loop replicate run_attempts].
  unfold one_attempt, mbind_, mgets, mmodify. destruct (dns_ready (resolver c)); [done|].
  destruct (on_stack _ _) as [[[] c1]|]; [|done]. destruct (dns_wait _ _) as [[[] c2]|]; [|done]. apply IH.
Qed.

Lemma run_app ts1 ts2 k packet env c :
  run_attempts (ts1 ++ ts2) k packet env c =
  match run_attempts ts1 k packet env c with
  | Some (_, c') => run_attempts ts2 (length ts1 + k) packet env c'
  | None => None
  end.
Proof.
  revert k c. induction ts1 as [|t ts1 IH]; intros k c; [done|]. cbn [app run_attempts length].
  destruct (dns_ready (resolver c)) eqn:E; [by rewrite run_ready|]. destruct (one_attempt _ _ _ _ _) as [[[] c1]|]; [|done].
  rewrite IH. by replace (length ts1 + S k)%nat with (S (length ts1) + k)%nat by lia.
Qed.

Definition targets (servers : list Z) : list Z := concat (map (replicate DNS_ATTEMPTS) servers).

Lemma servers_run servers k packet env c : server_loop servers k packet env c = run_attempts (targets servers) k packet env c.
Proof.
  revert k c. induction servers as [|sv servers IH]; intros k c; [done|]. cbn [server_loop].
  change (targets (sv :: servers)) with (replicate DNS_ATTEMPTS sv ++ targets servers). rewrite run_app. unfold mbind_, mgets.
  destruct (dns_ready (resolver c)) eqn:E; [by rewrite run_ready, run_ready|]. rewrite attempts_run.
  destruct (run_attempts _ _ _ _ _) as [[[] c1]|]; [|done]. rewrite IH. by rewrite length_replicate.
Qed.

(** ** Attempts without an answer *)

Definition silent (wakes : list (list (list Z * Z))) : Prop := Forall (fun frames => frames = []) wakes.

Lemma wait_silent wakes1 wakes2 c : silent wakes1 -> dns_ready (resolver c) = false -> dns_wait (wakes1 ++ wakes2) c = dns_wait wakes2 c.
Proof.
  intros H Hr. induction H as [|f wakes -> _ IH]; [done|]. cbn [app dns_wait]. unfold mbind_, mgets. rewrite Hr. exact IH.
Qed.

Lemma wait_over c : dns_wait [] c = Some (tt, c).
Proof. cbn. unfold mbind_, mgets. by destruct (dns_ready _). Qed.

Definition packet_len (packet : list Z) : Z := u16 (UDP_HDR + Z.of_nat (length packet)).

(** The state in which an attempt waits. *)
Definition waiting (n : net) (h : kheap) (c : client) : client := set_stack (after_send n h (stack c)) (upd_dns next_id c).

Lemma attempt_sends k t packet env c p h :
  (2 <= length packet)%nat -> kmalloc (th (tp (stack c))) (packet_len packet) = KRet p h ->
  let id := last_dns_id (next_id (resolver c)) in
  exists n, one_attempt k t packet env c = dns_wait (env k).2 (waiting n (kfree h p) c)
    /\ netstack_send_ipv4 (env k).1 t 17 (udp_packet DNS_LOCAL_PORT DNS_PORT (set_id id packet) (packet_len packet)) (packet_len packet) (nw (stack c))
       = Some (tt, n).
Proof.
  intros Hl Hk id. assert (HL : length (set_id id packet) = length packet) by (apply length_put16; lia).
  destruct (udp_send_runs (env k).1 t DNS_LOCAL_PORT DNS_PORT (set_id id packet) (stack c) p h) as (n & H1 & H2).
  { rewrite HL. exact Hk. }
  rewrite HL in H2. fold (packet_len packet) in H2. exists n. split; [|exact H2].
  unfold one_attempt, mbind_, mmodify, mgets, on_stack. cbn [upd_dns set_resolver stack resolver]. fold id. rewrite H1. done.
Qed.

(** A query on the wire: a frame to the neighbour [dmac] with an IPv4 header to
    the server and the packet with its identifier. *)
Definition query_frame (mac dmac : list Z) (server id : Z) (packet f : list Z) : Prop :=
  exists h, f = dmac ++ mac ++ [8; 0] ++ h ++ udp_packet DNS_LOCAL_PORT DNS_PORT (set_id id packet) (packet_len packet)
    /\ length h = 20%nat /\ net_checksum h = 0 /\ get8 h 9 = 17 /\ sub h 16 4 = le_bytes 4 server.

Definition reaches (mac dmac : list Z) (ts : list Z) (n : net) : Prop :=
  netif n = Some mac /\ Forall (fun t => t <> 0xFFFFFFFF /\ arp_lookup (arp_cache n) (netstack_next_hop t n) = Some dmac) ts.

Lemma query_sent wakes mac dmac t ts id packet n n' :
  (2 <= length packet <= 1472)%nat -> reaches mac dmac (t :: ts) n ->
  netstack_send_ipv4 wakes t 17 (udp_packet DNS_LOCAL_PORT DNS_PORT (set_id id packet) (packet_len packet)) (packet_len packet) n = Some (tt, n') ->
  reaches mac dmac ts n' /\ exists f, tx n' = tx n ++ [f] /\ query_frame mac dmac t id packet f.
Proof.
  intros Hl (Hif & Ht) Hs. apply Forall_cons in Ht as [Ht Hts]. set (len := packet_len packet) in *.
  assert (Hpl : len = 8 + Z.of_nat (length packet)) by (unfold len, packet_len, UDP_HDR; rewrite u16_small; lia).
  destruct (send_ipv4_spec n wakes t 17 (udp_packet DNS_LOCAL_PORT DNS_PORT (set_id id packet) len) len mac dmac Hif) as (n2 & E & H);
    [by_compute|lia|by right|]. rewrite Hs in E. injection E as <-. rewrite (proj2 (Z.ltb_ge _ _)) in H by lia.
  destruct H as (h & -> & H20 & Hck & _ & H9 & _ & H16). split; [done|]. eexists. split; [reflexivity|]. exists h. split; [|done].
  rewrite take_ge; [done|]. unfold udp_packet. rewrite !length_app, !length_le_bytes by lia. unfold set_id. rewrite length_put16 by lia. lia.
Qed.

Lemma silent_run packet env : (2 <= length packet <= 1472)%nat -> forall ts k r c,
  (forall j, (j < length ts)%nat -> silent (env (k + j)%nat).2) -> serves (length ts + r) (packet_len packet) (th (tp (stack c))) = true ->
  dns_ready (resolver c) = false ->
  exists c', run_attempts ts k packet env c = Some (tt, c') /\ resolver c' = Nat.iter (length ts) next_id (resolver c)
    /\ registrations (stack c') = registrations (stack c) /\ serves r (packet_len packet) (th (tp (stack c'))) = true
    /\ forall mac dmac, reaches mac dmac ts (nw (stack c)) -> exists fs, tx (nw (stack c')) = tx (nw (stack c)) ++ fs /\ length fs = length ts
       /\ forall i t, ts !! i = Some t ->
          exists f, fs !! i = Some f /\ query_frame mac dmac t (last_dns_id (Nat.iter (S i) next_id (resolver c))) packet f.
Proof.
  intros Hl. induction ts as [|t ts IH]; intros k r c Hs Hv Hr.
  - exists c. do 4 (split; [done|]). intros mac dmac _. exists []. rewrite app_nil_r. do 2 (split; [done|]). by intros i t.
  - cbn [length Nat.add serves] in Hv. destruct (kmalloc _ _) as [p h| |] eqn:Ek; try discriminate Hv.
    destruct (attempt_sends k t packet env c p h ltac:(lia) Ek) as (n & E1 & En). cbn [run_attempts]. rewrite Hr, E1.
    rewrite <- (app_nil_r (env k).2), wait_silent, wait_over; [|specialize (Hs 0%nat ltac:(simpl; lia)); by rewrite Nat.add_0_r in Hs|done].
    destruct (IH (S k) r (waiting n (kfree h p) c)) as (c' & E2 & R & G & V & T).
    { intros j Hj. specialize (Hs (S j) ltac:(simpl; lia)). by rewrite Nat.add_succ_r in Hs. }
    { exact Hv. }
    { exact Hr. }
    exists c'. split; [exact E2|]. split; [rewrite R; exact (eq_sym (Nat.iter_succ_r (length ts) next_id (resolver c)))|]. do 2 (split; [done|]).
    intros mac dmac Hreach. destruct (query_sent _ mac dmac t ts _ packet _ n Hl Hreach En) as (Hreach' & f & Etx & Hf).
    destruct (T mac dmac Hreach') as (fs & E3 & L & Hfs). exists (f :: fs).
    split; [rewrite E3; cbn [waiting stack set_stack after_send nw set_nw]; rewrite Etx; by rewrite <- (assoc_L (++))|].
    split; [simpl; lia|]. intros [|i] u Hu; [by injection Hu as <-; exists f|].
    destruct (Hfs i u Hu) as (g & Hg & Hq). exists g. split; [done|].
    change (Nat.iter (S i) next_id (resolver (waiting n (kfree h p) c))) with (Nat.iter (S i) next_id (next_id (resolver c))) in Hq.
    by rewrite <- Nat.iter_succ_r in Hq.
Qed.

(** ** Receiving a datagram *)

Definition udp_frame (frame : list Z) (port : Z) : Prop :=
  htons (get16 frame 12) = 0x0800 /\ get8 frame 23 = 17 /\ htons (get16 frame 36) = port.

(** The stack once UDP has called: the sender is in the neighbour cache. *)
Definition heard (frame : list Z) (call : udp_call) (s : inet) : inet :=
  set_calls (udp_calls s ++ [call])
    (set_nw (set_arp_cache (arp_record (arp_cache (nw s)) (get32 frame 26) (sub frame 6 6)) (nw s)) s).

Lemma receive_udp frame len port cb c :
  udp_frame frame port -> find_callback (registrations (stack c)) port = Some cb ->
  exists call, uc_callback call = cb /\ receive frame len c = run_calls (drop UDP_DATA frame) [call] (set_stack (heard frame call (stack c)) c).
Proof.
  intros (Ht & Hp & Hd) Hf. unfold receive, mbind_, mgets, on_stack, netstack_handle_packet. rewrite Ht. cbn [Z.eqb Pos.eqb mwhen].
  change (0x0800 =? 0x0806) with false. change (0x0800 =? 0x0800) with true. cbv iota. unfold mwhen. rewrite Hp.
  change (17 =? 1) with false. change (17 =? 6) with false. change (17 =? 17) with true. cbv iota.
  unfold mbind_, on_net, arp_cache_record, mmodify. unfold udp_handle_packet, mbind_, mgets, id.
  assert (E : htons (get16 (drop 34 frame) 2) = port) by (unfold get16, sub in *; by rewrite drop_drop).
  rewrite E. cbn [registrations set_nw]. rewrite Hf. unfold mmodify. eexists. split; [|cbn [stack set_stack udp_calls set_calls set_nw];
    rewrite drop_app_length; reflexivity]. reflexivity.
Qed.

Lemma receive_dns frame len c d' :
  udp_frame frame DNS_LOCAL_PORT -> find_callback (registrations (stack c)) DNS_LOCAL_PORT = Some DNS_CALLBACK ->
  dns_callback (drop UDP_DATA frame) (resolver c) = Some (tt, d') ->
  exists c', receive frame len c = Some (tt, c') /\ resolver c' = d' /\ registrations (stack c') = registrations (stack c).
Proof.
  intros Hfr Hf Hc. destruct (receive_udp frame len _ _ c Hfr Hf) as (call & Hcb & E). rewrite E. cbn [run_calls]. rewrite Hcb.
  change (DNS_CALLBACK =? DNS_CALLBACK) with true. cbv iota. unfold mbind_, on_resolver. cbn [resolver set_stack]. rewrite Hc.
  eexists. split; [reflexivity|]. done.
Qed.

(** ** Identifiers *)

Definition with_id (id : Z) (d : dns) : dns :=
  {| resolved_ip := resolved_ip d; last_dns_id := id; dns_ready := dns_ready d; static_ip := static_ip d;
     dns_server_ip := dns_server_ip d; cache_host := cache_host d; cache_ip := cache_ip d |}.

Lemma ids_count i d : 0 <= last_dns_id d < 65536 -> Nat.iter i next_id d = with_id (u16 (last_dns_id d + Z.of_nat i)) d.
Proof.
  intros H. induction i as [|i IH].
  - destruct d. unfold with_id. cbn in *. rewrite u16_small by lia. by rewrite Z.add_0_r.
  - change (Nat.iter (S i) next_id d) with (next_id (Nat.iter i next_id d)). rewrite IH. unfold next_id, with_id. cbn. f_equal.
    unfold u16. rewrite Zplus_mod_idemp_l. f_equal. lia.
Qed.

(** A name that needs the network: not cached, not in the static table. *)
Definition unknown_host (hostname : list Z) (c : client) : Prop :=
  dns_static_lookup hostname = 0 /\ (cache_ip (resolver c) = 0 \/ cache_host (resolver c) <> hostname).

(** The resolver when the attempts start. *)
Definition asking (c : client) : client := upd_dns (set_answer 0 false) (upd_dns (set_static 0) c).

Lemma resolve_asks hostname packet env c :
  unknown_host hostname c -> dns_query hostname = Some packet ->
  dns_resolve hostname env c =
  match run_attempts (targets (server_list (resolver c))) 0 packet env (asking c) with
  | None => None
  | Some (_, c') => if dns_ready (resolver c') then Some (resolved_ip (resolver c'), upd_dns (set_cache hostname (resolved_ip (resolver c'))) c')
                    else Some (0, c')
  end.
Proof.
  intros (Hs & Hc) Hq. unfold dns_resolve, mbind_, mgets, mmodify. rewrite Hs, Hq.
  assert (E : (negb (cache_ip (resolver c) =? 0) && bool_decide (cache_host (resolver c) = hostname))%bool = false).
  { destruct Hc as [->|Hc]; [done|]. rewrite bool_decide_false by done. apply andb_false_r. }
  rewrite E. cbn [negb Z.eqb]. rewrite servers_run. unfold asking. destruct (run_attempts _ _ _ _ _) as [[[] c']|]; [|done].
  by destruct (dns_ready (resolver c')).
Qed.

Lemma resolve_cached hostname env c :
  cache_ip (resolver c) <> 0 -> cache_host (resolver c) = hostname -> dns_resolve hostname env c = Some (cache_ip (resolver c), c).
Proof.
  intros Hi Hc. unfold dns_resolve, mbind_, mgets. rewrite (proj2 (Z.eqb_neq _ _) Hi), bool_decide_true by done. done.
Qed.

Lemma query_length hostname ls packet : host_labels hostname ls -> dns_query hostname = Some packet -> (18 <= length packet <= 144)%nat.
Proof.
  intros H Hq. rewrite (query_spec _ _ H) in Hq. injection Hq as <-. cbn [app length]. rewrite length_app, length_encode.
  destruct H as (<- & _ & H). rewrite length_app. simpl. lia.
Qed.

(** ** An answer *)

Lemma length_targets d : length (targets (server_list d)) = 8%nat.
Proof. reflexivity. Qed.

Lemma answered_attempt hostname ls q env k t c p h w1 w2 frame len ip :
  host_labels hostname ls -> dns_query hostname = Some q -> dns_ready (resolver c) = false ->
  kmalloc (th (tp (stack c))) (packet_len q) = KRet p h ->
  find_callback (registrations (stack c)) DNS_LOCAL_PORT = Some DNS_CALLBACK ->
  (env k).2 = w1 ++ [(frame, len)] :: w2 -> silent w1 -> udp_frame frame DNS_LOCAL_PORT ->
  answers q (last_dns_id (next_id (resolver c))) ip (drop UDP_DATA frame) ->
  exists c', one_attempt k t q env c = Some (tt, c') /\ resolver c' = set_answer ip true (next_id (resolver c)).
Proof.
  intros Hh Hq Hr Hk Hreg Hw Hw1 Hf Ha. destruct (query_length _ _ _ Hh Hq) as [Hl _].
  destruct (attempt_sends k t q env c p h ltac:(lia) Hk) as (n & -> & _). rewrite Hw, wait_silent by done.
  cbn [dns_wait]. unfold mbind_ at 1, mgets. change (dns_ready (resolver (waiting n (kfree h p) c))) with (dns_ready (resolver c)). rewrite Hr.
  destruct (receive_dns frame len (waiting n (kfree h p) c) (set_answer ip true (next_id (resolver c))) Hf Hreg) as (c' & E & R & _).
  { exact (callback_answer hostname ls q ip (drop UDP_DATA frame) (next_id (resolver c)) Hh Hq Ha). }
  unfold mbind_. cbn [receive_all]. unfold mbind_. rewrite E. exists c'. split; [|exact R].
  unfold mret_. destruct w2; cbn [dns_wait]; unfold mbind_, mgets; by rewrite R.
Qed.


(** C35: When no reply comes, [dns_resolve] gives up after eight queries and
    returns 0: two to the configured server and two to each fallback server, in
    this order and with consecutive identifiers, each one a frame with a right
    IPv4 header.  The cache is unchanged. *)
Theorem dns_resolve_gives_up hostname ls q env c mac dmac :
  host_labels hostname ls -> unknown_host hostname c -> dns_query hostname = Some q ->
  0 <= last_dns_id (resolver c) < 65536 -> serves 8 (packet_len q) (th (tp (stack c))) = true ->
  reaches mac dmac (targets (server_list (resolver c))) (nw (stack c)) -> (forall j, (j < 8)%nat -> silent (env j).2) ->
  exists c' fs, dns_resolve hostname env c = Some (0, c') /\ tx (nw (stack c')) = tx (nw (stack c)) ++ fs /\ length fs = 8%nat
    /\ cache_ip (resolver c') = cache_ip (resolver c) /\ cache_host (resolver c') = cache_host (resolver c)
    /\ forall i s, server_list (resolver c) !! (i / 2)%nat = Some s -> exists f, fs !! i = Some f
         /\ query_frame mac dmac s (u16 (last_dns_id (resolver c) + Z.of_nat i + 1)) q f.
Proof.
  intros Hh Hu Hq Hid Hv Hn Hs. rewrite (resolve_asks hostname q env c Hu Hq). destruct (query_length _ _ _ Hh Hq) as [Hl1 Hl2].
  destruct (silent_run q env ltac:(lia) (targets (server_list (resolver c))) 0 0 (asking c)) as (c1 & -> & R1 & _ & _ & T); [exact Hs|exact Hv|done|].
  rewrite length_targets, ids_count in R1 by done. destruct (T mac dmac Hn) as (fs & Etx & Lfs & Hfs). rewrite R1.
  exists c1, fs. do 3 (split; [done|]). rewrite R1. do 2 (split; [done|]).
  intros i s Hi. destruct (Hfs i s) as (f & Hf & Hqf).
  - assert (i / 2 < 4)%nat by (by apply lookup_lt_Some in Hi). assert (i < 8)%nat by (pose proof (Nat.div_mod_eq i 2); pose proof (Nat.mod_upper_bound i 2 ltac:(lia)); lia).
    do 8 (destruct i as [|i]; [exact Hi|]). lia.
  - exists f. split; [done|]. rewrite ids_count in Hqf by done. cbn [last_dns_id with_id asking resolver upd_dns set_resolver set_answer set_static] in Hqf.
    by replace (last_dns_id (resolver c) + Z.of_nat i + 1) with (last_dns_id (resolver c) + Z.of_nat (S i)) by lia.
Qed.

(** ** Binding an address *)

(** A BOOTREPLY to this client with header [h] and options [l] in a UDP frame. *)
Record dhcp_frame (frame h : list Z) (l : list item) : Prop := {
  df_frame : udp_frame frame 68;
  df_data : exists rest, drop UDP_DATA frame = h ++ items_bytes l ++ 255 :: rest;
  df_header : length h = O_OPTIONS /\ get8 h 0 = DHCP_BOOTREPLY /\ get32 h O_XID = htonl dhcp_xid;
  df_items : Forall item_ok l /\ (length (items_bytes l) < OPTIONS_SIZE)%nat
}.

(** What an OFFER or an ACK leaves behind. *)
Definition bound_to (h : list Z) (l : list item) (c c' : client) : Prop :=
  dhcp_has_bound c' = true /\ my_ip (nw (stack c')) = get32 h O_YIADDR
  /\ gateway_ip (nw (stack c')) = last_of (word_of 3) l (gateway_ip (nw (stack c)))
  /\ netmask_ip (nw (stack c')) = last_of (word_of 1) l (netmask_ip (nw (stack c)))
  /\ dns_server_ip (resolver c') = last_of (word_of 6) l (dns_server_ip (resolver c)).

Lemma receive_offer frame len h l c :
  dhcp_frame frame h l -> last_of type_of l 0 = 2 \/ last_of type_of l 0 = 5 ->
  find_callback (registrations (stack c)) 68 = Some DHCP_CALLBACK ->
  exists c', receive frame len c = Some (tt, c') /\ bound_to h l c c'.
Proof.
  intros [Hf (rest & Hd) (H1 & H2 & H3) (Hl & Hlen)] Ht Hreg. destruct (receive_udp frame len _ _ c Hf Hreg) as (call & Hcb & ->).
  cbn [run_calls]. rewrite Hcb. change (DHCP_CALLBACK =? DNS_CALLBACK) with false. change (DHCP_CALLBACK =? DHCP_CALLBACK) with true. cbv iota.
  unfold mwhen, mbind_. rewrite Hd, callback_reply by done. eexists. split; [reflexivity|]. cbv zeta.
  destruct Ht as [-> | ->]; done.
Qed.

(** The state after a request was broadcast. *)
Definition requested (n : net) (h : kheap) (c : client) : client := set_stack (after_send n h (stack c)) (set_bound false c).

(** The heap can build [k] requests one after the other. *)
Fixpoint serves_requests (k : nat) (h : kheap) : bool :=
  match k with
  | O => true
  | S k' => match kmalloc h 552 with
            | KRet p h1 => match kmalloc h1 560 with KRet q h2 => serves_requests k' (kfree (kfree h2 q) p) | _ => false end
            | _ => false
            end
  end.

Lemma length_discover mac : (length mac = 6)%nat -> length (discover_packet (Some mac)) = 552%nat.
Proof.
  intros H. do 6 (destruct mac as [|? mac]; [discriminate H|]). destruct mac; [|discriminate H]. reflexivity.
Qed.

Lemma discover_runs k c mac :
  netif (nw (stack c)) = Some mac -> length mac = 6%nat -> serves_requests (S k) (th (tp (stack c))) = true ->
  exists n h ip, dhcp_discover c = Some (tt, requested n h c) /\ serves_requests k h = true /\ netif n = Some mac
    /\ gateway_ip n = gateway_ip (nw (stack c)) /\ netmask_ip n = netmask_ip (nw (stack c))
    /\ tx n = tx (nw (stack c)) ++ [replicate 6 0xFF ++ mac ++ [8; 0] ++ ip ++ udp_packet 68 67 (discover_packet (Some mac)) 560]
    /\ length ip = 20%nat /\ net_checksum ip = 0 /\ get8 ip 9 = 17 /\ sub ip 16 4 = le_bytes 4 0xFFFFFFFF.
Proof.
  intros Hif Hm Hv. cbn [serves_requests] in Hv. destruct (kmalloc _ 552) as [p h1| |] eqn:E1; try discriminate Hv.
  destruct (kmalloc h1 560) as [q h2| |] eqn:E2; try discriminate Hv. pose proof (length_discover mac Hm) as HL.
  set (s1 := set_tp (set_th h1 (tp (stack c))) (stack c)).
  destruct (udp_send_runs [] 0xFFFFFFFF 68 67 (discover_packet (Some mac)) s1 q h2) as (n & Eu & En); [by rewrite HL|].
  rewrite HL in En. change (u16 (UDP_HDR + Z.of_nat 552)) with 560 in En.
  destruct (send_ipv4_spec (nw (stack c)) [] 0xFFFFFFFF 17 (udp_packet 68 67 (discover_packet (Some mac)) 560) 560 mac (replicate 6 0xFF) Hif)
    as (n2 & En2 & H); [by_compute|lia|by left|]. change (nw s1) with (nw (stack c)) in En. rewrite En in En2. injection En2 as <-.
  change (1480 <? 560) with false in H. destruct H as (ip & -> & L & C & _ & P & _ & D).
  rewrite take_ge in Eu by (unfold udp_packet; rewrite !length_app, !length_le_bytes, HL by lia; done).
  eexists _, (kfree (kfree h2 q) p), ip. split.
  - unfold dhcp_discover, mbind_, mmodify, mgets, on_stack, on_tcp, tcp_kmalloc, tcp_kfree. cbn [stack set_bound]. change (Z.of_nat DHCP_SIZE) with 552.
    rewrite E1. cbn [stack set_stack nw set_tp]. rewrite Hif. fold s1. rewrite Eu. reflexivity.
  - split; [exact Hv|]. split; [exact Hif|]. do 3 (split; [done|]). done.
Qed.

Lemma wait_unheard n sleeps c : (forall j, (j < n)%nat -> sleeps j = []) -> dhcp_bound c = false -> bind_wait n sleeps c = Some (tt, c).
Proof.
  revert sleeps. induction n as [|n IH]; intros sleeps Hs Hb; [done|]. cbn [bind_wait]. unfold mbind_, mgets, dhcp_has_bound.
  rewrite Hb, (Hs 0%nat) by lia. cbn [receive_all mret_]. apply IH; [|done]. intros j Hj. apply Hs. lia.
Qed.

Lemma wait_bound n sleeps c : dhcp_bound c = true -> bind_wait n sleeps c = Some (tt, c).
Proof. intros Hb. destruct n; [done|]. cbn [bind_wait]. unfold mbind_, mgets, dhcp_has_bound. by rewrite Hb. Qed.

Lemma wait_heard n sleeps i frame len c c' :
  (i < n)%nat -> (forall j, (j < i)%nat -> sleeps j = []) -> sleeps i = [(frame, len)] -> dhcp_bound c = false ->
  receive frame len c = Some (tt, c') -> dhcp_bound c' = true -> bind_wait n sleeps c = Some (tt, c').
Proof.
  revert sleeps i. induction n as [|n IH]; intros sleeps i Hi Hs Hf Hb Hr Hb'; [lia|]. cbn [bind_wait]. unfold mbind_ at 1, mgets, dhcp_has_bound.
  rewrite Hb. unfold mbind_. destruct i as [|i].
  - rewrite Hf. cbn [receive_all]. unfold mbind_. rewrite Hr. by apply wait_bound.
  - rewrite (Hs 0%nat) by lia. apply (IH _ i); [lia| |done..]. intros j Hj. apply Hs. lia.
Qed.

Lemma bound_to_requested hd l n h c c' :
  gateway_ip n = gateway_ip (nw (stack c)) -> netmask_ip n = netmask_ip (nw (stack c)) -> bound_to hd l (requested n h c) c' -> bound_to hd l c c'.
Proof. intros Hg Hm. unfold bound_to. cbn [nw stack requested set_stack after_send set_nw resolver set_bound]. by rewrite Hg, Hm. Qed.

Lemma bind_loop_binds frame len hd l i mac : dhcp_frame frame hd l -> last_of type_of l 0 = 2 \/ last_of type_of l 0 = 5 ->
  length mac = 6%nat -> (i < 50)%nat -> forall a m env c,
  (a < m)%nat -> (forall j s, (j < a)%nat -> env j s = []) -> (forall s, (s < i)%nat -> env a s = []) -> env a i = [(frame, len)] ->
  dhcp_bound c = false -> netif (nw (stack c)) = Some mac -> serves_requests (S a) (th (tp (stack c))) = true ->
  find_callback (registrations (stack c)) 68 = Some DHCP_CALLBACK ->
  exists c', bind_loop m env c = Some (tt, c') /\ bound_to hd l c c'.
Proof.
  intros Hf Ht Hm Hi. induction a as [|a IH]; intros m env c Ha He Hs Hfr Hb Hif Hv Hreg; (destruct m as [|m]; [lia|]);
    cbn [bind_loop]; unfold mbind_ at 1, mgets, dhcp_has_bound; rewrite Hb; unfold mbind_;
    destruct (discover_runs _ c mac Hif Hm Hv) as (n & h & ip & E & Hv' & Hif' & Hg & Hn & _); rewrite E.
  - destruct (receive_offer frame len hd l (requested n h c) Hf Ht Hreg) as (c' & Er & Hbt).
    rewrite (wait_heard 50 (env 0%nat) i frame len (requested n h c) c') by (done || apply Hbt).
    exists c'. split; [|by apply (bound_to_requested hd l n h)]. destruct m; [done|]. cbn [bind_loop]. unfold mbind_, mgets, dhcp_has_bound.
    destruct Hbt as (Hb' & _). unfold dhcp_has_bound in Hb'. by rewrite Hb'.
  - rewrite wait_unheard; [|intros s _; apply He; lia|done].
    destruct (IH m (fun b => env (S b)) (requested n h c)) as (c' & E' & Hbt); try done; [lia|intros j s Hj; apply He; lia|].
    exists c'. split; [exact E'|]. by apply (bound_to_requested hd l n h).
Qed.

(** C34: The DHCP task broadcasts a DISCOVER up to six times; when an OFFER or ACK
    for this client arrives in one of the fifty waits of an attempt, it ends bound,
    with the offered address and the mask, router and DNS server of the options,
    the last of each kind. *)
Theorem dhcp_task_binds env c mac a i frame len hd l :
  dhcp_frame frame hd l -> last_of type_of l 0 = 2 \/ last_of type_of l 0 = 5 ->
  length mac = 6%nat -> netif (nw (stack c)) = Some mac -> dhcp_bound c = false ->
  find_callback (registrations (stack c)) 68 = Some DHCP_CALLBACK -> serves_requests (S a) (th (tp (stack c))) = true ->
  (a < 6)%nat -> (i < 50)%nat -> (forall j s, (j < a)%nat -> env j s = []) -> (forall s, (s < i)%nat -> env a s = []) ->
  env a i = [(frame, len)] ->
  exists c', dhcp_task_entry env c = Some (true, c') /\ bound_to hd l c c'.
Proof.
  intros Hf Ht Hm Hif Hb Hreg Hv Ha Hi He Hs Hfr. unfold dhcp_task_entry, mbind_.
  destruct (bind_loop_binds frame len hd l i mac Hf Ht Hm Hi a 6 env c Ha He Hs Hfr Hb Hif Hv Hreg) as (c' & -> & Hbt).
  exists c'. split; [|done]. unfold mgets. by rewrite (proj1 Hbt).
Qed.

(** ** Witnesses *)

(** The stack of [NetTcp] with both callbacks registered; the server is the gateway. *)
Definition client_demo : client :=
  {| stack := set_registrations [(68, DHCP_CALLBACK); (DNS_LOCAL_PORT, DNS_CALLBACK)] inet_listening; resolver := dns_set_server 0x0202000A dns0; dhcp_bound := false |}.

Definition demo_host : list Z := str "liwus.org".
Definition demo_labels : list (list Z) := [str "liwus"; str "org"].
Definition demo_query : list Z := default [] (dns_query demo_host).

Definition udp_demo (sport dport : list Z) (data : list Z) : list Z :=
  [82; 84; 0; 18; 52; 86; 82; 85; 10; 0; 2; 2; 8; 0] ++ [0x45; 0; 0; 80; 0; 0; 0; 0; 64; 17; 0; 0; 10; 0; 2; 2; 10; 0; 2; 15]
  ++ sport ++ dport ++ [0; 60; 0; 0] ++ data.

(** The reply to the query with identifier 2: liwus.org is 93.184.216.34. *)
Definition demo_reply : list Z :=
  [0; 2; 0x81; 0x80; 0; 1; 0; 1; 0; 0; 0; 0] ++ drop 12 demo_query ++ [0xC0; 12] ++ [0; 1] ++ [0; 1] ++ [0; 0; 1; 44] ++ [0; 4] ++ [93; 184; 216; 34].
Definition demo_dns_frame : list Z := udp_demo [0; 53] [192; 1] demo_reply.

Lemma demo_host_labels : host_labels demo_host demo_labels.
Proof. split; [by_vm|]. split; [|by_compute]. repeat (constructor; [split; [done|repeat (constructor; [done|]); constructor]|]). constructor. Qed.

Lemma demo_unknown : unknown_host demo_host client_demo.
Proof. split; [by_vm|by left]. Qed.

Lemma demo_query_eq : dns_query demo_host = Some demo_query.
Proof. by_vm. Qed.

Lemma demo_answers : answers demo_query 2 0x22D8B85D (drop UDP_DATA demo_dns_frame).
Proof.
  constructor; [by_compute|by_vm|by_compute|by_compute|].
  exists [0xC0; 12], [0; 1], [0; 0; 1; 44], []. split; [by constructor|]. do 2 (split; [done|]). by_vm.
Qed.


Lemma dns_resolve_gives_up_witness :
  exists c' fs, dns_resolve demo_host (fun _ => ([], [[]])) client_demo = Some (0, c') /\ tx (nw (stack c')) = fs /\ length fs = 8%nat.
Proof.
  destruct (dns_resolve_gives_up demo_host demo_labels demo_query (fun _ => ([], [[]])) client_demo [82; 84; 0; 18; 52; 86] [82; 85; 10; 0; 2; 2])
    as (c' & fs & E & Ht & Hl & _).
  - exact demo_host_labels.
  - exact demo_unknown.
  - exact demo_query_eq.
  - by_compute.
  - by_vm.
  - split; [reflexivity|]. repeat (constructor; [split; [discriminate|by_vm]|]). constructor.
  - intros j _. by constructor.
  - exists c', fs. split; [exact E|]. split; [exact Ht|exact Hl].
Defined.

(** An OFFER of 10.0.2.15 with mask, router and DNS server. *)
Definition demo_items : list item := [Opt 53 [2]; Opt 1 [255; 255; 255; 0]; Pad; Opt 3 [10; 0; 2; 2]; Opt 6 [10; 0; 2; 3]].
Definition demo_header : list Z := put32 (put32 (put8 (zeros 240) 0 2) 4 (htonl dhcp_xid)) 16 0x0F02000A.
Definition demo_offer : list Z := udp_demo [0; 67] [0; 68] (demo_header ++ items_bytes demo_items ++ 255 :: zeros 20).

Lemma demo_offer_frame : dhcp_frame demo_offer demo_header demo_items.
Proof.
  constructor.
  - split; [by_vm|]. split; by_vm.
  - exists (zeros 20). by_vm.
  - split; [by_vm|]. split; by_vm.
  - split; [|by_compute]. repeat (constructor; [by_compute || (repeat split; (lia || (intros; simpl; lia) || discriminate || (intros _; discriminate)))|]). constructor.
Qed.

Lemma dhcp_task_binds_witness :
  exists c', dhcp_task_entry (fun a i => if decide ((a, i) = (1, 3)%nat) then [(demo_offer, 320)] else []) client_demo = Some (true, c')
    /\ my_ip (nw (stack c')) = 0x0F02000A /\ dns_server_ip (resolver c') = 0x0302000A.
Proof.
  destruct (dhcp_task_binds (fun a i => if decide ((a, i) = (1, 3)%nat) then [(demo_offer, 320)] else []) client_demo [82; 84; 0; 18; 52; 86]
    1 3 demo_offer 320 demo_header demo_items) as (c' & E & _ & Hip & _ & _ & Hd).
  - exact demo_offer_frame.
  - left. by_vm.
  - reflexivity.
  - reflexivity.
  - reflexivity.
  - by_vm.
  - by_vm.
  - lia.
  - lia.
  - intros j s Hj. rewrite decide_False; [done|]. intros [= -> _]. lia.
  - intros s Hj. rewrite decide_False; [done|]. intros [= ->]. lia.
  - reflexivity.
  - exists c'. split; [exact E|]. rewrite Hip, Hd. split; by_vm.
Defined.

(** ** What the callbacks accept *)

(** A datagram that ends behind its header (20 bytes with the UDP header) is
    answered from what the driver's buffer holds behind it. *)
Definition short_frame : list Z := splice demo_dns_frame 38 [0; 20].

Theorem dns_reads_past_datagram :
  exists call, uc_data call = take 12 demo_reply /\ uc_len call = 12
  /\ option_map (fun r => udp_calls (stack r.2)) (receive short_frame 54 (upd_dns (with_id 2) client_demo)) = Some [call]
  /\ option_map (fun r => resolved_ip (resolver r.2)) (receive short_frame 54 (upd_dns (with_id 2) client_demo)) = Some 0x22D8B85D.
Proof.
  exists {| uc_callback := DNS_CALLBACK; uc_ip := 0x0202000A; uc_port := 53; uc_data := take 12 demo_reply; uc_len := 12 |}.
  do 2 (split; [reflexivity|]). split; by_vm.
Qed.

(** A NAK (message type 6) changes the router and the DNS server: options are
    applied before the type of the message is known. *)
Definition demo_nak : list item := [Opt 3 [10; 0; 2; 99]; Opt 6 [10; 0; 2; 98]; Opt 53 [6]].

Theorem dhcp_nak_reconfigures :
  exists c', dhcp_callback (demo_header ++ items_bytes demo_nak ++ 255 :: []) client_demo = Some (tt, c')
    /\ dhcp_has_bound c' = false /\ gateway_ip (nw (stack c')) = 0x6302000A /\ dns_server_ip (resolver c') = 0x6202000A.
Proof.
  eexists. split; [apply callback_reply; [by_vm..| |by_compute]|].
  - repeat (constructor; [repeat split; (lia || (intros; simpl; lia) || discriminate || (intros _; discriminate))|]). constructor.
  - split; [by_vm|]. split; by_vm.
Qed.

(** Options that fill the array to its end make the client read behind the
    structure. *)
Theorem dhcp_reads_past_packet :
  dhcp_callback (demo_header ++ zeros 311 ++ [1]) client_demo = None /\ length (demo_header ++ zeros 311 ++ [1]) = DHCP_SIZE.
Proof. split; by_vm. Qed.
