(* ===== verification/Http.v ===== *)
(** * The HTTP client ([src/src/net/http.c])

    URLs, headers and redirects as functions on strings (lists of bytes without
    NUL), the receive loop, and [http_get_url] over an interface of connections:
    name resolution, connecting, sending and closing are operations of the network
    below ([conn_ops]), since TLS is a library.  What the connection delivers is
    an argument: for each call of [http_conn_receive] the time and its result.

    Arrays have the sizes of the code: an overrun is [Overflow], a loop that does
    not end [Hang]. *)

From Stdlib Require Import ZArith Lia String.
From stdpp Require Import base numbers list gmap.
From S2P Require Import Prelude Bytes.

#[local] Open Scope Z_scope.

(** ** Strings *)

Definition CR : Z := 13.
Definition LF : Z := 10.
Definition COLON : Z := 58.
Definition SLASH : Z := 47.
Definition CRLF : list Z := [CR; LF].

Definition starts (s prefix : list Z) : bool := bool_decide (take (length prefix) s = prefix).

(** [strstr]: the index of the first occurrence. *)
Fixpoint strstr (s sub : list Z) : option nat :=
  if starts s sub then Some 0%nat else
  match s with
  | [] => None
  | _ :: s' => match strstr s' sub with Some i => Some (S i) | None => None end
  end.

(** ** URLs *)

Inductive parsed := Parsed (host path : list Z) (port : Z) (use_tls : bool) | Hang | Overflow.

Definition HOST_SIZE : nat := 128.
Definition PATH_SIZE : nat := 256.

Definition host_end (ch : Z) : bool := ((ch =? COLON) || (ch =? SLASH))%bool.

(** The loop over the host, with [host] so far; [None] when it does not end: at
    127 bytes it neither stores nor moves on. *)
Fixpoint host_loop (host ptr : list Z) : option (list Z * list Z) :=
  match ptr with
  | [] => Some (host, [])
  | ch :: ptr' =>
      if host_end ch then Some (host, ptr) else
      if (length host <? HOST_SIZE - 1)%nat then host_loop (host ++ [ch]) ptr' else None
  end.

Definition is_digit (ch : Z) : bool := ((48 <=? ch) && (ch <=? 57))%bool.

Fixpoint port_loop (port : Z) (ptr : list Z) : Z * list Z :=
  match ptr with
  | ch :: ptr' => if is_digit ch then port_loop (u16 (port * 10 + (ch - 48))) ptr' else (port, ptr)
  | [] => (port, [])
  end.

Definition after_scheme (url : list Z) : list Z * Z * bool :=
  if bool_decide (strstr url (str "http://") = Some 0%nat) then (drop 7 url, 80, false)
  else if bool_decide (strstr url (str "https://") = Some 0%nat) then (drop 8 url, 443, true)
  else (url, 80, false).

Definition http_parse_url_internal (url : list Z) : parsed :=
  let '(rest, port, use_tls) := after_scheme url in
  match host_loop [] rest with
  | None => Hang
  | Some (host, ptr) =>
      let '(port, ptr) := match ptr with
                          | ch :: ptr' => if ch =? COLON then port_loop 0 ptr' else (port, ptr)
                          | [] => (port, ptr)
                          end in
      let path := match ptr with ch :: _ => if ch =? SLASH then ptr else [SLASH] | [] => [SLASH] end in
      if (length path <? PATH_SIZE)%nat then Parsed host path port use_tls else Overflow
  end.

Definition http_parse_url (url : list Z) : parsed :=
  match http_parse_url_internal url with Parsed h p n _ => Parsed h p n false | r => r end.

(** ** Headers *)

Definition lower (c : Z) : Z := if ((65 <=? c) && (c <=? 90))%bool then c + 32 else c.

(** The value behind the colon: blanks skipped, up to the end of the line or of
    the array. *)
Definition is_blank (c : Z) : bool := ((c =? 32) || (c =? 9))%bool.
Fixpoint skip_blanks (v : list Z) : list Z := match v with c :: v' => if is_blank c then skip_blanks v' else v | [] => [] end.
Definition header_text (v : list Z) (outsz : nat) : list Z :=
  take (outsz - 1) (take_while (fun c => negb ((c =? CR) || (c =? LF))) (skip_blanks v)).

Fixpoint find_char (ch : Z) (line : list Z) : option nat :=
  match line with
  | [] => None
  | c :: line' => if c =? ch then Some 0%nat else match find_char ch line' with Some i => Some (S i) | None => None end
  end.

(** One line at [p] of the given length. *)
Definition line_value (p : list Z) (line_len : nat) (key : list Z) (outsz : nat) : option (list Z) :=
  match find_char COLON (take line_len p) with
  | Some i => if ((length key <=? i)%nat && bool_decide (map lower (take (length key) p) = key))%bool
              then Some (header_text (drop (S i) p) outsz) else None
  | None => None
  end.

Fixpoint header_lines (n : nat) (p key : list Z) (outsz : nat) : option (list Z) :=
  match n, p with
  | O, _ => None
  | _, [] => None
  | S n', c :: _ =>
      if c =? CR then None else
      match strstr p CRLF with
      | Some e => match line_value p e key outsz with
                  | Some v => Some v
                  | None => header_lines n' (drop (e + 2) p) key outsz
                  end
      | None => line_value p (length p) key outsz
      end
  end.

(** [None] is the result 0; each line takes at least two bytes. *)
Definition http_header_value (hp key : list Z) (outsz : nat) : option (list Z) :=
  match strstr hp CRLF with
  | None => None
  | Some i => header_lines (length hp) (drop (i + 2) hp) key outsz
  end.

(** ** Redirects *)

Definition until_slash (base : list Z) : list Z := take_while (fun c => negb (c =? SLASH)) base.

(** The path up to its last slash. *)
Fixpoint last_slash (path : list Z) (i : nat) (found : option nat) : option nat :=
  match path with
  | [] => found
  | c :: path' => last_slash path' (S i) (if c =? SLASH then Some i else found)
  end.

Definition DIR_SIZE : nat := 256.

Definition dir_of (path : list Z) : list Z :=
  match last_slash path 0 None with
  | Some (S i) => take (DIR_SIZE - 1) (take (S (S i)) path)
  | _ => []
  end.

Definition is_absolute (loc : list Z) : bool :=
  (bool_decide (strstr loc (str "http://") = Some 0%nat) || bool_decide (strstr loc (str "https://") = Some 0%nat))%bool.

(** The result 0 with the URL, the result -1, or an overrun of [out]. *)
Inductive resolved := To (url : list Z) | Refused | Overrun.

(** The check for a scheme-relative location counts the scheme (at most 7 bytes
    of the base), not the prefix that was copied. *)
Definition http_resolve_url (base loc : list Z) (outsz : nat) : resolved :=
  if is_absolute loc then To (take (outsz - 1) loc) else
  if starts loc [35] then Refused else
  let slen := match strstr base (str "://") with Some i => Nat.min i 7 | None => 4%nat end in
  let prefix := take (outsz - 1) (until_slash base) in
  if starts loc [SLASH; SLASH] then
    if (outsz <=? slen + 1 + length loc)%nat then Refused else
    if (outsz <=? length prefix + 1 + length loc)%nat then Overrun else To (prefix ++ [COLON] ++ loc)
  else if starts loc [SLASH] then
    if (outsz <=? length prefix + length loc)%nat then Refused else To (prefix ++ loc)
  else
    let dir := dir_of (drop (length (until_slash base)) base) in
    if (outsz <=? length prefix + length dir + length loc)%nat then Refused else To (prefix ++ dir ++ loc).

(** ** Fetching *)

(** Name resolution, connection set-up, sending and closing; [connect] gives
    [None] for a failure, and [send] its result. *)
Record conn_ops (W C : Type) := {
  resolve_host : list Z -> M W Z;
  connect : bool -> Z -> Z -> list Z -> M W (option C);
  conn_send : C -> list Z -> M W Z;
  conn_close : C -> M W unit
}.
Arguments resolve_host {W C}. Arguments connect {W C}. Arguments conn_send {W C}. Arguments conn_close {W C}.

Definition REQUEST_SIZE : nat := 512.

Definition http_request (host path : list Z) : list Z :=
  str "GET " ++ path ++ str " HTTP/1.1" ++ CRLF ++ str "Host: " ++ host ++ CRLF ++ str "User-Agent: LiwusOS/2.0" ++ CRLF
  ++ str "Accept: text/html,*/*;q=0.1" ++ CRLF ++ str "Connection: close" ++ CRLF ++ CRLF.

(** What one call of [http_conn_receive] gives, with the time: bytes, or [None]
    for a negative result. *)
Definition rx : Type := Z * option (list Z).

(** The receive loop; [None] when it still waits at the end of the list. *)
Fixpoint drain (max_len start last_rx : Z) (response : list Z) (rxs : list rx) : option (list Z) :=
  let total := Z.of_nat (length response) in
  if negb (total <? u32 (max_len - 1)) then Some response else
  match rxs with
  | [] => None
  | (now, r) :: rxs' =>
      if 15000 <? u32 (now - start) then Some response else
      match r with
      | None => Some response
      | Some [] => if 1500 <? u32 (now - last_rx) then Some response else drain max_len start last_rx response rxs'
      | Some chunk => drain max_len start now (response ++ take (Z.to_nat (u32 (max_len - 1) - total)) chunk) rxs'
      end
  end.

Section Fetch.
Context {W C : Type} (ops : conn_ops W C).

(** The response; [None] is the result -1. *)
Definition http_fetch_raw (host : list Z) (port : Z) (path : list Z) (use_tls : bool) (max_len start : Z) (rxs : list rx)
  : M W (option (list Z)) :=
  ip <-- resolve_host ops host ;;
  if ip =? 0 then mret_ None else
  c <-- connect ops use_tls ip port host ;;
  match c with
  | None => mret_ None
  | Some c =>
      if (REQUEST_SIZE <=? length (http_request host path))%nat then mstop else
      sent <-- conn_send ops c (http_request host path) ;;
      if sent <? 0 then conn_close ops c ;;; mret_ None else
      match drain max_len start start [] rxs with
      | None => mstop
      | Some response => conn_close ops c ;;; mret_ (Some response)
      end
  end.

(** The body behind the headers, up to its first NUL; without a separator the
    whole response. *)
Definition http_body (response : list Z) : list Z :=
  match strstr (c_str response) (CRLF ++ CRLF) with
  | Some i => drop (i + 4) (c_str response)
  | None => response
  end.

(** The result and the contents of [response]. *)
Definition http_get_tls (host : list Z) (port : Z) (path : list Z) (max_len start : Z) (use_tls : bool) (rxs : list rx) : M W (Z * list Z) :=
  r <-- http_fetch_raw host port path use_tls max_len start rxs ;;
  match r with
  | None => mret_ (-1, [])
  | Some [] => mret_ (0, [])
  | Some response => mret_ (Z.of_nat (length (http_body response)), http_body response)
  end.

Definition http_get (host : list Z) (port : Z) (path : list Z) (max_len start : Z) (rxs : list rx) : M W (Z * list Z) :=
  http_get_tls host port path max_len start false rxs.

Definition URL_SIZE : nat := 320.
Definition LOC_SIZE : nat := 300.
Definition NEXT_SIZE : nat := 340.

Definition status_code (response : list Z) : Z :=
  if ((12 <=? length response)%nat && (response.[0] =? 72))%bool
  then (response.[9] - 48) * 100 + (response.[10] - 48) * 10 + (response.[11] - 48) else 0.

(** Where a response redirects to: [Refused] when it does not. *)
Definition redirect (cur_url response : list Z) : resolved :=
  let code := status_code response in
  if ((300 <=? code) && (code <? 400))%bool then
    match http_header_value (c_str response) (str "location") LOC_SIZE with
    | Some loc => match http_resolve_url cur_url loc NEXT_SIZE with
                  | To next => To (take (URL_SIZE - 1) next)
                  | r => r
                  end
    | None => Refused
    end
  else Refused.

Fixpoint get_loop (hops : nat) (cur_url : list Z) (max_len : Z) (env : list (Z * list rx)) : M W (Z * list Z) :=
  match hops with
  | O => mret_ (-1, [])
  | S hops' =>
      match http_parse_url_internal cur_url with
      | Hang | Overflow => mstop
      | Parsed host path port use_tls =>
          match env with
          | [] => mstop
          | (start, rxs) :: env' =>
              r <-- http_fetch_raw host port path use_tls max_len start rxs ;;
              match r with
              | None => mret_ (-1, [])
              | Some [] => mret_ (0, [])
              | Some response =>
                  match redirect cur_url response with
                  | To next => get_loop hops' next max_len env'
                  | Refused => mret_ (Z.of_nat (length (http_body response)), http_body response)
                  | Overrun => mstop
                  end
              end
          end
      end
  end.

Definition MAX_HOPS : nat := 4.

(** [env]: for each hop the time it starts at and what arrives. *)
Definition http_get_url (url : list Z) (max_len : Z) (env : list (Z * list rx)) : M W (Z * list Z) :=
  get_loop MAX_HOPS (take (URL_SIZE - 1) url) max_len env.
End Fetch.

(** ** URLs: lemmas *)

Lemma strstr_prefix s sub : take (length sub) s = sub -> strstr s sub = Some 0%nat.
Proof. intros H. destruct s; cbn [strstr]; unfold starts; by rewrite bool_decide_true. Qed.

Lemma strstr_zero s sub : strstr s sub = Some 0%nat -> take (length sub) s = sub.
Proof.
  destruct s as [|c s]; cbn [strstr]; unfold starts; case_bool_decide as E; try done. by destruct (strstr s sub).
Qed.

Definition host_ok (host : list Z) : Prop := Forall (fun ch => host_end ch = false) host.
Definition ends_host (rest : list Z) : Prop := match rest with [] => True | ch :: _ => host_end ch = true end.

Lemma host_loop_runs host rest : host_ok host -> ends_host rest -> forall acc, (length acc + length host <= 127)%nat ->
  host_loop acc (host ++ rest) = Some (acc ++ host, rest).
Proof.
  intros Hh Hr. induction Hh as [|ch host Hc _ IH]; intros acc Hl.
  - rewrite app_nil_r. destruct rest as [|c rest]; [done|]. cbn in *. by rewrite Hr.
  - cbn [app host_loop]. rewrite Hc. cbn [length] in Hl. rewrite (proj2 (Nat.ltb_lt _ _)) by (unfold HOST_SIZE; lia).
    rewrite IH by (rewrite length_app; simpl; lia). by rewrite <- (assoc_L (++)).
Qed.

Lemma host_loop_hangs host rest : host_ok host -> forall acc, (length acc <= 127)%nat -> (127 < length acc + length host)%nat ->
  host_loop acc (host ++ rest) = None.
Proof.
  induction 1 as [|ch host Hc _ IH]; intros acc Ha Hl; [simpl in Hl; lia|]. cbn [app host_loop]. rewrite Hc. cbn [length] in Hl.
  destruct (Nat.ltb_spec (length acc) (HOST_SIZE - 1)) as [Hlt|Hge]; [|done]. unfold HOST_SIZE in Hlt.
  apply IH; rewrite length_app; simpl; lia.
Qed.

Definition port_value (ds : list Z) : Z := foldl (fun p ch => u16 (p * 10 + (ch - 48))) 0 ds.

Lemma port_loop_runs ds rest p : Forall (fun ch => is_digit ch = true) ds -> match rest with ch :: _ => is_digit ch = false | [] => True end ->
  port_loop p (ds ++ rest) = (foldl (fun p ch => u16 (p * 10 + (ch - 48))) p ds, rest).
Proof.
  intros Hd Hr. revert p. induction Hd as [|ch ds Hc _ IH]; intros p; cbn [app port_loop foldl].
  - destruct rest; [done|]. cbn. by rewrite Hr.
  - by rewrite Hc.
Qed.

(** The parts of a URL: a scheme with its default port, an optional port, and
    a path that is empty or starts with a slash. *)
Inductive scheme : list Z -> Z -> bool -> Prop :=
| scheme_http : scheme (str "http://") 80 false
| scheme_https : scheme (str "https://") 443 true.

Definition port_text (port : option (list Z)) : list Z := match port with None => [] | Some ds => COLON :: ds end.
Definition path_ok (path : list Z) : Prop := match path with [] => True | ch :: _ => ch = SLASH end.

Lemma after_scheme_runs sc dport tls rest : scheme sc dport tls -> after_scheme (sc ++ rest) = (rest, dport, tls).
Proof.
  intros [|]; unfold after_scheme.
  - rewrite bool_decide_true by (by apply strstr_prefix). done.
  - rewrite bool_decide_false; [|cbn; by destruct (strstr _ _)]. rewrite bool_decide_true by (by apply strstr_prefix). done.
Qed.

Lemma parse_url_runs sc dport tls host port path :
  scheme sc dport tls -> host_ok host -> (length host <= 127)%nat ->
  Forall (fun ch => is_digit ch = true) (default [] port) -> path_ok path ->
  http_parse_url_internal (sc ++ host ++ port_text port ++ path) =
  let path := match path with [] => [SLASH] | _ => path end in
  if (length path <? PATH_SIZE)%nat then Parsed host path (match port with Some ds => port_value ds | None => dport end) tls else Overflow.
Proof.
  intros Hs Hh Hl Hd Hp. unfold http_parse_url_internal. rewrite (after_scheme_runs _ _ _ _ Hs).
  rewrite host_loop_runs; [|done| |simpl; lia]; [|destruct port; [done|]; destruct path as [|c path]; [done|]; cbn in *; by rewrite Hp].
  rewrite app_nil_l. destruct port as [ds|]; cbn [port_text app default] in *.
  - rewrite Z.eqb_refl, port_loop_runs; [|done|destruct path as [|c path]; [done|]; cbn in Hp; by rewrite Hp].
    fold (port_value ds). destruct path as [|c path]; [done|]. cbn in Hp. rewrite Hp. by rewrite Z.eqb_refl.
  - destruct path as [|c path]; [done|]. cbn in Hp. rewrite Hp. reflexivity.
Qed.

(** An http or https URL whose host has at most 127 bytes and whose path has
    at most 255 is taken apart into exactly its host, its port (the scheme's
    default when there is none) and its path ("/" when there is none). *)
Theorem http_parse_url_components sc dport tls host port path :
  scheme sc dport tls -> host_ok host -> (length host <= 127)%nat ->
  Forall (fun ch => is_digit ch = true) (default [] port) -> path_ok path -> (length path <= 255)%nat ->
  http_parse_url_internal (sc ++ host ++ port_text port ++ path) =
  Parsed host (match path with [] => [SLASH] | _ => path end) (match port with Some ds => port_value ds | None => dport end) tls.
Proof.
  intros Hs Hh Hl Hd Hp Hlp. rewrite (parse_url_runs sc dport tls) by done. cbv zeta. rewrite (proj2 (Nat.ltb_lt _ _)); [done|].
  unfold PATH_SIZE. destruct path; simpl in *; lia.
Qed.

Lemma http_parse_url_components_witness :
  http_parse_url_internal (str "https://liwus.org:8443/index.html") = Parsed (str "liwus.org") (str "/index.html") 8443 true.
Proof.
  exact (http_parse_url_components (str "https://") 443 true (str "liwus.org") (Some (str "8443")) (str "/index.html")
    scheme_https ltac:(repeat constructor) ltac:(by_compute) ltac:(repeat constructor) ltac:(reflexivity) ltac:(by_compute)).
Defined.

(** A host of 128 bytes or more: the loop over the host never ends. *)
Theorem http_long_host_hangs sc dport tls host rest :
  scheme sc dport tls -> host_ok host -> (128 <= length host)%nat -> http_parse_url_internal (sc ++ host ++ rest) = Hang.
Proof.
  intros Hs Hh Hl. unfold http_parse_url_internal. rewrite (after_scheme_runs _ _ _ _ Hs). by rewrite host_loop_hangs by (done || simpl; lia).
Qed.

(** A path of 256 bytes or more overruns [path]; [http_get_url] keeps URLs of
    up to 319 bytes. *)
Theorem http_long_path_overflows sc dport tls host path :
  scheme sc dport tls -> host_ok host -> (length host <= 127)%nat -> path_ok path -> (256 <= length path)%nat ->
  http_parse_url_internal (sc ++ host ++ path) = Overflow.
Proof.
  intros Hs Hh Hl Hp Hlp. change path with (port_text None ++ path). rewrite (parse_url_runs sc dport tls) by (done || constructor). cbv zeta.
  destruct path; [simpl in Hlp; lia|]. rewrite (proj2 (Nat.ltb_ge _ _)); [done|]. unfold PATH_SIZE. lia.
Qed.

(** The request for a parsed URL always fits its array. *)
Theorem http_request_fits url host path port tls :
  http_parse_url_internal url = Parsed host path port tls -> (length (http_request host path) < REQUEST_SIZE)%nat.
Proof.
  unfold http_parse_url_internal. destruct (after_scheme url) as [[rest dp] t]. destruct (host_loop [] rest) as [[h ptr]|] eqn:Eh; [|done].
  assert (Hh : (length h <= 127)%nat).
  { assert (G : forall p acc h' q, (length acc <= 127)%nat -> host_loop acc p = Some (h', q) -> (length h' <= 127)%nat).
    { induction p as [|c p IH]; intros acc h' q Ha; cbn [host_loop]; [by intros [= <- _]|]. destruct (host_end c); [by intros [= <- _]|].
      destruct (Nat.ltb_spec (length acc) (HOST_SIZE - 1)) as [Hlt|]; [|done]. apply IH. rewrite length_app. unfold HOST_SIZE in Hlt. simpl. lia. }
    by apply (G rest [] h ptr); [simpl; lia|]. }
  destruct (match ptr with ch :: ptr' => _ | [] => _ end) as [pt q]. cbv zeta.
  destruct (Nat.ltb_spec (length (match q with ch :: _ => if ch =? SLASH then q else [SLASH] | [] => [SLASH] end)) PATH_SIZE) as [Hp|]; [|done].
  intros [= <- <- _ _]. unfold http_request, REQUEST_SIZE, PATH_SIZE in *. rewrite !length_app. cbn [length str CRLF]. lia.
Qed.

(** ** Headers: lemmas *)

Definition no_cr (l : list Z) : Prop := Forall (fun c => c <> CR) l.

Lemma strstr_crlf l rest : no_cr l -> strstr (l ++ CRLF ++ rest) CRLF = Some (length l).
Proof.
  induction 1 as [|c l Hc _ IH]; [by apply strstr_prefix|]. cbn [app strstr length]. unfold starts.
  rewrite bool_decide_false by (cbn; by intros [= E _]). by rewrite IH.
Qed.

Lemma find_char_at ch l rest : Forall (fun c => c <> ch) l -> find_char ch (l ++ ch :: rest) = Some (length l).
Proof.
  induction 1 as [|c l Hc _ IH]; cbn [app find_char]; [by rewrite Z.eqb_refl|]. rewrite (proj2 (Z.eqb_neq _ _) Hc). by rewrite IH.
Qed.

Definition header := (list Z * list Z)%type.

(** [Name: value] *)
Definition header_line (h : header) : list Z := h.1 ++ COLON :: 32 :: h.2 ++ CRLF.
Definition header_ok (h : header) : Prop :=
  h.1 <> [] /\ Forall (fun c => c <> CR /\ c <> COLON) h.1
  /\ Forall (fun c => c <> CR /\ c <> LF) h.2 /\ match h.2 with c :: _ => is_blank c = false | [] => True end.

Definition http_response (status : list Z) (hs : list header) (body : list Z) : list Z :=
  status ++ CRLF ++ concat (map header_line hs) ++ CRLF ++ body.

(** The name of a header begins with the key. *)
Definition key_matches (key : list Z) (h : header) : bool :=
  ((length key <=? length h.1)%nat && bool_decide (map lower (take (length key) h.1) = key))%bool.

Lemma header_text_value h rest outsz : header_ok h -> header_text (32 :: h.2 ++ CRLF ++ rest) outsz = take (outsz - 1) h.2.
Proof.
  intros (_ & _ & Hv & Hb). unfold header_text. cbn [skip_blanks]. change (is_blank 32) with true. cbv iota.
  assert (Es : skip_blanks (h.2 ++ CRLF ++ rest) = h.2 ++ CRLF ++ rest) by (destruct h.2 as [|c v]; [done|cbn [app skip_blanks]; by rewrite Hb]).
  rewrite Es, take_while_prefix; [done| |done]. eapply Forall_impl; [exact Hv|]. intros c [H1 H2]. cbn.
  by rewrite (proj2 (Z.eqb_neq _ _) H1), (proj2 (Z.eqb_neq _ _) H2).
Qed.

Lemma line_value_spec h rest key outsz : header_ok h ->
  line_value (header_line h ++ rest) (length h.1 + S (S (length h.2))) key outsz
  = if key_matches key h then Some (take (outsz - 1) h.2) else None.
Proof.
  intros Hok. pose proof Hok as (_ & Hn & _ & _). unfold line_value, header_line.
  rewrite <- (assoc_L (++)). cbn [app]. rewrite <- (assoc_L (++)).
  rewrite take_app_ge by lia. replace (length h.1 + S (S (length h.2)) - length h.1)%nat with (S (S (length h.2))) by lia. cbn [take].
  rewrite find_char_at by (eapply Forall_impl; [exact Hn|]; by intros c [_ ?]). unfold key_matches.
  destruct (Nat.leb_spec (length key) (length h.1)) as [Hk|]; [|done]. cbn [andb]. rewrite take_app_le by done.
  destruct (bool_decide _); [|done]. f_equal. rewrite <- (header_text_value h rest outsz Hok). f_equal.
  replace (S (length h.1)) with (length (h.1 ++ [COLON])) by (rewrite length_app; simpl; lia).
  replace (h.1 ++ COLON :: 32 :: h.2 ++ CRLF ++ rest) with ((h.1 ++ [COLON]) ++ 32 :: h.2 ++ CRLF ++ rest) by (by rewrite <- (assoc_L (++))).
  apply drop_app_length.
Qed.

Lemma header_lines_spec key outsz body : forall hs n, Forall header_ok hs -> (length hs < n)%nat ->
  header_lines n (concat (map header_line hs) ++ CRLF ++ body) key outsz
  = match List.find (key_matches key) hs with Some h => Some (take (outsz - 1) h.2) | None => None end.
Proof.
  induction hs as [|h hs IH]; intros n Hok Hn; (destruct n as [|n]; [simpl in Hn; lia|]).
  - reflexivity.
  - apply Forall_cons in Hok as [Hh Hok]. pose proof Hh as (Hne & Hn1 & Hv & _). cbn [map concat List.find].
    rewrite <- (assoc_L (++)). set (rest := concat (map header_line hs) ++ CRLF ++ body) in *.
    assert (Hc : exists c l, h.1 = c :: l /\ c <> CR) by (destruct h.1 as [|c l]; [done|]; exists c, l; apply Forall_cons in Hn1 as [[? _] _]; done).
    destruct Hc as (c & l & Ec & Hc).
    assert (E0 : exists l', header_line h ++ rest = c :: l') by (unfold header_line; rewrite Ec; by eexists). destruct E0 as (l' & E0).
    assert (Es : strstr (header_line h ++ rest) CRLF = Some (length h.1 + S (S (length h.2)))%nat).
    { replace (header_line h ++ rest) with ((h.1 ++ COLON :: 32 :: h.2) ++ CRLF ++ rest) by (unfold header_line; rewrite <- !(assoc_L (++)); cbn [app]; by rewrite <- !(assoc_L (++))).
      rewrite strstr_crlf; [by rewrite length_app|]. apply Forall_app; split; [eapply Forall_impl; [exact Hn1|]; by intros x [? _]|].
      constructor; [done|]. constructor; [done|]. eapply Forall_impl; [exact Hv|]. by intros x [? _]. }
    cbn [header_lines]. rewrite E0. rewrite (proj2 (Z.eqb_neq _ _) Hc), <- E0, Es, (line_value_spec h rest key outsz Hh).
    destruct (key_matches key h); [done|]. replace (drop _ (header_line h ++ rest)) with rest; [apply IH; [done|simpl in Hn; lia]|].
    symmetry. apply drop_app_length'. unfold header_line. rewrite length_app. cbn [length]. rewrite length_app. cbn. lia.
Qed.

Lemma length_lines hs : (length hs <= length (concat (map header_line hs)))%nat.
Proof. induction hs as [|h hs IH]; [done|]. cbn [map concat]. unfold header_line at 1. rewrite !length_app. cbn [length]. lia. Qed.

(** [http_header_value] returns the value of the first header whose name begins
    with the key, whatever its case, cut to the array. *)
Theorem http_header_value_spec status hs body key outsz :
  no_cr status -> Forall header_ok hs ->
  http_header_value (http_response status hs body) key outsz =
  match List.find (key_matches key) hs with Some h => Some (take (outsz - 1) h.2) | None => None end.
Proof.
  intros Hs Hok. unfold http_header_value, http_response. rewrite strstr_crlf by done.
  replace (drop (length status + 2) _) with (concat (map header_line hs) ++ CRLF ++ body).
  - apply header_lines_spec; [done|]. pose proof (length_lines hs). rewrite !length_app. cbn. lia.
  - rewrite (assoc_L (++) status). symmetry. apply drop_app_length'. by rewrite length_app.
Qed.

(** Only a prefix of the name is compared: the key [location] finds the header
    [Location-Hint]. *)
Example http_header_prefix_matches :
  http_header_value (http_response (str "HTTP/1.1 302 Found") [(str "Location-Hint", str "x"); (str "Location", str "y")] []) (str "location") 300
  = Some (str "x").
Proof. reflexivity. Qed.

(** ** Redirects: lemmas *)

Definition no_slash (l : list Z) : Prop := Forall (fun c => c <> SLASH) l.

Lemma last_slash_none l i found : no_slash l -> last_slash l i found = found.
Proof. intros H. revert i found. induction H as [|c l Hc _ IH]; intros i found; cbn [last_slash]; [done|]. by rewrite (proj2 (Z.eqb_neq _ _) Hc). Qed.

Lemma last_slash_at l file i found : no_slash file -> last_slash (l ++ SLASH :: file) i found = Some (i + length l)%nat.
Proof.
  intros Hf. revert i found. induction l as [|c l IH]; intros i found; cbn [app last_slash].
  - rewrite Z.eqb_refl, last_slash_none by done. by rewrite Nat.add_0_r.
  - rewrite IH. f_equal. simpl. lia.
Qed.

Lemma until_scheme tls rest : until_slash ((if tls : bool then str "https:" else str "http:") ++ SLASH :: rest) = if tls then str "https:" else str "http:".
Proof. by destruct tls. Qed.

Definition scheme_name (tls : bool) : list Z := if tls then str "https:" else str "http:".

(** A location relative to the directory of the page is resolved there: the
    last part of the base is replaced. *)
Theorem http_relative_redirect tls host dirs file loc outsz :
  no_slash file -> is_absolute loc = false -> starts loc [35] = false -> starts loc [SLASH] = false ->
  (length host + length dirs + 3 <= 255)%nat -> (length (scheme_name tls ++ [SLASH; SLASH] ++ host ++ dirs ++ SLASH :: loc) < outsz)%nat ->
  http_resolve_url (scheme_name tls ++ [SLASH; SLASH] ++ host ++ dirs ++ SLASH :: file) loc outsz
  = To (scheme_name tls ++ [SLASH; SLASH] ++ host ++ dirs ++ SLASH :: loc).
Proof.
  intros Hf Ha H35 Hsl Hdir Hout. unfold http_resolve_url. rewrite Ha, H35.
  assert (Hss : starts loc [SLASH; SLASH] = false).
  { unfold starts in *. apply bool_decide_eq_false in Hsl. apply bool_decide_eq_false. intros E. apply Hsl. destruct loc; [done|]. cbn in *. by injection E as -> _. }
  rewrite Hss, Hsl. change ([SLASH; SLASH] ++ ?x) with (SLASH :: SLASH :: x). unfold scheme_name. rewrite until_scheme.
  set (sc := if tls then str "https:" else str "http:") in *. set (d := SLASH :: SLASH :: host ++ dirs).
  assert (Hsc : (length sc <= 6)%nat) by (by destruct tls; cbn; lia).
  unfold scheme_name in Hout. fold sc in Hout. rewrite !length_app in Hout. cbn [length app] in Hout.
  rewrite (take_ge sc) by lia. rewrite drop_app_length.
  assert (Ed : dir_of (SLASH :: SLASH :: host ++ dirs ++ SLASH :: file) = d ++ [SLASH]).
  { unfold dir_of. replace (SLASH :: SLASH :: host ++ dirs ++ SLASH :: file) with (d ++ SLASH :: file) by (unfold d; cbn [app]; by rewrite <- (assoc_L (++))).
    rewrite last_slash_at by done. unfold d at 1. cbn [length Nat.add].
    replace (d ++ SLASH :: file) with ((d ++ [SLASH]) ++ file) by (by rewrite <- (assoc_L (++))).
    rewrite take_app_length' by (unfold d; rewrite !length_app; cbn [length]; rewrite !length_app; lia).
    apply take_ge. rewrite length_app. unfold d, DIR_SIZE. cbn [length]. rewrite length_app. lia. }
  rewrite Ed. rewrite (proj2 (Nat.leb_gt _ _)).
  - unfold d. cbn [app]. by rewrite <- !(assoc_L (++)).
  - rewrite length_app. unfold d. cbn [length]. rewrite length_app. lia.
Qed.

(** The comment says the prefix is scheme and host; it ends at the first slash,
    behind the scheme.  A redirect to an absolute path goes to the host [http],
    port 0. *)
Theorem http_path_redirect_loses_host host path p outsz :
  no_slash (take 1 p) -> (length p + 7 < outsz)%nat -> (length p <= 254)%nat ->
  http_resolve_url (str "http://" ++ host ++ path) (SLASH :: p) outsz = To (str "http:" ++ SLASH :: p)
  /\ http_parse_url_internal (str "http:" ++ SLASH :: p) = Parsed (str "http") (SLASH :: p) 0 false.
Proof.
  intros Hp Ho Hl.
  assert (Hn : forall q, take 1 p = q :: [] -> q <> SLASH) by (intros q E; rewrite E in Hp; by apply Forall_cons in Hp as [? _]).
  assert (Hss : starts (SLASH :: p) [SLASH; SLASH] = false).
  { unfold starts. apply bool_decide_eq_false. destruct p as [|q p]; [done|]. cbn. intros [= E]. by apply (Hn q). }
  split.
  - unfold http_resolve_url.
    assert (Ha : is_absolute (SLASH :: p) = false) by (unfold is_absolute; cbn; by destruct (strstr p _), (strstr p _)).
    rewrite Ha. change (starts (SLASH :: p) [35]) with false. rewrite Hss. change (starts (SLASH :: p) [SLASH]) with true. cbv iota.
    change (until_slash (str "http://" ++ host ++ path)) with (str "http:"). rewrite take_ge by (cbn; lia).
    rewrite (proj2 (Nat.leb_gt _ _)); [done|]. cbn. lia.
  - unfold http_parse_url_internal.
    assert (Es : after_scheme (str "http:" ++ SLASH :: p) = (str "http:" ++ SLASH :: p, 80, false)).
    { unfold after_scheme. rewrite !bool_decide_false; [done| |].
      - by intros E%strstr_zero.
      - intros E%strstr_zero. destruct p as [|q p]; [done|]. apply (Hn q eq_refl). cbn in E. by injection E. }
    assert (Eh : host_loop [] (str "http:" ++ SLASH :: p) = Some (str "http", COLON :: SLASH :: p)) by reflexivity.
    rewrite Es, Eh. change (COLON =? COLON) with true. cbv beta iota. change (port_loop 0 (SLASH :: p)) with (0, SLASH :: p). cbv beta iota zeta.
    rewrite Z.eqb_refl, (proj2 (Nat.ltb_lt _ _)); [done|]. unfold PATH_SIZE. cbn [length]. lia.
Qed.

(** A scheme-relative location gets a second colon. *)
Example http_scheme_relative_redirect :
  http_resolve_url (str "https://liwus.org/a") (str "//cdn.liwus.org/b") 340 = To (str "https:://cdn.liwus.org/b").
Proof. reflexivity. Qed.

(** ** Receiving *)

Definition chunks (rxs : list rx) : list Z := concat (map (fun r => default [] r.2) rxs).

(** The response is a prefix of what the connection delivered, and with its
    NUL it fits the buffer of [max_len] bytes. *)
Theorem http_receive_bounded max_len start last_rx rxs response r :
  1 <= max_len < 2 ^ 32 -> Z.of_nat (length response) <= max_len - 1 -> drain max_len start last_rx response rxs = Some r ->
  Z.of_nat (length r) <= max_len - 1 /\ r `prefix_of` response ++ chunks rxs.
Proof.
  intros Hm. revert last_rx response. induction rxs as [|[now c] rxs IH]; intros last_rx response Hl; cbn [drain]; rewrite (u32_small (max_len - 1)) by lia.
  - destruct (negb _); [|done]. intros [= <-]. split; [done|]. apply prefix_app_r. done.
  - destruct (Z.ltb_spec (Z.of_nat (length response)) (max_len - 1)) as [Hlt|Hge]; cbn [negb];
      [|intros [= <-]; split; [done|]; by apply prefix_app_r].
    destruct (15000 <? _); [intros [= <-]; split; [done|]; by apply prefix_app_r|].
    destruct c as [[|b bs]|]; [| |intros [= <-]; split; [done|]; by apply prefix_app_r].
    + destruct (1500 <? _); [intros [= <-]; split; [done|]; by apply prefix_app_r|]. apply IH. done.
    + set (t := take (Z.to_nat (max_len - 1 - Z.of_nat (length response))) (b :: bs)). intros E.
      destruct (IH now (response ++ t)) as [H1 H2]; [|done|].
      { rewrite length_app. unfold t. rewrite length_take. lia. }
      split; [done|]. change (chunks ((now, Some (b :: bs)) :: rxs)) with ((b :: bs) ++ chunks rxs).
      destruct (decide (length (b :: bs) <= Z.to_nat (max_len - 1 - Z.of_nat (length response)))%nat) as [Hf|Hf].
      * unfold t in H2. rewrite take_ge in H2 by done. by rewrite <- (assoc_L (++)) in H2.
      * assert (Hr : (length r <= length (response ++ t))%nat) by (rewrite length_app; unfold t; rewrite length_take; lia).
        transitivity (response ++ t).
        { destruct H2 as [k Hk]. exists (take (length (response ++ t) - length r) k).
          rewrite <- (take_app_length (response ++ t) (chunks rxs)) at 1. rewrite Hk, take_app_ge by lia. done. }
        apply prefix_app. exists (drop (Z.to_nat (max_len - 1 - Z.of_nat (length response))) (b :: bs) ++ chunks rxs). unfold t.
        by rewrite (assoc_L (++)), take_drop.
Qed.
