(* ===== verification/Terminal.v ===== *)
(** * Command lines ([src/src/kernel/terminal/terminal.c], [parser.c],
    [dispatcher.c], [text_shell.c])

    Typing a line, splitting it into arguments and choosing the command.  The
    parsers overwrite the separators in the buffer with NUL and store pointers
    into it; the model gives the strings these pointers denote when the parser
    returns.  The commands themselves are not modelled: [terminal_execute] gives
    the index of the command in the table. *)

From Stdlib Require Import ZArith Lia String.
From stdpp Require Import base numbers list gmap.
From S2P Require Import Prelude Bytes.

#[local] Open Scope Z_scope.

Definition TERMINAL_MAX_INPUT : nat := 256.
Definition TERMINAL_MAX_ARGS : nat := 16.
Definition BLANK : Z := 32.
Definition QUOTE : Z := 34.

(** ** Typing *)

(** One character in [terminal_task]: [inl] the line so far, [inr] the line that
    is executed. *)
Definition terminal_key (line : list Z) (c : Z) : list Z + list Z :=
  if ((c =? 10) || (c =? 13))%bool then inr line
  else if ((c =? 8) && (0 <? length line)%nat)%bool then inl (take (length line - 1) line)
  else if ((32 <=? c) && (c <? 127) && (length line <? TERMINAL_MAX_INPUT - 1)%nat)%bool then inl (line ++ [c])
  else inl line.

(** The lines that the keys complete, the last one unfinished. *)
Fixpoint terminal_keys (line : list Z) (keys : list Z) : list (list Z) * list Z :=
  match keys with
  | [] => ([], line)
  | c :: keys' =>
      match terminal_key line c with
      | inl line' => terminal_keys line' keys'
      | inr done_ => let '(ls, rest) := terminal_keys [] keys' in (done_ :: ls, rest)
      end
  end.

(** ** [terminal_parse_line] *)

Fixpoint skip_blanks (p : list Z) : list Z :=
  match p with c :: p' => if c =? BLANK then skip_blanks p' else p | [] => [] end.

(** The end of an argument: the argument, the rest behind it, and [in_quotes]. *)
Fixpoint scan_arg (p : list Z) (in_quotes : bool) : list Z * list Z * bool :=
  match p with
  | [] => ([], [], in_quotes)
  | c :: p' =>
      if c =? QUOTE then ([], p', negb in_quotes)
      else if ((c =? BLANK) && negb in_quotes)%bool then ([], p', in_quotes)
      else let '(arg, rest, q) := scan_arg p' in_quotes in (c :: arg, rest, q)
  end.

(** [n] arguments may still be stored. *)
Fixpoint parse_args (n : nat) (p : list Z) (in_quotes : bool) : list (list Z) :=
  match n with
  | O => []
  | S n' =>
      match (if in_quotes then p else skip_blanks p) with
      | [] => []
      | c :: p' =>
          if c =? QUOTE then
            match p' with
            | [] => []
            | _ => let '(arg, rest, q) := scan_arg p' (negb in_quotes) in arg :: parse_args n' rest q
            end
          else let '(arg, rest, q) := scan_arg (c :: p') in_quotes in arg :: parse_args n' rest q
      end
  end.

Definition terminal_parse_line (line : list Z) : list (list Z) := parse_args (TERMINAL_MAX_ARGS - 1) line false.

(** ** [terminal_execute] *)

Definition commands : list (list Z) :=
  map str ["help"; "clear"; "echo"; "sed"; "ls"; "cd"; "pwd"; "cat"; "mkdir"; "touch"; "rm"; "mv"; "cp"; "reboot"; "shutdown"; "version";
           "meminfo"; "ps"; "diskinfo"; "ip"; "ping"; "scan"; "wget"; "host"; "httpd"; "tcc"; "run"; "kblayout"; "msense"; "/lde"; "lde"]%string.

Fixpoint find_command (cmds : list (list Z)) (name : list Z) (i : nat) : option nat :=
  match cmds with
  | [] => None
  | c :: cmds' => if bool_decide (name = c) then Some i else find_command cmds' name (S i)
  end.

(** [None]: nothing to do; [Some None]: the command is not found. *)
Definition terminal_execute (argv : list (list Z)) : option (option nat) :=
  match argv with [] => None | name :: _ => Some (find_command commands name 0) end.

(** A line of [terminal_task]. *)
Definition terminal_line (line : list Z) : option (option nat * list (list Z)) :=
  if (length line =? 0)%nat then None else
  let argv := terminal_parse_line line in
  match terminal_execute argv with None => None | Some r => Some (r, argv) end.

(** ** The text shell *)

Definition MAX_CMD_LEN : nat := 256.
Definition MAX_ARGS : nat := 16.

(** One character in [text_shell]. *)
Definition shell_key (line : list Z) (c : Z) : list Z + list Z :=
  if ((c =? 10) || (c =? 13))%bool then inr line
  else if ((c =? 8) || (c =? 127))%bool then inl (take (length line - 1) line)
  else if (length line <? MAX_CMD_LEN - 1)%nat then inl (line ++ [c])
  else inl line.

Fixpoint word (token : list Z) : list Z * list Z :=
  match token with
  | [] => ([], [])
  | c :: t => if c =? BLANK then ([], t) else let '(w, rest) := word t in (c :: w, rest)
  end.

Fixpoint shell_args (n : nat) (token : list Z) : list (list Z) :=
  match n with
  | O => []
  | S n' => match skip_blanks token with
            | [] => []
            | t => let '(w, rest) := word t in w :: shell_args n' rest
            end
  end.

(** The arguments of [shell_execute]; [None] when the NULL behind them is stored
    outside of [argv]. *)
Definition shell_argv (cmd : list Z) : option (list (list Z)) :=
  let argv := shell_args MAX_ARGS cmd in
  if (length argv <? MAX_ARGS)%nat then Some argv else None.

(** ** Typing: lemmas *)

Definition printable (c : Z) : Prop := 32 <= c < 127.

(** In every sequence of keys the line fits its buffer with its NUL and holds
    printable characters only. *)
Theorem terminal_line_fits keys line :
  (length line <= 255)%nat -> Forall printable line ->
  let '(ls, rest) := terminal_keys line keys in
  Forall (fun l => (length l <= 255)%nat /\ Forall printable l) (rest :: ls).
Proof.
  revert line. induction keys as [|c keys IH]; intros line Hl Hp; cbn [terminal_keys]; [by constructor|].
  unfold terminal_key. destruct (_ || _)%bool.
  - specialize (IH [] ltac:(simpl; lia) ltac:(constructor)). destruct (terminal_keys [] keys) as [ls rest].
    apply Forall_cons in IH as [H1 H2]. constructor; [done|]. constructor; [done|done].
  - destruct (_ && _)%bool; [|destruct (_ && _)%bool eqn:E].
    + apply IH; [rewrite length_take; lia|by apply Forall_take].
    + apply andb_true_iff in E as [E El]. apply Nat.ltb_lt in El. zbool. unfold TERMINAL_MAX_INPUT in El.
      apply IH; [rewrite length_app; simpl; lia|]. apply Forall_app; split; [done|]. by constructor.
    + by apply IH.
Qed.

Lemma type_line l : Forall printable l -> forall line keys, (length line + length l <= 255)%nat ->
  terminal_keys line (l ++ 10 :: keys) = (let '(ls, rest) := terminal_keys [] keys in ((line ++ l) :: ls, rest)).
Proof.
  induction 1 as [|c l Hc _ IH]; intros line keys Hl; cbn [app terminal_keys].
  - unfold terminal_key. cbn. by rewrite app_nil_r.
  - unfold printable in Hc. cbn [length] in Hl. unfold terminal_key.
    rewrite (proj2 (Z.eqb_neq c 10)), (proj2 (Z.eqb_neq c 13)), (proj2 (Z.eqb_neq c 8)) by lia. cbn [orb andb].
    rewrite (proj2 (Z.leb_le 32 c)), (proj2 (Z.ltb_lt c 127)), (proj2 (Nat.ltb_lt _ _)) by (unfold TERMINAL_MAX_INPUT; lia). cbn [andb].
    rewrite IH by (rewrite length_app; simpl; lia). by rewrite <- (assoc_L (++)).
Qed.

(** ** Splitting: lemmas *)

Definition no_quote (a : list Z) : Prop := Forall (fun c => c <> QUOTE) a.

Lemma scan_quoted a rest : no_quote a -> scan_arg (a ++ QUOTE :: rest) true = (a, rest, false).
Proof.
  induction 1 as [|c a Hc _ IH]; cbn [app scan_arg]; [by rewrite Z.eqb_refl|]. rewrite (proj2 (Z.eqb_neq _ _) Hc), andb_false_r. by rewrite IH.
Qed.

Definition plain (a : list Z) : Prop := a <> [] /\ Forall (fun c => c <> QUOTE /\ c <> BLANK) a.

Lemma scan_plain a rest : Forall (fun c => c <> QUOTE /\ c <> BLANK) a -> scan_arg (a ++ BLANK :: rest) false = (a, rest, false).
Proof.
  induction 1 as [|c a [H1 H2] _ IH]; cbn [app scan_arg]; [done|].
  rewrite (proj2 (Z.eqb_neq _ _) H1), (proj2 (Z.eqb_neq _ _) H2). by rewrite IH.
Qed.

Lemma scan_end a : Forall (fun c => c <> QUOTE /\ c <> BLANK) a -> scan_arg a false = (a, [], false).
Proof.
  induction 1 as [|c a [H1 H2] _ IH]; cbn [scan_arg]; [done|]. rewrite (proj2 (Z.eqb_neq _ _) H1), (proj2 (Z.eqb_neq _ _) H2). by rewrite IH.
Qed.

(** An argument on the line: bare, or between quotes. *)
Inductive written : list Z -> list Z -> Prop :=
| written_plain a : plain a -> written a a
| written_quoted a : no_quote a -> written a (QUOTE :: a ++ [QUOTE]).

Definition blanks (l : list Z) : Prop := Forall (fun c => c = BLANK) l.

Lemma skip_blanks_app l p : blanks l -> skip_blanks (l ++ p) = skip_blanks p.
Proof. by induction 1 as [|c l -> _ IH]. Qed.

Lemma skip_blanks_written a w p : written a w -> skip_blanks (w ++ p) = w ++ p.
Proof.
  intros [b [Hne Hf]|b _]; [|done]. destruct b as [|c b]; [done|]. apply Forall_cons in Hf as [[_ Hc] _]. cbn [app skip_blanks].
  by rewrite (proj2 (Z.eqb_neq _ _) Hc).
Qed.

(** A line: arguments as written with at least one blank between them, and
    blanks in front and behind. *)
Inductive line_of : list (list Z) -> list Z -> Prop :=
| line_nil l : blanks l -> line_of [] l
| line_last l a w : blanks l -> written a w -> line_of [a] (l ++ w)
| line_cons l a w args p : blanks l -> written a w -> line_of args p -> line_of (a :: args) (l ++ w ++ BLANK :: p).

Lemma parse_args_line args p : line_of args p -> forall n, (length args <= n)%nat -> parse_args n p false = args.
Proof.
  induction 1 as [l Hl|l a w Hl Hw|l a w args p Hl Hw Hp IH]; intros n Hn.
  - destruct n; [done|]. cbn [parse_args]. rewrite <- (app_nil_r l), skip_blanks_app by done. done.
  - destruct n as [|n]; [simpl in Hn; lia|]. cbn [parse_args]. rewrite <- (app_nil_r w), skip_blanks_app, (skip_blanks_written a w), app_nil_r by done.
    destruct Hw as [a [Hne Hf]|a Hq].
    + destruct a as [|c a]; [done|]. pose proof Hf as Hf'. apply Forall_cons in Hf' as [[H1 _] _].
      rewrite (proj2 (Z.eqb_neq _ _) H1), scan_end by done. by destruct n.
    + rewrite Z.eqb_refl. destruct (a ++ [QUOTE]) as [|c r] eqn:E; [by destruct a|]. rewrite <- E. cbn [negb]. rewrite scan_quoted by done. by destruct n.
  - destruct n as [|n]; [simpl in Hn; lia|]. cbn [length] in Hn. cbn [parse_args]. rewrite skip_blanks_app, (skip_blanks_written a w) by done.
    destruct Hw as [a [Hne Hf]|a Hq].
    + destruct a as [|c a]; [done|]. cbn [app]. pose proof Hf as Hf'. apply Forall_cons in Hf' as [[H1 _] _].
      rewrite (proj2 (Z.eqb_neq _ _) H1). change (c :: a ++ BLANK :: p) with ((c :: a) ++ BLANK :: p). rewrite scan_plain by done.
      by rewrite IH by lia.
    + cbn [app]. rewrite Z.eqb_refl. rewrite <- (assoc_L (++)). change ([QUOTE] ++ BLANK :: p) with (QUOTE :: BLANK :: p).
      assert (E : exists c r, a ++ QUOTE :: BLANK :: p = c :: r) by (destruct a; by eexists _, _). destruct E as (c & r & E). rewrite E. cbv beta iota.
      rewrite <- E. cbn [negb]. rewrite scan_quoted by done. f_equal. destruct n as [|n]; [by destruct args; [|simpl in Hn; lia]|].
      change (parse_args (S n) (BLANK :: p) false) with (parse_args (S n) p false). apply IH. lia.
Qed.

(** A command line of at most fifteen arguments, typed at the terminal and
    ended with Enter, is split into exactly these arguments: bare words are
    separated by any number of blanks, and an argument between quotes may hold
    blanks or be empty. *)
Theorem terminal_parses_typed_line args line keys :
  line_of args line -> (length args <= 15)%nat -> Forall printable line -> (length line <= 255)%nat ->
  exists ls rest, terminal_keys [] (line ++ 10 :: keys) = (line :: ls, rest) /\ terminal_parse_line line = args.
Proof.
  intros Hl Ha Hp Hlen. rewrite (type_line line Hp []) by (simpl; lia). destruct (terminal_keys [] keys) as [ls rest].
  exists ls, rest. split; [done|]. by apply parse_args_line.
Qed.

Definition sed_line : list Z := str "sed " ++ (QUOTE :: str "a text" ++ [QUOTE]) ++ str "  > f".

Lemma terminal_parses_typed_line_witness :
  exists ls rest, terminal_keys [] (sed_line ++ [10]) = (sed_line :: ls, rest)
    /\ terminal_parse_line sed_line = [str "sed"; str "a text"; str ">"; str "f"].
Proof.
  apply (terminal_parses_typed_line [str "sed"; str "a text"; str ">"; str "f"] sed_line []).
  - refine (line_cons [] (str "sed") (str "sed") _ _ _ _ _); [constructor|constructor; by_compute|].
    refine (line_cons [] (str "a text") (QUOTE :: str "a text" ++ [QUOTE]) _ _ _ _ _); [constructor|constructor; by_compute|].
    refine (line_cons [BLANK] (str ">") (str ">") _ _ _ _ _); [by_compute|constructor; by_compute|].
    refine (line_last [] (str "f") (str "f") _ _); [constructor|constructor; by_compute].
  - by_compute.
  - by_compute.
  - by_compute.
Defined.

(** The table is searched from the front. *)
Example terminal_runs_sed : terminal_line sed_line = Some (Some 3%nat, [str "sed"; str "a text"; str ">"; str "f"]).
Proof. reflexivity. Qed.

(** Sixteen words in the text shell: all entries of [argv] are used, and the
    NULL behind the last one is stored outside of the array. *)
Theorem shell_sixteen_words_overflow (ws : list (list Z)) rest :
  length ws = MAX_ARGS -> Forall (fun w => w <> [] /\ Forall (fun c => c <> BLANK) w) ws ->
  shell_argv (concat (map (fun w => w ++ [BLANK]) ws) ++ rest) = None.
Proof.
  intros Hl Hw. assert (E : forall n ws, length ws = n -> Forall (fun w => w <> [] /\ Forall (fun c => c <> BLANK) w) ws ->
    shell_args n (concat (map (fun w => w ++ [BLANK]) ws) ++ rest) = ws).
  { clear. induction n as [|n IH]; intros ws Hl Hw; [by destruct ws|]. destruct ws as [|w ws]; [done|]. apply Forall_cons in Hw as [[Hne Hc] Hw].
    cbn [map concat]. rewrite <- !(assoc_L (++)). destruct w as [|c w]; [done|]. cbn [app shell_args skip_blanks].
    rewrite (proj2 (Z.eqb_neq c BLANK)) by (by apply Forall_cons in Hc as [? _]).
    assert (Ew : forall x r, Forall (fun c => c <> BLANK) x -> word (x ++ BLANK :: r) = (x, r)).
    { clear. induction 1 as [|d x Hd _ IHx]; cbn [app word]; [done|]. by rewrite (proj2 (Z.eqb_neq _ _) Hd), IHx. }
    match goal with |- context [word (c :: w ++ BLANK :: ?r)] => change (c :: w ++ BLANK :: r) with ((c :: w) ++ BLANK :: r); rewrite (Ew (c :: w) r) by done end. f_equal. apply IH; [by injection Hl|done]. }
  unfold shell_argv. rewrite (E MAX_ARGS ws Hl Hw), Hl. done.
Qed.
