(* ===== verification/NetIf.v ===== *)
(** * The list of network interfaces ([src/src/net/net.c], [src/include/net.h])

    Interfaces are records linked through [next]; the state is the head of the
    list and the [next] field of every record by address, 0 for NULL. *)

From Stdlib Require Import ZArith Lia.
From stdpp Require Import base numbers list gmap.
From S2P Require Import Prelude.

#[local] Open Scope Z_scope.

Record netifs := { interfaces : Z; if_next : gmap Z Z }.

Definition net_init (s : netifs) : netifs := {| interfaces := 0; if_next := if_next s |}.

Definition next_of (s : netifs) (p : Z) : Z := default 0 (if_next s !! p).

(** [while (curr->next != NULL) curr = curr->next;]: [None] when it still runs
    after [n] steps. *)
Fixpoint last_interface (s : netifs) (n : nat) (curr : Z) : option Z :=
  if next_of s curr =? 0 then Some curr else
  match n with O => None | S n' => last_interface s n' (next_of s curr) end.

Definition net_register_interface (fuel : nat) (netif : Z) (s : netifs) : option netifs :=
  if interfaces s =? 0 then Some {| interfaces := netif; if_next := if_next s |} else
  match last_interface s fuel (interfaces s) with
  | None => None
  | Some curr => Some {| interfaces := interfaces s; if_next := <[curr := netif]> (if_next s) |}
  end.

Definition net_get_list (s : netifs) : Z := interfaces s.

(** The list from [p] on is [l]. *)
Inductive linked (s : netifs) : Z -> list Z -> Prop :=
| linked_nil : linked s 0 []
| linked_cons p l : p <> 0 -> linked s (next_of s p) l -> linked s p (p :: l).

Lemma linked_last s p l : linked s p l -> p <> 0 -> forall n, (length l <= S n)%nat ->
  exists q, last_interface s n p = Some q /\ last l = Some q /\ next_of s q = 0.
Proof.
  induction 1 as [|p l Hp Hl IH]; intros Hne n Hn; [done|]. cbn [length] in Hn. destruct n as [|n]; cbn [last_interface]; destruct (Z.eqb_spec (next_of s p) 0) as [E|E].
  - rewrite E in Hl. inversion Hl; subst; [|done]. by exists p.
  - destruct l; [by inversion Hl; subst|simpl in Hn; lia].
  - rewrite E in Hl. inversion Hl; subst; [|done]. by exists p.
  - destruct (IH E n ltac:(lia)) as (q & E1 & E2 & E3). exists q. split; [done|]. split; [|done]. by destruct l.
Qed.

Lemma linked_append s p l q n h : linked s p l -> last l = Some q -> NoDup (l ++ [n]) -> n <> 0 -> next_of s n = 0 ->
  linked {| interfaces := h; if_next := <[q := n]> (if_next s) |} p (l ++ [n]).
Proof.
  intros Hl. induction Hl as [|p l Hp Hl IH]; [done|]. intros Hq Hnd Hn Hnn. cbn [app] in *. apply NoDup_cons in Hnd as [Hnin Hnd].
  constructor; [done|]. unfold next_of. cbn [if_next]. destruct l as [|p' l].
  - injection Hq as <-. rewrite lookup_insert_eq. cbn [default app]. constructor; [done|]. unfold next_of. cbn [if_next].
    rewrite lookup_insert_ne by (intros ->; apply Hnin; cbn; left). unfold next_of in Hnn. rewrite Hnn. constructor.
  - assert (Hpq : q <> p).
    { intros ->. apply Hnin. apply elem_of_app. left. by apply last_Some_elem_of. }
    rewrite lookup_insert_ne by done. apply IH; [exact Hq|done|done|done].
Qed.

(** A new interface, with its [next] NULL, is appended to the list; the steps of
    the walk are at most the length of the list. *)
Theorem net_register_appends s l n fuel :
  linked s (net_get_list s) l -> NoDup (l ++ [n]) -> n <> 0 -> next_of s n = 0 -> (length l <= fuel)%nat ->
  exists s', net_register_interface fuel n s = Some s' /\ linked s' (net_get_list s') (l ++ [n]).
Proof.
  unfold net_get_list, net_register_interface. intros Hl Hnd Hn Hnn Hf. destruct (Z.eqb_spec (interfaces s) 0) as [E|E].
  - rewrite E in Hl. inversion Hl; subst; [|done]. eexists. split; [reflexivity|]. cbn. constructor; [done|].
    unfold next_of in *. cbn. rewrite Hnn. constructor.
  - destruct (linked_last s _ l Hl E fuel ltac:(lia)) as (q & -> & Hq & _). eexists. split; [reflexivity|]. cbn [interfaces]. by apply linked_append.
Qed.

(** Registering the last interface again links it to itself: the next
    registration never ends. *)
Theorem net_register_twice_loops s n m fuel f :
  interfaces s = 0 -> n <> 0 -> next_of s n = 0 ->
  exists s1 s2, net_register_interface fuel n s = Some s1 /\ net_register_interface fuel n s1 = Some s2 /\ net_register_interface f m s2 = None.
Proof.
  intros H0 Hn Hnn. unfold net_register_interface at 1. rewrite H0. eexists.
  set (s1 := {| interfaces := n; if_next := if_next s |}). exists {| interfaces := n; if_next := <[n := n]> (if_next s) |}. split; [reflexivity|].
  assert (E1 : forall k, last_interface s1 k n = Some n) by (intros k; destruct k; cbn [last_interface]; change (next_of s1 n) with (next_of s n); by rewrite Hnn).
  split.
  - unfold net_register_interface. cbn [interfaces]. rewrite (proj2 (Z.eqb_neq _ _) Hn), E1. done.
  - unfold net_register_interface. cbn [interfaces]. rewrite (proj2 (Z.eqb_neq _ _) Hn).
    assert (E2 : forall k, last_interface {| interfaces := n; if_next := <[n := n]> (if_next s) |} k n = None).
    { induction k as [|k IH]; cbn [last_interface]; unfold next_of; cbn [if_next]; rewrite lookup_insert_eq; change (default 0 (Some n)) with n; rewrite (proj2 (Z.eqb_neq _ _) Hn); [done|exact IH]. }
    by rewrite E2.
Qed.
