(* ===== verification/Keyboard.v ===== *)
(** * The keyboard ([src/src/drivers/keyboard.c], [src/include/drivers/keyboard.h])

    The interrupt handler turns scan codes into characters and key events, each
    with a ring buffer that the readers empty.  A [char] is its byte.  The static
    variables of the file are the record [kbd]; the handler takes the byte of
    port 0x60 and the flag ISIG of [kernel_termios] as arguments. *)

From Stdlib Require Import ZArith Lia String.
From stdpp Require Import base numbers list.
From S2P Require Import Prelude Bytes.

(** ** Ring buffers

    [char_queue] (256 cells) and [event_queue] (64 cells) work the same way: the
    cell in front of the reader stays empty. *)

Record ring (A : Type) := { cells : list A; rd : Z; wr : Z }.
Arguments cells {A}. Arguments rd {A}. Arguments wr {A}. Arguments Build_ring {A}.

Definition ring_push {A} (n : Z) (x : A) (r : ring A) : ring A :=
  let next := (wr r + 1) mod n in
  if negb (next =? rd r) then {| cells := <[Z.to_nat (wr r) := x]> (cells r); rd := rd r; wr := next |} else r.

Definition ring_pop {A} (n : Z) (r : ring A) : option A * ring A :=
  if rd r =? wr r then (None, r)
  else (cells r !! Z.to_nat (rd r), {| cells := cells r; rd := (rd r + 1) mod n; wr := wr r |}).

(** ** Layouts *)

Inductive keyboard_layout_t := KB_LAYOUT_ABNT2 | KB_LAYOUT_US | KB_LAYOUT_US_INTL.
#[export] Instance keyboard_layout_eq_dec : EqDecision keyboard_layout_t.
Proof. solve_decision. Defined.

(** The values below [KB_LAYOUT_COUNT]. *)
Definition layout_of (n : Z) : option keyboard_layout_t :=
  if n =? 0 then Some KB_LAYOUT_ABNT2 else if n =? 1 then Some KB_LAYOUT_US else if n =? 2 then Some KB_LAYOUT_US_INTL else None.

(** A table of 128 entries from runs of designated initialisers; the others are 0. *)
Definition table (runs : list (Z * list Z)) : list Z :=
  foldl (fun t r => splice t (Z.to_nat r.1) r.2) (zeros 128) runs.

Definition kbd_abnt2 : list Z := table
  [(0x01, [27]); (0x02, str "1234567890-="); (0x0E, [8; 9]); (0x10, str "qwertyuiop"); (0x1A, [0xB4]); (0x1B, str "[");
   (0x1C, [10]); (0x1E, str "asdfghjkl/~'"); (0x2B, str "]zxcvbnm,./"); (0x39, str " "); (0x56, str "\"); (0x73, str "/")].

Definition kbd_abnt2_shift : list Z := table
  [(0x01, [27]); (0x02, str "!@#$%"); (0x07, [0xA8]); (0x08, str "&*()_+"); (0x0E, [8; 9]); (0x10, str "QWERTYUIOP`{");
   (0x1C, [10]); (0x1E, str "ASDFGHJKL?^"); (0x29, [34]); (0x2B, str "}ZXCVBNM<>?"); (0x39, str " "); (0x56, str "|"); (0x73, str "?")].

Definition kbd_us : list Z := table
  [(0x01, [27]); (0x02, str "1234567890-="); (0x0E, [8; 9]); (0x10, str "qwertyuiop[]");
   (0x1C, [10]); (0x1E, str "asdfghjkl;'`"); (0x2B, str "\zxcvbnm,./"); (0x39, str " "); (0x56, str "|"); (0x73, str "/")].

Definition kbd_us_shift : list Z := table
  [(0x01, [27]); (0x02, str "!@#$%^&*()_+"); (0x0E, [8; 9]); (0x10, str "QWERTYUIOP{}");
   (0x1C, [10]); (0x1E, str "ASDFGHJKL:"); (0x28, [34]); (0x29, str "~"); (0x2B, str "|ZXCVBNM<>?"); (0x39, str " "); (0x56, str "|"); (0x73, str "?")].

Definition kbd_us_intl : list Z := table
  [(0x01, [27]); (0x02, str "1234567890-="); (0x0E, [8; 9]); (0x10, str "qwertyuiop[]");
   (0x1C, [10]); (0x1E, str "asdfghjkl;'`"); (0x2B, str "\zxcvbnm,./"); (0x39, str " "); (0x56, str "|"); (0x73, str "/")].

Definition kbd_us_intl_shift : list Z := table
  [(0x01, [27]); (0x02, str "!@#$%^&*()_+"); (0x0E, [8; 9]); (0x10, str "QWERTYUIOP{}");
   (0x1C, [10]); (0x1E, str "ASDFGHJKL:"); (0x28, [34]); (0x29, str "~"); (0x2B, str "|ZXCVBNM<>?"); (0x39, str " "); (0x56, str "|"); (0x73, str "?")].

Definition kbd_us_intl_altgr : list Z := table
  [(0x12, [0xE9]); (0x16, [0xFA; 0xED; 0xF3]); (0x1E, [0xE1]); (0x30, [0xE7; 0xF1])].

Definition get_base_table (l : keyboard_layout_t) : list Z :=
  match l with KB_LAYOUT_US => kbd_us | KB_LAYOUT_US_INTL => kbd_us_intl | KB_LAYOUT_ABNT2 => kbd_abnt2 end.
Definition get_shift_table (l : keyboard_layout_t) : list Z :=
  match l with KB_LAYOUT_US => kbd_us_shift | KB_LAYOUT_US_INTL => kbd_us_intl_shift | KB_LAYOUT_ABNT2 => kbd_abnt2_shift end.
Definition get_altgr_table (l : keyboard_layout_t) : option (list Z) :=
  match l with KB_LAYOUT_US_INTL => Some kbd_us_intl_altgr | _ => None end.

(** ** State *)

Record kbd := {
  last_key : Z;
  shift_pressed : bool;
  altgr_pressed : bool;
  ctrl_pressed : bool;
  extended : bool;
  ctrl_c_pending : bool;
  char_queue : ring Z;
  key_state : list bool;
  event_queue : ring (Z * Z);
  current_layout : keyboard_layout_t;
  win_key_pressed_edge : bool
}.

Definition with_last_key v k := Build_kbd v (shift_pressed k) (altgr_pressed k) (ctrl_pressed k) (extended k) (ctrl_c_pending k) (char_queue k) (key_state k) (event_queue k) (current_layout k) (win_key_pressed_edge k).
Definition with_shift v k := Build_kbd (last_key k) v (altgr_pressed k) (ctrl_pressed k) (extended k) (ctrl_c_pending k) (char_queue k) (key_state k) (event_queue k) (current_layout k) (win_key_pressed_edge k).
Definition with_altgr v k := Build_kbd (last_key k) (shift_pressed k) v (ctrl_pressed k) (extended k) (ctrl_c_pending k) (char_queue k) (key_state k) (event_queue k) (current_layout k) (win_key_pressed_edge k).
Definition with_ctrl v k := Build_kbd (last_key k) (shift_pressed k) (altgr_pressed k) v (extended k) (ctrl_c_pending k) (char_queue k) (key_state k) (event_queue k) (current_layout k) (win_key_pressed_edge k).
Definition with_extended v k := Build_kbd (last_key k) (shift_pressed k) (altgr_pressed k) (ctrl_pressed k) v (ctrl_c_pending k) (char_queue k) (key_state k) (event_queue k) (current_layout k) (win_key_pressed_edge k).
Definition with_ctrl_c v k := Build_kbd (last_key k) (shift_pressed k) (altgr_pressed k) (ctrl_pressed k) (extended k) v (char_queue k) (key_state k) (event_queue k) (current_layout k) (win_key_pressed_edge k).
Definition with_chars v k := Build_kbd (last_key k) (shift_pressed k) (altgr_pressed k) (ctrl_pressed k) (extended k) (ctrl_c_pending k) v (key_state k) (event_queue k) (current_layout k) (win_key_pressed_edge k).
Definition with_key_state v k := Build_kbd (last_key k) (shift_pressed k) (altgr_pressed k) (ctrl_pressed k) (extended k) (ctrl_c_pending k) (char_queue k) v (event_queue k) (current_layout k) (win_key_pressed_edge k).
Definition with_events v k := Build_kbd (last_key k) (shift_pressed k) (altgr_pressed k) (ctrl_pressed k) (extended k) (ctrl_c_pending k) (char_queue k) (key_state k) v (current_layout k) (win_key_pressed_edge k).
Definition with_layout v k := Build_kbd (last_key k) (shift_pressed k) (altgr_pressed k) (ctrl_pressed k) (extended k) (ctrl_c_pending k) (char_queue k) (key_state k) (event_queue k) v (win_key_pressed_edge k).
Definition with_win_key v k := Build_kbd (last_key k) (shift_pressed k) (altgr_pressed k) (ctrl_pressed k) (extended k) (ctrl_c_pending k) (char_queue k) (key_state k) (event_queue k) (current_layout k) v.

(** The initial values. *)
Definition kbd_init : kbd :=
  {| last_key := 0; shift_pressed := false; altgr_pressed := false; ctrl_pressed := false; extended := false; ctrl_c_pending := false;
     char_queue := Build_ring (zeros 256) 0 0; key_state := replicate 256 false; event_queue := Build_ring (replicate 64 (0, 0)) 0 0;
     current_layout := KB_LAYOUT_ABNT2; win_key_pressed_edge := false |}.

(** ** Operations *)

Definition push_char (ch : Z) (k : kbd) : kbd := with_chars (ring_push 256 ch (char_queue k)) k.
Definition push_event (scancode pressed : Z) (k : kbd) : kbd := with_events (ring_push 64 (scancode, pressed) (event_queue k)) k.

(** [if (key) { last_key = key; push_char(key); }] *)
Definition emit (key : Z) (k : kbd) : kbd := if key =? 0 then k else push_char key (with_last_key key k).

(** The character of an extended key. *)
Definition extended_key (scancode : Z) : Z :=
  if scancode =? 0x48 then 128 else if scancode =? 0x50 then 129 else if scancode =? 0x4B then 130 else if scancode =? 0x4D then 131 else 0.

(** The character of an ordinary key, with AltGr, Shift and Ctrl as they are;
    [scancode] is below 128. *)
Definition key_char (k : kbd) (scancode : Z) : Z :=
  let tbl := if shift_pressed k then get_shift_table (current_layout k) else get_base_table (current_layout k) in
  let key :=
    if (altgr_pressed k && bool_decide (current_layout k = KB_LAYOUT_US_INTL))%bool
    then match get_altgr_table (current_layout k) with Some altgr => altgr.[scancode] | None => 0 end
    else 0 in
  if negb (key =? 0) then key else
  if scancode =? 0x73 then (if shift_pressed k then 63 else 47) else
  if scancode =? 0x56 then (if shift_pressed k then 124 else 92) else
  let base := tbl.[scancode] in
  if ctrl_pressed k then
    if ((97 <=? base) && (base <=? 122))%bool then base - 97 + 1
    else if ((65 <=? base) && (base <=? 90))%bool then base - 65 + 1
    else base
  else base.

Definition handle_release (released : Z) (k : kbd) : kbd :=
  let k := with_key_state (<[Z.to_nat released := false]> (key_state k)) k in
  let k := if ((released =? 0x2A) || (released =? 0x36))%bool then with_shift false k else k in
  let k := if released =? 0x38 then with_altgr false k else k in
  let k := if released =? 0x1D then with_ctrl false k else k in
  with_extended false (push_event released 0 k).

Definition handle_extended (scancode : Z) (k : kbd) : kbd :=
  let k := if ((scancode =? 0x5B) || (scancode =? 0x5C))%bool then with_win_key true k else k in
  with_extended false (push_event (Z.lor scancode 0x80) 1 (emit (extended_key scancode) k)).

Definition handle_press (isig : bool) (scancode : Z) (k : kbd) : kbd :=
  let k :=
    if scancode =? 0x1D then with_ctrl true k
    else if ((scancode =? 0x2A) || (scancode =? 0x36))%bool then with_shift true k
    else if scancode =? 0x38 then with_altgr true k
    else if scancode =? 0x0F then emit 9 (with_win_key true k)
    else if ((scancode =? 0x2E) && ctrl_pressed k)%bool then emit 3 (if isig then with_ctrl_c true k else k)
    else emit (key_char k scancode) k in
  with_extended false (push_event scancode 1 k).

Definition keyboard_handler (isig : bool) (scancode : Z) (k : kbd) : kbd :=
  if scancode =? 0xE0 then with_extended true k else
  if negb (Z.land scancode 0x80 =? 0) then handle_release (Z.land scancode 0x7F) k else
  let k := with_key_state (<[Z.to_nat scancode := true]> (key_state k)) k in
  if extended k then handle_extended scancode k else handle_press isig scancode k.

Definition keyboard_pop_char (k : kbd) : option Z * kbd :=
  let '(c, r) := ring_pop 256 (char_queue k) in (c, with_chars r k).

Definition keyboard_get_event (k : kbd) : option (Z * Z) * kbd :=
  let '(e, r) := ring_pop 64 (event_queue k) in (e, with_events r k).

Definition get_last_key (k : kbd) : Z * kbd := (last_key k, with_last_key 0 k).
Definition check_ctrl_c (k : kbd) : bool * kbd := if ctrl_c_pending k then (true, with_ctrl_c false k) else (false, k).
Definition keyboard_set_ctrl_c (k : kbd) : kbd := with_ctrl_c true k.
Definition keyboard_consume_win_key (k : kbd) : bool * kbd :=
  if win_key_pressed_edge k then (true, with_win_key false k) else (false, k).
Definition keyboard_is_pressed (k : kbd) (s : Z) : bool := default false (key_state k !! Z.to_nat s).
Definition keyboard_set_layout (n : Z) (k : kbd) : kbd := match layout_of n with Some l => with_layout l k | None => k end.
Definition keyboard_layout_name (n : Z) : list Z :=
  match layout_of n with
  | Some KB_LAYOUT_US => str "US"
  | Some KB_LAYOUT_US_INTL => str "US International"
  | _ => str "ABNT2"
  end.

(** ** The ring is a bounded queue *)

Section Ring.
Context {A : Type} (n : Z).
Implicit Types r : ring A.

Definition ring_ok r : Prop := 1 < n /\ length (cells r) = Z.to_nat n /\ 0 <= rd r < n /\ 0 <= wr r < n.

(** The elements between the reader and the writer. *)
Definition ring_items r : list A :=
  take (Z.to_nat ((wr r - rd r) mod n)) (drop (Z.to_nat (rd r)) (cells r) ++ take (Z.to_nat (rd r)) (cells r)).

Definition queue_push (x : A) (q : list A) : list A := if Z.of_nat (length q) <? n - 1 then q ++ [x] else q.

Lemma lookup_ring_items r i : ring_ok r ->
  ring_items r !! i = if decide (Z.of_nat i < (wr r - rd r) mod n) then cells r !! Z.to_nat ((rd r + Z.of_nat i) mod n) else None.
Proof.
  intros (Hn & Hl & Hr & Hw). unfold ring_items. case_decide as Hi.
  - assert (Hm := Z.mod_pos_bound (wr r - rd r) n ltac:(lia)). rewrite lookup_take_lt by lia.
    destruct (decide (rd r + Z.of_nat i < n)).
    + rewrite lookup_app_l by (rewrite length_drop; lia). rewrite lookup_drop, Z.mod_small by lia. f_equal. lia.
    + rewrite lookup_app_r by (rewrite length_drop; lia). rewrite length_drop, lookup_take_lt by lia.
      replace ((rd r + Z.of_nat i) mod n) with (rd r + Z.of_nat i - n); [f_equal; lia|].
      apply (Z.mod_unique_pos _ _ 1); lia.
  - apply lookup_take_ge. lia.
Qed.

Lemma length_ring_items r : ring_ok r -> Z.of_nat (length (ring_items r)) = (wr r - rd r) mod n.
Proof.
  intros (Hn & Hl & Hr & Hw). unfold ring_items. assert (Hm := Z.mod_pos_bound (wr r - rd r) n ltac:(lia)).
  rewrite length_take, length_app, length_drop, length_take. lia.
Qed.

Lemma ring_push_ok x r : ring_ok r -> ring_ok (ring_push n x r).
Proof.
  intros (Hn & Hl & Hr & Hw). unfold ring_push. destruct (negb _); [|done]. split_and!; simpl; rewrite ?length_insert; try done; try lia;
    apply Z.mod_pos_bound; lia.
Qed.

Lemma ring_push_items x r : ring_ok r -> ring_items (ring_push n x r) = queue_push x (ring_items r).
Proof.
  intros Hok. pose proof Hok as (Hn & Hl & Hr & Hw). unfold queue_push. rewrite length_ring_items by done.
  pose proof (ring_push_ok x r Hok) as Hok'. unfold ring_push in *.
  assert (Hs : (wr r - rd r) mod n = if rd r <=? wr r then wr r - rd r else wr r - rd r + n).
  { zcases; [by rewrite Z.mod_small by lia|]. symmetry. apply (Z.mod_unique_pos _ _ (-1)); lia. }
  assert (Hnext : (wr r + 1) mod n = if wr r + 1 =? n then 0 else wr r + 1).
  { destruct (Z.eqb_spec (wr r + 1) n) as [E|]; [rewrite E; by rewrite Z.mod_same by lia|by rewrite Z.mod_small by lia]. }
  destruct (Z.eqb_spec ((wr r + 1) mod n) (rd r)) as [Hf|Hf]; cbn [negb] in *.
  - rewrite (proj2 (Z.ltb_ge _ _)); [done|]. rewrite Hs. rewrite Hnext in Hf. revert Hf. zcases; lia.
  - assert (Hfull : (wr r - rd r) mod n < n - 1) by (rewrite Hs; rewrite Hnext in Hf; revert Hf; zcases; lia).
    rewrite (proj2 (Z.ltb_lt _ _) Hfull). apply list_eq. intros i. rewrite lookup_ring_items by done. cbn [cells rd wr].
    assert (Hs' : ((wr r + 1) mod n - rd r) mod n = (wr r - rd r) mod n + 1).
    { rewrite Zminus_mod_idemp_l. replace (wr r + 1 - rd r) with (wr r - rd r + 1) by lia. rewrite <- Zplus_mod_idemp_l.
      apply Z.mod_small. assert (Hm := Z.mod_pos_bound (wr r - rd r) n ltac:(lia)). lia. }
    rewrite Hs'. pose proof (length_ring_items r Hok) as Hlen.
    destruct (decide (i < length (ring_items r))%nat) as [Hi|Hi].
    + rewrite lookup_app_l by done. rewrite lookup_ring_items by done. rewrite !decide_True by lia. apply list_lookup_insert_ne.
      intros E. assert (Hm := Z.mod_pos_bound (rd r + Z.of_nat i) n ltac:(lia)). assert (E' : (rd r + Z.of_nat i) mod n = wr r) by lia.
      assert (Z.of_nat i = (wr r - rd r) mod n); [|lia]. rewrite <- E'. rewrite Zminus_mod_idemp_l.
      replace (rd r + Z.of_nat i - rd r) with (Z.of_nat i) by lia. symmetry. apply Z.mod_small. lia.
    + rewrite lookup_app_r by lia. destruct (decide (i = length (ring_items r))) as [->|].
      * rewrite Nat.sub_diag, decide_True by lia. rewrite Hlen.
        replace ((rd r + (wr r - rd r) mod n) mod n) with (wr r); [by rewrite list_lookup_insert_eq by lia|].
        rewrite Zplus_mod_idemp_r. replace (rd r + (wr r - rd r)) with (wr r) by lia. symmetry. by apply Z.mod_small.
      * rewrite decide_False by lia. symmetry. apply lookup_ge_None_2. simpl. lia.
Qed.

Lemma ring_pop_items r : ring_ok r ->
  match ring_items r with
  | [] => ring_pop n r = (None, r)
  | x :: q => exists r', ring_pop n r = (Some x, r') /\ ring_ok r' /\ ring_items r' = q
  end.
Proof.
  intros Hok. pose proof Hok as (Hn & Hl & Hr & Hw). pose proof (length_ring_items r Hok) as Hlen. unfold ring_pop.
  assert (Hm := Z.mod_pos_bound (wr r - rd r) n ltac:(lia)). destruct (ring_items r) as [|x q] eqn:E.
  - simpl in Hlen. destruct (Z.eqb_spec (rd r) (wr r)) as [|Hne]; [done|]. exfalso. apply Hne. symmetry in Hlen.
    apply Z.mod_divide in Hlen as [z Hz]; [|lia]. assert (z = 0) by nia. lia.
  - destruct (Z.eqb_spec (rd r) (wr r)) as [Heq|Hne].
    { rewrite Heq, Z.sub_diag, Z.mod_0_l in Hlen by lia. simpl in Hlen. lia. }
    assert (Hc : cells r !! Z.to_nat (rd r) = Some x).
    { assert (H0 : ring_items r !! 0%nat = Some x) by (by rewrite E). rewrite lookup_ring_items in H0 by done.
      rewrite decide_True in H0 by (simpl in Hlen; lia). by rewrite Z.add_0_r, Z.mod_small in H0 by lia. }
    set (r' := {| cells := cells r; rd := (rd r + 1) mod n; wr := wr r |}).
    assert (Hok' : ring_ok r') by (split_and!; simpl; try done; try lia; apply Z.mod_pos_bound; lia).
    exists r'. split; [by rewrite Hc|]. split; [done|]. apply list_eq. intros i. rewrite lookup_ring_items by done. simpl cells.
    assert (Hq : q !! i = ring_items r !! S i) by (by rewrite E). rewrite Hq, lookup_ring_items by done. simpl rd. simpl wr.
    assert (Hs : (wr r - (rd r + 1) mod n) mod n = (wr r - rd r) mod n - 1).
    { rewrite Zminus_mod_idemp_r. replace (wr r - (rd r + 1)) with (wr r - rd r + -1) by lia. rewrite <- Zplus_mod_idemp_l.
      apply Z.mod_small. simpl in Hlen. lia. }
    rewrite Hs, Zplus_mod_idemp_l. replace (rd r + 1 + Z.of_nat i) with (rd r + Z.of_nat (S i)) by lia.
    destruct (decide (Z.of_nat i < (wr r - rd r) mod n - 1)); [rewrite decide_True by lia|rewrite decide_False by lia]; done.
Qed.
End Ring.

(** ** The state of the keyboard *)

Record kbd_ok (k : kbd) : Prop := {
  ko_chars : ring_ok 256 (char_queue k);
  ko_events : ring_ok 64 (event_queue k);
  ko_keys : length (key_state k) = 256%nat
}.

(** The characters typed and not yet read, and the events. *)
Definition typed (k : kbd) : list Z := ring_items 256 (char_queue k).
Definition events (k : kbd) : list (Z * Z) := ring_items 64 (event_queue k).

Lemma kbd_init_ok : kbd_ok kbd_init.
Proof. constructor; [| |done]; (split_and!; [lia|reflexivity|simpl; lia..]). Qed.

Lemma push_char_ok c k : kbd_ok k -> kbd_ok (push_char c k).
Proof. intros []. constructor; [by apply ring_push_ok|done|done]. Qed.
Lemma push_event_ok e p k : kbd_ok k -> kbd_ok (push_event e p k).
Proof. intros []. constructor; [done|by apply ring_push_ok|done]. Qed.
Lemma emit_ok c k : kbd_ok k -> kbd_ok (emit c k).
Proof. intros H. unfold emit. destruct (c =? 0); [done|]. apply push_char_ok. by destruct H. Qed.

Lemma emit_mode c k :
  shift_pressed (emit c k) = shift_pressed k /\ altgr_pressed (emit c k) = altgr_pressed k /\ ctrl_pressed (emit c k) = ctrl_pressed k
  /\ extended (emit c k) = extended k /\ current_layout (emit c k) = current_layout k.
Proof. unfold emit. by destruct (c =? 0). Qed.

(** The fields that the invariant does not depend on. *)
Lemma with_shift_ok v k : kbd_ok k -> kbd_ok (with_shift v k).
Proof. by intros []. Qed.
Lemma with_altgr_ok v k : kbd_ok k -> kbd_ok (with_altgr v k).
Proof. by intros []. Qed.
Lemma with_ctrl_ok v k : kbd_ok k -> kbd_ok (with_ctrl v k).
Proof. by intros []. Qed.
Lemma with_extended_ok v k : kbd_ok k -> kbd_ok (with_extended v k).
Proof. by intros []. Qed.
Lemma with_ctrl_c_ok v k : kbd_ok k -> kbd_ok (with_ctrl_c v k).
Proof. by intros []. Qed.
Lemma with_win_key_ok v k : kbd_ok k -> kbd_ok (with_win_key v k).
Proof. by intros []. Qed.
Lemma with_key_state_ok i v k : kbd_ok k -> kbd_ok (with_key_state (<[i := v]> (key_state k)) k).
Proof. intros []. constructor; [done|done|]. simpl. by rewrite length_insert. Qed.
#[local] Hint Resolve emit_ok push_event_ok with_shift_ok with_altgr_ok with_ctrl_ok with_extended_ok with_ctrl_c_ok with_win_key_ok with_key_state_ok : liwus.

Lemma keyboard_handler_ok isig sc k : kbd_ok k -> kbd_ok (keyboard_handler isig sc k).
Proof.
  intros H. unfold keyboard_handler, handle_release, handle_extended, handle_press. cbv zeta.
  repeat match goal with |- context [if ?b then _ else _] => destruct b end; auto 10 with liwus.
Qed.

Lemma typed_push_char c k : kbd_ok k -> typed (push_char c k) = queue_push 256 c (typed k).
Proof. intros H. apply ring_push_items, H. Qed.
Lemma typed_emit c k : kbd_ok k -> typed (emit c k) = if c =? 0 then typed k else queue_push 256 c (typed k).
Proof. intros H. unfold emit. destruct (c =? 0); [done|]. apply (typed_push_char c (with_last_key c k)). by destruct H. Qed.

(** ** Typing *)

(** Nothing but Shift may be held down. *)
Definition at_rest (shift : bool) (k : kbd) : Prop :=
  shift_pressed k = shift /\ altgr_pressed k = false /\ ctrl_pressed k = false /\ extended k = false.

(** The character of a key in a layout. *)
Definition char_of (l : keyboard_layout_t) (shift : bool) (sc : Z) : Z := key_char (with_shift shift (with_layout l kbd_init)) sc.

Lemma key_char_rest k shift sc : at_rest shift k -> key_char k sc = char_of (current_layout k) shift sc.
Proof. intros (Hs & Ha & Hc & _). unfold char_of, key_char. simpl. by rewrite Hs, Ha, Hc. Qed.

(** The keys of a layout, plain before shifted, and the first one for a
    character. *)
Definition all_keys : list (Z * bool) := map (fun sc => (sc, false)) (seqZ 0 128) ++ map (fun sc => (sc, true)) (seqZ 0 128).
Definition key_for (l : keyboard_layout_t) (c : Z) : option (Z * bool) :=
  List.find (fun p => (char_of l p.2 p.1 =? c) && negb (c =? 0))%bool all_keys.

(** Press and release, within Shift where the character needs it. *)
Definition strokes (l : keyboard_layout_t) (c : Z) : list Z :=
  match key_for l c with
  | Some (sc, false) => [sc; sc + 0x80]
  | Some (sc, true) => [0x2A; sc; sc + 0x80; 0xAA]
  | None => []
  end.

Definition type_codes (isig : bool) (codes : list Z) (k : kbd) : kbd := foldl (fun k sc => keyboard_handler isig sc k) k codes.

(** Modifier keys have no character, nor has code 0x60, whose release would be
    0xE0; Tab is 9 in every table. *)
Definition mute (sc : Z) : bool := ((sc =? 0x1D) || (sc =? 0x2A) || (sc =? 0x36) || (sc =? 0x38) || (sc =? 0x60))%bool.
Lemma mute_keys l p : In p all_keys ->
  (mute p.1 = true -> char_of l p.2 p.1 = 0) /\ (p.1 = 0x0F -> char_of l p.2 p.1 = 9) /\ 0 <= p.1 < 128.
Proof.
  assert (H : forallb (fun p => (negb (mute p.1) || (char_of l p.2 p.1 =? 0)) && (negb (p.1 =? 0x0F) || (char_of l p.2 p.1 =? 9))
    && (0 <=? p.1) && (p.1 <? 128))%bool all_keys = true) by (destruct l; by_vm).
  intros Hp. rewrite forallb_forall in H. specialize (H p Hp). zbool. split; [|split; [|lia]].
  - intros Hm. rewrite Hm in *. simpl in *. by zbool.
  - intros E. rewrite (proj2 (Z.eqb_eq _ _) E) in *. simpl in *. by zbool.
Qed.

Lemma key_for_spec l c sc shift : key_for l c = Some (sc, shift) ->
  char_of l shift sc = c /\ c <> 0 /\ 0 <= sc < 128 /\ mute sc = false /\ (sc = 0x0F -> c = 9).
Proof.
  intros H. apply find_some in H as [Hin H]. simpl in H. zbool. destruct (mute_keys l (sc, shift) Hin) as (Hm & Ht & Hr). simpl in *.
  split_and!; try done; try lia. destruct (mute sc); [|done]. rewrite Hm in * by done. lia.
Qed.

(** What one step of the handler leaves alone. *)
Definition same_mode (shift : bool) (k k' : kbd) : Prop := kbd_ok k' /\ at_rest shift k' /\ current_layout k' = current_layout k.

Lemma type_press isig shift sc k : kbd_ok k -> at_rest shift k -> 0 <= sc < 128 -> mute sc = false ->
  (sc = 0x0F -> char_of (current_layout k) shift sc = 9) -> char_of (current_layout k) shift sc <> 0 ->
  same_mode shift k (keyboard_handler isig sc k) /\ typed (keyboard_handler isig sc k) = queue_push 256 (char_of (current_layout k) shift sc) (typed k).
Proof.
  intros Hok Hr Hsc Hm Ht Hc. pose proof (keyboard_handler_ok isig sc k Hok) as Hok'. revert Hok'.
  pose proof Hr as (Hs & Ha & Hct & He). unfold mute in Hm. zbool.
  assert (Hland : Z.land sc 0x80 = 0).
  { apply Z.bits_inj'. intros i Hi. rewrite Z.land_spec, Z.bits_0. change 128 with (2 ^ 7). rewrite Z.pow2_bits_eqb by lia.
    destruct (Z.eqb_spec 7 i) as [<-|]; [|apply andb_false_r]. rewrite (testbit_high sc 7 7); [done|lia|lia|lia]. }
  unfold keyboard_handler. rewrite (proj2 (Z.eqb_neq sc 0xE0)) by lia. rewrite Hland. cbn [Z.eqb negb].
  set (k1 := with_key_state _ k). assert (Hok1 : kbd_ok k1) by (by apply with_key_state_ok).
  assert (Hr1 : at_rest shift k1) by done. change (extended k1) with (extended k). rewrite He. unfold handle_press. cbv zeta.
  rewrite (proj2 (Z.eqb_neq sc 0x1D)), (proj2 (Z.eqb_neq sc 0x2A)), (proj2 (Z.eqb_neq sc 0x36)), (proj2 (Z.eqb_neq sc 0x38)) by done. cbn [orb].
  assert (Hem : forall k2 c, c = char_of (current_layout k) shift sc -> kbd_ok k2 -> at_rest shift k2 -> current_layout k2 = current_layout k -> typed k2 = typed k ->
    let k3 := with_extended false (push_event sc 1 (emit c k2)) in
    kbd_ok k3 -> same_mode shift k k3 /\ typed k3 = queue_push 256 (char_of (current_layout k) shift sc) (typed k)).
  { intros k2 c -> Hk2 (R1 & R2 & R3 & R4) Hl2 Ht2 k3 Hk3. set (c := char_of _ _ _) in *.
    destruct (emit_mode c k2) as (E1 & E2 & E3 & E4 & E5). split; [split; [done|]; split; [|simpl; congruence]; split_and!; simpl; congruence|].
    change (typed k3) with (typed (emit c k2)). rewrite typed_emit, Ht2 by done. by rewrite (proj2 (Z.eqb_neq c 0)) by done. }
  destruct (Z.eqb_spec sc 0x0F) as [E|E].
  - apply Hem; try done; [by rewrite Ht|by apply with_win_key_ok].
  - change (ctrl_pressed k1) with (ctrl_pressed k). rewrite Hct, andb_false_r. apply Hem; try done. exact (key_char_rest k1 shift sc Hr1).
Qed.

Lemma type_release isig shift shift' sc k : kbd_ok k -> at_rest shift k -> 0 <= sc < 128 -> sc <> 0x60 ->
  shift' = (if ((sc =? 0x2A) || (sc =? 0x36))%bool then false else shift) ->
  same_mode shift' k (keyboard_handler isig (sc + 0x80) k) /\ typed (keyboard_handler isig (sc + 0x80) k) = typed k.
Proof.
  intros Hok (Hs & Ha & Hct & He) Hsc H60 ->. pose proof (keyboard_handler_ok isig (sc + 0x80) k Hok) as Hok'. revert Hok'.
  assert (Hlor : sc + 0x80 = Z.lor sc (Z.shiftl 1 7)) by (by rewrite lor_shiftl_add by lia).
  assert (H1 : negb (Z.land (sc + 0x80) 0x80 =? 0) = true).
  { change 0x80 with (Z.shiftl 1 7) at 2. rewrite land_bit_test, Hlor, testbit_set_bit by lia. apply orb_true_r. }
  assert (H2 : Z.land (sc + 0x80) 0x7F = sc).
  { change 0x7F with (Z.ones 7). rewrite Z.land_ones by lia. replace (sc + 128) with (sc + 1 * 2 ^ 7) by lia. rewrite Z.mod_add by lia. apply Z.mod_small. lia. }
  unfold keyboard_handler. rewrite (proj2 (Z.eqb_neq (sc + 0x80) 0xE0)) by lia. rewrite H1, H2. unfold handle_release, same_mode, at_rest.
  intros Hok'. split; [|destruct ((sc =? 0x2A) || (sc =? 0x36))%bool, (sc =? 0x38), (sc =? 0x1D); done].
  split; [exact Hok'|]. destruct ((sc =? 0x2A) || (sc =? 0x36))%bool, (sc =? 0x38), (sc =? 0x1D); done.
Qed.

(** The Shift key. *)
Lemma type_shift isig k : kbd_ok k -> at_rest false k ->
  same_mode true k (keyboard_handler isig 0x2A k) /\ typed (keyboard_handler isig 0x2A k) = typed k.
Proof.
  intros Hok (Hs & Ha & Hct & He). pose proof (keyboard_handler_ok isig 0x2A k Hok) as Hok'. revert Hok'.
  unfold keyboard_handler. change (0x2A =? 0xE0) with false. change (negb (Z.land 0x2A 0x80 =? 0)) with false. cbv iota zeta.
  set (k1 := with_key_state _ k). change (extended k1) with (extended k). rewrite He. intros Hok'. split; [|done]. by split_and!.
Qed.

Lemma type_one isig l c k : kbd_ok k -> at_rest false k -> current_layout k = l -> is_Some (key_for l c) -> (length (typed k) < 255)%nat ->
  let k' := type_codes isig (strokes l c) k in same_mode false k k' /\ typed k' = typed k ++ [c].
Proof.
  intros Hok Hr Hl [[sc shift] Hk] Hroom k'. unfold k', strokes. rewrite Hk. apply key_for_spec in Hk as (Hc & Hc0 & Hsc & Hm & Ht).
  assert (Hpush : forall q, length q = length (typed k) -> queue_push 256 c q = q ++ [c]).
  { intros q Hq. unfold queue_push. by rewrite (proj2 (Z.ltb_lt _ _)) by lia. }
  assert (Hm' := Hm). unfold mute in Hm'. zbool. assert (Hrel : (if ((sc =? 0x2A) || (sc =? 0x36))%bool then false else shift) = shift).
  { rewrite (proj2 (Z.eqb_neq sc 0x2A)), (proj2 (Z.eqb_neq sc 0x36)) by done. done. }
  subst l. destruct shift; unfold type_codes; cbn [foldl].
  - destruct (type_shift isig k Hok Hr) as [(O1 & R1 & L1) T1]. set (k1 := keyboard_handler isig 0x2A k) in *.
    destruct (type_press isig true sc k1) as [(O2 & R2 & L2) T2]; rewrite ?L1; try done; [intros E; rewrite Hc; by apply Ht|by rewrite Hc|].
    set (k2 := keyboard_handler isig sc k1) in *. rewrite L1, Hc, T1, Hpush in T2 by done.
    destruct (type_release isig true true sc k2) as [(O3 & R3 & L3) T3]; try done. set (k3 := keyboard_handler isig (sc + 0x80) k2) in *.
    destruct (type_release isig true false 0x2A k3) as [(O4 & R4 & L4) T4]; try done.
    split; [split_and!; try done|]; change 0xAA with (0x2A + 0x80); congruence.
  - destruct (type_press isig false sc k) as [(O2 & R2 & L2) T2]; try done; [intros E; rewrite Hc; by apply Ht|by rewrite Hc|].
    set (k2 := keyboard_handler isig sc k) in *. rewrite Hc, Hpush in T2 by done.
    destruct (type_release isig false false sc k2) as [(O3 & R3 & L3) T3]; try done. split; [split_and!; try done|]; congruence.
Qed.

(** What [n] calls of [keyboard_pop_char] give. *)
Fixpoint read_chars (n : nat) (k : kbd) : list Z :=
  match n with
  | O => []
  | S n' => match keyboard_pop_char k with (Some c, k') => c :: read_chars n' k' | (None, k') => read_chars n' k' end
  end.

Lemma pop_char_typed k : kbd_ok k ->
  match typed k with
  | [] => keyboard_pop_char k = (None, with_chars (char_queue k) k)
  | c :: q => exists k', keyboard_pop_char k = (Some c, k') /\ kbd_ok k' /\ typed k' = q
  end.
Proof.
  intros H. pose proof (ring_pop_items 256 (char_queue k) (ko_chars k H)) as Hp. unfold typed, keyboard_pop_char.
  destruct (ring_items 256 (char_queue k)) as [|c q]; [by rewrite Hp|]. destruct Hp as (r & -> & Hr & Hi).
  exists (with_chars r k). split; [done|]. split; [|exact Hi]. destruct H. by constructor.
Qed.

Lemma read_chars_typed n k : kbd_ok k -> (n <= length (typed k))%nat -> read_chars n k = take n (typed k).
Proof.
  revert k. induction n as [|n IH]; intros k Hok Hn; [done|]. pose proof (pop_char_typed k Hok) as Hp. cbn [read_chars].
  destruct (typed k) as [|c q]; [simpl in Hn; lia|]. destruct Hp as (k' & -> & Hok' & Hq). simpl. rewrite IH by (rewrite ?Hq; simpl in Hn; done || lia).
  by rewrite Hq.
Qed.

Lemma type_text isig l text k : kbd_ok k -> at_rest false k -> current_layout k = l -> Forall (fun c => is_Some (key_for l c)) text ->
  (length (typed k) + length text <= 255)%nat ->
  let k' := type_codes isig (concat (map (strokes l) text)) k in kbd_ok k' /\ at_rest false k' /\ current_layout k' = l /\ typed k' = typed k ++ text.
Proof.
  intros Hok Hr Hl Ht Hlen k'. unfold k'. clear k'. revert k Hok Hr Hl Hlen. induction Ht as [|c text Hc _ IH]; intros k Hok Hr Hl Hlen.
  - cbn [map concat type_codes foldl]. by rewrite app_nil_r.
  - cbn [map concat]. unfold type_codes. rewrite foldl_app. simpl in Hlen.
    destruct (type_one isig l c k Hok Hr Hl Hc ltac:(lia)) as [(O1 & R1 & L1) T1]. unfold type_codes in *.
    destruct (IH _ O1 R1) as (O2 & R2 & L2 & T2); [congruence|rewrite T1, length_app; simpl; lia|]. split_and!; try done.
    rewrite T2, T1, <- app_assoc. done.
Qed.

(** [keyboard_types_text]: with no modifier held, pressing and releasing the keys of a
    text (with Shift around those that need it) puts its characters, in order,
    behind what was already typed, as long as the 255 cells of the queue last; the
    readers then get exactly these characters, and the modifiers are as before. *)
Theorem keyboard_types_text isig l text k :
  kbd_ok k -> at_rest false k -> current_layout k = l -> Forall (fun c => is_Some (key_for l c)) text ->
  (length (typed k) + length text <= 255)%nat ->
  let k' := type_codes isig (concat (map (strokes l) text)) k in
  kbd_ok k' /\ at_rest false k' /\ current_layout k' = l /\ typed k' = typed k ++ text
  /\ read_chars (length (typed k) + length text) k' = typed k ++ text.
Proof.
  intros Hok Hr Hl Ht Hlen k'. destruct (type_text isig l text k Hok Hr Hl Ht Hlen) as (O & R & L & T). fold k' in O, R, L, T. split_and!; try done.
  rewrite read_chars_typed by (rewrite ?T, ?length_app; done || lia). rewrite T. apply firstn_all2. rewrite length_app. lia.
Qed.

Lemma keyboard_types_text_witness :
  read_chars 12 (type_codes true (concat (map (strokes KB_LAYOUT_US) (str "Hello, ~:;|/"))) (with_layout KB_LAYOUT_US kbd_init)) = str "Hello, ~:;|/".
Proof.
  destruct (keyboard_types_text true KB_LAYOUT_US (str "Hello, ~:;|/") (with_layout KB_LAYOUT_US kbd_init)) as (_ & _ & _ & _ & H).
  - destruct kbd_init_ok. by constructor.
  - done.
  - done.
  - repeat constructor; vm_compute; eauto.
  - vm_compute. lia.
  - exact H.
Defined.

(** Every printable character and newline can be typed with the US layouts; with
    the default layout all but the colon and the semicolon. *)
Theorem us_layouts_type_ascii : forallb (fun c => match key_for KB_LAYOUT_US c, key_for KB_LAYOUT_US_INTL c with Some _, Some _ => true | _, _ => false end)
  (10 :: seqZ 32 95) = true.
Proof. by_vm. Qed.

Definition colons (c : Z) : bool := ((c =? 58) || (c =? 59))%bool.

Theorem abnt2_layout_types_ascii : List.filter (fun c => match key_for KB_LAYOUT_ABNT2 c with Some _ => false | None => true end) (10 :: seqZ 32 95) = [58; 59].
Proof. by_vm. Qed.

Lemma abnt2_key_char k sc : current_layout k = KB_LAYOUT_ABNT2 -> 0 <= sc < 128 -> colons (key_char k sc) = false.
Proof.
  intros Hl Hsc. assert (H : forallb (fun sc => forallb (fun p => negb (colons (key_char (with_shift p.1 (with_ctrl p.2 kbd_init)) sc)))
    [(false, false); (false, true); (true, false); (true, true)]) (seqZ 0 128) = true) by by_vm.
  rewrite forallb_forall in H. specialize (H sc ltac:(apply list_elem_of_In, elem_of_seqZ; lia)). rewrite forallb_forall in H.
  specialize (H (shift_pressed k, ctrl_pressed k) ltac:(destruct (shift_pressed k), (ctrl_pressed k); simpl; tauto)). apply negb_true_iff in H.
  rewrite <- H. f_equal. unfold key_char. rewrite Hl. simpl. by rewrite andb_false_r.
Qed.

Lemma queue_push_forall {A} (P : A -> Prop) n x q : P x -> Forall P q -> Forall P (queue_push n x q).
Proof. intros Hx Hq. unfold queue_push. destruct (_ <? _); [|done]. apply Forall_app. by split; [|constructor]. Qed.

Lemma extended_key_range sc : extended_key sc = 0 \/ 128 <= extended_key sc <= 131.
Proof. unfold extended_key. zcases; lia. Qed.

Lemma emit_no_colon c k : kbd_ok k -> colons c = false -> Forall (fun x => colons x = false) (typed k) -> Forall (fun x => colons x = false) (typed (emit c k)).
Proof. intros Hok Hc Hk. rewrite typed_emit by done. destruct (c =? 0); [done|]. by apply queue_push_forall. Qed.

(** With the layout the system starts with no sequence of scan codes ever types a
    colon or a semicolon. *)
Theorem abnt2_never_types_colon isig codes k :
  kbd_ok k -> current_layout k = KB_LAYOUT_ABNT2 -> Forall (fun c => colons c = false) (typed k) -> Forall (fun sc => 0 <= sc < 256) codes ->
  Forall (fun c => colons c = false) (typed (type_codes isig codes k)).
Proof.
  intros Hok Hl Hk Hc. revert k Hok Hl Hk. induction Hc as [|sc codes Hsc _ IH]; intros k Hok Hl Hk; [done|]. unfold type_codes in *. cbn [foldl].
  assert (H : current_layout (keyboard_handler isig sc k) = KB_LAYOUT_ABNT2 /\ Forall (fun c => colons c = false) (typed (keyboard_handler isig sc k))).
  2: { apply IH; [by apply keyboard_handler_ok|apply H..]. }
  unfold keyboard_handler. destruct (Z.eqb_spec sc 0xE0); [done|]. destruct (Z.eqb_spec (Z.land sc 0x80) 0) as [E|]; cbn [negb].
  - assert (H7 : sc < 128).
    { destruct (decide (sc < 128)); [done|]. assert (Ht : Z.testbit sc 7 = true) by (apply Z.testbit_true; [lia|]; change (2 ^ 7) with 128; zlia).
      apply (f_equal (fun x => Z.testbit x 7)) in E. rewrite Z.land_spec, Ht in E. done. }
    set (k1 := with_key_state _ k). assert (Hok1 : kbd_ok k1) by (by apply with_key_state_ok).
    unfold handle_extended, handle_press. destruct (extended k1).
    + set (k2 := if ((sc =? 0x5B) || (sc =? 0x5C))%bool then with_win_key true k1 else k1). assert (Hk2 : kbd_ok k2 /\ current_layout k2 = KB_LAYOUT_ABNT2 /\ typed k2 = typed k).
      { unfold k2. destruct (_ || _)%bool; split_and!; try done. by apply with_win_key_ok. }
      destruct Hk2 as (O2 & L2 & T2). cbv zeta. split; [simpl; destruct (emit_mode (extended_key sc) k2) as (_ & _ & _ & _ & ->); done|].
      change (typed (with_extended false (push_event (Z.lor sc 128) 1 (emit (extended_key sc) k2)))) with (typed (emit (extended_key sc) k2)).
      apply emit_no_colon; [done| |by rewrite T2]. unfold colons. pose proof (extended_key_range sc). zcases; simpl; lia.
    + cbv zeta. set (k2 := if sc =? 29 then _ else _). enough (current_layout k2 = KB_LAYOUT_ABNT2 /\ Forall (fun c => colons c = false) (typed k2)) by done.
      unfold k2. repeat match goal with |- context [if ?b then _ else _] => destruct b end; try done;
        (split; [match goal with |- context [emit ?c ?k'] => destruct (emit_mode c k') as (_ & _ & _ & _ & ->); exact Hl end|]);
        apply emit_no_colon; auto with liwus. apply abnt2_key_char; [exact Hl|lia].
  - unfold handle_release. cbv zeta. repeat match goal with |- context [if ?b then _ else _] => destruct b end; done.
Qed.

(** AltGr and the right Ctrl key send 0xE0 first; the handler treats them as
    extended keys and leaves the modifiers as they are. *)
Theorem right_modifiers_ignored isig sc k : sc = 0x38 \/ sc = 0x1D ->
  let k' := type_codes isig [0xE0; sc] k in
  altgr_pressed k' = altgr_pressed k /\ ctrl_pressed k' = ctrl_pressed k /\ typed k' = typed k.
Proof. by intros [-> | ->]. Qed.

(** Releasing one Shift key ends the shift while the other one is held. *)
Theorem second_shift_lost isig l :
  typed (type_codes isig [0x2A; 0x36; 0xB6; 0x1E] (with_layout l kbd_init)) = str "a".
Proof. destruct isig, l; by_vm. Qed.

(** The events of an extended key do not match: pressed as [code | 0x80], released
    as [code]. *)
Theorem extended_events_differ : events (type_codes true [0xE0; 0x48; 0xE0; 0xC8] kbd_init) = [(0xC8, 1); (0x48, 0)].
Proof. by_vm. Qed.
