(* ===== verification/Mouse.v ===== *)
(** * The mouse ([src/src/drivers/mouse.c])

    The pointer position and buttons, from the 3-byte packets of a PS/2 mouse and
    from USB reports.  The ports are arguments of the handler; the dialogue with
    the controller in [init_mouse] is left out. *)

From Stdlib Require Import ZArith Lia.
From stdpp Require Import base numbers list.
From S2P Require Import Prelude Bytes.

(** ** The code *)

Record mouse := {
  mouse_x : Z;
  mouse_y : Z;
  mouse_cycle : nat;
  mouse_byte : list Z;
  left_clicked : bool;
  hardware_left_clicked : bool;
  fake_left_clicked : bool;
  right_clicked : bool;
  mouse_sensitivity : Z;
  mouse_acceleration : bool
}.

(** The initial values; [init_mouse] puts the pointer back to (640, 360). *)
Definition mouse_start : mouse :=
  {| mouse_x := 640; mouse_y := 360; mouse_cycle := 0; mouse_byte := zeros 3; left_clicked := false; hardware_left_clicked := false;
     fake_left_clicked := false; right_clicked := false; mouse_sensitivity := 3; mouse_acceleration := true |}.

Definition with_pos (x y : Z) (m : mouse) : mouse :=
  Build_mouse x y (mouse_cycle m) (mouse_byte m) (left_clicked m) (hardware_left_clicked m) (fake_left_clicked m) (right_clicked m) (mouse_sensitivity m) (mouse_acceleration m).
Definition with_cycle (n : nat) (bs : list Z) (m : mouse) : mouse :=
  Build_mouse (mouse_x m) (mouse_y m) n bs (left_clicked m) (hardware_left_clicked m) (fake_left_clicked m) (right_clicked m) (mouse_sensitivity m) (mouse_acceleration m).

Definition init_mouse (m : mouse) : mouse := with_pos 640 360 m.

Definition mouse_set_fake_click (clicked : bool) (m : mouse) : mouse :=
  Build_mouse (mouse_x m) (mouse_y m) (mouse_cycle m) (mouse_byte m) (hardware_left_clicked m || clicked) (hardware_left_clicked m) clicked
    (right_clicked m) (mouse_sensitivity m) (mouse_acceleration m).

(** The buttons: bit 0 is the left one, bit 1 the right one. *)
Definition set_buttons (b : Z) (m : mouse) : mouse :=
  let hw := negb (Z.land b 1 =? 0) in
  Build_mouse (mouse_x m) (mouse_y m) (mouse_cycle m) (mouse_byte m) (hw || fake_left_clicked m) hw (fake_left_clicked m)
    (negb (Z.land b 2 =? 0)) (mouse_sensitivity m) (mouse_acceleration m).

Definition apply_acceleration (m : mouse) (delta : Z) : Z :=
  if negb (mouse_acceleration m) then delta else
  if 10 <? (if 0 <=? delta then delta else - delta) then delta * 2 else delta.

Definition clamp (v limit : Z) : Z :=
  let v := if v <? 0 then 0 else v in if limit <=? v then limit - 1 else v.

(** Move by a scaled and accelerated amount; [y] grows downwards. *)
Definition move (x_rel y_rel : Z) (m : mouse) : mouse :=
  let dx := apply_acceleration m (x_rel * mouse_sensitivity m) in
  let dy := apply_acceleration m (y_rel * mouse_sensitivity m) in
  with_pos (clamp (mouse_x m + dx) 1024) (clamp (mouse_y m - dy) 768) m.

Definition mouse_handle_event (x_rel y_rel buttons : Z) (m : mouse) : mouse := move x_rel y_rel (set_buttons buttons m).

(** A packet: flags, then the low bytes of the moves, whose signs are bits 4 and
    5 of the flags; bits 6 and 7 report an overflow. *)
Definition packet (m : mouse) (b0 b1 b2 : Z) : mouse :=
  if (negb (Z.land b0 0x80 =? 0) || negb (Z.land b0 0x40 =? 0))%bool then m else
  let x_rel := if Z.land b0 0x10 =? 0 then b1 else b1 - 256 in
  let y_rel := if Z.land b0 0x20 =? 0 then b2 else b2 - 256 in
  move x_rel y_rel (set_buttons b0 m).

Definition mouse_handler (status data : Z) (m : mouse) : mouse :=
  if Z.land status 1 =? 0 then m else
  if ((mouse_cycle m =? 0)%nat && (Z.land data 0x08 =? 0))%bool then m else
  let bs := <[mouse_cycle m := data]> (mouse_byte m) in
  if (S (mouse_cycle m) =? 3)%nat then packet (with_cycle 0 bs m) bs.[0] bs.[1] bs.[2]
  else with_cycle (S (mouse_cycle m)) bs m.

Definition mouse_set_sensitivity (s : Z) (m : mouse) : mouse :=
  let s := if s =? 0 then 1 else s in
  let s := if 10 <? s then 10 else s in
  Build_mouse (mouse_x m) (mouse_y m) (mouse_cycle m) (mouse_byte m) (left_clicked m) (hardware_left_clicked m) (fake_left_clicked m) (right_clicked m) s (mouse_acceleration m).

Definition mouse_set_acceleration (e : bool) (m : mouse) : mouse :=
  Build_mouse (mouse_x m) (mouse_y m) (mouse_cycle m) (mouse_byte m) (left_clicked m) (hardware_left_clicked m) (fake_left_clicked m) (right_clicked m) (mouse_sensitivity m) e.

(** ** Runs *)

Inductive mouse_op :=
| MouseByte (status data : Z)
| MouseEvent (x_rel y_rel buttons : Z)
| MouseFakeClick (clicked : bool)
| MouseSensitivity (s : Z)
| MouseAcceleration (e : bool)
| MouseInit.

Definition mouse_step (m : mouse) (o : mouse_op) : mouse :=
  match o with
  | MouseByte st d => mouse_handler st d m
  | MouseEvent x y b => mouse_handle_event x y b m
  | MouseFakeClick c => mouse_set_fake_click c m
  | MouseSensitivity s => mouse_set_sensitivity s m
  | MouseAcceleration e => mouse_set_acceleration e m
  | MouseInit => init_mouse m
  end.

Definition mouse_run (ops : list mouse_op) (m : mouse) : mouse := foldl mouse_step m ops.

(** The arguments are bytes where the code has bytes. *)
Definition op_ok (o : mouse_op) : Prop :=
  match o with
  | MouseByte st d => is_byte st /\ is_byte d
  | MouseSensitivity s => is_byte s
  | _ => True
  end.

Record mouse_ok (m : mouse) : Prop := {
  mo_x : 0 <= mouse_x m < 1024;
  mo_y : 0 <= mouse_y m < 768;
  mo_cycle : (mouse_cycle m < 3)%nat;
  mo_bytes : length (mouse_byte m) = 3%nat;
  mo_left : left_clicked m = (hardware_left_clicked m || fake_left_clicked m)%bool;
  mo_sens : 1 <= mouse_sensitivity m <= 10
}.

Lemma clamp_range v limit : 0 < limit -> 0 <= clamp v limit < limit.
Proof. intros H. unfold clamp. destruct (Z.ltb_spec v 0); zcases; lia. Qed.

Lemma clamp_id v limit : 0 <= v < limit -> clamp v limit = v.
Proof. intros H. unfold clamp. destruct (Z.ltb_spec v 0); zcases; lia. Qed.

Lemma move_ok x y m : (mouse_cycle m < 3)%nat -> length (mouse_byte m) = 3%nat -> left_clicked m = (hardware_left_clicked m || fake_left_clicked m)%bool ->
  1 <= mouse_sensitivity m <= 10 -> mouse_ok (move x y m).
Proof. intros. constructor; simpl; try done; by apply clamp_range. Qed.

Lemma packet_ok m b0 b1 b2 : mouse_ok m -> mouse_ok (packet m b0 b1 b2).
Proof. intros Hm. unfold packet. destruct (_ || _)%bool; [done|]. destruct Hm. by apply move_ok. Qed.

Lemma mouse_step_ok m o : mouse_ok m -> op_ok o -> mouse_ok (mouse_step m o).
Proof.
  intros Hm Ho. destruct o as [st d|x y b|c|s|e|]; simpl.
  - unfold mouse_handler. destruct (_ =? 0); [done|]. destruct (_ && _)%bool; [done|]. pose proof Hm as [H1 H2 H3 H4 H5 H6]. destruct (S (mouse_cycle m) =? 3)%nat eqn:E.
    + apply packet_ok. constructor; simpl; rewrite ?length_insert; try done; lia.
    + apply Nat.eqb_neq in E. constructor; simpl; rewrite ?length_insert; try done; lia.
  - destruct Hm. by apply move_ok.
  - destruct Hm. by constructor.
  - destruct Hm. constructor; simpl; try done. unfold op_ok, is_byte in Ho. zcases; lia.
  - destruct Hm. by constructor.
  - destruct Hm. constructor; simpl; try done; lia.
Qed.

Lemma mouse_start_ok : mouse_ok mouse_start.
Proof. constructor; simpl; try done; lia. Qed.

(** [mouse_invariant_in_every_run]: whatever arrives, in any order, the pointer
    stays within 1024 x 768 pixels, the packet counter within its buffer, the left
    button is the hardware button or the emulated one, and the sensitivity stays
    between 1 and 10. *)
Theorem mouse_invariant_in_every_run ops : Forall op_ok ops -> mouse_ok (mouse_run ops mouse_start).
Proof.
  intros H. unfold mouse_run. generalize mouse_start, mouse_start_ok. induction H as [|o ops Ho _ IH]; intros m Hm; [done|]. simpl. apply IH. by apply mouse_step_ok.
Qed.

(** ** Packets *)

(** The move a packet encodes. *)
Definition signed (flag b : Z) : Z := if flag =? 0 then b else b - 256.

Definition send (bs : list Z) (m : mouse) : mouse := mouse_run (map (MouseByte 1) bs) m.

(** A packet that starts when none is under way and reports no overflow moves the
    pointer by its signed 9-bit offsets, scaled and clipped to the screen, and sets
    the buttons; the next byte starts a new packet. *)
Theorem mouse_packet_moves m b0 b1 b2 :
  mouse_ok m -> mouse_cycle m = 0%nat -> Z.land b0 0x08 <> 0 -> Z.land b0 0x80 = 0 -> Z.land b0 0x40 = 0 ->
  let m' := send [b0; b1; b2] m in
  let dx := apply_acceleration m (signed (Z.land b0 0x10) b1 * mouse_sensitivity m) in
  let dy := apply_acceleration m (signed (Z.land b0 0x20) b2 * mouse_sensitivity m) in
  mouse_x m' = clamp (mouse_x m + dx) 1024 /\ mouse_y m' = clamp (mouse_y m - dy) 768
  /\ left_clicked m' = (negb (Z.land b0 1 =? 0) || fake_left_clicked m)%bool /\ right_clicked m' = negb (Z.land b0 2 =? 0)
  /\ mouse_cycle m' = 0%nat.
Proof.
  intros Hm H0 H8 H80 H40 m' dx dy. pose proof (mo_bytes m Hm) as Hb. destruct (mouse_byte m) as [|a0 [|a1 [|a2 [|]]]] eqn:Em; try done.
  assert (E1 : mouse_handler 1 b0 m = with_cycle 1 [b0; a1; a2] m).
  { unfold mouse_handler. rewrite H0, Em. change (Z.land 1 1 =? 0) with false. by rewrite (proj2 (Z.eqb_neq _ 0) H8). }
  assert (E2 : m' = packet (with_cycle 0 [b0; b1; b2] m) b0 b1 b2) by (unfold m', send, mouse_run; cbn [map foldl mouse_step]; by rewrite E1).
  rewrite E2. unfold packet. rewrite H80, H40. done.
Qed.

(** Bytes without bit 3 are skipped until a packet starts. *)
Theorem mouse_resynchronises m bs : mouse_cycle m = 0%nat -> Forall (fun b => Z.land b 0x08 = 0) bs -> send bs m = m.
Proof.
  intros H0 H. induction H as [|b bs Hb _ IH]; [done|]. unfold send, mouse_run in *. cbn [map foldl mouse_step]. unfold mouse_handler.
  change (Z.land 1 1 =? 0) with false. rewrite H0, Hb. cbn [Nat.eqb Z.eqb andb]. exact IH.
Qed.

Lemma mouse_invariant_in_every_run_witness :
  mouse_ok (mouse_run [MouseInit; MouseByte 1 0x28; MouseByte 1 255; MouseByte 1 0; MouseSensitivity 200; MouseEvent (-5000) 9000 1] mouse_start).
Proof. apply mouse_invariant_in_every_run. repeat constructor; done. Defined.
