(* ===== verification/UsbHid.v ===== *)
(** * USB keyboards and mice ([src/src/drivers/usb_hid.c])

    [usb_hid_handle_report] decodes a boot-protocol report: a mouse report moves
    the pointer, a keyboard report is compared with the previous one and the
    differences become characters and events of [Keyboard].  [data] is the report
    with its [len] bytes.  Reading behind a table has no result ([None]). *)

From Stdlib Require Import ZArith Lia String.
From stdpp Require Import base numbers list.
From S2P Require Import Prelude Bytes Keyboard Mouse.

(** ** The code *)

Definition hid_to_ps2 : list Z :=
  [0;0;0;0;
   0x1E;0x30;0x2E;0x20; 0x12;0x21;0x22;0x23;
   0x17;0x24;0x25;0x26; 0x32;0x31;0x18;0x19;
   0x10;0x13;0x1F;0x14; 0x16;0x2F;0x11;0x2D;
   0x15;0x2C;
   0x02;0x03;0x04;0x05; 0x06;0x07;0x08;0x09;
   0x0A;0x0B;
   0x1C;0x01;0x0E;0x0F; 0x39;
   0x0C;0x0D;0x1A;0x1B; 0x2B;0x2B;0x27;0x28;
   0x29;0x33;0x34;0x35;
   0x3A;
   0x3B;0x3C;0x3D;0x3E; 0x3F;0x40;0x41;0x42;
   0x43;0x44;0x57;0x58;
   0;0x46;0;
   0xD2;0xC7;0xC9;0xD3; 0xCF;0xD1;0xCD;0xCB;
   0xD0;0xC8;
   0x45] ++ zeros 172.

Definition hid_to_ascii : list Z :=
  [0;0;0;0] ++ str "abcdefghijklmnopqrstuvwxyz1234567890" ++ [10;0;8;9;32] ++ str "-=[]\" ++ [0] ++ str ";'`,./".

Definition hid_to_ascii_shift : list Z :=
  [0;0;0;0] ++ str "ABCDEFGHIJKLMNOPQRSTUVWXYZ!@#$%^&*()" ++ [10;0;8;9;32] ++ str "_+{}|" ++ [0] ++ str ":" ++ [34] ++ str "~<>?".

(** The input devices together, with the static variables of the function. *)
Record hid := { kb : kbd; ms : mouse; prev_mod : Z; prev_keys : list Z }.
Definition with_kb (k : kbd) (h : hid) : hid := {| kb := k; ms := ms h; prev_mod := prev_mod h; prev_keys := prev_keys h |}.
Definition with_prev (m : Z) (ks : list Z) (h : hid) : hid := {| kb := kb h; ms := ms h; prev_mod := m; prev_keys := ks |}.

Definition bit_set (x m : Z) : bool := negb (Z.land x m =? 0).

(** The two tests for one modifier. *)
Definition mod_change (mod_ prev bit sc : Z) (k : kbd) : kbd :=
  let k := if (bit_set mod_ bit && negb (bit_set prev bit))%bool then push_event sc 1 k else k in
  if (negb (bit_set mod_ bit) && bit_set prev bit)%bool then push_event sc 0 k else k.

Definition mod_keys : list (Z * Z) := [(0x01, 0x1D); (0x02, 0x2A); (0x04, 0x38); (0x10, 0x1D); (0x20, 0x36); (0x40, 0x38)].
Definition mod_changes (mod_ prev : Z) (k : kbd) : kbd := foldl (fun k p => mod_change mod_ prev p.1 p.2 k) k mod_keys.

(** [sizeof(hid_to_ascii) + 4] *)
Definition ASCII_LIMIT : Z := Z.of_nat (length hid_to_ascii) + 4.

(** One key of the report that was not down before. *)
Definition new_key (shift ctrl : bool) (code : Z) (k : kbd) : option kbd :=
  if (ctrl && (code =? 0x06))%bool then Some (keyboard_set_ctrl_c (push_char 3 k)) else
  let k := if hid_to_ps2.[code] =? 0 then k else push_event hid_to_ps2.[code] 1 k in
  if ((4 <=? code) && (code <? ASCII_LIMIT))%bool then
    match (if shift then hid_to_ascii_shift else hid_to_ascii) !! Z.to_nat code with
    | None => None
    | Some c => Some (if c =? 0 then k else push_char c k)
    end
  else Some k.

Definition is_down (keys : list Z) (code : Z) : bool := existsb (fun x => x =? code) keys.

(** [for (i = 2; i < 8; i++)] over the keys of the report. *)
Fixpoint press_loop (shift ctrl : bool) (prev keys : list Z) (k : kbd) : option kbd :=
  match keys with
  | [] => Some k
  | code :: keys' =>
      if (code =? 0) || is_down prev code then press_loop shift ctrl prev keys' k else
      match new_key shift ctrl code k with None => None | Some k' => press_loop shift ctrl prev keys' k' end
  end%bool.

(** The loop over the keys that were down. *)
Definition release_loop (keys prev : list Z) (k : kbd) : kbd :=
  foldl (fun k code => if ((code =? 0) || is_down keys code || (hid_to_ps2.[code] =? 0))%bool then k else push_event hid_to_ps2.[code] 0 k) k prev.

Definition s8 (b : Z) : Z := if b <? 128 then b else b - 256.

Definition mouse_report (data : list Z) (m : mouse) : mouse :=
  if (length data <? 3)%nat then m else mouse_handle_event (s8 data.[1] * 3) (- s8 data.[2] * 3) data.[0] m.

Definition keyboard_report (data : list Z) (h : hid) : option hid :=
  if (length data <? 8)%nat then Some h else
  let mod_ := data.[0] in
  let k := mod_changes mod_ (prev_mod h) (kb h) in
  let shift := (bit_set mod_ 0x02 || bit_set mod_ 0x20)%bool in
  let ctrl := (bit_set mod_ 0x01 || bit_set mod_ 0x10)%bool in
  let keys := sub data 2 6 in
  match press_loop shift ctrl (prev_keys h) keys k with
  | None => None
  | Some k => Some (with_prev mod_ keys (with_kb (release_loop keys (prev_keys h) k) h))
  end.

(** [dev->type] 2 is a mouse. *)
Definition usb_hid_handle_report (type : Z) (data : list Z) (h : hid) : option hid :=
  if type =? 2 then Some {| kb := kb h; ms := mouse_report data (ms h); prev_mod := prev_mod h; prev_keys := prev_keys h |}
  else keyboard_report data h.

(** ** What a report types *)

Lemma push_event_typed e p k : typed (push_event e p k) = typed k.
Proof. done. Qed.

Lemma mod_changes_typed mod_ prev k : kbd_ok k -> kbd_ok (mod_changes mod_ prev k) /\ typed (mod_changes mod_ prev k) = typed k.
Proof.
  unfold mod_changes. revert k. induction mod_keys as [|p l IH]; intros k Hk; [done|]. cbn [foldl].
  assert (H : kbd_ok (mod_change mod_ prev p.1 p.2 k) /\ typed (mod_change mod_ prev p.1 p.2 k) = typed k).
  { unfold mod_change. repeat case_match; auto using push_event_ok. }
  destruct H as [H1 H2]. destruct (IH _ H1) as [H3 H4]. split; [done|]. congruence.
Qed.

Lemma release_loop_typed keys prev k : kbd_ok k -> kbd_ok (release_loop keys prev k) /\ typed (release_loop keys prev k) = typed k.
Proof.
  unfold release_loop. revert k. induction prev as [|p l IH]; intros k Hk; [done|]. cbn [foldl]. destruct (_ || _)%bool; [by apply IH|].
  destruct (IH (push_event hid_to_ps2.[p] 0 k)) as [H3 H4]; [by apply push_event_ok|]. done.
Qed.

(** The character a key stands for: 3 for Ctrl-C, 0 for none; [None] when the
    table is left. *)
Definition hid_char (shift ctrl : bool) (code : Z) : option Z :=
  if (ctrl && (code =? 0x06))%bool then Some 3 else
  if ((4 <=? code) && (code <? ASCII_LIMIT))%bool then (if shift then hid_to_ascii_shift else hid_to_ascii) !! Z.to_nat code else Some 0.

Lemma new_key_typed shift ctrl code k c : kbd_ok k -> hid_char shift ctrl code = Some c ->
  exists k', new_key shift ctrl code k = Some k' /\ kbd_ok k' /\ typed k' = if c =? 0 then typed k else queue_push 256 c (typed k).
Proof.
  intros Hk. unfold hid_char, new_key. destruct (ctrl && _)%bool.
  { intros [= <-]. eexists. split; [done|]. split; [by apply with_ctrl_c_ok, push_char_ok|]. simpl. by apply typed_push_char. }
  set (k1 := if hid_to_ps2.[code] =? 0 then k else _). assert (Hk1 : kbd_ok k1 /\ typed k1 = typed k).
  { unfold k1. destruct (_ =? 0); [done|]. by split; [apply push_event_ok|]. }
  destruct Hk1 as [Hk1 <-]. destruct (_ && _)%bool.
  - destruct (_ !! _) as [x|]; [|done]. intros [= ->]. eexists. split; [done|]. destruct (c =? 0); [done|]. split; [by apply push_char_ok|by apply typed_push_char].
  - intros [= <-]. eexists. done.
Qed.

(** The keys of a report that are new, and the text they type: keys without a
    character type nothing. *)
Definition new_keys (prev keys : list Z) : list Z := filter (fun code => code <> 0 /\ is_down prev code = false) keys.
Definition report_text (shift ctrl : bool) (codes : list Z) : list Z :=
  filter (fun c => c <> 0) (map (fun code => default 0 (hid_char shift ctrl code)) codes).

Lemma press_loop_typed shift ctrl prev keys k :
  kbd_ok k -> Forall (fun code => is_Some (hid_char shift ctrl code)) (new_keys prev keys) ->
  (length (typed k) + length (report_text shift ctrl (new_keys prev keys)) <= 255)%nat ->
  exists k', press_loop shift ctrl prev keys k = Some k' /\ kbd_ok k' /\ typed k' = typed k ++ report_text shift ctrl (new_keys prev keys).
Proof.
  revert k. induction keys as [|code keys IH]; intros k Hk Hf Hl; [exists k; split_and!; try done; by rewrite app_nil_r|]. cbn [press_loop].
  unfold new_keys in *. rewrite filter_cons in *. destruct (Z.eqb_spec code 0) as [->|Hc]; cbn [orb].
  { rewrite decide_False in * by naive_solver. by apply IH. }
  destruct (is_down prev code) eqn:E; [rewrite decide_False in * by naive_solver; by apply IH|].
  rewrite decide_True in * by done. apply Forall_cons in Hf as [[c Hch] Hf].
  destruct (new_key_typed shift ctrl code k c Hk Hch) as (k1 & -> & Hk1 & Ht1). unfold report_text in *. cbn [map] in *. rewrite Hch in *. cbn [default from_option id] in *.
  rewrite filter_cons in *. destruct (Z.eqb_spec c 0) as [->|Hc0].
  - rewrite decide_False in * by naive_solver. rewrite <- Ht1. apply IH; try done. by rewrite Ht1.
  - rewrite decide_True in * by done. cbn [length] in Hl. assert (Hq : typed k1 = typed k ++ [c]).
    { rewrite Ht1. unfold queue_push. by rewrite (proj2 (Z.ltb_lt _ _)) by lia. }
    destruct (IH k1 Hk1 Hf) as (k' & E' & Hk' & Ht'); [rewrite Hq, length_app; simpl; lia|].
    exists k'. split_and!; try done. rewrite Ht', Hq, <- app_assoc. done.
Qed.

Definition hid_shift (data : list Z) : bool := (bit_set data.[0] 0x02 || bit_set data.[0] 0x20)%bool.
Definition hid_ctrl (data : list Z) : bool := (bit_set data.[0] 0x01 || bit_set data.[0] 0x10)%bool.

(** [hid_report_types_new_keys]: a keyboard report types exactly the characters of
    the keys that were not down in the previous report, in the order of the report
    and with the Shift and Ctrl of this one; held keys are not repeated. *)
Theorem hid_report_types_new_keys type data h :
  kbd_ok (kb h) -> type <> 2 -> (8 <= length data)%nat ->
  let keys := sub data 2 6 in
  let text := report_text (hid_shift data) (hid_ctrl data) (new_keys (prev_keys h) keys) in
  Forall (fun code => is_Some (hid_char (hid_shift data) (hid_ctrl data) code)) (new_keys (prev_keys h) keys) ->
  (length (typed (kb h)) + length text <= 255)%nat ->
  exists h', usb_hid_handle_report type data h = Some h' /\ kbd_ok (kb h') /\ typed (kb h') = typed (kb h) ++ text
    /\ prev_keys h' = keys /\ prev_mod h' = data.[0] /\ ms h' = ms h.
Proof.
  intros Hk Hty Hlen keys text Hf Hl. unfold usb_hid_handle_report. rewrite (proj2 (Z.eqb_neq type 2) Hty). unfold keyboard_report.
  rewrite (proj2 (Nat.ltb_ge _ _) Hlen). fold (hid_shift data) (hid_ctrl data) keys.
  destruct (mod_changes_typed data.[0] (prev_mod h) (kb h) Hk) as [Hk1 Ht1]. set (k1 := mod_changes _ _ _) in *.
  destruct (press_loop_typed (hid_shift data) (hid_ctrl data) (prev_keys h) keys k1 Hk1 Hf) as (k2 & -> & Hk2 & Ht2); [by rewrite Ht1|].
  destruct (release_loop_typed keys (prev_keys h) k2 Hk2) as [Hk3 Ht3]. eexists. split; [done|]. simpl. split_and!; try done. by rewrite Ht3, Ht2, Ht1.
Qed.

Definition hid_start : hid := {| kb := kbd_init; ms := mouse_start; prev_mod := 0; prev_keys := zeros 6 |}.

Lemma hid_report_types_new_keys_witness :
  exists h', usb_hid_handle_report 1 [2; 0; 4; 5; 0; 0; 0; 0] hid_start = Some h' /\ typed (kb h') = str "AB".
Proof.
  destruct (hid_report_types_new_keys 1 [2; 0; 4; 5; 0; 0; 0; 0] hid_start) as (h' & E & _ & T & _).
  - exact kbd_init_ok.
  - done.
  - simpl. lia.
  - repeat constructor; vm_compute; eauto.
  - vm_compute. lia.
  - exists h'. split; [exact E|]. rewrite T. reflexivity.
Defined.

(** Caps Lock and F1 to F3 pass the test of the index and are read behind the
    table of characters. *)
Theorem hid_reads_past_table code : In code [57; 58; 59; 60] -> usb_hid_handle_report 1 [0; 0; code; 0; 0; 0; 0; 0] hid_start = None.
Proof. intros [<-|[<-|[<-|[<-|[]]]]]; vm_compute; reflexivity. Qed.
