(* ===== verification/Kern.v ===== *)
(** * The state behind the system calls ([src/src/kernel/core/syscall.c])

    Everything a system call works on: the tasks, descriptors and memory of
    [Pipe], the keyboard and the mouse, the terminal settings, and the mounted
    file systems.  [W] is the state of the file systems and [N] the type of their
    nodes, as in [Vfs].  Nodes are heap records that descriptors point to, so they
    are kept by address: two descriptors made by [sys_dup] share one. *)

From Stdlib Require Import ZArith Lia.
From stdpp Require Import base numbers list gmap.
From S2P Require Import Prelude Bytes Pmm Kheap Vmm Usercopy Task Pipe Sdfs Vfs Keyboard Mouse.

(** [struct termios] *)
Record termios := { c_iflag : Z; c_oflag : Z; c_cflag : Z; c_lflag : Z; c_cc : list Z }.

Definition NCCS : nat := 32.
Definition BRKINT : Z := 0x0001.
Definition ICRNL : Z := 0x0002.
Definition IXON : Z := 0x0010.
Definition OPOST : Z := 0x0001.
Definition CS8 : Z := 0x0030.
Definition ECHO : Z := 0x0001.
Definition ICANON : Z := 0x0002.
Definition ISIG : Z := 0x0004.
Definition IEXTEN : Z := 0x0008.
Definition VMIN : Z := 6.
Definition VTIME : Z := 5.

(** The value of [kernel_termios] after [init_syscalls]. *)
Definition init_termios : termios :=
  {| c_iflag := Z.lor BRKINT (Z.lor ICRNL IXON); c_oflag := OPOST; c_cflag := CS8;
     c_lflag := Z.lor ECHO (Z.lor ICANON (Z.lor ISIG IEXTEN)); c_cc := (zeros NCCS).[VMIN <- 1].[VTIME <- 0] |}.

Record kern (W N : Type) := {
  sy : sys;
  keys : kbd;
  pointer : mouse;
  (** bytes received by the serial port; bytes shown by [vga_putc] and sent by
      [write_serial] *)
  serial_in : list Z;
  console : list Z;
  kernel_termios : termios;
  stdin_esc_buf : list Z;
  stdin_esc_len : Z;
  stdin_esc_pos : Z;
  mnt : vfs N;
  fsw : W;
  nodes : gmap Z N;
  (** the address of the next node a file system allocates *)
  next_node : Z
}.
Arguments sy {W N}. Arguments keys {W N}. Arguments pointer {W N}. Arguments serial_in {W N}. Arguments console {W N}.
Arguments kernel_termios {W N}. Arguments stdin_esc_buf {W N}. Arguments stdin_esc_len {W N}. Arguments stdin_esc_pos {W N}.
Arguments mnt {W N}. Arguments fsw {W N}. Arguments nodes {W N}. Arguments next_node {W N}. Arguments Build_kern {W N}.

Section Kern.
Context {W N : Type}.
Abbreviation kern := (kern W N).
Implicit Types s : kern.

Definition set_sy v s : kern := Build_kern v (keys s) (pointer s) (serial_in s) (console s) (kernel_termios s) (stdin_esc_buf s) (stdin_esc_len s) (stdin_esc_pos s) (mnt s) (fsw s) (nodes s) (next_node s).
Definition set_keys v s : kern := Build_kern (sy s) v (pointer s) (serial_in s) (console s) (kernel_termios s) (stdin_esc_buf s) (stdin_esc_len s) (stdin_esc_pos s) (mnt s) (fsw s) (nodes s) (next_node s).
Definition set_serial_in v s : kern := Build_kern (sy s) (keys s) (pointer s) v (console s) (kernel_termios s) (stdin_esc_buf s) (stdin_esc_len s) (stdin_esc_pos s) (mnt s) (fsw s) (nodes s) (next_node s).
Definition set_console v s : kern := Build_kern (sy s) (keys s) (pointer s) (serial_in s) v (kernel_termios s) (stdin_esc_buf s) (stdin_esc_len s) (stdin_esc_pos s) (mnt s) (fsw s) (nodes s) (next_node s).
Definition set_termios v s : kern := Build_kern (sy s) (keys s) (pointer s) (serial_in s) (console s) v (stdin_esc_buf s) (stdin_esc_len s) (stdin_esc_pos s) (mnt s) (fsw s) (nodes s) (next_node s).
Definition set_esc (b : list Z) (len pos : Z) s : kern := Build_kern (sy s) (keys s) (pointer s) (serial_in s) (console s) (kernel_termios s) b len pos (mnt s) (fsw s) (nodes s) (next_node s).
Definition set_fsw v s : kern := Build_kern (sy s) (keys s) (pointer s) (serial_in s) (console s) (kernel_termios s) (stdin_esc_buf s) (stdin_esc_len s) (stdin_esc_pos s) (mnt s) v (nodes s) (next_node s).
Definition set_nodes v p s : kern := Build_kern (sy s) (keys s) (pointer s) (serial_in s) (console s) (kernel_termios s) (stdin_esc_buf s) (stdin_esc_len s) (stdin_esc_pos s) (mnt s) (fsw s) v p.

(** Calls on a part of the state. *)
Definition in_sys {A} (m : M sys A) : M kern A := fun s =>
  match m (sy s) with Some (a, v) => Some (a, set_sy v s) | None => None end.
Definition in_fs {A} (m : M W A) : M kern A := fun s =>
  match m (fsw s) with Some (a, v) => Some (a, set_fsw v s) | None => None end.
Definition in_keys {A} (f : kbd -> A * kbd) : M kern A := fun s =>
  let '(a, k) := f (keys s) in Some (a, set_keys k s).

Lemma in_sys_run {A} (m : M sys A) s a v : m (sy s) = Some (a, v) -> in_sys m s = Some (a, set_sy v s).
Proof. unfold in_sys. by intros ->. Qed.
Lemma in_fs_run {A} (m : M W A) s a v : m (fsw s) = Some (a, v) -> in_fs m s = Some (a, set_fsw v s).
Proof. unfold in_fs. by intros ->. Qed.

(** The running task; [None] is NULL. *)
Definition running s : option task := if current_task (ks (sy s)) =? 0 then None else tasks (ks (sy s)) !! current_task (ks (sy s)).

(** ** Interrupts that feed the terminal

    [ctrl_c_pending] is one variable of the program; [Task] and [Keyboard] each
    show it. *)

Inductive input := KeyCode (sc : Z) | SerialByte (b : Z).

Definition isig_on s : bool := negb (Z.land (c_lflag (kernel_termios s)) ISIG =? 0).

Definition key_interrupt (sc : Z) s : kern :=
  let k := with_ctrl_c (Task.ctrl_c_pending (ks (sy s))) (keys s) in
  let k := keyboard_handler (isig_on s) sc k in
  set_sy (set_ks (set_ctrl_c_pending (Keyboard.ctrl_c_pending k) (ks (sy s))) (sy s)) (set_keys k s).

Definition interrupt s (i : input) : kern :=
  match i with
  | KeyCode sc => key_interrupt sc s
  | SerialByte b => set_serial_in (serial_in s ++ [b]) s
  end.
End Kern.
