(* ===== verification/Tty.v ===== *)
(** * The terminal behind descriptors 0, 1 and 2
    ([src/src/kernel/core/syscall.c], [src/include/uapi/termios.h])

    The stdin branch of [sys_read] with its line discipline, console output of
    [sys_write], and the termios calls.  The loops that wait for a key take the
    list of what the interrupts deliver in each round; [None] is the result when
    the list ends and the call still waits. *)

From Stdlib Require Import ZArith Lia String.
From stdpp Require Import base numbers list gmap.
From S2P Require Import Prelude Bytes Pmm Kheap Vmm Usercopy Task Pipe PipeFifo Sdfs Vfs Keyboard Mouse Kern.

Section Tty.
Context {W N : Type}.
Abbreviation kern := (kern W N).
Implicit Types s : kern.

(** ** Reading the keyboard *)

Definition serial_pop_char : M kern (option Z) := fun s =>
  match serial_in s with [] => Some (None, s) | b :: l => Some (Some b, set_serial_in l s) end.

(** [keyboard_pop_char(&c) || serial_pop_char(&c)] *)
Definition pop_input : M kern (option Z) :=
  c <-- in_keys keyboard_pop_char ;;
  match c with Some c => mret_ (Some c) | None => serial_pop_char end.

Inductive wait_result := GotChar (c : Z) | TimedOut | StillWaiting.

(** The elapsed ticks reach [limit]. *)
Definition expired (timeout : option (Z * Z)) (now : Z) : bool :=
  match timeout with None => false | Some (start, limit) => limit <=? s32 (u32 (now - start)) end.

Fixpoint wait_input (timeout : option (Z * Z)) (rounds : list (list input)) : M kern wait_result :=
  c <-- pop_input ;;
  match c with
  | Some c => mret_ (GotChar c)
  | None =>
      now <-- mgets (fun s => ticks (ks (sy s))) ;;
      if expired timeout now then mret_ TimedOut else
      match rounds with
      | [] => mret_ StillWaiting
      | r :: rounds' =>
          mmodify (fun s => foldl interrupt s r) ;;;
          in_sys (in_sched switch_task) ;;;
          wait_input timeout rounds'
      end
  end.

Definition flag_on (flags f : Z) : bool := negb (Z.land flags f =? 0).

(** The three ways to wait. *)
Definition get_char (rounds : list (list input)) : M kern wait_result :=
  t <-- mgets kernel_termios ;;
  let icanon := flag_on (c_lflag t) ICANON in
  let vmin := (c_cc t).[VMIN] in
  let vtime := (c_cc t).[VTIME] in
  if (negb icanon && (vmin =? 0) && (vtime =? 0))%bool then
    c <-- pop_input ;; mret_ (match c with Some c => GotChar c | None => TimedOut end)
  else if (negb icanon && (vmin =? 0))%bool then
    start <-- mgets (fun s => ticks (ks (sy s))) ;;
    wait_input (Some (start, vtime * 10)) rounds
  else wait_input None rounds.

(** ** [sys_read] on descriptor 0 *)

Definition echo (c : Z) : M kern unit := mmodify (fun s => set_console (console s ++ [c]) s).

Definition give_byte (buf c : Z) : M kern Z :=
  r <-- in_sys (to_user buf [c]) ;; mret_ (if r <? 0 then - EFAULT else 1).

(** Ctrl-C kills the running process. *)
Definition interrupt_process : M kern Z :=
  t <-- mgets running ;;
  let my_pid := match t with Some t => t_id t | None => -1 end in
  mwhen (0 <? my_pid) (in_sys (in_sched (sys_kill_by_pid my_pid)) ;;; in_sys (in_sched switch_task)) ;;;
  mret_ (-1).

(** The escape sequence of an arrow key. *)
Definition esc_seq (c : Z) : option (list Z) :=
  if c =? 128 then Some [0x1B; 91; 65] else if c =? 129 then Some [0x1B; 91; 66]
  else if c =? 130 then Some [0x1B; 91; 68] else if c =? 131 then Some [0x1B; 91; 67] else None.

Definition deliver (buf c : Z) : M kern Z :=
  t <-- mgets kernel_termios ;;
  let c := if (flag_on (c_iflag t) ICRNL && (c =? 13))%bool then 10 else c in
  let isig := flag_on (c_lflag t) ISIG in
  if (isig && (c =? 3))%bool then interrupt_process else
  if flag_on (c_lflag t) ICANON then echo c ;;; give_byte buf c else
  mwhen (flag_on (c_lflag t) ECHO) (echo c) ;;;
  match esc_seq c with
  | Some seq =>
      mmodify (fun s => set_esc (splice (stdin_esc_buf s) 0 seq) (Z.of_nat (length seq)) 1 s) ;;;
      give_byte buf seq.[0]
  | None => give_byte buf c
  end.

(** The bytes of an escape sequence that are still to be delivered. *)
Definition drain_esc (buf : Z) : M kern Z :=
  s <-- mgets id ;;
  let bc := (stdin_esc_buf s).[stdin_esc_pos s] in
  let pos := stdin_esc_pos s + 1 in
  mmodify (set_esc (stdin_esc_buf s) (stdin_esc_len s) pos) ;;;
  r <-- in_sys (to_user buf [bc]) ;;
  if r <? 0 then mret_ (- EFAULT) else
  mwhen (stdin_esc_len s <=? pos) (mmodify (set_esc (stdin_esc_buf s) 0 0)) ;;;
  mret_ 1.

Definition sys_read_stdin (buf count : Z) (rounds : list (list input)) : M kern (option Z) :=
  if count =? 0 then mret_ (Some 0) else
  s <-- mgets id ;;
  if stdin_esc_pos s <? stdin_esc_len s then r <-- drain_esc buf ;; mret_ (Some r) else
  w <-- get_char rounds ;;
  match w with
  | StillWaiting => mret_ None
  | TimedOut => mret_ (Some 0)
  | GotChar c => r <-- deliver buf c ;; mret_ (Some r)
  end.

(** ** [sys_write] on descriptors 1 and 2 *)

Fixpoint console_loop (buf done count : Z) (fuel : nat) : M kern Z :=
  if count <=? done then mret_ count else
  match fuel with
  | O => mstop
  | S fuel =>
      let chunk := if count - done <? TMP_SIZE then count - done else TMP_SIZE in
      tmp <-- in_sys (from_user (u64 (buf + done)) chunk) ;;
      match tmp with
      | None => mret_ (- EFAULT)
      | Some tmp =>
          mmodify (fun s => set_console (console s ++ tmp) s) ;;;
          console_loop buf (done + chunk) count fuel
      end
  end.

Definition sys_write_console (buf count : Z) : M kern Z := console_loop buf 0 count (Z.to_nat count).

(** ** termios *)

(** The bytes of a [struct termios]. *)
Definition termios_bytes (t : termios) : list Z :=
  le_bytes 4 (c_iflag t) ++ le_bytes 4 (c_oflag t) ++ le_bytes 4 (c_cflag t) ++ le_bytes 4 (c_lflag t) ++ c_cc t.
Definition SIZEOF_TERMIOS : Z := 48.
Definition termios_of (b : list Z) : termios :=
  {| c_iflag := get32 b 0; c_oflag := get32 b 4; c_cflag := get32 b 8; c_lflag := get32 b 12; c_cc := sub b 16 NCCS |}.

Definition sys_tcgetattr (t : Z) : M kern Z :=
  if t =? 0 then mret_ (-1) else
  kt <-- mgets kernel_termios ;;
  r <-- in_sys (to_user t (termios_bytes kt)) ;;
  mret_ (if r <? 0 then - EFAULT else 0).

Definition sys_tcsetattr (t : Z) : M kern Z :=
  if t =? 0 then mret_ (-1) else
  kt <-- in_sys (from_user t SIZEOF_TERMIOS) ;;
  match kt with
  | None => mret_ (- EFAULT)
  | Some b => mmodify (set_termios (termios_of b)) ;;; mret_ 0
  end.

Definition TCGETS : Z := 0x5401.
Definition TCSETS : Z := 0x5402.
Definition TCSETSW : Z := 0x5403.
Definition TCSETSF : Z := 0x5404.
Definition TIOCGWINSZ : Z := 0x5413.

(** 25 rows, 80 columns, no pixel sizes. *)
Definition winsize : list Z := le_bytes 2 25 ++ le_bytes 2 80 ++ le_bytes 2 0 ++ le_bytes 2 0.

Definition sys_ioctl (request argp : Z) : M kern Z :=
  if request =? TCGETS then sys_tcgetattr argp else
  if ((request =? TCSETS) || (request =? TCSETSW) || (request =? TCSETSF))%bool then sys_tcsetattr argp else
  if ((request =? TIOCGWINSZ) && negb (argp =? 0))%bool then
    r <-- in_sys (to_user argp winsize) ;; mret_ (if r <? 0 then - EFAULT else 0)
  else mret_ (-1).
End Tty.

(** ** One byte *)

Section Reads.
Context {W N : Type}.
Abbreviation kern := (kern W N).
Implicit Types s : kern.

Definition with_umem (m : gmap Z Z) s : kern := set_sy (set_umem m (sy s)) s.

Lemma mapped_byte (v : sys) a : mapped v a 1 -> u64 a = a.
Proof. intros (H1 & H2 & _). unfold USER_ADDR_MIN, USER_ADDR_MAX in *. apply u64_small. lia. Qed.

Lemma give_byte_run s a c : mapped (sy s) a 1 -> give_byte a c s = Some (1, with_umem (write_bytes (umem (sy s)) a [c]) s).
Proof.
  intros Hm. unfold give_byte, mbind_. rewrite (in_sys_run _ s 0 (set_umem (write_bytes (umem (sy s)) a [c]) (sy s))); [done|].
  pose proof (to_user_mapped (sy s) a 1 0 [c] Hm) as H. rewrite Z.add_0_r, (mapped_byte (sy s)) in H by done. apply H; [lia|done|simpl; lia].
Qed.

(** Nothing of an escape sequence is pending. *)
Definition esc_idle s : Prop := stdin_esc_len s <= stdin_esc_pos s.

Definition cooked s : Prop := flag_on (c_lflag (kernel_termios s)) ICANON = true.

Lemma pop_input_key s c q : kbd_ok (keys s) -> typed (keys s) = c :: q ->
  exists k, pop_input s = Some (Some c, set_keys k s) /\ kbd_ok k /\ typed k = q.
Proof.
  intros Hk Ht. pose proof (pop_char_typed (keys s) Hk) as H. rewrite Ht in H. destruct H as (k & E & Hk' & Ht').
  exists k. split; [|done]. unfold pop_input, mbind_, in_keys. by rewrite E.
Qed.

Lemma wait_input_now s timeout rounds c s1 : pop_input s = Some (Some c, s1) -> wait_input timeout rounds s = Some (GotChar c, s1).
Proof. intros H. destruct rounds; cbn [wait_input]; unfold mbind_; by rewrite H. Qed.

Lemma get_char_now s rounds c s1 : pop_input s = Some (Some c, s1) -> get_char rounds s = Some (GotChar c, s1).
Proof.
  intros H. unfold get_char, mbind_, mgets. destruct (negb _ && _ && _)%bool; [by rewrite H|]. destruct (negb _ && _)%bool; by apply wait_input_now.
Qed.

(** What the reader gets for a typed character. *)
Definition line_char (t : termios) (c : Z) : Z := if (flag_on (c_iflag t) ICRNL && (c =? 13))%bool then 10 else c.

Definition no_interrupt (t : termios) (c : Z) : Prop := (flag_on (c_lflag t) ISIG && (line_char t c =? 3))%bool = false.

Lemma read_one_cooked s a c q rounds :
  kbd_ok (keys s) -> typed (keys s) = c :: q -> esc_idle s -> cooked s -> no_interrupt (kernel_termios s) c -> mapped (sy s) a 1 ->
  let x := line_char (kernel_termios s) c in
  exists k, sys_read_stdin a 1 rounds s
      = Some (Some 1, with_umem (write_bytes (umem (sy s)) a [x]) (set_console (console s ++ [x]) (set_keys k s)))
    /\ kbd_ok k /\ typed k = q.
Proof.
  intros Hk Ht He Hc Hi Hm x. destruct (pop_input_key s c q Hk Ht) as (k & Hp & Hk' & Ht'). exists k. split; [|done].
  unfold sys_read_stdin. change (1 =? 0) with false. cbv iota. unfold mbind_ at 1, mgets at 1. cbn [id].
  rewrite (proj2 (Z.ltb_ge _ _) He). unfold mbind_ at 1. rewrite (get_char_now s rounds c _ Hp).
  unfold deliver, mbind_, mgets. cbn [kernel_termios set_keys]. fold (line_char (kernel_termios s) c). fold x.
  unfold no_interrupt in Hi. fold x in Hi. rewrite Hi. unfold cooked in Hc. rewrite Hc.
  unfold echo, mmodify. rewrite give_byte_run by done. done.
Qed.

(** [n] reads of one byte into consecutive cells. *)
Fixpoint read_each (a : Z) (n : nat) : M kern (list (option Z)) :=
  match n with
  | O => mret_ []
  | S n' => r <-- sys_read_stdin a 1 [] ;; rs <-- read_each (a + 1) n' ;; mret_ (r :: rs)
  end.

Lemma mapped_same (v v' : sys) a n : user_vm v' = user_vm v -> mapped v a n -> mapped v' a n.
Proof. unfold mapped. by intros ->. Qed.

Lemma read_each_cooked a text s rest :
  kbd_ok (keys s) -> typed (keys s) = text ++ rest -> esc_idle s -> cooked s -> Forall (no_interrupt (kernel_termios s)) text ->
  mapped (sy s) a (Z.of_nat (length text)) ->
  let line := map (line_char (kernel_termios s)) text in
  exists k, read_each a (length text) s
      = Some (replicate (length text) (Some 1), with_umem (write_bytes (umem (sy s)) a line) (set_console (console s ++ line) (set_keys k s)))
    /\ kbd_ok k /\ typed k = rest.
Proof.
  revert a s. induction text as [|c text IH]; intros a s Hk Ht He Hc Hi Hm line.
  - exists (keys s). split; [|done]. unfold line. cbn. rewrite app_nil_r. by destruct s as [[] ? ? ? ? ? ? ? ? ? ? ? ?].
  - apply Forall_cons in Hi as [Hi1 Hi2]. assert (Hm1 : mapped (sy s) a 1).
    { destruct Hm as (H1 & H2 & H3). simpl length in *. split_and!; [done|lia|]. intros x Hx. apply H3. lia. }
    assert (Hm2 : mapped (sy s) (a + 1) (Z.of_nat (length text))).
    { destruct Hm as (H1 & H2 & H3). simpl length in *. split_and!; [lia|lia|]. intros x Hx. apply H3. lia. }
    destruct (read_one_cooked s a c (text ++ rest) [] Hk Ht He Hc Hi1 Hm1) as (k & E & Hk' & Ht').
    destruct (IH (a + 1) (with_umem (write_bytes (umem (sy s)) a [line_char (kernel_termios s) c])
       (set_console (console s ++ [line_char (kernel_termios s) c]) (set_keys k s)))) as (k2 & E2 & Hk2 & Ht2); try done.
    exists k2. split; [|done]. cbn [read_each length]. unfold mbind_ at 1. rewrite E. unfold mbind_ at 1. rewrite E2. unfold mret_, line.
    cbn [kernel_termios with_umem set_console set_keys set_sy sy umem set_umem console map]. rewrite <- app_assoc. cbn [app].
    change (a + 1) with (a + Z.of_nat (length [line_char (kernel_termios s) c])). by rewrite write_bytes_app.
Qed.
End Reads.

(** ** From the keyboard to the reader *)

Lemma handler_ctrl_c isig sc v k : exists v', keyboard_handler isig sc (with_ctrl_c v k) = with_ctrl_c v' (keyboard_handler isig sc k).
Proof.
  assert (Hem : forall c v k, emit c (with_ctrl_c v k) = with_ctrl_c v (emit c k)) by (intros c u k0; unfold emit; by destruct (c =? 0)).
  unfold keyboard_handler, handle_release, handle_extended, handle_press. destruct (sc =? 0xE0); [by exists v|].
  destruct (negb _); [exists v; cbv zeta; repeat match goal with |- context [if ?b then _ else _] => destruct b end; done|]. cbv zeta.
  change (with_key_state (<[Z.to_nat sc:=true]> (key_state (with_ctrl_c v k))) (with_ctrl_c v k))
    with (with_ctrl_c v (with_key_state (<[Z.to_nat sc:=true]> (key_state k)) k)).
  set (k1 := with_key_state _ k). change (extended (with_ctrl_c v k1)) with (extended k1). destruct (extended k1).
  - exists v. destruct (_ || _)%bool; change (with_win_key true (with_ctrl_c v k1)) with (with_ctrl_c v (with_win_key true k1)); by rewrite Hem.
  - change (ctrl_pressed (with_ctrl_c v k1)) with (ctrl_pressed k1). change (key_char (with_ctrl_c v k1) sc) with (key_char k1 sc).
    destruct (sc =? 0x1D); [by exists v|]. destruct (_ || _)%bool; [by exists v|]. destruct (sc =? 0x38); [by exists v|].
    destruct (sc =? 0x0F).
    { exists v. change (with_win_key true (with_ctrl_c v k1)) with (with_ctrl_c v (with_win_key true k1)). by rewrite Hem. }
    destruct (_ && _)%bool; [|exists v; by rewrite Hem]. destruct isig; [|exists v; by rewrite Hem]. exists true. by rewrite Hem.
Qed.

Section Typing.
Context {W N : Type}.
Abbreviation kern := (kern W N).
Implicit Types s : kern.

(** Interrupts of the keyboard change the keyboard and the Ctrl-C flag. *)
Lemma key_interrupts s codes : exists v u,
  foldl interrupt s (map KeyCode codes)
  = set_sy (set_ks (set_ctrl_c_pending u (ks (sy s))) (sy s)) (set_keys (with_ctrl_c v (type_codes (isig_on s) codes (keys s))) s).
Proof.
  revert s. induction codes as [|sc codes IH]; intros s; cbn [map foldl].
  - exists (Keyboard.ctrl_c_pending (keys s)), (Task.ctrl_c_pending (ks (sy s))). destruct s as [[[] ? ?] [] ? ? ? ? ? ? ? ? ? ? ?]. done.
  - destruct (IH (interrupt s (KeyCode sc))) as (v & u & ->). cbn [interrupt]. unfold key_interrupt. cbv zeta.
    destruct (handler_ctrl_c (isig_on s) sc (Task.ctrl_c_pending (ks (sy s))) (keys s)) as [w Hw]. rewrite Hw. cbn [keys set_sy set_keys sy ks set_ks].
    change (isig_on (set_sy _ _)) with (isig_on s). unfold type_codes at 2. cbn [foldl].
    assert (Hc : forall codes w k, exists w', type_codes (isig_on s) codes (with_ctrl_c w k) = with_ctrl_c w' (type_codes (isig_on s) codes k)).
    { clear. induction codes as [|x codes IH]; intros w k; [by exists w|]. unfold type_codes in *. cbn [foldl].
      destruct (handler_ctrl_c (isig_on s) x w k) as [w' ->]. apply IH. }
    destruct (Hc codes w (keyboard_handler (isig_on s) sc (keys s))) as [w' ->]. exists v, u. done.
Qed.

(** A character that has a key is neither Ctrl-C nor a carriage return. *)
Lemma key_for_plain l c : is_Some (key_for l c) -> c <> 3 /\ c <> 13.
Proof.
  assert (H : key_for l 3 = None /\ key_for l 13 = None) by (destruct l; split; by_vm). destruct H as [H1 H2].
  intros [p Hp]. split; intros ->; congruence.
Qed.

(** C13: what is typed is what a process reads: after the interrupts for the keys
    of a text, [sys_read] calls on standard input in the cooked mode return its
    characters one by one, in order, to the memory of the process, echo them on the
    console, and leave nothing behind. *)
Theorem typed_text_reaches_reader l text s a :
  kbd_ok (keys s) -> typed (keys s) = [] -> at_rest false (keys s) -> current_layout (keys s) = l ->
  Forall (fun c => is_Some (key_for l c)) text -> (length text <= 255)%nat -> esc_idle s -> cooked s ->
  mapped (sy s) a (Z.of_nat (length text)) ->
  let s1 := foldl interrupt s (map KeyCode (concat (map (strokes l) text))) in
  exists s2, read_each a (length text) s1 = Some (replicate (length text) (Some 1), s2)
    /\ user_bytes (umem (sy s2)) a (Z.of_nat (length text)) = text
    /\ console s2 = console s ++ text /\ typed (keys s2) = [].
Proof.
  intros Hk Ht Hr Hl Hc Hlen He Hcook Hm s1. destruct (key_interrupts s (concat (map (strokes l) text))) as (v & u & E1). fold s1 in E1.
  destruct (keyboard_types_text (isig_on s) l text (keys s) Hk Hr Hl Hc) as (Hk1 & _ & _ & Ht1 & _); [rewrite Ht; simpl; lia|].
  set (k1 := type_codes _ _ _) in *.
  assert (Hplain : Forall (fun c => c <> 3 /\ c <> 13) text) by (eapply Forall_impl; [exact Hc|]; apply key_for_plain).
  assert (Hline : map (line_char (kernel_termios s1)) text = text).
  { rewrite <- (map_id text) at 2. apply map_ext_Forall. eapply Forall_impl; [exact Hplain|]. intros c [_ H13].
    unfold line_char. by rewrite (proj2 (Z.eqb_neq c 13)), andb_false_r by done. }
  assert (Hint : Forall (no_interrupt (kernel_termios s1)) text).
  { eapply Forall_impl; [exact Hplain|]. intros c [H3 H13]. unfold no_interrupt, line_char.
    rewrite (proj2 (Z.eqb_neq c 13)), andb_false_r by done. by rewrite (proj2 (Z.eqb_neq c 3)), andb_false_r by done. }
  destruct (read_each_cooked a text s1 []) as (k2 & E2 & Hk2 & Ht2).
  - rewrite E1. simpl. by apply with_ctrl_c_ok.
  - rewrite E1, app_nil_r. simpl. change (typed (with_ctrl_c v k1)) with (typed k1). by rewrite Ht1, Ht.
  - by rewrite E1.
  - by rewrite E1.
  - exact Hint.
  - by rewrite E1.
  - rewrite Hline in E2. eexists. split; [exact E2|]. cbn [sy with_umem set_sy umem set_umem console set_console keys set_keys]. split_and!; [|by rewrite E1|done].
    apply user_bytes_write.
Qed.
End Typing.

(** ** A machine *)

Definition kern_demo : kern unit unit :=
  {| sy := sys_demo pipe_demo; keys := with_layout KB_LAYOUT_US kbd_init; pointer := mouse_start; serial_in := []; console := [];
     kernel_termios := init_termios; stdin_esc_buf := zeros 8; stdin_esc_len := 0; stdin_esc_pos := 0;
     mnt := {| fs_root := None; mounts := [] |}; fsw := tt; nodes := ∅; next_node := 0x4000 |}.

Lemma kern_demo_mapped n : 0 < n <= 256 -> mapped (sy kern_demo) 0x5000 n.
Proof.
  intros Hn. assert (H : mapped (sy kern_demo) 0x5000 256) by (apply mapped_validate; [by_compute|lia|by_vm]).
  destruct H as (H1 & H2 & H3). split_and!; [done|lia|]. intros x Hx. apply H3. lia.
Qed.

Lemma typed_text_reaches_reader_witness :
  exists s2, read_each 0x5000 5 (foldl interrupt kern_demo (map KeyCode (concat (map (strokes KB_LAYOUT_US) (str "ls; X")))))
      = Some (replicate 5 (Some 1), s2) /\ user_bytes (umem (sy s2)) 0x5000 5 = str "ls; X".
Proof.
  destruct (typed_text_reaches_reader KB_LAYOUT_US (str "ls; X") kern_demo 0x5000) as (s2 & E & M & _).
  - destruct kbd_init_ok. by constructor.
  - reflexivity.
  - done.
  - reflexivity.
  - repeat constructor; vm_compute; eauto.
  - simpl. lia.
  - unfold esc_idle. simpl. lia.
  - reflexivity.
  - by apply kern_demo_mapped.
  - exists s2. split; [exact E|exact M].
Defined.

(** ** Raw mode *)

Section Raw.
Context {W N : Type}.
Abbreviation kern := (kern W N).
Implicit Types s : kern.

(** A read while a sequence is pending. *)
Lemma drain_run s a rounds B L P b :
  stdin_esc_buf s = B -> stdin_esc_len s = L -> stdin_esc_pos s = P -> P < L -> B.[P] = b -> mapped (sy s) a 1 ->
  let s' := with_umem (write_bytes (umem (sy s)) a [b]) (set_esc B L (P + 1) s) in
  sys_read_stdin a 1 rounds s = Some (Some 1, if L <=? P + 1 then set_esc B 0 0 s' else s').
Proof.
  intros HB HL HP Hp Hb Hm. unfold sys_read_stdin. change (1 =? 0) with false. cbv iota zeta. unfold mbind_ at 1, mgets at 1. cbn [id].
  rewrite HL, HP, (proj2 (Z.ltb_lt _ _) Hp). unfold drain_esc, mbind_, mgets, mmodify, id. rewrite HB, HL, HP, Hb.
  pose proof (give_byte_run (set_esc B L (P + 1) s) a b Hm) as G. unfold give_byte, mbind_ in G.
  destruct (in_sys _ _) as [[r s']|]; [|done]. unfold mret_ in G. destruct (r <? 0); simplify_eq. unfold mwhen. by destruct (_ <=? _).
Qed.

(** The first read of an arrow key. *)
Lemma arrow_first s a c q seq : kbd_ok (keys s) -> typed (keys s) = c :: q -> esc_idle s -> flag_on (c_lflag (kernel_termios s)) ICANON = false ->
  esc_seq c = Some seq -> mapped (sy s) a 1 ->
  exists cs k, sys_read_stdin a 1 [] s
     = Some (Some 1, with_umem (write_bytes (umem (sy s)) a [seq.[0]]) (set_esc (splice (stdin_esc_buf s) 0 seq) (Z.of_nat (length seq)) 1 (set_console cs (set_keys k s))))
    /\ typed k = q.
Proof.
  intros Hk Ht He Hraw Hseq Hm. destruct (pop_input_key s c q Hk Ht) as (k & Hp & Hk' & Ht').
  assert (Hc : 128 <= c <= 131) by (unfold esc_seq in Hseq; revert Hseq; zcases; intros; try done; lia).
  unfold sys_read_stdin. change (1 =? 0) with false. cbv iota. unfold mbind_ at 1, mgets at 1. cbn [id]. rewrite (proj2 (Z.ltb_ge _ _) He).
  unfold mbind_ at 1. rewrite (get_char_now s [] c _ Hp). unfold deliver. unfold mbind_ at 1 2, mgets at 1. cbn [kernel_termios set_keys].
  rewrite (proj2 (Z.eqb_neq c 13)), andb_false_r, (proj2 (Z.eqb_neq c 3)), andb_false_r, Hraw by lia. unfold mwhen. rewrite Hseq.
  destruct (flag_on _ ECHO); unfold mbind_, echo, mmodify, mret_; rewrite give_byte_run by done.
  - by eexists _, k.
  - exists (console s), k. by destruct s.
Qed.

(** Three reads give the escape sequence of an arrow key, and only the key itself
    is taken from the keyboard. *)
Theorem arrow_key_reads_as_escape s a c q seq :
  kbd_ok (keys s) -> typed (keys s) = c :: q -> esc_idle s -> flag_on (c_lflag (kernel_termios s)) ICANON = false ->
  length (stdin_esc_buf s) = 8%nat -> esc_seq c = Some seq -> mapped (sy s) a 3 ->
  exists s', read_each a 3 s = Some ([Some 1; Some 1; Some 1], s') /\ user_bytes (umem (sy s')) a 3 = seq
    /\ typed (keys s') = q /\ esc_idle s'.
Proof.
  intros Hk Ht He Hraw Hlen Hseq Hm.
  assert (Hs3 : exists b1 b2 b3, seq = [b1; b2; b3]) by (unfold esc_seq in Hseq; revert Hseq; zcases; intros; simplify_eq; by eexists _, _, _).
  destruct Hs3 as (b1 & b2 & b3 & ->). assert (Hm1 : forall i, 0 <= i < 3 -> mapped (sy s) (a + i) 1).
  { intros i Hi. destruct Hm as (H1 & H2 & H3). split_and!; [lia|lia|]. intros x Hx. apply H3. lia. }
  destruct (arrow_first s a c q _ Hk Ht He Hraw Hseq) as (cs & k & E1 & Ht'); [by rewrite <- (Z.add_0_r a); apply Hm1|].
  set (s1 := with_umem _ _) in E1.
  assert (Hsub : forall i x, [b1; b2; b3] !! i = Some x -> (splice (stdin_esc_buf s) 0 [b1; b2; b3]).[Z.of_nat i] = x).
  { intros i x Hi. unfold nthZ. rewrite Nat2Z.id. rewrite lookup_splice by (simpl; lia). pose proof (lookup_lt_Some _ _ _ Hi). rewrite decide_True by (simpl in *; lia).
    by rewrite Nat.sub_0_r, Hi. }
  pose proof (drain_run s1 (a + 1) [] _ 3 1 b2 eq_refl eq_refl eq_refl eq_refl (Hsub 1%nat b2 eq_refl) (Hm1 1 ltac:(lia))) as E2.
  cbv beta zeta in E2. change (3 <=? 1 + 1) with false in E2. cbv iota in E2. set (s2 := with_umem _ _) in E2.
  pose proof (drain_run s2 (a + 2) [] _ 3 2 b3 eq_refl eq_refl eq_refl eq_refl (Hsub 2%nat b3 eq_refl) (Hm1 2 ltac:(lia))) as E3.
  cbv beta zeta in E3. change (3 <=? 2 + 1) with true in E3. cbv iota in E3. replace (a + 2) with (a + 1 + 1) in E3 by lia.
  eexists. split; [|split; [|split]].
  - cbn [read_each]. unfold mbind_. rewrite E1, E2, E3. reflexivity.
  - cbn [sy set_esc with_umem set_sy umem set_umem s2 s1]. change (a + 1) with (a + Z.of_nat (length [b1])). rewrite write_bytes_app.
    change (a + Z.of_nat (length [b1]) + 1) with (a + 1 + 1). replace (a + 1 + 1) with (a + Z.of_nat (length ([b1] ++ [b2]))) by (simpl; lia).
    rewrite write_bytes_app. apply user_bytes_write.
  - exact Ht'.
  - unfold esc_idle. simpl. lia.
Qed.

(** ** Timed reads *)

Lemma pop_input_total s : exists c s', pop_input s = Some (c, s') /\ sy s' = sy s.
Proof.
  unfold pop_input, mbind_, in_keys, serial_pop_char. destruct (keyboard_pop_char (keys s)) as [[c|] k]; [by eexists _, _|].
  cbn [serial_in set_keys]. destruct (serial_in s); by eexists _, _.
Qed.

Lemma interrupts_ticks s r : ticks (ks (sy (foldl interrupt s r))) = ticks (ks (sy s)).
Proof. revert s. induction r as [|i r IH]; intros s; [done|]. cbn [foldl]. rewrite IH. by destruct i. Qed.

Definition elapsed (start now : Z) : Z := s32 (u32 (now - start)).

Lemma elapsed_tick start now limit : 0 <= elapsed start now < limit -> limit < 2 ^ 31 -> elapsed start (u32 (now + 1)) = elapsed start now + 1.
Proof. unfold elapsed, s32, u32. intros H1 H2. zlia. Qed.

Lemma wait_input_returns s start limit rounds :
  0 <= elapsed start (ticks (ks (sy s))) <= limit -> limit < 2 ^ 31 -> limit - elapsed start (ticks (ks (sy s))) <= Z.of_nat (length rounds) ->
  exists w s', wait_input (Some (start, limit)) rounds s = Some (w, s') /\ w <> StillWaiting.
Proof.
  revert s. induction rounds as [|r rounds IH]; intros s He Hl Hr; cbn [wait_input]; unfold mbind_, mgets;
    (destruct (pop_input_total s) as (c & s1 & -> & Hs1); destruct c as [c|]; [by eexists _, _|]);
    rewrite Hs1; unfold expired; fold (elapsed start (ticks (ks (sy s)))); (destruct (Z.leb_spec limit (elapsed start (ticks (ks (sy s))))); [by eexists _, _|]).
  - simpl in Hr. lia.
  - unfold mmodify. set (s2 := foldl interrupt s1 r). cbn [length] in Hr.
    assert (Ht : ticks (ks (sy s2)) = ticks (ks (sy s))) by (unfold s2; by rewrite interrupts_ticks, Hs1).
    destruct (in_sys (in_sched switch_task) s2) as [[u s3]|] eqn:E; [|done].
    assert (Ht3 : ticks (ks (sy s3)) = u32 (ticks (ks (sy s)) + 1)) by (rewrite <- Ht; injection E as <- <-; done).
    apply IH; rewrite ?Ht3, ?(elapsed_tick start _ limit); lia.
Qed.

(** A read with a timeout ([VMIN] 0, [VTIME] not 0) comes back after at most
    [10 * VTIME] rounds, whatever arrives: each round advances the clock by one
    tick. *)
Theorem timed_read_returns s rounds :
  flag_on (c_lflag (kernel_termios s)) ICANON = false -> (c_cc (kernel_termios s)).[VMIN] = 0 -> 0 < (c_cc (kernel_termios s)).[VTIME] < 256 ->
  10 * (c_cc (kernel_termios s)).[VTIME] <= Z.of_nat (length rounds) ->
  exists w s', get_char rounds s = Some (w, s') /\ w <> StillWaiting.
Proof.
  intros Hc Hm Ht Hr. unfold get_char, mbind_, mgets. rewrite Hc, Hm. cbn [negb andb Z.eqb].
  rewrite (proj2 (Z.eqb_neq _ 0)) by lia. assert (E0 : elapsed (ticks (ks (sy s))) (ticks (ks (sy s))) = 0).
  { unfold elapsed. by rewrite Z.sub_diag. }
  apply wait_input_returns; rewrite ?E0; lia.
Qed.

(** ** termios *)

Definition termios_ok (t : termios) : Prop :=
  is_u32 (c_iflag t) /\ is_u32 (c_oflag t) /\ is_u32 (c_cflag t) /\ is_u32 (c_lflag t) /\ length (c_cc t) = NCCS.

Lemma termios_roundtrip t : termios_ok t -> termios_of (termios_bytes t) = t.
Proof.
  intros (H1 & H2 & H3 & H4 & H5). destruct t as [i o c l cc]. simpl in *. unfold termios_of, termios_bytes, is_u32 in *. cbn [c_iflag c_oflag c_cflag c_lflag c_cc].
  assert (Hl : forall v, length (le_bytes 4 v) = 4%nat) by (intros v; by rewrite length_le_bytes).
  assert (Hg : forall pre v post, 0 <= v < 2 ^ 32 -> get32 (pre ++ le_bytes 4 v ++ post) (length pre) = v).
  { intros pre v post Hv. unfold get32, sub. rewrite drop_app_length, take_app_length' by (by rewrite Hl). by apply le_bytes_value. }
  f_equal.
  - exact (Hg [] i _ H1).
  - pose proof (Hg (le_bytes 4 i) o (le_bytes 4 c ++ le_bytes 4 l ++ cc) H2) as G. by rewrite Hl in G.
  - pose proof (Hg (le_bytes 4 i ++ le_bytes 4 o) c (le_bytes 4 l ++ cc) H3) as G. by rewrite length_app, !Hl, <- app_assoc in G.
  - pose proof (Hg (le_bytes 4 i ++ le_bytes 4 o ++ le_bytes 4 c) l cc H4) as G. by rewrite !length_app, !Hl, <- !app_assoc in G.
  - unfold sub. rewrite !app_assoc. rewrite drop_app_length' by (by rewrite !length_app, !Hl). by rewrite firstn_all2 by lia.
Qed.

Lemma length_termios_bytes t : termios_ok t -> length (termios_bytes t) = 48%nat.
Proof. intros (_ & _ & _ & _ & H). unfold termios_bytes. rewrite !length_app, !length_le_bytes, H by done. done. Qed.

(** Settings a process stores with one ioctl are those the next one returns, and
    the terminal uses them. *)
Theorem ioctl_set_then_get s a t :
  mapped (sy s) a 48 -> termios_ok t -> user_bytes (umem (sy s)) a 48 = termios_bytes t ->
  exists s1 s2, sys_ioctl TCSETS a s = Some (0, s1) /\ kernel_termios s1 = t
    /\ sys_ioctl TCGETS a s1 = Some (0, s2) /\ user_bytes (umem (sy s2)) a 48 = termios_bytes t.
Proof.
  intros Hm Ht Hu. assert (Ha : u64 a = a) by (destruct Hm as (H1 & H2 & _); unfold USER_ADDR_MIN, USER_ADDR_MAX in *; apply u64_small; lia).
  assert (Ha0 : a <> 0) by (destruct Hm as (H1 & _); unfold USER_ADDR_MIN in *; lia).
  exists (set_termios t s), (with_umem (write_bytes (umem (sy s)) a (termios_bytes t)) (set_termios t s)). split_and!.
  - unfold sys_ioctl. change (TCSETS =? TCGETS) with false. change ((TCSETS =? TCSETS) || (TCSETS =? TCSETSW) || (TCSETS =? TCSETSF))%bool with true. cbv iota.
    unfold sys_tcsetattr. rewrite (proj2 (Z.eqb_neq a 0)) by done. unfold mbind_ at 1.
    pose proof (from_user_mapped (sy s) a 48 0 48 Hm) as F. rewrite Z.add_0_r, Ha, Hu in F.
    rewrite (in_sys_run _ s (Some (termios_bytes t)) (sy s)) by (apply F; lia). unfold mbind_, mmodify, mret_. rewrite termios_roundtrip by done. by destruct s.
  - done.
  - unfold sys_ioctl. change (TCGETS =? TCGETS) with true. cbv iota. unfold sys_tcgetattr. rewrite (proj2 (Z.eqb_neq a 0)) by done.
    unfold mbind_, mgets. cbn [kernel_termios set_termios].
    pose proof (to_user_mapped (sy s) a 48 0 (termios_bytes t) Hm) as F. rewrite Z.add_0_r, Ha in F.
    rewrite (in_sys_run _ (set_termios t s) 0 (set_umem (write_bytes (umem (sy s)) a (termios_bytes t)) (sy s))); [done|]. apply F; [lia| |].
    + intros E. pose proof (length_termios_bytes t Ht) as Hl. rewrite E in Hl. done.
    + rewrite length_termios_bytes by done. lia.
  - cbn [sy with_umem set_sy umem set_umem]. pose proof (user_bytes_write (umem (sy s)) a (termios_bytes t)) as G.
    rewrite length_termios_bytes in G by done. exact G.
Qed.

(** ** Console output *)

Lemma console_loop_prints s buf dn count fuel :
  mapped (sy s) buf count -> 0 <= dn <= count -> count - dn <= Z.of_nat fuel ->
  console_loop buf dn count fuel s = Some (count, set_console (console s ++ user_bytes (umem (sy s)) (buf + dn) (count - dn)) s).
Proof.
  revert s dn. induction fuel as [|fuel IH]; intros s dn Hm Hd Hf; cbn [console_loop];
    (destruct (Z.leb_spec count dn) as [Hle|Hlt]; [assert (dn = count) as -> by lia; rewrite Z.sub_diag, user_bytes_0, app_nil_r; by destruct s|]); [lia|].
  set (n := if count - dn <? TMP_SIZE then count - dn else TMP_SIZE).
  assert (Hn : 0 < n <= count - dn) by (unfold n, TMP_SIZE; ztest; lia). unfold mbind_ at 1.
  rewrite (in_sys_run _ s _ _ (from_user_mapped (sy s) buf count dn n Hm ltac:(lia) ltac:(lia) ltac:(lia))). unfold mbind_, mmodify.
  rewrite IH; [|done|lia|lia]. cbn [console set_console sy set_sy]. rewrite <- app_assoc, (Z.add_assoc buf dn n), <- user_bytes_app by lia.
  replace (n + (count - (dn + n))) with (count - dn) by lia. by destruct s.
Qed.

(** Every byte a process writes to descriptor 1 or 2 reaches the console, in order. *)
Theorem console_write_prints s buf count :
  mapped (sy s) buf count -> 0 <= count ->
  sys_write_console buf count s = Some (count, set_console (console s ++ user_bytes (umem (sy s)) buf count) s).
Proof.
  intros Hm Hc. unfold sys_write_console. rewrite console_loop_prints; [|done|lia|lia]. by rewrite Z.add_0_r, Z.sub_0_r.
Qed.
End Raw.

(** The flag ECHO has no effect in the cooked mode: a password is shown. *)
Theorem cooked_mode_ignores_echo {W N} (s : kern W N) a c q :
  kbd_ok (keys s) -> typed (keys s) = c :: q -> esc_idle s -> cooked s -> no_interrupt (kernel_termios s) c -> mapped (sy s) a 1 ->
  flag_on (c_lflag (kernel_termios s)) ECHO = false ->
  exists s', sys_read_stdin a 1 [] s = Some (Some 1, s') /\ console s' = console s ++ [line_char (kernel_termios s) c].
Proof. intros H1 H2 H3 H4 H5 H6 _. destruct (read_one_cooked s a c q [] H1 H2 H3 H4 H5 H6) as (k & E & _). eexists. split; [exact E|done]. Qed.
