(* ===== verification/Files.v ===== *)
(** * The file system calls ([src/src/kernel/core/syscall.c])

    Opening, reading and writing files through descriptors, the calls on paths,
    and directory listings.  They reach the mounted file systems through the
    interface [FsNode] of [Vfs], and SDFS directly, through [DiskOps], where the
    code calls it by name.  Log output is left out. *)

From Stdlib Require Import ZArith Lia String.
From stdpp Require Import base numbers list gmap.
From S2P Require Import Prelude Bytes Pmm Kheap Vmm Usercopy Task Pipe PipeFifo BlockDev Journal SdfsBlock SdfsDir Sdfs Vfs Keyboard Mouse Kern Tty.

(** The fields of a node the calls read. *)
Class NodeInfo (N : Type) := { node_length : N -> Z; node_inode : N -> Z }.
#[export] Instance sdfs_node_info : NodeInfo node := {| node_length := n_length; node_inode := n_inode |}.

(** The functions of [sdfs.c] the calls use by name; [read_file] is NULL or the
    buffer and the size. *)
Class DiskOps (W : Type) := {
  disk_delete : list Z -> M W Z;
  disk_create_dir : list Z -> M W Z;
  disk_read_file : list Z -> M W (option (Z * list Z))
}.
#[export] Instance sdfs_disk_ops {D} `{BlockDev D} (junk : list Z) (stack : entry) : DiskOps (fs D) := {
  disk_delete := sdfs_delete junk;
  disk_create_dir := sdfs_create_dir junk;
  disk_read_file := fun path s => match sdfs_read_file junk stack s path with Some r => Some (r, s) | None => None end
}.

(** ** Paths *)

(** [resolve_path] with the working directory of the running task ([] when there
    is none or it is empty). *)
Definition resolve_path (cwd path : list Z) : list Z :=
  if path.[0] =? SLASH then take 511 path else
  match cwd with
  | [] => take 511 path
  | _ =>
      let dir := if bool_decide (last cwd = Some SLASH) then cwd else cwd ++ [SLASH] in
      dir ++ take (511 - length dir) path
  end.

Section Files.
Context {W N : Type} `{FsNode W N} `{NodeInfo N} `{DiskOps W}.
Abbreviation kern := (kern W N).
Implicit Types s : kern.

Definition cwd_of s : list Z := match running s with Some t => c_str (t_cwd t) | None => [] end.

(** [strncpy_from_user(buf, p, 255)] and the terminator; [None] on failure. *)
Definition user_string (p : Z) : M kern (option (list Z)) := fun s =>
  let '(r, b) := strncpy_from_user (user_vm (sy s)) (umem (sy s)) p 255 in
  Some (if r <? 0 then None else Some (c_str b), s).

(** The path of a call: [Some (inl e)] is an error code. *)
Definition user_path (p : Z) : M kern (Z + list Z) :=
  if p =? 0 then mret_ (inl (- EFAULT)) else
  k <-- user_string p ;;
  match k with
  | None => mret_ (inl (- EFAULT))
  | Some path => cwd <-- mgets cwd_of ;; mret_ (inr (resolve_path cwd path))
  end.

(** ** Descriptors of files *)

Definition O_CREAT : Z := 0x0200.
Definition O_TRUNC : Z := 0x0400.
Definition O_APPEND : Z := 0x0008.

Definition fd_table_of : M kern (list kfile) := in_sys get_fd_table.

(** The node a descriptor points to; a dangling pointer stops the machine. *)
Definition node_at (p : Z) : M kern N := fun s => match nodes s !! p with Some n => Some (n, s) | None => None end.
Definition put_node (p : Z) (n : N) : M kern unit := mmodify (fun s => set_nodes (<[p := n]> (nodes s)) (next_node s) s).

(** The address of a node that a file system has just allocated. *)
Definition new_node (n : N) : M kern Z := fun s =>
  Some (next_node s, set_nodes (<[next_node s := n]> (nodes s)) (next_node s + 1) s).

Definition file_slot (p offset size : Z) : kfile :=
  {| f_type := FD_TYPE_FILE; f_base_addr := 0; f_size := size; f_offset := offset; f_owned_buffer := 0; f_socket_ptr := p |}.

Definition sys_open (filename flags : Z) : M kern Z :=
  tbl <-- fd_table_of ;;
  let fd := free_fd tbl 3 in
  if fd =? -1 then mret_ (-1) else
  p <-- user_path filename ;;
  match p with
  | inl e => mret_ e
  | inr resolved =>
      v <-- mgets mnt ;;
      n <-- in_fs (vfs_open v resolved) ;;
      n <-- (match n with
             | Some n => mret_ (Some n)
             | None => if negb (Z.land flags O_CREAT =? 0) then in_fs (vfs_create v resolved flags) else mret_ None
             end) ;;
      match n with
      | None => mret_ (-1)
      | Some n =>
          n <-- (if negb (Z.land flags O_TRUNC =? 0) then in_fs (vfs_truncate n) else mret_ n) ;;
          p <-- new_node n ;;
          in_sys (set_fd_table (fd_set tbl fd
            (file_slot p (if negb (Z.land flags O_APPEND =? 0) then node_length n else 0) (node_length n)))) ;;;
          mret_ fd
      end
  end.

(** Bytes the kernel itself stores at a user address it has checked before. *)
Definition store_user (a : Z) (bs : list Z) : M kern unit :=
  mmodify (fun s => set_sy (set_umem (write_bytes (umem (sy s)) a bs) (sy s)) s).

(** The file branch of [sys_read]: through the node, or from a buffer in kernel
    memory. *)
Definition sys_read_file (fd buf count : Z) : M kern Z :=
  tbl <-- fd_table_of ;;
  if (negb (fd_ok fd) || negb (f_type (fd_at tbl fd) =? FD_TYPE_FILE))%bool then mret_ (-1) else
  let f := fd_at tbl fd in
  if negb (f_socket_ptr f =? 0) then
    n <-- node_at (f_socket_ptr f) ;;
    bs <-- in_fs (read_fs n (f_offset f) count) ;;
    store_user buf bs ;;;
    in_sys (set_fd_table (fd_set tbl fd (with_offset (u32 (f_offset f + Z.of_nat (length bs))) f))) ;;;
    mret_ (s32 (Z.of_nat (length bs)))
  else
    let available := u32 (f_size f - f_offset f) in
    let to_read := if count <? available then count else available in
    m <-- mgets (fun s => kmem (ks (sy s))) ;;
    r <-- (if to_read =? 0 then mret_ 0 else in_sys (to_user buf (user_bytes m (f_base_addr f + f_offset f) to_read))) ;;
    if r <? 0 then mret_ (- EFAULT) else
    in_sys (set_fd_table (fd_set tbl fd (with_offset (u32 (f_offset f + to_read)) f))) ;;;
    mret_ (s32 to_read).

Definition with_fsize (v : Z) (f : kfile) : kfile :=
  {| f_type := f_type f; f_base_addr := f_base_addr f; f_size := v; f_offset := f_offset f;
     f_owned_buffer := f_owned_buffer f; f_socket_ptr := f_socket_ptr f |}.

(** [while (done < count)] of the file branch of [sys_write]; the result is
    [done], or an error. *)
Fixpoint file_write_loop (fd p buf done count : Z) (fuel : nat) : M kern Z :=
  if count <=? done then mret_ done else
  match fuel with
  | O => mstop
  | S fuel =>
      let chunk := if count - done <? TMP_SIZE then count - done else TMP_SIZE in
      tmp <-- in_sys (from_user (u64 (buf + done)) chunk) ;;
      match tmp with
      | None => mret_ (- EFAULT)
      | Some tmp =>
          tbl <-- fd_table_of ;;
          n <-- node_at p ;;
          r <-- in_fs (write_fs n (f_offset (fd_at tbl fd)) tmp) ;;
          put_node p r.2 ;;;
          in_sys (set_fd_table (fd_set tbl fd (with_offset (u32 (f_offset (fd_at tbl fd) + r.1)) (fd_at tbl fd)))) ;;;
          if r.1 =? 0 then mret_ done else file_write_loop fd p buf (done + r.1) count fuel
      end
  end.

Definition sys_write_file (fd buf count : Z) : M kern Z :=
  tbl <-- fd_table_of ;;
  let p := f_socket_ptr (fd_at tbl fd) in
  r <-- file_write_loop fd p buf 0 count (Z.to_nat count) ;;
  if r <? 0 then mret_ r else
  tbl <-- fd_table_of ;;
  n <-- node_at p ;;
  in_sys (set_fd_table (fd_set tbl fd (with_fsize (node_length n) (fd_at tbl fd)))) ;;;
  mret_ (s32 r).

(** ** [sys_read] and [sys_write], all branches

    [None] is a call that still waits after the rounds and the fuel given. *)

Definition bad_buffer s (buf count : Z) : bool := (negb (count =? 0) && (validate_user_pointer (user_vm (sy s)) buf count <? 0))%bool.

Definition sys_read (fd buf count : Z) (rounds : list (list input)) (fuel : nat) : M kern (option Z) :=
  bad <-- mgets (fun s => bad_buffer s buf count) ;;
  if bad : bool then mret_ (Some (- EFAULT)) else
  tbl <-- fd_table_of ;;
  if (fd_ok fd && (f_type (fd_at tbl fd) =? FD_TYPE_PIPE))%bool then in_sys (sys_read_pipe fd buf count fuel) else
  if fd =? 0 then sys_read_stdin buf count rounds else
  r <-- sys_read_file fd buf count ;; mret_ (Some r).

Definition sys_write (fd buf count : Z) : M kern Z :=
  bad <-- mgets (fun s => bad_buffer s buf count) ;;
  if bad : bool then mret_ (- EFAULT) else
  if ((fd =? 1) || (fd =? 2))%bool then sys_write_console buf count else
  tbl <-- fd_table_of ;;
  if negb (fd_ok fd) then mret_ (-1) else
  let f := fd_at tbl fd in
  if f_type f =? FD_TYPE_PIPE then in_sys (sys_write_pipe fd buf count) else
  if ((f_type f =? FD_TYPE_FILE) && negb (f_socket_ptr f =? 0))%bool then sys_write_file fd buf count
  else mret_ (-1).

(** ** Status *)

Definition put64 (b : list Z) (off : nat) (v : Z) : list Z := splice b off (le_bytes 8 v).

Definition SIZEOF_STAT : nat := 136.
Definition K_S_IFDIR : Z := 0x4000.
Definition K_S_IFREG : Z := 0x8000.
Definition K_S_IFCHR : Z := 0x2000.

(** The fields that are not 0 of a [struct kernel_stat]. *)
Definition kernel_stat (ino mode size blksize blocks seconds : Z) : list Z :=
  let b := put64 (zeros SIZEOF_STAT) 0 1 in
  let b := put64 b 8 ino in
  let b := put32 b 16 mode in
  let b := put64 b 24 1 in
  let b := put64 b 48 size in
  let b := put64 (put64 (put64 b 56 seconds) 72 seconds) 88 seconds in
  put64 (put64 b 104 blksize) 112 blocks.

Definition seconds_of s : Z := ticks (ks (sy s)) / 100.

Definition is_directory (n : N) : bool := negb (Z.land (fn_flags n) FS_DIRECTORY =? 0).

Definition give_stat (st : Z) (b : list Z) : M kern Z :=
  r <-- in_sys (to_user st b) ;; mret_ (if r <? 0 then - EFAULT else 0).

Definition sys_stat (path st : Z) : M kern Z :=
  if ((path =? 0) || (st =? 0))%bool then mret_ (- EFAULT) else
  p <-- user_path path ;;
  match p with
  | inl e => mret_ e
  | inr resolved =>
      v <-- mgets mnt ;;
      n <-- in_fs (vfs_open v resolved) ;;
      match n with
      | None => mret_ (-1)
      | Some n =>
          now <-- mgets seconds_of ;;
          give_stat st (kernel_stat (node_inode n) (if is_directory n then Z.lor K_S_IFDIR 0x1ED else Z.lor K_S_IFREG 0x1B6)
                          (node_length n) 4096 (u32 (node_length n + 511) / 512) now)
      end
  end.

Definition sys_fstat (fd st : Z) : M kern Z :=
  if st =? 0 then mret_ (- EFAULT) else
  now <-- mgets seconds_of ;;
  if ((0 <=? fd) && (fd <=? 2))%bool then give_stat st (kernel_stat (fd + 1) (Z.lor K_S_IFCHR 0x180) 0 512 0 now) else
  tbl <-- fd_table_of ;;
  if (negb (fd_ok fd) || negb (f_type (fd_at tbl fd) =? FD_TYPE_FILE))%bool then mret_ (-1) else
  let f := fd_at tbl fd in
  mode <-- (if f_socket_ptr f =? 0 then mret_ 0 else
            n <-- node_at (f_socket_ptr f) ;; mret_ (if is_directory n then Z.lor K_S_IFDIR 0x1C0 else Z.lor K_S_IFREG 0x180)) ;;
  give_stat st (kernel_stat (fd + 1) mode (f_size f) 4096 (u32 (f_size f + 511) / 512) now).

(** ** Names *)

Definition on_path (p : Z) (f : list Z -> M W Z) : M kern Z :=
  p <-- user_path p ;;
  match p with inl e => mret_ e | inr resolved => in_fs (f resolved) end.

Definition sys_unlink (path : Z) : M kern Z := on_path path disk_delete.
Definition sys_mkdir (path mode : Z) : M kern Z := on_path path disk_create_dir.
Definition sys_rmdir (path : Z) : M kern Z := on_path path disk_delete.

(** The trailing slash of a directory other than the root is dropped. *)
Definition normalise (p : list Z) : list Z :=
  if ((1 <? length p)%nat && bool_decide (last p = Some SLASH))%bool then removelast p else p.

Definition sys_chdir (path : Z) : M kern Z :=
  t <-- mgets running ;;
  match t with
  | None => mret_ (- EFAULT)
  | Some _ =>
      p <-- user_path path ;;
      match p with
      | inl e => mret_ e
      | inr resolved =>
          v <-- mgets mnt ;;
          n <-- in_fs (vfs_open v resolved) ;;
          match n with
          | None => mret_ (-1)
          | Some n =>
              if negb (is_directory n) then mret_ (-1) else
              c <-- mgets (fun s => current_task (ks (sy s))) ;;
              in_sys (in_sched (upd c (with_cwd (normalise (take 255 resolved))))) ;;;
              mret_ 0
          end
      end
  end.

Definition sys_getcwd (buf size : Z) : M kern Z :=
  t <-- mgets running ;;
  match t with
  | None => mret_ (- EFAULT)
  | Some t =>
      if ((buf =? 0) || (size =? 0))%bool then mret_ (- EFAULT) else
      bad <-- mgets (fun s => validate_user_pointer (user_vm (sy s)) buf size <? 0) ;;
      if bad : bool then mret_ (- EFAULT) else
      let cwd := c_str (t_cwd t) in
      let len := if size <=? Z.of_nat (length cwd) then size - 1 else Z.of_nat (length cwd) in
      r <-- in_sys (to_user buf (take (Z.to_nat len) cwd)) ;;
      if r <? 0 then mret_ (- EFAULT) else
      r <-- in_sys (to_user (u64 (buf + len)) [0]) ;;
      mret_ (if r <? 0 then - EFAULT else 0)
  end.

(** ** Directories *)

Definition SIZEOF_DIRENT : Z := 280.

(** [struct kernel_dirent]: number, offset and length, the name cut to 255 bytes. *)
Definition kernel_dirent (index : Z) (name : list Z) : list Z :=
  splice (put16 (put64 (put64 (zeros 280) 0 (u32 (index + 1))) 8 SIZEOF_DIRENT) 16 SIZEOF_DIRENT) 19 (take 255 name).

(** The loop of [sys_getdents]: [pos] and [index] when it ends, [None] on a bad
    buffer. *)
Fixpoint getdents_loop (n : N) (buf count pos index : Z) (fuel : nat) : M kern (option (Z * Z)) :=
  if negb (u32 (pos + SIZEOF_DIRENT) <=? count) then mret_ (Some (pos, index)) else
  match fuel with
  | O => mstop
  | S fuel =>
      d <-- in_fs (readdir_fs n index) ;;
      match d with
      | None => mret_ (Some (pos, index))
      | Some (name, _) =>
          r <-- in_sys (to_user (u64 (buf + pos)) (kernel_dirent index (c_str name))) ;;
          if r <? 0 then mret_ None else getdents_loop n buf count (u32 (pos + SIZEOF_DIRENT)) (u32 (index + 1)) fuel
      end
  end.

Definition sys_getdents (fd buf count : Z) : M kern Z :=
  tbl <-- fd_table_of ;;
  if (negb (fd_ok fd) || negb (f_type (fd_at tbl fd) =? FD_TYPE_FILE))%bool then mret_ (-1) else
  bad <-- mgets (fun s => bad_buffer s buf count) ;;
  if bad : bool then mret_ (- EFAULT) else
  let f := fd_at tbl fd in
  if f_socket_ptr f =? 0 then mret_ (-1) else
  n <-- node_at (f_socket_ptr f) ;;
  if negb (is_directory n) then mret_ (-1) else
  r <-- getdents_loop n buf count 0 (f_offset f) (Z.to_nat (count / SIZEOF_DIRENT) + 1) ;;
  match r with
  | None => mret_ (- EFAULT)
  | Some (pos, index) => in_sys (set_fd_table (fd_set tbl fd (with_offset index f))) ;;; mret_ (s32 pos)
  end.

(** ** Time and processes *)

(** A store through a pointer that is not checked: any mapped page will do. *)
Definition store_unchecked (a : Z) (bs : list Z) : M kern unit := fun s =>
  let v := user_vm (sy s) in
  match translate_addr (vmem v) (dir_pml4 v (current_directory v)) a with
  | Some _ => store_user a bs s
  | None => None
  end.

Definition sys_gettimeofday (tv : Z) : M kern Z :=
  if tv =? 0 then mret_ (-1) else
  t <-- mgets (fun s => ticks (ks (sy s))) ;;
  store_unchecked tv (le_bytes 8 (t / 100)) ;;;
  store_unchecked (u64 (tv + 8)) (le_bytes 8 (t mod 100 * 10000)) ;;;
  mret_ 0.

Definition sys_kill (pid : Z) : M kern Z :=
  if pid <=? 0 then mret_ (-1) else in_sys (in_sched (sys_kill_by_pid pid)) ;;; mret_ 0.

Definition sys_getpid : M kern Z :=
  t <-- mgets running ;; mret_ (match t with Some t => t_id t | None => 1 end).
End Files.
