(* ===== verification/FilesSpec.v ===== *)
(** * Files through descriptors: what the calls promise

    [FileSystem] states what the system calls rely on: a predicate that relates a
    node to the bytes of its file, and the behaviour of the read and write
    callbacks on it.  Against this interface [sys_read], [sys_write] and
    [sys_lseek] implement a file with a position. *)

From Stdlib Require Import ZArith Lia String.
From stdpp Require Import base numbers list gmap.
From S2P Require Import Prelude Bytes Pmm Kheap Vmm Usercopy Task Pipe PipeFifo PipeRefs BlockDev Journal SdfsBlock SdfsDir Sdfs Vfs Keyboard Mouse Kern Tty Files.

(** [holds w n d limit]: in the state [w] the file of the node [n] has the bytes
    [d], and may grow to [limit] bytes. *)
Class FileSystem (W N : Type) `{FsNode W N} `{NodeInfo N} (holds : W -> N -> list Z -> Z -> Prop) : Prop := {
  holds_length w n d limit : holds w n d limit -> node_length n = Z.of_nat (length d) /\ Z.of_nat (length d) <= limit < 2 ^ 32;
  holds_read w n d limit off size : holds w n d limit -> 0 <= off -> 0 <= size -> off + size < 2 ^ 32 ->
    read_fs n off size w = Some (take (Z.to_nat size) (drop (Z.to_nat off) d), w);
  holds_write w n d limit off buf : holds w n d limit -> 0 <= off <= Z.of_nat (length d) -> (0 < length buf <= 64)%nat ->
    Forall is_byte buf -> off + Z.of_nat (length buf) <= limit ->
    exists w' n', write_fs n off buf w = Some ((Z.of_nat (length buf), n'), w') /\ holds w' n' (splice d (Z.to_nat off) buf) limit
}.

Section Spec.
Context {W N : Type} `{FsNode W N} `{NodeInfo N} (holds : W -> N -> list Z -> Z -> Prop) `{!FileSystem W N holds}.
Abbreviation kern := (kern W N).
Implicit Types s : kern.

Record open_file s (fd p : Z) (n : N) (f : kfile) : Prop := {
  of_table : has_table (sy s);
  of_len : length (table_of (sy s)) = 32%nat;
  of_ok : fd_ok fd = true;
  of_at : fd_at (table_of (sy s)) fd = f;
  of_type : f_type f = FD_TYPE_FILE;
  of_ptr : f_socket_ptr f = p;
  of_null : p <> 0;
  of_node : nodes s !! p = Some n
}.

(** Assign a slot of the table. *)
Definition put_fd (fd : Z) (f : kfile) s : kern := set_sy (with_table (fd_set (table_of (sy s)) fd f) (sy s)) s.

Lemma fd_table_run s : has_table (sy s) -> fd_table_of s = Some (table_of (sy s), s).
Proof. intros Ht. unfold fd_table_of, in_sys. rewrite get_fd_table_run by done. by destruct s. Qed.

Lemma put_fd_run s fd f : has_table (sy s) -> in_sys (set_fd_table (fd_set (table_of (sy s)) fd f)) s = Some (tt, put_fd fd f s).
Proof. intros Ht. unfold in_sys. by rewrite set_fd_table_run. Qed.

Lemma open_file_put s fd p n f f' : open_file s fd p n f -> f_type f' = FD_TYPE_FILE -> f_socket_ptr f' = p -> open_file (put_fd fd f' s) fd p n f'.
Proof.
  intros [] Ht Hp. assert (Hr : 0 <= fd < 32) by (unfold fd_ok in *; zbool; lia). constructor; try done.
  - by apply has_table_with.
  - unfold put_fd. cbn [sy set_sy]. rewrite table_of_with by done. unfold fd_set. by rewrite length_insert.
  - unfold put_fd. cbn [sy set_sy]. rewrite table_of_with by done. apply fd_at_set. lia.
Qed.

(** User memory and its mappings, the other devices and the other slots. *)
Record same_user s s' (fd : Z) : Prop := {
  su_umem : umem (sy s') = umem (sy s);
  su_vm : user_vm (sy s') = user_vm (sy s);
  su_fds : forall fd', 0 <= fd' -> fd' <> fd -> fd_at (table_of (sy s')) fd' = fd_at (table_of (sy s)) fd';
  su_console : console s' = console s
}.

Lemma same_user_refl s fd : same_user s s fd.
Proof. by constructor. Qed.
Lemma same_user_trans s1 s2 s3 fd : same_user s1 s2 fd -> same_user s2 s3 fd -> same_user s1 s3 fd.
Proof. intros [A1 A2 A3 A4] [B1 B2 B3 B4]. constructor; try congruence. intros fd' Hp Hne. by rewrite B3, A3. Qed.

Lemma put_fd_same s fd f : has_table (sy s) -> 0 <= fd -> same_user s (put_fd fd f s) fd.
Proof.
  intros Ht Hfd. destruct (with_table_rest (sy s) (fd_set (table_of (sy s)) fd f)) as (_ & Hv & _ & Hu). constructor; try done.
  intros fd' Hp Hne. unfold put_fd. cbn [sy set_sy]. rewrite table_of_with by done. by apply fd_at_set_ne.
Qed.

Lemma write_round s fd p n f d limit tmp :
  open_file s fd p n f -> holds (fsw s) n d limit -> 0 <= f_offset f <= Z.of_nat (length d) -> (0 < length tmp <= 64)%nat -> Forall is_byte tmp ->
  f_offset f + Z.of_nat (length tmp) <= limit ->
  exists s' n', (tbl <-- fd_table_of ;; n <-- node_at p ;; r <-- in_fs (write_fs n (f_offset (fd_at tbl fd)) tmp) ;; put_node p r.2 ;;;
      in_sys (set_fd_table (fd_set tbl fd (with_offset (u32 (f_offset (fd_at tbl fd) + r.1)) (fd_at tbl fd)))) ;;; mret_ r.1) s
      = Some (Z.of_nat (length tmp), s')
    /\ open_file s' fd p n' (with_offset (f_offset f + Z.of_nat (length tmp)) f) /\ holds (fsw s') n' (splice d (Z.to_nat (f_offset f)) tmp) limit
    /\ same_user s s' fd.
Proof.
  intros Ho Hh Hoff Hl Hb Hlim. destruct (holds_length _ _ _ _ Hh) as [_ Hlen]. pose proof Ho as [O1 O2 O3 O4 O5 O6 O7 O8].
  destruct (holds_write (fsw s) n d limit (f_offset f) tmp Hh Hoff Hl Hb Hlim) as (w' & n' & Hw & Hh').
  unfold mbind_ at 1. rewrite fd_table_run by done. unfold mbind_ at 1, node_at. rewrite O8. unfold mbind_ at 1. rewrite O4.
  rewrite (in_fs_run _ s _ _ Hw). unfold mbind_ at 1, put_node, mmodify. cbn [fst snd]. set (s1 := set_nodes _ _ _).
  assert (Ho1 : open_file s1 fd p n' f) by (constructor; try done; simpl; apply lookup_insert_eq).
  unfold mbind_, mret_. change (table_of (sy s)) with (table_of (sy s1)). rewrite put_fd_run by done. rewrite u32_small by lia. eexists _, n'.
  split; [done|]. split; [by apply (open_file_put s1 fd p n' f)|]. split; [done|].
  destruct (put_fd_same s1 fd (with_offset (f_offset f + Z.of_nat (length tmp)) f)) as [P1 P2 P3 P4]; [done|unfold fd_ok in O3; zbool; lia|by constructor].
Qed.

Lemma file_write_loop_runs s fd p n f d limit buf dn count fuel :
  open_file s fd p n f -> holds (fsw s) n d limit -> 0 <= f_offset f <= Z.of_nat (length d) ->
  mapped (sy s) buf count -> Forall is_byte (user_bytes (umem (sy s)) (buf + dn) (count - dn)) -> 0 <= dn <= count ->
  f_offset f + (count - dn) <= limit -> count - dn <= Z.of_nat fuel ->
  exists s' n', file_write_loop fd p buf dn count fuel s = Some (count, s')
    /\ open_file s' fd p n' (with_offset (f_offset f + (count - dn)) f)
    /\ holds (fsw s') n' (splice d (Z.to_nat (f_offset f)) (user_bytes (umem (sy s)) (buf + dn) (count - dn))) limit /\ same_user s s' fd.
Proof.
  revert s n f d dn. induction fuel as [|fuel IH]; intros s n f d dn Ho Hh Hoff Hm Hb Hd Hlim Hf; cbn [file_write_loop];
    (destruct (Z.leb_spec count dn) as [Hle|Hlt]; [assert (dn = count) as -> by lia; exists s, n;
      rewrite Z.sub_diag, user_bytes_0, splice_nil, Z.add_0_r; split_and!; [done|by destruct f|done|apply same_user_refl]|]); [lia|].
  set (k := if count - dn <? TMP_SIZE then count - dn else TMP_SIZE). assert (Hk : 0 < k <= count - dn /\ k <= 64) by (unfold k, TMP_SIZE; ztest; lia).
  unfold mbind_ at 1. rewrite (in_sys_run _ s _ _ (from_user_mapped (sy s) buf count dn k Hm ltac:(lia) ltac:(lia) ltac:(lia))).
  set (tmp := user_bytes (umem (sy s)) (buf + dn) k). assert (Htl : Z.of_nat (length tmp) = k) by (unfold tmp; rewrite length_user_bytes; lia).
  assert (Hsplit : user_bytes (umem (sy s)) (buf + dn) (count - dn) = tmp ++ user_bytes (umem (sy s)) (buf + (dn + k)) (count - (dn + k))).
  { unfold tmp. rewrite Z.add_assoc, <- user_bytes_app by lia. f_equal. lia. }
  rewrite Hsplit in Hb |- *. apply Forall_app in Hb as [Hb1 Hb2].
  replace (set_sy (sy s) s) with s by (by destruct s).
  destruct (write_round s fd p n f d limit tmp Ho Hh Hoff ltac:(lia) Hb1 ltac:(lia)) as (s1 & n1 & E1 & Ho1 & Hh1 & Hs1).
  revert E1. unfold mbind_. destruct (fd_table_of s) as [[tbl s2]|]; [|done]. destruct (node_at p s2) as [[x s3]|]; [|done].
  destruct (in_fs _ s3) as [[r s4]|]; [|done]. destruct (put_node p r.2 s4) as [[u s5]|]; [|done]. destruct (in_sys _ s5) as [[u' s6]|]; [|done].
  unfold mret_. intros [= Hr ->]. rewrite Hr, Htl, (proj2 (Z.eqb_neq k 0)) by lia. pose proof Hs1 as [U1 U2 U3 U4]. rewrite Htl in Ho1.
  destruct (IH s1 n1 (with_offset (f_offset f + k) f) (splice d (Z.to_nat (f_offset f)) tmp) (dn + k)) as (s' & n' & E' & Ho' & Hh' & Hs'); try done.
  - cbn. rewrite length_splice_grow by lia. lia.
  - unfold mapped. rewrite U2. exact Hm.
  - by rewrite U1.
  - lia.
  - cbn. lia.
  - lia.
  - exists s', n'. split; [done|]. cbn [f_offset with_offset] in *. split_and!.
    + replace (f_offset f + (count - dn)) with (f_offset f + k + (count - (dn + k))) by lia. exact Ho'.
    + rewrite U1 in Hh'. replace (Z.to_nat (f_offset f + k)) with (Z.to_nat (f_offset f) + length tmp)%nat in Hh' by lia.
      rewrite splice_twice in Hh' by lia. exact Hh'.
    + by eapply same_user_trans.
Qed.

Lemma write_spec s fd p n f d limit buf count :
  open_file s fd p n f -> holds (fsw s) n d limit -> 0 <= f_offset f <= Z.of_nat (length d) -> fd <> 1 -> fd <> 2 ->
  is_u64 buf -> 0 < count < 2 ^ 31 -> validate_user_pointer (user_vm (sy s)) buf count = 0 ->
  let bs := user_bytes (umem (sy s)) buf count in
  Forall is_byte bs -> f_offset f + count <= limit ->
  let d' := splice d (Z.to_nat (f_offset f)) bs in
  exists s' n', sys_write fd buf count s = Some (count, s')
    /\ open_file s' fd p n' (with_fsize (Z.of_nat (length d')) (with_offset (f_offset f + count) f)) /\ holds (fsw s') n' d' limit /\ same_user s s' fd.
Proof.
  intros Ho Hh Hoff H1 H2 Hb Hc Hv bs Hby Hlim d'. pose proof Ho as [O1 O2 O3 O4 O5 O6 O7 O8].
  pose proof (mapped_validate (sy s) buf count Hb ltac:(lia) Hv) as Hm.
  destruct (file_write_loop_runs s fd p n f d limit buf 0 count (Z.to_nat count)) as (s1 & n1 & E1 & Ho1 & Hh1 & Hs1); try done; try lia;
    [by rewrite Z.add_0_r, Z.sub_0_r|]. rewrite Z.add_0_r, Z.sub_0_r in *. fold bs d' in Hh1.
  unfold sys_write, mbind_ at 1, mgets, bad_buffer. rewrite Hv, andb_false_r. cbv iota.
  rewrite (proj2 (Z.eqb_neq fd 1)), (proj2 (Z.eqb_neq fd 2)) by done. cbn [orb]. unfold mbind_ at 1. rewrite fd_table_run by done. rewrite O3, O4, O5, O6.
  change (FD_TYPE_FILE =? FD_TYPE_PIPE) with false. change (FD_TYPE_FILE =? FD_TYPE_FILE) with true. rewrite (proj2 (Z.eqb_neq p 0)) by done. cbn [negb andb].
  unfold sys_write_file. unfold mbind_ at 1. rewrite fd_table_run by done. rewrite O4, O6. unfold mbind_ at 1. rewrite E1.
  rewrite (proj2 (Z.ltb_ge count 0)) by lia. pose proof Ho1 as [P1 P2 P3 P4 P5 P6 P7 P8]. unfold mbind_ at 1. rewrite fd_table_run by done.
  unfold mbind_ at 1, node_at. rewrite P8. unfold mbind_ at 1. rewrite P4, put_fd_run by done. destruct (holds_length _ _ _ _ Hh1) as [-> _].
  unfold mret_. replace (s32 count) with count by (unfold s32; zlia). eexists _, n1. split; [done|]. split; [by apply (open_file_put s1 fd p n1 (with_offset (f_offset f + count) f))|].
  split; [done|]. eapply same_user_trans; [exact Hs1|]. apply put_fd_same; [done|]. unfold fd_ok in O3. zbool. lia.
Qed.

Lemma read_spec s fd p n f d limit buf count rounds fuel :
  open_file s fd p n f -> holds (fsw s) n d limit -> 0 <= f_offset f -> fd <> 0 -> f_offset f + count < 2 ^ 32 -> 0 <= count < 2 ^ 31 ->
  validate_user_pointer (user_vm (sy s)) buf count = 0 ->
  let bs := take (Z.to_nat count) (drop (Z.to_nat (f_offset f)) d) in
  exists s', sys_read fd buf count rounds fuel s = Some (Some (Z.of_nat (length bs)), s')
    /\ open_file s' fd p n (with_offset (f_offset f + Z.of_nat (length bs)) f) /\ fsw s' = fsw s
    /\ umem (sy s') = write_bytes (umem (sy s)) buf bs.
Proof.
  intros Ho Hh Hoff Hfd Hov Hc Hv bs. pose proof Ho as [O1 O2 O3 O4 O5 O6 O7 O8].
  assert (Hbl : Z.of_nat (length bs) <= count) by (unfold bs; rewrite length_take; lia).
  unfold sys_read, mbind_ at 1, mgets, bad_buffer. rewrite Hv, andb_false_r. cbv iota. unfold mbind_ at 1. rewrite fd_table_run by done.
  rewrite O3, O4, O5. change (FD_TYPE_FILE =? FD_TYPE_PIPE) with false. cbn [andb]. rewrite (proj2 (Z.eqb_neq fd 0)) by done.
  unfold sys_read_file. unfold mbind_ at 1 2. rewrite fd_table_run by done. rewrite O3, O4, O5, O6.
  change (FD_TYPE_FILE =? FD_TYPE_FILE) with true. rewrite (proj2 (Z.eqb_neq p 0)) by done. cbn [negb orb].
  unfold mbind_ at 1, node_at. rewrite O8. unfold mbind_ at 1. rewrite (in_fs_run _ s _ _ (holds_read (fsw s) n d limit (f_offset f) count Hh Hoff ltac:(lia) Hov)). fold bs.
  unfold mbind_ at 1, store_user, mmodify. set (s1 := set_sy _ _).
  assert (Ho1 : open_file s1 fd p n f) by (by constructor). unfold mbind_, mret_.
  change (table_of (sy s)) with (table_of (sy s1)). rewrite put_fd_run by done. rewrite u32_small by lia.
  replace (s32 (Z.of_nat (length bs))) with (Z.of_nat (length bs)) by (unfold s32; zlia).
  eexists. split; [done|]. split; [by apply (open_file_put s1 fd p n f)|]. split; [done|].
  destruct (with_table_rest (sy s1) (fd_set (table_of (sy s1)) fd (with_offset (f_offset f + Z.of_nat (length bs)) f))) as (_ & _ & _ & Hu). exact Hu.
Qed.

Lemma seek_spec s fd p n f pos :
  open_file s fd p n f -> 0 <= pos <= f_size f -> f_size f < 2 ^ 32 -> pos < 2 ^ 31 ->
  exists s', in_sys (sys_lseek fd pos 0) s = Some (pos, s') /\ open_file s' fd p n (with_offset pos f) /\ fsw s' = fsw s /\ same_user s s' fd.
Proof.
  intros Ho Hp Hsz Hlim. pose proof Ho as [O1 O2 O3 O4 O5 O6 O7 O8].
  assert (E : sys_lseek fd pos 0 (sy s) = Some (pos, with_table (fd_set (table_of (sy s)) fd (with_offset pos f)) (sy s))).
  { unfold sys_lseek, mbind_ at 1. rewrite get_fd_table_run by done. rewrite O3, O4, O5. change (FD_TYPE_FILE =? FD_TYPE_FILE) with true. cbn [negb orb].
    change ((0 <? 0) || (2 <? 0))%bool with false. change (0 =? 0) with true. cbv iota. rewrite (proj2 (Z.ltb_ge pos 0)) by lia.
    rewrite (u32_small pos) by lia. rewrite (proj2 (Z.ltb_ge (f_size f) pos)) by lia. cbv zeta. rewrite (u32_small pos) by lia.
    unfold mbind_. rewrite set_fd_table_run by done. unfold mret_. do 2 f_equal. unfold s32. zlia. }
  rewrite (in_sys_run _ s _ _ E). eexists. split; [done|]. split; [by apply (open_file_put s fd p n f)|]. split; [done|].
  apply (put_fd_same s); [done|]. unfold fd_ok in O3. zbool. lia.
Qed.
End Spec.
