(* ===== verification/SdfsWrite.v ===== *)
(** * Writing through the VFS on SDFS ([src/src/fs/sdfs.c])

    [sdfs_write] walks the chain of a file, extends it when it ends, and rewrites
    the directory entry when the file grows.  Here the chain of a file is a list
    of blocks whose payloads, 4092 bytes each, hold the file as a prefix, and
    [sdfs_write] is shown to overwrite a slice of the file or to extend it as long
    as the disk has free blocks; this discharges the interface [FileSystem] that
    the system calls are verified against. *)

From Stdlib Require Import ZArith Lia.
From stdpp Require Import base numbers list.
From S2P Require Import Prelude Bytes BlockDev Journal SdfsBlock SdfsDir Sdfs Vfs Files FilesSpec.

Section Chain.
Context {D : Type} `{BlockDev D} (ok : D -> Z -> Prop) `{!BlockDevOk D ok}.
Variable junk : list Z.
Local Abbreviation ready := (fs_ready ok).
Local Abbreviation content := (content junk).
Implicit Types s : fs D.

Definition payload s (b : Z) : list Z := sub (content s b) 4 4092.
Definition body s (blks : list Z) : list Z := concat (map (payload s) blks).

Fixpoint linked s (blks : list Z) : Prop :=
  match blks with
  | [] => True
  | b :: rest => disk_root_block s < b < disk_total_blocks s /\ get32 (content s b) 0 = default 0 (head rest) /\ linked s rest
  end.

Record chain s (blks : list Z) : Prop := {
  ch_ready : ready s;
  ch_linked : linked s blks;
  ch_nodup : NoDup blks;
  ch_used : Forall (fun b => bit s b = true) blks
}.

(** The number of blocks that are free. *)
Definition free_blocks s : Z := count_true (fun b => negb (bit s b)) (Z.to_nat (disk_total_blocks s)).

Definition in_area s (b : Z) : Prop := disk_root_block s < b < disk_total_blocks s.

Lemma linked_area s blks : linked s blks -> Forall (in_area s) blks.
Proof. induction blks as [|b blks IH]; [done|]. intros (Hb & _ & Hl). constructor; [done|by apply IH]. Qed.

Lemma linked_tail s pre blks : linked s (pre ++ blks) -> linked s blks.
Proof. induction pre as [|b pre IH]; [done|]. intros (_ & _ & Hl). by apply IH. Qed.

Lemma length_payload s b : ready s -> 0 <= b < disk_total_blocks s -> length (payload s b) = 4092%nat.
Proof. intros Hr Hb. destruct (content_block ok junk s b Hr Hb) as [Hl _]. apply length_sub. lia. Qed.

Lemma length_body s blks : ready s -> Forall (in_area s) blks -> length (body s blks) = (4092 * length blks)%nat.
Proof.
  intros Hr Hl. pose proof (fr_area ok s Hr) as Ha. induction Hl as [|b blks Hb _ IH]; [done|]. unfold body, in_area in *. cbn [map concat length].
  rewrite length_app, length_payload, IH by (done || lia). lia.
Qed.

Lemma body_app s a b : body s (a ++ b) = body s a ++ body s b.
Proof. unfold body. by rewrite map_app, concat_app. Qed.

Lemma split_at {A} (l : list A) k : (k < length l)%nat -> exists pre x post, l = pre ++ x :: post /\ length pre = k.
Proof.
  intros Hk. destruct (lookup_lt_is_Some_2 l k Hk) as [x Hx]. exists (take k l), x, (drop (S k) l). split; [symmetry; by apply take_drop_middle|].
  apply length_take_le. lia.
Qed.

(** *** Reading *)

Lemma skip_blocks_linked s pre b post : 0 <= disk_root_block s -> linked s (pre ++ b :: post) ->
  skip_blocks junk s (default 0 (head (pre ++ b :: post))) (length pre) = b.
Proof.
  intros H0. induction pre as [|c pre IH]; [done|]. cbn [app length skip_blocks head default from_option id]. intros (Hc & Hn & Hl).
  unfold sdfs_get_next_block. fold (content s c). rewrite Hn, IH by done.
  destruct (pre ++ b :: post) as [|x l] eqn:E; [by destruct pre|]. destruct Hl as (Hx & _). cbn. by rewrite (proj2 (Z.eqb_neq x 0)) by lia.
Qed.

Lemma read_loop_body s blks off_in remaining fuel :
  ready s -> linked s blks -> (off_in < 4092)%nat -> (off_in + remaining <= length (body s blks))%nat -> (off_in + remaining <= fuel * 4092)%nat ->
  read_loop junk s (default 0 (head blks)) (Z.of_nat off_in) (Z.of_nat remaining) fuel = take remaining (drop off_in (body s blks)).
Proof.
  intros Hr. pose proof (fr_area ok s Hr) as Ha. revert off_in remaining fuel. induction blks as [|b blks IH]; intros off_in remaining fuel Hl Ho Hlen Hf.
  { simpl in Hlen. assert (remaining = 0%nat) as -> by lia. by destruct fuel. }
  destruct (decide (remaining = 0%nat)) as [->|Hrem]; [by destruct fuel|]. destruct fuel as [|fuel]; [lia|].
  destruct Hl as (Hb & Hnx & Hl). pose proof (length_payload s b Hr ltac:(lia)) as Hp. cbn [read_loop head default from_option id].
  rewrite (proj2 (Z.leb_gt _ 0)), (proj2 (Z.eqb_neq b 0)) by lia. cbn [orb]. cbv zeta. set (n := Nat.min (4092 - off_in) remaining).
  replace (if Z.of_nat remaining <? FILE_DATA - Z.of_nat off_in then Z.of_nat remaining else FILE_DATA - Z.of_nat off_in)
    with (Z.of_nat n) by (unfold FILE_DATA, n; ztest; lia).
  rewrite Nat2Z.id. unfold sdfs_get_next_block. fold (content s b). rewrite Hnx.
  replace (Z.to_nat (4 + Z.of_nat off_in)) with (4 + off_in)%nat by lia.
  rewrite (sub_sub_shift _ 4 4092 off_in n (payload s b) eq_refl) by (unfold n; lia).
  replace (Z.of_nat remaining - Z.of_nat n) with (Z.of_nat (remaining - n)) by (unfold n; lia).
  change (body s (b :: blks)) with (payload s b ++ body s blks) in *. rewrite length_app, Hp in Hlen.
  pose proof (IH 0%nat (remaining - n)%nat fuel Hl) as IH'. change (Z.of_nat 0) with 0 in IH'.
  rewrite IH', drop_0 by (unfold n; lia). rewrite drop_app_le by lia. rewrite take_app, length_drop, Hp.
  destruct (Nat.le_gt_cases remaining (4092 - off_in)) as [Hle|Hgt].
  - replace n with remaining by (unfold n; lia). by rewrite Nat.sub_diag, (proj2 (Nat.sub_0_le remaining (4092 - off_in)) Hle).
  - replace n with (4092 - off_in)%nat by (unfold n; lia). f_equal. rewrite !take_ge by (rewrite length_drop; lia). done.
Qed.

Lemma sdfs_read_body s n blks d offset size :
  ready s -> linked s blks -> d `prefix_of` body s blks -> n_flags n = FS_FILE -> n_inode n = default 0 (head blks) ->
  n_length n = Z.of_nat (length d) -> 0 <= offset -> 0 <= size -> offset + size < 2 ^ 32 ->
  sdfs_read junk s n offset size = take (Z.to_nat size) (drop (Z.to_nat offset) d).
Proof.
  intros Hr Hl [x Hx] Hfl Hin Hlen Ho Hs Hov. pose proof (fr_area ok s Hr) as Ha. unfold sdfs_read, has_flag. rewrite Hfl. change (negb (negb (Z.land FS_FILE FS_FILE =? 0))) with false.
  rewrite Hin, Hlen. cbv iota zeta. destruct (Z.leb_spec (Z.of_nat (length d)) offset) as [Hge|Hlt].
  { rewrite drop_ge by lia. by rewrite take_nil. }
  rewrite u32_small by lia. unfold FILE_DATA. set (k := Z.to_nat (offset / 4092)). set (o := Z.to_nat (offset mod 4092)).
  assert (Hk : Z.to_nat offset = (k * 4092 + o)%nat /\ (o < 4092)%nat) by (unfold k, o; zlia).
  pose proof (length_body s blks Hr (linked_area s blks Hl)) as Hbl. assert (Hdl : (length d <= length (body s blks))%nat) by (rewrite Hx, length_app; lia).
  destruct (split_at blks k) as (pre & b & post & -> & Hpl); [lia|].
  pose proof (skip_blocks_linked s pre b post ltac:(lia) Hl) as Hskip. rewrite Hpl in Hskip. rewrite Hskip. pose proof (linked_tail s pre (b :: post) Hl) as Hl2. pose proof Hl2 as (Hbr & _).
  rewrite (proj2 (Z.eqb_neq b 0)), andb_false_r by lia. set (r := Nat.min (Z.to_nat size) (length d - Z.to_nat offset)).
  replace (if Z.of_nat (length d) <? offset + size then Z.of_nat (length d) - offset else size) with (Z.of_nat r) by (unfold r; ztest; lia).
  replace (offset mod 4092) with (Z.of_nat o) by (unfold o; zlia). pose proof (linked_area s _ Hl) as [Har1 Har2]%Forall_app.
  pose proof (length_body s pre Hr Har1) as Hb1. pose proof (length_body s (b :: post) Hr Har2) as Hb2. rewrite length_app in Hbl.
  etransitivity; [apply (read_loop_body s (b :: post) o r); [done|done|lia|unfold r; lia|unfold r; zlia]|].
  transitivity (take r (drop (Z.to_nat offset) (body s (pre ++ b :: post)))).
  - rewrite body_app, drop_app_ge by lia. do 2 f_equal. lia.
  - rewrite Hx, drop_app_le by lia. rewrite take_app_le by (rewrite length_drop; unfold r; lia).
    unfold r. destruct (Nat.le_gt_cases (Z.to_nat size) (length d - Z.to_nat offset)); [by rewrite Nat.min_l|].
    rewrite Nat.min_r by lia. by rewrite !take_ge by (rewrite length_drop; lia).
Qed.
(** *** Extending a chain *)

(** The chain [blks] of a file became [blks']: blocks were added at its end, taken
    from the free ones, and every other block in use kept its contents. *)
Record evolves s s' (blks blks' : list Z) : Prop := {
  ev_chain : chain s' blks';
  ev_geo : same_geo s s';
  ev_prefix : blks `prefix_of` blks';
  ev_room : Z.of_nat (length blks') + free_blocks s' = Z.of_nat (length blks) + free_blocks s;
  ev_new : forall b, b ∈ blks' -> b ∈ blks \/ bit s b = false;
  ev_bits : forall i, 0 <= i < disk_total_blocks s -> bit s i = true -> bit s' i = true;
  ev_frame : forall m, disk_root_block s <= m < disk_total_blocks s -> bit s m = true -> m ∉ blks -> content s' m = content s m
}.

Lemma evolves_refl s blks : chain s blks -> evolves s s blks blks.
Proof. intros Hc. constructor; try done; by left. Qed.

Lemma evolves_trans s1 s2 s3 b1 b2 b3 : evolves s1 s2 b1 b2 -> evolves s2 s3 b2 b3 -> evolves s1 s3 b1 b3.
Proof.
  intros [C1 G1 P1 R1 N1 B1 F1] [C2 G2 P2 R2 N2 B2 F2]. pose proof G1 as (_ & _ & T1 & _ & _ & T2 & _).
  assert (Hin : forall b, b ∈ b3 -> in_area s1 b).
  { intros b Hb. pose proof (linked_area s3 b3 (ch_linked _ _ C2)) as Ha. rewrite Forall_forall in Ha. specialize (Ha b Hb).
    destruct G2 as (_ & _ & T3 & _ & _ & T4 & _). unfold in_area in *. lia. }
  pose proof (fr_area ok s2 (ch_ready _ _ C1)) as Ha. constructor; [done|by eapply same_geo_trans|by trans b2|lia| | |].
  - intros b Hb. destruct (N2 b Hb) as [H2|H2]; [by apply N1|]. right. destruct (bit s1 b) eqn:E; [|done].
    rewrite B1 in H2; [done| |done]. specialize (Hin b Hb). unfold in_area in Hin. lia.
  - intros i Hi Hb. apply B2; [lia|]. by apply B1.
  - intros m Hm Hb Hn. rewrite F2; [by apply F1|lia|apply B1; [lia|done]|]. intros Hm2. destruct (N1 m Hm2) as [?|?]; [done|congruence].
Qed.

Lemma chain_last_linked s pre z fuel : 0 <= disk_root_block s -> linked s (pre ++ [z]) -> (length pre < fuel)%nat ->
  chain_last junk s (default 0 (head (pre ++ [z]))) fuel = Some z.
Proof.
  intros H0. revert fuel. induction pre as [|c pre IH]; intros fuel Hl Hf; (destruct fuel as [|fuel]; [lia|]); destruct Hl as (Hc & Hn & Hl);
    cbn [chain_last app head default from_option id]; unfold SdfsBlock.content in Hn; unfold sdfs_get_next_block; rewrite Hn; [done|].
  rewrite IH; [|done|simpl in Hf; lia]. destruct (pre ++ [z]) as [|x l] eqn:E; [by destruct pre|]. destruct Hl as (Hx & _). cbn.
  by rewrite (proj2 (Z.eqb_neq x 0)) by lia.
Qed.

Lemma linked_snoc s s' pre z b : same_geo s s' -> linked s (pre ++ [z]) -> in_area s b -> (forall c, c ∈ pre -> content s' c = content s c) ->
  get32 (content s' z) 0 = b -> get32 (content s' b) 0 = 0 -> linked s' (pre ++ [z; b]).
Proof.
  intros Hg Hl Hb Hc Hz Hb0. pose proof Hg as (_ & _ & T1 & _ & _ & T2 & _). unfold in_area in Hb. revert Hl Hc.
  induction pre as [|c pre IH]; intros (Hcr & Hcn & Hl) Hc; cbn [app linked].
  - rewrite Hz, Hb0. cbn. split_and!; try done; lia.
  - split; [lia|]. rewrite Hc by (by left). split; [|apply IH; [done|]; intros x Hx; apply Hc; by right]. rewrite Hcn. by destruct pre.
Qed.

(** A chain visits no block twice, so the fuel of the loops is enough. *)
Lemma chain_fuel_enough s blks : chain s blks -> (length blks < chain_fuel s)%nat.
Proof.
  intros Hc. pose proof (linked_area _ _ (ch_linked _ _ Hc)) as Ha. pose proof (fr_area ok s (ch_ready _ _ Hc)) as Hr. unfold chain_fuel.
  assert (Hsub : blks ⊆+ seqZ 0 (disk_total_blocks s)).
  { apply NoDup_submseteq; [apply (ch_nodup _ _ Hc)|]. intros b Hb. rewrite Forall_forall in Ha. specialize (Ha b Hb). unfold in_area in Ha. apply elem_of_seqZ. lia. }
  apply submseteq_length in Hsub. rewrite length_seqZ in Hsub. lia.
Qed.

(** What the allocator leaves: one of the free blocks, zeroed and in use. *)
Lemma alloc_block_spec s : ready s -> 0 < free_blocks s ->
  exists b s', sdfs_alloc_block s = (b, s') /\ in_area s b /\ bit s b = false /\ ready s' /\ same_geo s s'
    /\ (forall i, 0 <= i < disk_total_blocks s -> bit s' i = if decide (i = b) then true else bit s i)
    /\ content s' b = zeros 4096 /\ (forall m, 0 <= m < disk_total_blocks s -> ~ in_bitmap s m -> m <> b -> content s' m = content s m)
    /\ free_blocks s' = free_blocks s - 1.
Proof.
  intros Hr Hfree. pose proof (fr_area ok s Hr) as Ha. unfold sdfs_alloc_block.
  destruct (alloc_block_raw_spec ok junk s Hr) as [[_ Hall]|(b & s1 & -> & Hb & Hfb & _ & Hr1 & Hg1 & Hb1 & Hc1)].
  { unfold free_blocks in Hfree. rewrite (count_true_const _ _ false) in Hfree; [lia|]. intros i Hi. by rewrite Hall by lia. }
  rewrite (proj2 (Z.eqb_neq b 0)) by lia. pose proof Hg1 as (_ & _ & T1 & _).
  destruct (write_block_spec ok junk s1 b (zeros 4096) Hr1) as (s2 & Hw & Hr2 & Hg2 & Hca2 & Hc2); [lia|split; [apply length_replicate|apply zeros_bytes]|].
  unfold sdfs_zero_block, sdfs_write_raw_block. rewrite Hw. exists b, s2.
  assert (Hbits : forall i, 0 <= i < disk_total_blocks s -> bit s2 i = if decide (i = b) then true else bit s i).
  { intros i Hi. rewrite <- Hb1 by done. apply bit_cache; [done|]. by destruct Hg2 as (_ & _ & _ & _ & _ & _ & ? & _). }
  split_and!; try done; try lia.
  - by eapply same_geo_trans.
  - rewrite Hc2 by lia. by rewrite decide_True.
  - intros m Hm Hbm Hne. rewrite Hc2, decide_False by (done || lia). by apply Hc1.
  - unfold free_blocks. pose proof Hg2 as (_ & _ & T2 & _). rewrite T2, T1.
    rewrite (count_true_update (fun x => negb (bit s x)) _ _ b); [rewrite Hfb, Hbits, decide_True by (done || lia); simpl; lia|lia|].
    intros i Hi Hne. by rewrite Hbits, decide_False by (done || lia).
Qed.

Lemma append_block_spec s pre z : let blks := pre ++ [z] in
  chain s blks -> 0 < free_blocks s ->
  exists b s', sdfs_append_block junk (default 0 (head blks)) s = Some (b, s') /\ b <> 0 /\ evolves s s' blks (blks ++ [b])
    /\ forall c, c ∈ blks -> payload s' c = payload s c.
Proof.
  intros blks Hc Hfree. pose proof Hc as [Hr Hl Hnd Hu]. pose proof (fr_area ok s Hr) as Ha. pose proof (fr_total ok s Hr) as Ht.
  pose proof (linked_area _ _ Hl) as Har. rewrite Forall_forall in Har, Hu.
  destruct (alloc_block_spec s Hr Hfree) as (b & s1 & Ea & Hb & Hfb & Hr1 & Hg1 & Hb1 & Hz1 & Hc1 & Hf1). unfold in_area in Hb.
  pose proof Hg1 as (_ & _ & T1 & T2 & T3 & T4 & _).
  assert (Hnb : b ∉ blks) by (intros Hin; rewrite Hu in Hfb; done).
  assert (Hsame1 : forall m, disk_root_block s <= m < disk_total_blocks s -> m <> b -> content s1 m = content s m)
    by (intros m Hm Hne; apply Hc1; [lia|unfold in_bitmap; lia|done]).
  assert (Hz : in_area s z) by (apply Har; unfold blks; apply elem_of_app; right; by left). unfold in_area in Hz.
  assert (Hzb : z <> b) by (intros ->; apply Hnb; unfold blks; apply elem_of_app; right; by left).
  assert (Hl1 : linked s1 blks).
  { clear -Hl Hsame1 Hnb T1 T4. induction blks as [|c l IH]; [done|]. destruct Hl as (Hc & Hn & Hl). apply not_elem_of_cons in Hnb as [H1 H2].
    cbn [linked]. rewrite Hsame1 by (done || lia). split; [lia|]. split; [done|by apply IH]. }
  pose proof (content_block ok junk s z Hr ltac:(lia)) as [Hzl Hzb8].
  unfold sdfs_append_block. rewrite Ea, (proj2 (Z.eqb_neq b 0)) by lia.
  unfold blks. rewrite chain_last_linked; [|lia|done|].
  2: { unfold chain_fuel. rewrite T1. pose proof (chain_fuel_enough s blks Hc) as Hcf. unfold chain_fuel, blks in Hcf. rewrite length_app in Hcf. simpl in Hcf. lia. }
  unfold sdfs_set_next_block. fold (content s1 z). rewrite (Hsame1 z) by (done || lia).
  destruct (metadata_write_spec ok junk s1 z (put32 (content s z) 0 b) Hr1) as (s2 & Hw & Hr2 & Hg2 & Hca2 & Hc2); [lia| |].
  { split; [rewrite length_put32; lia|by apply Forall_put32]. }
  rewrite Hw. exists b, s2. split; [done|]. split; [lia|]. pose proof Hg2 as (_ & _ & V1 & V2 & V3 & V4 & V5 & _).
  assert (Hbits : forall i, 0 <= i < disk_total_blocks s -> bit s2 i = if decide (i = b) then true else bit s i)
    by (intros i Hi; rewrite <- Hb1 by done; by apply bit_cache).
  assert (Hz2 : content s2 z = put32 (content s z) 0 b) by (rewrite Hc2 by lia; by rewrite decide_True).
  assert (Hsame2 : forall m, disk_root_block s <= m < disk_total_blocks s -> m <> b -> m <> z -> content s2 m = content s m)
    by (intros m Hm H1 H2; rewrite Hc2, decide_False by (done || lia); by apply Hsame1).
  assert (Hndz : z ∉ pre) by (intros Hin; apply NoDup_app in Hnd as (_ & Hd & _); apply (Hd z Hin); by left).
  split.
  - constructor.
    + constructor; [done| | |].
      * unfold blks. rewrite <- app_assoc. apply (linked_snoc s); [by eapply same_geo_trans|done|done| |rewrite Hz2; apply get32_put32; [lia|unfold is_u32; lia]|].
        -- intros c Hin. assert (Hcb : c ∈ blks) by (unfold blks; apply elem_of_app; by left). specialize (Har c Hcb). unfold in_area in Har.
           apply Hsame2; [lia|intros ->; done|intros ->; done].
        -- rewrite Hc2, decide_False by (done || lia). by rewrite Hz1.
      * apply NoDup_app. split_and!; [done| |apply NoDup_singleton]. intros x Hx Hxb%list_elem_of_singleton. by subst x.
      * apply Forall_app. split; [|constructor; [rewrite Hbits, decide_True by (done || lia); done|done]].
        apply Forall_forall. intros c Hin. specialize (Har c Hin). unfold in_area in Har. rewrite Hbits by lia. case_decide; [done|by apply Hu].
    + by eapply same_geo_trans.
    + by exists [b].
    + rewrite length_app. cbn [length]. unfold free_blocks in *. rewrite V1. rewrite T1 in Hf1 |- *.
      rewrite (count_true_ext _ (fun x => negb (bit s1 x))); [lia|]. intros i Hi. f_equal. rewrite Hbits, Hb1 by lia. done.
    + intros c [Hin|Hin%list_elem_of_singleton]%elem_of_app; [by left|right; by subst c].
    + intros i Hi Hbi. rewrite Hbits by done. by case_decide.
    + intros m Hm Hbm Hn. apply Hsame2; [done|intros ->; congruence|]. intros ->. apply Hn. unfold blks. apply elem_of_app. right. by left.
  - intros c Hin. specialize (Har c Hin). unfold in_area in Har. unfold payload. destruct (decide (c = z)) as [->|Hne].
    + rewrite Hz2. apply sub_put32_ne; lia.
    + by rewrite Hsame2 by (lia || done || intros ->; done).
Qed.
Lemma body_same s s' blks : (forall c, c ∈ blks -> payload s' c = payload s c) -> body s' blks = body s blks.
Proof. intros Hp. unfold body. f_equal. apply map_ext_in. intros c Hc. apply Hp. by apply list_elem_of_In. Qed.

(** The block after [cur], existing or new. *)
Lemma next_or_append_spec s pre cur post : let blks := pre ++ cur :: post in
  chain s blks -> Z.of_nat (length pre) + 1 < Z.of_nat (length blks) + free_blocks s ->
  exists next s' post', next_or_append junk (default 0 (head blks)) cur s = Some (next, s') /\ next <> 0
    /\ evolves s s' blks (pre ++ cur :: next :: post') /\ body s blks `prefix_of` body s' (pre ++ cur :: next :: post').
Proof.
  intros blks Hc Hroom. pose proof Hc as [Hr Hl Hnd Hu]. pose proof (fr_area ok s Hr) as Ha. pose proof (linked_tail s pre (cur :: post) Hl) as (Hcur & Hn & Hpost).
  unfold next_or_append, mbind_, mgets, sdfs_get_next_block. fold (content s cur). rewrite Hn.
  destruct post as [|nx post]; cbn [head default from_option id].
  - destruct (append_block_spec s pre cur Hc) as (b & s' & E & Hb & Hev & Hp).
    { unfold blks in Hroom. rewrite length_app in Hroom. cbn [length] in Hroom. lia. }
    exists b, s', []. change (0 =? 0) with true. cbv iota. unfold blks at 1. rewrite E. split_and!; [done|done| |].
    + unfold blks in Hev. by rewrite <- app_assoc in Hev.
    + change (cur :: [b]) with ([cur] ++ [b]). rewrite app_assoc, body_app. unfold blks. rewrite (body_same s s') by done. by eexists.
  - destruct Hpost as (Hnx & _). exists nx, s, post. rewrite (proj2 (Z.eqb_neq nx 0)) by lia. split_and!; [done|lia|by apply evolves_refl|done].
Qed.

Lemma head_app_cons (pre post : list Z) x post' : default 0 (head (pre ++ x :: post)) = default 0 (head (pre ++ x :: post')).
Proof. by destruct pre. Qed.

Lemma write_skip_spec s pre cur post k : let blks := pre ++ cur :: post in
  chain s blks -> Z.of_nat (length pre + k) < Z.of_nat (length blks) + free_blocks s ->
  exists s' pre' cur' post', write_skip junk (default 0 (head blks)) cur k s = Some (cur', s') /\ length pre' = (length pre + k)%nat
    /\ evolves s s' blks (pre' ++ cur' :: post') /\ body s blks `prefix_of` body s' (pre' ++ cur' :: post')
    /\ default 0 (head (pre' ++ cur' :: post')) = default 0 (head blks).
Proof.
  revert s pre cur post. induction k as [|k IH]; intros s pre cur post blks Hc Hroom; cbn [write_skip].
  { exists s, pre, cur, post. split_and!; [done|lia|by apply evolves_refl|done|done]. }
  destruct (next_or_append_spec s pre cur post Hc) as (nx & s1 & post1 & E1 & Hnx & Hev1 & Hp1); [fold blks; lia|].
  fold blks in E1, Hev1, Hp1. unfold mbind_ at 1. rewrite E1, (proj2 (Z.eqb_neq nx 0) Hnx).
  assert (Ha : pre ++ cur :: nx :: post1 = (pre ++ [cur]) ++ nx :: post1) by (by rewrite <- app_assoc). rewrite Ha in Hev1, Hp1.
  destruct (IH s1 (pre ++ [cur]) nx post1 (ev_chain _ _ _ _ Hev1)) as (s' & pre' & cur' & post' & E2 & Hlen & Hev2 & Hp2 & Hh).
  { rewrite (ev_room _ _ _ _ Hev1), length_app. fold blks. cbn [length]. lia. }
  assert (Hh1 : default 0 (head ((pre ++ [cur]) ++ nx :: post1)) = default 0 (head blks)) by (rewrite <- Ha; apply head_app_cons).
  rewrite Hh1 in E2, Hh. exists s', pre', cur', post'. split_and!; [done|rewrite Hlen, length_app; simpl; lia|by eapply evolves_trans|by etransitivity|done].
Qed.

(** *** Writing *)

Lemma prefix_splice (d x c : list Z) pos : d `prefix_of` x -> (pos <= length d)%nat -> splice d pos c `prefix_of` splice x pos c.
Proof.
  intros [y ->] Hp. unfold splice. rewrite take_app_le by lia. apply prefix_app, prefix_app. rewrite drop_app. by eexists.
Qed.

Lemma sub_splice_within (b c : list Z) o n off : (off + length c <= n)%nat -> (o + n <= length b)%nat ->
  sub (splice b (o + off) c) o n = splice (sub b o n) off c.
Proof.
  intros H1 H2. assert (Hl : length (sub b o n) = n) by (by apply length_sub). apply list_eq. intros i.
  rewrite lookup_sub, (lookup_splice (sub b o n)), (lookup_splice b), lookup_sub by lia. repeat case_decide; try lia; try done; f_equal; lia.
Qed.

(** Overwriting part of one block of a chain. *)
Lemma write_at_spec s pre cur post off_in chunk : let blks := pre ++ cur :: post in
  chain s blks -> (off_in + length chunk <= 4092)%nat -> Forall is_byte chunk ->
  exists s', sdfs_write_block s cur (splice (content s cur) (4 + off_in) chunk) = (true, s')
    /\ evolves s s' blks blks /\ body s' blks = splice (body s blks) (4092 * length pre + off_in) chunk.
Proof.
  intros blks Hc Hlen Hby. pose proof Hc as [Hr Hl Hnd Hu]. pose proof (fr_area ok s Hr) as Ha. pose proof (linked_area _ _ Hl) as Har.
  assert (Hcur : in_area s cur) by (apply Forall_app in Har as [_ Har]; by inversion Har). unfold in_area in Hcur.
  pose proof (content_block ok junk s cur Hr ltac:(lia)) as [Hcl Hcb].
  destruct (write_block_spec ok junk s cur (splice (content s cur) (4 + off_in) chunk) Hr ltac:(lia)) as (s' & Hw & Hr' & Hg & Hca & Hco).
  { split; [rewrite length_splice; lia|by apply Forall_splice]. }
  exists s'. split; [done|]. pose proof Hg as (_ & _ & T1 & _ & _ & T2 & T3 & _).
  assert (Hbits : forall i, bit s' i = bit s i) by (intros i; by apply bit_cache).
  assert (Hcc : content s' cur = splice (content s cur) (4 + off_in) chunk) by (rewrite Hco by lia; by rewrite decide_True).
  assert (Hce : forall m, 0 <= m < disk_total_blocks s -> m <> cur -> content s' m = content s m)
    by (intros m Hm Hne; by rewrite Hco, decide_False by done).
  assert (Hlink : forall l, linked s l -> linked s' l).
  { induction l as [|c l IH]; [done|]. intros (H1 & H2 & H3). split; [lia|]. split; [|by apply IH]. rewrite <- H2. destruct (decide (c = cur)) as [->|Hne].
    - rewrite Hcc. unfold get32. by rewrite sub_splice_ne by lia.
    - by rewrite Hce by (done || lia). }
  assert (Hpay : payload s' cur = splice (payload s cur) off_in chunk).
  { unfold payload. rewrite Hcc. apply sub_splice_within; lia. }
  split.
  - constructor; [|done|done| |by left|intros i Hi; by rewrite Hbits|].
    + constructor; [done|by apply Hlink|done|]. eapply Forall_impl; [exact Hu|]. intros c. cbv beta. by rewrite Hbits.
    + f_equal. unfold free_blocks. rewrite T1. apply count_true_ext. intros i _. by rewrite Hbits.
    + intros m Hm _ Hn. apply Hce; [lia|]. intros ->. apply Hn. unfold blks. apply elem_of_app. right. by left.
  - apply NoDup_app in Hnd as (_ & Hd1 & Hd2). apply NoDup_cons in Hd2 as [Hd2 _].
    assert (Hother : forall c, c ∈ blks -> c <> cur -> payload s' c = payload s c).
    { intros c Hin Hne. unfold payload. rewrite Forall_forall in Har. specialize (Har c Hin). unfold in_area in Har. by rewrite Hce by (done || lia). }
    unfold blks. rewrite !body_app. change (body ?x (cur :: post)) with (payload x cur ++ body x post). rewrite Hpay.
    rewrite (body_same s s' pre), (body_same s s' post).
    2: { intros c Hin. apply Hother; [unfold blks; apply elem_of_app; right; by right|]. by intros ->. }
    2: { intros c Hin. apply Hother; [unfold blks; apply elem_of_app; by left|]. intros ->. apply (Hd1 cur Hin). by left. }
    apply Forall_app in Har as [Har1 _]. rewrite <- (length_body s pre Hr Har1), splice_app_r, splice_app_l; [done|]. rewrite length_payload by (done || lia). lia.
Qed.

(** The write loop overwrites the file from the position on, and past its end
    while blocks are free. *)
Lemma write_loop_spec fuel s pre cur post off_in src written : let blks := pre ++ cur :: post in
  let pos := (4092 * length pre + off_in)%nat in
  chain s blks -> (off_in < 4092)%nat -> (length src <= fuel)%nat -> Forall is_byte src ->
  Z.of_nat (pos + length src) <= 4092 * (Z.of_nat (length blks) + free_blocks s) ->
  exists s' blks', write_loop junk (default 0 (head blks)) cur (Z.of_nat off_in) src written fuel s = Some (written + Z.of_nat (length src), s')
    /\ evolves s s' blks blks' /\ default 0 (head blks') = default 0 (head blks)
    /\ forall d, d `prefix_of` body s blks -> (pos <= length d)%nat -> splice d pos src `prefix_of` body s' blks'.
Proof.
  revert s pre cur post off_in src written. induction fuel as [|fuel IH]; intros s pre cur post off_in src written blks pos Hc Ho Hf Hby Hroom;
    (destruct src as [|x src0]; [exists s, blks; cbn [write_loop length]; rewrite Z.add_0_r; split_and!; [done|by apply evolves_refl|done|];
      intros d Hd _; by rewrite splice_nil|]); [cbn [length] in Hf; lia|].
  cbn [write_loop]. cbv zeta. set (src := x :: src0) in *.
  replace (Z.to_nat (FILE_DATA - Z.of_nat off_in)) with (4092 - off_in)%nat by (unfold FILE_DATA; lia). set (room := (4092 - off_in)%nat).
  replace (Z.to_nat (4 + Z.of_nat off_in)) with (4 + off_in)%nat by lia.
  destruct (write_at_spec s pre cur post off_in (take room src) Hc) as (s1 & Hw & Hev1 & Hb1); [rewrite length_take; unfold room; lia|by apply Forall_take|].
  unfold mbind_ at 1. fold (content s cur). rewrite Hw. fold blks pos in Hev1, Hb1.
  assert (Hbl : (pos + length (take room src) <= length (body s blks))%nat).
  { destruct Hc as [Hr Hl _ _]. rewrite (length_body s blks Hr (linked_area _ _ Hl)). unfold blks, pos. rewrite length_app, length_take. unfold room. cbn [length]. lia. }
  assert (Hsp : forall d, d `prefix_of` body s blks -> (pos <= length d)%nat -> splice d pos (take room src) `prefix_of` body s1 blks)
    by (intros d Hd Hp; rewrite Hb1; by apply prefix_splice).
  destruct (drop room src) as [|y rest0] eqn:Erest.
  { assert (Htk : take room src = src) by (rewrite <- (take_drop room src) at 2; by rewrite Erest, app_nil_r). rewrite Htk in *. exists s1, blks. done. }
  assert (Hsl : (room < length src)%nat) by (apply (f_equal length) in Erest; rewrite length_drop in Erest; cbn [length] in Erest; lia).
  assert (Hck : length (take room src) = room) by (apply length_take_le; lia). rewrite Hck in *.
  destruct (next_or_append_spec s1 pre cur post (ev_chain _ _ _ _ Hev1)) as (nx & s2 & post2 & E2 & Hnx & Hev2 & Hp2).
  { fold blks. rewrite (ev_room _ _ _ _ Hev1). unfold pos, room in *. lia. }
  fold blks in E2, Hev2, Hp2. unfold mbind_ at 1. rewrite E2, (proj2 (Z.eqb_neq nx 0) Hnx).
  assert (Ha : pre ++ cur :: nx :: post2 = (pre ++ [cur]) ++ nx :: post2) by (by rewrite <- app_assoc). rewrite Ha in Hev2, Hp2.
  pose proof (evolves_trans _ _ _ _ _ _ Hev1 Hev2) as Hev12.
  assert (Hh : default 0 (head ((pre ++ [cur]) ++ nx :: post2)) = default 0 (head blks)) by (rewrite <- Ha; apply head_app_cons).
  assert (Hpos' : (4092 * length (pre ++ [cur]) + 0 = pos + room)%nat) by (rewrite length_app; unfold pos, room; cbn [length]; lia).
  destruct (IH s2 (pre ++ [cur]) nx post2 0%nat (y :: rest0) (written + Z.of_nat room) (ev_chain _ _ _ _ Hev2)) as (s' & blks' & E3 & Hev3 & Hh3 & Hd3).
  - lia.
  - rewrite <- Erest, length_drop. lia.
  - rewrite <- Erest. by apply Forall_drop.
  - rewrite (ev_room _ _ _ _ Hev12), Hpos', <- Erest, length_drop. lia.
  - rewrite Hh in E3, Hh3. change (Z.of_nat 0) with 0 in E3. exists s', blks'. split_and!.
    + rewrite E3, <- Erest, length_drop. do 2 f_equal. lia.
    + by eapply evolves_trans.
    + done.
    + intros d Hd Hp. rewrite <- (take_drop room src), <- splice_twice, Hck by lia. rewrite Hpos' in Hd3. rewrite Erest. apply Hd3.
      * etransitivity; [by apply Hsp|done].
      * rewrite length_splice_grow, Hck by lia. lia.
Qed.
(** *** The directory entry *)

(** The entry [e] of the node [n] lies where the node says, outside the file. *)
Record entry_at s (n : node) (blks : list Z) (e : entry) : Prop := {
  ea_block : n_impl n <> 0 /\ disk_root_block s <= n_impl n < disk_total_blocks s;
  ea_used : bit s (n_impl n) = true;
  ea_out : n_impl n ∉ blks;
  ea_here : holds_entry (content s (n_impl n)) (Z.to_nat (u16 (n_impl_offset n))) e;
  ea_ok : entry_ok e;
  ea_fits : 2 + entry_len e + 24 <= SDFS_BLOCK_SIZE - u16 (n_impl_offset n);
  ea_start : e_start e = n_inode n;
  ea_size : e_size e = n_length n
}.

Lemma entry_at_evolves s s' n blks blks' e : evolves s s' blks blks' -> entry_at s n blks e -> entry_at s' n blks' e.
Proof.
  intros [C G P R N B F] [E1 E2 E3 E4 E5 E6 E7 E8]. pose proof G as (_ & _ & T1 & _ & _ & T2 & _).
  assert (0 <= disk_root_block s) by (pose proof (fr_area ok s' (ch_ready _ _ C)); lia).
  constructor; try done.
  - rewrite T1, T2. done.
  - apply B; [lia|done].
  - intros Hin. destruct (N _ Hin) as [?|?]; [done|congruence].
  - rewrite F; [done|lia|done|done].
Qed.

Lemma with_size_ok e size now : entry_ok e -> is_u32 size -> is_u32 now -> entry_ok (with_size e size now).
Proof. intros [] Hs Hn. by constructor. Qed.

Lemma entry_bytes_bytes e : entry_ok e -> Forall is_byte (e_name e) -> Forall is_byte (entry_bytes e).
Proof.
  intros [Ht _ Hn _ _ _ _ _ _ _] Hb. unfold entry_bytes, entry_len. rewrite !Forall_app. split_and!; try done; try (apply le_bytes_bytes; lia).
  repeat constructor; try apply Ht; lia.
Qed.

Lemma update_entry_size_spec s n blks e size : chain s blks -> entry_at s n blks e -> is_u32 (timer_ticks s) -> is_u32 size ->
  exists s', update_entry_size junk n size s = Some (tt, s') /\ chain s' blks /\ same_geo s s' /\ body s' blks = body s blks
    /\ free_blocks s' = free_blocks s /\ entry_at s' (set_length n size) blks (with_size e size (timer_ticks s))
    /\ (forall i, bit s' i = bit s i)
    /\ forall m, 0 <= m < disk_total_blocks s -> m <> n_impl n -> content s' m = content s m.
Proof.
  intros Hc Hat Htk Hsz. pose proof Hat as [[E0 E1] E2 E3 E4 E5 E6 E7 E8]. pose proof Hc as [Hr Hl Hnd Hu]. pose proof (fr_area ok s Hr) as Ha.
  pose proof (content_block ok junk s (n_impl n) Hr ltac:(lia)) as [Hcl Hcb]. set (off := Z.to_nat (u16 (n_impl_offset n))) in *.
  assert (Hoff : 0 <= u16 (n_impl_offset n)) by (unfold u16; zlia).
  set (e' := with_size e size (timer_ticks s)). pose proof (with_size_ok e size (timer_ticks s) E5 Hsz Htk) as He'. fold e' in He'.
  assert (Hnb : Forall is_byte (e_name e)).
  { assert (Hs : Forall is_byte (entry_bytes e)) by (rewrite <- E4; by apply Forall_sub). unfold entry_bytes in Hs.
    apply Forall_app in Hs as [_ Hs]. by apply Forall_app in Hs as [Hs _]. }
  assert (Hfit : (off + length (entry_bytes e') <= 4096)%nat).
  { rewrite length_entry_bytes. unfold e', off, entry_len, SDFS_BLOCK_SIZE in *. cbn [e_name with_size new_entry]. lia. }
  set (b' := splice (content s (n_impl n)) off (entry_bytes e')).
  assert (Hb' : is_block b') by (split; [unfold b'; rewrite length_splice; lia|apply Forall_splice; [done|by apply entry_bytes_bytes]]).
  destruct (metadata_write_spec ok junk s (n_impl n) b' Hr ltac:(lia) Hb') as (s' & Hw & Hr' & Hg & Hca & Hco).
  exists s'. pose proof Hg as (_ & _ & T1 & _ & _ & T2 & T3 & _).
  assert (Hbits : forall i, bit s' i = bit s i) by (intros i; by apply bit_cache).
  assert (Hsame : forall m, 0 <= m < disk_total_blocks s -> m <> n_impl n -> content s' m = content s m)
    by (intros m Hm Hne; by rewrite Hco, decide_False by done).
  pose proof (linked_area _ _ Hl) as Har. rewrite Forall_forall in Har.
  assert (Hblk : forall c, c ∈ blks -> content s' c = content s c).
  { intros c Hin. specialize (Har c Hin). unfold in_area in Har. apply Hsame; [lia|]. intros ->. done. }
  split_and!; try done.
  - unfold update_entry_size. rewrite (proj2 (Z.eqb_neq _ 0) E0). fold (content s (n_impl n)) off.
    rewrite (deserialize_holds _ off _ e E4 E5 E6). unfold sdfs_entry_serialize.
    change (entry_len (with_size (unplaced e) size (timer_ticks s))) with (entry_len e). rewrite (proj2 (Z.ltb_ge _ _) E6). cbn [default from_option id].
    change (entry_bytes (with_size (unplaced e) size (timer_ticks s))) with (entry_bytes e'). fold b'. by rewrite Hw.
  - constructor; [done| |done|].
    + clear -Hl Hblk T1 T2. induction blks as [|c l IH]; [done|]. destruct Hl as (H1 & H2 & H3). cbn [linked]. rewrite Hblk by (by left).
      split; [lia|]. split; [done|]. apply IH; [done|]. intros x Hx. apply Hblk. by right.
    + eapply Forall_impl; [exact Hu|]. intros c. cbv beta. by rewrite Hbits.
  - apply body_same. intros c Hin. unfold payload. by rewrite Hblk.
  - unfold free_blocks. rewrite T1. apply count_true_ext. intros i _. by rewrite Hbits.
  - constructor; cbn [n_impl n_impl_offset n_inode n_length set_length]; try done.
    + rewrite T1, T2. done.
    + by rewrite Hbits.
    + fold off. rewrite Hco by lia. rewrite decide_True by done. unfold holds_entry, b'. apply sub_splice_eq. lia.
Qed.

(** ** Files *)

(** [sdfs_holds w n d limit]: the node [n] is the file with the bytes [d]; the disk
    has room for [limit] bytes of it. *)
Definition sdfs_holds s (n : node) (d : list Z) (limit : Z) : Prop :=
  n_flags n = FS_FILE /\ n_length n = Z.of_nat (length d) /\ is_u32 (timer_ticks s) /\ Z.of_nat (length d) <= limit < 2 ^ 32
  /\ exists b rest e, let blks := b :: rest in n_inode n = b /\ chain s blks /\ d `prefix_of` body s blks
    /\ limit <= 4092 * (Z.of_nat (length blks) + free_blocks s) /\ entry_at s n blks e.

Lemma sdfs_write_run s n d limit offset buf :
  sdfs_holds s n d limit -> 0 <= offset <= Z.of_nat (length d) -> buf <> [] -> Forall is_byte buf -> offset + Z.of_nat (length buf) <= limit ->
  exists s' n', sdfs_write junk n offset buf s = Some ((Z.of_nat (length buf), n'), s') /\ sdfs_holds s' n' (splice d (Z.to_nat offset) buf) limit
    /\ forall m, disk_root_block s <= m < disk_total_blocks s -> bit s m = true -> m <> n_impl n ->
         (forall blks, chain s blks -> n_inode n = default 0 (head blks) -> m ∉ blks) -> content s' m = content s m.
Proof.
  intros (Hfl & Hlen & Htk & Hlim & b & rest & e & Hin & Hc & Hd & Hroom & Hat) Hoff Hne Hby Hfit. set (blks := b :: rest) in *.
  pose proof Hc as [Hr Hl Hnd Hu]. pose proof (fr_area ok s Hr) as Ha. assert (Hbp : (0 < length buf)%nat) by (destruct buf; [done|simpl; lia]).
  set (k := Z.to_nat (offset / FILE_DATA)). set (o := Z.to_nat (offset mod FILE_DATA)).
  assert (Hk : Z.to_nat offset = (4092 * k + o)%nat /\ (o < 4092)%nat) by (unfold k, o, FILE_DATA; zlia).
  destruct (write_skip_spec s [] b rest k Hc) as (s1 & pre & cur & post & E1 & Hpl & Hev1 & Hp1 & Hh1); [cbn [app]; fold blks; cbn [length Nat.add]; lia|].
  cbn [app head default from_option id length Nat.add] in E1, Hh1, Hpl, Hev1, Hp1. fold blks in Hev1, Hp1. set (blks1 := pre ++ cur :: post) in *.
  pose proof (ev_chain _ _ _ _ Hev1) as Hc1. assert (Hcur : cur <> 0).
  { pose proof (linked_area _ _ (ch_linked _ _ Hc1)) as Har. apply Forall_app in Har as [_ Har]. inversion Har as [|? ? Hx _]. unfold in_area in Hx.
    destruct (ev_geo _ _ _ _ Hev1) as (_ & _ & _ & _ & _ & ? & _). lia. }
  pose proof (write_loop_spec (length buf) s1 pre cur post o buf 0 Hc1 ltac:(lia) ltac:(lia) Hby) as (s2 & blks2 & E2 & Hev2 & Hh2 & Hd2).
  { fold blks1. rewrite (ev_room _ _ _ _ Hev1). lia. }
  fold blks1 in E2, Hev2, Hh2, Hd2. rewrite Hh1 in E2, Hh2. rewrite Hpl in Hd2. replace (4092 * k + o)%nat with (Z.to_nat offset) in Hd2 by lia.
  specialize (Hd2 d ltac:(etransitivity; eassumption) ltac:(lia)). pose proof (evolves_trans _ _ _ _ _ _ Hev1 Hev2) as Hev.
  set (d' := splice d (Z.to_nat offset) buf) in *.
  assert (Hdl : Z.of_nat (length d') = Z.max (Z.of_nat (length d)) (offset + Z.of_nat (length buf))) by (unfold d'; rewrite length_splice_grow by lia; lia).
  pose proof (entry_at_evolves _ _ _ _ _ _ Hev Hat) as Hat2. pose proof (ev_chain _ _ _ _ Hev) as Hc2.
  assert (Hblk2 : exists rest2, blks2 = b :: rest2) by (destruct (ev_prefix _ _ _ _ Hev) as [x ->]; by eexists). destruct Hblk2 as [rest2 Hblk2].
  pose proof (ev_frame _ _ _ _ Hev) as Hframe.
  unfold sdfs_write, has_flag. rewrite Hfl. change (negb (negb (Z.land FS_FILE FS_FILE =? 0))) with false. cbv iota.
  rewrite (proj2 (Z.ltb_ge _ _)) by lia. rewrite Hin. fold k. unfold mbind_ at 1. rewrite E1, (proj2 (Z.eqb_neq cur 0) Hcur), andb_false_r.
  replace (offset mod FILE_DATA) with (Z.of_nat o) by (unfold o, FILE_DATA; zlia). unfold mbind_ at 1. rewrite E2, Z.add_0_l, u32_small by lia.
  pose proof (ev_geo _ _ _ _ Hev) as (_ & _ & T1 & _ & _ & T2 & _ & T3).
  rewrite Hlen. destruct (Z.ltb_spec (Z.of_nat (length d)) (offset + Z.of_nat (length buf))) as [Hgrow|Hno].
  - destruct (update_entry_size_spec s2 n blks2 e (offset + Z.of_nat (length buf)) Hc2 Hat2) as (s3 & E3 & Hc3 & Hg3 & Hb3 & Hf3 & Hat3 & Hbits3 & Hco3);
      [by rewrite T3|unfold is_u32; lia|].
    unfold mbind_. rewrite E3. eexists s3, _. split; [done|]. split.
    + split; [done|]. split; [cbn; lia|]. split; [destruct Hg3 as (_ & _ & _ & _ & _ & _ & _ & T4); by rewrite T4, T3|]. split; [lia|].
      exists b, rest2, (with_size e (offset + Z.of_nat (length buf)) (timer_ticks s2)). cbv zeta. rewrite <- Hblk2. split; [done|]. split; [done|]. split; [by rewrite Hb3|].
      split; [|done]. rewrite Hf3, (ev_room _ _ _ _ Hev). lia.
    + intros m Hm Hb Hni Hn. rewrite Hco3 by (done || lia). apply Hframe; [done|done|by apply (Hn blks Hc)].
  - eexists s2, n. split; [done|]. split.
    + split; [done|]. split; [lia|]. split; [by rewrite T3|]. split; [lia|].
      exists b, rest2, e. cbv zeta. rewrite <- Hblk2. split; [done|]. split; [done|]. split; [done|]. split; [|done]. rewrite (ev_room _ _ _ _ Hev). lia.
    + intros m Hm Hb Hni Hn. apply Hframe; [done|done|by apply (Hn blks Hc)].
Qed.
End Chain.

(** SDFS keeps what the system calls rely on. *)
#[export] Instance sdfs_file_system {D : Type} `{BlockDev D} (ok : D -> Z -> Prop) `{!BlockDevOk D ok} (junk : list Z) :
  FileSystem (fs D) node (H := sdfs_node junk) (sdfs_holds ok junk).
Proof.
  constructor.
  - intros s n d limit (_ & Hlen & _ & Hlim & _). done.
  - intros s n d limit off size (Hfl & Hlen & _ & _ & b & rest & e & Hin & [Hr Hl _ _] & Hd & _) Ho Hs Hov.
    unfold read_fs. cbn [fn_read sdfs_node]. unfold has_flag. rewrite Hfl. change (negb (Z.land FS_FILE FS_FILE =? 0)) with true. cbv iota.
    cbv beta. by rewrite (sdfs_read_body ok junk s n (b :: rest) d off size).
  - intros s n d limit off buf Hh Hoff Hbl Hby Hlim. destruct (sdfs_write_run ok junk s n d limit off buf) as (s' & n' & E & Hh' & _); try done.
    { intros ->. simpl in Hbl. lia. }
    exists s', n'. split; [|done]. unfold write_fs. cbn [fn_write sdfs_node]. destruct Hh as (Hfl & _). unfold has_flag. by rewrite Hfl.
Qed.

(** C4: [sdfs_write] on a file, at any position up to its end and
    with any number of bytes the disk has room for, writes all of them: the file then
    holds the old bytes with the new ones in their place, the directory entry records
    the new size, and blocks in use outside the file and its directory block keep
    their contents. *)
Theorem sdfs_write_splices {D : Type} `{BlockDev D} (ok : D -> Z -> Prop) `{!BlockDevOk D ok} junk (s : fs D) n d limit offset buf :
  sdfs_holds ok junk s n d limit -> 0 <= offset <= Z.of_nat (length d) -> buf <> [] -> Forall is_byte buf -> offset + Z.of_nat (length buf) <= limit ->
  exists s' n', sdfs_write junk n offset buf s = Some ((Z.of_nat (length buf), n'), s')
    /\ sdfs_holds ok junk s' n' (splice d (Z.to_nat offset) buf) limit
    /\ forall m, disk_root_block s <= m < disk_total_blocks s -> bit s m = true -> m <> n_impl n ->
         (forall blks, chain ok junk s blks -> n_inode n = default 0 (head blks) -> m ∉ blks) -> content junk s' m = content junk s m.
Proof. exact (sdfs_write_run ok junk s n d limit offset buf). Qed.

(** ** An empty file on a RAM disk *)

Definition fs_demo_empty : fs ramdisk := run (sdfs_create_file (zeros 4096) (SLASH :: [97])) fs_demo.
Definition empty_demo : node := {| n_name := [97]; n_flags := FS_FILE; n_inode := 19; n_length := 0; n_impl := 18; n_impl_offset := 6 |}.
Definition entry_empty : entry := new_entry SDFS_TYPE_FILE [97] 19 0 1000 1000 0 0 SDFS_DEFAULT_PERM.

Lemma fs_demo_empty_ready : fs_ready rd_ok fs_demo_empty.
Proof.
  constructor.
  - intros n Hn. change (disk_total_blocks fs_demo_empty) with 64 in Hn. unfold rd_ok.
    split; [exact Hn|]. split; [vm_compute; discriminate|]. by_compute.
  - reflexivity.
  - eexists. split; [vm_compute; reflexivity|]. split; [by_compute|reflexivity].
  - reflexivity.
  - vm_compute. split; [discriminate|reflexivity].
  - vm_compute. split; [discriminate|]. split; [reflexivity|]. split; [discriminate|reflexivity].
  - intros b Hb. change (disk_root_block fs_demo_empty) with 18 in Hb.
    assert (HF : Forall (fun b => bit fs_demo_empty b = true) (seqZ 0 19)) by by_compute.
    rewrite Forall_forall in HF. apply HF, elem_of_seqZ. lia.
Qed.

Lemma fs_demo_empty_holds : sdfs_holds rd_ok (zeros 4096) fs_demo_empty empty_demo [] 8000.
Proof.
  split; [done|]. split; [done|]. split; [by_compute|]. split; [simpl; lia|]. exists 19, [], entry_empty. cbv zeta. split; [done|]. split.
  - constructor; [apply fs_demo_empty_ready| |apply NoDup_singleton|constructor; [by_vm|done]]. cbn [linked head default]. split_and!; [by_compute|by_compute|by_vm|done].
  - split; [apply prefix_nil|]. split.
    + assert (E : free_blocks fs_demo_empty = 44) by by_vm. rewrite E. simpl. lia.
    + constructor; [split; [done|by_compute]|by_vm|rewrite list_elem_of_singleton; done|unfold holds_entry; by_vm|constructor; by_compute|by_compute|done|done].
Qed.

Lemma sdfs_write_splices_witness :
  exists s' n', sdfs_write (zeros 4096) empty_demo 0 (replicate 5000 7) fs_demo_empty = Some ((5000, n'), s')
    /\ sdfs_holds rd_ok (zeros 4096) s' n' (replicate 5000 7) 8000.
Proof.
  destruct (sdfs_write_splices rd_ok (zeros 4096) fs_demo_empty empty_demo [] 8000 0 (replicate 5000 7)) as (s' & n' & E & Hh & _).
  - exact fs_demo_empty_holds.
  - done.
  - done.
  - by_compute.
  - rewrite length_replicate. done.
  - rewrite length_replicate in E. exists s', n'. split; [exact E|]. 
exact Hh.
Defined.
