(* ===== verification/FilesTop.v ===== *)
(** * Reading and writing files through descriptors

    The end-to-end theorems of the file calls: against any file system that keeps
    the interface of [FilesSpec], and on SDFS in particular. *)

From Stdlib Require Import ZArith Lia String.
From stdpp Require Import base numbers list gmap.
From S2P Require Import Prelude Bytes Pmm Kheap Vmm Usercopy Task TaskInv TaskSched Pipe PipeFifo PipeRefs BlockDev Journal SdfsBlock SdfsDir Sdfs Vfs Keyboard Mouse Kern Tty Files FilesSpec SdfsWrite.

Section Spec.
Context {W N : Type} `{FsNode W N} `{NodeInfo N} (holds : W -> N -> list Z -> Z -> Prop) `{!FileSystem W N holds}.
Abbreviation kern := (kern W N).
Implicit Types s : kern.

(** C3: a file behaves as a byte sequence with a position: what [sys_write] puts
    at the position of a descriptor (over the old bytes, or beyond the end while the
    disk has room, 64 bytes at a time) is what [sys_read] returns after [sys_lseek]
    back to that position; the file then holds the old bytes with these in place,
    and other descriptors are not touched. *)
Theorem file_write_seek_read s fd p n f d limit buf buf2 count :
  open_file s fd p n f -> holds (fsw s) n d limit -> 0 <= f_offset f <= Z.of_nat (length d) -> 3 <= fd ->
  is_u64 buf -> 0 < count -> f_offset f + count < 2 ^ 31 -> f_offset f + count <= limit ->
  validate_user_pointer (user_vm (sy s)) buf count = 0 -> validate_user_pointer (user_vm (sy s)) buf2 count = 0 ->
  Forall is_byte (user_bytes (umem (sy s)) buf count) ->
  exists s1 s2 s3 n', sys_write fd buf count s = Some (count, s1)
    /\ in_sys (sys_lseek fd (f_offset f) 0) s1 = Some (f_offset f, s2)
    /\ sys_read fd buf2 count [] 0 s2 = Some (Some count, s3)
    /\ user_bytes (umem (sy s3)) buf2 count = user_bytes (umem (sy s)) buf count
    /\ nodes s3 !! p = Some n' /\ holds (fsw s3) n' (splice d (Z.to_nat (f_offset f)) (user_bytes (umem (sy s)) buf count)) limit
    /\ forall fd', 0 <= fd' -> fd' <> fd -> fd_at (table_of (sy s1)) fd' = fd_at (table_of (sy s)) fd'.
Proof.
  intros Ho Hh Hoff Hfd Hb Hc Hlt Hlim Hv Hv2 Hby. set (bs := user_bytes (umem (sy s)) buf count).
  assert (Hbl : Z.of_nat (length bs) = count) by (unfold bs; rewrite length_user_bytes; lia).
  destruct (write_spec holds s fd p n f d limit buf count) as (s1 & n' & E1 & Ho1 & Hh1 & Hs1); try done; try lia. fold bs in Ho1, Hh1.
  set (d' := splice d (Z.to_nat (f_offset f)) bs) in *. set (f1 := with_fsize _ _) in Ho1.
  assert (Hd' : Z.of_nat (length d') = Z.max (Z.of_nat (length d)) (f_offset f + count)) by (unfold d'; rewrite length_splice_grow by lia; lia).
  destruct (holds_length _ _ _ _ Hh1) as [_ Hdl].
  destruct (seek_spec s1 fd p n' f1 (f_offset f) Ho1) as (s2 & E2 & Ho2 & Hw2 & Hs2); [cbn [f1 f_size with_fsize]; lia|cbn [f1 f_size with_fsize]; lia|lia|].
  pose proof Hs1 as [U1 U2 U3 U4]. pose proof Hs2 as [V1 V2 V3 V4].
  destruct (read_spec holds s2 fd p n' _ d' limit buf2 count [] 0%nat Ho2) as (s3 & E3 & Ho3 & Hw3 & Hu3); cbn [f_offset with_offset]; try lia;
    [by rewrite Hw2|by rewrite V2, U2|].
  cbn [f_offset with_offset] in *. assert (Hread : take (Z.to_nat count) (drop (Z.to_nat (f_offset f)) d') = bs).
  { unfold d'. replace (Z.to_nat count) with (length bs) by lia. apply sub_splice_grow. lia. }
  rewrite Hread in *. rewrite Hbl in E3. exists s1, s2, s3, n'. split_and!; try done.
  - rewrite Hu3, V1, U1. rewrite <- Hbl. apply user_bytes_write.
  - apply (of_node _ _ _ _ _ Ho3).
  - by rewrite Hw3, Hw2.
Qed.
End Spec.

(** ** A machine with the RAM disk of [SdfsWrite]

     descriptor 3 is the file, and three bytes lie at
    0x5000 in the memory of the process. *)
Definition file_slot3 : kfile := file_slot 0x4000 0 0.
Definition file_demo : kern (fs ramdisk) node :=
  {| sy := {| ks := set_vmst vm_demo_mapped sched_boot; fd_static := <[3%nat := file_slot3]> (replicate 32 kfile0);
              umem := list_to_map [(0x5000, 11); (0x5001, 22); (0x5002, 33)] |};
     keys := with_layout KB_LAYOUT_US kbd_init; pointer := mouse_start; serial_in := []; console := [];
     kernel_termios := init_termios; stdin_esc_buf := zeros 8; stdin_esc_len := 0; stdin_esc_pos := 0;
     mnt := {| fs_root := None; mounts := [] |}; fsw := fs_demo_empty; nodes := {[ 0x4000 := empty_demo ]}; next_node := 0x5000 |}.

#[local] Instance demo_node : FsNode (fs ramdisk) node := sdfs_node (zeros 4096).

Lemma file_demo_open : open_file file_demo 3 0x4000 empty_demo file_slot3.
Proof. constructor; try done; vm_compute; by eauto. Qed.

Lemma file_write_seek_read_witness :
  exists s1 s2 s3, sys_write 3 0x5000 3 file_demo = Some (3, s1) /\ in_sys (sys_lseek 3 0 0) s1 = Some (0, s2)
    /\ sys_read 3 0x5080 3 [] 0 s2 = Some (Some 3, s3) /\ user_bytes (umem (sy s3)) 0x5080 3 = [11; 22; 33].
Proof.
  destruct (file_write_seek_read (sdfs_holds rd_ok (zeros 4096)) file_demo 3 0x4000 empty_demo file_slot3 [] 8000 0x5000 0x5080 3)
    as (s1 & s2 & s3 & n' & E1 & E2 & E3 & E4 & _).
  - exact file_demo_open.
  - exact fs_demo_empty_holds.
  - done.
  - done.
  - by_compute.
  - done.
  - done.
  - done.
  - by_vm.
  - by_vm.
  - by_compute.
  - exists s1, s2, s3. split_and!; [exact E1|exact E2|exact E3|]. rewrite E4. reflexivity.
Defined.
