(* ===== verification/Exec.v ===== *)
(** * Program start ([src/src/kernel/core/syscall.c])

    [sys_execve] and [do_execve]: find the file on the disk or in the initial RAM
    disk, load it ([Elf]), map a fresh stack of 64 KB below 3 GB and build the
    argument block on it: the strings, the pointers to them, and the count.  The
    steps on the address space run on the state of the loader; log output and the
    text of [launch_last_error] are left out. *)

From Stdlib Require Import ZArith Lia.
From stdpp Require Import base numbers list gmap.
From S2P Require Import Prelude Bytes Pmm Kheap Vmm Usercopy Mmap Elf.

(** ** The stack *)

Definition STACK_TOP : Z := 0xC0000000.
Definition STACK_SIZE : Z := 64 * 1024.
Definition MAX_ARGS : nat := 16.

(** [for (vaddr = stack_base; vaddr < stack_top; vaddr += 4096)], [n] pages. *)
Fixpoint map_stack_loop (vaddr : Z) (n : nat) : M loader unit :=
  match n with
  | O => mret_ tt
  | S n' =>
      phys <-- on_vm (call_kmalloc_a 4096) ;;
      on_vm (vmm_map_page phys vaddr 7) ;;;
      on_vm (memset_page vaddr) ;;;
      mmodify (fun s => set_umem (zero_page_at (umem s) vaddr) s) ;;;
      map_stack_loop (vaddr + 4096) n'
  end.
Definition map_stack : M loader unit := map_stack_loop (STACK_TOP - STACK_SIZE) 16.

(** The loop over the arguments: each string is copied below the last one; the
    result is the lowest address and the addresses of the strings. *)
Fixpoint push_strings (stack_bytes : Z) (args : list (list Z)) : M loader (Z * list Z) :=
  match args with
  | [] => mret_ (stack_bytes, [])
  | a :: rest =>
      let sb := u64 (stack_bytes - Z.of_nat (length (a ++ [0]))) in
      put_bytes sb (a ++ [0]) ;;;
      r <-- push_strings sb rest ;;
      mret_ (r.1, sb :: r.2)
  end.

(** [sp--; *sp = v] for each word of [vs] in turn, words of [w] bytes. *)
Fixpoint push_words (w : Z) (sp : Z) (vs : list Z) : M loader Z :=
  match vs with
  | [] => mret_ sp
  | v :: rest => let sp := u64 (sp - w) in put_bytes sp (le_bytes w v) ;;; push_words w sp rest
  end.

(** The two branches for 32-bit and 64-bit programs; the result is the stack
    pointer. *)
Definition build_stack32 (args : list (list Z)) : M loader Z :=
  r <-- push_strings STACK_TOP args ;;
  push_words 4 (r.1 &~ 0xF) ([0; 0] ++ rev (map u32 r.2) ++ [u32 (Z.of_nat (length args))]).
Definition build_stack64 (args : list (list Z)) : M loader Z :=
  r <-- push_strings STACK_TOP args ;;
  push_words 8 (r.1 &~ 0xF) ([0; 0; 0; 0] ++ rev r.2 ++ [Z.of_nat (length args)]).

Definition load_image (eclass : Z) (file : list Z) : M loader Z :=
  if eclass =? ELFCLASS32 then elf32_load_file file else elf64_load_file file.
Definition build_stack (eclass : Z) (args : list (list Z)) : M loader Z :=
  if eclass =? ELFCLASS32 then build_stack32 args else build_stack64 args.

(** [sys_execve] once the file is read; [None] is the result -1.  The result
    is the entry point and the new stack pointer, [execve_new_esp]. *)
Definition sys_execve_file (file : list Z) (args : list (list Z)) : M loader (option (Z * Z)) :=
  let eclass := elf_class (Some file) in
  if (negb (eclass =? ELFCLASS32) && negb (eclass =? ELFCLASS64))%bool then mret_ None else
  entry <-- load_image eclass file ;;
  if entry =? 0 then mret_ None else
  map_stack ;;;
  sp <-- build_stack eclass (take MAX_ARGS args) ;;
  mret_ (Some (entry, sp)).

(** The loop of [do_execve] that copies the arguments from user memory, from
    index [argc] on; [None] is the error. *)
Fixpoint read_argv (argv argc : Z) (n : nat) (s : loader) : option (list (list Z)) :=
  match n with
  | O => Some []
  | S n' =>
      match copy_from_user (lvm s) (umem s) (u64 (argv + 8 * argc)) 8 with
      | (r, Some up) =>
          if r <? 0 then None else
          if le_value up =? 0 then Some [] else
          let '(r, b) := strncpy_from_user (lvm s) (umem s) (le_value up) 255 in
          if r <? 0 then None else
          match read_argv argv (argc + 1) n' s with Some rest => Some (c_str b :: rest) | None => None end
      | (_, None) => None
      end
  end.

(** [do_execve] once the file is read: the error, or the new [rip] and [rsp]. *)
Definition do_execve_file (file : list Z) (argv : Z) : M loader (Z + Z * Z) :=
  let eclass := elf_class (Some file) in
  if (negb (eclass =? ELFCLASS32) && negb (eclass =? ELFCLASS64))%bool then mret_ (inl (- EFAULT)) else
  entry <-- load_image eclass file ;;
  if entry =? 0 then mret_ (inl (- EFAULT)) else
  map_stack ;;;
  args <-- (if argv =? 0 then mret_ (Some []) else mgets (read_argv argv 0 MAX_ARGS)) ;;
  match args with
  | None => mret_ (inl (- EFAULT))
  | Some args => sp <-- build_stack eclass args ;; mret_ (inr (entry, sp))
  end.

(** ** The argument block *)

Lemma pages_of_range a n lo hi : lo mod 4096 = 0 -> hi mod 4096 = 0 -> lo <= a -> 0 <= n -> a + n <= hi ->
  Forall (fun p => exists i, 0 <= i < (hi - lo) / 4096 /\ p = lo + i * 4096) (pages_of a n).
Proof.
  intros Hlo Hhi Ha Hn Hb. apply Forall_forall. intros p (i & -> & Hi%elem_of_seqZ)%list_elem_of_fmap. rewrite !page_mask in *.
  exists ((a - a mod 4096 - lo) / 4096 + i). zlia.
Qed.

(** The 16 pages of the stack are mapped. *)
Definition stack_mapped (v : vm) : Prop := forall i, 0 <= i < 16 -> page_mapped v (STACK_TOP - STACK_SIZE + i * 4096) = true.

Lemma put_stack a bs s : stack_mapped (lvm s) -> STACK_TOP - STACK_SIZE <= a -> a + Z.of_nat (length bs) <= STACK_TOP ->
  put_bytes a bs s = Some (tt, set_umem (write_bytes (umem s) a bs) s).
Proof.
  intros Hm Ha Hb. apply put_bytes_runs. apply Is_true_true, forallb_True.
  eapply Forall_impl; [apply (pages_of_range a _ (STACK_TOP - STACK_SIZE) STACK_TOP); [done|done|done|lia|done]|].
  intros p (i & Hi & ->). apply Is_true_true, Hm. unfold STACK_SIZE in Hi |- *. exact Hi.
Qed.

(** Writing below what was just written. *)
Lemma write_bytes_below m a l1 l2 : write_bytes (write_bytes m (a + Z.of_nat (length l1)) l2) a l1 = write_bytes m a (l1 ++ l2).
Proof.
  apply map_eq. intros k. rewrite !lookup_write, length_app, Nat2Z.inj_add. unfold nthZ.
  destruct (Z.leb_spec a k), (Z.ltb_spec k (a + Z.of_nat (length l1))), (Z.leb_spec (a + Z.of_nat (length l1)) k),
    (Z.ltb_spec k (a + Z.of_nat (length l1) + Z.of_nat (length l2))), (Z.ltb_spec k (a + (Z.of_nat (length l1) + Z.of_nat (length l2)))); cbn [andb]; try lia; try done.
  - by rewrite lookup_app_l by lia.
  - rewrite lookup_app_r by lia. do 3 f_equal. lia.
Qed.

(** The strings as they lie in memory, the last one lowest, and their places. *)
Definition string_block (args : list (list Z)) : list Z := concat (rev (map (fun a => a ++ [0]) args)).
Fixpoint string_places (top : Z) (args : list (list Z)) : list Z :=
  match args with [] => [] | a :: rest => let p := top - Z.of_nat (length (a ++ [0])) in p :: string_places p rest end.

Lemma string_block_cons a args : string_block (a :: args) = string_block args ++ (a ++ [0]).
Proof. unfold string_block. cbn [map rev]. rewrite concat_app. cbn [concat]. by rewrite app_nil_r. Qed.

Lemma push_strings_run args top s :
  stack_mapped (lvm s) -> top <= STACK_TOP -> STACK_TOP - STACK_SIZE <= top - Z.of_nat (length (string_block args)) ->
  let sb := top - Z.of_nat (length (string_block args)) in
  push_strings top args s = Some ((sb, string_places top args), set_umem (write_bytes (umem s) sb (string_block args)) s).
Proof.
  revert top s. induction args as [|a args IH]; intros top s Hm Ht Hb; cbn [push_strings string_places].
  { change (length (string_block [])) with 0%nat. cbn [Z.of_nat]. rewrite Z.sub_0_r. by destruct s. }
  set (n := Z.of_nat (length (a ++ [0]))) in *. rewrite string_block_cons, length_app, Nat2Z.inj_add in *. fold n in Hb |- *. unfold STACK_TOP, STACK_SIZE in *.
  set (k := Z.of_nat (length (string_block args))) in *.
  assert (Hn : 0 <= n /\ 0 <= k) by lia. rewrite u64_small by lia. unfold mbind_ at 1. rewrite put_stack by (done || unfold STACK_TOP, STACK_SIZE; lia).
  unfold mbind_. rewrite IH; [|done|unfold STACK_TOP; lia|fold k; unfold STACK_TOP, STACK_SIZE; lia]. fold k. unfold mret_. cbn [fst snd]. cbn [umem set_umem].
  replace (top - (k + n)) with (top - n - k) by lia. do 2 f_equal. unfold set_umem. cbn [lvm umem last_elf_heap_start]. f_equal.
  replace (top - n) with (top - n - k + k) at 1 by lia. unfold k at 2. apply write_bytes_below.
Qed.

(** Words pushed one below the other lie in memory in the reverse order. *)
Definition words (w : Z) (vs : list Z) : list Z := concat (map (le_bytes w) vs).

Lemma length_words w vs : 0 <= w -> Z.of_nat (length (words w vs)) = w * Z.of_nat (length vs).
Proof.
  intros Hw. induction vs as [|v vs IH]; [simpl; lia|]. unfold words in *. cbn [map concat length]. rewrite length_app, length_le_bytes by done. lia.
Qed.

Lemma push_words_run w vs sp s :
  0 < w -> stack_mapped (lvm s) -> sp <= STACK_TOP -> STACK_TOP - STACK_SIZE <= sp - w * Z.of_nat (length vs) ->
  let sp' := sp - w * Z.of_nat (length vs) in
  push_words w sp vs s = Some (sp', set_umem (write_bytes (umem s) sp' (words w (rev vs))) s).
Proof.
  intros Hw. revert sp s. induction vs as [|v vs IH]; intros sp s Hm Ht Hb; cbn [push_words rev].
  { cbn [length Z.of_nat]. rewrite Z.mul_0_r, Z.sub_0_r. by destruct s. }
  cbn [length] in *. rewrite Nat2Z.inj_succ, Z.mul_succ_r in *. set (k := w * Z.of_nat (length vs)) in *. assert (0 <= k) by (unfold k; nia).
  unfold STACK_TOP, STACK_SIZE in *. rewrite u64_small by lia. unfold mbind_ at 1.
  rewrite put_stack by (rewrite ?length_le_bytes, ?Z2Nat.id by lia; done || unfold STACK_TOP, STACK_SIZE; lia).
  rewrite IH; [|done|unfold STACK_TOP; lia|fold k; unfold STACK_TOP, STACK_SIZE; lia]. fold k. cbn [umem set_umem]. unfold set_umem. cbn [lvm umem last_elf_heap_start].
  replace (sp - (k + w)) with (sp - w - k) by lia. do 3 f_equal. unfold words. rewrite map_app, concat_app. cbn [map concat]. rewrite app_nil_r.
  assert (Hlen : Z.of_nat (length (words w (rev vs))) = k) by (rewrite length_words by lia; by rewrite length_rev).
  replace (sp - w) with (sp - w - k + Z.of_nat (length (words w (rev vs)))) at 1 by lia. apply write_bytes_below.
Qed.

Lemma user_bytes_same m m' a n : (forall i, 0 <= i < n -> m' !! (a + i) = m !! (a + i)) -> user_bytes m' a n = user_bytes m a n.
Proof.
  intros H. unfold user_bytes. apply list_fmap_ext. intros i x Hx. apply lookup_seqZ in Hx. by rewrite H by lia.
Qed.

Lemma string_places_read m top args : let sb := top - Z.of_nat (length (string_block args)) in
  Forall2 (fun p a => user_bytes (write_bytes m sb (string_block args)) p (Z.of_nat (length (a ++ [0]))) = a ++ [0]) (string_places top args) args.
Proof.
  revert m top. induction args as [|a args IH]; intros m top; cbn [string_places]; [constructor|]. cbv zeta in *. rewrite string_block_cons, length_app, Nat2Z.inj_add.
  set (n := Z.of_nat (length (a ++ [0]))). set (k := Z.of_nat (length (string_block args))). replace (top - (k + n)) with (top - n - k) by lia. constructor.
  - rewrite <- write_bytes_app. fold k. replace (top - n - k + k) with (top - n) by lia. apply user_bytes_write.
  - rewrite <- write_bytes_below. fold k. replace (top - n - k + k) with (top - n) by lia. apply IH.
Qed.

Lemma string_places_range top args : Forall (fun p => top - Z.of_nat (length (string_block args)) <= p < top) (string_places top args).
Proof.
  revert top. induction args as [|a args IH]; intros top; cbn [string_places]; [constructor|].
  rewrite string_block_cons, !length_app. cbn [length]. constructor; [lia|].
  eapply Forall_impl; [apply IH|]. intros p. cbv beta. lia.
Qed.

Lemma length_string_places top args : length (string_places top args) = length args.
Proof. revert top. induction args as [|a args IH]; intros top; cbn [string_places length]; [done|by rewrite IH]. Qed.

Lemma length_string_block args n : Forall (fun a : list Z => (length a <= n)%nat) args -> (length (string_block args) <= length args * S n)%nat.
Proof.
  induction 1 as [|a args Ha _ IH]; [done|]. rewrite string_block_cons, !length_app. cbn [length]. lia.
Qed.

(** What a program finds at its stack pointer [sp]: the count, the pointers to the
    arguments, zeros; words have [w] bytes. *)
Record argument_block (w : Z) (zs : nat) (args : list (list Z)) (sp : Z) (m m' : gmap Z Z) : Prop := {
  ab_words : exists ps, user_bytes m' sp (w * (1 + Z.of_nat (length args) + Z.of_nat zs))
      = words w (Z.of_nat (length args) :: ps ++ replicate zs 0)
    /\ Forall (fun p => 0 <= p < STACK_TOP) ps
    /\ Forall2 (fun p a => user_bytes m' p (Z.of_nat (length (a ++ [0]))) = a ++ [0]) ps args;
  ab_align : (sp + w * (1 + Z.of_nat (length args) + Z.of_nat zs)) mod 16 = 0;
  ab_range : STACK_TOP - STACK_SIZE <= sp /\ sp + w * (1 + Z.of_nat (length args) + Z.of_nat zs) <= STACK_TOP;
  ab_rest : forall a, a < sp \/ STACK_TOP <= a -> m' !! a = m !! a
}.

Lemma argument_block_built w zs f args s : w = 4 \/ w = 8 -> (zs <= 4)%nat -> (forall p, 0 <= p < STACK_TOP -> f p = p) ->
  stack_mapped (lvm s) -> (length args <= MAX_ARGS)%nat -> Forall (fun a => (length a <= 255)%nat) args ->
  exists sp m', (r <-- push_strings STACK_TOP args ;; push_words w (r.1 &~ 0xF) (replicate zs 0 ++ rev (map f r.2) ++ [Z.of_nat (length args)])) s
      = Some (sp, set_umem m' s) /\ argument_block w zs args sp (umem s) m'.
Proof.
  intros Hw Hzs Hf Hm Ha Hl. pose proof (length_string_block args 255 Hl) as Hbl. unfold MAX_ARGS in Ha.
  set (sb := STACK_TOP - Z.of_nat (length (string_block args))). set (ps := string_places STACK_TOP args).
  assert (Hsb : STACK_TOP - 4096 <= sb <= STACK_TOP) by (unfold sb; lia).
  assert (Hps : Forall (fun p => 0 <= p < STACK_TOP) ps).
  { eapply Forall_impl; [apply string_places_range|]. intros p. cbv beta. unfold STACK_TOP in *. lia. }
  assert (Hfps : map f ps = ps) by (rewrite <- (map_id ps) at 2; apply map_ext_Forall; eapply Forall_impl; [exact Hps|exact Hf]).
  set (m1 := write_bytes (umem s) sb (string_block args)).
  assert (Hal : (sb &~ 0xF) = sb - sb mod 16) by (change 0xF with (Z.ones 4); rewrite clear_low_bits by done; zlia). set (top := sb &~ 0xF) in *.
  set (vs := replicate zs 0 ++ rev ps ++ [Z.of_nat (length args)]). set (N := 1 + Z.of_nat (length args) + Z.of_nat zs).
  assert (Hvs : Z.of_nat (length vs) = N).
  { unfold vs. rewrite !length_app, length_replicate, length_rev. unfold ps. rewrite length_string_places. cbn [length]. unfold N. lia. }
  assert (Hrev : rev vs = Z.of_nat (length args) :: ps ++ replicate zs 0).
  { unfold vs. rewrite !rev_app_distr, rev_involutive. cbn [rev app]. do 2 f_equal.
    clear -Hzs. do 5 (destruct zs as [|zs]; [done|]). lia. }
  assert (HwN : 0 <= w * N <= 168) by (unfold N; destruct Hw as [-> | ->]; lia).
  assert (Hword : Z.of_nat (length (words w (rev vs))) = w * N) by (rewrite length_words by lia; by rewrite length_rev, Hvs).
  exists (top - w * N), (write_bytes m1 (top - w * N) (words w (rev vs))). split.
  - unfold mbind_. rewrite push_strings_run; [|done|done|fold sb; unfold STACK_SIZE; lia]. fold sb ps m1. cbn [fst snd]. fold top. rewrite Hfps. fold vs.
    rewrite push_words_run; [|lia|done|zlia|rewrite Hvs; unfold STACK_SIZE; zlia]. rewrite Hvs. done.
  - constructor.
    + exists ps. fold N. split; [|split; [done|]].
      * rewrite <- Hrev, <- Hword. apply user_bytes_write.
      * pose proof (string_places_read (umem s) STACK_TOP args) as Hr. fold sb m1 ps in Hr. pose proof (string_places_range STACK_TOP args) as Hrange. fold sb ps in Hrange.
        revert Hword. generalize (words w (rev vs)). generalize (w * N). intros K W Hword. clear -Hr Hrange Hword Hal. induction Hr as [|p a ps' args' E _ IH]; [constructor|]. apply Forall_cons in Hrange as [Hp Hrange].
        constructor; [|by apply IH]. etransitivity; [|exact E]. apply user_bytes_same. intros i Hi. rewrite lookup_write, Hword.
        rewrite (proj2 (Z.ltb_ge _ _)), andb_false_r by zlia. done.
    + fold N. zlia.
    + fold N. unfold STACK_SIZE. zlia.
    + intros a Hout. rewrite lookup_write, Hword. unfold m1. rewrite lookup_write. fold sb. unfold sb.
      assert (Htop : top <= STACK_TOP) by zlia. assert (Hlow : top - w * N <= sb) by zlia. unfold sb in Hlow. zcases; try done; lia.
Qed.

(** [execve_stack_layout64]: with a mapped stack and at most 16 arguments, the code for 64-bit programs
    leaves on the stack what a program expects. *)
Lemma build_stack64_run args s : stack_mapped (lvm s) -> (length args <= MAX_ARGS)%nat -> Forall (fun a => (length a <= 255)%nat) args ->
  exists sp m', build_stack64 args s = Some (sp, set_umem m' s) /\ argument_block 8 4 args sp (umem s) m'.
Proof.
  intros Hm Ha Hl. destruct (argument_block_built 8 4 id args s) as (sp & m' & E & Hab); [by right|lia|done|done|done|done|].
  exists sp, m'. split; [|done]. rewrite <- E. unfold build_stack64, mbind_. destruct (push_strings _ _ _) as [[r s1]|]; [|done]. by rewrite map_id.
Qed.

Lemma build_stack32_run args s : stack_mapped (lvm s) -> (length args <= MAX_ARGS)%nat -> Forall (fun a => (length a <= 255)%nat) args ->
  exists sp m', build_stack32 args s = Some (sp, set_umem m' s) /\ argument_block 4 2 args sp (umem s) m'.
Proof.
  intros Hm Ha Hl. destruct (argument_block_built 4 2 u32 args s) as (sp & m' & E & Hab); [by left|lia| |done|done|done|].
  { intros p Hp. apply u32_small. unfold STACK_TOP in Hp. lia. }
  exists sp, m'. split; [|done]. rewrite <- E. unfold build_stack32, mbind_. destruct (push_strings _ _ _) as [[r s1]|]; [|done].
  unfold MAX_ARGS in Ha. rewrite (u32_small (Z.of_nat (length args))) by lia. done.
Qed.
