(* ===== verification/ExecMap.v ===== *)
(** * Mapping the stack of a program ([src/src/kernel/core/syscall.c])

    The pages of the stack come from the kernel heap, not from the frame allocator:
    each one is mapped and then cleared.  Clearing it is harmless because no page
    table lies in it: the tables are in heap blocks of their own. *)

From Stdlib Require Import ZArith Lia.
From stdpp Require Import base numbers list gmap.
From S2P Require Import Prelude Bytes Pmm Kheap Vmm Usercopy Mmap Elf Exec.

(** ** Where the page tables are *)

(** Every table of [m'] is one of [m] or lies at or above [lo]. *)
Definition tables_from (m m' : gmap Z Z) (pml4 lo : Z) : Prop :=
  forall q a, Forall in_table q -> tbl m' 3 pml4 q = Some a -> tbl m 3 pml4 q = Some a \/ lo <= a.

Lemma tables_same m m' pml4 lo : (forall q, Forall in_table q -> tbl m' 3 pml4 q = tbl m 3 pml4 q) -> tables_from m m' pml4 lo.
Proof. intros H q a Hq Ha. left. by rewrite <- H. Qed.

Lemma tables_trans m1 m2 m3 pml4 lo lo2 : tables_from m1 m2 pml4 lo -> tables_from m2 m3 pml4 lo2 -> lo <= lo2 -> tables_from m1 m3 pml4 lo.
Proof. intros H1 H2 Hl q a Hq Ha. destruct (H2 q a Hq Ha) as [Ha2|?]; [by apply H1|right; lia]. Qed.

Lemma walk_level_tables flags pml4 p t i (md : M vm unit) s r s' :
  (forall s, exists b, md s = Some (tt, set_modified s b)) -> flags <> 0 -> Forall in_table p -> in_table i -> (length p <= 2)%nat ->
  vm_inv s pml4 -> tbl (vmem s) 3 pml4 p = Some t -> (length p = 2%nat -> has (ld (vmem s) (t + 8 * i)) PTE_PS = false) ->
  walk_level (t + 8 * i) flags md s = Some (r, s') ->
  tables_from (vmem s) (vmem s') pml4 (kheap_current (vheap s)) /\ kheap_current (vheap s) <= kheap_current (vheap s').
Proof.
  intros Hmd Hf Hp Hi Hlen [Hh Htree Hw] Ht HPS E. unfold walk_level in E. minv E as e0 s0 E0. injection E0 as <- <-.
  destruct (has (ld (vmem s) (t + 8 * i)) PTE_P) eqn:EP; simpl in E.
  - minv E as u s1 E0. minv E as e1 s2 E1. injection E1 as <- <-. injection E as <- <-.
    destruct (has flags PTE_U && negb _)%bool; [|injection E0 as _ <-; split; [by apply tables_same|lia]].
    minv E0 as u1 s2 E1. injection E1 as _ <-. destruct (Hmd (set_vmem s (<[t + 8 * i := Z.lor (ld (vmem s) (t + 8 * i)) PTE_U]> (vmem s)))) as [b Hb].
    simpl in E0. rewrite Hb in E0. injection E0 as _ <-. split; [|simpl; lia].
    apply tables_same. apply (user_bit (vmem s) pml4 _ p t i Htree Hp Hi Ht Hlen HPS).
  - rewrite (proj2 (Z.eqb_neq flags 0) Hf) in E. minv E as T s0 E0.
    destruct (new_table_spec _ _ _ Hh E0) as (HT & Hhi & HTu & Hcur & Hh' & Hm & Hd).
    minv E as u1 s1 E1. injection E1 as _ <-. minv E as u2 s1 E1. destruct (Hmd (set_vmem s0 (<[t + 8 * i := Z.lor T (alloc_flags flags)]> (vmem s0)))) as [b Hb].
    simpl in E1. rewrite Hb in E1. injection E1 as _ <-. minv E as e1 s1 E1. injection E1 as <- <-. injection E as <- <-. simpl.
    split; [|lia]. destruct (tree_page _ _ _ Htree p t Hp Ht) as (Hal & Ht0 & Hth).
    set (m' := <[t + 8 * i := Z.lor T (alloc_flags flags)]> (vmem s0)).
    assert (Hslot : ld m' (t + 8 * i) = Z.lor T (alloc_flags flags)) by (unfold m'; by rewrite ld_insert, Z.eqb_refl).
    assert (Hnew : forall x, in_table x -> ld m' (T + 8 * x) = (fun _ => 0) x).
    { intros x Hx. unfold m'. rewrite ld_insert, (proj2 (Z.eqb_neq _ _)), Hm by (unfold in_table in *; lia). by apply in_page_ld. }
    assert (Hold : forall a, a + 8 <= kheap_current (vheap s) -> a <> t + 8 * i -> ld m' a = ld (vmem s) a).
    { intros x Hx Hne. unfold m'. rewrite ld_insert, (proj2 (Z.eqb_neq _ _)), Hm by lia. apply (fill_below _ _ _ _ (kheap_current (vheap s))); lia. }
    intros q a Hq Ha.
    destruct (graft_only _ m' _ _ p t i T flags (fun _ => 0) Htree Hp Hi Ht Hlen HT ltac:(by left) Hslot Hnew Hold q a Hq Ha) as [?|[_ ->]]; [by left|right; lia].
Qed.

Lemma walk_split_tables s flags pml4 i j k pd ok s' :
  flags <> 0 -> Forall in_table [i; j; k] -> vm_inv s pml4 -> tbl (vmem s) 3 pml4 [i; j] = Some pd ->
  walk_split (pd + 8 * k) flags s = Some (ok, s') ->
  tables_from (vmem s) (vmem s') pml4 (kheap_current (vheap s)) /\ kheap_current (vheap s) <= kheap_current (vheap s').
Proof.
  intros Hf Hall [Hh Htree Hw] Ht E. unfold walk_split in E. minv E as e0 s0 E0. injection E0 as <- <-. set (e := ld (vmem s) (pd + 8 * k)) in *.
  destruct (has e PTE_PS) eqn:EPS; [|injection E as _ <-; split; [by apply tables_same|lia]].
  rewrite (proj2 (Z.eqb_neq flags 0) Hf) in E. minv E as T s0 E0.
  destruct (new_table_spec _ _ _ Hh E0) as (HT & Hhi & HTu & Hcur & Hh' & Hm & Hd). clear E0.
  minv E as u1 s1 E1. injection E1 as _ <-. minv E as u2 s2 E2. injection E2 as _ <-.
  injection E as _ <-. cbn [vmem vheap set_vmem]. split; [|lia]. repeat (apply Forall_cons in Hall as [? Hall]).
  assert (Hij : Forall in_table [i; j]) by (rewrite !Forall_cons; done).
  set (m1 := fill_words (vmem s0) T (split_entry e flags) 512). set (m' := <[pd + 8 * k := Z.lor T (alloc_flags flags)]> m1).
  destruct (tree_page _ _ _ Htree [i; j] pd Hij Ht) as (Hal & Ht0 & Hth). unfold in_table in *.
  assert (Hslot : ld m' (pd + 8 * k) = Z.lor T (alloc_flags flags)) by (unfold m'; by rewrite ld_insert, Z.eqb_refl).
  assert (Hnew : forall x, in_table x -> ld m' (T + 8 * x) = split_entry e flags x).
  { intros x Hx. unfold in_table in Hx. unfold m', m1. rewrite ld_insert, (proj2 (Z.eqb_neq _ _)), ld_fill_words by lia.
    replace (T + 8 * x - T) with (x * 8) by lia. rewrite Z.mod_mul, Z.div_mul by lia. by rewrite (proj2 (Z.leb_le _ _)), (proj2 (Z.ltb_lt _ _)) by lia. }
  assert (Hold : forall a, a + 8 <= kheap_current (vheap s) -> a <> pd + 8 * k -> ld m' a = ld (vmem s) a).
  { intros a Ha Hne. unfold m', m1. rewrite ld_insert, (proj2 (Z.eqb_neq _ _)) by lia.
    rewrite (fill_below _ _ _ _ (kheap_current (vheap s))), Hm by lia. apply (fill_below _ _ _ _ (kheap_current (vheap s))); lia. }
  intros q a Hq Ha.
  destruct (graft_only _ m' _ _ [i; j] pd k T flags (split_entry e flags) Htree Hij ltac:(done) Ht ltac:(simpl; lia) HT ltac:(by right) Hslot Hnew Hold q a Hq Ha) as [?|[_ ->]]; [by left|right; lia].
Qed.

Lemma walk_pt_tables s dir v flags pml4 r s' :
  flags <> 0 -> vm_inv s pml4 -> dir_pml4 s dir = pml4 -> walk_pt dir v flags s = Some (r, s') ->
  tables_from (vmem s) (vmem s') pml4 (kheap_current (vheap s)) /\ kheap_current (vheap s) <= kheap_current (vheap s').
Proof.
  intros Hf Hinv Hd E. unfold walk_pt in E. minv E as p0 s0 E0. injection E0 as <- <-. rewrite Hd in E.
  pose proof (pd_path_in v) as Hall. unfold pd_path in *.
  set (i := vaddr_pml4i v) in *. set (j := vaddr_pdpi v) in *. set (k := vaddr_pdi v) in *.
  assert (Hmk : forall t, exists b, mark_modified t = Some (tt, set_modified t b)) by (intros t; by exists true).
  assert (Hret : forall t, exists b, @mret_ vm unit tt t = Some (tt, set_modified t b)).
  { intros t. exists (walk_pt_modified_pml4 t). by destruct t. }
  pose proof Hall as Hall'. repeat (apply Forall_cons in Hall' as [? Hall']). clear Hall'.
  assert (P1 : Forall in_table [i]) by (by rewrite Forall_cons). assert (P2 : Forall in_table [i; j]) by (by rewrite !Forall_cons).
  minv E as r1 s1 E1.
  destruct (walk_level_spec flags pml4 [] pml4 i _ Hmk Hf ltac:(done) ltac:(done) ltac:(simpl; lia) s r1 s1 Hinv eq_refl ltac:(done) E1) as (pdp & -> & Ht1 & Hi1 & _).
  destruct (walk_level_tables flags pml4 [] pml4 i _ s _ s1 Hmk Hf ltac:(done) ltac:(done) ltac:(simpl; lia) Hinv eq_refl ltac:(done) E1) as [T1 C1].
  minv E as r2 s2 E2.
  destruct (walk_level_spec flags pml4 [i] pdp j _ Hret Hf P1 ltac:(done) ltac:(simpl; lia) s1 r2 s2 Hi1 Ht1 ltac:(done) E2) as (pd & -> & Ht2 & Hi2 & _).
  destruct (walk_level_tables flags pml4 [i] pdp j _ s1 _ s2 Hret Hf P1 ltac:(done) ltac:(simpl; lia) Hi1 Ht1 ltac:(done) E2) as [T2 C2].
  minv E as ok s3 E3.
  destruct (walk_split_spec s2 flags pml4 i j k pd ok s3 Hf Hall Hi2 Ht2 E3) as (-> & Hi3 & _ & Ht3 & HPS & _).
  destruct (walk_split_tables s2 flags pml4 i j k pd _ s3 Hf Hall Hi2 Ht2 E3) as [T3 C3]. cbn [negb] in E.
  minv E as r4 s4 E4.
  destruct (walk_level_spec flags pml4 [i; j] pd k _ Hret Hf P2 ltac:(done) ltac:(simpl; lia) s3 r4 s4 Hi3 Ht3 ltac:(done) E4) as (pt & -> & _).
  destruct (walk_level_tables flags pml4 [i; j] pd k _ s3 _ s4 Hret Hf P2 ltac:(done) ltac:(simpl; lia) Hi3 Ht3 ltac:(done) E4) as [T4 C4].
  injection E as _ <-. split; [|lia]. eapply tables_trans; [exact T1| |exact C1]. eapply tables_trans; [exact T2| |exact C2]. eapply tables_trans; [exact T3|exact T4|exact C3].
Qed.

Lemma map_page_tables s p v f pml4 s' :
  vm_inv s pml4 -> dir_pml4 s (current_directory s) = pml4 -> f <> 0 -> vmm_map_page p v f s = Some (tt, s') ->
  tables_from (vmem s) (vmem s') pml4 (kheap_current (vheap s)).
Proof.
  intros Hinv Hd Hf E. unfold vmm_map_page in E. minv E as u0 s0 E0. injection E0 as _ <-. minv E as d s1 E1. injection E1 as <- <-. minv E as r s2 E2.
  assert (Hinv' : vm_inv (set_modified s false) pml4) by (by destruct Hinv).
  destruct (walk_pt_spec (set_modified s false) (current_directory s) v f pml4 r s2 Hf Hinv' Hd E2) as (pt & -> & Ht & Hi & _).
  destruct (walk_pt_tables (set_modified s false) (current_directory s) v f pml4 _ s2 Hf Hinv' Hd E2) as [Hts Hc].
  injection E as <-. cbn [vmem set_vmem]. set (e := Z.lor _ PTE_P).
  eapply tables_trans; [exact Hts| |exact Hc]. apply tables_same. apply tbl_agree. intros q a x Hq Hx Hl Ha. rewrite ld_insert.
  destruct (Z.eqb_spec (pt + 8 * vaddr_pti v) (a + 8 * x)) as [Eq|]; [|done].
  destruct (tree_slot (vmem s2) pml4 _ (pd_path v) q pt a (vaddr_pti v) x (vi_tree _ _ Hi) (pd_path_in v) Hq (index_range v 12) Hx Ht Ha Eq) as (<- & _).
  simpl in Hl. lia.
Qed.

(** ** One page of the stack *)

(** Room for one page: its heap block and the tables that map it. *)
Definition STACK_PAGE_ROOM : Z := PAGE_ROOM + 8200.

Definition stack_round (vaddr : Z) : M vm unit := phys <-- call_kmalloc_a 4096 ;; vmm_map_page phys vaddr 7 ;;; memset_page vaddr.

Lemma kmalloc_page_run s : (exists free live, heap_inv (vheap s) free live) -> kheap_current (vheap s) + 8200 < memory_size (vheap s) ->
  exists p h, call_kmalloc_a 4096 s = Some (p, set_vheap s h) /\ p mod 4096 = 0 /\ kheap_current (vheap s) <= p /\ 0 <= p < 2 ^ 63
    /\ kheap_current h = p + 4096 /\ kheap_current h <= kheap_current (vheap s) + 8200 /\ memory_size h = memory_size (vheap s)
    /\ exists free live, heap_inv h free live.
Proof.
  intros (free & live & Hh) Hm. unfold call_kmalloc_a. pose proof (hi_current _ _ _ Hh). pose proof (hi_bounds _ _ _ Hh). pose proof (proj2 (hi_mem _ _ _ Hh)).
  destruct (kmalloc_a_room _ _ _ 4096 Hh) as [(al & total & Hal & Hcur & Hsum & Hms & Ht & ->)|[_ Hno]]; [lia|unfold HEADER_SIZE; lia| |unfold HEADER_SIZE in Hno; lia].
  unfold HEADER_SIZE in *. destruct (heap_inv_bump _ _ _ (al - 8) (4096 + 8) total Hh) as (Hi & _ & Hcu & _); [lia..|].
  exists al, (kheap_bump (vheap s) (al - 8) (4096 + 8) total). rewrite Hcu. split_and!; try done; try lia. by exists free, ((al - 8) :: live).
Qed.

Lemma pt_tree_mono m pml4 hi hi' : hi <= hi' -> pt_tree m pml4 hi -> pt_tree m pml4 hi'.
Proof. intros Hl [H1 H2]. constructor; [|done]. intros p a Hp Ha. destruct (H1 p a Hp Ha) as (? & ? & ?). split_and!; [done|done|lia]. Qed.

Lemma stack_round_run s v pml4 :
  vm_inv s pml4 -> dir_pml4 s (current_directory s) = pml4 -> kheap_current (vheap s) + STACK_PAGE_ROOM < memory_size (vheap s) ->
  exists s', stack_round v s = Some (tt, s') /\ vm_inv s' pml4 /\ dir_pml4 s' (current_directory s') = pml4
    /\ kheap_current (vheap s') <= kheap_current (vheap s) + STACK_PAGE_ROOM /\ memory_size (vheap s') = memory_size (vheap s)
    /\ (exists f fl, translate_addr (vmem s') pml4 v = Some (f, fl) /\ has fl PTE_U = true)
    /\ forall i j k l, Forall in_table [i; j; k; l] -> [i; j; k; l] <> page_path v ->
         fst <$> translate (vmem s') pml4 i j k l = fst <$> translate (vmem s) pml4 i j k l.
Proof.
  intros Hinv Hd Hroom. unfold STACK_PAGE_ROOM in *. assert (Hpr : 0 < PAGE_ROOM) by done.
  destruct (kmalloc_page_run s (vi_heap _ _ Hinv) ltac:(lia)) as (p & h & E1 & Hpm & Hpl & Hpu & Hc & Hcl & Hms & Hh).
  set (s1 := set_vheap s h). pose proof Hinv as [_ Htree Hw].
  assert (Hi1 : vm_inv s1 pml4) by (constructor; [done| |done]; apply (pt_tree_mono _ _ (kheap_current (vheap s))); [cbn [vheap set_vheap s1]; lia|done]).
  destruct (vmm_map_page_total 7 ltac:(done) s1 p v pml4 Hi1 Hd) as (s2 & E2 & [G1 G2 G3 G4]); [cbn [vheap set_vheap s1]; lia|].
  destruct (vmm_map_page_run s1 p v 7 pml4 s2 Hi1 Hd ltac:(done) ltac:(unfold is_u64; lia) E2) as (Htv & Hto & Hi2 & Hd2).
  pose proof (map_page_tables s1 p v 7 pml4 s2 Hi1 Hd ltac:(done) E2) as Htab. cbn [vheap vmem set_vheap s1] in G1, G2, G4, Hto, Htab.
  assert (Hmask : p &~ 0xFFF = p) by (rewrite page_mask; lia). rewrite Hmask in Htv.
  set (m3 := fill_words (vmem s2) p (fun _ => 0) 512).
  assert (Hagree : forall q a x, Forall in_table q -> in_table x -> tbl (vmem s2) 3 pml4 q = Some a -> ld m3 (a + 8 * x) = ld (vmem s2) (a + 8 * x)).
  { intros q a x Hq Hx Ha. unfold m3. rewrite ld_fill_words. unfold in_table in Hx.
    destruct (tree_page _ _ _ (vi_tree _ _ Hi2) q a Hq Ha) as (Hal & _). destruct (Htab q a Hq Ha) as [Ha0|Hge].
    - destruct (tree_page _ _ _ Htree q a Hq Ha0) as (_ & _ & Hlow). rewrite (proj2 (Z.leb_gt p _)) by lia. done.
    - rewrite (proj2 (Z.ltb_ge _ (p + 8 * Z.of_nat 512))) by lia. by rewrite andb_false_r. }
  destruct (translate_slots (vmem s2) m3 pml4 _ (vi_tree _ _ Hi2) Hagree) as [Ht3 Hsp].
  exists (set_vmem s2 m3). split_and!.
  - unfold stack_round, mbind_. rewrite E1. fold s1. rewrite E2. unfold memset_page. by rewrite Hd2, Htv.
  - constructor; cbn [vheap vmem set_vmem]; [apply Hi2|done|]. intros a. unfold m3. rewrite ld_fill_words. destruct (_ && _)%bool; [by compute|apply Hi2].
  - done.
  - cbn [vheap set_vmem]. lia.
  - cbn [vheap set_vmem]. lia.
  - eexists p, _. split; [unfold translate_addr; cbn [vmem set_vmem]; by rewrite Hsp by apply page_path_in|done].
  - intros i j k l Hall Hne. cbn [vmem set_vmem]. rewrite Hsp, Hto by done. destruct (_ && _)%bool; [|done]. by destruct (translate (vmem s) pml4 i j k l) as [[]|].
Qed.

(** ** The whole stack *)

Definition stack_page (i : Z) : Z := STACK_TOP - STACK_SIZE + i * 4096.

(** [present] of [Elf] for the pages below [n]. *)
Lemma map_stack_loop_run pml4 : forall n i s,
  vm_inv (lvm s) pml4 -> dir_pml4 (lvm s) (current_directory (lvm s)) = pml4 -> 0 <= i -> i + Z.of_nat n = 16 ->
  kheap_current (vheap (lvm s)) + Z.of_nat n * STACK_PAGE_ROOM < memory_size (vheap (lvm s)) ->
  (forall j, 0 <= j < i -> present pml4 (lvm s) (stack_page j)) ->
  exists v m, map_stack_loop (stack_page i) n s = Some (tt, set_umem m (set_lvm v s)) /\ vm_inv v pml4 /\ dir_pml4 v (current_directory v) = pml4
    /\ (forall j, 0 <= j < 16 -> present pml4 v (stack_page j))
    /\ (forall a, present pml4 (lvm s) a -> 0 <= a < 2 ^ 48 -> a mod 4096 = 0 -> present pml4 v a)
    /\ forall a, m !! a = if ((stack_page i <=? a) && (a <? STACK_TOP))%bool then Some 0 else umem s !! a.
Proof.
  induction n as [|n IH]; intros i s Hi Hd H0 Hn Hroom Hp; cbn [map_stack_loop].
  - exists (lvm s), (umem s). split; [by destruct s|]. split_and!; try done; [intros j Hj; apply Hp; lia|].
    intros a. unfold stack_page, STACK_SIZE. zcases; try done; lia.
  - assert (Hr : 0 < STACK_PAGE_ROOM) by done.
    destruct (stack_round_run (lvm s) (stack_page i) pml4 Hi Hd ltac:(nia)) as (v1 & E & Hi1 & Hd1 & Hc1 & Hm1 & (f & fl & Htr & _) & Ho1).
    unfold stack_round in E. revert E. unfold mbind_ at 1 2. destruct (call_kmalloc_a 4096 (lvm s)) as [[phys va]|] eqn:Ea; [|done].
    unfold mbind_ at 1. destruct (vmm_map_page phys (stack_page i) 7 va) as [[[] vb]|] eqn:Eb; [|done]. intros Ec.
    assert (Hkeep : forall a, present pml4 (lvm s) a -> 0 <= a < 2 ^ 48 -> a mod 4096 = 0 -> present pml4 v1 a).
    { intros a Ha Har Ham. unfold present in *. destruct (decide (a = stack_page i)) as [->|Hne]; [by rewrite Htr|].
      assert (Ef : fst <$> translate_addr (vmem v1) pml4 a = fst <$> translate_addr (vmem (lvm s)) pml4 a).
      { apply Ho1; [apply page_path_in|]. intros Ep. apply Hne. apply page_path_inj; [done| |done| |exact Ep].
        - unfold stack_page, STACK_TOP, STACK_SIZE. lia.
        - unfold stack_page, STACK_TOP, STACK_SIZE. zlia. }
      destruct Ha as [x Hx]. rewrite Hx in Ef. destruct (translate_addr (vmem v1) pml4 a) as [y|]; [by eexists|done]. }
    destruct (IH (i + 1) (set_umem (zero_page_at (umem s) (stack_page i)) (set_lvm v1 s))) as (v & m & E' & Hi' & Hd' & Hp' & Hk' & Hm'); try done; try lia.
    + cbn [lvm set_umem set_lvm]. rewrite Hm1. nia.
    + cbn [lvm set_umem set_lvm]. intros j Hj. destruct (decide (j = i)) as [->|Hne]; [unfold present; by rewrite Htr|].
      apply Hkeep; [apply Hp; lia| |]; unfold stack_page, STACK_TOP, STACK_SIZE; zlia.
    + exists v, m. split_and!; try done.
      * unfold mbind_, on_vm. rewrite Ea. cbn [lvm set_lvm]. rewrite Eb. cbn [lvm set_lvm]. rewrite Ec. unfold mmodify.
        replace (stack_page i + 4096) with (stack_page (i + 1)) by (unfold stack_page; lia). exact E'.
      * intros a Ha Har Ham. apply Hk'; [by apply Hkeep|done|done].
      * intros a. rewrite Hm'. cbn [umem set_umem]. rewrite lookup_zero_page. unfold stack_page, STACK_TOP, STACK_SIZE. zcases; try done; lia.
Qed.
