(* ===== verification/ExecTop.v ===== *)
(** * [execve] ([src/src/kernel/core/syscall.c])

    The two entry points over the state of the system calls, and what they leave
    for the new program. *)

From Stdlib Require Import ZArith Lia.
From stdpp Require Import base numbers list gmap.
From S2P Require Import Prelude Bytes Pmm Kheap Vmm Usercopy Mmap Task TaskInv TaskSched Pipe BlockDev Journal SdfsBlock SdfsDir Sdfs Vfs Initrd Keyboard Mouse Kern Tty Files Elf Exec ExecMap.

Section Calls.
Context {W N : Type} `{DiskOps W}.
Abbreviation kern := (kern W N).
Implicit Types s : kern.
(** The memory of the initial RAM disk. *)
Variable archive : list Z.

(** The steps of the loader on the running address space. *)
Definition loader_of s : loader :=
  {| lvm := user_vm (sy s); Elf.umem := Pipe.umem (sy s); Elf.last_elf_heap_start := Task.last_elf_heap_start (ks (sy s)) |}.
Definition with_elf_heap (h : Z) (k : sched) : sched :=
  {| vmst := vmst k; tasks := tasks k; pipes := pipes k; task_list := task_list k; current_task := current_task k; next_pid := next_pid k;
     global_switch_count := global_switch_count k; last_foreground_pid := last_foreground_pid k; g_resched_force := g_resched_force k;
     ticks := ticks k; Task.ctrl_c_pending := Task.ctrl_c_pending k; rsp0 := rsp0 k; fpu_regs := fpu_regs k; fpu_areas := fpu_areas k;
     Task.last_elf_heap_start := h |}.
Definition of_loader s (l : loader) : kern :=
  set_sy (Pipe.set_umem (Elf.umem l) (set_ks (with_elf_heap (Elf.last_elf_heap_start l) (set_vmst (lvm l) (ks (sy s)))) (sy s))) s.
Definition in_loader {A} (m : M loader A) : M kern A := fun s =>
  match m (loader_of s) with Some (a, l) => Some (a, of_loader s l) | None => None end.

(** The path on the disk of a program name. *)
Definition exec_path (name : list Z) : list Z := if name.[0] =? SLASH then take 255 name else SLASH :: take 254 name.

(** [sdfs_read_file], and [initrd_get_file] when it fails; [None] is NULL. *)
Definition find_program (name : list Z) : M kern (option (list Z)) :=
  r <-- in_fs (disk_read_file (exec_path name)) ;;
  match r with
  | Some (_, buffer) => mret_ (Some buffer)
  | None =>
      match initrd_get_file archive name with
      | None => mstop
      | Some None => mret_ None
      | Some (Some (address, _)) => mret_ (Some (drop (Z.to_nat address) archive))
      end
  end.

(** [sys_execve]: the entry point, [execve_new_esp] and [sys_execve_is_64]. *)
Definition sys_execve (filename : list Z) (argv : list (list Z)) : M kern (option (Z * Z * bool)) :=
  file <-- find_program filename ;;
  match file with
  | None => mret_ None
  | Some file =>
      r <-- in_loader (sys_execve_file file argv) ;;
      mret_ (match r with Some (entry, sp) => Some (entry, sp, elf_class (Some file) =? ELFCLASS64) | None => None end)
  end.

(** [do_execve]: the error, or the new [rip] and [rsp]. *)
Definition do_execve (filename argv : Z) : M kern (Z + Z * Z) :=
  if filename =? 0 then mret_ (inl (- EFAULT)) else
  name <-- user_string filename ;;
  match name with
  | None => mret_ (inl (- EFAULT))
  | Some name =>
      file <-- find_program name ;;
      match file with
      | None => mret_ (inl (- EFAULT))
      | Some file => in_loader (do_execve_file file argv)
      end
  end.
End Calls.

(** ** Arguments read from user memory *)

Lemma length_strncpy_loop s m src i n r b : strncpy_loop s m src i n = (r, b) -> (length b <= S n)%nat.
Proof.
  revert i r b. induction n as [|n IH]; intros i r b; cbn [strncpy_loop]; [intros [= _ <-]; done|].
  destruct (_ <=? _); [intros [= _ <-]; simpl; lia|]. destruct (_ && _)%bool; [intros [= _ <-]; simpl; lia|]. destruct (_ =? 0); [intros [= _ <-]; simpl; lia|].
  destruct (strncpy_loop s m src (i + 1) n) as [r' rest] eqn:E. intros [= _ <-]. apply IH in E. simpl. lia.
Qed.

Lemma length_c_str (b : list Z) : (length (c_str b) <= length b)%nat.
Proof. unfold c_str. induction b as [|x b IH]; [done|]. cbn [take_while]. destruct (negb _); simpl; lia. Qed.

Lemma read_argv_bounds argv : forall n argc s args, read_argv argv argc n s = Some args ->
  (length args <= n)%nat /\ Forall (fun a => (length a <= 255)%nat) args.
Proof.
  induction n as [|n IH]; intros argc s args; cbn [read_argv]; [by intros [= <-]|].
  destruct (copy_from_user _ _ _ _) as [r [up|]]; [|done]. destruct (r <? 0); [done|]. destruct (le_value up =? 0); [intros [= <-]; split; [simpl; lia|done]|].
  destruct (strncpy_from_user _ _ _ _) as [r2 b] eqn:Eb. destruct (r2 <? 0); [done|]. destruct (read_argv argv (argc + 1) n s) as [rest|] eqn:Er; [|done].
  intros [= <-]. destruct (IH _ _ _ Er) as [H1 H2]. split; [simpl; lia|]. constructor; [|done]. etransitivity; [apply length_c_str|].
  unfold strncpy_from_user in Eb. change (255 =? 0) with false in Eb. cbv iota in Eb. destruct (negb _); [injection Eb as _ <-; simpl; lia|].
  apply length_strncpy_loop in Eb. lia.
Qed.

(** ** Starting a program *)

(** A sound 64-bit program below the stack. *)
Record program64 (file : list Z) (hs : list phdr) : Prop := {
  pg_class : elf_class (Some file) = ELFCLASS64;
  pg_size : 64 <= Z.of_nat (length file);
  pg_machine : e_machine file = EM_X86_64;
  pg_phnum : e_phnum64 file = Z.of_nat (length hs);
  pg_headers : forall j h, hs !! j = Some h -> phdr64 file (Z.of_nat j) = Some h;
  pg_sound : Forall (seg_ok file) (loads hs);
  pg_low : Forall (fun h => end_page h <= STACK_TOP - STACK_SIZE) (loads hs);
  pg_entry : e_entry64 file <> 0
}.

(** The pages the stack needs, with room for their tables. *)
Definition SPARE_PAGES : Z := 32.

(** The address space holds the program: each segment that shares no page with a
    later one has its bytes, then zeros, on mapped pages, and outside the segments
    and the stack nothing changed. *)
Record started (pml4 : Z) (file : list Z) (hs : list phdr) (m0 m : gmap Z Z) (v : vm) : Prop := {
  sd_bytes : forall l1 h l2, loads hs = l1 ++ h :: l2 -> Forall (fun h' => end_page h' <= start_page h \/ end_page h <= start_page h') l2 ->
    forall a, start_page h <= a < end_page h -> m !! a = seg_byte file h a;
  sd_present : forall h a, h ∈ loads hs -> start_page h <= a < end_page h -> a mod 4096 = 0 -> present pml4 v a;
  sd_rest : forall a, Forall (fun h => a < start_page h \/ end_page h <= a) (loads hs) -> a < STACK_TOP - STACK_SIZE \/ STACK_TOP <= a -> m !! a = m0 !! a
}.

Lemma image_run pml4 file hs s N : program64 file hs -> ready pml4 (lvm s) N -> total_pages (loads hs) + SPARE_PAGES <= N ->
  exists sl v m, elf64_load_file file s = Some (e_entry64 file, sl) /\ map_stack sl = Some (tt, set_umem m (set_lvm v sl))
    /\ stack_mapped v /\ started pml4 file hs (Elf.umem s) m v
    /\ forall a, STACK_TOP - STACK_SIZE <= a < STACK_TOP -> m !! a = Some 0.
Proof.
  intros [P1 P2 P3 P4 P5 P6 P7 P8] Hr HN. unfold SPARE_PAGES in HN.
  destruct (load_loop_runs pml4 (phdr64 file) file hs 0 s N 0 P5 P6 Hr ltac:(lia)) as (s1 & E1 & Hr1 & _ & _ & _).
  destruct (load_loop_loaded pml4 (phdr64 file) file hs s N P5 P6 Hr ltac:(lia)) as (s2 & E2 & (L1 & L2 & L3) & _).
  rewrite E1 in E2. injection E2 as <-. set (sl := set_heap_start (last_page (loads hs) 0) s1).
  assert (El : elf64_load_file file s = Some (e_entry64 file, sl)).
  { unfold elf64_load_file. rewrite (proj2 (Z.ltb_ge _ _) P2), P3, Z.eqb_refl, P4, Nat2Z.id. cbn [negb]. unfold mbind_. by rewrite E1. }
  destruct Hr1 as [R1 R2 _ R4 _ _]. assert (Hpr : 0 < PAGE_ROOM) by done.
  destruct (map_stack_loop_run pml4 16 0 sl R1 R2) as (v & m & E & Hi & Hd & Hp & Hk & Hm); [done|done| |intros j Hj; lia|].
  { cbn [lvm sl set_heap_start]. unfold STACK_PAGE_ROOM, PAGE_ROOM, TABLE_ROOM in *. nia. }
  assert (Hlow : forall a, a < STACK_TOP - STACK_SIZE \/ STACK_TOP <= a -> m !! a = Elf.umem s1 !! a).
  { intros a Ha. rewrite Hm. unfold stack_page. cbn [Elf.umem sl set_heap_start]. zcases; try done; lia. }
  exists sl, v, m. split_and!; [done|unfold map_stack; rewrite <- E; f_equal; unfold stack_page; lia| | |].
  - intros i Hi'. unfold page_mapped. rewrite Hd. destruct (Hp i Hi') as [x Hx]. unfold stack_page in Hx. by rewrite Hx.
  - rewrite Forall_forall in P7. constructor.
    + intros l1 h l2 Ehs Hl2 a Ha. assert (Hin : h ∈ loads hs) by (rewrite Ehs; apply elem_of_app; right; by left).
      specialize (P7 h Hin). cbv beta in P7. rewrite Hlow by lia. by apply (L1 l1 h l2).
    + intros h a Hin Ha Ham. specialize (P7 h Hin). cbv beta in P7. rewrite Forall_forall in P6. destruct (seg_bounds file h (P6 h Hin)) as (_ & _ & _ & ? & _).
      apply Hk; [by apply (L2 h)|unfold STACK_TOP, STACK_SIZE in *; lia|done].
    + intros a Hout Ha. rewrite Hlow by done. by apply L3.
  - intros a Ha. rewrite Hm. unfold stack_page. rewrite (proj2 (Z.leb_le _ _)), (proj2 (Z.ltb_lt _ _)) by lia. done.
Qed.

(** Writes to the stack keep the program. *)
Lemma started_stack pml4 file hs m0 m m' v : Forall (fun h => end_page h <= STACK_TOP - STACK_SIZE) (loads hs) ->
  (forall a, a < STACK_TOP - STACK_SIZE \/ STACK_TOP <= a -> m' !! a = m !! a) -> started pml4 file hs m0 m v -> started pml4 file hs m0 m' v.
Proof.
  intros Hlow Hm [S1 S2 S3]. rewrite Forall_forall in Hlow. constructor; [|done|].
  - intros l1 h l2 E Hl2 a Ha. assert (Hin : h ∈ loads hs) by (rewrite E; apply elem_of_app; right; by left).
    specialize (Hlow h Hin). cbv beta in Hlow. rewrite Hm by lia. by apply (S1 l1 h l2).
  - intros a Hout Ha. rewrite Hm by done. by apply S3.
Qed.

Lemma do_execve_run pml4 file hs s N argv : program64 file hs -> ready pml4 (lvm s) N -> total_pages (loads hs) + SPARE_PAGES <= N ->
  exists sm, stack_mapped (lvm sm) /\ started pml4 file hs (Elf.umem s) (Elf.umem sm) (lvm sm)
    /\ (forall a, STACK_TOP - STACK_SIZE <= a < STACK_TOP -> Elf.umem sm !! a = Some 0)
    /\ match (if argv =? 0 then Some [] else read_argv argv 0 MAX_ARGS sm) with
       | None => do_execve_file file argv s = Some (inl (- EFAULT), sm)
       | Some args => exists sp m', do_execve_file file argv s = Some (inr (e_entry64 file, sp), set_umem m' sm)
           /\ started pml4 file hs (Elf.umem s) m' (lvm sm) /\ argument_block 8 4 args sp (Elf.umem sm) m'
       end.
Proof.
  intros Hp Hr HN. pose proof Hp as [P1 P2 P3 P4 P5 P6 P7 P8]. destruct (image_run pml4 file hs s N Hp Hr HN) as (sl & v & m & E1 & E2 & Hm & Hs & Hz).
  set (sm := set_umem m (set_lvm v sl)) in *. exists sm. split_and!; [done|done|done|].
  assert (E : forall r, (if argv =? 0 then Some [] else read_argv argv 0 MAX_ARGS sm) = r ->
    do_execve_file file argv s = match r with None => Some (inl (- EFAULT), sm) | Some args => (sp <-- build_stack64 args ;; mret_ (inr (e_entry64 file, sp))) sm end).
  { intros r <-. unfold do_execve_file. rewrite P1. change (_ && _)%bool with false. cbv iota zeta. unfold load_image, build_stack. change (ELFCLASS64 =? ELFCLASS32) with false. cbv iota.
    unfold mbind_ at 1. rewrite E1, (proj2 (Z.eqb_neq _ 0) P8). unfold mbind_ at 1. rewrite E2. unfold mbind_ at 1.
    destruct (argv =? 0); [done|]. unfold mgets. by destruct (read_argv argv 0 MAX_ARGS sm). }
  destruct (if argv =? 0 then Some [] else read_argv argv 0 MAX_ARGS sm) as [args|] eqn:Ea; rewrite (E _ eq_refl); [|done].
  assert (Hb : (length args <= MAX_ARGS)%nat /\ Forall (fun a => (length a <= 255)%nat) args).
  { destruct (argv =? 0); [injection Ea as <-; split; [unfold MAX_ARGS; simpl; lia|done]|by apply read_argv_bounds in Ea]. }
  destruct (build_stack64_run args sm Hm (proj1 Hb) (proj2 Hb)) as (sp & m' & Eb & Hab). exists sp, m'. split; [unfold mbind_; by rewrite Eb|]. split; [|done].
  apply (started_stack pml4 file hs (Elf.umem s) m); [done| |done]. intros a Ha. apply (ab_rest _ _ _ _ _ _ Hab).
  pose proof (ab_range _ _ _ _ _ _ Hab). lia.
Qed.

(** [sys_execve] from the kernel, with the arguments it is given. *)
Lemma sys_execve_run pml4 file hs s N args : program64 file hs -> ready pml4 (lvm s) N -> total_pages (loads hs) + SPARE_PAGES <= N ->
  Forall (fun a => (length a <= 255)%nat) (take MAX_ARGS args) ->
  exists sp s', sys_execve_file file args s = Some (Some (e_entry64 file, sp), s') /\ started pml4 file hs (Elf.umem s) (Elf.umem s') (lvm s')
    /\ exists m, argument_block 8 4 (take MAX_ARGS args) sp m (Elf.umem s').
Proof.
  intros Hp Hr HN Hl. pose proof Hp as [P1 P2 P3 P4 P5 P6 P7 P8]. destruct (image_run pml4 file hs s N Hp Hr HN) as (sl & v & m & E1 & E2 & Hm & Hs & _).
  set (sm := Elf.set_umem m (set_lvm v sl)) in *.
  destruct (build_stack64_run (take MAX_ARGS args) sm Hm) as (sp & m' & Eb & Hab); [rewrite length_take; lia|done|].
  exists sp, (Elf.set_umem m' sm). split_and!.
  - unfold sys_execve_file. rewrite P1. change (_ && _)%bool with false. cbv iota zeta. unfold load_image, build_stack. change (ELFCLASS64 =? ELFCLASS32) with false. cbv iota.
    unfold mbind_ at 1. rewrite E1, (proj2 (Z.eqb_neq _ 0) P8). unfold mbind_ at 1. rewrite E2. unfold mbind_. by rewrite Eb.
  - apply (started_stack pml4 file hs (Elf.umem s) m); [done| |done]. intros a Ha. apply (ab_rest _ _ _ _ _ _ Hab). pose proof (ab_range _ _ _ _ _ _ Hab). lia.
  - by exists m.
Qed.

Section Start.
Context {W N : Type} `{DiskOps W}.
Abbreviation kern := (kern W N).
Implicit Types s : kern.

(** [do_execve] of a name in user memory that the disk has a file for. *)
Lemma do_execve_found archive s filename argv b size file w : filename <> 0 ->
  strncpy_from_user (user_vm (sy s)) (Pipe.umem (sy s)) filename 255 = (0, b) ->
  disk_read_file (exec_path (c_str b)) (fsw s) = Some (Some (size, file), w) ->
  do_execve archive filename argv s
  = match do_execve_file file argv (loader_of s) with Some (r, l) => Some (r, of_loader (set_fsw w s) l) | None => None end.
Proof.
  intros Hf Hs Hd. unfold do_execve. rewrite (proj2 (Z.eqb_neq filename 0) Hf). unfold mbind_ at 1, user_string. rewrite Hs.
  change (0 <? 0) with false. cbv iota. unfold mbind_ at 1, find_program, mbind_ at 1. rewrite (in_fs_run _ s _ _ Hd). reflexivity.
Qed.


(** An argument vector on the stack of the caller is lost: the fresh stack is mapped
    over it before it is read, so the program starts without arguments, or the call
    fails. *)
Theorem do_execve_loses_stack_arguments archive s filename argv b size file w pml4 hs Np :
  filename <> 0 -> strncpy_from_user (user_vm (sy s)) (Pipe.umem (sy s)) filename 255 = (0, b) ->
  disk_read_file (exec_path (c_str b)) (fsw s) = Some (Some (size, file), w) ->
  program64 file hs -> ready pml4 (user_vm (sy s)) Np -> total_pages (loads hs) + SPARE_PAGES <= Np ->
  STACK_TOP - STACK_SIZE <= argv -> argv + 8 <= STACK_TOP ->
  exists r s', do_execve archive filename argv s = Some (r, s')
    /\ (r = inl (- EFAULT) \/ exists sp m, r = inr (e_entry64 file, sp) /\ argument_block 8 4 [] sp m (Pipe.umem (sy s'))).
Proof.
  intros Hf Hs Hd Hp Hr HN Hlo Hhi. destruct (do_execve_run pml4 file hs (loader_of s) Np argv Hp Hr HN) as (sm & _ & _ & Hz & E).
  rewrite (do_execve_found archive s filename argv b size file w Hf Hs Hd). unfold STACK_TOP, STACK_SIZE in *. rewrite (proj2 (Z.eqb_neq argv 0)) in E by lia.
  assert (Hzero : user_bytes (Elf.umem sm) argv 8 = zeros 8).
  { unfold user_bytes. change (seqZ 0 8) with [0; 1; 2; 3; 4; 5; 6; 7]. cbn [fmap list_fmap]. by rewrite !Hz by lia. }
  assert (Hr0 : read_argv argv 0 MAX_ARGS sm = None \/ read_argv argv 0 MAX_ARGS sm = Some []).
  { unfold MAX_ARGS. cbn [read_argv]. rewrite Z.mul_0_r, Z.add_0_r, u64_small by lia. unfold copy_from_user. change (8 =? 0) with false. cbv iota.
    destruct (validate_user_pointer (lvm sm) argv 8 <? 0); [by left|]. right. rewrite Hzero. reflexivity. }
  destruct Hr0 as [Hr0|Hr0]; rewrite Hr0 in E.
  - rewrite E. eexists _, _. split; [done|]. by left.
  - destruct E as (sp & m' & -> & _ & Hab). eexists _, _. split; [done|]. right. exists sp, (Elf.umem sm). split; [done|exact Hab].
Qed.
End Start.

(** ** A small program on the RAM disk *)

Definition pmm_exec_demo : pmm := pmm_init_region (pmm_init (replicate 64 0) (2048 * 4096)) 0x400000 0x100000.
Definition heap_exec_demo : kheap := kheap_set_start
  {| kheap_start := 0; kheap_current := 0; free_list := 0; hdr_size := ∅; hdr_next := ∅; kbytes := ∅; kpmm := pmm_exec_demo;
     memory_size := 2048 * 4096; kernel_end := 0 |} 0x10000.
Definition vm_exec_demo : vm := set_vheap vm_demo heap_exec_demo.

Lemma pmm_exec_demo_spec : pmm_wf pmm_exec_demo /\ forall b, 0 <= b < 2048 -> pmm_used pmm_exec_demo b = negb ((0x400 <=? b) && (b <? 0x500))%bool.
Proof.
  destruct (wf_init (replicate 64 0) (2048 * 4096)) as [Hw Hu]; [by_compute|lia|done|by_compute|].
  destruct (wf_region_release (Z.to_nat (0x100000 / BLOCK_SIZE)) (0x400000 / BLOCK_SIZE) _ Hw ltac:(by_compute)) as (H1 & H2 & H3).
  split; [exact H1|]. intros b Hb. unfold pmm_exec_demo, pmm_init_region. rewrite H3 by exact Hb. rewrite Hu by exact Hb. done.
Qed.

Lemma vm_exec_demo_ready : ready 0x8000 vm_exec_demo 35.
Proof.
  destruct pmm_exec_demo_spec as [Hw Hu]. constructor.
  - destruct vm_demo_inv as [_ Ht Hwd]. constructor; [|exact Ht|exact Hwd]. exists [], []. apply heap_inv_start; vm_compute; reflexivity.
  - reflexivity.
  - exact Hw.
  - by_compute.
  - intros b Hb Hub. change (kpmm (vheap vm_exec_demo)) with pmm_exec_demo in *. rewrite Hu in Hub by exact Hb.
    change (kheap_current (vheap vm_exec_demo) + 35 * PAGE_ROOM) with 1213536. revert Hub. zcases; try done; lia.
  - exists (seqZ 0x400 35). split; [apply NoDup_seqZ|]. split; [done|]. change (kpmm (vheap vm_exec_demo)) with pmm_exec_demo.
    intros b [Hb1 Hb2]%elem_of_seqZ. split; [change (32 * (pmm_max_blocks pmm_exec_demo / 32)) with 2048; lia|]. rewrite Hu by lia. zcases; try done; lia.
Qed.

(** The page 0x5000 mapped for the user. *)
Definition vm_exec_mapped : vm := match mmap_loop 0x5000 7 0 1 vm_exec_demo with Some (_, v) => v | None => vm_exec_demo end.

Lemma vm_exec_mapped_ready : ready 0x8000 vm_exec_mapped 34.
Proof.
  destruct (ready_maps 0x8000 vm_exec_demo 35 0x5000 1 vm_exec_demo_ready) as (v & fs & E & Hr & _); [done|done|done|done|].
  unfold vm_exec_mapped. change (Z.to_nat 1) with 1%nat in E. rewrite E. exact Hr.
Qed.

Lemma elf_demo_program : program64 elf_demo elf_demo_headers.
Proof.
  constructor; [by_vm|by_compute|by_vm|by_vm| | | |by_compute].
  - intros [|[|j]] h Hj; [injection Hj as <-; by_vm|injection Hj as <-; by_vm|done].
  - constructor; [|constructor; [|constructor]]; (constructor; by_compute).
  - constructor; [by_compute|constructor; [by_compute|constructor]].
Qed.

(** The program is the file /a of the RAM disk; its name lies at 0x5000. *)
Definition fs_exec_demo : fs ramdisk := run (sdfs_write_file (zeros 4096) stack_demo (SLASH :: [97]) elf_demo) fs_demo.
Definition exec_demo : kern (fs ramdisk) node :=
  {| sy := {| ks := set_vmst vm_exec_mapped sched_boot; fd_static := replicate 32 kfile0; Pipe.umem := list_to_map [(0x5000, 97); (0x5001, 0)] |};
     keys := with_layout KB_LAYOUT_US kbd_init; pointer := mouse_start; serial_in := []; console := [];
     kernel_termios := init_termios; stdin_esc_buf := zeros 8; stdin_esc_len := 0; stdin_esc_pos := 0;
     mnt := {| fs_root := None; mounts := [] |}; fsw := fs_exec_demo; nodes := ∅; next_node := 0x5000 |}.

#[local] Instance demo_disk : DiskOps (fs ramdisk) := sdfs_disk_ops (zeros 4096) stack_demo.

Lemma fs_exec_demo_read : sdfs_read_file (zeros 4096) stack_demo fs_exec_demo (SLASH :: [97]) = Some (Some (182, elf_demo)).
Proof. by_vm. Qed.

