(* ===== verification/Geom.v ===== *)
(** * Geometry of the graphical interface

    Rectangles ([gui/math/rect.h]), affine transforms in 16.16 fixed point
    ([gui/math/transform.h]) and the camera ([gui/scene/camera.h],
    [gui/scene/camera.c]), whose zoom is in units of 1/1024 and whose position is
    in units of 1/256 pixel.  An [int] is a [Z]; sums that the code computes in
    [int] are wrapped with [s32]. *)

From Stdlib Require Import ZArith Lia.
From stdpp Require Import base numbers list.
From S2P Require Import Prelude.

(** ** Rectangles *)

Record rect := rect_make { r_x : Z; r_y : Z; r_width : Z; r_height : Z }.
Definition rect_zero : rect := rect_make 0 0 0 0.

Definition right (r : rect) : Z := s32 (r_x r + r_width r).
Definition bottom (r : rect) : Z := s32 (r_y r + r_height r).

Definition rect_is_empty (r : rect) : bool := ((r_width r <=? 0) || (r_height r <=? 0))%bool.
Definition rect_contains_point (r : rect) (px py : Z) : bool :=
  ((r_x r <=? px) && (px <? right r) && (r_y r <=? py) && (py <? bottom r))%bool.
Definition rect_intersects (a b : rect) : bool :=
  negb ((right a <=? r_x b) || (right b <=? r_x a) || (bottom a <=? r_y b) || (bottom b <=? r_y a)).

Definition span (x1 y1 x2 y2 : Z) : rect := rect_make x1 y1 (s32 (x2 - x1)) (s32 (y2 - y1)).
Definition rect_intersection (a b : rect) : rect :=
  let x1 := Z.max (r_x a) (r_x b) in
  let y1 := Z.max (r_y a) (r_y b) in
  let x2 := Z.min (right a) (right b) in
  let y2 := Z.min (bottom a) (bottom b) in
  if ((x2 <=? x1) || (y2 <=? y1))%bool then rect_zero else span x1 y1 x2 y2.
Definition rect_union (a b : rect) : rect :=
  if rect_is_empty a then b else
  if rect_is_empty b then a else
  span (Z.min (r_x a) (r_x b)) (Z.min (r_y a) (r_y b)) (Z.max (right a) (right b)) (Z.max (bottom a) (bottom b)).
Definition rect_offset (r : rect) (dx dy : Z) : rect := rect_make (s32 (r_x r + dx)) (s32 (r_y r + dy)) (r_width r) (r_height r).
Definition rect_inflate (r : rect) (margin : Z) : rect :=
  rect_make (s32 (r_x r - margin)) (s32 (r_y r - margin)) (s32 (r_width r + 2 * margin)) (s32 (r_height r + 2 * margin)).

(** A rectangle whose coordinates, and those of its corners, are small enough for
    the sums not to overflow. *)
Definition coord (z : Z) : Prop := - 2 ^ 29 <= z < 2 ^ 29.
Record rect_ok (r : rect) : Prop := {
  ro_x : coord (r_x r); ro_y : coord (r_y r);
  ro_w : 0 <= r_width r < 2 ^ 29; ro_h : 0 <= r_height r < 2 ^ 29
}.

(** Equality of conditions, as propositions. *)
Ltac bcases := apply eq_true_iff_eq; rewrite ?andb_true_iff, ?orb_true_iff, ?Z.ltb_lt, ?Z.leb_le in *; lia.

Lemma s32_small z : - 2 ^ 31 <= z < 2 ^ 31 -> s32 z = z.
Proof. intros H. unfold s32. rewrite Z.mod_small by lia. lia. Qed.

Lemma right_ok r : rect_ok r -> right r = r_x r + r_width r.
Proof. intros [? ? ? ?]. unfold coord in *. apply s32_small. lia. Qed.
Lemma bottom_ok r : rect_ok r -> bottom r = r_y r + r_height r.
Proof. intros [? ? ? ?]. unfold coord in *. apply s32_small. lia. Qed.

Lemma right_span x1 y1 x2 y2 : - 2 ^ 30 <= x1 <= x2 -> x2 < 2 ^ 30 -> right (span x1 y1 x2 y2) = x2.
Proof. intros H1 H2. unfold right, span. cbn [r_x r_width]. rewrite (s32_small (x2 - x1)) by lia. rewrite s32_small by lia. lia. Qed.
Lemma bottom_span x1 y1 x2 y2 : - 2 ^ 30 <= y1 <= y2 -> y2 < 2 ^ 30 -> bottom (span x1 y1 x2 y2) = y2.
Proof. intros H1 H2. unfold bottom, span. cbn [r_y r_height]. rewrite (s32_small (y2 - y1)) by lia. rewrite s32_small by lia. lia. Qed.

(** The intersection holds exactly the common points. *)
Theorem rect_intersection_points a b px py : rect_ok a -> rect_ok b ->
  rect_contains_point (rect_intersection a b) px py = (rect_contains_point a px py && rect_contains_point b px py)%bool.
Proof.
  intros Ha Hb. pose proof (right_ok a Ha) as E1. pose proof (right_ok b Hb) as E2. pose proof (bottom_ok a Ha) as E3. pose proof (bottom_ok b Hb) as E4.
  destruct Ha as [X1 Y1 W1 Q1], Hb as [X2 Y2 W2 Q2]. unfold coord in *. unfold rect_intersection.
  destruct (_ || _)%bool eqn:E.
  - unfold rect_contains_point. unfold rect_zero, right at 1, bottom at 1. cbn [r_x r_y r_width r_height]. change (s32 (0 + 0)) with 0.
    rewrite E1, E2, E3, E4 in *. bcases.
  - rewrite orb_false_iff, !Z.leb_gt in E. unfold rect_contains_point. rewrite right_span, bottom_span by lia. unfold span. cbn [r_x r_y]. rewrite E1, E2, E3, E4 in *. bcases.
Qed.

(** [rect_intersects] holds exactly when two non-empty rectangles share a point. *)
Theorem rect_intersects_spec a b : rect_ok a -> rect_ok b -> rect_is_empty a = false -> rect_is_empty b = false ->
  rect_intersects a b = true <-> exists px py, rect_contains_point a px py = true /\ rect_contains_point b px py = true.
Proof.
  intros Ha Hb Ea Eb. unfold rect_is_empty in *. zbool. unfold rect_intersects, rect_contains_point. rewrite !right_ok, !bottom_ok by done. split.
  - intros Hi. exists (Z.max (r_x a) (r_x b)), (Z.max (r_y a) (r_y b)). rewrite negb_true_iff, !orb_false_iff, !Z.leb_gt in Hi. rewrite !andb_true_iff, !Z.ltb_lt, !Z.leb_le. lia.
  - intros (px & py & P1 & P2). rewrite negb_true_iff, !orb_false_iff, !Z.leb_gt. rewrite !andb_true_iff, !Z.ltb_lt, !Z.leb_le in *. lia.
Qed.

(** The union contains both rectangles and lies in every rectangle that does. *)
Theorem rect_union_least a b : rect_ok a -> rect_ok b -> rect_is_empty a = false -> rect_is_empty b = false ->
  (forall px py, (rect_contains_point a px py || rect_contains_point b px py)%bool = true -> rect_contains_point (rect_union a b) px py = true)
  /\ r_x (rect_union a b) = Z.min (r_x a) (r_x b) /\ r_y (rect_union a b) = Z.min (r_y a) (r_y b)
  /\ right (rect_union a b) = Z.max (right a) (right b) /\ bottom (rect_union a b) = Z.max (bottom a) (bottom b).
Proof.
  intros Ha Hb Ea Eb. unfold rect_union. rewrite Ea, Eb. pose proof (right_ok a Ha) as E1. pose proof (right_ok b Hb) as E2. pose proof (bottom_ok a Ha) as E3. pose proof (bottom_ok b Hb) as E4.
  destruct Ha as [X1 Y1 W1 Q1], Hb as [X2 Y2 W2 Q2]. unfold coord in *. unfold rect_is_empty in *. zbool.
  assert (Er : right (span (Z.min (r_x a) (r_x b)) (Z.min (r_y a) (r_y b)) (Z.max (right a) (right b)) (Z.max (bottom a) (bottom b))) = Z.max (right a) (right b)) by (apply right_span; lia).
  assert (Eb' : bottom (span (Z.min (r_x a) (r_x b)) (Z.min (r_y a) (r_y b)) (Z.max (right a) (right b)) (Z.max (bottom a) (bottom b))) = Z.max (bottom a) (bottom b)) by (apply bottom_span; lia).
  split_and!; [|done..]. intros px py. unfold rect_contains_point. rewrite Er, Eb'. unfold span. cbn [r_x r_y]. rewrite E1, E2, E3, E4. rewrite ?orb_true_iff, !andb_true_iff, !Z.ltb_lt, !Z.leb_le. lia.
Qed.

(** ** Transforms *)

Record transform := { ta : Z; tb : Z; tc : Z; td : Z; tx : Z; ty : Z }.
Definition TRANSFORM_SCALE : Z := 65536.
Definition transform_translation (x y : Z) : transform := {| ta := TRANSFORM_SCALE; tb := 0; tc := 0; td := TRANSFORM_SCALE; tx := x; ty := y |}.
Definition transform_identity : transform := transform_translation 0 0.
Definition transform_scale (sx sy : Z) : transform := {| ta := sx; tb := 0; tc := 0; td := sy; tx := 0; ty := 0 |}.

Definition fixdiv (v : Z) : Z := s32 (Z.quot v TRANSFORM_SCALE).
(** First [a], then [b]. *)
Definition transform_concat (a b : transform) : transform :=
  {| ta := fixdiv (ta b * ta a + tc b * tb a); tb := fixdiv (tb b * ta a + td b * tb a);
     tc := fixdiv (ta b * tc a + tc b * td a); td := fixdiv (tb b * tc a + td b * td a);
     tx := s32 (fixdiv (ta b * tx a + tc b * ty a) + tx b); ty := s32 (fixdiv (tb b * tx a + td b * ty a) + ty b) |}.
Definition transform_apply (t : transform) (px py : Z) : Z * Z :=
  (s32 (fixdiv (ta t * px + tc t * py) + tx t), s32 (fixdiv (tb t * px + td t * py) + ty t)).

(** The bounding box of the four corners. *)
Definition transform_apply_rect (t : transform) (r : rect) : rect :=
  let tl := transform_apply t (r_x r) (r_y r) in
  let tr := transform_apply t (right r) (r_y r) in
  let bl := transform_apply t (r_x r) (bottom r) in
  let br := transform_apply t (right r) (bottom r) in
  span (Z.min (Z.min (Z.min tl.1 tr.1) bl.1) br.1) (Z.min (Z.min (Z.min tl.2 tr.2) bl.2) br.2)
       (Z.max (Z.max (Z.max tl.1 tr.1) bl.1) br.1) (Z.max (Z.max (Z.max tl.2 tr.2) bl.2) br.2).

Lemma fixdiv_whole z : - 2 ^ 31 <= z < 2 ^ 31 -> fixdiv (TRANSFORM_SCALE * z) = z.
Proof. intros H. unfold fixdiv. rewrite Z.mul_comm, Z.quot_mul by done. by apply s32_small. Qed.

(** Translations compose by adding up. *)
Lemma concat_translation x y x' y' : coord x -> coord y -> coord x' -> coord y' ->
  transform_concat (transform_translation x y) (transform_translation x' y') = transform_translation (x + x') (y + y').
Proof.
  unfold coord. intros Hx Hy Hx' Hy'. unfold transform_concat, transform_translation. cbn [ta tb tc td tx ty].
  rewrite !Z.mul_0_l, !Z.add_0_r, !Z.add_0_l, !fixdiv_whole by (unfold TRANSFORM_SCALE; lia). rewrite !s32_small by lia. reflexivity.
Qed.

Lemma apply_translation x y px py : coord x -> coord y -> coord px -> coord py ->
  transform_apply (transform_translation x y) px py = (px + x, py + y).
Proof.
  unfold coord. intros Hx Hy Hx' Hy'. unfold transform_apply, transform_translation. cbn [ta tb tc td tx ty].
  rewrite !Z.mul_0_l, !Z.add_0_r, !Z.add_0_l, !fixdiv_whole by (unfold TRANSFORM_SCALE; lia). rewrite !s32_small by lia. reflexivity.
Qed.

(** ** The camera *)

Definition CAMERA_ZOOM_SCALE : Z := 1024.
Definition CAMERA_POS_SCALE : Z := 256.
Definition CAMERA_ZOOM_MIN_FP : Z := Z.quot CAMERA_ZOOM_SCALE 10.
Definition CAMERA_ZOOM_MAX_FP : Z := CAMERA_ZOOM_SCALE * 8.
Definition CAMERA_FRICTION_NUM : Z := 870.
Definition CAMERA_FRICTION_DEN : Z := 1024.

Record camera := {
  pos_x_fp : Z; pos_y_fp : Z; zoom_fp : Z; vel_x_fp : Z; vel_y_fp : Z;
  screen_w : Z; screen_h : Z; cam_dirty : bool
}.
Definition at_pos (x y : Z) (c : camera) : camera :=
  {| pos_x_fp := x; pos_y_fp := y; zoom_fp := zoom_fp c; vel_x_fp := vel_x_fp c; vel_y_fp := vel_y_fp c; screen_w := screen_w c; screen_h := screen_h c; cam_dirty := true |}.
Definition at_zoom (z : Z) (c : camera) : camera :=
  {| pos_x_fp := pos_x_fp c; pos_y_fp := pos_y_fp c; zoom_fp := z; vel_x_fp := vel_x_fp c; vel_y_fp := vel_y_fp c; screen_w := screen_w c; screen_h := screen_h c; cam_dirty := true |}.
Definition at_velocity (x y : Z) (c : camera) : camera :=
  {| pos_x_fp := pos_x_fp c; pos_y_fp := pos_y_fp c; zoom_fp := zoom_fp c; vel_x_fp := x; vel_y_fp := y; screen_w := screen_w c; screen_h := screen_h c; cam_dirty := cam_dirty c |}.

Definition camera_create (w h : Z) : camera :=
  {| pos_x_fp := 0; pos_y_fp := 0; zoom_fp := CAMERA_ZOOM_SCALE; vel_x_fp := 0; vel_y_fp := 0; screen_w := w; screen_h := h; cam_dirty := true |}.

(** A division by the zoom: [None] is the trap of a division by zero. *)
Definition divz (a b : Z) : option Z := if b =? 0 then None else Some (Z.quot a b).

Definition camera_pan (dx dy : Z) (c : camera) : camera :=
  at_velocity (s32 (dx * CAMERA_POS_SCALE)) (s32 (dy * CAMERA_POS_SCALE))
    (at_pos (s32 (pos_x_fp c + s32 (dx * CAMERA_POS_SCALE))) (s32 (pos_y_fp c + s32 (dy * CAMERA_POS_SCALE))) c).

Definition camera_center_on (wx wy : Z) (c : camera) : option camera :=
  qx ← divz (screen_w c * CAMERA_ZOOM_SCALE * CAMERA_POS_SCALE) (s32 (2 * zoom_fp c));
  qy ← divz (screen_h c * CAMERA_ZOOM_SCALE * CAMERA_POS_SCALE) (s32 (2 * zoom_fp c));
  Some (at_pos (s32 (wx * CAMERA_POS_SCALE - qx)) (s32 (wy * CAMERA_POS_SCALE - qy)) c).

(** Conversions along one axis with position [pos] and zoom [zoom]. *)
Definition world_to_screen (pos zoom w : Z) : Z :=
  s32 (Z.quot ((s32 (w * CAMERA_POS_SCALE) - pos) * zoom) (CAMERA_ZOOM_SCALE * CAMERA_POS_SCALE)).
Definition screen_to_world (pos zoom s : Z) : option Z :=
  v ← divz (s * CAMERA_ZOOM_SCALE * CAMERA_POS_SCALE) zoom;
  Some (s32 (Z.quot (v + pos) CAMERA_POS_SCALE)).
Definition camera_world_to_screen_x (c : camera) : Z -> Z := world_to_screen (pos_x_fp c) (zoom_fp c).
Definition camera_world_to_screen_y (c : camera) : Z -> Z := world_to_screen (pos_y_fp c) (zoom_fp c).
Definition camera_screen_to_world_x (c : camera) : Z -> option Z := screen_to_world (pos_x_fp c) (zoom_fp c).
Definition camera_screen_to_world_y (c : camera) : Z -> option Z := screen_to_world (pos_y_fp c) (zoom_fp c).
Definition camera_scale (c : camera) (dim : Z) : Z := s32 (Z.quot (dim * zoom_fp c) CAMERA_ZOOM_SCALE).

Definition camera_world_rect_to_screen (c : camera) (r : rect) : rect :=
  span (camera_world_to_screen_x c (r_x r)) (camera_world_to_screen_y c (r_y r))
       (camera_world_to_screen_x c (right r)) (camera_world_to_screen_y c (bottom r)).
Definition camera_viewport_in_world (c : camera) : option rect :=
  x ← camera_screen_to_world_x c 0; y ← camera_screen_to_world_y c 0;
  x2 ← camera_screen_to_world_x c (screen_w c); y2 ← camera_screen_to_world_y c (screen_h c);
  Some (span x y x2 y2).

Definition iclampcam (v lo hi : Z) : Z := if v <? lo then lo else if hi <? v then hi else v.
Definition clamp_zoom (z : Z) : Z := iclampcam z CAMERA_ZOOM_MIN_FP CAMERA_ZOOM_MAX_FP.

Definition camera_zoom_at (new_zoom px py : Z) (c : camera) : option camera :=
  let z := clamp_zoom new_zoom in
  if z =? zoom_fp c then Some c else
  wx ← camera_screen_to_world_x c px; wy ← camera_screen_to_world_y c py;
  qx ← divz (px * CAMERA_ZOOM_SCALE * CAMERA_POS_SCALE) z; qy ← divz (py * CAMERA_ZOOM_SCALE * CAMERA_POS_SCALE) z;
  Some (at_pos (s32 (wx * CAMERA_POS_SCALE - qx)) (s32 (wy * CAMERA_POS_SCALE - qy)) (at_zoom z c)).

Definition camera_reset (c : camera) : camera := at_velocity 0 0 (at_pos 0 0 (at_zoom CAMERA_ZOOM_SCALE c)).

(** The bounding box of [camera_fit], from the values the loop starts with. *)
Definition fit_bounds (rs : list rect) : Z * Z * Z * Z :=
  foldl (fun '(x1, y1, x2, y2) r => (Z.min x1 (r_x r), Z.min y1 (r_y r), Z.max x2 (right r), Z.max y2 (bottom r)))
    (0x7FFFFFFF, 0x7FFFFFFF, -0x7FFFFFFF, -0x7FFFFFFF) rs.
Definition fit_size (lo hi : Z) : Z := let v := s32 (s32 (hi - lo) + 80) in if v <? 1 then 1 else v.
Definition camera_fit (rs : list rect) (c : camera) : option camera :=
  match rs with
  | [] => Some c
  | _ =>
      let '(x1, y1, x2, y2) := fit_bounds rs in
      zx ← divz (screen_w c * CAMERA_ZOOM_SCALE) (fit_size x1 x2); zy ← divz (screen_h c * CAMERA_ZOOM_SCALE) (fit_size y1 y2);
      camera_center_on (Z.quot (s32 (x1 + x2)) 2) (Z.quot (s32 (y1 + y2)) 2) (at_zoom (clamp_zoom (Z.min (s32 zx) (s32 zy))) c)
  end.

Definition friction (v : Z) : Z := s32 (Z.quot (v * CAMERA_FRICTION_NUM) CAMERA_FRICTION_DEN).
Definition fast (v : Z) : bool := ((Z.quot CAMERA_POS_SCALE 4 <? v) || (v <? - Z.quot CAMERA_POS_SCALE 4))%bool.
Definition camera_update (c : camera) : camera :=
  if (fast (vel_x_fp c) || fast (vel_y_fp c))%bool then
    at_velocity (friction (vel_x_fp c)) (friction (vel_y_fp c))
      (at_pos (s32 (pos_x_fp c + friction (vel_x_fp c))) (s32 (pos_y_fp c + friction (vel_y_fp c))) c)
  else at_velocity 0 0 c.

(** ** The zoom stays within its bounds *)

Definition camera_ok (c : camera) : Prop := CAMERA_ZOOM_MIN_FP <= zoom_fp c <= CAMERA_ZOOM_MAX_FP.

Inductive camera_op :=
| Pan (dx dy : Z) | CenterOn (wx wy : Z) | ZoomAt (z px py : Z) | Reset | Fit (rs : list rect) | Update.
Definition camera_step (c : camera) (o : camera_op) : option camera :=
  match o with
  | Pan dx dy => Some (camera_pan dx dy c)
  | CenterOn wx wy => camera_center_on wx wy c
  | ZoomAt z px py => camera_zoom_at z px py c
  | Reset => Some (camera_reset c)
  | Fit rs => camera_fit rs c
  | Update => Some (camera_update c)
  end.
Fixpoint camera_run (c : camera) (ops : list camera_op) : option camera :=
  match ops with [] => Some c | o :: ops => c' ← camera_step c o; camera_run c' ops end.

Lemma clamp_zoom_range z : CAMERA_ZOOM_MIN_FP <= clamp_zoom z <= CAMERA_ZOOM_MAX_FP.
Proof.
  unfold clamp_zoom, iclampcam. change CAMERA_ZOOM_MIN_FP with 102. change CAMERA_ZOOM_MAX_FP with 8192. zcases; lia.
Qed.

Lemma divz_nonzero a b : b <> 0 -> divz a b = Some (Z.quot a b).
Proof. intros H. unfold divz. by rewrite (proj2 (Z.eqb_neq b 0) H). Qed.

Lemma zoom_nonzero c : camera_ok c -> zoom_fp c <> 0 /\ s32 (2 * zoom_fp c) <> 0.
Proof.
  unfold camera_ok. change CAMERA_ZOOM_MIN_FP with 102. change CAMERA_ZOOM_MAX_FP with 8192. intros H. rewrite s32_small by lia. lia.
Qed.

Lemma center_on_ok wx wy c : camera_ok c -> exists c', camera_center_on wx wy c = Some c' /\ zoom_fp c' = zoom_fp c.
Proof.
  intros H. unfold camera_center_on. destruct (zoom_nonzero c H) as [_ Hz]. rewrite !divz_nonzero by done. cbn [mbind option_bind]. eexists. by split.
Qed.

Lemma camera_step_ok c o : camera_ok c -> exists c', camera_step c o = Some c' /\ camera_ok c'.
Proof.
  intros H. pose proof (zoom_nonzero c H) as [Hz _]. destruct o as [dx dy|wx wy|z px py| |rs|]; cbn [camera_step].
  - eexists. split; [done|exact H].
  - destruct (center_on_ok wx wy c H) as (c' & -> & E). exists c'. split; [done|]. unfold camera_ok. by rewrite E.
  - pose proof (clamp_zoom_range z) as Hc. unfold camera_zoom_at. destruct (Z.eqb_spec (clamp_zoom z) (zoom_fp c)); [by exists c|].
    unfold camera_screen_to_world_x, camera_screen_to_world_y, screen_to_world. rewrite !divz_nonzero by (done || (intros E; rewrite E in Hc; by destruct Hc)).
    cbn [mbind option_bind]. eexists. split; [done|exact Hc].
  - eexists. split; [done|]. by split.
  - unfold camera_fit. destruct rs as [|r rs]; [by exists c|]. destruct (fit_bounds (r :: rs)) as [[[x1 y1] x2] y2].
    assert (Hs : forall a b, fit_size a b <> 0) by (intros a b; unfold fit_size; zcases; lia). rewrite !divz_nonzero by apply Hs. cbn [mbind option_bind].
    destruct (center_on_ok (Z.quot (s32 (x1 + x2)) 2) (Z.quot (s32 (y1 + y2)) 2) (at_zoom (clamp_zoom (Z.min (s32 (Z.quot (screen_w c * CAMERA_ZOOM_SCALE) (fit_size x1 x2))) (s32 (Z.quot (screen_h c * CAMERA_ZOOM_SCALE) (fit_size y1 y2))))) c))
      as (c' & -> & E); [apply clamp_zoom_range|]. exists c'. split; [done|]. unfold camera_ok. rewrite E. apply clamp_zoom_range.
  - unfold camera_update. destruct (_ || _)%bool; (eexists; split; [done|exact H]).
Qed.

(** C40: in every run of the camera calls, whatever their arguments, no conversion
    divides by zero and the zoom stays between 0.1 and 8. *)
Theorem camera_zoom_bounded_in_every_run w h ops :
  exists c, camera_run (camera_create w h) ops = Some c /\ CAMERA_ZOOM_MIN_FP <= zoom_fp c <= CAMERA_ZOOM_MAX_FP.
Proof.
  assert (H : camera_ok (camera_create w h)) by by split. revert H. generalize (camera_create w h). induction ops as [|o ops IH]; intros c H; cbn [camera_run]; [by exists c|].
  destruct (camera_step_ok c o H) as (c' & -> & H'). exact (IH c' H').
Qed.

(** ** Screen and world *)

Lemma quot_error a b : 0 < b -> a - b < b * Z.quot a b < a + b.
Proof.
  intros Hb. pose proof (Z.quot_rem' a b) as E. pose proof (Z.rem_bound_abs a b ltac:(lia)) as Hr. lia.
Qed.

(** From the screen to the world and back, a coordinate moves by at most 1 + 257/256 of the zoom. *)
Theorem screen_world_roundtrip c s w : camera_ok c -> - 2 ^ 15 <= s < 2 ^ 15 -> Z.abs (pos_x_fp c) < 2 ^ 29 ->
  camera_screen_to_world_x c s = Some w ->
  Z.abs (camera_world_to_screen_x c w - s) * 262144 < 262144 + zoom_fp c * 257.
Proof.
  intros Hc Hs Hp. unfold camera_ok in Hc. change CAMERA_ZOOM_MIN_FP with 102 in Hc. change CAMERA_ZOOM_MAX_FP with 8192 in Hc.
  unfold camera_screen_to_world_x, screen_to_world. rewrite divz_nonzero by lia. cbn [mbind option_bind]. intros [= <-].
  unfold camera_world_to_screen_x, world_to_screen. change (CAMERA_ZOOM_SCALE * CAMERA_POS_SCALE) with 262144. change CAMERA_POS_SCALE with 256. change CAMERA_ZOOM_SCALE with 1024.
  set (z := zoom_fp c) in *. set (p := pos_x_fp c) in *. replace (s * 1024 * 256) with (s * 262144) by lia.
  pose proof (quot_error (s * 262144) z ltac:(lia)) as Ev. set (v := Z.quot (s * 262144) z) in *.
  assert (Hv : Z.abs v <= 2 ^ 27) by nia.
  pose proof (quot_error (v + p) 256 ltac:(lia)) as Ew. set (w := Z.quot (v + p) 256) in *.
  rewrite (s32_small w) by lia. rewrite (s32_small (w * 256)) by lia.
  pose proof (quot_error ((w * 256 - p) * z) 262144 ltac:(lia)) as Er. set (r := Z.quot ((w * 256 - p) * z) 262144) in *.
  assert (He : Z.abs ((w * 256 - p) * z - v * z) <= 255 * z) by nia. rewrite (s32_small r) by nia. nia.
Qed.

(** Zooming keeps the world point under the pivot at its pixel, or one off. *)
Theorem camera_zoom_keeps_pivot c z px py c' w : camera_ok c -> 0 <= px < 2 ^ 15 -> 0 <= py < 2 ^ 15 -> Z.abs (pos_x_fp c) < 2 ^ 29 ->
  camera_zoom_at z px py c = Some c' -> clamp_zoom z <> zoom_fp c -> camera_screen_to_world_x c px = Some w ->
  px - 1 <= camera_world_to_screen_x c' w <= px.
Proof.
  intros Hc Hx Hy Hp. unfold camera_zoom_at. intros H Hne Hw. rewrite (proj2 (Z.eqb_neq _ _) Hne), Hw in H. unfold camera_ok in Hc.
  pose proof (clamp_zoom_range z) as Hz. change CAMERA_ZOOM_MIN_FP with 102 in *. change CAMERA_ZOOM_MAX_FP with 8192 in *.
  unfold camera_screen_to_world_y, screen_to_world in H. rewrite !divz_nonzero in H by lia. cbn [mbind option_bind] in H. injection H as <-.
  unfold camera_world_to_screen_x, world_to_screen. cbn [pos_x_fp zoom_fp at_pos at_zoom]. change (CAMERA_ZOOM_SCALE * CAMERA_POS_SCALE) with 262144. change CAMERA_POS_SCALE with 256. change CAMERA_ZOOM_SCALE with 1024.
  set (n := clamp_zoom z) in *. replace (px * 1024 * 256) with (px * 262144) by lia.
  assert (Hwb : Z.abs w <= 2 ^ 23 - 2 ^ 20).
  { unfold camera_screen_to_world_x, screen_to_world in Hw. rewrite divz_nonzero in Hw by lia. cbn [mbind option_bind] in Hw. injection Hw as <-.
    change CAMERA_POS_SCALE with 256. change CAMERA_ZOOM_SCALE with 1024. replace (px * 1024 * 256) with (px * 262144) by lia.
    pose proof (quot_error (px * 262144) (zoom_fp c) ltac:(lia)) as Ev. set (v := Z.quot (px * 262144) (zoom_fp c)) in *. assert (Hv : Z.abs v <= 2 ^ 27) by nia.
    pose proof (quot_error (v + pos_x_fp c) 256 ltac:(lia)) as Ew. rewrite s32_small by lia. lia. }
  set (q := Z.quot (px * 262144) n). assert (Hq : 0 <= q /\ q * n <= px * 262144 < q * n + n).
  { unfold q. rewrite Z.quot_div_nonneg by lia. pose proof (Z.div_mod (px * 262144) n ltac:(lia)). pose proof (Z.mod_pos_bound (px * 262144) n ltac:(lia)).
    assert (0 <= px * 262144 / n) by (apply Z.div_pos; lia). lia. }
  assert (q < 2 ^ 27) by nia. rewrite (s32_small (w * 256)) by lia. rewrite (s32_small (w * 256 - q)) by lia.
  replace (w * 256 - (w * 256 - q)) with q by lia. rewrite Z.quot_div_nonneg by nia.
  assert (px - 1 <= q * n / 262144 <= px); [|rewrite s32_small by lia; lia]. split; [apply Z.div_le_lower_bound; nia|].
  apply Z.lt_succ_r, Z.div_lt_upper_bound; lia.
Qed.

(** ** Inertia ends *)

Lemma friction_shrinks v : Z.abs v < 2 ^ 31 -> Z.abs (friction v) <= Z.abs v /\ (0 < Z.abs v -> Z.abs (friction v) < Z.abs v).
Proof.
  intros Hv. unfold friction. change CAMERA_FRICTION_NUM with 870. change CAMERA_FRICTION_DEN with 1024.
  pose proof (Z.quot_rem' (v * 870) 1024) as E. pose proof (Z.rem_bound_abs (v * 870) 1024 ltac:(lia)) as Hr.
  assert (Hs : 0 <= v -> 0 <= Z.rem (v * 870) 1024) by (intros; apply Z.rem_nonneg; lia).
  assert (Hs' : v <= 0 -> Z.rem (v * 870) 1024 <= 0) by (intros; apply Z.rem_nonpos; lia).
  set (q := Z.quot (v * 870) 1024) in *. set (r := Z.rem (v * 870) 1024) in *. clearbody q r. rewrite s32_small by lia. lia.
Qed.

(** After finitely many frames the camera stands still. *)
Theorem camera_inertia_ends c : Z.abs (vel_x_fp c) < 2 ^ 31 -> Z.abs (vel_y_fp c) < 2 ^ 31 ->
  exists n c', camera_run c (replicate n Update) = Some c' /\ vel_x_fp c' = 0 /\ vel_y_fp c' = 0.
Proof.
  remember (Z.to_nat (Z.abs (vel_x_fp c) + Z.abs (vel_y_fp c))) as m eqn:Em. revert c Em.
  induction (lt_wf m) as [m _ IH]. intros c Em Hx Hy. destruct (fast (vel_x_fp c) || fast (vel_y_fp c))%bool eqn:Ef.
  - destruct (friction_shrinks _ Hx) as [Hx1 Hx2], (friction_shrinks _ Hy) as [Hy1 Hy2].
    assert (Hm : 0 < Z.abs (vel_x_fp c) \/ 0 < Z.abs (vel_y_fp c)).
    { unfold fast in Ef. change (Z.quot CAMERA_POS_SCALE 4) with 64 in Ef. rewrite !orb_true_iff, !Z.ltb_lt in Ef. lia. }
    assert (Eu : vel_x_fp (camera_update c) = friction (vel_x_fp c) /\ vel_y_fp (camera_update c) = friction (vel_y_fp c)) by (unfold camera_update; rewrite Ef; done).
    destruct Eu as [Eu1 Eu2]. edestruct (IH (Z.to_nat (Z.abs (vel_x_fp (camera_update c)) + Z.abs (vel_y_fp (camera_update c))))) as (n & c' & E & H'); [|done|rewrite Eu1; lia|rewrite Eu2; lia|].
    { rewrite Eu1, Eu2. lia. }
    exists (S n), c'. split; [exact E|exact H'].
  - exists 1%nat, (camera_update c). split; [done|]. unfold camera_update. rewrite Ef. done.
Qed.
