(* ===== verification/Scene.v ===== *)
(** * The scene graph ([gui/scene/node.c], [gui/window/window_manager.c], [gui/widgets])

    Every window, button, label, panel and image is a [node_t] on the kernel heap,
    with pointers to its parent, its children and its siblings.  [store] holds the
    nodes by address; a pointer to a freed node stops the machine.  The data of a
    widget keeps the addresses of its heap blocks and its text; colours, fonts and
    callbacks, which only drawing and event handlers use, and the opacity, always 1,
    are left out.  Drawing is the bounds it records and the order of the calls. *)

From Stdlib Require Import ZArith Lia.
From stdpp Require Import base numbers list gmap.
From S2P Require Import Prelude Kheap Geom.

Definition NODE_CANVAS : Z := 1.
Definition NODE_WINDOW : Z := 3.
Definition NODE_PANEL : Z := 4.
Definition NODE_BUTTON : Z := 5.
Definition NODE_LABEL : Z := 6.
Definition NODE_IMAGE : Z := 7.

Definition NODE_DIRTY_TRANSFORM : Z := 1.
Definition NODE_DIRTY_LAYOUT : Z := 2.
Definition NODE_DIRTY_PAINT : Z := 4.
Definition NODE_DIRTY_ALL : Z := 7.
Definition NODE_MAX_CHILDREN : nat := 64.
Definition NODE_NAME_LEN : nat := 32.
Definition SIZEOF_NODE : Z := 720.

(** The subtype data behind [userdata]: its address first, then the address of the
    text, title or pixels it owns (0 is NULL). *)
Inductive payload :=
| NoData
| LabelData (d text : Z) (s : list Z)
| ButtonData (d text : Z) (s : list Z)
| PanelData (d : Z)
| ImageData (d buffer w h : Z) (pixels : list Z)
| WindowData (d title : Z) (s : list Z) (pid : Z).

Record gnode := {
  n_id : Z; n_type : Z; n_name : list Z; n_x : Z; n_y : Z;
  n_width : Z; n_height : Z; n_world : transform; n_bounds : rect; n_parent : Z;
  n_children : list Z; n_prev : Z; n_next : Z; n_visible : bool; n_interactive : bool;
  n_dirty : Z; n_z_order : Z; n_layout : Z; n_align : Z; n_margin : list Z;
  n_padding : list Z; n_flex : Z; n_data : payload
}.

Definition at_xy x y (n : gnode) : gnode := Build_gnode (n_id n) (n_type n) (n_name n) x y (n_width n) (n_height n) (n_world n) (n_bounds n) (n_parent n) (n_children n) (n_prev n) (n_next n) (n_visible n) (n_interactive n) (n_dirty n) (n_z_order n) (n_layout n) (n_align n) (n_margin n) (n_padding n) (n_flex n) (n_data n).
Definition at_size w h (n : gnode) : gnode := Build_gnode (n_id n) (n_type n) (n_name n) (n_x n) (n_y n) w h (n_world n) (n_bounds n) (n_parent n) (n_children n) (n_prev n) (n_next n) (n_visible n) (n_interactive n) (n_dirty n) (n_z_order n) (n_layout n) (n_align n) (n_margin n) (n_padding n) (n_flex n) (n_data n).
Definition at_world t (n : gnode) : gnode := Build_gnode (n_id n) (n_type n) (n_name n) (n_x n) (n_y n) (n_width n) (n_height n) t (n_bounds n) (n_parent n) (n_children n) (n_prev n) (n_next n) (n_visible n) (n_interactive n) (n_dirty n) (n_z_order n) (n_layout n) (n_align n) (n_margin n) (n_padding n) (n_flex n) (n_data n).
Definition at_bounds r (n : gnode) : gnode := Build_gnode (n_id n) (n_type n) (n_name n) (n_x n) (n_y n) (n_width n) (n_height n) (n_world n) r (n_parent n) (n_children n) (n_prev n) (n_next n) (n_visible n) (n_interactive n) (n_dirty n) (n_z_order n) (n_layout n) (n_align n) (n_margin n) (n_padding n) (n_flex n) (n_data n).
Definition at_parent p (n : gnode) : gnode := Build_gnode (n_id n) (n_type n) (n_name n) (n_x n) (n_y n) (n_width n) (n_height n) (n_world n) (n_bounds n) p (n_children n) (n_prev n) (n_next n) (n_visible n) (n_interactive n) (n_dirty n) (n_z_order n) (n_layout n) (n_align n) (n_margin n) (n_padding n) (n_flex n) (n_data n).
Definition at_children l (n : gnode) : gnode := Build_gnode (n_id n) (n_type n) (n_name n) (n_x n) (n_y n) (n_width n) (n_height n) (n_world n) (n_bounds n) (n_parent n) l (n_prev n) (n_next n) (n_visible n) (n_interactive n) (n_dirty n) (n_z_order n) (n_layout n) (n_align n) (n_margin n) (n_padding n) (n_flex n) (n_data n).
Definition at_prev p (n : gnode) : gnode := Build_gnode (n_id n) (n_type n) (n_name n) (n_x n) (n_y n) (n_width n) (n_height n) (n_world n) (n_bounds n) (n_parent n) (n_children n) p (n_next n) (n_visible n) (n_interactive n) (n_dirty n) (n_z_order n) (n_layout n) (n_align n) (n_margin n) (n_padding n) (n_flex n) (n_data n).
Definition at_next p (n : gnode) : gnode := Build_gnode (n_id n) (n_type n) (n_name n) (n_x n) (n_y n) (n_width n) (n_height n) (n_world n) (n_bounds n) (n_parent n) (n_children n) (n_prev n) p (n_visible n) (n_interactive n) (n_dirty n) (n_z_order n) (n_layout n) (n_align n) (n_margin n) (n_padding n) (n_flex n) (n_data n).
Definition at_visible b (n : gnode) : gnode := Build_gnode (n_id n) (n_type n) (n_name n) (n_x n) (n_y n) (n_width n) (n_height n) (n_world n) (n_bounds n) (n_parent n) (n_children n) (n_prev n) (n_next n) b (n_interactive n) (n_dirty n) (n_z_order n) (n_layout n) (n_align n) (n_margin n) (n_padding n) (n_flex n) (n_data n).
Definition at_dirty d (n : gnode) : gnode := Build_gnode (n_id n) (n_type n) (n_name n) (n_x n) (n_y n) (n_width n) (n_height n) (n_world n) (n_bounds n) (n_parent n) (n_children n) (n_prev n) (n_next n) (n_visible n) (n_interactive n) d (n_z_order n) (n_layout n) (n_align n) (n_margin n) (n_padding n) (n_flex n) (n_data n).
Definition at_data d (n : gnode) : gnode := Build_gnode (n_id n) (n_type n) (n_name n) (n_x n) (n_y n) (n_width n) (n_height n) (n_world n) (n_bounds n) (n_parent n) (n_children n) (n_prev n) (n_next n) (n_visible n) (n_interactive n) (n_dirty n) (n_z_order n) (n_layout n) (n_align n) (n_margin n) (n_padding n) (n_flex n) d.

(** [scene_graph_t] at address [sg_addr], and the memory. *)
Record scene_graph := { sg_addr : Z; sg_root : Z; sg_next_id : Z; sg_count : Z }.
Record scene := { gheap : kheap; store : gmap Z gnode; g_scene : option scene_graph }.
Definition set_gheap (h : kheap) (s : scene) : scene := {| gheap := h; store := store s; g_scene := g_scene s |}.
Definition set_store (m : gmap Z gnode) (s : scene) : scene := {| gheap := gheap s; store := m; g_scene := g_scene s |}.
Definition set_g_scene (g : option scene_graph) (s : scene) : scene := {| gheap := gheap s; store := store s; g_scene := g |}.

Definition g_kmalloc (size : Z) : M scene Z := fun s =>
  match kmalloc (gheap s) size with KRet p h => Some (p, set_gheap h s) | _ => None end.
Definition g_kfree (p : Z) : M scene unit := mmodify (fun s => set_gheap (kfree (gheap s) p) s).

Definition nd (p : Z) : M scene gnode := fun s => match store s !! p with Some n => Some (n, s) | None => None end.
Definition put (p : Z) (n : gnode) : M scene unit := mmodify (fun s => set_store (<[p := n]> (store s)) s).
Definition upd (p : Z) (f : gnode -> gnode) : M scene unit := n <-- nd p ;; put p (f n).
Definition meach {S A} (f : A -> M S unit) : list A -> M S unit := fix go l :=
  match l with [] => mret_ tt | x :: l => f x ;;; go l end.

(** ** The scene *)

Definition scene_graph_init : M scene unit := fun s =>
  match g_scene s with
  | Some _ => Some (tt, s)
  | None => (p <-- g_kmalloc 16 ;; mmodify (set_g_scene (Some {| sg_addr := p; sg_root := 0; sg_next_id := 1; sg_count := 0 |}))) s
  end.
Definition set_root (p : Z) : M scene unit := mmodify (fun s =>
  set_g_scene (match g_scene s with Some g => Some {| sg_addr := sg_addr g; sg_root := p; sg_next_id := sg_next_id g; sg_count := sg_count g |} | None => None end) s).

(** The identifier of a new node, counted. *)
Definition take_id : M scene Z := fun s =>
  match g_scene s with
  | Some g => Some (sg_next_id g, set_g_scene (Some {| sg_addr := sg_addr g; sg_root := sg_root g; sg_next_id := u32 (sg_next_id g + 1); sg_count := u32 (sg_count g + 1) |}) s)
  | None => Some (0, s)
  end.
Definition blank_node (id type : Z) (name : list Z) : gnode :=
  {| n_id := id; n_type := type; n_name := take (NODE_NAME_LEN - 1) name; n_x := 0; n_y := 0; n_width := 0; n_height := 0;
     n_world := transform_identity; n_bounds := rect_zero; n_parent := 0; n_children := []; n_prev := 0; n_next := 0;
     n_visible := true; n_interactive := true; n_dirty := NODE_DIRTY_ALL; n_z_order := 0; n_layout := 0; n_align := 0;
     n_margin := [0; 0; 0; 0]; n_padding := [0; 0; 0; 0]; n_flex := 0; n_data := NoData |}.
Definition node_create (type : Z) (name : list Z) : M scene Z :=
  p <-- g_kmalloc SIZEOF_NODE ;;
  id <-- take_id ;;
  put p (blank_node id type name) ;;;
  mret_ p.

(** [vtable->destroy]: the blocks of the widget. *)
Definition free_nonnull (p : Z) : M scene unit := mwhen (negb (p =? 0)) (g_kfree p).
Definition payload_destroy (d : payload) : M scene unit :=
  match d with
  | NoData => mret_ tt
  | LabelData a t _ | ButtonData a t _ | WindowData a t _ _ => free_nonnull t ;;; g_kfree a
  | PanelData a => g_kfree a
  | ImageData a b _ _ _ => free_nonnull b ;;; g_kfree a
  end.
Definition count_down : M scene unit := mmodify (fun s =>
  set_g_scene (match g_scene s with
    | Some g => Some (if 0 <? sg_count g then {| sg_addr := sg_addr g; sg_root := sg_root g; sg_next_id := sg_next_id g; sg_count := sg_count g - 1 |} else g)
    | None => None end) s).
Fixpoint node_destroy_fuel (fuel : nat) (p : Z) : M scene unit :=
  match fuel with
  | O => mstop
  | S k =>
      if p =? 0 then mret_ tt else
      n <-- nd p ;;
      meach (node_destroy_fuel k) (n_children n) ;;;
      payload_destroy (n_data n) ;;;
      count_down ;;;
      g_kfree p ;;;
      mmodify (fun s => set_store (delete p (store s)) s)
  end.
(** Recursions over the tree take the number of nodes, and one, as fuel. *)
Definition tree_fuel (s : scene) : nat := S (size (store s)).
Definition node_destroy (p : Z) : M scene unit := fun s => node_destroy_fuel (tree_fuel s) p s.

Fixpoint mark_dirty (fuel : nat) (p flags : Z) : M scene unit :=
  match fuel with
  | O => mstop
  | S k =>
      if p =? 0 then mret_ tt else
      upd p (fun n => at_dirty (Z.lor (n_dirty n) flags) n) ;;;
      n <-- nd p ;;
      mwhen (negb (Z.land flags NODE_DIRTY_TRANSFORM =? 0)) (meach (fun c => mark_dirty k c NODE_DIRTY_TRANSFORM) (n_children n))
  end.
Definition node_mark_dirty (p flags : Z) : M scene unit := fun s => mark_dirty (tree_fuel s) p flags s.

(** ** Parents and children *)

Definition node_add_child (parent child : Z) : M scene bool :=
  if ((parent =? 0) || (child =? 0))%bool then mret_ false else
  np <-- nd parent ;;
  if (NODE_MAX_CHILDREN <=? length (n_children np))%nat then mret_ false else
  nc <-- nd child ;;
  if negb (n_parent nc =? 0) then mret_ false else
  upd child (at_parent parent) ;;;
  np <-- nd parent ;;
  match last (n_children np) with
  | Some l => upd l (at_next child) ;;; upd child (at_prev l)
  | None => mret_ tt
  end ;;;
  upd child (at_next 0) ;;;
  upd parent (fun n => at_children (n_children n ++ [child]) n) ;;;
  node_mark_dirty child (Z.lor NODE_DIRTY_TRANSFORM NODE_DIRTY_LAYOUT) ;;;
  mret_ true.

(** The first position of [x]. *)
Fixpoint index_of (x : Z) (l : list Z) : option nat :=
  match l with [] => None | y :: l => if y =? x then Some O else S <$> index_of x l end.
Definition remove_at {A} (i : nat) (l : list A) : list A := take i l ++ drop (S i) l.

Definition node_remove_child (parent child : Z) : M scene unit :=
  if ((parent =? 0) || (child =? 0))%bool then mret_ tt else
  np <-- nd parent ;;
  match index_of child (n_children np) with
  | None => mret_ tt
  | Some i =>
      nc <-- nd child ;;
      mwhen (negb (n_prev nc =? 0)) (upd (n_prev nc) (at_next (n_next nc))) ;;;
      nc <-- nd child ;;
      mwhen (negb (n_next nc =? 0)) (upd (n_next nc) (at_prev (n_prev nc))) ;;;
      upd parent (fun n => at_children (remove_at i (n_children n)) n) ;;;
      upd child (fun n => at_next 0 (at_prev 0 (at_parent 0 n)))
  end.

Definition window_manager_bring_to_front (p : Z) : M scene unit :=
  if p =? 0 then mret_ tt else
  n <-- nd p ;;
  if n_parent n =? 0 then mret_ tt else
  np <-- nd (n_parent n) ;;
  match index_of p (n_children np) with
  | Some i =>
      if (i <? length (n_children np) - 1)%nat then
        upd (n_parent n) (fun m => at_children (remove_at i (n_children m) ++ [p]) m) ;;;
        node_mark_dirty (n_parent n) NODE_DIRTY_PAINT
      else mret_ tt
  | None => mret_ tt
  end.

(** ** Search *)

(** The first call on the list that returns a node. *)
Fixpoint first_found (f : Z -> M scene Z) (l : list Z) : M scene Z :=
  match l with
  | [] => mret_ 0
  | c :: l => r <-- f c ;; if r =? 0 then first_found f l else mret_ r
  end.
Fixpoint find_by_id (fuel : nat) (p id : Z) : M scene Z :=
  match fuel with
  | O => mstop
  | S k =>
      if p =? 0 then mret_ 0 else
      n <-- nd p ;;
      if n_id n =? id then mret_ p else first_found (fun c => find_by_id k c id) (n_children n)
  end.
Definition node_find_by_id (p id : Z) : M scene Z := fun s => find_by_id (tree_fuel s) p id s.

Fixpoint hit_test (fuel : nat) (p x y : Z) : M scene Z :=
  match fuel with
  | O => mstop
  | S k =>
      if p =? 0 then mret_ 0 else
      n <-- nd p ;;
      if negb (n_visible n) then mret_ 0 else
      hit <-- first_found (fun c => hit_test k c x y) (rev (n_children n)) ;;
      if negb (hit =? 0) then mret_ hit else
      mret_ (if (n_interactive n && rect_contains_point (n_bounds n) x y)%bool then p else 0)
  end.
Definition node_hit_test (p x y : Z) : M scene Z := fun s => hit_test (tree_fuel s) p x y s.

(** ** Positions *)

Definition node_set_position (p x y : Z) : M scene unit :=
  if p =? 0 then mret_ tt else
  n <-- nd p ;;
  if ((n_x n =? x) && (n_y n =? y))%bool then mret_ tt else
  upd p (at_xy x y) ;;; node_mark_dirty p NODE_DIRTY_TRANSFORM.
Definition node_set_size (p w h : Z) : M scene unit :=
  if p =? 0 then mret_ tt else
  n <-- nd p ;;
  if ((n_width n =? w) && (n_height n =? h))%bool then mret_ tt else
  upd p (at_size w h) ;;; node_mark_dirty p (Z.lor NODE_DIRTY_LAYOUT NODE_DIRTY_PAINT).

(** ** The passes of a frame, with a stack of 1024 entries *)

Definition STACK_ENTRIES : nat := 1024.
(** [if (top < 1024) stack[top++] = e] for each entry; the head is the top. *)
Definition push_all {A} (es : list A) (stack : list A) : list A :=
  foldl (fun st e => if (length st <? STACK_ENTRIES)%nat then e :: st else st) stack es.

Definition transform_dirty (n : gnode) : bool := negb (Z.land (n_dirty n) NODE_DIRTY_TRANSFORM =? 0).
Definition refreshed (pw : transform) (n : gnode) : gnode :=
  if transform_dirty n then at_dirty (n_dirty n &~ NODE_DIRTY_TRANSFORM) (at_world (transform_concat (transform_translation (n_x n) (n_y n)) pw) n) else n.
Fixpoint update_loop (fuel : nat) (stack : list (Z * transform)) : M scene unit :=
  match stack, fuel with
  | [], _ => mret_ tt
  | _, O => mstop
  | (p, pw) :: rest, S k =>
      if p =? 0 then update_loop k rest else
      upd p (refreshed pw) ;;;
      n <-- nd p ;;
      update_loop k (push_all (map (fun c => (c, n_world n)) (n_children n)) rest)
  end.
Definition node_update_transforms (p : Z) (pw : transform) : M scene unit := fun s =>
  if p =? 0 then Some (tt, s) else update_loop (tree_fuel s) [(p, pw)] s.

(** The bounds a widget records when it is drawn; the canvas has no [draw], and an
    image records none. *)
Definition screen_rect (cam : camera) (n : gnode) : rect :=
  let pt := transform_apply (n_world n) 0 0 in
  rect_make (camera_world_to_screen_x cam pt.1) (camera_world_to_screen_y cam pt.2) (camera_scale cam (n_width n)) (camera_scale cam (n_height n)).
Definition drawn (cam : camera) (n : gnode) : gnode :=
  match n_data n with
  | NoData | ImageData _ _ _ _ _ => n
  | LabelData _ text _ => if text =? 0 then n else at_bounds (screen_rect cam n) n
  | _ => at_bounds (screen_rect cam n) n
  end.
(** The result is the list of the nodes in the order they are drawn. *)
Fixpoint draw_loop (cam : camera) (fuel : nat) (stack : list Z) : M scene (list Z) :=
  match stack, fuel with
  | [], _ => mret_ []
  | _, O => mstop
  | p :: rest, S k =>
      if p =? 0 then draw_loop cam k rest else
      n <-- nd p ;;
      if negb (n_visible n) then draw_loop cam k rest else
      put p (at_dirty (n_dirty n &~ NODE_DIRTY_PAINT) (drawn cam n)) ;;;
      ps <-- draw_loop cam k (push_all (rev (n_children n)) rest) ;;
      mret_ (p :: ps)
  end.
Definition node_draw_recursive (cam : camera) (p : Z) : M scene (list Z) := fun s =>
  if p =? 0 then Some ([], s) else
  match store s !! p with
  | Some n => if n_visible n then draw_loop cam (tree_fuel s) [p] s else Some ([], s)
  | None => None
  end.

(** ** Widgets *)

(** A copy of [s] on the heap. *)
Definition g_strdup (s : list Z) : M scene Z := g_kmalloc (Z.of_nat (length s) + 1).
Definition widget (type : Z) (name : list Z) (x y w h : Z) (data : M scene payload) : M scene Z :=
  p <-- node_create type name ;;
  d <-- data ;;
  upd p (fun n => at_size w h (at_xy x y (at_data d n))) ;;;
  mret_ p.
Definition label_create (name : list Z) (x y : Z) (text : list Z) : M scene Z :=
  widget NODE_LABEL name x y (s32 (Z.of_nat (length text) * 8)) 16 (d <-- g_kmalloc 24 ;; t <-- g_strdup text ;; mret_ (LabelData d t text)).
Definition button_create (name : list Z) (x y w h : Z) (text : list Z) : M scene Z :=
  widget NODE_BUTTON name x y w h (d <-- g_kmalloc 72 ;; t <-- g_strdup text ;; mret_ (ButtonData d t text)).
Definition panel_create (name : list Z) (x y w h : Z) : M scene Z :=
  widget NODE_PANEL name x y w h (d <-- g_kmalloc 16 ;; mret_ (PanelData d)).
Definition window_node_create (name : list Z) (x y w h : Z) (title : list Z) : M scene Z :=
  widget NODE_WINDOW name x y w h (d <-- g_kmalloc 96 ;; t <-- g_strdup title ;; mret_ (WindowData d t title 0)).
Definition image_node_create (name : list Z) (w h : Z) (pixels : list Z) : M scene Z :=
  widget NODE_IMAGE name 0 0 w h (d <-- g_kmalloc 16 ;; b <-- g_kmalloc (u64 (s32 (s32 (w * h) * 4))) ;; mret_ (ImageData d b w h pixels)).
Definition window_node_set_pid (p pid : Z) : M scene unit :=
  n <-- nd p ;;
  match n_data n with
  | WindowData d t s _ => if n_type n =? NODE_WINDOW then put p (at_data (WindowData d t s pid) n) else mret_ tt
  | _ => mret_ tt
  end.

(** The close button: [WIN_CLOSE] at the window manager (the focus is left out). *)
Definition window_close (p : Z) : M scene unit :=
  if p =? 0 then mret_ tt else
  n <-- nd p ;;
  mwhen (negb (n_parent n =? 0)) (node_mark_dirty (n_parent n) NODE_DIRTY_PAINT ;;; node_remove_child (n_parent n) p) ;;;
  node_destroy p.
