(* ===== verification/SceneTree.v ===== *)
(** * Forests of nodes

    The links of the scene graph as a map from addresses to parent and children,
    the forest invariant on it, and what adding, moving and removing subtrees do to
    it.  [height g k p]: the subtree of [p] has at most [k] levels. *)

From Stdlib Require Import ZArith Lia.
From stdpp Require Import base numbers list gmap.
From S2P Require Import Prelude.

Abbreviation shape := (gmap Z (Z * list Z)).

Definition kids (g : shape) (p : Z) : list Z := default [] (snd <$> g !! p).

Fixpoint height (g : shape) (k : nat) (p : Z) : Prop :=
  match k with
  | O => False
  | S k => exists par l, g !! p = Some (par, l) /\ Forall (height g k) l
  end.

(** The nodes of a subtree, parents before children. *)
Fixpoint preorder (g : shape) (k : nat) (p : Z) : list Z :=
  match k with O => [] | S k => p :: (kids g p ≫= preorder g k) end.

Inductive below (g : shape) (p : Z) : Z -> Prop :=
| below_refl : below g p p
| below_step q c : below g p q -> c ∈ kids g q -> below g p c.

Record forest (g : shape) : Prop := {
  fo_null : g !! 0 = None;
  fo_height : forall p, is_Some (g !! p) -> exists k, height g k p;
  fo_child : forall p par l c, g !! p = Some (par, l) -> c ∈ l -> exists lc, g !! c = Some (p, lc);
  fo_parent : forall c q lc, g !! c = Some (q, lc) -> q <> 0 -> exists par l, g !! q = Some (par, l) /\ c ∈ l;
  fo_nodup : forall p par l, g !! p = Some (par, l) -> NoDup l;
  fo_room : forall p par l, g !! p = Some (par, l) -> (length l <= 64)%nat
}.

(** ** Heights *)

Lemma kids_some g p par l : g !! p = Some (par, l) -> kids g p = l.
Proof. unfold kids. by intros ->. Qed.
Lemma kids_elem g p c : c ∈ kids g p -> exists par l, g !! p = Some (par, l) /\ c ∈ l.
Proof. unfold kids. destruct (g !! p) as [[par l]|]; cbn; [by exists par, l|intros H; by apply elem_of_nil in H]. Qed.

Lemma height_live g k p : height g k p -> is_Some (g !! p).
Proof. destruct k; [done|]. intros (par & l & -> & _). done. Qed.
Lemma height_S g k p : height g k p -> height g (S k) p.
Proof.
  revert p. induction k as [|k IH]; [done|]. intros p (par & l & E & H). exists par, l. split; [done|].
  eapply Forall_impl; [exact H|]. exact IH.
Qed.
Lemma height_mono g k k' p : (k <= k')%nat -> height g k p -> height g k' p.
Proof. intros Hk H. induction Hk as [|k' _ IH]; [done|by apply height_S]. Qed.
Lemma height_kid g k p c : height g (S k) p -> c ∈ kids g p -> height g k c.
Proof. intros (par & l & E & H). rewrite (kids_some _ _ _ _ E). intros Hc. rewrite Forall_forall in H. by apply H. Qed.
Lemma height_below g k p q : height g k p -> below g p q -> height g k q.
Proof.
  intros H Hb. induction Hb as [|q c _ IH Hc]; [done|]. destruct k; [done|]. apply height_S. by apply (height_kid g k q c).
Qed.
Lemma below_trans g p q r : below g p q -> below g q r -> below g p r.
Proof. intros H1 H2. induction H2 as [|q' c _ IH Hc]; [done|]. by eapply below_step. Qed.
Lemma below_kid g p c q : c ∈ kids g p -> below g c q -> below g p q.
Proof. intros Hc. apply below_trans. eapply below_step; [apply below_refl|done]. Qed.

(** No node lies below one of its children. *)
Lemma height_no_loop g k p c : height g k p -> c ∈ kids g p -> below g c p -> False.
Proof.
  revert p c. induction k as [|k IH]; [done|]. intros p c H Hc Hb. apply (IH p c); [|done|done].
  eapply height_below; [|exact Hb]. by eapply height_kid.
Qed.

Lemma below_agree g g' p : (forall q, below g p q -> g' !! q = g !! q) -> forall q, below g p q -> below g' p q.
Proof.
  intros H q Hb. induction Hb as [|q c Hq IH Hc]; [apply below_refl|]. eapply below_step; [exact IH|]. unfold kids. by rewrite H.
Qed.
Lemma height_agree g g' k p : (forall q, below g p q -> g' !! q = g !! q) -> height g k p -> height g' k p.
Proof.
  revert p. induction k as [|k IH]; [done|]. intros p H (par & l & E & Hl). exists par, l. split; [rewrite H; [done|apply below_refl]|].
  apply Forall_forall. intros c Hc. rewrite Forall_forall in Hl. apply IH; [|by apply Hl]. intros q Hq. apply H.
  eapply below_kid; [|exact Hq]. by rewrite (kids_some _ _ _ _ E).
Qed.
Lemma preorder_agree g g' k p : (forall q, below g p q -> g' !! q = g !! q) -> preorder g' k p = preorder g k p.
Proof.
  revert p. induction k as [|k IH]; intros p H; [done|]. cbn [preorder]. f_equal. unfold kids at 1. rewrite H by apply below_refl. fold (kids g p).
  assert (Hk : forall c, c ∈ kids g p -> preorder g' k c = preorder g k c) by (intros c Hc; apply IH; intros q Hq; apply H; by eapply below_kid).
  clear H. revert Hk. generalize (kids g p) as l. induction l as [|c l IHl]; intros Hk; [done|]. cbn. rewrite Hk by by left. f_equal. apply IHl. intros; apply Hk. by right.
Qed.

(** A tree has at most as many levels as there are nodes. *)
Lemma height_size g k p : height g k p -> height g (size g) p.
Proof.
  revert g p. induction k as [|k IH]; [done|]. intros g p H. pose proof H as (par & l & E & Hl). set (g' := delete p g).
  assert (Hs : size g = S (size g')) by (rewrite <- (insert_delete_id g p _ E); apply map_size_insert_None, lookup_delete_eq).
  rewrite Hs. exists par, l. split; [done|]. rewrite Forall_forall in *. intros c Hc.
  assert (Hk : c ∈ kids g p) by by rewrite (kids_some _ _ _ _ E).
  assert (H1 : height g' k c).
  { apply (height_agree g); [|by apply Hl]. intros q Hq. apply lookup_delete_ne. intros <-. by apply (height_no_loop g (S k) p c). }
  apply IH in H1. eapply height_agree; [|exact H1]. intros q Hq. pose proof (height_below _ _ _ _ H1 Hq) as Hq'. apply height_live in Hq' as [x Hx].
  apply lookup_delete_Some in Hx as [Hne _]. unfold g'. by rewrite lookup_delete_ne.
Qed.

(** ** Subtrees *)

Lemma elem_of_preorder g k p q : height g k p -> q ∈ preorder g k p <-> below g p q.
Proof.
  revert p. induction k as [|k IH]; [done|]. intros p H. cbn [preorder]. rewrite elem_of_cons, list_elem_of_bind. split.
  - intros [->|(c & Hq & Hc)]; [apply below_refl|]. apply IH in Hq; [|by eapply height_kid]. by eapply below_kid.
  - intros Hb. assert (Hcases : q = p \/ exists c, c ∈ kids g p /\ below g c q).
    { clear -Hb. induction Hb as [|q c Hq IH Hc]; [by left|]. right. destruct IH as [->|(c' & Hc' & Hb')]; [exists c; split; [done|apply below_refl]|].
      exists c'. split; [done|]. by eapply below_step. }
    destruct Hcases as [->|(c & Hc & Hcb)]; [by left|right]. exists c. split; [|done]. apply IH; [by eapply height_kid|done].
Qed.

Section Forest.
Context (g : shape) (F : forest g).

Lemma forest_height p : is_Some (g !! p) -> height g (size g) p.
Proof. intros H. destruct (fo_height g F p H) as [k Hk]. by eapply height_size. Qed.

Lemma forest_kid p c : c ∈ kids g p -> exists lc, g !! c = Some (p, lc).
Proof. intros (par & l & E & Hc)%kids_elem. by eapply fo_child. Qed.

Lemma below_live p q : is_Some (g !! p) -> below g p q -> is_Some (g !! q).
Proof. intros Hp [|q' c Hq Hc]; [done|]. destruct (forest_kid _ _ Hc) as [lc ->]. done. Qed.

Lemma nonnull p : is_Some (g !! p) -> p <> 0.
Proof. intros [x H] ->. by rewrite (fo_null g F) in H. Qed.

Lemma below_up c q : below g c q -> q <> c -> exists r, below g c r /\ q ∈ kids g r.
Proof. intros [|q' c' Hq Hc] Hne; [done|]. by exists q'. Qed.

(** Subtrees of different children of a node are disjoint. *)
Lemma siblings_disjoint p c1 c2 q : c1 ∈ kids g p -> c2 ∈ kids g p -> below g c1 q -> below g c2 q -> c1 = c2.
Proof.
  intros H1 H2 Hb1. assert (Hp : height g (size g) p) by (apply forest_height; destruct (kids_elem _ _ _ H1) as (par & l & -> & _); done).
  induction Hb1 as [|r q Hr IH Hq]; intros Hb2.
  - destruct (decide (c1 = c2)) as [|Hne]; [done|]. destruct (below_up _ _ Hb2 Hne) as (r & Hr & Hc).
    destruct (forest_kid _ _ H1) as [l1 E1]. destruct (forest_kid _ _ Hc) as [l2 E2]. rewrite E1 in E2. injection E2 as <- _.
    destruct (height_no_loop g _ p c2 Hp H2 Hr).
  - destruct (decide (q = c2)) as [->|Hne].
    + destruct (forest_kid _ _ H2) as [l1 E1]. destruct (forest_kid _ _ Hq) as [l2 E2]. rewrite E1 in E2. injection E2 as <- _.
      destruct (height_no_loop g _ p c1 Hp H1 Hr).
    + destruct (below_up _ _ Hb2 Hne) as (r' & Hr' & Hq'). destruct (forest_kid _ _ Hq) as [l1 E1]. destruct (forest_kid _ _ Hq') as [l2 E2].
      rewrite E1 in E2. injection E2 as <- _. by apply IH.
Qed.

Lemma NoDup_preorder k p : height g k p -> NoDup (preorder g k p).
Proof.
  revert p. induction k as [|k IH]; [done|]. intros p H. cbn [preorder]. constructor.
  - rewrite list_elem_of_bind. intros (c & Hq & Hc). apply elem_of_preorder in Hq; [|by eapply height_kid]. by eapply height_no_loop.
  - apply NoDup_bind.
    + intros c1 c2 q H1 H2 Q1 Q2. rewrite elem_of_preorder in Q1, Q2 by by eapply height_kid. by eapply siblings_disjoint.
    + intros c Hc. apply IH. by eapply height_kid.
    + destruct H as (par & l & E & _). rewrite (kids_some _ _ _ _ E). by eapply fo_nodup.
Qed.

Lemma length_preorder k p : height g k p -> (length (preorder g k p) <= size g)%nat.
Proof.
  intros H. rewrite <- size_dom. rewrite <- (size_list_to_set (C := gset Z)) by by apply NoDup_preorder.
  apply subseteq_size. intros q Hq%elem_of_list_to_set. apply elem_of_preorder in Hq; [|done].
  apply elem_of_dom. eapply below_live; [|exact Hq]. by eapply height_live.
Qed.
End Forest.

(** ** Changing the forest *)

Lemma height_sub g g' k p :
  (forall q par l, g !! q = Some (par, l) -> exists par' l', g' !! q = Some (par', l') /\ forall c, c ∈ l' -> c ∈ l) ->
  height g k p -> height g' k p.
Proof.
  intros H. revert p. induction k as [|k IH]; [done|]. intros p (par & l & E & Hl). destruct (H _ _ _ E) as (par' & l' & E' & Hs).
  exists par', l'. split; [done|]. rewrite Forall_forall in *. intros c Hc. by apply IH, Hl, Hs.
Qed.

(** A new node on its own. *)
Lemma forest_leaf g p : forest g -> g !! p = None -> p <> 0 -> forest (<[p := (0, [])]> g).
Proof.
  intros F Hn H0. assert (Hkid : forall q par l, g !! q = Some (par, l) -> p ∉ l).
  { intros q par l E Hp. destruct (fo_child g F q par l p E Hp) as [lc E']. by rewrite Hn in E'. }
  constructor.
  - rewrite lookup_insert_ne by done. apply (fo_null g F).
  - intros q Hq. destruct (decide (q = p)) as [->|Hne]; [exists 1%nat, 0, []; by rewrite lookup_insert_eq|].
    rewrite lookup_insert_ne in Hq by done. destruct (fo_height g F q Hq) as [k Hk]. exists k. eapply height_sub; [|exact Hk].
    intros r par l E. exists par, l. rewrite lookup_insert_ne; [done|]. intros ->. by rewrite Hn in E.
  - intros q par l c. destruct (decide (q = p)) as [->|Hne]; [rewrite lookup_insert_eq; intros [= <- <-] Hc; by apply elem_of_nil in Hc|].
    rewrite lookup_insert_ne by done. intros E Hc. destruct (fo_child g F _ _ _ _ E Hc) as [lc Ec]. exists lc. rewrite lookup_insert_ne; [done|]. intros ->. by rewrite Hn in Ec.
  - intros c q lc. destruct (decide (c = p)) as [->|Hne]; [rewrite lookup_insert_eq; by intros [= <- <-]|]. rewrite lookup_insert_ne by done.
    intros E Hq. destruct (fo_parent g F _ _ _ E Hq) as (par & l & Eq & Hc). exists par, l. rewrite lookup_insert_ne; [done|]. intros ->. by rewrite Hn in Eq.
  - intros q par l. destruct (decide (q = p)) as [->|Hne]; [rewrite lookup_insert_eq; intros [= <- <-]; constructor|]. rewrite lookup_insert_ne by done. apply (fo_nodup g F).
  - intros q par l. destruct (decide (q = p)) as [->|Hne]; [rewrite lookup_insert_eq; intros [= <- <-]; simpl; lia|]. rewrite lookup_insert_ne by done. apply (fo_room g F).
Qed.

(** The same nodes with the children of [p] replaced. *)
Definition with_kids (p : Z) (l : list Z) (g : shape) : shape := alter (fun '(par, _) => (par, l)) p g.
Definition with_parent (c p : Z) (g : shape) : shape := alter (fun '(_, l) => (p, l)) c g.

Lemma lookup_with_kids p l g q : with_kids p l g !! q = (fun '(par, l0) => (par, if decide (q = p) then l else l0)) <$> g !! q.
Proof. unfold with_kids. destruct (decide (q = p)) as [->|Hne]; [rewrite lookup_alter_eq|rewrite lookup_alter_ne by done]; by destruct (g !! _) as [[]|]. Qed.
Lemma lookup_with_parent c p g q : with_parent c p g !! q = (fun '(par, l0) => (if decide (q = c) then p else par, l0)) <$> g !! q.
Proof. unfold with_parent. destruct (decide (q = c)) as [->|Hne]; [rewrite lookup_alter_eq|rewrite lookup_alter_ne by done]; by destruct (g !! _) as [[]|]. Qed.

Lemma forest_reorder g p pp l l' : forest g -> g !! p = Some (pp, l) -> l' ≡ₚ l -> forest (with_kids p l' g).
Proof.
  intros F Ep Hl. constructor.
  - rewrite lookup_with_kids, (fo_null g F). done.
  - intros q. rewrite lookup_with_kids, fmap_is_Some. intros Hq. destruct (fo_height g F q Hq) as [k Hk]. exists k. eapply height_sub; [|exact Hk].
    intros r par lr E. rewrite lookup_with_kids, E. cbn. eexists _, _. split; [done|]. intros c. destruct (decide (r = p)) as [->|]; [|done]. rewrite Ep in E. injection E as <- <-. by rewrite Hl.
  - intros q par lq c. rewrite lookup_with_kids. destruct (g !! q) as [[par0 l0]|] eqn:E; [|done]. cbn. intros [= <- <-] Hc.
    assert (Hc' : c ∈ l0) by (destruct (decide (q = p)) as [->|]; [rewrite Ep in E; injection E as <- <-; by rewrite <- Hl|done]).
    destruct (fo_child g F _ _ _ _ E Hc') as [lc Ec]. rewrite lookup_with_kids, Ec. cbn. eexists. done.
  - intros c q lc. rewrite lookup_with_kids. destruct (g !! c) as [[par0 l0]|] eqn:E; [|done]. cbn. intros [= <- <-] Hq.
    destruct (fo_parent g F _ _ _ E Hq) as (par & lq & Eq & Hc). rewrite lookup_with_kids, Eq. cbn. eexists _, _. split; [done|].
    destruct (decide (par0 = p)) as [->|]; [|done]. rewrite Ep in Eq. injection Eq as <- <-. by rewrite Hl.
  - intros q par lq. rewrite lookup_with_kids. destruct (g !! q) as [[par0 l0]|] eqn:E; [|done]. cbn. intros [= <- <-].
    destruct (decide (q = p)) as [->|]; [rewrite Hl; by eapply fo_nodup|by eapply fo_nodup].
  - intros q par lq. rewrite lookup_with_kids. destruct (g !! q) as [[par0 l0]|] eqn:E; [|done]. cbn. intros [= <- <-].
    destruct (decide (q = p)) as [->|]; [rewrite Hl; by eapply fo_room|by eapply fo_room].
Qed.

(** [c] hung below [p]. *)
Definition graft (p c : Z) (l : list Z) (g : shape) : shape := with_kids p (l ++ [c]) (with_parent c p g).

Lemma lookup_graft p c l g q : graft p c l g !! q
  = (fun '(par, l0) => (if decide (q = c) then p else par, if decide (q = p) then l ++ [c] else l0)) <$> g !! q.
Proof. unfold graft. rewrite lookup_with_kids, lookup_with_parent. by destruct (g !! q) as [[]|]. Qed.

Lemma forest_graft g p c pp l lc k : forest g -> g !! p = Some (pp, l) -> g !! c = Some (0, lc) -> (length l < 64)%nat ->
  height (graft p c l g) k c -> forest (graft p c l g).
Proof.
  intros F Ep Ec Hlen Hk. assert (Hp0 : p <> 0) by (apply (nonnull g F); by rewrite Ep).
  assert (Hcl : c ∉ l) by (intros Hc; destruct (fo_child g F _ _ _ _ Ep Hc) as [lc' E']; rewrite Ec in E'; by injection E').
  constructor.
  - rewrite lookup_graft, (fo_null g F). done.
  - intros q. rewrite lookup_graft, fmap_is_Some. intros Hq. destruct (fo_height g F q Hq) as [kq Hkq]. exists (kq + k)%nat. clear Hq.
    revert q Hkq. induction kq as [|kq IH]; [done|]. intros q (par & lq & E & Hq). cbn [height Nat.add]. rewrite lookup_graft, E. cbn.
    eexists _, _. split; [done|]. assert (Hlq : Forall (height (graft p c l g) (kq + k)) lq) by (eapply Forall_impl; [exact Hq|exact IH]).
    destruct (decide (q = p)) as [->|]; [|done]. rewrite Ep in E. injection E as <- <-. apply Forall_app_2; [done|]. constructor; [|done]. eapply height_mono; [|exact Hk]. lia.
  - intros q par lq x. rewrite lookup_graft. destruct (g !! q) as [[par0 l0]|] eqn:E; [|done]. cbn. intros [= <- <-] Hx. rewrite lookup_graft.
    assert (Hx' : (q = p /\ x = c) \/ x ∈ l0).
    { destruct (decide (q = p)) as [->|]; [|by right]. rewrite Ep in E. injection E as <- <-. apply elem_of_app in Hx as [Hx|Hx%list_elem_of_singleton]; [by right|by left]. }
    destruct Hx' as [[-> ->]|Hx']; [rewrite Ec; cbn; rewrite decide_True by done; eexists; done|].
    destruct (fo_child g F _ _ _ _ E Hx') as [lx Ex]. rewrite Ex. cbn. rewrite decide_False; [eexists; done|]. intros ->. rewrite Ec in Ex. injection Ex as <- _. by rewrite (fo_null g F) in E.
  - intros x q lx. rewrite lookup_graft. destruct (g !! x) as [[par0 l0]|] eqn:E; [|done]. cbn. destruct (decide (x = c)) as [->|Hne].
    + intros [= <- <-] _. rewrite lookup_graft, Ep. cbn. rewrite (decide_True (P := p = p)) by done. eexists _, _. split; [done|]. apply elem_of_app. right. by left.
    + intros [= <- <-] Hq. destruct (fo_parent g F _ _ _ E Hq) as (par & lq & Eq & Hx). rewrite lookup_graft, Eq. cbn. eexists _, _. split; [done|].
      destruct (decide (par0 = p)) as [->|]; [|done]. rewrite Ep in Eq. injection Eq as <- <-. apply elem_of_app. by left.
  - intros q par lq. rewrite lookup_graft. destruct (g !! q) as [[par0 l0]|] eqn:E; [|done]. cbn. intros [= <- <-]. pose proof (fo_nodup g F _ _ _ E) as Hn.
    destruct (decide (q = p)) as [->|]; [|done]. rewrite Ep in E. injection E as <- <-. apply NoDup_app. split_and!; [done| |apply NoDup_singleton].
    intros x Hx Hx'%list_elem_of_singleton. by subst.
  - intros q par lq. rewrite lookup_graft. destruct (g !! q) as [[par0 l0]|] eqn:E; [|done]. cbn. intros [= <- <-]. pose proof (fo_room g F _ _ _ E) as Hn.
    destruct (decide (q = p)) as [->|]; [|done]. rewrite Ep in E. injection E as <- <-. rewrite length_app. simpl. lia.
Qed.

(** [c] taken out of the children of [p]. *)
Definition prune (p c : Z) (l : list Z) (g : shape) : shape := with_parent c 0 (with_kids p l g).

Lemma lookup_prune p c l g q : prune p c l g !! q
  = (fun '(par, l0) => (if decide (q = c) then 0 else par, if decide (q = p) then l else l0)) <$> g !! q.
Proof. unfold prune. rewrite lookup_with_parent, lookup_with_kids. by destruct (g !! q) as [[]|]. Qed.

Lemma forest_prune g p c pp l l' : forest g -> g !! p = Some (pp, l) -> c :: l' ≡ₚ l -> forest (prune p c l' g).
Proof.
  intros F Ep Hl. pose proof (fo_nodup g F _ _ _ Ep) as Hnd. rewrite <- Hl in Hnd. apply NoDup_cons in Hnd as [Hcl Hnd].
  assert (Hsub : forall x, x ∈ l' -> x ∈ l) by (intros x Hx; rewrite <- Hl; by right).
  assert (Hc : c ∈ l) by (rewrite <- Hl; by left).
  constructor.
  - rewrite lookup_prune, (fo_null g F). done.
  - intros q. rewrite lookup_prune, fmap_is_Some. intros Hq. destruct (fo_height g F q Hq) as [k Hk]. exists k. eapply height_sub; [|exact Hk].
    intros r par lr E. rewrite lookup_prune, E. cbn. eexists _, _. split; [done|]. intros x. destruct (decide (r = p)) as [->|]; [|done]. rewrite Ep in E. injection E as <- <-. apply Hsub.
  - intros q par lq x. rewrite lookup_prune. destruct (g !! q) as [[par0 l0]|] eqn:E; [|done]. cbn. intros [= <- <-] Hx.
    assert (Hx' : x ∈ l0 /\ x <> c).
    { destruct (decide (q = p)) as [->|Hne]; [rewrite Ep in E; injection E as <- <-; split; [by apply Hsub|by intros ->]|]. split; [done|]. intros ->.
      destruct (fo_child g F _ _ _ _ E Hx) as [l1 E1]. destruct (fo_child g F _ _ _ _ Ep Hc) as [l2 E2]. rewrite E1 in E2. by injection E2. }
    destruct Hx' as [Hx1 Hx2]. destruct (fo_child g F _ _ _ _ E Hx1) as [lx Ex]. rewrite lookup_prune, Ex. cbn. rewrite decide_False by done. eexists. done.
  - intros x q lx. rewrite lookup_prune. destruct (g !! x) as [[par0 l0]|] eqn:E; [|done]. cbn. destruct (decide (x = c)) as [->|Hne]; [by intros [= <- <-]|].
    intros [= <- <-] Hq. destruct (fo_parent g F _ _ _ E Hq) as (par & lq & Eq & Hx). rewrite lookup_prune, Eq. cbn. eexists _, _. split; [done|].
    destruct (decide (par0 = p)) as [->|]; [|done]. rewrite Ep in Eq. injection Eq as <- <-. rewrite <- Hl in Hx. by apply elem_of_cons in Hx as [->|].
  - intros q par lq. rewrite lookup_prune. destruct (g !! q) as [[par0 l0]|] eqn:E; [|done]. cbn. intros [= <- <-].
    destruct (decide (q = p)); [done|by eapply fo_nodup].
  - intros q par lq. rewrite lookup_prune. destruct (g !! q) as [[par0 l0]|] eqn:E; [|done]. cbn. intros [= <- <-]. pose proof (fo_room g F _ _ _ E) as Hr.
    destruct (decide (q = p)) as [->|]; [|done]. rewrite Ep in E. injection E as <- <-. rewrite <- Hl in Hr. simpl in Hr. lia.
Qed.

(** A whole tree gone. *)
Lemma forest_cut g g' p l : forest g -> g !! p = Some (0, l) ->
  (forall q, below g p q -> g' !! q = None) -> (forall q, ~ below g p q -> g' !! q = g !! q) -> forest g'.
Proof.
  intros F Ep Hin Hout.
  assert (Hs : forall q x, g' !! q = Some x -> g !! q = Some x /\ ~ below g p q).
  { intros q x E. assert (Hb : ~ below g p q) by (intros Hb; by rewrite Hin in E). by rewrite <- Hout. }
  assert (Hkid : forall q c, is_Some (g !! q) -> c ∈ kids g q -> ~ below g p q -> ~ below g p c).
  { intros q c Hq Hc Hnb Hb. destruct (forest_kid g F _ _ Hc) as [lc Elc]. destruct (decide (c = p)) as [->|Hne].
    - rewrite Ep in Elc. injection Elc as <- _. by apply (nonnull g F 0).
    - destruct (below_up g _ _ Hb Hne) as (r & Hr & Hcr). destruct (forest_kid g F _ _ Hcr) as [lr Elr]. rewrite Elc in Elr. injection Elr as -> _. done. }
  constructor.
  - destruct (g' !! 0) eqn:E; [|done]. destruct (Hs _ _ E) as [E' _]. by rewrite (fo_null g F) in E'.
  - intros q [x E]. destruct (Hs _ _ E) as [E' Hb]. destruct (fo_height g F q) as [k Hk]; [by rewrite E'|]. exists k. clear x E E'.
    revert q Hk Hb. induction k as [|k IH]; [done|]. intros q (par & lq & E & Hq) Hb. exists par, lq. rewrite Hout by done. split; [done|].
    rewrite Forall_forall in *. intros c Hc. apply IH; [by apply Hq|]. apply (Hkid q c); [by rewrite E|by rewrite (kids_some _ _ _ _ E)|done].
  - intros q par lq c E Hc. destruct (Hs _ _ E) as [E' Hb]. destruct (fo_child g F _ _ _ _ E' Hc) as [lc Elc]. exists lc. rewrite Hout; [done|].
    apply (Hkid q c); [by rewrite E'|by rewrite (kids_some _ _ _ _ E')|done].
  - intros c q lc E Hq. destruct (Hs _ _ E) as [E' Hb]. destruct (fo_parent g F _ _ _ E' Hq) as (par & lq & Eq & Hc). exists par, lq. split; [|done]. rewrite Hout; [done|].
    intros Hbq. apply Hb. eapply below_step; [exact Hbq|]. by rewrite (kids_some _ _ _ _ Eq).
  - intros q par lq E. destruct (Hs _ _ E) as [E' _]. by eapply fo_nodup.
  - intros q par lq E. destruct (Hs _ _ E) as [E' _]. by eapply fo_room.
Qed.
