(* ===== verification/SceneInv.v ===== *)
(** * The scene graph stays a forest on the heap

    Every call that returns leaves a forest of live nodes, each in blocks of its
    own.  A call is described by what it does to the links ([shape_of]) and to the
    widget data ([data_of]). *)

From Stdlib Require Import ZArith Lia.
From stdpp Require Import base numbers list gmap.
From S2P Require Import Prelude Kheap Geom Scene SceneTree.

Definition links (n : gnode) : Z * list Z := (n_parent n, n_children n).
Definition shape_of (m : gmap Z gnode) : shape := links <$> m.
Definition data_of (m : gmap Z gnode) : gmap Z payload := n_data <$> m.

(** The heap blocks of a node, by their headers. *)
Definition text_block (t : Z) : list Z := if t =? 0 then [] else [t - HEADER_SIZE].
Definition payload_blocks (d : payload) : list Z :=
  match d with
  | NoData => []
  | LabelData a t _ | ButtonData a t _ | WindowData a t _ _ | ImageData a t _ _ _ => text_block t ++ [a - HEADER_SIZE]
  | PanelData a => [a - HEADER_SIZE]
  end.
Definition node_blocks (x : Z * payload) : list Z := x.1 - HEADER_SIZE :: payload_blocks x.2.
Definition blocks (d : gmap Z payload) : list Z := map_to_list d ≫= node_blocks.

Record scene_inv (s : scene) : Prop := {
  sc_forest : forest (shape_of (store s));
  sc_heap : exists free rest, heap_inv (gheap s) free (blocks (data_of (store s)) ++ rest)
}.

(** ** Single updates *)

Lemma shape_lookup m p n : m !! p = Some n -> shape_of m !! p = Some (n_parent n, n_children n).
Proof. intros E. unfold shape_of. by rewrite lookup_fmap, E. Qed.
Lemma shape_inv m p par l : shape_of m !! p = Some (par, l) -> exists n, m !! p = Some n /\ n_parent n = par /\ n_children n = l.
Proof. unfold shape_of. rewrite lookup_fmap. destruct (m !! p) as [n|]; [|done]. intros [= <- <-]. by exists n. Qed.

Lemma fmap_put_same {A} (f : gnode -> A) (m : gmap Z gnode) p n n' : m !! p = Some n -> f n' = f n -> f <$> (<[p := n']> m) = f <$> m.
Proof. intros E Hf. rewrite fmap_insert, Hf. apply insert_id. by rewrite lookup_fmap, E. Qed.

Lemma upd_run p f s n : store s !! p = Some n -> upd p f s = Some (tt, set_store (<[p := f n]> (store s)) s).
Proof. intros E. unfold upd, mbind_, nd. by rewrite E. Qed.
Lemma upd_inv p f s u s' : upd p f s = Some (u, s') -> exists n, store s !! p = Some n /\ s' = set_store (<[p := f n]> (store s)) s.
Proof. unfold upd, mbind_, nd. destruct (store s !! p) as [n|]; [|done]. intros [= _ <-]. by exists n. Qed.
Lemma nd_inv p s n s' : nd p s = Some (n, s') -> store s !! p = Some n /\ s' = s.
Proof. unfold nd. destruct (store s !! p); [|done]. by intros [= -> <-]. Qed.

(** Only flags, positions and the like change. *)
Record kept (s s' : scene) : Prop := {
  kp_shape : shape_of (store s') = shape_of (store s);
  kp_data : data_of (store s') = data_of (store s);
  kp_heap : gheap s' = gheap s;
  kp_graph : g_scene s' = g_scene s
}.
#[export] Instance kept_refl : Reflexive kept.
Proof. by constructor. Qed.
#[export] Instance kept_trans : Transitive kept.
Proof. intros a b c [? ? ? ?] [? ? ? ?]. constructor; congruence. Qed.

Lemma kept_inv s s' : kept s s' -> scene_inv s -> scene_inv s'.
Proof. intros [E1 E2 E3 _] [F H]. constructor; [by rewrite E1|by rewrite E2, E3]. Qed.

Definition plain (f : gnode -> gnode) : Prop := forall n, links (f n) = links n /\ n_data (f n) = n_data n.
Lemma kept_put s p n n' : store s !! p = Some n -> links n' = links n -> n_data n' = n_data n -> kept s (set_store (<[p := n']> (store s)) s).
Proof. intros E H1 H2. constructor; cbn [store set_store gheap g_scene]; [by apply (fmap_put_same links _ p n)|by apply (fmap_put_same n_data _ p n)|done|done]. Qed.
Lemma kept_upd p f s u s' : plain f -> upd p f s = Some (u, s') -> kept s s'.
Proof. intros Hf (n & E & ->)%upd_inv. destruct (Hf n). by eapply kept_put. Qed.

Lemma meach_kept (f : Z -> M scene unit) l s u s' :
  (forall c s u s', f c s = Some (u, s') -> kept s s') -> meach f l s = Some (u, s') -> kept s s'.
Proof.
  intros Hf. revert s. induction l as [|c l IH]; intros s; cbn [meach]; [by intros [= _ <-]|]. intros H. minv H as a s1 E.
  etransitivity; [by eapply Hf|by apply IH].
Qed.
Lemma mwhen_kept (b : bool) (m : M scene unit) s u s' : (m s = Some (u, s') -> kept s s') -> mwhen b m s = Some (u, s') -> kept s s'.
Proof. intros Hm. destruct b; cbn; [done|by intros [= _ <-]]. Qed.

Lemma mark_dirty_kept k p fl s u s' : mark_dirty k p fl s = Some (u, s') -> kept s s'.
Proof.
  revert p fl s u s'. induction k as [|k IH]; intros p fl s u s'; cbn [mark_dirty]; [done|]. destruct (p =? 0); [by intros [= _ <-]|]. intros H.
  minv H as a s1 E. minv H as n s2 E2. apply nd_inv in E2 as [_ ->]. transitivity s1; [eapply kept_upd; [|exact E]; intros ?; by split|].
  apply mwhen_kept in H; [done|]. apply meach_kept. intros c t v t'. apply IH.
Qed.

(** [mark_dirty] returns on a tree, and only there. *)
Lemma mark_dirty_height k p fl s u s' : (forall q c, c ∈ kids (shape_of (store s)) q -> c <> 0) -> p <> 0 ->
  Z.land fl NODE_DIRTY_TRANSFORM <> 0 -> mark_dirty k p fl s = Some (u, s') -> height (shape_of (store s)) k p.
Proof.
  revert p fl s u s'. induction k as [|k IH]; intros p fl s u s' H0 Hp Hfl; cbn [mark_dirty]; [done|].
  rewrite (proj2 (Z.eqb_neq p 0) Hp). intros H. minv H as a s1 E. minv H as n s2 E2. apply nd_inv in E2 as [En ->].
  assert (K : kept s s1) by (eapply kept_upd; [|exact E]; intros ?; by split). rewrite <- (kp_shape _ _ K) in *. cbn [height]. exists (n_parent n), (n_children n). split; [by apply shape_lookup|].
  rewrite (proj2 (Z.eqb_neq _ 0) Hfl) in H. cbn [negb mwhen] in H. assert (Hnz : forall c, c ∈ n_children n -> c <> 0).
  { intros c Hc. apply (H0 p). rewrite (kids_some _ _ _ _ (shape_lookup _ _ _ En)). done. }
  clear En E. clear K. revert s1 u s' H H0 Hnz. induction (n_children n) as [|c l IHl]; intros s1 u s' H H0 Hnz; [constructor|]. cbn [meach] in H.
  minv H as b s3 E3. pose proof (mark_dirty_kept _ _ _ _ _ _ E3) as K3. constructor.
  - eapply (IH c NODE_DIRTY_TRANSFORM); [done| |done|exact E3]. apply Hnz. by left.
  - rewrite <- (kp_shape _ _ K3) in *. eapply IHl; [exact H|exact H0|]. intros; apply Hnz; by right.
Qed.

Lemma meach_runs (P : Z -> Prop) (f : Z -> M scene unit) l s :
  (forall c t, P c -> kept s t -> exists t', f c t = Some (tt, t') /\ kept t t') -> Forall P l -> exists s', meach f l s = Some (tt, s').
Proof.
  intros Hf Hl. assert (K : kept s s) by reflexivity. revert K. generalize s at 2 3. induction Hl as [|c l Hc _ IH]; intros t K; cbn [meach]; [by eexists|].
  destruct (Hf c t Hc K) as (t' & E & K'). unfold mbind_. rewrite E. apply IH. by transitivity t.
Qed.

Lemma mark_dirty_returns k p fl s : height (shape_of (store s)) k p -> exists s', mark_dirty k p fl s = Some (tt, s').
Proof.
  revert p fl s. induction k as [|k IH]; [done|]. intros p fl s (par & l & E & Hl). cbn [mark_dirty]. destruct (p =? 0); [by eexists|].
  apply shape_inv in E as (n & En & <- & <-). unfold mbind_ at 1. rewrite (upd_run _ _ _ _ En). unfold mbind_, nd. cbn [store set_store]. rewrite lookup_insert_eq. cbn [n_children at_dirty].
  destruct (negb _); cbn [mwhen]; [|by eexists].
  set (s1 := set_store _ s). assert (K1 : kept s s1) by by eapply kept_put.
  apply (meach_runs (height (shape_of (store s)) k)); [|done]. intros c t Hc K. rewrite <- (kp_shape _ _ K1), <- (kp_shape _ _ K) in Hc.
  destruct (IH c NODE_DIRTY_TRANSFORM t Hc) as [t' Et]. exists t'. split; [done|]. by eapply mark_dirty_kept.
Qed.

Lemma size_shape m : size (shape_of m) = size m.
Proof. apply map_size_fmap. Qed.

Lemma forest_fuel s p : forest (shape_of (store s)) -> is_Some (store s !! p) -> height (shape_of (store s)) (tree_fuel s) p.
Proof.
  intros F [n E]. apply height_S. rewrite <- size_shape. apply forest_height; [done|]. by rewrite (shape_lookup _ _ _ E).
Qed.

Lemma node_mark_dirty_returns s p fl : forest (shape_of (store s)) -> is_Some (store s !! p) ->
  exists s', node_mark_dirty p fl s = Some (tt, s') /\ kept s s'.
Proof.
  intros F Hp. destruct (mark_dirty_returns (tree_fuel s) p fl s (forest_fuel s p F Hp)) as [s' E]. exists s'. split; [done|]. by eapply mark_dirty_kept.
Qed.

Lemma node_set_position_returns s p x y : forest (shape_of (store s)) -> is_Some (store s !! p) ->
  exists s', node_set_position p x y s = Some (tt, s') /\ kept s s'.
Proof.
  intros F [n E]. unfold node_set_position. destruct (p =? 0); [by exists s|]. unfold mbind_ at 1, nd. rewrite E. destruct (_ && _)%bool; [by exists s|].
  unfold mbind_. rewrite (upd_run _ _ _ _ E). set (s1 := set_store _ s). assert (K1 : kept s s1) by by eapply kept_put.
  destruct (node_mark_dirty_returns s1 p NODE_DIRTY_TRANSFORM) as (s' & E' & K'); [by rewrite (kp_shape _ _ K1)|cbn; by rewrite lookup_insert_eq|].
  exists s'. split; [done|]. by transitivity s1.
Qed.
Lemma node_set_size_returns s p w h : forest (shape_of (store s)) -> is_Some (store s !! p) ->
  exists s', node_set_size p w h s = Some (tt, s') /\ kept s s'.
Proof.
  intros F [n E]. unfold node_set_size. destruct (p =? 0); [by exists s|]. unfold mbind_ at 1, nd. rewrite E. destruct (_ && _)%bool; [by exists s|].
  unfold mbind_. rewrite (upd_run _ _ _ _ E). set (s1 := set_store _ s). assert (K1 : kept s s1) by by eapply kept_put.
  destruct (node_mark_dirty_returns s1 p (Z.lor NODE_DIRTY_LAYOUT NODE_DIRTY_PAINT)) as (s' & E' & K'); [by rewrite (kp_shape _ _ K1)|cbn; by rewrite lookup_insert_eq|].
  exists s'. split; [done|]. by transitivity s1.
Qed.

(** ** Marks and positions of the nodes *)

Definition pose (n : gnode) : transform * Z * Z * bool := (n_world n, n_x n, n_y n, transform_dirty n).
Definition poses (m : gmap Z gnode) : gmap Z (transform * Z * Z * bool) := pose <$> m.

Lemma poses_lookup m m' q n' : poses m' = poses m -> m' !! q = Some n' -> exists n, m !! q = Some n /\ pose n' = pose n.
Proof. intros H E. apply (f_equal (lookup q)) in H. unfold poses in H. rewrite !lookup_fmap, E in H. destruct (m !! q) as [n|]; [|done]. injection H as H1 H2 H3 H4. exists n. split; [done|]. unfold pose. congruence. Qed.

(** Calls that leave the poses alone. *)
Definition still {A} (m : M scene A) : Prop := forall s a s', m s = Some (a, s') -> poses (store s') = poses (store s).

Lemma still_ret {A} (a : A) : still (mret_ a).
Proof. intros s b s' [= _ <-]. done. Qed.
Lemma still_bind {A B} (m : M scene A) (k : A -> M scene B) : still m -> (forall a, still (k a)) -> still (mbind_ m k).
Proof. intros Hm Hk s b s' H. minv H as a s1 E. rewrite (Hk a _ _ _ H). by apply (Hm _ _ _ E). Qed.
Lemma still_nd p : still (nd p).
Proof. intros s a s' [_ ->]%nd_inv. done. Qed.
Lemma still_upd p f : (forall n, pose (f n) = pose n) -> still (upd p f).
Proof. intros Hf s a s' (n & E & ->)%upd_inv. cbn [store set_store]. unfold poses. by apply (fmap_put_same pose _ p n). Qed.
Lemma still_when b m : still m -> still (mwhen b m).
Proof. destruct b; [done|]. intros _. apply still_ret. Qed.
Lemma still_each {B} (f : B -> M scene unit) l : (forall c, still (f c)) -> still (meach f l).
Proof. intros Hf. induction l as [|c l IH]; cbn [meach]; [apply still_ret|by apply still_bind]. Qed.
(** ** Adding and removing *)

(** The state with other links, all else kept. *)
Record relinked (g : shape) (s s' : scene) : Prop := {
  rl_shape : shape_of (store s') = g;
  rl_data : data_of (store s') = data_of (store s);
  rl_heap : gheap s' = gheap s;
  rl_graph : g_scene s' = g_scene s
}.
Lemma relinked_kept g s s' s'' : relinked g s s' -> kept s' s'' -> relinked g s s''.
Proof. intros [? ? ? ?] [? ? ? ?]. constructor; congruence. Qed.
Lemma relinked_inv g s s' : relinked g s s' -> forest g -> scene_inv s -> scene_inv s'.
Proof. intros [E1 E2 E3 _] F [_ H]. constructor; [by rewrite E1|by rewrite E2, E3]. Qed.

(** Updates of links as changes of the shape. *)
Lemma shape_of_upd f (h : Z * list Z -> Z * list Z) m p n : m !! p = Some n -> links (f n) = h (links n) -> shape_of (<[p := f n]> m) = alter h p (shape_of m).
Proof.
  intros E Hf. unfold shape_of. rewrite fmap_insert, Hf. apply map_eq. intros q. destruct (decide (q = p)) as [->|Hne].
  - by rewrite lookup_insert_eq, lookup_alter_eq, lookup_fmap, E.
  - by rewrite lookup_insert_ne, lookup_alter_ne by done.
Qed.
Lemma relinked_put h f s s' p n : relinked (shape_of (store s')) s s' -> store s' !! p = Some n -> links (f n) = h (links n) -> n_data (f n) = n_data n ->
  relinked (alter h p (shape_of (store s'))) s (set_store (<[p := f n]> (store s')) s').
Proof.
  intros [_ E2 E3 E4] E Hl Hd. constructor; cbn [store set_store gheap g_scene]; [by eapply shape_of_upd| |done|done].
  rewrite <- E2. by apply (fmap_put_same n_data _ p n).
Qed.
Lemma kept_relinked s s' : kept s s' <-> relinked (shape_of (store s)) s s'.
Proof. split; intros [? ? ? ?]; by constructor. Qed.

(** The two pointer updates next to the array of children. *)
Definition sibling_only (m : M scene unit) : Prop := forall s u s', m s = Some (u, s') -> kept s s'.
Lemma sibling_upd p f : plain f -> sibling_only (upd p f).
Proof. intros Hf s u s'. by apply kept_upd. Qed.

Lemma add_child_inv p c s b s' : node_add_child p c s = Some (b, s') -> forest (shape_of (store s)) ->
  (b = false /\ s' = s) \/
  (b = true /\ c <> 0 /\ exists pp l lc, shape_of (store s) !! p = Some (pp, l) /\ shape_of (store s) !! c = Some (0, lc) /\ (length l < 64)%nat
    /\ relinked (graft p c l (shape_of (store s))) s s' /\ height (shape_of (store s')) (tree_fuel s) c).
Proof.
  unfold node_add_child. destruct (Z.eqb_spec p 0) as [->|Hp]; [by intros [= <- <-]; left|]. destruct (Z.eqb_spec c 0) as [->|Hc]; [by intros [= <- <-]; left|]. cbn [orb].
  intros H F. minv H as np s1 E1. apply nd_inv in E1 as [Enp ->]. destruct (NODE_MAX_CHILDREN <=? _)%nat eqn:El; [injection H as <- <-; by left|]. apply Nat.leb_gt in El.
  minv H as nc s1 E1. apply nd_inv in E1 as [Enc ->]. destruct (Z.eqb_spec (n_parent nc) 0) as [Epar|]; [|injection H as <- <-; by left]. cbn [negb] in H.
  minv H as u1 s1 E1. apply upd_inv in E1 as (nc' & Enc' & ->). rewrite Enc in Enc'. injection Enc' as <-. set (s1 := set_store _ s) in *.
  assert (Hlc : shape_of (store s) !! c = Some (0, n_children nc)) by (rewrite (shape_lookup _ _ _ Enc); by rewrite Epar).
  pose proof (relinked_put (fun '(_, l) => (p, l)) (at_parent p) s s c nc ltac:(by apply kept_relinked) Enc eq_refl eq_refl) as R1. fold s1 in R1. fold (with_parent c p (shape_of (store s))) in R1.
  assert (Hl1 : shape_of (store s1) !! p = Some ((if decide (p = c) then p else n_parent np), n_children np)).
  { rewrite (rl_shape _ _ _ R1), lookup_with_parent, (shape_lookup _ _ _ Enp). done. }
  minv H as np' s2 E2. apply nd_inv in E2 as [Enp' ->]. assert (Ech : n_children np' = n_children np) by (rewrite (shape_lookup _ _ _ Enp') in Hl1; by injection Hl1).
  minv H as u2 s2 E2. assert (K2 : kept s1 s2).
  { destruct (last (n_children np')) as [l|]; [|by injection E2 as _ <-]. minv E2 as u3 t E3. transitivity t; [by eapply (sibling_upd l (at_next c))|by eapply (sibling_upd c (at_prev l))]. }
  minv H as u3 s3 E3. assert (K3 : kept s1 s3) by (etransitivity; [exact K2|by eapply (sibling_upd c (at_next 0))]).
  pose proof (relinked_kept _ _ _ _ R1 K3) as R3. minv H as u4 s4 E4. apply upd_inv in E4 as (n4 & En4 & ->). set (s4 := set_store _ s3) in *.
  assert (Ech4 : n_children n4 = n_children np).
  { rewrite <- (kp_shape _ _ K3), (shape_lookup _ _ _ En4) in Hl1. by injection Hl1. }
  pose proof (relinked_put (fun '(par, _) => (par, n_children np ++ [c])) (fun n => at_children (n_children n ++ [c]) n) s s3 p n4) as R4. cbv beta in R4.
  specialize (R4 ltac:(by rewrite (rl_shape _ _ _ R3)) En4). rewrite Ech4 in R4. specialize (R4 ltac:(unfold links; by rewrite <- Ech4) eq_refl). rewrite (rl_shape _ _ _ R3) in R4.
  assert (Es4 : s4 = set_store (<[p := at_children (n_children np ++ [c]) n4]> (store s3)) s3) by (unfold s4; by rewrite Ech4). rewrite <- Es4 in R4. fold (with_kids p (n_children np ++ [c]) (with_parent c p (shape_of (store s)))) in R4.
  fold (graft p c (n_children np) (shape_of (store s))) in R4. clearbody s4. minv H as u5 s5 E5. injection H as <- <-.
  pose proof (mark_dirty_kept _ _ _ _ _ _ E5) as K5. pose proof (relinked_kept _ _ _ _ R4 K5) as R5.
  right. split_and!; [done|done|]. exists (n_parent np), (n_children np), (n_children nc). split_and!; [by apply shape_lookup|done|exact El|exact R5|].
  rewrite (kp_shape _ _ K5). assert (Hsz : size (store s4) = size (store s)).
  { rewrite <- !size_shape, (rl_shape _ _ _ R4). unfold graft, with_kids, with_parent. by rewrite <- !(size_dom (D := gset Z)), !dom_alter_L. }
  unfold tree_fuel. rewrite <- Hsz. eapply (mark_dirty_height _ c _ _ _ _); [|exact Hc| |exact E5]; [|done].
  intros q x Hx. rewrite (rl_shape _ _ _ R4) in Hx. apply kids_elem in Hx as (par & lq & Eq & Hx). rewrite lookup_graft in Eq.
  destruct (shape_of (store s) !! q) as [[par0 l0]|] eqn:Eq0; [|done]. cbn in Eq. injection Eq as _ <-.
  assert (Hx' : x = c \/ x ∈ l0).
  { destruct (decide (q = p)) as [->|]; [|by right]. apply elem_of_app in Hx as [Hx|Hx%list_elem_of_singleton]; [right|by left]. rewrite (shape_lookup _ _ _ Enp) in Eq0. by injection Eq0 as _ <-. }
  destruct Hx' as [->|Hx']; [done|]. destruct (fo_child _ F _ _ _ _ Eq0 Hx') as [lx Ex]. intros ->. by rewrite (fo_null _ F) in Ex.
Qed.

Lemma index_of_some x l i : index_of x l = Some i -> l !! i = Some x /\ x :: remove_at i l ≡ₚ l.
Proof.
  revert i. induction l as [|y l IH]; intros i; cbn [index_of]; [done|]. destruct (Z.eqb_spec y x) as [->|Hne]; [by intros [= <-]|].
  destruct (index_of x l) as [j|]; [|done]. intros [= <-]. destruct (IH j eq_refl) as [H1 H2]. split; [done|]. unfold remove_at in *. cbn [take drop app]. etransitivity; [apply Permutation_swap|by apply Permutation_skip].
Qed.

Lemma index_of_none x l : index_of x l = None -> x ∉ l.
Proof.
  induction l as [|y l IH]; cbn [index_of]; [by intros _ ?%elem_of_nil|]. destruct (Z.eqb_spec y x) as [->|Hne]; [done|]. intros H%fmap_None [->|Hx]%elem_of_cons; [done|by apply IH].
Qed.

Lemma remove_child_inv p c s u s' : node_remove_child p c s = Some (u, s') ->
  (s' = s /\ (p = 0 \/ c = 0 \/ exists pp l, shape_of (store s) !! p = Some (pp, l) /\ c ∉ l))
  \/ exists pp l i, shape_of (store s) !! p = Some (pp, l) /\ index_of c l = Some i /\ relinked (prune p c (remove_at i l) (shape_of (store s))) s s'.
Proof.
  unfold node_remove_child. destruct (Z.eqb_spec p 0) as [->|Hp]; [intros [= _ <-]; by auto|]. destruct (Z.eqb_spec c 0) as [->|Hc]; [intros [= _ <-]; by auto|]. cbn [orb]. intros H. minv H as np s1 E1. apply nd_inv in E1 as [Enp ->].
  destruct (index_of c (n_children np)) as [i|] eqn:Ei.
  2: { injection H as _ <-. left. split; [done|]. right; right. exists (n_parent np), (n_children np). split; [by apply shape_lookup|by apply index_of_none]. }
  right. exists (n_parent np), (n_children np), i. split; [by apply shape_lookup|]. split; [done|].
  minv H as nc s1 E1. apply nd_inv in E1 as [Enc ->]. minv H as u1 s1 E1. minv H as nc1 s2 E2. apply nd_inv in E2 as [_ ->]. minv H as u2 s2 E2.
  assert (K : kept s s2).
  { transitivity s1; [eapply mwhen_kept; [|exact E1]; by apply (sibling_upd _ (at_next _))|eapply mwhen_kept; [|exact E2]; by apply (sibling_upd _ (at_prev _))]. }
  minv H as u3 s3 E3. apply upd_inv in E3 as (n3 & En3 & ->). set (s3 := set_store _ s2) in *.
  assert (Ech : n_children n3 = n_children np).
  { pose proof (shape_lookup _ _ _ Enp) as El. rewrite <- (kp_shape _ _ K), (shape_lookup _ _ _ En3) in El. by injection El. }
  pose proof (relinked_put (fun '(par, _) => (par, remove_at i (n_children np))) (at_children (remove_at i (n_children np))) s s2 p n3) as R.
  specialize (R ltac:(rewrite (kp_shape _ _ K); by apply kept_relinked) En3 eq_refl eq_refl).
  assert (Es3 : s3 = set_store (<[p := at_children (remove_at i (n_children np)) n3]> (store s2)) s2) by (unfold s3; by rewrite Ech). rewrite <- Es3 in R. clearbody s3.
  apply upd_inv in H as (n4 & En4 & ->).
  pose proof (relinked_put (fun '(_, l) => (0, l)) (fun n => at_next 0 (at_prev 0 (at_parent 0 n))) s s3 c n4) as R4. specialize (R4 ltac:(by rewrite (rl_shape _ _ _ R)) En4 eq_refl eq_refl).
  rewrite (rl_shape _ _ _ R), (kp_shape _ _ K) in R4. exact R4.
Qed.

Lemma remove_child_ok p c s u s' : node_remove_child p c s = Some (u, s') -> scene_inv s -> scene_inv s'.
Proof.
  intros H Hi. destruct (remove_child_inv _ _ _ _ _ H) as [[-> _]|(pp & l & i & Ep & Ei & R)]; [done|]. eapply relinked_inv; [exact R| |done].
  destruct (index_of_some _ _ _ Ei) as [_ Hp]. eapply forest_prune; [apply (sc_forest _ Hi)|exact Ep|exact Hp].
Qed.
Lemma add_child_ok p c s b s' : node_add_child p c s = Some (b, s') -> scene_inv s -> scene_inv s'.
Proof.
  intros H Hi. destruct (add_child_inv _ _ _ _ _ H (sc_forest _ Hi)) as [[_ ->]|(_ & _ & pp & l & lc & Ep & Ec & Hl & R & Hh)]; [done|].
  eapply relinked_inv; [exact R| |done]. eapply forest_graft; [apply (sc_forest _ Hi)|exact Ep|exact Ec|done|]. rewrite <- (rl_shape _ _ _ R). exact Hh.
Qed.

Lemma bring_to_front_ok p s u s' : window_manager_bring_to_front p s = Some (u, s') -> scene_inv s -> scene_inv s'.
Proof.
  unfold window_manager_bring_to_front. destruct (p =? 0); [by intros [= _ <-]|]. intros H Hi. minv H as n s1 E1. apply nd_inv in E1 as [En ->].
  destruct (n_parent n =? 0); [by injection H as _ <-|]. minv H as np s1 E1. apply nd_inv in E1 as [Enp ->].
  destruct (index_of p (n_children np)) as [i|] eqn:Ei; [|by injection H as _ <-]. destruct (_ <? _)%nat; [|by injection H as _ <-].
  minv H as u1 s1 E1. apply upd_inv in E1 as (n1 & En1 & ->). rewrite Enp in En1. injection En1 as <-. apply mark_dirty_kept in H. eapply kept_inv; [exact H|].
  pose proof (relinked_put (fun '(par, _) => (par, remove_at i (n_children np) ++ [p])) (fun m => at_children (remove_at i (n_children m) ++ [p]) m) s s (n_parent n) np ltac:(by apply kept_relinked) Enp eq_refl eq_refl) as R.
  eapply relinked_inv; [exact R| |done]. destruct (index_of_some _ _ _ Ei) as [_ Hp]. eapply forest_reorder; [apply (sc_forest _ Hi)|by apply shape_lookup|].
  etransitivity; [|exact Hp]. symmetry. apply Permutation_cons_append.
Qed.

(** ** The heap *)

Lemma blocks_delete d p x : d !! p = Some x -> blocks d ≡ₚ node_blocks (p, x) ++ blocks (delete p d).
Proof. intros E. unfold blocks. rewrite <- (map_to_list_delete d p x E). by rewrite bind_cons. Qed.
Lemma blocks_insert d p x : d !! p = None -> blocks (<[p := x]> d) ≡ₚ node_blocks (p, x) ++ blocks d.
Proof. intros E. rewrite (blocks_delete (<[p := x]> d) p x) by apply lookup_insert_eq. by rewrite delete_insert_id. Qed.

Lemma elem_of_blocks d p : is_Some (d !! p) -> p - HEADER_SIZE ∈ blocks d.
Proof. intros [x E]. rewrite (blocks_delete d p x E). by left. Qed.

Lemma g_kmalloc_inv size s p s' free live : g_kmalloc size s = Some (p, s') -> heap_inv (gheap s) free live -> 0 <= size -> size + 11 < 2 ^ 32 ->
  exists h' free', s' = set_gheap h' s /\ heap_inv h' free' (p - HEADER_SIZE :: live) /\ p <> 0 /\ p - HEADER_SIZE ∉ live.
Proof.
  unfold g_kmalloc. destruct (kmalloc (gheap s) size) as [q h| |] eqn:Ek; [|done|done]. intros [= <- <-] Hi H0 H1.
  destruct (kmalloc_ret _ _ _ _ _ _ Hi H0 H1 Ek) as (free' & Hi' & _). exists h, free'. split; [done|]. split; [done|].
  pose proof (hi_bounds _ _ _ Hi') as Hb. destruct (hi_blocks _ _ _ Hi') as [Hnd Hin _]. destruct (Hin (q - HEADER_SIZE)) as (Hb1 & _); [apply elem_of_app; right; by left|].
  apply NoDup_app in Hnd as (_ & _ & Hnd). apply NoDup_cons in Hnd as [Hnd _]. split; [unfold HEADER_SIZE in *; lia|done].
Qed.

Lemma kfree_drops h free p live live' : heap_inv h free live -> live ≡ₚ p - HEADER_SIZE :: live' -> exists free', heap_inv (kfree h p) free' live'.
Proof.
  intros Hi Hp. eapply heap_inv_perm in Hi; [|exact Hp]. destruct (heap_inv_kfree h free [] (p - HEADER_SIZE) live' Hi) as [Hi' _]. rewrite Z.sub_add in Hi'. by eexists.
Qed.

(** Calls that only allocate the blocks of a widget. *)
Definition allocates (m : M scene payload) : Prop := forall s d s' free live, m s = Some (d, s') -> heap_inv (gheap s) free live ->
  exists h' free', s' = set_gheap h' s /\ heap_inv h' free' (payload_blocks d ++ live).

Lemma allocates_one n (f : Z -> payload) : 0 <= n -> n + 11 < 2 ^ 32 -> (forall a, payload_blocks (f a) = [a - HEADER_SIZE]) -> allocates (d <-- g_kmalloc n ;; mret_ (f d)).
Proof.
  intros H0 H1 Hf s d s' free live H Hi. minv H as a s1 E. injection H as <- <-. destruct (g_kmalloc_inv _ _ _ _ _ _ E Hi H0 H1) as (h' & free' & -> & Hi' & _).
  exists h', free'. split; [done|]. by rewrite Hf.
Qed.
Lemma allocates_two n m (f : Z -> Z -> payload) : 0 <= n -> n + 11 < 2 ^ 32 -> 0 <= m -> m + 11 < 2 ^ 32 ->
  (forall a t, payload_blocks (f a t) = text_block t ++ [a - HEADER_SIZE]) -> allocates (d <-- g_kmalloc n ;; t <-- g_kmalloc m ;; mret_ (f d t)).
Proof.
  intros H0 H1 H2 H3 Hf s d s' free live H Hi. minv H as a s1 E. minv H as t s2 E2. injection H as <- <-. destruct (g_kmalloc_inv _ _ _ _ _ _ E Hi H0 H1) as (h' & free' & -> & Hi' & _).
  destruct (g_kmalloc_inv _ _ _ _ _ _ E2 Hi' H2 H3) as (h2 & free2 & -> & Hi2 & Ht & _). exists h2, free2. split; [done|]. rewrite Hf. unfold text_block.
  by rewrite (proj2 (Z.eqb_neq t 0) Ht).
Qed.

(** ** Creating *)

Lemma node_create_inv ty name s p s' : node_create ty name s = Some (p, s') -> scene_inv s ->
  scene_inv s' /\ store s !! p = None /\ p <> 0 /\ exists id, store s' = <[p := blank_node id ty name]> (store s).
Proof.
  unfold node_create. intros H [F (free & rest & Hh)]. minv H as a s1 E. destruct (g_kmalloc_inv _ _ _ _ _ _ E Hh) as (h' & free' & -> & Hi' & Hp & Hn); [done|done|].
  minv H as id s2 E2. assert (Hs2 : store s2 = store s /\ gheap s2 = h') by (unfold take_id in E2; destruct (g_scene _); by injection E2 as _ <-). destruct Hs2 as [Es2 Eh2].
  minv H as u s3 E3. injection E3 as _ <-. injection H as <- <-. cbn [store set_store]. rewrite Es2.
  assert (Hd : data_of (store s) !! a = None).
  { apply eq_None_not_Some. intros Hs. apply Hn. apply elem_of_app. left. by apply elem_of_blocks. }
  assert (Hm : store s !! a = None) by (unfold data_of in Hd; rewrite lookup_fmap in Hd; by destruct (store s !! a)).
  split; [|split_and!; [done|done|by exists id]]. constructor; cbn [store set_store gheap]; rewrite ?Es2, ?Eh2.
  - unfold shape_of. rewrite fmap_insert. apply forest_leaf; [exact F| |done]. by rewrite lookup_fmap, Hm.
  - exists free', rest. unfold data_of. rewrite fmap_insert. cbn [n_data blank_node]. rewrite blocks_insert by done. exact Hi'.
Qed.

Lemma widget_inv ty name x y w h data s p s' : allocates data -> widget ty name x y w h data s = Some (p, s') -> scene_inv s ->
  scene_inv s' /\ store s !! p = None /\ exists n, store s' = <[p := n]> (store s) /\ n_parent n = 0 /\ n_children n = [] /\ n_dirty n = NODE_DIRTY_ALL.
Proof.
  unfold widget. intros Ha H Hi. minv H as q s1 E. destruct (node_create_inv _ _ _ _ _ E Hi) as ([F (free & rest & Hh)] & Hn & Hp & id & Es1).
  minv H as d s2 E2. destruct (Ha _ _ _ _ _ E2 Hh) as (h' & free' & -> & Hh'). minv H as u s3 E3. injection H as <- <-.
  apply upd_inv in E3 as (n & En & ->). cbn [store set_gheap] in En. assert (En' := En). rewrite Es1, lookup_insert_eq in En'. injection En' as <-.
  split; [|split; [done|]].
  - constructor; cbn [store set_store gheap set_gheap].
    + unfold shape_of. rewrite fmap_insert, insert_id; [exact F|]. by rewrite lookup_fmap, En.
    + exists free', rest. eapply heap_inv_perm; [|exact Hh']. unfold data_of. rewrite fmap_insert.
      rewrite (blocks_delete (n_data <$> store s1) q NoData) by by rewrite lookup_fmap, En. rewrite <- insert_delete_eq, blocks_insert by apply lookup_delete_eq.
      unfold node_blocks. cbn [fst snd payload_blocks n_data at_data at_xy at_size app]. rewrite <- !Permutation_middle. apply Permutation_skip. by rewrite <- app_assoc.
  - cbn [store set_store set_gheap]. rewrite Es1, insert_insert_eq. by eexists.
Qed.

Lemma label_allocates text : Z.of_nat (length text) < 2 ^ 31 -> allocates (d <-- g_kmalloc 24 ;; t <-- g_strdup text ;; mret_ (LabelData d t text)).
Proof. intros H. apply (allocates_two 24 _ (fun d t => LabelData d t text)); try done; lia. Qed.
Lemma button_allocates text : Z.of_nat (length text) < 2 ^ 31 -> allocates (d <-- g_kmalloc 72 ;; t <-- g_strdup text ;; mret_ (ButtonData d t text)).
Proof. intros H. apply (allocates_two 72 _ (fun d t => ButtonData d t text)); try done; lia. Qed.
Lemma window_allocates text : Z.of_nat (length text) < 2 ^ 31 -> allocates (d <-- g_kmalloc 96 ;; t <-- g_strdup text ;; mret_ (WindowData d t text 0)).
Proof. intros H. apply (allocates_two 96 _ (fun d t => WindowData d t text 0)); try done; lia. Qed.
Lemma panel_allocates : allocates (d <-- g_kmalloc 16 ;; mret_ (PanelData d)).
Proof. by apply (allocates_one 16 PanelData). Qed.
Lemma image_allocates w h pixels : 0 <= w <= 2048 -> 0 <= h <= 2048 ->
  allocates (d <-- g_kmalloc 16 ;; b <-- g_kmalloc (u64 (s32 (s32 (w * h) * 4))) ;; mret_ (ImageData d b w h pixels)).
Proof.
  intros Hw Hh. assert (0 <= w * h <= 2 ^ 22) by nia. rewrite (s32_small (w * h)), s32_small, u64_small by lia. apply (allocates_two 16 _ (fun d b => ImageData d b w h pixels)); try done; lia.
Qed.

(** ** Destroying *)

Definition heap_has (s : scene) (live : list Z) : Prop := exists free, heap_inv (gheap s) free live.

Lemma g_kfree_run p s live live' : heap_has s live -> live ≡ₚ p - HEADER_SIZE :: live' -> exists s', g_kfree p s = Some (tt, s') /\ store s' = store s /\ heap_has s' live'.
Proof. intros [free H] Hp. eexists. split; [done|]. split; [done|]. by eapply kfree_drops. Qed.

Lemma free_text_run t s live : heap_has s (text_block t ++ live) -> exists s', free_nonnull t s = Some (tt, s') /\ store s' = store s /\ heap_has s' live.
Proof. unfold free_nonnull, text_block. destruct (t =? 0); cbn [negb mwhen app]; intros H; [by exists s|]. by eapply g_kfree_run. Qed.

Lemma payload_destroy_run d s live : heap_has s (payload_blocks d ++ live) -> exists s', payload_destroy d s = Some (tt, s') /\ store s' = store s /\ heap_has s' live.
Proof.
  assert (Htwo : forall t a, heap_has s ((text_block t ++ [a - HEADER_SIZE]) ++ live) -> exists s', (free_nonnull t ;;; g_kfree a) s = Some (tt, s') /\ store s' = store s /\ heap_has s' live).
  { intros t a H. rewrite <- app_assoc in H. destruct (free_text_run _ _ _ H) as (s1 & E1 & Es1 & H1). destruct (g_kfree_run a s1 _ live H1) as (s2 & E2 & Es2 & H2); [done|].
    exists s2. unfold mbind_. rewrite E1, E2. split; [done|]. split; [congruence|done]. }
  destruct d; cbn [payload_blocks payload_destroy]; [intros H; by exists s|by apply Htwo|by apply Htwo| |by apply Htwo|by apply Htwo].
  intros H. by eapply g_kfree_run.
Qed.

Lemma count_down_run s : exists s', count_down s = Some (tt, s') /\ store s' = store s /\ gheap s' = gheap s.
Proof. unfold count_down, mmodify. eexists. split; [done|]. done. Qed.

(** The nodes of [l] are gone, the others as they were. *)
Definition gone (l : list Z) (m m' : gmap Z gnode) : Prop := forall q, m' !! q = if decide (q ∈ l) then None else m !! q.

Lemma gone_nil m : gone [] m m.
Proof. intros q. rewrite decide_False; [done|]. apply not_elem_of_nil. Qed.
Lemma gone_app l1 l2 m m1 m2 : gone l1 m m1 -> gone l2 m1 m2 -> gone (l1 ++ l2) m m2.
Proof.
  intros H1 H2 q. rewrite H2, H1. destruct (decide (q ∈ l2)) as [Hq|Hq]; [rewrite decide_True; [done|apply elem_of_app; by right]|].
  destruct (decide (q ∈ l1)) as [Hq'|Hq']; [rewrite decide_True; [done|apply elem_of_app; by left]|]. rewrite decide_False; [done|]. rewrite elem_of_app. tauto.
Qed.
Lemma gone_shape l m m' q : gone l m m' -> q ∉ l -> shape_of m' !! q = shape_of m !! q.
Proof. intros H Hq. unfold shape_of. rewrite !lookup_fmap, H, decide_False; done. Qed.

Lemma destroy_run k p s rest : height (shape_of (store s)) k p -> NoDup (preorder (shape_of (store s)) k p) -> shape_of (store s) !! 0 = None ->
  heap_has s (blocks (data_of (store s)) ++ rest) ->
  exists s', node_destroy_fuel k p s = Some (tt, s') /\ gone (preorder (shape_of (store s)) k p) (store s) (store s') /\ heap_has s' (blocks (data_of (store s')) ++ rest).
Proof.
  revert p s. induction k as [|k IH]; [done|]. intros p s Hh Hnd H0 Hheap. pose proof Hh as (par & l & E & Hl). set (g := shape_of (store s)) in *.
  apply shape_inv in E as (n & En & _ & Ech).
  assert (Hp : p <> 0) by (intros ->; unfold g in H0; by rewrite (shape_lookup _ _ _ En) in H0).
  cbn [node_destroy_fuel preorder] in *. rewrite (proj2 (Z.eqb_neq p 0) Hp). unfold mbind_ at 1, nd. rewrite En, Ech.
  rewrite (kids_some g p (n_parent n) l) in * by (unfold g; rewrite (shape_lookup _ _ _ En); by rewrite Ech). apply NoDup_cons in Hnd as [Hpl Hnd].
  assert (Hloop : forall l s1, Forall (height g k) l -> NoDup (l ≫= preorder g k) -> (forall c q, c ∈ l -> below g c q -> shape_of (store s1) !! q = g !! q) ->
    shape_of (store s1) !! 0 = None -> heap_has s1 (blocks (data_of (store s1)) ++ rest) ->
    exists s2, meach (node_destroy_fuel k) l s1 = Some (tt, s2) /\ gone (l ≫= preorder g k) (store s1) (store s2) /\ heap_has s2 (blocks (data_of (store s2)) ++ rest)).
  { clear -IH. induction l as [|c l IHl]; intros s1 Hl Hnd Hag H0 Hh; cbn [meach]; [exists s1; split; [done|]; split; [apply gone_nil|done]|].
    apply Forall_cons in Hl as [Hc Hl]. rewrite bind_cons in Hnd |- *. apply NoDup_app in Hnd as (Hnd1 & Hdis & Hnd2).
    assert (Hc1 : height (shape_of (store s1)) k c) by (eapply height_agree; [|exact Hc]; intros q Hq; apply (Hag c); [by left|done]).
    assert (Hpre : preorder (shape_of (store s1)) k c = preorder g k c) by (apply preorder_agree; intros q Hq; apply (Hag c); [by left|done]).
    destruct (IH c s1 Hc1) as (s2 & E2 & G2 & Hh2); [by rewrite Hpre|done|done|]. rewrite Hpre in G2.
    destruct (IHl s2 Hl Hnd2) as (s3 & E3 & G3 & Hh3); [|unfold shape_of; rewrite lookup_fmap, G2; destruct (decide _); [done|]; unfold shape_of in H0; by rewrite lookup_fmap in H0|done|].
    - intros x q Hx Hq. rewrite (gone_shape _ _ _ _ G2); [apply (Hag x); [by right|done]|]. intros Hq'. apply (Hdis q Hq'). apply list_elem_of_bind. exists x. split; [|done].
      apply elem_of_preorder; [|done]. rewrite Forall_forall in Hl. by apply Hl.
    - exists s3. unfold mbind_. rewrite E2, E3. split; [done|]. split; [by eapply gone_app|done]. }
  destruct (Hloop l s Hl Hnd) as (s1 & E1 & G1 & Hh1); [done|done|done|]. unfold mbind_ at 1. rewrite E1. clear Hloop IH.
  assert (En1 : store s1 !! p = Some n) by (rewrite G1, decide_False; done).
  assert (Hb : blocks (data_of (store s1)) ≡ₚ node_blocks (p, n_data n) ++ blocks (data_of (delete p (store s1)))).
  { unfold data_of. rewrite fmap_delete. apply blocks_delete. by rewrite lookup_fmap, En1. }
  destruct Hh1 as [free1 Hh1]. rewrite Hb in Hh1. unfold node_blocks in Hh1. cbn [fst snd] in Hh1.
  destruct (payload_destroy_run (n_data n) s1 (p - HEADER_SIZE :: blocks (data_of (delete p (store s1))) ++ rest)) as (s2 & E2 & Es2 & Hh2).
  { exists free1. eapply heap_inv_perm; [|exact Hh1]. cbn [app]. rewrite <- app_assoc. apply Permutation_middle. }
  unfold mbind_ at 1. rewrite E2. destruct (count_down_run s2) as (s3 & E3 & Es3 & Eh3). unfold mbind_ at 1. rewrite E3.
  destruct (g_kfree_run p s3 (p - HEADER_SIZE :: blocks (data_of (delete p (store s1))) ++ rest) (blocks (data_of (delete p (store s1))) ++ rest)) as (s4 & E4 & Es4 & Hh4); [unfold heap_has; rewrite Eh3; exact Hh2|done|].
  unfold mbind_. rewrite E4. eexists. split; [done|]. cbn [store set_store]. rewrite Es4, Es3, Es2. split; [|exact Hh4].
  intros q. destruct (decide (q = p)) as [->|Hne]; [rewrite lookup_delete_eq, decide_True; [done|by left]|]. rewrite lookup_delete_ne by done. rewrite G1.
  destruct (decide (q ∈ l ≫= preorder g k)); [rewrite decide_True; [done|by right]|]. rewrite decide_False; [done|]. rewrite elem_of_cons. tauto.
Qed.

(** [node_destroy] of a detached node returns and frees exactly its tree. *)
Lemma node_destroy_run p n s : scene_inv s -> store s !! p = Some n -> n_parent n = 0 ->
  exists s', node_destroy p s = Some (tt, s') /\ scene_inv s'
    /\ forall q, (below (shape_of (store s)) p q -> store s' !! q = None) /\ (~ below (shape_of (store s)) p q -> store s' !! q = store s !! q).
Proof.
  intros [F (free & rest & Hh)] En Hp. pose proof (forest_fuel s p F ltac:(by rewrite En)) as Hht.
  destruct (destroy_run (tree_fuel s) p s rest Hht) as (s' & E & G & Hh'); [by apply NoDup_preorder|by apply fo_null|by exists free|].
  assert (Hq : forall q, (below (shape_of (store s)) p q -> store s' !! q = None) /\ (~ below (shape_of (store s)) p q -> store s' !! q = store s !! q)).
  { intros q. rewrite (G q). split; intros Hb; [rewrite decide_True; [done|by apply elem_of_preorder]|]. rewrite decide_False; [done|]. intros Hin. apply Hb. by apply elem_of_preorder in Hin. }
  exists s'. split; [exact E|]. split; [|exact Hq]. constructor; [|destruct Hh' as [free' Hh']; by exists free', rest].
  eapply (forest_cut (shape_of (store s)) _ p); [done|rewrite (shape_lookup _ _ _ En); by rewrite Hp| |].
  - intros q Hb. destruct (Hq q) as [H _]. unfold shape_of. by rewrite lookup_fmap, H.
  - intros q Hb. destruct (Hq q) as [_ H]. unfold shape_of. by rewrite !lookup_fmap, H.
Qed.

Lemma window_close_ok p s u s' : window_close p s = Some (u, s') -> scene_inv s -> scene_inv s'.
Proof.
  unfold window_close. destruct (Z.eqb_spec p 0) as [->|Hp]; [by intros [= _ <-]|]. intros H Hi. minv H as n s1 E1. apply nd_inv in E1 as [En ->]. minv H as u1 s1 E1.
  assert (H1 : scene_inv s1 /\ exists n1, store s1 !! p = Some n1 /\ n_parent n1 = 0).
  { destruct (Z.eqb_spec (n_parent n) 0) as [Hn|Hn]; cbn [negb mwhen] in E1; [injection E1 as _ <-; by eauto|].
    minv E1 as u2 s2 E2. apply mark_dirty_kept in E2. assert (Hi2 := kept_inv _ _ E2 Hi). split; [by eapply remove_child_ok|].
    pose proof (shape_lookup _ _ _ En) as Ls. destruct (fo_parent _ (sc_forest _ Hi) _ _ _ Ls Hn) as (pp & l & Lp & Hc).
    destruct (remove_child_inv _ _ _ _ _ E1) as [[-> [Hz|[Hz|(pp' & l' & Lp' & Hc')]]]|(pp' & l' & i & Lp' & Ei & R)]; [done|done| |].
    - rewrite (kp_shape _ _ E2), Lp in Lp'. by injection Lp' as _ <-.
    - pose proof (rl_shape _ _ _ R) as Es. apply (f_equal (lookup p)) in Es. rewrite lookup_prune, (kp_shape _ _ E2), Ls in Es. cbn in Es. rewrite decide_True in Es by done.
      apply shape_inv in Es as (n1 & En1 & Hn1 & _). by exists n1. }
  destruct H1 as (Hi1 & n1 & En1 & Hn1). destruct (node_destroy_run p n1 s1 Hi1 En1 Hn1) as (s2 & E2 & Hi2 & _). rewrite H in E2. by injection E2 as _ ->.
Qed.

(** ** Frames *)

Lemma refreshed_plain pw : plain (refreshed pw).
Proof. intros n. unfold refreshed. by destruct (transform_dirty n). Qed.
Lemma update_loop_kept k st s u s' : update_loop k st s = Some (u, s') -> kept s s'.
Proof.
  revert st s. induction k as [|k IH]; intros [|[p pw] rest] s; cbn [update_loop]; try (by intros [= _ <-]). destruct (p =? 0); [by apply IH|].
  intros H. minv H as a s1 E. minv H as n s2 E2. apply nd_inv in E2 as [_ ->]. transitivity s1; [eapply kept_upd; [apply refreshed_plain|exact E]|by eapply IH].
Qed.
Lemma drawn_plain cam n : links (drawn cam n) = links n /\ n_data (drawn cam n) = n_data n.
Proof. unfold drawn. destruct (n_data n) as [|d t s|d t s|d|d b w h px|d t s pid] eqn:E; try (destruct (t =? 0)); by split. Qed.
Lemma draw_loop_kept cam k st s ps s' : draw_loop cam k st s = Some (ps, s') -> kept s s'.
Proof.
  revert st s ps. induction k as [|k IH]; intros [|p rest] s ps; cbn [draw_loop]; try (by intros [= _ <-]). destruct (p =? 0); [by apply IH|].
  intros H. minv H as n s1 E. apply nd_inv in E as [En ->]. destruct (negb (n_visible n)); [by apply IH in H|]. minv H as a s1 E1. injection E1 as _ <-. minv H as qs s2 E2. injection H as _ <-.
  apply IH in E2. etransitivity; [|exact E2]. destruct (drawn_plain cam n). by apply (kept_put _ _ n).
Qed.
Lemma node_draw_kept cam p s ps s' : node_draw_recursive cam p s = Some (ps, s') -> kept s s'.
Proof.
  unfold node_draw_recursive. destruct (p =? 0); [by intros [= _ <-]|]. destruct (store s !! p) as [n|]; [|done]. destruct (n_visible n); [by apply draw_loop_kept|by intros [= _ <-]].
Qed.
Lemma node_update_kept p pw s u s' : node_update_transforms p pw s = Some (u, s') -> kept s s'.
Proof. unfold node_update_transforms. destruct (p =? 0); [by intros [= _ <-]|by apply update_loop_kept]. Qed.

(** ** Every run *)

Inductive scene_call :=
| Label (name : list Z) (x y : Z) (text : list Z) | Button (name : list Z) (x y w h : Z) (text : list Z)
| Panel (name : list Z) (x y w h : Z) | Window (name : list Z) (x y w h : Z) (title : list Z) | Image (name : list Z) (w h : Z) (pixels : list Z)
| AddChild (p c : Z) | RemoveChild (p c : Z) | Raise (p : Z) | Close (p : Z) | MoveTo (p x y : Z) | Resize (p w h : Z) | SetPid (p pid : Z)
| Frame (cam : camera) (root : Z).
Definition discard {A} (m : M scene A) : M scene unit := m ;;; mret_ tt.
Definition scene_do (c : scene_call) : M scene unit :=
  match c with
  | Label name x y text => discard (label_create name x y text)
  | Button name x y w h text => discard (button_create name x y w h text)
  | Panel name x y w h => discard (panel_create name x y w h)
  | Window name x y w h title => discard (window_node_create name x y w h title)
  | Image name w h pixels => discard (image_node_create name w h pixels)
  | AddChild p c => discard (node_add_child p c)
  | RemoveChild p c => node_remove_child p c
  | Raise p => window_manager_bring_to_front p
  | Close p => window_close p
  | MoveTo p x y => node_set_position p x y
  | Resize p w h => node_set_size p w h
  | SetPid p pid => window_node_set_pid p pid
  | Frame cam root => node_update_transforms root transform_identity ;;; discard (node_draw_recursive cam root)
  end.
(** Texts are C strings in memory, images those the calls accept. *)
Definition call_ok (c : scene_call) : Prop :=
  match c with
  | Label _ _ _ t | Button _ _ _ _ _ t | Window _ _ _ _ _ t => Z.of_nat (length t) < 2 ^ 31
  | Image _ w h _ => 0 <= w <= 2048 /\ 0 <= h <= 2048
  | _ => True
  end.
(** [gui_init]: the graph and its root. *)
Definition scene_start : M scene Z := scene_graph_init ;;; p <-- node_create NODE_CANVAS [] ;; set_root p ;;; mret_ p.
Definition scene_run (calls : list scene_call) : M scene unit := meach scene_do calls.
Definition no_scene (h : kheap) : scene := {| gheap := h; store := ∅; g_scene := None |}.

Lemma discard_inv {A} (m : M scene A) s u s' : discard m s = Some (u, s') -> exists a, m s = Some (a, s').
Proof. unfold discard. intros H. minv H as a s1 E. injection H as _ <-. by exists a. Qed.

Lemma move_kept p x y s u s' : node_set_position p x y s = Some (u, s') -> kept s s'.
Proof.
  unfold node_set_position. destruct (p =? 0); [by intros [= _ <-]|]. intros H. minv H as n s1 E. apply nd_inv in E as [_ ->]. destruct (_ && _)%bool; [by injection H as _ <-|].
  minv H as a s1 E. transitivity s1; [eapply kept_upd; [|exact E]; intros ?; by split|by eapply mark_dirty_kept].
Qed.
Lemma resize_kept p w h s u s' : node_set_size p w h s = Some (u, s') -> kept s s'.
Proof.
  unfold node_set_size. destruct (p =? 0); [by intros [= _ <-]|]. intros H. minv H as n s1 E. apply nd_inv in E as [_ ->]. destruct (_ && _)%bool; [by injection H as _ <-|].
  minv H as a s1 E. transitivity s1; [eapply kept_upd; [|exact E]; intros ?; by split|by eapply mark_dirty_kept].
Qed.
Lemma set_pid_ok p pid s u s' : window_node_set_pid p pid s = Some (u, s') -> scene_inv s -> scene_inv s'.
Proof.
  unfold window_node_set_pid. intros H Hi. minv H as n s1 E. apply nd_inv in E as [En ->]. destruct (n_data n) as [|d t tx|d t tx|d|d b w h px|d t tx q] eqn:Ed; try (by injection H as _ <-).
  destruct (n_type n =? NODE_WINDOW); [|by injection H as _ <-]. injection H as _ <-. destruct Hi as [F (free & rest & Hh)]. constructor; cbn [store set_store gheap].
  - unfold shape_of. erewrite fmap_put_same; [exact F|exact En|done].
  - exists free, rest. unfold data_of in *. rewrite fmap_insert. cbn [n_data at_data]. rewrite <- insert_delete_eq, blocks_insert by apply lookup_delete_eq.
    rewrite (blocks_delete _ p (WindowData d t tx q)) in Hh by by rewrite lookup_fmap, En, <- Ed. exact Hh.
Qed.

Lemma scene_do_ok c s u s' : call_ok c -> scene_do c s = Some (u, s') -> scene_inv s -> scene_inv s'.
Proof.
  intros Hc H Hi. destruct c as [name x y t|name x y w h t|name x y w h|name x y w h t|name w h px|p c|p c|p|p|p x y|p w h|p pid|cam root]; cbn [scene_do call_ok] in *;
    try (apply discard_inv in H as [a H]).
  - by eapply widget_inv; [apply label_allocates|exact H|].
  - by eapply widget_inv; [apply button_allocates|exact H|].
  - by eapply widget_inv; [apply panel_allocates|exact H|].
  - by eapply widget_inv; [apply window_allocates|exact H|].
  - destruct Hc as [Hw Hh]. eapply widget_inv; [apply (image_allocates w h px); done|exact H|done].
  - by eapply add_child_ok.
  - by eapply remove_child_ok.
  - by eapply bring_to_front_ok.
  - by eapply window_close_ok.
  - eapply kept_inv; [by eapply move_kept|done].
  - eapply kept_inv; [by eapply resize_kept|done].
  - by eapply set_pid_ok.
  - minv H as a s1 E. apply discard_inv in H as [b H]. eapply kept_inv; [by eapply node_draw_kept|]. eapply kept_inv; [by eapply node_update_kept|done].
Qed.

Lemma scene_start_ok h free live p s : heap_inv h free live -> scene_start (no_scene h) = Some (p, s) -> scene_inv s.
Proof.
  intros Hi H. unfold scene_start in H. minv H as a s1 E. unfold scene_graph_init in E. cbn [g_scene no_scene] in E.
  minv E as q s2 E2. destruct (g_kmalloc_inv _ _ _ _ _ _ E2 Hi) as (h' & free' & -> & Hi' & _); [done|done|]. injection E as _ <-.
  minv H as r s3 E3. minv H as b s4 E4. injection E4 as _ <-. injection H as _ <-.
  assert (H0 : scene_inv (set_g_scene (Some {| sg_addr := q; sg_root := 0; sg_next_id := 1; sg_count := 0 |}) (set_gheap h' (no_scene h)))).
  { constructor; [|exists free', (q - HEADER_SIZE :: live); cbn [store set_g_scene set_gheap no_scene gheap]; unfold data_of, blocks; by rewrite fmap_empty, map_to_list_empty]. cbn [store set_g_scene set_gheap no_scene]. unfold shape_of. rewrite fmap_empty. constructor; try (intros *; rewrite lookup_empty; done). }
  destruct (node_create_inv _ _ _ _ _ E3 H0) as [[F Hh] _]. by constructor.
Qed.


