(* ===== verification/SceneTop.v ===== *)
(** * When the scene calls return *)

From Stdlib Require Import ZArith Lia.
From stdpp Require Import base numbers list gmap.
From S2P Require Import Prelude Kheap Geom Scene SceneTree SceneInv.

(** ** Adding a node below itself *)

Lemma below_sub g g' p : (forall q c, c ∈ kids g q -> c ∈ kids g' q) -> forall q, below g p q -> below g' p q.
Proof. intros H q Hb. induction Hb as [|q c _ IH Hc]; [apply below_refl|]. eapply below_step; [exact IH|by apply H]. Qed.

Lemma kids_graft g p c pp l q x : g !! p = Some (pp, l) -> x ∈ kids (graft p c l g) q <-> x ∈ kids g q \/ (q = p /\ x = c).
Proof.
  intros Ep. unfold kids. rewrite lookup_graft. destruct (g !! q) as [[par l0]|] eqn:E; cbn.
  - destruct (decide (q = p)) as [->|Hne]; [|by intuition]. rewrite Ep in E. injection E as <- <-. rewrite elem_of_app, list_elem_of_singleton. by intuition.
  - split; [by intros ?%elem_of_nil|]. intros [?%elem_of_nil|[-> _]]; [done|by rewrite Ep in E].
Qed.

Lemma graft_loop g p c pp l k : g !! p = Some (pp, l) -> below g c p -> ~ height (graft p c l g) k c.
Proof.
  intros Ep Hb Hh. assert (Hb' : below (graft p c l g) c p) by (eapply below_sub; [|exact Hb]; intros q x Hx; by eapply kids_graft; [|left]).
  assert (Hk : c ∈ kids (graft p c l g) p) by (eapply kids_graft; [exact Ep|by right]).
  eapply height_no_loop; [eapply height_below; [exact Hh|exact Hb']|exact Hk|exact Hb'].
Qed.

Lemma height_kids g g' k p : (forall q, below g p q -> snd <$> g' !! q = snd <$> g !! q) -> height g k p -> height g' k p.
Proof.
  revert p. induction k as [|k IH]; [done|]. intros p H (par & l & E & Hl). pose proof (H p (below_refl g p)) as Hp. rewrite E in Hp.
  destruct (g' !! p) as [[par' l']|] eqn:E'; [|done]. cbn in Hp. injection Hp as ->. exists par', l. split; [done|].
  rewrite Forall_forall in *. intros c Hc. apply IH; [|by apply Hl]. intros q Hq. apply H. eapply below_kid; [|exact Hq]. by rewrite (kids_some _ _ _ _ E).
Qed.

Lemma graft_height g p c pp l k : g !! p = Some (pp, l) -> ~ below g c p -> height g k c -> height (graft p c l g) k c.
Proof.
  intros Ep Hb. apply height_kids. intros q Hq. rewrite lookup_graft. destruct (g !! q) as [[par l0]|]; [|done]. cbn. rewrite decide_False; [done|]. by intros ->.
Qed.

(** Calls like the updates of the sibling links. *)
Record same_but_siblings (s s' : scene) : Prop := { sb_kept : kept s s'; sb_poses : poses (store s') = poses (store s) }.
#[export] Instance same_but_siblings_refl : Reflexive same_but_siblings.
Proof. by constructor. Qed.

Lemma upd_plain_run s s' p f : same_but_siblings s s' -> plain f -> (forall n, pose (f n) = pose n) -> is_Some (store s !! p) ->
  exists s'', upd p f s' = Some (tt, s'') /\ same_but_siblings s s''.
Proof.
  intros [K Ps] Hf Hpo [n E]. assert (E' : is_Some (store s' !! p)).
  { pose proof (shape_lookup _ _ _ E) as El. rewrite <- (kp_shape _ _ K) in El. apply shape_inv in El as (n' & -> & _). done. }
  destruct E' as [n' E']. eexists. split; [by apply upd_run|]. constructor.
  - etransitivity; [exact K|]. destruct (Hf n'). by apply (kept_put _ _ n').
  - rewrite <- Ps. cbn [store set_store]. unfold poses. by apply (fmap_put_same pose _ p n').
Qed.

Lemma live_kept s s' p : kept s s' -> is_Some (store s !! p) -> is_Some (store s' !! p).
Proof. intros K [n E]. pose proof (shape_lookup _ _ _ E) as El. rewrite <- (kp_shape _ _ K) in El. apply shape_inv in El as (n' & -> & _). done. Qed.

(** Linking a detached node to a parent with room: the state before the final
    [node_mark_dirty]. *)
Lemma add_child_links s p c np nc : forest (shape_of (store s)) -> store s !! p = Some np -> store s !! c = Some nc -> n_parent nc = 0 ->
  (length (n_children np) < 64)%nat ->
  exists s4, relinked (graft p c (n_children np) (shape_of (store s))) s s4 /\ poses (store s4) = poses (store s)
    /\ node_add_child p c s = (node_mark_dirty c (Z.lor NODE_DIRTY_TRANSFORM NODE_DIRTY_LAYOUT) ;;; mret_ true) s4.
Proof.
  intros F Ep Ec Hpar Hlen. pose proof (shape_lookup _ _ _ Ep) as Lp. pose proof (shape_lookup _ _ _ Ec) as Lc.
  assert (Hp : p <> 0) by (apply (nonnull _ F); by rewrite Lp). assert (Hc : c <> 0) by (apply (nonnull _ F); by rewrite Lc).
  unfold node_add_child. rewrite (proj2 (Z.eqb_neq p 0) Hp), (proj2 (Z.eqb_neq c 0) Hc). cbn [orb]. unfold mbind_ at 1, nd at 1. rewrite Ep.
  rewrite (proj2 (Nat.leb_gt NODE_MAX_CHILDREN _) Hlen). unfold mbind_ at 1, nd at 1. rewrite Ec, Hpar. cbn [Z.eqb negb]. unfold mbind_ at 1. rewrite (upd_run _ _ _ _ Ec).
  set (s1 := set_store _ s).
  pose proof (relinked_put (fun '(_, l) => (p, l)) (at_parent p) s s c nc ltac:(by apply kept_relinked) Ec eq_refl eq_refl) as R1. fold s1 in R1. fold (with_parent c p (shape_of (store s))) in R1.
  assert (Hlive : forall q, is_Some (store s !! q) -> is_Some (store s1 !! q)).
  { intros q Hq. unfold s1. cbn [store set_store]. destruct (decide (q = c)) as [->|]; [by rewrite lookup_insert_eq|by rewrite lookup_insert_ne]. }
  assert (Hp1 : exists np1, store s1 !! p = Some np1 /\ n_children np1 = n_children np).
  { destruct (Hlive p ltac:(by rewrite Ep)) as [np1 E1]. exists np1. split; [done|]. pose proof (shape_lookup _ _ _ E1) as L1. rewrite (rl_shape _ _ _ R1), lookup_with_parent, Lp in L1. by injection L1. }
  destruct Hp1 as (np1 & Ep1 & Ech). unfold mbind_ at 1, nd at 1. rewrite Ep1, Ech.
  assert (H2 : exists s2, match last (n_children np) with Some l => upd l (at_next c) ;;; upd c (at_prev l) | None => mret_ tt end s1 = Some (tt, s2) /\ same_but_siblings s1 s2).
  { destruct (last (n_children np)) as [l|] eqn:El; [|by exists s1]. apply last_Some in El as [l0 El].
    destruct (fo_child _ F _ _ _ l Lp) as [ll Ell]; [rewrite El; apply elem_of_app; right; by left|]. apply shape_inv in Ell as (nl & Enl & _).
    destruct (upd_plain_run s1 s1 l (at_next c)) as (t & Et & Kt); [done|intros ?; by split|done|apply Hlive; by rewrite Enl|].
    destruct (upd_plain_run s1 t c (at_prev l)) as (t2 & Et2 & Kt2); [done|intros ?; by split|done|apply Hlive; by rewrite Ec|]. exists t2. unfold mbind_. by rewrite Et, Et2. }
  destruct H2 as (s2 & E2 & K2). unfold mbind_ at 1. rewrite E2.
  destruct (upd_plain_run s1 s2 c (at_next 0) K2) as (s3 & E3 & [K3 P3]); [intros ?; by split|done|apply Hlive; by rewrite Ec|]. unfold mbind_ at 1. rewrite E3.
  pose proof (relinked_kept _ _ _ _ R1 K3) as R3. destruct (live_kept _ _ p K3 ltac:(by rewrite Ep1)) as [n4 E4].
  assert (Ech4 : n_children n4 = n_children np).
  { pose proof (shape_lookup _ _ _ E4) as L4. rewrite (kp_shape _ _ K3), (shape_lookup _ _ _ Ep1), Ech in L4. by injection L4. }
  unfold mbind_ at 1. rewrite (upd_run _ _ _ _ E4). rewrite Ech4. eexists. split; [|split; [|done]].
  2: { cbn [store set_store]. transitivity (poses (store s3)); [unfold poses; by apply (fmap_put_same pose _ p n4)|]. rewrite P3. unfold s1. cbn [store set_store]. unfold poses. by apply (fmap_put_same pose _ c nc). }
  pose proof (relinked_put (fun '(par, _) => (par, n_children np ++ [c])) (at_children (n_children np ++ [c])) s s3 p n4) as R4. rewrite (rl_shape _ _ _ R3) in R4. exact (R4 R3 E4 eq_refl eq_refl).
Qed.

(** Adding a detached node to a node with room returns and makes it the last child,
    unless it would hang below itself. *)
Theorem node_add_child_returns s p c np nc : forest (shape_of (store s)) -> store s !! p = Some np -> store s !! c = Some nc -> n_parent nc = 0 ->
  (length (n_children np) < 64)%nat -> ~ below (shape_of (store s)) c p ->
  exists s', node_add_child p c s = Some (true, s') /\ shape_of (store s') = graft p c (n_children np) (shape_of (store s)).
Proof.
  intros F Ep Ec Hpar Hlen Hb. destruct (add_child_links s p c np nc F Ep Ec Hpar Hlen) as (s4 & R & _ & ->). pose proof (shape_lookup _ _ _ Ep) as Lp.
  destruct (mark_dirty_returns (tree_fuel s4) c (Z.lor NODE_DIRTY_TRANSFORM NODE_DIRTY_LAYOUT) s4) as [s5 E5].
  { rewrite (rl_shape _ _ _ R). unfold tree_fuel. rewrite <- size_shape, (rl_shape _ _ _ R). apply height_S. eapply height_size. eapply graft_height; [exact Lp|exact Hb|].
    apply forest_height; [done|]. by rewrite (shape_lookup _ _ _ Ec). }
  exists s5. unfold mbind_, node_mark_dirty. rewrite E5. split; [done|]. by rewrite (kp_shape _ _ (mark_dirty_kept _ _ _ _ _ _ E5)), (rl_shape _ _ _ R).
Qed.

(** Adding a node below itself links it into a loop and never returns: the marking
    of its subtree does not end, however long it runs. *)
Theorem node_add_child_loops s p c np nc : forest (shape_of (store s)) -> store s !! p = Some np -> store s !! c = Some nc -> n_parent nc = 0 ->
  (length (n_children np) < 64)%nat -> below (shape_of (store s)) c p ->
  exists s4, node_add_child p c s = (node_mark_dirty c (Z.lor NODE_DIRTY_TRANSFORM NODE_DIRTY_LAYOUT) ;;; mret_ true) s4
    /\ forall fuel, mark_dirty fuel c (Z.lor NODE_DIRTY_TRANSFORM NODE_DIRTY_LAYOUT) s4 = None.
Proof.
  intros F Ep Ec Hpar Hlen Hb. destruct (add_child_links s p c np nc F Ep Ec Hpar Hlen) as (s4 & R & _ & E). exists s4. split; [exact E|]. intros fuel.
  destruct (mark_dirty fuel c _ s4) as [[u s5]|] eqn:Em; [|done]. exfalso. pose proof (shape_lookup _ _ _ Ep) as Lp. pose proof (shape_lookup _ _ _ Ec) as Lc.
  assert (Hc : c <> 0) by (apply (nonnull _ F); by rewrite Lc).
  eapply (graft_loop (shape_of (store s)) p c _ (n_children np) fuel Lp Hb). rewrite <- (rl_shape _ _ _ R). eapply mark_dirty_height; [|exact Hc| |exact Em]; [|done].
  intros q x Hx ->. rewrite (rl_shape _ _ _ R) in Hx. apply (kids_graft _ _ _ _ _ _ _ Lp) in Hx as [Hx|[_ <-]]; [|done].
  destruct (forest_kid _ F _ _ Hx) as [lx Ex]. by rewrite (fo_null _ F) in Ex.
Qed.
