(* ===== verification/SceneFrame.v ===== *)
(** * A frame: positions, drawing and the mouse

    The pass over the transforms and the drawing pass walk the tree with an explicit
    stack of 1024 entries; on a forest of at most that many nodes they reach every
    node.  Hit testing, a recursion from the last child to the first, agrees with the
    order of drawing. *)

From Stdlib Require Import ZArith Lia.
From stdpp Require Import base numbers list gmap.
From S2P Require Import Prelude Kheap Geom Scene SceneTree SceneInv.

(** ** Walks with a stack *)

Lemma preorder_stable g k k' p : height g k p -> (k <= k')%nat -> preorder g k' p = preorder g k p.
Proof.
  revert k' p. induction k as [|k IH]; [done|]. intros [|k'] p H Hk; [lia|]. cbn [preorder]. f_equal.
  assert (Hc : forall c, c ∈ kids g p -> preorder g k' c = preorder g k c) by (intros c Hc; apply IH; [by eapply height_kid|lia]).
  clear H. revert Hc. generalize (kids g p) as l. induction l as [|c l IHl]; intros Hc; [done|]. rewrite !bind_cons, Hc by by left. f_equal. apply IHl. intros; apply Hc. by right.
Qed.
Lemma preorder_unfold g k p : height g k p -> preorder g k p = p :: (kids g p ≫= preorder g k).
Proof. intros H. rewrite <- (preorder_stable g k (S k) p H) by lia. done. Qed.

Definition entries (g : shape) (k : nat) (st : list Z) : list Z := st ≫= preorder g k.

Lemma length_entries g k st : Forall (height g k) st -> (length st <= length (entries g k st))%nat.
Proof.
  induction 1 as [|p st H _ IH]; [done|]. unfold entries in *. rewrite bind_cons, length_app, (preorder_unfold _ _ _ H). cbn [length]. lia.
Qed.

Lemma push_all_fits {A} (es st : list A) : (length es + length st <= STACK_ENTRIES)%nat -> push_all es st = rev es ++ st.
Proof.
  revert st. induction es as [|e es IH]; intros st H; [done|]. cbn [push_all foldl length] in *. rewrite (proj2 (Nat.ltb_lt _ _)) by lia.
  fold (push_all es (e :: st)). rewrite IH by (cbn [length]; lia). cbn [rev]. by rewrite <- app_assoc.
Qed.

Lemma heights_kids g k p : height g k p -> Forall (height g k) (kids g p).
Proof. intros H. apply Forall_forall. intros c Hc. eapply height_below; [exact H|]. eapply below_step; [apply below_refl|done]. Qed.

(** ** Drawing order *)

Definition seen (m : gmap Z gnode) (p : Z) : bool := match m !! p with Some n => n_visible n | None => false end.
(** The visible nodes below visible ones, parents first. *)
Fixpoint visible (m : gmap Z gnode) (k : nat) (p : Z) : list Z :=
  match k with O => [] | S k => if seen m p then p :: (kids (shape_of m) p ≫= visible m k) else [] end.

Lemma visible_stable m k k' p : height (shape_of m) k p -> (k <= k')%nat -> visible m k' p = visible m k p.
Proof.
  revert k' p. induction k as [|k IH]; [done|]. intros [|k'] p H Hk; [lia|]. cbn [visible]. destruct (seen m p); [|done]. f_equal.
  assert (Hc : forall c, c ∈ kids (shape_of m) p -> visible m k' c = visible m k c) by (intros c Hc; apply IH; [by eapply height_kid|lia]).
  clear H. revert Hc. generalize (kids (shape_of m) p) as l. induction l as [|c l IHl]; intros Hc; [done|]. rewrite !bind_cons, Hc by by left. f_equal. apply IHl. intros; apply Hc. by right.
Qed.
Lemma visible_unfold m k p : height (shape_of m) k p -> visible m k p = if seen m p then p :: (kids (shape_of m) p ≫= visible m k) else [].
Proof. intros H. rewrite <- (visible_stable m k (S k) p H) by lia. done. Qed.

Lemma visible_sub m k p : sublist (visible m k p) (preorder (shape_of m) k p).
Proof.
  revert p. induction k as [|k IH]; intros p; [done|]. cbn [visible preorder]. destruct (seen m p); [|apply sublist_nil_l]. apply sublist_skip.
  generalize (kids (shape_of m) p) as l. induction l as [|c l IHl]; [done|]. rewrite !bind_cons. by apply sublist_app.
Qed.
Lemma visible_sub_list m k l : sublist (l ≫= visible m k) (l ≫= preorder (shape_of m) k).
Proof. induction l as [|c l IH]; [done|]. rewrite !bind_cons. apply sublist_app; [apply visible_sub|done]. Qed.

(** What drawing leaves of a node. *)
Definition painted (cam : camera) (n : gnode) : gnode := at_dirty (n_dirty n &~ NODE_DIRTY_PAINT) (drawn cam n).
Lemma painted_same cam n : links (painted cam n) = links n /\ n_visible (painted cam n) = n_visible n /\ n_world (painted cam n) = n_world n
  /\ n_x (painted cam n) = n_x n /\ n_y (painted cam n) = n_y n /\ n_interactive (painted cam n) = n_interactive n.
Proof. unfold painted, drawn. destruct (n_data n) as [|d t s|d t s|d|d b w h px|d t s pid]; try (destruct (t =? 0)); done. Qed.

(** Stores with the same links and visibility. *)
Definition same_view (m m' : gmap Z gnode) : Prop := shape_of m' = shape_of m /\ forall p, seen m' p = seen m p.
Lemma visible_same m m' k p : same_view m m' -> visible m' k p = visible m k p.
Proof.
  intros [Hs Hv]. revert p. induction k as [|k IH]; intros p; [done|]. cbn [visible]. rewrite Hv, Hs. destruct (seen m p); [|done]. f_equal.
  generalize (kids (shape_of m) p) as l. induction l as [|c l IHl]; [done|]. rewrite !bind_cons, IH. by f_equal.
Qed.
Lemma same_view_put m p n n' : m !! p = Some n -> links n' = links n -> n_visible n' = n_visible n -> same_view m (<[p := n']> m).
Proof.
  intros E Hl Hv. split; [by apply (fmap_put_same links _ p n)|]. intros q. unfold seen. destruct (decide (q = p)) as [->|Hne]; [by rewrite lookup_insert_eq, E|by rewrite lookup_insert_ne].
Qed.

Lemma kids_children m p n : m !! p = Some n -> kids (shape_of m) p = n_children n.
Proof. intros E. by rewrite (kids_some _ _ _ _ (shape_lookup _ _ _ E)). Qed.

Lemma draw_loop_run cam K fuel st s : shape_of (store s) !! 0 = None -> Forall (height (shape_of (store s)) K) st -> NoDup (entries (shape_of (store s)) K st) ->
  (length (entries (shape_of (store s)) K st) <= fuel)%nat -> (length (entries (shape_of (store s)) K st) <= STACK_ENTRIES)%nat ->
  exists s', draw_loop cam fuel st s = Some (st ≫= visible (store s) K, s')
    /\ forall q, store s' !! q = if decide (q ∈ st ≫= visible (store s) K) then painted cam <$> store s !! q else store s !! q.
Proof.
  revert st s. induction fuel as [|fuel IH]; intros [|p st] s H0 Hh Hnd Hf Hr.
  1, 3: exists s; split; [done|]; intros q; rewrite decide_False; [done|apply not_elem_of_nil].
  { apply Forall_cons in Hh as [Hp _]. unfold entries in Hf. rewrite bind_cons, length_app, (preorder_unfold _ _ _ Hp) in Hf. simpl in Hf. lia. }
  apply Forall_cons in Hh as [Hp Hst]. pose proof (height_live _ _ _ Hp) as [[par l] El]. assert (Hp0 : p <> 0) by (intros ->; by rewrite H0 in El).
  apply shape_inv in El as (n & En & _ & _). cbn [draw_loop]. rewrite (proj2 (Z.eqb_neq p 0) Hp0). unfold mbind_ at 1, nd. rewrite En.
  pose proof (kids_children _ _ _ En) as Ek. pose proof (heights_kids _ _ _ Hp) as Hk. rewrite Ek in Hk.
  unfold entries in *. rewrite bind_cons, (preorder_unfold _ _ _ Hp), Ek, <- app_comm_cons, <- bind_app in Hnd, Hf, Hr. apply NoDup_cons in Hnd as [Hpn Hnd]. cbn [length] in Hf, Hr.
  rewrite bind_cons, (visible_unfold _ _ _ Hp), Ek. assert (Es : seen (store s) p = n_visible n) by (unfold seen; by rewrite En). rewrite Es. clear Es. destruct (n_visible n) eqn:Ev; cbn [negb].
  - set (s1 := set_store (<[p := painted cam n]> (store s)) s). destruct (painted_same cam n) as (Hl & Hv & _).
    assert (Hs : same_view (store s) (store s1)) by by apply (same_view_put _ _ n). destruct Hs as [Hs1 Hs2].
    assert (Hlen : (length (n_children n ++ st) <= STACK_ENTRIES)%nat).
    { etransitivity; [apply (length_entries (shape_of (store s)) K); by apply Forall_app_2|]. unfold entries. lia. }
    rewrite push_all_fits by (rewrite length_rev, <- length_app; exact Hlen). rewrite rev_involutive.
    destruct (IH (n_children n ++ st) s1) as (s' & E' & Hq); rewrite ?Hs1; [done|by apply Forall_app_2|done|lia|lia|].
    assert (Ebind : (n_children n ++ st) ≫= visible (store s1) K = (n_children n ++ st) ≫= visible (store s) K).
    { apply list_bind_ext; [|done]. intros q. by apply visible_same. }
    rewrite Ebind in E', Hq. exists s'. unfold mbind_, put, mmodify. fold (painted cam n). fold s1. rewrite E'. unfold mret_. rewrite <- app_comm_cons, bind_app. split; [done|].
    intros q. rewrite Hq, bind_app. unfold s1. cbn [store set_store]. destruct (decide (q = p)) as [->|Hne].
    + rewrite decide_False, lookup_insert_eq, decide_True, En; [done|by left|]. intros Hin. apply Hpn. rewrite <- bind_app in Hin. eapply elem_of_sublist; [exact Hin|apply visible_sub_list].
    + rewrite lookup_insert_ne by done. destruct (decide (q ∈ (n_children n ≫= visible (store s) K) ++ (st ≫= visible (store s) K))); [rewrite decide_True; [done|by right]|].
      rewrite decide_False; [done|]. rewrite elem_of_cons. tauto.
  - cbn [app]. rewrite bind_app in Hnd, Hf, Hr. rewrite length_app in Hf, Hr. apply NoDup_app in Hnd as (_ & _ & Hnd). apply IH; [done|done|done|lia|lia].
Qed.

(** ** Hit testing *)

Definition under (m : gmap Z gnode) (x y : Z) (p : Z) : bool :=
  match m !! p with Some n => (n_interactive n && rect_contains_point (n_bounds n) x y)%bool | None => false end.

Lemma find_app {A} (f : A -> bool) l1 l2 : find f (l1 ++ l2) = match find f l1 with Some x => Some x | None => find f l2 end.
Proof. induction l1 as [|x l1 IH]; [done|]. cbn. by destruct (f x). Qed.

Lemma first_found_run (f : Z -> M scene Z) (h : Z -> option Z) l s : (forall c, c ∈ l -> f c s = Some (default 0 (h c), s)) ->
  (forall c x, c ∈ l -> h c = Some x -> x <> 0) ->
  first_found f l s = Some (default 0 (foldr (fun c r => match h c with Some x => Some x | None => r end) None l), s).
Proof.
  induction l as [|c l IH]; intros Hf Hn; [done|]. cbn [first_found foldr]. unfold mbind_. rewrite Hf by by left. destruct (h c) as [x|] eqn:E; cbn [from_option id].
  - rewrite (proj2 (Z.eqb_neq x 0)) by (apply (Hn c); [by left|done]). done.
  - rewrite Z.eqb_refl. apply IH; intros; [apply Hf|eapply Hn]; try done; by right.
Qed.

Lemma hit_test_run k p x y s : shape_of (store s) !! 0 = None -> height (shape_of (store s)) k p ->
  hit_test k p x y s = Some (default 0 (find (under (store s) x y) (rev (visible (store s) k p))), s).
Proof.
  intros H0. revert p. induction k as [|k IH]; [done|]. intros p Hp. pose proof (height_live _ _ _ Hp) as [[par l] El]. assert (Hp0 : p <> 0) by (intros ->; by rewrite H0 in El).
  apply shape_inv in El as (n & En & _ & _). cbn [hit_test visible]. rewrite (proj2 (Z.eqb_neq p 0) Hp0). unfold mbind_ at 1, nd. rewrite En. unfold seen. rewrite En.
  destruct (n_visible n); cbn [negb]; [|done]. rewrite (kids_children _ _ _ En).
  assert (Hk : forall c, c ∈ rev (n_children n) -> height (shape_of (store s)) k c).
  { intros c Hc. apply list_elem_of_In, in_rev, list_elem_of_In in Hc. eapply height_kid; [exact Hp|]. by rewrite (kids_children _ _ _ En). }
  assert (Hlive : forall q z, find (under (store s) x y) (rev (visible (store s) k q)) = Some z -> z <> 0).
  { intros q z Hz. apply find_some in Hz as [_ Hz]. unfold under in Hz. intros ->. unfold shape_of in H0. rewrite lookup_fmap in H0. by destruct (store s !! 0). }
  unfold mbind_. rewrite (first_found_run _ (fun c => find (under (store s) x y) (rev (visible (store s) k c)))); [|intros c Hc; apply IH; by apply Hk|intros c z _; apply Hlive].
  assert (Ef : forall l, foldr (fun c r => match find (under (store s) x y) (rev (visible (store s) k c)) with Some z => Some z | None => r end) None (rev l)
    = find (under (store s) x y) (rev (l ≫= visible (store s) k))).
  { clear. intros l. induction l as [|c l IH] using rev_ind; [done|]. rewrite rev_app_distr, bind_app. cbn [rev app foldr]. rewrite IH, rev_app_distr, find_app.
    cbn. rewrite app_nil_r. done. }
  rewrite Ef. cbn [rev]. rewrite find_app. destruct (find _ (rev (n_children n ≫= _))) as [z|] eqn:Ez; cbn [from_option id].
  - rewrite (proj2 (Z.eqb_neq z 0)); [done|]. apply find_some in Ez as [_ Hz]. unfold under in Hz. intros ->. unfold shape_of in H0. rewrite lookup_fmap in H0. by destruct (store s !! 0).
  - cbn [Z.eqb negb find]. unfold under. rewrite En. by destruct (_ && _)%bool.
Qed.

(** ** Positions *)

Definition local_transform (n : gnode) : transform := transform_translation (n_x n) (n_y n).
(** A node whose transform is not marked agrees with its parent, which is not marked
    either. *)
Definition settled (m : gmap Z gnode) (n : gnode) : Prop := transform_dirty n = false -> n_parent n <> 0 ->
  exists q, m !! n_parent n = Some q /\ transform_dirty q = false /\ n_world n = transform_concat (local_transform n) (n_world q).
Definition pending (m : gmap Z gnode) : Prop := forall p n, m !! p = Some n -> settled m n.
Definition root_settled (m : gmap Z gnode) (root : Z) : Prop :=
  forall n, m !! root = Some n -> transform_dirty n = false -> n_world n = transform_concat (local_transform n) transform_identity.

Lemma transform_dirty_bit n : transform_dirty n = Z.testbit (n_dirty n) 0.
Proof. unfold transform_dirty. change NODE_DIRTY_TRANSFORM with (Z.shiftl 1 0). by apply land_bit_test. Qed.
Lemma refreshed_clean pw n : transform_dirty n = false -> refreshed pw n = n.
Proof. unfold refreshed. by intros ->. Qed.
Lemma refreshed_dirty pw n : transform_dirty (refreshed pw n) = false.
Proof.
  unfold refreshed. destruct (transform_dirty n) eqn:E; [|done]. rewrite transform_dirty_bit. cbn [n_dirty at_dirty].
  change NODE_DIRTY_TRANSFORM with (Z.shiftl 1 0). rewrite testbit_clear_bit by done. apply andb_false_r.
Qed.
Lemma refreshed_world pw n : transform_dirty n = true -> n_world (refreshed pw n) = transform_concat (local_transform n) pw.
Proof. unfold refreshed. by intros ->. Qed.
Lemma refreshed_same pw n : links (refreshed pw n) = links n /\ n_x (refreshed pw n) = n_x n /\ n_y (refreshed pw n) = n_y n /\ n_visible (refreshed pw n) = n_visible n.
Proof. unfold refreshed. by destruct (transform_dirty n). Qed.

Lemma fst_rev_map {A B} (t : B) (l : list A) : (rev (map (fun c => (c, t)) l)).*1 = rev l.
Proof. induction l as [|c l IH]; [done|]. cbn [map rev]. by rewrite fmap_app, IH. Qed.

Lemma shape_none m p : shape_of m !! p = None <-> m !! p = None.
Proof. unfold shape_of. rewrite lookup_fmap, fmap_None. done. Qed.

Section Pass.
Context (m0 : gmap Z gnode) (root : Z) (F : forest (shape_of m0)) (P : pending m0) (R : root_settled m0 root).
Let g := shape_of m0.
Let K := size g.

(** A node that has been passed. *)
Definition passed (m : gmap Z gnode) (q : Z) : Prop := exists n, m !! q = Some n /\ transform_dirty n = false /\
  ((q = root /\ n_world n = transform_concat (local_transform n) transform_identity)
   \/ (q <> root /\ exists nq, m !! n_parent n = Some nq /\ transform_dirty nq = false /\ n_world n = transform_concat (local_transform n) (n_world nq))).
Definition refreshed_of (n0 n : gnode) : Prop := n = n0 \/ exists pw, n = refreshed pw n0.

Record pass_inv (st : list (Z * transform)) (m : gmap Z gnode) : Prop := {
  pi_nodes : forall q n0, m0 !! q = Some n0 -> exists n, m !! q = Some n /\ refreshed_of n0 n;
  pi_new : forall q, m0 !! q = None -> m !! q = None;
  pi_out : forall q, ~ below g root q -> m !! q = m0 !! q;
  pi_todo : forall e q, e ∈ st -> below g e.1 q -> m !! q = m0 !! q;
  pi_done : forall q, below g root q -> (exists e, e ∈ st /\ below g e.1 q) \/ passed m q;
  pi_entry : forall e, e ∈ st -> below g root e.1 /\ ((e.1 = root /\ e.2 = transform_identity)
    \/ (e.1 <> root /\ exists n q nq, m0 !! e.1 = Some n /\ n_parent n = q /\ m !! q = Some nq /\ transform_dirty nq = false /\ e.2 = n_world nq))
}.

Lemma refreshed_of_clean n0 n : refreshed_of n0 n -> transform_dirty n0 = false -> n = n0.
Proof. intros [->|[pw ->]] H; [done|by apply refreshed_clean]. Qed.
Lemma refreshed_of_same n0 n : refreshed_of n0 n -> links n = links n0 /\ n_x n = n_x n0 /\ n_y n = n_y n0 /\ n_visible n = n_visible n0.
Proof. intros [->|[pw ->]]; [done|apply refreshed_same]. Qed.

Lemma pass_shape st m : pass_inv st m -> shape_of m = g.
Proof.
  intros H. apply map_eq. intros q. unfold g, shape_of. rewrite !lookup_fmap. destruct (m0 !! q) as [n0|] eqn:E.
  - destruct (pi_nodes _ _ H _ _ E) as (n & -> & Hn). cbn. f_equal. by apply refreshed_of_same.
  - by rewrite (pi_new _ _ H _ E).
Qed.

Lemma pass_step p pw rest n m : pass_inv ((p, pw) :: rest) m -> m !! p = Some n -> p ∉ entries g K (n_children n ++ rest.*1) ->
  Forall (height g K) (p :: rest.*1) ->
  pass_inv (map (fun c => (c, n_world (refreshed pw n))) (n_children n) ++ rest) (<[p := refreshed pw n]> m).
Proof.
  intros H En Hp Hh. apply Forall_cons in Hh as [Hhp Hhr]. set (n' := refreshed pw n) in *.
  assert (E0 : m0 !! p = Some n) by (rewrite <- (pi_todo _ _ H (p, pw) p); [done|by left|apply below_refl]).
  destruct (pi_entry _ _ H (p, pw) ltac:(by left)) as [Hbp He]. cbn [fst snd] in *.
  assert (Hkids : kids g p = n_children n) by by apply kids_children.
  assert (Hpar : forall q, q ∈ n_children n -> exists nq, m0 !! q = Some nq /\ n_parent nq = p).
  { intros q Hq. rewrite <- Hkids in Hq. destruct (forest_kid g F p q Hq) as [lq Eq]. apply shape_inv in Eq as (nq & Enq & Hn & _). by exists nq. }
  assert (Hself : n_parent n <> p).
  { intros Hs. pose proof (shape_lookup _ _ _ E0) as L. rewrite Hs in L. assert (p <> 0) by (apply (nonnull _ F); by rewrite L).
    destruct (fo_parent _ F _ _ _ L) as (par & l & L' & Hin); [done|]. rewrite L in L'. injection L' as <- <-.
    eapply height_no_loop; [exact Hhp|by rewrite Hkids|apply below_refl]. }
  (* the passed node *)
  assert (Hpass : passed (<[p := n']> m) p).
  { exists n'. split; [by rewrite lookup_insert_eq|]. split; [apply refreshed_dirty|]. destruct (refreshed_same pw n) as (Hl & Hx & Hy & _). fold n' in Hl, Hx, Hy.
    assert (Hloc : local_transform n' = local_transform n) by (unfold local_transform; by rewrite Hx, Hy). injection Hl as Hlp _.
    destruct He as [[-> ->]|(Hne & n0 & q & nq & En0 & Hq & Enq & Hd & ->)].
    - left. split; [done|]. rewrite Hloc. destruct (transform_dirty n) eqn:Ed; [by apply refreshed_world|]. unfold n'. rewrite refreshed_clean by done. by apply (R n).
    - right. split; [done|]. rewrite E0 in En0. injection En0 as <-. subst q. rewrite Hlp, lookup_insert_ne by done. exists nq. split; [done|]. split; [done|]. rewrite Hloc.
      destruct (transform_dirty n) eqn:Ed; [by apply refreshed_world|]. unfold n'. rewrite refreshed_clean by done.
      assert (Hp0 : n_parent n <> 0).
      { intros Hz. rewrite Hz in Enq. assert (E00 : m0 !! 0 = None) by (apply shape_none, (fo_null _ F)). by rewrite (pi_new _ _ H _ E00) in Enq. }
      destruct (P p n E0 Ed Hp0) as (q0 & Eq0 & Hd0 & Hw). destruct (pi_nodes _ _ H _ _ Eq0) as (nq' & Enq' & Hr). rewrite Enq in Enq'. injection Enq' as <-.
      by rewrite (refreshed_of_clean _ _ Hr Hd0). }
  (* a node read by others does not change unless it was marked *)
  assert (Hread : forall q nq, m !! q = Some nq -> transform_dirty nq = false -> <[p := n']> m !! q = Some nq).
  { intros q nq Eq Hd. destruct (decide (q = p)) as [->|Hne]; [|by rewrite lookup_insert_ne]. rewrite lookup_insert_eq. rewrite En in Eq. injection Eq as <-. unfold n'. by rewrite refreshed_clean. }
  constructor.
  - intros q n0 Eq. destruct (decide (q = p)) as [->|Hne]; [|rewrite lookup_insert_ne by done; by apply (pi_nodes _ _ H)].
    rewrite E0 in Eq. injection Eq as <-. exists n'. rewrite lookup_insert_eq. split; [done|]. right. by exists pw.
  - intros q Eq. rewrite lookup_insert_ne; [by apply (pi_new _ _ H)|]. intros ->. by rewrite E0 in Eq.
  - intros q Hq. rewrite lookup_insert_ne; [by apply (pi_out _ _ H)|]. by intros ->.
  - intros e q He' Hq. rewrite lookup_insert_ne.
    + apply elem_of_app in He' as [He'|He']; [|apply (pi_todo _ _ H e); [by right|done]]. apply list_elem_of_fmap in He' as (c & -> & Hc).
      apply (pi_todo _ _ H (p, pw)); [by left|]. cbn [fst] in *. apply (below_kid g p c); [by rewrite Hkids|exact Hq].
    + intros ->. apply Hp. unfold entries. apply list_elem_of_bind. exists e.1. split.
      * apply elem_of_preorder; [|done]. apply elem_of_app in He' as [He'|He'].
        { apply list_elem_of_fmap in He' as (c & -> & Hc). eapply height_below; [exact Hhp|]. eapply below_step; [apply below_refl|]. by rewrite Hkids. }
        { rewrite Forall_forall in Hhr. apply Hhr. by apply list_elem_of_fmap_2. }
      * apply elem_of_app in He' as [He'|He']; apply elem_of_app; [left; apply list_elem_of_fmap in He' as (c & -> & Hc); done|right; by apply list_elem_of_fmap_2].
  - intros q Hq. destruct (decide (q = p)) as [->|Hne]; [by right|]. destruct (pi_done _ _ H q Hq) as [(e & He' & Hb)|(nq & Enq & Hd & Hcase)].
    + apply elem_of_cons in He' as [->|He']; [|left; exists e; split; [apply elem_of_app; by right|done]]. cbn [fst] in Hb.
      apply (elem_of_preorder g K) in Hb; [|done]. rewrite (preorder_unfold _ _ _ Hhp) in Hb. apply elem_of_cons in Hb as [->|Hb]; [done|].
      apply list_elem_of_bind in Hb as (c & Hcq & Hc). left. exists (c, n_world n'). split; [apply elem_of_app; left; apply list_elem_of_fmap; exists c; by rewrite <- Hkids|].
      cbn [fst]. apply (elem_of_preorder g K); [|done]. eapply height_below; [exact Hhp|]. eapply below_step; [apply below_refl|done].
    + right. exists nq. rewrite lookup_insert_ne by done. split; [done|]. split; [done|]. destruct Hcase as [Hc|(Hr & nr & Er & Hdr & Hw)]; [by left|right]. split; [done|]. exists nr. split; [by apply Hread|done].
  - intros e [He'|He']%elem_of_app.
    + apply list_elem_of_fmap in He' as (c & -> & Hc). cbn [fst snd]. assert (Hbc : below g root c) by (eapply below_step; [exact Hbp|by rewrite Hkids]). split; [done|]. right.
      destruct (Hpar c Hc) as (nc & Enc & Hnc). split.
      * intros ->. eapply (height_no_loop g K p root); [exact Hhp|by rewrite Hkids|done].
      * exists nc, p, n'. rewrite lookup_insert_eq. split_and!; try done. apply refreshed_dirty.
    + destruct (pi_entry _ _ H e ltac:(by right)) as [Hb [Hc|(Hne & n0 & q & nq & E1 & E2 & E3 & E4 & E5)]]; (split; [done|]); [by left|right]. split; [done|]. exists n0, q, nq. split_and!; try done. by apply Hread.
Qed.

Lemma pass_run fuel st s : pass_inv st (store s) -> Forall (height g K) st.*1 -> NoDup (entries g K st.*1) ->
  (length (entries g K st.*1) <= fuel)%nat -> (length (entries g K st.*1) <= STACK_ENTRIES)%nat ->
  exists s', update_loop fuel st s = Some (tt, s') /\ pass_inv [] (store s').
Proof.
  revert st s. induction fuel as [|fuel IH]; intros [|[p pw] st] s Hi Hh Hnd Hf Hr; cbn [fmap list_fmap fst] in *.
  1, 3: by exists s.
  { apply Forall_cons in Hh as [Hp _]. unfold entries in Hf. rewrite bind_cons, length_app, (preorder_unfold _ _ _ Hp) in Hf. simpl in Hf. lia. }
  pose proof Hh as [Hp Hst]%Forall_cons. pose proof (height_live _ _ _ Hp) as [[par l] El]. assert (Hp0 : p <> 0) by (intros ->; unfold g in El; by rewrite (fo_null _ F) in El).
  rewrite <- (pass_shape _ _ Hi) in El. apply shape_inv in El as (n & En & _ & _). cbn [update_loop]. rewrite (proj2 (Z.eqb_neq p 0) Hp0). unfold mbind_ at 1. rewrite (upd_run _ _ _ _ En).
  unfold mbind_, nd. cbn [store set_store]. rewrite lookup_insert_eq. destruct (refreshed_same pw n) as (Hl & _). injection Hl as _ Hch. rewrite Hch.
  pose proof (kids_children _ _ _ En) as Ek. rewrite (pass_shape _ _ Hi) in Ek. pose proof (heights_kids _ _ _ Hp) as Hk. rewrite Ek in Hk.
  unfold entries in Hnd, Hf, Hr. rewrite bind_cons, (preorder_unfold _ _ _ Hp), Ek, <- app_comm_cons, <- bind_app in Hnd, Hf, Hr. apply NoDup_cons in Hnd as [Hpn Hnd]. cbn [length] in Hf, Hr.
  assert (Hlen : (length (n_children n ++ st.*1) <= STACK_ENTRIES)%nat).
  { etransitivity; [apply (length_entries g K); by apply Forall_app_2|]. unfold entries. lia. }
  rewrite push_all_fits by (rewrite length_map; rewrite length_app, length_fmap in Hlen; exact Hlen).
  assert (Hperm : (rev (map (fun c => (c, n_world (refreshed pw n))) (n_children n)) ++ st).*1 ≡ₚ n_children n ++ st.*1).
  { rewrite fmap_app, fst_rev_map. apply Permutation_app_tail. symmetry. apply Permutation_rev. }
  set (s1 := set_store _ s). assert (Hi1 : pass_inv (rev (map (fun c => (c, n_world (refreshed pw n))) (n_children n)) ++ st) (store s1)).
  { pose proof (pass_step p pw st n (store s) Hi En Hpn Hh) as [A1 A2 A0 A3 A4 A5]. set (q := map _ _) in *.
    assert (Hm : forall e, e ∈ rev q ++ st <-> e ∈ q ++ st).
    { intros e. rewrite !elem_of_app, !list_elem_of_In, <- in_rev. done. }
    constructor; [exact A1|exact A2|exact A0| | |].
    - intros e x He. apply A3. by apply Hm.
    - intros x Hx. destruct (A4 x Hx) as [(e & He & Hb)|Hd]; [left; exists e; split; [by apply Hm|done]|by right].
    - intros e He. apply A5. by apply Hm. }
  apply (IH _ s1 Hi1).
  - rewrite Hperm. by apply Forall_app_2.
  - unfold entries. rewrite Hperm. exact Hnd.
  - unfold entries. rewrite Hperm. lia.
  - unfold entries. rewrite Hperm. lia.
Qed.
End Pass.

(** From the root, with the identity. *)
Lemma update_transforms_run s root : forest (shape_of (store s)) -> pending (store s) -> root_settled (store s) root -> is_Some (store s !! root) ->
  (size (store s) <= STACK_ENTRIES)%nat ->
  exists s', node_update_transforms root transform_identity s = Some (tt, s') /\ pass_inv (store s) root [] (store s').
Proof.
  intros F P R Hroot Hsize. assert (Hh : height (shape_of (store s)) (size (shape_of (store s))) root).
  { apply forest_height; [done|]. destruct Hroot as [n E]. by rewrite (shape_lookup _ _ _ E). }
  pose proof (length_preorder _ F _ _ Hh) as Hlen. rewrite size_shape in Hlen at 2. assert (Hr : root <> 0) by (intros ->; destruct Hroot as [n E]; pose proof (shape_lookup _ _ _ E) as L; by rewrite (fo_null _ F) in L).
  destruct (pass_run (store s) root F P R (tree_fuel s) [(root, transform_identity)] s) as (s' & E & Hi).
  - constructor; [intros q n0 E; exists n0; split; [done|by left]|done|done|done| |].
    + intros q Hq. left. exists (root, transform_identity). split; [by left|done].
    + intros e ->%list_elem_of_singleton. split; [apply below_refl|by left].
  - by constructor.
  - unfold entries. cbn. rewrite app_nil_r. by apply NoDup_preorder.
  - unfold entries, tree_fuel. cbn. rewrite app_nil_r. lia.
  - unfold entries. cbn. rewrite app_nil_r. lia.
  - exists s'. unfold node_update_transforms. rewrite (proj2 (Z.eqb_neq root 0) Hr). by split.
Qed.

(** The position of a node: the sum of the positions from the root down to it. *)
Inductive placed (m : gmap Z gnode) (root : Z) : Z -> Z -> Z -> Prop :=
| placed_root n : m !! root = Some n -> placed m root root (n_x n) (n_y n)
| placed_kid q c x y nc : placed m root q x y -> c ∈ kids (shape_of m) q -> m !! c = Some nc -> placed m root c (x + n_x nc) (y + n_y nc).

Definition on_canvas (m : gmap Z gnode) (root : Z) : Prop :=
  (forall p n, m !! p = Some n -> coord (n_x n) /\ coord (n_y n)) /\ forall c x y, placed m root c x y -> coord x /\ coord y.

Lemma placed_below m root c x y : placed m root c x y -> below (shape_of m) root c.
Proof. induction 1 as [|q c x y nc _ IH Hc _]; [apply below_refl|by eapply below_step]. Qed.

(** After the pass every node below the root is at its place. *)
Lemma passed_placed m0 root m : forest (shape_of m0) -> pass_inv m0 root [] m -> on_canvas m0 root ->
  forall c x y, placed m0 root c x y -> exists n0 n, m0 !! c = Some n0 /\ m !! c = Some n /\ refreshed_of n0 n /\ n_world n = transform_translation x y.
Proof.
  intros F H [Hc Hp] c x y Hpl. assert (Hpass : forall q, below (shape_of m0) root q -> passed root m q).
  { intros q Hq. destruct (pi_done _ _ _ _ H q Hq) as [(e & He & _)|]; [by apply elem_of_nil in He|done]. }
  induction Hpl as [n0 E|q c x y nc Hq IH Hk Ec].
  - destruct (pi_nodes _ _ _ _ H _ _ E) as (n & En & Hn). exists n0, n. split_and!; try done. destruct (Hpass root (below_refl _ _)) as (n' & En' & _ & Hw).
    rewrite En in En'. injection En' as <-. destruct Hw as [[_ Hw]|[Hw _]]; [|done]. rewrite Hw. destruct (refreshed_of_same _ _ Hn) as (_ & Hx & Hy & _).
    unfold local_transform. rewrite Hx, Hy. destruct (Hc root n0 E) as [C1 C2]. unfold transform_identity. rewrite concat_translation by (done || split; done). by rewrite !Z.add_0_r.
  - destruct IH as (q0 & nq & Eq0 & Enq & Hnq & Hwq). destruct (pi_nodes _ _ _ _ H _ _ Ec) as (n & En & Hn). exists nc, n. split_and!; try done.
    pose proof (placed_below _ _ _ _ _ Hq) as Hbq. destruct (Hpass c) as (n' & En' & _ & Hw); [by eapply below_step|]. rewrite En in En'. injection En' as <-.
    destruct (forest_kid _ F _ _ Hk) as [lc Elc]. rewrite (shape_lookup _ _ _ Ec) in Elc. injection Elc as Hpar _. destruct (refreshed_of_same _ _ Hn) as (Hl & Hx & Hy & _). injection Hl as Hl _.
    destruct Hw as [[-> _]|[_ (r & Er & _ & Hw)]].
    + exfalso. assert (Hh : height (shape_of m0) (size (shape_of m0)) q) by (apply forest_height; [done|]; by rewrite (shape_lookup _ _ _ Eq0)). by eapply height_no_loop.
    + rewrite Hl, Hpar, Enq in Er. injection Er as <-. rewrite Hw, Hwq. unfold local_transform. rewrite Hx, Hy. destruct (Hc c nc Ec) as [C1 C2]. destruct (Hp q x y Hq) as [D1 D2].
      rewrite concat_translation by done. f_equal; lia.
Qed.
