(* ===== verification/SceneRun.v ===== *)
(** * Frames in every run

    The invariant on the marks of the transforms, kept by every call, and what a
    frame then does: each widget is drawn at the sum of the positions above it, in
    preorder, and the mouse hits the topmost of the drawn widgets under it. *)

From Stdlib Require Import ZArith Lia.
From stdpp Require Import base numbers list gmap.
From S2P Require Import Prelude Kheap Geom Scene SceneTree SceneInv SceneTop SceneFrame.

(** ** Calls that leave the poses alone *)

Lemma still_remove p c : still (node_remove_child p c).
Proof.
  unfold node_remove_child. destruct (_ || _)%bool; [apply still_ret|]. apply still_bind; [apply still_nd|]. intros np. destruct (index_of _ _); [|apply still_ret].
  apply still_bind; [apply still_nd|intros nc]. apply still_bind; [apply still_when; by apply still_upd|intros _].
  apply still_bind; [apply still_nd|intros nc']. apply still_bind; [apply still_when; by apply still_upd|intros _].
  apply still_bind; [by apply still_upd|intros _]. by apply still_upd.
Qed.

(** ** Marking *)

(** The nodes of [P] are marked, nothing else about any node changes. *)
Definition marked (P : Z -> Prop) (s s' : scene) : Prop := forall q n', store s' !! q = Some n' ->
  exists n, store s !! q = Some n /\ links n' = links n /\ n_world n' = n_world n /\ n_x n' = n_x n /\ n_y n' = n_y n
    /\ (transform_dirty n' = true <-> transform_dirty n = true \/ P q).

Lemma marked_trans P Q s1 s2 s3 : marked P s1 s2 -> marked Q s2 s3 -> marked (fun q => P q \/ Q q) s1 s3.
Proof.
  intros H1 H2 q n3 E3. destruct (H2 q n3 E3) as (n2 & E2 & L2 & W2 & X2 & Y2 & D2). destruct (H1 q n2 E2) as (n1 & E1 & L1 & W1 & X1 & Y1 & D1).
  exists n1. split_and!; try congruence. rewrite D2, D1. tauto.
Qed.
Lemma marked_iff P Q s s' : (forall q, P q <-> Q q) -> marked P s s' -> marked Q s s'.
Proof. intros HPQ H q n E. destruct (H q n E) as (n0 & ? & ? & ? & ? & ? & D). exists n0. split_and!; try done. by rewrite D, HPQ. Qed.

Lemma below_cases g p q : below g p q <-> q = p \/ exists c, c ∈ kids g p /\ below g c q.
Proof.
  split; [|intros [->|(c & Hc & Hb)]; [apply below_refl|by eapply below_kid]].
  induction 1 as [|q c Hq IH Hc]; [by left|]. right. destruct IH as [->|(c' & Hc' & Hb')]; [exists c; split; [done|apply below_refl]|].
  exists c'. split; [done|]. by eapply below_step.
Qed.

Lemma transform_dirty_lor d n : transform_dirty (at_dirty (Z.lor (n_dirty n) d) n) = (transform_dirty n || Z.testbit d 0)%bool.
Proof. rewrite !transform_dirty_bit. cbn [n_dirty at_dirty]. by rewrite Z.lor_spec. Qed.

Lemma mark_dirty_marks k p fl s u s' : height (shape_of (store s)) k p -> p <> 0 -> mark_dirty k p fl s = Some (u, s') -> (forall q c, c ∈ kids (shape_of (store s)) q -> c <> 0) ->
  marked (fun q => Z.testbit fl 0 = true /\ below (shape_of (store s)) p q) s s'.
Proof.
  revert p fl s u s'. induction k as [|k IH]; [done|]. intros p fl s u s' Hh Hp. cbn [mark_dirty]. rewrite (proj2 (Z.eqb_neq p 0) Hp). intros H H0.
  minv H as a s1 E. assert (K : kept s s1) by (eapply kept_upd; [|exact E]; intros ?; by split). apply upd_inv in E as (n & En & ->). minv H as n1 s2 E2. apply nd_inv in E2 as [En1 ->].
  cbn [store set_store] in En1. rewrite lookup_insert_eq in En1. injection En1 as <-. cbn [n_children at_dirty] in H. set (s1 := set_store _ s) in *. set (g := shape_of (store s)) in *.
  assert (M1 : marked (fun q => Z.testbit fl 0 = true /\ q = p) s s1).
  { intros q n' Eq. cbn [store s1 set_store] in Eq. destruct (decide (q = p)) as [->|Hne].
    - rewrite lookup_insert_eq in Eq. injection Eq as <-. exists n. split_and!; try done. rewrite transform_dirty_lor, orb_true_iff. tauto.
    - rewrite lookup_insert_ne in Eq by done. exists n'. split_and!; try done. tauto. }
  assert (Hk : kids g p = n_children n) by by apply kids_children.
  assert (Htest : negb (Z.land fl NODE_DIRTY_TRANSFORM =? 0) = Z.testbit fl 0) by (change NODE_DIRTY_TRANSFORM with (Z.shiftl 1 0); by apply land_bit_test). rewrite Htest in H.
  destruct (Z.testbit fl 0); cbn [mwhen] in H.
  2: { injection H as _ <-. eapply marked_iff; [|exact M1]. intros q. split; by intros [? _]. }
  assert (Hloop : forall l t t', kept s t -> (forall c, c ∈ l -> c ∈ kids g p) -> meach (fun c => mark_dirty k c NODE_DIRTY_TRANSFORM) l t = Some (u, t') -> marked (fun q => exists c, c ∈ l /\ below g c q) t t').
  { clear -IH Hh H0. induction l as [|c l IHl]; intros t t' Kt Hl Ht; cbn [meach] in Ht.
    - injection Ht as _ <-. intros q n' Eq. exists n'. split_and!; try done. split; [by left|]. intros [?|(c & Hc%elem_of_nil & _)]; done.
    - minv Ht as a t1 E. pose proof (mark_dirty_kept _ _ _ _ _ _ E) as K1. eapply marked_iff; [|eapply marked_trans; [eapply (IH c); [|by eapply H0, Hl; left|exact E|]|eapply IHl; [|intros x Hx; apply Hl; by right|exact Ht]]].
      + intros q. rewrite (kp_shape _ _ Kt). split.
        * intros [[_ Hb]|(x & Hx & Hb)]; [exists c; split; [by left|done]|exists x; split; [by right|done]].
        * intros (x & [->|Hx]%elem_of_cons & Hb); [by left|right; by exists x].
      + rewrite (kp_shape _ _ Kt). eapply height_kid; [exact Hh|]. apply Hl. by left.
      + rewrite (kp_shape _ _ Kt). exact H0.
      + by transitivity t. }
  eapply marked_iff; [|eapply marked_trans; [exact M1|eapply (Hloop (n_children n)); [exact K|by rewrite Hk|exact H]]].
  intros q. cbv beta. rewrite below_cases, Hk. tauto.
Qed.

Lemma forest_nonnull_kids g : forest g -> forall q c, c ∈ kids g q -> c <> 0.
Proof. intros F q c Hc ->. destruct (forest_kid g F _ _ Hc) as [l E]. by rewrite (fo_null g F) in E. Qed.

Lemma node_mark_dirty_marks p fl s u s' : forest (shape_of (store s)) -> is_Some (store s !! p) -> node_mark_dirty p fl s = Some (u, s') ->
  marked (fun q => Z.testbit fl 0 = true /\ below (shape_of (store s)) p q) s s'.
Proof.
  intros F Hp H. pose proof Hp as [n En]. eapply mark_dirty_marks; [by apply forest_fuel| |exact H|by apply forest_nonnull_kids]. apply (nonnull _ F). by rewrite (shape_lookup _ _ _ En).
Qed.
Lemma node_mark_dirty_still p fl s u s' : Z.testbit fl 0 = false -> forest (shape_of (store s)) -> is_Some (store s !! p) -> node_mark_dirty p fl s = Some (u, s') ->
  poses (store s') = poses (store s).
Proof.
  intros Hfl F Hp H. pose proof (node_mark_dirty_marks _ _ _ _ _ F Hp H) as Hm. pose proof (kp_shape _ _ (mark_dirty_kept _ _ _ _ _ _ H)) as Hs.
  apply map_eq. intros q. unfold poses. rewrite !lookup_fmap. apply (f_equal (lookup q)) in Hs. unfold shape_of in Hs. rewrite !lookup_fmap in Hs.
  destruct (store s' !! q) as [n'|] eqn:E; [|by destruct (store s !! q)]. destruct (Hm q n' E) as (n & En & _ & Hw & Hx & Hy & Hd). rewrite En. cbn. unfold pose. rewrite Hw, Hx, Hy.
  do 2 f_equal. apply eq_true_iff_eq. rewrite Hd, Hfl. intuition congruence.
Qed.

(** ** The invariant *)

Definition agrees (m : gmap Z gnode) (root q : Z) (n : gnode) : Prop := transform_dirty n = false ->
  (q = root -> n_world n = transform_concat (local_transform n) transform_identity)
  /\ (n_parent n <> 0 -> exists r, m !! n_parent n = Some r /\ transform_dirty r = false /\ n_world n = transform_concat (local_transform n) (n_world r)).
Definition marks_ok (m : gmap Z gnode) (root : Z) : Prop := forall q n, m !! q = Some n -> agrees m root q n.

Lemma marks_ok_pending m root : marks_ok m root -> pending m /\ root_settled m root.
Proof. intros H. split; [intros q n E Hd Hp; by apply (proj2 (H q n E Hd))|intros n E Hd; by apply (proj1 (H root n E Hd))]. Qed.

Lemma pose_agrees m m' root q n n' : poses m' = poses m -> pose n' = pose n -> (n_parent n' = 0 \/ n_parent n' = n_parent n) -> agrees m root q n -> agrees m' root q n'.
Proof.
  intros Hm Hp Hpar H Hd. injection Hp as Hw Hx Hy Hdd. rewrite Hdd in Hd. destruct (H Hd) as [H1 H2]. unfold local_transform in *. rewrite Hw, Hx, Hy. split; [done|]. intros Hnz.
  destruct Hpar as [Hz|Hpar]; [done|]. rewrite Hpar in Hnz |- *. destruct (H2 Hnz) as (r & Er & Hdr & ->).
  pose proof (f_equal (lookup (n_parent n)) Hm) as E. unfold poses in E. rewrite !lookup_fmap, Er in E. destruct (m' !! n_parent n) as [r'|]; [|done]. cbn in E. injection E as Ew _ _ Ed.
  exists r'. split; [done|]. split; [congruence|]. by rewrite Ew.
Qed.

(** Calls that leave the poses alone and only detach nodes. *)
Lemma marks_still m m' root : poses m' = poses m ->
  (forall q par l, shape_of m' !! q = Some (par, l) -> par = 0 \/ exists l', shape_of m !! q = Some (par, l')) -> marks_ok m root -> marks_ok m' root.
Proof.
  intros Hm Hs H q n' E. destruct (poses_lookup _ _ _ _ Hm E) as (n & En & Hp). eapply pose_agrees; [exact Hm|exact Hp| |by apply H].
  destruct (Hs q _ _ (shape_lookup _ _ _ E)) as [Hz|[l' Hl]]; [by left|right]. rewrite (shape_lookup _ _ _ En) in Hl. by injection Hl.
Qed.

(** Marking a set that contains everything below it. *)
Lemma marks_marked P s s' root : (forall q n, store s !! q = Some n -> ~ P q -> agrees (store s) root q n) ->
  (forall q n, store s !! q = Some n -> n_parent n <> 0 -> P (n_parent n) -> P q) -> (forall q n, store s !! q = Some n -> is_Some (store s' !! q)) ->
  marked P s s' -> marks_ok (store s') root.
Proof.
  intros Ha Hdown Hlive Hm q n' E Hd. destruct (Hm q n' E) as (n & En & Hl & Hw & Hx & Hy & Hdd). injection Hl as Hpar _.
  assert (HnP : ~ P q) by (intros HP; rewrite (proj2 Hdd (or_intror HP)) in Hd; done).
  assert (Hdn : transform_dirty n = false) by (destruct (transform_dirty n); [rewrite (proj2 Hdd (or_introl eq_refl)) in Hd; done|done]).
  destruct (Ha q n En HnP Hdn) as [H1 H2]. unfold local_transform in *. rewrite Hw, Hx, Hy, Hpar. split; [done|]. intros Hnz. destruct (H2 Hnz) as (r & Er & Hdr & ->).
  destruct (Hlive _ _ Er) as [r' Er']. exists r'. split; [done|]. destruct (Hm _ _ Er') as (r0 & Er0 & _ & Hwr & _ & _ & Hddr). rewrite Er in Er0. injection Er0 as <-. split; [|by rewrite Hwr].
  apply not_true_is_false. intros Ht. apply Hddr in Ht as [Ht|HP]; [by rewrite Ht in Hdr|]. by apply HnP, (Hdown q n).
Qed.

(** ** The calls keep it *)

Record run_inv (root : Z) (s : scene) : Prop := {
  ri_scene : scene_inv s;
  ri_marks : marks_ok (store s) root;
  ri_root : exists l, shape_of (store s) !! root = Some (0, l)
}.

Lemma live_shape s p : is_Some (store s !! p) <-> is_Some (shape_of (store s) !! p).
Proof. unfold shape_of. by rewrite lookup_fmap, fmap_is_Some. Qed.

(** A call that keeps the poses and the parents, or detaches. *)
Lemma run_inv_still root s s' : scene_inv s' -> poses (store s') = poses (store s) ->
  (forall q par l, shape_of (store s') !! q = Some (par, l) -> par = 0 \/ exists l', shape_of (store s) !! q = Some (par, l')) -> run_inv root s -> run_inv root s'.
Proof.
  intros Hi Hp Hs [_ Hm [l Hr]]. constructor; [done|by eapply marks_still|].
  assert (Hl : is_Some (store s' !! root)).
  { pose proof (f_equal (lookup root) Hp) as E. unfold poses in E. rewrite !lookup_fmap in E. apply shape_inv in Hr as (n & En & _). rewrite En in E. by destruct (store s' !! root). }
  destruct Hl as [n En]. pose proof (shape_lookup _ _ _ En) as L. destruct (Hs _ _ _ L) as [Hz|[l' Hl']]; [rewrite Hz in L; by eexists|].
  rewrite Hr in Hl'. injection Hl' as Hz _. rewrite <- Hz in L. by eexists.
Qed.
Lemma run_inv_kept root s s' : kept s s' -> poses (store s') = poses (store s) -> run_inv root s -> run_inv root s'.
Proof.
  intros K Hp Hi. apply (run_inv_still root s); [by eapply kept_inv, Hi|done| |done]. intros q par l. rewrite (kp_shape _ _ K). intros E. right. by eexists.
Qed.

Lemma widget_run ty name x y w h data root s p s' : allocates data -> widget ty name x y w h data s = Some (p, s') -> run_inv root s -> run_inv root s'.
Proof.
  intros Ha H [Hi Hm [l Hr]]. destruct (widget_inv _ _ _ _ _ _ _ _ _ _ Ha H Hi) as (Hi' & Hnew & n & Es & Hpar & _ & Hd).
  assert (Hroot : root <> p) by (intros ->; apply shape_inv in Hr as (n0 & E0 & _); by rewrite Hnew in E0).
  constructor; [done| |exists l; rewrite Es; unfold shape_of in *; rewrite fmap_insert; by rewrite lookup_insert_ne].
  intros q n'. rewrite Es. destruct (decide (q = p)) as [->|Hne].
  - rewrite lookup_insert_eq. intros [= <-] Hdirty. exfalso. unfold transform_dirty in Hdirty. rewrite Hd in Hdirty. done.
  - rewrite lookup_insert_ne by done. intros E Hdirty. destruct (Hm q n' E Hdirty) as [H1 H2]. split; [done|]. intros Hnz. destruct (H2 Hnz) as (r & Er & Hdr & Hw). exists r.
    rewrite lookup_insert_ne; [done|]. intros ->. by rewrite Hnew in Er.
Qed.

Lemma parent_below g p q par l : forest g -> g !! q = Some (par, l) -> par <> 0 -> below g p par -> below g p q.
Proof. intros F E Hn Hb. destruct (fo_parent g F _ _ _ E Hn) as (pp & lp & Ep & Hq). eapply below_step; [exact Hb|]. by rewrite (kids_some _ _ _ _ Ep). Qed.

Lemma add_child_run p c root s b s' : node_add_child p c s = Some (b, s') -> c <> root -> run_inv root s -> run_inv root s'.
Proof.
  intros H Hc [Hi Hm [l Hr]]. pose proof (add_child_ok _ _ _ _ _ H Hi) as Hi'.
  destruct (add_child_inv _ _ _ _ _ H (sc_forest _ Hi)) as [[_ ->]|(-> & _ & pp & lp & lc & Ep & Ec & Hlen & R & _)]; [by constructor; [| |exists l]|].
  apply shape_inv in Ep as (np & Enp & _ & Hch). apply shape_inv in Ec as (nc & Enc & Hpar & _). rewrite <- Hch in Hlen, R.
  destruct (add_child_links s p c np nc (sc_forest _ Hi) Enp Enc Hpar Hlen) as (s4 & R4 & P4 & E). rewrite E in H. minv H as u s5 Em. injection H as <-.
  pose proof (kp_shape _ _ (mark_dirty_kept _ _ _ _ _ _ Em)) as Ks. assert (F4 : forest (shape_of (store s4))) by (rewrite <- Ks; apply Hi').
  assert (L4 : forall q, shape_of (store s4) !! q = (fun '(par, l0) => (if decide (q = c) then p else par, if decide (q = p) then n_children np ++ [c] else l0)) <$> shape_of (store s) !! q) by (intros q; by rewrite (rl_shape _ _ _ R4), lookup_graft).
  assert (Hlc : is_Some (store s4 !! c)) by (apply live_shape; rewrite L4, (shape_lookup _ _ _ Enc); done).
  constructor; [done| |exists (if decide (root = p) then n_children np ++ [c] else l); rewrite (rl_shape _ _ _ R), lookup_graft, Hr; cbn; by rewrite decide_False].
  eapply (marks_marked (fun q => Z.testbit (Z.lor NODE_DIRTY_TRANSFORM NODE_DIRTY_LAYOUT) 0 = true /\ below (shape_of (store s4)) c q)); [| | |by eapply node_mark_dirty_marks].
  - intros q n4 E4 HnP. destruct (poses_lookup _ _ _ _ P4 E4) as (n & En & Hp). eapply pose_agrees; [exact P4|exact Hp| |by apply Hm]. right.
    pose proof (shape_lookup _ _ _ E4) as L. rewrite L4, (shape_lookup _ _ _ En) in L. cbn in L. destruct (decide (q = c)) as [->|]; [|by injection L].
    exfalso. apply HnP. split; [done|apply below_refl].
  - intros q n E4 Hnz [_ Hb]. split; [done|]. eapply parent_below; [exact F4|by apply shape_lookup|done|done].
  - intros q n E4. apply live_shape. rewrite Ks. rewrite (shape_lookup _ _ _ E4). done.
Qed.

Lemma remove_child_run p c root s u s' : node_remove_child p c s = Some (u, s') -> run_inv root s -> run_inv root s'.
Proof.
  intros H Hi. apply (run_inv_still root s); [by eapply remove_child_ok, Hi|by eapply still_remove| |done].
  destruct (remove_child_inv _ _ _ _ _ H) as [[-> _]|(pp & l & i & Ep & Ei & R)]; [intros q par l E; right; by eexists|].
  intros q par lq. rewrite (rl_shape _ _ _ R), lookup_prune. destruct (shape_of (store s) !! q) as [[par0 l0]|]; [|done]. cbn. intros [= <- <-].
  destruct (decide (q = c)); [by left|right; by eexists].
Qed.

Lemma raise_run p root s u s' : window_manager_bring_to_front p s = Some (u, s') -> run_inv root s -> run_inv root s'.
Proof.
  intros H Hi. pose proof (bring_to_front_ok _ _ _ _ H (ri_scene _ _ Hi)) as Hi'. unfold window_manager_bring_to_front in H. destruct (p =? 0); [by injection H as _ <-|].
  minv H as n s1 E1. apply nd_inv in E1 as [En ->]. destruct (n_parent n =? 0); [by injection H as _ <-|]. minv H as np s1 E1. apply nd_inv in E1 as [Enp ->].
  destruct (index_of p (n_children np)) as [i|]; [|by injection H as _ <-]. destruct (_ <? _)%nat; [|by injection H as _ <-].
  minv H as u1 s1 E1. assert (P1 : poses (store s1) = poses (store s)) by (eapply still_upd; [|exact E1]; done).
  apply upd_inv in E1 as (n1 & En1 & ->). rewrite Enp in En1. injection En1 as <-. set (s1 := set_store _ s) in *. pose proof (kp_shape _ _ (mark_dirty_kept _ _ _ _ _ _ H)) as Ks.
  assert (F1 : forest (shape_of (store s1))) by (rewrite <- Ks; apply Hi').
  apply (run_inv_still root s); [done| | |done].
  - rewrite <- P1. eapply node_mark_dirty_still; [|exact F1| |exact H]; [done|]. cbn [store s1 set_store]. by rewrite lookup_insert_eq.
  - intros q par l. rewrite Ks. unfold s1. cbn [store set_store]. unfold shape_of. rewrite fmap_insert. intros E. right. destruct (decide (q = n_parent n)) as [->|Hne].
    + rewrite lookup_insert_eq in E. injection E as <- _. exists (n_children np). by apply shape_lookup.
    + rewrite lookup_insert_ne in E by done. by exists l.
Qed.

Lemma destroy_run_inv p n root s u s' : node_destroy p s = Some (u, s') -> store s !! p = Some n -> n_parent n = 0 -> p <> root -> run_inv root s -> run_inv root s'.
Proof.
  intros H En Hpar Hne [Hi Hm [l Hr]]. destruct (node_destroy_run p n s Hi En Hpar) as (s2 & E2 & Hi2 & Hq). rewrite H in E2. injection E2 as _ ->.
  assert (Hroot : ~ below (shape_of (store s)) p root).
  { intros Hb. destruct (below_up _ _ _ Hb (not_eq_sym Hne)) as (r & _ & Hk). destruct (forest_kid _ (sc_forest _ Hi) _ _ Hk) as [lr Er]. rewrite Hr in Er. injection Er as <- _.
    apply kids_elem in Hk as (? & ? & E0 & _). by rewrite (fo_null _ (sc_forest _ Hi)) in E0. }
  assert (Hkeep : forall q n', store s2 !! q = Some n' -> store s !! q = Some n' /\ ~ below (shape_of (store s)) p q).
  { intros q n' E. destruct (Hq q) as [H1 H2]. assert (Hnb : ~ below (shape_of (store s)) p q) by (intros Hb; by rewrite H1 in E). by rewrite <- H2. }
  constructor; [done| |exists l; unfold shape_of in *; rewrite lookup_fmap in *; by rewrite (proj2 (Hq root))].
  intros q n' E. destruct (Hkeep q n' E) as [E' Hnb]. intros Hd. destruct (Hm q n' E' Hd) as [H1 H2]. split; [done|]. intros Hnz. destruct (H2 Hnz) as (r & Er & Hdr & Hw). exists r. split; [|done].
  rewrite (proj2 (Hq _)); [done|]. intros Hb. apply Hnb. eapply parent_below; [apply Hi|by apply shape_lookup|done|done].
Qed.

Lemma close_run p root s u s' : window_close p s = Some (u, s') -> p <> root -> run_inv root s -> run_inv root s'.
Proof.
  unfold window_close. destruct (Z.eqb_spec p 0) as [->|Hp]; [by intros [= _ <-]|]. intros H Hne Hi. minv H as n s1 E1. apply nd_inv in E1 as [En ->]. minv H as u1 s1 E1.
  assert (H1 : run_inv root s1 /\ exists n1, store s1 !! p = Some n1 /\ n_parent n1 = 0).
  { destruct (Z.eqb_spec (n_parent n) 0) as [Hn|Hn]; cbn [negb mwhen] in E1; [injection E1 as _ <-; by eauto|].
    minv E1 as u2 s2 E2. pose proof (mark_dirty_kept _ _ _ _ _ _ E2) as K2. pose proof (shape_lookup _ _ _ En) as Ls.
    destruct (fo_parent _ (sc_forest _ (ri_scene _ _ Hi)) _ _ _ Ls Hn) as (pp & l & Lp & Hc).
    assert (P2 : poses (store s2) = poses (store s)) by (eapply node_mark_dirty_still; [|apply Hi| |exact E2]; [done|apply live_shape; by rewrite Lp]).
    assert (Hi2 := run_inv_kept _ _ _ K2 P2 Hi). split; [by eapply remove_child_run|].
    destruct (remove_child_inv _ _ _ _ _ E1) as [[-> [Hz|[Hz|(pp' & l' & Lp' & Hc')]]]|(pp' & l' & i & Lp' & Ei & R)]; [done|done| |].
    - rewrite (kp_shape _ _ K2), Lp in Lp'. by injection Lp' as _ <-.
    - pose proof (rl_shape _ _ _ R) as Es. apply (f_equal (lookup p)) in Es. rewrite lookup_prune, (kp_shape _ _ K2), Ls in Es. cbn in Es. rewrite decide_True in Es by done.
      apply shape_inv in Es as (n1 & En1 & Hn1 & _). by exists n1. }
  destruct H1 as (Hi1 & n1 & En1 & Hn1). by eapply destroy_run_inv.
Qed.

Lemma move_run p x y root s u s' : node_set_position p x y s = Some (u, s') -> run_inv root s -> run_inv root s'.
Proof.
  intros H Hi. pose proof (move_kept _ _ _ _ _ _ H) as K. unfold node_set_position in H. destruct (p =? 0); [by injection H as _ <-|]. minv H as n s1 E. apply nd_inv in E as [En ->].
  destruct (_ && _)%bool; [by injection H as _ <-|]. minv H as a s1 E. apply upd_inv in E as (n1 & En1 & ->). rewrite En in En1. injection En1 as <-. set (s1 := set_store _ s) in *.
  destruct Hi as [Hsc Hm [l Hr]]. assert (K1 : kept s s1) by by apply (kept_put _ _ n).
  constructor; [by eapply kept_inv|clear K|exists l; by rewrite (kp_shape _ _ K)]. pose proof (sc_forest _ Hsc) as F.
  eapply (marks_marked (fun q => Z.testbit NODE_DIRTY_TRANSFORM 0 = true /\ below (shape_of (store s1)) p q)).
  4: { eapply node_mark_dirty_marks; [by rewrite (kp_shape _ _ K1)| |exact H]. cbn [store s1 set_store]. by rewrite lookup_insert_eq. }
  - intros q n' E HnP. rewrite (kp_shape _ _ K1) in HnP. assert (Hqp : q <> p) by (intros ->; apply HnP; split; [done|apply below_refl]).
    cbn [store s1 set_store] in *. rewrite lookup_insert_ne in E by done. intros Hd. destruct (Hm q n' E Hd) as [H1 H2]. split; [done|]. intros Hnz. destruct (H2 Hnz) as (r & Er & Hdr & Hw). exists r.
    rewrite lookup_insert_ne; [done|]. intros Hpar. apply HnP. split; [done|]. eapply parent_below; [exact F|by apply shape_lookup|done|rewrite <- Hpar; apply below_refl].
  - intros q n' E Hnz [_ Hb]. split; [done|]. eapply parent_below; [by rewrite (kp_shape _ _ K1)|by apply shape_lookup|done|done].
  - intros q n' E. by eapply live_kept; [eapply mark_dirty_kept|].
Qed.

Lemma resize_run p w h root s u s' : node_set_size p w h s = Some (u, s') -> run_inv root s -> run_inv root s'.
Proof.
  intros H Hi. pose proof (resize_kept _ _ _ _ _ _ H) as K. apply (run_inv_kept root s); [done| |done]. unfold node_set_size in H. destruct (p =? 0); [by injection H as _ <-|].
  minv H as n s1 E. apply nd_inv in E as [En ->]. destruct (_ && _)%bool; [by injection H as _ <-|]. minv H as a s1 E.
  assert (P1 : poses (store s1) = poses (store s)) by (eapply still_upd; [|exact E]; done). assert (K1 : kept s s1) by (eapply kept_upd; [|exact E]; intros ?; by split).
  rewrite <- P1. eapply node_mark_dirty_still; [|rewrite (kp_shape _ _ K1); apply Hi| |exact H]; [done|]. eapply live_kept; [exact K1|by rewrite En].
Qed.

Lemma set_pid_run p pid root s u s' : window_node_set_pid p pid s = Some (u, s') -> run_inv root s -> run_inv root s'.
Proof.
  intros H Hi. pose proof (set_pid_ok _ _ _ _ _ H (ri_scene _ _ Hi)) as Hi'. unfold window_node_set_pid in H. minv H as n s1 E. apply nd_inv in E as [En ->].
  destruct (n_data n) as [|d t tx|d t tx|d|d b w h px|d t tx q]; try (by injection H as _ <-). destruct (n_type n =? NODE_WINDOW); [|by injection H as _ <-]. injection H as _ <-.
  apply (run_inv_still root s); [done| | |done]; cbn [store set_store].
  - unfold poses. by apply (fmap_put_same pose _ p n).
  - intros q' par l E. right. exists l. rewrite <- E. unfold shape_of. symmetry. by erewrite (fmap_put_same links _ p n).
Qed.

(** ** Frames *)

Lemma draw_still cam : forall fuel st, still (draw_loop cam fuel st).
Proof.
  induction fuel as [|fuel IH]; intros [|p rest]; cbn [draw_loop]; try (intros s a s'; by intros [= _ <-]). destruct (p =? 0); [apply IH|].
  intros s a s' H. minv H as n s1 E. apply nd_inv in E as [En ->]. destruct (negb (n_visible n)); [by eapply IH|]. minv H as u s1 E. injection E as _ <-. minv H as ps s2 E2. injection H as _ <-.
  rewrite (IH _ _ _ _ E2). cbn [store set_store]. unfold poses. apply (fmap_put_same pose _ p n); [done|]. fold (painted cam n). destruct (painted_same cam n) as (_ & _ & Hw & Hx & Hy & _).
  unfold pose. rewrite Hw, Hx, Hy. f_equal. rewrite !transform_dirty_bit. cbn [painted n_dirty at_dirty]. change NODE_DIRTY_PAINT with (Z.shiftl 1 2). rewrite testbit_clear_bit by done. apply andb_true_r.
Qed.

Lemma pass_marks m0 root m l : forest (shape_of m0) -> marks_ok m0 root -> pass_inv m0 root [] m -> shape_of m0 !! root = Some (0, l) -> marks_ok m root.
Proof.
  intros F Hm H Hr q n E Hd. destruct (decide (q ∈ preorder (shape_of m0) (size (shape_of m0)) root)) as [Hin|Hout].
  - assert (Hh : height (shape_of m0) (size (shape_of m0)) root) by (apply forest_height; [done|by rewrite Hr]).
    apply elem_of_preorder in Hin; [|done]. destruct (pi_done _ _ _ _ H q Hin) as [(e & He & _)|(n' & E' & _ & Hc)]; [by apply elem_of_nil in He|].
    rewrite E in E'. injection E' as <-. destruct Hc as [[-> Hw]|(Hne & Hw)]; (split; [done|]); [|done].
    intros Hnz. exfalso. apply Hnz. destruct (m0 !! root) as [n0|] eqn:E0; [|by apply shape_none in E0; rewrite E0 in Hr]. destruct (pi_nodes _ _ _ _ H _ _ E0) as (n' & E' & Hn).
    rewrite E in E'. injection E' as <-. destruct (refreshed_of_same _ _ Hn) as (Hl & _). injection Hl as Hl _. rewrite Hl. rewrite (shape_lookup _ _ _ E0) in Hr. by injection Hr.
  - assert (Hnb : ~ below (shape_of m0) root q) by (intros Hb; apply Hout; apply elem_of_preorder; [apply forest_height; [done|by rewrite Hr]|done]).
    rewrite (pi_out _ _ _ _ H q Hnb) in E. destruct (Hm q n E Hd) as [H1 H2]. split; [done|]. intros Hnz. destruct (H2 Hnz) as (r & Er & Hdr & Hw). exists r. split; [|done].
    rewrite (pi_out _ _ _ _ H); [done|]. intros Hb. apply Hnb. eapply parent_below; [done|by apply shape_lookup|done|done].
Qed.

Lemma frame_pass root s : run_inv root s -> (size (store s) <= STACK_ENTRIES)%nat ->
  exists s1, node_update_transforms root transform_identity s = Some (tt, s1) /\ kept s s1 /\ run_inv root s1 /\ pass_inv (store s) root [] (store s1).
Proof.
  intros [Hi Hm [l Hr]] Hsz. destruct (marks_ok_pending _ _ Hm) as [P R]. destruct (update_transforms_run s root (sc_forest _ Hi) P R) as (s1 & E & Hp); [apply live_shape; by rewrite Hr|done|].
  pose proof (node_update_kept _ _ _ _ _ E) as K. exists s1. split_and!; [done..| |done]. constructor; [by eapply kept_inv| |exists l; by rewrite (kp_shape _ _ K)].
  eapply pass_marks; [apply Hi|done|done|exact Hr].
Qed.

(** The calls that leave the root of the scene where it is. *)
Definition on_root (root : Z) (c : scene_call) : Prop :=
  match c with AddChild _ c => c <> root | Close p => p <> root | Frame _ r => r = root | _ => True end.

Lemma scene_do_run root c s u s' : call_ok c -> on_root root c -> (size (store s) <= STACK_ENTRIES)%nat -> scene_do c s = Some (u, s') -> run_inv root s -> run_inv root s'.
Proof.
  intros Hc Ho Hsz H Hi. destruct c as [name x y t|name x y w h t|name x y w h|name x y w h t|name w h px|p c|p c|p|p|p x y|p w h|p pid|cam r]; cbn [scene_do call_ok on_root] in *;
    try (apply discard_inv in H as [a H]).
  - by eapply widget_run; [apply label_allocates|exact H|].
  - by eapply widget_run; [apply button_allocates|exact H|].
  - by eapply widget_run; [apply panel_allocates|exact H|].
  - by eapply widget_run; [apply window_allocates|exact H|].
  - destruct Hc as [Hw Hh]. eapply widget_run; [apply (image_allocates w h px); done|exact H|done].
  - by eapply add_child_run.
  - by eapply remove_child_run.
  - by eapply raise_run.
  - by eapply close_run.
  - by eapply move_run.
  - by eapply resize_run.
  - by eapply set_pid_run.
  - subst r. destruct (frame_pass root s Hi Hsz) as (s1 & E1 & _ & Hi1 & _). unfold mbind_ at 1 in H. rewrite E1 in H. apply discard_inv in H as [ps H].
    eapply run_inv_kept; [by eapply node_draw_kept| |exact Hi1]. unfold node_draw_recursive in H. destruct (root =? 0); [by injection H as _ <-|]. destruct (store s1 !! root) as [n|]; [|done].
    destruct (n_visible n); [by eapply draw_still|by injection H as _ <-].
Qed.

(** The states the interface reaches, with at most 1024 nodes. *)
Inductive gui_run (root : Z) : scene -> Prop :=
| gr_start h free live s : heap_inv h free live -> scene_start (no_scene h) = Some (root, s) -> gui_run root s
| gr_call s c u s' : gui_run root s -> call_ok c -> on_root root c -> (size (store s) <= STACK_ENTRIES)%nat -> scene_do c s = Some (u, s') -> gui_run root s'.

Lemma scene_start_run h free live root s : heap_inv h free live -> scene_start (no_scene h) = Some (root, s) -> run_inv root s.
Proof.
  intros Hh H. pose proof (scene_start_ok _ _ _ _ _ Hh H) as Hi. unfold scene_start in H. minv H as a s1 E. unfold scene_graph_init in E. cbn [g_scene no_scene] in E.
  minv E as q s2 E2. destruct (g_kmalloc_inv _ _ _ _ _ _ E2 Hh) as (h' & free' & -> & _ & _); [done|done|]. injection E as _ <-. minv H as r s3 E3. minv H as b s4 E4. injection E4 as _ <-. injection H as <- <-.
  assert (Es : exists id, store s3 = <[r := blank_node id NODE_CANVAS []]> ∅).
  { unfold node_create in E3. minv E3 as r0 t1 F1. minv E3 as id t2 F2. minv E3 as v t3 F3. injection F3 as _ <-. injection E3 as <- <-. exists id. cbn [store set_store]. f_equal.
    unfold take_id in F2. unfold g_kmalloc in F1. destruct (kmalloc _ _); [|done|done]. injection F1 as _ <-. cbn in F2. by injection F2 as _ <-. }
  destruct Es as [id Es]. constructor; [done| |].
  - intros x n. cbn [store set_g_scene]. rewrite Es. destruct (decide (x = r)) as [->|Hne]; [|by rewrite lookup_insert_ne, lookup_empty]. rewrite lookup_insert_eq. intros [= <-] Hd. exfalso. done.
  - exists []. cbn [store set_g_scene]. rewrite Es. unfold shape_of. rewrite fmap_insert. by rewrite lookup_insert_eq.
Qed.
Lemma gui_run_inv root s : gui_run root s -> run_inv root s.
Proof. induction 1 as [h free live s Hh H|s c u s' _ IH Hc Ho Hsz H]; [by eapply scene_start_run|by eapply scene_do_run]. Qed.

(** The place of a widget on the screen. *)
Definition screen_place (cam : camera) (x y : Z) (n : gnode) : rect :=
  rect_make (camera_world_to_screen_x cam x) (camera_world_to_screen_y cam y) (camera_scale cam (n_width n)) (camera_scale cam (n_height n)).
Definition is_widget (n : gnode) : Prop := match n_data n with NoData | ImageData _ _ _ _ _ => False | LabelData _ t _ => t <> 0 | _ => True end.

Lemma placed_of_below m root k c : forest (shape_of m) -> height (shape_of m) k root -> c ∈ visible m k root -> exists x y, placed m root c x y.
Proof.
  intros F Hh Hc. assert (Hb : below (shape_of m) root c) by (apply (elem_of_preorder _ k); [done|]; eapply elem_of_sublist; [exact Hc|apply visible_sub]).
  clear Hc. induction Hb as [|q c Hq (x & y & IH) Hk].
  - pose proof (height_live _ _ _ Hh) as [[par l] E]. apply shape_inv in E as (n & E & _). eexists _, _. by apply placed_root.
  - destruct (forest_kid _ F _ _ Hk) as [lc E]. apply shape_inv in E as (n & E & _). eexists _, _. by eapply placed_kid.
Qed.


(** ** A window with a label *)

(** Positions listed by a closed check. *)
Definition xy (m : gmap Z gnode) (c : Z) : Z * Z := match m !! c with Some n => (n_x n, n_y n) | None => (0, 0) end.
Definition closed_places (m : gmap Z gnode) (root : Z) (ps : list (Z * Z * Z)) : bool :=
  (bool_decide ((root, (xy m root).1, (xy m root).2) ∈ ps)
   && forallb (fun '(q, x, y) => forallb (fun c => bool_decide ((c, x + (xy m c).1, y + (xy m c).2) ∈ ps)) (match m !! q with Some n => n_children n | None => [] end)) ps)%bool.
Lemma closed_places_spec m root ps : closed_places m root ps = true -> forall c x y, placed m root c x y -> (c, x, y) ∈ ps.
Proof.
  intros [Hr Hc]%andb_true_iff c x y. apply bool_decide_eq_true_1 in Hr. induction 1 as [n E|q c x y nc _ IH Hk E]; [unfold xy in Hr; by rewrite E in Hr|].
  rewrite forallb_forall in Hc. specialize (Hc (q, x, y) (proj1 (list_elem_of_In _ _) IH)). cbv beta iota in Hc. rewrite forallb_forall in Hc.
  unfold kids, shape_of in Hk. rewrite lookup_fmap in Hk. destruct (m !! q) as [nq|]; [|by apply elem_of_nil in Hk]. specialize (Hc c (proj1 (list_elem_of_In _ _) Hk)).
  apply bool_decide_eq_true_1 in Hc. unfold xy in Hc. by rewrite E in Hc.
Qed.

(** The calls of a program, one after the other. *)
Fixpoint calls (cs : list scene_call) (s : scene) : option scene :=
  match cs with
  | [] => Some s
  | c :: cs => if (size (store s) <=? STACK_ENTRIES)%nat then match scene_do c s with Some (_, s') => calls cs s' | None => None end else None
  end.
Lemma gui_run_calls root cs s s' : Forall call_ok cs -> Forall (on_root root) cs -> calls cs s = Some s' -> gui_run root s -> gui_run root s'.
Proof.
  intros Hc. revert s. induction Hc as [|c cs Hc _ IH]; intros s Ho; cbn [calls]; [by intros [= <-]|]. inversion_clear Ho as [|? ? Ho1 Ho2].
  destruct (Nat.leb_spec (size (store s)) STACK_ENTRIES) as [Hs|]; [|done]. destruct (scene_do c s) as [[u s1]|] eqn:E; [|done]. intros H Hr.
  eapply IH; [exact Ho2|exact H|]. by eapply gr_call.
Qed.

Definition heap_gui_demo : kheap := kheap_set_start kheap_demo 0x10000.
Definition demo_calls : list scene_call := [Window [] 10 20 100 50 []; AddChild 65568 66296; Label [] 5 6 [104; 105]; AddChild 66296 67144].
Definition demo_places : list (Z * Z * Z) := [(65568, 0, 0); (66296, 10, 20); (67144, 15, 26)].
Definition small (x : Z) : bool := ((0 <=? x) && (x <? 100))%bool.
Definition demo_checks (s : scene) : bool :=
  ((size (store s) <=? STACK_ENTRIES)%nat && closed_places (store s) 65568 demo_places
   && forallb (fun '(_, n) => small (n_x n) && small (n_y n)) (map_to_list (store s))
   && bool_decide (visible (store s) (tree_fuel s) 65568 = [65568; 66296; 67144]))%bool.
Definition demo_runs : bool :=
  match scene_start (no_scene heap_gui_demo) with
  | Some (r, s0) => ((r =? 65568) && match calls demo_calls s0 with Some s => demo_checks s | None => false end)%bool
  | None => false
  end.

Lemma demo_scene : exists s, gui_run 65568 s /\ demo_checks s = true.
Proof.
  assert (H : demo_runs = true) by by_vm. unfold demo_runs in H. destruct (scene_start _) as [[r s0]|] eqn:E; [|done].
  apply andb_true_iff in H as [Hr%Z.eqb_eq H]. subst r. destruct (calls demo_calls s0) as [s|] eqn:Es; [|done]. exists s. split; [|exact H].
  eapply gui_run_calls; [| |exact Es|].
  - by repeat constructor.
  - by repeat constructor.
  - eapply gr_start; [|exact E]. by apply heap_inv_start.
Qed.


(** ** Raising a window leaves its siblings' links behind *)

Definition raise_calls : list scene_call :=
  [Window [] 10 20 100 50 []; AddChild 65568 66296; Window [] 10 20 100 50 []; AddChild 65568 67144;
   Raise 66296; Window [] 10 20 100 50 []; AddChild 65568 67992; Close 66296].
Definition raise_checks (s : scene) : bool :=
  (bool_decide (n_prev <$> store s !! 67144 = Some 66296) && bool_decide (store s !! 66296 = None)
   && bool_decide (n_children <$> store s !! 65568 = Some [67144; 67992])
   && match window_close 67144 s with None => true | _ => false end)%bool.
Definition raise_runs : bool :=
  match scene_start (no_scene heap_gui_demo) with
  | Some (_, s0) => match calls raise_calls s0 with Some s => raise_checks s | None => false end
  | None => false
  end.

(** Three windows; the first is raised before the third opens, and closed: the
    second still names it as its left sibling, and closing the second writes to the
    freed node. *)
Theorem raised_window_dangles : exists s0 s, scene_start (no_scene heap_gui_demo) = Some (65568, s0) /\ gui_run 65568 s /\ calls raise_calls s0 = Some s
  /\ n_prev <$> store s !! 67144 = Some 66296 /\ store s !! 66296 = None /\ n_children <$> store s !! 65568 = Some [67144; 67992] /\ window_close 67144 s = None.
Proof.
  assert (Hroot : fst <$> scene_start (no_scene heap_gui_demo) = Some 65568) by by_vm. assert (H : raise_runs = true) by by_vm. unfold raise_runs in H.
  destruct (scene_start _) as [[r s0]|] eqn:E; [|done]. injection Hroot as ->. destruct (calls raise_calls s0) as [s|] eqn:Es; [|done]. exists s0, s.
  unfold raise_checks in H. apply andb_true_iff in H as [H Hc]. apply andb_true_iff in H as [H H3%bool_decide_eq_true_1]. apply andb_true_iff in H as [H1%bool_decide_eq_true_1 H2%bool_decide_eq_true_1].
  split; [done|]. split; [|split_and!; try done; by destruct (window_close 67144 s)].
  eapply gui_run_calls; [| |exact Es|]; [by repeat constructor|by repeat constructor|eapply gr_start; [|exact E]; by apply heap_inv_start].
Qed.
