(* ===== verification/EventBus.v ===== *)
(** * The event bus ([gui/core/event_bus.c], [gui/core/event_bus.h])

    Events are posted to a ring of 256 cells; a dispatch drains it into a scratch
    array, sorts that by priority and calls the handlers of the matching
    subscribers.  Handlers are C functions known by their address: a call is
    [handle] of the section [Dispatch], which may change the bus and the rest of the
    state.  The operations are those on a bus that exists; with a null pointer they
    return at once. *)

From Stdlib Require Import ZArith Lia.
From stdpp Require Import base numbers list gmap.
From S2P Require Import Prelude.

(** ** Events *)

Inductive gui_event_type_t :=
| GUI_EVENT_NONE | GUI_EVENT_MOUSE_MOVE | GUI_EVENT_MOUSE_DOWN | GUI_EVENT_MOUSE_UP | GUI_EVENT_MOUSE_SCROLL
| GUI_EVENT_KEY_DOWN | GUI_EVENT_KEY_UP | GUI_EVENT_KEY_CHAR | GUI_EVENT_MOUSE_ENTER | GUI_EVENT_MOUSE_LEAVE
| GUI_EVENT_WIN_FOCUS | GUI_EVENT_WIN_BLUR | GUI_EVENT_WIN_CLOSE | GUI_EVENT_WIN_MOVE | GUI_EVENT_WIN_RESIZE
| GUI_EVENT_CANVAS_PAN | GUI_EVENT_CANVAS_ZOOM | GUI_EVENT_NODE_DIRTY | GUI_EVENT_NODE_ADDED | GUI_EVENT_NODE_REMOVED
| GUI_EVENT_FRAME_BEGIN | GUI_EVENT_FRAME_END.
#[export] Instance gui_event_type_eq_dec : EqDecision gui_event_type_t.
Proof. solve_decision. Defined.

Inductive gui_event_priority_t := GUI_PRIORITY_CRITICAL | GUI_PRIORITY_HIGH | GUI_PRIORITY_NORMAL | GUI_PRIORITY_LOW.
#[export] Instance gui_event_priority_eq_dec : EqDecision gui_event_priority_t.
Proof. solve_decision. Defined.
Definition rank (p : gui_event_priority_t) : nat :=
  match p with GUI_PRIORITY_CRITICAL => 0 | GUI_PRIORITY_HIGH => 1 | GUI_PRIORITY_NORMAL => 2 | GUI_PRIORITY_LOW => 3 end.

(** The union of the payloads. *)
Inductive gui_payload :=
| Mouse (x y dx dy button : Z)
| Key (scancode keycode unicode modifiers : Z)
| Generic (a b c d : Z).
Record gui_event := {
  ev_type : gui_event_type_t; ev_priority : gui_event_priority_t; ev_target_id : Z; ev_propagating : bool; ev_payload : gui_payload
}.
(** The bytes of a cleared structure. *)
Definition event0 : gui_event :=
  {| ev_type := GUI_EVENT_NONE; ev_priority := GUI_PRIORITY_CRITICAL; ev_target_id := 0; ev_propagating := false; ev_payload := Generic 0 0 0 0 |}.

(** ** The bus *)

Definition RING_CAPACITY : nat := 256.
Definition MAX_SUBSCRIBERS : nat := 64.

Record subscriber := { sub_id : Z; sub_filter : gui_event_type_t; sub_handler : Z; sub_userdata : Z; sub_active : bool }.
Definition no_subscriber : subscriber := {| sub_id := 0; sub_filter := GUI_EVENT_NONE; sub_handler := 0; sub_userdata := 0; sub_active := false |}.

Record gui_event_bus := {
  bus_ring : list gui_event; bus_head : nat; bus_tail : nat; bus_count : nat;
  bus_pending : list gui_event; bus_pending_count : nat;
  bus_subs : list subscriber; bus_sub_count : nat; bus_next_sub_id : Z;
  bus_stop : bool
}.
Definition with_ring r h t c (b : gui_event_bus) : gui_event_bus :=
  Build_gui_event_bus r h t c (bus_pending b) (bus_pending_count b) (bus_subs b) (bus_sub_count b) (bus_next_sub_id b) (bus_stop b).
Definition with_pending p n (b : gui_event_bus) : gui_event_bus :=
  Build_gui_event_bus (bus_ring b) (bus_head b) (bus_tail b) (bus_count b) p n (bus_subs b) (bus_sub_count b) (bus_next_sub_id b) (bus_stop b).
Definition with_subs s n i (b : gui_event_bus) : gui_event_bus :=
  Build_gui_event_bus (bus_ring b) (bus_head b) (bus_tail b) (bus_count b) (bus_pending b) (bus_pending_count b) s n i (bus_stop b).
Definition with_stop v (b : gui_event_bus) : gui_event_bus :=
  Build_gui_event_bus (bus_ring b) (bus_head b) (bus_tail b) (bus_count b) (bus_pending b) (bus_pending_count b) (bus_subs b) (bus_sub_count b) (bus_next_sub_id b) v.

Definition event_bus_create : gui_event_bus :=
  {| bus_ring := replicate RING_CAPACITY event0; bus_head := 0; bus_tail := 0; bus_count := 0;
     bus_pending := replicate RING_CAPACITY event0; bus_pending_count := 0;
     bus_subs := replicate MAX_SUBSCRIBERS no_subscriber; bus_sub_count := 0; bus_next_sub_id := 1; bus_stop := false |}.

(** ** Subscriptions *)

(** The first inactive slot. *)
Fixpoint free_slot (subs : list subscriber) : option nat :=
  match subs with [] => None | s :: subs => if negb (sub_active s) then Some O else S <$> free_slot subs end.
Definition event_bus_subscribe (type : gui_event_type_t) (handler userdata : Z) (b : gui_event_bus) : Z * gui_event_bus :=
  if handler =? 0 then (0, b) else
  if (MAX_SUBSCRIBERS <=? bus_sub_count b)%nat then (0, b) else
  match free_slot (bus_subs b) with
  | Some i =>
      let s := {| sub_id := bus_next_sub_id b; sub_filter := type; sub_handler := handler; sub_userdata := userdata; sub_active := true |} in
      (sub_id s, with_subs (<[i := s]> (bus_subs b)) (S (bus_sub_count b)) (u32 (bus_next_sub_id b + 1)) b)
  | None => (0, b)
  end.

Fixpoint find_sub (id : Z) (subs : list subscriber) : option nat :=
  match subs with [] => None | s :: subs => if (sub_active s && (sub_id s =? id))%bool then Some O else S <$> find_sub id subs end.
Definition deactivate (s : subscriber) : subscriber :=
  {| sub_id := sub_id s; sub_filter := sub_filter s; sub_handler := sub_handler s; sub_userdata := sub_userdata s; sub_active := false |}.
Definition event_bus_unsubscribe (id : Z) (b : gui_event_bus) : gui_event_bus :=
  if id =? 0 then b else
  match find_sub id (bus_subs b) with
  | Some i => with_subs (alter deactivate i (bus_subs b)) (bus_sub_count b - 1) (bus_next_sub_id b) b
  | None => b
  end.

(** ** Posting *)

Definition event_bus_post (e : gui_event) (b : gui_event_bus) : bool * gui_event_bus :=
  if (RING_CAPACITY <=? bus_count b)%nat then (false, b) else
  (true, with_ring (<[bus_head b := e]> (bus_ring b)) ((bus_head b + 1) mod RING_CAPACITY)%nat (bus_tail b) (S (bus_count b)) b).
Definition event_stop_propagation (b : gui_event_bus) : gui_event_bus := with_stop true b.

Definition high (t : gui_event_type_t) (p : gui_payload) : gui_event :=
  {| ev_type := t; ev_priority := GUI_PRIORITY_HIGH; ev_target_id := 0; ev_propagating := true; ev_payload := p |}.
Definition post (e : gui_event) (b : gui_event_bus) : gui_event_bus := (event_bus_post e b).2.
Definition event_post_mouse_move (x y dx dy : Z) : gui_event_bus -> gui_event_bus := post (high GUI_EVENT_MOUSE_MOVE (Mouse x y dx dy 0)).
Definition event_post_mouse_button (x y button : Z) (pressed : bool) : gui_event_bus -> gui_event_bus :=
  post (high (if pressed then GUI_EVENT_MOUSE_DOWN else GUI_EVENT_MOUSE_UP) (Mouse x y 0 0 button)).
Definition event_post_key (scancode : Z) (pressed : bool) : gui_event_bus -> gui_event_bus :=
  post (high (if pressed then GUI_EVENT_KEY_DOWN else GUI_EVENT_KEY_UP) (Key scancode 0 0 0)).
Definition event_post_node_dirty (id : Z) : gui_event_bus -> gui_event_bus :=
  post {| ev_type := GUI_EVENT_NODE_DIRTY; ev_priority := GUI_PRIORITY_NORMAL; ev_target_id := id; ev_propagating := false; ev_payload := Generic id 0 0 0 |}.

(** ** Dispatch *)

Definition event_at (l : list gui_event) (i : nat) : gui_event := default event0 (l !! i).

(** One round of the insertion sort: [h] is the hole, one behind the index [j]. *)
Fixpoint insert_down (h : nat) (key : gui_event) (arr : list gui_event) : list gui_event :=
  match h with
  | O => <[O := key]> arr
  | S j => if (rank (ev_priority key) <? rank (ev_priority (event_at arr j)))%nat then insert_down j key (<[S j := event_at arr j]> arr)
           else <[S j := key]> arr
  end.
(** [k] rounds from index [i]. *)
Fixpoint sort_rounds (k i : nat) (arr : list gui_event) : list gui_event :=
  match k with O => arr | S k => sort_rounds k (S i) (insert_down i (event_at arr i) arr) end.
Definition sort_pending (arr : list gui_event) (n : nat) : list gui_event := sort_rounds (n - 1) 1 arr.

(** The loop ends when the ring is empty or [pending] full, at most 256 rounds. *)
Fixpoint drain (fuel : nat) (b : gui_event_bus) : gui_event_bus :=
  match fuel with
  | O => b
  | S k =>
      if ((0 <? bus_count b) && (bus_pending_count b <? RING_CAPACITY))%nat%bool then
        drain k (with_ring (bus_ring b) (bus_head b) ((bus_tail b + 1) mod RING_CAPACITY)%nat (bus_count b - 1)
                  (with_pending (<[bus_pending_count b := event_at (bus_ring b) (bus_tail b)]> (bus_pending b)) (S (bus_pending_count b)) b))
      else b
  end.

Definition matches (s : subscriber) (e : gui_event) : bool :=
  (sub_active s && (bool_decide (sub_filter s = GUI_EVENT_NONE) || bool_decide (sub_filter s = ev_type e)))%bool.

Section Dispatch.
Context {W : Type} (handle : Z -> gui_event -> Z -> M (gui_event_bus * W) unit).

Definition in_bus (f : gui_event_bus -> gui_event_bus) : M (gui_event_bus * W) unit := mmodify (fun s => (f s.1, s.2)).
Definition the_bus {A} (f : gui_event_bus -> A) : M (gui_event_bus * W) A := mgets (fun s => f s.1).

(** The slots from [si] on for the event in cell [ei]; [n] counts the calls. *)
Fixpoint deliver (k si ei : nat) (n : Z) : M (gui_event_bus * W) Z :=
  match k with
  | O => mret_ n
  | S k =>
      s <-- the_bus (fun b => default no_subscriber (bus_subs b !! si)) ;;
      e <-- the_bus (fun b => event_at (bus_pending b) ei) ;;
      if negb (matches s e) then deliver k (S si) ei n else
      handle (sub_handler s) e (sub_userdata s) ;;;
      stop <-- the_bus bus_stop ;;
      if stop then mret_ (u32 (n + 1)) else deliver k (S si) ei (u32 (n + 1))
  end.
(** [pending_count] is at most 256. *)
Fixpoint deliver_all (k ei : nat) (n : Z) : M (gui_event_bus * W) Z :=
  match k with
  | O => mret_ n
  | S k =>
      m <-- the_bus bus_pending_count ;;
      if (ei <? m)%nat then
        in_bus (with_stop false) ;;;
        n <-- deliver MAX_SUBSCRIBERS 0 ei n ;;
        deliver_all k (S ei) n
      else mret_ n
  end.
Definition event_bus_dispatch : M (gui_event_bus * W) Z :=
  in_bus (fun b => drain RING_CAPACITY (with_pending (bus_pending b) 0 b)) ;;;
  n <-- the_bus bus_pending_count ;;
  if (n =? 0)%nat then mret_ 0 else
  in_bus (fun b => with_pending (sort_pending (bus_pending b) n) n b) ;;;
  deliver_all RING_CAPACITY 0 0.
End Dispatch.

(** ** The ring is a queue *)

Record ring_ok (b : gui_event_bus) : Prop := {
  rk_ring : length (bus_ring b) = RING_CAPACITY; rk_pending : length (bus_pending b) = RING_CAPACITY;
  rk_tail : (bus_tail b < RING_CAPACITY)%nat; rk_count : (bus_count b <= RING_CAPACITY)%nat;
  rk_head : bus_head b = ((bus_tail b + bus_count b) mod RING_CAPACITY)%nat
}.
(** The events posted and not yet drained. *)
Definition queue (b : gui_event_bus) : list gui_event :=
  map (fun i => event_at (bus_ring b) ((bus_tail b + i) mod RING_CAPACITY)%nat) (seq 0 (bus_count b)).

Lemma length_queue b : length (queue b) = bus_count b.
Proof. unfold queue. by rewrite length_map, length_seq. Qed.

Lemma wrap_lt i : (i mod RING_CAPACITY < RING_CAPACITY)%nat.
Proof. apply Nat.mod_upper_bound. unfold RING_CAPACITY. lia. Qed.
Lemma wrap_small i : (i < RING_CAPACITY)%nat -> (i mod RING_CAPACITY = i)%nat.
Proof. apply Nat.mod_small. Qed.
Lemma wrap_apart t i j : (i < j)%nat -> (j - i < RING_CAPACITY)%nat -> ((t + i) mod RING_CAPACITY <> (t + j) mod RING_CAPACITY)%nat.
Proof.
  unfold RING_CAPACITY. intros Hi Hj E. pose proof (Nat.div_mod_eq (t + i) 256). pose proof (Nat.div_mod_eq (t + j) 256). lia.
Qed.
Lemma wrap_step t i : ((t mod RING_CAPACITY + i) mod RING_CAPACITY = (t + i) mod RING_CAPACITY)%nat.
Proof. apply Nat.Div0.add_mod_idemp_l. Qed.

Lemma post_full e b : (RING_CAPACITY <= bus_count b)%nat -> event_bus_post e b = (false, b).
Proof. intros H. unfold event_bus_post. by rewrite (proj2 (Nat.leb_le _ _) H). Qed.

Lemma post_room e b : ring_ok b -> (bus_count b < RING_CAPACITY)%nat ->
  exists b', event_bus_post e b = (true, b') /\ ring_ok b' /\ queue b' = queue b ++ [e]
    /\ bus_subs b' = bus_subs b /\ bus_pending b' = bus_pending b /\ bus_pending_count b' = bus_pending_count b.
Proof.
  intros [H1 H2 H3 H4 H5] H. unfold event_bus_post. rewrite (proj2 (Nat.leb_gt _ _) H). eexists. split; [done|]. split_and!; try done.
  - constructor; cbn [with_ring bus_ring bus_head bus_tail bus_count bus_pending]; rewrite ?length_insert; try done.
    rewrite H5, wrap_step. f_equal. lia.
  - unfold queue. cbn [with_ring bus_ring bus_tail bus_count]. rewrite seq_S, map_app. cbn [map]. f_equal.
    + apply map_ext_in. intros i Hi%in_seq. unfold event_at. rewrite list_lookup_insert_ne; [done|]. rewrite H5. intros E. symmetry in E. revert E. apply wrap_apart; lia.
    + unfold event_at. by rewrite H5, list_lookup_insert_eq by (rewrite H1; apply wrap_lt).
Qed.

(** Posting appends, and drops the event when 256 are waiting. *)
Theorem post_appends e b : ring_ok b ->
  ring_ok (post e b) /\ queue (post e b) = if (length (queue b) <? RING_CAPACITY)%nat then queue b ++ [e] else queue b.
Proof.
  intros Hok. rewrite length_queue. unfold post. destruct (Nat.ltb_spec (bus_count b) RING_CAPACITY) as [H|H].
  - by destruct (post_room e b Hok H) as (b' & -> & Hok' & Hq & _).
  - by rewrite post_full.
Qed.

(** The part of the bus that draining does not touch. *)
Definition same_subs (b b' : gui_event_bus) : Prop :=
  bus_subs b' = bus_subs b /\ bus_sub_count b' = bus_sub_count b /\ bus_next_sub_id b' = bus_next_sub_id b /\ bus_stop b' = bus_stop b.

Lemma drain_spec k b : ring_ok b -> (bus_count b <= k)%nat -> (bus_pending_count b + bus_count b <= RING_CAPACITY)%nat ->
  ring_ok (drain k b) /\ queue (drain k b) = [] /\ same_subs b (drain k b)
  /\ bus_pending_count (drain k b) = (bus_pending_count b + bus_count b)%nat
  /\ take (bus_pending_count (drain k b)) (bus_pending (drain k b)) = take (bus_pending_count b) (bus_pending b) ++ queue b.
Proof.
  revert b. induction k as [|k IH]; intros b Hok Hk Hp.
  - assert (E : bus_count b = O) by lia. cbn [drain]. rewrite E. unfold queue. rewrite E. cbn [seq map]. rewrite Nat.add_0_r, app_nil_r. by split_and!.
  - cbn [drain]. destruct Hok as [H1 H2 H3 H4 H5]. destruct (Nat.ltb_spec 0 (bus_count b)) as [H0|H0].
    2: { cbn [andb]. assert (E : bus_count b = O) by lia. unfold queue. rewrite E. cbn [seq map]. rewrite Nat.add_0_r, app_nil_r. by split_and!. }
    rewrite (proj2 (Nat.ltb_lt _ _)) by lia. cbn [andb]. set (b1 := with_ring _ _ _ _ _).
    assert (Hok1 : ring_ok b1).
    { constructor; cbn [b1 with_ring with_pending bus_ring bus_head bus_tail bus_count bus_pending]; rewrite ?length_insert; try done; [apply wrap_lt|lia|].
      rewrite wrap_step, H5. f_equal. lia. }
    destruct (IH b1 Hok1) as (R & Q & S & P & T); [cbn; lia|cbn; lia|]. split_and!; [done|done|exact S|rewrite P; cbn; lia|]. rewrite T.
    cbn [b1 with_ring with_pending bus_pending bus_pending_count]. unfold queue. cbn [b1 with_ring with_pending bus_ring bus_tail bus_count].
    rewrite (take_S_r _ _ (event_at (bus_ring b) (bus_tail b))) by (apply list_lookup_insert_eq; rewrite H2; lia).
    rewrite take_insert_ge by lia. rewrite <- app_assoc. f_equal. destruct (bus_count b) as [|m]; [lia|]. rewrite Nat.sub_succ, Nat.sub_0_r. cbn [seq map app]. f_equal.
    + f_equal. rewrite Nat.add_0_r. by rewrite wrap_small.
    + rewrite <- seq_shift, map_map. apply map_ext. intros i. f_equal. rewrite wrap_step. f_equal. lia.
Qed.

(** ** The sort is stable *)

Definition at_rank (r : nat) (l : list gui_event) : list gui_event := filter (fun e => rank (ev_priority e) = r) l.
(** The events in the order of their priority, those of the same in the order of [l]. *)
Definition by_priority (l : list gui_event) : list gui_event := at_rank 0 l ++ at_rank 1 l ++ at_rank 2 l ++ at_rank 3 l.

Lemma insert_down_spec l1 l2 key x rest :
  Forall (fun e => (rank (ev_priority key) < rank (ev_priority e))%nat) l2 -> Forall (fun e => (rank (ev_priority e) <= rank (ev_priority key))%nat) l1 ->
  insert_down (length (l1 ++ l2)) key ((l1 ++ l2) ++ x :: rest) = l1 ++ key :: l2 ++ rest.
Proof.
  intros H2 H1. revert x rest. induction l2 as [|e l2 IH] using rev_ind; intros x rest.
  - rewrite app_nil_r. cbn [app]. destruct l1 as [|y l1 _] using rev_ind; [done|]. rewrite length_app, Nat.add_1_r. cbn [insert_down].
    apply Forall_app in H1 as [_ H1]. inversion_clear H1 as [|? ? Hy _].
    assert (E : event_at ((l1 ++ [y]) ++ x :: rest) (length l1) = y) by (unfold event_at; rewrite <- app_assoc; cbn [app]; by rewrite list_lookup_middle).
    rewrite E, (proj2 (Nat.ltb_ge _ _) Hy). replace (S (length l1)) with (length (l1 ++ [y]) + 0)%nat by (rewrite length_app; cbn; lia). by rewrite insert_app_r.
  - apply Forall_app in H2 as [H2 He]. inversion_clear He as [|? ? Hlt _]. rewrite app_assoc, length_app, Nat.add_1_r. cbn [insert_down].
    assert (E : event_at (((l1 ++ l2) ++ [e]) ++ x :: rest) (length (l1 ++ l2)) = e) by (unfold event_at; rewrite <- app_assoc; cbn [app]; by rewrite list_lookup_middle).
    rewrite E, (proj2 (Nat.ltb_lt _ _) Hlt). replace (S (length (l1 ++ l2))) with (length ((l1 ++ l2) ++ [e]) + 0)%nat by (rewrite !length_app; cbn; lia).
    rewrite insert_app_r. cbn [insert list_insert]. rewrite <- app_assoc. cbn [app]. rewrite IH by done. by rewrite <- app_assoc.
Qed.

Lemma at_rank_app r l l' : at_rank r (l ++ l') = at_rank r l ++ at_rank r l'.
Proof. apply filter_app. Qed.
Lemma at_rank_one r e : at_rank r [e] = if decide (rank (ev_priority e) = r) then [e] else [].
Proof. unfold at_rank. rewrite filter_cons, filter_nil. done. Qed.
Lemma at_rank_all r l : Forall (fun e => rank (ev_priority e) = r) (at_rank r l).
Proof. apply Forall_forall. intros e He. by apply list_elem_of_filter in He as [? _]. Qed.

(** The events that go before and behind a new one. *)
Definition before (n : nat) (l : list gui_event) : list gui_event := mjoin (map (fun r => at_rank r l) (seq 0 (S n))).
Definition behind (n : nat) (l : list gui_event) : list gui_event := mjoin (map (fun r => at_rank r l) (seq (S n) (3 - n))).

Lemma by_priority_split p l : by_priority l = before (rank p) l ++ behind (rank p) l.
Proof. unfold by_priority, before, behind. destruct p; cbn [rank seq map mjoin list_join Nat.sub app]; by rewrite ?app_nil_r, <- ?app_assoc. Qed.
Lemma by_priority_snoc l e : by_priority (l ++ [e]) = before (rank (ev_priority e)) l ++ e :: behind (rank (ev_priority e)) l.
Proof.
  unfold by_priority, before, behind. rewrite !at_rank_app, !at_rank_one. destruct (ev_priority e); cbn [rank seq map mjoin list_join Nat.sub decide]; cbn;
    by rewrite ?app_nil_r, <- ?app_assoc.
Qed.
Lemma ranks_in l r0 m P : (forall r, (r0 <= r < r0 + m)%nat -> P r) -> Forall (fun e => P (rank (ev_priority e))) (mjoin (map (fun r => at_rank r l) (seq r0 m))).
Proof.
  revert r0. induction m as [|m IH]; intros r0 H; cbn [seq map mjoin list_join]; [constructor|]. apply Forall_app. split.
  - eapply Forall_impl; [apply at_rank_all|]. intros e ->. apply H. lia.
  - apply IH. intros r Hr. apply H. lia.
Qed.
Lemma before_ranks n l : Forall (fun e => (rank (ev_priority e) <= n)%nat) (before n l).
Proof. apply (ranks_in l 0 (S n) (fun r => (r <= n)%nat)). lia. Qed.
Lemma behind_ranks n l : Forall (fun e => (n < rank (ev_priority e))%nat) (behind n l).
Proof. apply (ranks_in l (S n) (3 - n) (fun r => (n < r)%nat)). lia. Qed.
Lemma length_by_priority l : length (by_priority l) = length l.
Proof.
  induction l as [|e l IH] using rev_ind; [done|]. rewrite by_priority_snoc, !length_app. cbn [length]. rewrite (by_priority_split (ev_priority e)), length_app in IH. lia.
Qed.

Lemma sort_rounds_spec k i l rest : (i + k = length (l ++ rest))%nat -> length l = i ->
  sort_rounds k i (by_priority l ++ rest) = by_priority (l ++ rest).
Proof.
  revert i l rest. induction k as [|k IH]; intros i l rest Hk Hi; cbn [sort_rounds].
  - rewrite length_app in Hk. destruct rest; [by rewrite !app_nil_r|cbn in Hk; lia].
  - destruct rest as [|e rest]; [rewrite app_nil_r in Hk; lia|]. assert (Hl : length (by_priority l) = i) by by rewrite length_by_priority.
    assert (E : event_at (by_priority l ++ e :: rest) i = e) by (unfold event_at; rewrite <- Hl; by rewrite list_lookup_middle). rewrite E.
    rewrite <- Hl at 2. rewrite (by_priority_split (ev_priority e)). rewrite insert_down_spec by (apply before_ranks || apply behind_ranks).
    change (e :: behind ?n l ++ rest) with ((e :: behind n l) ++ rest). rewrite app_assoc, <- by_priority_snoc. rewrite (IH (S i)).
    + by rewrite <- app_assoc.
    + rewrite length_app in Hk. rewrite !length_app. cbn in *. lia.
    + rewrite length_app. cbn. lia.
Qed.

(** [sort_pending] sorts by priority and keeps the order of equal priorities. *)
Theorem sort_pending_stable l rest : sort_pending (l ++ rest) (length l) = by_priority l ++ rest.
Proof.
  unfold sort_pending. destruct l as [|e l]; [done|]. cbn [length]. rewrite Nat.sub_succ, Nat.sub_0_r.
  enough (H : forall k i arr tl, (i + k <= length arr)%nat -> sort_rounds k i (arr ++ tl) = sort_rounds k i arr ++ tl).
  { rewrite H by (cbn; lia). f_equal. replace (e :: l) with (by_priority [e] ++ l) at 1; [by apply sort_rounds_spec|]. unfold by_priority. rewrite !at_rank_one. by destruct (ev_priority e). }
  assert (Hd : forall h key arr tl, (h < length arr)%nat -> insert_down h key (arr ++ tl) = insert_down h key arr ++ tl /\ length (insert_down h key arr) = length arr).
  { induction h as [|h IH]; intros key arr tl Hh; cbn [insert_down]; [by rewrite insert_app_l, length_insert|].
    unfold event_at at 1 2. rewrite lookup_app_l by lia. unfold event_at. destruct (_ <? _)%nat; rewrite insert_app_l by lia; [|by rewrite length_insert].
    destruct (IH key (<[S h := default event0 (arr !! h)]> arr) tl) as [-> ->]; [rewrite length_insert; lia|by rewrite length_insert]. }
  induction k as [|k IH]; intros i arr tl Hi; cbn [sort_rounds]; [done|]. unfold event_at at 1. rewrite lookup_app_l by lia.
  destruct (Hd i (default event0 (arr !! i)) arr tl ltac:(lia)) as [-> Hlen]. apply IH. unfold event_at. rewrite Hlen. lia.
Qed.

(** ** What a dispatch delivers *)

Section Delivery.
Context {W : Type} (handle : Z -> gui_event -> Z -> M (gui_event_bus * W) unit).

(** Calls that leave the subscriptions and the array of the dispatch alone; posting
    and stopping the propagation are such. *)
Definition settled (b b' : gui_event_bus) : Prop :=
  bus_subs b' = bus_subs b /\ bus_pending b' = bus_pending b /\ bus_pending_count b' = bus_pending_count b.
Definition quiet : Prop := forall h e u (s s' : gui_event_bus * W) r, handle h e u s = Some (r, s') -> settled s.1 s'.1.

(** An event is offered to the subscribers in the order of their slots, until one
    stops it. *)
Fixpoint offer (subs : list subscriber) (e : gui_event) (n : Z) : M (gui_event_bus * W) Z :=
  match subs with
  | [] => mret_ n
  | s :: subs =>
      if matches s e then
        handle (sub_handler s) e (sub_userdata s) ;;;
        stop <-- the_bus bus_stop ;;
        if stop then mret_ (u32 (n + 1)) else offer subs e (u32 (n + 1))
      else offer subs e n
  end.
Fixpoint offer_all (subs : list subscriber) (es : list gui_event) (n : Z) : M (gui_event_bus * W) Z :=
  match es with
  | [] => mret_ n
  | e :: es => in_bus (with_stop false) ;;; n <-- offer subs e n ;; offer_all subs es n
  end.

Hypothesis Hquiet : quiet.

Lemma settled_trans a b c : settled a b -> settled b c -> settled a c.
Proof. intros (H1 & H2 & H3) (H4 & H5 & H6). unfold settled. by rewrite H4, H5, H6. Qed.

Lemma offer_settled subs e n (s s' : gui_event_bus * W) m : offer subs e n s = Some (m, s') -> settled s.1 s'.1.
Proof.
  revert n s. induction subs as [|x subs IH]; intros n s; cbn [offer]; [by intros [= _ <-]|]. destruct (matches x e); [|apply IH].
  intros H. minv H as r s1 E. apply Hquiet in E. minv H as stop s2 E2. injection E2 as <- <-. destruct (bus_stop s1.1); [by injection H as _ <-|].
  eapply settled_trans; [exact E|by eapply IH].
Qed.

Lemma deliver_offer subs e k si ei n (s : gui_event_bus * W) : bus_subs s.1 = subs -> event_at (bus_pending s.1) ei = e -> (si + k = length subs)%nat ->
  deliver handle k si ei n s = offer (drop si subs) e n s.
Proof.
  revert si n s. induction k as [|k IH]; intros si n s Hs He Hk; cbn [deliver].
  - by rewrite drop_ge by lia.
  - destruct (lookup_lt_is_Some_2 subs si ltac:(lia)) as [x Ex]. rewrite (drop_S _ _ _ Ex). cbn [offer]. unfold mbind_ at 1 2, the_bus, mgets.
    rewrite Hs, Ex, He. cbn [default from_option]. unfold id. destruct (matches x e); cbn [negb]; [|apply IH; (done || lia)].
    unfold mbind_. destruct (handle _ _ _ s) as [[r s1]|] eqn:Eh; [|done]. apply Hquiet in Eh as (Q1 & Q2 & _). destruct (bus_stop s1.1); [done|].
    apply IH; [by rewrite Q1|by rewrite Q2|lia].
Qed.

Lemma deliver_all_offer subs es k ei n (s : gui_event_bus * W) : bus_subs s.1 = subs -> length subs = MAX_SUBSCRIBERS ->
  (forall i e, es !! i = Some e -> event_at (bus_pending s.1) (ei + i) = e) -> bus_pending_count s.1 = (ei + length es)%nat -> (length es <= k)%nat ->
  deliver_all handle k ei n s = offer_all subs es n s.
Proof.
  revert es ei n s. induction k as [|k IH]; intros es ei n s Hs Hl He Hc Hk; cbn [deliver_all].
  - by destruct es; [|cbn in Hk; lia].
  - unfold mbind_ at 1, the_bus, mgets. rewrite Hc. destruct es as [|e es]; [by rewrite (proj2 (Nat.ltb_ge _ _)) by (cbn; lia)|].
    rewrite (proj2 (Nat.ltb_lt _ _)) by (cbn; lia). cbn [offer_all]. unfold mbind_ at 1 3, in_bus, mmodify. set (s1 := (with_stop false s.1, s.2)).
    assert (E0 : event_at (bus_pending s1.1) ei = e) by (cbn; rewrite <- (Nat.add_0_r ei); by apply He).
    unfold mbind_. rewrite (deliver_offer subs e) by (done || cbn; lia). rewrite drop_0. destruct (offer subs e n s1) as [[m s2]|] eqn:Eo; [|done].
    apply offer_settled in Eo as (Q1 & Q2 & Q3). apply IH; [by rewrite Q1|done| |rewrite Q3; cbn [s1 fst with_stop bus_pending_count]; rewrite Hc; cbn; lia|cbn in Hk; lia].
    intros i e' E. rewrite Q2. cbn [s1 fst with_stop bus_pending]. replace (S ei + i)%nat with (ei + S i)%nat by lia. by apply He.
Qed.

Lemma drained b : ring_ok b -> let b1 := drain RING_CAPACITY (with_pending (bus_pending b) 0 b) in
  ring_ok b1 /\ queue b1 = [] /\ same_subs b b1 /\ bus_pending_count b1 = length (queue b) /\ take (bus_pending_count b1) (bus_pending b1) = queue b.
Proof.
  intros Hok. assert (Hok0 : ring_ok (with_pending (bus_pending b) 0 b)) by by destruct Hok.
  destruct (drain_spec RING_CAPACITY _ Hok0 (rk_count _ Hok) (rk_count _ Hok)) as (R & Q & S & P & T). rewrite length_queue. by split_and!.
Qed.

Lemma dispatch_eq b w : event_bus_dispatch handle (b, w) =
  (fun b1 => if (bus_pending_count b1 =? 0)%nat then Some (0, (b1, w)) else
     deliver_all handle RING_CAPACITY 0 0 (with_pending (sort_pending (bus_pending b1) (bus_pending_count b1)) (bus_pending_count b1) b1, w))
  (drain RING_CAPACITY (with_pending (bus_pending b) 0 b)).
Proof.
  unfold event_bus_dispatch. generalize (deliver_all handle RING_CAPACITY 0 0). generalize (drain RING_CAPACITY). intros d f.
  unfold mbind_, in_bus, the_bus, mmodify, mgets. cbn [fst snd]. by destruct (bus_pending_count _ =? 0)%nat.
Qed.

(** A dispatch with handlers that leave the subscriptions alone offers every
    event that was waiting, by priority and in the order of posting, to the matching
    subscribers in the order of their slots until one stops it; the ring it leaves
    holds only what the handlers post. *)
Theorem dispatch_offers_by_priority b w : ring_ok b -> length (bus_subs b) = MAX_SUBSCRIBERS ->
  exists b1, ring_ok b1 /\ queue b1 = [] /\ same_subs b b1
    /\ event_bus_dispatch handle (b, w) = offer_all (bus_subs b) (by_priority (queue b)) 0 (b1, w).
Proof.
  intros Hok Hl. rewrite dispatch_eq. destruct (drained b Hok) as (R & Q & S & P & T). revert R Q S P T.
  generalize (drain RING_CAPACITY (with_pending (bus_pending b) 0 b)). intros b1 R Q S P T. cbv beta.
  destruct (Nat.eqb_spec (bus_pending_count b1) 0) as [E|E].
  - exists b1. split_and!; try done. rewrite E in P. symmetry in P. apply nil_length_inv in P. by rewrite P.
  - set (b2 := with_pending (sort_pending (bus_pending b1) (bus_pending_count b1)) (bus_pending_count b1) b1). exists b2.
    assert (Hp : bus_pending b1 = queue b ++ drop (bus_pending_count b1) (bus_pending b1)) by (rewrite <- T; by rewrite take_drop).
    assert (Hs : bus_pending b2 = by_priority (queue b) ++ drop (bus_pending_count b1) (bus_pending b1)).
    { cbn [b2 with_pending bus_pending]. rewrite Hp at 1. generalize (drop (bus_pending_count b1) (bus_pending b1)). intros rest. rewrite P. apply sort_pending_stable. }
    split_and!; [|done|done|].
    + destruct R as [R1 R2 R3 R4 R5]. constructor; try done. rewrite Hs, length_app, length_by_priority, <- length_app. by rewrite <- Hp.
    + apply deliver_all_offer; cbn [fst].
      * by destruct S.
      * done.
      * intros i e Ei. unfold event_at. rewrite Hs, Nat.add_0_l, lookup_app_l by (by eapply lookup_lt_Some). by rewrite Ei.
      * cbn [b2 with_pending bus_pending_count]. by rewrite length_by_priority.
      * rewrite length_by_priority, length_queue. apply Hok.
Qed.
End Delivery.

(** ** A bus with three subscribers *)

(** A handler that notes its calls; the one at address 3 stops the event. *)
Definition note (h : Z) (e : gui_event) (u : Z) : M (gui_event_bus * list (Z * gui_event_type_t)) unit :=
  mmodify (fun s => (if h =? 3 then event_stop_propagation s.1 else s.1, s.2 ++ [(h, ev_type e)])).
Definition bus_demo : gui_event_bus :=
  let b := event_bus_create in
  let b := (event_bus_subscribe GUI_EVENT_KEY_DOWN 2 0 b).2 in
  let b := (event_bus_subscribe GUI_EVENT_NONE 3 0 b).2 in
  let b := (event_bus_subscribe GUI_EVENT_NODE_DIRTY 4 0 b).2 in
  event_post_key 30 true (event_post_node_dirty 7 (event_post_mouse_move 5 6 1 1 b)).

Lemma ring_ok_create : ring_ok event_bus_create.
Proof. constructor; cbn [event_bus_create bus_ring bus_pending bus_tail bus_count bus_head]; rewrite ?length_replicate; unfold RING_CAPACITY; (done || lia). Qed.
Lemma ring_ok_subscribe t h u b : ring_ok b -> ring_ok (event_bus_subscribe t h u b).2.
Proof. intros []. unfold event_bus_subscribe. destruct (h =? 0); [by constructor|]. destruct (_ <=? _)%nat; [by constructor|]. destruct (free_slot _); by constructor. Qed.

Lemma bus_demo_ok : ring_ok bus_demo.
Proof. unfold bus_demo. repeat (apply (fun e b H => proj1 (post_appends e b H))). repeat apply ring_ok_subscribe. apply ring_ok_create. Qed.

Example dispatch_in_order :
  exists b', event_bus_dispatch note (bus_demo, []) =
    Some (4, (b', [(3, GUI_EVENT_MOUSE_MOVE); (2, GUI_EVENT_KEY_DOWN); (3, GUI_EVENT_KEY_DOWN); (3, GUI_EVENT_NODE_DIRTY)])).
Proof.
  destruct (dispatch_offers_by_priority note) with (b := bus_demo) (w := @nil (Z * gui_event_type_t)) as (b1 & _ & _ & _ & E).
  - intros h e u [b l] [b' l'] r [= _ <- _]. destruct (h =? 3); by split_and!.
  - exact bus_demo_ok.
  - by vm_compute.
  - rewrite E. eexists. vm_compute. reflexivity.
Defined.

(** ** Subscriptions as a map *)

Definition listener : Type := gui_event_type_t * Z * Z.
Definition entry (s : subscriber) : Z * listener := (sub_id s, (sub_filter s, sub_handler s, sub_userdata s)).
Definition active_subs (subs : list subscriber) : list subscriber := filter (fun s => sub_active s = true) subs.
Definition entries (subs : list subscriber) : list (Z * listener) := map entry (active_subs subs).
(** Who listens, by subscription. *)
Definition listening (b : gui_event_bus) : gmap Z listener := list_to_map (entries (bus_subs b)).

Record subs_ok (b : gui_event_bus) : Prop := {
  so_slots : length (bus_subs b) = MAX_SUBSCRIBERS;
  so_count : bus_sub_count b = length (active_subs (bus_subs b));
  so_ids : NoDup (map fst (entries (bus_subs b)));
  so_next : 1 <= bus_next_sub_id b;
  so_old : Forall (fun x => 1 <= x.1 < bus_next_sub_id b) (entries (bus_subs b))
}.

Lemma free_slot_spec subs :
  match free_slot subs with
  | Some i => exists l1 x l2, subs = l1 ++ x :: l2 /\ length l1 = i /\ sub_active x = false
  | None => active_subs subs = subs
  end.
Proof.
  induction subs as [|s subs IH]; cbn [free_slot]; [done|]. destruct (sub_active s) eqn:E; cbn [negb].
  - destruct (free_slot subs) as [i|]; cbn [fmap option_fmap option_map].
    + destruct IH as (l1 & x & l2 & -> & <- & Hx). by exists (s :: l1), x, l2.
    + unfold active_subs in *. by rewrite filter_cons_True, IH.
  - by exists [], s, subs.
Qed.
Lemma find_sub_spec id subs :
  match find_sub id subs with
  | Some i => exists l1 x l2, subs = l1 ++ x :: l2 /\ length l1 = i /\ sub_active x = true /\ sub_id x = id
  | None => id ∉ map fst (entries subs)
  end.
Proof.
  induction subs as [|s subs IH]; cbn [find_sub]; [by apply not_elem_of_nil|]. destruct (sub_active s) eqn:E; cbn [andb].
  - destruct (Z.eqb_spec (sub_id s) id) as [He|He]; [by exists [], s, subs|]. destruct (find_sub id subs) as [i|]; cbn [fmap option_fmap option_map].
    + destruct IH as (l1 & x & l2 & -> & <- & Hx). by exists (s :: l1), x, l2.
    + unfold entries, active_subs in *. rewrite filter_cons_True by done. cbn [map fst]. by apply not_elem_of_cons.
  - destruct (find_sub id subs) as [i|]; cbn [fmap option_fmap option_map].
    + destruct IH as (l1 & x & l2 & -> & <- & Hx). by exists (s :: l1), x, l2.
    + unfold entries, active_subs in *. by rewrite filter_cons_False by (by rewrite E).
Qed.

Lemma entries_middle l1 x l2 : entries (l1 ++ x :: l2) = entries l1 ++ (if sub_active x then [entry x] else []) ++ entries l2.
Proof.
  unfold entries, active_subs. rewrite filter_app, map_app. f_equal. destruct (sub_active x) eqn:E; [by rewrite filter_cons_True|by rewrite filter_cons_False by (by rewrite E)].
Qed.
Lemma length_active l : length (active_subs l) = length (entries l).
Proof. unfold entries. by rewrite length_map. Qed.
Lemma insert_middle {A} (l1 l2 : list A) x y : <[length l1 := y]> (l1 ++ x :: l2) = l1 ++ y :: l2.
Proof. replace (length l1) with (length l1 + 0)%nat by lia. by rewrite insert_app_r. Qed.
Lemma alter_middle {A} (f : A -> A) (l1 l2 : list A) x : alter f (length l1) (l1 ++ x :: l2) = l1 ++ f x :: l2.
Proof. replace (length l1) with (length l1 + 0)%nat by lia. by rewrite alter_app_r. Qed.


Lemma entries_insert l1 s l2 : sub_active s = true -> entries (l1 ++ s :: l2) ≡ₚ entry s :: entries (l1 ++ deactivate s :: l2).
Proof. intros Hs. rewrite !entries_middle, Hs. cbn [deactivate sub_active app]. by rewrite Permutation_middle. Qed.
Lemma entries_off l1 x x' l2 : sub_active x = false -> sub_active x' = false -> entries (l1 ++ x :: l2) = entries (l1 ++ x' :: l2).
Proof. intros Hx Hx'. by rewrite !entries_middle, Hx, Hx'. Qed.

Lemma map_of_perm (l l' : list (Z * listener)) : l ≡ₚ l' -> NoDup (map fst l') -> list_to_map (M := gmap Z listener) l = list_to_map l'.
Proof. intros Hp Hd. apply list_to_map_proper; [|done]. change (NoDup (map fst l)). by rewrite Hp. Qed.

Lemma size_listening b : subs_ok b -> size (listening b) = bus_sub_count b.
Proof. intros H. unfold listening. rewrite map_size_list_to_map by apply H. by rewrite (so_count _ H), length_active. Qed.

(** A subscription takes a new number, unless the handler is null or 64 are active. *)
Lemma subscribe_spec t h u b : subs_ok b -> bus_next_sub_id b < 2 ^ 32 - 1 ->
  let b' := (event_bus_subscribe t h u b).2 in subs_ok b' /\ queue b' = queue b
  /\ if ((h =? 0) || (MAX_SUBSCRIBERS <=? size (listening b))%nat)%bool then event_bus_subscribe t h u b = (0, b)
     else (event_bus_subscribe t h u b).1 = bus_next_sub_id b /\ listening b !! bus_next_sub_id b = None
          /\ listening b' = <[bus_next_sub_id b := (t, h, u)]> (listening b) /\ bus_next_sub_id b' = bus_next_sub_id b + 1.
Proof.
  intros Hok Hn b'. unfold b'. rewrite (size_listening _ Hok). pose proof Hok as [H1 H2 H3 H0 H4].
  unfold event_bus_subscribe. destruct (h =? 0); cbn [orb]; [done|]. destruct (Nat.leb_spec MAX_SUBSCRIBERS (bus_sub_count b)) as [|Hlt]; [done|].
  pose proof (free_slot_spec (bus_subs b)) as Hf. destruct (free_slot (bus_subs b)) as [i|]; [|rewrite Hf in H2; lia].
  destruct Hf as (l1 & x & l2 & El & <- & Hx). set (s := {| sub_id := _ |}). assert (Hnew : bus_next_sub_id b ∉ map fst (entries (bus_subs b))).
  { intros (y & Ey & Hy)%list_elem_of_In%in_map_iff. rewrite Forall_forall in H4. specialize (H4 y). rewrite list_elem_of_In in H4. specialize (H4 Hy). lia. }
  assert (Hp : entries (l1 ++ s :: l2) ≡ₚ entry s :: entries (bus_subs b)) by (rewrite entries_insert by done; by rewrite El, (entries_off l1 x (deactivate s))).
  assert (Hd : NoDup (map fst (entry s :: entries (bus_subs b)))) by (cbn [map fst entry]; by constructor).
  assert (Hu : u32 (bus_next_sub_id b + 1) = bus_next_sub_id b + 1) by (apply u32_small; lia).
  assert (Hset : <[length l1 := s]> (bus_subs b) = l1 ++ s :: l2) by (rewrite El; apply insert_middle). cbn [fst snd]. split_and!; [|done|done| | |done].
  - constructor; cbn [with_subs bus_subs bus_sub_count bus_next_sub_id]; rewrite ?Hset, ?Hu.
    + rewrite <- H1, El, !length_app. done.
    + rewrite length_active, Hp. cbn [length]. by rewrite H2, length_active.
    + by rewrite Hp.
    + lia.
    + rewrite Hp. constructor; [cbn; lia|]. eapply Forall_impl; [exact H4|]. cbn. lia.
  - unfold listening. by apply not_elem_of_list_to_map_1.
  - unfold listening. cbn [with_subs bus_subs]. rewrite Hset. by rewrite (map_of_perm _ _ Hp Hd).
Qed.

Lemma unsubscribe_spec id b : subs_ok b ->
  let b' := event_bus_unsubscribe id b in subs_ok b' /\ queue b' = queue b /\ bus_next_sub_id b' = bus_next_sub_id b /\ listening b' = delete id (listening b).
Proof.
  intros Hok b'. unfold b', event_bus_unsubscribe. pose proof Hok as [H1 H2 H3 H0 H4]. assert (Hout : id ∉ map fst (entries (bus_subs b)) -> delete id (listening b) = listening b).
  { intros H. apply delete_id. unfold listening. by apply not_elem_of_list_to_map_1. }
  destruct (Z.eqb_spec id 0) as [->|Hid].
  { split_and!; try done. symmetry. apply Hout. intros (y & Ey & Hy)%list_elem_of_In%in_map_iff. rewrite Forall_forall in H4. specialize (H4 y). rewrite list_elem_of_In in H4. specialize (H4 Hy). lia. }
  pose proof (find_sub_spec id (bus_subs b)) as Hf. destruct (find_sub id (bus_subs b)) as [i|]; [|split_and!; try done; by rewrite Hout].
  destruct Hf as (l1 & x & l2 & El & <- & Hx & <-). assert (Hp : entries (bus_subs b) ≡ₚ entry x :: entries (l1 ++ deactivate x :: l2)) by (rewrite El; by apply entries_insert).
  assert (Hset : alter deactivate (length l1) (bus_subs b) = l1 ++ deactivate x :: l2) by (rewrite El; apply alter_middle).
  rewrite Hp in H3, H4. cbn [map fst entry] in H3. apply NoDup_cons in H3 as [Hn H3]. inversion_clear H4 as [|? ? _ H4'].
  rewrite length_active, Hp in H2. cbn [length] in H2. split_and!; [|done|done|].
  - constructor; cbn [with_subs bus_subs bus_sub_count bus_next_sub_id]; rewrite ?Hset; try done; [|rewrite length_active; lia].
    rewrite <- H1, El, !length_app. done.
  - unfold listening. cbn [with_subs bus_subs]. rewrite Hset. rewrite (map_of_perm _ _ Hp) by (cbn [map fst entry]; by constructor). cbn [list_to_map foldr entry fst snd uncurry].
    symmetry. apply delete_insert_id. by apply not_elem_of_list_to_map_1.
Qed.

Lemma post_listening e b : subs_ok b -> subs_ok (post e b) /\ listening (post e b) = listening b /\ bus_next_sub_id (post e b) = bus_next_sub_id b.
Proof. intros []. unfold post, event_bus_post. destruct (_ <=? _)%nat; (split; [by constructor|done]). Qed.

(** What the bus promises: a map of listeners by number, at most 64, and a queue of at
    most 256 events. *)
Record bus_spec := { sp_listeners : gmap Z listener; sp_next : Z; sp_queue : list gui_event }.
Inductive bus_call := Subscribe (t : gui_event_type_t) (h u : Z) | Unsubscribe (id : Z) | Post (e : gui_event).
Definition bus_do (c : bus_call) (b : gui_event_bus) : gui_event_bus :=
  match c with Subscribe t h u => (event_bus_subscribe t h u b).2 | Unsubscribe id => event_bus_unsubscribe id b | Post e => post e b end.
Definition spec_do (c : bus_call) (a : bus_spec) : bus_spec :=
  match c with
  | Subscribe t h u =>
      if ((h =? 0) || (MAX_SUBSCRIBERS <=? size (sp_listeners a))%nat)%bool then a
      else {| sp_listeners := <[sp_next a := (t, h, u)]> (sp_listeners a); sp_next := sp_next a + 1; sp_queue := sp_queue a |}
  | Unsubscribe id => {| sp_listeners := delete id (sp_listeners a); sp_next := sp_next a; sp_queue := sp_queue a |}
  | Post e => {| sp_listeners := sp_listeners a; sp_next := sp_next a; sp_queue := if (length (sp_queue a) <? RING_CAPACITY)%nat then sp_queue a ++ [e] else sp_queue a |}
  end.
Definition spec_start : bus_spec := {| sp_listeners := ∅; sp_next := 1; sp_queue := [] |}.
Definition abstract (b : gui_event_bus) : bus_spec := {| sp_listeners := listening b; sp_next := bus_next_sub_id b; sp_queue := queue b |}.

Lemma subs_ok_create : subs_ok event_bus_create.
Proof.
  assert (E : forall n, active_subs (replicate n no_subscriber) = []) by (induction n; [done|]; unfold active_subs in *; cbn [replicate]; by rewrite filter_cons_False).
  constructor; cbn [event_bus_create bus_subs bus_sub_count bus_next_sub_id]; rewrite ?length_replicate; unfold entries; rewrite ?E; (done || constructor || lia).
Qed.

(** C19: in every run of fewer than 2^32 - 2 calls the bus implements its promise:
    subscriptions are entries of a map under numbers never given before, and the
    ring is the queue of the events posted while there was room. *)
Theorem event_bus_refines calls : Z.of_nat (length calls) < 2 ^ 32 - 2 ->
  abstract (foldl (fun b c => bus_do c b) event_bus_create calls) = foldl (fun a c => spec_do c a) spec_start calls.
Proof.
  intros Hl. enough (H : forall b a, ring_ok b -> subs_ok b -> bus_next_sub_id b + Z.of_nat (length calls) < 2 ^ 32 - 1 -> abstract b = a ->
    abstract (foldl (fun b c => bus_do c b) b calls) = foldl (fun a c => spec_do c a) a calls).
  { apply H; [apply ring_ok_create|apply subs_ok_create|cbn; lia|]. unfold abstract, spec_start, listening, entries. f_equal. }
  clear Hl. induction calls as [|c calls IH]; intros b a Hr Hs Hn Ha; cbn [foldl]; [done|]. cbn [length] in Hn. subst a.
  destruct c as [t h u|id|e]; cbn [bus_do].
  - destruct (subscribe_spec t h u b Hs ltac:(lia)) as (Hs' & Hq & Hc). apply IH; [by apply ring_ok_subscribe|done| |].
    + destruct (_ || _)%bool; [rewrite Hc; cbn [snd]; lia|destruct Hc as (_ & _ & _ & ->); lia].
    + cbn [spec_do]. unfold abstract at 2 3. cbn [sp_listeners]. destruct (_ || _)%bool; [by rewrite Hc|]. destruct Hc as (_ & _ & Hm & Hx). unfold abstract. cbn [sp_listeners sp_next sp_queue]. by rewrite Hq, Hm, Hx.
  - destruct (unsubscribe_spec id b Hs) as (Hs' & Hq & Hx & Hm). apply IH; [|done|rewrite Hx; lia|].
    + destruct Hr. unfold event_bus_unsubscribe. destruct (id =? 0); [by constructor|]. destruct (find_sub _ _); by constructor.
    + unfold abstract. cbn [spec_do sp_listeners sp_next sp_queue]. by rewrite Hq, Hm, Hx.
  - destruct (post_listening e b Hs) as (Hs' & Hm & Hx). destruct (post_appends e b Hr) as [Hr' Hq]. apply IH; [done|done|rewrite Hx; lia|].
    unfold abstract. cbn [spec_do sp_listeners sp_next sp_queue]. by rewrite Hq, Hm, Hx.
Qed.

Lemma event_bus_refines_witness :
  let b := foldl (fun b c => bus_do c b) event_bus_create [Subscribe GUI_EVENT_KEY_DOWN 5 0; Subscribe GUI_EVENT_NONE 6 0; Unsubscribe 1; Post event0] in
  listening b = {[2 := (GUI_EVENT_NONE, 6, 0)]} /\ queue b = [event0].
Proof.
  pose proof (event_bus_refines [Subscribe GUI_EVENT_KEY_DOWN 5 0; Subscribe GUI_EVENT_NONE 6 0; Unsubscribe 1; Post event0] eq_refl) as H. split.
  - apply (f_equal sp_listeners) in H. cbn [abstract sp_listeners] in H. rewrite H. vm_compute. reflexivity.
  - apply (f_equal sp_queue) in H. cbn [abstract sp_queue] in H. rewrite H. vm_compute. reflexivity.
Defined.
