(* ===== verification/InputManager.v ===== *)
(** * The input manager ([gui/input/input_manager.c])

    Once per frame [input_manager_poll] reads the keyboard and the mouse, compares
    them with the previous frame and posts the differences to the event bus.  The
    drivers are those of [Keyboard] and [Mouse]. *)

From Stdlib Require Import ZArith Lia String.
From stdpp Require Import base numbers list gmap.
From S2P Require Import Prelude Bytes Keyboard Mouse EventBus.

(** ** The code *)

Definition SCANCODE_MAX : nat := 128.
Definition MOD_SHIFT : Z := 1.
Definition MOD_CTRL : Z := 2.
Definition MOD_ALT : Z := 4.
Definition MOD_SUPER : Z := 8.

Record input_manager := {
  prev_mx : Z; prev_my : Z; prev_btn : list bool; prev_keys : list bool;
  cur_mx : Z; cur_my : Z; cur_btn : list bool; cur_keys : list bool;
  modifiers : Z
}.
Definition input_manager_create : input_manager :=
  {| prev_mx := 0; prev_my := 0; prev_btn := replicate 4 false; prev_keys := replicate SCANCODE_MAX false;
     cur_mx := 0; cur_my := 0; cur_btn := replicate 4 false; cur_keys := replicate SCANCODE_MAX false; modifiers := 0 |}.

Definition flag (l : list bool) (i : Z) : bool := default false (l !! Z.to_nat i).
Definition compute_modifiers (keys : list bool) : Z :=
  let m := if (flag keys 0x2A || flag keys 0x36)%bool then Z.lor 0 MOD_SHIFT else 0 in
  let m := if flag keys 0x1D then Z.lor m MOD_CTRL else m in
  let m := if flag keys 0x38 then Z.lor m MOD_ALT else m in
  if flag keys 0x5B then Z.lor m MOD_SUPER else m.

(** The scan codes of the loops, 1 to 127. *)
Definition scancodes : list Z := seqZ 1 127.

(** The first half of [input_manager_poll]: the new state. *)
Definition poll_state (k : kbd) (m : mouse) (im : input_manager) : input_manager :=
  let btn := <[1%nat := (left_clicked m || keyboard_is_pressed k 0x1D)%bool]> (cur_btn im) in
  let btn := <[2%nat := right_clicked m]> btn in
  let btn := <[3%nat := false]> btn in
  let keys := foldl (fun l sc => <[Z.to_nat sc := keyboard_is_pressed k sc]> l) (cur_keys im) scancodes in
  {| prev_mx := cur_mx im; prev_my := cur_my im; prev_btn := cur_btn im; prev_keys := cur_keys im;
     cur_mx := mouse_x m; cur_my := mouse_y m; cur_btn := btn; cur_keys := keys; modifiers := compute_modifiers keys |}.

(** Post a press or a release when the state changed. *)
Definition post_edge (f : bool -> gui_event_bus -> gui_event_bus) (cur prev : bool) (b : gui_event_bus) : gui_event_bus :=
  if (cur && negb prev)%bool then f true b else if (negb cur && prev)%bool then f false b else b.
Definition post_move (im : input_manager) (b : gui_event_bus) : gui_event_bus :=
  let dx := s32 (cur_mx im - prev_mx im) in
  let dy := s32 (cur_my im - prev_my im) in
  if (negb (dx =? 0) || negb (dy =? 0))%bool then event_post_mouse_move (cur_mx im) (cur_my im) dx dy b else b.
Definition post_buttons (im : input_manager) (b : gui_event_bus) : gui_event_bus :=
  foldl (fun b btn => post_edge (event_post_mouse_button (cur_mx im) (cur_my im) btn) (flag (cur_btn im) btn) (flag (prev_btn im) btn) b) b [1; 2; 3].
Definition post_keys (im : input_manager) (b : gui_event_bus) : gui_event_bus :=
  foldl (fun b sc => post_edge (event_post_key sc) (flag (cur_keys im) sc) (flag (prev_keys im) sc) b) b scancodes.

(** [char] is signed. *)
Definition schar (c : Z) : Z := if c <? 128 then c else c - 256.
Definition char_event (mods c : Z) : gui_event := high GUI_EVENT_KEY_CHAR (Key 0 c c mods).
Definition skipped (c : Z) : bool := ((schar c <? 32) && negb (c =? 10) && negb (c =? 8) && negb (c =? 9))%bool.
(** [while (keyboard_pop_char(&ch))]: the queue holds fewer than 256 characters. *)
Fixpoint post_chars (fuel : nat) (mods : Z) (k : kbd) (b : gui_event_bus) : kbd * gui_event_bus :=
  match fuel with
  | O => (k, b)
  | S n =>
      match keyboard_pop_char k with
      | (Some c, k) => post_chars n mods k (if skipped c then b else post (char_event mods c) b)
      | (None, _) => (k, b)
      end
  end.

Definition input_manager_poll (k : kbd) (m : mouse) (im : input_manager) (b : gui_event_bus) : input_manager * kbd * gui_event_bus :=
  let im := poll_state k m im in
  let r := post_chars 256 (modifiers im) k (post_keys im (post_buttons im (post_move im b))) in
  (im, r.1, r.2).

Definition input_mouse_x (im : input_manager) : Z := cur_mx im.
Definition input_mouse_y (im : input_manager) : Z := cur_my im.
Definition input_mouse_button (im : input_manager) (b : Z) : bool := if b <=? 3 then flag (cur_btn im) b else false.
Definition input_key_held (im : input_manager) (sc : Z) : bool := if sc <? 128 then flag (cur_keys im) sc else false.
Definition input_modifiers (im : input_manager) : Z := modifiers im.

(** ** The events of a poll *)

Definition edge (f : bool -> gui_event) (cur prev : bool) : list gui_event :=
  if (cur && negb prev)%bool then [f true] else if (negb cur && prev)%bool then [f false] else [].
Definition move_events (im : input_manager) : list gui_event :=
  let dx := s32 (cur_mx im - prev_mx im) in
  let dy := s32 (cur_my im - prev_my im) in
  if (negb (dx =? 0) || negb (dy =? 0))%bool then [high GUI_EVENT_MOUSE_MOVE (EventBus.Mouse (cur_mx im) (cur_my im) dx dy 0)] else [].
Definition button_event (im : input_manager) (btn : Z) (p : bool) : gui_event :=
  high (if p then GUI_EVENT_MOUSE_DOWN else GUI_EVENT_MOUSE_UP) (EventBus.Mouse (cur_mx im) (cur_my im) 0 0 btn).
Definition key_event (sc : Z) (p : bool) : gui_event := high (if p then GUI_EVENT_KEY_DOWN else GUI_EVENT_KEY_UP) (Key sc 0 0 0).
Definition button_events (im : input_manager) : list gui_event := [1; 2; 3] ≫= fun btn => edge (button_event im btn) (flag (cur_btn im) btn) (flag (prev_btn im) btn).
Definition key_events (im : input_manager) : list gui_event := scancodes ≫= fun sc => edge (key_event sc) (flag (cur_keys im) sc) (flag (prev_keys im) sc).
Definition poll_events (im : input_manager) (chars : list Z) : list gui_event :=
  move_events im ++ button_events im ++ key_events im ++ map (char_event (modifiers im)) (List.filter (fun c => negb (skipped c)) chars).

Definition posts (es : list gui_event) (b : gui_event_bus) : gui_event_bus := foldl (fun b e => post e b) b es.

Lemma posts_app es es' b : posts (es ++ es') b = posts es' (posts es b).
Proof. apply foldl_app. Qed.
Lemma post_edge_events (f : bool -> gui_event_bus -> gui_event_bus) g cur prev b : (forall p b, f p b = post (g p) b) -> post_edge f cur prev b = posts (edge g cur prev) b.
Proof. intros H. unfold post_edge, edge. destruct cur, prev; cbn; by rewrite ?H. Qed.
Lemma post_edges {A} (f : A -> bool -> gui_event_bus -> gui_event_bus) g (c p : A -> bool) l b : (forall x q b, f x q b = post (g x q) b) ->
  foldl (fun b x => post_edge (f x) (c x) (p x) b) b l = posts (l ≫= fun x => edge (g x) (c x) (p x)) b.
Proof.
  intros H. revert b. induction l as [|x l IH]; intros b; [done|]. cbn [foldl mbind list_bind]. rewrite posts_app, IH. f_equal. by apply post_edge_events.
Qed.

Lemma post_chars_events fuel mods k b : kbd_ok k -> (length (typed k) < fuel)%nat ->
  exists k', post_chars fuel mods k b = (k', posts (map (char_event mods) (List.filter (fun c => negb (skipped c)) (typed k))) b) /\ kbd_ok k' /\ typed k' = [] /\ key_state k' = key_state k.
Proof.
  revert k b. induction fuel as [|n IH]; intros k b Hok Hl; [lia|]. cbn [post_chars]. pose proof (pop_char_typed k Hok) as Hp.
  assert (Hks : key_state (keyboard_pop_char k).2 = key_state k) by (unfold keyboard_pop_char; by destruct (ring_pop _ _)).
  destruct (typed k) as [|c q] eqn:E; [rewrite Hp; by exists k|]. destruct Hp as (k1 & E1 & Hok1 & Hq). rewrite E1 in Hks |- *. cbn [snd] in Hks.
  destruct (IH k1 (if skipped c then b else post (char_event mods c) b) Hok1) as (k' & -> & Hok' & Ht & Hk); [rewrite Hq; cbn in Hl; lia|]. exists k'.
  split_and!; [|done|done|congruence]. rewrite Hq. cbn [List.filter]. by destruct (skipped c).
Qed.

Lemma length_typed k : kbd_ok k -> (length (typed k) < 256)%nat.
Proof. intros H. pose proof (length_ring_items 256 _ (ko_chars _ H)) as Hl. pose proof (Z.mod_pos_bound (wr (char_queue k) - rd (char_queue k)) 256). unfold typed. lia. Qed.

(** A poll posts the events of the changes and of the characters typed. *)
Lemma poll_posts k m im b : kbd_ok k ->
  exists k', input_manager_poll k m im b = (poll_state k m im, k', posts (poll_events (poll_state k m im) (typed k)) b) /\ kbd_ok k' /\ typed k' = [] /\ key_state k' = key_state k.
Proof.
  intros Hok. unfold input_manager_poll. set (im' := poll_state k m im).
  assert (E : post_keys im' (post_buttons im' (post_move im' b)) = posts (move_events im' ++ button_events im' ++ key_events im') b).
  { rewrite !posts_app. unfold post_keys, post_buttons. rewrite (post_edges (event_post_key) key_event) by done.
    rewrite (post_edges (event_post_mouse_button (cur_mx im') (cur_my im')) (button_event im')) by done. f_equal. f_equal. unfold post_move, move_events. by destruct (_ || _)%bool. }
  rewrite E. destruct (post_chars_events 256 (modifiers im') k (posts (move_events im' ++ button_events im' ++ key_events im') b) Hok (length_typed k Hok)) as (k' & -> & H).
  exists k'. split; [|done]. cbn [fst snd]. f_equal. unfold poll_events. rewrite !posts_app. done.
Qed.

Lemma posts_queue es b : ring_ok b -> ring_ok (posts es b) /\ queue (posts es b) = take RING_CAPACITY (queue b ++ es).
Proof.
  revert b. induction es as [|e es IH]; intros b Hok; cbn [posts foldl].
  - split; [done|]. rewrite app_nil_r. symmetry. apply take_ge. rewrite length_queue. apply Hok.
  - destruct (post_appends e b Hok) as [Hok' Hq]. destruct (IH (post e b) Hok') as [R Q]. split; [done|]. etransitivity; [exact Q|]. rewrite Hq.
    destruct (Nat.ltb_spec (length (queue b)) RING_CAPACITY) as [H|H]; [by rewrite <- app_assoc|]. rewrite !take_app_le by lia. done.
Qed.

(** ** Following the events *)

(** What an observer of the events knows: the keys and buttons that are down and the
    position of the pointer.  An event that does not fit is an error. *)
Record input_view := { v_keys : list bool; v_btn : list bool; v_x : Z; v_y : Z }.
Definition view_of (im : input_manager) : input_view := {| v_keys := cur_keys im; v_btn := cur_btn im; v_x := cur_mx im; v_y := cur_my im |}.
Definition toggle (l : list bool) (i : Z) (p : bool) : option (list bool) := if Bool.eqb (flag l i) p then None else Some (<[Z.to_nat i := p]> l).
Definition observe (v : input_view) (e : gui_event) : option input_view :=
  match ev_type e, ev_payload e with
  | GUI_EVENT_MOUSE_MOVE, EventBus.Mouse x y dx dy _ =>
      if ((dx =? s32 (x - v_x v)) && (dy =? s32 (y - v_y v)))%bool then Some {| v_keys := v_keys v; v_btn := v_btn v; v_x := x; v_y := y |} else None
  | GUI_EVENT_MOUSE_DOWN, EventBus.Mouse x y _ _ btn | GUI_EVENT_MOUSE_UP, EventBus.Mouse x y _ _ btn =>
      if ((x =? v_x v) && (y =? v_y v))%bool
      then l ← toggle (v_btn v) btn (bool_decide (ev_type e = GUI_EVENT_MOUSE_DOWN)); Some {| v_keys := v_keys v; v_btn := l; v_x := v_x v; v_y := v_y v |}
      else None
  | GUI_EVENT_KEY_DOWN, Key sc _ _ _ | GUI_EVENT_KEY_UP, Key sc _ _ _ =>
      l ← toggle (v_keys v) sc (bool_decide (ev_type e = GUI_EVENT_KEY_DOWN)); Some {| v_keys := l; v_btn := v_btn v; v_x := v_x v; v_y := v_y v |}
  | _, _ => Some v
  end.
Fixpoint observe_all (v : input_view) (es : list gui_event) : option input_view :=
  match es with [] => Some v | e :: es => v' ← observe v e; observe_all v' es end.

Lemma observe_app v es es' : observe_all v (es ++ es') = v' ← observe_all v es; observe_all v' es'.
Proof. revert v. induction es as [|e es IH]; intros v; [done|]. cbn [observe_all app]. destruct (observe v e) as [v'|]; cbn [mbind option_bind]; [apply IH|done]. Qed.

Definition set_flags (c : Z -> bool) (l : list Z) (K : list bool) : list bool := foldl (fun K i => <[Z.to_nat i := c i]> K) K l.
Definition in_range (K : list bool) (i : Z) : Prop := 0 <= i < Z.of_nat (length K).
Lemma flag_insert K i j x : in_range K i -> 0 <= j -> flag (<[Z.to_nat i := x]> K) j = if i =? j then x else flag K j.
Proof.
  unfold in_range, flag. intros Hi Hj. destruct (Z.eqb_spec i j) as [->|Hne]; [by rewrite list_lookup_insert_eq by lia|]. by rewrite list_lookup_insert_ne by lia.
Qed.
Lemma insert_flag K i : in_range K i -> <[Z.to_nat i := flag K i]> K = K.
Proof. unfold in_range, flag. intros Hi. destruct (lookup_lt_is_Some_2 K (Z.to_nat i)) as [x E]; [lia|]. rewrite E. by apply list_insert_id. Qed.
Lemma length_set_flags c l K : length (set_flags c l K) = length K.
Proof. revert K. induction l as [|i l IH]; intros K; [done|]. cbn [set_flags foldl]. fold (set_flags c l (<[Z.to_nat i := c i]> K)). by rewrite IH, length_insert. Qed.
Lemma flag_set_out c l K j : 0 <= j -> j ∉ l -> Forall (in_range K) l -> flag (set_flags c l K) j = flag K j.
Proof.
  revert K. induction l as [|i l IH]; intros K Hj Hn Hl; [done|]. apply not_elem_of_cons in Hn as [Hi Hn]. inversion_clear Hl as [|? ? H1 H2]. cbn [set_flags foldl]. fold (set_flags c l (<[Z.to_nat i := c i]> K)).
  rewrite IH; [|done|done|by eapply Forall_impl; [exact H2|]; intros x; unfold in_range; rewrite length_insert]. rewrite flag_insert by done. by rewrite (proj2 (Z.eqb_neq i j)) by done.
Qed.
Lemma flag_set_in c l K j : NoDup l -> j ∈ l -> Forall (in_range K) l -> flag (set_flags c l K) j = c j.
Proof.
  intros Hd. revert K. induction Hd as [|i l Hi Hd IH]; intros K Hj Hl; [by apply elem_of_nil in Hj|]. inversion_clear Hl as [|? ? H1 H2]. cbn [set_flags foldl]. fold (set_flags c l (<[Z.to_nat i := c i]> K)).
  assert (H2' : Forall (in_range (<[Z.to_nat i := c i]> K)) l) by (eapply Forall_impl; [exact H2|]; intros x; unfold in_range; by rewrite length_insert).
  apply elem_of_cons in Hj as [->|Hj]; [|by apply IH]. rewrite flag_set_out by (done || apply H1). rewrite flag_insert by (done || apply H1). by rewrite Z.eqb_refl.
Qed.

(** The changes of a list of flags, observed one by one. *)
Lemma observe_edges (g : Z -> bool -> gui_event) (wrap : list bool -> input_view) c p l K :
  (forall K i q, observe (wrap K) (g i q) = wrap <$> toggle K i q) -> NoDup l -> Forall (in_range K) l -> (forall i, i ∈ l -> flag K i = p i) ->
  observe_all (wrap K) (l ≫= fun i => edge (g i) (c i) (p i)) = Some (wrap (set_flags c l K)).
Proof.
  intros Hw Hd. revert K. induction Hd as [|i l Hi Hd IH]; intros K Hl Hp; [done|]. inversion_clear Hl as [|? ? H1 H2]. cbn [mbind list_bind]. rewrite observe_app.
  assert (E : observe_all (wrap K) (edge (g i) (c i) (p i)) = Some (wrap (<[Z.to_nat i := c i]> K))).
  { rewrite <- (Hp i) by by left. assert (Hsame : c i = flag K i -> wrap K = wrap (<[Z.to_nat i := c i]> K)) by (intros ->; by rewrite insert_flag).
    unfold edge. destruct (c i) eqn:Ec, (flag K i) eqn:Ek; cbn [andb negb observe_all]; rewrite ?Hw; unfold toggle; rewrite ?Ek; cbn; try done; f_equal; by apply Hsame. }
  rewrite E. cbn [mbind option_bind set_flags foldl]. apply IH; [eapply Forall_impl; [exact H2|]; intros x; unfold in_range; by rewrite length_insert|].
  intros j Hj. rewrite flag_insert; [|done|]. 2: { rewrite Forall_forall in H2. by apply (H2 j Hj). }
  destruct (Z.eqb_spec i j) as [->|]; [done|]. apply Hp. by right.
Qed.

Record im_ok (im : input_manager) : Prop := { io_keys : length (cur_keys im) = SCANCODE_MAX; io_btn : length (cur_btn im) = 4%nat; io_x : 0 <= cur_mx im < 1024; io_y : 0 <= cur_my im < 1024 }.

Lemma scancodes_ok : NoDup scancodes /\ forall K, length K = SCANCODE_MAX -> Forall (in_range K) scancodes.
Proof. split; [apply NoDup_seqZ|]. intros K HK. apply Forall_forall. intros i Hi%elem_of_seqZ. unfold in_range. rewrite HK. unfold SCANCODE_MAX. lia. Qed.
Lemma set_flags_ext c c' l K : (forall i, i ∈ l -> c i = c' i) -> set_flags c l K = set_flags c' l K.
Proof.
  revert K. induction l as [|i l IH]; intros K H; [done|]. cbn [set_flags foldl]. rewrite (H i) by by left. apply IH. intros j Hj. apply H. by right.
Qed.

Lemma poll_state_ok k m im : im_ok im -> mouse_ok m -> im_ok (poll_state k m im).
Proof.
  intros [H1 H2 H3 H4] Hm. pose proof (mo_x _ Hm). pose proof (mo_y _ Hm). constructor; cbn [poll_state cur_keys cur_btn cur_mx cur_my].
  - change (length (set_flags (keyboard_is_pressed k) scancodes (cur_keys im)) = SCANCODE_MAX). by rewrite length_set_flags.
  - by rewrite !length_insert.
  - done.
  - lia.
Qed.

Lemma observe_buttons im v : length (v_btn v) = 4%nat -> v_x v = cur_mx im -> v_y v = cur_my im -> v_btn v = prev_btn im ->
  observe_all v (button_events im) = Some {| v_keys := v_keys v; v_btn := set_flags (flag (cur_btn im)) [1; 2; 3] (v_btn v); v_x := v_x v; v_y := v_y v |}.
Proof.
  destruct v as [vk vb vx vy]. cbn [v_keys v_btn v_x v_y]. intros Hl Hx Hy Hb.
  apply (observe_edges (button_event im) (fun K => {| v_keys := vk; v_btn := K; v_x := vx; v_y := vy |})).
  - intros K i q. unfold observe, button_event. destruct q; cbn [ev_type ev_payload high v_x v_y v_btn v_keys]; rewrite Hx, Hy, !Z.eqb_refl; cbn [andb]; by destruct (toggle _ _ _).
  - change [1; 2; 3] with (seqZ 1 3). apply NoDup_seqZ.
  - unfold in_range. rewrite Hl. repeat constructor; lia.
  - intros i _. by rewrite Hb.
Qed.
Lemma observe_keys im v : length (v_keys v) = SCANCODE_MAX -> v_keys v = prev_keys im ->
  observe_all v (key_events im) = Some {| v_keys := set_flags (flag (cur_keys im)) scancodes (v_keys v); v_btn := v_btn v; v_x := v_x v; v_y := v_y v |}.
Proof.
  destruct v as [vk vb vx vy]. cbn [v_keys v_btn v_x v_y]. intros Hl Hk.
  apply (observe_edges key_event (fun K => {| v_keys := K; v_btn := vb; v_x := vx; v_y := vy |})).
  - intros K i q. unfold observe, key_event. destruct q; cbn [ev_type ev_payload high]; by destruct (toggle _ _ _).
  - apply scancodes_ok.
  - by apply scancodes_ok.
  - intros i _. by rewrite Hk.
Qed.
Lemma observe_chars v mods l : observe_all v (map (char_event mods) l) = Some v.
Proof. induction l as [|c l IH]; [done|exact IH]. Qed.

Lemma observe_move im : 0 <= cur_mx im < 1024 -> 0 <= cur_my im < 1024 -> 0 <= prev_mx im < 1024 -> 0 <= prev_my im < 1024 ->
  observe_all {| v_keys := prev_keys im; v_btn := prev_btn im; v_x := prev_mx im; v_y := prev_my im |} (move_events im)
  = Some {| v_keys := prev_keys im; v_btn := prev_btn im; v_x := cur_mx im; v_y := cur_my im |}.
Proof.
  intros H1 H2 H3 H4. unfold move_events. destruct (_ || _)%bool eqn:E.
  - cbn [observe_all observe ev_type ev_payload high v_x v_y v_keys v_btn]. by rewrite !Z.eqb_refl.
  - apply orb_false_iff in E as [Ex Ey]. zbool. unfold s32 in Ex, Ey. cbn [observe_all]. do 2 f_equal; zlia.
Qed.

(** The events of a poll lead an observer from the last state to the new one. *)
Lemma poll_observed k m im chars : im_ok im -> mouse_ok m -> observe_all (view_of im) (poll_events (poll_state k m im) chars) = Some (view_of (poll_state k m im)).
Proof.
  intros Hi Hm. pose proof (poll_state_ok k m im Hi Hm) as Hi'. set (im' := poll_state k m im) in *. destruct Hi as [H1 H2 H3 H4], Hi' as [I1 I2 I3 I4].
  unfold poll_events. rewrite observe_app. assert (E1 : view_of im = {| v_keys := prev_keys im'; v_btn := prev_btn im'; v_x := prev_mx im'; v_y := prev_my im' |}) by done.
  rewrite E1, observe_move by done. cbn [mbind option_bind]. rewrite observe_app, observe_buttons by done. cbn [mbind option_bind v_keys v_btn v_x v_y].
  rewrite observe_app, observe_keys by done. cbn [mbind option_bind v_keys v_btn v_x v_y]. rewrite observe_chars.
  assert (Ek : set_flags (flag (cur_keys im')) scancodes (prev_keys im') = cur_keys im').
  { destruct scancodes_ok as [Hd Hr]. change (cur_keys im') with (set_flags (keyboard_is_pressed k) scancodes (cur_keys im)). apply set_flags_ext.
    intros i Hin. apply flag_set_in; [done|done|by apply Hr]. }
  assert (Eb : set_flags (flag (cur_btn im')) [1; 2; 3] (prev_btn im') = cur_btn im').
  { cbn [im' poll_state cur_btn prev_btn]. by destruct (cur_btn im) as [|b0 [|b1 [|b2 [|b3 [|]]]]]. }
  by rewrite Ek, Eb.
Qed.

(** ** Every run *)

(** A frame: poll, and take the events off the bus as a dispatch does. *)
Definition frame (k : kbd) (m : mouse) (im : input_manager) (b : gui_event_bus) : list gui_event * input_manager * gui_event_bus :=
  let '(im', _, b1) := input_manager_poll k m im b in
  (queue b1, im', drain RING_CAPACITY (with_pending (bus_pending b1) 0 b1)).
Fixpoint frames (snaps : list (kbd * mouse)) (im : input_manager) (b : gui_event_bus) : list gui_event * input_manager :=
  match snaps with
  | [] => ([], im)
  | (k, m) :: snaps => let '(es, im', b') := frame k m im b in let r := frames snaps im' b' in (es ++ r.1, r.2)
  end.
(** Keyboard and mouse as the drivers leave them, with at most 125 characters typed
    since the last frame. *)
Definition snap_ok (x : kbd * mouse) : Prop := kbd_ok x.1 /\ mouse_ok x.2 /\ (length (typed x.1) <= 125)%nat.

Lemma length_edge f c p : (length (edge f c p) <= 1)%nat.
Proof. unfold edge. by destruct c, p; cbn; lia. Qed.
Lemma length_edges {A} (f : A -> bool -> gui_event) c p l : (length (l ≫= fun i => edge (f i) (c i) (p i)) <= length l)%nat.
Proof. induction l as [|i l IH]; [done|]. cbn [mbind list_bind]. rewrite length_app. pose proof (length_edge (f i) (c i) (p i)). cbn. lia. Qed.
Lemma length_poll_events im chars : (length (poll_events im chars) <= 131 + length chars)%nat.
Proof.
  unfold poll_events. rewrite !length_app, length_map. pose proof (length_edges (button_event im) (flag (cur_btn im)) (flag (prev_btn im)) [1; 2; 3]).
  pose proof (length_edges key_event (flag (cur_keys im)) (flag (prev_keys im)) scancodes). pose proof (List.filter_length_le (fun c => negb (skipped c)) chars).
  assert (length (move_events im) <= 1)%nat by (unfold move_events; destruct (_ || _)%bool; cbn; lia). unfold button_events, key_events, scancodes in *. rewrite length_seqZ in *. cbn [length] in *. lia.
Qed.

Lemma frame_spec k m im b : snap_ok (k, m) -> ring_ok b -> queue b = [] ->
  exists b', frame k m im b = (poll_events (poll_state k m im) (typed k), poll_state k m im, b') /\ ring_ok b' /\ queue b' = [].
Proof.
  intros (Hk & Hm & Hl) Hok Hq. cbn [fst snd] in *. unfold frame. destruct (poll_posts k m im b Hk) as (k' & -> & _). destruct (posts_queue (poll_events (poll_state k m im) (typed k)) b Hok) as [Hok' Hq'].
  rewrite Hq in Hq'. cbn [app] in Hq'. rewrite take_ge in Hq' by (pose proof (length_poll_events (poll_state k m im) (typed k)); unfold RING_CAPACITY; lia).
  destruct (drained _ Hok') as (R & Q & _). eexists. split; [by rewrite Hq'|]. by split.
Qed.

(** C18: in every run of frames, whatever the keyboard and the mouse do between them,
    whoever follows the events knows which keys and buttons are down and where the
    pointer is: no press comes twice, no release without its press, and no event is
    dropped while at most 125 characters are typed per frame. *)
Theorem events_track_input snaps : Forall snap_ok snaps ->
  let r := frames snaps input_manager_create event_bus_create in
  observe_all (view_of input_manager_create) r.1 = Some (view_of r.2).
Proof.
  intros Hs r. unfold r. clear r. assert (Hi : im_ok input_manager_create) by (constructor; cbn; (done || lia)).
  assert (Hq : queue event_bus_create = []) by done. revert Hi Hq. generalize ring_ok_create. generalize event_bus_create. generalize input_manager_create.
  induction Hs as [|[k m] snaps Hx _ IH]; intros im b Hb Hi Hq; cbn [frames]; [done|]. destruct (frame_spec k m im b Hx Hb Hq) as (b' & -> & Hb' & Hq').
  cbn [fst snd]. rewrite observe_app, poll_observed; [|done|by apply Hx]. cbn [mbind option_bind]. apply IH; [done| |done]. apply poll_state_ok; [done|apply Hx].
Qed.

Lemma events_track_input_witness :
  let k := type_codes true [0x1E] kbd_init in
  let r := frames [(k, mouse_handle_event 5 0 1 mouse_start); (type_codes true [0x9E] k, mouse_start)] input_manager_create event_bus_create in
  map ev_type r.1 = [GUI_EVENT_MOUSE_MOVE; GUI_EVENT_MOUSE_DOWN; GUI_EVENT_KEY_DOWN; GUI_EVENT_KEY_CHAR; GUI_EVENT_MOUSE_MOVE; GUI_EVENT_MOUSE_UP; GUI_EVENT_KEY_UP; GUI_EVENT_KEY_CHAR]
  /\ observe_all (view_of input_manager_create) r.1 = Some (view_of r.2).
Proof.
  split; [vm_compute; reflexivity|]. apply events_track_input. assert (K : forall l k, kbd_ok k -> kbd_ok (type_codes true l k)).
  { induction l as [|c l IH]; intros k Hk; [done|]. apply (IH (keyboard_handler true c k)). by apply keyboard_handler_ok. }
  assert (K1 : kbd_ok (type_codes true [0x1E] kbd_init)) by apply K, kbd_init_ok. repeat constructor; cbn [fst snd]; try apply K; try apply K1; try apply mouse_start_ok; vm_compute; (done || lia).
Defined.

(** ** From the keys to the subscribers *)

Definition is_high (e : gui_event) : Prop := ev_priority e = GUI_PRIORITY_HIGH.
Lemma by_priority_high l : Forall is_high l -> by_priority l = l.
Proof.
  intros H. unfold by_priority. assert (E : forall r, at_rank r l = if decide (1%nat = r) then l else []).
  { intros r. unfold at_rank. induction H as [|e l He _ IH]; [by destruct (decide _)|]. rewrite filter_cons, He, IH. cbn [rank]. by destruct (decide (1%nat = r)). }
  rewrite !E. cbn. by rewrite app_nil_r.
Qed.
Lemma edges_high {A} (f : A -> bool -> gui_event) c p l : (forall i q, is_high (f i q)) -> Forall is_high (l ≫= fun i => edge (f i) (c i) (p i)).
Proof.
  intros Hf. induction l as [|i l IH]; [constructor|]. cbn [mbind list_bind]. apply Forall_app. split; [|exact IH]. unfold edge. destruct (c i), (p i); cbn; by repeat constructor.
Qed.
Lemma poll_events_high im chars : Forall is_high (poll_events im chars).
Proof.
  unfold poll_events. rewrite !Forall_app. split_and!.
  - unfold move_events. destruct (_ || _)%bool; by repeat constructor.
  - by apply edges_high.
  - by apply edges_high.
  - apply Forall_forall. intros e (c & -> & _)%list_elem_of_fmap. done.
Qed.

(** The characters of the events, as a text box reads them. *)
Definition char_of_event (e : gui_event) : option Z :=
  match ev_type e, ev_payload e with GUI_EVENT_KEY_CHAR, Key _ _ u _ => Some u | _, _ => None end.
Definition chars_of (es : list gui_event) : list Z := omap char_of_event es.

Lemma chars_of_edges {A} (f : A -> bool -> gui_event) c p l : (forall i q, char_of_event (f i q) = None) -> chars_of (l ≫= fun i => edge (f i) (c i) (p i)) = [].
Proof.
  intros Hf. induction l as [|i l IH]; [done|]. cbn [mbind list_bind]. unfold chars_of in *. rewrite omap_app, IH, app_nil_r. unfold edge. destruct (c i), (p i); cbn; by rewrite ?Hf.
Qed.
Lemma chars_of_poll im chars : chars_of (poll_events im chars) = List.filter (fun c => negb (skipped c)) chars.
Proof.
  unfold poll_events, chars_of. rewrite !omap_app. fold (chars_of (button_events im)) (chars_of (key_events im)). unfold button_events, key_events.
  rewrite !chars_of_edges by (intros ? []; done). replace (omap char_of_event (move_events im)) with (@nil Z) by (unfold move_events; by destruct (_ || _)%bool).
  cbn [app]. induction (List.filter _ chars) as [|c l IH]; [done|]. cbn. by rewrite <- IH at 2.
Qed.

Definition forwarded (c : Z) : Prop := 32 <= c < 128 \/ c = 10 \/ c = 8 \/ c = 9.
Lemma forwarded_kept l : Forall forwarded l -> List.filter (fun c => negb (skipped c)) l = l.
Proof.
  induction 1 as [|c l Hc _ IH]; [done|]. cbn [List.filter]. replace (skipped c) with false; [cbn [negb]; by rewrite IH|]. symmetry. unfold skipped, schar, forwarded in *.
  destruct (Z.ltb_spec c 128); [|lia]. rewrite !andb_false_iff, !negb_false_iff, Z.ltb_ge, !Z.eqb_eq. lia.
Qed.


(** Characters behind 127, such as the accents of the layouts, are not forwarded:
    [char] is signed, so they look like control characters. *)
Theorem accents_not_forwarded c : 128 <= c < 256 -> skipped c = true.
Proof. intros H. unfold skipped, schar. rewrite (proj2 (Z.ltb_ge c 128)) by lia. rewrite (proj2 (Z.ltb_lt _ _)) by lia. by rewrite !(proj2 (Z.eqb_neq _ _)) by lia. Qed.

